(* ===== verification/_CoqProject ===== *)
-Q . S2P
Prelude.v
GoLib.v
Text.v
Store.v
Events.v
Wire.v
Models.v
Statements.v
Fields.v
FieldService.v
FieldsProps.v
FieldsRuns.v
ContactQuery.v
QueryFields.v
ContactQueryProps.v
QueryText.v
Segments.v
SegmentsProps.v
Samples.v
Relay.v
RelayProps.v
Hub.v
HubProps.v
Transfers.v
Conversation.v
ConversationLemmas.v
ConversationProps.v
Contacts.v
ContactsProps.v
Rank.v
Deals.v
DealsLemmas.v
DealsProps.v
Triggers.v
Broadcasts.v
Steps.v
StepsProps.v
AutoModels.v
Rules.v
Engine.v
EngineLemmas.v
EngineProps.v
AutoInvariants.v
ResumeProps.v
TimeTriggers.v
AutoSamples.v
Schedule.v
Placeholders.v
Messaging.v
Templating.v
TemplatingProps.v
Escapes.v
People.v
CRMContext.v
Notify.v
NotifyProps.v
TaskModels.v
Tasks.v
TasksProps.v
TaskNotices.v
TaskTypesProps.v
Assignment.v
AssignmentProps.v
ChatModels.v
Handoff.v
FlowGraph.v
ChatNodes.v
ChatRunner.v
ChatProcessor.v
ChatSteps.v
ChatLemmas.v
ChatWalk.v
ChatOnce.v
ChatProps.v
