(* ===== verification/Prelude.v ===== *)
(** * WA CRM: a verification library for its backend

    The program is a multi-tenant WhatsApp inbox and CRM: a Go server over
    PostgreSQL (through GORM) and Redis.  Customers write to an organization's
    numbers, a chatbot or a person answers, and around the messages there are
    contacts, deals, tasks, automations and notifications.  The library models
    the services under [internal/] that decide things, each as the code has it,
    and proves what each of them is there for.  Paths below are under [src/].

    ** How the parts interact

    Every service is a set of methods over one database handle.  Who calls whom:

    - a customer's message is resolved to a contact, touches the contact's
      conversation, and goes to the chatbot unless a person has the contact;
    - the chatbot walks the session's flow and may hand over: a transfer is
      created, perhaps for an agent the assignment service chooses; agents take
      transfers from a queue; transfer and conversation mirror each other;
    - every change worth knowing is written together with an event into an
      outbox table; the relay reads it and hands each event to its sinks: the
      timeline, webhooks, the browsers (hub), the automation engine;
    - the engine runs the rules an event or a clock starts: trees of actions,
      questions and waits; actions act through the services again.

    ** How programs are modelled

    [Store.v]: a method is a computation over a world of tables, clock, UUID
    supply, locks taken and a schedule of driver faults: any statement may fail,
    transactions commit or roll back, an aborted one refuses further statements.
    Theorems say "whatever fails" when they quantify over the schedule and "on a
    healthy database" when it is empty.  The query engine is the class [SqlLaws]
    ([First] is least, [Find] is complete) with the instance [sql_ref]; unique
    indexes are checked by the statements that insert.  Interleavings are
    explicit: what others commit between two statements ([PickNext]), any
    number of servers taking turns statement by statement ([TaskNotices.v]), the
    channel operations of the hub ([Hub.v]).  Integers that can overflow are
    wrapped at 64 bits, a [float64] is a dyadic rational with its rounding,
    strings are byte strings.  Printing of floats, dates and JSON texts, and
    everything outside the process, are classes with the laws that are used
    ([GoFmt], [GoJson], [FieldsEnv], [ContextEnv], [ChatEnv], [StepLib] ...).

    ** Files, by component

    - Foundations: [Prelude.v] (data, notations, tactics), [GoLib.v] (Go's
      library, 64-bit arithmetic, calendar), [Text.v] (UTF-8, [LIKE]; phone
      numbers, [phoneutil/]), [Store.v], [Models.v] ([models/]), [Statements.v]
      (shared statements, [crmevents.PublishTx]), [Samples.v], [People.v].
    - Events ([crmevents/], [activity/], [handlers/crm_events.go]): [Events.v]
      (catalog, outbox row), [Wire.v] (JSON on the stream), [Relay.v],
      [RelayProps.v], [Broadcasts.v].  Theorems: an event read back is the event
      written; a pass publishes its batch or changes nothing; the outbox drains.
    - Hub ([websocket/]): [Hub.v] a step relation, [HubProps.v] its invariants
      over all interleavings: no client misses a message silently.
    - Transfers ([transfers/]): [Transfers.v]: the queue picks the oldest, never
      steals, and conversations mirror transfers.
    - Conversations ([conversation/]): [Conversation.v] the operations,
      [ConversationLemmas.v] what each did, [ConversationProps.v]: consistency
      under all calls, the response clock, announcements.
    - Deals ([deals/]): [Rank.v] (board ranks and why the search ends),
      [Deals.v], [DealsLemmas.v], [DealsProps.v].
    - Automation ([automation/], [crmactions/config.go]): [Triggers.v],
      [Steps.v] (trees, checker, runner), [StepsProps.v] (a resumed run is the
      run), [AutoModels.v], [Rules.v], [Engine.v], [TimeTriggers.v], and
      [EngineLemmas.v], [EngineProps.v], [AutoInvariants.v], [ResumeProps.v],
      [AutoSamples.v]: rules act at most once per event, chains of reactions end,
      enabled rules can run.
    - Custom fields ([customfields/], [handlers/contact_fields*.go],
      [entityrefs/configs.go]): [Fields.v], [FieldService.v], [FieldsProps.v],
      [FieldsRuns.v]: stored values are typed, and forms round-trip.
    - Filters ([contactquery/], [segments/], [handlers/contacts_search.go]):
      [ContactQuery.v], [QueryFields.v], [ContactQueryProps.v], [QueryText.v],
      [Segments.v], [SegmentsProps.v]: a filter is data, compiles within its
      bounds, searches literally; segments never refer in a circle.
    - Templates ([templateutil/], [templating/], [messaging/], [schedule/],
      [crmcontext/]): [Placeholders.v], [Templating.v], [TemplatingProps.v]
      (refinement to a direct evaluator; termination), [Escapes.v],
      [Messaging.v], [Schedule.v], [CRMContext.v].
    - Notifications ([notify/]): [Notify.v], [NotifyProps.v].
    - Tasks ([tasks/], [handlers/jobs.go], [handlers/task_types.go]):
      [TaskModels.v], [Tasks.v], [TasksProps.v], [TaskNotices.v],
      [TaskTypesProps.v].
    - Assignment ([assignment/]): [Assignment.v], [AssignmentProps.v]: turns are
      fair.
    - Chatbot ([flowgraph/], [handlers/chatbot_graph_runner.go],
      [chatbot_crm_nodes.go], [chatbot_processor.go], [agent_transfers.go],
      [cache.go]): [ChatModels.v], [Handoff.v], [FlowGraph.v], [ChatNodes.v] (one
      executor per node type), [ChatRunner.v], [ChatProcessor.v]; the contract of
      the executors in [ChatSteps.v], frames in [ChatLemmas.v], the specification
      of a run as a walk in [ChatWalk.v], histories in [ChatOnce.v], the theorems
      in [ChatProps.v].

    ** Bounds and fuel

    Loops the code bounds are bounded by the code's constant: [run_loop] by
    [maxChatGraphIterations] (100), a template's loop by fifty elements, segments
    by [MaxNesting], chains of events by [MaxDepth], [PickNext] by its attempts.  Loops the code does not bound take
    fuel, with a theorem that some fuel is enough: [rank_fuel] (one round per
    character of the longer neighbour, plus one), [each_batch] (one per row),
    [conditionals] (one per character: a round makes the text shorter), [ProcessForLoops] (one per loop tag, for templates written from the syntax),
    [run_passes] (one per pending event), [all_pages] (one per row).

    ** Not modelled, and why

    - HTTP: routing, decoding, permissions, rendering of responses, the audit
      log ([handlers/] beyond the functions named above, [middleware/],
      [audit/]).  They decode, check and call the services modelled here.
    - Sending: the pipeline of [SendOutgoingMessage], campaigns ([worker/],
      [queue/]), the WhatsApp client ([pkg/whatsapp]) and the providers of
      language models: requests to services outside.  What the chatbot sends is
      recorded in its environment.
    - The bodies of automation actions ([crmactions/]): the engine is proved for
      any actions that keep the interface.
    - Voice calls ([calling/]): media and signalling in third-party code.
    - Reports, the timeline's union query, purges and migrations: SQL text run
      by the server.
    - [updated_at] columns, the expiry of caches, and time zones by name.
    - Letters outside ASCII are not folded by [ToLower] and [ToUpper]. *)
From Stdlib Require Export ZArith Lia Ascii String.
From stdpp Require Export base decidable gmap strings list list_numbers fin_maps sorting.

#[global] Open Scope string_scope.
#[global] Open Scope list_scope.
#[global] Open Scope Z_scope.

(** ** Basic vocabulary of the Go sources *)

(** A [uuid.UUID]; [0] is [uuid.Nil]. *)
Abbreviation uuid := N (only parsing).
Definition uuid_Nil : uuid := 0%N.

(** Instants and durations, in nanoseconds ([time.Time], [time.Duration]). *)
Abbreviation time := Z (only parsing).
Definition Second : Z := 1000000000.
Definition Minute : Z := 60 * Second.
Definition Hour : Z := 60 * Minute.

(** A finite [float64] as the dyadic rational [mant * 2 ^ expo]. *)
Record float64 := Float { f_mant : Z; f_expo : Z }.

(** Go's [any], as far as decoded JSON and the event payloads use it. *)
#[local] Unset Elimination Schemes.
Inductive any :=
| ANil
| ABool (b : bool)
| AString (s : string)
| AInt (n : Z)
| AFloat (f : float64)
| ATime (t : time)
| AList (l : list any)
| AMap (m : list (string * any)).
#[local] Set Elimination Schemes.

(** Induction with the values of a list or a map as premises. *)
Section AnyInd.
Variable P : any -> Prop.
Hypothesis at_nil : P ANil.
Hypothesis at_bool : forall b, P (ABool b).
Hypothesis at_string : forall s, P (AString s).
Hypothesis at_int : forall n, P (AInt n).
Hypothesis at_float : forall f, P (AFloat f).
Hypothesis at_time : forall t, P (ATime t).
Hypothesis at_list : forall l, Forall P l -> P (AList l).
Hypothesis at_map : forall m, Forall (fun e => P e.2) m -> P (AMap m).

Fixpoint any_ind (v : any) : P v :=
  match v with
  | ANil => at_nil
  | ABool b => at_bool b
  | AString s => at_string s
  | AInt n => at_int n
  | AFloat f => at_float f
  | ATime t => at_time t
  | AList l => at_list l ((fix go l : Forall P l :=
      match l with [] => Forall_nil_2 _ | x :: l => Forall_cons_2 _ _ _ (any_ind x) (go l) end) l)
  | AMap m => at_map m ((fix go m : Forall (fun e => P e.2) m :=
      match m with [] => Forall_nil_2 _ | x :: m => Forall_cons_2 _ _ _ (any_ind x.2) (go m) end) m)
  end.
End AnyInd.

(** ** Results *)

(** The two-valued result of a fallible Go call. *)
Inductive res (E A : Type) :=
| Ok (a : A)
| Err (e : E).
Arguments Ok {E A} a.
Arguments Err {E A} e.

Definition is_ok {E A} (r : res E A) : bool :=
  match r with Ok _ => true | Err _ => false end.

(** ** Options *)

Definition opt_eqb {A} `{EqDecision A} (x y : option A) : bool := bool_decide (x = y).

Definition is_none {A} (o : option A) : bool :=
  match o with None => true | Some _ => false end.

Definition is_some {A} (o : option A) : bool := negb (is_none o).

(** SQL comparison with a column that may be NULL: NULL compares as false. *)
Definition sql_lt (x : option Z) (y : Z) : bool :=
  match x with Some v => v <? y | None => false end.
Definition sql_le (x : option Z) (y : Z) : bool :=
  match x with Some v => v <=? y | None => false end.
Definition sql_gt (x : option Z) (y : Z) : bool :=
  match x with Some v => y <? v | None => false end.

(** [coalesce(x, d)]. *)
Definition coalesce {A} (x : option A) (d : A) : A := default d x.

(** ** Automation *)

(** Splits boolean conjunctions and disjunctions out of the hypotheses and
    turns the decision procedures of the models into propositions. *)
Ltac breflect :=
  repeat match goal with
  | H : (_ && _)%bool = true |- _ => apply andb_true_iff in H as [? ?]
  | H : (_ || _)%bool = false |- _ => apply orb_false_iff in H as [? ?]
  | H : (_ && _)%bool = false |- _ => apply andb_false_iff in H
  | H : (_ || _)%bool = true |- _ => apply orb_true_iff in H
  | H : negb _ = true |- _ => apply negb_true_iff in H
  | H : negb _ = false |- _ => apply negb_false_iff in H
  | H : bool_decide _ = true |- _ => apply bool_decide_eq_true_1 in H
  | H : bool_decide _ = false |- _ => apply bool_decide_eq_false_1 in H
  | H : (_ <? _) = true |- _ => apply Z.ltb_lt in H
  | H : (_ <? _) = false |- _ => apply Z.ltb_ge in H
  | H : (_ <=? _) = true |- _ => apply Z.leb_le in H
  | H : (_ <=? _) = false |- _ => apply Z.leb_gt in H
  | H : (_ =? _) = true |- _ => apply Z.eqb_eq in H
  | H : (_ =? _) = false |- _ => apply Z.eqb_neq in H
  end.

(** Case analysis on the scrutinee of a [match] or [if] of the goal. *)
Ltac dmatch :=
  match goal with
  | |- context [match ?x with _ => _ end] =>
      lazymatch x with context [match _ with _ => _ end] => fail | _ => destruct x eqn:? end
  end.
Ltac dmatch_in H :=
  match type of H with
  | context [match ?x with _ => _ end] =>
      lazymatch x with context [match _ with _ => _ end] => fail | _ => destruct x eqn:? end
  end.

Create HintDb crm.

(** ** Generic lemmas *)

Lemma forallb_Forall {A} (f : A -> bool) l : forallb f l = true <-> Forall (fun x => f x = true) l.
Proof.
  rewrite forallb_forall, Forall_forall. split; intros Hl x Hx; apply Hl; by apply list_elem_of_In.
Qed.

Lemma is_none_true {A} (o : option A) : is_none o = true <-> o = None.
Proof. by destruct o. Qed.

Lemma is_some_true {A} (o : option A) : is_some o = true <-> is_Some o.
Proof.
  unfold is_some. destruct o; simpl; split; intros H; eauto; done.
Qed.

Lemma opt_eqb_eq {A} `{EqDecision A} (x y : option A) : opt_eqb x y = true <-> x = y.
Proof. apply bool_decide_eq_true. Qed.
