(* ===== verification/GoLib.v ===== *)
(** * The Go library functions the services call

    Strings ([strings.TrimSpace], [ToUpper], [ToLower] on ASCII text), machine
    integers, durations, the rounding of [float64] arithmetic, ordered
    results of a query, and calendar days. *)
From stdpp Require Import pretty.
From S2P Require Import Prelude.

(** ** [strings] *)

Definition is_space (c : ascii) : bool :=
  let n := N_of_ascii c in (n =? 32)%N || ((9 <=? n)%N && (n <=? 13)%N).

Definition ascii_map (f : N -> N) (c : ascii) : ascii := ascii_of_N (f (N_of_ascii c)).
Definition to_upper (c : ascii) : ascii :=
  ascii_map (fun n => if ((97 <=? n) && (n <=? 122))%N then (n - 32)%N else n) c.
Definition to_lower (c : ascii) : ascii :=
  ascii_map (fun n => if ((65 <=? n) && (n <=? 90))%N then (n + 32)%N else n) c.

Fixpoint map_string (f : ascii -> ascii) (s : string) : string :=
  match s with EmptyString => EmptyString | String c s => String (f c) (map_string f s) end.

Definition ToUpper : string -> string := map_string to_upper.
Definition ToLower : string -> string := map_string to_lower.

Fixpoint drop_spaces (l : list ascii) : list ascii :=
  match l with c :: r => if is_space c then drop_spaces r else l | [] => [] end.

Definition TrimSpace (s : string) : string :=
  string_of_list_ascii (reverse (drop_spaces (reverse (drop_spaces (list_ascii_of_string s))))).

(** [%q] of a text without characters to escape. *)
Definition quote (s : string) : string := String "034"%char (s ++ String "034"%char EmptyString)%string.

Definition is_empty (s : string) : bool := String.eqb s "".

(** ** Integers and durations *)

Definition min_int64 : Z := - 2 ^ 63.
Definition max_int64 : Z := 2 ^ 63 - 1.

(** Arithmetic on [int64] wraps around. *)
Definition wrap64 (z : Z) : Z := (z + 2 ^ 63) mod 2 ^ 64 - 2 ^ 63.

Definition in_int64 (z : Z) : Prop := min_int64 <= z <= max_int64.

(** [t.Sub(u)] saturates. *)
Definition Sub (t u : time) : Z := Z.max min_int64 (Z.min max_int64 (t - u)).

Lemma wrap64_small z : in_int64 z -> wrap64 z = z.
Proof. unfold in_int64, min_int64, max_int64, wrap64. intros ?. rewrite Z.mod_small; lia. Qed.

Lemma wrap64_bounds z : in_int64 (wrap64 z).
Proof.
  unfold in_int64, min_int64, max_int64, wrap64.
  pose proof (Z.mod_pos_bound (z + 2 ^ 63) (2 ^ 64)). lia.
Qed.

Lemma Sub_bounds t u : in_int64 (Sub t u).
Proof. unfold in_int64, Sub, min_int64, max_int64. lia. Qed.

Lemma Sub_small t u : in_int64 (t - u) -> Sub t u = t - u.
Proof. unfold in_int64, Sub, min_int64, max_int64. lia. Qed.

(** ** [strconv] *)

(** [strconv.Itoa], [FormatInt(z, 10)], [%d]. *)
Definition Itoa (z : Z) : string := pretty z.

Definition digit (c : ascii) : option N :=
  let n := N_of_ascii c in if ((48 <=? n) && (n <=? 57))%N then Some (n - 48)%N else None.

Fixpoint digits_from (acc : N) (s : string) : option N :=
  match s with
  | EmptyString => Some acc
  | String c s => match digit c with Some d => digits_from (acc * 10 + d) s | None => None end
  end.

Definition unsigned (s : string) : option Z := if is_empty s then None else Z.of_N <$> digits_from 0 s.

(** [strconv.ParseInt(s, 10, 64)]. *)
Definition ParseInt (s : string) : option Z :=
  let v := match s with
           | String c r => if Ascii.eqb c "-" then Z.opp <$> unsigned r
                           else if Ascii.eqb c "+" then unsigned r else unsigned s
           | EmptyString => None
           end in
  match v with Some z => if (min_int64 <=? z) && (z <=? max_int64) then Some z else None | None => None end.

Lemma digit_char x : (x < 10)%N -> digit (pretty_N_char x) = Some x.
Proof.
  intros ?. assert (x = 0 \/ x = 1 \/ x = 2 \/ x = 3 \/ x = 4 \/ x = 5 \/ x = 6 \/ x = 7 \/ x = 8 \/ x = 9)%N as Hx by lia.
  by repeat destruct Hx as [->|Hx]; [..|subst].
Qed.

Lemma digits_pretty_go x s : digits_from 0 (pretty_N_go x s) = digits_from x s.
Proof.
  revert s. induction (N.lt_wf_0 x) as [x _ IH]. intros s. destruct (decide (x = 0%N)) as [->|]; [done|].
  rewrite pretty_N_go_step by lia. rewrite IH by (apply N.div_lt; lia). simpl.
  rewrite digit_char by (by apply N.mod_lt). f_equal. pose proof (N.div_mod x 10). lia.
Qed.

Lemma unsigned_pretty (x : N) : unsigned (pretty x) = Some (Z.of_N x).
Proof.
  unfold unsigned, is_empty, pretty, pretty_N. destruct (decide (x = 0%N)) as [->|]; [done|].
  destruct (String.eqb_spec (pretty_N_go x "") "") as [E|_]; [|by rewrite digits_pretty_go].
  pose proof (digits_pretty_go x "") as Hd. rewrite E in Hd. simpl in Hd. congruence.
Qed.

(** A printed number starts with a digit. *)
Lemma pretty_head (x : N) : exists c r, pretty x = String c r /\ is_Some (digit c).
Proof.
  pose proof (unsigned_pretty x) as Hu. unfold unsigned in Hu. destruct (pretty x) as [|c r]; [done|].
  exists c, r. split; [done|]. simpl in Hu. destruct (digit c); [by eexists|done].
Qed.

Lemma ParseInt_Itoa z : in_int64 z -> ParseInt (Itoa z) = Some z.
Proof.
  intros Hz. assert (forall v, v = z -> (if (min_int64 <=? v) && (v <=? max_int64) then Some v else None) = Some z) as Hif.
  { intros v ->. destruct Hz as [Hlo%Z.leb_le Hhi%Z.leb_le]. by rewrite Hlo, Hhi. }
  assert (forall x : N, Z.of_N x = z -> ParseInt (pretty x) = Some z) as Hpos.
  { intros x Hx. destruct (pretty_head x) as (c & r & E & Hd). unfold ParseInt. rewrite E.
    destruct (Ascii.eqb_spec c "-") as [->|]; [by destruct Hd|]. destruct (Ascii.eqb_spec c "+") as [->|]; [by destruct Hd|].
    rewrite <- E, unsigned_pretty. by apply Hif. }
  unfold Itoa, pretty, pretty_Z. destruct z as [|p|p]; [by apply (Hpos 0%N)|by apply (Hpos (Npos p))|].
  change (ParseInt (String "-" (pretty (Npos p))) = Some (Zneg p)). unfold ParseInt.
  rewrite Ascii.eqb_refl, unsigned_pretty. by apply Hif.
Qed.

Lemma Itoa_inj a b : Itoa a = Itoa b -> a = b.
Proof. apply pretty_Z_inj. Qed.

(** ** [fmt] *)

(** How Go prints values; a string prints as itself. *)
Class GoFmt := {
  FormatFloat : float64 -> string;   (** [strconv.FormatFloat(v, 'f', -1, 64)] *)
  Sprint : any -> string             (** [fmt.Sprint] *)
}.

Class GoFmtLaws `{GoFmt} : Prop := {
  Sprint_string : forall s, Sprint (AString s) = s;
  Sprint_visible : forall v, (forall s, v <> AString s) -> is_empty (TrimSpace (Sprint v)) = false
}.

(** ** [float64]

    Results are rounded to the nearest double, ties to even.  The amounts and
    durations of the services stay far from the largest and the smallest
    doubles, so the exponent is unbounded. *)
Definition round_even (n d : Z) : Z :=
  let q := n / d in let r := 2 * (n mod d) in
  if (d <? r) || ((r =? d) && Z.odd q) then q + 1 else q.

Definition scaled (n d e : Z) : Z := round_even (n * 2 ^ Z.max 0 (- e)) (d * 2 ^ Z.max 0 e).

(** The double nearest to [n / d], for [0 < d]. *)
Definition float_ratio (n d : Z) : float64 :=
  let a := Z.abs n in
  if a =? 0 then Float 0 0
  else
    let e := Z.log2 a - Z.log2 d - 52 in
    let e := if a * 2 ^ Z.max 0 (- e) <? 2 ^ 52 * (d * 2 ^ Z.max 0 e) then e - 1 else e in
    Float (Z.sgn n * scaled a d e) e.

Definition float_of_int (z : Z) : float64 := float_ratio z 1.

(** Exact numerator and denominator. *)
Definition f_num (x : float64) : Z := f_mant x * 2 ^ Z.max 0 (f_expo x).
Definition f_den (x : float64) : Z := 2 ^ Z.max 0 (- f_expo x).

Definition float_add (x y : float64) : float64 :=
  float_ratio (f_num x * f_den y + f_num y * f_den x) (f_den x * f_den y).
Definition float_mul (x y : float64) : float64 :=
  float_ratio (f_num x * f_num y) (f_den x * f_den y).
(** [x / y] for a positive [y]. *)
Definition float_div (x y : float64) : float64 :=
  float_ratio (f_num x * f_den y) (f_den x * f_num y).

(** [int64(x)]: towards zero. *)
Definition float_trunc (x : float64) : Z := Z.quot (f_num x) (f_den x).

(** [time.Duration.Seconds]. *)
Definition Seconds (d : Z) : float64 :=
  float_add (float_of_int (Z.quot d Second)) (float_div (float_of_int (Z.rem d Second)) (float_of_int Second)).

Definition float_zero : float64 := Float 0 0.

(** A number in the form [float_ratio] gives it. *)
Definition canonical (x : float64) : bool :=
  let m := Z.abs (f_mant x) in
  if m =? 0 then f_expo x =? 0 else (2 ^ 52 <=? m) && (m <? 2 ^ 53).

(** The integers up to [2 ^ 53] are doubles. *)
Lemma float_of_int_exact z : Z.abs z <= 2 ^ 53 -> float_trunc (float_of_int z) = z.
Proof.
  intros Hz. unfold float_of_int, float_ratio. destruct (Z.eqb_spec (Z.abs z) 0) as [E|Hn]; [by apply Z.abs_0_iff in E as ->|].
  pose proof (Z.log2_spec (Z.abs z) ltac:(lia)) as [Hlo Hhi]. change (Z.log2 1) with 0.
  set (l := Z.log2 (Z.abs z)) in *. pose proof (Z.log2_nonneg (Z.abs z)) as Hl. fold l in Hl.
  assert (l <= 53) as Hl53.
  { apply Z.nlt_ge. intros ?. assert (2 ^ 54 <= 2 ^ l) by (apply Z.pow_le_mono_r; lia). lia. }
  rewrite Z.sub_0_r. assert (Z.abs z * 2 ^ Z.max 0 (- (l - 52)) <? 2 ^ 52 * (1 * 2 ^ Z.max 0 (l - 52)) = false) as ->.
  { apply Z.ltb_ge. destruct (Z.le_gt_cases l 52).
    - replace (Z.max 0 (l - 52)) with 0 by lia. replace (Z.max 0 (- (l - 52))) with (52 - l) by lia.
      replace 52 with (l + (52 - l)) at 1 by lia. rewrite Z.pow_add_r by lia. nia.
    - replace (Z.max 0 (l - 52)) with (l - 52) by lia. replace (Z.max 0 (- (l - 52))) with 0 by lia.
      rewrite !Z.mul_1_l, <- Z.pow_add_r by lia. replace (52 + (l - 52)) with l by lia. lia. }
  unfold float_trunc, f_num, f_den, scaled, round_even. cbn [f_mant f_expo]. rewrite !Z.mul_1_l.
  destruct (Z.le_gt_cases l 52).
  - replace (Z.max 0 (l - 52)) with 0 by lia. replace (Z.max 0 (- (l - 52))) with (52 - l) by lia.
    rewrite Z.pow_0_r, Z.div_1_r, Z.mod_1_r, Z.mul_0_r, Z.mul_1_r. simpl.
    rewrite Z.mul_assoc, (Z.mul_comm (Z.sgn z)), Z.abs_sgn, Z.quot_mul; [done|]. pose proof (Z.pow_pos_nonneg 2 (52 - l)). lia.
  - assert (Z.abs z = 2 ^ 53) as Ha.
    { assert (2 ^ 53 <= 2 ^ l) by (apply Z.pow_le_mono_r; lia). lia. }
    assert (l = 53) as -> by (unfold l; rewrite Ha; done). rewrite Ha. simpl.
    assert (z = 2 ^ 53 \/ z = - 2 ^ 53) as [-> | ->] by lia; vm_compute; done.
Qed.

Example Seconds_exact : float_trunc (Seconds (90 * Second + 999999999)) = 90.
Proof. vm_compute. reflexivity. Qed.

(** [ORDER BY]: rows in an order a comparison gives; ties as they come. *)
Section Sort.
Context {R : Type} (before : R -> R -> bool).

Fixpoint insert_by (x : R) (l : list R) : list R :=
  match l with
  | [] => [x]
  | y :: l' => if before y x then y :: insert_by x l' else x :: l
  end.

Definition sort_by (l : list R) : list R := foldr insert_by [] l.

Lemma insert_by_perm x l : insert_by x l ≡ₚ x :: l.
Proof.
  induction l as [|y l IH]; simpl; [done|]. destruct (before y x); [|done].
  rewrite IH. apply Permutation_swap.
Qed.

Lemma sort_by_perm l : sort_by l ≡ₚ l.
Proof. induction l as [|x l IH]; simpl; [done|]. by rewrite insert_by_perm, IH. Qed.

Lemma elem_of_sort_by x l : x ∈ sort_by l <-> x ∈ l.
Proof. by rewrite sort_by_perm. Qed.

(** No row comes after one it precedes. *)
Definition in_order (l : list R) : Prop :=
  forall i j x y, (i < j)%nat -> l !! i = Some x -> l !! j = Some y -> before y x = false.

Hypothesis before_asym : forall x y, before x y = true -> before y x = false.
Hypothesis before_neg : forall x y z, before y x = false -> before z y = false -> before z x = false.

Lemma in_order_cons x l :
  in_order (x :: l) <-> (forall y, y ∈ l -> before y x = false) /\ in_order l.
Proof.
  split.
  - intros Hl. split.
    + intros y (j & Hj)%list_elem_of_lookup. by apply (Hl 0%nat (S j)); [lia|..].
    + intros i j a b Hij Ha Hb. by apply (Hl (S i) (S j)); [lia|..].
  - intros [Hx Hl] [|i] [|j] a b Hij Ha Hb; simpl in *; try lia.
    + simplify_eq. apply Hx. by eapply list_elem_of_lookup_2.
    + by apply (Hl i j); [lia|..].
Qed.

Lemma in_order_app l1 l2 :
  in_order (l1 ++ l2) <-> in_order l1 /\ in_order l2 /\ (forall x y, x ∈ l1 -> y ∈ l2 -> before y x = false).
Proof.
  induction l1 as [|a l1 IH]; simpl.
  - split; [|naive_solver]. intros Hl. split_and!; [|done|by intros x y ?%not_elem_of_nil].
    intros i j x y _ Hi. by rewrite lookup_nil in Hi.
  - rewrite !in_order_cons, IH. split.
    + intros (Ha & H1 & H2 & Hx). split_and!; [|done|done|].
      * intros y Hy. apply Ha, elem_of_app. by left.
      * intros x y [->|Hx']%elem_of_cons Hy; [apply Ha, elem_of_app; by right|by apply Hx].
    + intros ((Ha & H1) & H2 & Hx). split_and!; [|done|done|].
      * intros y [Hy|Hy]%elem_of_app; [by apply Ha|apply Hx; [by left|done]].
      * intros x y Hx' Hy. apply Hx; [by right|done].
Qed.

Lemma insert_by_order x l : in_order l -> in_order (insert_by x l).
Proof.
  induction l as [|y l IH]; simpl; intros Hl.
  - apply in_order_cons. split; [by intros ? ?%not_elem_of_nil|done].
  - apply in_order_cons in Hl as [Hy Hl]. destruct (before y x) eqn:E; apply in_order_cons.
    + split; [|by apply IH]. intros z. rewrite insert_by_perm. intros [->|Hz]%elem_of_cons; [|by apply Hy].
      by apply before_asym.
    + split; [|by apply in_order_cons].
      intros z [->|Hz]%elem_of_cons; [done|]. eapply before_neg; [exact E|by apply Hy].
Qed.

Lemma sort_by_order l : in_order (sort_by l).
Proof.
  induction l as [|x l IH]; simpl; [|by apply insert_by_order].
  intros i j x y _ Hi. by rewrite lookup_nil in Hi.
Qed.

(** The first of an ordered list with a property comes before the others. *)
Lemma find_sort_by (p : R -> bool) l x :
  List.find p (sort_by l) = Some x ->
  x ∈ l /\ p x = true /\ forall y, y ∈ l -> p y = true -> before y x = false.
Proof.
  setoid_rewrite <- (elem_of_sort_by _ l). generalize (sort_by_order l).
  induction (sort_by l) as [|z r IH]; simpl; [done|]. intros [Hz Hr]%in_order_cons.
  assert (forall y, y ∈ z :: r -> y = z \/ y ∈ r) as Hin by (intros y; by rewrite elem_of_cons).
  destruct (p z) eqn:Hp.
  - intros [= ->]. split_and!; [by left|done|]. intros y [->|Hy]%Hin _; [|by apply Hz].
    destruct (before x x) eqn:E; [|done]. by rewrite (before_asym x x E) in E.
  - intros Hf. destruct (IH Hr Hf) as (Hx & Hpx & Hmin). split_and!; [by right|done|].
    intros y [->|Hy]%Hin Hpy; [congruence|]. by apply Hmin.
Qed.
End Sort.

(** * Calendar days ([time.Date], layout [2006-01-02])

    The civil calendar on days counted from 1 January 1970, its text form, and
    the round trips between them.  The conversions repeat every 400 years; facts
    about the years of an era and the days of a year are checked one by one. *)

Definition Day : Z := 24 * Hour.

(** The UTC day of an instant, and the instant a day starts at. *)
Definition day_of (t : time) : Z := t / Day.
Definition midnight (day : Z) : time := day * Day.

Lemma day_of_midnight day : day_of (midnight day) = day.
Proof. unfold day_of, midnight. by apply Z.div_mul. Qed.

(** ** Time zones *)

(** What the code asks of a [*time.Location]: the instant of a day and a
    clock reading, and the day and reading of an instant. *)
Record Location := MkLocation { date_in : Z -> Z -> time; local : time -> Z * Z }.

Definition UTC : Location := MkLocation (fun day ns => midnight day + ns) (fun t => (day_of t, t - midnight (day_of t))).

(** [start.AddDate(0, 0, 1)]. *)
Definition next_day (loc : Location) (start : time) : time :=
  let '(day, ns) := local loc start in date_in loc (day + 1) ns.

(** [time.Date] of a day of that zone at 23:59:59. *)
Definition end_of_day (loc : Location) (t : time) : time := date_in loc (local loc t).1 (Day - Second).

(** ** The calendar *)

(** Years are counted from March here, so that the leap day comes last.  The day
    a year of the era starts on, and the year a day of the era is in. *)
Definition start (y : Z) : Z := y * 365 + y / 4 - y / 100 + y / 400.
Definition year_at (doe : Z) : Z := (doe - doe / 1460 + doe / 36524 - doe / 146096) / 365.

(** Month and day of a day of the year, and back. *)
Definition month_day (doy : Z) : Z * Z :=
  let mp := (5 * doy + 2) / 153 in
  (if mp <? 10 then mp + 3 else mp - 9, doy - (153 * mp + 2) / 5 + 1).
Definition day_of_year (m d : Z) : Z := (153 * (if 2 <? m then m - 3 else m + 9) + 2) / 5 + d - 1.

(** Year, month and day of a day number. *)
Definition civil (day : Z) : Z * Z * Z :=
  let doe := (day + 719468) mod 146097 in
  let yoe := year_at doe in
  let '(m, d) := month_day (doe - start yoe) in
  ((if m <=? 2 then yoe + 1 else yoe) + 400 * ((day + 719468) / 146097), m, d).

Definition days_of (y m d : Z) : Z :=
  let y := if m <=? 2 then y - 1 else y in
  y / 400 * 146097 + start (y mod 400) + day_of_year m d - 719468.

Definition leap (y : Z) : bool := (y mod 4 =? 0) && (negb (y mod 100 =? 0) || (y mod 400 =? 0)).

Definition days_in (y m : Z) : Z :=
  if m =? 2 then (if leap y then 29 else 28)
  else if (m =? 4) || (m =? 6) || (m =? 9) || (m =? 11) then 30 else 31.

Definition valid_date (y m d : Z) : bool := (1 <=? m) && (m <=? 12) && (1 <=? d) && (d <=? days_in y m).

(** ** Facts checked once for every year and every day of a year *)

Fixpoint all_from (n : nat) (z : Z) (p : Z -> bool) : bool :=
  match n with O => true | S n => if p z then all_from n (z + 1) p else false end.

Definition all_below (n : Z) (p : Z -> bool) : bool := all_from (Z.to_nat n) 0 p.

Lemma all_from_spec n z p x : all_from n z p = true -> z <= x < z + Z.of_nat n -> p x = true.
Proof.
  revert z. induction n as [|n IH]; cbn [all_from]; intros z; [lia|]. destruct (p z) eqn:Hp; [|done]. intros Hn Hx.
  destruct (decide (x = z)) as [->|]; [done|]. apply (IH (z + 1) Hn). lia.
Qed.

Lemma all_below_spec n p x : all_below n p = true -> 0 <= x < n -> p x = true.
Proof. intros Hn Hx. apply (all_from_spec _ _ _ _ Hn). rewrite Z2Nat.id; lia. Qed.

Definition year_ok (y : Z) : bool :=
  (start (y + 1) =? start y + (if leap (y + 1) then 366 else 365)) &&
  (year_at (start y) =? y) && (year_at (start (y + 1) - 1) =? y).

Lemma years_checked : all_below 400 year_ok = true.
Proof. vm_compute. reflexivity. Qed.

(** Days 0 to 364 are dates of every year, day 365 is the 29th of February. *)
Definition month_day_ok (doy : Z) : bool :=
  let '(m, d) := month_day doy in
  (day_of_year m d =? doy) && (if doy =? 365 then (m =? 2) && (d =? 29) else valid_date 1 m d).

Lemma month_days_checked : all_below 366 month_day_ok = true.
Proof. vm_compute. reflexivity. Qed.

Definition day_of_year_ok (m d : Z) : bool :=
  let doy := day_of_year m d in
  (negb (valid_date 1 m d) || ((0 <=? doy) && (doy <? 365) && bool_decide (month_day doy = (m, d)))).

Lemma days_of_year_checked : all_below 13 (fun m => all_below 32 (fun d => day_of_year_ok m d)) = true.
Proof. vm_compute. reflexivity. Qed.

(** ** The year of a day *)

Lemma year_at_mono a b : 0 <= a <= b -> b < 146097 -> year_at a <= year_at b.
Proof.
  intros Ha Hb. unfold year_at. apply Z.div_le_mono; [lia|].
  assert (forall x, 0 <= x -> x + 1 < 146097 ->
    x - x / 1460 + x / 36524 - x / 146096 <= x + 1 - (x + 1) / 1460 + (x + 1) / 36524 - (x + 1) / 146096) as Hstep.
  { intros x Hx0 Hx1. Z.div_mod_to_equations. lia. }
  replace b with (a + Z.of_nat (Z.to_nat (b - a))) by lia.
  assert (a + Z.of_nat (Z.to_nat (b - a)) < 146097) as Hlt by lia. clear Hb.
  induction (Z.to_nat (b - a)) as [|n IH]; [rewrite Z.add_0_r; lia|].
  etrans; [apply IH; lia|]. replace (a + Z.of_nat (S n)) with (a + Z.of_nat n + 1) by lia. apply Hstep; lia.
Qed.

Lemma year_facts y : 0 <= y < 400 ->
  start (y + 1) = start y + (if leap (y + 1) then 366 else 365) /\ year_at (start y) = y /\ year_at (start (y + 1) - 1) = y.
Proof.
  intros Hy. pose proof (all_below_spec _ _ _ years_checked Hy) as Hok. unfold year_ok in Hok.
  by apply andb_true_iff in Hok as [[?%Z.eqb_eq ?%Z.eqb_eq]%andb_true_iff ?%Z.eqb_eq].
Qed.

Lemma start_mono y y' : 0 <= y <= y' -> start y <= start y'.
Proof. intros ?. unfold start. Z.div_mod_to_equations. lia. Qed.

(** A day that falls in a year is found there. *)
Lemma year_at_in y doe : 0 <= y < 400 -> start y <= doe < start (y + 1) -> year_at doe = y.
Proof.
  intros Hy Hd. destruct (year_facts y Hy) as (_ & E1 & E2).
  pose proof (start_mono 0 y ltac:(lia)) as H0. change (start 0) with 0 in H0.
  pose proof (start_mono (y + 1) 400 ltac:(lia)) as H400. change (start 400) with 146097 in H400.
  pose proof (year_at_mono (start y) doe). pose proof (year_at_mono doe (start (y + 1) - 1)). lia.
Qed.

Lemma year_found doe : 0 <= doe < 146097 -> exists y, 0 <= y < 400 /\ start y <= doe < start (y + 1).
Proof.
  intros Hd. assert (forall n : nat, doe < start (Z.of_nat n) -> exists y, 0 <= y < Z.of_nat n /\ start y <= doe < start (y + 1)) as Hn.
  { induction n as [|n IH]; [change (start (Z.of_nat 0)) with 0; lia|]. intros Hlt.
    destruct (decide (doe < start (Z.of_nat n))) as [Hlt'|Hge].
    - destruct (IH Hlt') as (y & ? & ?). exists y. lia.
    - exists (Z.of_nat n). replace (Z.of_nat n + 1) with (Z.of_nat (S n)) by lia. lia. }
  apply (Hn 400%nat). change (start (Z.of_nat 400)) with 146097. lia.
Qed.

(** ** Round trips *)

Lemma mod_era y e q : 0 < q -> 400 mod q = 0 -> (y + 400 * e) mod q = y mod q.
Proof.
  intros Hq Hm. apply Z.mod_divide in Hm as [k Hk]; [|lia].
  replace (y + 400 * e) with (y + (k * e) * q) by (rewrite Hk; ring). by rewrite Z.mod_add by lia.
Qed.

Lemma valid_era y e m d : valid_date (y + 400 * e) m d = valid_date y m d.
Proof. unfold valid_date, days_in, leap. by rewrite !mod_era by done. Qed.

Lemma days_in_bound y m : days_in y m <= 31.
Proof. unfold days_in. repeat case_match; lia. Qed.

(** A date of an ordinary year is a date of every year; the others are leap days. *)
Lemma valid_common y m d :
  valid_date y m d = true <-> valid_date 1 m d = true \/ (leap y = true /\ m = 2 /\ d = 29).
Proof.
  unfold valid_date, days_in. change (leap 1) with false. rewrite !andb_true_iff, !Z.leb_le.
  destruct (Z.eqb_spec m 2) as [->|]; [destruct (leap y)|]; intuition lia.
Qed.

(** Every day is a date, and the date gives the day back. *)
Lemma days_of_civil day y m d : civil day = (y, m, d) -> days_of y m d = day /\ valid_date y m d = true.
Proof.
  unfold civil. pose proof (Z.mod_pos_bound (day + 719468) 146097 ltac:(lia)) as Hdoe.
  pose proof (Z.div_mod (day + 719468) 146097 ltac:(lia)) as Hdm.
  set (doe := (day + 719468) mod 146097) in *. set (era := (day + 719468) / 146097) in *.
  destruct (year_found doe Hdoe) as (yoe & Hy & Hd). rewrite (year_at_in yoe doe) by done.
  destruct (year_facts yoe Hy) as (Hlen & _).
  assert (0 <= doe - start yoe < 366) as Hdoy by (destruct (leap (yoe + 1)); lia).
  pose proof (all_below_spec _ _ _ month_days_checked Hdoy) as Hok. unfold month_day_ok in Hok.
  destruct (month_day (doe - start yoe)) as [m0 d0]. apply andb_true_iff in Hok as [Hback%Z.eqb_eq Hvalid].
  intros [= <- <- <-]. split.
  - unfold days_of. set (y1 := if m0 <=? 2 then _ - 1 else _).
    assert (y1 = yoe + era * 400) as -> by (unfold y1; destruct (m0 <=? 2); lia).
    rewrite Z.div_add, Z.mod_add, Z.div_small, Z.mod_small by lia. lia.
  - rewrite valid_era. destruct (Z.eqb_spec (doe - start yoe) 365) as [E|].
    + apply andb_true_iff in Hvalid as [->%Z.eqb_eq ->%Z.eqb_eq]. apply valid_common. right.
      split_and!; [|done|done]. simpl. destruct (leap (yoe + 1)); [done|lia].
    + apply valid_common. by left.
Qed.

Lemma civil_days_of y m d : valid_date y m d = true -> civil (days_of y m d) = (y, m, d).
Proof.
  intros Hv. unfold days_of. set (y1 := if m <=? 2 then y - 1 else y).
  pose proof (Z.mod_pos_bound y1 400 ltac:(lia)) as Hy. pose proof (Z.div_mod y1 400 ltac:(lia)) as Hdm.
  set (yoe := y1 mod 400) in *. set (era := y1 / 400) in *.
  assert (y = (if m <=? 2 then yoe + 1 else yoe) + 400 * era) as Ey by (unfold y1 in Hdm; destruct (m <=? 2); lia).
  destruct (year_facts yoe Hy) as (Hlen & _). set (doy := day_of_year m d).
  assert (0 <= doy < (if leap (yoe + 1) then 366 else 365) /\ month_day doy = (m, d)) as [Hdoy Hmd].
  { rewrite Ey, valid_era in Hv. apply valid_common in Hv as [Hv|(Hl & -> & ->)].
    - assert (1 <= m <= 12 /\ 1 <= d <= days_in 1 m) as [Hm Hd] by (unfold valid_date in Hv; rewrite !andb_true_iff, !Z.leb_le in Hv; lia).
      pose proof (days_in_bound 1 m). pose proof (all_below_spec _ _ m days_of_year_checked ltac:(lia)) as Hc.
      pose proof (all_below_spec _ _ d Hc ltac:(lia)) as Hok. unfold day_of_year_ok in Hok. fold doy in Hok. rewrite Hv in Hok. simpl in Hok.
      apply andb_true_iff in Hok as [[Hlo%Z.leb_le Hhi%Z.ltb_lt]%andb_true_iff He%bool_decide_eq_true].
      split; [destruct (leap (yoe + 1)); lia|done].
    - simpl in Hl. rewrite Hl. split; [vm_compute; by split|reflexivity]. }
  unfold civil. replace (era * 146097 + start yoe + doy - 719468 + 719468) with (start yoe + doy + era * 146097) by lia.
  pose proof (start_mono 0 yoe ltac:(lia)) as H0. change (start 0) with 0 in H0.
  pose proof (start_mono (yoe + 1) 400 ltac:(lia)) as H400. change (start 400) with 146097 in H400.
  rewrite Z.div_add, Z.mod_add, Z.div_small, Z.mod_small by lia.
  rewrite (year_at_in yoe) by lia. replace (start yoe + doy - start yoe) with doy by lia. by rewrite Hmd, Ey.
Qed.

(** Sunday is 0; day 0 was a Thursday. *)
Definition Weekday (day : Z) : Z := (day + 4) mod 7.

(** ** The layout [2006-01-02] *)

Definition char_of (d : Z) : ascii := ascii_of_N (Z.to_N (48 + d)).
Definition place (n p : Z) : ascii := char_of (n / p mod 10).

Definition two (n : Z) (s : string) : string := String (place n 10) (String (place n 1) s).
Definition four (n : Z) (s : string) : string := String (place n 1000) (String (place n 100) (two n s)).

Definition FormatDay (day : Z) : string :=
  let '(y, m, d) := civil day in four y (String "-" (two m (String "-" (two d "")))).

Definition decimal (cs : list ascii) : option Z :=
  fold_left (fun acc c => a ← acc; d ← digit c; Some (10 * a + Z.of_N d)) cs (Some 0).

(** [time.Parse] of a plain date: two digits each, a day the month has. *)
Definition ParseDay (s : string) : option Z :=
  match list_ascii_of_string s with
  | [y1; y2; y3; y4; h1; m1; m2; h2; d1; d2] =>
      if Ascii.eqb h1 "-" && Ascii.eqb h2 "-" then
        y ← decimal [y1; y2; y3; y4]; m ← decimal [m1; m2]; d ← decimal [d1; d2];
        if valid_date y m d then Some (days_of y m d) else None
      else None
  | _ => None
  end.

(** ** The layouts [time.RFC3339] and [time.RFC3339Nano] *)

(** The characters up to the first character a predicate refuses, and the rest. *)
Fixpoint span (p : ascii -> bool) (l : list ascii) : list ascii * list ascii :=
  match l with
  | c :: r => if p c then let '(a, b) := span p r in (c :: a, b) else ([], l)
  | [] => ([], [])
  end.

(** Two digits up to a bound. *)
Definition two_digits (bound : Z) (l : list ascii) : option (Z * list ascii) :=
  match l with
  | a :: b :: r => n ← decimal [a; b]; if n <=? bound then Some (n, r) else None
  | _ => None
  end.

Definition expect (c : ascii) (l : list ascii) : option (list ascii) :=
  match l with d :: r => if Ascii.eqb c d then Some r else None | [] => None end.

Definition numeric (c : ascii) : bool := is_some (digit c).

(** [15]: one digit is accepted too. *)
Definition hour (l : list ascii) : option (Z * list ascii) :=
  match l with
  | a :: b :: r => if numeric b then two_digits 23 l else n ← decimal [a]; Some (n, b :: r)
  | _ => None
  end.

(** Nanoseconds of a fraction: digits after the ninth do not count. *)
Definition fraction (l : list ascii) : Z * list ascii :=
  match l with
  | c :: d :: r =>
      if (Ascii.eqb c "." || Ascii.eqb c ",") && numeric d then
        let '(ds, r) := span numeric (d :: r) in
        let kept := take 9 ds in
        (default 0 (decimal kept) * 10 ^ (9 - Z.of_nat (length kept)), r)
      else (0, l)
  | _ => (0, l)
  end.

(** The offset of a zone, which has to end the text. *)
Definition zone (l : list ascii) : option Z :=
  match l with
  | c :: r =>
      if Ascii.eqb c "Z" then match r with [] => Some 0 | _ => None end
      else if Ascii.eqb c "+" || Ascii.eqb c "-" then
        '(h, r) ← two_digits 24 r; r ← expect ":" r; '(m, r) ← two_digits 60 r;
        match r with
        | [] => let o := h * Hour + m * Minute in Some (if Ascii.eqb c "-" then - o else o)
        | _ => None
        end
      else None
  | [] => None
  end.

(** What follows the day: how far in UTC the instant is from the start of that day. *)
Definition clock (l : list ascii) : option Z :=
  r ← expect "T" l; '(h, r) ← hour r; r ← expect ":" r; '(m, r) ← two_digits 59 r; r ← expect ":" r;
  '(s, r) ← two_digits 59 r;
  let '(ns, r) := fraction r in
  o ← zone r; Some (h * Hour + m * Minute + s * Second + ns - o).

(** A time stamp or a plain day: the day it names in its own zone, and the instant. *)
Definition parse_stamp (s : string) : option (Z * time) :=
  let l := list_ascii_of_string s in
  match drop 10 l with
  | [] => day ← ParseDay s; Some (day, midnight day)
  | rest => ns ← clock rest; day ← ParseDay (string_of_list_ascii (take 10 l)); Some (day, midnight day + ns)
  end.

Lemma digit_char_of d : 0 <= d < 10 -> digit (char_of d) = Some (Z.to_N d).
Proof.
  intros ?. assert (d = 0 \/ d = 1 \/ d = 2 \/ d = 3 \/ d = 4 \/ d = 5 \/ d = 6 \/ d = 7 \/ d = 8 \/ d = 9) as Hd by lia.
  by repeat destruct Hd as [->|Hd]; [..|subst].
Qed.

Lemma digit_place n p : digit (place n p) = Some (Z.to_N (n / p mod 10)).
Proof. apply digit_char_of, Z.mod_pos_bound. lia. Qed.

Lemma decimal_two n : 0 <= n < 100 -> decimal [place n 10; place n 1] = Some n.
Proof.
  intros ?. unfold decimal. simpl. rewrite !digit_place. simpl. f_equal.
  rewrite !Z2N.id by (apply Z.mod_pos_bound; lia). rewrite Z.div_1_r. 
  pose proof (Z.div_mod n 10). rewrite (Z.mod_small (n / 10)) by (split; [apply Z.div_pos|apply Z.div_lt_upper_bound]; lia). lia.
Qed.

Lemma decimal_four n : 0 <= n < 10000 -> decimal [place n 1000; place n 100; place n 10; place n 1] = Some n.
Proof.
  intros ?. unfold decimal. simpl. rewrite !digit_place. simpl. f_equal.
  rewrite !Z2N.id by (apply Z.mod_pos_bound; lia). Z.div_mod_to_equations. lia.
Qed.

(** The years the layout can hold. *)
Definition four_digit_year (day : Z) : Prop := 0 <= (civil day).1.1 < 10000.

Lemma ParseDay_FormatDay day : four_digit_year day -> ParseDay (FormatDay day) = Some day.
Proof.
  unfold four_digit_year, FormatDay, ParseDay. destruct (civil day) as [[y m] d] eqn:E. intros Hy.
  apply days_of_civil in E as [E Hv]. cbn [fst] in Hy.
  assert (1 <= m <= 12 /\ 1 <= d <= days_in y m) as [Hm Hd].
  { unfold valid_date in Hv. rewrite !andb_true_iff, !Z.leb_le in Hv. lia. }
  pose proof (days_in_bound y m). unfold four, two. cbn [list_ascii_of_string Ascii.eqb Bool.eqb andb].
  rewrite decimal_four, !decimal_two by lia. cbn [mbind option_bind]. by rewrite Hv, E.
Qed.

Example parse_stamp_samples :
  parse_stamp "1970-01-02" = Some (1, Day) /\
  parse_stamp "1970-01-02T00:30:00.25+01:00" = Some (1, Day - 30 * Minute + 250000000) /\
  parse_stamp "1970-01-02T24:00:00Z" = None /\ parse_stamp "1970-02-30" = None.
Proof. vm_compute. auto. Qed.

Example FormatDay_epoch : FormatDay 0 = "1970-01-01" /\ FormatDay 20587 = "2026-05-14" /\ Weekday 0 = 4.
Proof. vm_compute. auto. Qed.
