(* ===== verification/Text.v ===== *)
(** * Text: UTF-8, searching and replacing, [LIKE]; phone numbers

    Strings are byte strings, as in Go.  [range] and [[]rune] decode them:
    the widths are those of [utf8.DecodeRune], where a byte that starts no
    rune stands for itself.  The second part is [internal/phoneutil]. *)
From S2P Require Import Prelude GoLib.

(** ** UTF-8 *)

Definition in_range (r : N * N) (c : ascii) : bool := ((r.1 <=? N_of_ascii c) && (N_of_ascii c <=? r.2))%N.

(** The bytes that may follow a first byte; [None] for a byte that starts no rune. *)
Definition rune_tail (c : ascii) : option (list (N * N)) :=
  let n := N_of_ascii c in
  let cont := (128, 191)%N in
  if (n <? 128)%N then Some []
  else if in_range (194, 223)%N c then Some [cont]
  else if (n =? 224)%N then Some [(160, 191)%N; cont]
  else if (n =? 237)%N then Some [(128, 159)%N; cont]
  else if in_range (225, 239)%N c then Some [cont; cont]
  else if (n =? 240)%N then Some [(144, 191)%N; cont; cont]
  else if (n =? 244)%N then Some [(128, 143)%N; cont; cont]
  else if in_range (241, 243)%N c then Some [cont; cont; cont]
  else None.

Fixpoint follows (rs : list (N * N)) (l : list ascii) : bool :=
  match rs, l with
  | [], _ => true
  | r :: rs, c :: l => in_range r c && follows rs l
  | _ :: _, [] => false
  end.

(** How many bytes after the first belong to the rune at the head; [None]: not UTF-8. *)
Definition rune_more (c : ascii) (l : list ascii) : option nat :=
  match rune_tail c with
  | Some rs => if follows rs l then Some (length rs) else None
  | None => None
  end.

Fixpoint count_runes (skip : nat) (l : list ascii) : nat :=
  match l with
  | [] => 0
  | c :: l => match skip with
              | S k => count_runes k l
              | O => S (count_runes (default 0%nat (rune_more c l)) l)
              end
  end.

(** [len([]rune(s))]. *)
Definition RuneCount (s : string) : nat := count_runes 0 (list_ascii_of_string s).

Fixpoint valid_runes (skip : nat) (l : list ascii) : bool :=
  match l with
  | [] => true
  | c :: l => match skip with
              | S k => valid_runes k l
              | O => match rune_more c l with Some k => valid_runes k l | None => false end
              end
  end.

(** [utf8.ValidString]. *)
Definition ValidString (s : string) : bool := valid_runes 0 (list_ascii_of_string s).

(** What PostgreSQL takes for a text: UTF-8 without NUL; a [varchar(n)] column,
    at most [n] characters. (It also takes a longer text whose excess is
    blanks, cut off; the model refuses it.) *)
Fixpoint no_nul (s : string) : bool :=
  match s with
  | "" => true
  | String c s => negb (Ascii.eqb c "000") && no_nul s
  end.
Definition pg_text (s : string) : bool := ValidString s && no_nul s.
Definition varchar (n : nat) (s : string) : bool := pg_text s && Nat.leb (RuneCount s) n.

(** A text through [char(n)]: padded with blanks. *)
Fixpoint trim_blanks (s : string) : string :=
  match s with
  | "" => ""
  | String c s => let s' := trim_blanks s in
                  if Ascii.eqb c " " && is_empty s' then "" else String c s'
  end.
Definition bpchar (n : nat) (s : string) : string :=
  let s := trim_blanks s in s ++ string_of_list_ascii (repeat " "%char (n - RuneCount s)).

(** The characters of a text, each as the bytes it is made of. *)
Fixpoint split_runes (acc : list ascii) (skip : nat) (l : list ascii) : list (list ascii) :=
  match l with
  | [] => match acc with [] => [] | _ => [reverse acc] end
  | c :: l =>
      match skip with
      | S k => split_runes (c :: acc) k l
      | O => match acc with [] => id | _ => cons (reverse acc) end
               (split_runes [c] (default 0%nat (rune_more c l)) l)
      end
  end.

Definition characters (s : string) : list (list ascii) := split_runes [] 0 (list_ascii_of_string s).

(** ** Searching and replacing *)

Fixpoint starts (p l : list ascii) : bool :=
  match p, l with
  | [], _ => true
  | a :: p, b :: l => Ascii.eqb a b && starts p l
  | _ :: _, [] => false
  end.

(** [strings.HasPrefix], [strings.Contains]. *)
Definition HasPrefix (s p : string) : bool := starts (list_ascii_of_string p) (list_ascii_of_string s).

Fixpoint occurs (p l : list ascii) : bool :=
  starts p l || match l with [] => false | _ :: l => occurs p l end.

Definition Contains (s p : string) : bool := occurs (list_ascii_of_string p) (list_ascii_of_string s).

Fixpoint replace_from (p q : list ascii) (skip : nat) (l : list ascii) : list ascii :=
  match l with
  | [] => []
  | c :: r => match skip with
              | S k => replace_from p q k r
              | O => if starts p l then q ++ replace_from p q (pred (length p)) r
                     else c :: replace_from p q 0 r
              end
  end.

(** [strings.ReplaceAll] and SQL's [replace], for a text to look for that is not empty. *)
Definition ReplaceAll (s from to : string) : string :=
  string_of_list_ascii (replace_from (list_ascii_of_string from) (list_ascii_of_string to) 0 (list_ascii_of_string s)).

(** SQL's [LIKE], character by character: [%], [_], and the escape [\]. *)
Fixpoint like (p s : list (list ascii)) : bool :=
  match p with
  | [] => match s with [] => true | _ => false end
  | c :: p =>
      if bool_decide (c = ["%"%char]) then
        (fix any s := like p s || match s with [] => false | _ :: s => any s end) s
      else if bool_decide (c = ["_"%char]) then match s with [] => false | _ :: s => like p s end
      else if bool_decide (c = ["\"%char]) then
        match p, s with
        | e :: p, x :: s => bool_decide (x = e) && like p s
        | _, _ => false
        end
      else match s with x :: s => bool_decide (x = c) && like p s | [] => false end
  end.

Definition LIKE (s p : string) : bool := like (characters p) (characters s).

(** ** Lemmas *)

Lemma list_of_string_app (a b : string) :
  list_ascii_of_string (a ++ b)%string = list_ascii_of_string a ++ list_ascii_of_string b.
Proof. induction a as [|c a IH]; simpl; [done|by rewrite IH]. Qed.

Lemma string_of_list_inj l l' : string_of_list_ascii l = string_of_list_ascii l' -> l = l'.
Proof. intros E. by rewrite <- (list_ascii_of_string_of_list_ascii l), E, list_ascii_of_string_of_list_ascii. Qed.

Lemma list_of_string_inj a b : list_ascii_of_string a = list_ascii_of_string b -> a = b.
Proof. intros E. by rewrite <- (string_of_list_ascii_of_string a), E, string_of_list_ascii_of_string. Qed.

Lemma starts_app p l : starts p (p ++ l) = true.
Proof. induction p as [|c p IH]; simpl; [done|]. by rewrite Ascii.eqb_refl, IH. Qed.

Lemma starts_spec p l : starts p l = true <-> exists r, l = p ++ r.
Proof.
  split; [|intros [r ->]; apply starts_app].
  revert l. induction p as [|c p IH]; intros l Hp; [by exists l|].
  destruct l as [|d l]; [done|]. simpl in Hp. apply andb_true_iff in Hp as [->%Ascii.eqb_eq [r ->]%IH].
  by exists r.
Qed.

Lemma count_runes_le skip l : (count_runes skip l <= length l)%nat.
Proof.
  revert skip. induction l as [|c l IH]; intros [|k]; simpl; try lia.
  - specialize (IH (default 0%nat (rune_more c l))). lia.
  - specialize (IH k). lia.
Qed.

Lemma RuneCount_le s : (RuneCount s <= String.length s)%nat.
Proof.
  unfold RuneCount. etrans; [apply count_runes_le|].
  induction s as [|c s IH]; simpl; lia.
Qed.

(** ASCII without NUL is a text. *)
Fixpoint plain (s : string) : bool :=
  match s with
  | "" => true
  | String c s => (0 <? N_of_ascii c)%N && (N_of_ascii c <? 128)%N && plain s
  end.

Lemma plain_text s : plain s = true -> pg_text s = true.
Proof.
  intros Hp. unfold pg_text. apply andb_true_iff. unfold ValidString.
  induction s as [|c s IH]; [done|]. simpl in Hp. apply andb_true_iff in Hp as [[Hc0 Hc]%andb_true_iff Hs].
  destruct (IH Hs) as [Hv Hn]. split.
  - simpl. unfold rune_more, rune_tail. by rewrite Hc.
  - simpl. rewrite Hn, andb_true_r. apply negb_true_iff. apply Ascii.eqb_neq. intros ->. done.
Qed.

(** Replacing what does not occur changes nothing. *)
Lemma ReplaceAll_absent s from to : Contains s from = false -> ReplaceAll s from to = s.
Proof.
  unfold Contains, ReplaceAll. intros Hno. rewrite <- (string_of_list_ascii_of_string s) at 2. f_equal.
  induction (list_ascii_of_string s) as [|c l IH]; [done|]. cbn [occurs] in Hno.
  apply orb_false_iff in Hno as [Hs Hl]. cbn [replace_from]. rewrite Hs. f_equal. by apply IH.
Qed.

Example text_samples :
  RuneCount (string_of_list_ascii (map ascii_of_N [99; 97; 102; 195; 169; 226; 130; 172; 128]%N)) = 6%nat /\
  ReplaceAll "a-aa-a" "aa" "b" = "a-b-a" /\ LIKE "new_lead" "%w_l%" = true /\ LIKE "newlead" "%w\_l%" = false.
Proof. vm_compute. auto. Qed.

(** * Phone numbers ([internal/phoneutil])

    One subscriber, many spellings: [Normalize] keeps the digits,
    [NormalizeWithCountry] expands a local zero, [Variants] lists the forms an
    older row may hold.  A text with an at sign is a group identifier and is
    left alone. *)

Definition is_digit (c : ascii) : bool := in_range (48, 57)%N c.

(** [strings.Contains(s, "@")]. *)
Definition has_at (s : string) : bool := Contains s "@".

Definition digits_only (s : string) : string :=
  string_of_list_ascii (List.filter is_digit (list_ascii_of_string s)).

Definition Normalize (raw : string) : string :=
  let raw := TrimSpace raw in
  if is_empty raw then "" else if has_at raw then raw else digits_only raw.

(** [strings.TrimLeft(s, "0")]. *)
Fixpoint trim_zeros (s : string) : string :=
  match s with String c r => if Ascii.eqb c "0" then trim_zeros r else s | EmptyString => s end.

Definition NormalizeWithCountry (raw defaultCountryCode : string) : string :=
  let normalized := Normalize raw in
  if is_empty normalized || has_at normalized then normalized
  else
    let cc := Normalize defaultCountryCode in
    if is_empty cc then normalized
    else if HasPrefix normalized cc && Nat.ltb (String.length cc) (String.length normalized) then normalized
    else if HasPrefix normalized "0" then (cc ++ trim_zeros normalized)%string
    else normalized.

Definition Variants (raw : string) : list string :=
  let normalized := Normalize raw in
  if is_empty normalized then []
  else if has_at normalized then [normalized]
  else
    let out := [normalized; ("+" ++ normalized)%string] in
    let trimmed := TrimSpace raw in
    if negb (String.eqb trimmed normalized) && negb (String.eqb trimmed ("+" ++ normalized)) then out ++ [trimmed] else out.

Definition SameNumber (a b : string) : bool :=
  negb (is_empty (Normalize a)) && String.eqb (Normalize a) (Normalize b).

(** ** Trimming *)

Definition starts_black (l : list ascii) : Prop := forall c r, l = c :: r -> is_space c = false.

Lemma drop_spaces_black l : starts_black (drop_spaces l).
Proof.
  induction l as [|c l IH]; simpl; [by intros ? ? [=]|].
  destruct (is_space c) eqn:E; [done|]. by intros ? ? [= <- _].
Qed.

Lemma drop_spaces_id l : starts_black l -> drop_spaces l = l.
Proof. destruct l as [|c l]; simpl; [done|]. intros Hl. by rewrite (Hl c l eq_refl). Qed.

Lemma drop_spaces_suffix l : exists p, l = p ++ drop_spaces l.
Proof.
  induction l as [|c l [p IH]]; simpl; [by exists []|]. destruct (is_space c); [|by exists []].
  exists (c :: p). simpl. congruence.
Qed.

Definition trim (l : list ascii) : list ascii := reverse (drop_spaces (reverse (drop_spaces l))).

Lemma trim_black l : starts_black (trim l) /\ starts_black (reverse (trim l)).
Proof.
  unfold trim. split; [|rewrite reverse_involutive; apply drop_spaces_black].
  destruct (drop_spaces_suffix (reverse (drop_spaces l))) as [p E].
  apply (f_equal reverse) in E. rewrite reverse_involutive, reverse_app in E.
  intros c r Ec. rewrite Ec in E. simpl in E. by apply (drop_spaces_black l c (r ++ reverse p)).
Qed.

Lemma trim_id l : starts_black l -> starts_black (reverse l) -> trim l = l.
Proof. intros H1 H2. unfold trim. rewrite (drop_spaces_id l), drop_spaces_id by done. apply reverse_involutive. Qed.

Lemma TrimSpace_trim s : TrimSpace s = string_of_list_ascii (trim (list_ascii_of_string s)).
Proof. done. Qed.

Lemma TrimSpace_idem s : TrimSpace (TrimSpace s) = TrimSpace s.
Proof.
  rewrite (TrimSpace_trim (TrimSpace s)), (TrimSpace_trim s), list_ascii_of_string_of_list_ascii.
  f_equal. apply trim_id; apply trim_black.
Qed.

Lemma black_forall l : Forall (fun c => is_space c = false) l -> starts_black l /\ starts_black (reverse l).
Proof.
  intros Hl. split; intros c r E; [rewrite E in Hl|]; [by inversion Hl|].
  apply Forall_reverse in Hl. rewrite E in Hl. by inversion Hl.
Qed.

Lemma TrimSpace_black s : Forall (fun c => is_space c = false) (list_ascii_of_string s) -> TrimSpace s = s.
Proof.
  intros Hs. rewrite TrimSpace_trim, <- (string_of_list_ascii_of_string s), list_ascii_of_string_of_list_ascii.
  f_equal. by apply trim_id; apply black_forall.
Qed.

(** ** Normal forms *)

Definition all_digits (s : string) : Prop := Forall (fun c => is_digit c = true) (list_ascii_of_string s).

Lemma digit_facts c : is_digit c = true -> is_space c = false /\ Ascii.eqb c "@" = false /\ Ascii.eqb "@" c = false.
Proof.
  destruct c as [[] [] [] [] [] [] [] []]; vm_compute; intros [=]; auto.
Qed.

Lemma filter_digits l : Forall (fun c => is_digit c = true) l -> List.filter is_digit l = l.
Proof. induction 1 as [|c l Hc _ IH]; simpl; [done|]. by rewrite Hc, IH. Qed.

Lemma digits_only_digits s : all_digits (digits_only s).
Proof.
  unfold all_digits, digits_only. rewrite list_ascii_of_string_of_list_ascii. apply Forall_forall.
  intros c Hc%list_elem_of_In. by apply filter_In in Hc as [_ ?].
Qed.

Lemma digits_only_id s : all_digits s -> digits_only s = s.
Proof. intros Hs. unfold digits_only. rewrite filter_digits by done. apply string_of_list_ascii_of_string. Qed.

Lemma all_digits_trim s : all_digits s -> TrimSpace s = s.
Proof. intros Hs. apply TrimSpace_black. eapply Forall_impl; [exact Hs|]. intros c Hc. by apply digit_facts. Qed.

Lemma all_digits_no_at s : all_digits s -> has_at s = false.
Proof.
  unfold has_at, Contains. intros Hs. change (list_ascii_of_string "@") with ["@"%char].
  induction Hs as [|c l Hc _ IH]; [done|]. cbn [occurs starts].
  destruct (digit_facts c Hc) as (_ & _ & ->). simpl. exact IH.
Qed.

Lemma is_empty_spec s : is_empty s = true <-> s = "".
Proof. apply String.eqb_eq. Qed.

Lemma Normalize_digits s : all_digits s -> Normalize s = s.
Proof.
  intros Hs. unfold Normalize. rewrite all_digits_trim by done. destruct (is_empty s) eqn:E; [by apply is_empty_spec in E|].
  by rewrite all_digits_no_at, digits_only_id by done.
Qed.

(** A normal form is empty, digits, or a group identifier without blanks around it. *)
Lemma Normalize_cases raw :
  all_digits (Normalize raw) \/ (has_at (Normalize raw) = true /\ TrimSpace (Normalize raw) = Normalize raw).
Proof.
  unfold Normalize. destruct (is_empty (TrimSpace raw)); [left; constructor|].
  destruct (has_at (TrimSpace raw)) eqn:Ha; [right; split; [done|apply TrimSpace_idem]|left; apply digits_only_digits].
Qed.

Lemma Normalize_at s : has_at s = true -> TrimSpace s = s -> Normalize s = s.
Proof.
  intros Ha Ht. unfold Normalize. rewrite Ht, Ha. destruct (is_empty s) eqn:E; [by apply is_empty_spec in E|done].
Qed.

Lemma Normalize_idem raw : Normalize (Normalize raw) = Normalize raw.
Proof. destruct (Normalize_cases raw) as [Hd|[Ha Ht]]; [by apply Normalize_digits|by apply Normalize_at]. Qed.

Lemma Normalize_TrimSpace raw : Normalize (TrimSpace raw) = Normalize raw.
Proof. unfold Normalize. by rewrite TrimSpace_idem. Qed.

Lemma Normalize_plus s : all_digits s -> s <> "" -> Normalize ("+" ++ s) = s.
Proof.
  intros Hs Hne. assert (TrimSpace ("+" ++ s) = "+" ++ s)%string as E.
  { apply TrimSpace_black. constructor; [done|]. eapply Forall_impl; [exact Hs|]. intros c Hc. by apply digit_facts. }
  unfold Normalize. rewrite E. simpl is_empty. assert (has_at ("+" ++ s) = has_at s) as -> by done.
  rewrite all_digits_no_at by done. transitivity (digits_only s); [reflexivity|by apply digits_only_id].
Qed.

Lemma all_digits_app a b : all_digits (a ++ b) <-> all_digits a /\ all_digits b.
Proof. unfold all_digits. rewrite list_of_string_app. apply Forall_app. Qed.

Lemma Normalize_nonempty_digits raw : has_at (Normalize raw) = false -> all_digits (Normalize raw).
Proof. destruct (Normalize_cases raw) as [|[Ha _]]; [done|congruence]. Qed.

Lemma Variants_no_at raw : Normalize raw <> "" -> has_at (Normalize raw) = false ->
  Normalize raw ∈ Variants raw /\ ("+" ++ Normalize raw)%string ∈ Variants raw.
Proof.
  intros Hne Ha. unfold Variants. rewrite Ha. destruct (is_empty (Normalize raw)) eqn:E; [by apply is_empty_spec in E|].
  destruct (_ && _); split; repeat first [apply list_elem_of_here|apply list_elem_of_further].
Qed.

(** a lookup by [Variants] finds exactly the subscriber: every form it tries is a spelling of the number looked
    for, and a row that holds the number in its normal form, bare or with a plus, is among the forms for every
    spelling of the number. *)
Theorem Variants_find_the_subscriber raw stored :
  (stored ∈ Variants raw -> SameNumber stored raw = true) /\
  (SameNumber stored raw = true -> stored = Normalize stored \/ stored = ("+" ++ Normalize stored)%string ->
   stored ∈ Variants raw).
Proof.
  unfold SameNumber. rewrite andb_true_iff, negb_true_iff, String.eqb_eq. split.
  - intros Hin. unfold Variants in Hin. destruct (is_empty (Normalize raw)) eqn:E; [by apply not_elem_of_nil in Hin|].
    assert (Normalize stored = Normalize raw) as ->; [|done].
    assert (Normalize raw <> "") as Hne by (intros Hn; by rewrite Hn in E).
    destruct (has_at (Normalize raw)) eqn:Ha; [apply list_elem_of_singleton in Hin as ->; apply Normalize_idem|].
    pose proof (Normalize_nonempty_digits raw Ha) as Hd.
    assert (stored ∈ [Normalize raw; ("+" ++ Normalize raw)%string; TrimSpace raw]) as Hin'.
    { destruct (_ && _); [exact Hin|]. apply (elem_of_app [_; _] [_]). by left. }
    rewrite !elem_of_cons in Hin'. destruct Hin' as [->|[->|[->|Hin']]];
      [apply Normalize_idem|by apply Normalize_plus|apply Normalize_TrimSpace|by apply not_elem_of_nil in Hin'].
  - intros [Hne E] Hform. assert (Normalize raw <> "") as Hne' by (rewrite <- E; intros Hn; by rewrite Hn in Hne).
    rewrite E in Hform. destruct (has_at (Normalize raw)) eqn:Ha.
    + unfold Variants. rewrite Ha. destruct (is_empty (Normalize raw)) eqn:Ee; [by apply is_empty_spec in Ee|].
      apply list_elem_of_singleton. destruct Hform as [->| ->]; [done|].
      exfalso. destruct (Normalize_cases raw) as [Hd|[_ Ht]]; [by rewrite all_digits_no_at in Ha by done|].
      assert (TrimSpace ("+" ++ Normalize raw) = "+" ++ Normalize raw)%string as E'.
      { rewrite TrimSpace_trim in Ht |- *. apply (f_equal list_ascii_of_string) in Ht.
        rewrite list_ascii_of_string_of_list_ascii in Ht. simpl list_ascii_of_string.
        rewrite trim_id; [by simpl; rewrite string_of_list_ascii_of_string|by intros ? ? [= <- _]|].
        intros c r Ec. rewrite reverse_cons in Ec. change ("" ++ Normalize raw)%string with (Normalize raw) in Ec.
        pose proof (trim_black (list_ascii_of_string (Normalize raw))) as [_ Hb]. rewrite Ht in Hb.
        destruct (reverse (list_ascii_of_string (Normalize raw))) as [|x y] eqn:Er; cbn [app] in Ec; injection Ec as <- _;
          [done|by apply (Hb x y)]. }
      assert (has_at ("+" ++ Normalize raw) = true) as Ha' by exact Ha.
      rewrite (Normalize_at _ Ha' E') in E. apply (f_equal String.length) in E. change (S (String.length (Normalize raw)) = String.length (Normalize raw)) in E. lia.
    + destruct (Variants_no_at raw Hne' Ha) as [? ?]. by destruct Hform as [->| ->].
Qed.

Lemma Variants_find_the_subscriber_witness :
  "+923211234567"%string ∈ Variants " +92 321-1234567 " /\ SameNumber "+923211234567" "92 (321) 1234567" = true.
Proof.
  split.
  - apply (Variants_find_the_subscriber " +92 321-1234567 " "+923211234567"); [reflexivity|right; reflexivity].
  - apply (proj1 (Variants_find_the_subscriber "92 (321) 1234567" "+923211234567")). vm_compute. right. left.
Defined.

(** ** The country code *)

Lemma HasPrefix_app a b : HasPrefix (a ++ b) a = true.
Proof. unfold HasPrefix. rewrite list_of_string_app. apply starts_app. Qed.

Definition starts_zero (s : string) : bool := HasPrefix s "0".

Lemma trim_zeros_id s : starts_zero s = false -> trim_zeros s = s.
Proof.
  destruct s as [|c s]; [done|]. unfold starts_zero, HasPrefix. cbn [list_ascii_of_string starts trim_zeros]. rewrite andb_true_r, Ascii.eqb_sym. by intros ->.
Qed.

(** The local spelling, with any number of zeros, and the international one name the same subscriber. *)
Lemma local_is_international cc n zeros :
  all_digits cc -> cc <> "" -> starts_zero cc = false ->
  all_digits n -> n <> "" -> starts_zero n = false ->
  NormalizeWithCountry (cc ++ n) cc = (cc ++ n)%string /\
  NormalizeWithCountry ("0" ++ string_of_list_ascii (replicate zeros "0"%char) ++ n) cc = (cc ++ n)%string.
Proof.
  intros Hcc Hne Hz Hn Hnn Hnz. unfold NormalizeWithCountry. set (local := ("0" ++ _)%string).
  assert (all_digits local) as Hl.
  { apply all_digits_app. split; [by repeat constructor|]. apply all_digits_app. split; [|done].
    unfold all_digits. rewrite list_ascii_of_string_of_list_ascii. by apply Forall_replicate. }
  assert (trim_zeros local = n) as Et.
  { unfold local. simpl. clear Hl local. induction zeros as [|z IH]; [by apply trim_zeros_id|exact IH]. }
  rewrite (Normalize_digits (cc ++ n)) by (by apply all_digits_app). rewrite (Normalize_digits cc), (Normalize_digits local) by done.
  rewrite !all_digits_no_at by (done || by apply all_digits_app).
  destruct cc as [|c cc]; [done|]. simpl (is_empty _). cbn [orb]. split.
  - change (String c (cc ++ n))%string with (String c cc ++ n)%string. rewrite HasPrefix_app.
    assert (Nat.ltb (String.length (String c cc)) (String.length (String c cc ++ n)) = true) as ->; [|done].
    apply Nat.ltb_lt. clear -Hnn. induction (String c cc) as [|d l IH]; [destruct n; [done|apply Nat.lt_0_succ]|]. by apply -> Nat.succ_lt_mono.
  - unfold starts_zero, HasPrefix in Hz. cbn [list_ascii_of_string starts] in Hz. rewrite andb_true_r in Hz.
    assert (HasPrefix local (String c cc) = Ascii.eqb c "0" && starts (list_ascii_of_string cc)
      (list_ascii_of_string (string_of_list_ascii (replicate zeros "0"%char) ++ n))) as -> by reflexivity.
    rewrite Ascii.eqb_sym, Hz, Et. reflexivity.
Qed.

(** Normalising twice is normalising once. *)
Lemma NormalizeWithCountry_idem raw cc :
  all_digits (Normalize cc) -> starts_zero (Normalize cc) = false ->
  NormalizeWithCountry (NormalizeWithCountry raw cc) cc = NormalizeWithCountry raw cc.
Proof.
  intros Hc Hz. unfold NormalizeWithCountry at 2 3. set (n := Normalize raw). set (c := Normalize cc).
  assert (forall s, Normalize s = s -> (is_empty s || has_at s = false -> is_empty c = false ->
    HasPrefix s c && Nat.ltb (String.length c) (String.length s) = false -> starts_zero s = false) -> NormalizeWithCountry s cc = s) as Hid.
  { intros s Hs Hno. unfold NormalizeWithCountry. rewrite Hs. fold c.
    destruct (is_empty s || has_at s); [done|]. destruct (is_empty c); [done|].
    destruct (_ && _); [done|]. unfold starts_zero in Hno. by rewrite (Hno eq_refl eq_refl eq_refl). }
  destruct (is_empty n || has_at n) eqn:E1; [apply Hid; [apply Normalize_idem|by rewrite E1]|].
  destruct (is_empty c) eqn:E2; [apply Hid; [apply Normalize_idem|done]|].
  destruct (_ && _) eqn:E3; [apply Hid; [apply Normalize_idem|by rewrite E3]|].
  destruct (HasPrefix n "0") eqn:E4; [|apply Hid; [apply Normalize_idem|by unfold starts_zero]].
  apply orb_false_iff in E1 as [E1 Ha]. assert (all_digits n) as Hn by (by apply Normalize_nonempty_digits).
  assert (all_digits (trim_zeros n)) as Ht.
  { clear -Hn. induction n as [|x n IH]; [done|]. simpl. inversion Hn; subst. destruct (Ascii.eqb x "0"); [by apply IH|done]. }
  assert (all_digits (c ++ trim_zeros n)) as Hr by (by apply all_digits_app).
  apply Hid; [by apply Normalize_digits|]. intros _ _ _. revert Hz E2. unfold starts_zero, HasPrefix. fold c. by destruct c.
Qed.
