(* ===== verification/Store.v ===== *)
(** * The persistent store and the Go functions that use it

    Every service of the backend is a set of methods over a GORM handle.  A
    method is modelled as a computation [M A] over a [world]: the tables, the
    clock, the supply of fresh UUIDs, the log of the locks taken, and a
    schedule of driver faults.  A statement sent to the database can fail at
    any time ([faults]); inside a transaction a statement the server refuses
    aborts the transaction, as PostgreSQL does, and [transaction] is GORM's
    [db.Transaction]: commit on [nil], roll the tables back on an error.

    The query engine itself (GORM and PostgreSQL) is not part of the program.
    What the code relies on is the class [SqlLaws]: [First] returns a row that
    matches and that no matching row precedes in the requested order, [Find]
    returns matching rows without repetition, all of them when no limit cuts
    the result.  [sql_ref] is an engine with these laws. *)
From S2P Require Import Prelude.

(** ** Errors *)

Inductive err :=
| ErrRecordNotFound          (** [gorm.ErrRecordNotFound] *)
| ErrDriver                  (** the statement failed: connection, timeout, ... *)
| ErrTxAborted               (** a statement or commit in an aborted transaction *)
| ErrUnique                  (** a unique index refused the row *)
| ErrMsg (s : string)        (** [fmt.Errorf] with a message *)
| ErrSentinel (s : string).  (** a package's [errors.New] sentinel *)

#[export] Instance err_eq_dec : EqDecision err.
Proof. solve_decision. Defined.

(** A row lock or an advisory lock a statement takes. *)
Inductive lock_event :=
| LContact (contact : uuid)
| LConversation (id : uuid)
| LTransfer (id : uuid)
| LDeal (id : uuid).

#[export] Instance lock_event_eq_dec : EqDecision lock_event.
Proof. solve_decision. Defined.

(** ** The query engine *)

Class Sql := {
  (** [Where(p).Order(before).First]: the primary key of a matching row. *)
  sql_first : forall {R : Type}, (N -> R -> bool) -> (R -> R -> bool) -> gmap N R -> option N;
  (** [Where(p).Limit(n).Find]: the primary keys of the matching rows. *)
  sql_find : forall {R : Type}, (N -> R -> bool) -> option nat -> gmap N R -> list N
}.

Class SqlLaws `{Sql} : Prop := {
  first_sound : forall R p (lt : R -> R -> bool) (t : gmap N R) k,
    sql_first p lt t = Some k -> exists r, t !! k = Some r /\ p k r = true;
  first_least : forall R p (lt : R -> R -> bool) (t : gmap N R) k r k' r',
    (forall a, lt a a = false) ->
    (forall a b c, lt a b = true -> lt b c = true -> lt a c = true) ->
    sql_first p lt t = Some k -> t !! k = Some r ->
    t !! k' = Some r' -> p k' r' = true -> lt r' r = false;
  first_none : forall R p (lt : R -> R -> bool) (t : gmap N R),
    sql_first p lt t = None <-> (forall k r, t !! k = Some r -> p k r = false);
  find_sound : forall R p limit (t : gmap N R) k,
    k ∈ sql_find p limit t -> exists r, t !! k = Some r /\ p k r = true;
  find_nodup : forall R p limit (t : gmap N R), NoDup (sql_find p limit t);
  find_complete : forall R p limit (t : gmap N R) k r,
    t !! k = Some r -> p k r = true ->
    k ∈ sql_find p limit t \/ (exists n, limit = Some n /\ length (sql_find p limit t) = n)
}.

(** No [Order] clause. *)
Definition unordered {R} (_ _ : R) : bool := false.

(** ** Worlds and computations *)

Section World.
Context {DB : Type}.

Record world := World {
  w_db : DB;
  w_now : time;              (* what [time.Now().UTC()] returns *)
  w_uuid : N;                (* the next UUID of [uuid.New()] *)
  w_faults : list bool;      (* [true]: the next statement fails in the driver *)
  w_aborted : bool;          (* the open transaction was aborted by the server *)
  w_in_tx : bool;            (* a transaction is open *)
  w_locks : list lock_event  (* locks taken, oldest first *)
}.

Definition set_db (d : DB) (w : world) : world :=
  World d (w_now w) (w_uuid w) (w_faults w) (w_aborted w) (w_in_tx w) (w_locks w).
Definition set_uuid (u : N) (w : world) : world :=
  World (w_db w) (w_now w) u (w_faults w) (w_aborted w) (w_in_tx w) (w_locks w).
Definition set_faults (f : list bool) (w : world) : world :=
  World (w_db w) (w_now w) (w_uuid w) f (w_aborted w) (w_in_tx w) (w_locks w).
Definition set_aborted (b : bool) (w : world) : world :=
  World (w_db w) (w_now w) (w_uuid w) (w_faults w) b (w_in_tx w) (w_locks w).
Definition set_in_tx (b : bool) (w : world) : world :=
  World (w_db w) (w_now w) (w_uuid w) (w_faults w) (w_aborted w) b (w_locks w).
Definition add_locks (l : list lock_event) (w : world) : world :=
  World (w_db w) (w_now w) (w_uuid w) (w_faults w) (w_aborted w) (w_in_tx w) (w_locks w ++ l).

Definition M (A : Type) : Type := world -> res err A * world.

Definition ret {A} (a : A) : M A := fun w => (Ok a, w).
Definition fail {A} (e : err) : M A := fun w => (Err e, w).
Definition bind {A B} (m : M A) (k : A -> M B) : M B := fun w =>
  match m w with
  | (Ok a, w1) => k a w1
  | (Err e, w1) => (Err e, w1)
  end.

(** [x, err := m]: the error becomes a value the caller inspects. *)
Definition try {A} (m : M A) : M (res err A) := fun w =>
  let '(r, w1) := m w in (Ok r, w1).

Definition now : M time := fun w => (Ok (w_now w), w).
Definition uuid_New : M uuid := fun w => (Ok (w_uuid w), set_uuid (w_uuid w + 1)%N w).
Definition get_db : M DB := fun w => (Ok (w_db w), w).

(** Which errors come from the server and so abort the open transaction. *)
Definition aborts (e : err) : bool :=
  match e with ErrDriver | ErrUnique | ErrTxAborted => true | _ => false end.

(** One statement: it may fail in the driver, or be refused. *)
Definition stmt {A} (locks : DB -> list lock_event) (f : DB -> res err A * DB) : M A := fun w =>
  if w_aborted w then (Err ErrTxAborted, w)
  else match w_faults w with
  | true :: fs => (Err ErrDriver, set_aborted (w_in_tx w) (set_faults fs w))
  | fs =>
      let w := set_faults (tl fs) w in
      match f (w_db w) with
      | (Ok a, d) => (Ok a, set_db d (add_locks (locks (w_db w)) w))
      | (Err e, _) => (Err e, if aborts e then set_aborted (w_in_tx w) w else w)
      end
  end.

Definition no_locks : DB -> list lock_event := fun _ => [].

(** A [SELECT]. *)
Definition query {A} (f : DB -> res err A) : M A := stmt no_locks (fun d => (f d, d)).

(** [db.Transaction(func(tx) error {...})] whose function also fills a
    variable of its caller: it commits when [commit] accepts what the
    function computed and rolls the tables back otherwise; the caller sees
    the value either way. *)
Definition transaction_if {A} (commit : A -> bool) (body : M A) : M A := fun w =>
  let '(r, w1) := bind (stmt no_locks (fun d => (Ok tt, d))) (fun _ => body)
                    (set_in_tx true (set_aborted false w)) in
  let close d := set_db d (set_in_tx false (set_aborted false w1)) in
  match r with
  | Err e => (Err e, close (w_db w))
  | Ok a =>
      if negb (commit a) then (Ok a, close (w_db w))
      else if w_aborted w1 then (Err ErrTxAborted, close (w_db w))
      else match w_faults w1 with
      | true :: fs => (Err ErrDriver, set_faults fs (close (w_db w)))
      | fs => (Ok a, set_faults (tl fs) (close (w_db w1)))
      end
  end.

Definition transaction {A} (body : M A) : M A := transaction_if (fun _ => true) body.

(** What other connections commit between two statements of this one. *)
Definition interleave (others : DB -> DB) : M unit := fun w => (Ok tt, set_db (others (w_db w)) w).
End World.
Arguments world : clear implicits.
Arguments M : clear implicits.

(** A call that knows a part of the tables, made on all of them. *)
Definition see {S T} (d : T) (w : world S) : world T :=
  World d (w_now w) (w_uuid w) (w_faults w) (w_aborted w) (w_in_tx w) (w_locks w).

Definition zoom {S T A} (get : S -> T) (put : T -> S -> S) (m : M T A) : M S A := fun w =>
  let '(r, w1) := m (see (get (w_db w)) w) in (r, see (put (w_db w1) (w_db w)) w1).

Declare Scope store_scope.
Delimit Scope store_scope with store.
Notation "x <- m ;; k" := (bind m (fun x => k))
  (at level 100, m at next level, right associativity) : store_scope.
Notation "m ;;; k" := (bind m (fun _ => k))
  (at level 100, right associativity) : store_scope.
#[global] Open Scope store_scope.

(** ** A reference engine *)

Section Reference.
Context {R : Type}.
Implicit Types (p : N -> R -> bool) (lt : R -> R -> bool) (t : gmap N R).

Definition ref_rows p t : list (N * R) :=
  List.filter (fun kr => p kr.1 kr.2) (map_to_list t).

Definition ref_min lt (acc : option (N * R)) (kr : N * R) : option (N * R) :=
  match acc with
  | None => Some kr
  | Some a => if lt kr.2 a.2 then Some kr else Some a
  end.

Definition ref_first p lt t : option N :=
  fst <$> fold_left (ref_min lt) (ref_rows p t) None.

Definition ref_find p (limit : option nat) t : list N :=
  let ks := fst <$> ref_rows p t in
  match limit with None => ks | Some n => take n ks end.

Lemma ref_rows_in p t k r : (k, r) ∈ ref_rows p t <-> t !! k = Some r /\ p k r = true.
Proof.
  unfold ref_rows. rewrite list_elem_of_In, filter_In, <- list_elem_of_In, elem_of_map_to_list.
  done.
Qed.

Lemma ref_rows_fst_nodup p t : NoDup (fst <$> ref_rows p t).
Proof.
  unfold ref_rows. pose proof (NoDup_fst_map_to_list t) as Hnd. revert Hnd.
  induction (map_to_list t) as [|x l IH]; simpl; [constructor|].
  intros Hnd. apply NoDup_cons in Hnd as [Hx Hnd].
  destruct (p x.1 x.2); simpl; [|by apply IH].
  apply NoDup_cons. split; [|by apply IH].
  intros Hin. apply Hx. apply list_elem_of_fmap in Hin as (y & -> & Hy).
  apply list_elem_of_fmap. exists y. split; [done|].
  apply list_elem_of_In in Hy. apply filter_In in Hy as [Hy _]. by apply list_elem_of_In.
Qed.

Lemma ref_min_fold_in lt l acc res :
  fold_left (ref_min lt) l acc = Some res -> res ∈ l \/ acc = Some res.
Proof.
  revert acc. induction l as [|y l IH]; simpl; intros acc Hf; [by right|].
  apply IH in Hf as [Hin|Hin]; [left; by right|].
  destruct acc as [a|]; simpl in Hin; [destruct (lt y.2 a.2)|]; simplify_eq;
    first [by right | left; by left].
Qed.

(** The fold keeps a row no row it has seen precedes. *)
Lemma ref_min_fold lt l acc res :
  (forall a b c, lt a b = true -> lt b c = true -> lt a c = true) ->
  (forall a, lt a a = false) ->
  fold_left (ref_min lt) l acc = Some res ->
  (forall a, acc = Some a -> res = a \/ lt res.2 a.2 = true) /\
  (forall x, x ∈ l -> lt x.2 res.2 = false).
Proof.
  intros Htr Hirr. revert acc.
  assert (Hbelow : forall x a : N * R, res = a \/ lt res.2 a.2 = true ->
            lt x.2 a.2 = false -> lt x.2 res.2 = false).
  { intros x a [->|H] Hx; [done|]. destruct (lt x.2 res.2) eqn:E; [|done].
    by rewrite <- Hx, (Htr _ _ _ E H). }
  induction l as [|y l IH]; simpl; intros acc Hf.
  - subst acc. split; [naive_solver|]. by intros x Hx%not_elem_of_nil.
  - apply IH in Hf as (Hacc & Hmin). destruct acc as [a|]; simpl in *.
    + destruct (lt y.2 a.2) eqn:Hya.
      * split.
        -- intros ? [= <-]. right. destruct (Hacc y eq_refl) as [->|H]; eauto.
        -- intros x [->|Hx]%elem_of_cons; [|by apply Hmin]. by eapply Hbelow; eauto.
      * split; [by apply Hacc|].
        intros x [->|Hx]%elem_of_cons; [|by apply Hmin]. by eapply Hbelow; eauto.
    + split; [done|].
      intros x [->|Hx]%elem_of_cons; [|by apply Hmin]. by eapply Hbelow; eauto.
Qed.

Lemma ref_min_fold_some lt l a : is_Some (fold_left (ref_min lt) l (Some a)).
Proof.
  revert a. induction l as [|z l IH]; simpl; intros a; [eauto|].
  destruct (lt z.2 a.2); apply IH.
Qed.

End Reference.

Definition sql_ref : Sql := {| sql_first := @ref_first; sql_find := @ref_find |}.

#[export] Instance sql_ref_laws : @SqlLaws sql_ref.
Proof.
  split; simpl.
  - intros R p lt t k. unfold ref_first.
    destruct (fold_left _ _ _) as [[k' r]|] eqn:E; simpl; [intros [= ->]|done].
    apply ref_min_fold_in in E as [Hin|?]; [|done]. exists r. by apply ref_rows_in.
  - intros R p lt t k r k' r' Hirr Htr. unfold ref_first.
    destruct (fold_left _ _ _) as [[k0 r0]|] eqn:E; simpl; [intros [= ->]|done].
    intros Hk Hk' Hp.
    pose proof (ref_min_fold_in _ _ _ _ E) as [Hin|?]; [|done].
    apply ref_rows_in in Hin as [Hr0 _]. simplify_eq.
    apply ref_min_fold in E as [_ Hmin]; [|done|done].
    apply (Hmin (k', r')). by apply ref_rows_in.
  - intros R p lt t. unfold ref_first. split.
    + destruct (ref_rows p t) as [|y l] eqn:E; simpl.
      * intros _ k r Hk. destruct (p k r) eqn:Hp; [|done].
        exfalso. eapply (not_elem_of_nil (k, r)). rewrite <- E. by apply ref_rows_in.
      * destruct (ref_min_fold_some lt l y) as [? ->]. done.
    + intros Hno. destruct (ref_rows p t) as [|[k r] l] eqn:E; [done|].
      assert ((k, r) ∈ ref_rows p t) as Hin by (rewrite E; by left).
      apply ref_rows_in in Hin as [Hk Hp]. by rewrite (Hno k r Hk) in Hp.
  - intros R p limit t k Hin.
    assert (k ∈ fst <$> ref_rows p t) as Hk.
    { unfold ref_find in Hin. destruct limit; [|done].
      by eapply elem_of_take in Hin as (i & Hi & _); eapply list_elem_of_lookup_2. }
    apply list_elem_of_fmap in Hk as ([k' r] & -> & Hk). exists r. by apply ref_rows_in.
  - intros R p limit t. unfold ref_find. pose proof (ref_rows_fst_nodup p t) as H.
    destruct limit as [n|]; [|done]. rewrite <- (take_drop n) in H. by apply NoDup_app in H as (? & _).
  - intros R p limit t k r Hk Hp. unfold ref_find.
    assert (k ∈ fst <$> ref_rows p t) as Hin.
    { apply list_elem_of_fmap. exists (k, r). split; [done|]. by apply ref_rows_in. }
    destruct limit as [n|]; [|by left].
    destruct (decide (length (fst <$> ref_rows p t) <= n)%nat).
    + left. by rewrite take_ge.
    + right. exists n. split; [done|]. rewrite length_take. lia.
Qed.

(** ** Inverting successful runs *)

Section Inversion.
Context {DB : Type}.
Implicit Types w : world DB.

(** The world after a statement that went through. *)
Definition after_stmt (locks : list lock_event) (d : DB) w : world DB :=
  set_db d (add_locks locks (set_faults (tl (w_faults w)) w)).

Lemma bind_ok_inv {A B} (m : M DB A) (k : A -> M DB B) w b w' :
  bind m k w = (Ok b, w') -> exists a w1, m w = (Ok a, w1) /\ k a w1 = (Ok b, w').
Proof. unfold bind. destruct (m w) as [[a|e] w1]; [eauto|done]. Qed.

Lemma ret_ok_inv {A} (a b : A) w w' : ret a w = (Ok b, w') -> b = a /\ w' = w.
Proof. by intros [= -> ->]. Qed.

Lemma try_ok_inv {A} (m : M DB A) w r w' : try m w = (Ok r, w') -> m w = (r, w').
Proof. unfold try. destruct (m w). by intros [= -> ->]. Qed.

Lemma now_ok_inv w t w' : now w = (Ok t, w') -> t = w_now w /\ w' = w.
Proof. by intros [= <- <-]. Qed.

Lemma uuid_New_ok_inv w u w' :
  uuid_New w = (Ok u, w') -> u = w_uuid w /\ w' = set_uuid (w_uuid w + 1)%N w.
Proof. by intros [= <- <-]. Qed.

Lemma stmt_ok_inv {A} locks (f : DB -> res err A * DB) w a w' :
  stmt locks f w = (Ok a, w') ->
  exists d, f (w_db w) = (Ok a, d) /\ w_aborted w = false /\
            w' = after_stmt (locks (w_db w)) d w.
Proof.
  unfold stmt, after_stmt. destruct (w_aborted w) eqn:Hab; [done|].
  destruct (w_faults w) as [|[] fs] eqn:Hf; [|done|];
    simpl; destruct (f (w_db w)) as [[a'|e] d] eqn:E; try done;
    intros [= -> <-]; eauto.
Qed.

Lemma zoom_inv {T A} (get : DB -> T) put (m : M T A) w r w' :
  zoom get put m w = (r, w') ->
  exists part : world T, m (see (get (w_db w)) w) = (r, part) /\ w' = see (put (w_db part) (w_db w)) part.
Proof. unfold zoom. destruct (m _) as [r1 part]. intros [= -> <-]. eauto. Qed.

Lemma query_ok_inv {A} (f : DB -> res err A) w a w' :
  query f w = (Ok a, w') ->
  f (w_db w) = Ok a /\ w_aborted w = false /\ w' = after_stmt [] (w_db w) w.
Proof. intros H. apply stmt_ok_inv in H as (d & Hf & ? & ->). by simplify_eq. Qed.

(** An inspected error of a query leaves the tables alone; if the server
    reported it, the open transaction is aborted. *)
Lemma query_err_inv {A} (f : DB -> res err A) w e w' :
  query f w = (Err e, w') ->
  w_db w' = w_db w /\ w_now w' = w_now w /\ w_uuid w' = w_uuid w /\
  w_in_tx w' = w_in_tx w /\ w_locks w' = w_locks w /\
  ((f (w_db w) = Err e /\ aborts e = false /\ w_aborted w' = w_aborted w) \/
   (w_in_tx w = true -> w_aborted w' = true)).
Proof.
  unfold query, stmt. destruct (w_aborted w) eqn:Hab.
  { intros [= <- <-]. naive_solver. }
  destruct (w_faults w) as [|[] fs] eqn:Hf; simpl.
  - destruct (f (w_db w)) as [?|e'] eqn:E; [done|].
    intros [= <- <-]. destruct (aborts e') eqn:?; simpl; naive_solver.
  - intros [= <- <-]. simpl. naive_solver.
  - destruct (f (w_db w)) as [?|e'] eqn:E; [done|].
    intros [= <- <-]. destruct (aborts e') eqn:?; simpl; naive_solver.
Qed.

(** An error that does not come from the server: the statement ran. *)
Lemma stmt_benign_inv {A} locks (f : DB -> res err A * DB) w e w' :
  stmt locks f w = (Err e, w') -> aborts e = false ->
  fst (f (w_db w)) = Err e /\ w_aborted w = false /\ w' = set_faults (tl (w_faults w)) w.
Proof.
  unfold stmt. destruct (w_aborted w) eqn:Hab; [by intros [= <- _]|].
  destruct (w_faults w) as [|[] fs] eqn:Hf; [|by intros [= <- _]|];
    simpl; destruct (f (w_db w)) as [[?|e'] ?] eqn:E; try done;
    intros [= <- <-] Ha; rewrite Ha; done.
Qed.

Lemma query_benign_inv {A} (f : DB -> res err A) w e w' :
  query f w = (Err e, w') -> aborts e = false ->
  f (w_db w) = Err e /\ w_aborted w = false /\ w' = set_faults (tl (w_faults w)) w.
Proof. apply stmt_benign_inv. Qed.

(** A statement never repairs an aborted transaction. *)
Lemma stmt_aborted {A} locks (f : DB -> res err A * DB) w :
  w_aborted w = true -> stmt locks f w = (Err ErrTxAborted, w).
Proof. intros H. unfold stmt. by rewrite H. Qed.

(** A transaction that reports an error left the tables as they were. *)
Lemma transaction_if_err {A} commit (body : M DB A) w e w' :
  transaction_if commit body w = (Err e, w') -> w_db w' = w_db w.
Proof.
  unfold transaction_if. destruct (bind _ _ _) as [[a|e'] w1]; [|by intros [= _ <-]].
  destruct (negb (commit a)); [done|].
  destruct (w_aborted w1); [by intros [= _ <-]|].
  destruct (w_faults w1) as [|[] fs]; [done|by intros [= _ <-]|done].
Qed.

Lemma transaction_err {A} (body : M DB A) w e w' :
  transaction body w = (Err e, w') -> w_db w' = w_db w.
Proof. apply transaction_if_err. Qed.

(** The world a transaction body starts in, and the one a commit leaves. *)
Definition tx_start w : world DB :=
  after_stmt [] (w_db w) (set_in_tx true (set_aborted false w)).
Definition tx_commit w : world DB :=
  set_faults (tl (w_faults w)) (set_in_tx false (set_aborted false w)).

Lemma transaction_if_ok_inv {A} commit (body : M DB A) w a w' :
  transaction_if commit body w = (Ok a, w') ->
  exists w1, body (tx_start w) = (Ok a, w1) /\
    ((commit a = true /\ w_aborted w1 = false /\ w' = tx_commit w1) \/
     (commit a = false /\ w_db w' = w_db w)).
Proof.
  unfold transaction_if. destruct (bind _ _ _) as [[a'|e'] w1] eqn:E; [|done].
  apply bind_ok_inv in E as ([] & w0 & E0 & E).
  apply stmt_ok_inv in E0 as (d & [= <-] & _ & ->). simpl in E.
  destruct (commit a') eqn:Hc; simpl; [|intros [= -> <-]; eauto 10].
  destruct (w_aborted w1) eqn:Hab; [done|].
  destruct (w_faults w1) as [|[] fs] eqn:Hf; [|done|];
    intros [= -> <-]; exists w1; unfold tx_commit; rewrite Hf; auto 10.
Qed.

Lemma transaction_ok_inv {A} (body : M DB A) w a w' :
  transaction body w = (Ok a, w') ->
  exists w1, body (tx_start w) = (Ok a, w1) /\ w_aborted w1 = false /\ w' = tx_commit w1.
Proof.
  intros H. apply transaction_if_ok_inv in H as (w1 & H & [(_ & ? & ?)|(? & _)]); [eauto|done].
Qed.

(** ** Runs without faults *)

(** No statement will fail in the driver. *)
Definition quiet w : Prop := w_faults w = [] /\ w_aborted w = false.

Lemma quiet_after_stmt locks d w : quiet w -> quiet (after_stmt locks d w).
Proof. unfold quiet, after_stmt. simpl. by intros [-> ->]. Qed.

Lemma quiet_tx_start w : quiet w -> quiet (tx_start w).
Proof. unfold quiet. simpl. by intros [-> _]. Qed.

Lemma quiet_tx_commit w : quiet w -> quiet (tx_commit w).
Proof. unfold quiet. simpl. by intros [-> _]. Qed.

Lemma stmt_quiet {A} locks (f : DB -> res err A * DB) w a d :
  quiet w -> f (w_db w) = (Ok a, d) ->
  stmt locks f w = (Ok a, after_stmt (locks (w_db w)) d w).
Proof.
  intros [Hf Hab] E. unfold stmt, after_stmt. rewrite Hab, Hf. simpl. by rewrite E.
Qed.

Lemma query_quiet {A} (f : DB -> res err A) w a :
  quiet w -> f (w_db w) = Ok a -> query f w = (Ok a, after_stmt [] (w_db w) w).
Proof. intros Hq E. unfold query. erewrite stmt_quiet; eauto. by rewrite E. Qed.

Lemma query_quiet_err {A} (f : DB -> res err A) w e :
  quiet w -> f (w_db w) = Err e -> aborts e = false ->
  query f w = (Err e, set_faults [] w).
Proof.
  intros [Hf Hab] E Ha. unfold query, stmt. rewrite Hab, Hf. simpl. by rewrite E, Ha.
Qed.

Lemma bind_run {A B} (m : M DB A) (k : A -> M DB B) w a w1 :
  m w = (Ok a, w1) -> bind m k w = k a w1.
Proof. intros E. unfold bind. by rewrite E. Qed.

Lemma transaction_quiet {A} (body : M DB A) w a w1 :
  quiet w -> body (tx_start w) = (Ok a, w1) -> quiet w1 ->
  transaction body w = (Ok a, tx_commit w1).
Proof.
  intros Hq E [Hf1 Hab1]. unfold transaction, transaction_if.
  erewrite (bind_run (stmt no_locks _)).
  2:{ apply stmt_quiet; [|done]. destruct Hq. done. }
  change (after_stmt _ _ _) with (tx_start w). rewrite E, Hab1, Hf1. simpl.
  unfold tx_commit. by rewrite Hf1.
Qed.

Lemma interleave_ok_inv (f : DB -> DB) w u w' :
  interleave f w = (Ok u, w') -> w' = set_db (f (w_db w)) w.
Proof. by intros [= _ <-]. Qed.
End Inversion.

(** ** What a computation can do to the tables, whatever fails *)

(** Every run, successful or not, takes the tables along [R]. *)
Definition moves {DB A} (R : DB -> DB -> Prop) (m : M DB A) : Prop :=
  forall w r w', m w = (r, w') -> R (w_db w) (w_db w').

(** [I] survives. *)
Definition keeps {DB} (I : DB -> Prop) (d d' : DB) : Prop := I d -> I d'.

#[export] Instance keeps_preorder {DB} (I : DB -> Prop) : PreOrder (keeps I).
Proof. split; unfold keeps; [intros d; tauto|intros a b c; tauto]. Qed.

Section Moves.
Context {DB : Type} (R : DB -> DB -> Prop) `{!PreOrder R}.

Lemma moves_ret {A} (a : A) : moves R (ret a).
Proof. intros w r w' [= _ <-]. reflexivity. Qed.

Lemma moves_fail {A} (e : err) : moves R (@fail DB A e).
Proof. intros w r w' [= _ <-]. reflexivity. Qed.

Lemma moves_now : moves R now.
Proof. intros w r w' [= _ <-]. reflexivity. Qed.

Lemma moves_uuid_New : moves R uuid_New.
Proof. intros w r w' [= _ <-]. reflexivity. Qed.

Lemma moves_get_db : moves R get_db.
Proof. intros w r w' [= _ <-]. reflexivity. Qed.

Lemma moves_bind {A B} (m : M DB A) (k : A -> M DB B) :
  moves R m -> (forall a, moves R (k a)) -> moves R (bind m k).
Proof.
  intros Hm Hk w r w' E. unfold bind in E. destruct (m w) as [[a|e] w1] eqn:E1.
  - etrans; [by eapply Hm|by eapply Hk].
  - simplify_eq. by eapply Hm.
Qed.

Lemma moves_try {A} (m : M DB A) : moves R m -> moves R (try m).
Proof. intros Hm w r w' E. unfold try in E. destruct (m w) eqn:E1. simplify_eq. by eapply Hm. Qed.

Lemma moves_stmt {A} locks (f : DB -> res err A * DB) :
  (forall d a d', f d = (Ok a, d') -> R d d') -> moves R (stmt locks f).
Proof.
  intros Hf w r w' E. unfold stmt in E. destruct (w_aborted w); [simplify_eq; reflexivity|].
  destruct (w_faults w) as [|[] fs]; [|simplify_eq; reflexivity|];
    simpl in E; destruct (f (w_db w)) as [[a|e] d] eqn:E1; simplify_eq; simpl;
    try (destruct (aborts e); simpl); try reflexivity; by eapply Hf.
Qed.

Lemma moves_query {A} (f : DB -> res err A) : moves R (query f).
Proof. apply moves_stmt. intros d a d' [= _ <-]. reflexivity. Qed.

Lemma moves_transaction_if {A} commit (body : M DB A) :
  moves R body -> moves R (transaction_if commit body).
Proof.
  intros Hb w [a|e] w' E.
  - apply transaction_if_ok_inv in E as (w1 & E & [(_ & _ & ->)|(_ & ->)]); [|reflexivity].
    apply Hb in E. done.
  - apply transaction_if_err in E as ->. reflexivity.
Qed.

Lemma moves_transaction {A} (body : M DB A) : moves R body -> moves R (transaction body).
Proof. apply moves_transaction_if. Qed.

(** A transaction needs to take the tables along [R] only when it commits. *)
Lemma moves_transaction_ok {A} (body : M DB A) :
  (forall w a w', body w = (Ok a, w') -> R (w_db w) (w_db w')) -> moves R (transaction body).
Proof.
  intros Hb w [a|e] w' E.
  - apply transaction_ok_inv in E as (w1 & E & _ & ->). by apply Hb in E.
  - apply transaction_err in E as ->. reflexivity.
Qed.

Lemma moves_interleave (others : DB -> DB) : (forall d, R d (others d)) -> moves R (interleave others).
Proof. intros Ho w r w' [= _ <-]. apply Ho. Qed.
End Moves.

(** A call on a part moves the whole as it moves the part. *)
Lemma moves_zoom {S T A} (get : S -> T) put (R : S -> S -> Prop) (R' : T -> T -> Prop) (m : M T A) :
  moves R' m -> (forall s t, R' (get s) t -> R s (put t s)) -> moves R (zoom get put m).
Proof.
  intros Hm Hput w r w' E. unfold zoom in E. destruct (m _) as [r1 w1] eqn:E1. simplify_eq. simpl.
  apply Hput. by apply Hm in E1.
Qed.

(** ** Calls that change nothing when they fail *)

Definition rolls_back {DB A} (m : M DB A) : Prop := forall w e w', m w = (Err e, w') -> w_db w' = w_db w.

(** A call that only reads. *)
Abbreviation reads := (moves eq).

Section RollsBack.
Context {DB : Type}.

Lemma reads_rolls_back {A} (m : M DB A) : reads m -> rolls_back m.
Proof. intros Hm w e w' E. symmetry. by eapply Hm. Qed.

Lemma rolls_back_transaction {A} (body : M DB A) : rolls_back (transaction body).
Proof. intros w e w'. apply transaction_err. Qed.

(** A statement that fails changes nothing. *)
Lemma rolls_back_stmt {A} locks (f : DB -> res err A * DB) : rolls_back (stmt locks f).
Proof.
  intros w e w' E. unfold stmt in E. destruct (w_aborted w); [by injection E as _ <-|].
  destruct (w_faults w) as [|[] fs]; [|by injection E as _ <-|];
    simpl in E; destruct (f (w_db w)) as [[a|e'] d]; simplify_eq; by destruct (aborts e).
Qed.

Lemma rolls_back_bind {A B} (m : M DB A) (k : A -> M DB B) :
  reads m -> (forall a, rolls_back (k a)) -> rolls_back (bind m k).
Proof.
  intros Hm Hk w e w' E. unfold bind in E. destruct (m w) as [[a|e'] w1] eqn:E1; apply Hm in E1; rewrite E1.
  - by eapply Hk.
  - by simplify_eq.
Qed.

Lemma rolls_back_last {A B} (m : M DB A) (f : A -> B) : rolls_back m -> rolls_back (bind m (fun a => ret (f a))).
Proof.
  intros Hm w e w' E. unfold bind, ret in E. destruct (m w) as [[a|e'] w1] eqn:E1; [done|].
  simplify_eq. by eapply Hm.
Qed.
End RollsBack.

(** ** Pre- and postconditions, whatever fails *)

(** From tables with [P], any run ends in a result and tables with [Q]. *)
Definition triple {DB A} (P : DB -> Prop) (m : M DB A) (Q : res err A -> DB -> Prop) : Prop :=
  forall w r w', P (w_db w) -> m w = (r, w') -> Q r (w_db w').

(** A condition on the value of a call that went through; the invariant [I] in any case. *)
Definition on_ok {DB A} (I : DB -> Prop) (Q : A -> DB -> Prop) (r : res err A) (d : DB) : Prop :=
  match r with Ok a => Q a d | Err _ => I d end.

Section Triples.
Context {DB : Type}.
Implicit Types P I : DB -> Prop.

Lemma triple_ret {A} P (a : A) (Q : res err A -> DB -> Prop) : (forall d, P d -> Q (Ok a) d) -> triple P (ret a) Q.
Proof. intros HQ w r w' Hp [= <- <-]. by apply HQ. Qed.

Lemma triple_fail {A} P e (Q : res err A -> DB -> Prop) : (forall d, P d -> Q (Err e) d) -> triple P (fail e) Q.
Proof. intros HQ w r w' Hp [= <- <-]. by apply HQ. Qed.

Lemma triple_now P (Q : res err time -> DB -> Prop) : (forall t d, P d -> Q (Ok t) d) -> triple P now Q.
Proof. intros HQ w r w' Hp [= <- <-]. by apply HQ. Qed.

Lemma triple_uuid P (Q : res err uuid -> DB -> Prop) : (forall u d, P d -> Q (Ok u) d) -> triple P uuid_New Q.
Proof. intros HQ w r w' Hp [= <- <-]. by apply HQ. Qed.

Lemma triple_bind {A B} P (R : A -> DB -> Prop) (m : M DB A) (k : A -> M DB B) (Q : res err B -> DB -> Prop) :
  triple P m (fun r d => match r with Ok a => R a d | Err e => Q (Err e) d end) ->
  (forall a, triple (R a) (k a) Q) -> triple P (bind m k) Q.
Proof.
  intros Hm Hk w r w' Hp E. unfold bind in E. destruct (m w) as [[a|e] w1] eqn:E1; apply (Hm _ _ _ Hp) in E1.
  - by apply (Hk a _ _ _ E1).
  - by simplify_eq.
Qed.

(** The first call keeps the precondition. *)
Lemma triple_then {A B} P (m : M DB A) (k : A -> M DB B) (Q : res err B -> DB -> Prop) :
  triple P m (fun _ => P) -> (forall e d, P d -> Q (Err e) d) -> (forall a, triple P (k a) Q) -> triple P (bind m k) Q.
Proof.
  intros Hm He Hk. apply (triple_bind P (fun _ => P)); [|done]. intros w [a|e] w' Hp E; apply (Hm _ _ _ Hp) in E; [done|by apply He].
Qed.

Lemma triple_try {A} P (m : M DB A) (Q : res err (res err A) -> DB -> Prop) :
  triple P m (fun r d => Q (Ok r) d) -> triple P (try m) Q.
Proof. intros Hm w r w' Hp E. unfold try in E. destruct (m w) eqn:E1. simplify_eq. by apply (Hm _ _ _ Hp). Qed.

Lemma triple_stmt {A} P locks (f : DB -> res err A * DB) (Q : res err A -> DB -> Prop) :
  (forall d a d', P d -> f d = (Ok a, d') -> Q (Ok a) d') -> (forall e d, P d -> Q (Err e) d) -> triple P (stmt locks f) Q.
Proof.
  intros Hok Herr w r w' Hp E. unfold stmt in E. destruct (w_aborted w); [simplify_eq; by apply Herr|].
  destruct (w_faults w) as [|[] fs]; [|simplify_eq; by apply Herr|];
    simpl in E; destruct (f (w_db w)) as [[a|e] d] eqn:E1; simplify_eq; simpl; try (by eapply Hok);
    destruct (aborts e); by apply Herr.
Qed.

Lemma triple_query {A} P (f : DB -> res err A) (Q : res err A -> DB -> Prop) :
  (forall d a, P d -> f d = Ok a -> Q (Ok a) d) -> (forall e d, P d -> Q (Err e) d) -> triple P (query f) Q.
Proof. intros Hok Herr. apply triple_stmt; [|done]. intros d a d' Hp [= E <-]. by apply Hok. Qed.

(** A transaction that fails leaves the tables it found. *)
Lemma triple_transaction {A} P (body : M DB A) (Q : A -> DB -> Prop) :
  triple P body (fun r d => match r with Ok a => Q a d | Err _ => True end) ->
  triple P (transaction body) (on_ok P Q).
Proof.
  intros Hb w [a|e] w' Hp E; simpl.
  - apply transaction_ok_inv in E as (w1 & E & _ & ->). by apply (Hb (tx_start w) _ _ Hp) in E.
  - by apply transaction_err in E as ->.
Qed.

Lemma triple_conseq {A} P P' (m : M DB A) (Q Q' : res err A -> DB -> Prop) :
  triple P' m Q' -> (forall d, P d -> P' d) -> (forall r d, Q' r d -> Q r d) -> triple P m Q.
Proof. intros Hm Hp Hq w r w' Hw E. apply Hq. by apply (Hm w r w' (Hp _ Hw)). Qed.

(** A fact the precondition gives. *)
Lemma triple_assume {A} P (F : Prop) (m : M DB A) (Q : res err A -> DB -> Prop) :
  (forall d, P d -> F) -> (F -> triple P m Q) -> triple P m Q.
Proof. intros HF Hm w r w' Hp. apply (Hm (HF _ Hp) w r w' Hp). Qed.

Lemma triple_keeps {A} P (m : M DB A) : triple P m (fun _ => P) <-> moves (keeps P) m.
Proof. split; [intros Hm w r w' E Hp|intros Hm w r w' Hp E]; by apply (Hm w r w'). Qed.

Lemma triple_zoom {T A} P (get : DB -> T) put (before : T -> Prop) (m : M T A) (after : res err A -> T -> Prop) (Q : res err A -> DB -> Prop) :
  triple before m after -> (forall d, P d -> before (get d)) -> (forall d r t, P d -> after r t -> Q r (put t d)) ->
  triple P (zoom get put m) Q.
Proof.
  intros Hm Hget Hput w r w' Hp E. unfold zoom in E. destruct (m _) as [r1 w1] eqn:E1. simplify_eq. simpl.
  apply Hput; [done|]. eapply Hm; [|exact E1]. by apply Hget.
Qed.

Lemma triple_reads {A} P (m : M DB A) : moves eq m -> triple P m (fun _ d => P d).
Proof. intros Hm w r w' Hp E. apply Hm in E. by rewrite <- E. Qed.
End Triples.

(** Reduces [moves R m] to the statements of [m] that write. *)
Ltac moves_step :=
  lazymatch goal with
  | |- moves _ (bind _ _) => apply moves_bind; [..|intros ?]
  | |- moves _ (ret _) => apply moves_ret
  | |- moves _ (fail _) => apply moves_fail
  | |- moves _ now => apply moves_now
  | |- moves _ uuid_New => apply moves_uuid_New
  | |- moves _ get_db => apply moves_get_db
  | |- moves _ (try _) => apply moves_try
  | |- moves _ (query _) => apply moves_query
  | |- moves _ (transaction_if _ _) => apply moves_transaction_if
  | |- moves _ (transaction _) => apply moves_transaction
  | |- moves _ (match ?x with _ => _ end) => destruct x eqn:?
  | |- moves _ (let _ := _ in _) => cbv zeta
  end.
Ltac solve_moves := repeat first [progress moves_step | typeclasses eauto | solve [eauto with crm]].

(** ** Computing a run on a healthy database *)

Section Healthy.
Context {DB : Type}.
Implicit Types d : DB.

(** No driver fault to come, no aborted transaction. *)
Definition healthy d (n : time) (u : N) (tx : bool) (l : list lock_event) : world DB :=
  World d n u [] false tx l.

Lemma stmt_healthy {A} locks (f : DB -> res err A * DB) d n u tx l a d' :
  f d = (Ok a, d') -> stmt locks f (healthy d n u tx l) = (Ok a, healthy d' n u tx (l ++ locks d)).
Proof. intros E. unfold stmt, healthy. simpl. by rewrite E. Qed.

Lemma query_healthy {A} (f : DB -> res err A) d n u tx l a :
  f d = Ok a -> query f (healthy d n u tx l) = (Ok a, healthy d n u tx l).
Proof.
  intros E. unfold query. erewrite stmt_healthy by (by rewrite E). unfold no_locks. by rewrite app_nil_r.
Qed.

(** An error the code asks for, such as a row that is not there. *)
Lemma query_healthy_err {A} (f : DB -> res err A) d n u tx l e :
  f d = Err e -> aborts e = false -> query f (healthy d n u tx l) = (Err e, healthy d n u tx l).
Proof. intros E Ha. unfold query, stmt, healthy. simpl. by rewrite E, Ha. Qed.

Lemma now_healthy d n u tx l : now (healthy d n u tx l) = (Ok n, healthy d n u tx l).
Proof. done. Qed.

Lemma uuid_healthy d n u tx l : uuid_New (healthy d n u tx l) = (Ok u, healthy d n (u + 1)%N tx l).
Proof. done. Qed.

Lemma try_run {A} (m : M DB A) w r w' : m w = (r, w') -> try m w = (Ok r, w').
Proof. intros E. unfold try. by rewrite E. Qed.

Lemma transaction_healthy {A} (body : M DB A) d n u l a d' n' u' l' :
  body (healthy d n u true l) = (Ok a, healthy d' n' u' true l') ->
  transaction body (healthy d n u false l) = (Ok a, healthy d' n' u' false l').
Proof.
  intros E. unfold transaction, transaction_if, healthy. simpl. unfold bind, stmt. simpl.
  unfold set_db, set_in_tx, set_aborted, set_faults, add_locks, no_locks; simpl. rewrite app_nil_r.
  unfold healthy in E. by rewrite E.
Qed.

Lemma zoom_healthy {T A} (get : DB -> T) put (m : M T A) d n u tx l r t n' u' tx' l' :
  m (World (get d) n u [] false tx l) = (r, World t n' u' [] false tx' l') ->
  zoom get put m (healthy d n u tx l) = (r, healthy (put t d) n' u' tx' l').
Proof. intros E. unfold zoom, see, healthy. simpl. by rewrite E. Qed.

Lemma quiet_healthy w : quiet w -> w_in_tx w = false -> w = healthy (w_db w) (w_now w) (w_uuid w) false (w_locks w).
Proof. destruct w. unfold quiet, healthy. simpl. by intros [-> ->] ->. Qed.
End Healthy.

(** Takes a successful run apart, one Go call at a time. *)
Ltac inv_run1 :=
  match goal with
  | H : bind _ _ _ = (Ok _, _) |- _ =>
      let a := fresh "a" in let w := fresh "w" in let H' := fresh "Hrun" in
      apply bind_ok_inv in H as (a & w & H' & H)
  | H : ret _ _ = (Ok _, _) |- _ => apply ret_ok_inv in H as [? ?]; subst
  | H : fail _ _ = (Ok _, _) |- _ => discriminate H
  | H : now _ = (Ok _, _) |- _ => apply now_ok_inv in H as [? ?]; subst
  | H : uuid_New _ = (Ok _, _) |- _ => apply uuid_New_ok_inv in H as [? ?]; subst
  | H : try _ _ = (Ok _, _) |- _ => apply try_ok_inv in H
  | H : interleave _ _ = (Ok _, _) |- _ => apply interleave_ok_inv in H; subst
  | H : query _ _ = (Ok _, _) |- _ =>
      let Hq := fresh "Hq" in apply query_ok_inv in H as (Hq & ? & ?); subst
  | H : stmt _ _ _ = (Ok _, _) |- _ =>
      let d := fresh "d" in let Hs := fresh "Hs" in
      apply stmt_ok_inv in H as (d & Hs & ? & ?); subst
  end.
Ltac inv_run := repeat inv_run1.
