(* ===== verification/Events.v ===== *)
(** * Domain events ([internal/crmevents])

    The event type every component publishes, the catalog that says which
    sinks an event type reaches, and the conversion to and from the outbox row
    ([models.CRMEventOutbox]). *)
From S2P Require Import Prelude.

(** ** UUIDs as text *)

(** [uuid.UUID.String] and [uuid.Parse] of [github.com/google/uuid]. *)
Class UuidText := {
  uuid_String : uuid -> string;
  uuid_Parse : string -> option uuid
}.

(** What the code relies on: the canonical form parses back. *)
Class UuidTextLaws `{UuidText} : Prop :=
  uuid_Parse_String : forall u, uuid_Parse (uuid_String u) = Some u.

(** A text form with these laws: binary digits, least significant first. *)
Fixpoint bits_of (p : positive) : string :=
  match p with
  | xH => "1"
  | xO p => String "0" (bits_of p)
  | xI p => String "1" (bits_of p)
  end.

Fixpoint of_bits (s : string) : option positive :=
  match s with
  | EmptyString => None
  | String c EmptyString => if Ascii.eqb c "1" then Some xH else None
  | String c s => (if Ascii.eqb c "1" then xI else xO) <$> of_bits s
  end.

Lemma of_bits_of p : of_bits (bits_of p) = Some p.
Proof.
  induction p as [p IH|p IH|]; [| |done]; simpl;
    (destruct (bits_of p) eqn:E; [by destruct p|by rewrite IH]).
Qed.

Definition uuid_ref : UuidText := {|
  uuid_String u := match u with N0 => "0" | Npos p => bits_of p end;
  uuid_Parse s := if String.eqb s "0" then Some 0%N else Npos <$> of_bits s
|}.

#[export] Instance uuid_ref_laws : @UuidTextLaws uuid_ref.
Proof.
  intros [|p]; simpl; [done|]. rewrite of_bits_of.
  destruct (String.eqb_spec (bits_of p) "0") as [E|]; [|done].
  destruct p as [p|p|]; try done. simpl in E. by destruct p.
Qed.

(** ** [event.go] *)

Definition ActorUser := "user".
Definition ActorSystem := "system".
Definition ActorAutomation := "automation".
Definition ActorContact := "contact".
Definition ActorAPI := "api".
Definition ActorBot := "bot".

Definition SubjectContact := "contact".
Definition SubjectConversation := "conversation".
Definition SubjectDeal := "deal".

Record Actor := { actor_Type : string; actor_ID : option uuid; actor_Name : string }.

Definition SystemActor : Actor :=
  {| actor_Type := ActorSystem; actor_ID := None; actor_Name := "" |}.
Definition UserActor (id : uuid) (name : string) : Actor :=
  {| actor_Type := ActorUser; actor_ID := Some id; actor_Name := name |}.
Definition ContactActor (id : uuid) (name : string) : Actor :=
  {| actor_Type := ActorContact; actor_ID := Some id; actor_Name := name |}.
Definition BotActor : Actor :=
  {| actor_Type := ActorBot; actor_ID := None; actor_Name := "" |}.

Record Subject := { subj_Type : string; subj_ID : option uuid }.
Record Origin := { orig_RuleID : option uuid; orig_Depth : Z }.

(** [Data] is a Go map; the model keeps its entries in insertion order, each
    key once.  A nil map has no entries. *)
Record Event := {
  e_ID : uuid;
  e_Type : string;
  e_OrgID : uuid;
  e_ContactID : option uuid;
  e_Subject : Subject;
  e_Actor : Actor;
  e_Data : list (string * any);
  e_OccurredAt : time;
  e_Origin : Origin
}.

(** [crmevents.New], given what [uuid.New()] and [time.Now().UTC()] return. *)
Definition New_event (id : uuid) (at_ : time) (orgID : uuid) (eventType : string)
    (actor : Actor) (data : list (string * any)) : Event :=
  {| e_ID := id; e_Type := eventType; e_OrgID := orgID; e_ContactID := None;
     e_Subject := {| subj_Type := ""; subj_ID := None |};
     e_Actor := actor; e_Data := data; e_OccurredAt := at_;
     e_Origin := {| orig_RuleID := None; orig_Depth := 0 |} |}.

Definition ForContact (contactID : uuid) (e : Event) : Event :=
  {| e_ID := e_ID e; e_Type := e_Type e; e_OrgID := e_OrgID e;
     e_ContactID := Some contactID;
     e_Subject := if String.eqb (subj_Type (e_Subject e)) ""
                  then {| subj_Type := SubjectContact; subj_ID := Some contactID |}
                  else e_Subject e;
     e_Actor := e_Actor e; e_Data := e_Data e; e_OccurredAt := e_OccurredAt e;
     e_Origin := e_Origin e |}.

Definition About (subjectType : string) (subjectID : uuid) (e : Event) : Event :=
  {| e_ID := e_ID e; e_Type := e_Type e; e_OrgID := e_OrgID e;
     e_ContactID := e_ContactID e;
     e_Subject := {| subj_Type := subjectType; subj_ID := Some subjectID |};
     e_Actor := e_Actor e; e_Data := e_Data e; e_OccurredAt := e_OccurredAt e;
     e_Origin := e_Origin e |}.

Definition FromAutomation (ruleID : uuid) (depth : Z) (e : Event) : Event :=
  {| e_ID := e_ID e; e_Type := e_Type e; e_OrgID := e_OrgID e;
     e_ContactID := e_ContactID e; e_Subject := e_Subject e;
     e_Actor := e_Actor e; e_Data := e_Data e; e_OccurredAt := e_OccurredAt e;
     e_Origin := {| orig_RuleID := Some ruleID; orig_Depth := depth |} |}.

(** ** [catalog.go] *)

Record Spec := {
  spec_RecordActivity : bool;
  spec_Webhook : bool;
  spec_Automatable : bool
}.

Definition spec (activity webhook automatable : bool) : Spec :=
  {| spec_RecordActivity := activity; spec_Webhook := webhook; spec_Automatable := automatable |}.

Definition catalog : list (string * Spec) := [
  ("message.incoming", spec false true false);
  ("message.outgoing", spec false true false);
  ("message.sent", spec false true false);
  ("contact.created", spec true true true);
  ("contact.deleted", spec true true false);
  ("contact.updated", spec false true false);
  ("contact.field_changed", spec true false true);
  ("contact.restored", spec true true false);
  ("contact.tag_added", spec true true true);
  ("contact.tag_removed", spec true true true);
  ("contact.assigned", spec true true true);
  ("conversation.created", spec true true true);
  ("conversation.status_changed", spec true true true);
  ("conversation.assigned", spec true true true);
  ("task.created", spec true true true);
  ("task.completed", spec true true true);
  ("task.cancelled", spec true false false);
  ("task.updated", spec true false false);
  ("task.due", spec false false true);
  ("task.overdue", spec true true true);
  ("contact.merged", spec true true false);
  ("deal.created", spec true true true);
  ("deal.stage_changed", spec true true true);
  ("deal.won", spec true true true);
  ("deal.lost", spec true true true);
  ("deal.updated", spec true true false);
  ("deal.deleted", spec true true false);
  ("transfer.created", spec true true false);
  ("transfer.assigned", spec true true false);
  ("transfer.resumed", spec true true false);
  ("transfer.expired", spec true true false);
  ("contact.lifecycle_stage_changed", spec true true true);
  ("contact.opt_out_changed", spec true false false);
  ("call.missed", spec true true true);
  ("call.completed", spec true true true);
  ("call.transfer_no_answer", spec true true false);
  ("chatbot.flow_completed", spec true true true);
  ("campaign.replied", spec true true true);
  ("campaign.sent_to_contact", spec false false false);
  ("conversation.sla_breached", spec true true true);
  ("conversation.sla_escalated", spec true true false);
  ("note.created", spec true false false);
  ("custom_action.executed", spec true false false)].

(** [crmevents.Lookup]. *)
Definition Lookup (eventType : string) : option Spec :=
  snd <$> List.find (fun e => String.eqb e.1 eventType) catalog.

Definition IsKnown (eventType : string) : bool := is_some (Lookup eventType).

(** [sort.Strings]: insertion sort gives the same ascending list. *)
Fixpoint insert_string (s : string) (l : list string) : list string :=
  match l with
  | [] => [s]
  | x :: r => if String.leb s x then s :: l else x :: insert_string s r
  end.
Definition sort_Strings (l : list string) : list string := foldr insert_string [] l.

Definition event_types_where (p : Spec -> bool) : list string :=
  sort_Strings (fst <$> List.filter (fun e => p e.2) catalog).

Definition WebhookEventTypes : list string := event_types_where spec_Webhook.
Definition AutomatableEventTypes : list string := event_types_where spec_Automatable.
Definition ActivityEventTypes : list string := event_types_where spec_RecordActivity.

(** ** The outbox row *)

Record CRMEventOutbox := {
  ob_ID : uuid;
  ob_OrganizationID : uuid;
  ob_Type : string;
  ob_ContactID : option uuid;
  ob_SubjectType : string;
  ob_SubjectID : option uuid;
  ob_ActorType : string;
  ob_ActorID : option uuid;
  ob_ActorName : string;
  ob_OriginRuleID : option uuid;
  ob_OriginDepth : Z;
  ob_Data : list (string * any);
  ob_OccurredAt : time;
  ob_PublishedAt : option time;
  ob_Attempts : Z;
  ob_LastError : string
}.

Definition actorTypeOrSystem (t : string) : string :=
  if String.eqb t "" then ActorSystem else t.

(** The zero [time.Time], 1 January of year 1. *)
Definition time_zero : time := -62135596800 * Second.

(** [Event.toRow], given the [uuid.New()] and [time.Now()] it may fall back to. *)
Definition toRow (fresh : uuid) (now : time) (e : Event) : CRMEventOutbox :=
  {| ob_ID := if N.eqb (e_ID e) uuid_Nil then fresh else e_ID e;
     ob_OrganizationID := e_OrgID e;
     ob_Type := e_Type e;
     ob_ContactID := e_ContactID e;
     ob_SubjectType := subj_Type (e_Subject e);
     ob_SubjectID := subj_ID (e_Subject e);
     ob_ActorType := actorTypeOrSystem (actor_Type (e_Actor e));
     ob_ActorID := actor_ID (e_Actor e);
     ob_ActorName := actor_Name (e_Actor e);
     ob_OriginRuleID := orig_RuleID (e_Origin e);
     ob_OriginDepth := orig_Depth (e_Origin e);
     ob_Data := e_Data e;
     ob_OccurredAt := if e_OccurredAt e =? time_zero then now else e_OccurredAt e;
     ob_PublishedAt := None;
     ob_Attempts := 0;
     ob_LastError := "" |}.

Definition eventFromRow (r : CRMEventOutbox) : Event :=
  {| e_ID := ob_ID r;
     e_Type := ob_Type r;
     e_OrgID := ob_OrganizationID r;
     e_ContactID := ob_ContactID r;
     e_Subject := {| subj_Type := ob_SubjectType r; subj_ID := ob_SubjectID r |};
     e_Actor := {| actor_Type := ob_ActorType r; actor_ID := ob_ActorID r;
                   actor_Name := ob_ActorName r |};
     e_Data := ob_Data r;
     e_OccurredAt := ob_OccurredAt r;
     e_Origin := {| orig_RuleID := ob_OriginRuleID r; orig_Depth := ob_OriginDepth r |} |}.

(** ** Lemmas *)

(** An event as the producers build it: identified, dated and attributed. *)
Definition event_complete (e : Event) : Prop :=
  e_ID e <> uuid_Nil /\ e_OccurredAt e <> time_zero /\ actor_Type (e_Actor e) <> "".

Lemma eventFromRow_toRow fresh now e :
  event_complete e -> eventFromRow (toRow fresh now e) = e.
Proof.
  intros (Hid & Hat & Hact). destruct e as [id ty org c [st si] [at_ ai an] d oc [rule depth]].
  unfold toRow, eventFromRow, actorTypeOrSystem; simpl in *.
  apply N.eqb_neq in Hid as ->. apply Z.eqb_neq in Hat as ->. apply String.eqb_neq in Hact as ->.
  done.
Qed.

Lemma toRow_unpublished fresh now e :
  ob_PublishedAt (toRow fresh now e) = None /\ ob_Attempts (toRow fresh now e) = 0.
Proof. done. Qed.
