(* ===== verification/Wire.v ===== *)
(** * Events on the wire ([internal/crmevents/sinks.go])

    The envelope the relay puts on the Redis stream and on the fan-out channel,
    what a consumer decodes from it, and the JSON a parked run keeps its event
    in, and the columns an outbox row lies in.  Encoding goes through a tree of
    JSON values.  How that tree, a double or an instant is spelled is
    [encoding/json], [strconv] and [time]: the class [GoJson], whose laws say
    that what is printed is parsed back when its texts are UTF-8 (anything else
    comes back as U+FFFD), and what a [jsonb] column keeps of it. *)
From stdpp Require Import pretty.
From S2P Require Import Prelude GoLib Text Store Events.

#[local] Unset Elimination Schemes.
Inductive json :=
| JNull
| JBool (b : bool)
| JNum (literal : string)
| JStr (s : string)
| JArr (l : list json)
| JObj (m : list (string * json)).
#[local] Set Elimination Schemes.

(** From the year 0 to the year 9999, the instants JSON can hold. *)
Definition json_year (t : time) : bool :=
  (-62167219200 * Second <=? t) && (t <? 253402300800 * Second).

Section JsonInd.
Variable P : json -> Prop.
Hypothesis at_leaf : forall j, match j with JArr _ | JObj _ => True | _ => P j end.
Hypothesis at_arr : forall l, Forall P l -> P (JArr l).
Hypothesis at_obj : forall m, Forall (fun e => P e.2) m -> P (JObj m).

Fixpoint json_ind (j : json) : P j :=
  match j as j return P j with
  | JArr l => at_arr l ((fix go l : Forall P l :=
      match l with [] => Forall_nil_2 _ | x :: l => Forall_cons_2 _ _ _ (json_ind x) (go l) end) l)
  | JObj m => at_obj m ((fix go m : Forall (fun e => P e.2) m :=
      match m with [] => Forall_nil_2 _ | x :: m => Forall_cons_2 _ _ _ (json_ind x.2) (go m) end) m)
  | JNull => at_leaf JNull
  | JBool b => at_leaf (JBool b)
  | JNum s => at_leaf (JNum s)
  | JStr s => at_leaf (JStr s)
  end.
End JsonInd.

Class GoJson `{UT : UuidText} := {
  json_text : json -> string;                  (** the encoder's text of a tree *)
  json_parse : string -> option json;
  json_number : string -> bool;                (** a number of the JSON grammar *)
  json_float : float64 -> string;              (** the literal of a double *)
  parse_float : string -> option float64;      (** [strconv.ParseFloat] *)
  RFC3339Nano : time -> string;                (** [Time.MarshalJSON] *)
  RFC3339_parse : string -> option time;       (** [Time.UnmarshalJSON] *)
  RFC3339Micro : time -> string;               (** [Format] with six decimals *)
  jsonb : string -> option string              (** a text through a [jsonb] column *)
}.

(** A tree that JSON can spell and PostgreSQL keep: numbers by the grammar,
    texts and names UTF-8 without NUL, the names of an object distinct, nested
    at most [n] deep. *)
Fixpoint json_ok `{GoJson} (n : nat) (j : json) {struct j} : bool :=
  match j with
  | JNum lit => json_number lit
  | JStr s => pg_text s
  | JArr l => match n with O => false | S n => forallb (json_ok n) l end
  | JObj m => match n with
              | O => false
              | S n => bool_decide (NoDup (fst <$> m)) && forallb (fun e => pg_text e.1 && json_ok n e.2) m
              end
  | _ => true
  end.

(** Within what [encoding/json] (10,000) and PostgreSQL take. *)
Definition MaxJsonDepth : nat := 1000.

(** Any value of an object read as an [any]. *)
Fixpoint traverse {A B} (f : A -> option B) (l : list A) : option (list B) :=
  match l with
  | [] => Some []
  | a :: l => b ← f a; bs ← traverse f l; Some (b :: bs)
  end.

(** [json.Unmarshal] into an [any]: every number is a double. *)
Fixpoint any_of `{GoJson} (j : json) : option any :=
  match j with
  | JNull => Some ANil
  | JBool b => Some (ABool b)
  | JNum lit => AFloat <$> parse_float lit
  | JStr s => Some (AString s)
  | JArr l => AList <$> traverse any_of l
  | JObj m => AMap <$> traverse (fun e => pair e.1 <$> any_of e.2) m
  end.

(** A [jsonb] column may spell a number or order the names of an object
    another way; what is decoded from it is the same (the list of an [AMap]
    stands for a Go map, which has no order). *)
Class GoJsonLaws `{GJ : GoJson} : Prop := {
  json_uuid :: UuidTextLaws;
  json_parse_text : forall j, json_ok MaxJsonDepth j = true -> json_parse (json_text j) = Some j;
  jsonb_text : forall j, json_ok MaxJsonDepth j = true ->
    exists s j', jsonb (json_text j) = Some s /\ json_parse s = Some j' /\ any_of j' = any_of j;
  json_number_Itoa : forall n, json_number (Itoa n) = true;
  parse_float_float : forall x, canonical x = true -> parse_float (json_float x) = Some x;
  parse_float_int : forall n, in_int64 n -> parse_float (Itoa n) = Some (float_of_int n);
  json_float_int : forall n, Z.abs n <= 2 ^ 53 -> json_float (float_of_int n) = Itoa n;
  RFC3339_parse_Nano : forall t, json_year t = true -> RFC3339_parse (RFC3339Nano t) = Some t;
  uuid_plain : forall u, pg_text (uuid_String u) = true;
  RFC3339Nano_plain : forall t, pg_text (RFC3339Nano t) = true;
  RFC3339Micro_plain : forall t, pg_text (RFC3339Micro t) = true
}.

Section Wire.
Context `{GJ : GoJson}.

(** ** Values *)

(** [json.Marshal] of an [any]. *)
Fixpoint json_of (v : any) : json :=
  match v with
  | ANil => JNull
  | ABool b => JBool b
  | AString s => JStr s
  | AInt n => JNum (Itoa n)
  | AFloat x => JNum (json_float x)
  | ATime t => JStr (RFC3339Nano t)
  | AList l => JArr (map json_of l)
  | AMap m => JObj (map (fun e => (e.1, json_of e.2)) m)
  end.

(** No instant outside the years JSON can hold: [json.Marshal] refuses it. *)
Fixpoint marshals (v : any) : bool :=
  match v with
  | ATime t => json_year t
  | AList l => forallb marshals l
  | AMap m => forallb (fun e => marshals e.2) m
  | _ => true
  end.

(** ** Fields of a struct

    A field that is missing or [null] keeps its zero value; a value of another
    kind is an error.  (Go also accepts a name in another case; no producer
    writes one.) *)

Definition field (m : list (string * json)) (name : string) : json :=
  match List.find (fun e => String.eqb e.1 name) m with Some (_, j) => j | None => JNull end.

Definition object (j : json) : option (list (string * json)) :=
  match j with JObj m => Some m | JNull => Some [] | _ => None end.

Definition to_string (j : json) : option string :=
  match j with JStr s => Some s | JNull => Some EmptyString | _ => None end.

Definition to_uuid (j : json) : option uuid :=
  match j with JStr s => uuid_Parse s | JNull => Some uuid_Nil | _ => None end.

Definition to_uuid_ptr (j : json) : option (option uuid) :=
  match j with JNull => Some None | _ => Some <$> to_uuid j end.

Definition to_int (j : json) : option Z :=
  match j with JNum lit => ParseInt lit | JNull => Some 0 | _ => None end.

Definition to_map (j : json) : option (list (string * any)) :=
  m ← object j; traverse (fun e => pair e.1 <$> any_of e.2) m.

Definition to_time (j : json) : option time :=
  match j with JStr s => RFC3339_parse s | JNull => Some time_zero | _ => None end.

Definition of_uuid_ptr (u : option uuid) : json :=
  match u with Some u => JStr (uuid_String u) | None => JNull end.

Definition of_map (m : list (string * any)) : json := json_of (AMap m).

(** ** [envelope] *)

Record envelope := {
  env_EventID : uuid;
  env_Type : string;
  env_OrgID : uuid;
  env_ContactID : option uuid;
  env_SubjectType : string;
  env_SubjectID : option uuid;
  env_ActorType : string;
  env_ActorID : option uuid;
  env_ActorName : string;
  env_Data : list (string * any);
  env_OccurredAt : string;
  env_OriginRuleID : option uuid;
  env_OriginDepth : Z
}.

Definition newEnvelope (e : Event) : envelope := {|
  env_EventID := e_ID e;
  env_Type := e_Type e;
  env_OrgID := e_OrgID e;
  env_ContactID := e_ContactID e;
  env_SubjectType := subj_Type (e_Subject e);
  env_SubjectID := subj_ID (e_Subject e);
  env_ActorType := actor_Type (e_Actor e);
  env_ActorID := actor_ID (e_Actor e);
  env_ActorName := actor_Name (e_Actor e);
  env_Data := e_Data e;
  env_OccurredAt := RFC3339Micro (e_OccurredAt e);
  env_OriginRuleID := orig_RuleID (e_Origin e);
  env_OriginDepth := orig_Depth (e_Origin e)
|}.

(** The tag [omitempty]: a zero value is left out. *)
Definition omit_uuid (u : option uuid) : option json := u ← u; Some (JStr (uuid_String u)).
Definition omit_string (s : string) : option json := if is_empty s then None else Some (JStr s).
Definition omit_int (n : Z) : option json := if n =? 0 then None else Some (JNum (Itoa n)).

Definition present (fields : list (string * option json)) : list (string * json) :=
  omap (fun f => pair f.1 <$> f.2) fields.

Definition envelope_fields (v : envelope) : list (string * option json) :=
  [("event_id", Some (JStr (uuid_String (env_EventID v))));
   ("type", Some (JStr (env_Type v)));
   ("organization_id", Some (JStr (uuid_String (env_OrgID v))));
   ("contact_id", omit_uuid (env_ContactID v));
   ("subject_type", omit_string (env_SubjectType v));
   ("subject_id", omit_uuid (env_SubjectID v));
   ("actor_type", Some (JStr (env_ActorType v)));
   ("actor_id", omit_uuid (env_ActorID v));
   ("actor_name", omit_string (env_ActorName v));
   ("data", Some (of_map (env_Data v)));
   ("occurred_at", Some (JStr (env_OccurredAt v)));
   ("origin_rule_id", omit_uuid (env_OriginRuleID v));
   ("origin_depth", omit_int (env_OriginDepth v))].

Definition envelope_json (v : envelope) : json := JObj (present (envelope_fields v)).

Definition to_envelope (j : json) : option envelope :=
  m ← object j;
  id ← to_uuid (field m "event_id"); ty ← to_string (field m "type");
  org ← to_uuid (field m "organization_id"); contact ← to_uuid_ptr (field m "contact_id");
  sty ← to_string (field m "subject_type"); sid ← to_uuid_ptr (field m "subject_id");
  aty ← to_string (field m "actor_type"); aid ← to_uuid_ptr (field m "actor_id");
  aname ← to_string (field m "actor_name"); data ← to_map (field m "data");
  at_ ← to_string (field m "occurred_at"); rule ← to_uuid_ptr (field m "origin_rule_id");
  depth ← to_int (field m "origin_depth");
  Some {| env_EventID := id; env_Type := ty; env_OrgID := org; env_ContactID := contact;
          env_SubjectType := sty; env_SubjectID := sid; env_ActorType := aty; env_ActorID := aid;
          env_ActorName := aname; env_Data := data; env_OccurredAt := at_;
          env_OriginRuleID := rule; env_OriginDepth := depth |}.

(** What the stream and the channel carry. *)
Definition event_payload (e : Event) : res err string :=
  if marshals (AMap (e_Data e)) then Ok (json_text (envelope_json (newEnvelope e))) else Err (ErrMsg "json").

(** The instant is not read back. *)
Definition DecodeFanout (payload : string) : res err Event :=
  match json_parse payload ≫= to_envelope with
  | None => Err (ErrMsg "json")
  | Some env => Ok {|
      e_ID := env_EventID env;
      e_Type := env_Type env;
      e_OrgID := env_OrgID env;
      e_ContactID := env_ContactID env;
      e_Subject := {| subj_Type := env_SubjectType env; subj_ID := env_SubjectID env |};
      e_Actor := {| actor_Type := env_ActorType env; actor_ID := env_ActorID env; actor_Name := env_ActorName env |};
      e_Data := env_Data env;
      e_OccurredAt := time_zero;
      e_Origin := {| orig_RuleID := env_OriginRuleID env; orig_Depth := env_OriginDepth env |} |}
  end.

(** ** The event of a parked run ([flow.go]) *)

(** [json.Marshal] of a [crmevents.Event], under the names of its fields. *)
Definition event_json (e : Event) : json := JObj (
  [("ID", JStr (uuid_String (e_ID e))); ("Type", JStr (e_Type e)); ("OrgID", JStr (uuid_String (e_OrgID e)));
   ("ContactID", of_uuid_ptr (e_ContactID e));
   ("Subject", JObj [("Type", JStr (subj_Type (e_Subject e))); ("ID", of_uuid_ptr (subj_ID (e_Subject e)))]);
   ("Actor", JObj [("Type", JStr (actor_Type (e_Actor e))); ("ID", of_uuid_ptr (actor_ID (e_Actor e)));
                   ("Name", JStr (actor_Name (e_Actor e)))]);
   ("Data", of_map (e_Data e)); ("OccurredAt", JStr (RFC3339Nano (e_OccurredAt e)));
   ("Origin", JObj [("RuleID", of_uuid_ptr (orig_RuleID (e_Origin e))); ("Depth", JNum (Itoa (orig_Depth (e_Origin e))))])]).

Definition to_event (j : json) : option Event :=
  m ← object j;
  id ← to_uuid (field m "ID"); ty ← to_string (field m "Type"); org ← to_uuid (field m "OrgID");
  contact ← to_uuid_ptr (field m "ContactID");
  s ← object (field m "Subject"); sty ← to_string (field s "Type"); sid ← to_uuid_ptr (field s "ID");
  a ← object (field m "Actor"); aty ← to_string (field a "Type"); aid ← to_uuid_ptr (field a "ID");
  aname ← to_string (field a "Name");
  data ← to_map (field m "Data"); at_ ← to_time (field m "OccurredAt");
  o ← object (field m "Origin"); rule ← to_uuid_ptr (field o "RuleID"); depth ← to_int (field o "Depth");
  Some {| e_ID := id; e_Type := ty; e_OrgID := org; e_ContactID := contact;
          e_Subject := {| subj_Type := sty; subj_ID := sid |};
          e_Actor := {| actor_Type := aty; actor_ID := aid; actor_Name := aname |};
          e_Data := data; e_OccurredAt := at_; e_Origin := {| orig_RuleID := rule; orig_Depth := depth |} |}.

(** [park]: the event as a JSON object of the [event] column. *)
Definition marshal_event (e : Event) : res err any :=
  if json_year (e_OccurredAt e) && marshals (AMap (e_Data e)) then
    match json_parse (json_text (event_json e)) ≫= any_of with Some v => Ok v | None => Err (ErrMsg "json") end
  else Err (ErrMsg "json").

(** [resume]: the event from the column. *)
Definition unmarshal_event (v : any) : res err Event :=
  if marshals v then
    match json_parse (json_text (json_of v)) ≫= to_event with Some e => Ok e | None => Err (ErrMsg "json") end
  else Err (ErrMsg "json").

(** ** The outbox row in its columns *)

(** [JSONB.Value] and [JSONB.Scan] around a [jsonb] column. *)
Definition jsonb_any (v : any) : option any :=
  if marshals v then s ← jsonb (json_text (json_of v)); j ← json_parse s; any_of j else None.

Definition jsonb_map (m : list (string * any)) : option (list (string * any)) :=
  if marshals (AMap m) then s ← jsonb (json_text (of_map m)); j ← json_parse s; to_map j else None.

(** An instant through [timestamptz]: whole microseconds. *)
Definition pg_time (t : time) : time := t / 1000 * 1000.

(** The widths of the text columns. *)
Definition outbox_fits (r : CRMEventOutbox) : bool :=
  varchar 64 (ob_Type r) && varchar 32 (ob_SubjectType r) && varchar 20 (ob_ActorType r) && varchar 255 (ob_ActorName r).

(** What a row that was written reads back as; [None]: it is refused. *)
Definition stored_row (r : CRMEventOutbox) : option CRMEventOutbox :=
  if outbox_fits r then
    data ← jsonb_map (ob_Data r);
    Some {| ob_ID := ob_ID r; ob_OrganizationID := ob_OrganizationID r; ob_Type := ob_Type r;
            ob_ContactID := ob_ContactID r; ob_SubjectType := ob_SubjectType r; ob_SubjectID := ob_SubjectID r;
            ob_ActorType := ob_ActorType r; ob_ActorID := ob_ActorID r; ob_ActorName := ob_ActorName r;
            ob_OriginRuleID := ob_OriginRuleID r; ob_OriginDepth := ob_OriginDepth r; ob_Data := data;
            ob_OccurredAt := pg_time (ob_OccurredAt r); ob_PublishedAt := pg_time <$> ob_PublishedAt r;
            ob_Attempts := ob_Attempts r; ob_LastError := ob_LastError r |}
  else None.
End Wire.

(** ** Round trips *)

Section RoundTrips.
Context `{GL : GoJsonLaws}.

(** What a value is once it has been a JSON text. *)
Fixpoint decoded (v : any) : any :=
  match v with
  | AInt n => AFloat (float_of_int n)
  | ATime t => AString (RFC3339Nano t)
  | AList l => AList (map decoded l)
  | AMap m => AMap (map (fun e => (e.1, decoded e.2)) m)
  | _ => v
  end.

Definition decoded_map (m : list (string * any)) : list (string * any) := map (fun e => (e.1, decoded e.2)) m.

(** The integers a double holds, doubles as Go computes them, years JSON has. *)
Fixpoint portable (v : any) : bool :=
  match v with
  | AInt n => Z.abs n <=? 2 ^ 53
  | AFloat x => canonical x
  | ATime t => json_year t
  | AList l => forallb portable l
  | AMap m => forallb (fun e => portable e.2) m
  | _ => true
  end.

Lemma traverse_map {A B C} (f : B -> option C) (g : A -> B) (h : A -> C) l :
  Forall (fun a => f (g a) = Some (h a)) l -> traverse f (map g l) = Some (map h l).
Proof. induction 1 as [|a l Ha _ IH]; simpl; [done|]. by rewrite Ha; simpl; rewrite IH. Qed.

Lemma portable_marshals v : portable v = true -> marshals v = true.
Proof.
  induction v as [| | | | | |l IH|m IH] using any_ind; simpl; try done;
    rewrite !forallb_Forall; intros Hp; (eapply Forall_impl; [exact (List.Forall_and IH Hp)|]); simpl; naive_solver.
Qed.

Lemma marshals_decoded v : marshals (decoded v) = true.
Proof.
  induction v as [| | | | | |l IH|m IH] using any_ind; simpl; try done;
    rewrite forallb_Forall, Forall_map; done.
Qed.

Lemma exact_in_int64 n : Z.abs n <= 2 ^ 53 -> in_int64 n.
Proof. unfold in_int64, min_int64, max_int64. lia. Qed.

(** A value read back is the value decoded; reading it back again changes nothing more. *)
Lemma any_of_json_of v :
  portable v = true -> any_of (json_of v) = Some (decoded v) /\ any_of (json_of (decoded v)) = Some (decoded v).
Proof.
  induction v as [| | |n|x|t|l IH|m IH] using any_ind; simpl; try done.
  - intros Hn%Z.leb_le. rewrite json_float_int, parse_float_int by auto using exact_in_int64. done.
  - intros Hx. by rewrite parse_float_float.
  - rewrite forallb_Forall. intros Hp. pose proof (List.Forall_and IH Hp) as Hl. rewrite map_map.
    split; (erewrite traverse_map; [reflexivity|]); (eapply Forall_impl; [exact Hl|]); simpl; naive_solver.
  - rewrite forallb_Forall. intros Hp. pose proof (List.Forall_and IH Hp) as Hl. rewrite map_map.
    split; (erewrite (traverse_map _ _ (fun e => (e.1, decoded e.2))); [reflexivity|]);
      (eapply Forall_impl; [exact Hl|]); intros [k x] [Hx Hb]; simpl in *; destruct (Hx Hb) as [E1 E2]; by rewrite ?E1, ?E2.
Qed.

Lemma to_map_of_map m :
  portable (AMap m) = true ->
  to_map (of_map m) = Some (decoded_map m) /\ to_map (of_map (decoded_map m)) = Some (decoded_map m).
Proof.
  intros Hm. destruct (any_of_json_of (AMap m) Hm) as [E1 E2]. unfold to_map, of_map, decoded_map. simpl in *.
  apply fmap_Some in E1 as (x & E1 & Ex). apply fmap_Some in E2 as (y & E2 & Ey).
  injection Ex as <-. injection Ey as <-. by split.
Qed.

Lemma to_uuid_String u : to_uuid (JStr (uuid_String u)) = Some u.
Proof. apply uuid_Parse_String. Qed.

Lemma to_uuid_ptr_of u : to_uuid_ptr (of_uuid_ptr u) = Some u.
Proof. destruct u; [|done]. simpl. by rewrite uuid_Parse_String. Qed.

Lemma to_int_Itoa n : in_int64 n -> to_int (JNum (Itoa n)) = Some n.
Proof. apply ParseInt_Itoa. Qed.

(** Looking a field up in what the encoder wrote. *)
Fixpoint written (fields : list (string * option json)) (n : string) : json :=
  match fields with
  | [] => JNull
  | (k, o) :: rest => if String.eqb k n then match o with Some j => j | None => written rest n end else written rest n
  end.

Lemma field_present fields n : field (present fields) n = written fields n.
Proof.
  induction fields as [|[k [j|]] rest IH]; [done| |].
  - change (present ((k, Some j) :: rest)) with ((k, j) :: present rest). unfold field in *. simpl.
    by destruct (String.eqb k n).
  - change (present ((k, None) :: rest)) with (present rest). rewrite IH. simpl. by destruct (String.eqb k n).
Qed.

Lemma read_uuid u : to_uuid_ptr (match omit_uuid u with Some j => j | None => JNull end) = Some u.
Proof. destruct u; [|done]. simpl. by rewrite uuid_Parse_String. Qed.

Lemma read_string s : to_string (match omit_string s with Some j => j | None => JNull end) = Some s.
Proof. unfold omit_string, is_empty. by destruct (String.eqb_spec s "") as [->|]. Qed.

Lemma read_int z : in_int64 z -> to_int (match omit_int z with Some j => j | None => JNull end) = Some z.
Proof. unfold omit_int. destruct (Z.eqb_spec z 0) as [->|]; [done|apply to_int_Itoa]. Qed.

Lemma to_envelope_json v :
  portable (AMap (env_Data v)) = true -> in_int64 (env_OriginDepth v) ->
  to_envelope (envelope_json v) =
    Some {| env_EventID := env_EventID v; env_Type := env_Type v; env_OrgID := env_OrgID v;
            env_ContactID := env_ContactID v; env_SubjectType := env_SubjectType v; env_SubjectID := env_SubjectID v;
            env_ActorType := env_ActorType v; env_ActorID := env_ActorID v; env_ActorName := env_ActorName v;
            env_Data := decoded_map (env_Data v); env_OccurredAt := env_OccurredAt v;
            env_OriginRuleID := env_OriginRuleID v; env_OriginDepth := env_OriginDepth v |}.
Proof.
  intros Hd Hz. destruct (to_map_of_map _ Hd) as [Hm _]. unfold to_envelope, envelope_json.
  cbn [object mbind option_bind].
  rewrite !field_present. cbn [written envelope_fields String.eqb Ascii.eqb Bool.eqb].
  rewrite !to_uuid_String, !read_uuid, !read_string, Hm, read_int by done. done.
Qed.

(** Decoding again changes neither the value nor its JSON. *)
Lemma decoded_twice v : decoded (decoded v) = decoded v.
Proof.
  induction v as [| | | | | |l IH|m IH] using any_ind; simpl; try done; f_equal; rewrite map_map.
  - by induction IH as [|x l Hx _ IHl]; simpl; [|rewrite Hx, IHl].
  - by induction IH as [|[k x] l Hx _ IHl]; simpl in *; [|rewrite Hx, IHl].
Qed.

Lemma decoded_map_twice m : decoded_map (decoded_map m) = decoded_map m.
Proof. pose proof (decoded_twice (AMap m)) as H. simpl in H. by injection H. Qed.

Lemma json_of_decoded v : portable v = true -> json_of (decoded v) = json_of v.
Proof.
  induction v as [| | | | | |l IH|m IH] using any_ind; simpl; try done.
  - intros Hn%Z.leb_le. by rewrite json_float_int.
  - rewrite forallb_Forall. intros Hp. f_equal. rewrite map_map. pose proof (List.Forall_and IH Hp) as Hl. clear IH Hp.
    induction Hl as [|x l [Hx Hb] _ IHl]; simpl; [done|]. by rewrite (Hx Hb), IHl.
  - rewrite forallb_Forall. intros Hp. f_equal. rewrite map_map. pose proof (List.Forall_and IH Hp) as Hl. clear IH Hp.
    induction Hl as [|x l [Hx Hb] _ IHl]; simpl in *; [done|]. rewrite (Hx Hb). f_equal. exact IHl.
Qed.

Lemma of_map_decoded m : portable (AMap m) = true -> of_map (decoded_map m) = of_map m.
Proof. apply json_of_decoded. Qed.

Lemma to_map_any j m : any_of j = Some (AMap m) -> to_map j = Some m.
Proof.
  destruct j as [|b|l|s|l|fs]; simpl; try done.
  - by destruct (parse_float l).
  - by destruct (traverse any_of l).
  - unfold to_map. simpl. destruct (traverse _ fs) as [m'|]; [|done]. by intros [= ->].
Qed.

(** A column gives back what is decoded from the JSON put into it. *)
Lemma jsonb_any_ok v v' :
  marshals v = true -> json_ok MaxJsonDepth (json_of v) = true -> any_of (json_of v) = Some v' -> jsonb_any v = Some v'.
Proof.
  intros Hm Hok Hv. destruct (jsonb_text _ Hok) as (s & j & Hs & Hp & Ha). unfold jsonb_any.
  rewrite Hm, Hs. cbn [mbind option_bind]. rewrite Hp. cbn [mbind option_bind]. by rewrite Ha.
Qed.

Lemma jsonb_map_ok m m' :
  marshals (AMap m) = true -> json_ok MaxJsonDepth (of_map m) = true -> any_of (of_map m) = Some (AMap m') ->
  jsonb_map m = Some m'.
Proof.
  intros Hm Hok Hv. destruct (jsonb_text _ Hok) as (s & j & Hs & Hp & Ha). unfold jsonb_map.
  rewrite Hm, Hs. cbn [mbind option_bind]. rewrite Hp. cbn [mbind option_bind]. apply to_map_any. by rewrite Ha.
Qed.

(** Nested less deep is nested deep enough. *)
Lemma json_ok_S j : forall n, json_ok n j = true -> json_ok (S n) j = true.
Proof.
  revert j. apply (json_ind (fun j => forall n, json_ok n j = true -> json_ok (S n) j = true)).
  - intros []; try exact I; intros n Hn; exact Hn.
  - intros l IH [|n]; [done|]. cbn [json_ok]. rewrite !forallb_Forall. intros Hl.
    eapply Forall_impl; [exact (List.Forall_and IH Hl)|]. intros j [Hj Hn]. by apply Hj.
  - intros m IH [|n]; [done|]. cbn [json_ok]. rewrite !andb_true_iff, !forallb_Forall. intros [Hnd Hm]. split; [done|].
    eapply Forall_impl; [exact (List.Forall_and IH Hm)|]. intros e [He [Ht Hn]%andb_true_iff].
    apply andb_true_iff. split; [done|]. by apply He.
Qed.

(** An object of fields of which some are left out. *)
Lemma present_ok n (fields : list (string * option json)) :
  NoDup (fst <$> fields) ->
  Forall (fun f => pg_text f.1 = true /\ forall j, f.2 = Some j -> json_ok n j = true) fields ->
  json_ok (S n) (JObj (present fields)) = true.
Proof.
  intros Hnd Hf. cbn [json_ok]. apply andb_true_iff. split.
  - apply bool_decide_eq_true_2. eapply sublist_NoDup; [exact Hnd|]. clear Hnd Hf.
    induction fields as [|[k [j|]] fields IH]; [done| |].
    + change ((k :: (fst <$> present fields)) `sublist_of` k :: (fst <$> fields)). by constructor.
    + change ((fst <$> present fields) `sublist_of` k :: (fst <$> fields)). by constructor.
  - apply forallb_Forall. clear Hnd. induction Hf as [|[k [j|]] fields [Hk Hj] _ IH]; [constructor| |exact IH].
    change (Forall (fun e => pg_text e.1 && json_ok n e.2 = true) ((k, j) :: present fields)).
    constructor; [|exact IH]. simpl in *. by rewrite Hk, (Hj j eq_refl).
Qed.

Lemma omit_uuid_ok n u j : omit_uuid u = Some j -> json_ok n j = true.
Proof. destruct u as [u|]; [|done]. intros [= <-]. apply uuid_plain. Qed.
Lemma omit_string_ok n s j : pg_text s = true -> omit_string s = Some j -> json_ok n j = true.
Proof. unfold omit_string. destruct (is_empty s); [done|]. by intros ? [= <-]. Qed.
Lemma omit_int_ok n z j : omit_int z = Some j -> json_ok n j = true.
Proof. unfold omit_int. destruct (z =? 0); [done|]. intros [= <-]. apply json_number_Itoa. Qed.
Lemma of_uuid_ptr_ok n u : json_ok n (of_uuid_ptr u) = true.
Proof. destruct u; [apply uuid_plain|done]. Qed.

(** An event with its data as JSON leaves it, and the instant it has. *)
Definition with_data (at_ : time) (e : Event) : Event :=
  {| e_ID := e_ID e; e_Type := e_Type e; e_OrgID := e_OrgID e; e_ContactID := e_ContactID e;
     e_Subject := e_Subject e; e_Actor := e_Actor e; e_Data := decoded_map (e_Data e);
     e_OccurredAt := at_; e_Origin := e_Origin e |}.

Definition any_uuid (u : option uuid) : any := match u with Some u => AString (uuid_String u) | None => ANil end.

Lemma any_of_uuid u : any_of (of_uuid_ptr u) = Some (any_uuid u).
Proof. by destruct u. Qed.

Lemma json_of_uuid u : json_of (any_uuid u) = of_uuid_ptr u.
Proof. by destruct u. Qed.

(** An event that fits its row and its JSON: numbers a double holds, the
    widths of the columns, and data whose texts are UTF-8 without NUL. *)
Record portable_event (e : Event) : Prop := {
  pe_data : portable (AMap (e_Data e)) = true;
  pe_depth : Z.abs (orig_Depth (e_Origin e)) <= 2 ^ 53;
  pe_json : json_ok (MaxJsonDepth - 1) (of_map (e_Data e)) = true;
  pe_type : varchar 64 (e_Type e) = true;
  pe_subject : varchar 32 (subj_Type (e_Subject e)) = true;
  pe_actor_type : varchar 20 (actor_Type (e_Actor e)) = true;
  pe_actor_name : varchar 255 (actor_Name (e_Actor e)) = true
}.

Lemma varchar_text n s : varchar n s = true -> pg_text s = true.
Proof. unfold varchar. by intros [? _]%andb_true_iff. Qed.

Lemma envelope_ok e : portable_event e -> json_ok MaxJsonDepth (envelope_json (newEnvelope e)) = true.
Proof.
  intros [_ _ Hj Ht%varchar_text Hs%varchar_text Ha%varchar_text Hn%varchar_text].
  apply (present_ok (MaxJsonDepth - 1)).
  - apply (bool_decide_eq_true_1 _). vm_compute. reflexivity.
  - unfold envelope_fields. repeat apply Forall_cons_2; try apply Forall_nil_2; (split; [vm_compute; reflexivity|]); cbn [snd];
      try (intros j; first [apply omit_uuid_ok|by apply omit_string_ok|apply omit_int_ok]); intros j [= <-];
      first [exact Hj|exact (uuid_plain _)|exact (RFC3339Micro_plain _)|exact Ht|exact Ha].
Qed.

Lemma event_ok e : portable_event e -> json_ok MaxJsonDepth (event_json e) = true.
Proof.
  intros [_ _ Hj Ht%varchar_text Hs%varchar_text Ha%varchar_text Hn%varchar_text].
  change MaxJsonDepth with (S (MaxJsonDepth - 1)). unfold event_json.
  assert (forall k m, json_ok (S k) (JObj m) = bool_decide (NoDup (fst <$> m)) && forallb (fun e => pg_text e.1 && json_ok k e.2) m)
    as Hobj by done.
  rewrite Hobj, bool_decide_eq_true_2 by (apply (bool_decide_eq_true_1 _); vm_compute; reflexivity).
  change (MaxJsonDepth - 1)%nat with (S (MaxJsonDepth - 2)) in Hj |- *.
  cbn [forallb fst snd andb].
  rewrite Hj, !Hobj, !bool_decide_eq_true_2 by (apply (bool_decide_eq_true_1 _); vm_compute; reflexivity).
  cbn [forallb fst snd andb].
  rewrite !of_uuid_ptr_ok. cbn [json_ok]. rewrite !uuid_plain, RFC3339Nano_plain, json_number_Itoa, Ht, Hs, Ha, Hn.
  vm_compute. reflexivity.
Qed.

(** The column of a parked run holds the event's own JSON, its data decoded. *)
Lemma any_of_event e :
  portable_event e ->
  exists v, any_of (event_json e) = Some v /\ marshals v = true /\ json_of v = event_json (with_data (e_OccurredAt e) e).
Proof.
  intros [Hd Hz _ _ _ _ _]. destruct (any_of_json_of _ Hd) as [Hm _].
  unfold event_json, of_map. generalize dependent (json_of (AMap (e_Data e))). intros data Hm.
  repeat first [rewrite any_of_uuid | rewrite Hm | rewrite parse_float_int by by apply exact_in_int64
    | progress cbn [any_of traverse fmap option_fmap option_map mbind option_bind fst snd]].
  eexists. split; [reflexivity|]. split.
  - pose proof (marshals_decoded (AMap (e_Data e))) as Hs. cbn in *. rewrite Hs.
    by destruct (e_ContactID e), (subj_ID (e_Subject e)), (actor_ID (e_Actor e)), (orig_RuleID (e_Origin e)).
  - cbn [json_of map fst snd]. rewrite !json_of_uuid, json_float_int by done. done.
Qed.

Lemma to_event_json at_ e :
  portable_event e -> json_year at_ = true -> to_event (event_json (with_data at_ e)) = Some (with_data at_ e).
Proof.
  destruct e as [id ty org c [st si] [aty ai an] d oc [rule depth]]. intros [Hd Hz _ _ _ _ _] Hat.
  destruct (to_map_of_map d Hd) as [_ Hm]. cbn [e_Origin orig_Depth] in Hz. unfold to_event, event_json, with_data.
  unfold field. cbn [object mbind option_bind List.find String.eqb Ascii.eqb Bool.eqb e_ID e_Type e_OrgID e_ContactID
    e_Subject e_Actor e_Data e_OccurredAt e_Origin subj_Type subj_ID actor_Type actor_ID actor_Name orig_RuleID orig_Depth fst snd].
  rewrite !to_uuid_String, !to_uuid_ptr_of, Hm, to_int_Itoa by by apply exact_in_int64.
  cbn [mbind option_bind to_string to_time]. by rewrite RFC3339_parse_Nano.
Qed.

(** [with_data] leaves what makes an event fit. *)
Lemma portable_event_with at_ e : portable_event e ->
  portable (AMap (decoded_map (e_Data e))) = true -> portable_event (with_data at_ e).
Proof. intros [? ? ? ? ? ? ?] Hd. split; try done.
  change (json_ok (MaxJsonDepth - 1) (of_map (decoded_map (e_Data e))) = true). by rewrite of_map_decoded.
Qed.

Lemma with_data_twice at_ at_' e : with_data at_ (with_data at_' e) = with_data at_ e.
Proof. unfold with_data. simpl. by rewrite decoded_map_twice. Qed.

(** The envelope and the parked form of an event and of the event decoded are
    the same but for the instant. *)
Lemma envelope_with at_ e : portable (AMap (e_Data e)) = true ->
  envelope_json (newEnvelope (with_data at_ e)) =
  envelope_json (newEnvelope {| e_ID := e_ID e; e_Type := e_Type e; e_OrgID := e_OrgID e; e_ContactID := e_ContactID e;
     e_Subject := e_Subject e; e_Actor := e_Actor e; e_Data := e_Data e; e_OccurredAt := at_; e_Origin := e_Origin e |}).
Proof.
  intros Hd. unfold envelope_json, envelope_fields, newEnvelope, with_data. cbn [env_Data e_Data]. by rewrite of_map_decoded.
Qed.

Lemma event_json_with at_ e : portable (AMap (e_Data e)) = true ->
  event_json (with_data at_ e) =
  event_json {| e_ID := e_ID e; e_Type := e_Type e; e_OrgID := e_OrgID e; e_ContactID := e_ContactID e;
     e_Subject := e_Subject e; e_Actor := e_Actor e; e_Data := e_Data e; e_OccurredAt := at_; e_Origin := e_Origin e |}.
Proof. intros Hd. unfold event_json, with_data. cbn [e_Data]. by rewrite of_map_decoded. Qed.

(** The row of an event, written and read. *)
Lemma row_survives fresh t e : portable_event e -> event_complete e ->
  exists row, stored_row (toRow fresh t e) = Some row /\ eventFromRow row = with_data (pg_time (e_OccurredAt e)) e.
Proof.
  intros He Hc. pose proof He as [Hd _ Hj Ht Hs Ha Hn].
  pose proof Hc as (_ & _ & Hact). apply String.eqb_neq in Hact.
  unfold stored_row, outbox_fits. unfold toRow at 1 2 3 4. cbn [ob_Type ob_SubjectType ob_ActorType ob_ActorName].
  unfold actorTypeOrSystem. rewrite Hact, Ht, Hs, Ha, Hn. cbn [andb].
  rewrite (jsonb_map_ok (ob_Data (toRow fresh t e)) (decoded_map (e_Data e))).
  - eexists. split; [reflexivity|]. destruct Hc as (Hid & Hat & _).
    destruct e as [id ty org c [st si] [aty ai an] d oc [rule depth]].
    unfold toRow, eventFromRow, with_data, actorTypeOrSystem. simpl in *.
    apply N.eqb_neq in Hid as ->. apply Z.eqb_neq in Hat as ->. by rewrite Hact.
  - by apply portable_marshals.
  - by apply (json_ok_S _ (MaxJsonDepth - 1)).
  - by apply (any_of_json_of (AMap (e_Data e))).
Qed.

(** An event put on the stream, whatever its instant. *)
Lemma payload_survives at_ e : portable_event e ->
  exists payload, event_payload (with_data at_ e) = Ok payload /\ DecodeFanout payload = Ok (with_data time_zero e).
Proof.
  intros He. unfold event_payload, DecodeFanout. simpl e_Data.
  rewrite (marshals_decoded (AMap (e_Data e)) : marshals (AMap (decoded_map (e_Data e))) = true). eexists; split; [reflexivity|].
  rewrite envelope_with by apply He.
  set (e0 := {| e_ID := e_ID e |}). assert (portable_event e0) as He0 by (by destruct He).
  rewrite json_parse_text by by apply envelope_ok. cbn [mbind option_bind].
  rewrite to_envelope_json by (apply He0 || apply exact_in_int64, He0). by destruct e as [? ? ? ? [] [] ? ? []].
Qed.

(** An event parked with a run, through the column and back. *)
Lemma parked_survives at_ e : portable_event e -> json_year at_ = true ->
  exists v column, marshal_event (with_data at_ e) = Ok v /\ jsonb_any v = Some column /\
    unmarshal_event column = Ok (with_data at_ e).
Proof.
  intros He Hat. unfold marshal_event, unmarshal_event. simpl e_OccurredAt. simpl e_Data.
  rewrite Hat, (marshals_decoded (AMap (e_Data e)) : marshals (AMap (decoded_map (e_Data e))) = true). cbn [andb].
  rewrite event_json_with by apply He.
  set (e0 := {| e_ID := e_ID e |}). assert (portable_event e0) as He0 by (by destruct He).
  pose proof (event_ok _ He0) as Hok. rewrite json_parse_text by done. cbn [mbind option_bind].
  destruct (any_of_event _ He0) as (v & Ev & Hv & E). rewrite Ev. exists v, v.
  assert (json_of v = event_json e0) as E0 by (rewrite E; apply event_json_with, He0).
  split_and!; [done| |].
  - apply jsonb_any_ok; rewrite ?E0; done.
  - rewrite Hv, E0, json_parse_text by done. cbn [mbind option_bind]. rewrite <- E0, E.
    change (with_data (e_OccurredAt e0) e0) with (with_data at_ e). by rewrite to_event_json.
Qed.

(** C16: An event survives its travels.  Take an event that fits: integers a
    double holds, texts that are UTF-8 without NUL and fit their columns, data
    with distinct names, not nested too deep, an instant JSON can write.  Its
    outbox row, once through the columns ([jsonb] data, [timestamptz] in
    microseconds), gives the relay the event with its data decoded from JSON
    and its instant cut to the microsecond; from what the relay then puts on
    the stream and on the fan-out channel a consumer decodes that event, its
    instant forgotten; and a run parked with the event, at whatever instant,
    gets it back from its [jsonb] column, the instant included. *)
Theorem events_survive_the_wire fresh t at_ e :
  portable_event e -> event_complete e -> json_year at_ = true ->
  let relayed := with_data (pg_time (e_OccurredAt e)) e in
  (exists row, stored_row (toRow fresh t e) = Some row /\ eventFromRow row = relayed) /\
  (exists payload, event_payload relayed = Ok payload /\ DecodeFanout payload = Ok (with_data time_zero e)) /\
  exists v column, marshal_event (with_data at_ e) = Ok v /\ jsonb_any v = Some column /\
    unmarshal_event column = Ok (with_data at_ e).
Proof.
  intros He Hc Hat relayed. split_and!; [by apply row_survives|by apply payload_survives|by apply parked_survives].
Qed.
End RoundTrips.

(** ** A JSON text with these laws *)

(** The tree as stdpp's generic tree of strings, and that as binary digits. *)
Fixpoint tree_of (j : json) : gen_tree string :=
  match j with
  | JNull => GenNode 0 []
  | JBool b => GenNode (if b then 2 else 1) []
  | JNum s => GenNode 3 [GenLeaf s]
  | JStr s => GenNode 4 [GenLeaf s]
  | JArr l => GenNode 5 (map tree_of l)
  | JObj m => GenNode 6 (map (fun e => GenNode 7 [GenLeaf e.1; tree_of e.2]) m)
  end.

Fixpoint of_tree (t : gen_tree string) : option json :=
  match t with
  | GenNode 0 [] => Some JNull
  | GenNode 1 [] => Some (JBool false)
  | GenNode 2 [] => Some (JBool true)
  | GenNode 3 [GenLeaf s] => Some (JNum s)
  | GenNode 4 [GenLeaf s] => Some (JStr s)
  | GenNode 5 l => JArr <$> traverse of_tree l
  | GenNode 6 l => JObj <$> traverse (fun t => match t with
      | GenNode 7 [GenLeaf k; v] => pair k <$> of_tree v | _ => None end) l
  | _ => None
  end.

Lemma of_tree_of j : of_tree (tree_of j) = Some j.
Proof.
  revert j. apply json_ind; [by intros [|[]| | | |]|intros l IH|intros m IH]; simpl.
  - rewrite (traverse_map _ _ id), map_id; [done|]. eapply Forall_impl; [exact IH|done].
  - rewrite (traverse_map _ _ id), map_id; [done|]. eapply Forall_impl; [exact IH|].
    intros [k x] E. simpl in *. by rewrite E.
Qed.

(** The decimal literal of an integer a double holds, else its two parts. *)
Definition float_text (x : float64) : string :=
  let n := float_trunc x in
  if (Z.abs n <=? 2 ^ 53) && (f_mant x =? f_mant (float_of_int n)) && (f_expo x =? f_expo (float_of_int n)) then Itoa n
  else ("p" ++ bits_of (encode (f_mant x, f_expo x)))%string.

Definition text_float (s : string) : option float64 :=
  match s with
  | String "p" r => p ← of_bits r; me ← decode p; Some (Float (me : Z * Z).1 me.2)
  | _ => float_of_int <$> ParseInt s
  end.

Lemma Itoa_head n c r : Itoa n = String c r -> c = "-"%char \/ is_Some (digit c).
Proof.
  unfold Itoa, pretty, pretty_Z. destruct n as [|p|p].
  - intros [= <- _]. by right.
  - destruct (pretty_head (Npos p)) as (c' & r' & E & Hd). unfold pretty, pretty_N in E. simpl in E.
    change (pretty p) with (pretty_N_go (Npos p) ""). rewrite E. intros [= <- _]. by right.
  - intros [= <- _]. by left.
Qed.

Lemma text_float_Itoa n : in_int64 n -> text_float (Itoa n) = Some (float_of_int n).
Proof.
  intros Hn. unfold text_float. pose proof (ParseInt_Itoa n Hn) as Hp. destruct (Itoa n) as [|c r] eqn:E; [done|].
  rewrite Hp. apply Itoa_head in E as [->|Hd]; [done|]. destruct c as [[] [] [] [] [] [] [] []]; try done; by destruct Hd.
Qed.

Definition json_ref : @GoJson uuid_ref := {|
  json_text j := bits_of (encode (tree_of j));
  json_parse s := p ← of_bits s; t ← decode p; of_tree t;
  json_number _ := true;
  jsonb := Some;
  json_float := float_text;
  parse_float := text_float;
  RFC3339Nano t := bits_of (encode t);
  RFC3339_parse s := p ← of_bits s; decode p;
  RFC3339Micro t := bits_of (encode (t / 1000))
|}.

Lemma bits_plain p : plain (bits_of p) = true.
Proof. by induction p as [p IH|p IH|]. Qed.

#[export] Instance json_ref_laws : @GoJsonLaws uuid_ref json_ref.
Proof.
  split; simpl.
  - apply uuid_ref_laws.
  - intros j _. rewrite of_bits_of. simpl. rewrite decode_encode. simpl. apply of_tree_of.
  - intros j _. exists (bits_of (encode (tree_of j))), j. rewrite of_bits_of. simpl. rewrite decode_encode. simpl.
    by rewrite of_tree_of.
  - done.
  - intros [m e] _. unfold float_text. simpl. destruct (_ && _ && _) eqn:Hx.
    + apply andb_true_iff in Hx as [[Hn%Z.leb_le Hm%Z.eqb_eq]%andb_true_iff He%Z.eqb_eq].
      rewrite text_float_Itoa by by apply exact_in_int64. f_equal. destruct (float_of_int _). simpl in *. congruence.
    + transitivity (p ← of_bits (bits_of (encode (m, e))); me ← decode p; Some (Float (me : Z * Z).1 me.2)); [done|].
      rewrite of_bits_of. cbn [mbind option_bind]. by rewrite decode_encode.
  - apply text_float_Itoa.
  - intros n Hn. unfold float_text. rewrite float_of_int_exact by done. apply Z.leb_le in Hn. by rewrite Hn, !Z.eqb_refl.
  - intros t _. rewrite of_bits_of. simpl. apply decode_encode.
  - intros u. apply plain_text. destruct u as [|p]; [done|apply bits_plain].
  - intros t. apply plain_text, bits_plain.
  - intros t. apply plain_text, bits_plain.
Qed.

Definition wire_event : Event :=
  FromAutomation 4 1 (ForContact 7 (New_event 20 (3 * Hour) 1 "contact.field_changed" SystemActor
    [("key"%string, AString "plan"); ("to"%string, AInt 3); ("at"%string, ATime 0)])).

Lemma events_survive_the_wire_witness :
  @portable_event uuid_ref json_ref wire_event /\
  let relayed := @with_data uuid_ref json_ref (pg_time (3 * Hour)) wire_event in
  (exists row, @stored_row uuid_ref json_ref (toRow 0 0 wire_event) = Some row /\ eventFromRow row = relayed) /\
  (exists payload, @event_payload uuid_ref json_ref relayed = Ok payload /\
     @DecodeFanout uuid_ref json_ref payload = Ok (@with_data uuid_ref json_ref time_zero wire_event)) /\
  exists v column, @marshal_event uuid_ref json_ref (@with_data uuid_ref json_ref Hour wire_event) = Ok v /\
    @jsonb_any uuid_ref json_ref v = Some column /\
    @unmarshal_event uuid_ref json_ref column = Ok (@with_data uuid_ref json_ref Hour wire_event).
Proof.
  assert (@portable_event uuid_ref json_ref wire_event) as He by (split; first [simpl; lia|vm_compute; reflexivity]).
  split; [exact He|].
  apply (@events_survive_the_wire uuid_ref json_ref json_ref_laws 0 0 Hour wire_event); [exact He| |reflexivity].
  split_and!; discriminate.
Defined.
