(* ===== verification/Models.v ===== *)
(** * The records of [internal/models] and the tables

    One Rocq record per GORM model, with the columns the modelled services
    read or write; one setter per column, so that a Go [Updates(map)] reads as
    the list of its assignments.  [Tables] is the database. *)
From S2P Require Import Prelude Store Events.

(** ** Enumerations *)

Inductive ConversationStatus :=
| ConversationOpen | ConversationPending | ConversationSnoozed | ConversationResolved.

Inductive ConversationHandling :=
| HandlingBot | HandlingHuman | HandlingHandoffPending | HandlingNone.

Inductive TransferStatus :=
| TransferStatusActive | TransferStatusResumed | TransferStatusExpired.

Inductive SessionStatus :=
| SessionStatusActive | SessionStatusCompleted | SessionStatusCancelled | SessionStatusTimeout.

Inductive SenderType :=
| SenderContact | SenderAgent | SenderBot | SenderAutomation
| SenderCampaign | SenderSystem | SenderAPI | SenderEcho.

#[export] Instance ConversationStatus_eq_dec : EqDecision ConversationStatus.
Proof. solve_decision. Defined.
#[export] Instance ConversationHandling_eq_dec : EqDecision ConversationHandling.
Proof. solve_decision. Defined.
#[export] Instance TransferStatus_eq_dec : EqDecision TransferStatus.
Proof. solve_decision. Defined.
#[export] Instance SessionStatus_eq_dec : EqDecision SessionStatus.
Proof. solve_decision. Defined.
#[export] Instance SenderType_eq_dec : EqDecision SenderType.
Proof. solve_decision. Defined.

Definition string_of_status (s : ConversationStatus) : string :=
  match s with
  | ConversationOpen => "open"
  | ConversationPending => "pending"
  | ConversationSnoozed => "snoozed"
  | ConversationResolved => "resolved"
  end.

Definition IsActive (s : ConversationStatus) : bool :=
  negb (bool_decide (s = ConversationResolved)).

Definition NeedsAHuman (h : ConversationHandling) : bool :=
  bool_decide (h = HandlingHandoffPending) || bool_decide (h = HandlingNone).

Definition CountsAsAgentReply (s : SenderType) : bool := bool_decide (s = SenderAgent).

Definition ResolutionClientInactivity := "client_inactivity".
Definition ResolutionPendingTimeout := "pending_timeout".
Definition ResolutionContactDeleted := "contact_deleted".

Definition StageOpen := "open".
Definition StageWon := "won".
Definition StageLost := "lost".
Definition DealOpen := "open".
Definition DealWon := "won".
Definition DealLost := "lost".

(** ** Rows *)

(** [models.Conversation], without the audit timestamps and the preloaded relations. *)
Record Conversation := MkConversation {
  cv_ID : uuid;
  cv_DeletedAt : option time;
  cv_OrganizationID : uuid;
  cv_ContactID : uuid;
  cv_Status : ConversationStatus;
  cv_AssigneeID : option uuid;
  cv_TeamID : option uuid;
  cv_Handling : ConversationHandling;
  cv_WhatsAppAccount : string;
  cv_OriginCampaignID : option uuid;
  cv_SnoozedUntil : option time;
  cv_SnoozedByID : option uuid;
  cv_OpenedAt : time;
  cv_FirstCustomerMessageAt : option time;
  cv_FirstResponseAt : option time;
  cv_FirstResponderID : option uuid;
  cv_LastCustomerMessageAt : option time;
  cv_LastAgentMessageAt : option time;
  cv_LastMessageAt : option time;
  cv_WaitingSince : option time;
  cv_ResolvedAt : option time;
  cv_ResolvedByID : option uuid;
  cv_ResolutionReason : string;
  cv_ReopenedCount : Z;
  cv_MessageCount : Z
}.

Definition set_cv_ID (v : uuid) (r : Conversation) : Conversation :=
  MkConversation v (cv_DeletedAt r) (cv_OrganizationID r) (cv_ContactID r) (cv_Status r)
    (cv_AssigneeID r) (cv_TeamID r) (cv_Handling r) (cv_WhatsAppAccount r)
    (cv_OriginCampaignID r) (cv_SnoozedUntil r) (cv_SnoozedByID r) (cv_OpenedAt r)
    (cv_FirstCustomerMessageAt r) (cv_FirstResponseAt r) (cv_FirstResponderID r)
    (cv_LastCustomerMessageAt r) (cv_LastAgentMessageAt r) (cv_LastMessageAt r)
    (cv_WaitingSince r) (cv_ResolvedAt r) (cv_ResolvedByID r) (cv_ResolutionReason r)
    (cv_ReopenedCount r) (cv_MessageCount r).
Definition set_cv_DeletedAt (v : option time) (r : Conversation) : Conversation :=
  MkConversation (cv_ID r) v (cv_OrganizationID r) (cv_ContactID r) (cv_Status r)
    (cv_AssigneeID r) (cv_TeamID r) (cv_Handling r) (cv_WhatsAppAccount r)
    (cv_OriginCampaignID r) (cv_SnoozedUntil r) (cv_SnoozedByID r) (cv_OpenedAt r)
    (cv_FirstCustomerMessageAt r) (cv_FirstResponseAt r) (cv_FirstResponderID r)
    (cv_LastCustomerMessageAt r) (cv_LastAgentMessageAt r) (cv_LastMessageAt r)
    (cv_WaitingSince r) (cv_ResolvedAt r) (cv_ResolvedByID r) (cv_ResolutionReason r)
    (cv_ReopenedCount r) (cv_MessageCount r).
Definition set_cv_OrganizationID (v : uuid) (r : Conversation) : Conversation :=
  MkConversation (cv_ID r) (cv_DeletedAt r) v (cv_ContactID r) (cv_Status r) (cv_AssigneeID
    r) (cv_TeamID r) (cv_Handling r) (cv_WhatsAppAccount r) (cv_OriginCampaignID r)
    (cv_SnoozedUntil r) (cv_SnoozedByID r) (cv_OpenedAt r) (cv_FirstCustomerMessageAt r)
    (cv_FirstResponseAt r) (cv_FirstResponderID r) (cv_LastCustomerMessageAt r)
    (cv_LastAgentMessageAt r) (cv_LastMessageAt r) (cv_WaitingSince r) (cv_ResolvedAt r)
    (cv_ResolvedByID r) (cv_ResolutionReason r) (cv_ReopenedCount r) (cv_MessageCount r).
Definition set_cv_ContactID (v : uuid) (r : Conversation) : Conversation :=
  MkConversation (cv_ID r) (cv_DeletedAt r) (cv_OrganizationID r) v (cv_Status r)
    (cv_AssigneeID r) (cv_TeamID r) (cv_Handling r) (cv_WhatsAppAccount r)
    (cv_OriginCampaignID r) (cv_SnoozedUntil r) (cv_SnoozedByID r) (cv_OpenedAt r)
    (cv_FirstCustomerMessageAt r) (cv_FirstResponseAt r) (cv_FirstResponderID r)
    (cv_LastCustomerMessageAt r) (cv_LastAgentMessageAt r) (cv_LastMessageAt r)
    (cv_WaitingSince r) (cv_ResolvedAt r) (cv_ResolvedByID r) (cv_ResolutionReason r)
    (cv_ReopenedCount r) (cv_MessageCount r).
Definition set_cv_Status (v : ConversationStatus) (r : Conversation) : Conversation :=
  MkConversation (cv_ID r) (cv_DeletedAt r) (cv_OrganizationID r) (cv_ContactID r) v
    (cv_AssigneeID r) (cv_TeamID r) (cv_Handling r) (cv_WhatsAppAccount r)
    (cv_OriginCampaignID r) (cv_SnoozedUntil r) (cv_SnoozedByID r) (cv_OpenedAt r)
    (cv_FirstCustomerMessageAt r) (cv_FirstResponseAt r) (cv_FirstResponderID r)
    (cv_LastCustomerMessageAt r) (cv_LastAgentMessageAt r) (cv_LastMessageAt r)
    (cv_WaitingSince r) (cv_ResolvedAt r) (cv_ResolvedByID r) (cv_ResolutionReason r)
    (cv_ReopenedCount r) (cv_MessageCount r).
Definition set_cv_AssigneeID (v : option uuid) (r : Conversation) : Conversation :=
  MkConversation (cv_ID r) (cv_DeletedAt r) (cv_OrganizationID r) (cv_ContactID r)
    (cv_Status r) v (cv_TeamID r) (cv_Handling r) (cv_WhatsAppAccount r)
    (cv_OriginCampaignID r) (cv_SnoozedUntil r) (cv_SnoozedByID r) (cv_OpenedAt r)
    (cv_FirstCustomerMessageAt r) (cv_FirstResponseAt r) (cv_FirstResponderID r)
    (cv_LastCustomerMessageAt r) (cv_LastAgentMessageAt r) (cv_LastMessageAt r)
    (cv_WaitingSince r) (cv_ResolvedAt r) (cv_ResolvedByID r) (cv_ResolutionReason r)
    (cv_ReopenedCount r) (cv_MessageCount r).
Definition set_cv_TeamID (v : option uuid) (r : Conversation) : Conversation :=
  MkConversation (cv_ID r) (cv_DeletedAt r) (cv_OrganizationID r) (cv_ContactID r)
    (cv_Status r) (cv_AssigneeID r) v (cv_Handling r) (cv_WhatsAppAccount r)
    (cv_OriginCampaignID r) (cv_SnoozedUntil r) (cv_SnoozedByID r) (cv_OpenedAt r)
    (cv_FirstCustomerMessageAt r) (cv_FirstResponseAt r) (cv_FirstResponderID r)
    (cv_LastCustomerMessageAt r) (cv_LastAgentMessageAt r) (cv_LastMessageAt r)
    (cv_WaitingSince r) (cv_ResolvedAt r) (cv_ResolvedByID r) (cv_ResolutionReason r)
    (cv_ReopenedCount r) (cv_MessageCount r).
Definition set_cv_Handling (v : ConversationHandling) (r : Conversation) : Conversation :=
  MkConversation (cv_ID r) (cv_DeletedAt r) (cv_OrganizationID r) (cv_ContactID r)
    (cv_Status r) (cv_AssigneeID r) (cv_TeamID r) v (cv_WhatsAppAccount r)
    (cv_OriginCampaignID r) (cv_SnoozedUntil r) (cv_SnoozedByID r) (cv_OpenedAt r)
    (cv_FirstCustomerMessageAt r) (cv_FirstResponseAt r) (cv_FirstResponderID r)
    (cv_LastCustomerMessageAt r) (cv_LastAgentMessageAt r) (cv_LastMessageAt r)
    (cv_WaitingSince r) (cv_ResolvedAt r) (cv_ResolvedByID r) (cv_ResolutionReason r)
    (cv_ReopenedCount r) (cv_MessageCount r).
Definition set_cv_WhatsAppAccount (v : string) (r : Conversation) : Conversation :=
  MkConversation (cv_ID r) (cv_DeletedAt r) (cv_OrganizationID r) (cv_ContactID r)
    (cv_Status r) (cv_AssigneeID r) (cv_TeamID r) (cv_Handling r) v (cv_OriginCampaignID r)
    (cv_SnoozedUntil r) (cv_SnoozedByID r) (cv_OpenedAt r) (cv_FirstCustomerMessageAt r)
    (cv_FirstResponseAt r) (cv_FirstResponderID r) (cv_LastCustomerMessageAt r)
    (cv_LastAgentMessageAt r) (cv_LastMessageAt r) (cv_WaitingSince r) (cv_ResolvedAt r)
    (cv_ResolvedByID r) (cv_ResolutionReason r) (cv_ReopenedCount r) (cv_MessageCount r).
Definition set_cv_OriginCampaignID (v : option uuid) (r : Conversation) : Conversation :=
  MkConversation (cv_ID r) (cv_DeletedAt r) (cv_OrganizationID r) (cv_ContactID r)
    (cv_Status r) (cv_AssigneeID r) (cv_TeamID r) (cv_Handling r) (cv_WhatsAppAccount r) v
    (cv_SnoozedUntil r) (cv_SnoozedByID r) (cv_OpenedAt r) (cv_FirstCustomerMessageAt r)
    (cv_FirstResponseAt r) (cv_FirstResponderID r) (cv_LastCustomerMessageAt r)
    (cv_LastAgentMessageAt r) (cv_LastMessageAt r) (cv_WaitingSince r) (cv_ResolvedAt r)
    (cv_ResolvedByID r) (cv_ResolutionReason r) (cv_ReopenedCount r) (cv_MessageCount r).
Definition set_cv_SnoozedUntil (v : option time) (r : Conversation) : Conversation :=
  MkConversation (cv_ID r) (cv_DeletedAt r) (cv_OrganizationID r) (cv_ContactID r)
    (cv_Status r) (cv_AssigneeID r) (cv_TeamID r) (cv_Handling r) (cv_WhatsAppAccount r)
    (cv_OriginCampaignID r) v (cv_SnoozedByID r) (cv_OpenedAt r) (cv_FirstCustomerMessageAt
    r) (cv_FirstResponseAt r) (cv_FirstResponderID r) (cv_LastCustomerMessageAt r)
    (cv_LastAgentMessageAt r) (cv_LastMessageAt r) (cv_WaitingSince r) (cv_ResolvedAt r)
    (cv_ResolvedByID r) (cv_ResolutionReason r) (cv_ReopenedCount r) (cv_MessageCount r).
Definition set_cv_SnoozedByID (v : option uuid) (r : Conversation) : Conversation :=
  MkConversation (cv_ID r) (cv_DeletedAt r) (cv_OrganizationID r) (cv_ContactID r)
    (cv_Status r) (cv_AssigneeID r) (cv_TeamID r) (cv_Handling r) (cv_WhatsAppAccount r)
    (cv_OriginCampaignID r) (cv_SnoozedUntil r) v (cv_OpenedAt r) (cv_FirstCustomerMessageAt
    r) (cv_FirstResponseAt r) (cv_FirstResponderID r) (cv_LastCustomerMessageAt r)
    (cv_LastAgentMessageAt r) (cv_LastMessageAt r) (cv_WaitingSince r) (cv_ResolvedAt r)
    (cv_ResolvedByID r) (cv_ResolutionReason r) (cv_ReopenedCount r) (cv_MessageCount r).
Definition set_cv_OpenedAt (v : time) (r : Conversation) : Conversation :=
  MkConversation (cv_ID r) (cv_DeletedAt r) (cv_OrganizationID r) (cv_ContactID r)
    (cv_Status r) (cv_AssigneeID r) (cv_TeamID r) (cv_Handling r) (cv_WhatsAppAccount r)
    (cv_OriginCampaignID r) (cv_SnoozedUntil r) (cv_SnoozedByID r) v
    (cv_FirstCustomerMessageAt r) (cv_FirstResponseAt r) (cv_FirstResponderID r)
    (cv_LastCustomerMessageAt r) (cv_LastAgentMessageAt r) (cv_LastMessageAt r)
    (cv_WaitingSince r) (cv_ResolvedAt r) (cv_ResolvedByID r) (cv_ResolutionReason r)
    (cv_ReopenedCount r) (cv_MessageCount r).
Definition set_cv_FirstCustomerMessageAt (v : option time) (r : Conversation) : Conversation :=
  MkConversation (cv_ID r) (cv_DeletedAt r) (cv_OrganizationID r) (cv_ContactID r)
    (cv_Status r) (cv_AssigneeID r) (cv_TeamID r) (cv_Handling r) (cv_WhatsAppAccount r)
    (cv_OriginCampaignID r) (cv_SnoozedUntil r) (cv_SnoozedByID r) (cv_OpenedAt r) v
    (cv_FirstResponseAt r) (cv_FirstResponderID r) (cv_LastCustomerMessageAt r)
    (cv_LastAgentMessageAt r) (cv_LastMessageAt r) (cv_WaitingSince r) (cv_ResolvedAt r)
    (cv_ResolvedByID r) (cv_ResolutionReason r) (cv_ReopenedCount r) (cv_MessageCount r).
Definition set_cv_FirstResponseAt (v : option time) (r : Conversation) : Conversation :=
  MkConversation (cv_ID r) (cv_DeletedAt r) (cv_OrganizationID r) (cv_ContactID r)
    (cv_Status r) (cv_AssigneeID r) (cv_TeamID r) (cv_Handling r) (cv_WhatsAppAccount r)
    (cv_OriginCampaignID r) (cv_SnoozedUntil r) (cv_SnoozedByID r) (cv_OpenedAt r)
    (cv_FirstCustomerMessageAt r) v (cv_FirstResponderID r) (cv_LastCustomerMessageAt r)
    (cv_LastAgentMessageAt r) (cv_LastMessageAt r) (cv_WaitingSince r) (cv_ResolvedAt r)
    (cv_ResolvedByID r) (cv_ResolutionReason r) (cv_ReopenedCount r) (cv_MessageCount r).
Definition set_cv_FirstResponderID (v : option uuid) (r : Conversation) : Conversation :=
  MkConversation (cv_ID r) (cv_DeletedAt r) (cv_OrganizationID r) (cv_ContactID r)
    (cv_Status r) (cv_AssigneeID r) (cv_TeamID r) (cv_Handling r) (cv_WhatsAppAccount r)
    (cv_OriginCampaignID r) (cv_SnoozedUntil r) (cv_SnoozedByID r) (cv_OpenedAt r)
    (cv_FirstCustomerMessageAt r) (cv_FirstResponseAt r) v (cv_LastCustomerMessageAt r)
    (cv_LastAgentMessageAt r) (cv_LastMessageAt r) (cv_WaitingSince r) (cv_ResolvedAt r)
    (cv_ResolvedByID r) (cv_ResolutionReason r) (cv_ReopenedCount r) (cv_MessageCount r).
Definition set_cv_LastCustomerMessageAt (v : option time) (r : Conversation) : Conversation :=
  MkConversation (cv_ID r) (cv_DeletedAt r) (cv_OrganizationID r) (cv_ContactID r)
    (cv_Status r) (cv_AssigneeID r) (cv_TeamID r) (cv_Handling r) (cv_WhatsAppAccount r)
    (cv_OriginCampaignID r) (cv_SnoozedUntil r) (cv_SnoozedByID r) (cv_OpenedAt r)
    (cv_FirstCustomerMessageAt r) (cv_FirstResponseAt r) (cv_FirstResponderID r) v
    (cv_LastAgentMessageAt r) (cv_LastMessageAt r) (cv_WaitingSince r) (cv_ResolvedAt r)
    (cv_ResolvedByID r) (cv_ResolutionReason r) (cv_ReopenedCount r) (cv_MessageCount r).
Definition set_cv_LastAgentMessageAt (v : option time) (r : Conversation) : Conversation :=
  MkConversation (cv_ID r) (cv_DeletedAt r) (cv_OrganizationID r) (cv_ContactID r)
    (cv_Status r) (cv_AssigneeID r) (cv_TeamID r) (cv_Handling r) (cv_WhatsAppAccount r)
    (cv_OriginCampaignID r) (cv_SnoozedUntil r) (cv_SnoozedByID r) (cv_OpenedAt r)
    (cv_FirstCustomerMessageAt r) (cv_FirstResponseAt r) (cv_FirstResponderID r)
    (cv_LastCustomerMessageAt r) v (cv_LastMessageAt r) (cv_WaitingSince r) (cv_ResolvedAt
    r) (cv_ResolvedByID r) (cv_ResolutionReason r) (cv_ReopenedCount r) (cv_MessageCount r).
Definition set_cv_LastMessageAt (v : option time) (r : Conversation) : Conversation :=
  MkConversation (cv_ID r) (cv_DeletedAt r) (cv_OrganizationID r) (cv_ContactID r)
    (cv_Status r) (cv_AssigneeID r) (cv_TeamID r) (cv_Handling r) (cv_WhatsAppAccount r)
    (cv_OriginCampaignID r) (cv_SnoozedUntil r) (cv_SnoozedByID r) (cv_OpenedAt r)
    (cv_FirstCustomerMessageAt r) (cv_FirstResponseAt r) (cv_FirstResponderID r)
    (cv_LastCustomerMessageAt r) (cv_LastAgentMessageAt r) v (cv_WaitingSince r)
    (cv_ResolvedAt r) (cv_ResolvedByID r) (cv_ResolutionReason r) (cv_ReopenedCount r)
    (cv_MessageCount r).
Definition set_cv_WaitingSince (v : option time) (r : Conversation) : Conversation :=
  MkConversation (cv_ID r) (cv_DeletedAt r) (cv_OrganizationID r) (cv_ContactID r)
    (cv_Status r) (cv_AssigneeID r) (cv_TeamID r) (cv_Handling r) (cv_WhatsAppAccount r)
    (cv_OriginCampaignID r) (cv_SnoozedUntil r) (cv_SnoozedByID r) (cv_OpenedAt r)
    (cv_FirstCustomerMessageAt r) (cv_FirstResponseAt r) (cv_FirstResponderID r)
    (cv_LastCustomerMessageAt r) (cv_LastAgentMessageAt r) (cv_LastMessageAt r) v
    (cv_ResolvedAt r) (cv_ResolvedByID r) (cv_ResolutionReason r) (cv_ReopenedCount r)
    (cv_MessageCount r).
Definition set_cv_ResolvedAt (v : option time) (r : Conversation) : Conversation :=
  MkConversation (cv_ID r) (cv_DeletedAt r) (cv_OrganizationID r) (cv_ContactID r)
    (cv_Status r) (cv_AssigneeID r) (cv_TeamID r) (cv_Handling r) (cv_WhatsAppAccount r)
    (cv_OriginCampaignID r) (cv_SnoozedUntil r) (cv_SnoozedByID r) (cv_OpenedAt r)
    (cv_FirstCustomerMessageAt r) (cv_FirstResponseAt r) (cv_FirstResponderID r)
    (cv_LastCustomerMessageAt r) (cv_LastAgentMessageAt r) (cv_LastMessageAt r)
    (cv_WaitingSince r) v (cv_ResolvedByID r) (cv_ResolutionReason r) (cv_ReopenedCount r)
    (cv_MessageCount r).
Definition set_cv_ResolvedByID (v : option uuid) (r : Conversation) : Conversation :=
  MkConversation (cv_ID r) (cv_DeletedAt r) (cv_OrganizationID r) (cv_ContactID r)
    (cv_Status r) (cv_AssigneeID r) (cv_TeamID r) (cv_Handling r) (cv_WhatsAppAccount r)
    (cv_OriginCampaignID r) (cv_SnoozedUntil r) (cv_SnoozedByID r) (cv_OpenedAt r)
    (cv_FirstCustomerMessageAt r) (cv_FirstResponseAt r) (cv_FirstResponderID r)
    (cv_LastCustomerMessageAt r) (cv_LastAgentMessageAt r) (cv_LastMessageAt r)
    (cv_WaitingSince r) (cv_ResolvedAt r) v (cv_ResolutionReason r) (cv_ReopenedCount r)
    (cv_MessageCount r).
Definition set_cv_ResolutionReason (v : string) (r : Conversation) : Conversation :=
  MkConversation (cv_ID r) (cv_DeletedAt r) (cv_OrganizationID r) (cv_ContactID r)
    (cv_Status r) (cv_AssigneeID r) (cv_TeamID r) (cv_Handling r) (cv_WhatsAppAccount r)
    (cv_OriginCampaignID r) (cv_SnoozedUntil r) (cv_SnoozedByID r) (cv_OpenedAt r)
    (cv_FirstCustomerMessageAt r) (cv_FirstResponseAt r) (cv_FirstResponderID r)
    (cv_LastCustomerMessageAt r) (cv_LastAgentMessageAt r) (cv_LastMessageAt r)
    (cv_WaitingSince r) (cv_ResolvedAt r) (cv_ResolvedByID r) v (cv_ReopenedCount r)
    (cv_MessageCount r).
Definition set_cv_ReopenedCount (v : Z) (r : Conversation) : Conversation :=
  MkConversation (cv_ID r) (cv_DeletedAt r) (cv_OrganizationID r) (cv_ContactID r)
    (cv_Status r) (cv_AssigneeID r) (cv_TeamID r) (cv_Handling r) (cv_WhatsAppAccount r)
    (cv_OriginCampaignID r) (cv_SnoozedUntil r) (cv_SnoozedByID r) (cv_OpenedAt r)
    (cv_FirstCustomerMessageAt r) (cv_FirstResponseAt r) (cv_FirstResponderID r)
    (cv_LastCustomerMessageAt r) (cv_LastAgentMessageAt r) (cv_LastMessageAt r)
    (cv_WaitingSince r) (cv_ResolvedAt r) (cv_ResolvedByID r) (cv_ResolutionReason r) v
    (cv_MessageCount r).
Definition set_cv_MessageCount (v : Z) (r : Conversation) : Conversation :=
  MkConversation (cv_ID r) (cv_DeletedAt r) (cv_OrganizationID r) (cv_ContactID r)
    (cv_Status r) (cv_AssigneeID r) (cv_TeamID r) (cv_Handling r) (cv_WhatsAppAccount r)
    (cv_OriginCampaignID r) (cv_SnoozedUntil r) (cv_SnoozedByID r) (cv_OpenedAt r)
    (cv_FirstCustomerMessageAt r) (cv_FirstResponseAt r) (cv_FirstResponderID r)
    (cv_LastCustomerMessageAt r) (cv_LastAgentMessageAt r) (cv_LastMessageAt r)
    (cv_WaitingSince r) (cv_ResolvedAt r) (cv_ResolvedByID r) (cv_ResolutionReason r)
    (cv_ReopenedCount r) v.


(** [Conversation.IsBotHandled] and [Conversation.IsWaitingOnUs]. *)
Definition IsBotHandled (c : Conversation) : bool := bool_decide (cv_Handling c = HandlingBot).
Definition IsWaitingOnUs (c : Conversation) : bool := is_some (cv_WaitingSince c).

(** [models.ConversationRead]; its key is the pair (conversation, user). *)
Record ConversationRead := MkRead { rd_LastReadAt : time; rd_UpdatedAt : time }.

(** [models.AgentTransfer], with the embedded [SLATracking] columns. *)
Record AgentTransfer := MkAgentTransfer {
  tr_ID : uuid;
  tr_DeletedAt : option time;
  tr_OrganizationID : uuid;
  tr_ContactID : uuid;
  tr_WhatsAppAccount : string;
  tr_PhoneNumber : string;
  tr_Status : TransferStatus;
  tr_Source : string;
  tr_AgentID : option uuid;
  tr_TeamID : option uuid;
  tr_TransferredByUserID : option uuid;
  tr_Notes : string;
  tr_TransferredAt : time;
  tr_ResumedAt : option time;
  tr_ResumedBy : option uuid;
  tr_ResponseDeadline : option time;
  tr_ResolutionDeadline : option time;
  tr_EscalationAt : option time;
  tr_ExpiresAt : option time;
  tr_PickedUpAt : option time;
  tr_FirstResponseAt : option time;
  tr_EscalationLevel : Z;
  tr_EscalatedAt : option time;
  tr_Breached : bool;
  tr_BreachedAt : option time
}.

Definition set_tr_ID (v : uuid) (r : AgentTransfer) : AgentTransfer :=
  MkAgentTransfer v (tr_DeletedAt r) (tr_OrganizationID r) (tr_ContactID r)
    (tr_WhatsAppAccount r) (tr_PhoneNumber r) (tr_Status r) (tr_Source r) (tr_AgentID r)
    (tr_TeamID r) (tr_TransferredByUserID r) (tr_Notes r) (tr_TransferredAt r) (tr_ResumedAt
    r) (tr_ResumedBy r) (tr_ResponseDeadline r) (tr_ResolutionDeadline r) (tr_EscalationAt
    r) (tr_ExpiresAt r) (tr_PickedUpAt r) (tr_FirstResponseAt r) (tr_EscalationLevel r)
    (tr_EscalatedAt r) (tr_Breached r) (tr_BreachedAt r).
Definition set_tr_DeletedAt (v : option time) (r : AgentTransfer) : AgentTransfer :=
  MkAgentTransfer (tr_ID r) v (tr_OrganizationID r) (tr_ContactID r) (tr_WhatsAppAccount r)
    (tr_PhoneNumber r) (tr_Status r) (tr_Source r) (tr_AgentID r) (tr_TeamID r)
    (tr_TransferredByUserID r) (tr_Notes r) (tr_TransferredAt r) (tr_ResumedAt r)
    (tr_ResumedBy r) (tr_ResponseDeadline r) (tr_ResolutionDeadline r) (tr_EscalationAt r)
    (tr_ExpiresAt r) (tr_PickedUpAt r) (tr_FirstResponseAt r) (tr_EscalationLevel r)
    (tr_EscalatedAt r) (tr_Breached r) (tr_BreachedAt r).
Definition set_tr_OrganizationID (v : uuid) (r : AgentTransfer) : AgentTransfer :=
  MkAgentTransfer (tr_ID r) (tr_DeletedAt r) v (tr_ContactID r) (tr_WhatsAppAccount r)
    (tr_PhoneNumber r) (tr_Status r) (tr_Source r) (tr_AgentID r) (tr_TeamID r)
    (tr_TransferredByUserID r) (tr_Notes r) (tr_TransferredAt r) (tr_ResumedAt r)
    (tr_ResumedBy r) (tr_ResponseDeadline r) (tr_ResolutionDeadline r) (tr_EscalationAt r)
    (tr_ExpiresAt r) (tr_PickedUpAt r) (tr_FirstResponseAt r) (tr_EscalationLevel r)
    (tr_EscalatedAt r) (tr_Breached r) (tr_BreachedAt r).
Definition set_tr_ContactID (v : uuid) (r : AgentTransfer) : AgentTransfer :=
  MkAgentTransfer (tr_ID r) (tr_DeletedAt r) (tr_OrganizationID r) v (tr_WhatsAppAccount r)
    (tr_PhoneNumber r) (tr_Status r) (tr_Source r) (tr_AgentID r) (tr_TeamID r)
    (tr_TransferredByUserID r) (tr_Notes r) (tr_TransferredAt r) (tr_ResumedAt r)
    (tr_ResumedBy r) (tr_ResponseDeadline r) (tr_ResolutionDeadline r) (tr_EscalationAt r)
    (tr_ExpiresAt r) (tr_PickedUpAt r) (tr_FirstResponseAt r) (tr_EscalationLevel r)
    (tr_EscalatedAt r) (tr_Breached r) (tr_BreachedAt r).
Definition set_tr_WhatsAppAccount (v : string) (r : AgentTransfer) : AgentTransfer :=
  MkAgentTransfer (tr_ID r) (tr_DeletedAt r) (tr_OrganizationID r) (tr_ContactID r) v
    (tr_PhoneNumber r) (tr_Status r) (tr_Source r) (tr_AgentID r) (tr_TeamID r)
    (tr_TransferredByUserID r) (tr_Notes r) (tr_TransferredAt r) (tr_ResumedAt r)
    (tr_ResumedBy r) (tr_ResponseDeadline r) (tr_ResolutionDeadline r) (tr_EscalationAt r)
    (tr_ExpiresAt r) (tr_PickedUpAt r) (tr_FirstResponseAt r) (tr_EscalationLevel r)
    (tr_EscalatedAt r) (tr_Breached r) (tr_BreachedAt r).
Definition set_tr_PhoneNumber (v : string) (r : AgentTransfer) : AgentTransfer :=
  MkAgentTransfer (tr_ID r) (tr_DeletedAt r) (tr_OrganizationID r) (tr_ContactID r)
    (tr_WhatsAppAccount r) v (tr_Status r) (tr_Source r) (tr_AgentID r) (tr_TeamID r)
    (tr_TransferredByUserID r) (tr_Notes r) (tr_TransferredAt r) (tr_ResumedAt r)
    (tr_ResumedBy r) (tr_ResponseDeadline r) (tr_ResolutionDeadline r) (tr_EscalationAt r)
    (tr_ExpiresAt r) (tr_PickedUpAt r) (tr_FirstResponseAt r) (tr_EscalationLevel r)
    (tr_EscalatedAt r) (tr_Breached r) (tr_BreachedAt r).
Definition set_tr_Status (v : TransferStatus) (r : AgentTransfer) : AgentTransfer :=
  MkAgentTransfer (tr_ID r) (tr_DeletedAt r) (tr_OrganizationID r) (tr_ContactID r)
    (tr_WhatsAppAccount r) (tr_PhoneNumber r) v (tr_Source r) (tr_AgentID r) (tr_TeamID r)
    (tr_TransferredByUserID r) (tr_Notes r) (tr_TransferredAt r) (tr_ResumedAt r)
    (tr_ResumedBy r) (tr_ResponseDeadline r) (tr_ResolutionDeadline r) (tr_EscalationAt r)
    (tr_ExpiresAt r) (tr_PickedUpAt r) (tr_FirstResponseAt r) (tr_EscalationLevel r)
    (tr_EscalatedAt r) (tr_Breached r) (tr_BreachedAt r).
Definition set_tr_Source (v : string) (r : AgentTransfer) : AgentTransfer :=
  MkAgentTransfer (tr_ID r) (tr_DeletedAt r) (tr_OrganizationID r) (tr_ContactID r)
    (tr_WhatsAppAccount r) (tr_PhoneNumber r) (tr_Status r) v (tr_AgentID r) (tr_TeamID r)
    (tr_TransferredByUserID r) (tr_Notes r) (tr_TransferredAt r) (tr_ResumedAt r)
    (tr_ResumedBy r) (tr_ResponseDeadline r) (tr_ResolutionDeadline r) (tr_EscalationAt r)
    (tr_ExpiresAt r) (tr_PickedUpAt r) (tr_FirstResponseAt r) (tr_EscalationLevel r)
    (tr_EscalatedAt r) (tr_Breached r) (tr_BreachedAt r).
Definition set_tr_AgentID (v : option uuid) (r : AgentTransfer) : AgentTransfer :=
  MkAgentTransfer (tr_ID r) (tr_DeletedAt r) (tr_OrganizationID r) (tr_ContactID r)
    (tr_WhatsAppAccount r) (tr_PhoneNumber r) (tr_Status r) (tr_Source r) v (tr_TeamID r)
    (tr_TransferredByUserID r) (tr_Notes r) (tr_TransferredAt r) (tr_ResumedAt r)
    (tr_ResumedBy r) (tr_ResponseDeadline r) (tr_ResolutionDeadline r) (tr_EscalationAt r)
    (tr_ExpiresAt r) (tr_PickedUpAt r) (tr_FirstResponseAt r) (tr_EscalationLevel r)
    (tr_EscalatedAt r) (tr_Breached r) (tr_BreachedAt r).
Definition set_tr_TeamID (v : option uuid) (r : AgentTransfer) : AgentTransfer :=
  MkAgentTransfer (tr_ID r) (tr_DeletedAt r) (tr_OrganizationID r) (tr_ContactID r)
    (tr_WhatsAppAccount r) (tr_PhoneNumber r) (tr_Status r) (tr_Source r) (tr_AgentID r) v
    (tr_TransferredByUserID r) (tr_Notes r) (tr_TransferredAt r) (tr_ResumedAt r)
    (tr_ResumedBy r) (tr_ResponseDeadline r) (tr_ResolutionDeadline r) (tr_EscalationAt r)
    (tr_ExpiresAt r) (tr_PickedUpAt r) (tr_FirstResponseAt r) (tr_EscalationLevel r)
    (tr_EscalatedAt r) (tr_Breached r) (tr_BreachedAt r).
Definition set_tr_TransferredByUserID (v : option uuid) (r : AgentTransfer) : AgentTransfer :=
  MkAgentTransfer (tr_ID r) (tr_DeletedAt r) (tr_OrganizationID r) (tr_ContactID r)
    (tr_WhatsAppAccount r) (tr_PhoneNumber r) (tr_Status r) (tr_Source r) (tr_AgentID r)
    (tr_TeamID r) v (tr_Notes r) (tr_TransferredAt r) (tr_ResumedAt r) (tr_ResumedBy r)
    (tr_ResponseDeadline r) (tr_ResolutionDeadline r) (tr_EscalationAt r) (tr_ExpiresAt r)
    (tr_PickedUpAt r) (tr_FirstResponseAt r) (tr_EscalationLevel r) (tr_EscalatedAt r)
    (tr_Breached r) (tr_BreachedAt r).
Definition set_tr_Notes (v : string) (r : AgentTransfer) : AgentTransfer :=
  MkAgentTransfer (tr_ID r) (tr_DeletedAt r) (tr_OrganizationID r) (tr_ContactID r)
    (tr_WhatsAppAccount r) (tr_PhoneNumber r) (tr_Status r) (tr_Source r) (tr_AgentID r)
    (tr_TeamID r) (tr_TransferredByUserID r) v (tr_TransferredAt r) (tr_ResumedAt r)
    (tr_ResumedBy r) (tr_ResponseDeadline r) (tr_ResolutionDeadline r) (tr_EscalationAt r)
    (tr_ExpiresAt r) (tr_PickedUpAt r) (tr_FirstResponseAt r) (tr_EscalationLevel r)
    (tr_EscalatedAt r) (tr_Breached r) (tr_BreachedAt r).
Definition set_tr_TransferredAt (v : time) (r : AgentTransfer) : AgentTransfer :=
  MkAgentTransfer (tr_ID r) (tr_DeletedAt r) (tr_OrganizationID r) (tr_ContactID r)
    (tr_WhatsAppAccount r) (tr_PhoneNumber r) (tr_Status r) (tr_Source r) (tr_AgentID r)
    (tr_TeamID r) (tr_TransferredByUserID r) (tr_Notes r) v (tr_ResumedAt r) (tr_ResumedBy
    r) (tr_ResponseDeadline r) (tr_ResolutionDeadline r) (tr_EscalationAt r) (tr_ExpiresAt
    r) (tr_PickedUpAt r) (tr_FirstResponseAt r) (tr_EscalationLevel r) (tr_EscalatedAt r)
    (tr_Breached r) (tr_BreachedAt r).
Definition set_tr_ResumedAt (v : option time) (r : AgentTransfer) : AgentTransfer :=
  MkAgentTransfer (tr_ID r) (tr_DeletedAt r) (tr_OrganizationID r) (tr_ContactID r)
    (tr_WhatsAppAccount r) (tr_PhoneNumber r) (tr_Status r) (tr_Source r) (tr_AgentID r)
    (tr_TeamID r) (tr_TransferredByUserID r) (tr_Notes r) (tr_TransferredAt r) v
    (tr_ResumedBy r) (tr_ResponseDeadline r) (tr_ResolutionDeadline r) (tr_EscalationAt r)
    (tr_ExpiresAt r) (tr_PickedUpAt r) (tr_FirstResponseAt r) (tr_EscalationLevel r)
    (tr_EscalatedAt r) (tr_Breached r) (tr_BreachedAt r).
Definition set_tr_ResumedBy (v : option uuid) (r : AgentTransfer) : AgentTransfer :=
  MkAgentTransfer (tr_ID r) (tr_DeletedAt r) (tr_OrganizationID r) (tr_ContactID r)
    (tr_WhatsAppAccount r) (tr_PhoneNumber r) (tr_Status r) (tr_Source r) (tr_AgentID r)
    (tr_TeamID r) (tr_TransferredByUserID r) (tr_Notes r) (tr_TransferredAt r) (tr_ResumedAt
    r) v (tr_ResponseDeadline r) (tr_ResolutionDeadline r) (tr_EscalationAt r) (tr_ExpiresAt
    r) (tr_PickedUpAt r) (tr_FirstResponseAt r) (tr_EscalationLevel r) (tr_EscalatedAt r)
    (tr_Breached r) (tr_BreachedAt r).
Definition set_tr_ResponseDeadline (v : option time) (r : AgentTransfer) : AgentTransfer :=
  MkAgentTransfer (tr_ID r) (tr_DeletedAt r) (tr_OrganizationID r) (tr_ContactID r)
    (tr_WhatsAppAccount r) (tr_PhoneNumber r) (tr_Status r) (tr_Source r) (tr_AgentID r)
    (tr_TeamID r) (tr_TransferredByUserID r) (tr_Notes r) (tr_TransferredAt r) (tr_ResumedAt
    r) (tr_ResumedBy r) v (tr_ResolutionDeadline r) (tr_EscalationAt r) (tr_ExpiresAt r)
    (tr_PickedUpAt r) (tr_FirstResponseAt r) (tr_EscalationLevel r) (tr_EscalatedAt r)
    (tr_Breached r) (tr_BreachedAt r).
Definition set_tr_ResolutionDeadline (v : option time) (r : AgentTransfer) : AgentTransfer :=
  MkAgentTransfer (tr_ID r) (tr_DeletedAt r) (tr_OrganizationID r) (tr_ContactID r)
    (tr_WhatsAppAccount r) (tr_PhoneNumber r) (tr_Status r) (tr_Source r) (tr_AgentID r)
    (tr_TeamID r) (tr_TransferredByUserID r) (tr_Notes r) (tr_TransferredAt r) (tr_ResumedAt
    r) (tr_ResumedBy r) (tr_ResponseDeadline r) v (tr_EscalationAt r) (tr_ExpiresAt r)
    (tr_PickedUpAt r) (tr_FirstResponseAt r) (tr_EscalationLevel r) (tr_EscalatedAt r)
    (tr_Breached r) (tr_BreachedAt r).
Definition set_tr_EscalationAt (v : option time) (r : AgentTransfer) : AgentTransfer :=
  MkAgentTransfer (tr_ID r) (tr_DeletedAt r) (tr_OrganizationID r) (tr_ContactID r)
    (tr_WhatsAppAccount r) (tr_PhoneNumber r) (tr_Status r) (tr_Source r) (tr_AgentID r)
    (tr_TeamID r) (tr_TransferredByUserID r) (tr_Notes r) (tr_TransferredAt r) (tr_ResumedAt
    r) (tr_ResumedBy r) (tr_ResponseDeadline r) (tr_ResolutionDeadline r) v (tr_ExpiresAt r)
    (tr_PickedUpAt r) (tr_FirstResponseAt r) (tr_EscalationLevel r) (tr_EscalatedAt r)
    (tr_Breached r) (tr_BreachedAt r).
Definition set_tr_ExpiresAt (v : option time) (r : AgentTransfer) : AgentTransfer :=
  MkAgentTransfer (tr_ID r) (tr_DeletedAt r) (tr_OrganizationID r) (tr_ContactID r)
    (tr_WhatsAppAccount r) (tr_PhoneNumber r) (tr_Status r) (tr_Source r) (tr_AgentID r)
    (tr_TeamID r) (tr_TransferredByUserID r) (tr_Notes r) (tr_TransferredAt r) (tr_ResumedAt
    r) (tr_ResumedBy r) (tr_ResponseDeadline r) (tr_ResolutionDeadline r) (tr_EscalationAt
    r) v (tr_PickedUpAt r) (tr_FirstResponseAt r) (tr_EscalationLevel r) (tr_EscalatedAt r)
    (tr_Breached r) (tr_BreachedAt r).
Definition set_tr_PickedUpAt (v : option time) (r : AgentTransfer) : AgentTransfer :=
  MkAgentTransfer (tr_ID r) (tr_DeletedAt r) (tr_OrganizationID r) (tr_ContactID r)
    (tr_WhatsAppAccount r) (tr_PhoneNumber r) (tr_Status r) (tr_Source r) (tr_AgentID r)
    (tr_TeamID r) (tr_TransferredByUserID r) (tr_Notes r) (tr_TransferredAt r) (tr_ResumedAt
    r) (tr_ResumedBy r) (tr_ResponseDeadline r) (tr_ResolutionDeadline r) (tr_EscalationAt
    r) (tr_ExpiresAt r) v (tr_FirstResponseAt r) (tr_EscalationLevel r) (tr_EscalatedAt r)
    (tr_Breached r) (tr_BreachedAt r).
Definition set_tr_FirstResponseAt (v : option time) (r : AgentTransfer) : AgentTransfer :=
  MkAgentTransfer (tr_ID r) (tr_DeletedAt r) (tr_OrganizationID r) (tr_ContactID r)
    (tr_WhatsAppAccount r) (tr_PhoneNumber r) (tr_Status r) (tr_Source r) (tr_AgentID r)
    (tr_TeamID r) (tr_TransferredByUserID r) (tr_Notes r) (tr_TransferredAt r) (tr_ResumedAt
    r) (tr_ResumedBy r) (tr_ResponseDeadline r) (tr_ResolutionDeadline r) (tr_EscalationAt
    r) (tr_ExpiresAt r) (tr_PickedUpAt r) v (tr_EscalationLevel r) (tr_EscalatedAt r)
    (tr_Breached r) (tr_BreachedAt r).
Definition set_tr_EscalationLevel (v : Z) (r : AgentTransfer) : AgentTransfer :=
  MkAgentTransfer (tr_ID r) (tr_DeletedAt r) (tr_OrganizationID r) (tr_ContactID r)
    (tr_WhatsAppAccount r) (tr_PhoneNumber r) (tr_Status r) (tr_Source r) (tr_AgentID r)
    (tr_TeamID r) (tr_TransferredByUserID r) (tr_Notes r) (tr_TransferredAt r) (tr_ResumedAt
    r) (tr_ResumedBy r) (tr_ResponseDeadline r) (tr_ResolutionDeadline r) (tr_EscalationAt
    r) (tr_ExpiresAt r) (tr_PickedUpAt r) (tr_FirstResponseAt r) v (tr_EscalatedAt r)
    (tr_Breached r) (tr_BreachedAt r).
Definition set_tr_EscalatedAt (v : option time) (r : AgentTransfer) : AgentTransfer :=
  MkAgentTransfer (tr_ID r) (tr_DeletedAt r) (tr_OrganizationID r) (tr_ContactID r)
    (tr_WhatsAppAccount r) (tr_PhoneNumber r) (tr_Status r) (tr_Source r) (tr_AgentID r)
    (tr_TeamID r) (tr_TransferredByUserID r) (tr_Notes r) (tr_TransferredAt r) (tr_ResumedAt
    r) (tr_ResumedBy r) (tr_ResponseDeadline r) (tr_ResolutionDeadline r) (tr_EscalationAt
    r) (tr_ExpiresAt r) (tr_PickedUpAt r) (tr_FirstResponseAt r) (tr_EscalationLevel r) v
    (tr_Breached r) (tr_BreachedAt r).
Definition set_tr_Breached (v : bool) (r : AgentTransfer) : AgentTransfer :=
  MkAgentTransfer (tr_ID r) (tr_DeletedAt r) (tr_OrganizationID r) (tr_ContactID r)
    (tr_WhatsAppAccount r) (tr_PhoneNumber r) (tr_Status r) (tr_Source r) (tr_AgentID r)
    (tr_TeamID r) (tr_TransferredByUserID r) (tr_Notes r) (tr_TransferredAt r) (tr_ResumedAt
    r) (tr_ResumedBy r) (tr_ResponseDeadline r) (tr_ResolutionDeadline r) (tr_EscalationAt
    r) (tr_ExpiresAt r) (tr_PickedUpAt r) (tr_FirstResponseAt r) (tr_EscalationLevel r)
    (tr_EscalatedAt r) v (tr_BreachedAt r).
Definition set_tr_BreachedAt (v : option time) (r : AgentTransfer) : AgentTransfer :=
  MkAgentTransfer (tr_ID r) (tr_DeletedAt r) (tr_OrganizationID r) (tr_ContactID r)
    (tr_WhatsAppAccount r) (tr_PhoneNumber r) (tr_Status r) (tr_Source r) (tr_AgentID r)
    (tr_TeamID r) (tr_TransferredByUserID r) (tr_Notes r) (tr_TransferredAt r) (tr_ResumedAt
    r) (tr_ResumedBy r) (tr_ResponseDeadline r) (tr_ResolutionDeadline r) (tr_EscalationAt
    r) (tr_ExpiresAt r) (tr_PickedUpAt r) (tr_FirstResponseAt r) (tr_EscalationLevel r)
    (tr_EscalatedAt r) (tr_Breached r) v.


(** [models.Contact]: identity, ownership, messaging window and deletion state. *)
Record Contact := MkContact {
  ct_ID : uuid;
  ct_CreatedAt : time;
  ct_DeletedAt : option time;
  ct_OrganizationID : uuid;
  ct_PhoneNumber : string;
  ct_ProfileName : string;
  ct_WhatsAppAccount : string;
  ct_AssignedUserID : option uuid;
  ct_LastMessageAt : option time;
  ct_LastInboundAt : option time;
  ct_MarketingOptOut : bool;
  ct_BSUID : string;
  ct_PhoneNormalized : string;
  ct_Source : string;
  ct_MergedIntoID : option uuid;
  ct_DeletedReason : string;
  ct_ChatbotLastMessageAt : option time;
  ct_ChatbotReminderSent : bool
}.

Definition set_ct_ID (v : uuid) (r : Contact) : Contact :=
  MkContact v (ct_CreatedAt r) (ct_DeletedAt r) (ct_OrganizationID r) (ct_PhoneNumber r)
  (ct_ProfileName r) (ct_WhatsAppAccount r) (ct_AssignedUserID r) (ct_LastMessageAt r)
  (ct_LastInboundAt r) (ct_MarketingOptOut r) (ct_BSUID r) (ct_PhoneNormalized r) (ct_Source r)
  (ct_MergedIntoID r) (ct_DeletedReason r) (ct_ChatbotLastMessageAt r) (ct_ChatbotReminderSent r).
Definition set_ct_CreatedAt (v : time) (r : Contact) : Contact :=
  MkContact (ct_ID r) v (ct_DeletedAt r) (ct_OrganizationID r) (ct_PhoneNumber r) (ct_ProfileName r)
  (ct_WhatsAppAccount r) (ct_AssignedUserID r) (ct_LastMessageAt r) (ct_LastInboundAt r)
  (ct_MarketingOptOut r) (ct_BSUID r) (ct_PhoneNormalized r) (ct_Source r) (ct_MergedIntoID r)
  (ct_DeletedReason r) (ct_ChatbotLastMessageAt r) (ct_ChatbotReminderSent r).
Definition set_ct_DeletedAt (v : option time) (r : Contact) : Contact :=
  MkContact (ct_ID r) (ct_CreatedAt r) v (ct_OrganizationID r) (ct_PhoneNumber r) (ct_ProfileName r)
  (ct_WhatsAppAccount r) (ct_AssignedUserID r) (ct_LastMessageAt r) (ct_LastInboundAt r)
  (ct_MarketingOptOut r) (ct_BSUID r) (ct_PhoneNormalized r) (ct_Source r) (ct_MergedIntoID r)
  (ct_DeletedReason r) (ct_ChatbotLastMessageAt r) (ct_ChatbotReminderSent r).
Definition set_ct_OrganizationID (v : uuid) (r : Contact) : Contact :=
  MkContact (ct_ID r) (ct_CreatedAt r) (ct_DeletedAt r) v (ct_PhoneNumber r) (ct_ProfileName r)
  (ct_WhatsAppAccount r) (ct_AssignedUserID r) (ct_LastMessageAt r) (ct_LastInboundAt r)
  (ct_MarketingOptOut r) (ct_BSUID r) (ct_PhoneNormalized r) (ct_Source r) (ct_MergedIntoID r)
  (ct_DeletedReason r) (ct_ChatbotLastMessageAt r) (ct_ChatbotReminderSent r).
Definition set_ct_PhoneNumber (v : string) (r : Contact) : Contact :=
  MkContact (ct_ID r) (ct_CreatedAt r) (ct_DeletedAt r) (ct_OrganizationID r) v (ct_ProfileName r)
  (ct_WhatsAppAccount r) (ct_AssignedUserID r) (ct_LastMessageAt r) (ct_LastInboundAt r)
  (ct_MarketingOptOut r) (ct_BSUID r) (ct_PhoneNormalized r) (ct_Source r) (ct_MergedIntoID r)
  (ct_DeletedReason r) (ct_ChatbotLastMessageAt r) (ct_ChatbotReminderSent r).
Definition set_ct_ProfileName (v : string) (r : Contact) : Contact :=
  MkContact (ct_ID r) (ct_CreatedAt r) (ct_DeletedAt r) (ct_OrganizationID r) (ct_PhoneNumber r) v
  (ct_WhatsAppAccount r) (ct_AssignedUserID r) (ct_LastMessageAt r) (ct_LastInboundAt r)
  (ct_MarketingOptOut r) (ct_BSUID r) (ct_PhoneNormalized r) (ct_Source r) (ct_MergedIntoID r)
  (ct_DeletedReason r) (ct_ChatbotLastMessageAt r) (ct_ChatbotReminderSent r).
Definition set_ct_WhatsAppAccount (v : string) (r : Contact) : Contact :=
  MkContact (ct_ID r) (ct_CreatedAt r) (ct_DeletedAt r) (ct_OrganizationID r) (ct_PhoneNumber r)
  (ct_ProfileName r) v (ct_AssignedUserID r) (ct_LastMessageAt r) (ct_LastInboundAt r)
  (ct_MarketingOptOut r) (ct_BSUID r) (ct_PhoneNormalized r) (ct_Source r) (ct_MergedIntoID r)
  (ct_DeletedReason r) (ct_ChatbotLastMessageAt r) (ct_ChatbotReminderSent r).
Definition set_ct_AssignedUserID (v : option uuid) (r : Contact) : Contact :=
  MkContact (ct_ID r) (ct_CreatedAt r) (ct_DeletedAt r) (ct_OrganizationID r) (ct_PhoneNumber r)
  (ct_ProfileName r) (ct_WhatsAppAccount r) v (ct_LastMessageAt r) (ct_LastInboundAt r)
  (ct_MarketingOptOut r) (ct_BSUID r) (ct_PhoneNormalized r) (ct_Source r) (ct_MergedIntoID r)
  (ct_DeletedReason r) (ct_ChatbotLastMessageAt r) (ct_ChatbotReminderSent r).
Definition set_ct_LastMessageAt (v : option time) (r : Contact) : Contact :=
  MkContact (ct_ID r) (ct_CreatedAt r) (ct_DeletedAt r) (ct_OrganizationID r) (ct_PhoneNumber r)
  (ct_ProfileName r) (ct_WhatsAppAccount r) (ct_AssignedUserID r) v (ct_LastInboundAt r)
  (ct_MarketingOptOut r) (ct_BSUID r) (ct_PhoneNormalized r) (ct_Source r) (ct_MergedIntoID r)
  (ct_DeletedReason r) (ct_ChatbotLastMessageAt r) (ct_ChatbotReminderSent r).
Definition set_ct_LastInboundAt (v : option time) (r : Contact) : Contact :=
  MkContact (ct_ID r) (ct_CreatedAt r) (ct_DeletedAt r) (ct_OrganizationID r) (ct_PhoneNumber r)
  (ct_ProfileName r) (ct_WhatsAppAccount r) (ct_AssignedUserID r) (ct_LastMessageAt r) v
  (ct_MarketingOptOut r) (ct_BSUID r) (ct_PhoneNormalized r) (ct_Source r) (ct_MergedIntoID r)
  (ct_DeletedReason r) (ct_ChatbotLastMessageAt r) (ct_ChatbotReminderSent r).
Definition set_ct_MarketingOptOut (v : bool) (r : Contact) : Contact :=
  MkContact (ct_ID r) (ct_CreatedAt r) (ct_DeletedAt r) (ct_OrganizationID r) (ct_PhoneNumber r)
  (ct_ProfileName r) (ct_WhatsAppAccount r) (ct_AssignedUserID r) (ct_LastMessageAt r)
  (ct_LastInboundAt r) v (ct_BSUID r) (ct_PhoneNormalized r) (ct_Source r) (ct_MergedIntoID r)
  (ct_DeletedReason r) (ct_ChatbotLastMessageAt r) (ct_ChatbotReminderSent r).
Definition set_ct_BSUID (v : string) (r : Contact) : Contact :=
  MkContact (ct_ID r) (ct_CreatedAt r) (ct_DeletedAt r) (ct_OrganizationID r) (ct_PhoneNumber r)
  (ct_ProfileName r) (ct_WhatsAppAccount r) (ct_AssignedUserID r) (ct_LastMessageAt r)
  (ct_LastInboundAt r) (ct_MarketingOptOut r) v (ct_PhoneNormalized r) (ct_Source r)
  (ct_MergedIntoID r) (ct_DeletedReason r) (ct_ChatbotLastMessageAt r) (ct_ChatbotReminderSent r).
Definition set_ct_PhoneNormalized (v : string) (r : Contact) : Contact :=
  MkContact (ct_ID r) (ct_CreatedAt r) (ct_DeletedAt r) (ct_OrganizationID r) (ct_PhoneNumber r)
  (ct_ProfileName r) (ct_WhatsAppAccount r) (ct_AssignedUserID r) (ct_LastMessageAt r)
  (ct_LastInboundAt r) (ct_MarketingOptOut r) (ct_BSUID r) v (ct_Source r) (ct_MergedIntoID r)
  (ct_DeletedReason r) (ct_ChatbotLastMessageAt r) (ct_ChatbotReminderSent r).
Definition set_ct_Source (v : string) (r : Contact) : Contact :=
  MkContact (ct_ID r) (ct_CreatedAt r) (ct_DeletedAt r) (ct_OrganizationID r) (ct_PhoneNumber r)
  (ct_ProfileName r) (ct_WhatsAppAccount r) (ct_AssignedUserID r) (ct_LastMessageAt r)
  (ct_LastInboundAt r) (ct_MarketingOptOut r) (ct_BSUID r) (ct_PhoneNormalized r) v
  (ct_MergedIntoID r) (ct_DeletedReason r) (ct_ChatbotLastMessageAt r) (ct_ChatbotReminderSent r).
Definition set_ct_MergedIntoID (v : option uuid) (r : Contact) : Contact :=
  MkContact (ct_ID r) (ct_CreatedAt r) (ct_DeletedAt r) (ct_OrganizationID r) (ct_PhoneNumber r)
  (ct_ProfileName r) (ct_WhatsAppAccount r) (ct_AssignedUserID r) (ct_LastMessageAt r)
  (ct_LastInboundAt r) (ct_MarketingOptOut r) (ct_BSUID r) (ct_PhoneNormalized r) (ct_Source r) v
  (ct_DeletedReason r) (ct_ChatbotLastMessageAt r) (ct_ChatbotReminderSent r).
Definition set_ct_DeletedReason (v : string) (r : Contact) : Contact :=
  MkContact (ct_ID r) (ct_CreatedAt r) (ct_DeletedAt r) (ct_OrganizationID r) (ct_PhoneNumber r)
  (ct_ProfileName r) (ct_WhatsAppAccount r) (ct_AssignedUserID r) (ct_LastMessageAt r)
  (ct_LastInboundAt r) (ct_MarketingOptOut r) (ct_BSUID r) (ct_PhoneNormalized r) (ct_Source r)
  (ct_MergedIntoID r) v (ct_ChatbotLastMessageAt r) (ct_ChatbotReminderSent r).
Definition set_ct_ChatbotLastMessageAt (v : option time) (r : Contact) : Contact :=
  MkContact (ct_ID r) (ct_CreatedAt r) (ct_DeletedAt r) (ct_OrganizationID r) (ct_PhoneNumber r)
  (ct_ProfileName r) (ct_WhatsAppAccount r) (ct_AssignedUserID r) (ct_LastMessageAt r)
  (ct_LastInboundAt r) (ct_MarketingOptOut r) (ct_BSUID r) (ct_PhoneNormalized r) (ct_Source r)
  (ct_MergedIntoID r) (ct_DeletedReason r) v (ct_ChatbotReminderSent r).
Definition set_ct_ChatbotReminderSent (v : bool) (r : Contact) : Contact :=
  MkContact (ct_ID r) (ct_CreatedAt r) (ct_DeletedAt r) (ct_OrganizationID r) (ct_PhoneNumber r)
  (ct_ProfileName r) (ct_WhatsAppAccount r) (ct_AssignedUserID r) (ct_LastMessageAt r)
  (ct_LastInboundAt r) (ct_MarketingOptOut r) (ct_BSUID r) (ct_PhoneNormalized r) (ct_Source r)
  (ct_MergedIntoID r) (ct_DeletedReason r) (ct_ChatbotLastMessageAt r) v.


(** [models.ChatbotSession]; a nil [SessionData] is the empty map. *)
Record ChatbotSession := MkChatbotSession {
  ss_ID : uuid;
  ss_DeletedAt : option time;
  ss_OrganizationID : uuid;
  ss_ContactID : uuid;
  ss_WhatsAppAccount : string;
  ss_PhoneNumber : string;
  ss_Status : SessionStatus;
  ss_CurrentFlowID : option uuid;
  ss_CurrentStep : string;
  ss_StepRetries : Z;
  ss_SessionData : list (string * any);
  ss_StartedAt : time;
  ss_LastActivityAt : time;
  ss_CompletedAt : option time
}.

Definition set_ss_Status (v : SessionStatus) (r : ChatbotSession) : ChatbotSession :=
  MkChatbotSession (ss_ID r) (ss_DeletedAt r) (ss_OrganizationID r) (ss_ContactID r)
  (ss_WhatsAppAccount r) (ss_PhoneNumber r) v (ss_CurrentFlowID r) (ss_CurrentStep r)
  (ss_StepRetries r) (ss_SessionData r) (ss_StartedAt r) (ss_LastActivityAt r) (ss_CompletedAt r).
Definition set_ss_CurrentFlowID (v : option uuid) (r : ChatbotSession) : ChatbotSession :=
  MkChatbotSession (ss_ID r) (ss_DeletedAt r) (ss_OrganizationID r) (ss_ContactID r)
  (ss_WhatsAppAccount r) (ss_PhoneNumber r) (ss_Status r) v (ss_CurrentStep r) (ss_StepRetries r)
  (ss_SessionData r) (ss_StartedAt r) (ss_LastActivityAt r) (ss_CompletedAt r).
Definition set_ss_CurrentStep (v : string) (r : ChatbotSession) : ChatbotSession :=
  MkChatbotSession (ss_ID r) (ss_DeletedAt r) (ss_OrganizationID r) (ss_ContactID r)
  (ss_WhatsAppAccount r) (ss_PhoneNumber r) (ss_Status r) (ss_CurrentFlowID r) v (ss_StepRetries r)
  (ss_SessionData r) (ss_StartedAt r) (ss_LastActivityAt r) (ss_CompletedAt r).
Definition set_ss_StepRetries (v : Z) (r : ChatbotSession) : ChatbotSession :=
  MkChatbotSession (ss_ID r) (ss_DeletedAt r) (ss_OrganizationID r) (ss_ContactID r)
  (ss_WhatsAppAccount r) (ss_PhoneNumber r) (ss_Status r) (ss_CurrentFlowID r) (ss_CurrentStep r) v
  (ss_SessionData r) (ss_StartedAt r) (ss_LastActivityAt r) (ss_CompletedAt r).
Definition set_ss_SessionData (v : list (string * any)) (r : ChatbotSession) : ChatbotSession :=
  MkChatbotSession (ss_ID r) (ss_DeletedAt r) (ss_OrganizationID r) (ss_ContactID r)
  (ss_WhatsAppAccount r) (ss_PhoneNumber r) (ss_Status r) (ss_CurrentFlowID r) (ss_CurrentStep r)
  (ss_StepRetries r) v (ss_StartedAt r) (ss_LastActivityAt r) (ss_CompletedAt r).
Definition set_ss_LastActivityAt (v : time) (r : ChatbotSession) : ChatbotSession :=
  MkChatbotSession (ss_ID r) (ss_DeletedAt r) (ss_OrganizationID r) (ss_ContactID r)
  (ss_WhatsAppAccount r) (ss_PhoneNumber r) (ss_Status r) (ss_CurrentFlowID r) (ss_CurrentStep r)
  (ss_StepRetries r) (ss_SessionData r) (ss_StartedAt r) v (ss_CompletedAt r).
Definition set_ss_CompletedAt (v : option time) (r : ChatbotSession) : ChatbotSession :=
  MkChatbotSession (ss_ID r) (ss_DeletedAt r) (ss_OrganizationID r) (ss_ContactID r)
  (ss_WhatsAppAccount r) (ss_PhoneNumber r) (ss_Status r) (ss_CurrentFlowID r) (ss_CurrentStep r)
  (ss_StepRetries r) (ss_SessionData r) (ss_StartedAt r) (ss_LastActivityAt r) v.


(** The columns of [models.BulkMessageRecipient] the attribution reads. *)
Record BulkMessageRecipient := MkRecipient {
  br_ID : uuid;
  br_DeletedAt : option time;
  br_CampaignID : uuid;
  br_ContactID : option uuid;
  br_SentAt : option time
}.

(** [models.Pipeline]. *)
Record Pipeline := MkPipeline {
  pl_ID : uuid;
  pl_DeletedAt : option time;
  pl_OrganizationID : uuid;
  pl_Name : string;
  pl_ObjectLabelSingular : string;
  pl_ObjectLabelPlural : string;
  pl_Currency : string;
  pl_IsDefault : bool;
  pl_Position : Z;
  pl_ArchivedAt : option time;
  pl_CreatedByID : option uuid
}.

Definition set_pl_ID (v : uuid) (r : Pipeline) : Pipeline :=
  MkPipeline v (pl_DeletedAt r) (pl_OrganizationID r) (pl_Name r) (pl_ObjectLabelSingular r)
    (pl_ObjectLabelPlural r) (pl_Currency r) (pl_IsDefault r) (pl_Position r) (pl_ArchivedAt
    r) (pl_CreatedByID r).
Definition set_pl_DeletedAt (v : option time) (r : Pipeline) : Pipeline :=
  MkPipeline (pl_ID r) v (pl_OrganizationID r) (pl_Name r) (pl_ObjectLabelSingular r)
    (pl_ObjectLabelPlural r) (pl_Currency r) (pl_IsDefault r) (pl_Position r) (pl_ArchivedAt
    r) (pl_CreatedByID r).
Definition set_pl_OrganizationID (v : uuid) (r : Pipeline) : Pipeline :=
  MkPipeline (pl_ID r) (pl_DeletedAt r) v (pl_Name r) (pl_ObjectLabelSingular r)
    (pl_ObjectLabelPlural r) (pl_Currency r) (pl_IsDefault r) (pl_Position r) (pl_ArchivedAt
    r) (pl_CreatedByID r).
Definition set_pl_Name (v : string) (r : Pipeline) : Pipeline :=
  MkPipeline (pl_ID r) (pl_DeletedAt r) (pl_OrganizationID r) v (pl_ObjectLabelSingular r)
    (pl_ObjectLabelPlural r) (pl_Currency r) (pl_IsDefault r) (pl_Position r) (pl_ArchivedAt
    r) (pl_CreatedByID r).
Definition set_pl_ObjectLabelSingular (v : string) (r : Pipeline) : Pipeline :=
  MkPipeline (pl_ID r) (pl_DeletedAt r) (pl_OrganizationID r) (pl_Name r) v
    (pl_ObjectLabelPlural r) (pl_Currency r) (pl_IsDefault r) (pl_Position r) (pl_ArchivedAt
    r) (pl_CreatedByID r).
Definition set_pl_ObjectLabelPlural (v : string) (r : Pipeline) : Pipeline :=
  MkPipeline (pl_ID r) (pl_DeletedAt r) (pl_OrganizationID r) (pl_Name r)
    (pl_ObjectLabelSingular r) v (pl_Currency r) (pl_IsDefault r) (pl_Position r)
    (pl_ArchivedAt r) (pl_CreatedByID r).
Definition set_pl_Currency (v : string) (r : Pipeline) : Pipeline :=
  MkPipeline (pl_ID r) (pl_DeletedAt r) (pl_OrganizationID r) (pl_Name r)
    (pl_ObjectLabelSingular r) (pl_ObjectLabelPlural r) v (pl_IsDefault r) (pl_Position r)
    (pl_ArchivedAt r) (pl_CreatedByID r).
Definition set_pl_IsDefault (v : bool) (r : Pipeline) : Pipeline :=
  MkPipeline (pl_ID r) (pl_DeletedAt r) (pl_OrganizationID r) (pl_Name r)
    (pl_ObjectLabelSingular r) (pl_ObjectLabelPlural r) (pl_Currency r) v (pl_Position r)
    (pl_ArchivedAt r) (pl_CreatedByID r).
Definition set_pl_Position (v : Z) (r : Pipeline) : Pipeline :=
  MkPipeline (pl_ID r) (pl_DeletedAt r) (pl_OrganizationID r) (pl_Name r)
    (pl_ObjectLabelSingular r) (pl_ObjectLabelPlural r) (pl_Currency r) (pl_IsDefault r) v
    (pl_ArchivedAt r) (pl_CreatedByID r).
Definition set_pl_ArchivedAt (v : option time) (r : Pipeline) : Pipeline :=
  MkPipeline (pl_ID r) (pl_DeletedAt r) (pl_OrganizationID r) (pl_Name r)
    (pl_ObjectLabelSingular r) (pl_ObjectLabelPlural r) (pl_Currency r) (pl_IsDefault r)
    (pl_Position r) v (pl_CreatedByID r).
Definition set_pl_CreatedByID (v : option uuid) (r : Pipeline) : Pipeline :=
  MkPipeline (pl_ID r) (pl_DeletedAt r) (pl_OrganizationID r) (pl_Name r)
    (pl_ObjectLabelSingular r) (pl_ObjectLabelPlural r) (pl_Currency r) (pl_IsDefault r)
    (pl_Position r) (pl_ArchivedAt r) v.

(** [models.PipelineStage]. *)
Record PipelineStage := MkStage {
  st_ID : uuid;
  st_DeletedAt : option time;
  st_OrganizationID : uuid;
  st_PipelineID : uuid;
  st_Name : string;
  st_Position : Z;
  st_StageType : string;
  st_Probability : Z;
  st_Color : string;
  st_RottingDays : Z;
  st_ArchivedAt : option time
}.

Definition set_st_ID (v : uuid) (r : PipelineStage) : PipelineStage :=
  MkStage v (st_DeletedAt r) (st_OrganizationID r) (st_PipelineID r) (st_Name r)
    (st_Position r) (st_StageType r) (st_Probability r) (st_Color r) (st_RottingDays r)
    (st_ArchivedAt r).
Definition set_st_DeletedAt (v : option time) (r : PipelineStage) : PipelineStage :=
  MkStage (st_ID r) v (st_OrganizationID r) (st_PipelineID r) (st_Name r) (st_Position r)
    (st_StageType r) (st_Probability r) (st_Color r) (st_RottingDays r) (st_ArchivedAt r).
Definition set_st_OrganizationID (v : uuid) (r : PipelineStage) : PipelineStage :=
  MkStage (st_ID r) (st_DeletedAt r) v (st_PipelineID r) (st_Name r) (st_Position r)
    (st_StageType r) (st_Probability r) (st_Color r) (st_RottingDays r) (st_ArchivedAt r).
Definition set_st_PipelineID (v : uuid) (r : PipelineStage) : PipelineStage :=
  MkStage (st_ID r) (st_DeletedAt r) (st_OrganizationID r) v (st_Name r) (st_Position r)
    (st_StageType r) (st_Probability r) (st_Color r) (st_RottingDays r) (st_ArchivedAt r).
Definition set_st_Name (v : string) (r : PipelineStage) : PipelineStage :=
  MkStage (st_ID r) (st_DeletedAt r) (st_OrganizationID r) (st_PipelineID r) v (st_Position
    r) (st_StageType r) (st_Probability r) (st_Color r) (st_RottingDays r) (st_ArchivedAt r).
Definition set_st_Position (v : Z) (r : PipelineStage) : PipelineStage :=
  MkStage (st_ID r) (st_DeletedAt r) (st_OrganizationID r) (st_PipelineID r) (st_Name r) v
    (st_StageType r) (st_Probability r) (st_Color r) (st_RottingDays r) (st_ArchivedAt r).
Definition set_st_StageType (v : string) (r : PipelineStage) : PipelineStage :=
  MkStage (st_ID r) (st_DeletedAt r) (st_OrganizationID r) (st_PipelineID r) (st_Name r)
    (st_Position r) v (st_Probability r) (st_Color r) (st_RottingDays r) (st_ArchivedAt r).
Definition set_st_Probability (v : Z) (r : PipelineStage) : PipelineStage :=
  MkStage (st_ID r) (st_DeletedAt r) (st_OrganizationID r) (st_PipelineID r) (st_Name r)
    (st_Position r) (st_StageType r) v (st_Color r) (st_RottingDays r) (st_ArchivedAt r).
Definition set_st_Color (v : string) (r : PipelineStage) : PipelineStage :=
  MkStage (st_ID r) (st_DeletedAt r) (st_OrganizationID r) (st_PipelineID r) (st_Name r)
    (st_Position r) (st_StageType r) (st_Probability r) v (st_RottingDays r) (st_ArchivedAt
    r).
Definition set_st_RottingDays (v : Z) (r : PipelineStage) : PipelineStage :=
  MkStage (st_ID r) (st_DeletedAt r) (st_OrganizationID r) (st_PipelineID r) (st_Name r)
    (st_Position r) (st_StageType r) (st_Probability r) (st_Color r) v (st_ArchivedAt r).
Definition set_st_ArchivedAt (v : option time) (r : PipelineStage) : PipelineStage :=
  MkStage (st_ID r) (st_DeletedAt r) (st_OrganizationID r) (st_PipelineID r) (st_Name r)
    (st_Position r) (st_StageType r) (st_Probability r) (st_Color r) (st_RottingDays r) v.


(** [models.Deal]. *)
Record Deal := MkDeal {
  dl_ID : uuid;
  dl_DeletedAt : option time;
  dl_OrganizationID : uuid;
  dl_PipelineID : uuid;
  dl_StageID : uuid;
  dl_ContactID : uuid;
  dl_ConversationID : option uuid;
  dl_Title : string;
  dl_Value : float64;
  dl_Currency : string;
  dl_OwnerID : option uuid;
  dl_ExpectedCloseDate : option time;
  dl_Status : string;
  dl_StageEnteredAt : time;
  dl_BoardPosition : string;
  dl_ClosedAt : option time;
  dl_LostReason : string;
  dl_CreatedByID : option uuid
}.

Definition set_dl_ID (v : uuid) (r : Deal) : Deal :=
  MkDeal v (dl_DeletedAt r) (dl_OrganizationID r) (dl_PipelineID r) (dl_StageID r)
    (dl_ContactID r) (dl_ConversationID r) (dl_Title r) (dl_Value r) (dl_Currency r)
    (dl_OwnerID r) (dl_ExpectedCloseDate r) (dl_Status r) (dl_StageEnteredAt r)
    (dl_BoardPosition r) (dl_ClosedAt r) (dl_LostReason r) (dl_CreatedByID r).
Definition set_dl_DeletedAt (v : option time) (r : Deal) : Deal :=
  MkDeal (dl_ID r) v (dl_OrganizationID r) (dl_PipelineID r) (dl_StageID r) (dl_ContactID r)
    (dl_ConversationID r) (dl_Title r) (dl_Value r) (dl_Currency r) (dl_OwnerID r)
    (dl_ExpectedCloseDate r) (dl_Status r) (dl_StageEnteredAt r) (dl_BoardPosition r)
    (dl_ClosedAt r) (dl_LostReason r) (dl_CreatedByID r).
Definition set_dl_OrganizationID (v : uuid) (r : Deal) : Deal :=
  MkDeal (dl_ID r) (dl_DeletedAt r) v (dl_PipelineID r) (dl_StageID r) (dl_ContactID r)
    (dl_ConversationID r) (dl_Title r) (dl_Value r) (dl_Currency r) (dl_OwnerID r)
    (dl_ExpectedCloseDate r) (dl_Status r) (dl_StageEnteredAt r) (dl_BoardPosition r)
    (dl_ClosedAt r) (dl_LostReason r) (dl_CreatedByID r).
Definition set_dl_PipelineID (v : uuid) (r : Deal) : Deal :=
  MkDeal (dl_ID r) (dl_DeletedAt r) (dl_OrganizationID r) v (dl_StageID r) (dl_ContactID r)
    (dl_ConversationID r) (dl_Title r) (dl_Value r) (dl_Currency r) (dl_OwnerID r)
    (dl_ExpectedCloseDate r) (dl_Status r) (dl_StageEnteredAt r) (dl_BoardPosition r)
    (dl_ClosedAt r) (dl_LostReason r) (dl_CreatedByID r).
Definition set_dl_StageID (v : uuid) (r : Deal) : Deal :=
  MkDeal (dl_ID r) (dl_DeletedAt r) (dl_OrganizationID r) (dl_PipelineID r) v (dl_ContactID
    r) (dl_ConversationID r) (dl_Title r) (dl_Value r) (dl_Currency r) (dl_OwnerID r)
    (dl_ExpectedCloseDate r) (dl_Status r) (dl_StageEnteredAt r) (dl_BoardPosition r)
    (dl_ClosedAt r) (dl_LostReason r) (dl_CreatedByID r).
Definition set_dl_ContactID (v : uuid) (r : Deal) : Deal :=
  MkDeal (dl_ID r) (dl_DeletedAt r) (dl_OrganizationID r) (dl_PipelineID r) (dl_StageID r) v
    (dl_ConversationID r) (dl_Title r) (dl_Value r) (dl_Currency r) (dl_OwnerID r)
    (dl_ExpectedCloseDate r) (dl_Status r) (dl_StageEnteredAt r) (dl_BoardPosition r)
    (dl_ClosedAt r) (dl_LostReason r) (dl_CreatedByID r).
Definition set_dl_ConversationID (v : option uuid) (r : Deal) : Deal :=
  MkDeal (dl_ID r) (dl_DeletedAt r) (dl_OrganizationID r) (dl_PipelineID r) (dl_StageID r)
    (dl_ContactID r) v (dl_Title r) (dl_Value r) (dl_Currency r) (dl_OwnerID r)
    (dl_ExpectedCloseDate r) (dl_Status r) (dl_StageEnteredAt r) (dl_BoardPosition r)
    (dl_ClosedAt r) (dl_LostReason r) (dl_CreatedByID r).
Definition set_dl_Title (v : string) (r : Deal) : Deal :=
  MkDeal (dl_ID r) (dl_DeletedAt r) (dl_OrganizationID r) (dl_PipelineID r) (dl_StageID r)
    (dl_ContactID r) (dl_ConversationID r) v (dl_Value r) (dl_Currency r) (dl_OwnerID r)
    (dl_ExpectedCloseDate r) (dl_Status r) (dl_StageEnteredAt r) (dl_BoardPosition r)
    (dl_ClosedAt r) (dl_LostReason r) (dl_CreatedByID r).
Definition set_dl_Value (v : float64) (r : Deal) : Deal :=
  MkDeal (dl_ID r) (dl_DeletedAt r) (dl_OrganizationID r) (dl_PipelineID r) (dl_StageID r)
    (dl_ContactID r) (dl_ConversationID r) (dl_Title r) v (dl_Currency r) (dl_OwnerID r)
    (dl_ExpectedCloseDate r) (dl_Status r) (dl_StageEnteredAt r) (dl_BoardPosition r)
    (dl_ClosedAt r) (dl_LostReason r) (dl_CreatedByID r).
Definition set_dl_Currency (v : string) (r : Deal) : Deal :=
  MkDeal (dl_ID r) (dl_DeletedAt r) (dl_OrganizationID r) (dl_PipelineID r) (dl_StageID r)
    (dl_ContactID r) (dl_ConversationID r) (dl_Title r) (dl_Value r) v (dl_OwnerID r)
    (dl_ExpectedCloseDate r) (dl_Status r) (dl_StageEnteredAt r) (dl_BoardPosition r)
    (dl_ClosedAt r) (dl_LostReason r) (dl_CreatedByID r).
Definition set_dl_OwnerID (v : option uuid) (r : Deal) : Deal :=
  MkDeal (dl_ID r) (dl_DeletedAt r) (dl_OrganizationID r) (dl_PipelineID r) (dl_StageID r)
    (dl_ContactID r) (dl_ConversationID r) (dl_Title r) (dl_Value r) (dl_Currency r) v
    (dl_ExpectedCloseDate r) (dl_Status r) (dl_StageEnteredAt r) (dl_BoardPosition r)
    (dl_ClosedAt r) (dl_LostReason r) (dl_CreatedByID r).
Definition set_dl_ExpectedCloseDate (v : option time) (r : Deal) : Deal :=
  MkDeal (dl_ID r) (dl_DeletedAt r) (dl_OrganizationID r) (dl_PipelineID r) (dl_StageID r)
    (dl_ContactID r) (dl_ConversationID r) (dl_Title r) (dl_Value r) (dl_Currency r)
    (dl_OwnerID r) v (dl_Status r) (dl_StageEnteredAt r) (dl_BoardPosition r) (dl_ClosedAt
    r) (dl_LostReason r) (dl_CreatedByID r).
Definition set_dl_Status (v : string) (r : Deal) : Deal :=
  MkDeal (dl_ID r) (dl_DeletedAt r) (dl_OrganizationID r) (dl_PipelineID r) (dl_StageID r)
    (dl_ContactID r) (dl_ConversationID r) (dl_Title r) (dl_Value r) (dl_Currency r)
    (dl_OwnerID r) (dl_ExpectedCloseDate r) v (dl_StageEnteredAt r) (dl_BoardPosition r)
    (dl_ClosedAt r) (dl_LostReason r) (dl_CreatedByID r).
Definition set_dl_StageEnteredAt (v : time) (r : Deal) : Deal :=
  MkDeal (dl_ID r) (dl_DeletedAt r) (dl_OrganizationID r) (dl_PipelineID r) (dl_StageID r)
    (dl_ContactID r) (dl_ConversationID r) (dl_Title r) (dl_Value r) (dl_Currency r)
    (dl_OwnerID r) (dl_ExpectedCloseDate r) (dl_Status r) v (dl_BoardPosition r)
    (dl_ClosedAt r) (dl_LostReason r) (dl_CreatedByID r).
Definition set_dl_BoardPosition (v : string) (r : Deal) : Deal :=
  MkDeal (dl_ID r) (dl_DeletedAt r) (dl_OrganizationID r) (dl_PipelineID r) (dl_StageID r)
    (dl_ContactID r) (dl_ConversationID r) (dl_Title r) (dl_Value r) (dl_Currency r)
    (dl_OwnerID r) (dl_ExpectedCloseDate r) (dl_Status r) (dl_StageEnteredAt r) v
    (dl_ClosedAt r) (dl_LostReason r) (dl_CreatedByID r).
Definition set_dl_ClosedAt (v : option time) (r : Deal) : Deal :=
  MkDeal (dl_ID r) (dl_DeletedAt r) (dl_OrganizationID r) (dl_PipelineID r) (dl_StageID r)
    (dl_ContactID r) (dl_ConversationID r) (dl_Title r) (dl_Value r) (dl_Currency r)
    (dl_OwnerID r) (dl_ExpectedCloseDate r) (dl_Status r) (dl_StageEnteredAt r)
    (dl_BoardPosition r) v (dl_LostReason r) (dl_CreatedByID r).
Definition set_dl_LostReason (v : string) (r : Deal) : Deal :=
  MkDeal (dl_ID r) (dl_DeletedAt r) (dl_OrganizationID r) (dl_PipelineID r) (dl_StageID r)
    (dl_ContactID r) (dl_ConversationID r) (dl_Title r) (dl_Value r) (dl_Currency r)
    (dl_OwnerID r) (dl_ExpectedCloseDate r) (dl_Status r) (dl_StageEnteredAt r)
    (dl_BoardPosition r) (dl_ClosedAt r) v (dl_CreatedByID r).
Definition set_dl_CreatedByID (v : option uuid) (r : Deal) : Deal :=
  MkDeal (dl_ID r) (dl_DeletedAt r) (dl_OrganizationID r) (dl_PipelineID r) (dl_StageID r)
    (dl_ContactID r) (dl_ConversationID r) (dl_Title r) (dl_Value r) (dl_Currency r)
    (dl_OwnerID r) (dl_ExpectedCloseDate r) (dl_Status r) (dl_StageEnteredAt r)
    (dl_BoardPosition r) (dl_ClosedAt r) (dl_LostReason r) v.


(** [models.DealStageHistory]. *)
Record DealStageHistory := MkHistory {
  hs_ID : uuid;
  hs_OrganizationID : uuid;
  hs_DealID : uuid;
  hs_FromStageID : option uuid;
  hs_ToStageID : uuid;
  hs_MovedByID : option uuid;
  hs_DurationSeconds : Z
}.

(** The columns of [models.CustomFieldDefinition] the contact seeding reads. *)
Record CustomFieldDefinition := MkFieldDef {
  fd_ID : uuid;
  fd_DeletedAt : option time;
  fd_OrganizationID : uuid;
  fd_EntityType : string;
  fd_Key : string;
  fd_Type : string;
  fd_Options : list string
}.

(** The tables of the product database the models read and write. *)
Record Tables := MkTables {
  db_conversations : gmap uuid Conversation;
  db_transfers : gmap uuid AgentTransfer;
  db_contacts : gmap uuid Contact;
  db_sessions : gmap uuid ChatbotSession;
  db_reads : gmap (uuid * uuid) ConversationRead;
  db_recipients : gmap uuid BulkMessageRecipient;
  db_pipelines : gmap uuid Pipeline;
  db_stages : gmap uuid PipelineStage;
  db_deals : gmap uuid Deal;
  db_stage_history : gmap uuid DealStageHistory;
  db_field_defs : gmap uuid CustomFieldDefinition;
  db_field_values : gmap (uuid * uuid) string;
  db_outbox : gmap uuid CRMEventOutbox
}.

Definition set_db_conversations (v : gmap uuid Conversation) (r : Tables) : Tables :=
  MkTables v (db_transfers r) (db_contacts r) (db_sessions r) (db_reads r) (db_recipients r)
    (db_pipelines r) (db_stages r) (db_deals r) (db_stage_history r) (db_field_defs r)
    (db_field_values r) (db_outbox r).
Definition set_db_transfers (v : gmap uuid AgentTransfer) (r : Tables) : Tables :=
  MkTables (db_conversations r) v (db_contacts r) (db_sessions r) (db_reads r)
    (db_recipients r) (db_pipelines r) (db_stages r) (db_deals r) (db_stage_history r)
    (db_field_defs r) (db_field_values r) (db_outbox r).
Definition set_db_contacts (v : gmap uuid Contact) (r : Tables) : Tables :=
  MkTables (db_conversations r) (db_transfers r) v (db_sessions r) (db_reads r)
    (db_recipients r) (db_pipelines r) (db_stages r) (db_deals r) (db_stage_history r)
    (db_field_defs r) (db_field_values r) (db_outbox r).
Definition set_db_sessions (v : gmap uuid ChatbotSession) (r : Tables) : Tables :=
  MkTables (db_conversations r) (db_transfers r) (db_contacts r) v (db_reads r)
    (db_recipients r) (db_pipelines r) (db_stages r) (db_deals r) (db_stage_history r)
    (db_field_defs r) (db_field_values r) (db_outbox r).
Definition set_db_reads (v : gmap (uuid * uuid) ConversationRead) (r : Tables) : Tables :=
  MkTables (db_conversations r) (db_transfers r) (db_contacts r) (db_sessions r) v
    (db_recipients r) (db_pipelines r) (db_stages r) (db_deals r) (db_stage_history r)
    (db_field_defs r) (db_field_values r) (db_outbox r).
Definition set_db_recipients (v : gmap uuid BulkMessageRecipient) (r : Tables) : Tables :=
  MkTables (db_conversations r) (db_transfers r) (db_contacts r) (db_sessions r) (db_reads
    r) v (db_pipelines r) (db_stages r) (db_deals r) (db_stage_history r) (db_field_defs r)
    (db_field_values r) (db_outbox r).
Definition set_db_pipelines (v : gmap uuid Pipeline) (r : Tables) : Tables :=
  MkTables (db_conversations r) (db_transfers r) (db_contacts r) (db_sessions r) (db_reads
    r) (db_recipients r) v (db_stages r) (db_deals r) (db_stage_history r) (db_field_defs r)
    (db_field_values r) (db_outbox r).
Definition set_db_stages (v : gmap uuid PipelineStage) (r : Tables) : Tables :=
  MkTables (db_conversations r) (db_transfers r) (db_contacts r) (db_sessions r) (db_reads
    r) (db_recipients r) (db_pipelines r) v (db_deals r) (db_stage_history r) (db_field_defs
    r) (db_field_values r) (db_outbox r).
Definition set_db_deals (v : gmap uuid Deal) (r : Tables) : Tables :=
  MkTables (db_conversations r) (db_transfers r) (db_contacts r) (db_sessions r) (db_reads
    r) (db_recipients r) (db_pipelines r) (db_stages r) v (db_stage_history r)
    (db_field_defs r) (db_field_values r) (db_outbox r).
Definition set_db_stage_history (v : gmap uuid DealStageHistory) (r : Tables) : Tables :=
  MkTables (db_conversations r) (db_transfers r) (db_contacts r) (db_sessions r) (db_reads
    r) (db_recipients r) (db_pipelines r) (db_stages r) (db_deals r) v (db_field_defs r)
    (db_field_values r) (db_outbox r).
Definition set_db_field_defs (v : gmap uuid CustomFieldDefinition) (r : Tables) : Tables :=
  MkTables (db_conversations r) (db_transfers r) (db_contacts r) (db_sessions r) (db_reads
    r) (db_recipients r) (db_pipelines r) (db_stages r) (db_deals r) (db_stage_history r) v
    (db_field_values r) (db_outbox r).
Definition set_db_field_values (v : gmap (uuid * uuid) string) (r : Tables) : Tables :=
  MkTables (db_conversations r) (db_transfers r) (db_contacts r) (db_sessions r) (db_reads
    r) (db_recipients r) (db_pipelines r) (db_stages r) (db_deals r) (db_stage_history r)
    (db_field_defs r) v (db_outbox r).
Definition set_db_outbox (v : gmap uuid CRMEventOutbox) (r : Tables) : Tables :=
  MkTables (db_conversations r) (db_transfers r) (db_contacts r) (db_sessions r) (db_reads
    r) (db_recipients r) (db_pipelines r) (db_stages r) (db_deals r) (db_stage_history r)
    (db_field_defs r) (db_field_values r) v.


(** ** Statements on a table *)

(** GORM adds [deleted_at IS NULL] to every query of a model with [DeletedAt]. *)
Definition live (deleted : option time) : bool := is_none deleted.

(** [tx.Model(&T{}).Where("id = ?", id).Updates(us)]: the assignments in turn. *)
Definition apply_updates {R} (us : list (R -> R)) (r : R) : R :=
  fold_left (fun r f => f r) us r.

#[global] Arguments apply_updates {R} us r : simpl never.

(** [UPDATE ... SET us WHERE p]. *)
Definition update_where {R} (p : R -> bool) (us : list (R -> R)) (t : gmap N R) : gmap N R :=
  (fun r => if p r then apply_updates us r else r) <$> t.

(** The primary keys an [UPDATE ... WHERE p] locks. *)
Definition matching {R} (p : R -> bool) (t : gmap N R) : list N :=
  fst <$> List.filter (fun kr => p kr.2) (map_to_list t).

Definition rows_affected {R} (p : R -> bool) (t : gmap N R) : nat := length (matching p t).

(** Uniqueness constraint of an index over a table. *)
Definition no_other {R} (clash : R -> bool) (k : N) (t : gmap N R) : bool :=
  forallb (fun kr => N.eqb kr.1 k || negb (clash kr.2)) (map_to_list t).

Lemma update_where_lookup {R} (p : R -> bool) us (t : gmap N R) k :
  update_where p us t !! k = (fun r => if p r then apply_updates us r else r) <$> t !! k.
Proof. unfold update_where. by rewrite lookup_fmap. Qed.

Lemma no_other_spec {R} (clash : R -> bool) k (t : gmap N R) :
  no_other clash k t = true <-> (forall k' r, t !! k' = Some r -> k' <> k -> clash r = false).
Proof.
  unfold no_other. rewrite forallb_forall. split.
  - intros H k' r Hk Hne. specialize (H (k', r)). simpl in H.
    assert (In (k', r) (map_to_list t)) as Hin
      by (by apply list_elem_of_In, elem_of_map_to_list).
    apply H in Hin. apply orb_true_iff in Hin as [E|E]; breflect; [|done].
    by apply N.eqb_eq in E.
  - intros H [k' r] Hin. apply list_elem_of_In, elem_of_map_to_list in Hin. simpl.
    destruct (N.eqb_spec k' k); [done|]. simpl. by rewrite (H k' r).
Qed.

