(* ===== verification/Statements.v ===== *)
(** * Statements shared by the services

    The advisory lock on a contact, [First]/[Find] on a table, [UPDATE ...
    WHERE], and the outbox insert ([crmevents.PublishTx]). *)
From S2P Require Import Prelude Store Events Models.

Abbreviation MT := (M Tables).

(** [SELECT pg_advisory_xact_lock(hashtext(contact))]: the lock both the
    conversation and the transfer service take first. *)
Definition lockContact (contactID : uuid) : MT unit :=
  stmt (fun _ => [LContact contactID]) (fun d => (Ok tt, d)).

(** [First(&row)]: the row itself, or [gorm.ErrRecordNotFound]. *)
Definition first_row `{Sql} {R} (p : R -> bool) (before : R -> R -> bool) (t : gmap N R) : res err R :=
  match sql_first (fun _ => p) before t with
  | Some k => match t !! k with Some r => Ok r | None => Err ErrRecordNotFound end
  | None => Err ErrRecordNotFound
  end.

(** [Find(&rows)] with an optional limit. *)
Definition find_rows `{Sql} {R} (p : R -> bool) (limit : option nat) (t : gmap N R) : list R :=
  omap (fun k => t !! k) (sql_find (fun _ => p) limit t).

Section Publish.
Definition ErrUnknownEventType := ErrSentinel "crmevents: unknown event type".

(** [crmevents.PublishTx]. *)
Definition PublishTx (e : Event) : MT unit :=
  if N.eqb (e_OrgID e) uuid_Nil then fail (ErrMsg "crmevents: event has no organization")
  else if negb (IsKnown (e_Type e)) then fail ErrUnknownEventType
  else
    fresh <- (if N.eqb (e_ID e) uuid_Nil then uuid_New else ret uuid_Nil) ;;
    t <- now ;;
    let row := toRow fresh t e in
    stmt no_locks (fun d =>
      match db_outbox d !! ob_ID row with
      | Some _ => (Err ErrUnique, d)
      | None => (Ok tt, set_db_outbox (<[ob_ID row := row]> (db_outbox d)) d)
      end).
End Publish.

(** ** Lemmas *)

Lemma first_row_ok `{SqlLaws} {R} (p : R -> bool) lt (t : gmap N R) r :
  first_row p lt t = Ok r -> exists k, t !! k = Some r /\ p r = true.
Proof.
  unfold first_row. destruct (sql_first _ _ _) as [k|] eqn:E; [|done].
  apply first_sound in E as (r' & Hk & Hp). rewrite Hk. intros [= ->]. eauto.
Qed.

Lemma first_row_err `{SqlLaws} {R} (p : R -> bool) lt (t : gmap N R) e :
  first_row p lt t = Err e ->
  e = ErrRecordNotFound /\ (forall k r, t !! k = Some r -> p r = false).
Proof.
  unfold first_row. destruct (sql_first _ _ _) as [k|] eqn:E.
  - apply first_sound in E as (r' & Hk & Hp). by rewrite Hk.
  - intros [= <-]. split; [done|]. intros k r. by apply (proj1 (first_none _ _ _ _) E).
Qed.

(** Nothing that matches comes before the row [First] returned. *)
Lemma first_row_least `{SqlLaws} {R} (p : R -> bool) (key : R -> Z) (t : gmap N R) r :
  first_row p (fun a b => key a <? key b) t = Ok r ->
  forall k' r', t !! k' = Some r' -> p r' = true -> key r <= key r'.
Proof.
  unfold first_row. destruct (sql_first _ _ _) as [k|] eqn:E; [|done].
  pose proof (first_sound _ _ _ _ _ E) as (r0 & Hk & Hp). rewrite Hk. intros [= ->] k' r' Hk' Hp'.
  apply Z.ltb_ge.
  apply (first_least _ (fun _ => p) (fun a b => key a <? key b) t k r k' r');
    auto using Z.ltb_irrefl.
  intros a b c. rewrite !Z.ltb_lt. lia.
Qed.

(** The same for a descending order. *)
Lemma first_row_greatest `{SqlLaws} {R} (p : R -> bool) (key : R -> Z) (t : gmap N R) r :
  first_row p (fun a b => key b <? key a) t = Ok r ->
  forall k' r', t !! k' = Some r' -> p r' = true -> key r' <= key r.
Proof.
  unfold first_row. destruct (sql_first _ _ _) as [k|] eqn:E; [|done].
  pose proof (first_sound _ _ _ _ _ E) as (r0 & Hk & Hp). rewrite Hk. intros [= ->] k' r' Hk' Hp'.
  apply Z.ltb_ge. apply (first_least _ (fun _ => p) (fun a b => key b <? key a) t k r k' r');
    auto using Z.ltb_irrefl.
  intros a b c. rewrite !Z.ltb_lt. lia.
Qed.

Lemma find_rows_elem `{SqlLaws} {R} (p : R -> bool) limit (t : gmap N R) r :
  r ∈ find_rows p limit t -> exists k, t !! k = Some r /\ p r = true.
Proof.
  unfold find_rows. rewrite list_elem_of_omap. intros (k & Hk & Hr).
  apply find_sound in Hk as (r' & Hk & Hp). simplify_eq. eauto.
Qed.

Lemma find_rows_complete `{SqlLaws} {R} (p : R -> bool) (t : gmap N R) k r :
  t !! k = Some r -> p r = true -> r ∈ find_rows p None t.
Proof.
  intros Hk Hp. unfold find_rows. apply list_elem_of_omap. exists k. split; [|done].
  destruct (find_complete _ (fun _ => p) None t k r Hk Hp) as [?|(n & ? & _)]; done.
Qed.

(** ** Tables *)

Lemma rows_affected_zero {R} (p : R -> bool) (t : gmap N R) :
  rows_affected p t = 0%nat <-> forall k r, t !! k = Some r -> p r = false.
Proof.
  unfold rows_affected, matching. rewrite length_fmap. split.
  - intros Hl%nil_length_inv k r Hk. destruct (p r) eqn:Hp; [|done].
    assert (In (k, r) (List.filter (fun kr => p kr.2) (map_to_list t))) as Hin.
    { apply filter_In. split; [|done]. by apply list_elem_of_In, elem_of_map_to_list. }
    by rewrite Hl in Hin.
  - intros Hno. destruct (List.filter _ _) as [|[k r] l] eqn:E; [done|].
    assert (In (k, r) (List.filter (fun kr => p kr.2) (map_to_list t))) as Hin
      by (rewrite E; by left).
    apply filter_In in Hin as [Hin Hp]. apply list_elem_of_In, elem_of_map_to_list in Hin.
    simpl in Hp. by rewrite (Hno _ _ Hin) in Hp.
Qed.

Lemma rows_affected_pos {R} (p : R -> bool) (t : gmap N R) :
  rows_affected p t <> 0%nat <-> exists k r, t !! k = Some r /\ p r = true.
Proof.
  split.
  - unfold rows_affected, matching. rewrite length_fmap. intros Hl.
    destruct (List.filter _ _) as [|[k r] l] eqn:E; [done|].
    assert (In (k, r) (List.filter (fun kr => p kr.2) (map_to_list t))) as Hin by (rewrite E; by left).
    apply filter_In in Hin as [Hin Hp]. apply list_elem_of_In, elem_of_map_to_list in Hin. eauto.
  - intros (k & r & Hk & Hp) Hz. by rewrite (proj1 (rows_affected_zero p t) Hz k r Hk) in Hp.
Qed.

Lemma update_where_none {R} (p : R -> bool) us (t : gmap N R) :
  (forall k r, t !! k = Some r -> p r = false) -> update_where p us t = t.
Proof.
  intros Hno. apply map_eq. intros k. rewrite update_where_lookup.
  destruct (t !! k) as [r|] eqn:Hk; [|done]. simpl. by rewrite (Hno _ _ Hk).
Qed.

(** Rows filed under their primary key. *)
Definition keyed {R} (key : R -> N) (t : gmap N R) : Prop := forall k r, t !! k = Some r -> key r = k.

(** [Find] on a table filed by its primary key returns no row twice. *)
Lemma find_rows_nodup `{SqlLaws} {R} (key : R -> N) (p : R -> bool) limit (t : gmap N R) :
  keyed key t -> NoDup (find_rows p limit t).
Proof.
  intros Hkeyed. unfold find_rows. generalize (find_nodup _ (fun _ => p) limit t).
  induction 1 as [|k ks Hk _ IH]; [constructor|]. cbn [omap list_omap]. destruct (t !! k) as [r|] eqn:E; [|done].
  apply NoDup_cons. split; [|done]. intros (k' & Hk' & Hr)%list_elem_of_omap.
  rewrite <- (Hkeyed _ _ E), (Hkeyed _ _ Hr) in Hk. done.
Qed.

(** Inserting under the right key keeps them so. *)
Lemma keyed_insert {R} (key : R -> N) (t : gmap N R) k r :
  keyed key t -> key r = k -> keyed key (<[k := r]> t).
Proof.
  intros Ht Hr j x. destruct (decide (j = k)) as [->|].
  - rewrite lookup_insert_eq. congruence.
  - rewrite lookup_insert_ne by done. apply Ht.
Qed.

(** They stay so when the assignments leave it alone. *)
Lemma keyed_update {R} (key : R -> N) p us (t : gmap N R) :
  (forall r, key (apply_updates us r) = key r) -> keyed key t -> keyed key (update_where p us t).
Proof.
  intros Hus Hk k r Hr. rewrite update_where_lookup in Hr.
  destruct (t !! k) as [r0|] eqn:E; [|done]. simpl in Hr. simplify_eq.
  destruct (p r0); [rewrite Hus|]; by apply Hk.
Qed.

(** A condition that names the primary key. *)
Definition names_key {R} (key : R -> N) (id : N) (p : R -> bool) : Prop := forall r, p r = true -> key r = id.

Lemma first_row_key `{SqlLaws} {R} (key : R -> N) id p lt (t : gmap N R) r :
  keyed key t -> names_key key id p -> first_row p lt t = Ok r -> t !! id = Some r /\ p r = true.
Proof.
  intros Hk Hp E. apply first_row_ok in E as (k & Hr & Hpr).
  by rewrite <- (Hp r Hpr), (Hk _ _ Hr).
Qed.

Lemma first_row_unique `{SqlLaws} {R} (key : R -> N) id p lt (t : gmap N R) r :
  keyed key t -> names_key key id p -> t !! id = Some r -> p r = true -> first_row p lt t = Ok r.
Proof.
  intros Hk Hp Hr Hpr. destruct (first_row p lt t) as [r'|e] eqn:E.
  - apply (first_row_key key id) in E as [E _]; [congruence|done..].
  - apply first_row_err in E as [_ Hno]. by rewrite (Hno _ _ Hr) in Hpr.
Qed.

Lemma update_where_key {R} (key : R -> N) id p us (t : gmap N R) r :
  keyed key t -> names_key key id p -> t !! id = Some r -> p r = true ->
  update_where p us t = <[id := apply_updates us r]> t.
Proof.
  intros Hkeyed Hp Ht Hr. apply map_eq. intros k. rewrite update_where_lookup.
  destruct (decide (k = id)) as [->|].
  - rewrite Ht, lookup_insert_eq. simpl. by rewrite Hr.
  - rewrite lookup_insert_ne by done. destruct (t !! k) as [c|] eqn:E; [|done]. simpl.
    destruct (p c) eqn:Hc; [|done]. apply Hp in Hc. by rewrite (Hkeyed _ _ E) in Hc.
Qed.

(** What every assignment respects, the whole [SET] respects. *)
Lemma apply_updates_rel {R} (S : R -> R -> Prop) `{!PreOrder S} us r :
  Forall (fun f => forall x, S x (f x)) us -> S r (apply_updates us r).
Proof.
  intros Hus. unfold apply_updates. revert r. induction Hus as [|f us Hf _ IH]; intros r; simpl; [done|].
  etrans; [apply Hf|apply IH].
Qed.

Lemma apply_updates_app {R} us vs (r : R) : apply_updates (us ++ vs) r = apply_updates vs (apply_updates us r).
Proof. apply fold_left_app. Qed.

(** A statement that failed left the tables alone. *)
Lemma stmt_db_err {A} locks (f : Tables -> res err A * Tables) w e w' :
  stmt locks f w = (Err e, w') ->
  w_db w' = w_db w /\ w_in_tx w' = w_in_tx w /\ w_now w' = w_now w.
Proof.
  unfold stmt. destruct (w_aborted w); [by intros [= _ <-]|].
  destruct (w_faults w) as [|[] fs]; simpl; [|by intros [= _ <-]|];
    destruct (f (w_db w)) as [[?|e'] ?]; try done; destruct (aborts e'); by intros [= _ <-].
Qed.

Ltac inv_if H :=
  match type of H with
  | (if ?b then _ else _) _ = _ => destruct b eqn:?
  end.

(** What a successful publish wrote. *)
Lemma PublishTx_ok_inv e w u w' :
  PublishTx e w = (Ok u, w') ->
  exists row, w_db w' = set_db_outbox (<[ob_ID row := row]> (db_outbox (w_db w))) (w_db w) /\
    db_outbox (w_db w) !! ob_ID row = None /\
    (exists fresh, row = toRow fresh (w_now w) e) /\
    w_aborted w = false /\ w_aborted w' = w_aborted w /\ w_in_tx w' = w_in_tx w /\
    w_locks w' = w_locks w /\ w_now w' = w_now w.
Proof.
  unfold PublishTx. intros H. inv_if H; [done|]. inv_if H; [done|].
  exists (toRow (if N.eqb (e_ID e) uuid_Nil then w_uuid w else uuid_Nil) (w_now w) e).
  inv_run. destruct (N.eqb (e_ID e) uuid_Nil) eqn:Hid; inv_run; simpl in *; rewrite Hid in *;
    dmatch_in Hs; simplify_eq; simpl; rewrite app_nil_r; repeat split; eauto.
Qed.

(** A publish that failed left the tables alone; when the server refused the
    row inside a transaction, that transaction can no longer commit. *)
Lemma PublishTx_err_inv e w x w' :
  PublishTx e w = (Err x, w') ->
  w_db w' = w_db w /\ w_now w' = w_now w /\ w_in_tx w' = w_in_tx w /\ w_locks w' = w_locks w /\
  (e_OrgID e <> uuid_Nil -> IsKnown (e_Type e) = true -> w_in_tx w = true -> w_aborted w' = true).
Proof.
  unfold PublishTx. destruct (N.eqb_spec (e_OrgID e) uuid_Nil).
  { intros [= <- <-]. naive_solver. }
  destruct (IsKnown (e_Type e)) eqn:?; simpl; [|intros [= <- <-]; naive_solver].
  unfold bind. destruct (N.eqb (e_ID e) uuid_Nil); simpl; unfold stmt; simpl;
    destruct (w_aborted w) eqn:Hab; simpl; try (intros [= <- <-]; naive_solver);
    destruct (w_faults w) as [|[] fs]; simpl; repeat dmatch; simpl;
    intros; simplify_eq; simpl; rewrite ?app_nil_r; naive_solver.
Qed.
