(* ===== verification/Fields.v ===== *)
(** * Custom fields: definitions and values ([internal/customfields/validate.go, create.go])

    A definition gives a field its type; [Coerce] checks a raw value against it
    and yields the column to store; [exportValue] renders a stored row for the
    API.  A number column holds any [float64], NaN and the infinities included.
    The second part shows that stored and exported values are accepted again. *)
From S2P Require Import Prelude GoLib Text.

(** [map[string]any]. *)
Definition JSONB : Type := list (string * any).

(** [m[key]] with its comma-ok. *)
Definition index (m : JSONB) (key : string) : option any :=
  snd <$> List.find (fun e => String.eqb e.1 key) m.

(** ** [float64] with its special values *)

Inductive number :=
| Finite (x : float64)
| Infinite (negative : bool)
| NotANumber.

Definition float_lt (x y : float64) : bool := f_num x * f_den y <? f_num y * f_den x.

(** Go's [<] and [==]. *)
Definition num_lt (a b : number) : bool :=
  match a, b with
  | Finite x, Finite y => float_lt x y
  | NotANumber, _ | _, NotANumber => false
  | Infinite true, Infinite n => negb n
  | Infinite false, _ => false
  | Finite _, Infinite n => negb n
  | Infinite true, Finite _ => true
  end.

Definition num_eq (a b : number) : bool :=
  match a, b with
  | Finite x, Finite y => f_num x * f_den y =? f_num y * f_den x
  | Infinite m, Infinite n => Bool.eqb m n
  | _, _ => false
  end.

(** A value on its way in: decoded data, or the number of a stored row. *)
Inductive raw :=
| RawAny (v : any)
| RawNumber (n : number).

(** What the formatting and parsing of numbers, and the server, give. *)
Class FieldsEnv `{GF : GoFmt} := {
  ParseFloat : string -> option number;   (** [strconv.ParseFloat] *)
  Sprintf_q : any -> string               (** [%q] *)
}.

(** ** Field types *)

Definition FieldTypeText := "text".
Definition FieldTypeNumber := "number".
Definition FieldTypeDate := "date".
Definition FieldTypeDropdown := "dropdown".
Definition FieldTypeEmail := "email".
Definition FieldTypePhone := "phone".

Definition FieldEntityContact := "contact".

Definition FieldKeyEmail := "email".
Definition FieldKeyCompany := "company".
Definition FieldKeyAddress := "address".
Definition FieldKeySource := "source".
Definition FieldKeyLifecycleStage := "lifecycle_stage".

Definition LifecycleNew := "new".
Definition LifecycleLead := "lead".
Definition LifecycleQualified := "qualified".
Definition LifecycleCustomer := "customer".
Definition LifecycleChurned := "churned".

(** ** Rows *)

(** [models.CustomFieldDefinition], without the audit timestamps; a nil [Validation] has no rules. *)
Record CustomFieldDefinition := MkDefinition {
  cd_ID : uuid;
  cd_DeletedAt : option time;
  cd_OrganizationID : uuid;
  cd_EntityType : string;
  cd_Key : string;
  cd_Label : string;
  cd_Description : string;
  cd_Type : string;
  cd_Options : list any;
  cd_Validation : JSONB;
  cd_DefaultValue : option JSONB;
  cd_IsSystem : bool;
  cd_IsRequired : bool;
  cd_ShowInList : bool;
  cd_ShowInChatPanel : bool;
  cd_GroupLabel : string;
  cd_Position : Z;
  cd_ArchivedAt : option time;
  cd_CreatedByID : option uuid;
  cd_UpdatedByID : option uuid
}.

Definition set_cd_DeletedAt (v : option time) (r : CustomFieldDefinition) : CustomFieldDefinition :=
  MkDefinition (cd_ID r) v (cd_OrganizationID r) (cd_EntityType r) (cd_Key r) (cd_Label r)
  (cd_Description r) (cd_Type r) (cd_Options r) (cd_Validation r) (cd_DefaultValue r)
  (cd_IsSystem r) (cd_IsRequired r) (cd_ShowInList r) (cd_ShowInChatPanel r) (cd_GroupLabel r)
  (cd_Position r) (cd_ArchivedAt r) (cd_CreatedByID r) (cd_UpdatedByID r).
Definition set_cd_Label (v : string) (r : CustomFieldDefinition) : CustomFieldDefinition :=
  MkDefinition (cd_ID r) (cd_DeletedAt r) (cd_OrganizationID r) (cd_EntityType r) (cd_Key r) v
  (cd_Description r) (cd_Type r) (cd_Options r) (cd_Validation r) (cd_DefaultValue r)
  (cd_IsSystem r) (cd_IsRequired r) (cd_ShowInList r) (cd_ShowInChatPanel r) (cd_GroupLabel r)
  (cd_Position r) (cd_ArchivedAt r) (cd_CreatedByID r) (cd_UpdatedByID r).
Definition set_cd_Description (v : string) (r : CustomFieldDefinition) : CustomFieldDefinition :=
  MkDefinition (cd_ID r) (cd_DeletedAt r) (cd_OrganizationID r) (cd_EntityType r) (cd_Key r)
  (cd_Label r) v (cd_Type r) (cd_Options r) (cd_Validation r) (cd_DefaultValue r) (cd_IsSystem r)
  (cd_IsRequired r) (cd_ShowInList r) (cd_ShowInChatPanel r) (cd_GroupLabel r) (cd_Position r)
  (cd_ArchivedAt r) (cd_CreatedByID r) (cd_UpdatedByID r).
Definition set_cd_Options (v : list any) (r : CustomFieldDefinition) : CustomFieldDefinition :=
  MkDefinition (cd_ID r) (cd_DeletedAt r) (cd_OrganizationID r) (cd_EntityType r) (cd_Key r)
  (cd_Label r) (cd_Description r) (cd_Type r) v (cd_Validation r) (cd_DefaultValue r)
  (cd_IsSystem r) (cd_IsRequired r) (cd_ShowInList r) (cd_ShowInChatPanel r) (cd_GroupLabel r)
  (cd_Position r) (cd_ArchivedAt r) (cd_CreatedByID r) (cd_UpdatedByID r).
Definition set_cd_Validation (v : JSONB) (r : CustomFieldDefinition) : CustomFieldDefinition :=
  MkDefinition (cd_ID r) (cd_DeletedAt r) (cd_OrganizationID r) (cd_EntityType r) (cd_Key r)
  (cd_Label r) (cd_Description r) (cd_Type r) (cd_Options r) v (cd_DefaultValue r) (cd_IsSystem r)
  (cd_IsRequired r) (cd_ShowInList r) (cd_ShowInChatPanel r) (cd_GroupLabel r) (cd_Position r)
  (cd_ArchivedAt r) (cd_CreatedByID r) (cd_UpdatedByID r).
Definition set_cd_IsRequired (v : bool) (r : CustomFieldDefinition) : CustomFieldDefinition :=
  MkDefinition (cd_ID r) (cd_DeletedAt r) (cd_OrganizationID r) (cd_EntityType r) (cd_Key r)
  (cd_Label r) (cd_Description r) (cd_Type r) (cd_Options r) (cd_Validation r) (cd_DefaultValue r)
  (cd_IsSystem r) v (cd_ShowInList r) (cd_ShowInChatPanel r) (cd_GroupLabel r) (cd_Position r)
  (cd_ArchivedAt r) (cd_CreatedByID r) (cd_UpdatedByID r).
Definition set_cd_ShowInList (v : bool) (r : CustomFieldDefinition) : CustomFieldDefinition :=
  MkDefinition (cd_ID r) (cd_DeletedAt r) (cd_OrganizationID r) (cd_EntityType r) (cd_Key r)
  (cd_Label r) (cd_Description r) (cd_Type r) (cd_Options r) (cd_Validation r) (cd_DefaultValue r)
  (cd_IsSystem r) (cd_IsRequired r) v (cd_ShowInChatPanel r) (cd_GroupLabel r) (cd_Position r)
  (cd_ArchivedAt r) (cd_CreatedByID r) (cd_UpdatedByID r).
Definition set_cd_ShowInChatPanel (v : bool) (r : CustomFieldDefinition) : CustomFieldDefinition :=
  MkDefinition (cd_ID r) (cd_DeletedAt r) (cd_OrganizationID r) (cd_EntityType r) (cd_Key r)
  (cd_Label r) (cd_Description r) (cd_Type r) (cd_Options r) (cd_Validation r) (cd_DefaultValue r)
  (cd_IsSystem r) (cd_IsRequired r) (cd_ShowInList r) v (cd_GroupLabel r) (cd_Position r)
  (cd_ArchivedAt r) (cd_CreatedByID r) (cd_UpdatedByID r).
Definition set_cd_GroupLabel (v : string) (r : CustomFieldDefinition) : CustomFieldDefinition :=
  MkDefinition (cd_ID r) (cd_DeletedAt r) (cd_OrganizationID r) (cd_EntityType r) (cd_Key r)
  (cd_Label r) (cd_Description r) (cd_Type r) (cd_Options r) (cd_Validation r) (cd_DefaultValue r)
  (cd_IsSystem r) (cd_IsRequired r) (cd_ShowInList r) (cd_ShowInChatPanel r) v (cd_Position r)
  (cd_ArchivedAt r) (cd_CreatedByID r) (cd_UpdatedByID r).
Definition set_cd_Position (v : Z) (r : CustomFieldDefinition) : CustomFieldDefinition :=
  MkDefinition (cd_ID r) (cd_DeletedAt r) (cd_OrganizationID r) (cd_EntityType r) (cd_Key r)
  (cd_Label r) (cd_Description r) (cd_Type r) (cd_Options r) (cd_Validation r) (cd_DefaultValue r)
  (cd_IsSystem r) (cd_IsRequired r) (cd_ShowInList r) (cd_ShowInChatPanel r) (cd_GroupLabel r) v
  (cd_ArchivedAt r) (cd_CreatedByID r) (cd_UpdatedByID r).
Definition set_cd_ArchivedAt (v : option time) (r : CustomFieldDefinition) : CustomFieldDefinition :=
  MkDefinition (cd_ID r) (cd_DeletedAt r) (cd_OrganizationID r) (cd_EntityType r) (cd_Key r)
  (cd_Label r) (cd_Description r) (cd_Type r) (cd_Options r) (cd_Validation r) (cd_DefaultValue r)
  (cd_IsSystem r) (cd_IsRequired r) (cd_ShowInList r) (cd_ShowInChatPanel r) (cd_GroupLabel r)
  (cd_Position r) v (cd_CreatedByID r) (cd_UpdatedByID r).
Definition set_cd_UpdatedByID (v : option uuid) (r : CustomFieldDefinition) : CustomFieldDefinition :=
  MkDefinition (cd_ID r) (cd_DeletedAt r) (cd_OrganizationID r) (cd_EntityType r) (cd_Key r)
  (cd_Label r) (cd_Description r) (cd_Type r) (cd_Options r) (cd_Validation r) (cd_DefaultValue r)
  (cd_IsSystem r) (cd_IsRequired r) (cd_ShowInList r) (cd_ShowInChatPanel r) (cd_GroupLabel r)
  (cd_Position r) (cd_ArchivedAt r) (cd_CreatedByID r) v.

(** [models.CustomFieldValue]. *)
Record CustomFieldValue := MkFieldValue {
  fv_ID : uuid;
  fv_OrganizationID : uuid;
  fv_EntityType : string;
  fv_EntityID : uuid;
  fv_FieldID : uuid;
  fv_ValueText : option string;
  fv_ValueNumber : option number;
  fv_ValueDate : option time;
  fv_ValueOption : option string;
  fv_UpdatedByID : option uuid;
  fv_UpdatedAt : time
}.

Definition set_fv_ValueText (v : option string) (r : CustomFieldValue) : CustomFieldValue :=
  MkFieldValue (fv_ID r) (fv_OrganizationID r) (fv_EntityType r) (fv_EntityID r) (fv_FieldID r) v
  (fv_ValueNumber r) (fv_ValueDate r) (fv_ValueOption r) (fv_UpdatedByID r) (fv_UpdatedAt r).
Definition set_fv_ValueNumber (v : option number) (r : CustomFieldValue) : CustomFieldValue :=
  MkFieldValue (fv_ID r) (fv_OrganizationID r) (fv_EntityType r) (fv_EntityID r) (fv_FieldID r)
  (fv_ValueText r) v (fv_ValueDate r) (fv_ValueOption r) (fv_UpdatedByID r) (fv_UpdatedAt r).
Definition set_fv_ValueDate (v : option time) (r : CustomFieldValue) : CustomFieldValue :=
  MkFieldValue (fv_ID r) (fv_OrganizationID r) (fv_EntityType r) (fv_EntityID r) (fv_FieldID r)
  (fv_ValueText r) (fv_ValueNumber r) v (fv_ValueOption r) (fv_UpdatedByID r) (fv_UpdatedAt r).
Definition set_fv_ValueOption (v : option string) (r : CustomFieldValue) : CustomFieldValue :=
  MkFieldValue (fv_ID r) (fv_OrganizationID r) (fv_EntityType r) (fv_EntityID r) (fv_FieldID r)
  (fv_ValueText r) (fv_ValueNumber r) (fv_ValueDate r) v (fv_UpdatedByID r) (fv_UpdatedAt r).
Definition set_fv_UpdatedByID (v : option uuid) (r : CustomFieldValue) : CustomFieldValue :=
  MkFieldValue (fv_ID r) (fv_OrganizationID r) (fv_EntityType r) (fv_EntityID r) (fv_FieldID r)
  (fv_ValueText r) (fv_ValueNumber r) (fv_ValueDate r) (fv_ValueOption r) v (fv_UpdatedAt r).
Definition set_fv_UpdatedAt (v : time) (r : CustomFieldValue) : CustomFieldValue :=
  MkFieldValue (fv_ID r) (fv_OrganizationID r) (fv_EntityType r) (fv_EntityID r) (fv_FieldID r)
  (fv_ValueText r) (fv_ValueNumber r) (fv_ValueDate r) (fv_ValueOption r) (fv_UpdatedByID r) v.

Definition IsArchived (d : CustomFieldDefinition) : bool := is_some (cd_ArchivedAt d).

(** [CustomFieldValue.IsEmpty]. *)
Definition row_IsEmpty (r : CustomFieldValue) : bool :=
  is_none (fv_ValueText r) && is_none (fv_ValueNumber r) && is_none (fv_ValueDate r) && is_none (fv_ValueOption r).

(** [m["value"].(string)] of an option that is an object. *)
Definition option_value (o : any) : option string :=
  match o with
  | AMap m => match index m "value" with Some (AString s) => Some s | _ => None end
  | _ => None
  end.

Definition HasOption (d : CustomFieldDefinition) (value : string) : bool :=
  existsb (fun o => match option_value o with Some stored => String.eqb stored value | None => false end) (cd_Options d).

(** [Value]. *)
Record Value := MkValue {
  v_Text : option string;
  v_Number : option number;
  v_Date : option time;
  v_Option : option string
}.

Definition no_value : Value := MkValue None None None None.

Definition IsEmpty (v : Value) : bool :=
  is_none (v_Text v) && is_none (v_Number v) && is_none (v_Date v) && is_none (v_Option v).

Definition Apply (v : Value) (row : CustomFieldValue) : CustomFieldValue :=
  set_fv_ValueOption (v_Option v) (set_fv_ValueDate (v_Date v) (set_fv_ValueNumber (v_Number v) (set_fv_ValueText (v_Text v) row))).

(** ** Checking a definition *)

Definition is_lower (c : ascii) : bool := in_range (97, 122)%N c.
Definition key_char (c : ascii) : bool := is_lower c || is_digit c || Ascii.eqb c "_".

(** [^[a-z][a-z0-9_]{0,63}$]. *)
Definition ValidKey (key : string) : bool :=
  match list_ascii_of_string key with
  | c :: l => is_lower c && Nat.leb (length l) 63 && forallb key_char l
  | [] => false
  end.

Definition ValidType (t : string) : bool :=
  existsb (String.eqb t) [FieldTypeText; FieldTypeNumber; FieldTypeDate; FieldTypeDropdown; FieldTypeEmail; FieldTypePhone].

(** A [ValidationError], by its message. *)
Definition reject (key message : string) : string := ("customfields: " ++ key ++ ": " ++ message)%string.

(** The loop over the options, with the values seen. *)
Fixpoint check_options (key : string) (seen : list string) (options : list any) : option string :=
  match options with
  | [] => None
  | o :: rest =>
      match o with
      | AMap _ =>
          let value := default "" (option_value o) in
          if is_empty (TrimSpace value) then Some (reject key "every option needs a value")
          else if existsb (String.eqb value) seen then Some (reject key ("duplicate option value " ++ quote value))
          else check_options key (value :: seen) rest
      | _ => Some (reject key "each option must be an object")
      end
  end.

(** [nil] or the message. *)
Definition ValidateDefinition (d : CustomFieldDefinition) : option string :=
  if negb (ValidKey (cd_Key d)) then
    Some (reject (cd_Key d) "key must start with a letter and contain only lowercase letters, digits and underscores")
  else if is_empty (TrimSpace (cd_Label d)) then Some (reject (cd_Key d) "label is required")
  else if negb (ValidType (cd_Type d)) then Some (reject (cd_Key d) ("unknown field type " ++ quote (cd_Type d)))
  else if String.eqb (cd_Type d) FieldTypeDropdown then
    if Nat.eqb (length (cd_Options d)) 0 then Some (reject (cd_Key d) "a dropdown needs at least one option")
    else check_options (cd_Key d) [] (cd_Options d)
  else None.

(** ** Coercion *)

(** RE2's [\s]. *)
Definition re_space (c : ascii) : bool := existsb (Ascii.eqb c) ["009"; "010"; "012"; "013"; " "]%char.
Definition mail_char (c : ascii) : bool := negb (Ascii.eqb c "@") && negb (re_space c).

(** [^[^@\s]+@[^@\s.]+\.[^@\s]+$]. *)
Definition emailPattern (s : string) : bool :=
  match span mail_char (list_ascii_of_string s) with
  | (_ :: _, c :: domain) =>
      Ascii.eqb c "@" &&
      match span (fun c => mail_char c && negb (Ascii.eqb c ".")) domain with
      | (_ :: _, c :: _ :: _ as tail) => Ascii.eqb c "." && forallb mail_char tail
      | _ => false
      end
  | _ => false
  end.

(** [rules[key]] as an integer and as a number. *)
Definition intRule (rules : JSONB) (key : string) (fallback : Z) : Z :=
  match index rules key with Some (AFloat x) => float_trunc x | Some (AInt n) => n | _ => fallback end.

Definition floatRule (rules : JSONB) (key : string) : option float64 :=
  match index rules key with Some (AFloat x) => Some x | Some (AInt n) => Some (float_of_int n) | _ => None end.

(** [%T]. *)
Definition type_name (v : any) : string :=
  match v with
  | ANil => "<nil>" | ABool _ => "bool" | AString _ => "string" | AInt _ => "int" | AFloat _ => "float64"
  | ATime _ => "time.Time" | AList _ => "[]interface {}" | AMap _ => "map[string]interface {}"
  end.

(** The day a text names in one of the three layouts, in its own zone. *)
Definition parse_day (s : string) : option Z := fst <$> parse_stamp s.

Section Coerce.
Context `{FE : FieldsEnv}.

(** [fmt.Sprint]. *)
Definition sprint (r : raw) : string :=
  match r with
  | RawAny v => Sprint v
  | RawNumber (Finite x) => Sprint (AFloat x)
  | RawNumber (Infinite n) => if n then "-Inf" else "+Inf"
  | RawNumber NotANumber => "NaN"
  end.

Definition sprint_q (r : raw) : string := match r with RawAny v => Sprintf_q v | RawNumber _ => "%!q(float64=" ++ sprint r ++ ")" end.

Definition text_value (s : string) : Value := MkValue (Some s) None None None.
Definition number_value (n : number) : Value := MkValue None (Some n) None None.
Definition date_value (t : time) : Value := MkValue None None (Some t) None.
Definition option_of (s : string) : Value := MkValue None None None (Some s).

Definition coerceText (d : CustomFieldDefinition) (r : raw) : res string Value :=
  let s := sprint r in
  let maxLen := intRule (cd_Validation d) "max_length" 10000 in
  if maxLen <? Z.of_nat (RuneCount s) then Err (reject (cd_Key d) ("must be at most " ++ Itoa maxLen ++ " characters"))
  else Ok (text_value s).

Definition coerceEmail (d : CustomFieldDefinition) (r : raw) : res string Value :=
  let s := ToLower (TrimSpace (sprint r)) in
  if emailPattern s then Ok (text_value s) else Err (reject (cd_Key d) (quote s ++ " is not a valid email address")).

Definition coercePhone (d : CustomFieldDefinition) (r : raw) : res string Value :=
  let normalized := Normalize (sprint r) in
  if is_empty normalized then Err (reject (cd_Key d) (sprint_q r ++ " is not a valid phone number"))
  else Ok (text_value normalized).

(** The type switch of [coerceNumber]. *)
Definition number_of (d : CustomFieldDefinition) (r : raw) : res string number :=
  match r with
  | RawNumber n => Ok n
  | RawAny (AFloat x) => Ok (Finite x)
  | RawAny (AInt n) => Ok (Finite (float_of_int n))
  | RawAny (AString s) =>
      match ParseFloat (TrimSpace s) with
      | Some n => Ok n
      | None => Err (reject (cd_Key d) (quote s ++ " is not a number"))
      end
  | RawAny v => Err (reject (cd_Key d) ("expected a number, got " ++ type_name v))
  end.

Definition below (n : number) (bound : option float64) : bool :=
  match bound with Some b => num_lt n (Finite b) | None => false end.
Definition above (n : number) (bound : option float64) : bool :=
  match bound with Some b => num_lt (Finite b) n | None => false end.

Definition bound_text (bound : option float64) : string := Sprint (AFloat (default float_zero bound)).

Definition coerceNumber (d : CustomFieldDefinition) (r : raw) : res string Value :=
  match number_of d r with
  | Err e => Err e
  | Ok n =>
      let min := floatRule (cd_Validation d) "min" in
      let max := floatRule (cd_Validation d) "max" in
      if below n min then Err (reject (cd_Key d) ("must be at least " ++ bound_text min))
      else if above n max then Err (reject (cd_Key d) ("must be at most " ++ bound_text max))
      else Ok (number_value n)
  end.

(** A [time.Time] here is an instant in UTC. *)
Definition coerceDate (d : CustomFieldDefinition) (r : raw) : res string Value :=
  match r with
  | RawAny (ATime t) => Ok (date_value (midnight (day_of t)))
  | RawAny (AString s) =>
      match parse_day (TrimSpace s) with
      | Some day => Ok (date_value (midnight day))
      | None => Err (reject (cd_Key d) (quote s ++ " is not a date"))
      end
  | RawAny v => Err (reject (cd_Key d) ("expected a date, got " ++ type_name v))
  | RawNumber _ => Err (reject (cd_Key d) "expected a date, got float64")
  end.

(** An option that is an object and whose value, the empty text when it is none, is [s]. *)
Definition offers (s : string) (o : any) : bool :=
  match o with AMap _ => String.eqb (default "" (option_value o)) s | _ => false end.

Definition coerceDropdown (d : CustomFieldDefinition) (r : raw) : res string Value :=
  let s := sprint r in
  if existsb (offers s) (cd_Options d) then Ok (option_of s)
  else Err (reject (cd_Key d) (quote s ++ " is not one of the allowed options")).

(** A nil or blank input clears the field. *)
Definition clears (r : raw) : bool :=
  match r with
  | RawAny ANil => true
  | RawAny (AString s) => is_empty (TrimSpace s)
  | _ => false
  end.

Definition Coerce (d : CustomFieldDefinition) (r : raw) : res string Value :=
  if clears r then Ok no_value
  else
    let t := cd_Type d in
    if String.eqb t FieldTypeText then coerceText d r
    else if String.eqb t FieldTypeEmail then coerceEmail d r
    else if String.eqb t FieldTypePhone then coercePhone d r
    else if String.eqb t FieldTypeNumber then coerceNumber d r
    else if String.eqb t FieldTypeDate then coerceDate d r
    else if String.eqb t FieldTypeDropdown then coerceDropdown d r
    else Err (reject (cd_Key d) ("unknown field type " ++ quote t)).

(** ** Reading a stored row *)

Definition exportValue (d : CustomFieldDefinition) (row : CustomFieldValue) : raw :=
  let t := cd_Type d in
  if String.eqb t FieldTypeNumber then
    match fv_ValueNumber row with Some n => RawNumber n | None => RawAny ANil end
  else if String.eqb t FieldTypeDate then
    match fv_ValueDate row with Some t => RawAny (AString (FormatDay (day_of t))) | None => RawAny ANil end
  else if String.eqb t FieldTypeDropdown then
    match fv_ValueOption row with Some s => RawAny (AString s) | None => RawAny ANil end
  else match fv_ValueText row with Some s => RawAny (AString s) | None => RawAny ANil end.

Definition equal_by {A} (eq : A -> A -> bool) (a b : option A) : bool :=
  match a, b with
  | Some a, Some b => eq a b
  | None, None => true
  | _, _ => false
  end.

Definition equalString : option string -> option string -> bool := equal_by String.eqb.
Definition equalFloat : option number -> option number -> bool := equal_by num_eq.
Definition equalDate : option time -> option time -> bool :=
  equal_by (fun a b => String.eqb (FormatDay (day_of a)) (FormatDay (day_of b))).

Definition sameValue (d : CustomFieldDefinition) (row : CustomFieldValue) (v : Value) : bool :=
  let t := cd_Type d in
  if String.eqb t FieldTypeNumber then equalFloat (fv_ValueNumber row) (v_Number v)
  else if String.eqb t FieldTypeDate then equalDate (fv_ValueDate row) (v_Date v)
  else if String.eqb t FieldTypeDropdown then equalString (fv_ValueOption row) (v_Option v)
  else equalString (fv_ValueText row) (v_Text v).
End Coerce.

(** ** Creating a record by hand *)

Definition apply_default (out : gmap string any) (entry : string * CustomFieldDefinition) : gmap string any :=
  let '(key, def) := entry in
  match cd_DefaultValue def with
  | None => out
  | Some dv =>
      if IsArchived def then out
      else if is_some (out !! key) then out
      else match index dv "value" with
           | None | Some ANil => out
           | Some fallback => <[key := fallback]> out
           end
  end.

Definition ApplyDefaults (defs : gmap string CustomFieldDefinition) (values : gmap string any) : gmap string any :=
  fold_left apply_default (map_to_list defs) values.

Definition left_empty (v : option any) : bool :=
  match v with None | Some ANil => true | Some (AString s) => is_empty s | _ => false end.

Definition MissingRequired (defs : gmap string CustomFieldDefinition) (values : gmap string any) : list string :=
  sort_by String.ltb
    (omap (fun e => if IsArchived e.2 || negb (cd_IsRequired e.2) then None
                    else if left_empty (values !! e.1) then Some (cd_Label e.2) else None) (map_to_list defs)).

(** * Round trips of field values

    What [Coerce] accepts has exactly the column of its type, and the value a
    stored row exports is accepted again and stored the same. *)

(** ** Text *)

Lemma list_map_string f s : list_ascii_of_string (map_string f s) = map f (list_ascii_of_string s).
Proof. induction s as [|c s IH]; simpl; [done|by rewrite IH]. Qed.

Lemma to_lower_space c : is_space (to_lower c) = is_space c.
Proof. destruct c as [[] [] [] [] [] [] [] []]; vm_compute; reflexivity. Qed.

Lemma to_lower_idem c : to_lower (to_lower c) = to_lower c.
Proof. destruct c as [[] [] [] [] [] [] [] []]; vm_compute; reflexivity. Qed.

Lemma ToLower_idem s : ToLower (ToLower s) = ToLower s.
Proof. unfold ToLower. induction s as [|c s IH]; simpl; [done|]. by rewrite to_lower_idem, IH. Qed.

Lemma starts_black_map l : starts_black l -> starts_black (map to_lower l).
Proof.
  intros Hl c r E. destruct l as [|d l]; [done|]. injection E as <- _. rewrite to_lower_space. by apply (Hl d l).
Qed.

Lemma TrimSpace_ToLower s : TrimSpace (ToLower (TrimSpace s)) = ToLower (TrimSpace s).
Proof.
  rewrite (TrimSpace_trim (ToLower _)). unfold ToLower. rewrite list_map_string, TrimSpace_trim, list_ascii_of_string_of_list_ascii.
  pose proof (trim_black (list_ascii_of_string s)) as [H1 H2].
  rewrite trim_id; [|by apply starts_black_map|].
  - by rewrite <- (list_ascii_of_string_of_list_ascii (trim _)) at 1; rewrite <- list_map_string, string_of_list_ascii_of_string.
  - assert (reverse (map to_lower (trim (list_ascii_of_string s))) = map to_lower (reverse (trim (list_ascii_of_string s)))) as E.
    { symmetry. apply (fmap_reverse to_lower). }
    rewrite E. by apply starts_black_map.
Qed.

Lemma blank_clears s : clears (RawAny (AString s)) = is_empty (TrimSpace s).
Proof. done. Qed.

Section Round.
Context `{FE : FieldsEnv} `{!GoFmtLaws}.

(** What is not a cleared field prints as something to see. *)
Lemma sprint_visible r : clears r = false -> is_empty (TrimSpace (sprint r)) = false.
Proof.
  destruct r as [v|n].
  - destruct v; simpl; try (intros _; by apply Sprint_visible). by rewrite Sprint_string.
  - intros _. destruct n as [x|[]|]; [by apply Sprint_visible|done..].
Qed.

Lemma sprint_string s : sprint (RawAny (AString s)) = s.
Proof. apply Sprint_string. Qed.

(** ** Days *)

Lemma decimal_bound cs n : decimal cs = Some n -> 0 <= n < 10 ^ Z.of_nat (length cs).
Proof.
  unfold decimal. assert (forall acc m k, 0 <= acc < 10 ^ Z.of_nat k ->
    fold_left (fun acc c => a ← acc; d ← digit c; Some (10 * a + Z.of_N d)) cs (Some acc) = Some m ->
    0 <= m < 10 ^ Z.of_nat (k + length cs)) as Hind.
  { induction cs as [|c cs IH]; simpl; intros acc m k Hacc.
    - intros [= <-]. by rewrite Nat.add_0_r.
    - destruct (digit c) as [d|] eqn:Ed; simpl; [|].
      + assert (Z.of_N d < 10) as Hd.
        { revert Ed. unfold digit. destruct (_ && _) eqn:E; [|done]. intros [= <-]. apply andb_true_iff in E as [? E%N.leb_le]. lia. }
        intros Hf. replace (k + S (length cs))%nat with (S k + length cs)%nat by lia. eapply IH; [|exact Hf].
        rewrite Nat2Z.inj_succ, Z.pow_succ_r by lia. lia.
      + clear. intros Hf. exfalso. revert Hf. induction cs as [|c cs IH]; simpl; [done|apply IH]. }
  intros Hf. by apply (Hind 0 n 0%nat) in Hf.
Qed.

Lemma ParseDay_year s day : ParseDay s = Some day -> four_digit_year day.
Proof.
  unfold ParseDay. destruct (list_ascii_of_string s) as [|y1 [|y2 [|y3 [|y4 [|h1 [|m1 [|m2 [|h2 [|d1 [|d2 [|]]]]]]]]]]]; try done.
  destruct (_ && _); [|done]. destruct (decimal [y1; y2; y3; y4]) as [y|] eqn:Ey; [|done]. simpl.
  destruct (decimal [m1; m2]) as [m|]; [|done]. simpl. destruct (decimal [d1; d2]) as [d|]; [|done]. simpl.
  destruct (valid_date y m d) eqn:Hv; [|done]. intros [= <-]. unfold four_digit_year. rewrite civil_days_of by done.
  by apply decimal_bound in Ey.
Qed.

Lemma parse_day_year s day : parse_day s = Some day -> four_digit_year day.
Proof.
  unfold parse_day, parse_stamp. destruct (drop 10 _).
  - destruct (ParseDay s) eqn:E; [|done]. intros [= <-]. by apply ParseDay_year in E.
  - destruct (clock _); [|done]. cbn [mbind option_bind].
    destruct (ParseDay (string_of_list_ascii _)) eqn:E; [|done]. intros [= <-]. by apply ParseDay_year in E.
Qed.

Lemma char_of_black d : 0 <= d < 10 -> is_space (char_of d) = false.
Proof.
  intros ?. assert (d = 0 \/ d = 1 \/ d = 2 \/ d = 3 \/ d = 4 \/ d = 5 \/ d = 6 \/ d = 7 \/ d = 8 \/ d = 9) as Hd by lia.
  by repeat destruct Hd as [->|Hd]; [..|subst].
Qed.

Lemma place_black n p : is_space (place n p) = false.
Proof. apply char_of_black, Z.mod_pos_bound. lia. Qed.

Lemma FormatDay_text day :
  TrimSpace (FormatDay day) = FormatDay day /\ drop 10 (list_ascii_of_string (FormatDay day)) = [] /\ is_empty (FormatDay day) = false.
Proof.
  unfold FormatDay. destruct (civil day) as [[y m] d]. split; [|done].
  apply TrimSpace_black. repeat (constructor; [first [apply place_black|done]|]). constructor.
Qed.

Lemma parse_FormatDay day : four_digit_year day -> parse_day (FormatDay day) = Some day.
Proof.
  intros Hy. unfold parse_day, parse_stamp. destruct (FormatDay_text day) as (_ & -> & _). by rewrite ParseDay_FormatDay.
Qed.

(** ** One column per type *)

(** The column of a type, and no other. *)
Definition of_type (t : string) (v : Value) : Prop :=
  if String.eqb t FieldTypeNumber then exists n, v = number_value n
  else if String.eqb t FieldTypeDate then exists day, v = date_value (midnight day)
  else if String.eqb t FieldTypeDropdown then exists s, v = option_of s
  else exists s, v = text_value s.

(** The cases of [Coerce] by type. *)
Lemma Coerce_cases d r v : Coerce d r = Ok v ->
  (clears r = true /\ v = no_value) \/
  (clears r = false /\ (
    (cd_Type d = FieldTypeText /\ coerceText d r = Ok v) \/ (cd_Type d = FieldTypeEmail /\ coerceEmail d r = Ok v) \/
    (cd_Type d = FieldTypePhone /\ coercePhone d r = Ok v) \/ (cd_Type d = FieldTypeNumber /\ coerceNumber d r = Ok v) \/
    (cd_Type d = FieldTypeDate /\ coerceDate d r = Ok v) \/ (cd_Type d = FieldTypeDropdown /\ coerceDropdown d r = Ok v))).
Proof.
  unfold Coerce. destruct (clears r); [intros [= <-]; by left|]. intros Hc. right. split; [done|]. revert Hc.
  repeat match goal with |- context [String.eqb (cd_Type d) ?t] => destruct (String.eqb_spec (cd_Type d) t) as [?|_]; [tauto|] end.
  done.
Qed.

(** What each coercion makes, and of which texts. *)
Lemma coerceText_inv d r v : coerceText d r = Ok v ->
  v = text_value (sprint r) /\ Z.of_nat (RuneCount (sprint r)) <= intRule (cd_Validation d) "max_length" 10000.
Proof. unfold coerceText. destruct (Z.ltb_spec (intRule (cd_Validation d) "max_length" 10000) (Z.of_nat (RuneCount (sprint r)))); [done|]. by intros [= <-]. Qed.

Lemma coerceEmail_inv d r v : coerceEmail d r = Ok v ->
  exists s, v = text_value s /\ emailPattern s = true /\ ToLower (TrimSpace s) = s.
Proof.
  unfold coerceEmail. destruct (emailPattern _) eqn:E; [|done]. intros [= <-]. eexists. split_and!; [done|done|].
  by rewrite TrimSpace_ToLower, ToLower_idem.
Qed.

Lemma coercePhone_inv d r v : coercePhone d r = Ok v ->
  exists s, v = text_value s /\ is_empty s = false /\ Normalize s = s.
Proof.
  unfold coercePhone. destruct (is_empty _) eqn:E; [done|]. intros [= <-]. eexists. split_and!; [done|done|].
  apply Normalize_idem.
Qed.

Lemma coerceNumber_inv d r v : coerceNumber d r = Ok v ->
  exists n, v = number_value n /\ below n (floatRule (cd_Validation d) "min") = false /\
            above n (floatRule (cd_Validation d) "max") = false.
Proof.
  unfold coerceNumber. destruct (number_of d r) as [n|]; [|done]. destruct (below _ _) eqn:E1; [done|].
  destruct (above _ _) eqn:E2; [done|]. intros [= <-]. eauto.
Qed.

Definition in_four_digits (r : raw) : Prop := forall t, r = RawAny (ATime t) -> four_digit_year (day_of t).

Lemma coerceDate_inv d r v : coerceDate d r = Ok v ->
  exists day, v = date_value (midnight day) /\ (in_four_digits r -> four_digit_year day).
Proof.
  unfold coerceDate, in_four_digits. destruct r as [[]|]; try done.
  - destruct (parse_day (TrimSpace s)) as [day|] eqn:E; [|done]. intros [= <-]. exists day. split; [done|].
    intros _. by apply parse_day_year in E.
  - intros [= <-]. eexists. split; [done|]. intros Hy. by apply Hy.
Qed.

Lemma coerceDropdown_inv d r v : coerceDropdown d r = Ok v ->
  v = option_of (sprint r) /\ existsb (offers (sprint r)) (cd_Options d) = true.
Proof. unfold coerceDropdown. destruct (existsb _ _); [|done]. by intros [= <-]. Qed.

Lemma Coerce_of_type d r v : Coerce d r = Ok v -> v = no_value \/ of_type (cd_Type d) v.
Proof.
  intros [[_ ->]|[_ Hc]]%Coerce_cases; [by left|right].
  destruct Hc as [[E Hc]|[[E Hc]|[[E Hc]|[[E Hc]|[[E Hc]|[E Hc]]]]]]; rewrite E; unfold of_type; simpl.
  - apply coerceText_inv in Hc as [-> _]. eauto.
  - apply coerceEmail_inv in Hc as (s & -> & _). eauto.
  - apply coercePhone_inv in Hc as (s & -> & _). eauto.
  - apply coerceNumber_inv in Hc as (n & -> & _). eauto.
  - apply coerceDate_inv in Hc as (day & -> & _). eauto.
  - apply coerceDropdown_inv in Hc as [-> _]. eauto.
Qed.

(** ** The round trip *)

Lemma Coerce_string d s : is_empty (TrimSpace s) = false ->
  forall t, cd_Type d = t ->
  Coerce d (RawAny (AString s)) =
    if String.eqb t FieldTypeText then coerceText d (RawAny (AString s))
    else if String.eqb t FieldTypeEmail then coerceEmail d (RawAny (AString s))
    else if String.eqb t FieldTypePhone then coercePhone d (RawAny (AString s))
    else if String.eqb t FieldTypeNumber then coerceNumber d (RawAny (AString s))
    else if String.eqb t FieldTypeDate then coerceDate d (RawAny (AString s))
    else if String.eqb t FieldTypeDropdown then coerceDropdown d (RawAny (AString s))
    else Err (reject (cd_Key d) ("unknown field type " ++ quote t)).
Proof. intros Hs t <-. unfold Coerce. rewrite blank_clears. by rewrite Hs. Qed.

Lemma TrimSpace_empty_Normalize s : is_empty s = false -> Normalize s = s -> is_empty (TrimSpace s) = false.
Proof.
  intros Hs Hn. destruct (is_empty (TrimSpace s)) eqn:E; [|done]. exfalso. unfold Normalize in Hn. rewrite E in Hn.
  by rewrite <- Hn in Hs.
Qed.

Lemma email_not_blank s : emailPattern s = true -> ToLower (TrimSpace s) = s -> is_empty (TrimSpace s) = false.
Proof.
  intros Hp Hs. destruct (is_empty (TrimSpace s)) eqn:E; [|done]. apply is_empty_spec in E. rewrite E in Hs. by rewrite <- Hs in Hp.
Qed.

(** What a row shows is accepted again and means the same value. *)
Lemma Coerce_exportValue d r v row :
  Coerce d r = Ok v -> clears r = false -> in_four_digits r ->
  Coerce d (exportValue d (Apply v row)) = Ok v.
Proof.
  intros [[? _]|[Hcl Hc]]%Coerce_cases Hcl' Hyear; [congruence|].
  destruct Hc as [[E Hc]|[[E Hc]|[[E Hc]|[[E Hc]|[[E Hc]|[E Hc]]]]]]; unfold exportValue; rewrite E; simpl.
  - apply coerceText_inv in Hc as [-> Hlen]. simpl. rewrite (Coerce_string _ _ (sprint_visible r Hcl) _ E). simpl.
    unfold coerceText. rewrite sprint_string. apply Z.ltb_ge in Hlen. by rewrite Hlen.
  - apply coerceEmail_inv in Hc as (s & -> & Hp & Hs). simpl. rewrite (Coerce_string _ _ (email_not_blank s Hp Hs) _ E). simpl.
    unfold coerceEmail. by rewrite sprint_string, Hs, Hp.
  - apply coercePhone_inv in Hc as (s & -> & Hp & Hs). simpl. rewrite (Coerce_string _ _ (TrimSpace_empty_Normalize s Hp Hs) _ E). simpl.
    unfold coercePhone. by rewrite sprint_string, Hs, Hp.
  - apply coerceNumber_inv in Hc as (n & -> & Hlo & Hhi). simpl. unfold Coerce. rewrite E. simpl.
    unfold coerceNumber. simpl. by rewrite Hlo, Hhi.
  - apply coerceDate_inv in Hc as (day & -> & Hy). simpl. rewrite day_of_midnight.
    destruct (FormatDay_text day) as (Ht & _ & He). rewrite (Coerce_string _ _ ltac:(by rewrite Ht) _ E). simpl.
    unfold coerceDate. rewrite Ht, parse_FormatDay by auto. done.
  - apply coerceDropdown_inv in Hc as [-> Ho]. simpl. rewrite (Coerce_string _ _ (sprint_visible r Hcl) _ E). simpl.
    unfold coerceDropdown. by rewrite sprint_string, Ho.
Qed.

Lemma num_eq_refl n : n <> NotANumber -> num_eq n n = true.
Proof. destruct n as [x|[]|]; simpl; [intros _; apply Z.eqb_refl|done..]. Qed.

(** Storing what is stored is seen as no change, but for NaN. *)
Lemma sameValue_Apply d v row : of_type (cd_Type d) v -> v_Number v <> Some NotANumber -> sameValue d (Apply v row) v = true.
Proof.
  unfold of_type, sameValue. repeat case_match; intros Hv Hn.
  - destruct Hv as [n ->]. simpl in *. apply num_eq_refl. congruence.
  - destruct Hv as [day ->]. apply (String.eqb_refl (FormatDay _)).
  - destruct Hv as [s ->]. simpl. apply String.eqb_refl.
  - destruct Hv as [s ->]. simpl. apply String.eqb_refl.
Qed.
End Round.
