(* ===== verification/FieldService.v ===== *)
(** * Custom fields: the service and its endpoints

    [internal/customfields/service.go] and [seed.go] over the tables of field
    definitions and values, the endpoints that edit definitions
    ([internal/handlers/contact_fields.go], [contact_fields_admin.go]), and the
    rewriting of saved filters and rules that name an option
    ([internal/entityrefs/configs.go]).  Permission checks and the audit log are
    left out; an endpoint that refuses fails with the message it sends. *)
From S2P Require Import Prelude GoLib Text Store Events Models Statements Fields.

(** ** The tables *)

(** A row whose JSONB columns can name other entities: a segment with its filter, or a rule with its trigger settings,
    actions and contact filter; each column as the text PostgreSQL gives for it. *)
Record Holder := MkHolder {
  ho_ID : uuid;
  ho_DeletedAt : option time;
  ho_OrganizationID : uuid;
  ho_Name : string;
  ho_Columns : list (option string)
}.

Definition set_ho_Columns (v : list (option string)) (r : Holder) : Holder :=
  MkHolder (ho_ID r) (ho_DeletedAt r) (ho_OrganizationID r) (ho_Name r) v.

(** What the promotion of a metadata key reads of a contact. *)
Record ContactMeta := MkContactMeta {
  cm_ID : uuid;
  cm_DeletedAt : option time;
  cm_OrganizationID : uuid;
  cm_Metadata : JSONB
}.

(** The tables. *)
Record FieldsDB := MkFieldsDB {
  fd_defs : gmap uuid CustomFieldDefinition;
  fd_values : gmap uuid CustomFieldValue;
  fd_segments : gmap uuid Holder;
  fd_rules : gmap uuid Holder;
  fd_contacts : gmap uuid ContactMeta
}.

Definition set_fd_defs (v : gmap uuid CustomFieldDefinition) (r : FieldsDB) : FieldsDB :=
  MkFieldsDB v (fd_values r) (fd_segments r) (fd_rules r) (fd_contacts r).
Definition set_fd_values (v : gmap uuid CustomFieldValue) (r : FieldsDB) : FieldsDB :=
  MkFieldsDB (fd_defs r) v (fd_segments r) (fd_rules r) (fd_contacts r).
Definition set_fd_segments (v : gmap uuid Holder) (r : FieldsDB) : FieldsDB :=
  MkFieldsDB (fd_defs r) (fd_values r) v (fd_rules r) (fd_contacts r).
Definition set_fd_rules (v : gmap uuid Holder) (r : FieldsDB) : FieldsDB :=
  MkFieldsDB (fd_defs r) (fd_values r) (fd_segments r) v (fd_contacts r).

Abbreviation MF := (M FieldsDB).

(** What the server makes of values: a typed column refuses or rounds, a text
    cast to JSONB is read back in a normal form. *)
Class FieldsServer `{FE : FieldsEnv} := {
  as_stored : Value -> option Value;
  jsonb : string -> option string;
  json_column_text : any -> string      (** [->>] of a value that is neither text nor null *)
}.

(** Only numbers are rounded, and rounding again changes nothing. *)
Class FieldsServerLaws `{FS : FieldsServer} : Prop := {
  stored_texts : forall v v', as_stored v = Some v' ->
    v_Text v' = v_Text v /\ v_Date v' = v_Date v /\ v_Option v' = v_Option v;
  stored_number : forall v v', as_stored v = Some v' -> is_none (v_Number v') = is_none (v_Number v);
  stored_again : forall v v', as_stored v = Some v' -> as_stored v' = Some v'
}.

Section Service.
Context `{SQ : Sql} `{FS : FieldsServer}.

(** ** Reading *)

Definition entityTypeOrContact (entityType : string) : string := if is_empty entityType then FieldEntityContact else entityType.

Definition live_def (d : CustomFieldDefinition) : bool := is_none (cd_DeletedAt d).
Definition def_of (orgID : uuid) (entityType : string) (d : CustomFieldDefinition) : bool :=
  N.eqb (cd_OrganizationID d) orgID && String.eqb (cd_EntityType d) entityType && live_def d.

Definition by_position_label (a b : CustomFieldDefinition) : bool :=
  (cd_Position a <? cd_Position b) || ((cd_Position a =? cd_Position b) && String.ltb (cd_Label a) (cd_Label b)).

Definition Definitions (orgID : uuid) (entityType : string) : MF (list CustomFieldDefinition) :=
  query (fun d => Ok (sort_by by_position_label (find_rows (def_of orgID (entityTypeOrContact entityType)) None (fd_defs d)))).

Definition index_by {K A} `{Countable K} (key : A -> K) (l : list A) : gmap K A :=
  fold_left (fun out a => <[key a := a]> out) l ∅.

Definition DefinitionsByKey (orgID : uuid) (entityType : string) : MF (gmap string CustomFieldDefinition) :=
  defs <- Definitions orgID entityType ;;
  ret (index_by cd_Key defs).

Definition value_of_any (orgID : uuid) (entityType : string) (ids : list uuid) (r : CustomFieldValue) : bool :=
  N.eqb (fv_OrganizationID r) orgID && String.eqb (fv_EntityType r) entityType && existsb (N.eqb (fv_EntityID r)) ids.

Definition add_value (byID : gmap uuid CustomFieldDefinition) (out : gmap uuid (gmap string raw)) (row : CustomFieldValue) : gmap uuid (gmap string raw) :=
  match byID !! fv_FieldID row with
  | None => out
  | Some def => <[fv_EntityID row := <[cd_Key def := exportValue def row]> (default ∅ (out !! fv_EntityID row))]> out
  end.

Definition ValuesFor (orgID : uuid) (entityIDs : list uuid) (entityType : string) : MF (gmap uuid (gmap string raw)) :=
  match entityIDs with
  | [] => ret ∅
  | _ =>
      defs <- Definitions orgID entityType ;;
      rows <- query (fun d => Ok (find_rows (value_of_any orgID (entityTypeOrContact entityType) entityIDs) None (fd_values d))) ;;
      ret (fold_left (add_value (index_by cd_ID defs)) rows ∅)
  end.

Definition Values (orgID entityID : uuid) (entityType : string) : MF (gmap string raw) :=
  byEntity <- ValuesFor orgID [entityID] entityType ;;
  ret (default ∅ (byEntity !! entityID)).

(** ** Writing values *)

Definition value_of (orgID : uuid) (entityType : string) (entityID : uuid) (r : CustomFieldValue) : bool :=
  N.eqb (fv_OrganizationID r) orgID && String.eqb (fv_EntityType r) entityType && N.eqb (fv_EntityID r) entityID.

(** The unique index over entity and field. *)
Definition same_slot (row r : CustomFieldValue) : bool :=
  String.eqb (fv_EntityType r) (fv_EntityType row) && N.eqb (fv_EntityID r) (fv_EntityID row) && N.eqb (fv_FieldID r) (fv_FieldID row).

Definition columns (row : CustomFieldValue) : Value :=
  MkValue (fv_ValueText row) (fv_ValueNumber row) (fv_ValueDate row) (fv_ValueOption row).

Definition upserted (row : CustomFieldValue) (t : gmap uuid CustomFieldValue) : res err (gmap uuid CustomFieldValue) :=
  if Nat.eqb (rows_affected (same_slot row) t) 0 then
    if is_some (t !! fv_ID row) then Err ErrUnique else Ok (<[fv_ID row := row]> t)
  else Ok (update_where (same_slot row)
    [Apply (columns row); set_fv_UpdatedByID (fv_UpdatedByID row); set_fv_UpdatedAt (fv_UpdatedAt row)] t).

(** [INSERT ... ON CONFLICT (entity_type, entity_id, field_id) DO UPDATE]. *)
Definition upsert_value (row : CustomFieldValue) : MF unit :=
  stmt no_locks (fun d =>
    match as_stored (columns row) with
    | None => (Err ErrDriver, d)
    | Some v =>
        match upserted (Apply v row) (fd_values d) with
        | Ok t => (Ok tt, set_fd_values t d)
        | Err e => (Err e, d)
        end
    end).

Definition delete_values (p : CustomFieldValue -> bool) : MF unit :=
  stmt no_locks (fun d => (Ok tt, set_fd_values (filter (fun kr => negb (p kr.2)) (fd_values d)) d)).

Definition new_value (id : uuid) (t : time) (orgID entityID : uuid) (entityType : string) (fieldID : uuid) (actorID : option uuid) : CustomFieldValue :=
  MkFieldValue id orgID (entityTypeOrContact entityType) entityID fieldID None None None None actorID t.

(** One entry of the map, with the rows read before the loop; whether its key changed. *)
Definition set_value (orgID entityID : uuid) (entityType : string) (actorID : option uuid)
    (defs : gmap string CustomFieldDefinition) (current : gmap uuid CustomFieldValue) (key : string) (value : raw) : MF bool :=
  match defs !! key with
  | None => fail (ErrMsg (reject key "no such field"))
  | Some def =>
      if IsArchived def then fail (ErrMsg (reject key "field is archived and cannot be edited"))
      else match Coerce def value with
      | Err e => fail (ErrMsg e)
      | Ok coerced =>
          let prev := current !! cd_ID def in
          if match prev with Some row => sameValue def row coerced | None => false end then ret false
          else if IsEmpty coerced then
            match prev with
            | None => ret false
            | Some row => delete_values (fun r => N.eqb (fv_ID r) (fv_ID row)) ;;; ret true
            end
          else
            id <- uuid_New ;;
            t <- now ;;
            upsert_value (Apply coerced (new_value id t orgID entityID entityType (cd_ID def) actorID)) ;;;
            ret true
      end
  end.

(** The loop, over the map in the order [range] visits it. *)
Fixpoint set_values (orgID entityID : uuid) (entityType : string) (actorID : option uuid)
    (defs : gmap string CustomFieldDefinition) (current : gmap uuid CustomFieldValue) (values : list (string * raw)) : MF (list string) :=
  match values with
  | [] => ret []
  | (key, value) :: values =>
      changed <- set_value orgID entityID entityType actorID defs current key value ;;
      rest <- set_values orgID entityID entityType actorID defs current values ;;
      ret (if changed then key :: rest else rest)
  end.

Definition SetValues (orgID entityID : uuid) (entityType : string) (values : list (string * raw)) (actorID : option uuid) : MF (list string) :=
  match values with
  | [] => ret []
  | _ =>
      defs <- DefinitionsByKey orgID entityType ;;
      existing <- query (fun d => Ok (find_rows (value_of orgID (entityTypeOrContact entityType) entityID) None (fd_values d))) ;;
      set_values orgID entityID entityType actorID defs (index_by fv_FieldID existing) values
  end.

(** ** Writing definitions *)

(** The sizes of the columns. *)
Definition def_fits (d : CustomFieldDefinition) : bool :=
  Nat.leb (RuneCount (cd_Key d)) 64 && Nat.leb (RuneCount (cd_Label d)) 100 && Nat.leb (RuneCount (cd_Description d)) 500 &&
  Nat.leb (RuneCount (cd_Type d)) 20 && Nat.leb (RuneCount (cd_GroupLabel d)) 64.

(** The unique index over the key, among definitions that are not deleted. *)
Definition same_key (d e : CustomFieldDefinition) : bool :=
  def_of (cd_OrganizationID d) (cd_EntityType d) e && String.eqb (cd_Key e) (cd_Key d).

Definition key_taken (d : CustomFieldDefinition) (t : gmap uuid CustomFieldDefinition) : bool :=
  live_def d && negb (no_other (same_key d) (cd_ID d) t).

Definition put_def (def : CustomFieldDefinition) (d : FieldsDB) : res err unit * FieldsDB :=
  if negb (def_fits def) then (Err ErrDriver, d)
  else if key_taken def (fd_defs d) then (Err ErrUnique, d)
  else (Ok tt, set_fd_defs (<[cd_ID def := def]> (fd_defs d)) d).

(** A zero value gives way to the default of its column: [show_in_chat_panel] has the default [true]. *)
Definition def_defaults (def : CustomFieldDefinition) : CustomFieldDefinition := set_cd_ShowInChatPanel true def.

(** [Create(def)]: the row as it was stored. *)
Definition insert_def (def : CustomFieldDefinition) : MF CustomFieldDefinition :=
  let def := def_defaults def in
  stmt no_locks (fun d =>
    if is_some (fd_defs d !! cd_ID def) then (Err ErrUnique, d)
    else match put_def def d with (Ok _, d') => (Ok def, d') | (Err e, d') => (Err e, d') end).

(** [Save(def)]: an update of the live row, and an upsert when there is none. *)
Definition save_def (def : CustomFieldDefinition) : MF unit :=
  n <- stmt no_locks (fun d =>
    match fd_defs d !! cd_ID def with
    | Some old => if live_def old then (let '(r, d') := put_def def d in (match r with Ok _ => Ok 1 | Err e => Err e end, d')) else (Ok 0, d)
    | None => (Ok 0, d)
    end) ;;
  if n =? 0 then stmt no_locks (put_def (def_defaults def)) else ret tt.

Definition update_defs (p : CustomFieldDefinition -> bool) (us : list (CustomFieldDefinition -> CustomFieldDefinition)) : MF unit :=
  stmt no_locks (fun d => (Ok tt, set_fd_defs (update_where p us (fd_defs d)) d)).

(** ** The built-in fields *)

Definition choice (value label color : string) : any :=
  AMap [("value", AString value); ("label", AString label); ("color", AString color)].

Definition built_in (key label ty group : string) (position : Z) (in_list : bool) (options : list any) (validation : JSONB) : CustomFieldDefinition :=
  MkDefinition uuid_Nil None uuid_Nil "" key label "" ty options validation None true false in_list true group position None None None.

Definition BuiltInFields : list CustomFieldDefinition :=
  [built_in FieldKeyEmail "Email" FieldTypeEmail "Contact" 10 true [] [];
   built_in FieldKeyCompany "Company" FieldTypeText "Company" 20 true [] [("max_length", AInt 255)];
   built_in FieldKeyAddress "Address" FieldTypeText "Contact" 30 false [] [("max_length", AInt 500); ("multiline", ABool true)];
   built_in FieldKeySource "Source" FieldTypeDropdown "Lifecycle" 40 true
     [choice "inbound" "Inbound" "blue"; choice "import" "Import" "gray"; choice "campaign" "Campaign" "purple"; 
      choice "api" "API" "gray"; choice "manual" "Manual" "gray"; choice "call" "Call" "green"; 
      choice "address_book_sync" "Address book sync" "gray"; choice "website" "Website" "blue"; choice "referral" "Referral" "green"; 
      choice "other" "Other" "gray"] [];
   built_in FieldKeyLifecycleStage "Lifecycle stage" FieldTypeDropdown "Lifecycle" 50 true
     [choice LifecycleNew "New" "gray"; choice LifecycleLead "Lead" "blue"; choice LifecycleQualified "Qualified" "purple"; 
      choice LifecycleCustomer "Customer" "green"; choice LifecycleChurned "Churned" "red"] []].

Definition placed (id orgID : uuid) (d : CustomFieldDefinition) : CustomFieldDefinition :=
  MkDefinition id (cd_DeletedAt d) orgID FieldEntityContact (cd_Key d) (cd_Label d) (cd_Description d) (cd_Type d)
    (cd_Options d) (cd_Validation d) (cd_DefaultValue d) (cd_IsSystem d) (cd_IsRequired d) (cd_ShowInList d)
    (cd_ShowInChatPanel d) (cd_GroupLabel d) (cd_Position d) (cd_ArchivedAt d) (cd_CreatedByID d) (cd_UpdatedByID d).

Fixpoint seed_fields (orgID : uuid) (have : list string) (fields : list CustomFieldDefinition) : MF unit :=
  match fields with
  | [] => ret tt
  | field :: fields =>
      (if existsb (String.eqb (cd_Key field)) have then ret tt
       else id <- uuid_New ;; insert_def (placed id orgID field) ;;; ret tt) ;;;
      seed_fields orgID have fields
  end.

Definition SeedOrganization (orgID : uuid) : MF unit :=
  existing <- query (fun d => Ok (cd_Key <$> find_rows (def_of orgID FieldEntityContact) None (fd_defs d))) ;;
  seed_fields orgID existing BuiltInFields.

(** ** References to an option in saved filters and rules *)

(** [jsonQuoted]. *)
Fixpoint escape_quotes (s : string) : string :=
  match s with
  | EmptyString => EmptyString
  | String c s => if Ascii.eqb c "034" || Ascii.eqb c "\" then String "\" (String c (escape_quotes s)) else String c (escape_quotes s)
  end.

Definition jsonQuoted (value : string) : string := quote (escape_quotes value).

(** [anyColumnLike]; a NULL column counts as the empty text. *)
Definition anyColumnLike (needle : string) (h : Holder) : bool :=
  existsb (fun c => LIKE (default "" c) needle) (ho_Columns h).

Definition around (s : string) : string := ("%" ++ s ++ "%")%string.

Definition holder_of (orgID : uuid) (h : Holder) : bool := N.eqb (ho_OrganizationID h) orgID && is_none (ho_DeletedAt h).

(** [Dependent]. *)
Record Dependent := MkDependent { dep_Kind : string; dep_Name : string; dep_ID : uuid }.

Definition Describe (d : Dependent) : string := (dep_Kind d ++ " " ++ quote (dep_Name d))%string.

Definition dependents (kind : string) (orgID : uuid) (needle : string) (table : FieldsDB -> gmap uuid Holder) : MF (list Dependent) :=
  rows <- query (fun d => Ok (find_rows (fun h => holder_of orgID h && anyColumnLike needle h) None (table d))) ;;
  ret ((fun h => MkDependent kind (ho_Name h) (ho_ID h)) <$> rows).

Definition FindDependents (orgID : uuid) (value : string) : MF (list Dependent) :=
  if is_empty (TrimSpace value) then ret []
  else
    let needle := around (jsonQuoted value) in
    segments <- dependents "segment" orgID needle fd_segments ;;
    rules <- dependents "automation" orgID needle fd_rules ;;
    ret (segments ++ rules).

Definition DescribeDependents (ds : list Dependent) : string :=
  let suffix := if Nat.ltb 5 (length ds) then (" and " ++ Itoa (Z.of_nat (length ds) - 5) ++ " more")%string else "" in
  (String.concat ", " (Describe <$> take 5 ds) ++ suffix)%string.

(** [CASE WHEN col IS NULL THEN NULL ELSE replace(col::text, from, to)::jsonb END] for every column. *)
Fixpoint rewrite_columns (from to : string) (cols : list (option string)) : option (list (option string)) :=
  match cols with
  | [] => Some []
  | c :: cols =>
      c' ← match c with None => Some None | Some t => t' ← jsonb (ReplaceAll t from to); Some (Some t') end;
      cols' ← rewrite_columns from to cols;
      Some (c' :: cols')
  end.

Definition rewrite_holder (from to : string) (h : Holder) : option Holder :=
  cols ← rewrite_columns from to (ho_Columns h); Some (set_ho_Columns cols h).

(** The statement fails when one of its rows does. *)
Definition rewrite_table (p : Holder -> bool) (f : Holder -> option Holder) (t : gmap uuid Holder) : res err (gmap uuid Holder) :=
  if forallb (fun kr => negb (p kr.2) || is_some (f kr.2)) (map_to_list t)
  then Ok ((fun h => if p h then default h (f h) else h) <$> t)
  else Err ErrDriver.

Definition names_value (orgID : uuid) (from mustContain : string) (h : Holder) : bool :=
  holder_of orgID h && anyColumnLike (around from) h &&
  (is_empty (TrimSpace mustContain) || anyColumnLike (around mustContain) h).

Definition rewrite_holders (p : Holder -> bool) (f : Holder -> option Holder) (table : FieldsDB -> gmap uuid Holder)
    (set_table : gmap uuid Holder -> FieldsDB -> FieldsDB) : MF unit :=
  stmt no_locks (fun d =>
    match rewrite_table p f (table d) with
    | Ok t => (Ok tt, set_table t d)
    | Err e => (Err e, d)
    end).

Definition RewriteConfigValueWithin (orgID : uuid) (oldValue newValue mustContain : string) : MF unit :=
  if String.eqb oldValue newValue || is_empty (TrimSpace oldValue) then ret tt
  else
    let from := jsonQuoted oldValue in
    let to := jsonQuoted newValue in
    let p := names_value orgID from mustContain in
    rewrite_holders p (rewrite_holder from to) fd_segments set_fd_segments ;;;
    rewrite_holders p (rewrite_holder from to) fd_rules set_fd_rules.

Definition RewriteConfigValue (orgID : uuid) (oldValue newValue : string) : MF unit :=
  RewriteConfigValueWithin orgID oldValue newValue "".

(** ** Editing definitions *)

(** The body of a request to create or edit a field. *)
Record contactFieldRequest := MkFieldRequest {
  rq_Key : string;
  rq_Label : string;
  rq_Description : string;
  rq_Type : string;
  rq_Options : option (list any);
  rq_Validation : option JSONB;
  rq_IsRequired : option bool;
  rq_ShowInList : option bool;
  rq_ShowInChatPanel : option bool;
  rq_GroupLabel : string;
  rq_Position : option Z;
  rq_Archived : option bool;
  rq_OptionRenames : list (string * string)
}.

Definition if_given {A B} (v : option A) (set : A -> B -> B) (b : B) : B := match v with Some a => set a b | None => b end.

Definition applyFieldFlags (t : time) (req : contactFieldRequest) (def : CustomFieldDefinition) : CustomFieldDefinition :=
  let def := if_given (rq_IsRequired req) set_cd_IsRequired def in
  let def := if_given (rq_ShowInList req) set_cd_ShowInList def in
  let def := if_given (rq_ShowInChatPanel req) set_cd_ShowInChatPanel def in
  let def := if_given (rq_Position req) set_cd_Position def in
  if_given (rq_Archived req) (fun b : bool => set_cd_ArchivedAt (if b then Some t else None)) def.

Definition invalid (def : CustomFieldDefinition) : MF unit :=
  match ValidateDefinition def with Some m => fail (ErrMsg m) | None => ret tt end.

(** The friendlier check in front of the unique index; its failure is ignored. *)
Definition key_is_free (orgID : uuid) (key : string) : MF unit :=
  r <- try (query (fun d => Ok (rows_affected
         (fun e => def_of orgID FieldEntityContact e && String.eqb (cd_Key e) key) (fd_defs d)))) ;;
  match r with
  | Ok (S _) => fail (ErrMsg "A field with this key already exists")
  | _ => ret tt
  end.

Definition CreateContactField (orgID userID : uuid) (req : contactFieldRequest) : MF CustomFieldDefinition :=
  id <- uuid_New ;;
  t <- now ;;
  let def := applyFieldFlags t req
    (MkDefinition id None orgID FieldEntityContact (rq_Key req) (rq_Label req) (rq_Description req) (rq_Type req)
       (default [] (rq_Options req)) (default [] (rq_Validation req)) None false false false true (rq_GroupLabel req) 0 None
       (Some userID) (Some userID)) in
  invalid def ;;;
  key_is_free orgID (cd_Key def) ;;;
  insert_def def.

(** [optionValue]: an option may still be a bare text. *)
Definition optionValue (o : any) : option string := match o with AString s => Some s | _ => option_value o end.

Definition optionValues (options : list any) : list string := omap optionValue options.

Definition removedOptions (before after : list any) : list string :=
  List.filter (fun v => negb (existsb (String.eqb v) (optionValues after))) (optionValues before).

Definition claimedRenames (claimed : list (string * string)) (before : list any) (after : option (list any)) : list (string * string) :=
  let existed := optionValues before in
  let offered := match after with Some options => optionValues options | None => existed end in
  List.filter (fun r => negb (String.eqb r.1 r.2 || is_empty r.1 || is_empty r.2) &&
    existsb (String.eqb r.1) existed && existsb (String.eqb r.2) offered) claimed.

Definition renamedAside (removed : list string) (renames : list (string * string)) : list string :=
  List.filter (fun v => negb (existsb (fun r => String.eqb r.1 v) renames)) removed.

(** [None]: not blocked.  A failed check blocks nothing. *)
Fixpoint optionsStillInUse (orgID : uuid) (removed : list string) : MF (option string) :=
  match removed with
  | [] => ret None
  | o :: removed =>
      r <- try (FindDependents orgID o) ;;
      match r with
      | Err _ => ret None
      | Ok [] => optionsStillInUse orgID removed
      | Ok ds => ret (Some ("The option " ++ quote o ++ " is still used by " ++ DescribeDependents ds)%string)
      end
  end.

Definition holds_option (orgID fieldID : uuid) (from : string) (r : CustomFieldValue) : bool :=
  N.eqb (fv_OrganizationID r) orgID && N.eqb (fv_FieldID r) fieldID && opt_eqb (fv_ValueOption r) (Some from).

(** [value_option] is a [varchar(100)]. *)
Definition rename_values (orgID fieldID : uuid) (from to : string) : MF unit :=
  stmt no_locks (fun d =>
    if Nat.ltb 100 (RuneCount to) && negb (Nat.eqb (rows_affected (holds_option orgID fieldID from) (fd_values d)) 0) then (Err ErrDriver, d)
    else (Ok tt, set_fd_values (update_where (holds_option orgID fieldID from) [set_fv_ValueOption (Some to)] (fd_values d)) d)).

Fixpoint applyOptionRenames (orgID : uuid) (def : CustomFieldDefinition) (renames : list (string * string)) : MF unit :=
  match renames with
  | [] => ret tt
  | (from, to) :: renames =>
      rename_values orgID (cd_ID def) from to ;;;
      RewriteConfigValueWithin orgID from to ("field." ++ cd_Key def) ;;;
      applyOptionRenames orgID def renames
  end.

Definition def_in (id orgID : uuid) (d : CustomFieldDefinition) : bool :=
  N.eqb (cd_ID d) id && N.eqb (cd_OrganizationID d) orgID && live_def d.

Definition find_def (id orgID : uuid) : MF CustomFieldDefinition :=
  r <- try (query (fun d => first_row (def_in id orgID) unordered (fd_defs d))) ;;
  match r with Ok def => ret def | Err _ => fail (ErrMsg "Contact field not found") end.

(** The edit without the options, then the guard on the options it removes. *)
Definition edited (req : contactFieldRequest) (def : CustomFieldDefinition) : CustomFieldDefinition :=
  let def := if is_empty (rq_Label req) then def else set_cd_Label (rq_Label req) def in
  set_cd_GroupLabel (rq_GroupLabel req) (set_cd_Description (rq_Description req) def).

Definition options_guard (orgID : uuid) (force : bool) (removed : list string) : MF unit :=
  match removed with
  | [] => ret tt
  | _ =>
      if force then ret tt
      else blocked <- optionsStillInUse orgID removed ;;
           match blocked with Some msg => fail (ErrMsg msg) | None => ret tt end
  end.

Definition UpdateContactField (orgID userID id : uuid) (force : bool) (req : contactFieldRequest) : MF CustomFieldDefinition :=
  def <- find_def id orgID ;;
  if negb (is_empty (rq_Key req)) && negb (String.eqb (rq_Key req) (cd_Key def)) then
    fail (ErrMsg "A field key cannot be changed; filters and templates refer to it")
  else if negb (is_empty (rq_Type req)) && negb (String.eqb (rq_Type req) (cd_Type def)) then
    fail (ErrMsg "A field type cannot be changed; existing values could not be converted safely")
  else
    let renames := claimedRenames (rq_OptionRenames req) (cd_Options def) (rq_Options req) in
    match rq_Options req with
    | Some options => options_guard orgID force (renamedAside (removedOptions (cd_Options def) options) renames)
    | None => ret tt
    end ;;;
    t <- now ;;
    let def := if_given (rq_Options req) set_cd_Options (edited req def) in
    let def := set_cd_UpdatedByID (Some userID) (applyFieldFlags t req (if_given (rq_Validation req) set_cd_Validation def)) in
    invalid def ;;;
    transaction (save_def def ;;; applyOptionRenames orgID def renames) ;;;
    ret def.

Definition DeleteContactField (orgID id : uuid) : MF unit :=
  def <- find_def id orgID ;;
  if cd_IsSystem def then
    fail (ErrMsg "Built-in fields cannot be deleted. Archive the field instead to hide it while keeping its values.")
  else
    transaction (
      delete_values (fun r => N.eqb (fv_OrganizationID r) orgID && N.eqb (fv_FieldID r) (cd_ID def)) ;;;
      t <- now ;;
      update_defs (fun d => N.eqb (cd_ID d) (cd_ID def) && live_def d) [set_cd_DeletedAt (Some t)]).

Fixpoint reorder_fields (orgID userID : uuid) (i : Z) (ids : list uuid) : MF unit :=
  match ids with
  | [] => ret tt
  | id :: ids =>
      update_defs (fun d => N.eqb (cd_ID d) id && def_of orgID FieldEntityContact d)
        [set_cd_Position ((i + 1) * 10); set_cd_UpdatedByID (Some userID)] ;;;
      reorder_fields orgID userID (i + 1) ids
  end.

Definition ReorderContactFields (orgID userID : uuid) (ids : list uuid) : MF unit :=
  match ids with
  | [] => fail (ErrMsg "ids is required")
  | _ => transaction (reorder_fields orgID userID 0 ids)
  end.

(** ** Promoting a metadata key *)

(** The loop that collapses doubled underscores, and [strings.Trim(_, "_")]. *)
Fixpoint collapse (fuel : nat) (key : string) : string :=
  match fuel with
  | O => key
  | S fuel => if Contains key "__" then collapse fuel (ReplaceAll key "__" "_") else key
  end.

Fixpoint drop_char (c : ascii) (l : list ascii) : list ascii :=
  match l with d :: r => if Ascii.eqb d c then drop_char c r else l | [] => [] end.

Definition Trim (c : ascii) (l : list ascii) : list ascii := reverse (drop_char c (reverse (drop_char c l))).

Definition slug_char (c : ascii) : option ascii :=
  if is_lower c || is_digit c then Some c
  else if Ascii.eqb c " " || Ascii.eqb c "-" || Ascii.eqb c "_" then Some "_"%char else None.

Definition slugifyKey (label : string) (maxLen : nat) : string :=
  let key := string_of_list_ascii (Trim "_" (omap slug_char (list_ascii_of_string (ToLower (TrimSpace label))))) in
  let key := collapse (String.length key) key in
  let key := match key with
             | String c _ => if is_lower c then key else ("t_" ++ key)%string
             | EmptyString => key
             end in
  string_of_list_ascii (take maxLen (list_ascii_of_string key)).

(** The body of the request. *)
Record PromoteMetadataRequest := MkPromote {
  pm_MetadataKey : string;
  pm_Key : string;
  pm_Label : string;
  pm_Type : string;
  pm_GroupLabel : string;
  pm_ShowInList : bool
}.

Definition or_else (s fallback : string) : string := if is_empty s then fallback else s.

(** [metadata ->> key]. *)
Definition metadata_text (key : string) (c : ContactMeta) : option string :=
  match index (cm_Metadata c) key with
  | None | Some ANil => None
  | Some (AString s) => Some s
  | Some v => Some (json_column_text v)
  end.

Definition has_metadata (orgID : uuid) (key : string) (c : ContactMeta) : bool :=
  N.eqb (cm_OrganizationID c) orgID && is_none (cm_DeletedAt c) && is_some (metadata_text key c).

(** The loop: how many values were promoted and how many skipped. *)
Fixpoint promote (orgID userID : uuid) (key metadataKey : string) (rows : list ContactMeta) (promoted skipped : Z) : MF (Z * Z) :=
  match rows with
  | [] => ret (promoted, skipped)
  | row :: rows =>
      let text := default "" (metadata_text metadataKey row) in
      if is_empty (TrimSpace text) then promote orgID userID key metadataKey rows promoted (skipped + 1)
      else
        r <- try (SetValues orgID (cm_ID row) FieldEntityContact [(key, RawAny (AString text))] (Some userID)) ;;
        match r with
        | Err _ => promote orgID userID key metadataKey rows promoted (skipped + 1)
        | Ok _ => promote orgID userID key metadataKey rows (promoted + 1) skipped
        end
  end.

Definition PromoteMetadata (orgID userID : uuid) (req : PromoteMetadataRequest) : MF (CustomFieldDefinition * Z * Z) :=
  let metadataKey := TrimSpace (pm_MetadataKey req) in
  if is_empty metadataKey then fail (ErrMsg "metadata_key is required")
  else
    id <- uuid_New ;;
    let def := MkDefinition id None orgID FieldEntityContact (or_else (pm_Key req) (slugifyKey metadataKey 64))
      (or_else (pm_Label req) metadataKey) "" (or_else (pm_Type req) FieldTypeText) [] [] None false false
      (pm_ShowInList req) true (pm_GroupLabel req) 0 None (Some userID) (Some userID) in
    invalid def ;;;
    key_is_free orgID (cd_Key def) ;;;
    rows <- query (fun d => Ok (find_rows (has_metadata orgID metadataKey) None (fd_contacts d))) ;;
    r <- transaction (insert_def def ;;; promote orgID userID (cd_Key def) metadataKey rows 0 0) ;;
    ret (def, r.1, r.2).
End Service.
