(* ===== verification/FieldsProps.v ===== *)
(** * Correctness of custom fields

    [fields_consistent] is the invariant of the two tables: a value belongs to
    a live definition of its organization, has exactly the column of the
    definition's type, and is the only one in its slot. *)
From S2P Require Import Prelude GoLib Text Store Events Models Statements Fields FieldService.

(** A value of a definition. *)
Definition belongs (def : CustomFieldDefinition) (r : CustomFieldValue) : Prop :=
  live_def def = true /\ cd_OrganizationID def = fv_OrganizationID r /\ cd_EntityType def = fv_EntityType r /\
  of_type (cd_Type def) (columns r).

Record fields_consistent (d : FieldsDB) : Prop := {
  fc_defs : keyed cd_ID (fd_defs d);
  fc_values : keyed fv_ID (fd_values d);
  fc_types : forall k def, fd_defs d !! k = Some def -> ValidType (cd_Type def) = true;
  fc_typed : forall k r, fd_values d !! k = Some r -> exists def, fd_defs d !! fv_FieldID r = Some def /\ belongs def r;
  fc_slots : forall k1 k2 r1 r2, fd_values d !! k1 = Some r1 -> fd_values d !! k2 = Some r2 -> same_slot r1 r2 = true -> k1 = k2;
  fc_keys : forall k1 k2 d1 d2, fd_defs d !! k1 = Some d1 -> fd_defs d !! k2 = Some d2 ->
    live_def d1 = true -> same_key d1 d2 = true -> k1 = k2
}.

(** ** Columns *)

Lemma columns_Apply v r : columns (Apply v r) = v.
Proof. by destruct v. Qed.

Lemma same_slot_spec a b :
  same_slot a b = true <-> fv_EntityType b = fv_EntityType a /\ fv_EntityID b = fv_EntityID a /\ fv_FieldID b = fv_FieldID a.
Proof. unfold same_slot. rewrite !andb_true_iff, String.eqb_eq, !N.eqb_eq. tauto. Qed.

Lemma def_of_spec orgID et d :
  def_of orgID et d = true <-> cd_OrganizationID d = orgID /\ cd_EntityType d = et /\ live_def d = true.
Proof. unfold def_of. rewrite !andb_true_iff, String.eqb_eq, N.eqb_eq. tauto. Qed.

Lemma same_key_spec d e :
  same_key d e = true <-> cd_OrganizationID e = cd_OrganizationID d /\ cd_EntityType e = cd_EntityType d /\
    live_def e = true /\ cd_Key e = cd_Key d.
Proof. unfold same_key. rewrite andb_true_iff, def_of_spec, String.eqb_eq. tauto. Qed.

(** A typed value is not empty. *)
Lemma of_type_not_empty t v : of_type t v -> IsEmpty v = false.
Proof. unfold of_type. repeat case_match; by intros [? ->]. Qed.

(** Renaming an option keeps the column. *)
Lemma of_type_renamed t r from to :
  of_type t (columns r) -> fv_ValueOption r = Some from -> of_type t (columns (set_fv_ValueOption (Some to) r)).
Proof.
  destruct r as [i o et e f vt vn vd vo u a]. unfold of_type, columns. simpl.
  repeat case_match; intros [? Hv] Ho; simplify_eq; unfold number_value, date_value, option_of, text_value in *; simplify_eq; eauto.
Qed.

Section Invariant.
Context `{SL : SqlLaws} `{FS : FieldsServer} `{!GoFmtLaws} `{!FieldsServerLaws}.

Lemma as_stored_of_type t v v' : of_type t v -> as_stored v = Some v' -> of_type t v'.
Proof.
  intros Hv Hs. pose proof (stored_texts _ _ Hs) as (Ht & Hd & Ho). pose proof (stored_number _ _ Hs) as Hn.
  destruct v' as [vt vn vd vo]. unfold of_type in *. simpl in *.
  repeat case_match; destruct Hv as [x ->]; simpl in *; subst; destruct vn; try done; eauto.
Qed.

(** ** Writing a value *)

(** A row whose slot is filed under its definition. *)
Lemma upserted_consistent d row def t :
  fields_consistent d -> fd_defs d !! fv_FieldID row = Some def -> belongs def row ->
  upserted row (fd_values d) = Ok t -> fields_consistent (set_fd_values t d).
Proof.
  intros [Hdefs Hvals Htypes Htyped Hslots Hkeys] Hdef Hb. unfold upserted. destruct (Nat.eqb_spec (rows_affected (same_slot row) (fd_values d)) 0) as [Hz|Hnz].
  - destruct (fd_values d !! fv_ID row) eqn:Efresh; [done|]. intros [= <-].
    pose proof (proj1 (rows_affected_zero _ _) Hz) as Hno. split; simpl; [done|by apply keyed_insert|done| | |done].
    + intros k r [[<- <-]|[_ Hr]]%lookup_insert_Some; [by exists def|by apply (Htyped k)].
    + intros k1 k2 r1 r2 [[<- <-]|[Hk1 Hr1]]%lookup_insert_Some [[<- <-]|[Hk2 Hr2]]%lookup_insert_Some Hsame; [done|..].
      * by rewrite (Hno _ _ Hr2) in Hsame.
      * exfalso. assert (same_slot row r1 = true) as Hs by (rewrite same_slot_spec in *; naive_solver). by rewrite (Hno _ _ Hr1) in Hs.
      * by apply (Hslots k1 k2 r1 r2).
  - intros [= <-]. set (us := [Apply (columns row); _; _]).
    assert (forall r, fv_ID (apply_updates us r) = fv_ID r /\ fv_OrganizationID (apply_updates us r) = fv_OrganizationID r /\
      fv_EntityType (apply_updates us r) = fv_EntityType r /\ fv_EntityID (apply_updates us r) = fv_EntityID r /\
      fv_FieldID (apply_updates us r) = fv_FieldID r /\ columns (apply_updates us r) = columns row) as Hus by done.
    split; simpl; [done|by apply keyed_update|done| | |done].
    + intros k r Hr. rewrite update_where_lookup in Hr. destruct (fd_values d !! k) as [r0|] eqn:Er; [|done]. injection Hr as <-.
      destruct (Htyped k r0 Er) as (def0 & Hdef0 & Hl & Horg & Het & Hty). destruct (same_slot row r0) eqn:Es; [|by exists def0].
      apply same_slot_spec in Es as (_ & _ & Ef). destruct (Hus r0) as (_ & Eo & Ee & _ & EF & Ec). rewrite EF, Ef in *.
      exists def. split; [done|]. assert (def0 = def) as -> by congruence. unfold belongs. rewrite Eo, Ee, Ec. destruct Hb as (_ & _ & _ & Hb). done.
    + intros k1 k2 r1 r2 Hr1 Hr2 Hsame. rewrite update_where_lookup in Hr1, Hr2.
      destruct (fd_values d !! k1) as [q1|] eqn:E1; [|done]. destruct (fd_values d !! k2) as [q2|] eqn:E2; [|done].
      injection Hr1 as <-. injection Hr2 as <-. apply (Hslots k1 k2 q1 q2 E1 E2). rewrite same_slot_spec in Hsame |- *.
      by destruct (same_slot row q1), (same_slot row q2).
Qed.

(** Removing values keeps the invariant. *)
Lemma filter_values_consistent d p :
  fields_consistent d -> fields_consistent (set_fd_values (filter (fun kr => negb (p kr.2)) (fd_values d)) d).
Proof.
  intros [Hdefs Hvals Htypes Htyped Hslots Hkeys]. split; simpl; [done| |done| | |done].
  - intros k r [Hr _]%map_lookup_filter_Some. by apply Hvals.
  - intros k r [Hr _]%map_lookup_filter_Some. by apply (Htyped k).
  - intros k1 k2 r1 r2 [Hr1 _]%map_lookup_filter_Some [Hr2 _]%map_lookup_filter_Some. by apply Hslots.
Qed.

(** The definitions a service call read, still there. *)
Definition known (orgID : uuid) (entityType : string) (defs : gmap string CustomFieldDefinition) (d : FieldsDB) : Prop :=
  forall key def, defs !! key = Some def -> fd_defs d !! cd_ID def = Some def /\ def_of orgID entityType def = true /\ cd_Key def = key.

Lemma index_by_lookup {K A} `{Countable K} (key : A -> K) l k a : index_by key l !! k = Some a -> a ∈ l /\ key a = k.
Proof.
  unfold index_by. assert (forall m : gmap K A, (forall k a, m !! k = Some a -> key a = k) ->
    fold_left (fun out a => <[key a := a]> out) l m !! k = Some a -> (a ∈ l \/ m !! k = Some a) /\ key a = k) as Hgen.
  { induction l as [|x l IH]; simpl; intros m Hm Hk; [split; [by right|by apply Hm]|].
    apply IH in Hk as [[Hin|Hk] Hkey].
    - split; [left; by right|done].
    - split; [|done]. apply lookup_insert_Some in Hk as [[_ <-]|[_ Hk]]; [left; by left|by right].
    - intros k' a' [[<- <-]|[_ Ha]]%lookup_insert_Some; [done|by apply Hm]. }
  intros Hk. apply Hgen in Hk as [[?|Hk] ?]; [done|by rewrite lookup_empty in Hk|]. intros ? ?. by rewrite lookup_empty.
Qed.

Definition consistent_with (orgID : uuid) (entityType : string) (defs : gmap string CustomFieldDefinition) (d : FieldsDB) : Prop :=
  fields_consistent d /\ known orgID entityType defs d.

Lemma Definitions_read orgID entityType d l :
  fields_consistent d -> l = sort_by by_position_label (find_rows (def_of orgID (entityTypeOrContact entityType)) None (fd_defs d)) ->
  known orgID (entityTypeOrContact entityType) (index_by cd_Key l) d.
Proof.
  intros Hc -> key def [Hin <-]%index_by_lookup. apply elem_of_sort_by, find_rows_elem in Hin as (k & Hk & Hp).
  by rewrite (fc_defs _ Hc _ _ Hk).
Qed.

Lemma set_value_consistent orgID entityID et actorID defs current key value :
  moves (keeps (consistent_with orgID (entityTypeOrContact et) defs)) (set_value orgID entityID et actorID defs current key value).
Proof.
  unfold set_value. solve_moves.
  - apply moves_stmt; [typeclasses eauto|]. intros d a' d' [= _ <-] [Hc Hk]. split; [apply (filter_values_consistent d (fun r => N.eqb (fv_ID r) _) Hc)|exact Hk].
  - apply moves_stmt; [typeclasses eauto|]. intros d [] d' Hrun [Hc Hk]. rewrite columns_Apply in Hrun.
    destruct (as_stored _) as [v'|] eqn:Es; [|done]. destruct (upserted _ _) as [t'|] eqn:Eu; [|done]. injection Hrun as <-.
    rename c into def, a into v, Heqo into Ed, Heqr into Ec.
    split; [|exact Hk]. destruct (Hk key def Ed) as (Hdef & (Horg & Het & Hlive)%def_of_spec & _).
    refine (upserted_consistent d _ def t' Hc _ _ Eu); [exact Hdef|]. split_and!; [done|done|done|].
    rewrite columns_Apply. apply (as_stored_of_type _ v); [|exact Es].
    by destruct (Coerce_of_type _ _ _ Ec) as [->|Hty].
Qed.

Lemma set_values_consistent orgID entityID et actorID defs current values :
  moves (keeps (consistent_with orgID (entityTypeOrContact et) defs)) (set_values orgID entityID et actorID defs current values).
Proof.
  induction values as [|[key value] values IH]; simpl; solve_moves. apply set_value_consistent.
Qed.

(** [DefinitionsByKey] returns definitions of the tables. *)
Lemma DefinitionsByKey_known orgID et :
  triple fields_consistent (DefinitionsByKey orgID et)
    (on_ok fields_consistent (consistent_with orgID (entityTypeOrContact et))).
Proof.
  unfold DefinitionsByKey, Definitions. 
  set (read := fun d : FieldsDB => sort_by by_position_label (find_rows (def_of orgID (entityTypeOrContact et)) None (fd_defs d))).
  apply (triple_bind _ (fun l d => fields_consistent d /\ l = read d)).
  - apply triple_query; [|done]. by intros d l Hd [= <-].
  - intros l. apply triple_ret. intros d [Hc ->]. split; [done|]. by apply Definitions_read.
Qed.

Lemma SetValues_consistent orgID entityID et values actorID :
  triple fields_consistent (SetValues orgID entityID et values actorID) (fun _ => fields_consistent).
Proof.
  unfold SetValues. destruct values as [|p values]; [by apply triple_ret|].
  apply (triple_bind _ (consistent_with orgID (entityTypeOrContact et))); [apply DefinitionsByKey_known|].
  intros defs. apply (triple_conseq _ (consistent_with orgID (entityTypeOrContact et) defs) _ _
    (fun _ => consistent_with orgID (entityTypeOrContact et) defs)); [|done|by intros r d [? _]].
  apply triple_keeps. solve_moves. apply set_values_consistent.
Qed.

(** ** Writing a definition *)

(** Only the settings of a definition may change while it is live. *)
Definition same_identity (a b : CustomFieldDefinition) : Prop :=
  cd_ID a = cd_ID b /\ cd_OrganizationID a = cd_OrganizationID b /\ cd_EntityType a = cd_EntityType b /\
  cd_Key a = cd_Key b /\ cd_Type a = cd_Type b.

Lemma put_def_consistent d def d' u :
  fields_consistent d -> ValidType (cd_Type def) = true -> live_def def = true ->
  (forall old, fd_defs d !! cd_ID def = Some old -> live_def old = true -> same_identity old def) ->
  put_def def d = (Ok u, d') -> fields_consistent d' /\ fd_defs d' !! cd_ID def = Some def.
Proof.
  intros [Hdefs Hvals Htypes Htyped Hslots Hkeys] Ht Hl Hold. unfold put_def. destruct (negb (def_fits def)); [done|].
  destruct (key_taken def (fd_defs d)) eqn:Ek; [done|]. intros [= _ <-]. split; [|apply lookup_insert_eq].
  unfold key_taken in Ek. rewrite Hl, andb_true_l in Ek. apply negb_false_iff in Ek.
  pose proof (proj1 (no_other_spec _ _ _) Ek) as Hfree. split; simpl; [by apply keyed_insert|done| | |done|].
  - intros k x [[<- <-]|[_ Hx]]%lookup_insert_Some; [done|by apply (Htypes k)].
  - intros k r Hr. destruct (Htyped k r Hr) as (def0 & Hdef0 & Hl0 & Horg & Het & Hty).
    destruct (decide (fv_FieldID r = cd_ID def)) as [E|Hne].
    + rewrite E in *. destruct (Hold def0 Hdef0 Hl0) as (_ & Eo & Ee & _ & Et). exists def.
      rewrite lookup_insert_eq. unfold belongs. rewrite <- Eo, <- Ee, <- Et. done.
    + exists def0. by rewrite lookup_insert_ne by done.
  - intros k1 k2 d1 d2 [[<- <-]|[Hk1 Hd1]]%lookup_insert_Some [[<- <-]|[Hk2 Hd2]]%lookup_insert_Some Hl1 Hs; [done|..].
    + by rewrite (Hfree k2 d2 Hd2 ltac:(done)) in Hs.
    + exfalso. assert (same_key def d1 = true) as Hs' by (rewrite same_key_spec in *; naive_solver).
      by rewrite (Hfree k1 d1 Hd1 ltac:(done)) in Hs'.
    + by apply (Hkeys k1 k2 d1 d2).
Qed.

Lemma insert_def_consistent def :
  ValidType (cd_Type def) = true -> live_def def = true ->
  triple fields_consistent (insert_def def) (fun _ => fields_consistent).
Proof.
  intros Ht Hl. apply triple_stmt; [|done]. intros d u d' Hc. cbn [def_defaults set_cd_ShowInChatPanel cd_ID].
  destruct (fd_defs d !! cd_ID def) eqn:E; [done|].
  simpl. destruct (put_def (def_defaults def) d) as [[[]|e] d1] eqn:Hp; [|done]. intros [= _ <-].
  eapply (put_def_consistent _ (def_defaults def)); [done..| |exact Hp]. simpl. intros old Hold. congruence.
Qed.

(** The definition a call works on is live in the tables. *)
Definition holds_def (old : CustomFieldDefinition) (d : FieldsDB) : Prop :=
  fields_consistent d /\ fd_defs d !! cd_ID old = Some old /\ live_def old = true.

Lemma save_def_consistent old def :
  same_identity old def -> live_def def = true ->
  triple (holds_def old) (save_def def) (on_ok fields_consistent (fun _ => holds_def def)).
Proof.
  intros Hsame Hl. apply (triple_bind _ (fun n d => n = 1 /\ holds_def def d)).
  - apply triple_stmt; [|by intros e d [? _]]. intros d n d' (Hc & Hold & Hlo). destruct Hsame as (Ei & Esame).
    rewrite <- Ei, Hold, Hlo. destruct (put_def def d) as [[[]|e] d1] eqn:Ep; [|done]. intros [= <- <-]. split; [done|].
    pose proof (fc_types _ Hc _ _ Hold) as Ht. destruct Esame as (Eo & Ee & Ek & Et).
    destruct (put_def_consistent d def d1 tt Hc) as [? ?]; [congruence|done| |done|by split_and!].
    intros x Hx _. assert (x = old) as -> by congruence. by split_and!.
  - intros n w r w' [-> Hp] E. simpl in E. injection E as <- <-. exact Hp.
Qed.

(** A definition loses nothing it is identified by. *)
Lemma update_defs_consistent d p us :
  (forall x, same_identity x (apply_updates us x) /\ live_def (apply_updates us x) = live_def x) ->
  fields_consistent d -> fields_consistent (set_fd_defs (update_where p us (fd_defs d)) d).
Proof.
  intros Hus [Hdefs Hvals Htypes Htyped Hslots Hkeys].
  assert (forall k x, update_where p us (fd_defs d) !! k = Some x ->
    exists y, fd_defs d !! k = Some y /\ same_identity y x /\ live_def x = live_def y) as Hup.
  { intros k x Hx. rewrite update_where_lookup in Hx. destruct (fd_defs d !! k) as [y|]; [|done]. injection Hx as <-.
    exists y. split; [done|]. destruct (p y); [apply Hus|by split_and!]. }
  split; simpl; [|done| | |done|].
  - intros k x (y & Hy & (E & _) & _)%Hup. rewrite <- E. by apply Hdefs.
  - intros k x (y & Hy & (_ & _ & _ & _ & E) & _)%Hup. rewrite <- E. by apply (Htypes k).
  - intros k r Hr. destruct (Htyped k r Hr) as (def & Hdef & Hl & Ho & He & Ht).
    exists (if p def then apply_updates us def else def). rewrite update_where_lookup, Hdef. split; [done|].
    destruct (p def); [|by split_and!]. destruct (Hus def) as [(_ & Eo & Ee & _ & Et) El]. unfold belongs. by rewrite El, <- Eo, <- Ee, <- Et.
  - intros k1 k2 d1 d2 (y1 & Hy1 & S1 & L1)%Hup (y2 & Hy2 & S2 & L2)%Hup Hl Hs. apply (Hkeys k1 k2 y1 y2 Hy1 Hy2); [congruence|].
    destruct S1 as (_ & A1 & B1 & C1 & _), S2 as (_ & A2 & B2 & C2 & _). rewrite same_key_spec in *. rewrite A1, B1, C1, A2, B2, C2, <- L2. done.
Qed.

(** Renaming an option of the values of a field. *)
Lemma rename_values_consistent d orgID fieldID from to :
  fields_consistent d ->
  fields_consistent (set_fd_values (update_where (holds_option orgID fieldID from) [set_fv_ValueOption (Some to)] (fd_values d)) d).
Proof.
  intros [Hdefs Hvals Htypes Htyped Hslots Hkeys]. split; simpl; [done|by apply keyed_update|done| | |done].
  - intros k r Hr. rewrite update_where_lookup in Hr. destruct (fd_values d !! k) as [q|] eqn:Eq; [|done]. injection Hr as <-.
    destruct (Htyped k q Eq) as (def & Hdef & Hl & Ho & He & Ht). destruct (holds_option orgID fieldID from q) eqn:Eh; [|exists def; by split_and!].
    exists def. split; [done|]. split_and!; [done..|]. unfold holds_option in Eh. apply andb_true_iff in Eh as [_ Eh%opt_eqb_eq].
    by apply of_type_renamed with from.
  - intros k1 k2 r1 r2 Hr1 Hr2 Hs. rewrite update_where_lookup in Hr1, Hr2.
    destruct (fd_values d !! k1) as [q1|] eqn:E1; [|done]. destruct (fd_values d !! k2) as [q2|] eqn:E2; [|done].
    injection Hr1 as <-. injection Hr2 as <-. apply (Hslots k1 k2 q1 q2 E1 E2). rewrite same_slot_spec in Hs |- *.
    by destruct (holds_option orgID fieldID from q1), (holds_option orgID fieldID from q2).
Qed.

(** Saved filters and rules are other tables. *)
Lemma consistent_ext d d' :
  fd_defs d' = fd_defs d -> fd_values d' = fd_values d -> fields_consistent d -> fields_consistent d'.
Proof. destruct d as [de va se ru co], d' as [de' va' se' ru' co']. simpl. intros -> -> []. by split. Qed.

Lemma rewrite_holders_consistent p f table set_table :
  (forall t d, fd_defs (set_table t d) = fd_defs d /\ fd_values (set_table t d) = fd_values d) ->
  moves (keeps fields_consistent) (rewrite_holders p f table set_table).
Proof.
  intros Hset. apply moves_stmt; [typeclasses eauto|]. intros d a d'. destruct (rewrite_table _ _ _) as [t|]; [|done].
  intros [= _ <-] Hc. destruct (Hset t d). by apply (consistent_ext d).
Qed.

Lemma RewriteConfigValueWithin_consistent orgID old new within :
  moves (keeps fields_consistent) (RewriteConfigValueWithin orgID old new within).
Proof. unfold RewriteConfigValueWithin. solve_moves; by apply rewrite_holders_consistent. Qed.

Lemma applyOptionRenames_consistent orgID def renames :
  moves (keeps fields_consistent) (applyOptionRenames orgID def renames).
Proof.
  induction renames as [|[from to] renames IH]; simpl; solve_moves; [|apply RewriteConfigValueWithin_consistent].
  apply moves_stmt; [typeclasses eauto|]. intros d a d'. destruct (_ && _); [done|]. intros [= _ <-]. intros Hd. by apply rename_values_consistent.
Qed.

(** ** The endpoints *)

Lemma reads_consistent {A} (m : MF A) : reads m -> moves (keeps fields_consistent) m.
Proof. intros Hm w r w' E Hc. by rewrite <- (Hm _ _ _ E). Qed.

Lemma invalid_reads def : reads (invalid def).
Proof. unfold invalid. solve_moves. Qed.

Lemma key_is_free_reads orgID key : reads (key_is_free orgID key).
Proof. unfold key_is_free. solve_moves. Qed.

Lemma FindDependents_reads orgID value : reads (FindDependents orgID value).
Proof. unfold FindDependents, dependents. solve_moves. Qed.

Lemma optionsStillInUse_reads orgID removed : reads (optionsStillInUse orgID removed).
Proof. induction removed as [|o removed IH]; simpl; solve_moves; apply FindDependents_reads. Qed.

Lemma options_guard_reads orgID force removed : reads (options_guard orgID force removed).
Proof. unfold options_guard. solve_moves. apply optionsStillInUse_reads. Qed.

(** What passed the check has a type the package knows. *)
Lemma ValidateDefinition_type def : ValidateDefinition def = None -> ValidType (cd_Type def) = true.
Proof. unfold ValidateDefinition. destruct (negb _); [done|]. destruct (is_empty _); [done|]. by destruct (ValidType _). Qed.

Lemma after_invalid {A} I def (k : MF A) (Q : res err A -> FieldsDB -> Prop) :
  (ValidateDefinition def = None -> triple I k Q) -> (forall e d, I d -> Q (Err e) d) -> triple I (invalid def ;;; k) Q.
Proof.
  intros Hk He. unfold invalid. destruct (ValidateDefinition def) as [m|] eqn:E.
  - intros w r w' Hi [= <- <-]. by apply He.
  - intros w r w' Hi Hrun. by apply (Hk eq_refl w r w' Hi).
Qed.

Lemma CreateContactField_consistent orgID userID req :
  triple fields_consistent (CreateContactField orgID userID req) (fun _ => fields_consistent).
Proof.
  unfold CreateContactField. apply triple_then; [apply triple_keeps; solve_moves|done|intros id].
  apply triple_then; [apply triple_keeps; solve_moves|done|intros t]. apply after_invalid; [intros Hv|done].
  apply triple_then; [apply triple_keeps, reads_consistent, key_is_free_reads|done|intros _].
  apply insert_def_consistent; [by apply ValidateDefinition_type|].
  unfold applyFieldFlags, if_given. by repeat case_match.
Qed.

Lemma find_def_live id orgID :
  triple fields_consistent (find_def id orgID) (on_ok fields_consistent (fun def d => holds_def def d /\ cd_OrganizationID def = orgID)).
Proof.
  unfold find_def. apply (triple_bind _ (fun r d => fields_consistent d /\ r = first_row (def_in id orgID) unordered (fd_defs d) \/
      fields_consistent d /\ exists e, r = Err e)).
  - apply triple_try, triple_stmt; [|by eauto]. intros d a d' Hc [= E <-]. left. by rewrite E.
  - intros [def|e]; [|by apply triple_fail; intros d [[? _]|[? _]]]. apply triple_ret. intros d [[Hc E]|[_ [e E]]]; [|done].
    symmetry in E. apply first_row_ok in E as (k & Hk & Hp). unfold def_in in Hp.
    apply andb_true_iff in Hp as [[_ Ho%N.eqb_eq]%andb_true_iff Hl]. split; [|done]. split_and!; [done| |done].
    by rewrite (fc_defs _ Hc _ _ Hk).
Qed.

(** What an edit keeps. *)
Lemma edited_identity req def t userID :
  let def' := set_cd_UpdatedByID userID (applyFieldFlags t req (if_given (rq_Validation req) set_cd_Validation
                (if_given (rq_Options req) set_cd_Options (edited req def)))) in
  same_identity def def' /\ live_def def' = live_def def.
Proof. cbv zeta. unfold applyFieldFlags, if_given, edited. repeat case_match; by split_and!. Qed.

Lemma UpdateContactField_consistent orgID userID id force req :
  triple fields_consistent (UpdateContactField orgID userID id force req) (fun _ => fields_consistent).
Proof.
  unfold UpdateContactField. apply (triple_bind _ holds_def).
  { eapply triple_conseq; [apply find_def_live|done|]. intros [def|e] d; [by intros [? _]|done]. }
  intros def. assert (forall (e : err) d, holds_def def d -> fields_consistent d) as Hweak by (by intros e d (? & _)).
  destruct (_ && _); [apply triple_fail; apply Hweak; exact (ErrMsg "")|].
  destruct (_ && _); [apply triple_fail; apply Hweak; exact (ErrMsg "")|]. cbv zeta.
  apply triple_then; [|exact Hweak|intros _].
  { apply triple_reads. destruct (rq_Options req); [apply options_guard_reads|apply moves_ret; typeclasses eauto]. }
  apply triple_then; [apply triple_reads; solve_moves|exact Hweak|intros t]. apply after_invalid; [intros _|exact Hweak].
  destruct (edited_identity req def t (Some userID)) as [Hsame Hl]. cbv zeta in Hsame, Hl. set (def' := set_cd_UpdatedByID _ _) in *.
  apply (triple_bind _ (fun _ => fields_consistent)); [|intros _; by apply triple_ret].
  eapply triple_conseq; [apply (triple_transaction (holds_def def) _ (fun _ => fields_consistent))|done|].
  - apply (triple_assume _ (live_def def = true)); [by intros d (_ & _ & ?)|intros Hlo]. rewrite Hlo in Hl.
    apply (triple_bind _ (fun _ => holds_def def')).
    + eapply triple_conseq; [by apply save_def_consistent|done|]. by intros [u|e] d.
    + intros _. eapply triple_conseq; [apply triple_keeps, applyOptionRenames_consistent|by intros d (? & _)|]. by intros [u|e] d.
  - intros [u|e] d Hd; [exact Hd|]. by destruct Hd.
Qed.

(** A value of a deleted definition would have nothing to render it. *)
Lemma DeleteContactField_consistent orgID id :
  triple fields_consistent (DeleteContactField orgID id) (fun _ => fields_consistent).
Proof.
  unfold DeleteContactField. apply (triple_bind _ (fun def d => holds_def def d /\ cd_OrganizationID def = orgID)).
  { eapply triple_conseq; [apply find_def_live|done|]. by intros [def|e] d. }
  intros def. destruct (cd_IsSystem def); [by apply triple_fail; intros d [[? _] _]|].
  eapply triple_conseq; [apply (triple_transaction (fun d => holds_def def d /\ cd_OrganizationID def = orgID) _ (fun _ => fields_consistent))
    |done|intros [u|e] d; [done|by intros [[? _] _]]].
  apply (triple_bind _ (fun _ d => fields_consistent d /\ forall k r, fd_values d !! k = Some r -> fv_FieldID r <> cd_ID def)).
  - apply triple_stmt; [|done]. intros d u d' [(Hc & Hdef & Hl) Ho] [= _ <-].
    split; [apply (filter_values_consistent d (fun r => N.eqb (fv_OrganizationID r) orgID && N.eqb (fv_FieldID r) (cd_ID def)) Hc)|].
    intros k r [Hr Hp]%map_lookup_filter_Some E. simpl in Hp. destruct (fc_typed _ Hc _ _ Hr) as (def' & Hdef' & _ & Ho' & _).
    rewrite E, Hdef in Hdef'. injection Hdef' as <-. by rewrite <- Ho', Ho, E, !N.eqb_refl in Hp.
  - intros _. apply (triple_bind _ (fun _ d => fields_consistent d /\ forall k r, fd_values d !! k = Some r -> fv_FieldID r <> cd_ID def)).
    { by apply triple_now. }
    intros t. apply triple_stmt; [|done]. intros d u d' [Hc Hno] [= _ <-].
    destruct Hc as [Hdefs Hvals Htypes Htyped Hslots Hkeys].
    assert (forall k x, update_where (fun e => N.eqb (cd_ID e) (cd_ID def) && live_def e) [set_cd_DeletedAt (Some t)] (fd_defs d) !! k = Some x ->
      exists y, fd_defs d !! k = Some y /\ same_identity y x /\ (live_def x = true -> x = y)) as Hup.
    { intros k x Hx. rewrite update_where_lookup in Hx. destruct (fd_defs d !! k) as [y|]; [|done]. injection Hx as <-.
      exists y. split; [done|]. by destruct (_ && _). }
    split; simpl; [|done| | |done|].
    + intros k x (y & Hy & (E & _) & _)%Hup. rewrite <- E. by apply Hdefs.
    + intros k x (y & Hy & (_ & _ & _ & _ & E) & _)%Hup. rewrite <- E. by apply (Htypes k).
    + intros k r Hr. destruct (Htyped k r Hr) as (def' & Hdef' & Hb). exists def'. split; [|done].
      rewrite update_where_lookup, Hdef'. simpl. destruct (N.eqb_spec (cd_ID def') (cd_ID def)) as [E|]; [|done].
      exfalso. apply (Hno k r Hr). by rewrite <- E, (Hdefs _ _ Hdef').
    + intros k1 k2 d1 d2 (y1 & Hy1 & _ & L1)%Hup (y2 & Hy2 & _ & L2)%Hup Hl Hs.
      pose proof (proj1 (same_key_spec _ _) Hs) as (_ & _ & Hl2 & _). specialize (L1 Hl). specialize (L2 Hl2). subst. by apply (Hkeys k1 k2 y1 y2).
Qed.

Lemma reorder_fields_consistent orgID userID i ids : moves (keeps fields_consistent) (reorder_fields orgID userID i ids).
Proof.
  revert i. induction ids as [|id ids IH]; intros i; simpl; solve_moves.
  apply moves_stmt; [typeclasses eauto|]. intros d u d' [= _ <-] Hd. by apply update_defs_consistent.
Qed.

Lemma ReorderContactFields_consistent orgID userID ids :
  triple fields_consistent (ReorderContactFields orgID userID ids) (fun _ => fields_consistent).
Proof. apply triple_keeps. unfold ReorderContactFields. solve_moves. apply reorder_fields_consistent. Qed.

Lemma promote_consistent orgID userID key metadataKey rows promoted skipped :
  moves (keeps fields_consistent) (promote orgID userID key metadataKey rows promoted skipped).
Proof.
  revert promoted skipped. induction rows as [|row rows IH]; intros promoted skipped; cbn [promote]; solve_moves.
  apply triple_keeps, SetValues_consistent.
Qed.

Lemma PromoteMetadata_consistent orgID userID req :
  triple fields_consistent (PromoteMetadata orgID userID req) (fun _ => fields_consistent).
Proof.
  unfold PromoteMetadata. destruct (is_empty _); [by apply triple_fail|]. apply triple_then; [apply triple_keeps; solve_moves|done|intros id].
  apply after_invalid; [intros Hv|done].
  apply triple_then; [apply triple_keeps, reads_consistent, key_is_free_reads|done|intros _].
  apply triple_then; [apply triple_keeps; solve_moves|done|intros rows].
  apply triple_then; [|done|intros r; by apply triple_ret].
  eapply triple_conseq; [apply (triple_transaction fields_consistent _ (fun _ => fields_consistent))|done|by intros [u|e] d].
  apply triple_then; [|done|intros _; eapply triple_conseq; [apply triple_keeps, promote_consistent|done|by intros [u|e] d]].
  apply insert_def_consistent; [by apply (ValidateDefinition_type _ Hv)|done].
Qed.

Lemma seed_fields_consistent orgID have fields :
  Forall (fun f => ValidType (cd_Type f) = true /\ live_def f = true) fields ->
  moves (keeps fields_consistent) (seed_fields orgID have fields).
Proof.
  induction 1 as [|f fields [Ht Hl] _ IH]; simpl; solve_moves.
  apply triple_keeps. by apply insert_def_consistent.
Qed.

Lemma SeedOrganization_consistent orgID : triple fields_consistent (SeedOrganization orgID) (fun _ => fields_consistent).
Proof. apply triple_keeps. unfold SeedOrganization. solve_moves. apply seed_fields_consistent. by repeat constructor. Qed.
End Invariant.

(** ** Any sequence of calls *)

Inductive field_call :=
| CallSetValues (orgID entityID : uuid) (entityType : string) (values : list (string * raw)) (actorID : option uuid)
| CallCreate (orgID userID : uuid) (req : contactFieldRequest)
| CallUpdate (orgID userID id : uuid) (force : bool) (req : contactFieldRequest)
| CallDelete (orgID id : uuid)
| CallReorder (orgID userID : uuid) (ids : list uuid)
| CallPromote (orgID userID : uuid) (req : PromoteMetadataRequest)
| CallSeed (orgID : uuid).

Section Calls.
Context `{SQ : Sql} `{FS : FieldsServer}.

(** A call, its result and error dropped; values are written in the caller's transaction. *)
Definition run_field_call (c : field_call) : MF unit :=
  match c with
  | CallSetValues orgID entityID et values actorID =>
      r <- try (transaction (SetValues orgID entityID et values actorID)) ;; ret tt
  | CallCreate orgID userID req => r <- try (CreateContactField orgID userID req) ;; ret tt
  | CallUpdate orgID userID id force req => r <- try (UpdateContactField orgID userID id force req) ;; ret tt
  | CallDelete orgID id => r <- try (DeleteContactField orgID id) ;; ret tt
  | CallReorder orgID userID ids => r <- try (ReorderContactFields orgID userID ids) ;; ret tt
  | CallPromote orgID userID req => r <- try (PromoteMetadata orgID userID req) ;; ret tt
  | CallSeed orgID => r <- try (transaction (SeedOrganization orgID)) ;; ret tt
  end.

Fixpoint run_field_calls (cs : list field_call) : MF unit :=
  match cs with [] => ret tt | c :: cs => run_field_call c ;;; run_field_calls cs end.
End Calls.

(** C21: under any sequence of the calls that write fields and values, whatever fails, every stored value belongs to a
    live definition of its organization, holds exactly the column of that definition's type, is alone in its slot, and
    live keys stay unique. *)
Theorem stored_values_are_typed `{SL : SqlLaws} `{FS : FieldsServer} `{!GoFmtLaws} `{!FieldsServerLaws} cs w r w' :
  fields_consistent (w_db w) -> run_field_calls cs w = (r, w') -> fields_consistent (w_db w').
Proof.
  revert w r w'. assert (moves (keeps fields_consistent) (run_field_calls cs)) as Hm.
  { induction cs as [|c cs IH]; simpl; solve_moves. destruct c; simpl; solve_moves; apply triple_keeps;
      eauto using SetValues_consistent, CreateContactField_consistent, UpdateContactField_consistent, DeleteContactField_consistent,
        ReorderContactFields_consistent, PromoteMetadata_consistent, SeedOrganization_consistent. }
  intros w r w' Hc E. by apply (Hm w r w').
Qed.
