(* ===== verification/FieldsRuns.v ===== *)
(** * Custom fields on a healthy database

    What [SetValues] writes, reports and leaves alone, and the round trip of a
    form: submitting the values a record shows changes nothing.  Then the theorems on concrete
    tables. *)
From S2P Require Import Prelude GoLib Text Store Events Models Statements Fields FieldService FieldsProps.

(** The slot of a value: what it describes, and the field. *)
Definition in_slot (et : string) (entityID fieldID : uuid) (r : CustomFieldValue) : Prop :=
  fv_EntityType r = et /\ fv_EntityID r = entityID /\ fv_FieldID r = fieldID.

(** What a slot holds. *)
Definition slot_is (d : FieldsDB) (et : string) (entityID fieldID : uuid) (prev : option CustomFieldValue) : Prop :=
  match prev with
  | Some row => fd_values d !! fv_ID row = Some row /\ in_slot et entityID fieldID row
  | None => forall k r, fd_values d !! k = Some r -> ~ in_slot et entityID fieldID r
  end.

(** Nothing outside a slot differs. *)
Definition same_elsewhere (outside : CustomFieldValue -> Prop) (d d' : FieldsDB) : Prop :=
  fd_defs d' = fd_defs d /\ forall k r, outside r -> fd_values d' !! k = Some r <-> fd_values d !! k = Some r.

Definition fresh_values (d : FieldsDB) (u : N) : Prop := forall k r, fd_values d !! k = Some r -> (k < u)%N.

Section Runs.
Context `{SL : SqlLaws} `{FS : FieldsServer} `{!GoFmtLaws} `{!FieldsServerLaws}.
Variables (orgID entityID : uuid) (entityType : string) (actorID : option uuid).
Let et := entityTypeOrContact entityType.

(** The field behind a key. *)
Definition field_of (d : FieldsDB) (key : string) (def : CustomFieldDefinition) : Prop :=
  fd_defs d !! cd_ID def = Some def /\ def_of orgID et def = true /\ cd_Key def = key.

Lemma field_of_unique d key def def' :
  fields_consistent d -> field_of d key def -> field_of d key def' -> def = def'.
Proof.
  intros Hc (Hd1 & (Ho & He & Hl)%def_of_spec & Hk) (Hd2 & (Ho' & He' & Hl')%def_of_spec & Hk').
  assert (cd_ID def = cd_ID def') as E; [|congruence].
  apply (fc_keys _ Hc _ _ _ _ Hd1 Hd2); [done|]. apply same_key_spec. split_and!; congruence.
Qed.

Lemma field_ids_distinct d k1 k2 def1 def2 :
  field_of d k1 def1 -> field_of d k2 def2 -> k1 <> k2 -> cd_ID def1 <> cd_ID def2.
Proof. intros (Hd1 & _ & <-) (Hd2 & _ & <-) Hne E. rewrite E in Hd1. congruence. Qed.

Lemma index_by_complete {K A} `{Countable K} (key : A -> K) l a :
  a ∈ l -> (forall b, b ∈ l -> key b = key a -> b = a) -> index_by key l !! key a = Some a.
Proof.
  intros Ha Huniq. destruct (index_by key l !! key a) as [b|] eqn:E.
  - apply index_by_lookup in E as [Hb Hk]. by rewrite (Huniq b Hb Hk).
  - exfalso. revert E. unfold index_by. assert (forall m : gmap K A, a ∈ l \/ is_Some (m !! key a) ->
      is_Some (fold_left (fun out a => <[key a := a]> out) l m !! key a)) as Hgen.
    { clear. induction l as [|x l IH]; simpl; intros m [Hin|Hm]; [by apply not_elem_of_nil in Hin|done|..]; apply IH.
      - apply elem_of_cons in Hin as [<-|Hin]; [right; rewrite lookup_insert_eq; eauto|by left].
      - right. destruct (decide (key x = key a)) as [E|Hne]; [rewrite E, lookup_insert_eq; eauto|by rewrite lookup_insert_ne]. }
    destruct (Hgen ∅ (or_introl Ha)) as [b ->]. done.
Qed.

(** The two indexes [SetValues] builds before its loop. *)
Definition defs_by_key (d : FieldsDB) : gmap string CustomFieldDefinition :=
  index_by cd_Key (sort_by by_position_label (find_rows (def_of orgID et) None (fd_defs d))).
Definition current_values (d : FieldsDB) : gmap uuid CustomFieldValue :=
  index_by fv_FieldID (find_rows (value_of orgID et entityID) None (fd_values d)).

Lemma defs_by_key_spec d key def :
  fields_consistent d -> field_of d key def -> defs_by_key d !! key = Some def.
Proof.
  intros Hc Hf. pose proof Hf as (Hdef & Hp & <-). apply index_by_complete.
  - apply elem_of_sort_by. by eapply find_rows_complete.
  - intros b (k & Hb & Hpb)%elem_of_sort_by%find_rows_elem E. apply (field_of_unique d (cd_Key def) b def Hc); [|done].
    split_and!; [by rewrite (fc_defs _ Hc _ _ Hb)|done|done].
Qed.

Lemma current_values_spec d key def :
  fields_consistent d -> field_of d key def -> slot_is d et entityID (cd_ID def) (current_values d !! cd_ID def).
Proof.
  intros Hc (Hdef & (Ho & He & Hl)%def_of_spec & _).
  assert (forall k r, fd_values d !! k = Some r -> in_slot et entityID (cd_ID def) r ->
    r ∈ find_rows (value_of orgID et entityID) None (fd_values d)) as Hin.
  { intros k r Hr (E1 & E2 & E3). eapply find_rows_complete; [exact Hr|]. destruct (fc_typed _ Hc _ _ Hr) as (def' & Hdef' & _ & Ho' & _).
    rewrite E3, Hdef in Hdef'. injection Hdef' as <-. unfold value_of. by rewrite <- Ho', Ho, E1, E2, !N.eqb_refl, String.eqb_refl. }
  destruct (current_values d !! cd_ID def) as [row|] eqn:E; simpl.
  - apply index_by_lookup in E as [(k & Hr & Hp)%find_rows_elem Ef]. rewrite (fc_values _ Hc _ _ Hr). split; [done|].
    unfold value_of in Hp. rewrite !andb_true_iff, !N.eqb_eq, String.eqb_eq in Hp. destruct Hp as [[_ ?] ?]. by split_and!.
  - intros k r Hr Hs. pose proof (Hin k r Hr Hs) as Hmem. destruct Hs as (E1 & E2 & E3).
    assert (current_values d !! cd_ID def = Some r) as E'; [|congruence]. rewrite <- E3. apply index_by_complete; [done|].
    intros b (k' & Hb & Hpb)%find_rows_elem Ef. unfold value_of in Hpb. rewrite !andb_true_iff, !N.eqb_eq, String.eqb_eq in Hpb.
    destruct Hpb as [[_ ?] ?]. assert (k' = k) as ->; [|congruence]. apply (fc_slots _ Hc _ _ _ _ Hb Hr), same_slot_spec. split_and!; congruence.
Qed.

(** ** One entry *)

Definition unchanged (prev : option CustomFieldValue) (def : CustomFieldDefinition) (v : Value) : bool :=
  match prev with Some row => sameValue def row v | None => IsEmpty v end.

(** The slot now means the value asked for. *)
Definition slot_settled (d : FieldsDB) (def : CustomFieldDefinition) (v : Value) : Prop :=
  if IsEmpty v then slot_is d et entityID (cd_ID def) None
  else exists row, slot_is d et entityID (cd_ID def) (Some row) /\ (as_stored v = Some (columns row) \/ sameValue def row v = true).

(** A typed row is not the same as no value. *)
Lemma sameValue_empty def row : of_type (cd_Type def) (columns row) -> sameValue def row no_value = false.
Proof.
  unfold of_type, sameValue, columns, number_value, date_value, option_of, text_value.
  repeat case_match; intros [x Hv]; injection Hv as Ht Hn Hd Ho; unfold equalFloat, equalDate, equalString; by rewrite ?Ht, ?Hn, ?Hd, ?Ho.
Qed.

Lemma slot_typed d def row :
  fields_consistent d -> fd_defs d !! cd_ID def = Some def -> slot_is d et entityID (cd_ID def) (Some row) ->
  of_type (cd_Type def) (columns row).
Proof.
  intros Hc Hdef [Hr (_ & _ & E)]. destruct (fc_typed _ Hc _ _ Hr) as (def' & Hdef' & _ & _ & _ & Ht).
  rewrite E, Hdef in Hdef'. by injection Hdef' as <-.
Qed.

Lemma in_slot_same_slot fid row r : in_slot et entityID fid row -> same_slot row r = true <-> in_slot et entityID fid r.
Proof. intros (E1 & E2 & E3). rewrite same_slot_spec. unfold in_slot. rewrite E1, E2, E3. done. Qed.

Lemma upserted_slot d def row t :
  fields_consistent d -> fresh_values d (fv_ID row) -> in_slot et entityID (cd_ID def) row ->
  upserted row (fd_values d) = Ok t ->
  (exists row', t !! fv_ID row' = Some row' /\ in_slot et entityID (cd_ID def) row' /\ columns row' = columns row) /\
  (forall k r, ~ in_slot et entityID (cd_ID def) r -> t !! k = Some r <-> fd_values d !! k = Some r) /\
  (forall k r, t !! k = Some r -> (k < fv_ID row + 1)%N).
Proof.
  intros Hc Hfresh Hs. unfold upserted. destruct (Nat.eqb_spec (rows_affected (same_slot row) (fd_values d)) 0) as [Hz|Hnz].
  - destruct (fd_values d !! fv_ID row) eqn:E; [done|]. intros [= <-]. split_and!.
    + exists row. by rewrite lookup_insert_eq.
    + intros k r Hr. rewrite lookup_insert_Some. split; [intros [[_ <-]|[_ ?]]; done|]. intros Hk. right. split; [|done].
      intros Ek. congruence.
    + intros k r [[<- _]|[_ Hk]]%lookup_insert_Some; [lia|]. apply Hfresh in Hk. lia.
  - intros [= <-]. apply rows_affected_pos in Hnz as (k0 & r0 & Hr0 & Hs0). split_and!.
    + eexists (apply_updates [Apply (columns row); set_fv_UpdatedByID (fv_UpdatedByID row); set_fv_UpdatedAt (fv_UpdatedAt row)] r0).
      split_and!; [|by apply (in_slot_same_slot _ row)|done].
      change (fv_ID (apply_updates _ r0)) with (fv_ID r0). rewrite (fc_values _ Hc _ _ Hr0), update_where_lookup, Hr0. simpl. by rewrite Hs0.
    + intros k r Hr. rewrite update_where_lookup. destruct (fd_values d !! k) as [q|] eqn:Eq; simpl; [|done].
      destruct (same_slot row q) eqn:Es; [|done]. apply (in_slot_same_slot _ row q Hs) in Es. split; intros [= <-]; by destruct Hr.
    + intros k r Hr. rewrite update_where_lookup in Hr. destruct (fd_values d !! k) as [q|] eqn:Eq; [|done]. apply Hfresh in Eq. lia.
Qed.

(** The insert or update of a value, as the database carries it out. *)
Lemma write_healthy d def v n u tx l :
  fresh_values d u -> is_Some (as_stored v) ->
  exists v' t, as_stored v = Some v' /\
    upserted (Apply v' (Apply v (new_value u n orgID entityID entityType (cd_ID def) actorID))) (fd_values d) = Ok t /\
    (id <- uuid_New ;; t <- now ;; upsert_value (Apply v (new_value id t orgID entityID entityType (cd_ID def) actorID)) ;;; ret true)
      (healthy d n u tx l) = (Ok true, healthy (set_fd_values t d) n (u + 1)%N tx l).
Proof.
  intros Hfresh [v' Hv']. set (row := Apply v' (Apply v (new_value u n orgID entityID entityType (cd_ID def) actorID))).
  assert (exists t, upserted row (fd_values d) = Ok t) as [t Ht].
  { unfold upserted. destruct (Nat.eqb _ 0); [|eauto]. destruct (fd_values d !! fv_ID row) as [r|] eqn:E; [|eauto].
    apply Hfresh in E. simpl in E. lia. }
  exists v', t. split_and!; [done..|]. erewrite bind_run; [|apply uuid_healthy]. erewrite bind_run; [|apply now_healthy].
  unfold upsert_value. erewrite bind_run; [|apply stmt_healthy; rewrite columns_Apply, Hv'; fold row; by rewrite Ht].
  unfold no_locks. by rewrite app_nil_r.
Qed.

Lemma delete_healthy d p n u tx l :
  (delete_values p ;;; ret true) (healthy d n u tx l)
    = (Ok true, healthy (set_fd_values (filter (fun kr => negb (p kr.2)) (fd_values d)) d) n u tx l).
Proof. unfold delete_values. erewrite bind_run; [|by apply stmt_healthy]. unfold no_locks. by rewrite app_nil_r. Qed.

(** Removing the row of a slot empties the slot and nothing else. *)
Lemma deleted_slot d fid row :
  fields_consistent d -> slot_is d et entityID fid (Some row) ->
  let t := filter (fun kr : uuid * CustomFieldValue => negb (N.eqb (fv_ID kr.2) (fv_ID row))) (fd_values d) in
  slot_is (set_fd_values t d) et entityID fid None /\
  same_elsewhere (fun r => ~ in_slot et entityID fid r) d (set_fd_values t d) /\
  forall k r, t !! k = Some r -> fd_values d !! k = Some r.
Proof.
  intros Hc [Hrow Hs]. cbv zeta. split_and!.
  - intros k r [Hr Hp]%map_lookup_filter_Some Hin. simpl in Hp.
    assert (k = fv_ID row) as -> by (apply (fc_slots _ Hc _ _ _ _ Hr Hrow), (in_slot_same_slot fid r row Hin), Hs).
    rewrite Hr in Hrow. injection Hrow as ->. by rewrite N.eqb_refl in Hp.
  - split; [done|]. intros k r Hout. simpl. rewrite map_lookup_filter_Some. split; [by intros [? _]|]. intros Hr. split; [done|].
    simpl. destruct (N.eqb_spec (fv_ID r) (fv_ID row)) as [E|]; [|done]. exfalso.
    rewrite (fc_values _ Hc _ _ Hr) in E. subst k. rewrite Hr in Hrow. by injection Hrow as ->.
  - by intros k r [Hr _]%map_lookup_filter_Some.
Qed.

(** One entry of the map settles its slot and touches no other. *)
Lemma set_value_healthy d defs current key value def v n u tx l :
  consistent_with orgID et defs d -> defs !! key = Some def -> IsArchived def = false -> Coerce def value = Ok v ->
  (IsEmpty v = false -> is_Some (as_stored v)) -> slot_is d et entityID (cd_ID def) (current !! cd_ID def) -> fresh_values d u ->
  exists d' u', set_value orgID entityID entityType actorID defs current key value (healthy d n u tx l)
      = (Ok (negb (unchanged (current !! cd_ID def) def v)), healthy d' n u' tx l) /\
    consistent_with orgID et defs d' /\ fresh_values d' u' /\ slot_settled d' def v /\
    same_elsewhere (fun r => ~ in_slot et entityID (cd_ID def) r) d d' /\
    (unchanged (current !! cd_ID def) def v = true -> d' = d).
Proof.
  intros Hcw Hd Har Hco Hst Hslot Hfresh. pose proof Hcw as [Hc Hk]. destruct (Hk key def Hd) as (Hdef & _ & _).
  cut (exists d' u', set_value orgID entityID entityType actorID defs current key value (healthy d n u tx l)
      = (Ok (negb (unchanged (current !! cd_ID def) def v)), healthy d' n u' tx l) /\
    fresh_values d' u' /\ slot_settled d' def v /\ same_elsewhere (fun r => ~ in_slot et entityID (cd_ID def) r) d d' /\
    (unchanged (current !! cd_ID def) def v = true -> d' = d)).
  { intros (d' & u' & E & Hrest). exists d', u'. split; [done|]. split; [|done].
    by apply (set_value_consistent orgID entityID entityType actorID defs current key value _ _ _ E). }
  unfold set_value. rewrite Hd, Har, Hco. cbv zeta. unfold unchanged, slot_settled.
  assert (IsEmpty v = false -> match current !! cd_ID def with Some row => sameValue def row v | None => false end = false ->
    exists d' u', (id <- uuid_New ;; t <- now ;; upsert_value (Apply v (new_value id t orgID entityID entityType (cd_ID def) actorID)) ;;; ret true)
      (healthy d n u tx l) = (Ok true, healthy d' n u' tx l) /\ fresh_values d' u' /\
      (exists row, slot_is d' et entityID (cd_ID def) (Some row) /\ as_stored v = Some (columns row)) /\
      same_elsewhere (fun r => ~ in_slot et entityID (cd_ID def) r) d d') as Hwrite.
  { intros He _. destruct (write_healthy d def v n u tx l Hfresh (Hst He)) as (v' & t & Hv' & Ht & E).
    destruct (upserted_slot d def (Apply v' (Apply v (new_value u n orgID entityID entityType (cd_ID def) actorID))) t Hc Hfresh ltac:(by split_and!) Ht) as ((row & Hrow & Hin & Hcol) & Hout & Hlt).
    eexists _, _. split_and!; [exact E|exact Hlt| |split; [done|exact Hout]].
    exists row. split; [by split|]. by rewrite Hcol, columns_Apply. }
  destruct (current !! cd_ID def) as [row|] eqn:Ecur.
  - destruct (sameValue def row v) eqn:Esame.
    + exists d, u. split_and!; try done. destruct (IsEmpty v) eqn:Ee; [|exists row; split; [done|by right]].
      destruct (Coerce_of_type _ _ _ Hco) as [->|Ht]; [|by rewrite (of_type_not_empty _ _ Ht) in Ee].
      by rewrite (sameValue_empty def row (slot_typed _ _ _ Hc Hdef Hslot)) in Esame.
    + destruct (IsEmpty v) eqn:Ee.
      * destruct (deleted_slot d (cd_ID def) row Hc Hslot) as (Hnone & Helse & Hsub).
        eexists _, u. split; [apply delete_healthy|]. split_and!; [|exact Hnone|exact Helse|done].
        intros k r Hr%Hsub. by apply (Hfresh k r).
      * destruct (Hwrite eq_refl eq_refl) as (d' & u' & E & Hf & (r & Hr & Hcol) & Helse). exists d', u'.
        split_and!; [exact E|done|exists r; split; [done|by left]|done|done].
  - destruct (IsEmpty v) eqn:Ee.
    + exists d, u. by split_and!.
    + destruct (Hwrite eq_refl eq_refl) as (d' & u' & E & Hf & (r & Hr & Hcol) & Helse). exists d', u'.
      split_and!; [exact E|done|exists r; split; [done|by left]|done|done].
Qed.

(** ** The loop *)

(** An entry the call accepts: a known field that is not archived, and a value it takes and the columns hold. *)
Definition acceptable (d : FieldsDB) (entry : string * raw) : Prop :=
  exists def v, field_of d entry.1 def /\ IsArchived def = false /\ Coerce def entry.2 = Ok v /\
    (IsEmpty v = false -> is_Some (as_stored v)).

(** The slots of the entries. *)
Definition in_slots (d : FieldsDB) (values : list (string * raw)) (r : CustomFieldValue) : Prop :=
  exists key def, key ∈ values.*1 /\ field_of d key def /\ in_slot et entityID (cd_ID def) r.

Lemma field_of_same d d' key def : fd_defs d' = fd_defs d -> field_of d' key def <-> field_of d key def.
Proof. intros E. unfold field_of. by rewrite E. Qed.

Lemma slot_is_elsewhere (outside : CustomFieldValue -> Prop) d d' fid prev :
  fields_consistent d -> fields_consistent d' -> same_elsewhere outside d d' ->
  (forall r, in_slot et entityID fid r -> outside r) ->
  slot_is d et entityID fid prev <-> slot_is d' et entityID fid prev.
Proof.
  intros Hc Hc' [_ Hs] Hout. destruct prev as [row|]; simpl.
  - split; intros [Hr Hi]; (split; [|done]); by apply (Hs _ _ (Hout _ Hi)).
  - split; intros Hno k r Hr Hi; apply (Hno k r); try done; by apply (Hs _ _ (Hout _ Hi)).
Qed.

Lemma settled_elsewhere (outside : CustomFieldValue -> Prop) d d' def v :
  fields_consistent d -> fields_consistent d' -> same_elsewhere outside d d' ->
  (forall r, in_slot et entityID (cd_ID def) r -> outside r) -> slot_settled d def v -> slot_settled d' def v.
Proof.
  intros Hc Hc' Hs Hout. unfold slot_settled. destruct (IsEmpty v); [apply (slot_is_elsewhere outside d d' (cd_ID def) None Hc Hc' Hs Hout)|].
  intros (row & Hrow & Hv). exists row. split; [|done]. by apply (slot_is_elsewhere outside d d' (cd_ID def) (Some row) Hc Hc' Hs Hout).
Qed.

Lemma set_values_healthy d defs current values n u tx l :
  consistent_with orgID et defs d -> (forall key def, field_of d key def -> defs !! key = Some def) ->
  NoDup values.*1 -> Forall (acceptable d) values ->
  (forall key def, key ∈ values.*1 -> field_of d key def -> slot_is d et entityID (cd_ID def) (current !! cd_ID def)) ->
  fresh_values d u ->
  exists changed d' u', set_values orgID entityID entityType actorID defs current values (healthy d n u tx l)
      = (Ok changed, healthy d' n u' tx l) /\
    consistent_with orgID et defs d' /\ same_elsewhere (fun r => ~ in_slots d values r) d d' /\
    (forall key value def v, (key, value) ∈ values -> field_of d key def -> Coerce def value = Ok v ->
       slot_settled d' def v /\ (key ∈ changed <-> unchanged (current !! cd_ID def) def v = false)) /\
    (forall key, key ∈ changed -> key ∈ values.*1).
Proof.
  intros Hcw Hdefs. revert d u Hcw Hdefs. induction values as [|[key value] values IH]; intros d u Hcw Hdefs Hnd Hacc Hcur Hfresh.
  { exists [], d, u. split_and!; [done..|by intros ? ? ? ? ?%not_elem_of_nil|done]. }
  apply NoDup_cons in Hnd as [Hkey Hnd]. apply Forall_cons in Hacc as [(def & v & Hf & Har & Hco & Hst) Hacc]. simpl in Hf, Hco, Hkey.
  destruct (set_value_healthy d defs current key value def v n u tx l Hcw (Hdefs _ _ Hf) Har Hco Hst) as (d1 & u1 & E1 & Hcw1 & Hfresh1 & Hset & Helse & _);
    [apply (Hcur key); [by left|done]|done|].
  pose proof (proj1 Helse) as Hsame.
  assert (forall k0 def0, k0 ∈ values.*1 -> field_of d k0 def0 -> forall r, in_slot et entityID (cd_ID def0) r -> ~ in_slot et entityID (cd_ID def) r) as Hapart.
  { intros k0 def0 Hk0 Hf0 r (_ & _ & Ea) (_ & _ & Eb). apply (field_ids_distinct d k0 key def0 def Hf0 Hf); [by intros ->|congruence]. }
  destruct (IH d1 u1) as (changed & d' & u' & E2 & Hcw2 & Helse2 & Hall & Hsub); try done.
  { intros k0 def0 Hf0. apply Hdefs. by apply (field_of_same d d1). }
  { eapply Forall_impl; [exact Hacc|]. intros [k0 v0] (def0 & v1 & Hf0 & Hrest). exists def0, v1. split; [by apply (field_of_same d d1)|done]. }
  { intros k0 def0 Hk0 Hf0. apply (field_of_same d d1) in Hf0; [|done].
    apply (slot_is_elsewhere _ d d1 (cd_ID def0) _ (proj1 Hcw) (proj1 Hcw1) Helse); [by eapply Hapart|]. apply (Hcur k0); [by right|done]. }
  eexists _, d', u'. split_and!; [|done|..].
  - cbn [set_values]. rewrite (bind_run _ _ _ _ _ E1), (bind_run _ _ _ _ _ E2). done.
  - destruct Helse2 as [Hsame2 Helse2]. split; [congruence|]. intros k r Hout. rewrite Helse2, (proj2 Helse); [done|..].
    + intros Hi. apply Hout. exists key, def. split; [by left|done].
    + intros (k0 & def0 & Hk0 & Hf0 & Hi). apply Hout. exists k0, def0. split; [by right|]. by rewrite <- (field_of_same d d1).
  - intros k0 value0 def0 v0 Hin Hf0 Hco0. apply elem_of_cons in Hin as [[= -> ->]|Hin].
    + rewrite (field_of_unique d key def0 def (proj1 Hcw) Hf0 Hf) in *. assert (v0 = v) as -> by congruence. split.
      * apply (settled_elsewhere _ d1 d' def v (proj1 Hcw1) (proj1 Hcw2) Helse2); [|done].
        intros r Hi (k1 & def1 & Hk1 & Hf1 & Hi1). by apply (Hapart k1 def1 Hk1 ltac:(by apply (field_of_same d d1)) r Hi1).
      * destruct (unchanged _ def v); simpl; [|split; [done|by left]]. split; [|done]. intros Hin'. by apply Hsub in Hin'.
    + assert (k0 ∈ values.*1) as Hk0 by (apply list_elem_of_fmap; by exists (k0, value0)).
      destruct (Hall k0 value0 def0 v0 Hin ltac:(by apply (field_of_same d d1)) Hco0) as [Hs0 Hiff]. split; [done|].
      rewrite <- Hiff. destruct (negb _); [|done]. rewrite elem_of_cons. split; [intros [->|?]; done|by right].
  - intros k0. destruct (negb _); [|intros Hk0; right; by apply Hsub]. intros [->|Hk0]%elem_of_cons; [by left|right; by apply Hsub].
Qed.

(** The loop starts from the two indexes. *)
Lemma SetValues_reads d values n u tx l :
  values <> [] ->
  SetValues orgID entityID entityType values actorID (healthy d n u tx l) =
    set_values orgID entityID entityType actorID (defs_by_key d) (current_values d) values (healthy d n u tx l).
Proof.
  intros Hne. unfold SetValues. destruct values as [|p values]; [done|].
  erewrite bind_run; [|unfold DefinitionsByKey, Definitions; erewrite bind_run; [|by apply query_healthy]; done].
  erewrite bind_run; [|by apply query_healthy]. done.
Qed.

Lemma defs_by_key_known d : fields_consistent d -> consistent_with orgID et (defs_by_key d) d.
Proof. intros Hc. split; [done|]. by apply Definitions_read. Qed.

(** A row as its record shows it, and as it would be accepted again. *)
Definition shown (d : FieldsDB) (entry : string * raw) : Prop :=
  exists def row, field_of d entry.1 def /\ IsArchived def = false /\ slot_is d et entityID (cd_ID def) (Some row) /\
    entry.2 = exportValue def row /\ fv_ValueNumber row <> Some NotANumber /\
    exists r, Coerce def r = Ok (columns row) /\ clears r = false /\ in_four_digits r.

Lemma Apply_columns row : Apply (columns row) row = row.
Proof. by destruct row. Qed.

Lemma shown_unchanged d defs current key value n u tx l :
  fields_consistent d -> defs = defs_by_key d -> current = current_values d -> shown d (key, value) ->
  set_value orgID entityID entityType actorID defs current key value (healthy d n u tx l) = (Ok false, healthy d n u tx l).
Proof.
  intros Hc -> -> (def & row & Hf & Har & Hslot & Ev & Hnum & r & Hco & Hcl & Hy). simpl in Hf, Ev. subst value.
  unfold set_value. rewrite (defs_by_key_spec d key def Hc Hf), Har.
  assert (exportValue def row = exportValue def (Apply (columns row) row)) as -> by (by rewrite Apply_columns).
  rewrite (Coerce_exportValue def r (columns row) row Hco Hcl Hy). cbv zeta.
  pose proof (current_values_spec d key def Hc Hf) as Hcur. destruct (current_values d !! cd_ID def) as [row'|].
  - assert (row' = row) as ->.
    { destruct Hcur as [Hr' Hi'], Hslot as [Hr Hi]. assert (fv_ID row' = fv_ID row) as E; [|congruence].
      apply (fc_slots _ Hc _ _ _ _ Hr' Hr). by apply (in_slot_same_slot (cd_ID def)). }
    assert (sameValue def row (columns row) = true) as ->; [|done].
    pose proof (sameValue_Apply def (columns row) row) as Hsame. rewrite Apply_columns in Hsame. apply Hsame; [|done].
    apply (slot_typed d); [done|by destruct Hf|done].
  - exfalso. destruct Hslot as [Hr Hi]. by apply (Hcur _ _ Hr).
Qed.
End Runs.

(** C22: on a healthy database [SetValues] accepts known fields with acceptable values and settles exactly their slots: a
    value asked for is stored as the column holds it, a cleared one is gone, every other value of every record stays,
    and the keys reported are those whose stored value differed. *)
Theorem SetValues_lands `{SL : SqlLaws} `{FS : FieldsServer} `{!GoFmtLaws} `{!FieldsServerLaws}
    orgID entityID entityType actorID d values n u tx l :
  fields_consistent d -> fresh_values d u -> NoDup values.*1 -> Forall (acceptable orgID entityType d) values ->
  exists changed d' u',
    SetValues orgID entityID entityType values actorID (healthy d n u tx l) = (Ok changed, healthy d' n u' tx l) /\
    fields_consistent d' /\
    same_elsewhere (fun r => ~ in_slots orgID entityID entityType d values r) d d' /\
    (forall key, key ∈ changed -> key ∈ values.*1) /\
    forall key value def v, (key, value) ∈ values -> field_of orgID entityType d key def -> Coerce def value = Ok v ->
      slot_settled entityID entityType d' def v /\
      (key ∈ changed <-> forall prev, slot_is d (entityTypeOrContact entityType) entityID (cd_ID def) prev -> unchanged prev def v = false).
Proof.
  intros Hc Hfresh Hnd Hacc. destruct values as [|p values].
  { exists [], d, u. split_and!; [done..| |]; [by intros ? ?%not_elem_of_nil|by intros ? ? ? ? ?%not_elem_of_nil]. }
  rewrite SetValues_reads by done.
  destruct (set_values_healthy orgID entityID entityType actorID d (defs_by_key orgID entityType d) (current_values orgID entityID entityType d)
    (p :: values) n u tx l) as (changed & d' & u' & E & [Hc' _] & Helse & Hall & Hsub); [..|exists changed, d', u'; split_and!; try done].
  - by apply defs_by_key_known.
  - intros key def Hf. by apply defs_by_key_spec.
  - done.
  - done.
  - intros key def _ Hf. by apply (current_values_spec _ _ _ d key).
  - done.
  - intros key value def v Hin Hf Hco. destruct (Hall key value def v Hin Hf Hco) as [Hset Hiff]. split; [done|].
    rewrite Hiff. pose proof (current_values_spec orgID entityID entityType d key def Hc Hf) as Hcur. split; [|by auto].
    intros Hu prev Hprev. destruct prev as [row|], (current_values orgID entityID entityType d !! cd_ID def) as [row'|]; try done.
    + assert (row' = row) as ->; [|done]. destruct Hcur as [Hr' Hi'], Hprev as [Hr Hi]. assert (fv_ID row' = fv_ID row) as E'; [|congruence].
      apply (fc_slots _ Hc _ _ _ _ Hr' Hr). by apply (in_slot_same_slot entityID entityType (cd_ID def)).
    + exfalso. destruct Hprev as [Hr Hi]. by apply (Hcur _ _ Hr).
    + exfalso. destruct Hcur as [Hr Hi]. by apply (Hprev _ _ Hr).
Qed.

(** C23: On a healthy database, submitting a form as it was shown, any part of it in any order, succeeds, changes
    nothing and reports no change: what a stored value exports is coerced back to the stored value.  It holds for
    the live fields that are not archived and whose value is no [NaN] and could be entered under the field's
    definition as it is now; a field archived since, or an option since removed, is refused instead. *)
Theorem resubmitting_changes_nothing `{SL : SqlLaws} `{FS : FieldsServer} `{!GoFmtLaws} `{!FieldsServerLaws}
    orgID entityID entityType actorID d values n u tx l :
  fields_consistent d -> Forall (shown orgID entityID entityType d) values ->
  SetValues orgID entityID entityType values actorID (healthy d n u tx l) = (Ok [], healthy d n u tx l).
Proof.
  intros Hc Hall. destruct values as [|p values]; [done|]. rewrite SetValues_reads by done.
  induction Hall as [|[key value] rest Hs _ IH]; [done|]. cbn [set_values].
  erewrite bind_run; [|by apply shown_unchanged]. by erewrite bind_run; [|exact IH].
Qed.

(** * Custom fields on concrete tables

    Reference instances of what the models take as given, witnesses that the
    theorems' hypotheses hold somewhere, and behaviours worth knowing. *)

#[local] Existing Instance sql_ref.

#[local] Instance plain_fmt : GoFmt := {|
  FormatFloat _ := "0";
  Sprint v := match v with AString s => s | _ => "value" end
|}.

#[local] Instance plain_fmt_laws : GoFmtLaws.
Proof. split; [done|]. intros [] Hv; try reflexivity. by destruct (Hv s). Qed.

#[local] Instance plain_fields : FieldsEnv := {|
  ParseFloat s := if String.eqb s "NaN" then Some NotANumber else (fun n => Finite (float_of_int n)) <$> ParseInt s;
  Sprintf_q v := "value"
|}.

#[local] Instance plain_server : FieldsServer := {|
  as_stored v := Some v;
  jsonb t := Some t;
  json_column_text _ := "{}"
|}.

#[local] Instance plain_server_laws : FieldsServerLaws.
Proof. by split; intros v v' [= ->]. Qed.

(** A definition of organization [1] for contacts. *)
Definition sample_def (id : uuid) (key ty : string) (options : list any) (validation : JSONB) : CustomFieldDefinition :=
  MkDefinition id None 1 FieldEntityContact key key "" ty options validation None false false false true "" 0 None None None.

Definition email_def : CustomFieldDefinition := sample_def 2 "email" FieldTypeEmail [] [].
Definition email_row : CustomFieldValue := MkFieldValue 10 1 FieldEntityContact 7 2 (Some "bob@example.com") None None None None 0.

Definition no_tables : FieldsDB := MkFieldsDB ∅ ∅ ∅ ∅ ∅.
Definition one_field : FieldsDB := MkFieldsDB {[2%N := email_def]} ∅ ∅ ∅ ∅.
Definition one_value : FieldsDB := MkFieldsDB {[2%N := email_def]} {[10%N := email_row]} ∅ ∅ ∅.

Lemma no_tables_consistent : fields_consistent no_tables.
Proof. split; simpl; intros *; by rewrite ?lookup_empty. Qed.

Lemma one_field_consistent : fields_consistent one_field.
Proof.
  split; simpl.
  - by intros k r [<- <-]%lookup_singleton_Some.
  - by intros k r Hr%lookup_empty_Some.
  - by intros k r [<- <-]%lookup_singleton_Some.
  - by intros k r Hr%lookup_empty_Some.
  - by intros k1 k2 r1 r2 Hr%lookup_empty_Some.
  - by intros k1 k2 d1 d2 [<- _]%lookup_singleton_Some [<- _]%lookup_singleton_Some.
Qed.

Lemma one_value_consistent : fields_consistent one_value.
Proof.
  split; simpl.
  - by intros k r [<- <-]%lookup_singleton_Some.
  - by intros k r [<- <-]%lookup_singleton_Some.
  - by intros k r [<- <-]%lookup_singleton_Some.
  - intros k r [<- <-]%lookup_singleton_Some. exists email_def. split; [apply lookup_singleton_eq|]. split_and!; [done..|].
    by exists "bob@example.com".
  - by intros k1 k2 r1 r2 [<- _]%lookup_singleton_Some [<- _]%lookup_singleton_Some.
  - by intros k1 k2 d1 d2 [<- _]%lookup_singleton_Some [<- _]%lookup_singleton_Some.
Qed.

Definition create_request : contactFieldRequest :=
  MkFieldRequest "stage" "Stage" "" FieldTypeDropdown (Some [choice "lead" "Lead" "blue"]) None None None None "" None None [].

Lemma stored_values_are_typed_witness :
  let calls := [CallCreate 1 5 create_request; CallSetValues 1 7 "" [("stage", RawAny (AString "lead"))] None] in
  let d := w_db (run_field_calls calls (healthy no_tables 0 100 false [])).2 in
  (option_map columns (fd_values d !! 101%N) = Some (option_of "lead")) /\ fields_consistent d.
Proof.
  intros calls d. split; [vm_compute; reflexivity|]. subst d.
  destruct (run_field_calls calls (healthy no_tables 0 100 false [])) as [r w'] eqn:E.
  apply (stored_values_are_typed calls (healthy no_tables 0 100 false []) r w' no_tables_consistent E).
Defined.

Lemma email_field_of d : fd_defs d = {[2%N := email_def]} -> field_of 1 "contact" d "email" email_def.
Proof. intros E. split_and!; [by rewrite E|done|done]. Qed.

Lemma SetValues_lands_witness :
  exists changed d' u',
    SetValues 1 7 "contact" [("email", RawAny (AString " Bob@Example.COM "))] None (healthy one_field 0 100 false []) =
      (Ok changed, healthy d' 0 u' false []) /\ "email" ∈ changed /\ slot_settled 7 "contact" d' email_def (text_value "bob@example.com").
Proof.
  destruct (SetValues_lands 1 7 "contact" None one_field [("email", RawAny (AString " Bob@Example.COM "))] 0 100%N false [])
    as (changed & d' & u' & E & _ & _ & _ & Hall).
  - apply one_field_consistent.
  - intros k r Hr. simpl in Hr. by apply lookup_empty_Some in Hr.
  - apply NoDup_singleton.
  - apply Forall_singleton. exists email_def, (text_value "bob@example.com").
    split_and!; [by apply email_field_of|done|vm_compute; reflexivity|by eexists].
  - exists changed, d', u'. split; [exact E|].
    destruct (Hall "email" (RawAny (AString " Bob@Example.COM ")) email_def (text_value "bob@example.com")) as [Hs Hiff];
      [by left|by apply email_field_of|vm_compute; reflexivity|]. split; [|exact Hs]. apply Hiff.
    intros [row|] Hprev; [|done]. destruct Hprev as [Hr _]. simpl in Hr. by apply lookup_empty_Some in Hr.
Defined.

Lemma resubmitting_changes_nothing_witness :
  SetValues 1 7 "contact" [("email", RawAny (AString "bob@example.com"))] None (healthy one_value 0 100 false []) =
    (Ok [], healthy one_value 0 100 false []).
Proof.
  apply (resubmitting_changes_nothing 1 7 "contact" None one_value _ 0 100%N false []).
  - apply one_value_consistent.
  - apply Forall_singleton. exists email_def, email_row.
    split_and!; [by apply email_field_of|done| |done|done|].
    + split; [apply lookup_singleton_eq|done].
    + exists (RawAny (AString "bob@example.com")). split_and!; [vm_compute; reflexivity|vm_compute; reflexivity|intros t; discriminate].
Defined.

(** ** Behaviours worth knowing *)

(** Swapping the names of two options in one edit merges them: the second rename takes up what the first one moved. *)
Definition option_row (id : uuid) (value : string) : CustomFieldValue :=
  MkFieldValue id 1 FieldEntityContact id 3 None None None (Some value) None 0.

Definition stage_def : CustomFieldDefinition :=
  sample_def 3 "stage" FieldTypeDropdown [choice "hot" "Hot" ""; choice "cold" "Cold" ""] [].

Example swapped_options_merge :
  let renames := claimedRenames [("hot", "cold"); ("cold", "hot")] (cd_Options stage_def) (Some (cd_Options stage_def)) in
  let d := MkFieldsDB {[3%N := stage_def]} (<[20%N := option_row 20 "hot"]> {[21%N := option_row 21 "cold"]}) ∅ ∅ ∅ in
  let d' := w_db (applyOptionRenames 1 stage_def renames (healthy d 0 100 false [])).2 in
  (fv_ValueOption <$> fd_values d' !! 20%N) = Some (Some "hot") /\ (fv_ValueOption <$> fd_values d' !! 21%N) = Some (Some "hot").
Proof. vm_compute. split; reflexivity. Qed.

(** An option whose value has a quotation mark is never found in a filter: the escape that JSON writes is an escape for
    [LIKE] too. *)
Definition inch : string := String "5" (String "034" "").

Example quoted_option_is_missed :
  let filter := ("[" ++ jsonQuoted inch ++ "]")%string in
  Contains filter (jsonQuoted inch) = true /\ LIKE filter (around (jsonQuoted inch)) = false.
Proof. vm_compute. split; reflexivity. Qed.

(** And an underscore matches any character. *)
Example underscore_matches_anything : LIKE (jsonQuoted "hot lead") (around (jsonQuoted "hot_lead")) = true.
Proof. vm_compute. reflexivity. Qed.

(** A field archived, or an option removed, since the form was shown: the value it exports is refused. *)
Example changed_field_refuses_its_own_export :
  let submit def row := SetValues 1 20 "contact" [("stage", exportValue def row)] None
    (healthy (MkFieldsDB {[3%N := def]} {[20%N := row]} ∅ ∅ ∅) 0 100 false []) in
  is_ok (submit stage_def (option_row 20 "hot")).1 = true /\
  is_ok (submit (set_cd_ArchivedAt (Some 0) stage_def) (option_row 20 "hot")).1 = false /\
  is_ok (submit stage_def (option_row 20 "warm")).1 = false.
Proof. vm_compute. repeat split. Qed.

(** A field asked to stay out of the chat panel is shown there all the same. *)
Example hidden_field_is_shown :
  let request := MkFieldRequest "note" "Note" "" FieldTypeText None None None None (Some false) "" None None [] in
  let r := CreateContactField 1 5 request (healthy no_tables 0 100 false []) in
  (cd_ShowInChatPanel <$> fd_defs (w_db r.2) !! 100%N) = Some true.
Proof. vm_compute. reflexivity. Qed.

(** [NaN] passes every bound. *)
Example NaN_is_in_bounds :
  Coerce (sample_def 4 "score" FieldTypeNumber [] [("min", AInt 0); ("max", AInt 100)]) (RawAny (AString "NaN")) =
    Ok (number_value NotANumber).
Proof. vm_compute. reflexivity. Qed.

(** A phone field takes any text with an at sign. *)
Example phone_takes_a_sentence :
  Coerce (sample_def 5 "mobile" FieldTypePhone [] []) (RawAny (AString "ask me @ reception")) = Ok (text_value "ask me @ reception").
Proof. vm_compute. reflexivity. Qed.

(** A required field filled with blanks is not missing, yet it is stored as cleared. *)
Definition required_def : CustomFieldDefinition := set_cd_IsRequired true (sample_def 6 "company" FieldTypeText [] []).

Example blanks_satisfy_required :
  MissingRequired {["company" := required_def]} {["company" := AString "  "]} = [] /\
  Coerce required_def (RawAny (AString "  ")) = Ok no_value.
Proof. vm_compute. split; reflexivity. Qed.
