(* ===== verification/ContactQuery.v ===== *)
(** * The contact filter language ([internal/contactquery])

    A filter is a tree of groups and rules.  [Validate] checks it against the
    registry of fields and the limits, [Apply] turns it into [WHERE] fragments
    with bound arguments.  A registry is a map from keys to fields; a field is
    a column or carries its own builder.  An index out of range is the failure
    [Panic]. *)
From S2P Require Import Prelude GoLib Text Fields.
#[local] Open Scope string_scope.
#[local] Open Scope Z_scope.

(** ** The language ([filter.go]) *)

Definition OpAnd := "and".
Definition OpOr := "or".

Definition MaxDepth : Z := 3.
Definition MaxRules : Z := 50.
Definition MaxStringLen : Z := 500.
Definition MaxListLen : Z := 200.

#[local] Unset Elimination Schemes.
Inductive Node :=
| MkNode (Op : string) (Rules : list Node) (Field : string) (Operator : string) (Value : any).
#[local] Set Elimination Schemes.

Lemma Node_ind (P : Node -> Prop) :
  (forall op rules field operator value, Forall P rules -> P (MkNode op rules field operator value)) -> forall n, P n.
Proof.
  intros Hn. exact (fix go n := let 'MkNode op rules field operator value := n in
    Hn op rules field operator value
      ((fix all l : Forall P l := match l with [] => Forall_nil_2 _ | x :: l => Forall_cons_2 _ _ _ (go x) (all l) end) rules)).
Qed.

Definition n_Op (n : Node) : string := let 'MkNode op _ _ _ _ := n in op.
Definition n_Rules (n : Node) : list Node := let 'MkNode _ rules _ _ _ := n in rules.
Definition n_Field (n : Node) : string := let 'MkNode _ _ field _ _ := n in field.
Definition n_Operator (n : Node) : string := let 'MkNode _ _ _ operator _ := n in operator.
Definition n_Value (n : Node) : any := let 'MkNode _ _ _ _ value := n in value.
Definition set_n_Operator (operator : string) (n : Node) : Node :=
  let 'MkNode op rules field _ value := n in MkNode op rules field operator value.

Definition no_rules (rules : list Node) : bool := match rules with [] => true | _ => false end.

Definition IsGroup (n : Node) : bool := negb (is_empty (n_Op n)) || negb (no_rules (n_Rules n)).
Definition IsEmpty (n : Node) : bool := is_empty (n_Field n) && no_rules (n_Rules n).

(** How a filter fails: a [ValidationError], another error, or a run-time panic. *)
Inductive failure :=
| ValidationError (Path Message : string)
| Errorf (message : string)
| Panic.

Abbreviation result A := (res failure A) (only parsing).

Definition failure_text (e : failure) : string :=
  match e with
  | ValidationError path message => "contactquery: " ++ (if is_empty path then message else path ++ ": " ++ message)
  | Errorf message => message
  | Panic => "panic"
  end.

(** ** Fields and the registry ([registry.go]) *)

Definition TypeText := "text".
Definition TypeNumber := "number".
Definition TypeDate := "date".
Definition TypeOption := "option".
Definition TypeTags := "tags".
Definition TypeBoolean := "boolean".
Definition TypeUser := "user".
Definition TypeSegment := "segment".

Definition OpEquals := "equals".
Definition OpNotEquals := "not_equals".
Definition OpContains := "contains".
Definition OpStartsWith := "starts_with".
Definition OpIsEmpty := "is_empty".
Definition OpIsNotEmpty := "is_not_empty".
Definition OpEq := "eq".
Definition OpNeq := "neq".
Definition OpGt := "gt".
Definition OpGte := "gte".
Definition OpLt := "lt".
Definition OpLte := "lte".
Definition OpBetween := "between".
Definition OpOn := "on".
Definition OpBefore := "before".
Definition OpAfter := "after".
Definition OpWithinLast := "within_last".
Definition OpMoreThanAgo := "more_than_ago".
Definition OpIn := "in".
Definition OpNotIn := "not_in".
Definition OpContainsAny := "contains_any".
Definition OpContainsAll := "contains_all".
Definition OpContainsNone := "contains_none".
Definition OpIsTrue := "is_true".
Definition OpIsFalse := "is_false".
Definition OpIs := "is".
Definition OpIsNot := "is_not".
Definition OpIsMe := "is_me".
Definition OpIsUnassigned := "is_unassigned".

Definition operatorsByType : list (string * list string) :=
  [(TypeText, [OpEquals; OpNotEquals; OpContains; OpStartsWith; OpIsEmpty; OpIsNotEmpty]);
   (TypeNumber, [OpEq; OpNeq; OpGt; OpGte; OpLt; OpLte; OpBetween; OpIsEmpty]);
   (TypeDate, [OpOn; OpBefore; OpAfter; OpBetween; OpWithinLast; OpMoreThanAgo; OpIsEmpty]);
   (TypeOption, [OpIn; OpNotIn; OpIsEmpty]);
   (TypeTags, [OpContainsAny; OpContainsAll; OpContainsNone; OpIsEmpty]);
   (TypeBoolean, [OpIsTrue; OpIsFalse]);
   (TypeUser, [OpIs; OpIsNot; OpIsMe; OpIsUnassigned]);
   (TypeSegment, [OpIn; OpNotIn])].

Definition operators (t : string) : option (list string) :=
  snd <$> List.find (fun e => String.eqb e.1 t) operatorsByType.

(** The slice a missing key reads as is empty. *)
Definition OperatorsFor (t : string) : list string := default [] (operators t).

Record Viewer := MkViewer {
  vw_UserID : uuid;
  vw_OrgID : uuid;
  vw_Location : option Location;
  vw_CanSeeAllContacts : bool
}.

(** A bound argument: decoded data, an instant or a list, or an identifier. *)
Inductive arg := Bound (v : any) | BoundID (u : uuid).

Record Compiled := MkCompiled { cq_SQL : string; cq_Args : list arg }.
Definition nothing : Compiled := MkCompiled "" [].

Record Option := MkOption { op_Value : string; op_LabelKey : string; op_Label : string }.

Record FieldData := MkFieldData {
  qf_Key : string;
  qf_LabelKey : string;
  qf_Type : string;
  qf_Column : string;
  qf_Options : list Option;
  qf_Sortable : bool
}.

Definition BuildFunc : Type := FieldData -> Node -> Viewer -> result Compiled.

Record Field := MkField { qf_data : FieldData; qf_Build : option BuildFunc }.

Definition column_field (key label type column : string) (sortable : bool) : Field :=
  MkField (MkFieldData key label type column [] sortable) None.

Definition Supports (f : FieldData) (operator : string) : bool :=
  existsb (fun op => String.eqb op operator) (OperatorsFor (qf_Type f)).

Abbreviation Registry := (gmap string Field) (only parsing).

(** [None]: the panic of a field that cannot be registered. *)
Definition Register (f : Field) (r : Registry) : option Registry :=
  if is_empty (qf_Key (qf_data f)) then None
  else if is_none (qf_Build f) && is_empty (qf_Column (qf_data f)) then None
  else if is_none (operators (qf_Type (qf_data f))) then None
  else Some (<[qf_Key (qf_data f) := f]> r).

Fixpoint RegisterAll (fs : list Field) (r : Registry) : option Registry :=
  match fs with [] => Some r | f :: fs => r ← Register f r; RegisterAll fs r end.

Definition core_fields : list Field :=
  [column_field "phone_number" "contacts.phoneNumber" TypeText "contacts.phone_number" false;
   column_field "profile_name" "contacts.name" TypeText "contacts.profile_name" true;
   column_field "whatsapp_account" "contacts.account" TypeOption "contacts.whats_app_account" false;
   column_field "tags" "contacts.tags" TypeTags "contacts.tags" false;
   column_field "assigned_user_id" "contacts.owner" TypeUser "contacts.assigned_user_id" false;
   column_field "created_at" "common.createdAt" TypeDate "contacts.created_at" true;
   column_field "last_message_at" "contacts.lastMessageAt" TypeDate "contacts.last_message_at" true;
   column_field "last_inbound_at" "contacts.lastInboundAt" TypeDate "contacts.last_inbound_at" true;
   column_field "marketing_opt_out" "contacts.optedOut" TypeBoolean "contacts.marketing_opt_out" false;
   column_field "source" "contacts.source" TypeOption "contacts.source" false].

Definition NewRegistry : option Registry := RegisterAll core_fields ∅.

Definition Lookup (r : Registry) (key : string) : option Field := r !! TrimSpace key.

(** The fields in the order of their keys. *)
Definition Fields (r : Registry) : list Field :=
  sort_by (fun f g => String.ltb (qf_Key (qf_data f)) (qf_Key (qf_data g))) (snd <$> map_to_list r).

Definition SortableFields (r : Registry) : list string :=
  sort_by String.ltb (omap (fun e => if qf_Sortable (qf_data e.2) then Some e.1 else None) (map_to_list r)).

Definition SortColumn (r : Registry) (key : string) : option string :=
  f ← Lookup r key;
  if negb (qf_Sortable (qf_data f)) || is_empty (qf_Column (qf_data f)) then None else Some (qf_Column (qf_data f)).

(** ** Values ([values.go]) *)

Definition UnitMinutes := "minutes".
Definition UnitHours := "hours".
Definition UnitDays := "days".
Definition UnitWeeks := "weeks".
Definition UnitMonths := "months".

(** The clock, and what a conversion to [int64] gives for a number that is too large. *)
Class QueryEnv `{GF : GoFmt} := {
  Now : time;
  out_of_range : float64 -> Z
}.

(** [toList]. *)
Definition toList (v : any) : option (list any) := match v with AList l => Some l | _ => None end.

(** [list, _ := toList(v)]. *)
Definition list_of (v : any) : list any := default [] (toList v).

(** The day a date names in its own zone, and the instant. *)
Definition parseTime (v : any) : res string (Z * time) :=
  match v with
  | ATime t => Ok (day_of t, t)
  | AString s => match parse_stamp s with Some d => Ok d | None => Err (quote s ++ " is not a date") end
  | _ => Err ("expected a date, got " ++ type_name v)
  end.

Definition asNumber (v : any) : res string float64 :=
  match v with
  | AFloat x => Ok x
  | AInt n => Ok (float_of_int n)
  | _ => Err ("expected a number, got " ++ type_name v)
  end.

Section Values.
Context `{QE : QueryEnv}.

(** [time.Duration(x)]. *)
Definition to_int64 (x : float64) : Z :=
  let n := float_trunc x in
  if (min_int64 <=? n) && (n <=? max_int64) then n else out_of_range x.

Definition unit_length (unit : string) : option Z :=
  if String.eqb unit UnitMinutes then Some Minute
  else if String.eqb unit UnitHours then Some Hour
  else if String.eqb unit UnitDays then Some (24 * Hour)
  else if String.eqb unit UnitWeeks then Some (7 * 24 * Hour)
  else if String.eqb unit UnitMonths then Some (30 * 24 * Hour)
  else None.

Definition parseDuration (v : any) : res string Z :=
  match v with
  | AMap m =>
      match asNumber (default ANil (index m "amount")) with
      | Err e => Err ("duration amount: " ++ e)
      | Ok amount =>
          if f_mant amount <=? 0 then Err "duration amount must be positive"
          else
            let unit := match index m "unit" with Some (AString s) => s | _ => "" end in
            match unit_length unit with
            | Some u => Ok (wrap64 (to_int64 amount * u))
            | None => Err ("unknown duration unit " ++ quote unit)
            end
      end
  | _ => Err ("expected {amount, unit}, got " ++ type_name v)
  end.

(** ** Validation *)

Definition operatorNeedsValue (operator : string) : bool :=
  negb (existsb (String.eqb operator) [OpIsEmpty; OpIsNotEmpty; OpIsTrue; OpIsFalse; OpIsMe; OpIsUnassigned]).

Definition too_long (v : any) : bool :=
  match v with AString s => MaxStringLen <? Z.of_nat (String.length s) | _ => false end.

Definition invalid {A} (path message : string) : result A := Err (ValidationError path message).

Definition too_long_message : string := "value is longer than " ++ Itoa MaxStringLen ++ " characters".

Definition from_list (operator : string) : bool :=
  existsb (String.eqb operator) [OpIn; OpNotIn; OpContainsAny; OpContainsAll; OpContainsNone].

Definition validateValue (path t operator : string) (value : any) : result () :=
  if negb (operatorNeedsValue operator) then Ok ()
  else
    match value with
    | ANil => invalid path ("operator " ++ quote operator ++ " needs a value")
    | _ =>
      if String.eqb t TypeSegment then
        match value with
        | AString s => if is_empty (TrimSpace s) then invalid path "a segment rule needs a segment id" else Ok ()
        | _ => invalid path "a segment rule needs a segment id"
        end
      else if from_list operator then
        match toList value with
        | None => invalid path ("operator " ++ quote operator ++ " needs a list value")
        | Some [] => invalid path ("operator " ++ quote operator ++ " needs at least one value")
        | Some l =>
            if MaxListLen <? Z.of_nat (length l) then invalid path ("list has more than " ++ Itoa MaxListLen ++ " values")
            else if existsb too_long l then invalid path too_long_message
            else Ok ()
        end
      else if String.eqb operator OpBetween then
        match toList value with
        | Some [_; _] => Ok ()
        | _ => invalid path ("operator " ++ quote operator ++ " needs exactly two values")
        end
      else if String.eqb operator OpWithinLast || String.eqb operator OpMoreThanAgo then
        match parseDuration value with Ok _ => Ok () | Err e => invalid path e end
      else if too_long value then invalid path too_long_message
      else if String.eqb t TypeDate then
        match parseTime value with Ok _ => Ok () | Err e => invalid path e end
      else Ok ()
    end.

Definition known_op (op : string) : bool :=
  let op := ToLower op in String.eqb op OpAnd || String.eqb op OpOr || is_empty op.

(** A rule; [count] is the number of rules seen so far. *)
Definition validateLeaf (r : Registry) (n : Node) (path : string) (count : Z) : result Z :=
  let count := count + 1 in
  if MaxRules <? count then invalid path ("filter has more than " ++ Itoa MaxRules ++ " rules")
  else
    match Lookup r (n_Field n) with
    | None => invalid path ("unknown field " ++ quote (n_Field n))
    | Some f =>
        if negb (Supports (qf_data f) (n_Operator n)) then
          invalid path ("field " ++ quote (n_Field n) ++ " does not support operator " ++ quote (n_Operator n))
        else match validateValue path (qf_Type (qf_data f)) (n_Operator n) (n_Value n) with
             | Ok _ => Ok count
             | Err e => Err e
             end
    end.

Fixpoint validateNode (r : Registry) (n : Node) (path : string) (depth count : Z) : result Z :=
  if IsGroup n then
    if MaxDepth <? depth then invalid path ("filter nests deeper than " ++ Itoa MaxDepth ++ " levels")
    else if negb (known_op (n_Op n)) then invalid path ("unknown group operator " ++ quote (n_Op n))
    else
      let 'MkNode _ rules _ _ _ := n in
      (fix walk (i : Z) (rules : list Node) (count : Z) : result Z :=
         match rules with
         | [] => Ok count
         | child :: rules =>
             match validateNode r child (path ++ ".rules[" ++ Itoa i ++ "]") (depth + 1) count with
             | Err e => Err e
             | Ok count => walk (i + 1) rules count
             end
         end) 0 rules count
  else validateLeaf r n path count.

Definition Validate (r : Registry) (f : Node) : result () :=
  if IsEmpty f then Ok ()
  else match validateNode r f "filter" 1 0 with Ok _ => Ok () | Err e => Err e end.

(** ** Compilation ([compile.go]) *)

(** What a builder returns: a fragment and its arguments. *)
Definition sql {A} (s : string) (args : list arg) : res A Compiled := Ok (MkCompiled s args).

Definition unsupported (kind operator : string) : result Compiled :=
  invalid "filter" ("unsupported " ++ kind ++ " operator " ++ quote operator).

(** [strings.NewReplacer(`\`, `\\`, `%`, `\%`, `_`, `\_`).Replace]. *)
Definition wildcard (c : ascii) : bool := existsb (Ascii.eqb c) ["\"; "%"; "_"]%char.
Definition escapeLike (s : string) : string :=
  string_of_list_ascii (flat_map (fun c => if wildcard c then ["\"%char; c] else [c]) (list_ascii_of_string s)).

Definition asString (v : any) : string := match v with AString s => s | _ => Sprint v end.

Definition compileText (col : string) (rule : Node) : result Compiled :=
  let op := n_Operator rule in
  let v := n_Value rule in
  if String.eqb op OpEquals then sql (col ++ " = ?") [Bound v]
  else if String.eqb op OpNotEquals then sql ("(" ++ col ++ " IS DISTINCT FROM ?)") [Bound v]
  else if String.eqb op OpContains then sql (col ++ " ILIKE ?") [Bound (AString ("%" ++ escapeLike (asString v) ++ "%"))]
  else if String.eqb op OpStartsWith then sql (col ++ " ILIKE ?") [Bound (AString (escapeLike (asString v) ++ "%"))]
  else if String.eqb op OpIsEmpty then sql ("(" ++ col ++ " IS NULL OR " ++ col ++ " = '')") []
  else if String.eqb op OpIsNotEmpty then sql ("(" ++ col ++ " IS NOT NULL AND " ++ col ++ " <> '')") []
  else unsupported "text" op.

Definition compileNumber (col : string) (rule : Node) : result Compiled :=
  let op := n_Operator rule in
  let v := n_Value rule in
  if String.eqb op OpEq then sql (col ++ " = ?") [Bound v]
  else if String.eqb op OpNeq then sql ("(" ++ col ++ " IS DISTINCT FROM ?)") [Bound v]
  else if String.eqb op OpGt then sql (col ++ " > ?") [Bound v]
  else if String.eqb op OpGte then sql (col ++ " >= ?") [Bound v]
  else if String.eqb op OpLt then sql (col ++ " < ?") [Bound v]
  else if String.eqb op OpLte then sql (col ++ " <= ?") [Bound v]
  else if String.eqb op OpBetween then
    match list_of v with
    | a :: b :: _ => sql (col ++ " BETWEEN ? AND ?") [Bound a; Bound b]
    | _ => Err Panic
    end
  else if String.eqb op OpIsEmpty then sql (col ++ " IS NULL") []
  else unsupported "number" op.

(** A date, or the error of the rule. *)
Definition with_date {A} (v : any) (k : Z * time -> result A) : result A :=
  match parseTime v with Ok d => k d | Err e => invalid "filter" e end.

Definition with_duration {A} (v : any) (k : Z -> result A) : result A :=
  match parseDuration v with Ok d => k d | Err e => invalid "filter" e end.

Definition instant (t : time) : arg := Bound (ATime t).

Definition compileDate (col : string) (rule : Node) (vw : Viewer) : result Compiled :=
  let loc := default UTC (vw_Location vw) in
  let op := n_Operator rule in
  let v := n_Value rule in
  if String.eqb op OpOn then
    with_date v (fun at_ =>
      let start := date_in loc at_.1 0 in
      sql ("(" ++ col ++ " >= ? AND " ++ col ++ " < ?)") [instant start; instant (next_day loc start)])
  else if String.eqb op OpBefore then with_date v (fun at_ => sql (col ++ " < ?") [instant at_.2])
  else if String.eqb op OpAfter then with_date v (fun at_ => sql (col ++ " > ?") [instant at_.2])
  else if String.eqb op OpBetween then
    match list_of v with
    | [] => Err Panic
    | a :: rest =>
        with_date a (fun from =>
          match rest with
          | [] => Err Panic
          | b :: _ => with_date b (fun to => sql ("(" ++ col ++ " >= ? AND " ++ col ++ " <= ?)") [instant from.2; instant to.2])
          end)
    end
  else if String.eqb op OpWithinLast then
    with_duration v (fun d => sql (col ++ " >= ?") [instant (Now + wrap64 (- d))])
  else if String.eqb op OpMoreThanAgo then
    with_duration v (fun d => sql (col ++ " < ?") [instant (Now + wrap64 (- d))])
  else if String.eqb op OpIsEmpty then sql (col ++ " IS NULL") []
  else unsupported "date" op.

Definition compileOption (col : string) (rule : Node) : result Compiled :=
  let op := n_Operator rule in
  let l := Bound (AList (list_of (n_Value rule))) in
  if String.eqb op OpIn then sql (col ++ " IN ?") [l]
  else if String.eqb op OpNotIn then sql ("(" ++ col ++ " IS NULL OR " ++ col ++ " NOT IN ?)") [l]
  else if String.eqb op OpIsEmpty then sql ("(" ++ col ++ " IS NULL OR " ++ col ++ " = '')") []
  else unsupported "option" op.

Definition textArray (v : any) : string * list arg :=
  match list_of v with
  | [] => ("ARRAY[]::text[]", [])
  | l => ("ARRAY[" ++ String.concat ", " (map (fun _ => "?") l) ++ "]::text[]", map (fun x => Bound (AString (asString x))) l)
  end.

Definition compileTags (col : string) (rule : Node) : result Compiled :=
  let op := n_Operator rule in
  let '(arr, args) := textArray (n_Value rule) in
  if String.eqb op OpContainsAny then sql ("jsonb_exists_any(" ++ col ++ ", " ++ arr ++ ")") args
  else if String.eqb op OpContainsAll then sql ("jsonb_exists_all(" ++ col ++ ", " ++ arr ++ ")") args
  else if String.eqb op OpContainsNone then sql ("NOT jsonb_exists_any(" ++ col ++ ", " ++ arr ++ ")") args
  else if String.eqb op OpIsEmpty then sql ("(" ++ col ++ " IS NULL OR jsonb_array_length(" ++ col ++ ") = 0)") []
  else unsupported "tags" op.

Definition compileBoolean (col : string) (rule : Node) : result Compiled :=
  let op := n_Operator rule in
  if String.eqb op OpIsTrue then sql (col ++ " = true") []
  else if String.eqb op OpIsFalse then sql ("(" ++ col ++ " = false OR " ++ col ++ " IS NULL)") []
  else unsupported "boolean" op.

Definition compileUser (col : string) (rule : Node) (vw : Viewer) : result Compiled :=
  let op := n_Operator rule in
  let v := n_Value rule in
  if String.eqb op OpIs then sql (col ++ " = ?") [Bound v]
  else if String.eqb op OpIsNot then sql ("(" ++ col ++ " IS NULL OR " ++ col ++ " <> ?)") [Bound v]
  else if String.eqb op OpIsMe then sql (col ++ " = ?") [BoundID (vw_UserID vw)]
  else if String.eqb op OpIsUnassigned then sql (col ++ " IS NULL") []
  else unsupported "user" op.

Definition CompileLeaf (f : FieldData) (rule : Node) (vw : Viewer) : result Compiled :=
  let col := qf_Column f in
  let t := qf_Type f in
  if String.eqb t TypeText then compileText col rule
  else if String.eqb t TypeNumber then compileNumber col rule
  else if String.eqb t TypeDate then compileDate col rule vw
  else if String.eqb t TypeOption then compileOption col rule
  else if String.eqb t TypeTags then compileTags col rule
  else if String.eqb t TypeBoolean then compileBoolean col rule
  else if String.eqb t TypeUser then compileUser col rule vw
  else invalid "filter" ("field " ++ quote (qf_Key f) ++ " has unsupported type " ++ quote t).

(** The fragments of a group's rules, joined; the empty ones left out. *)
Definition group (op : string) (parts : list Compiled) : Compiled :=
  let joiner := if String.eqb (ToLower op) OpOr then " OR " else " AND " in
  match List.filter (fun c => negb (is_empty (cq_SQL c))) parts with
  | [] => nothing
  | parts => MkCompiled ("(" ++ String.concat joiner (map cq_SQL parts) ++ ")") (flat_map cq_Args parts)
  end.

Definition compileRule (r : Registry) (n : Node) (vw : Viewer) : result Compiled :=
  match Lookup r (n_Field n) with
  | None => invalid "filter" ("unknown field " ++ quote (n_Field n))
  | Some f =>
      match qf_Build f with
      | Some build => build (qf_data f) n vw
      | None => CompileLeaf (qf_data f) n vw
      end
  end.

Fixpoint compileNode (r : Registry) (n : Node) (vw : Viewer) : result Compiled :=
  if IsGroup n then
    let 'MkNode op rules _ _ _ := n in
    match (fix all (rules : list Node) : result (list Compiled) :=
             match rules with
             | [] => Ok []
             | child :: rules =>
                 match compileNode r child vw with
                 | Err e => Err e
                 | Ok c => match all rules with Err e => Err e | Ok cs => Ok (c :: cs) end
                 end
             end) rules with
    | Err e => Err e
    | Ok parts => Ok (group op parts)
    end
  else compileRule r n vw.

(** The contacts a viewer may see. *)
Definition Scope (vw : Viewer) : Compiled :=
  if vw_CanSeeAllContacts vw then nothing
  else MkCompiled
"(contacts.assigned_user_id = ? OR EXISTS (
			SELECT 1 FROM agent_transfers t
			WHERE t.contact_id = contacts.id
			  AND t.organization_id = contacts.organization_id
			  AND t.status = 'active'
			  AND t.agent_id = ?
			  AND t.deleted_at IS NULL
		) OR EXISTS (
			SELECT 1 FROM conversations c
			WHERE c.contact_id = contacts.id
			  AND c.organization_id = contacts.organization_id
			  AND c.assignee_id IS NULL
			  AND c.handling <> 'bot'
			  AND c.status <> 'resolved'
			  AND c.deleted_at IS NULL
			  AND (c.team_id IS NULL OR c.team_id IN (
			        SELECT tm.team_id FROM team_members tm WHERE tm.user_id = ?
			      ))))"
    [BoundID (vw_UserID vw); BoundID (vw_UserID vw); BoundID (vw_UserID vw)].

(** A query is the conditions it has been given, joined by [AND]. *)
Definition Apply (db : list Compiled) (r : Registry) (vw : Viewer) (f : Node) : result (list Compiled) :=
  let q := (db ++ [MkCompiled "contacts.organization_id = ?" [BoundID (vw_OrgID vw)]])%list in
  let scope := Scope vw in
  let q := if is_empty (cq_SQL scope) then q else (q ++ [scope])%list in
  if IsEmpty f then Ok q
  else
    match Validate r f with
    | Err e => Err e
    | Ok _ =>
        match compileNode r f vw with
        | Err e => Err e
        | Ok c => Ok (if is_empty (cq_SQL c) then q else q ++ [c])%list
        end
    end.
End Values.
