(* ===== verification/QueryFields.v ===== *)
(** * The fields of an organization's registry

    What custom fields ([customfields/query.go]), deals ([deals/query.go]) and
    saved segments ([segments.RegisterField]) add to the filter language, the
    registry of a request ([handlers/contacts_search.go contactRegistry]), and
    the order and free-text conditions of the contacts list. *)
From S2P Require Import Prelude GoLib Events Models Text Fields ContactQuery.
#[local] Open Scope string_scope.
#[local] Open Scope Z_scope.

(** A field that brings its own builder. *)
Definition built_field (key label type : string) (options : list Option) (sortable : bool) (build : BuildFunc) : Field :=
  MkField (MkFieldData key label type "" options sortable) (Some build).

(** A fragment put into a larger one, with arguments in front of its own. *)
Definition wrap (before : list arg) (put : string -> string) (r : res failure Compiled) : res failure Compiled :=
  match r with
  | Err e => Err e
  | Ok c => Ok (MkCompiled (put (cq_SQL c)) (before ++ cq_Args c)%list)
  end.

(** ** Custom fields *)

Definition FieldKeyPrefix := "field.".

Definition queryType (fieldType : string) : string :=
  if String.eqb fieldType FieldTypeNumber then TypeNumber
  else if String.eqb fieldType FieldTypeDate then TypeDate
  else if String.eqb fieldType FieldTypeDropdown then TypeOption
  else TypeText.

Definition valueColumn (fieldType : string) : string :=
  if String.eqb fieldType FieldTypeNumber then "value_number"
  else if String.eqb fieldType FieldTypeDate then "value_date"
  else if String.eqb fieldType FieldTypeDropdown then "value_option"
  else "value_text".

Definition value_missing (column : string) : string :=
"NOT EXISTS (
				SELECT 1 FROM custom_field_values cfv
				WHERE cfv.entity_type = 'contact'
				  AND cfv.entity_id = contacts.id
				  AND cfv.field_id = ?
				  AND cfv." ++ column ++ " IS NOT NULL)".

Definition value_exists (condition : string) : string :=
"EXISTS (
			SELECT 1 FROM custom_field_values cfv
			WHERE cfv.entity_type = 'contact'
			  AND cfv.entity_id = contacts.id
			  AND cfv.field_id = ?
			  AND " ++ condition ++ ")".

Section Build.
Context `{QE : QueryEnv}.

Definition innerCondition (t column : string) (rule : Node) (vw : Viewer) : res failure Compiled :=
  CompileLeaf (MkFieldData "cfv" "" t ("cfv." ++ column) [] false) rule vw.

Definition buildFor (def : CustomFieldDefinition) : BuildFunc := fun f rule vw =>
  let column := valueColumn (cd_Type def) in
  if String.eqb (n_Operator rule) OpIsEmpty then sql (value_missing column) [BoundID (cd_ID def)]
  else wrap [BoundID (cd_ID def)] value_exists (innerCondition (qf_Type f) column rule vw).

(** The choices of an option that is an object. *)
Definition option_choice (o : any) : option Option :=
  match o with
  | AMap m =>
      let text key := match index m key with Some (AString s) => s | _ => "" end in
      Some (MkOption (text "value") "" (text "label"))
  | _ => None
  end.

Definition fieldFor (def : CustomFieldDefinition) : Field :=
  let dropdown := String.eqb (cd_Type def) FieldTypeDropdown in
  built_field (FieldKeyPrefix ++ cd_Key def) (cd_Label def) (queryType (cd_Type def))
    (if dropdown then omap option_choice (cd_Options def) else []) (negb dropdown) (buildFor def).

Definition RegisterFields (defs : list CustomFieldDefinition) (r : gmap string Field) : option (gmap string Field) :=
  RegisterAll (map fieldFor (List.filter (fun def => negb (IsArchived def)) defs)) r.

(** ** Deals *)

Definition dealExists (condition : string) : string :=
"EXISTS (
		SELECT 1 FROM deals d
		WHERE d.contact_id = contacts.id
		  AND d.deleted_at IS NULL
		  AND " ++ condition ++ ")".

Definition existsBuild (condition : string) (args : list arg) : BuildFunc := fun _ rule _ =>
  let exists_ := dealExists condition in
  if String.eqb (n_Operator rule) OpIsFalse then sql ("NOT " ++ exists_) args else sql exists_ args.

Definition dealOptionBuild (column : string) : BuildFunc := fun f rule vw =>
  let proxy := MkFieldData (qf_Key f) "" TypeOption column [] false in
  let negate := String.eqb (n_Operator rule) OpNotIn in
  let rule := if negate then set_n_Operator OpIn rule else rule in
  wrap [] (fun s => if negate then "NOT " ++ dealExists s else dealExists s) (CompileLeaf proxy rule vw).

Context `{UT : UuidText}.

Definition deal_fields (stages : list PipelineStage) (pipelines : list Pipeline) : list Field :=
  [built_field "deal.has_open" "filters.fields.deal_has_open" TypeBoolean [] false
     (existsBuild "d.status = ?" [Bound (AString DealOpen)]);
   built_field "deal.stage_id" "filters.fields.deal_stage" TypeOption
     (map (fun s => MkOption (uuid_String (st_ID s)) "" (st_Name s)) stages) false (dealOptionBuild "d.stage_id");
   built_field "deal.pipeline_id" "filters.fields.deal_pipeline" TypeOption
     (map (fun p => MkOption (uuid_String (pl_ID p)) "" (pl_Name p)) pipelines) false (dealOptionBuild "d.pipeline_id");
   built_field "deal.status" "filters.fields.deal_status" TypeOption
     [MkOption DealOpen "" "Open"; MkOption DealWon "" "Won"; MkOption DealLost "" "Lost"] false (dealOptionBuild "d.status")].

Definition RegisterDealFields (stages : list PipelineStage) (pipelines : list Pipeline) (r : gmap string Field) : option (gmap string Field) :=
  RegisterAll (deal_fields stages pipelines) r.

(** ** Segments *)

Definition FieldKey := "segment".

Definition segment_field (options : list Option) : Field :=
  built_field FieldKey "segments.segment" TypeSegment options false
    (fun _ _ _ => Err (Errorf "segments: reference was not expanded before compiling")).

(** Each segment by its id and name. *)
Definition RegisterField (available : list (uuid * string)) (r : gmap string Field) : option (gmap string Field) :=
  Register (segment_field (map (fun s => MkOption (uuid_String s.1) "" s.2) available)) r.

(** ** The registry of a request, from the rows it loads *)

Definition contactRegistry (defs : list CustomFieldDefinition) (pipelines : list (Pipeline * list PipelineStage))
    (saved : list (uuid * string)) : option (gmap string Field) :=
  r ← NewRegistry;
  r ← RegisterFields defs r;
  r ← match pipelines with
      | [] => Some r
      | _ => RegisterDealFields (flat_map snd pipelines) (map fst pipelines) r
      end;
  RegisterField saved r.
End Build.

(** ** The contacts list *)

Definition contactSearchDefaultLimit : Z := 50.
Definition contactSearchMaxLimit : Z := 200.
Definition contactSearchMaxTerm : nat := 200.

Definition search_limit (limit : Z) : Z := Z.min contactSearchMaxLimit (if limit <=? 0 then contactSearchDefaultLimit else limit).

Definition applyContactSearchTerm (query : list Compiled) (term : string) : list Compiled :=
  let term := TrimSpace term in
  if is_empty term then query
  else
    let term := String.substring 0 contactSearchMaxTerm term in
    let pattern := Bound (AString ("%" ++ escapeLike term ++ "%")) in
    (query ++ [MkCompiled
       "contacts.profile_name ILIKE ? OR contacts.phone_number ILIKE ? OR contacts.phone_normalized ILIKE ?"
       [pattern; pattern; pattern]])%list.

Definition sort_clause (r : gmap string Field) (s : string * string) : option string :=
  column ← SortColumn r s.1;
  Some (column ++ " " ++ (if String.eqb (ToLower s.2) "desc" then "DESC" else "ASC") ++ " NULLS LAST").

Definition contactSortClause (r : gmap string Field) (sort : list (string * string)) : string :=
  match omap (sort_clause r) sort with
  | [] => "contacts.last_message_at DESC NULLS LAST, contacts.created_at DESC"
  | clauses => String.concat ", " (clauses ++ ["contacts.id DESC"])
  end.
