(* ===== verification/ContactQueryProps.v ===== *)
(** * Properties of the filter language

    What a field promises to the compiler ([FieldLaws]), that every registry a
    request builds keeps the promise, and what follows for whole filters: the
    text of a query does not depend on the values, placeholders and arguments
    agree in number, a validated filter is small and compiles. *)
From S2P Require Import Prelude GoLib Events Models Text Fields ContactQuery QueryFields.
#[local] Open Scope string_scope.
#[local] Open Scope Z_scope.

(** ** The leaves of a filter *)

Fixpoint leaves (n : Node) : list Node :=
  if IsGroup n then let 'MkNode _ rules _ _ _ := n in flat_map leaves rules else [n].

(** How deep groups nest. *)
Fixpoint depth (n : Node) : Z :=
  if IsGroup n then let 'MkNode _ rules _ _ _ := n in 1 + foldr Z.max 0 (map depth rules) else 0.

(** A value with its contents erased: what is left is whether it is a list, and its length. *)
Definition shape (v : any) : any := match v with AList l => AList (map (fun _ => ANil) l) | _ => ANil end.

Fixpoint skeleton (n : Node) : Node :=
  let 'MkNode op rules field operator value := n in MkNode op (map skeleton rules) field operator (shape value).

(** Placeholders of a fragment. *)
Fixpoint holes (s : string) : nat :=
  match s with EmptyString => 0 | String c s => (if Ascii.eqb c "?" then 1 else 0) + holes s end%nat.

Definition balanced (c : Compiled) : Prop := holes (cq_SQL c) = length (cq_Args c).

(** The parameters a driver sends: a list is one for each element. *)
Definition params_of (a : arg) : nat := match a with Bound (AList l) => length l | _ => 1 end.
Definition params (c : Compiled) : nat := list_sum (map params_of (cq_Args c)).

(** A list only where the operator takes one, and no list inside it. *)
Definition is_list (v : any) : bool := match v with AList _ => true | _ => false end.
Definition plain (n : Node) : bool :=
  if from_list (n_Operator n) || String.eqb (n_Operator n) OpBetween then negb (existsb is_list (list_of (n_Value n)))
  else negb (is_list (n_Value n)).

(** ** What a field promises *)

Section Laws.
Context `{QE : QueryEnv}.

Definition leaf (f : Field) (n : Node) (vw : Viewer) : res failure Compiled :=
  match qf_Build f with Some build => build (qf_data f) n vw | None => CompileLeaf (qf_data f) n vw end.

(** A rule [Validate] lets through. *)
Definition passes (f : Field) (n : Node) : Prop :=
  Supports (qf_data f) (n_Operator n) = true /\
  exists path, validateValue path (qf_Type (qf_data f)) (n_Operator n) (n_Value n) = Ok ().

(** The rules that may still be refused when they are compiled. *)
Definition late (f : Field) (n : Node) : bool :=
  String.eqb (qf_Type (qf_data f)) TypeSegment
  || (String.eqb (qf_Type (qf_data f)) TypeDate && String.eqb (n_Operator n) OpBetween).

Record FieldLaws (f : Field) : Prop := {
  law_balanced : forall n vw c, leaf f n vw = Ok c -> balanced c;
  law_data : forall n n' vw vw' c c', skeleton n = skeleton n' ->
    leaf f n vw = Ok c -> leaf f n' vw' = Ok c' -> cq_SQL c = cq_SQL c';
  law_compiles : forall n vw, passes f n ->
    leaf f n vw <> Err Panic /\ (late f n = false -> exists c, leaf f n vw = Ok c);
  law_params : forall n vw c, passes f n -> plain n = true -> leaf f n vw = Ok c -> (params c <= 201)%nat
}.

Definition registry_ok (r : gmap string Field) : Prop := map_Forall (fun _ => FieldLaws) r.

Lemma registry_ok_lookup r key f : registry_ok r -> Lookup r key = Some f -> FieldLaws f.
Proof. intros Hr. apply Hr. Qed.

Lemma registry_ok_register f r r' : FieldLaws f -> registry_ok r -> Register f r = Some r' -> registry_ok r'.
Proof.
  intros Hf Hr. unfold Register. repeat case_match; try done. intros [= <-]. by apply map_Forall_insert_2.
Qed.

Lemma registry_ok_all fs r r' : Forall FieldLaws fs -> registry_ok r -> RegisterAll fs r = Some r' -> registry_ok r'.
Proof.
  intros Hfs. revert r. induction Hfs as [|f fs Hf _ IH]; simpl; intros r Hr; [by intros [= <-]|].
  destruct (Register f r) as [r1|] eqn:E; [|done]. simpl. apply IH. by eapply registry_ok_register.
Qed.
End Laws.

(** ** Counting placeholders *)

Lemma holes_app a b : holes (a ++ b) = (holes a + holes b)%nat.
Proof. induction a as [|c a IH]; simpl; [done|]. rewrite IH. lia. Qed.

Lemma holes_concat sep l : holes sep = 0%nat -> holes (String.concat sep l) = list_sum (map holes l).
Proof.
  intros Hs. induction l as [|s l IH]; [done|]. destruct l as [|t l]; [simpl; lia|].
  change (String.concat sep (s :: t :: l)) with (s ++ (sep ++ String.concat sep (t :: l))).
  rewrite !holes_app, Hs, IH. done.
Qed.

Lemma list_sum_map {A} (f g : A -> nat) l : Forall (fun x => f x = g x) l -> list_sum (map f l) = list_sum (map g l).
Proof. induction 1; simpl; lia. Qed.

Lemma length_flat_map' {A B} (f : A -> list B) l : length (flat_map f l) = list_sum (map (fun x => length (f x)) l).
Proof. induction l as [|x l IH]; simpl; [done|]. by rewrite length_app, IH. Qed.

#[export] Hint Rewrite holes_app : crm.

(** ** The operators of a column *)

Section Leaf.
Context `{QE : QueryEnv}.

(** The two sides of a comparison of operators, one at a time. *)
Ltac by_operator :=
  repeat match goal with
  | |- context [if String.eqb ?op ?lit then _ else _] => destruct (String.eqb op lit) eqn:?
  | Hc : context [if String.eqb ?op ?lit then _ else _] |- _ => destruct (String.eqb op lit) eqn:?
  end.

Ltac open_leaf := unfold CompileLeaf, compileText, compileNumber, compileDate, compileOption, compileTags, compileBoolean,
  compileUser, with_date, with_duration, unsupported, invalid, sql.

Lemma textArray_balanced v arr args : textArray v = (arr, args) -> holes arr = length args.
Proof.
  unfold textArray. destruct (list_of v) as [|x l]; intros [<- <-]%pair_equal_spec; [done|].
  rewrite !holes_app, holes_concat by done. change (holes "ARRAY[") with 0%nat. change (holes "]::text[]") with 0%nat.
  rewrite length_map. rewrite Nat.add_0_r. cbn [plus]. induction (x :: l) as [|y r IH]; simpl; [done|]. f_equal. exact IH.
Qed.

Lemma CompileLeaf_balanced f n vw c : holes (qf_Column f) = 0%nat -> CompileLeaf f n vw = Ok c -> balanced c.
Proof.
  intros Hcol. open_leaf. unfold balanced. destruct (textArray (n_Value n)) as [arr args] eqn:Ht.
  apply textArray_balanced in Ht.
  by_operator; try done; repeat case_match; try done; intros [= <-]; cbn [cq_SQL cq_Args length];
    autorewrite with crm; rewrite ?Hcol, ?Ht; reflexivity || (simpl; lia).
Qed.

Lemma skeleton_op n n' : skeleton n = skeleton n' -> n_Operator n = n_Operator n'.
Proof. destruct n, n'. simpl. by intros [=]. Qed.

Lemma skeleton_shape n n' : skeleton n = skeleton n' -> shape (n_Value n) = shape (n_Value n').
Proof. destruct n, n'. simpl. by intros [=]. Qed.

Lemma shape_list v v' : shape v = shape v' -> length (list_of v) = length (list_of v').
Proof.
  destruct v, v'; simpl; try done. intros [= E]. apply (f_equal length) in E. by rewrite !length_map in E.
Qed.

Lemma textArray_data v v' : shape v = shape v' -> (textArray v).1 = (textArray v').1.
Proof.
  intros E%shape_list. unfold textArray. destruct (list_of v) as [|x l], (list_of v') as [|x' l']; try done.
  simpl in E. injection E as E. cbn [fst]. f_equal. f_equal. f_equal. cbn [map]. f_equal.
  revert l' E. induction l as [|y l IH]; intros [|y' l'] E; try done. simpl. f_equal. apply IH. by injection E.
Qed.

Lemma CompileLeaf_data f n n' vw vw' c c' : skeleton n = skeleton n' ->
  CompileLeaf f n vw = Ok c -> CompileLeaf f n' vw' = Ok c' -> cq_SQL c = cq_SQL c'.
Proof.
  intros Hs. pose proof (textArray_data _ _ (skeleton_shape _ _ Hs)) as Ht. apply skeleton_op in Hs. open_leaf. rewrite Hs.
  destruct (textArray (n_Value n)) as [arr args], (textArray (n_Value n')) as [arr' args']. simpl in Ht. subst arr'.
  by_operator; try done; repeat case_match; try done; intros [= <-] [= <-]; done.
Qed.

(** ** Validated rules *)

Lemma validate_list path t op v : from_list op = true -> String.eqb t TypeSegment = false ->
  validateValue path t op v = Ok () -> exists l, v = AList l /\ (0 < length l <= 200)%nat.
Proof.
  intros Hop Ht. unfold validateValue. rewrite Hop, Ht. destruct (operatorNeedsValue op) eqn:Hn; simpl.
  - destruct v as [| | | | | |l|]; try done. simpl. destruct l as [|x l]; [done|].
    destruct (MaxListLen <? Z.of_nat (length (x :: l))) eqn:El; [done|]. breflect. unfold MaxListLen in El.
    intros _. exists (x :: l). split; [done|]. simpl in *. lia.
  - exfalso. unfold from_list in Hop. rewrite !existsb_exists in Hop. destruct Hop as (o & Ho & ->%String.eqb_eq).
    simpl in Ho. by repeat destruct Ho as [<-|Ho].
Qed.

Lemma validate_pair path t v : String.eqb t TypeSegment = false ->
  validateValue path t OpBetween v = Ok () -> exists a b, v = AList [a; b].
Proof.
  intros Ht. unfold validateValue. rewrite Ht. simpl. destruct v as [| | | | | |l|]; try done.
  destruct l as [|a [|b [|x l]]]; simpl; try done. intros _. by exists a, b.
Qed.

Lemma validate_duration path t op v : String.eqb t TypeSegment = false -> op = OpWithinLast \/ op = OpMoreThanAgo ->
  validateValue path t op v = Ok () -> exists d, parseDuration v = Ok d.
Proof.
  intros Ht Hop. unfold validateValue. rewrite Ht. destruct Hop as [-> | ->]; simpl;
    (destruct v; try done; destruct (parseDuration _) as [d|e]; [by exists d|done]).
Qed.

Lemma validate_date path op v : op = OpOn \/ op = OpBefore \/ op = OpAfter ->
  validateValue path TypeDate op v = Ok () -> exists d, parseTime v = Ok d.
Proof.
  intros Hop. assert (operatorNeedsValue op = true /\ from_list op = false /\ String.eqb op OpBetween = false /\
    String.eqb op OpWithinLast || String.eqb op OpMoreThanAgo = false) as (E1 & E2 & E3 & E4)
    by (destruct Hop as [-> | [-> | ->]]; done).
  unfold validateValue. rewrite E1, E2, E3, E4. destruct v; try done; destruct (too_long _); try done;
    destruct (parseTime _) as [d|e]; try done; by exists d.
Qed.

Lemma Supports_inv f op : Supports f op = true -> exists ops, In (qf_Type f, ops) operatorsByType /\ In op ops.
Proof.
  unfold Supports, OperatorsFor, operators. intros Hs. apply existsb_exists in Hs as (o & Ho & ->%String.eqb_eq).
  destruct (List.find _ operatorsByType) as [[t ops]|] eqn:E; [|done]. apply find_some in E as [Hin Ht%String.eqb_eq].
  simpl in Ht, Ho. subst t. by exists ops.
Qed.

(** A type and an operator of the table, one by one. *)
Ltac each_operator Hs :=
  apply Supports_inv in Hs as (? & Hs & Hop); unfold operatorsByType in Hs; cbn [In] in Hs;
  repeat (destruct Hs as [Hs|Hs]; [injection Hs as Ht <-; cbn [In] in Hop;
    repeat (destruct Hop as [Hop|Hop]; [|]); try done|]); [.. | done].

Lemma CompileLeaf_compiles f n vw path :
  Supports f (n_Operator n) = true -> String.eqb (qf_Type f) TypeSegment = false ->
  validateValue path (qf_Type f) (n_Operator n) (n_Value n) = Ok () ->
  CompileLeaf f n vw <> Err Panic /\
  (String.eqb (qf_Type f) TypeDate && String.eqb (n_Operator n) OpBetween = false -> exists c, CompileLeaf f n vw = Ok c).
Proof.
  intros Hs Hseg Hv. open_leaf. each_operator Hs; rewrite <- Ht, <- Hop in *; try done; simpl in Hseg |- *;
    try (destruct (textArray _)); try (split; [done|intros _; by eexists]).
  - destruct (validate_pair path TypeNumber _ eq_refl Hv) as (a & b & ->). split; [done|intros _; by eexists].
  - destruct (validate_date _ OpOn _ ltac:(auto) Hv) as [d ->]. split; [done|intros _; by eexists].
  - destruct (validate_date _ OpBefore _ ltac:(auto) Hv) as [d ->]. split; [done|intros _; by eexists].
  - destruct (validate_date _ OpAfter _ ltac:(auto) Hv) as [d ->]. split; [done|intros _; by eexists].
  - destruct (validate_pair path TypeDate _ eq_refl Hv) as (a & b & ->). simpl. split; [|done]. by repeat case_match.
  - destruct (validate_duration path TypeDate OpWithinLast _ eq_refl ltac:(auto) Hv) as [d ->]. split; [done|intros _; by eexists].
  - destruct (validate_duration path TypeDate OpMoreThanAgo _ eq_refl ltac:(auto) Hv) as [d ->]. split; [done|intros _; by eexists].
Qed.

Lemma params_textArray v : params (MkCompiled "" (textArray v).2) = length (list_of v).
Proof.
  unfold params, textArray. destruct (list_of v) as [|x l]; [done|]. cbn [cq_Args snd].
  induction (x :: l) as [|y r IH]; simpl; [done|]. f_equal. exact IH.
Qed.

Lemma CompileLeaf_params f n vw path c :
  Supports f (n_Operator n) = true -> String.eqb (qf_Type f) TypeSegment = false ->
  validateValue path (qf_Type f) (n_Operator n) (n_Value n) = Ok () -> plain n = true ->
  CompileLeaf f n vw = Ok c -> (params c <= 200)%nat.
Proof.
  intros Hs Hseg Hv Hp. pose proof (params_textArray (n_Value n)) as Hta. open_leaf. unfold plain in Hp.
  each_operator Hs; rewrite <- Ht, <- Hop in *; try done; simpl in Hseg, Hp |- *;
    try (apply validate_list in Hv as (l & El & Hl); [|done..]; rewrite El in *; change (list_of (AList l)) with l in *);
    try (destruct (textArray _) as [arr args]; simpl in Hta); repeat case_match; try done;
    intros [= <-]; unfold params in *; simpl in *; repeat case_match; simpl in *; try done; lia.
Qed.
End Leaf.

(** ** The fields that keep the promise *)

Section Fields_ok.
Context `{QE : QueryEnv}.

Lemma column_laws f : qf_Build f = None -> holes (qf_Column (qf_data f)) = 0%nat ->
  qf_Type (qf_data f) <> TypeSegment -> FieldLaws f.
Proof.
  intros Hb Hcol Hseg%String.eqb_neq. split; unfold leaf; rewrite Hb.
  - intros n vw c. by apply CompileLeaf_balanced.
  - intros n n' vw vw' c c'. apply CompileLeaf_data.
  - intros n vw (Hs & path & Hv). unfold late. rewrite Hseg. by apply (CompileLeaf_compiles _ _ _ path).
  - intros n vw c (Hs & path & Hv) Hp Hc. eapply Nat.le_trans; [by apply (CompileLeaf_params _ _ _ _ _ Hs Hseg Hv Hp Hc)|lia].
Qed.

Lemma core_fields_ok : Forall FieldLaws core_fields.
Proof. unfold core_fields. repeat apply Forall_cons_2; [by apply column_laws ..|apply Forall_nil_2]. Qed.

Lemma wrap_ok_inv before put r c : wrap before put r = Ok c ->
  exists c0, r = Ok c0 /\ c = MkCompiled (put (cq_SQL c0)) (before ++ cq_Args c0)%list.
Proof. destruct r as [c0|e]; simpl; [|done]. intros [= <-]. by exists c0. Qed.

Lemma wrap_compiles before put r (late : bool) :
  r <> Err Panic /\ (late = false -> exists c, r = Ok c) ->
  wrap before put r <> Err Panic /\ (late = false -> exists c, wrap before put r = Ok c).
Proof. intros [Hp Ho]. split; [destruct r; simpl; congruence|]. intros [c ->]%Ho. by eexists. Qed.

Lemma valueColumn_plain t : holes (valueColumn t) = 0%nat.
Proof. unfold valueColumn. by repeat case_match. Qed.

Lemma queryType_not_segment t : String.eqb (queryType t) TypeSegment = false.
Proof. unfold queryType. by repeat case_match. Qed.

Lemma Supports_type f g op : qf_Type f = qf_Type g -> Supports f op = Supports g op.
Proof. unfold Supports. by intros ->. Qed.

Lemma custom_field_laws def : FieldLaws (fieldFor def).
Proof.
  pose proof (queryType_not_segment (cd_Type def)) as Hseg. pose proof (valueColumn_plain (cd_Type def)) as Hcol.
  set (proxy := MkFieldData "cfv" "" (queryType (cd_Type def)) ("cfv." ++ valueColumn (cd_Type def)) [] false).
  assert (holes (qf_Column proxy) = 0%nat) as Hproxy by exact Hcol.
  split; unfold leaf, fieldFor, built_field, buildFor, innerCondition, sql; cbn [qf_Build qf_data qf_Type]; fold proxy.
  - intros n vw c. destruct (String.eqb _ OpIsEmpty).
    + intros [= <-]. unfold balanced, value_missing. cbn [cq_SQL cq_Args length]. by rewrite !holes_app, Hcol.
    + intros (c0 & Hc & ->)%wrap_ok_inv. apply CompileLeaf_balanced in Hc; [|done]. unfold balanced, value_exists in *.
      cbn [cq_SQL cq_Args length app]. rewrite !holes_app, Hc. simpl. lia.
  - intros n n' vw vw' c c' Hs. rewrite <- (skeleton_op _ _ Hs). destruct (String.eqb _ OpIsEmpty).
    + by intros [= <-] [= <-].
    + intros (c0 & Hc & ->)%wrap_ok_inv (c0' & Hc' & ->)%wrap_ok_inv. simpl. f_equal.
      by apply (CompileLeaf_data _ _ _ _ _ _ _ Hs Hc Hc').
  - intros n vw (Hs & path & Hv). destruct (String.eqb _ OpIsEmpty); [split; [done|by eexists]|]. apply wrap_compiles.
    unfold late. cbn [qf_data qf_Type fieldFor built_field]. rewrite Hseg. by apply (CompileLeaf_compiles proxy _ _ path).
  - intros n vw c (Hs & path & Hv) Hp. destruct (String.eqb _ OpIsEmpty); [intros [= <-]; unfold params; simpl; lia|].
    intros (c0 & Hc & ->)%wrap_ok_inv. apply (CompileLeaf_params proxy _ _ path) in Hc; [|done..]. unfold params in *. simpl. lia.
Qed.

Lemma existsBuild_laws key label condition arg : holes condition = 1%nat ->
  params_of arg = 1%nat -> FieldLaws (built_field key label TypeBoolean [] false (existsBuild condition [arg])).
Proof.
  intros Hcond Harg. split; unfold leaf, built_field, existsBuild, sql; cbn [qf_Build qf_data].
  - intros n vw c. case_match; intros [= <-]; unfold balanced, dealExists; cbn [cq_SQL cq_Args length]; rewrite !holes_app, Hcond; done.
  - intros n n' vw vw' c c' Hs. rewrite <- (skeleton_op _ _ Hs). case_match; by intros [= <-] [= <-].
  - intros n vw _. case_match; (split; [done|by eexists]).
  - intros n vw c _ _. case_match; intros [= <-]; unfold params; simpl; rewrite Harg; lia.
Qed.

Lemma not_in_as_in path t v : validateValue path t OpNotIn v = Ok () -> validateValue path t OpIn v = Ok ().
Proof. unfold validateValue. simpl. by repeat case_match. Qed.

Lemma skeleton_set_op op n n' : skeleton n = skeleton n' -> skeleton (set_n_Operator op n) = skeleton (set_n_Operator op n').
Proof. destruct n, n'. simpl. intros [= -> Hr -> _ Hv]. by rewrite Hr, Hv. Qed.

Lemma dealOptionBuild_laws key label column options : holes column = 0%nat ->
  FieldLaws (built_field key label TypeOption options false (dealOptionBuild column)).
Proof.
  intros Hcol. set (proxy := MkFieldData key "" TypeOption column [] false).
  split; unfold leaf, built_field, dealOptionBuild; cbn [qf_Build qf_data qf_Key]; fold proxy.
  - intros n vw c (c0 & Hc & ->)%wrap_ok_inv. apply CompileLeaf_balanced in Hc; [|done]. unfold balanced, dealExists in *.
    cbn [cq_SQL cq_Args app]. case_match; rewrite !holes_app, Hc; simpl; lia.
  - intros n n' vw vw' c c' Hs. rewrite <- (skeleton_op _ _ Hs).
    intros (c0 & Hc & ->)%wrap_ok_inv (c0' & Hc' & ->)%wrap_ok_inv. simpl.
    assert (cq_SQL c0 = cq_SQL c0') as ->; [|done]. refine (CompileLeaf_data _ _ _ _ _ _ _ _ Hc Hc'). case_match; [by apply skeleton_set_op|done].
  - intros n vw (Hs & path & Hv). apply wrap_compiles. unfold late. cbn [qf_data qf_Type].
    destruct n as [op rules field operator v]. cbn [n_Operator n_Value set_n_Operator] in *.
    destruct (String.eqb_spec operator OpNotIn) as [->|]; apply (CompileLeaf_compiles proxy _ _ path); try done.
    by apply not_in_as_in.
  - intros n vw c (Hs & path & Hv) Hp (c0 & Hc & ->)%wrap_ok_inv.
    destruct n as [op rules field operator v]. cbn [n_Operator n_Value set_n_Operator] in *.
    assert (params c0 <= 200)%nat; [|unfold params in *; simpl; lia].
    destruct (String.eqb_spec operator OpNotIn) as [->|]; revert Hc; apply (CompileLeaf_params proxy _ _ path); try done.
    by apply not_in_as_in.
Qed.

Lemma segment_laws options : FieldLaws (segment_field options).
Proof. split; unfold leaf; simpl; try done. Qed.

Context `{UT : UuidText}.

Lemma deal_fields_ok stages pipelines : Forall FieldLaws (deal_fields stages pipelines).
Proof. unfold deal_fields. repeat apply Forall_cons_2; [by apply existsBuild_laws|by apply dealOptionBuild_laws ..|apply Forall_nil_2]. Qed.

(** Every registry a request builds keeps the promise. *)
Lemma contactRegistry_ok defs pipelines saved r : contactRegistry defs pipelines saved = Some r -> registry_ok r.
Proof.
  unfold contactRegistry, NewRegistry, RegisterFields, RegisterField.
  destruct (RegisterAll core_fields ∅) as [r1|] eqn:E1; [|done]. cbn [mbind option_bind].
  apply registry_ok_all in E1; [|apply core_fields_ok|apply map_Forall_empty].
  destruct (RegisterAll _ r1) as [r2|] eqn:E2; [|done]. cbn [mbind option_bind].
  apply registry_ok_all in E2; [|apply Forall_map, Forall_true, custom_field_laws|done].
  destruct (match pipelines with [] => Some r2 | _ => _ end) as [r3|] eqn:E3; [|done]. cbn [mbind option_bind].
  assert (registry_ok r3) as H3.
  { destruct pipelines; [by injection E3 as <-|]. by apply registry_ok_all in E3; [|apply deal_fields_ok|]. }
  by apply registry_ok_register, H3; apply segment_laws.
Qed.
End Fields_ok.

(** ** Whole filters *)

Section Filters.
Context `{QE : QueryEnv}.
Variable r : gmap string Field.

Definition validateRules (path : string) (depth : Z) : Z -> list Node -> Z -> res failure Z :=
  fix walk i rules count :=
    match rules with
    | [] => Ok count
    | child :: rules =>
        match validateNode r child (path ++ ".rules[" ++ Itoa i ++ "]") (depth + 1) count with
        | Err e => Err e
        | Ok count => walk (i + 1) rules count
        end
    end.

Lemma validateNode_group n path d c : IsGroup n = true ->
  validateNode r n path d c =
    if MaxDepth <? d then invalid path ("filter nests deeper than " ++ Itoa MaxDepth ++ " levels")
    else if negb (known_op (n_Op n)) then invalid path ("unknown group operator " ++ quote (n_Op n))
    else validateRules path d 0 (n_Rules n) c.
Proof. intros Hg. destruct n. cbn [validateNode]. rewrite Hg. reflexivity. Qed.

Lemma validateNode_leaf n path d c : IsGroup n = false -> validateNode r n path d c = validateLeaf r n path c.
Proof. intros Hg. destruct n. unfold validateNode at 1. by rewrite Hg. Qed.

Lemma leaves_group n : IsGroup n = true -> leaves n = flat_map leaves (n_Rules n).
Proof. intros Hg. destruct n. unfold leaves at 1. by rewrite Hg. Qed.
Lemma leaves_leaf n : IsGroup n = false -> leaves n = [n].
Proof. intros Hg. destruct n. unfold leaves at 1. by rewrite Hg. Qed.
Lemma depth_group n : IsGroup n = true -> depth n = 1 + foldr Z.max 0 (map depth (n_Rules n)).
Proof. intros Hg. destruct n. unfold depth at 1. by rewrite Hg. Qed.
Lemma depth_leaf n : IsGroup n = false -> depth n = 0.
Proof. intros Hg. destruct n. unfold depth at 1. by rewrite Hg. Qed.

(** A rule that names a registered field and passes its checks. *)
Definition valid_leaf (n : Node) : Prop := exists f, Lookup r (n_Field n) = Some f /\ passes f n.

Lemma validateLeaf_inv n path c c' : validateLeaf r n path c = Ok c' -> c' = c + 1 /\ c' <= 50 /\ valid_leaf n.
Proof.
  unfold validateLeaf. destruct (MaxRules <? c + 1) eqn:Ec; [done|]. destruct (Lookup r (n_Field n)) as [f|] eqn:El; [|done].
  destruct (Supports (qf_data f) (n_Operator n)) eqn:Es; [|done]. cbn [negb].
  destruct (validateValue _ _ _ _) as [[]|] eqn:Ev; [|done]. intros [= <-]. breflect. unfold MaxRules in Ec.
  split_and!; [done|lia|]. exists f. split; [done|]. split; [done|by exists path].
Qed.

Lemma validateNode_inv n : forall path d c c', validateNode r n path d c = Ok c' -> c <= 50 ->
  c' = c + Z.of_nat (length (leaves n)) /\ c' <= 50 /\ (depth n = 0 \/ d + depth n <= 4) /\ Forall valid_leaf (leaves n).
Proof.
  induction n as [op rules field operator value IH] using Node_ind. set (n := MkNode op rules field operator value).
  intros path d c c'. destruct (IsGroup n) eqn:Hg.
  - rewrite validateNode_group, leaves_group, depth_group by done. destruct (MaxDepth <? d) eqn:Hd; [done|].
    destruct (negb _); [done|]. breflect. unfold MaxDepth in Hd. cbn [n_Rules n]. clear Hg n. generalize 0 at 1 as i. revert c.
    induction IH as [|child rules Hchild _ IHr]; intros c i Hv Hc; simpl in Hv.
    { injection Hv as <-. simpl. split_and!; [lia..|constructor]. }
    destruct (validateNode r child _ _ c) as [c1|] eqn:E1; [|done].
    apply Hchild in E1 as (-> & Hc1 & Hd1 & Hl1); [|done]. apply IHr in Hv as (-> & Hc' & Hd' & Hl'); [|done].
    cbn [flat_map map foldr]. rewrite length_app. split_and!; [lia|done|right|by apply Forall_app].
    assert (0 <= foldr Z.max 0 (map depth rules)) by (clear; induction rules; simpl; lia). lia.
  - rewrite validateNode_leaf, leaves_leaf, depth_leaf by done. intros (-> & Hc & Hl)%validateLeaf_inv _. simpl.
    split_and!; [lia|done|by left|by repeat constructor].
Qed.

Lemma Validate_inv f : Validate r f = Ok () -> IsEmpty f = false ->
  (length (leaves f) <= 50)%nat /\ depth f <= 3 /\ Forall valid_leaf (leaves f).
Proof.
  unfold Validate. intros Hv He. rewrite He in Hv. destruct (validateNode _ _ _ _ _) as [c|] eqn:E; [|done].
  apply validateNode_inv in E as (-> & Hc & Hd & Hl); [|done]. split_and!; [lia|lia|done].
Qed.

(** ** Compiling *)

Definition compileRules (vw : Viewer) : list Node -> res failure (list Compiled) :=
  fix all rules :=
    match rules with
    | [] => Ok []
    | child :: rules =>
        match compileNode r child vw with
        | Err e => Err e
        | Ok c => match all rules with Err e => Err e | Ok cs => Ok (c :: cs) end
        end
    end.

Lemma compileNode_group n vw : IsGroup n = true ->
  compileNode r n vw = match compileRules vw (n_Rules n) with Err e => Err e | Ok parts => Ok (group (n_Op n) parts) end.
Proof. intros Hg. destruct n. cbn [compileNode]. rewrite Hg. reflexivity. Qed.

Lemma compileNode_leaf n vw : IsGroup n = false -> compileNode r n vw = compileRule r n vw.
Proof. intros Hg. destruct n. unfold compileNode at 1. by rewrite Hg. Qed.

Lemma compileRules_inv rules vw cs :
  compileRules vw rules = Ok cs -> Forall2 (fun n c => compileNode r n vw = Ok c) rules cs.
Proof.
  revert cs. induction rules as [|n rules IH]; simpl; intros cs; [intros [= <-]; constructor|].
  destruct (compileNode r n vw) as [c|] eqn:E; [|done]. fold (compileRules vw). destruct (compileRules vw rules) as [cs1|]; [|done].
  intros [= <-]. constructor; [done|by apply IH].
Qed.

Definition filled (c : Compiled) : bool := negb (is_empty (cq_SQL c)).

Lemma group_balanced op parts : Forall balanced parts -> balanced (group op parts).
Proof.
  intros Hp. unfold group. fold filled. assert (Forall balanced (List.filter filled parts)) as Hf.
  { apply Forall_forall. intros c Hc. rewrite list_elem_of_In, filter_In in Hc. rewrite Forall_forall in Hp.
    apply Hp, list_elem_of_In, Hc. }
  destruct (List.filter filled parts) as [|c l] eqn:E; [done|]. unfold balanced. cbn [cq_SQL cq_Args].
  rewrite !holes_app, holes_concat by (by case_match). rewrite length_flat_map', map_map. simpl holes. cbn [plus].
  rewrite Nat.add_0_r. by apply list_sum_map.
Qed.

Lemma compileRule_laws n vw c : registry_ok r -> compileRule r n vw = Ok c ->
  exists f, Lookup r (n_Field n) = Some f /\ FieldLaws f /\ leaf f n vw = Ok c.
Proof.
  intros Hr. unfold compileRule. destruct (Lookup r (n_Field n)) as [f|] eqn:E; [|done]. intros Hc.
  exists f. split_and!; [done|by eapply registry_ok_lookup|done].
Qed.

(** A filter that compiles, rule by rule and group by group. *)
Lemma compile_ind vw (P : Node -> Compiled -> Prop) :
  (forall n c, IsGroup n = false -> compileRule r n vw = Ok c -> P n c) ->
  (forall n parts, IsGroup n = true -> Forall2 P (n_Rules n) parts -> P n (group (n_Op n) parts)) ->
  forall n c, compileNode r n vw = Ok c -> P n c.
Proof.
  intros Hleaf Hgroup n. induction n as [op rules field operator value IH] using Node_ind. intros c.
  destruct (IsGroup (MkNode op rules field operator value)) eqn:Hg; [|rewrite compileNode_leaf by done; by apply Hleaf].
  rewrite compileNode_group by done. cbn [n_Rules].
  destruct (compileRules vw rules) as [parts|] eqn:E; [|done]. intros [= <-]. apply (Hgroup _ _ Hg). cbn [n_Rules].
  apply compileRules_inv in E. clear Hg. induction E as [|child p rules parts Hc _ IHr]; constructor; inversion IH; subst; auto.
Qed.

Lemma compileNode_balanced n vw c : registry_ok r -> compileNode r n vw = Ok c -> balanced c.
Proof.
  intros Hr. apply (compile_ind vw (fun _ => balanced)).
  - intros ? ? _ (f & _ & Hf & Hl)%compileRule_laws; [|done]. by eapply law_balanced.
  - intros ? parts _ Hp. apply group_balanced. by induction Hp; constructor.
Qed.

Lemma compileRules_ok vw rules :
  Forall (fun n => compileNode r n vw <> Err Panic) rules -> compileRules vw rules <> Err Panic.
Proof.
  induction 1 as [|n rules Hn _ IH]; simpl; [done|]. fold (compileRules vw).
  destruct (compileNode r n vw), (compileRules vw rules); congruence.
Qed.

Lemma compileRules_total vw rules :
  Forall (fun n => exists c, compileNode r n vw = Ok c) rules -> exists cs, compileRules vw rules = Ok cs.
Proof.
  induction 1 as [|n rules [c Hc] _ [cs IH]]; simpl; [by eexists|]. fold (compileRules vw). rewrite Hc, IH. by eexists.
Qed.

(** Whether a rule may be refused when it is compiled though [Validate] lets it through. *)
Definition late_leaf (n : Node) : bool := match Lookup r (n_Field n) with Some f => late f n | None => false end.

Lemma compileNode_compiles n vw : registry_ok r -> Forall valid_leaf (leaves n) ->
  compileNode r n vw <> Err Panic /\
  (Forall (fun l => late_leaf l = false) (leaves n) -> exists c, compileNode r n vw = Ok c).
Proof.
  intros Hr. induction n as [op rules field operator value IH] using Node_ind.
  destruct (IsGroup (MkNode op rules field operator value)) eqn:Hg.
  - rewrite leaves_group, compileNode_group, List.Forall_flat_map by done. cbn [n_Rules n_Op]. clear Hg. intros Hl. split.
    + pose proof (compileRules_ok vw rules) as Hok. destruct (compileRules vw rules) as [|e]; [done|].
      intros [= ->]. apply Hok; [|done]. rewrite Forall_forall in *. intros x Hx. by apply IH; [|apply Hl].
    + rewrite List.Forall_flat_map. intros Hlate. destruct (compileRules_total vw rules) as [cs ->]; [|by eexists].
      rewrite Forall_forall in *. intros x Hx. by apply IH; [|apply Hl|apply Hlate].
  - rewrite leaves_leaf, compileNode_leaf by done. intros [(f & Hf & Ha) _]%Forall_cons. unfold compileRule. rewrite Hf.
    destruct (law_compiles f (registry_ok_lookup _ _ _ Hr Hf) _ vw Ha) as [Hp Ho]. split; [done|].
    intros [Hlate _]%Forall_cons. apply Ho. unfold late_leaf in Hlate. by rewrite Hf in Hlate.
Qed.

Lemma params_group op parts : (params (group op parts) <= list_sum (map params parts))%nat.
Proof.
  assert (forall sql l, params (MkCompiled sql (flat_map cq_Args l)) = list_sum (map params l)) as Hsum.
  { intros sql. unfold params. cbn [cq_Args]. induction l as [|c l IH]; simpl; [done|]. by rewrite map_app, list_sum_app, IH. }
  assert (list_sum (map params (List.filter filled parts)) <= list_sum (map params parts))%nat as Hle.
  { clear. induction parts as [|c l IH]; simpl; [done|]. destruct (filled c); simpl; lia. }
  unfold group. fold filled. destruct (List.filter filled parts); [unfold params; simpl; lia|]. by rewrite Hsum.
Qed.

Lemma compileNode_params n vw c : registry_ok r -> compileNode r n vw = Ok c ->
  Forall valid_leaf (leaves n) -> Forall (fun l => plain l = true) (leaves n) -> (params c <= 201 * length (leaves n))%nat.
Proof.
  intros Hr. apply (compile_ind vw (fun n c => Forall valid_leaf (leaves n) ->
    Forall (fun l => plain l = true) (leaves n) -> (params c <= 201 * length (leaves n))%nat)); clear n c.
  - intros n c Hg (f & Hf & Hlaws & Hc)%compileRule_laws; [|done]. rewrite leaves_leaf by done.
    intros [(f' & Hf' & Ha) _]%Forall_cons [Hp _]%Forall_cons. simplify_eq. simpl. by apply (law_params f Hlaws n vw).
  - intros n parts Hg Hparts. rewrite leaves_group by done. intros Hv Hp. etrans; [apply params_group|].
    induction Hparts as [|child c rules parts Hc _ IH]; simpl in *; [lia|]. rewrite Forall_app in Hv, Hp.
    rewrite length_app. destruct Hv as [Hv1 Hv2], Hp as [Hp1 Hp2]. specialize (Hc Hv1 Hp1). specialize (IH Hv2 Hp2). lia.
Qed.

Lemma skeleton_group n n' : skeleton n = skeleton n' -> IsGroup n = IsGroup n'.
Proof. destruct n as [op rules ? ? ?], n' as [op' rules' ? ? ?]. simpl. intros [= -> Hr _ _ _]. unfold IsGroup. simpl. by destruct rules, rules'. Qed.

Lemma group_data op parts parts' : map cq_SQL parts = map cq_SQL parts' -> cq_SQL (group op parts) = cq_SQL (group op parts').
Proof.
  intros E. unfold group. fold filled.
  assert (map cq_SQL (List.filter filled parts) = map cq_SQL (List.filter filled parts')) as Ef.
  { revert parts' E. induction parts as [|c l IH]; intros [|c' l'] E; simpl in *; try done. injection E as Ec El.
    unfold filled in *. rewrite <- Ec. destruct (negb _); simpl; [rewrite Ec; f_equal|]; by apply IH. }
  destruct (List.filter filled parts) as [|c l], (List.filter filled parts') as [|c' l']; try done.
  cbn [cq_SQL]. by rewrite Ef.
Qed.

Lemma compileNode_data n : registry_ok r -> forall n' vw vw' c c', skeleton n = skeleton n' ->
  compileNode r n vw = Ok c -> compileNode r n' vw' = Ok c' -> cq_SQL c = cq_SQL c'.
Proof.
  intros Hr. induction n as [op rules field operator value IH] using Node_ind.
  set (n := MkNode op rules field operator value). intros n' vw vw' c c' Hs. pose proof (skeleton_group _ _ Hs) as Hgg.
  destruct (IsGroup n) eqn:Hg.
  - rewrite !compileNode_group by done.
    destruct (compileRules vw (n_Rules n)) as [parts|] eqn:E; [|done]. destruct (compileRules vw' (n_Rules n')) as [parts'|] eqn:E'; [|done].
    intros [= <-] [= <-]. apply compileRules_inv in E, E'. destruct n' as [op' rules' field' operator' value'].
    simpl in Hs. injection Hs as -> Hs -> -> _. cbn [n_Op n_Rules n] in *. apply group_data. clear Hg Hgg n. revert rules' parts' Hs E'.
    induction E as [|child p rules parts Hc _ IHr]; intros [|child' rules'] parts' Hs E'; try done; inversion E' as [|? p' ? parts1 Hp' HE']; subst; [done|].
    inversion IH as [|? ? Hch Hrest]; subst. injection Hs as Hs0 Hs1. simpl. f_equal; [by apply (Hch child' vw vw')|by eapply IHr].
  - rewrite !compileNode_leaf by done. intros (f & Hf & Hlaws & Hl)%compileRule_laws (f' & Hf' & _ & Hl')%compileRule_laws; [|done..].
    assert (n_Field n = n_Field n') as E by (destruct n'; simpl in Hs; by injection Hs). rewrite E in Hf. simplify_eq.
    by apply (law_data _ Hlaws n n' vw vw').
Qed.

(** What a successful [Apply] has added. *)
Definition conditions (db : list Compiled) (vw : Viewer) : list Compiled :=
  db ++ MkCompiled "contacts.organization_id = ?" [BoundID (vw_OrgID vw)] ::
  (if vw_CanSeeAllContacts vw then [] else [Scope vw]).

Lemma Apply_inv db vw f q : Apply db r vw f = Ok q ->
  (IsEmpty f = true /\ q = conditions db vw) \/
  (IsEmpty f = false /\ Validate r f = Ok () /\ exists w, compileNode r f vw = Ok w /\
   q = if is_empty (cq_SQL w) then conditions db vw else (conditions db vw ++ [w])%list).
Proof.
  unfold Apply. set (q0 := if is_empty (cq_SQL (Scope vw)) then _ else _).
  assert (q0 = conditions db vw) as ->.
  { unfold q0, conditions, Scope. destruct (vw_CanSeeAllContacts vw); [done|]. simpl. by rewrite <- app_assoc. }
  destruct (IsEmpty f) eqn:He; [intros [= <-]; by left|].
  destruct (Validate r f) as [[]|] eqn:Ev; [|done]. destruct (compileNode r f vw) as [w|] eqn:Ec; [|done].
  intros [= <-]. right. split_and!; [done..|]. by exists w.
Qed.

Lemma conditions_balanced db vw : Forall balanced db -> Forall balanced (conditions db vw).
Proof.
  intros Hdb. unfold conditions. apply Forall_app. split; [done|]. apply Forall_cons_2; [done|]. unfold Scope.
  destruct (vw_CanSeeAllContacts vw); repeat constructor.
Qed.

Lemma skeleton_empty n n' : skeleton n = skeleton n' -> IsEmpty n = IsEmpty n'.
Proof. destruct n as [? rules ? ? ?], n' as [? rules' ? ? ?]. simpl. intros [= _ Hr -> _ _]. unfold IsEmpty. simpl. by destruct rules, rules'. Qed.
End Filters.

(** ** The registry of a request *)

Section Requests.
Context `{QE : QueryEnv} `{UT : UuidText}.

Lemma Register_total f r : qf_Key (qf_data f) <> "" -> is_some (operators (qf_Type (qf_data f))) = true ->
  is_some (qf_Build f) = true -> exists r', Register f r = Some r'.
Proof.
  intros Hk%String.eqb_neq Ht Hb. unfold Register, is_empty, is_some in *.
  apply negb_true_iff in Ht, Hb. rewrite Hk, Hb, Ht. by eexists.
Qed.

Lemma RegisterAll_total fs r : Forall (fun f => forall r, exists r', Register f r = Some r') fs -> exists r', RegisterAll fs r = Some r'.
Proof.
  intros Hfs. revert r. induction Hfs as [|f fs Hf _ IH]; intros r; simpl; [by eexists|].
  destruct (Hf r) as [r1 ->]. apply IH.
Qed.

Lemma contactRegistry_total defs pipelines saved : exists r, contactRegistry defs pipelines saved = Some r.
Proof.
  unfold contactRegistry. destruct NewRegistry as [r0|] eqn:E0; [|done]. cbn [mbind option_bind].
  destruct (RegisterAll_total (map fieldFor (List.filter (fun def => negb (IsArchived def)) defs)) r0) as [r1 E1].
  { apply Forall_map, Forall_true. intros def r. apply Register_total; [done| |done].
    cbn [fieldFor built_field qf_data qf_Type]. unfold queryType. by repeat case_match. }
  unfold RegisterFields. rewrite E1. cbn [mbind option_bind].
  destruct (RegisterAll_total (deal_fields (flat_map snd pipelines) (map fst pipelines)) r1) as [r2 E2].
  { unfold deal_fields. repeat apply Forall_cons_2; [intros r; by apply Register_total ..|apply Forall_nil_2]. }
  unfold RegisterDealFields. rewrite E2.
  destruct pipelines; cbn [mbind option_bind]; apply Register_total; done.
Qed.

(** C24: A filter is data: for the registry of any organization, two filters that differ only in
    their values, lists of values being as long, give queries with the same text, whoever asks, if
    both or neither may see every contact; every fragment has as many
    placeholders as arguments; and the query keeps the conditions it was given and is always
    limited to the organization and, for a restricted viewer, to the contacts they may see. *)
Theorem filter_is_data defs pipelines saved r db vw vw' f f' q q' :
  contactRegistry defs pipelines saved = Some r ->
  vw_CanSeeAllContacts vw = vw_CanSeeAllContacts vw' -> skeleton f = skeleton f' ->
  Apply db r vw f = Ok q -> Apply db r vw' f' = Ok q' ->
  map cq_SQL q = map cq_SQL q' /\
  (Forall balanced db -> Forall balanced q) /\
  exists rest, q = (conditions db vw ++ rest)%list.
Proof.
  intros Hr%contactRegistry_ok Hsee Hs Hq Hq'.
  assert (map cq_SQL (conditions db vw) = map cq_SQL (conditions db vw')) as Hc.
  { unfold conditions, Scope. rewrite !map_app, <- Hsee. simpl. by destruct (vw_CanSeeAllContacts vw). }
  pose proof (conditions_balanced db vw) as Hb.
  apply Apply_inv in Hq as [(He & ->)|(He & _ & w & Hw & ->)], Hq' as [(He' & ->)|(He' & _ & w' & Hw' & ->)];
    try (rewrite (skeleton_empty _ _ Hs) in He; congruence).
  - split_and!; [done|done|exists []; by rewrite app_nil_r].
  - pose proof (compileNode_data r f Hr f' vw vw' w w' Hs Hw Hw') as Hsql. rewrite <- Hsql.
    destruct (is_empty (cq_SQL w)).
    + split_and!; [done|done|exists []; by rewrite app_nil_r].
    + rewrite !map_app, Hc. cbn [map]. rewrite Hsql. split_and!; [done| |by exists [w]]. intros Hdb%Hb.
      apply Forall_app. split; [done|]. apply Forall_singleton. by eapply compileNode_balanced.
Qed.

(** C25: Building an organization's registry never panics, and a filter it validates never makes the
    compiler panic; unless it has a segment rule or a date range, it compiles. *)
Theorem validated_filter_compiles defs pipelines saved :
  exists r, contactRegistry defs pipelines saved = Some r /\
  forall db vw f, Validate r f = Ok () ->
    Apply db r vw f <> Err Panic /\
    (Forall (fun l => late_leaf r l = false) (leaves f) -> exists q, Apply db r vw f = Ok q).
Proof.
  destruct (contactRegistry_total defs pipelines saved) as [r Hr]. exists r. split; [done|]. apply contactRegistry_ok in Hr.
  intros db vw f Hv. unfold Apply. destruct (IsEmpty f) eqn:He; [split; [done|by eexists]|].
  rewrite Hv. apply Validate_inv in Hv as (_ & _ & Hl); [|done].
  destruct (compileNode_compiles r f vw Hr Hl) as [Hp Ho]. split.
  - destruct (compileNode r f vw) as [w|e]; [done|]. congruence.
  - intros Hlate. destruct (Ho Hlate) as [w ->]. by eexists.
Qed.

(** C26: A validated filter is small: at most fifty rules, groups three deep, and, when lists stand
    only where an operator takes one, fewer parameters than a statement of PostgreSQL can bind. *)
Theorem validated_filter_fits defs pipelines saved r vw f q :
  contactRegistry defs pipelines saved = Some r -> Validate r f = Ok () -> IsEmpty f = false ->
  Apply [] r vw f = Ok q ->
  (length (leaves f) <= 50)%nat /\ depth f <= 3 /\
  (Forall (fun l => plain l = true) (leaves f) -> Z.of_nat (list_sum (map params q)) <= 10054).
Proof.
  intros Hr%contactRegistry_ok Hv He Hq. destruct (Validate_inv r f Hv He) as (Hn & Hd & Hl). split_and!; [done|done|].
  intros Hp. assert (list_sum (map params (conditions [] vw)) <= 4)%nat as Hc.
  { unfold conditions, Scope, params. destruct (vw_CanSeeAllContacts vw); simpl; lia. }
  apply Apply_inv in Hq as [[? _]|(_ & _ & w & Hw & ->)]; [congruence|].
  pose proof (compileNode_params r f vw w Hr Hw Hl Hp).
  destruct (is_empty (cq_SQL w)); [lia|]. rewrite map_app, list_sum_app. cbn [map list_sum foldr]. lia.
Qed.
End Requests.
