(* ===== verification/QueryText.v ===== *)
(** * Searching for text in a filter

    What [escapeLike] is for: the pattern [compileText] binds for [contains] and
    [starts_with] matches exactly the texts that hold the term, letter case aside,
    whatever wildcards the term has and even where it is not UTF-8.  Then the
    language at work: witnesses and findings. *)
From S2P Require Import Prelude GoLib Events Models Text Fields ContactQuery QueryFields ContactQueryProps.

(** PostgreSQL's [ILIKE]. *)
Definition ILIKE (s p : string) : bool := LIKE (ToLower s) (ToLower p).

Definition escape_list (l : list ascii) : list ascii := flat_map (fun c => if wildcard c then ["\"%char; c] else [c]) l.
Definition escape_rune (c : list ascii) : list (list ascii) :=
  match c with [a] => if wildcard a then [["\"%char]; [a]] else [c] | _ => [c] end.

(** The ranges of the bytes inside a rune. *)
Definition continuing (rs : list (N * N)) : Prop := Forall (fun r => 128 <= r.1)%N rs.

Lemma rune_tail_continuing c rs : rune_tail c = Some rs -> continuing rs.
Proof. unfold rune_tail. repeat case_match; intros [= <-]; repeat constructor; simpl; lia. Qed.

Lemma wildcard_ascii c : wildcard c = true -> c = "\"%char \/ c = "%"%char \/ c = "_"%char.
Proof.
  unfold wildcard. intros (x & Hx & ->%Ascii.eqb_eq)%existsb_exists. simpl in Hx.
  repeat destruct Hx as [<-|Hx]; [auto..|done].
Qed.

Lemma wildcard_width c l : wildcard c = true -> default 0%nat (rune_more c l) = 0%nat.
Proof. by intros [-> | [-> | ->]]%wildcard_ascii. Qed.

(** A text that cannot continue a rune. *)
Definition closed (l : list ascii) : Prop := match l with [] => True | c :: _ => (N_of_ascii c < 128)%N end.

Lemma follows_escaped rs l tail : continuing rs -> closed tail -> follows rs (escape_list l ++ tail) = follows rs l.
Proof.
  intros Hrs Ht. revert l. induction Hrs as [|r rs Hr _ IH]; intros l; [by destruct (escape_list l ++ tail)|].
  destruct l as [|c l]; simpl.
  - destruct tail as [|c tail]; [done|]. simpl in *. unfold in_range.
    replace (r.1 <=? N_of_ascii c)%N with false by (symmetry; apply N.leb_gt; lia). done.
  - destruct (wildcard c) eqn:Hw; simpl; [|by rewrite IH].
    assert (forall d, (N_of_ascii d < 128)%N -> in_range r d = false) as Hno.
    { intros d Hd. unfold in_range. replace (r.1 <=? N_of_ascii d)%N with false by (symmetry; apply N.leb_gt; lia). done. }
    rewrite !Hno; [done| |done]. by apply wildcard_ascii in Hw as [-> | [-> | ->]].
Qed.

Lemma rune_more_escaped c l tail : closed tail -> rune_more c (escape_list l ++ tail) = rune_more c l.
Proof.
  intros Ht. unfold rune_more. destruct (rune_tail c) as [rs|] eqn:E; [|done].
  rewrite follows_escaped; [done|by eapply rune_tail_continuing|done].
Qed.

Lemma split_rune acc k l : acc <> [] -> (k <= length l)%nat ->
  split_runes acc k l = (reverse acc ++ take k l) :: split_runes [] 0 (drop k l).
Proof.
  revert acc l. induction k as [|k IH]; intros acc l Hacc Hk.
  - rewrite take_0, drop_0, app_nil_r. destruct acc; [done|]. destruct l; simpl; done.
  - destruct l as [|c l]; simpl in *; [lia|]. rewrite IH by (done || lia). by rewrite reverse_cons, <- app_assoc.
Qed.

Lemma rune_more_le c l : (default 0%nat (rune_more c l) <= length l)%nat.
Proof.
  unfold rune_more. destruct (rune_tail c) as [rs|]; simpl; [|lia]. destruct (follows rs l) eqn:E; simpl; [|lia].
  revert l E. induction rs as [|r rs IH]; intros [|d l] E; simpl in *; try lia; try done.
  apply andb_true_iff in E as [_ E]. specialize (IH _ E). lia.
Qed.

Lemma split_cons c l : let k := default 0%nat (rune_more c l) in
  split_runes [] 0 (c :: l) = (c :: take k l) :: split_runes [] 0 (drop k l).
Proof. simpl. rewrite split_rune; [done|done|apply rune_more_le]. Qed.

(** The bytes of a rune after the first are no wildcards. *)
Lemma follows_take rs l tail : continuing rs -> follows rs l = true ->
  take (length rs) (escape_list l ++ tail) = take (length rs) l /\
  drop (length rs) (escape_list l ++ tail) = escape_list (drop (length rs) l) ++ tail.
Proof.
  intros Hrs. revert l. induction Hrs as [|r rs Hr _ IH]; intros l Hf; [by rewrite !take_0, !drop_0|].
  destruct l as [|c l]; simpl in Hf; [done|]. apply andb_true_iff in Hf as [Hc Hf]. destruct (IH l Hf) as [IH1 IH2].
  assert (wildcard c = false) as Hw.
  { destruct (wildcard c) eqn:Hw; [|done]. unfold in_range in Hc. breflect.
    apply N.leb_le in H. by apply wildcard_ascii in Hw as [-> | [-> | ->]]; simpl in H; lia. }
  simpl. rewrite Hw. simpl. by rewrite IH1, IH2.
Qed.

Lemma split_escaped l tail : closed tail ->
  split_runes [] 0 (escape_list l ++ tail) = flat_map escape_rune (split_runes [] 0 l) ++ split_runes [] 0 tail.
Proof.
  intros Ht. remember (length l) as n eqn:En. assert (length l <= n)%nat as Hn by lia. clear En. revert l Hn.
  induction n as [|n IH]; intros [|c l] Hn; simpl in Hn; try done; [lia|].
  rewrite split_cons. cbn [escape_list flat_map]. fold (escape_list l). destruct (wildcard c) eqn:Hw.
  - rewrite wildcard_width by done. rewrite take_0, drop_0. cbn [app]. rewrite !split_cons.
    change (rune_more "\" _) with (Some 0%nat). simpl default. rewrite drop_0, take_0, split_cons.
    rewrite wildcard_width by done. rewrite take_0, drop_0. rewrite IH by lia. simpl. by rewrite Hw.
  - cbn [app]. rewrite split_cons, rune_more_escaped by done. 
    assert (escape_rune (c :: take (default 0%nat (rune_more c l)) l) = [c :: take (default 0%nat (rune_more c l)) l]) as He.
    { destruct (take _ l) eqn:E; simpl; [by rewrite Hw|done]. }
    rewrite He. cbn [app]. unfold rune_more. destruct (rune_tail c) as [rs|] eqn:Er; [destruct (follows rs l) eqn:Ef|]; simpl default.
    + destruct (follows_take rs l tail (rune_tail_continuing _ _ Er) Ef) as [-> ->]. f_equal. apply IH.
      rewrite length_drop. lia.
    + rewrite !take_0, !drop_0. f_equal. apply IH. lia.
    + rewrite !take_0, !drop_0. f_equal. apply IH. lia.
Qed.

(** ** Patterns *)

Lemma like_escaped x p s : like (escape_rune x ++ p) s = match s with y :: s => bool_decide (y = x) && like p s | [] => false end.
Proof.
  assert (forall c, c <> ["%"%char] -> c <> ["_"%char] -> c <> ["\"%char] ->
    like (c :: p) s = match s with y :: s => bool_decide (y = c) && like p s | [] => false end) as Hplain.
  { intros c H1 H2 H3. simpl. by rewrite !bool_decide_eq_false_2 by done. }
  unfold escape_rune. destruct x as [|a [|b x]]; [by apply Hplain| |by apply Hplain]. destruct (wildcard a) eqn:Hw.
  - by apply wildcard_ascii in Hw as [-> | [-> | ->]]; destruct s.
  - apply Hplain; intros [= ->]; discriminate.
Qed.

(** A pattern that starts with escaped characters asks for those characters. *)
Lemma like_prefix x p s : like (flat_map escape_rune x ++ p) s = true <-> exists r, s = x ++ r /\ like p r = true.
Proof.
  revert s. induction x as [|c x IH]; intros s; simpl.
  - split; [intros Hp; by exists s|by intros (r & -> & Hp)].
  - rewrite <- app_assoc, like_escaped. destruct s as [|y s]; [split; [done|by intros (r & ? & _)]|].
    rewrite andb_true_iff, bool_decide_eq_true, IH. split.
    + intros (-> & r & -> & Hp). by exists r.
    + intros (r & [= -> ->] & Hp). split; [done|by exists r].
Qed.

Lemma like_any p s : like (["%"%char] :: p) s = true <-> exists a r, s = a ++ r /\ like p r = true.
Proof.
  transitivity ((fix any s := like p s || match s with [] => false | _ :: s => any s end) s = true); [done|].
  induction s as [|c s IH]; rewrite orb_true_iff.
  - split; [intros [Hp|?]; [by exists [], []|done]|]. intros (a & r & E & Hp). symmetry in E.
    apply app_eq_nil in E as [-> ->]. by left.
  - rewrite IH. split.
    + intros [Hp|(a & r & -> & Hp)]; [by exists [], (c :: s)|by exists (c :: a), r].
    + intros ([|d a] & r & E & Hp); simpl in E; [subst r; by left|]. injection E as -> ->. right. by exists a, r.
Qed.

Lemma like_end s : like [["%"%char]] s = true.
Proof. apply like_any. exists s, []. by rewrite app_nil_r. Qed.

(** ** Letter case *)

Lemma wildcard_lower c : wildcard (to_lower c) = wildcard c.
Proof. destruct c as [[] [] [] [] [] [] [] []]; reflexivity. Qed.

Lemma lower_wildcard c : wildcard c = true -> to_lower c = c.
Proof. by intros [-> | [-> | ->]]%wildcard_ascii. Qed.

Lemma map_string_list f s : list_ascii_of_string (map_string f s) = map f (list_ascii_of_string s).
Proof. induction s as [|c s IH]; simpl; [done|by rewrite IH]. Qed.

Lemma lower_escaped l : map to_lower (escape_list l) = escape_list (map to_lower l).
Proof.
  induction l as [|c l IH]; [done|]. cbn [escape_list flat_map map]. fold (escape_list l) (escape_list (map to_lower l)).
  rewrite map_app, IH, wildcard_lower. by destruct (wildcard c).
Qed.

Lemma pattern_characters before s after :
  closed after -> (before = [] \/ before = ["%"%char]) ->
  split_runes [] 0 (map to_lower (before ++ escape_list (list_ascii_of_string s) ++ after)) =
  map (fun c => [c]) before ++ flat_map escape_rune (characters (ToLower s)) ++ split_runes [] 0 (map to_lower after).
Proof.
  intros Ha Hb. unfold characters, ToLower. rewrite map_string_list, !map_app, lower_escaped.
  assert (closed (map to_lower after)) as Ha'.
  { destruct after as [|c after]; [done|]. simpl in *. unfold to_lower, ascii_map.
    destruct ((65 <=? N_of_ascii c)%N && (N_of_ascii c <=? 90)%N) eqn:Ec; rewrite ?ascii_N_embedding, ?N_ascii_embedding by lia; [|done].
    breflect. apply N.leb_le in H, H0. lia. }
  destruct Hb as [-> | ->]; cbn [map app]; [by rewrite split_escaped|].
  rewrite split_cons. change (rune_more _ _) with (Some 0%nat). simpl default. rewrite take_0, drop_0.
  by rewrite split_escaped.
Qed.

(** C27: A search for text is literal: the pattern bound for [contains] matches a column exactly when
    its characters hold those of the term in a row, and the one for [starts_with] exactly when they
    begin with them, letter case aside; the wildcards of [LIKE] in the term have no power. *)
Theorem search_is_literal `{GoFmt} col op term c s :
  (op = OpContains \/ op = OpStartsWith) ->
  compileText col (MkNode "" [] col op (AString term)) = Ok c ->
  exists pattern, cq_Args c = [Bound (AString pattern)] /\
  (ILIKE s pattern = true <->
   exists before after, characters (ToLower s) = before ++ characters (ToLower term) ++ after /\
   (op = OpStartsWith -> before = [])).
Proof.
  assert (forall a b : string, list_ascii_of_string (a ++ escapeLike term ++ b) =
    list_ascii_of_string a ++ escape_list (list_ascii_of_string term) ++ list_ascii_of_string b) as Hl.
  { intros a b. rewrite !list_of_string_app. unfold escapeLike. by rewrite list_ascii_of_string_of_list_ascii. }
  intros [-> | ->]; intros [= <-]; eexists; (split; [reflexivity|]); unfold ILIKE, LIKE; cbn [cq_Args];
    unfold characters at 1; unfold ToLower at 1; rewrite map_string_list.
  - change (String "%" (escapeLike term ++ "%")) with ("%" ++ escapeLike term ++ "%")%string.
    rewrite Hl, pattern_characters by (by auto). change (like _ _) with (like (["%"%char] :: (flat_map escape_rune (characters (ToLower term)) ++ [["%"%char]])) (characters (ToLower s))).
    rewrite like_any. split.
    + intros (a & r & -> & (r' & -> & _)%like_prefix). by exists a, r'.
    + intros (a & b & -> & _). exists a, (characters (ToLower term) ++ b). split; [done|]. apply like_prefix. exists b. by rewrite like_end.
  - pose proof (Hl "" "%") as Hl'. change ("" ++ escapeLike term ++ "%")%string with (escapeLike term ++ "%")%string in Hl'.
    transitivity (like (flat_map escape_rune (characters (ToLower term)) ++ [["%"%char]]) (characters (ToLower s)) = true).
    + rewrite Hl'. change (list_ascii_of_string "") with (@nil ascii). change (list_ascii_of_string "%") with ["%"%char].
      by rewrite pattern_characters by (by auto).
    + rewrite like_prefix. split; [intros (r & -> & _); by exists [], r|].
      intros (b & a & E & Hb). rewrite (Hb eq_refl) in E. exists a. by rewrite like_end.
Qed.

(** * The filter language at work: witnesses and findings *)

#[local] Existing Instance uuid_ref.

#[local] Instance query_fmt : GoFmt := {|
  FormatFloat _ := "number";
  Sprint v := match v with AString s => s | _ => "value" end
|}.

#[local] Instance noon : QueryEnv := {| Now := 20587 * Day + 12 * Hour; out_of_range _ := min_int64 |}.

(** A dropdown and a number field, a pipeline, and a saved segment. *)
Definition query_def (id : uuid) (key ty : string) : CustomFieldDefinition :=
  MkDefinition id None 1 FieldEntityContact key key "" ty [] [] None false false false true "" 0 None None None.

Definition sample_pipeline : Pipeline := MkPipeline 20 None 1 "Sales" "Deal" "Deals" "EUR" true 1 None None.

Definition sample_defs : list CustomFieldDefinition := [query_def 7 "stage" FieldTypeDropdown; query_def 8 "score" FieldTypeNumber].

Definition agent : Viewer := MkViewer 5 1 None false.
Definition manager : Viewer := MkViewer 6 1 None true.

Definition rule (field operator : string) (value : any) : Node := MkNode "" [] field operator value.
Definition either (rules : list Node) : Node := MkNode "or" rules "" "" ANil.

Definition sample_audience (name : string) (tags : list any) : Node :=
  either [rule "profile_name" OpContains (AString name); rule "tags" OpContainsAll (AList tags);
          rule "field.stage" OpIn (AList [AString "lead"]); rule "deal.status" OpNotIn (AList [AString "won"])].

Definition registry : gmap string Field := default ∅ (contactRegistry sample_defs [(sample_pipeline, [])] [(30%N, "VIP")]).

Lemma registry_built : contactRegistry sample_defs [(sample_pipeline, [])] [(30%N, "VIP")] = Some registry.
Proof. unfold registry. by destruct (contactRegistry_total sample_defs [(sample_pipeline, [])] [(30%N, "VIP")]) as [r ->]. Qed.

(** The fragments of the query for a filter, or none. *)
Definition applied (vw : Viewer) (f : Node) : list Compiled :=
  match Apply [] registry vw f with Ok q => q | Err _ => [] end.

Definition applies (vw : Viewer) (f : Node) : bool := is_ok (Apply [] registry vw f).

Lemma applies_ok vw f : applies vw f = true -> Apply [] registry vw f = Ok (applied vw f).
Proof. unfold applies, applied. by destruct (Apply _ _ _ _). Qed.

Definition quiet_audience := sample_audience "100%" [AString "vip"; AString "eu"].
Definition hostile_audience := sample_audience "'); DROP TABLE contacts; --" [AString "?"; AString "x"].

Lemma filter_is_data_witness :
  map cq_SQL (applied agent quiet_audience) = map cq_SQL (applied agent hostile_audience) /\
  (Forall balanced [] -> Forall balanced (applied agent quiet_audience)) /\
  exists rest, applied agent quiet_audience = (conditions [] agent ++ rest)%list.
Proof.
  apply (filter_is_data _ _ _ registry [] agent agent quiet_audience hostile_audience _ _ registry_built).
  - reflexivity.
  - reflexivity.
  - apply applies_ok. vm_compute. reflexivity.
  - apply applies_ok. vm_compute. reflexivity.
Defined.

Definition validates (f : Node) : bool := is_ok (Validate registry f).

Lemma validates_ok f : validates f = true -> Validate registry f = Ok ().
Proof. unfold validates. by destruct (Validate registry f) as [[]|]. Qed.

Lemma validated_filter_fits_witness : Z.of_nat (list_sum (map params (applied agent quiet_audience))) <= 10054.
Proof.
  apply (validated_filter_fits _ _ _ registry agent quiet_audience (applied agent quiet_audience) registry_built).
  - apply validates_ok. vm_compute. reflexivity.
  - reflexivity.
  - apply applies_ok. vm_compute. reflexivity.
  - repeat constructor.
Defined.

Lemma search_is_literal_witness : exists pattern,
  [Bound (AString "%100\%%")] = [Bound (AString pattern)] /\
  (ILIKE "Save 100% NOW" pattern = true <->
   exists before after, characters (ToLower "Save 100% NOW") = (before ++ characters (ToLower "100%") ++ after)%list /\
   (OpContains = OpStartsWith -> before = [])).
Proof. exact (search_is_literal "name" OpContains "100%" (MkCompiled "name ILIKE ?" [Bound (AString "%100\%%")]) "Save 100% NOW" (or_introl eq_refl) eq_refl). Defined.

(** ** Behaviours worth knowing *)

(** A group that has lost its rules selects everything, even with the rest of a rule still in it. *)
Definition emptied : Node := MkNode "and" [] "no such field" OpIn ANil.

Example emptied_selects_everything :
  validates emptied = true /\ applied manager emptied = applied manager (MkNode "" [] "" "" ANil).
Proof. vm_compute. split; reflexivity. Qed.

(** Values of an operator that takes one value are not checked: a list passes and is bound. *)
Example list_for_equals :
  validates (rule "profile_name" OpEquals (AList [AString "a"; AString "b"])) = true /\
  applied manager (rule "profile_name" OpEquals (AList [AString "a"; AString "b"])) =
    [MkCompiled "contacts.organization_id = ?" [BoundID 1];
     MkCompiled "contacts.profile_name = ?" [Bound (AList [AString "a"; AString "b"])]].
Proof. vm_compute. split; reflexivity. Qed.

(** Half an hour is no time at all, and four thousand months lie in the future. *)
Example durations :
  parseDuration (AMap [("amount", AFloat (Float 1 (-1))); ("unit", AString UnitHours)]) = Ok 0 /\
  parseDuration (AMap [("amount", AFloat (float_of_int 4000)); ("unit", AString UnitMonths)]) = Ok (- 8078744073709551616).
Proof. vm_compute. split; reflexivity. Qed.

(** A plain date is midnight UTC for [between], local midnight for [on], and the last day of a
    range counts only up to its first instant. *)
Definition berlin : Location := MkLocation (fun day ns => midnight day + ns - 2 * Hour)
  (fun t => let t := t + 2 * Hour in (day_of t, t - midnight (day_of t))).
Definition berliner : Viewer := MkViewer 6 1 (Some berlin) true.

Example dates_of_a_range :
  applied berliner (rule "created_at" OpOn (AString "1970-01-02")) =
    [MkCompiled "contacts.organization_id = ?" [BoundID 1];
     MkCompiled "(contacts.created_at >= ? AND contacts.created_at < ?)" [instant (22 * Hour); instant (46 * Hour)]] /\
  applied berliner (rule "created_at" OpBetween (AList [AString "1970-01-02"; AString "1970-01-02"])) =
    [MkCompiled "contacts.organization_id = ?" [BoundID 1];
     MkCompiled "(contacts.created_at >= ? AND contacts.created_at <= ?)" [instant Day; instant Day]].
Proof. vm_compute. split; reflexivity. Qed.

(** A rule on a segment validates and then cannot be compiled as it stands. *)
Example segment_rule_fails_late :
  validates (rule "segment" OpIn (AString "0")) = true /\ applies manager (rule "segment" OpIn (AString "0")) = false.
Proof. vm_compute. split; reflexivity. Qed.

(** A custom field is listed as sortable and then not sorted by. *)
Example sortable_field_is_ignored :
  existsb (String.eqb "field.score") (SortableFields registry) = true /\ SortColumn registry "field.score" = None.
Proof. vm_compute. split; reflexivity. Qed.

(** A long search term is cut by bytes, through the middle of a character. *)
Definition long_term : string := String "a" (string_of_list_ascii (flat_map (fun _ => ["195"; "169"]%char) (seq 0 100))).

Example cut_character :
  ValidString long_term = true /\
  forallb (fun c => forallb (fun a => match a with Bound (AString s) => negb (ValidString s) | _ => true end) (cq_Args c))
    (applyContactSearchTerm [] long_term) = true.
Proof. vm_compute. split; reflexivity. Qed.
