(* ===== verification/Segments.v ===== *)
(** * Saved segments ([internal/segments/service.go])

    A segment stores a filter as JSON.  Filters may refer to other segments by a
    rule on the field [segment]; [Save] checks the references, [Apply] expands
    them before the filter is compiled.  The nesting depth is counted down: the
    argument [levels] is [MaxNesting + 1 - depth]. *)
From S2P Require Import Prelude GoLib Store Events Models Statements Wire Text Fields ContactQuery QueryFields.

(** [models.Segment]. *)
Record Segment := MkSegment {
  sg_ID : uuid;
  sg_DeletedAt : option time;
  sg_OrganizationID : uuid;
  sg_Name : string;
  sg_Description : string;
  sg_Filter : JSONB;
  sg_Visibility : string;
  sg_CreatedByID : uuid;
  sg_UpdatedByID : option uuid;
  sg_ContactCount : option Z;
  sg_CountedAt : option time;
  sg_LastUsedAt : option time
}.

Definition set_sg_DeletedAt (v : option time) (r : Segment) : Segment :=
  MkSegment (sg_ID r) v (sg_OrganizationID r) (sg_Name r) (sg_Description r) (sg_Filter r)
  (sg_Visibility r) (sg_CreatedByID r) (sg_UpdatedByID r) (sg_ContactCount r) (sg_CountedAt r)
  (sg_LastUsedAt r).
Definition set_sg_Name (v : string) (r : Segment) : Segment :=
  MkSegment (sg_ID r) (sg_DeletedAt r) (sg_OrganizationID r) v (sg_Description r) (sg_Filter r)
  (sg_Visibility r) (sg_CreatedByID r) (sg_UpdatedByID r) (sg_ContactCount r) (sg_CountedAt r)
  (sg_LastUsedAt r).
Definition set_sg_Description (v : string) (r : Segment) : Segment :=
  MkSegment (sg_ID r) (sg_DeletedAt r) (sg_OrganizationID r) (sg_Name r) v (sg_Filter r)
  (sg_Visibility r) (sg_CreatedByID r) (sg_UpdatedByID r) (sg_ContactCount r) (sg_CountedAt r)
  (sg_LastUsedAt r).
Definition set_sg_Filter (v : JSONB) (r : Segment) : Segment :=
  MkSegment (sg_ID r) (sg_DeletedAt r) (sg_OrganizationID r) (sg_Name r) (sg_Description r) v
  (sg_Visibility r) (sg_CreatedByID r) (sg_UpdatedByID r) (sg_ContactCount r) (sg_CountedAt r)
  (sg_LastUsedAt r).
Definition set_sg_Visibility (v : string) (r : Segment) : Segment :=
  MkSegment (sg_ID r) (sg_DeletedAt r) (sg_OrganizationID r) (sg_Name r) (sg_Description r)
  (sg_Filter r) v (sg_CreatedByID r) (sg_UpdatedByID r) (sg_ContactCount r) (sg_CountedAt r)
  (sg_LastUsedAt r).
Definition set_sg_UpdatedByID (v : option uuid) (r : Segment) : Segment :=
  MkSegment (sg_ID r) (sg_DeletedAt r) (sg_OrganizationID r) (sg_Name r) (sg_Description r)
  (sg_Filter r) (sg_Visibility r) (sg_CreatedByID r) v (sg_ContactCount r) (sg_CountedAt r)
  (sg_LastUsedAt r).
Definition set_sg_ContactCount (v : option Z) (r : Segment) : Segment :=
  MkSegment (sg_ID r) (sg_DeletedAt r) (sg_OrganizationID r) (sg_Name r) (sg_Description r)
  (sg_Filter r) (sg_Visibility r) (sg_CreatedByID r) (sg_UpdatedByID r) v (sg_CountedAt r)
  (sg_LastUsedAt r).
Definition set_sg_CountedAt (v : option time) (r : Segment) : Segment :=
  MkSegment (sg_ID r) (sg_DeletedAt r) (sg_OrganizationID r) (sg_Name r) (sg_Description r)
  (sg_Filter r) (sg_Visibility r) (sg_CreatedByID r) (sg_UpdatedByID r) (sg_ContactCount r) v
  (sg_LastUsedAt r).
Definition set_sg_LastUsedAt (v : option time) (r : Segment) : Segment :=
  MkSegment (sg_ID r) (sg_DeletedAt r) (sg_OrganizationID r) (sg_Name r) (sg_Description r)
  (sg_Filter r) (sg_Visibility r) (sg_CreatedByID r) (sg_UpdatedByID r) (sg_ContactCount r)
  (sg_CountedAt r) v.

Definition SegmentShared := "shared".
Definition SegmentPrivate := "private".

Abbreviation SegmentDB := (gmap uuid Segment) (only parsing).
Abbreviation MS := (M SegmentDB).

Definition ErrNotFound := ErrSentinel "segments: not found".
Definition ErrInUse := ErrSentinel "segments: referenced by another segment".

Definition MaxNesting : nat := 3.

(** ** Filters as JSON *)

Section Json.
Context `{GJ : GoJson}.

(** The struct tags of [Node]: every field is levels out when empty. *)
Fixpoint node_json (n : Node) : json :=
  let 'MkNode op rules field operator value := n in
  JObj (present
    [("op", omit_string op);
     ("rules", match rules with [] => None | _ => Some (JArr (map node_json rules)) end);
     ("field", omit_string field);
     ("operator", omit_string operator);
     ("value", match value with ANil => None | v => Some (json_of v) end)]).

Fixpoint node_marshals (n : Node) : bool :=
  let 'MkNode _ rules _ _ value := n in marshals value && forallb node_marshals rules.

Definition no_node : Node := MkNode "" [] "" "" ANil.

(** A text field: [null] leaves it as it is. *)
Definition text_field (j : json) (old : string) : option string :=
  match j with JStr s => Some s | JNull => Some old | _ => None end.

(** [json.Unmarshal] into a [Node]; names match in any case, the last one counts. *)
Fixpoint to_node (j : json) : option Node :=
  match j with
  | JNull => Some no_node
  | JObj m =>
      (fix fill (m : list (string * json)) (n : Node) : option Node :=
         match m with
         | [] => Some n
         | (k, v) :: m =>
             let 'MkNode op rules field operator value := n in
             let k := ToLower k in
             n ← (if String.eqb k "op" then op ← text_field v op; Some (MkNode op rules field operator value)
                  else if String.eqb k "rules" then
                    match v with
                    | JArr l => rules ← traverse to_node l; Some (MkNode op rules field operator value)
                    | JNull => Some (MkNode op [] field operator value)
                    | _ => None
                    end
                  else if String.eqb k "field" then field ← text_field v field; Some (MkNode op rules field operator value)
                  else if String.eqb k "operator" then operator ← text_field v operator; Some (MkNode op rules field operator value)
                  else if String.eqb k "value" then value ← any_of v; Some (MkNode op rules field operator value)
                  else Some n);
             fill m n
         end) m no_node
  | _ => None
  end.

(** [contactquery.ParseFilter]. *)
Definition ParseFilter (raw : string) : option Node :=
  if is_empty raw then Some no_node else j ← json_parse raw; to_node j.

(** [json.Marshal] of a filter and [json.Unmarshal] into the column. *)
Definition marshalled_filter (f : Node) : option JSONB := if node_marshals f then to_map (node_json f) else None.

(** What is marshalled again is what was unmarshalled: no year is out of range. *)
Definition parseFilter (raw : JSONB) : option Node := to_node (of_map raw).
End Json.

(** ** The service *)

Record SaveInput := MkSaveInput {
  in_OrgID : uuid;
  in_ID : option uuid;
  in_Name : string;
  in_Description : string;
  in_Filter : Node;
  in_Visibility : string;
  in_ActorID : uuid
}.

Definition live_segment (s : Segment) : bool := is_none (sg_DeletedAt s).
Definition segment_at (orgID id : uuid) (s : Segment) : bool :=
  N.eqb (sg_ID s) id && N.eqb (sg_OrganizationID s) orgID && live_segment s.

(** The sizes of the columns, and the unique index over the lower-case name. *)
Definition segment_fits (s : Segment) : bool :=
  Nat.leb (RuneCount (sg_Name s)) 120 && Nat.leb (RuneCount (sg_Description s)) 500 && Nat.leb (RuneCount (sg_Visibility s)) 10.

Definition segment_named (s t : Segment) : bool :=
  N.eqb (sg_OrganizationID t) (sg_OrganizationID s) && live_segment t && String.eqb (ToLower (sg_Name t)) (ToLower (sg_Name s)).

Definition put_segment (s : Segment) (d : SegmentDB) : res err unit * SegmentDB :=
  if negb (segment_fits s) then (Err ErrDriver, d)
  else if live_segment s && negb (no_other (segment_named s) (sg_ID s) d) then (Err ErrUnique, d)
  else (Ok tt, <[sg_ID s := s]> d).

Definition insert_segment (s : Segment) : MS unit :=
  stmt no_locks (fun d => if is_some (d !! sg_ID s) then (Err ErrUnique, d) else put_segment s d).

(** [Model(&Segment{}).Where("id = ? AND organization_id = ?").Updates(...)]. *)
Definition update_segment (orgID id : uuid) (us : list (Segment -> Segment)) : MS unit :=
  stmt no_locks (fun d =>
    match d !! id with
    | Some s => if segment_at orgID id s then put_segment (apply_updates us s) d else (Ok tt, d)
    | None => (Ok tt, d)
    end).

Section Service.
Context `{SQ : Sql} `{GJ : GoJson} `{QE : QueryEnv}.

(** The contacts a query selects, counted by the database. *)
Context (count_contacts : SegmentDB -> list Compiled -> Z).

Definition Get (orgID id : uuid) : MS Segment :=
  r <- try (query (first_row (segment_at orgID id) unordered)) ;;
  match r with Ok s => ret s | Err _ => fail ErrNotFound end.

(** The ids a filter refers to. *)
Definition reference (n : Node) : option uuid :=
  if String.eqb (n_Field n) FieldKey then match n_Value n with AString raw => uuid_Parse raw | _ => None end else None.

Fixpoint referencedIDs (n : Node) : list uuid :=
  if IsGroup n then let 'MkNode _ rules _ _ _ := n in flat_map referencedIDs rules
  else match reference n with Some id => [id] | None => [] end.

(** One reference, with the check of the referenced filter one level down. *)
Definition checkReference (orgID : uuid) (selfID : option uuid) (check : Node -> MS unit) (ref : uuid) : MS unit :=
  if opt_eqb selfID (Some ref) then fail (ErrMsg "segments: a segment cannot reference itself")
  else
    r <- try (query (first_row (segment_at orgID ref) unordered)) ;;
    match r with
    | Err _ => fail (ErrMsg ("segments: referenced segment " ++ uuid_String ref ++ " does not exist"))
    | Ok referenced =>
        match parseFilter (sg_Filter referenced) with
        | None => fail (ErrMsg "contactquery: invalid filter JSON")
        | Some inner => check inner
        end
    end.

Fixpoint each {A} (f : A -> MS unit) (l : list A) : MS unit :=
  match l with [] => ret tt | a :: l => f a ;;; each f l end.

Fixpoint checkReferences (levels : nat) (orgID : uuid) (selfID : option uuid) (filter : Node) : MS unit :=
  match levels with
  | O => fail (ErrMsg "segments: segments are nested more than 3 deep")
  | S levels => each (checkReference orgID selfID (checkReferences levels orgID selfID)) (referencedIDs filter)
  end.

Definition of_failure {A} (r : res failure A) : MS A :=
  match r with Ok a => ret a | Err e => fail (ErrMsg (failure_text e)) end.

(** The row a valid input is written to. *)
Definition save_row (i : SaveInput) (name : string) (filter : JSONB) : MS Segment :=
  let visibility := if String.eqb (in_Visibility i) SegmentPrivate then SegmentPrivate else SegmentShared in
  match in_ID i with
  | Some id =>
      update_segment (in_OrgID i) id
        [set_sg_Name name; set_sg_Description (in_Description i); set_sg_Filter filter; set_sg_Visibility visibility;
         set_sg_UpdatedByID (Some (in_ActorID i)); set_sg_ContactCount None; set_sg_CountedAt None] ;;;
      Get (in_OrgID i) id
  | None =>
      id <- uuid_New ;;
      let segment := MkSegment id None (in_OrgID i) name (in_Description i) filter visibility (in_ActorID i) None None None None in
      insert_segment segment ;;;
      ret segment
  end.

Definition Save (r : gmap string Field) (i : SaveInput) : MS Segment :=
  let name := TrimSpace (in_Name i) in
  if is_empty name then fail (ErrMsg "segments: a segment needs a name")
  else
    of_failure (Validate r (in_Filter i)) ;;;
    checkReferences MaxNesting (in_OrgID i) (in_ID i) (in_Filter i) ;;;
    match marshalled_filter (in_Filter i) with
    | None => fail (ErrMsg "json: unsupported value")
    | Some filter => save_row i name filter
    end.

Definition visible (orgID viewerID : uuid) (s : Segment) : bool :=
  N.eqb (sg_OrganizationID s) orgID && (String.eqb (sg_Visibility s) SegmentShared || N.eqb (sg_CreatedByID s) viewerID) && live_segment s.

Definition List_ (orgID viewerID : uuid) : MS (list Segment) :=
  query (fun d => Ok (sort_by (fun a b => String.ltb (sg_Name a) (sg_Name b)) (find_rows (visible orgID viewerID) None d))).

(** Whether the stored filter of a segment refers to another. *)
Definition refers_to (id : uuid) (s : Segment) : bool :=
  match parseFilter (sg_Filter s) with Some f => existsb (N.eqb id) (referencedIDs f) | None => false end.

Definition other_in (orgID id : uuid) (s : Segment) : bool :=
  N.eqb (sg_OrganizationID s) orgID && negb (N.eqb (sg_ID s) id) && live_segment s.

Definition dependents (orgID id : uuid) : MS (list string) :=
  all <- query (fun d => Ok (find_rows (other_in orgID id) None d)) ;;
  ret (map sg_Name (List.filter (refers_to id) all)).

Definition Delete (orgID id : uuid) : MS unit :=
  names <- dependents orgID id ;;
  match names with
  | _ :: _ => fail ErrInUse
  | [] =>
      t <- now ;;
      stmt no_locks (fun d => (Ok tt, update_where (segment_at orgID id) [set_sg_DeletedAt (Some t)] d))
  end.

Section Expand.
Context (orgID : uuid) (expand : Segment -> MS Node).

(** A rule on a segment, replaced by the filter of that segment. *)
Definition expandLeaf (n : Node) : MS Node :=
  if negb (String.eqb (n_Field n) FieldKey) then ret n
  else
    let raw := match n_Value n with AString s => s | _ => "" end in
    match uuid_Parse raw with
    | None => fail (ErrMsg ("segments: " ++ quote raw ++ " is not a segment id"))
    | Some id =>
        referenced <- Get orgID id ;;
        inner <- expand referenced ;;
        if String.eqb (n_Operator n) OpNotIn then fail (ErrMsg "segments: not_in is not supported yet") else ret inner
    end.

Fixpoint expandNode (n : Node) : MS Node :=
  if IsGroup n then
    let 'MkNode op rules field operator value := n in
    rules <- (fix all (rules : list Node) : MS (list Node) :=
                match rules with
                | [] => ret []
                | child :: rules => x <- expandNode child ;; xs <- all rules ;; ret (x :: xs)
                end) rules ;;
    ret (MkNode op rules field operator value)
  else expandLeaf n.
End Expand.

Fixpoint expand (levels : nat) (orgID : uuid) (segment : Segment) : MS Node :=
  match levels with
  | O => fail (ErrMsg "segments: nested more than 3 deep")
  | S levels =>
      match parseFilter (sg_Filter segment) with
      | None => fail (ErrMsg "contactquery: invalid filter JSON")
      | Some filter => expandNode orgID (expand levels orgID) filter
      end
  end.

(** [Service.Apply]. *)
Definition ApplySegment (db : list Compiled) (r : gmap string Field) (vw : Viewer) (segmentID : uuid) : MS (list Compiled) :=
  segment <- Get (vw_OrgID vw) segmentID ;;
  filter <- expand MaxNesting (vw_OrgID vw) segment ;;
  of_failure (ContactQuery.Apply db r vw filter).

Definition Count (r : gmap string Field) (vw : Viewer) (segmentID : uuid) : MS Z :=
  q <- ApplySegment [] r vw segmentID ;;
  count <- query (fun d => Ok (count_contacts d q)) ;;
  t <- now ;;
  update_segment (vw_OrgID vw) segmentID [set_sg_ContactCount (Some count); set_sg_CountedAt (Some t)] ;;;
  ret count.

(** The error is dropped. *)
Definition MarkUsed (orgID segmentID : uuid) : MS unit :=
  t <- now ;;
  try (update_segment orgID segmentID [set_sg_LastUsedAt (Some t)]) ;;;
  ret tt.
End Service.
