(* ===== verification/SegmentsProps.v ===== *)
(** * Properties of saved segments

    A filter survives being stored.  References between segments lead to live
    segments and never in a circle, whatever is saved and deleted and whatever
    fails; a segment that has just been saved can be expanded.  Then segments on concrete tables. *)
From S2P Require Import Prelude GoLib Store Events Models Statements Wire Text Fields ContactQuery QueryFields ContactQueryProps Segments.

(** ** Filters in the column *)

Section Json.
Context `{GL : GoJsonLaws}.

(** What a filter is once it has been a JSON text. *)
Fixpoint node_decoded (n : Node) : Node :=
  let 'MkNode op rules field operator value := n in MkNode op (map node_decoded rules) field operator (decoded value).

Fixpoint node_portable (n : Node) : bool :=
  let 'MkNode _ rules _ _ value := n in portable value && forallb node_portable rules.

(** A filter that came from JSON. *)
Definition wire_filter (n : Node) : Prop := node_portable n = true /\ node_decoded n = n.

(** A tree of JSON that a value holds as it is. *)
Definition held (j : json) : Prop := exists v, any_of j = Some v /\ json_of v = j.

Lemma held_value v : portable v = true -> held (json_of v).
Proof. intros Hv. exists (decoded v). split; [by apply any_of_json_of|by apply json_of_decoded]. Qed.

Lemma held_array l : Forall held l -> held (JArr l).
Proof.
  intros Hl. assert (exists vs, traverse any_of l = Some vs /\ map json_of vs = l) as (vs & E & Em).
  { induction Hl as [|j l (v & Ev & Ej) _ (vs & IH & Em)]; [by exists []|]. exists (v :: vs). simpl. rewrite Ev. simpl. rewrite IH. simpl.
    by rewrite Ej, Em. }
  exists (AList vs). simpl. by rewrite E, Em.
Qed.

Lemma held_object m : Forall (fun e => held e.2) m -> exists m', to_map (JObj m) = Some m' /\ of_map m' = JObj m.
Proof.
  intros Hm. unfold to_map, of_map. simpl.
  induction Hm as [|[k j] m (v & Ev & Ej) _ (m' & E & Em)]; [by exists []|]. exists ((k, v) :: m'). simpl in *. rewrite Ev. simpl.
  rewrite E. simpl. split; [done|]. injection Em as Em. by rewrite Ej, Em.
Qed.

Lemma held_map m m' : to_map (JObj m) = Some m' -> of_map m' = JObj m -> held (JObj m).
Proof. intros E Em. exists (AMap m'). split; [|done]. unfold to_map in E. simpl in *. by rewrite E. Qed.

Lemma present_held fields : Forall (fun e => forall j, e.2 = Some j -> held j) fields -> Forall (fun e => held e.2) (present fields).
Proof.
  unfold present. induction 1 as [|[k [j|]] fields Hj _ IH]; simpl; [constructor| |done]. constructor; [by apply Hj|done].
Qed.

Lemma omit_string_held s j : omit_string s = Some j -> held j.
Proof. unfold omit_string. destruct (is_empty s); [done|]. intros [= <-]. by exists (AString s). Qed.

Lemma node_json_object n : node_portable n = true -> exists m m', node_json n = JObj m /\ to_map (JObj m) = Some m' /\ of_map m' = JObj m.
Proof.
  induction n as [op rules field operator value IH] using Node_ind. simpl. rewrite andb_true_iff, forallb_Forall. intros [Hv Hr].
  eexists. cut (forall m, Forall (fun e => held e.2) m -> exists m', to_map (JObj m) = Some m' /\ of_map m' = JObj m);
    [|by apply held_object].
  intros Hob. destruct (Hob (present [("op"%string, omit_string op);
     ("rules"%string, match rules with [] => None | _ => Some (JArr (map node_json rules)) end);
     ("field"%string, omit_string field); ("operator"%string, omit_string operator);
     ("value"%string, match value with ANil => None | v => Some (json_of v) end)])) as (m' & E & Em); [|by exists m'].
  apply present_held. repeat apply Forall_cons_2; try apply Forall_nil_2; cbn [snd]; try apply omit_string_held.
  - assert (held (JArr (map node_json rules))) as Hh.
    { apply held_array, Forall_map. pose proof (List.Forall_and IH Hr) as Hl. eapply Forall_impl; [exact Hl|].
      intros n [Hn Hp]. destruct (Hn Hp) as (m & m' & -> & E & Em). by apply (held_map m m'). }
    intros j. destruct rules; [done|]. by intros [= <-].
  - pose proof (held_value value Hv) as Hh. intros j. by destruct value; [done|intros [= <-] ..].
Qed.

Lemma omit_string_eq s : (s = "" /\ omit_string s = None) \/ omit_string s = Some (JStr s).
Proof. unfold omit_string, is_empty. destruct (String.eqb_spec s ""); auto. Qed.

Lemma to_node_json n : node_portable n = true -> to_node (node_json n) = Some (node_decoded n).
Proof.
  induction n as [op rules field operator value IH] using Node_ind. cbn [node_portable node_json node_decoded].
  rewrite andb_true_iff, forallb_Forall. intros [Hv Hr].
  assert (traverse to_node (map node_json rules) = Some (map node_decoded rules)) as Ht.
  { apply traverse_map. pose proof (List.Forall_and IH Hr) as Hl. eapply Forall_impl; [exact Hl|]. intros n [Hn Hp]. by apply Hn. }
  assert (value = ANil \/ match value with ANil => None | v => Some (json_of v) end = Some (json_of value)) as Hval
    by (destruct value; auto).
  destruct (any_of_json_of value Hv) as [Ev _].
  assert (rules = [] \/ match rules with [] => None | _ => Some (JArr (map node_json rules)) end = Some (JArr (map node_json rules))) as Hrl
    by (destruct rules; auto).
  destruct (omit_string_eq op) as [[-> ->] | ->], Hrl as [-> | ->], (omit_string_eq field) as [[-> ->] | ->],
    (omit_string_eq operator) as [[-> ->] | ->], Hval as [-> | ->];
    cbn [present omap list_omap option_map fst snd to_node]; simpl; rewrite ?Ht, ?Ev; reflexivity.
Qed.

(** Stored and read back, a filter is what its JSON says. *)
Lemma marshalled_filter_read f : node_portable f = true ->
  exists m, marshalled_filter f = Some m /\ parseFilter m = Some (node_decoded f).
Proof.
  intros Hf. assert (node_marshals f = true) as Hm.
  { induction f as [op rules field operator value IH] using Node_ind. simpl in *. rewrite andb_true_iff, !forallb_Forall in *.
    destruct Hf as [Hv Hr]. split; [by apply portable_marshals|].
    pose proof (List.Forall_and IH Hr) as Hl. eapply Forall_impl; [exact Hl|]. intros n [Hn Hp]. by apply Hn. }
  destruct (node_json_object f Hf) as (m & m' & Ej & Em & Eo). exists m'. unfold marshalled_filter, parseFilter.
  rewrite Hm, Eo. split; [by rewrite Ej|]. rewrite <- Ej. by apply to_node_json.
Qed.

Lemma wire_filter_read f m : wire_filter f -> marshalled_filter f = Some m -> parseFilter m = Some f.
Proof. intros [Hp Hd] Em. destruct (marshalled_filter_read f Hp) as (m' & E & Er). rewrite Em in E. injection E as <-. by rewrite Er, Hd. Qed.
End Json.

(** ** References *)

Section References.
Context `{SL : SqlLaws} `{GL : GoJsonLaws} `{QE : QueryEnv}.
Implicit Types d : SegmentDB.

(** The segments a stored segment refers to. *)
Definition references (s : Segment) : list uuid :=
  match parseFilter (sg_Filter s) with Some f => referencedIDs f | None => [] end.

(** The live segment [y] refers to [x]. *)
Definition refers d (x y : uuid) : Prop :=
  exists s, d !! y = Some s /\ live_segment s = true /\ x ∈ references s.

(** Every live segment parses, and what it refers to is live and of its organization; following
    references ends. *)
Record sound d : Prop := {
  snd_ids : forall k s, d !! k = Some s -> sg_ID s = k;
  snd_live : forall k s, d !! k = Some s -> live_segment s = true ->
    is_Some (parseFilter (sg_Filter s)) /\
    forall x, x ∈ references s -> exists t, d !! x = Some t /\ segment_at (sg_OrganizationID s) x t = true;
  snd_wf : well_founded (refers d)
}.

Lemma segment_at_spec orgID id s :
  segment_at orgID id s = true <-> sg_ID s = id /\ sg_OrganizationID s = orgID /\ live_segment s = true.
Proof. unfold segment_at. rewrite !andb_true_iff, !N.eqb_eq. tauto. Qed.

(** What [checkReferences] has seen: the references of a filter down to a depth. *)
Fixpoint checked (levels : nat) d (orgID : uuid) (selfID : option uuid) (f : Node) : Prop :=
  match levels with
  | O => False
  | S levels => forall ref, ref ∈ referencedIDs f ->
      selfID <> Some ref /\
      exists s inner, d !! ref = Some s /\ segment_at orgID ref s = true /\
        parseFilter (sg_Filter s) = Some inner /\ checked levels d orgID selfID inner
  end.

Lemma first_segment d orgID id s : sound d ->
  first_row (segment_at orgID id) unordered d = Ok s -> d !! id = Some s /\ segment_at orgID id s = true.
Proof.
  intros Hd (k & Hk & Hp)%first_row_ok. split; [|done]. apply segment_at_spec in Hp as (Hid & _ & _).
  by rewrite <- Hid, (snd_ids d Hd k s Hk).
Qed.

Lemma checkReferences_checked levels d orgID selfID f : sound d ->
  triple (eq d) (checkReferences levels orgID selfID f) (on_ok (eq d) (fun _ d' => d' = d /\ checked levels d orgID selfID f)).
Proof.
  intros Hd. revert f. induction levels as [|levels IH]; intros f; simpl; [by apply triple_fail|].
  assert (forall ref, triple (eq d) (checkReference orgID selfID (checkReferences levels orgID selfID) ref)
    (on_ok (eq d) (fun _ d' => d' = d /\ selfID <> Some ref /\
      exists s inner, d !! ref = Some s /\ segment_at orgID ref s = true /\
        parseFilter (sg_Filter s) = Some inner /\ checked levels d orgID selfID inner))) as Hone.
  { intros ref. unfold checkReference. destruct (opt_eqb selfID (Some ref)) eqn:Hself; [by apply triple_fail|].
    assert (selfID <> Some ref) as Hne by (intros E; apply opt_eqb_eq in E; congruence).
    apply (triple_bind _ (fun r d' => d = d' /\ (r = first_row (segment_at orgID ref) unordered d \/ exists e, r = Err e))).
    { apply triple_try, triple_query; [intros ? a <- E; split; [done|by left]|intros e ? <-; split; [done|right; by exists e]]. }
    intros r. destruct r as [s|e]; [|by apply triple_fail; intros ? [<- _]].
    apply (triple_assume _ (d !! ref = Some s /\ segment_at orgID ref s = true)).
    { intros ? [_ [E|[e E]]]; [|done]. by apply first_segment. }
    intros [Hs Hat]. destruct (parseFilter (sg_Filter s)) as [inner|] eqn:Ep; [|by apply triple_fail; intros ? [<- _]].
    eapply triple_conseq; [apply (IH inner)|by intros ? [<- _]|].
    intros [[]|e] ?; simpl; [|done]. intros [-> Hc]. split_and!; [done|done|]. by exists s, inner. }
  induction (referencedIDs f) as [|ref l IHl]; simpl.
  - apply triple_ret. intros ? <-. split; [done|]. by intros ref ?%not_elem_of_nil.
  - apply (triple_bind _ (fun _ d' => d' = d /\ selfID <> Some ref /\
      exists s inner, d !! ref = Some s /\ segment_at orgID ref s = true /\
        parseFilter (sg_Filter s) = Some inner /\ checked levels d orgID selfID inner)).
    { eapply triple_conseq; [apply (Hone ref)|done|]. intros [[]|e] ?; simpl; [done|by intros <-]. }
    intros []. eapply triple_assume; [intros ? [_ Href]; exact Href|]. intros Href.
    eapply triple_conseq; [apply IHl|by intros ? [-> _]|].
    intros [[]|e] ?; simpl; [|done]. intros [-> Hl]. split; [done|]. intros ref' [->|Hin]%elem_of_cons; [done|by apply Hl].
Qed.

(** ** Writing *)

(** Rows that agree in what references depend on. *)
Definition same_references (s t : Segment) : Prop :=
  sg_ID s = sg_ID t /\ sg_OrganizationID s = sg_OrganizationID t /\ live_segment s = live_segment t /\ sg_Filter s = sg_Filter t.

Lemma same_references_at s t orgID id : same_references s t -> segment_at orgID id s = segment_at orgID id t.
Proof. intros (E1 & E2 & E3 & _). unfold segment_at. by rewrite E1, E2, E3. Qed.

Lemma refers_incl d d' : sound d -> (forall x y, refers d' x y -> refers d x y) -> well_founded (refers d').
Proof. intros Hd Hincl y. induction (snd_wf d Hd y) as [y _ IH]. constructor. intros x Hx. apply IH. by apply Hincl. Qed.

Lemma insert_same d s t : sound d -> d !! sg_ID s = Some s -> same_references s t -> sound (<[sg_ID s := t]> d).
Proof.
  intros Hd Hs Hst. pose proof Hst as (E1 & E2 & E3 & E4).
  assert (forall k u, <[sg_ID s := t]> d !! k = Some u -> exists v, d !! k = Some v /\ same_references v u) as Hback.
  { intros k u. rewrite lookup_insert_Some. intros [[<- <-]|[_ Hu]]; [by exists s|]. by exists u. }
  split.
  - intros k u (v & Hv & <- & _)%Hback. by apply (snd_ids d Hd).
  - intros k u (v & Hv & Ev1 & Ev2 & Ev3 & Ev4)%Hback Hl. rewrite <- Ev3 in Hl. rewrite <- Ev2.
    destruct (snd_live d Hd k v Hv Hl) as [Hp Hr]. unfold references in *. rewrite <- Ev4. split; [done|].
    intros x (w & Hw & Hat)%Hr. destruct (decide (x = sg_ID s)) as [->|Hne]; [|exists w; by rewrite lookup_insert_ne].
    exists t. rewrite lookup_insert_eq. split; [done|]. rewrite Hs in Hw. injection Hw as <-. by rewrite <- (same_references_at s t).
  - apply (refers_incl d); [done|]. intros x y (u & (v & Hv & _ & _ & Ev3 & Ev4)%Hback & Hl & Hx).
    exists v. unfold references in *. by rewrite Ev3, Ev4.
Qed.

Lemma insert_sound d s : sound d -> live_segment s = true -> is_Some (parseFilter (sg_Filter s)) ->
  (forall x, x ∈ references s -> x <> sg_ID s /\ exists t, d !! x = Some t /\ segment_at (sg_OrganizationID s) x t = true) ->
  (forall x, x ∈ references s -> Acc (refers (<[sg_ID s := s]> d)) x) ->
  (forall old, d !! sg_ID s = Some old -> live_segment old = true -> sg_OrganizationID old = sg_OrganizationID s) ->
  sound (<[sg_ID s := s]> d).
Proof.
  intros Hd Hl Hp Hr Hacc Hold. split.
  - intros k t. rewrite lookup_insert_Some. intros [[<- <-]|[_ Ht]]; [done|by apply (snd_ids d Hd)].
  - intros k t. rewrite lookup_insert_Some. intros [[<- <-]|[Hk Ht]] Hlt.
    + split; [done|]. intros x (Hne & u & Hu & Hat)%Hr. exists u. by rewrite lookup_insert_ne.
    + destruct (snd_live d Hd k t Ht Hlt) as [Hpt Hrt]. split; [done|]. intros x (u & Hu & Hat)%Hrt.
      destruct (decide (x = sg_ID s)) as [->|]; [|exists u; by rewrite lookup_insert_ne].
      exists s. rewrite lookup_insert_eq. split; [done|]. apply segment_at_spec in Hat as (_ & Eo & Hlu).
      apply segment_at_spec. split_and!; [done|by rewrite <- (Hold u Hu Hlu)|done].
  - intros y. induction (snd_wf d Hd y) as [y _ IH]. constructor. intros x (t & Ht & Hlt & Hx).
    rewrite lookup_insert_Some in Ht. destruct Ht as [[<- <-]|[Hk Ht]]; [by apply Hacc|]. apply IH. by exists t.
Qed.

(** What was checked stays reachable in finitely many steps when the saved row is written. *)
Lemma checked_acc levels d orgID selfID f s : sound d ->
  (forall ref t, d !! ref = Some t -> selfID <> Some ref -> ref <> sg_ID s) ->
  checked levels d orgID selfID f -> forall x, x ∈ referencedIDs f -> Acc (refers (<[sg_ID s := s]> d)) x.
Proof.
  intros Hd Hself. revert f. induction levels as [|levels IH]; intros f Hc x Hx; [done|]. simpl in Hc.
  destruct (Hc x Hx) as (Hne & t & inner & Ht & Hat & Ep & Hi). constructor. intros y (u & Hu & _ & Hy).
  rewrite lookup_insert_ne in Hu by (symmetry; by eapply Hself). rewrite Ht in Hu. injection Hu as <-. unfold references in Hy. rewrite Ep in Hy.
  by apply (IH inner).
Qed.

Lemma checked_references levels d orgID selfID f x : checked levels d orgID selfID f -> x ∈ referencedIDs f ->
  selfID <> Some x /\ exists t, d !! x = Some t /\ segment_at orgID x t = true.
Proof. destruct levels as [|levels]; [done|]. simpl. intros Hc Hx. destruct (Hc x Hx) as (Hne & t & _ & Ht & Hat & _). split; [done|by exists t]. Qed.

Lemma put_segment_ok s d d' u : put_segment s d = (Ok u, d') -> d' = <[sg_ID s := s]> d.
Proof. unfold put_segment. destruct (negb (segment_fits s)); [done|]. destruct (live_segment s && _); [done|]. by intros [= _ <-]. Qed.

(** An update that leaves the references of a row alone. *)
Lemma update_segment_sound orgID id us : (forall s, same_references s (apply_updates us s)) ->
  moves (keeps sound) (update_segment orgID id us).
Proof.
  intros Hus. apply triple_keeps, triple_stmt; [|done]. intros d [] d' Hd. destruct (d !! id) as [s|] eqn:Hs; [|by intros [= <-]].
  destruct (segment_at orgID id s); [|by intros [= <-]]. intros ->%put_segment_ok. pose proof (snd_ids d Hd id s Hs) as E.
  destruct (Hus s) as (Ei & _). rewrite <- Ei. apply insert_same; [done|by rewrite E|done].
Qed.

Lemma Get_reads orgID id : moves eq (Get orgID id).
Proof. unfold Get. solve_moves. Qed.

Lemma of_failure_reads {A} (r : res failure A) : moves eq (of_failure r).
Proof. unfold of_failure. solve_moves. Qed.

Lemma save_row_sound d i name filter : sound d -> parseFilter filter = Some (in_Filter i) ->
  checked MaxNesting d (in_OrgID i) (in_ID i) (in_Filter i) -> triple (eq d) (save_row i name filter) (fun _ => sound).
Proof.
  intros Hd Ep Hc. unfold save_row. cbv zeta. set (visibility := if String.eqb _ _ then _ else _).
  assert (forall s, sg_OrganizationID s = in_OrgID i -> live_segment s = true -> sg_Filter s = filter ->
    (forall ref t, d !! ref = Some t -> in_ID i <> Some ref -> ref <> sg_ID s) ->
    (forall old, d !! sg_ID s = Some old -> live_segment old = true -> sg_OrganizationID old = sg_OrganizationID s) ->
    sound (<[sg_ID s := s]> d)) as Hput.
  { intros s Eo Hl Ef Hne Hold. apply insert_sound; [done|done|by rewrite Ef, Ep| | |done]; unfold references; rewrite Ef, Ep.
    - intros x Hx. destruct (checked_references _ _ _ _ _ _ Hc Hx) as (Hx1 & t & Ht & Hat). rewrite Eo.
      split; [by eapply Hne|by exists t].
    - by apply (checked_acc MaxNesting d (in_OrgID i) (in_ID i)). }
  destruct (in_ID i) as [id|] eqn:Ei.
  - apply (triple_bind _ (fun _ => sound)).
    + apply triple_stmt; [|by intros e ? <-]. intros ? [] d' <-. destruct (d !! id) as [s|] eqn:Hs; [|by intros [= <-]].
      destruct (segment_at (in_OrgID i) id s) eqn:Hat; [|by intros [= <-]]. intros ->%put_segment_ok.
      apply segment_at_spec in Hat as (Eid & Eo & Hl). apply Hput; try done; simpl; rewrite ?Eid.
      * intros ref t _ Hne ->. by apply Hne.
      * intros old Hold _. by simplify_eq.
    + intros _. apply triple_reads, Get_reads.
  - apply (triple_bind _ (fun _ d' => d' = d)); [apply triple_uuid; by intros|]. intros id.
    apply (triple_bind _ (fun _ => sound)); [|intros _; by apply triple_ret].
    unfold insert_segment. apply triple_stmt; [|by intros e ? ->]. intros ? [] d' ->. simpl.
    destruct (d !! id) as [s|] eqn:Hs; [done|]. simpl. intros ->%put_segment_ok. apply Hput; try done; simpl; [|intros old Hold; congruence].
    intros ref t Ht _ ->. congruence.
Qed.

Lemma Save_sound r i : wire_filter (in_Filter i) -> moves (keeps sound) (Save r i).
Proof.
  intros Hw. apply triple_keeps. unfold Save. destruct (is_empty (TrimSpace (in_Name i))); [by apply triple_fail|].
  apply triple_then; [apply triple_reads, of_failure_reads|done|]. intros _ w res w' Hd. revert w' res.
  cut (triple (eq (w_db w)) (checkReferences MaxNesting (in_OrgID i) (in_ID i) (in_Filter i) ;;;
    match marshalled_filter (in_Filter i) with None => fail (ErrMsg "json: unsupported value") | Some filter => save_row i (TrimSpace (in_Name i)) filter end)
    (fun _ => sound)); [intros Ht w' res E; by apply (Ht w res w')|].
  apply (triple_bind _ (fun _ d' => d' = w_db w /\ checked MaxNesting (w_db w) (in_OrgID i) (in_ID i) (in_Filter i))).
  { eapply triple_conseq; [by apply checkReferences_checked|done|]. intros [[]|e] ?; simpl; [done|by intros <-]. }
  intros _. eapply triple_assume; [intros ? [_ Hc]; exact Hc|]. intros Hc.
  destruct (marshalled_filter (in_Filter i)) as [filter|] eqn:Ef; [|apply triple_fail; by intros ? [-> _]].
  eapply triple_conseq; [apply (save_row_sound (w_db w)); [done|by apply wire_filter_read|done]|by intros ? [-> _]|done].
Qed.

Lemma find_none {R} (p q : R -> bool) (t : gmap N R) :
  List.filter q (find_rows p None t) = [] -> forall k r, t !! k = Some r -> p r = true -> q r = false.
Proof.
  intros E k r Hk Hp. destruct (q r) eqn:Hq; [|done]. pose proof (find_rows_complete p t k r Hk Hp) as Hin.
  assert (In r (List.filter q (find_rows p None t))) as Hf by (apply filter_In; split; [by apply list_elem_of_In|done]).
  by rewrite E in Hf.
Qed.

Lemma Delete_sound orgID id : moves (keeps sound) (Delete orgID id).
Proof.
  apply triple_keeps. unfold Delete.
  apply (triple_bind _ (fun names d => sound d /\ (names = [] -> forall k s, d !! k = Some s -> other_in orgID id s = true -> refers_to id s = false))).
  { unfold dependents. apply (triple_bind _ (fun all d => sound d /\ all = find_rows (other_in orgID id) None d)).
    - apply triple_query; [by intros d all Hd [= <-]|done].
    - intros all. apply triple_ret. intros d [Hd ->]. split; [done|]. intros E. apply find_none. by apply map_eq_nil in E. }
  intros names. destruct names; [|by apply triple_fail; intros ? [? _]].
  apply (triple_bind _ (fun _ d => sound d /\ forall k s, d !! k = Some s -> other_in orgID id s = true -> refers_to id s = false)).
  { apply triple_now. intros _ d [Hd Hno]. split; [done|by apply Hno]. }
  intros t. apply triple_stmt; [|by intros e d [Hd _]]. intros d u d' [Hd Hno] [= _ <-].
  assert (forall k s, update_where (segment_at orgID id) [set_sg_DeletedAt (Some t)] d !! k = Some s ->
    exists s0, d !! k = Some s0 /\ sg_ID s = sg_ID s0 /\ (live_segment s = true -> s = s0 /\ segment_at orgID id s0 = false)) as Hup.
  { intros k s Hs. rewrite update_where_lookup in Hs. destruct (d !! k) as [s0|]; [|done]. injection Hs as <-. exists s0.
    destruct (segment_at orgID id s0); by split_and!. }
  split.
  - intros k s (s0 & Hs0 & -> & _)%Hup. by apply (snd_ids d Hd).
  - intros k s (s0 & Hs0 & Eid & Hl)%Hup Hlive. destruct (Hl Hlive) as [-> Hat]. destruct (snd_live d Hd k s0 Hs0 Hlive) as [Hp Hr].
    split; [done|]. intros x Hx. destruct (Hr x Hx) as (u0 & Hu0 & Hatu). exists u0. split; [|done].
    rewrite update_where_lookup, Hu0. simpl. destruct (segment_at orgID id u0) eqn:Hdel; [|done]. exfalso.
    apply segment_at_spec in Hdel as (Ex & Eo & Hlu), Hatu as (Ex' & Eo' & _). subst x.
    assert (refers_to id s0 = false) as Hf.
    { apply (Hno k s0 Hs0). unfold other_in. rewrite Hlive. apply not_true_iff_false in Hat. rewrite segment_at_spec in Hat.
      rewrite !andb_true_iff, negb_true_iff, N.eqb_eq, N.eqb_neq. split_and!; [congruence| |done]. intros E. apply Hat. split_and!; congruence. }
    unfold refers_to, references in *. destruct (parseFilter (sg_Filter s0)) as [f|]; [|by apply not_elem_of_nil in Hx].
    apply not_true_iff_false in Hf. apply Hf, existsb_exists. exists (sg_ID u0). split; [by apply list_elem_of_In|by rewrite Ex, N.eqb_refl].
  - apply (refers_incl d); [done|]. intros x y (s & (s0 & Hs0 & _ & Hl)%Hup & Hlive & Hx). destruct (Hl Hlive) as [-> _]. by exists s0.
Qed.

Variable count_contacts : SegmentDB -> list Compiled -> Z.

Lemma expandNode_reads orgID (rec : Segment -> M SegmentDB Node) n :
  (forall s, moves eq (rec s)) -> moves eq (expandNode orgID rec n).
Proof.
  intros Hrec. induction n as [op rules field operator value IH] using Node_ind. cbn [expandNode].
  destruct (IsGroup _); [|unfold expandLeaf; repeat first [apply Get_reads|apply Hrec|moves_step|typeclasses eauto]].
  apply moves_bind; [typeclasses eauto| |intros ?; solve_moves].
  induction IH as [|child rules Hc _ IHr]; [solve_moves|].
  apply moves_bind; [typeclasses eauto|done|intros x]. apply moves_bind; [typeclasses eauto|done|intros xs; solve_moves].
Qed.

Lemma expand_reads levels orgID s : moves eq (expand levels orgID s).
Proof. revert s. induction levels as [|levels IH]; intros s; simpl; [solve_moves|]. case_match; [|solve_moves]. by apply expandNode_reads. Qed.

Lemma ApplySegment_reads db r vw id : moves eq (ApplySegment db r vw id).
Proof.
  unfold ApplySegment. apply moves_bind; [typeclasses eauto|apply Get_reads|intros s].
  apply moves_bind; [typeclasses eauto|apply expand_reads|intros f]. apply of_failure_reads.
Qed.

(** The calls of the service, by anyone, in any order. *)
Inductive service_call :=
| CSave (r : gmap string Field) (i : SaveInput)
| CDelete (orgID id : uuid)
| CCount (r : gmap string Field) (vw : Viewer) (id : uuid)
| CMarkUsed (orgID id : uuid).

Definition serve (c : service_call) : M SegmentDB unit :=
  match c with
  | CSave r i => Save r i ;;; ret tt
  | CDelete orgID id => Delete orgID id
  | CCount r vw id => Count count_contacts r vw id ;;; ret tt
  | CMarkUsed orgID id => MarkUsed orgID id
  end.

Fixpoint serve_all (cs : list service_call) : M SegmentDB unit :=
  match cs with [] => ret tt | c :: cs => try (serve c) ;;; serve_all cs end.

Definition from_wire (c : service_call) : Prop := match c with CSave _ i => wire_filter (in_Filter i) | _ => True end.

(** C28: Whatever segments are saved, deleted, counted and used, and whatever statement fails on the
    way, references stay sound: a live segment's filter can be read, every segment it names is live
    and of its organization, and following references always ends. *)
Theorem references_stay_sound cs w : Forall from_wire cs -> sound (w_db w) -> sound (w_db (serve_all cs w).2).
Proof.
  intros Hcs Hd. destruct (serve_all cs w) as [res w'] eqn:E. simpl. revert w res w' E Hd. change (moves (keeps sound) (serve_all cs)).
  induction Hcs as [|c cs Hc _ IH]; simpl; [solve_moves|].
  assert (moves (keeps sound) (serve c)) as Hrun.
  { apply triple_keeps. destruct c as [r i|orgID id|r vw id|orgID id]; simpl in *.
    - apply triple_then; [by apply triple_keeps, Save_sound|done|]. intros _. by apply triple_ret.
    - by apply triple_keeps, Delete_sound.
    - apply triple_then; [|done|intros _; by apply triple_ret]. unfold Count.
      apply triple_then; [apply triple_reads, ApplySegment_reads|done|intros q].
      apply triple_then; [by apply triple_query|done|intros count]. apply triple_then; [by apply triple_now|done|intros t].
      apply triple_then; [|done|intros _; by apply triple_ret]. apply triple_keeps, update_segment_sound. by intros s.
    - apply triple_then; [by apply triple_now|done|intros t]. apply triple_then; [|done|intros _; by apply triple_ret].
      apply triple_try, triple_keeps, update_segment_sound. by intros s. }
  apply triple_keeps. apply triple_then; [by apply triple_try, triple_keeps|done|]. intros _. by apply triple_keeps.
Qed.

(** ** Expanding *)

(** No rule of the filter is a reference. *)
Definition expanded (n : Node) : Prop := Forall (fun l => n_Field l <> FieldKey) (leaves n).

(** References of a form expansion knows: an id, and not [not_in]. *)
Definition expandable (n : Node) : Prop :=
  Forall (fun l => n_Field l = FieldKey -> n_Operator l <> OpNotIn /\ is_Some (reference l)) (leaves n).

Lemma referencedIDs_leaves n : referencedIDs n = omap reference (leaves n).
Proof.
  induction n as [op rules field operator value IH] using Node_ind. set (n := MkNode op rules field operator value).
  destruct (IsGroup n) eqn:Hg.
  - rewrite leaves_group by done. cbn [referencedIDs]. unfold n in *. cbn [referencedIDs]. rewrite Hg. cbn [n_Rules]. clear Hg n.
    induction IH as [|child rules Hc _ IHr]; simpl; [done|]. by rewrite omap_app, Hc, IHr.
  - rewrite leaves_leaf by done. unfold n in *. cbn [referencedIDs]. rewrite Hg. simpl. by destruct (reference _).
Qed.

Section Healthy.
Context (d : SegmentDB) (t : time) (u : N) (tx : bool) (locks : list lock_event).
Notation W := (healthy d t u tx locks).
Hypothesis d_sound : sound d.

Lemma Get_healthy orgID id s : d !! id = Some s -> segment_at orgID id s = true -> Get orgID id W = (Ok s, W).
Proof.
  intros Hs Hat. unfold Get. assert (first_row (segment_at orgID id) unordered d = Ok s) as E.
  { destruct (first_row _ _ _) as [s'|e] eqn:E.
    - apply first_segment in E as [E _]; [congruence|done].
    - apply first_row_err in E as [_ Hno]. by rewrite (Hno id s Hs) in Hat. }
  unfold bind. erewrite try_run by (by apply query_healthy). done.
Qed.

Lemma expandNode_healthy orgID (rec : Segment -> M SegmentDB Node) n : expandable n ->
  (forall ref, ref ∈ referencedIDs n -> exists s f, d !! ref = Some s /\ segment_at orgID ref s = true /\
     rec s W = (Ok f, W) /\ expanded f) ->
  exists f, expandNode orgID rec n W = (Ok f, W) /\ expanded f.
Proof.
  induction n as [op rules field operator value IH] using Node_ind. set (n := MkNode op rules field operator value).
  intros He Hrefs. unfold expandable in He. rewrite referencedIDs_leaves in Hrefs. destruct (IsGroup n) eqn:Hg.
  - rewrite leaves_group in He, Hrefs by done. cbn [n_Rules n] in He, Hrefs. rewrite List.Forall_flat_map in He.
    assert (exists fs, (fix all (rules : list Node) : M SegmentDB (list Node) :=
        match rules with [] => ret [] | child :: rules => x <- expandNode orgID rec child ;; xs <- all rules ;; ret (x :: xs) end) rules W
        = (Ok fs, W) /\ Forall expanded fs /\ no_rules fs = no_rules rules) as (fs & E & Hfs & Hno).
    { clear Hg n. induction IH as [|child rules Hc _ IHr]; [by exists []|]. apply Forall_cons in He as [He1 He2].
      simpl in Hrefs. setoid_rewrite omap_app in Hrefs. setoid_rewrite elem_of_app in Hrefs.
      destruct (Hc He1) as (f & Ef & Hf). { intros ref Hin. apply Hrefs. rewrite referencedIDs_leaves in Hin. by left. }
      destruct (IHr He2) as (fs & E & Hfs & _). { intros ref Hin. apply Hrefs. by right. }
      exists (f :: fs). split_and!; [|by constructor|done]. rewrite (bind_run _ _ _ f W Ef). by rewrite (bind_run _ (fun xs => ret (f :: xs)) _ fs W E). }
    exists (MkNode op fs field operator value). cbn [expandNode n]. unfold n in Hg. rewrite Hg. split; [by rewrite (bind_run _ (fun rules => ret (MkNode op rules field operator value)) _ fs W E)|].
    unfold expanded. rewrite leaves_group; [by apply List.Forall_flat_map|]. unfold IsGroup in *. cbn [n_Op n_Rules] in *. by rewrite Hno.
  - rewrite leaves_leaf in He, Hrefs by done. unfold n in *. cbn [expandNode]. rewrite Hg. unfold expandLeaf.
    apply Forall_cons in He as [He _]. destruct (String.eqb (n_Field _) FieldKey) eqn:Ek; cbn [negb].
    + apply String.eqb_eq in Ek. destruct (He Ek) as (Hop & id & Hid). unfold reference in Hid. rewrite Ek, String.eqb_refl in Hid.
      destruct (Hrefs id) as (s & f & Hs & Hat & Ef & Hf).
      { simpl. unfold reference. rewrite Ek, String.eqb_refl, Hid. by left. }
      cbn [n_Value] in *. destruct value; try done. rewrite Hid. unfold bind. rewrite (Get_healthy _ _ _ Hs Hat), Ef.
      apply String.eqb_neq in Hop. rewrite Hop. by exists f.
    + eexists. split; [reflexivity|]. unfold expanded. rewrite leaves_leaf by done. constructor; [|constructor]. by apply String.eqb_neq.
Qed.

Lemma expand_healthy levels orgID s f : parseFilter (sg_Filter s) = Some f -> expandable f ->
  (forall k x g, d !! k = Some x -> live_segment x = true -> parseFilter (sg_Filter x) = Some g -> expandable g) ->
  checked levels d orgID None f -> exists g, expand levels orgID s W = (Ok g, W) /\ expanded g.
Proof.
  revert s f. induction levels as [|levels IH]; intros s f Ep Hf Hall Hc; [done|]. cbn [expand]. rewrite Ep.
  apply expandNode_healthy; [done|]. intros ref Hin. simpl in Hc. destruct (Hc ref Hin) as (_ & x & inner & Hx & Hat & Epx & Hcx).
  destruct (IH x inner Epx) as (g & Eg & Hg); [|done..|by exists x, g].
  apply segment_at_spec in Hat as (_ & _ & Hl). by apply (Hall ref x).
Qed.
End Healthy.

Lemma checked_insert levels d orgID selfID f s :
  (forall ref t, d !! ref = Some t -> selfID <> Some ref -> ref <> sg_ID s) ->
  checked levels d orgID selfID f -> checked levels (<[sg_ID s := s]> d) orgID None f.
Proof.
  intros Hne. revert f. induction levels as [|levels IH]; intros f Hc; [done|]. simpl in *. intros ref Hin.
  destruct (Hc ref Hin) as (Hself & t & inner & Ht & Hat & Ep & Hi). split; [done|]. exists t, inner.
  rewrite lookup_insert_ne; [split_and!; auto|]. symmetry. by eapply Hne.
Qed.

(** What a successful [Save] has done. *)
Lemma Save_inv r i w s w' : sound (w_db w) -> wire_filter (in_Filter i) -> Save r i w = (Ok s, w') ->
  w_db w' = <[sg_ID s := s]> (w_db w) /\ sg_OrganizationID s = in_OrgID i /\ live_segment s = true /\
  parseFilter (sg_Filter s) = Some (in_Filter i) /\ Validate r (in_Filter i) = Ok () /\
  checked MaxNesting (w_db w') (in_OrgID i) None (in_Filter i).
Proof.
  intros Hd Hw E. pose proof (Save_sound r i Hw w (Ok s) w' E Hd) as Hd'. unfold Save in E.
  destruct (is_empty (TrimSpace (in_Name i))); [done|]. unfold of_failure in E.
  destruct (Validate r (in_Filter i)) as [[]|e] eqn:Ev; [|inv_run; done].
  apply bind_ok_inv in E as ([] & w1 & E1 & E). apply ret_ok_inv in E1 as [_ ->].
  apply bind_ok_inv in E as ([] & w2 & E2 & E). apply (checkReferences_checked _ (w_db w) _ _ _ Hd) in E2 as [E2 Hc]; [|done].
  destruct (marshalled_filter (in_Filter i)) as [filter|] eqn:Ef; [|done]. pose proof (wire_filter_read _ _ Hw Ef) as Ep.
  unfold save_row in E. cbv zeta in E. rewrite <- E2 in *. destruct (in_ID i) as [id|] eqn:Ei.
  - apply bind_ok_inv in E as ([] & w3 & E3 & E). apply stmt_ok_inv in E3 as (d & Hs & _ & Edb).
    assert (w_db w3 = d) as E3 by (by rewrite Edb). clear Edb.
    unfold Get in E. apply bind_ok_inv in E as (r0 & w4 & E4 & E). apply try_ok_inv in E4.
    destruct r0 as [s'|e]; [|done]. apply ret_ok_inv in E as [-> ->]. apply query_ok_inv in E4 as (E4 & _ & Ew).
    assert (w_db w4 = d) as E5 by (by rewrite Ew). rewrite E5 in *. rewrite E3 in E4. apply first_segment in E4 as [E4 Hat]; [|done].
    destruct (w_db w2 !! id) as [old|] eqn:Hold; [|simplify_eq; congruence].
    destruct (segment_at (in_OrgID i) id old) eqn:Hato; [|simplify_eq; congruence].
    apply put_segment_ok in Hs. apply segment_at_spec in Hato as (Eid & Eo & Hl). simpl in Hs. rewrite Eid in Hs.
    rewrite Hs, lookup_insert_eq in E4. injection E4 as E4.
    assert (sg_ID s' = id /\ sg_OrganizationID s' = in_OrgID i /\ live_segment s' = true /\ sg_Filter s' = filter) as (Ei1 & Eo1 & El1 & Ef1)
      by (by rewrite <- E4).
    rewrite E4 in Hs. rewrite Ei1, Ef1. split_and!; [done..|]. rewrite Hs, <- Ei1.
    apply (checked_insert MaxNesting _ (in_OrgID i) (Some id) _ s'); [|done]. intros ref t _ Hne ->. congruence.
  - apply bind_ok_inv in E as (id & w3 & E3 & E). apply uuid_New_ok_inv in E3 as [-> ->].
    apply bind_ok_inv in E as ([] & w4 & E4 & E). apply ret_ok_inv in E as [-> ->].
    apply stmt_ok_inv in E4 as (d & Hs & _ & Edb). simpl in Hs.
    destruct (w_db w2 !! w_uuid w2) as [old|] eqn:Hold; [done|]. simpl in Hs. apply put_segment_ok in Hs. simpl in Hs.
    assert (w_db w4 = d) as E5 by (by rewrite Edb). rewrite E5, Hs in *. split_and!; try done.
    set (s := MkSegment _ _ _ _ _ _ _ _ _ _ _ _).
    apply (checked_insert MaxNesting _ (in_OrgID i) None _ s); [|done]. intros ref t Ht _ ->. simpl in Ht. congruence.
Qed.

(** A segment that has just been saved expands on a working database, whatever it refers to, and
    no reference is left in the result: provided references are ids and none is under [not_in]. *)
Theorem saved_segment_expands r i w s w' t u tx locks :
  sound (w_db w) -> wire_filter (in_Filter i) -> expandable (in_Filter i) ->
  (forall k x g, w_db w !! k = Some x -> live_segment x = true -> parseFilter (sg_Filter x) = Some g -> expandable g) ->
  Save r i w = (Ok s, w') ->
  let W := healthy (w_db w') t u tx locks in
  exists f, expand MaxNesting (in_OrgID i) s W = (Ok f, W) /\ expanded f.
Proof.
  intros Hd Hw He Hall E W. pose proof (Save_sound r i Hw w (Ok s) w' E Hd) as Hd'.
  destruct (Save_inv r i w s w' Hd Hw E) as (Edb & _ & _ & Ep & _ & Hc).
  apply (expand_healthy (w_db w') t u tx locks Hd' MaxNesting (in_OrgID i) s (in_Filter i)); [done|done| |done].
  intros k x g. rewrite Edb, lookup_insert_Some. intros [[<- <-]|[_ Hx]]; [intros _; rewrite Ep; by intros [= <-]|]. by apply (Hall k).
Qed.
End References.

(** * Saved segments at work: witnesses and findings *)

#[local] Existing Instances sql_ref uuid_ref json_ref json_ref_laws.

#[local] Instance simple_fmt : GoFmt := {|
  FormatFloat _ := "number";
  Sprint v := match v with AString s => s | _ => "value" end
|}.

#[local] Instance midday : QueryEnv := {| Now := 20587 * Day + 12 * Hour; out_of_range _ := min_int64 |}.

(** The registry of an organization with saved segments and no fields of its own. *)
Definition bare_registry : gmap string Field := default ∅ (contactRegistry [] [] []).

Definition leaf_rule (field operator : string) (value : any) : Node := MkNode "" [] field operator value.
Definition both (rules : list Node) : Node := MkNode "and" rules "" "" ANil.
Definition in_segment (id : uuid) : Node := leaf_rule "segment" OpIn (AString (uuid_String id)).

Definition save (id : option uuid) (name : string) (f : Node) : M (gmap uuid Segment) Segment :=
  Save bare_registry (MkSaveInput 1 id name "" f "shared" 9).

Definition fresh : world (gmap uuid Segment) := healthy ∅ 0 100 false [].

(** A run of several calls; whether the last one went through. *)
Definition works {A} (m : M (gmap uuid Segment) A) : bool := is_ok (m fresh).1.

Definition owner : Viewer := MkViewer 9 1 None true.
Definition use (id : uuid) : M (gmap uuid Segment) (list Compiled) := ApplySegment [] bare_registry owner id.

Definition vip : Node := leaf_rule "tags" OpContainsAny (AList [AString "vip"]).

Example one_segment_in_another :
  works (save None "VIP" vip ;;; save None "Named VIP" (both [in_segment 100; leaf_rule "profile_name" OpIsNotEmpty ANil]) ;;; use 101) = true.
Proof. vm_compute. reflexivity. Qed.

(** Both segments can be saved, and the second can never be used: the limits are checked on each
    filter, not on what it expands to. *)
Example expansion_exceeds_the_limits :
  works (save None "Deep" (both [both [both [vip]]]) ;;; save None "Deeper" (both [in_segment 100])) = true /\
  works (save None "Deep" (both [both [both [vip]]]) ;;; save None "Deeper" (both [in_segment 100]) ;;; use 101) = false.
Proof. vm_compute. split; reflexivity. Qed.

(** Editing a segment nobody checks upwards from breaks those that refer to it. *)
Definition chain : M (gmap uuid Segment) Segment :=
  save None "a" vip ;;; save None "b" (in_segment 100) ;;; save None "c" vip ;;; save None "d" (in_segment 102).

Example an_edit_breaks_others :
  works (chain ;;; use 103) = true /\
  works (chain ;;; save (Some 102%N) "c" (in_segment 101)) = true /\
  works (chain ;;; save (Some 102%N) "c" (in_segment 101) ;;; use 103) = false.
Proof. vm_compute. split_and!; reflexivity. Qed.

(** Rules that are accepted and never work: [not_in], an id that is none, a field with a blank. *)
Example accepted_and_useless :
  forallb (fun f => works (save None "VIP" vip ;;; save None "S" f) && negb (works (save None "VIP" vip ;;; save None "S" f ;;; use 101)))
    [leaf_rule "segment" OpNotIn (AString (uuid_String 100)); leaf_rule "segment" OpIn (AString "VIP"); leaf_rule " segment" OpIn (AString (uuid_String 100))] = true.
Proof. vm_compute. reflexivity. Qed.

(** A segment cannot come to refer to itself. *)
Example no_circle :
  works (save None "a" vip ;;; save None "b" (in_segment 100)) = true /\
  works (save None "a" vip ;;; save None "b" (in_segment 100) ;;; save (Some 100%N) "a" (in_segment 101)) = false.
Proof. vm_compute. split; reflexivity. Qed.

Lemma nothing_sound : sound (∅ : gmap uuid Segment).
Proof.
  split; [by intros k s; rewrite lookup_empty..|]. intros y. constructor. intros x (s & Hs & _). by rewrite lookup_empty in Hs.
Qed.

Definition two_calls : list service_call :=
  [CSave bare_registry (MkSaveInput 1 None "VIP" "" vip "shared" 9); CSave bare_registry (MkSaveInput 1 None "Both" "" (in_segment 100) "shared" 9); CDelete 1 100].

Lemma references_stay_sound_witness :
  sound (w_db (serve_all (fun _ _ => 0) two_calls (healthy ∅ 0 100 false [])).2) /\
  (live_segment <$> (w_db (serve_all (fun _ _ => 0) two_calls (healthy ∅ 0 100 false [])).2) !! 100%N) = Some true.
Proof.
  split; [|vm_compute; reflexivity]. apply references_stay_sound; [|exact nothing_sound].
  repeat constructor.
Defined.

Lemma saved_segment_expands_witness :
  exists s w', save None "VIP" vip fresh = (Ok s, w') /\
  exists f, expand MaxNesting 1 s (healthy (w_db w') 0 0 false []) = (Ok f, healthy (w_db w') 0 0 false []) /\ expanded f.
Proof.
  destruct (save None "VIP" vip fresh) as [[s|e] w'] eqn:E; [|vm_compute in E; discriminate]. exists s, w'. split; [reflexivity|].
  apply (saved_segment_expands bare_registry (MkSaveInput 1 None "VIP" "" vip "shared" 9) fresh s w' 0 0 false []);
    [exact nothing_sound|split; reflexivity| | |exact E].
  - repeat constructor; done.
  - intros k x g Hx. change (w_db fresh) with (∅ : gmap uuid Segment) in Hx. by rewrite lookup_empty in Hx.
Defined.
