(* ===== verification/Samples.v ===== *)
(** * Sample rows

    Small concrete tables on which the theorems of the library are
    instantiated: one organization ([1]), contacts from [10], conversations
    from [20], transfers from [30], users from [40], teams from [50]. *)
From S2P Require Import Prelude Store Events Models Statements.

Definition rows_of {R} (key : R -> N) (l : list R) : gmap N R :=
  foldr (fun r m => <[key r := r]> m) ∅ l.

Lemma rows_of_keyed {R} (key : R -> N) l : keyed key (rows_of key l).
Proof.
  induction l as [|r l IH]; intros k r'; simpl; [by rewrite lookup_empty|].
  destruct (decide (k = key r)) as [->|].
  - rewrite lookup_insert_eq. congruence.
  - rewrite lookup_insert_ne by done. apply IH.
Qed.

Lemma rows_of_elem {R} (key : R -> N) l k r : rows_of key l !! k = Some r -> key r = k /\ r ∈ l.
Proof.
  intros Hk. split; [by eapply rows_of_keyed|]. revert Hk. induction l as [|x l IH]; simpl.
  - by rewrite lookup_empty.
  - rewrite lookup_insert_Some. intros [[_ <-]|[_ Hk]]; [by left|]. right. by apply IH.
Qed.

(** Case analysis on a row of a sample table. *)
Ltac sample_cases Hk :=
  apply rows_of_elem in Hk as [<- Hk];
  repeat (apply elem_of_cons in Hk as [->|Hk]); try (by apply not_elem_of_nil in Hk).

Definition empty_tables : Tables := MkTables ∅ ∅ ∅ ∅ ∅ ∅ ∅ ∅ ∅ ∅ ∅ ∅ ∅.

(** A world on [d] whose driver fails as [faults] says. *)
Definition world_on (d : Tables) (now : time) (faults : list bool) : world Tables :=
  World d now 1000%N faults false false [].

Definition sample_conversation (id contact : uuid) (status : ConversationStatus) : Conversation :=
  MkConversation id None 1%N contact status None None HandlingBot "main" None None None 0
    (Some 0) None None (Some 0) None (Some 0) (Some 0) None None "" 0 1.

Definition sample_transfer (id contact : uuid) (agent team : option uuid) (at_ : time) : AgentTransfer :=
  MkAgentTransfer id None 1%N contact "main" "15550001" TransferStatusActive "manual" agent team
    None "" at_ None None None None None None None None 0 None false None.

Definition sample_contact (id : uuid) (owner : option uuid) : Contact :=
  MkContact id 0 None 1%N "15550001" "Ada" "main" owner None None false "" "" "" None "" None false.

(** The queue: contact [10] waits in the general one, contact [11] in team
    [50]'s; agent [40] holds contact [12]. *)
Definition sample_contacts :=
  [sample_contact 10 None; sample_contact 11 (Some 41%N); sample_contact 12 None].
Definition sample_transfers :=
  [sample_transfer 30 10 None None 100;
   sample_transfer 31 11 None (Some 50%N) 90;
   sample_transfer 32 12 (Some 40%N) None 80].
Definition sample_conversations :=
  [sample_conversation 20 10 ConversationOpen;
   set_cv_TeamID (Some 50%N) (sample_conversation 21 11 ConversationOpen);
   set_cv_Handling HandlingHuman (set_cv_AssigneeID (Some 40%N) (sample_conversation 22 12 ConversationOpen))].

Definition sample_queue : Tables :=
  set_db_contacts (rows_of ct_ID sample_contacts)
  (set_db_transfers (rows_of tr_ID sample_transfers)
  (set_db_conversations (rows_of cv_ID sample_conversations) empty_tables)).
