(* ===== verification/Relay.v ===== *)
(** * The event relay ([internal/crmevents/relay.go], [sinks.go],
      [internal/activity], [NewEventRelay] of [handlers/crm_events.go])

    A pass of the relay claims the oldest unpublished events, hands each to
    every sink and marks the batch published, in one transaction.  Only the
    outbox statements belong to that transaction: the sinks write through
    connections of their own, so a rollback does not take back what they did.

    Redis keeps the newest 200000 entries of the stream or so; the model keeps
    them all.  The webhook sink starts a delivery and returns; what was started
    is recorded, in order. *)
From S2P Require Import Prelude GoLib Store Events Wire Models Statements.

(** ** [internal/activity] *)

(** [models.ContactActivity]. *)
Record ContactActivity := {
  ca_ID : uuid;
  ca_OrganizationID : uuid;
  ca_ContactID : uuid;
  ca_Type : string;
  ca_ActorType : string;
  ca_ActorID : option uuid;
  ca_ActorName : string;
  ca_SubjectType : string;
  ca_SubjectID : option uuid;
  ca_Data : list (string * any);
  ca_OccurredAt : time
}.

Record Entry := {
  en_OrgID : uuid;
  en_ContactID : uuid;
  en_Type : string;
  en_Actor : Actor;
  en_Subject : Subject;
  en_Data : list (string * any);
  en_OccurredAt : time
}.

(** [rowFor], given what [uuid.New()] and [time.Now()] return. *)
Definition rowFor (id : uuid) (t : time) (e : Entry) : ContactActivity := {|
  ca_ID := id;
  ca_OrganizationID := en_OrgID e;
  ca_ContactID := en_ContactID e;
  ca_Type := en_Type e;
  ca_ActorType := if is_empty (actor_Type (en_Actor e)) then ActorSystem else actor_Type (en_Actor e);
  ca_ActorID := actor_ID (en_Actor e);
  ca_ActorName := actor_Name (en_Actor e);
  ca_SubjectType := subj_Type (en_Subject e);
  ca_SubjectID := subj_ID (en_Subject e);
  ca_Data := en_Data e;
  ca_OccurredAt := if en_OccurredAt e =? time_zero then t else en_OccurredAt e
|}.

(** ** What a pass reads and writes *)

Record StreamEntry := { se_EventID : uuid; se_Type : string; se_OrgID : uuid; se_Payload : string }.
Record Dispatch := { di_OrgID : uuid; di_EventID : uuid; di_Type : string; di_Data : list (string * any) }.

Record RelayDB := MkRelay {
  rd_outbox : gmap uuid CRMEventOutbox;
  rd_activities : gmap uuid ContactActivity;
  rd_stream : list StreamEntry;       (* the Redis stream, oldest first *)
  rd_channel : list string;           (* published on the fan-out channel *)
  rd_dispatched : list Dispatch       (* deliveries the webhook sink started *)
}.

Definition set_rd_outbox (v : gmap uuid CRMEventOutbox) (d : RelayDB) : RelayDB :=
  MkRelay v (rd_activities d) (rd_stream d) (rd_channel d) (rd_dispatched d).
Definition set_rd_activities (v : gmap uuid ContactActivity) (d : RelayDB) : RelayDB :=
  MkRelay (rd_outbox d) v (rd_stream d) (rd_channel d) (rd_dispatched d).
Definition set_rd_stream (v : list StreamEntry) (d : RelayDB) : RelayDB :=
  MkRelay (rd_outbox d) (rd_activities d) v (rd_channel d) (rd_dispatched d).
Definition set_rd_channel (v : list string) (d : RelayDB) : RelayDB :=
  MkRelay (rd_outbox d) (rd_activities d) (rd_stream d) v (rd_dispatched d).
Definition set_rd_dispatched (v : list Dispatch) (d : RelayDB) : RelayDB :=
  MkRelay (rd_outbox d) (rd_activities d) (rd_stream d) (rd_channel d) v.

Definition set_ob_PublishedAt (v : option time) (r : CRMEventOutbox) : CRMEventOutbox :=
  {| ob_ID := ob_ID r; ob_OrganizationID := ob_OrganizationID r; ob_Type := ob_Type r; ob_ContactID := ob_ContactID r;
     ob_SubjectType := ob_SubjectType r; ob_SubjectID := ob_SubjectID r; ob_ActorType := ob_ActorType r;
     ob_ActorID := ob_ActorID r; ob_ActorName := ob_ActorName r; ob_OriginRuleID := ob_OriginRuleID r;
     ob_OriginDepth := ob_OriginDepth r; ob_Data := ob_Data r; ob_OccurredAt := ob_OccurredAt r;
     ob_PublishedAt := v; ob_Attempts := ob_Attempts r; ob_LastError := ob_LastError r |}.

(** [attempts = attempts + 1, last_error = ...]. *)
Definition failed_attempt (reason : string) (r : CRMEventOutbox) : CRMEventOutbox :=
  {| ob_ID := ob_ID r; ob_OrganizationID := ob_OrganizationID r; ob_Type := ob_Type r; ob_ContactID := ob_ContactID r;
     ob_SubjectType := ob_SubjectType r; ob_SubjectID := ob_SubjectID r; ob_ActorType := ob_ActorType r;
     ob_ActorID := ob_ActorID r; ob_ActorName := ob_ActorName r; ob_OriginRuleID := ob_OriginRuleID r;
     ob_OriginDepth := ob_OriginDepth r; ob_Data := ob_Data r; ob_OccurredAt := ob_OccurredAt r;
     ob_PublishedAt := ob_PublishedAt r; ob_Attempts := ob_Attempts r + 1; ob_LastError := reason |}.

Abbreviation MR := (M RelayDB).

(** A command on another connection, or to Redis: it can fail, and neither its
    failure nor the rollback of the relay's transaction undoes anything else. *)
Definition elsewhere (f : RelayDB -> res err unit * RelayDB) : MR unit := fun w =>
  match w_faults w with
  | true :: fs => (Err ErrDriver, set_faults fs w)
  | fs =>
      let w := set_faults (tl fs) w in
      match f (w_db w) with
      | (Ok _, d) => (Ok tt, set_db d w)
      | (Err e, _) => (Err e, w)
      end
  end.

(** [db.Transaction] over the outbox alone. *)
Definition outbox_transaction {A} (body : MR A) : MR A := fun w =>
  let '(r, w1) := bind (stmt no_locks (fun d => (Ok tt, d))) (fun _ => body)
                    (set_in_tx true (set_aborted false w)) in
  let close o w' := set_db (set_rd_outbox o (w_db w1)) (set_in_tx false (set_aborted false w')) in
  match r with
  | Err e => (Err e, close (rd_outbox (w_db w)) w1)
  | Ok a =>
      if w_aborted w1 then (Err ErrTxAborted, close (rd_outbox (w_db w)) w1)
      else match w_faults w1 with
      | true :: fs => (Err ErrDriver, close (rd_outbox (w_db w)) (set_faults fs w1))
      | fs => (Ok a, close (rd_outbox (w_db w1)) (set_faults (tl fs) w1))
      end
  end.

(** ** Sinks *)

Record Sink := { sink_Name : string; sink_Handle : Event -> MR unit }.

Section Sinks.
Context `{GJ : GoJson}.
Variable dispatcher : bool.      (* is the webhook sink's dispatcher set? *)

(** [activity.Record]. *)
Definition Record_ (e : Entry) : MR unit :=
  id <- uuid_New ;;
  t <- now ;;
  let row := rowFor id t e in
  elsewhere (fun d =>
    match rd_activities d !! id with
    | Some _ => (Err ErrUnique, d)
    | None => (Ok tt, set_rd_activities (<[id := row]> (rd_activities d)) d)
    end).

Definition FromEvent (e : Event) : MR unit :=
  match Lookup (e_Type e), e_ContactID e with
  | Some s, Some contactID =>
      if spec_RecordActivity s then
        Record_ {| en_OrgID := e_OrgID e; en_ContactID := contactID; en_Type := e_Type e;
                   en_Actor := e_Actor e; en_Subject := e_Subject e; en_Data := e_Data e;
                   en_OccurredAt := e_OccurredAt e |}
      else ret tt
  | _, _ => ret tt
  end.

Definition ActivitySink : Sink := {|
  sink_Name := "activity";
  sink_Handle e :=
    match Lookup (e_Type e) with
    | Some s => if negb (spec_RecordActivity s) || is_none (e_ContactID e) then ret tt else FromEvent e
    | None => ret tt
    end
|}.

Definition stream_entry (e : Event) (payload : string) : StreamEntry :=
  {| se_EventID := e_ID e; se_Type := e_Type e; se_OrgID := e_OrgID e; se_Payload := payload |}.

Definition StreamSink : Sink := {|
  sink_Name := "stream";
  sink_Handle e :=
    match Lookup (e_Type e) with
    | Some s =>
        if negb (spec_Automatable s) then ret tt
        else match event_payload e with
             | Err x => fail x
             | Ok payload => elsewhere (fun d => (Ok tt, set_rd_stream (rd_stream d ++ [stream_entry e payload]) d))
             end
    | None => ret tt
    end
|}.

Definition WSFanoutSink : Sink := {|
  sink_Name := "ws_fanout";
  sink_Handle e :=
    match event_payload e with
    | Err x => fail x
    | Ok payload => elsewhere (fun d => (Ok tt, set_rd_channel (rd_channel d ++ [payload]) d))
    end
|}.

Definition dispatch (e : Event) : Dispatch :=
  {| di_OrgID := e_OrgID e; di_EventID := e_ID e; di_Type := e_Type e; di_Data := e_Data e |}.

(** The dispatcher starts a goroutine; it does not fail. *)
Definition WebhookSink : Sink := {|
  sink_Name := "webhook";
  sink_Handle e :=
    match Lookup (e_Type e) with
    | Some s =>
        if negb (spec_Webhook s) || negb dispatcher then ret tt
        else fun w => (Ok tt, set_db (set_rd_dispatched (rd_dispatched (w_db w) ++ [dispatch e]) (w_db w)) w)
    | None => ret tt
    end
|}.

(** [NewEventRelay]. *)
Definition NewEventRelay : list Sink := [ActivitySink; StreamSink; WSFanoutSink; WebhookSink].
End Sinks.

(** ** [relay.go] *)

Definition DefaultBatchSize : Z := 500.
Definition DefaultRetention : Z := 7 * 24 * Hour.

Definition batch_size (configured : Z) : Z := if configured <=? 0 then DefaultBatchSize else configured.
Definition retention (configured : Z) : Z := if configured <=? 0 then DefaultRetention else configured.

Section Relay.
Context `{SQ : Sql}.
Variable Error : err -> string.           (* [err.Error()] *)
Variable Sinks : list Sink.
Variables BatchSize Retention : Z.        (* as configured *)

(** The combined failures of the sinks, empty when all succeeded. *)
Fixpoint fan_out (sinks : list Sink) (e : Event) (failures : string) : MR string :=
  match sinks with
  | [] => ret failures
  | sink :: rest =>
      r <- try (sink_Handle sink e) ;;
      fan_out rest e
        match r with
        | Ok _ => failures
        | Err x => (failures ++ (if is_empty failures then "" else "; ") ++ sink_Name sink ++ ": " ++ Error x)%string
        end
  end.

Definition fanOut (e : Event) : MR string := fan_out Sinks e "".

Definition update_outbox (p : CRMEventOutbox -> bool) (us : list (CRMEventOutbox -> CRMEventOutbox)) : MR nat :=
  stmt no_locks (fun d => (Ok (rows_affected p (rd_outbox d)), set_rd_outbox (update_where p us (rd_outbox d)) d)).

Definition row_by_id (id : uuid) (r : CRMEventOutbox) : bool := N.eqb (ob_ID r) id.

(** The loop over the claimed rows. *)
Fixpoint relay_each (claimed : list CRMEventOutbox) : MR unit :=
  match claimed with
  | [] => ret tt
  | row :: rest =>
      sinkErr <- fanOut (eventFromRow row) ;;
      (if is_empty sinkErr then ret tt
       else update_outbox (row_by_id (ob_ID row)) [failed_attempt sinkErr] ;;; ret tt) ;;;
      relay_each rest
  end.

Definition earlier (a b : CRMEventOutbox) : bool := ob_OccurredAt a <? ob_OccurredAt b.

Definition unpublished (r : CRMEventOutbox) : bool := is_none (ob_PublishedAt r).

(** [FOR UPDATE SKIP LOCKED]: rows another relay works on are passed over. *)
Definition claimable (locked : uuid -> bool) (r : CRMEventOutbox) : bool :=
  unpublished r && negb (locked (ob_ID r)).

Definition claim_batch (locked : uuid -> bool) (d : RelayDB) : list CRMEventOutbox :=
  take (Z.to_nat (batch_size BatchSize)) (sort_by earlier (find_rows (claimable locked) None (rd_outbox d))).

Definition batch_body (locked : uuid -> bool) : MR nat :=
  claimed <- query (fun d => Ok (claim_batch locked d)) ;;
  if Nat.eqb (length claimed) 0 then ret 0%nat
  else
    relay_each claimed ;;;
    t <- now ;;
    update_outbox (fun r => existsb (N.eqb (ob_ID r)) (ob_ID <$> claimed)) [set_ob_PublishedAt (Some t)] ;;;
    ret (length claimed).

Definition ProcessBatch (locked : uuid -> bool) : MR nat := outbox_transaction (batch_body locked).

Definition prunable (cutoff : time) (r : CRMEventOutbox) : bool := sql_lt (ob_PublishedAt r) cutoff.

(** [Prune]; its error is logged. *)
Definition Prune : MR unit :=
  t <- now ;;
  try (stmt no_locks (fun d =>
    (Ok tt, set_rd_outbox (omap (fun r => if prunable (t - retention Retention) r then None else Some r) (rd_outbox d)) d))) ;;;
  ret tt.

(** [Run], while its passes fill their batches. *)
Fixpoint run_passes (fuel : nat) : MR unit :=
  match fuel with
  | O => ret tt
  | S fuel =>
      r <- try (ProcessBatch (fun _ => false)) ;;
      match r with
      | Ok n => if batch_size BatchSize <=? Z.of_nat n then run_passes fuel else ret tt
      | Err _ => ret tt
      end
  end.
End Relay.
