(* ===== verification/RelayProps.v ===== *)
(** * Properties of the relay

    On a healthy database and Redis the passes of the relay drain the outbox:
    every event reaches every sink that wants it, once, oldest first.  Whatever
    fails, a pass that does not commit leaves the outbox as it was. *)
From S2P Require Import Prelude GoLib Store Events Wire Models Statements Samples Relay.

Section Delivery.
Context `{SL : SqlLaws} `{GJ : GoJson}.
Variable dispatcher : bool.
Variable Error : err -> string.
Implicit Types (d : RelayDB) (e : Event).

(** ** What one event leaves behind *)

Definition in_catalog (flag : Spec -> bool) e : bool :=
  match Lookup (e_Type e) with Some s => flag s | None => false end.

Definition recorded e : bool := in_catalog spec_RecordActivity e && is_some (e_ContactID e).

Definition entry e : Entry :=
  {| en_OrgID := e_OrgID e; en_ContactID := default uuid_Nil (e_ContactID e); en_Type := e_Type e;
     en_Actor := e_Actor e; en_Subject := e_Subject e; en_Data := e_Data e; en_OccurredAt := e_OccurredAt e |}.

Definition payload e : string := json_text (envelope_json (newEnvelope e)).

Definition to_stream e : option StreamEntry :=
  if in_catalog spec_Automatable e then Some (stream_entry e (payload e)) else None.
Definition to_webhooks e : option Dispatch :=
  if in_catalog spec_Webhook e && dispatcher then Some (dispatch e) else None.

(** The timeline rows of a list of events, under fresh ids from [u] on. *)
Fixpoint filed (u : uuid) (t : time) (es : list Event) (rows : gmap uuid ContactActivity) : gmap uuid ContactActivity :=
  match es with
  | [] => rows
  | e :: es => if recorded e then filed (u + 1) t es (<[u := rowFor u t (entry e)]> rows) else filed u t es rows
  end.

Definition next_id (u : uuid) (es : list Event) : uuid := (u + N.of_nat (length (List.filter recorded es)))%N.

(** Everything a list of events leaves outside the outbox. *)
Definition handed (u : uuid) (t : time) (es : list Event) d : RelayDB :=
  MkRelay (rd_outbox d) (filed u t es (rd_activities d)) (rd_stream d ++ omap to_stream es)
    (rd_channel d ++ (payload <$> es)) (rd_dispatched d ++ omap to_webhooks es).

Lemma filed_app u t es1 es2 rows : filed u t (es1 ++ es2) rows = filed (next_id u es1) t es2 (filed u t es1 rows).
Proof.
  revert u rows. induction es1 as [|e es1 IH]; intros u rows; simpl.
  - unfold next_id. simpl. by rewrite N.add_0_r.
  - unfold next_id in *. simpl. destruct (recorded e); rewrite IH; [|done]. f_equal. simpl. lia.
Qed.

Lemma next_id_app u es1 es2 : next_id u (es1 ++ es2) = next_id (next_id u es1) es2.
Proof. unfold next_id. rewrite List.filter_app, length_app. lia. Qed.

Lemma handed_app u t es1 es2 d : handed u t (es1 ++ es2) d = handed (next_id u es1) t es2 (handed u t es1 d).
Proof. unfold handed. simpl. by rewrite filed_app, !omap_app, fmap_app, !(assoc_L app). Qed.

Lemma handed_nil u t d : handed u t [] d = d.
Proof. unfold handed. simpl. rewrite !app_nil_r. by destruct d. Qed.

(** No timeline row has an id that is still to be handed out. *)
Definition ids_free (u : uuid) (rows : gmap uuid ContactActivity) : Prop := forall k, (u <= k)%N -> rows !! k = None.

Lemma filed_free u t es rows : ids_free u rows -> ids_free (next_id u es) (filed u t es rows).
Proof.
  revert u rows. induction es as [|e es IH]; intros u rows Hf; simpl.
  - unfold next_id. simpl. by rewrite N.add_0_r.
  - unfold next_id in *. simpl. destruct (recorded e); [|by apply IH]. cbn [length].
    replace (u + N.of_nat (S (length (List.filter recorded es))))%N
      with (u + 1 + N.of_nat (length (List.filter recorded es)))%N by lia.
    apply IH. intros k Hk. rewrite lookup_insert_ne by lia. apply Hf. lia.
Qed.

(** ** One event through the sinks *)

Lemma elsewhere_healthy f d n u tx l d' :
  f d = (Ok tt, d') -> elsewhere f (healthy d n u tx l) = (Ok tt, healthy d' n u tx l).
Proof. intros E. unfold elsewhere, healthy. simpl. by rewrite E. Qed.

Lemma activity_healthy e d n u tx l :
  ids_free u (rd_activities d) ->
  sink_Handle ActivitySink e (healthy d n u tx l) =
    (Ok tt, healthy (set_rd_activities (filed u n [e] (rd_activities d)) d) n (next_id u [e]) tx l).
Proof.
  intros Hf. unfold ActivitySink, FromEvent, filed, next_id, recorded, in_catalog, entry. simpl.
  destruct (Lookup (e_Type e)) as [s|]; simpl; [|by rewrite N.add_0_r; destruct d].
  destruct (spec_RecordActivity s); simpl; [|by rewrite N.add_0_r; destruct d].
  destruct (e_ContactID e) as [c|]; simpl; [|by rewrite N.add_0_r; destruct d].
  unfold Record_. rewrite (bind_run _ _ _ _ _ (uuid_healthy _ _ _ _ _)), (bind_run _ _ _ _ _ (now_healthy _ _ _ _ _)).
  apply elsewhere_healthy. by rewrite Hf by lia.
Qed.

Definition carried e : Prop := marshals (AMap (e_Data e)) = true.

Lemma payload_ok e : carried e -> event_payload e = Ok (payload e).
Proof. unfold carried, event_payload. by intros ->. Qed.

Lemma stream_healthy e d n u tx l :
  carried e ->
  sink_Handle StreamSink e (healthy d n u tx l) =
    (Ok tt, healthy (set_rd_stream (rd_stream d ++ omap to_stream [e]) d) n u tx l).
Proof.
  intros Hc. unfold StreamSink, to_stream, in_catalog. simpl. rewrite (payload_ok e Hc).
  destruct (Lookup (e_Type e)) as [s|]; simpl; [|by rewrite app_nil_r; destruct d].
  destruct (spec_Automatable s); simpl; [by apply elsewhere_healthy|by rewrite app_nil_r; destruct d].
Qed.

Lemma channel_healthy e d n u tx l :
  carried e ->
  sink_Handle WSFanoutSink e (healthy d n u tx l) =
    (Ok tt, healthy (set_rd_channel (rd_channel d ++ [payload e]) d) n u tx l).
Proof. intros Hc. unfold WSFanoutSink. simpl. rewrite (payload_ok e Hc). by apply elsewhere_healthy. Qed.

Lemma webhook_healthy e d n u tx l :
  sink_Handle (WebhookSink dispatcher) e (healthy d n u tx l) =
    (Ok tt, healthy (set_rd_dispatched (rd_dispatched d ++ omap to_webhooks [e]) d) n u tx l).
Proof.
  unfold WebhookSink, to_webhooks, in_catalog. simpl.
  destruct (Lookup (e_Type e)) as [s|]; simpl; [|by rewrite app_nil_r; destruct d].
  destruct (spec_Webhook s), dispatcher; simpl; by rewrite ?app_nil_r; destruct d.
Qed.

Lemma fan_out_ok sinks sink e failures w w1 :
  sink_Handle sink e w = (Ok tt, w1) -> fan_out Error (sink :: sinks) e failures w = fan_out Error sinks e failures w1.
Proof. intros E. simpl. by rewrite (bind_run _ _ _ _ _ (try_run _ _ _ _ E)). Qed.

Lemma fanOut_healthy e d n u tx l :
  carried e -> ids_free u (rd_activities d) ->
  fanOut Error (NewEventRelay dispatcher) e (healthy d n u tx l) =
    (Ok EmptyString, healthy (handed u n [e] d) n (next_id u [e]) tx l).
Proof.
  intros Hc Hf. unfold fanOut, NewEventRelay.
  rewrite (fan_out_ok _ _ _ _ _ _ (activity_healthy e d n u tx l Hf)).
  rewrite (fan_out_ok _ _ _ _ _ _ (stream_healthy _ _ _ _ _ _ Hc)).
  rewrite (fan_out_ok _ _ _ _ _ _ (channel_healthy _ _ _ _ _ _ Hc)).
  rewrite (fan_out_ok _ _ _ _ _ _ (webhook_healthy _ _ _ _ _ _)). by destruct d.
Qed.

Lemma relay_each_healthy claimed d n u tx l :
  Forall (fun r => carried (eventFromRow r)) claimed -> ids_free u (rd_activities d) ->
  relay_each Error (NewEventRelay dispatcher) claimed (healthy d n u tx l) =
    (Ok tt, healthy (handed u n (eventFromRow <$> claimed) d) n (next_id u (eventFromRow <$> claimed)) tx l).
Proof.
  intros Hc. revert d u. induction Hc as [|r claimed Hr _ IH]; intros d u Hf.
  - simpl. rewrite handed_nil. unfold next_id. simpl. by rewrite N.add_0_r.
  - cbn [relay_each]. rewrite (bind_run _ _ _ _ _ (fanOut_healthy _ _ _ _ _ _ Hr Hf)). cbn [is_empty String.eqb].
    unfold bind at 1, ret. rewrite IH by (by apply filed_free).
    by rewrite <- handed_app, <- next_id_app.
Qed.

(** ** A pass *)

Variables BatchSize : Z.
#[local] Abbreviation Process := (ProcessBatch Error (NewEventRelay dispatcher) BatchSize).

Definition nobody : uuid -> bool := fun _ => false.

Definition pending d : list CRMEventOutbox := find_rows (claimable nobody) None (rd_outbox d).

(** A batch marked published. *)
Definition mark (t : time) (claimed : list CRMEventOutbox) (rows : gmap uuid CRMEventOutbox) : gmap uuid CRMEventOutbox :=
  update_where (fun r => existsb (N.eqb (ob_ID r)) (ob_ID <$> claimed)) [set_ob_PublishedAt (Some t)] rows.

Lemma mark_nil t rows : mark t [] rows = rows.
Proof. apply update_where_none. done. Qed.

Definition passed u t claimed d : RelayDB := set_rd_outbox (mark t claimed (rd_outbox d)) (handed u t (eventFromRow <$> claimed) d).

Lemma outbox_transaction_healthy {A} (body : MR A) d n u l a d' n' u' l' :
  body (healthy d n u true l) = (Ok a, healthy d' n' u' true l') ->
  outbox_transaction body (healthy d n u false l) = (Ok a, healthy d' n' u' false l').
Proof.
  intros E. unfold outbox_transaction, healthy. simpl. unfold bind, stmt. simpl.
  unfold set_db, set_in_tx, set_aborted, set_faults, add_locks, no_locks; simpl. rewrite app_nil_r.
  unfold healthy in E. rewrite E. simpl. by destruct d'.
Qed.

Lemma Process_healthy locked d n u l :
  let claimed := claim_batch BatchSize locked d in
  Forall (fun r => carried (eventFromRow r)) claimed -> ids_free u (rd_activities d) ->
  Process locked (healthy d n u false l) =
    (Ok (length claimed), healthy (passed u n claimed d) n (next_id u (eventFromRow <$> claimed)) false l).
Proof.
  intros claimed Hc Hf. apply outbox_transaction_healthy. unfold batch_body.
  rewrite (bind_run _ _ _ _ _ (query_healthy (fun d => Ok (claim_batch BatchSize locked d)) d n u true l claimed eq_refl)).
  destruct claimed as [|r rest] eqn:E; [|rewrite <- E in *]; simpl.
  - unfold passed. simpl. rewrite mark_nil, handed_nil. unfold next_id. simpl. rewrite N.add_0_r. by destruct d.
  - assert (Nat.eqb (length claimed) 0 = false) as -> by (by rewrite E).
    rewrite (bind_run _ _ _ _ _ (relay_each_healthy _ _ _ _ _ _ Hc Hf)), (bind_run _ _ _ _ _ (now_healthy _ _ _ _ _)).
    unfold update_outbox. erewrite bind_run by by apply stmt_healthy. unfold no_locks. by rewrite app_nil_r.
Qed.

(** ** Draining the outbox *)

Lemma pending_elem d r : keyed ob_ID (rd_outbox d) -> r ∈ pending d <-> rd_outbox d !! ob_ID r = Some r /\ unpublished r = true.
Proof.
  intros Hk. assert (claimable nobody r = unpublished r) as E by apply andb_true_r. split.
  - intros (k & Hr & Hp)%find_rows_elem. by rewrite (Hk _ _ Hr), <- E.
  - intros [Hr Hp]. eapply find_rows_complete; [done|by rewrite E].
Qed.

Lemma mark_lookup t claimed rows k :
  mark t claimed rows !! k =
    (fun r => if existsb (N.eqb (ob_ID r)) (ob_ID <$> claimed) then set_ob_PublishedAt (Some t) r else r) <$> rows !! k.
Proof. apply update_where_lookup. Qed.

Lemma mark_keyed t claimed rows : keyed ob_ID rows -> keyed ob_ID (mark t claimed rows).
Proof.
  intros Hk k r. rewrite mark_lookup. intros (r0 & Hr & ->)%fmap_Some. apply Hk in Hr. by destruct (existsb _ _).
Qed.

Lemma mark_app t c1 c2 rows : mark t (c1 ++ c2) rows = mark t c2 (mark t c1 rows).
Proof.
  apply map_eq. intros k. rewrite !mark_lookup. destruct (rows !! k) as [r|]; simpl; [|done].
  rewrite fmap_app, existsb_app. by destruct (existsb _ (ob_ID <$> c1)); simpl; destruct (existsb _ (ob_ID <$> c2)).
Qed.

Lemma marked_in claimed r :
  existsb (N.eqb (ob_ID r)) (ob_ID <$> claimed) = true <-> exists c, c ∈ claimed /\ ob_ID c = ob_ID r.
Proof.
  rewrite existsb_exists. setoid_rewrite N.eqb_eq. setoid_rewrite <- list_elem_of_In. setoid_rewrite list_elem_of_fmap. naive_solver.
Qed.

(** A pass takes the batch off the pending rows. *)
Lemma pending_passed u t claimed rest d :
  keyed ob_ID (rd_outbox d) -> pending d ≡ₚ claimed ++ rest -> pending (passed u t claimed d) ≡ₚ rest.
Proof.
  intros Hk Hp. pose proof (find_rows_nodup _ (claimable nobody) None _ Hk) as Hnd. change (NoDup (pending d)) in Hnd.
  rewrite Hp in Hnd. apply NoDup_app in Hnd as (_ & Hdis & Hnd).
  assert (forall r, r ∈ claimed ++ rest <-> rd_outbox d !! ob_ID r = Some r /\ unpublished r = true) as Hin
    by (intros r; by rewrite <- Hp, pending_elem).
  apply NoDup_Permutation; [by eapply find_rows_nodup, mark_keyed|done|].
  intros r. rewrite pending_elem by by apply mark_keyed. unfold passed. simpl. rewrite mark_lookup. split.
  - intros [(r0 & Hr & ->)%fmap_Some Hu]. destruct (existsb _ _) eqn:Hm; [done|].
    assert (r0 ∈ claimed ++ rest) as Ha by by apply Hin. apply elem_of_app in Ha as [Ha|Ha]; [|done].
    enough (existsb (N.eqb (ob_ID r0)) (ob_ID <$> claimed) = true) by congruence. apply marked_in. by exists r0.
  - intros Hr. destruct (proj1 (Hin r)) as [Hl Hu]; [apply elem_of_app; by right|]. split; [|done]. rewrite Hl. simpl.
    destruct (existsb _ _) eqn:Hm; [|done]. apply marked_in in Hm as (c & Hc & Hid).
    destruct (proj1 (Hin c)) as [Hl' _]; [apply elem_of_app; by left|]. rewrite Hid, Hl in Hl'. simplify_eq. by apply Hdis in Hc.
Qed.

Lemma earlier_asym a b : earlier a b = true -> earlier b a = false.
Proof. unfold earlier. rewrite Z.ltb_lt, Z.ltb_ge. lia. Qed.

Lemma earlier_neg a b c : earlier b a = false -> earlier c b = false -> earlier c a = false.
Proof. unfold earlier. rewrite !Z.ltb_ge. lia. Qed.

Lemma batch_pos : (0 < Z.to_nat (batch_size BatchSize))%nat.
Proof. unfold batch_size, DefaultBatchSize. destruct (Z.leb_spec BatchSize 0); lia. Qed.

Definition oldest_first (rows : list CRMEventOutbox) : Prop :=
  forall i j x y, (i < j)%nat -> rows !! i = Some x -> rows !! j = Some y -> ob_OccurredAt x <= ob_OccurredAt y.

Lemma in_order_oldest_first rows : in_order earlier rows <-> oldest_first rows.
Proof.
  unfold in_order, oldest_first, earlier.
  split; intros Ho i j x y Hij Hx Hy; specialize (Ho i j x y Hij Hx Hy); [by apply Z.ltb_ge|by apply Z.ltb_ge].
Qed.

(** C17: The relay drains the outbox.  With the database and Redis up, as many
    passes as the pending rows need batches publish every row, and each event
    is handed over exactly once, oldest first: its timeline entry is written,
    it is on the stream if rules may start from it, on the fan-out channel, and
    its webhook delivery is started if the catalog asks for one. *)
Theorem relay_drains_the_outbox fuel d n u l :
  keyed ob_ID (rd_outbox d) -> ids_free u (rd_activities d) ->
  Forall (fun r => carried (eventFromRow r)) (pending d) ->
  Z.of_nat (length (pending d)) <= Z.of_nat fuel * batch_size BatchSize ->
  exists rows d',
    rows ≡ₚ pending d /\ oldest_first rows /\
    run_passes Error (NewEventRelay dispatcher) BatchSize fuel (healthy d n u false l) =
      (Ok tt, healthy d' n (next_id u (eventFromRow <$> rows)) false l) /\
    d' = passed u n rows d /\ pending d' = [].
Proof.
  setoid_rewrite <- in_order_oldest_first.
  revert d u. induction fuel as [|fuel IH]; intros d u Hk Hf Hc Hlen.
  { exists [], d. assert (pending d = []) as E by (apply length_zero_iff_nil; lia). rewrite E.
    split_and!; [done|intros i j x y _ Hi; by rewrite lookup_nil in Hi| | |done].
    - unfold next_id. simpl. by rewrite N.add_0_r.
    - unfold passed. simpl. rewrite mark_nil, handed_nil. by destruct d. }
  set (k := Z.to_nat (batch_size BatchSize)). pose proof batch_pos as Hpos. fold k in Hpos.
  set (claimed := claim_batch BatchSize nobody d). set (rest := drop k (sort_by earlier (pending d))).
  assert (claimed ++ rest = sort_by earlier (pending d)) as Hcut by apply take_drop.
  assert (pending d ≡ₚ claimed ++ rest) as Hp by by rewrite Hcut, sort_by_perm.
  assert (in_order earlier (claimed ++ rest)) as (Ho1 & Ho2 & Hx)%in_order_app
    by (rewrite Hcut; apply sort_by_order; [apply earlier_asym|apply earlier_neg]).
  rewrite Hp in Hc. apply Forall_app in Hc as [Hc1 Hc2].
  pose proof (Process_healthy nobody d n u l Hc1 Hf) as Hpass. fold claimed in Hpass.
  set (d1 := passed u n claimed d) in *. pose proof (pending_passed u n _ _ _ Hk Hp) as Hp1. fold d1 in Hp1.
  cbn [run_passes]. rewrite (bind_run _ _ _ _ _ (try_run _ _ _ _ Hpass)). rewrite Hp, length_app in Hlen.
  destruct (Z.leb_spec (batch_size BatchSize) (Z.of_nat (length claimed))) as [Hfull|Hless].
  - destruct (IH d1 (next_id u (eventFromRow <$> claimed))) as (rows & d' & Hr & Ho & Hrun & Hd & He).
    + by apply mark_keyed.
    + by apply filed_free.
    + by rewrite Hp1.
    + rewrite Hp1. lia.
    + exists (claimed ++ rows), d'. rewrite Hrun, Hp1 in *. split_and!; [by rewrite Hr, Hp| | | |done].
      * apply in_order_app. split_and!; [done|done|]. intros x y Hx' Hy. apply Hx; [done|]. by rewrite <- Hr.
      * by rewrite fmap_app, next_id_app.
      * subst d'. unfold passed, d1. simpl. rewrite fmap_app, handed_app, mark_app. done.
  - assert (rest = []) as Hnil.
    { apply drop_ge. unfold claimed, claim_batch in Hless. rewrite length_take in Hless.
      change (find_rows (claimable nobody) None (rd_outbox d)) with (pending d) in Hless. lia. }
    rewrite Hnil, app_nil_r in *. exists claimed, d1. split_and!; [by rewrite Hp|done|done|done|].
    by apply Permutation_nil_r.
Qed.
End Delivery.

(** ** Whatever fails *)

Section Faults.
Context `{SL : SqlLaws} `{GJ : GoJson}.
Variables (dispatcher : bool) (Error : err -> string) (BatchSize : Z).
Implicit Types (w : world RelayDB).

(** A sink leaves the relay's transaction alone. *)
Definition apart w w' : Prop :=
  rd_outbox (w_db w') = rd_outbox (w_db w) /\ w_now w' = w_now w.

Lemma apart_refl w : apart w w.
Proof. done. Qed.

Lemma elsewhere_apart f w r w' :
  (forall d, rd_outbox (f d).2 = rd_outbox d) -> elsewhere f w = (r, w') -> apart w w'.
Proof.
  intros Hf. unfold elsewhere. destruct (w_faults w) as [|[] fs]; try (by intros [= <- <-]);
    simpl; pose proof (Hf (w_db w)) as Ho; destruct (f (w_db w)) as [[]]; intros [= <- <-]; by split.
Qed.

Lemma sinks_apart sink e w r w' :
  sink ∈ NewEventRelay dispatcher -> sink_Handle sink e w = (r, w') -> apart w w'.
Proof.
  unfold NewEventRelay. rewrite !elem_of_cons. intros [->|[->|[->|[->|[]%not_elem_of_nil]]]]; simpl; intros Hr.
  - unfold FromEvent, Record_, uuid_New, now, bind in Hr.
    repeat case_match; try (by injection Hr as _ <-); (apply elsewhere_apart in Hr; [done|intros d; by case_match]).
  - repeat case_match; try (by injection Hr as _ <-). by eapply elsewhere_apart in Hr.
  - case_match; [|by injection Hr as _ <-]. by eapply elsewhere_apart in Hr.
  - repeat case_match; by injection Hr as _ <-.
Qed.

(** ** What the sinks did

    The sinks are offered an event one after the other; [fs] are those that
    failed, with their errors. *)
Inductive offered_to e : list Sink -> world RelayDB -> list (string * err) -> world RelayDB -> Prop :=
| offered_none w : offered_to e [] w [] w
| offered_taken s sinks w w1 fs w' :
    sink_Handle s e w = (Ok tt, w1) -> offered_to e sinks w1 fs w' -> offered_to e (s :: sinks) w fs w'
| offered_failed s sinks w x w1 fs w' :
    sink_Handle s e w = (Err x, w1) -> offered_to e sinks w1 fs w' -> offered_to e (s :: sinks) w ((sink_Name s, x) :: fs) w'.

(** What lies outside the outbox. *)
Definition outside w := let d := w_db w in (rd_activities d, rd_stream d, rd_channel d, rd_dispatched d).

(** Each row of a batch in turn; between two rows nothing outside changes. *)
Inductive handed_over : list CRMEventOutbox -> world RelayDB -> list (list (string * err)) -> world RelayDB -> Prop :=
| handed_none w : handed_over [] w [] w
| handed_row row rows w fs w1 w2 more w' :
    offered_to (eventFromRow row) (NewEventRelay dispatcher) w fs w1 -> outside w2 = outside w1 ->
    handed_over rows w2 more w' -> handed_over (row :: rows) w (fs :: more) w'.

(** How the failures read on the row. *)
Definition report (fs : list (string * err)) : string :=
  String.concat "; " ((fun f => f.1 ++ ": " ++ Error f.2)%string <$> fs).

(** The fate of an outbox row in a pass that committed. *)
Definition relayed (t : time) (fs : list (string * err)) (row row' : CRMEventOutbox) : Prop :=
  eventFromRow row' = eventFromRow row /\ ob_PublishedAt row' = Some t /\
  match fs with
  | [] => ob_Attempts row' = ob_Attempts row /\ ob_LastError row' = ob_LastError row
  | _ => ob_Attempts row' = ob_Attempts row + 1 /\ ob_LastError row' = report fs
  end.

Definition joined (acc : string) (f : string * err) : string :=
  (acc ++ (if is_empty acc then "" else "; ") ++ f.1 ++ ": " ++ Error f.2)%string.

Lemma named_not_empty a b : (a ++ ": " ++ b)%string <> EmptyString.
Proof. by destruct a. Qed.

Lemma string_append_assoc (a b c : string) : (a ++ b ++ c)%string = ((a ++ b) ++ c)%string.
Proof. induction a as [|x a IH]; [done|]. exact (f_equal (String x) IH). Qed.

Lemma joined_more acc fs : acc <> EmptyString ->
  foldl joined acc fs = String.concat "; " (acc :: ((fun f => f.1 ++ ": " ++ Error f.2)%string <$> fs)).
Proof.
  revert acc. induction fs as [|f fs IH]; intros acc Hacc; [done|]. cbn [foldl].
  assert (joined acc f = (acc ++ "; " ++ f.1 ++ ": " ++ Error f.2)%string) as ->.
  { unfold joined, is_empty. by apply String.eqb_neq in Hacc as ->. }
  rewrite IH by by destruct acc. cbn [fmap list_fmap String.concat]. destruct fs as [|f' fs]; simpl; [done|].
  by rewrite <- !string_append_assoc.
Qed.

Lemma joined_report fs : foldl joined "" fs = report fs.
Proof.
  destruct fs as [|f fs]; [done|]. unfold report. cbn [foldl fmap list_fmap]. apply joined_more, named_not_empty.
Qed.

Lemma report_empty fs : is_empty (report fs) = match fs with [] => true | _ => false end.
Proof.
  destruct fs as [|f fs]; [done|]. unfold report. cbn [fmap list_fmap String.concat].
  destruct (_ <$> fs); unfold is_empty; apply String.eqb_neq; by destruct f.1.
Qed.

Lemma fan_out_offered sinks e failures w r w' :
  (forall s, s ∈ sinks -> s ∈ NewEventRelay dispatcher) ->
  fan_out Error sinks e failures w = (r, w') ->
  exists fs, r = Ok (foldl joined failures fs) /\ offered_to e sinks w fs w' /\ apart w w'.
Proof.
  revert failures w. induction sinks as [|s sinks IH]; intros failures w Hs; simpl.
  { intros [= <- <-]. exists []. split_and!; [done|constructor|done]. }
  unfold bind, try. destruct (sink_Handle s e w) as [x w1] eqn:E. intros Hr.
  pose proof E as [Ho Hn]%sinks_apart; [|apply Hs; by left].
  apply IH in Hr as (fs & -> & Hfs & [Ho' Hn']); [|intros ? ?; apply Hs; by right].
  assert (apart w w') as Hap by (split; congruence). destruct x as [[]|x].
  - exists fs. split_and!; [done| |done]. by eapply offered_taken.
  - exists ((sink_Name s, x) :: fs). split_and!; [done| |done]. by eapply offered_failed.
Qed.

(** The row of an event whose sinks failed as [fs] says. *)
Definition noted (fs : list (string * err)) (row : CRMEventOutbox) : CRMEventOutbox :=
  match fs with [] => row | _ => failed_attempt (report fs) row end.

Lemma noted_relayed fs row t : relayed t fs row (set_ob_PublishedAt (Some t) (noted fs row)).
Proof. by destruct fs. Qed.

(** Noting the failures of one event changes its row only. *)
Lemma note_failures c fs w u w' :
  keyed ob_ID (rd_outbox (w_db w)) ->
  (if is_empty (report fs) then ret tt
   else update_outbox (row_by_id (ob_ID c)) [failed_attempt (report fs)] ;;; ret tt) w = (Ok u, w') ->
  (forall k, rd_outbox (w_db w') !! k = if N.eqb k (ob_ID c) then noted fs <$> rd_outbox (w_db w) !! k else rd_outbox (w_db w) !! k) /\
  w_now w' = w_now w /\ outside w' = outside w /\ keyed ob_ID (rd_outbox (w_db w')).
Proof.
  intros Hk Hu. rewrite report_empty in Hu. unfold update_outbox in Hu.
  destruct fs as [|f fs]; [set (note := noted []) in *|set (note := noted (f :: fs)) in *]; inv_run; simplify_eq; simpl.
  - split_and!; [|done..]. intros k. subst note. destruct (N.eqb k _); [|done]. by destruct (_ !! k).
  - split_and!; [|done|done|].
    + intros k. rewrite update_where_lookup. destruct (rd_outbox (w_db w) !! k) as [row|] eqn:E; simpl; [|by case_match].
      unfold row_by_id. rewrite (Hk _ _ E). by destruct (N.eqb k (ob_ID c)).
    + intros k row. rewrite update_where_lookup. intros (row0 & E & ->)%fmap_Some. apply Hk in E. by destruct (row_by_id _ _).
Qed.

Lemma relay_each_notes claimed w u w' :
  keyed ob_ID (rd_outbox (w_db w)) -> NoDup (ob_ID <$> claimed) ->
  relay_each Error (NewEventRelay dispatcher) claimed w = (Ok u, w') ->
  exists failures, handed_over claimed w failures w' /\
    (forall i row, claimed !! i = Some row -> exists fs, failures !! i = Some fs /\
       rd_outbox (w_db w') !! ob_ID row = noted fs <$> rd_outbox (w_db w) !! ob_ID row) /\
    (forall k, k ∉ ob_ID <$> claimed -> rd_outbox (w_db w') !! k = rd_outbox (w_db w) !! k) /\
    w_now w' = w_now w /\ keyed ob_ID (rd_outbox (w_db w')).
Proof.
  revert w. induction claimed as [|c claimed IH]; intros w Hk Hnd Hr; simpl in Hr.
  { apply ret_ok_inv in Hr as [_ ->]. exists []. split_and!; [constructor|by intros ? ? ?|done..]. }
  apply NoDup_cons in Hnd as [Hc Hnd]. apply bind_ok_inv in Hr as (sinkErr & w1 & Hf & Hr).
  apply fan_out_offered in Hf as (fs & [= ->] & Hfs & [Ho1 Hn1]); [|done].
  rewrite joined_report in Hr. apply bind_ok_inv in Hr as ([] & w2 & Hu & Hr).
  apply note_failures in Hu as (Hn & Hnow & Hout & Hk2); [|by rewrite Ho1]. rewrite Ho1 in Hn.
  apply IH in Hr as (more & Hmore & Hrows & Hrest & Hnow' & Hk'); [|done..].
  exists (fs :: more). split_and!; [by eapply handed_row| | |congruence|done].
  - intros [|i] row Hi; simpl in Hi |- *.
    + simplify_eq. exists fs. split; [done|]. rewrite Hrest by done. by rewrite Hn, N.eqb_refl.
    + destruct (Hrows i row Hi) as (fs' & Hi' & ->). exists fs'. split; [done|]. rewrite Hn.
      destruct (N.eqb_spec (ob_ID row) (ob_ID c)) as [E|_]; [|done]. exfalso. apply Hc. rewrite <- E.
      apply list_elem_of_fmap_2. by eapply list_elem_of_lookup_2.
  - intros k [Hkc Hk0]%not_elem_of_cons. rewrite Hrest, Hn by done. by apply N.eqb_neq in Hkc as ->.
Qed.

Lemma claimed_row locked d r :
  keyed ob_ID (rd_outbox d) -> r ∈ claim_batch BatchSize locked d ->
  rd_outbox d !! ob_ID r = Some r /\ unpublished r = true /\ locked (ob_ID r) = false.
Proof.
  intros Hk Hr. apply elem_of_take in Hr as (i & Hi & _). apply list_elem_of_lookup_2 in Hi.
  apply elem_of_sort_by, find_rows_elem in Hi as (k & Hl & Hp). rewrite <- (Hk _ _ Hl) in Hl.
  unfold claimable in Hp. breflect. done.
Qed.

Lemma claimed_ids locked d : keyed ob_ID (rd_outbox d) -> NoDup (ob_ID <$> claim_batch BatchSize locked d).
Proof.
  intros Hk. assert (NoDup (claim_batch BatchSize locked d)) as Hnd.
  { pose proof (find_rows_nodup _ (claimable locked) None _ Hk) as Hn. rewrite <- (sort_by_perm earlier) in Hn.
    rewrite <- (take_drop (Z.to_nat (batch_size BatchSize))) in Hn. by apply NoDup_app in Hn as (? & _). }
  apply NoDup_fmap_2_strong; [|done]. intros x y Hx Hy E.
  apply (claimed_row _ _ _ Hk) in Hx as [Hx _]. apply (claimed_row _ _ _ Hk) in Hy as [Hy _]. congruence.
Qed.

(** C18: No event is lost to a failure.  A pass of the relay that does not
    commit leaves the outbox as it was, whatever failed; one that commits
    published exactly the batch it claimed.  Each event of the batch was
    offered to every sink in turn; its row is marked with the instant of the
    pass, never changes its event, and counts one more attempt with the names
    and errors of the sinks that failed if, and only if, one did.  Every other
    row stays as it was. *)
Theorem pass_publishes_or_retries locked w r w' :
  keyed ob_ID (rd_outbox (w_db w)) ->
  ProcessBatch Error (NewEventRelay dispatcher) BatchSize locked w = (r, w') ->
  match r with
  | Err _ => rd_outbox (w_db w') = rd_outbox (w_db w)
  | Ok n =>
      exists claimed failures w1 w2,
        n = length claimed /\ claimed = claim_batch BatchSize locked (w_db w) /\
        outside w1 = outside w /\ handed_over claimed w1 failures w2 /\ outside w' = outside w2 /\
        (forall i row, claimed !! i = Some row -> exists fs row', failures !! i = Some fs /\
           rd_outbox (w_db w') !! ob_ID row = Some row' /\ relayed (w_now w) fs row row') /\
        (forall k, k ∉ ob_ID <$> claimed -> rd_outbox (w_db w') !! k = rd_outbox (w_db w) !! k)
  end.
Proof.
  intros Hk. unfold ProcessBatch, outbox_transaction. destruct (bind _ _ _) as [[n|x] w1] eqn:Hb; [|by intros [= <- <-]].
  destruct (w_aborted w1); [by intros [= <- <-]|]. intros Hr.
  assert (r = Err ErrDriver /\ rd_outbox (w_db w') = rd_outbox (w_db w) \/
          r = Ok n /\ rd_outbox (w_db w') = rd_outbox (w_db w1) /\ outside w' = outside w1) as [[-> E]|(-> & E & Eo)]
    by (destruct (w_faults w1) as [|[] ?]; injection Hr as <- <-; auto); [done|].
  rewrite E, Eo. clear E Eo Hr w'. inv_run. cbv [batch_body] in Hb. inv_run. simplify_eq. simpl in *.
  pose proof (claimed_row locked (w_db w)) as Hrow. pose proof (claimed_ids locked _ Hk) as Hnd.
  set (claimed := claim_batch BatchSize locked (w_db w)) in *. exists claimed. clearbody claimed.
  destruct claimed as [|c rest] eqn:Hcl; [|rewrite <- Hcl in *]; simpl in Hb.
  { inv_run. exists [], w, w. split_and!; [done..|constructor|done|by intros ? ? ?|done]. }
  assert (Nat.eqb (length claimed) 0 = false) as Hne by (by rewrite Hcl). clear Hcl. rewrite Hne in Hb. unfold update_outbox in Hb. inv_run.
  apply relay_each_notes in Hrun as (failures & Hho & Hrows & Hrest & Hnow & Hk'); [|done|done]. simplify_eq. simpl in *.
  eexists failures, _, _. split_and!; [done|done| |exact Hho|done| |].
  - done.
  - intros i row Hi. destruct (Hrows i row Hi) as (fs & Hfs & Ho). apply list_elem_of_lookup_2 in Hi.
    destruct (Hrow row Hk Hi) as (Hl & _). rewrite Hl in Ho. exists fs. eexists. split_and!; [done| |apply noted_relayed].
    rewrite update_where_lookup, Ho. simpl. rewrite Hnow.
    assert (ob_ID (noted fs row) = ob_ID row) as -> by by destruct fs.
    assert (existsb (N.eqb (ob_ID row)) (ob_ID <$> claimed) = true) as ->; [|done]. apply marked_in. by exists row.
  - intros k Hkc. rewrite update_where_lookup, Hrest by done. destruct (rd_outbox (w_db w) !! k) as [row|] eqn:E; [|done]. simpl.
    rewrite (Hk _ _ E). assert (existsb (N.eqb k) (ob_ID <$> claimed) = false) as ->; [|done].
    apply not_true_is_false. intros (x & Hx & ->%N.eqb_eq)%existsb_exists. by apply Hkc, list_elem_of_In.
Qed.
End Faults.

(** ** Concrete passes *)

#[local] Existing Instances sql_ref uuid_ref json_ref.

Definition outbox_event (id : uuid) (at_ : time) (ty : string) : CRMEventOutbox :=
  toRow 0 0 (ForContact 7 (New_event id at_ 1 ty SystemActor [("tag"%string, AString "vip")])).

Definition three_events : RelayDB :=
  MkRelay (rows_of ob_ID [outbox_event 20 3000 "contact.tag_added"; outbox_event 21 1000 "message.incoming";
                          outbox_event 22 2000 "contact.updated"]) ∅ [] [] [].

Definition no_text (_ : err) : string := "failed".

Lemma three_keyed : keyed ob_ID (rd_outbox three_events).
Proof. apply rows_of_keyed. Qed.

Lemma relay_drains_the_outbox_witness :
  ids_free 100 (rd_activities three_events) /\ length (pending three_events) = 3%nat /\
  exists rows d', oldest_first rows /\
    run_passes no_text (NewEventRelay true) 2 2 (healthy three_events 5000 100 false []) =
      (Ok tt, healthy d' 5000 (next_id 100 (eventFromRow <$> rows)) false []) /\ pending d' = [].
Proof.
  assert (ids_free 100 (rd_activities three_events)) as Hf by (intros k _; apply lookup_empty).
  assert (length (pending three_events) = 3%nat) as Hl by (vm_compute; reflexivity).
  split; [exact Hf|]. split; [exact Hl|].
  destruct (relay_drains_the_outbox true no_text 2 2 three_events 5000 100 [] three_keyed Hf) as (rows & d' & _ & Ho & Hr & _ & Hp).
  - apply (proj1 (forallb_Forall (fun r => marshals (AMap (e_Data (eventFromRow r)))) _)). vm_compute. reflexivity.
  - rewrite Hl. vm_compute. discriminate.
  - exists rows, d'. split; [exact Ho|]. split; [exact Hr|exact Hp].
Defined.

(** The stream is down for one command. *)
Definition stream_down : world RelayDB := World three_events 5000 100 [false; false; false; false; false; true] false false [].

Lemma pass_publishes_or_retries_witness :
  keyed ob_ID (rd_outbox (w_db stream_down)) /\
  exists w' row' fs, ProcessBatch no_text (NewEventRelay true) 5 (fun _ => false) stream_down = (Ok 3%nat, w') /\
    rd_outbox (w_db w') !! 20%N = Some row' /\ ob_LastError row' = "stream: failed"%string /\
    relayed no_text 5000 fs (outbox_event 20 3000 "contact.tag_added") row' /\ fs <> [].
Proof.
  split; [exact three_keyed|].
  destruct (ProcessBatch no_text (NewEventRelay true) 5 (fun _ => false) stream_down) as [r w'] eqn:E.
  pose proof (pass_publishes_or_retries true no_text 5 (fun _ => false) stream_down r w' three_keyed E) as Hp.
  assert (r = Ok 3%nat) as -> by (change r with (r, w').1; rewrite <- E; vm_compute; reflexivity).
  destruct Hp as (claimed & failures & w1 & w2 & _ & Hc & _ & _ & _ & Hp & _).
  destruct (Hp 2%nat (outbox_event 20 3000 "contact.tag_added")) as (fs & row' & _ & Hr & Hrel); [subst claimed; vm_compute; reflexivity|].
  assert (option_map ob_LastError (rd_outbox (w_db w') !! 20%N) = Some "stream: failed"%string) as Hl
    by (change w' with (@Ok err nat 3%nat, w').2; rewrite <- E; vm_compute; reflexivity).
  change (ob_ID (outbox_event 20 3000 "contact.tag_added")) with 20%N in Hr. rewrite Hr in Hl. injection Hl as Hl.
  exists w', row', fs. split; [reflexivity|]. split; [exact Hr|]. split; [exact Hl|]. split; [exact Hrel|].
  intros ->. destruct Hrel as (_ & _ & _ & He). rewrite Hl in He. discriminate He.
Defined.

(** The activity sink writes on the pool, not in the claiming transaction: when
    the last statement of a pass fails, the batch is relayed again and a
    contact's timeline shows the change twice. *)
Definition commit_lost : world RelayDB :=
  World (MkRelay (rows_of ob_ID [outbox_event 20 3000 "contact.tag_added"]) ∅ [] [] []) 5000 100
    [false; false; false; false; false; true] false false [].

Example activity_recorded_twice :
  let pass := ProcessBatch no_text (NewEventRelay true) 5 (fun _ => false) in
  let w1 := (pass commit_lost).2 in
  let w2 := (pass w1).2 in
  (pass commit_lost).1 = Err ErrDriver /\ size (rd_activities (w_db w1)) = 1%nat /\
  (pass w1).1 = Ok 1%nat /\ size (rd_activities (w_db w2)) = 2%nat /\ length (rd_stream (w_db w2)) = 2%nat.
Proof. vm_compute. repeat split. Qed.

(** The envelope carries the instant, but no consumer reads it back: what a
    browser is told of when an event happened is the zero time. *)
Lemma fanout_forgets_the_instant payload e : DecodeFanout payload = Ok e -> e_OccurredAt e = time_zero.
Proof. unfold DecodeFanout. destruct (_ ≫= _); [by intros [= <-]|done]. Qed.
