(* ===== verification/Hub.v ===== *)
(** * The WebSocket hub ([internal/websocket])

    One goroutine owns the hub: it registers and unregisters clients and hands
    each broadcast to the clients it is for.  Every client has two goroutines
    of its own: the read pump, which changes what the client watches and
    answers pings, and the write pump, which empties its send buffer.  A
    step of the model is one channel operation or one locked update; the hub's
    place inside [broadcastMessage] and [dropped] is explicit, so that the
    pumps may run between any two of its operations. *)
From S2P Require Import Prelude.
From stdpp Require Import gmap.

(** [WSMessage]; the payload is the JSON object it becomes. *)
Record WSMessage := { ws_Type : string; ws_Payload : any }.

Record BroadcastMessage := {
  bm_OrgID : uuid;
  bm_UserID : uuid;       (* [uuid.Nil]: not addressed to one user *)
  bm_ContactID : uuid;    (* [uuid.Nil]: not about a contact somebody views *)
  bm_Topic : string;
  bm_Message : WSMessage
}.

Definition TypeResyncRequired := "resync_required".

(** What is queued for a client: a broadcast, the notice that the stream has a
    hole, or the answer to a ping. *)
Inductive Frame :=
| FMessage (m : BroadcastMessage)
| FNotice (dropped_type : string)
| FPong.

Definition sendCapacity : nat := 256.
Definition broadcastCapacity : nat := 256.
Definition maxTopicsPerClient : nat := 50.

(** Where a connection is: not authenticated, waiting for the hub to register
    it, reading, waiting for the hub to unregister it, over. *)
Inductive Phase := Connecting | Registering | Reading | Leaving | Gone.

#[export] Instance Phase_eq_dec : EqDecision Phase.
Proof. solve_decision. Defined.

Record Client := MkClient {
  cl_userID : uuid;
  cl_organizationID : uuid;
  cl_currentContact : option uuid;
  cl_topics : gset string;
  cl_send : list Frame;      (* the buffered channel, oldest first *)
  cl_closed : bool;          (* the channel is closed *)
  cl_written : list Frame;   (* what the write pump took out of it *)
  cl_phase : Phase
}.

Definition set_cl_currentContact (v : option uuid) (c : Client) : Client :=
  MkClient (cl_userID c) (cl_organizationID c) v (cl_topics c) (cl_send c) (cl_closed c) (cl_written c) (cl_phase c).
Definition set_cl_topics (v : gset string) (c : Client) : Client :=
  MkClient (cl_userID c) (cl_organizationID c) (cl_currentContact c) v (cl_send c) (cl_closed c) (cl_written c) (cl_phase c).
Definition set_cl_send (v : list Frame) (c : Client) : Client :=
  MkClient (cl_userID c) (cl_organizationID c) (cl_currentContact c) (cl_topics c) v (cl_closed c) (cl_written c) (cl_phase c).
Definition set_cl_closed (v : bool) (c : Client) : Client :=
  MkClient (cl_userID c) (cl_organizationID c) (cl_currentContact c) (cl_topics c) (cl_send c) v (cl_written c) (cl_phase c).
Definition set_cl_written (v : list Frame) (c : Client) : Client :=
  MkClient (cl_userID c) (cl_organizationID c) (cl_currentContact c) (cl_topics c) (cl_send c) (cl_closed c) v (cl_phase c).
Definition set_cl_phase (v : Phase) (c : Client) : Client :=
  MkClient (cl_userID c) (cl_organizationID c) (cl_currentContact c) (cl_topics c) (cl_send c) (cl_closed c) (cl_written c) v.

(** [NewUnauthenticatedClient]. *)
Definition NewUnauthenticatedClient : Client := MkClient uuid_Nil uuid_Nil None ∅ [] false [] Connecting.

(** ** The client's own operations *)

Definition Subscribed (c : Client) (topic : string) : bool := bool_decide (topic ∈ cl_topics c).

Definition wants (c : Client) (msg : BroadcastMessage) : bool :=
  if negb (String.eqb (bm_Topic msg) "") then Subscribed c (bm_Topic msg)
  else if N.eqb (bm_ContactID msg) uuid_Nil then true
  else match cl_currentContact c with None => true | Some viewing => N.eqb viewing (bm_ContactID msg) end.

(** [handleSubscribe]: the topics of one message, the client's limit kept. *)
Fixpoint handleSubscribe (topics : list string) (add : bool) (watching : gset string) : gset string :=
  match topics with
  | [] => watching
  | topic :: rest =>
      if String.eqb topic "" then handleSubscribe rest add watching
      else if negb add then handleSubscribe rest add (watching ∖ {[topic]})
      else if (maxTopicsPerClient <=? size watching)%nat then watching
      else handleSubscribe rest add ({[topic]} ∪ watching)
  end.

(** [select { case c.send <- frame: default: }]: is there room? *)
Definition has_room (c : Client) : bool := (length (cl_send c) <? sendCapacity)%nat.
Definition push (frame : Frame) (c : Client) : Client := set_cl_send (cl_send c ++ [frame]) c.

Definition sendPong (c : Client) : Client := if has_room c then push FPong c else c.

(** ** The hub *)

(** [clients]: organization, user, set of connections. *)
Abbreviation Registry := (gmap uuid (gmap uuid (gset N))).

(** Where the hub is. *)
Inductive Place :=
| Idle                                                  (* in [Run]'s select *)
| Sending (msg : BroadcastMessage) (todo : list N)      (* in the loop of [broadcastMessage] *)
| Noticing (msg : BroadcastMessage) (id : N) (todo : list N)   (* [dropped]: first send of the notice *)
| Evicting (msg : BroadcastMessage) (id : N) (todo : list N)   (* [dropped]: making room *)
| Retrying (msg : BroadcastMessage) (id : N) (todo : list N).  (* [dropped]: second send *)

Record Hub := MkHub {
  hub_clients : Registry;
  hub_broadcast : list BroadcastMessage;   (* the channel *)
  hub_place : Place;
  connections : gmap N Client              (* every client object, by address *)
}.

Definition set_hub_clients (v : Registry) (h : Hub) : Hub := MkHub v (hub_broadcast h) (hub_place h) (connections h).
Definition set_hub_broadcast (v : list BroadcastMessage) (h : Hub) : Hub := MkHub (hub_clients h) v (hub_place h) (connections h).
Definition set_hub_place (v : Place) (h : Hub) : Hub := MkHub (hub_clients h) (hub_broadcast h) v (connections h).
Definition set_connections (v : gmap N Client) (h : Hub) : Hub := MkHub (hub_clients h) (hub_broadcast h) (hub_place h) v.

Definition NewHub : Hub := MkHub ∅ [] Idle ∅.

Definition put (id : N) (c : Client) (h : Hub) : Hub := set_connections (<[id := c]> (connections h)) h.

Definition org_clients (orgID : uuid) (r : Registry) : gmap uuid (gset N) := default ∅ (r !! orgID).
Definition user_clients (orgID userID : uuid) (r : Registry) : gset N := default ∅ (org_clients orgID r !! userID).

Definition registerClient (id : N) (c : Client) (r : Registry) : Registry :=
  <[cl_organizationID c := <[cl_userID c := {[id]} ∪ user_clients (cl_organizationID c) (cl_userID c) r]>
                             (org_clients (cl_organizationID c) r)]> r.

(** [unregisterClient]: is the client there, and the maps without it; emptied
    maps are dropped. *)
Definition registered (id : N) (c : Client) (r : Registry) : bool :=
  bool_decide (id ∈ user_clients (cl_organizationID c) (cl_userID c) r).

Definition unregister (id : N) (c : Client) (r : Registry) : Registry :=
  let users := org_clients (cl_organizationID c) r in
  let left := user_clients (cl_organizationID c) (cl_userID c) r ∖ {[id]} in
  let users := if bool_decide (left = ∅) then delete (cl_userID c) users else <[cl_userID c := left]> users in
  if bool_decide (users = ∅) then delete (cl_organizationID c) r else <[cl_organizationID c := users]> r.

Definition unregisterClient (id : N) (c : Client) (h : Hub) : Hub :=
  if registered id c (hub_clients h)
  then put id (set_cl_phase Gone (set_cl_closed true c)) (set_hub_clients (unregister id c (hub_clients h)) h)
  else put id (set_cl_phase Gone c) h.

(** The clients [broadcastMessage] loops over. *)
Definition audience (msg : BroadcastMessage) (r : Registry) : gset N :=
  if negb (N.eqb (bm_UserID msg) uuid_Nil) then user_clients (bm_OrgID msg) (bm_UserID msg) r
  else ⋃ (snd <$> map_to_list (org_clients (bm_OrgID msg) r)).

(** A message to one user is not filtered by what the client watches. *)
Definition offered (msg : BroadcastMessage) (c : Client) : bool :=
  negb (N.eqb (bm_UserID msg) uuid_Nil) || wants c msg.

Definition Broadcast (msg : BroadcastMessage) (h : Hub) : Hub :=
  if (length (hub_broadcast h) <? broadcastCapacity)%nat then set_hub_broadcast (hub_broadcast h ++ [msg]) h else h.

Definition bm_org (orgID : uuid) (msg : WSMessage) : BroadcastMessage :=
  {| bm_OrgID := orgID; bm_UserID := uuid_Nil; bm_ContactID := uuid_Nil; bm_Topic := ""; bm_Message := msg |}.
Definition BroadcastToOrg (orgID : uuid) (msg : WSMessage) : Hub -> Hub := Broadcast (bm_org orgID msg).
Definition BroadcastToContact (orgID contactID : uuid) (msg : WSMessage) : Hub -> Hub :=
  Broadcast {| bm_OrgID := orgID; bm_UserID := uuid_Nil; bm_ContactID := contactID; bm_Topic := ""; bm_Message := msg |}.
Definition BroadcastToUser (orgID userID : uuid) (msg : WSMessage) : Hub -> Hub :=
  Broadcast {| bm_OrgID := orgID; bm_UserID := userID; bm_ContactID := uuid_Nil; bm_Topic := ""; bm_Message := msg |}.
Definition bm_topic (orgID : uuid) (topic : string) (msg : WSMessage) : BroadcastMessage :=
  {| bm_OrgID := orgID; bm_UserID := uuid_Nil; bm_ContactID := uuid_Nil; bm_Topic := topic; bm_Message := msg |}.
Definition BroadcastToTopic (orgID : uuid) (topic : string) (msg : WSMessage) : Hub -> Hub := Broadcast (bm_topic orgID topic msg).
Fixpoint BroadcastToUsers (orgID : uuid) (userIDs : list uuid) (msg : WSMessage) (h : Hub) : Hub :=
  match userIDs with [] => h | userID :: rest => BroadcastToUsers orgID rest msg (BroadcastToUser orgID userID msg h) end.

Definition IsUserOnline (orgID userID : uuid) (h : Hub) : bool :=
  negb (Nat.eqb (size (user_clients orgID userID (hub_clients h))) 0).

Definition FilterOnlineUsers (orgID : uuid) (userIDs : list uuid) (h : Hub) : list uuid :=
  List.filter (fun userID => IsUserOnline orgID userID h) userIDs.

(** The hub's own step from a place: what it does to the client it is at. *)
Definition notice (msg : BroadcastMessage) : Frame := FNotice (ws_Type (bm_Message msg)).

Definition handle (msg : BroadcastMessage) (id : N) (todo : list N) (c : Client) (h : Hub) : Hub :=
  if negb (offered msg c) then set_hub_place (Sending msg todo) h
  else if has_room c then set_hub_place (Sending msg todo) (put id (push (FMessage msg) c) h)
  else set_hub_place (Noticing msg id todo) h.

Definition first_notice (msg : BroadcastMessage) (id : N) (todo : list N) (c : Client) (h : Hub) : Hub :=
  if has_room c then set_hub_place (Sending msg todo) (put id (push (notice msg) c) h)
  else set_hub_place (Evicting msg id todo) h.

Definition evict (msg : BroadcastMessage) (id : N) (todo : list N) (c : Client) (h : Hub) : Hub :=
  set_hub_place (Retrying msg id todo) (put id (set_cl_send (tl (cl_send c)) c) h).

Definition second_notice (msg : BroadcastMessage) (id : N) (todo : list N) (c : Client) (h : Hub) : Hub :=
  set_hub_place (Sending msg todo) (if has_room c then put id (push (notice msg) c) h else h).

(** The write pump takes one frame. *)
Definition pump (id : N) (frame : Frame) (rest : list Frame) (c : Client) (h : Hub) : Hub :=
  put id (set_cl_written (cl_written c ++ [frame]) (set_cl_send rest c)) h.

(** ** Steps

    A step tells when the hub offers a message to a client, when a pong takes
    the place the hub has just made for a notice, and when a broadcast is
    dropped at the hub's full channel, with the clients that would have had it. *)
Inductive Label :=
| Silent
| Offered (id : N) (msg : BroadcastMessage)
| Refilled (id : N)
| Overflow (msg : BroadcastMessage) (ids : list N).

Definition listeners (msg : BroadcastMessage) (h : Hub) : list N :=
  List.filter (fun id => match connections h !! id with Some c => offered msg c | None => false end)
    (elements (audience msg (hub_clients h))).

Definition sent (msg : BroadcastMessage) (h : Hub) : Label :=
  if (length (hub_broadcast h) <? broadcastCapacity)%nat then Silent else Overflow msg (listeners msg h).

Definition refill (id : N) (c : Client) (h : Hub) : Label :=
  match hub_place h with
  | Retrying _ id' _ => if N.eqb id id' && has_room c then Refilled id else Silent
  | _ => Silent
  end.

Inductive step (h : Hub) : Label -> Hub -> Prop :=
| step_connect id :
    connections h !! id = None -> step h Silent (put id NewUnauthenticatedClient h)
| step_authenticated id c userID orgID :
    connections h !! id = Some c -> cl_phase c = Connecting ->
    step h Silent (put id (MkClient userID orgID (cl_currentContact c) (cl_topics c) (cl_send c) (cl_closed c)
                             (cl_written c) Registering) h)
| step_rejected id c :
    connections h !! id = Some c -> cl_phase c = Connecting ->
    step h Silent (put id (set_cl_phase Gone (set_cl_closed true c)) h)
| step_register id c :
    hub_place h = Idle -> connections h !! id = Some c -> cl_phase c = Registering ->
    step h Silent (put id (set_cl_phase Reading c) (set_hub_clients (registerClient id c (hub_clients h)) h))
| step_set_contact id c contact :
    connections h !! id = Some c -> cl_phase c = Reading -> step h Silent (put id (set_cl_currentContact contact c) h)
| step_subscribe id c topics add :
    connections h !! id = Some c -> cl_phase c = Reading ->
    step h Silent (put id (set_cl_topics (handleSubscribe topics add (cl_topics c)) c) h)
| step_pong id c :
    connections h !! id = Some c -> cl_phase c = Reading -> step h (refill id c h) (put id (sendPong c) h)
| step_leave id c :
    connections h !! id = Some c -> cl_phase c = Reading -> step h Silent (put id (set_cl_phase Leaving c) h)
| step_unregister id c :
    hub_place h = Idle -> connections h !! id = Some c -> cl_phase c = Leaving -> step h Silent (unregisterClient id c h)
| step_pump id c frame rest :
    connections h !! id = Some c -> cl_send c = frame :: rest -> step h Silent (pump id frame rest c h)
| step_broadcast msg :
    step h (sent msg h) (Broadcast msg h)
| step_take msg rest todo :
    hub_place h = Idle -> hub_broadcast h = msg :: rest -> todo ≡ₚ elements (audience msg (hub_clients h)) ->
    step h Silent (set_hub_place (Sending msg todo) (set_hub_broadcast rest h))
| step_handle msg id todo c :
    hub_place h = Sending msg (id :: todo) -> connections h !! id = Some c ->
    step h (if offered msg c then Offered id msg else Silent) (handle msg id todo c h)
| step_first_notice msg id todo c :
    hub_place h = Noticing msg id todo -> connections h !! id = Some c -> step h Silent (first_notice msg id todo c h)
| step_evict msg id todo c :
    hub_place h = Evicting msg id todo -> connections h !! id = Some c -> step h Silent (evict msg id todo c h)
| step_second_notice msg id todo c :
    hub_place h = Retrying msg id todo -> connections h !! id = Some c -> step h Silent (second_notice msg id todo c h)
| step_done msg :
    hub_place h = Sending msg [] -> step h Silent (set_hub_place Idle h).

(** Any number of steps from the empty hub, newest label last. *)
Inductive runs : list Label -> Hub -> Prop :=
| runs_nil : runs [] NewHub
| runs_snoc labels h label h' : runs labels h -> step h label h' -> runs (labels ++ [label]) h'.
