(* ===== verification/HubProps.v ===== *)
(** * Properties of the hub

    In every interleaving of the hub with the pumps of its clients: a client
    whose stream lost something is told so, a message stays with the
    organization and the user it is for, buffers and subscriptions keep their
    bounds, and the hub never sends on a closed channel. *)
From S2P Require Import Prelude Hub.
From stdpp Require Import gmap.

(** ** The registry *)

Lemma user_clients_register org user id id' c r :
  id' ∈ user_clients org user (registerClient id c r) <->
  (org = cl_organizationID c /\ user = cl_userID c /\ id' = id) \/ id' ∈ user_clients org user r.
Proof.
  unfold registerClient, user_clients, org_clients.
  destruct (decide (org = cl_organizationID c)) as [->|Ho].
  - rewrite lookup_insert_eq. simpl. destruct (decide (user = cl_userID c)) as [->|Hu].
    + rewrite lookup_insert_eq. simpl. set_solver.
    + rewrite lookup_insert_ne by done. naive_solver.
  - rewrite lookup_insert_ne by done. naive_solver.
Qed.

Lemma user_clients_unregister org user id id' c r :
  id' ∈ user_clients org user (unregister id c r) ->
  id' ∈ user_clients org user r /\ ~ (org = cl_organizationID c /\ user = cl_userID c /\ id' = id).
Proof.
  unfold unregister. set (left := _ ∖ _). set (users := if bool_decide (left = ∅) then _ else _).
  assert (forall u x, x ∈ default ∅ (users !! u) -> x ∈ user_clients (cl_organizationID c) u r /\ ~ (u = cl_userID c /\ x = id)) as Husers.
  { intros u x. unfold users. destruct (decide (u = cl_userID c)) as [->|Hu].
    - case_bool_decide as Hl; [rewrite lookup_delete_eq; simpl; set_solver|].
      rewrite lookup_insert_eq. simpl. unfold left. set_solver.
    - case_bool_decide; [rewrite lookup_delete_ne by done|rewrite lookup_insert_ne by done];
        unfold user_clients; naive_solver. }
  clearbody users. clear left. unfold user_clients, org_clients in *. destruct (decide (org = cl_organizationID c)) as [->|Ho].
  - case_bool_decide.
    + rewrite lookup_delete_eq. simpl. rewrite lookup_empty. simpl. set_solver.
    + rewrite lookup_insert_eq. simpl. intros Hin. apply Husers in Hin. naive_solver.
  - case_bool_decide; [rewrite lookup_delete_ne by done|rewrite lookup_insert_ne by done]; naive_solver.
Qed.

Lemma audience_spec id msg r :
  id ∈ audience msg r ->
  exists user, id ∈ user_clients (bm_OrgID msg) user r /\ (bm_UserID msg <> uuid_Nil -> bm_UserID msg = user).
Proof.
  unfold audience. destruct (N.eqb_spec (bm_UserID msg) uuid_Nil) as [E|E]; simpl; [|by exists (bm_UserID msg)].
  rewrite elem_of_union_list. intros (X & HX & Hin). apply list_elem_of_fmap in HX as ([user X'] & -> & HX).
  apply elem_of_map_to_list in HX. exists user. unfold user_clients. by rewrite HX.
Qed.

(** ** What a client was offered and what it has of it *)

Definition offer (id : N) (l : Label) : option BroadcastMessage :=
  match l with Offered id' msg => if N.eqb id id' then Some msg else None | _ => None end.
Definition due (id : N) (labels : list Label) : list BroadcastMessage := omap (offer id) labels.

(** Every broadcast the client wanted, those dropped before the hub saw them included. *)
Definition want (id : N) (l : Label) : option BroadcastMessage :=
  match l with
  | Overflow msg ids => if existsb (N.eqb id) ids then Some msg else None
  | _ => offer id l
  end.
Definition wanted (id : N) (labels : list Label) : list BroadcastMessage := omap (want id) labels.

(** No broadcast this client wanted was dropped at the hub's full channel. *)
Definition no_overflow (id : N) (labels : list Label) : Prop :=
  forall msg ids, Overflow msg ids ∈ labels -> id ∉ ids.

Lemma wanted_due id labels : no_overflow id labels -> wanted id labels = due id labels.
Proof.
  induction labels as [|l labels IH]; intros Hn; [done|].
  assert (want id l = offer id l) as E.
  { destruct l as [| | |msg ids]; try done. simpl. destruct (existsb _ ids) eqn:Hin; [|done]. exfalso.
    apply existsb_exists in Hin as (x & Hx & <-%N.eqb_eq). apply (Hn msg ids); [by left|by apply list_elem_of_In]. }
  assert (wanted id labels = due id labels) as IH' by (apply IH; intros msg ids Hin; apply (Hn msg); by right).
  transitivity (match want id l with Some m => m :: wanted id labels | None => wanted id labels end); [done|]. by rewrite E, IH'.
Qed.

Definition message (f : Frame) : option BroadcastMessage := match f with FMessage m => Some m | _ => None end.
Definition messages (stream : list Frame) : list BroadcastMessage := omap message stream.

(** Everything the client wanted is in its stream, in order; or there is a
    notice in the stream after which nothing is missing. *)
Definition caught_up (stream : list Frame) (due : list BroadcastMessage) : Prop :=
  messages stream = due \/
  exists before ty after lost, stream = before ++ FNotice ty :: after /\ due = lost ++ messages after.

Definition stream (c : Client) : list Frame := cl_written c ++ cl_send c.

Lemma caught_up_offer st d m : caught_up st d -> caught_up (st ++ [FMessage m]) (d ++ [m]).
Proof.
  intros [<-|(before & ty & after & lost & -> & ->)]; [left; unfold messages; by rewrite omap_app|].
  right. exists before, ty, (after ++ [FMessage m]), lost. split; [by rewrite <- (assoc_L app)|].
  unfold messages. by rewrite omap_app, (assoc_L app).
Qed.

Lemma caught_up_silent st d f : message f = None -> caught_up st d -> caught_up (st ++ [f]) d.
Proof.
  intros Hf [<-|(before & ty & after & lost & -> & ->)].
  - left. unfold messages. rewrite omap_app. simpl. by rewrite Hf, app_nil_r.
  - right. exists before, ty, (after ++ [f]), lost. split; [by rewrite <- (assoc_L app)|].
    unfold messages. rewrite omap_app. simpl. by rewrite Hf, app_nil_r.
Qed.

Lemma caught_up_notice st d ty : caught_up (st ++ [FNotice ty]) d.
Proof. right. exists st, ty, [], d. by rewrite app_nil_r. Qed.

Lemma due_snoc id labels l : due id (labels ++ [l]) = due id labels ++ match offer id l with Some m => [m] | None => [] end.
Proof. unfold due. rewrite omap_app. simpl. by destruct (offer id l). Qed.

(** ** The invariant *)

Definition for_client (msg : BroadcastMessage) (c : Client) : Prop :=
  bm_OrgID msg = cl_organizationID c /\ (bm_UserID msg <> uuid_Nil -> bm_UserID msg = cl_userID c).

Definition active (c : Client) : Prop := cl_closed c = false /\ (cl_phase c = Reading \/ cl_phase c = Leaving).

(** The message the hub is handing out and the clients still to come. *)
Definition at_hand (p : Place) : option (BroadcastMessage * list N) :=
  match p with
  | Idle => None
  | Sending msg todo => Some (msg, todo)
  | Noticing msg id todo | Evicting msg id todo | Retrying msg id todo => Some (msg, id :: todo)
  end.

(** The client whose buffer was full, until it has its notice. *)
Definition busy (p : Place) (id : N) : bool :=
  match p with Noticing _ id' _ | Evicting _ id' _ | Retrying _ id' _ => N.eqb id id' | _ => false end.

Definition retrying (p : Place) (id : N) : bool := match p with Retrying _ id' _ => N.eqb id id' | _ => false end.

Definition no_refill (labels : list Label) : Prop := forall id, Refilled id ∉ labels.

Record client_ok (labels : list Label) (p : Place) (id : N) (c : Client) : Prop := {
  ck_buffer : (length (cl_send c) <= sendCapacity)%nat;
  ck_topics : (size (cl_topics c) <= maxTopicsPerClient)%nat;
  ck_open : cl_closed c = true -> cl_phase c = Gone;
  ck_young : cl_phase c = Connecting \/ cl_phase c = Registering -> due id labels = [] /\ stream c = [];
  ck_due : Forall (fun m => for_client m c) (due id labels);
  ck_stream : forall m, m ∈ messages (stream c) -> m ∈ due id labels;
  ck_room : no_refill labels -> retrying p id = true -> has_room c = true;
  ck_caught : no_refill labels -> busy p id = false -> caught_up (stream c) (due id labels)
}.

Record hub_ok (labels : list Label) (h : Hub) : Prop := {
  hk_clients : forall id c, connections h !! id = Some c -> client_ok labels (hub_place h) id c;
  hk_unknown : forall id, connections h !! id = None -> due id labels = [];
  hk_registry : forall org user id, id ∈ user_clients org user (hub_clients h) ->
    exists c, connections h !! id = Some c /\ cl_organizationID c = org /\ cl_userID c = user /\ active c;
  hk_place : forall msg ids id, at_hand (hub_place h) = Some (msg, ids) -> id ∈ ids ->
    exists c, connections h !! id = Some c /\ for_client msg c /\ active c
}.

(** ** Preservation *)

Lemma no_refill_snoc labels l : no_refill (labels ++ [l]) -> no_refill labels /\ forall id, l <> Refilled id.
Proof.
  intros Hn. split; [intros id Hin|intros id ->]; apply (Hn id), elem_of_app; [by left|right; by left].
Qed.

(** A client a step does not concern. *)
Lemma client_ok_other labels l p p' id c :
  client_ok labels p id c -> offer id l = None ->
  busy p' id = busy p id -> retrying p' id = retrying p id -> client_ok (labels ++ [l]) p' id c.
Proof.
  intros [] Ho Hb Hr. assert (due id (labels ++ [l]) = due id labels) as Hd by (by rewrite due_snoc, Ho, app_nil_r).
  split; rewrite ?Hd, ?Hb, ?Hr; try done; intros [Hn _]%no_refill_snoc; auto.
Qed.

(** A step that changes one client, and moves the hub along with that client only. *)
Lemma hub_ok_put labels l h id c c' p :
  hub_ok labels h -> connections h !! id = Some c ->
  (forall j, j <> id -> offer j l = None /\ busy p j = busy (hub_place h) j /\ retrying p j = retrying (hub_place h) j) ->
  (active c -> active c' /\ cl_organizationID c' = cl_organizationID c /\ cl_userID c' = cl_userID c) ->
  (forall msg ids j, at_hand p = Some (msg, ids) -> j ∈ ids ->
     exists ids0, at_hand (hub_place h) = Some (msg, ids0) /\ j ∈ ids0) ->
  client_ok (labels ++ [l]) p id c' ->
  hub_ok (labels ++ [l]) (set_hub_place p (put id c' h)).
Proof.
  intros Hok Hc Hothers Hact Hplace Hnew. split; simpl.
  - intros j cj. rewrite lookup_insert_Some. intros [[<- <-]|[Hne Hj]]; [done|].
    destruct (Hothers j) as (Ho & Hb & Hr); [done|]. eapply client_ok_other; [by apply Hok|done..].
  - intros j. rewrite lookup_insert_None. intros [Hj Hne]. rewrite due_snoc, (proj1 (Hothers j ltac:(done))), app_nil_r.
    by apply Hok.
  - intros org user j Hj. apply (hk_registry _ _ Hok) in Hj as (cj & Hcj & <- & <- & Ha).
    destruct (decide (j = id)) as [->|Hne]; [|by exists cj; rewrite lookup_insert_ne].
    simplify_eq. exists c'. rewrite lookup_insert_eq. by destruct (Hact Ha) as (? & ? & ?).
  - intros msg ids j Hp Hj. destruct (Hplace _ _ _ Hp Hj) as (ids0 & Hp0 & Hj0).
    destruct (hk_place _ _ Hok _ _ _ Hp0 Hj0) as (cj & Hcj & [Hf Hu] & Ha).
    destruct (decide (j = id)) as [->|Hne]; [|by exists cj; rewrite lookup_insert_ne].
    simplify_eq. exists c'. rewrite lookup_insert_eq. split; [done|]. destruct (Hact Ha) as (? & E1 & E2).
    split; [|done]. split; [by rewrite E1|by rewrite E2].
Qed.

(** The same when the hub stays where it is, and when only the hub moves. *)
Lemma hub_ok_put_here labels l h id c c' :
  hub_ok labels h -> connections h !! id = Some c -> (forall j, j <> id -> offer j l = None) ->
  (active c -> active c' /\ cl_organizationID c' = cl_organizationID c /\ cl_userID c' = cl_userID c) ->
  client_ok (labels ++ [l]) (hub_place h) id c' -> hub_ok (labels ++ [l]) (put id c' h).
Proof.
  intros Hok Hc Ho Ha Hnew. replace (put id c' h) with (set_hub_place (hub_place h) (put id c' h)) by (by destruct h).
  eapply hub_ok_put; eauto.
Qed.

Lemma put_same id c h : connections h !! id = Some c -> put id c h = h.
Proof. intros Hc. unfold put, set_connections. rewrite insert_id by done. by destruct h. Qed.

Lemma hub_ok_registry labels h r :
  hub_ok labels h ->
  (forall org user id, id ∈ user_clients org user r ->
     exists c, connections h !! id = Some c /\ cl_organizationID c = org /\ cl_userID c = user /\ active c) ->
  hub_ok labels (set_hub_clients r h).
Proof. intros [] Hr. by split. Qed.

(** A step nobody hears of. *)
Lemma client_ok_silent labels p p' id c c' :
  client_ok labels p id c ->
  (length (cl_send c') <= sendCapacity)%nat -> (size (cl_topics c') <= maxTopicsPerClient)%nat ->
  (cl_closed c' = true -> cl_phase c' = Gone) ->
  (cl_phase c' = Connecting \/ cl_phase c' = Registering -> (cl_phase c = Connecting \/ cl_phase c = Registering) /\ stream c' = stream c) ->
  (due id labels = [] \/ (cl_organizationID c' = cl_organizationID c /\ cl_userID c' = cl_userID c)) ->
  (forall m, m ∈ messages (stream c') -> m ∈ messages (stream c)) ->
  (no_refill labels -> retrying p' id = true -> has_room c' = true) ->
  (no_refill labels -> busy p' id = false -> caught_up (stream c') (due id labels)) ->
  client_ok (labels ++ [Silent]) p' id c'.
Proof.
  intros [] Hb Ht Ho Hy Hi Hm Hr Hc. assert (due id (labels ++ [Silent]) = due id labels) as Hd by (by rewrite due_snoc, app_nil_r).
  split; rewrite ?Hd; try done; try (intros [Hn _]%no_refill_snoc; auto).
  - intros [? ->]%Hy. by apply ck_young0.
  - destruct Hi as [->|[E1 E2]]; [constructor|]. eapply Forall_impl; [exact ck_due0|]. unfold for_client. by rewrite E1, E2.
  - intros m Hin. by apply ck_stream0, Hm.
Qed.

Lemma handleSubscribe_bound topics add w : (size w <= maxTopicsPerClient)%nat -> (size (handleSubscribe topics add w) <= maxTopicsPerClient)%nat.
Proof.
  revert w. induction topics as [|topic rest IH]; intros w Hw; cbn [handleSubscribe]; [done|].
  destruct (String.eqb topic ""); [by apply IH|]. destruct add; cbn [negb].
  - destruct (Nat.leb_spec maxTopicsPerClient (size w)); [done|]. apply IH.
    rewrite size_union_alt, size_singleton. assert (size (w ∖ {[topic]}) <= size w)%nat by (apply subseteq_size; set_solver). lia.
  - apply IH. etrans; [|exact Hw]. apply subseteq_size. set_solver.
Qed.

Lemma has_room_lt c : has_room c = true <-> (length (cl_send c) < sendCapacity)%nat.
Proof. apply Nat.ltb_lt. Qed.

Lemma active_not_young c : active c -> cl_phase c = Connecting \/ cl_phase c = Registering -> False.
Proof. intros [_ [-> | ->]] [?|?]; done. Qed.

(** Changes of a client that leave its stream as it is. *)
Lemma client_ok_same labels p id c c' :
  client_ok labels p id c -> cl_send c' = cl_send c -> cl_written c' = cl_written c ->
  (size (cl_topics c') <= maxTopicsPerClient)%nat -> (cl_closed c' = true -> cl_phase c' = Gone) ->
  (cl_phase c' = Connecting \/ cl_phase c' = Registering -> cl_phase c = Connecting \/ cl_phase c = Registering) ->
  (due id labels = [] \/ (cl_organizationID c' = cl_organizationID c /\ cl_userID c' = cl_userID c)) ->
  client_ok (labels ++ [Silent]) p id c'.
Proof.
  intros Hck Hs Hw Ht Ho Hy Hi. assert (stream c' = stream c) as Hst by (unfold stream; by rewrite Hs, Hw).
  eapply client_ok_silent; eauto; rewrite ?Hst; auto.
  - rewrite Hs. apply Hck.
  - unfold has_room. rewrite Hs. apply (ck_room _ _ _ _ Hck).
  - apply (ck_caught _ _ _ _ Hck).
Qed.

Lemma connect_ok labels h id :
  hub_ok labels h -> connections h !! id = None -> hub_ok (labels ++ [Silent]) (put id NewUnauthenticatedClient h).
Proof.
  intros Hok Hn. pose proof (hk_unknown _ _ Hok _ Hn) as Hd. split; simpl.
  - intros j c. rewrite lookup_insert_Some. intros [[<- <-]|[Hne Hj]].
    + split; rewrite ?due_snoc, ?Hd; try done.
      * apply Nat.le_0_l.
      * change (size (∅ : gset string) <= maxTopicsPerClient)%nat. rewrite size_empty. apply Nat.le_0_l.
      * intros _ _. by left.
    + eapply client_ok_other; [by apply Hok|done..].
  - intros j. rewrite lookup_insert_None. intros [Hj _]. rewrite due_snoc, app_nil_r. by apply Hok.
  - intros org user j Hj. apply (hk_registry _ _ Hok) in Hj as (c & Hc & ?). exists c. by rewrite lookup_insert_ne by congruence.
  - intros msg ids j Hp Hj. destruct (hk_place _ _ Hok _ _ _ Hp Hj) as (c & Hc & ?). exists c. by rewrite lookup_insert_ne by congruence.
Qed.

(** The steps of a client's own goroutines, and of the hub between messages. *)
Lemma client_step_ok labels h id c c' :
  hub_ok labels h -> connections h !! id = Some c -> client_ok (labels ++ [Silent]) (hub_place h) id c' ->
  (active c -> active c' /\ cl_organizationID c' = cl_organizationID c /\ cl_userID c' = cl_userID c) ->
  hub_ok (labels ++ [Silent]) (put id c' h).
Proof. intros Hok Hc Hnew Ha. by eapply hub_ok_put_here. Qed.

Lemma register_ok labels h id c :
  hub_ok labels h -> connections h !! id = Some c -> cl_phase c = Registering ->
  hub_ok (labels ++ [Silent]) (put id (set_cl_phase Reading c) (set_hub_clients (registerClient id c (hub_clients h)) h)).
Proof.
  intros Hok Hc Hp. pose proof (hk_clients _ _ Hok _ _ Hc) as Hck.
  assert (cl_closed c = false) as Hopen by (destruct (cl_closed c) eqn:E; [apply (ck_open _ _ _ _ Hck) in E; congruence|done]).
  assert (hub_ok (labels ++ [Silent]) (put id (set_cl_phase Reading c) h)) as Hput.
  { eapply client_step_ok; [done..| |intros Ha; exfalso; by eapply active_not_young; [|right]].
    eapply client_ok_same; [exact Hck|..]; simpl; try done; [apply Hck|congruence|by intros [?|?]|by right]. }
  apply (hub_ok_registry _ _ (registerClient id c (hub_clients h))) in Hput; [exact Hput|].
  intros org user j. rewrite user_clients_register. intros [(-> & -> & ->)|Hj].
  - exists (set_cl_phase Reading c). simpl. rewrite lookup_insert_eq. split_and!; [done..|]. split; [done|]. by left.
  - destruct (hk_registry _ _ Hok _ _ _ Hj) as (cj & Hcj & ? & ? & Ha). simpl.
    destruct (decide (j = id)) as [->|]; [|by exists cj; rewrite lookup_insert_ne].
    simplify_eq. exfalso. by eapply active_not_young; [|right].
Qed.

Lemma unregister_ok labels h id c :
  hub_ok labels h -> hub_place h = Idle -> connections h !! id = Some c -> cl_phase c = Leaving ->
  hub_ok (labels ++ [Silent]) (unregisterClient id c h).
Proof.
  intros Hok Hidle Hc Hp. pose proof (hk_clients _ _ Hok _ _ Hc) as Hck.
  assert (forall c', cl_send c' = cl_send c -> cl_written c' = cl_written c -> cl_topics c' = cl_topics c -> cl_phase c' = Gone ->
    cl_organizationID c' = cl_organizationID c -> cl_userID c' = cl_userID c ->
    forall r, (forall org user j, j ∈ user_clients org user r -> j ∈ user_clients org user (hub_clients h) /\ j <> id) ->
    hub_ok (labels ++ [Silent]) (put id c' (set_hub_clients r h))) as Hput.
  { intros c' Hs Hw Ht Hg Ho Hu r Hr. assert (client_ok (labels ++ [Silent]) (hub_place h) id c') as Hnew.
    { eapply client_ok_same; [exact Hck|done..| | | |]; [rewrite Ht; apply Hck|done|rewrite Hg; by intros [?|?]|by right]. }
    split; simpl.
    - intros j cj. rewrite lookup_insert_Some. intros [[<- <-]|[Hne Hj]]; [done|].
      eapply client_ok_other; [by apply Hok|done..].
    - intros j. rewrite lookup_insert_None. intros [Hj _]. rewrite due_snoc, app_nil_r. by apply Hok.
    - intros org user j [Hj Hne]%Hr. apply (hk_registry _ _ Hok) in Hj as (cj & Hcj & ?). exists cj. by rewrite lookup_insert_ne.
    - rewrite Hidle. done. }
  assert (forall org user j, j ∈ user_clients org user (hub_clients h) -> j = id -> org = cl_organizationID c /\ user = cl_userID c) as Hwhere.
  { intros org user j Hj ->. apply (hk_registry _ _ Hok) in Hj as (cj & Hcj & <- & <- & _). by simplify_eq. }
  unfold unregisterClient, registered. case_bool_decide as Hreg.
  - apply Hput; try done. intros org user j [Hj Hn]%user_clients_unregister. split; [done|]. intros ->. apply Hn.
    by destruct (Hwhere _ _ _ Hj eq_refl).
  - replace (put id (set_cl_phase Gone c) h) with (put id (set_cl_phase Gone c) (set_hub_clients (hub_clients h) h)) by (by destruct h).
    apply Hput; try done. intros org user j Hj. split; [done|]. intros ->. by destruct (Hwhere _ _ _ Hj eq_refl) as [-> ->].
Qed.

(** Only the hub moves, from one client to the next or between messages. *)
Lemma move_ok labels l h p b :
  hub_ok labels h -> (forall id, offer id l = None) ->
  (forall id, busy p id = busy (hub_place h) id /\ retrying p id = retrying (hub_place h) id) ->
  (forall msg ids id, at_hand p = Some (msg, ids) -> id ∈ ids ->
     exists c, connections h !! id = Some c /\ for_client msg c /\ active c) ->
  hub_ok (labels ++ [l]) (set_hub_place p (set_hub_broadcast b h)).
Proof.
  intros Hok Ho Hp Ha. split; simpl; try apply Hok; [|intros id Hn; rewrite due_snoc, Ho, app_nil_r; by apply Hok|exact Ha].
  intros id c Hc. eapply client_ok_other; [by apply Hok|apply Ho|apply Hp..].
Qed.

(** The hub deals with the client it is at. *)
Section AtClient.
Context (labels : list Label) (h : Hub) (msg : BroadcastMessage) (id : N) (todo : list N) (c : Client).
Context (Hok : hub_ok labels h) (Hc : connections h !! id = Some c).

Lemma at_client_ok l p c' :
  at_hand (hub_place h) = Some (msg, id :: todo) ->
  (at_hand p = Some (msg, todo) \/ at_hand p = Some (msg, id :: todo)) ->
  (forall j, j <> id -> offer j l = None /\ busy p j = busy (hub_place h) j /\ retrying p j = retrying (hub_place h) j) ->
  cl_organizationID c' = cl_organizationID c -> cl_userID c' = cl_userID c -> cl_closed c' = cl_closed c -> cl_phase c' = cl_phase c ->
  client_ok (labels ++ [l]) p id c' ->
  hub_ok (labels ++ [l]) (set_hub_place p (put id c' h)).
Proof.
  intros Hat Hp Ho E1 E2 E3 E4 Hnew. eapply hub_ok_put; eauto.
  - unfold active. by rewrite E3, E4.
  - intros msg' ids j Hp' Hj. exists (id :: todo). destruct Hp as [Hp|Hp]; rewrite Hp in Hp'; simplify_eq; split; [done| |done|done].
    by right.
Qed.

Lemma at_client : at_hand (hub_place h) = Some (msg, id :: todo) -> for_client msg c /\ active c.
Proof.
  intros Hat. destruct (hk_place _ _ Hok _ _ id Hat) as (c0 & Hc0 & ?); [by left|]. by simplify_eq.
Qed.

Lemma handle_ok :
  hub_place h = Sending msg (id :: todo) ->
  hub_ok (labels ++ [if offered msg c then Offered id msg else Silent]) (handle msg id todo c h).
Proof.
  intros Hat. assert (at_hand (hub_place h) = Some (msg, id :: todo)) as Hh by by rewrite Hat.
  destruct (at_client Hh) as [Hfor Hact]. pose proof (hk_clients _ _ Hok _ _ Hc) as Hck. unfold handle.
  destruct (offered msg c); cbn [negb].
  2:{ rewrite <- (put_same id c h) by done. apply at_client_ok; try done; [by left|intros j Hne; by rewrite Hat|].
      eapply (client_ok_silent _ _ _ _ c); [exact Hck|..]; try done; try apply Hck; [by right|]. intros Hn _. apply Hck; [done|by rewrite Hat]. }
  assert (due id (labels ++ [Offered id msg]) = due id labels ++ [msg]) as Hd by (rewrite due_snoc; simpl; by rewrite N.eqb_refl).
  assert (forall j, j <> id -> offer j (Offered id msg) = None) as Hother.
  { intros j Hne. simpl. by destruct (N.eqb_spec j id). }
  destruct (has_room c) eqn:Hroom.
  - apply at_client_ok; try done; [by left|intros j Hne; by rewrite Hat, Hother|].
    assert (stream (push (FMessage msg) c) = stream c ++ [FMessage msg]) as Hst by (unfold stream; simpl; by rewrite (assoc_L app)).
    split; rewrite ?Hd, ?Hst; try apply Hck.
    + simpl. rewrite length_app. apply has_room_lt in Hroom. simpl. lia.
    + intros Hy. exfalso. by apply (active_not_young c).
    + apply Forall_app. split; [apply Hck|]. by apply Forall_singleton.
    + intros m. unfold messages. rewrite omap_app, !elem_of_app. intros [Hm|Hm]; [left; by apply Hck|by right].
    + done.
    + intros [Hn _]%no_refill_snoc _. apply caught_up_offer. apply Hck; [done|by rewrite Hat].
  - rewrite <- (put_same id c h) by done. apply at_client_ok; try done; [by right| |].
    { intros j Hne. rewrite Hat, Hother by done. simpl. by destruct (N.eqb_spec j id). }
    split; rewrite ?Hd; try apply Hck.
    + intros Hy. exfalso. by apply (active_not_young c).
    + apply Forall_app. split; [apply Hck|]. by apply Forall_singleton.
    + intros m Hm. apply elem_of_app. left. by apply Hck.
    + done.
    + simpl. by rewrite N.eqb_refl.
Qed.

Lemma stream_push f : stream (push f c) = stream c ++ [f].
Proof. unfold stream. simpl. by rewrite (assoc_L app). Qed.

(** A notice that fits. *)
Lemma notice_ok p :
  at_hand (hub_place h) = Some (msg, id :: todo) -> has_room c = true -> p = Sending msg todo ->
  (forall j, j <> id -> busy (hub_place h) j = false /\ retrying (hub_place h) j = false) ->
  hub_ok (labels ++ [Silent]) (set_hub_place p (put id (push (notice msg) c) h)).
Proof.
  intros Hh Hroom -> Hplace. destruct (at_client Hh) as [Hfor Hact]. pose proof (hk_clients _ _ Hok _ _ Hc) as Hck.
  apply at_client_ok; try done; [by left|intros j Hne; by destruct (Hplace j Hne) as [-> ->]|].
  eapply (client_ok_silent _ _ _ _ c); [exact Hck|..]; rewrite ?stream_push; try done; try apply Hck; try (by right).
  - simpl. rewrite length_app. apply has_room_lt in Hroom. simpl. lia.
  - intros Hy. exfalso. by apply (active_not_young c).
  - intros m. unfold messages. rewrite omap_app. simpl. by rewrite app_nil_r.
  - intros _ _. apply caught_up_notice.
Qed.

Lemma dropped_elsewhere j : j <> id ->
  (hub_place h = Noticing msg id todo \/ hub_place h = Evicting msg id todo \/ hub_place h = Retrying msg id todo) ->
  busy (hub_place h) j = false /\ retrying (hub_place h) j = false.
Proof. intros Hne [-> |[-> | ->]]; simpl; by destruct (N.eqb_spec j id). Qed.

Lemma first_notice_ok :
  hub_place h = Noticing msg id todo -> hub_ok (labels ++ [Silent]) (first_notice msg id todo c h).
Proof.
  intros Hat. assert (at_hand (hub_place h) = Some (msg, id :: todo)) as Hh by by rewrite Hat.
  pose proof (hk_clients _ _ Hok _ _ Hc) as Hck. unfold first_notice. destruct (has_room c) eqn:Hroom.
  - apply notice_ok; try done. intros j Hne. apply dropped_elsewhere; auto.
  - rewrite <- (put_same id c h) by done. apply at_client_ok; try done; [by right|intros j Hne; by rewrite Hat|].
    eapply (client_ok_silent _ _ _ _ c); [exact Hck|..]; try done; try apply Hck; [by right|]. simpl. by rewrite N.eqb_refl.
Qed.

Lemma evict_ok : hub_place h = Evicting msg id todo -> hub_ok (labels ++ [Silent]) (evict msg id todo c h).
Proof.
  intros Hat. assert (at_hand (hub_place h) = Some (msg, id :: todo)) as Hh by by rewrite Hat.
  pose proof (hk_clients _ _ Hok _ _ Hc) as Hck. destruct (at_client Hh) as [Hfor Hact].
  pose proof (ck_buffer _ _ _ _ Hck) as Hb. unfold evict.
  apply at_client_ok; try done; [by right|intros j Hne; rewrite Hat; simpl; by destruct (N.eqb_spec j id)|].
  assert (length (tl (cl_send c)) < sendCapacity)%nat as Hlt
    by (destruct (cl_send c); simpl in *; [apply Nat.lt_0_succ|lia]).
  eapply (client_ok_silent _ _ _ _ c); [exact Hck|..]; try done; try apply Hck; try (by right).
  - simpl. lia.
  - intros Hy. exfalso. by apply (active_not_young c).
  - intros m. unfold messages, stream. simpl. rewrite !omap_app, !elem_of_app. intros [Hm|Hm]; [by left|right].
    destruct (cl_send c); [done|]. simpl in *. destruct (message f); [by right|done].
  - intros _ _. by apply has_room_lt.
  - simpl. by rewrite N.eqb_refl.
Qed.

Lemma second_notice_ok :
  hub_place h = Retrying msg id todo -> hub_ok (labels ++ [Silent]) (second_notice msg id todo c h).
Proof.
  intros Hat. assert (at_hand (hub_place h) = Some (msg, id :: todo)) as Hh by by rewrite Hat.
  pose proof (hk_clients _ _ Hok _ _ Hc) as Hck. unfold second_notice. destruct (has_room c) eqn:Hroom.
  - apply notice_ok; try done. intros j Hne. apply dropped_elsewhere; auto.
  - rewrite <- (put_same id c h) by done. apply at_client_ok; try done; [by left|intros j Hne; rewrite Hat; simpl; by destruct (N.eqb_spec j id)|].
    eapply (client_ok_silent _ _ _ _ c); [exact Hck|..]; try done; try apply Hck; [by right|].
    intros Hn _. exfalso. pose proof (ck_room _ _ _ _ Hck Hn) as Hr. rewrite Hat in Hr. simpl in Hr. rewrite N.eqb_refl in Hr.
    rewrite Hr in Hroom by done. done.
Qed.
End AtClient.

(** The answer to a ping. *)
Lemma pong_ok labels h id c :
  hub_ok labels h -> connections h !! id = Some c -> cl_phase c = Reading ->
  hub_ok (labels ++ [refill id c h]) (put id (sendPong c) h).
Proof.
  intros Hok Hc Hp. pose proof (hk_clients _ _ Hok _ _ Hc) as Hck. unfold sendPong. destruct (has_room c) eqn:Hroom.
  - assert (forall j, offer j (refill id c h) = None) as Ho by (intros j; unfold refill; repeat case_match; done).
    eapply hub_ok_put_here; [done..| |].
    + by intros Ha.
    + assert (due id (labels ++ [refill id c h]) = due id labels) as Hd by (by rewrite due_snoc, Ho, app_nil_r).
      split; rewrite ?Hd, ?(stream_push c); try apply Hck.
      * simpl. rewrite length_app. apply has_room_lt in Hroom. simpl. lia.
      * simpl. rewrite Hp. by intros [?|?].
      * intros m. unfold messages. rewrite omap_app. simpl. rewrite app_nil_r. apply Hck.
      * intros [_ Hn]%no_refill_snoc Hr. exfalso. apply (Hn id). unfold refill.
        destruct (hub_place h); try done. simpl in Hr. by rewrite Hr, Hroom.
      * intros [Hn _]%no_refill_snoc Hb. apply caught_up_silent; [done|]. by apply Hck.
  - assert (refill id c h = Silent) as -> by (unfold refill; rewrite Hroom; destruct (hub_place h); rewrite ?andb_false_r; done).
    eapply client_step_ok; [done..| |by intros ?]. eapply client_ok_same; [exact Hck|..]; try done; [apply Hck..|by right].
Qed.

Lemma pump_ok labels h id c frame rest :
  hub_ok labels h -> connections h !! id = Some c -> cl_send c = frame :: rest ->
  hub_ok (labels ++ [Silent]) (pump id frame rest c h).
Proof.
  intros Hok Hc Hs. pose proof (hk_clients _ _ Hok _ _ Hc) as Hck. pose proof (ck_buffer _ _ _ _ Hck) as Hb. rewrite Hs in Hb. simpl in Hb.
  eapply client_step_ok; [done..| |by intros ?].
  assert (forall c', cl_send c' = rest -> cl_written c' = cl_written c ++ [frame] -> stream c' = stream c) as Hst.
  { intros c' E1 E2. unfold stream. by rewrite E1, E2, Hs, <- (assoc_L app). }
  eapply (client_ok_silent _ _ _ _ c); [exact Hck|..]; rewrite ?Hst by done; try done; try apply Hck; try (by right).
  - simpl. lia.
  - intros _ _. apply has_room_lt. simpl. lia.
Qed.

Lemma step_ok labels h l h' : hub_ok labels h -> step h l h' -> hub_ok (labels ++ [l]) h'.
Proof.
  intros Hok Hstep. destruct Hstep as [id Hn|id c userID orgID Hc Hp|id c Hc Hp|id c Hi Hc Hp|id c contact Hc Hp
    |id c topics add Hc Hp|id c Hc Hp|id c Hc Hp|id c Hi Hc Hp|id c frame rest Hc Hs|msg|msg rest todo Hi Hb Ht|msg id todo c Hat Hc
    |msg id todo c Hat Hc|msg id todo c Hat Hc|msg id todo c Hat Hc|msg Hat];
    try (pose proof (hk_clients _ _ Hok _ _ Hc) as Hck).
  - by apply connect_ok.
  - eapply client_step_ok; [done..| |intros Ha; exfalso; by eapply active_not_young; [|left]].
    eapply client_ok_same; [exact Hck|..]; simpl; try done; [apply Hck| |by left|left; apply Hck; by left].
    intros E. apply (ck_open _ _ _ _ Hck) in E. congruence.
  - eapply client_step_ok; [done..| |intros Ha; exfalso; by eapply active_not_young; [|left]].
    eapply client_ok_same; [exact Hck|..]; simpl; try done; [apply Hck|by intros [?|?]|by right].
  - by apply register_ok.
  - eapply client_step_ok; [done..| |by intros ?]. eapply client_ok_same; [exact Hck|..]; try done; [apply Hck..|by right].
  - eapply client_step_ok; [done..| |by intros ?]. eapply client_ok_same; [exact Hck|..]; try done; [apply handleSubscribe_bound, Hck|apply Hck|by right].
  - by apply pong_ok.
  - eapply client_step_ok; [done..| |].
    + eapply client_ok_same; [exact Hck|..]; simpl; try done; [apply Hck| |by intros [?|?]|by right].
      intros E. apply (ck_open _ _ _ _ Hck) in E. congruence.
    + intros [E _]. split_and!; [|done|done]. split; [done|]. by right.
  - by apply unregister_ok.
  - by apply pump_ok with (c := c).
  - unfold Broadcast, sent. destruct (_ <? _)%nat.
    + apply (move_ok _ _ _ (hub_place h) (hub_broadcast h ++ [msg])); [done..|apply Hok].
    + assert (hub_ok (labels ++ [Overflow msg (listeners msg h)]) (set_hub_place (hub_place h) (set_hub_broadcast (hub_broadcast h) h))) as Hm
        by (apply move_ok; [done..|apply Hok]). by destruct h.
  - apply move_ok; [done|done|by rewrite Hi|]. intros m ids id [= <- <-]. rewrite Ht, elem_of_elements.
    intros (user & Hin & Hu)%audience_spec. destruct (hk_registry _ _ Hok _ _ _ Hin) as (c & Hc & Eo & Eu & Ha).
    exists c. split_and!; [done| |done]. split; [done|]. intros Hne. by rewrite Eu, Hu.
  - by apply handle_ok.
  - by apply first_notice_ok.
  - by apply evict_ok.
  - by apply second_notice_ok.
  - apply (move_ok _ _ _ Idle (hub_broadcast h)); [done|done|by rewrite Hat|done].
Qed.

Lemma runs_ok labels h : runs labels h -> hub_ok labels h.
Proof.
  induction 1 as [|labels h l h' _ IH Hs]; [|by eapply step_ok].
  by split.
Qed.

(** C19: A client is never left with a silent hole in its stream, but for two
    cases.  In every interleaving of the hub with the client's two pumps,
    whenever the hub is not in the middle of dropping a message for this
    client, what the client was written and has queued holds every broadcast
    it wanted, in order, or a resync notice after which nothing is missing -
    unless the answer to a ping took the very place the hub had made for a
    notice, or a broadcast the client wanted was dropped because the hub's own
    channel was full, of which nobody is told. *)
Theorem no_silent_hole labels h id c :
  runs labels h -> no_refill labels -> no_overflow id labels ->
  connections h !! id = Some c -> busy (hub_place h) id = false ->
  caught_up (cl_written c ++ cl_send c) (wanted id labels).
Proof.
  intros Hr Hn Ho Hc Hb. rewrite wanted_due by done. apply (hk_clients _ _ (runs_ok _ _ Hr) _ _ Hc); done.
Qed.

(** Messages stay with their audience and the hub inside its bounds.
    Whatever a client has been written or has queued was offered to it, by a
    broadcast to its own organization, and to its own user when addressed to
    one; send buffers and subscriptions keep their limits; and a client the hub
    is about to send to still has its channel open. *)
Theorem messages_reach_their_audience labels h :
  runs labels h ->
  (forall id c msg, connections h !! id = Some c -> FMessage msg ∈ cl_written c ++ cl_send c ->
     msg ∈ due id labels /\ bm_OrgID msg = cl_organizationID c /\
     (bm_UserID msg <> uuid_Nil -> bm_UserID msg = cl_userID c)) /\
  (forall id c, connections h !! id = Some c ->
     (length (cl_send c) <= sendCapacity)%nat /\ (size (cl_topics c) <= maxTopicsPerClient)%nat) /\
  (forall msg ids id, at_hand (hub_place h) = Some (msg, ids) -> id ∈ ids ->
     exists c, connections h !! id = Some c /\ cl_closed c = false).
Proof.
  intros Hr%runs_ok. split_and!.
  - intros id c msg Hc Hin. pose proof (hk_clients _ _ Hr _ _ Hc) as Hck.
    assert (msg ∈ due id labels) as Hd.
    { apply (ck_stream _ _ _ _ Hck). unfold messages. apply list_elem_of_omap. by exists (FMessage msg). }
    split; [done|]. pose proof (ck_due _ _ _ _ Hck) as Hall. rewrite Forall_forall in Hall. by apply Hall.
  - intros id c Hc. split; by apply (hk_clients _ _ Hr _ _ Hc).
  - intros msg ids id Hp Hin. destruct (hk_place _ _ Hr _ _ _ Hp Hin) as (c & Hc & _ & [? _]). by exists c.
Qed.

(** ** A concrete run *)

Definition greeting : BroadcastMessage := bm_org 1 {| ws_Type := "crm_event"; ws_Payload := ANil |}.

Definition tab (send written : list Frame) (phase : Phase) : Client := MkClient 40 1 None ∅ send false written phase.

(** A client connects, is registered, and gets the greeting. *)
Definition connected : Hub := put 7 (tab [] [] Registering) (put 7 NewUnauthenticatedClient NewHub).
Definition reading : Hub :=
  put 7 (tab [] [] Reading) (set_hub_clients (registerClient 7 (tab [] [] Registering) ∅) connected).
Definition taken_up : Hub := set_hub_place (Sending greeting [7%N]) (set_hub_broadcast [] (Broadcast greeting reading)).
Definition greeted : Hub := handle greeting 7 [] (tab [] [] Reading) taken_up.

Lemma greeted_run :
  exists labels, runs labels greeted /\ (no_refill labels /\ no_overflow 7 labels) /\
    due 7 labels = [greeting] /\ wanted 7 labels = [greeting].
Proof.
  eexists. split.
  - eapply runs_snoc; [|apply (step_handle taken_up greeting 7 []); vm_compute; reflexivity].
    eapply runs_snoc; [|apply (step_take (Broadcast greeting reading) greeting []); vm_compute; reflexivity].
    eapply runs_snoc; [|apply (step_broadcast reading)].
    eapply runs_snoc; [|apply (step_register connected 7 (tab [] [] Registering)); vm_compute; reflexivity].
    eapply runs_snoc; [|apply (step_authenticated _ 7 NewUnauthenticatedClient); vm_compute; reflexivity].
    eapply runs_snoc; [apply runs_nil|apply step_connect; vm_compute; reflexivity].
  - split; [|split; vm_compute; reflexivity].
    split; [intros id|intros msg ids]; vm_compute; intros Hin; exfalso;
      repeat (apply elem_of_cons in Hin as [Hin|Hin]; [discriminate|]); by apply not_elem_of_nil in Hin.
Qed.

Lemma no_silent_hole_witness :
  exists labels c, wanted 7 labels = [greeting] /\ connections greeted !! 7%N = Some c /\
    caught_up (cl_written c ++ cl_send c) [greeting].
Proof.
  destruct greeted_run as (labels & Hr & (Hn & Ho) & _ & Hd).
  exists labels, (tab [FMessage greeting] [] Reading). split; [exact Hd|]. split; [vm_compute; reflexivity|].
  rewrite <- Hd. apply (no_silent_hole labels greeted 7); [exact Hr|exact Hn|exact Ho|vm_compute; reflexivity|vm_compute; reflexivity].
Defined.

Lemma messages_reach_their_audience_witness :
  exists labels, runs labels greeted /\ greeting ∈ due 7 labels.
Proof.
  destruct greeted_run as (labels & Hr & _). exists labels. split; [exact Hr|].
  destruct (messages_reach_their_audience labels greeted Hr) as [Ha _].
  destruct (Ha 7%N (tab [FMessage greeting] [] Reading) greeting) as [Hin _];
    [vm_compute; reflexivity|apply elem_of_cons; left; reflexivity|exact Hin].
Defined.

(** ** What the notices do not cover *)

(** A full buffer, nothing written yet, and the hub about to send again. *)
Definition full : Client := tab (replicate sendCapacity (FMessage greeting)) [] Reading.
Definition about_to_send : Hub :=
  MkHub {[1%N := {[40%N := {[7%N]}]}]} [] (Sending greeting [7%N]) {[7%N := full]}.

(** The client's own pong takes the place the hub made: the notice is lost, the
    hub goes on, and nothing closes the connection. *)
Example pong_takes_the_place :
  let h1 := handle greeting 7 [] full about_to_send in
  let h2 := first_notice greeting 7 [] full h1 in
  let h3 := evict greeting 7 [] full h2 in
  let c3 := set_cl_send (tl (cl_send full)) full in
  let h4 := put 7 (sendPong c3) h3 in
  let h5 := second_notice greeting 7 [] (sendPong c3) h4 in
  step about_to_send (Offered 7 greeting) h1 /\ step h1 Silent h2 /\ step h2 Silent h3 /\ step h3 (Refilled 7) h4 /\
  step h4 Silent h5 /\ busy (hub_place h5) 7 = false /\
  exists c, connections h5 !! 7%N = Some c /\ cl_closed c = false /\
    existsb (fun f => match f with FNotice _ => true | _ => false end) (stream c) = false /\
    length (messages (stream c)) = 255%nat.
Proof.
  intros h1 h2 h3 c3 h4 h5. split_and!.
  - apply (step_handle about_to_send greeting 7 [] full); vm_compute; reflexivity.
  - apply (step_first_notice h1 greeting 7 [] full); vm_compute; reflexivity.
  - apply (step_evict h2 greeting 7 [] full); vm_compute; reflexivity.
  - apply (step_pong h3 7 c3); vm_compute; reflexivity.
  - apply (step_second_notice h4 greeting 7 [] (sendPong c3)); vm_compute; reflexivity.
  - vm_compute. reflexivity.
  - eexists. split_and!; vm_compute; reflexivity.
Qed.

(** When the hub's own channel is full a broadcast is dropped for everybody,
    and no client is told. *)
Example full_channel_tells_nobody h msg :
  length (hub_broadcast h) = broadcastCapacity ->
  step h (Overflow msg (listeners msg h)) (Broadcast msg h) /\ Broadcast msg h = h.
Proof.
  intros E. pose proof (step_broadcast h msg) as Hs. unfold sent, Broadcast in Hs |- *. rewrite E, Nat.ltb_irrefl in *. done.
Qed.
