(* ===== verification/Transfers.v ===== *)
(** * Agent transfers ([internal/transfers])

    Handing a conversation to a person: the queue ([PickNext]), returning to
    it ([ReturnToQueue]), ending a transfer ([Resume], [Expire]), and the
    mirror that keeps the live conversation showing what the active transfer
    says ([MirrorToConversation], [AssignActiveTx]).  [PickNext] reads its
    candidate without a lock; [others i] is what other connections commit
    between that read and the lock of the [i]-th attempt. *)
From S2P Require Import Prelude Store Events Models Statements Samples.

(** ** [outcome.go] *)

Inductive Outcome := Assigned | Queued | SuppressedOutOfHours | AlreadyActive | Failed.

#[export] Instance Outcome_eq_dec : EqDecision Outcome.
Proof. solve_decision. Defined.

Definition Handed (o : Outcome) : bool :=
  bool_decide (o = Assigned) || bool_decide (o = Queued).

Definition Outcome_String (o : Outcome) : string :=
  match o with
  | Assigned => "assigned"
  | Queued => "queued"
  | SuppressedOutOfHours => "suppressed_out_of_hours"
  | AlreadyActive => "already_active"
  | Failed => "failed"
  end.

Definition ErrNoneQueued := ErrSentinel "transfers: nothing in the queue".

(** ** Row predicates *)

(** The contact's live conversation. *)
Definition live_conversation (orgID contactID : uuid) (c : Conversation) : bool :=
  N.eqb (cv_OrganizationID c) orgID && N.eqb (cv_ContactID c) contactID &&
  IsActive (cv_Status c) && live (cv_DeletedAt c).

Definition is_active_transfer (t : AgentTransfer) : bool :=
  bool_decide (tr_Status t = TransferStatusActive) && live (tr_DeletedAt t).

Definition active_for (orgID contactID : uuid) (t : AgentTransfer) : bool :=
  N.eqb (tr_OrganizationID t) orgID && N.eqb (tr_ContactID t) contactID && is_active_transfer t.

Definition queued (orgID : uuid) (t : AgentTransfer) : bool :=
  N.eqb (tr_OrganizationID t) orgID && is_active_transfer t && is_none (tr_AgentID t).

(** ** [mirror.go] *)

(** [UPDATE conversations SET us WHERE p]. *)
Definition update_conversations (p : Conversation -> bool) (us : list (Conversation -> Conversation)) : MT nat :=
  stmt (fun d => LConversation <$> matching p (db_conversations d))
       (fun d => (Ok (rows_affected p (db_conversations d)),
                  set_db_conversations (update_where p us (db_conversations d)) d)).

Definition update_transfers (p : AgentTransfer -> bool) (us : list (AgentTransfer -> AgentTransfer)) : MT nat :=
  stmt (fun d => LTransfer <$> matching p (db_transfers d))
       (fun d => (Ok (rows_affected p (db_transfers d)),
                  set_db_transfers (update_where p us (db_transfers d)) d)).

(** [tx.Save(&row)]: every column of the row with this primary key. *)
Definition save_transfer (t : AgentTransfer) : MT unit :=
  stmt (fun _ => [LTransfer (tr_ID t)])
       (fun d => (Ok tt, set_db_transfers (<[tr_ID t := t]> (db_transfers d)) d)).

Definition mirror_updates (t : AgentTransfer) : list (Conversation -> Conversation) :=
  [set_cv_AssigneeID (tr_AgentID t); set_cv_TeamID (tr_TeamID t)] ++
  (if is_some (tr_AgentID t) then [set_cv_Handling HandlingHuman] else []).

Definition MirrorToConversation (t : AgentTransfer) : MT unit :=
  let live := live_conversation (tr_OrganizationID t) (tr_ContactID t) in
  if negb (bool_decide (tr_Status t = TransferStatusActive)) then
    match tr_AgentID t with
    | None => ret tt
    | Some agent =>
        update_conversations (fun c => live c && opt_eqb (cv_AssigneeID c) (Some agent))
          [set_cv_AssigneeID None] ;;; ret tt
    end
  else update_conversations live (mirror_updates t) ;;; ret tt.

Section Engine.
Context `{Sql}.

(** A row read [FOR UPDATE]. *)
Definition lock_transfer (p : AgentTransfer -> bool) : MT AgentTransfer :=
  stmt (fun d => match first_row p unordered (db_transfers d) with
                 | Ok t => [LTransfer (tr_ID t)] | Err _ => [] end)
       (fun d => (first_row p unordered (db_transfers d), d)).

(** The in-memory changes of [AssignActiveTx], [now] the clock it reads. *)
Definition assign_transfer (agentID teamID : option uuid) (now : time) (t : AgentTransfer) : AgentTransfer :=
  let t := set_tr_AgentID agentID t in
  let t := if is_some teamID then set_tr_TeamID teamID t else t in
  match agentID with
  | None => set_tr_PickedUpAt None t
  | Some _ =>
      match tr_PickedUpAt t with
      | Some _ => t
      | None =>
          let t := set_tr_PickedUpAt (Some now) t in
          if sql_lt (tr_ResponseDeadline t) now
          then set_tr_BreachedAt (Some now) (set_tr_Breached true t) else t
      end
  end.

Definition AssignActiveTx (orgID contactID : uuid) (agentID teamID : option uuid) : MT unit :=
  r <- try (lock_transfer (active_for orgID contactID)) ;;
  match r with
  | Err ErrRecordNotFound => ret tt
  | Err e => fail e
  | Ok t => n <- now ;; save_transfer (assign_transfer agentID teamID n t)
  end.

(** ** [service.go] *)

Record PickInput := {
  pi_OrgID : uuid;
  pi_UserID : uuid;
  pi_TeamID : option uuid;
  pi_GeneralOnly : bool;
  pi_AllowedTeamIDs : list uuid;
  pi_Unrestricted : bool;
  pi_AssignContactOwner : bool
}.

Definition pickAttempts : nat := 3.

(** The [switch] of [nextCandidate]: which queues the picker may draw from. *)
Definition queue_allowed (pin : PickInput) (team : option uuid) : bool :=
  if pi_GeneralOnly pin then is_none team
  else match pi_TeamID pin with
  | Some t => opt_eqb team (Some t)
  | None =>
      if pi_Unrestricted pin then true
      else if negb (Nat.eqb (length (pi_AllowedTeamIDs pin)) 0)
      then match team with None => true | Some t => bool_decide (t ∈ pi_AllowedTeamIDs pin) end
      else is_none team
  end.

Definition pickable (pin : PickInput) (skip : list uuid) (t : AgentTransfer) : bool :=
  queued (pi_OrgID pin) t && negb (bool_decide (tr_ID t ∈ skip)) && queue_allowed pin (tr_TeamID t).

Definition by_transferred_at (a b : AgentTransfer) : bool :=
  tr_TransferredAt a <? tr_TransferredAt b.

Definition nextCandidate (pin : PickInput) (skip : list uuid) : MT AgentTransfer :=
  r <- try (query (fun d => first_row (pickable pin skip) by_transferred_at (db_transfers d))) ;;
  match r with
  | Ok t => ret t
  | Err ErrRecordNotFound => fail ErrNoneQueued
  | Err e => fail e
  end.

(** The row [PickNext] saves. *)
Definition picked_row (user : uuid) (now : time) (t : AgentTransfer) : AgentTransfer :=
  let t := set_tr_PickedUpAt (Some now) (set_tr_AgentID (Some user) t) in
  match tr_TransferredByUserID t with
  | None => set_tr_TransferredByUserID (Some user) t
  | Some _ => t
  end.

Definition own_contact (user contactID : uuid) : MT unit :=
  stmt no_locks (fun d =>
    (Ok tt, set_db_contacts
      (update_where (fun c => N.eqb (ct_ID c) contactID && is_none (ct_AssignedUserID c) && live (ct_DeletedAt c))
                    [set_ct_AssignedUserID (Some user)] (db_contacts d)) d)).

(** [id = ? AND status = ? AND agent_id IS NULL]. *)
Definition still_queued (id : uuid) (t : AgentTransfer) : bool :=
  N.eqb (tr_ID t) id && (is_active_transfer t && is_none (tr_AgentID t)).

(** The transaction of one attempt. *)
Definition pick_tx (pin : PickInput) (candidate : AgentTransfer) : MT AgentTransfer :=
  transaction (
    lockContact (tr_ContactID candidate) ;;;
    row <- lock_transfer (still_queued (tr_ID candidate)) ;;
    n <- now ;;
    let row := picked_row (pi_UserID pin) n row in
    save_transfer row ;;;
    MirrorToConversation row ;;;
    (if pi_AssignContactOwner pin then own_contact (pi_UserID pin) (tr_ContactID row) else ret tt) ;;;
    ret row).

Fixpoint pick_loop (others : nat -> Tables -> Tables) (pin : PickInput) (attempts : nat) (skip : list uuid)
    : MT AgentTransfer :=
  match attempts with
  | O => fail ErrNoneQueued
  | S n =>
      candidate <- nextCandidate pin skip ;;
      interleave (others n) ;;;
      r <- try (pick_tx pin candidate) ;;
      match r with
      | Ok row => ret row
      | Err ErrRecordNotFound => pick_loop others pin n (skip ++ [tr_ID candidate])
      | Err e => fail e
      end
  end.

Definition PickNext (others : nat -> Tables -> Tables) (pin : PickInput) : MT AgentTransfer :=
  pick_loop others pin pickAttempts [].

(** One iteration of [ReturnToQueue]. *)
Definition return_tx (transfer : AgentTransfer) : MT unit :=
  transaction (
    lockContact (tr_ContactID transfer) ;;;
    update_transfers (fun t => N.eqb (tr_ID t) (tr_ID transfer) && is_active_transfer t)
      [set_tr_AgentID None; set_tr_PickedUpAt None] ;;;
    MirrorToConversation (set_tr_AgentID None transfer)).

Definition held_by (orgID userID : uuid) (t : AgentTransfer) : bool :=
  N.eqb (tr_OrganizationID t) orgID && opt_eqb (tr_AgentID t) (Some userID) && is_active_transfer t.

(** The loop over the rows read up front; other connections may commit
    ([others]) before each row's transaction. *)
Fixpoint return_each (others : nat -> Tables -> Tables) (held : list AgentTransfer) : MT (list AgentTransfer) :=
  match held with
  | [] => ret []
  | t :: rest =>
      interleave (others (length rest)) ;;;
      r <- try (return_tx t) ;;
      out <- return_each others rest ;;
      ret (match r with
           | Ok _ => set_tr_PickedUpAt None (set_tr_AgentID None t) :: out
           | Err _ => out
           end)
  end.

(** The unlocked read [ReturnToQueue] starts with. *)
Definition held_transfers (orgID userID : uuid) : MT (list AgentTransfer) :=
  query (fun d => Ok (find_rows (held_by orgID userID) None (db_transfers d))).

Definition ReturnToQueue (others : nat -> Tables -> Tables) (orgID userID : uuid) : MT (list AgentTransfer) :=
  held <- held_transfers orgID userID ;;
  return_each others held.

(** [Resume]: the transfer as the transaction saw it, [inr] when somebody
    else had closed it ([errNotActive]: the transaction is rolled back). *)
Definition resume_body (orgID transferID byUserID : uuid) : MT (AgentTransfer + AgentTransfer) :=
  transfer <- query (fun d => first_row
    (fun t => N.eqb (tr_ID t) transferID && N.eqb (tr_OrganizationID t) orgID && live (tr_DeletedAt t))
    unordered (db_transfers d)) ;;
  lockContact (tr_ContactID transfer) ;;;
  transfer <- lock_transfer (fun t => N.eqb (tr_ID t) transferID && live (tr_DeletedAt t)) ;;
  if negb (bool_decide (tr_Status transfer = TransferStatusActive)) then ret (inr transfer)
  else
    n <- now ;;
    let transfer := set_tr_ResumedBy (Some byUserID) (set_tr_ResumedAt (Some n)
                      (set_tr_Status TransferStatusResumed transfer)) in
    save_transfer transfer ;;;
    MirrorToConversation transfer ;;;
    ret (inl transfer).

Definition Resume (orgID transferID byUserID : uuid) : MT (option AgentTransfer * Outcome * option err) :=
  r <- try (transaction_if (fun r => match r with inl _ => true | inr _ => false end)
              (resume_body orgID transferID byUserID)) ;;
  ret match r with
      | Ok (inr out) => (Some out, AlreadyActive, None)
      | Err e => (None, Failed, Some e)
      | Ok (inl out) => (Some out, Assigned, None)
      end.

Definition Expire (orgID transferID : uuid) : MT unit :=
  transaction (
    transfer <- query (fun d => first_row
      (fun t => N.eqb (tr_ID t) transferID && N.eqb (tr_OrganizationID t) orgID && live (tr_DeletedAt t))
      unordered (db_transfers d)) ;;
    lockContact (tr_ContactID transfer) ;;;
    affected <- update_transfers (fun t => N.eqb (tr_ID t) transferID && is_active_transfer t)
                  [set_tr_Status TransferStatusExpired] ;;
    if Nat.eqb affected 0 then ret tt
    else MirrorToConversation (set_tr_Status TransferStatusExpired transfer)).

Definition HasActive (orgID contactID : uuid) : MT bool :=
  query (fun d => Ok (Nat.ltb 0 (rows_affected (active_for orgID contactID) (db_transfers d)))).
End Engine.

(** ** Well-keyed tables *)

(** Every row is filed under its primary key. *)
Record wf_keys (d : Tables) : Prop := {
  wf_conv : forall k c, db_conversations d !! k = Some c -> cv_ID c = k;
  wf_tr : forall k t, db_transfers d !! k = Some t -> tr_ID t = k;
  wf_ct : forall k c, db_contacts d !! k = Some c -> ct_ID c = k
}.

(** ** Effects on the tables *)

(** What [MirrorToConversation] does to the tables. *)
Definition mirror_effect (t : AgentTransfer) (d : Tables) : Tables :=
  let live := live_conversation (tr_OrganizationID t) (tr_ContactID t) in
  if bool_decide (tr_Status t = TransferStatusActive)
  then set_db_conversations (update_where live (mirror_updates t) (db_conversations d)) d
  else match tr_AgentID t with
  | None => d
  | Some agent =>
      set_db_conversations
        (update_where (fun c => live c && opt_eqb (cv_AssigneeID c) (Some agent))
           [set_cv_AssigneeID None] (db_conversations d)) d
  end.

Definition save_effect (t : AgentTransfer) (d : Tables) : Tables :=
  set_db_transfers (<[tr_ID t := t]> (db_transfers d)) d.

Definition own_effect (user contactID : uuid) (d : Tables) : Tables :=
  set_db_contacts
    (update_where (fun c => N.eqb (ct_ID c) contactID && is_none (ct_AssignedUserID c) && live (ct_DeletedAt c))
       [set_ct_AssignedUserID (Some user)] (db_contacts d)) d.

(** A quiet run: its effect on the tables; clock, UUID supply and transaction
    are as before. *)
Definition ran (w w' : world Tables) (d : Tables) : Prop :=
  w_db w' = d /\ w_now w' = w_now w /\ w_in_tx w' = w_in_tx w /\
  w_aborted w = false /\ w_aborted w' = false /\ w_uuid w' = w_uuid w.

(** What a pick does to the tables, [row] being the row it saves. *)
Definition pick_effect (pin : PickInput) (row : AgentTransfer) (d : Tables) : Tables :=
  let d := mirror_effect row (save_effect row d) in
  if pi_AssignContactOwner pin then own_effect (pi_UserID pin) (tr_ContactID row) d else d.

Lemma lockContact_ok c w u w' :
  lockContact c w = (Ok u, w') -> ran w w' (w_db w).
Proof. intros H. apply stmt_ok_inv in H as (d & [= <- <-] & ? & ->). by repeat split. Qed.

Lemma save_transfer_ok t w u w' :
  save_transfer t w = (Ok u, w') -> ran w w' (save_effect t (w_db w)).
Proof. intros H. apply stmt_ok_inv in H as (d & [= <- <-] & ? & ->). by repeat split. Qed.

Lemma own_contact_ok user c w u w' :
  own_contact user c w = (Ok u, w') -> ran w w' (own_effect user c (w_db w)).
Proof. intros H. apply stmt_ok_inv in H as (d & [= <- <-] & ? & ->). by repeat split. Qed.

Lemma update_transfers_ok p us w n w' :
  update_transfers p us w = (Ok n, w') ->
  n = rows_affected p (db_transfers (w_db w)) /\
  ran w w' (set_db_transfers (update_where p us (db_transfers (w_db w))) (w_db w)).
Proof. intros H. apply stmt_ok_inv in H as (d & [= <- <-] & ? & ->). by repeat split. Qed.

Lemma update_conversations_ok p us w n w' :
  update_conversations p us w = (Ok n, w') ->
  n = rows_affected p (db_conversations (w_db w)) /\
  ran w w' (set_db_conversations (update_where p us (db_conversations (w_db w))) (w_db w)).
Proof. intros H. apply stmt_ok_inv in H as (d & [= <- <-] & ? & ->). by repeat split. Qed.

Lemma lock_transfer_ok `{SqlLaws} p w t w' :
  lock_transfer p w = (Ok t, w') ->
  (exists k, db_transfers (w_db w) !! k = Some t) /\ p t = true /\ ran w w' (w_db w).
Proof.
  intros Hr. apply stmt_ok_inv in Hr as (d & [= Hf <-] & ? & ->).
  apply first_row_ok in Hf as (k & ? & ?). repeat split; eauto.
Qed.

Lemma MirrorToConversation_ok t w u w' :
  MirrorToConversation t w = (Ok u, w') -> w_aborted w = false ->
  ran w w' (mirror_effect t (w_db w)).
Proof.
  unfold MirrorToConversation, mirror_effect. intros H Hab.
  case_bool_decide; simpl in *; [|destruct (tr_AgentID t)]; inv_run; try done;
    match goal with H : update_conversations _ _ _ = _ |- _ =>
      apply update_conversations_ok in H as [_ ?] end; done.
Qed.

(** Inverts the primitives of the services. *)
Ltac inv_prim :=
  match goal with
  | H : lockContact _ _ = (Ok _, _) |- _ => apply lockContact_ok in H as (? & ? & ? & ? & ? & ?)
  | H : save_transfer _ _ = (Ok _, _) |- _ => apply save_transfer_ok in H as (? & ? & ? & ? & ? & ?)
  | H : own_contact _ _ _ = (Ok _, _) |- _ => apply own_contact_ok in H as (? & ? & ? & ? & ? & ?)
  | H : update_transfers _ _ _ = (Ok _, _) |- _ =>
      apply update_transfers_ok in H as (? & ? & ? & ? & ? & ? & ?)
  | H : lock_transfer _ _ = (Ok _, _) |- _ =>
      let k := fresh "k" in let Hk := fresh "Hk" in let Hp := fresh "Hp" in
      apply lock_transfer_ok in H as ((k & Hk) & Hp & ? & ? & ? & ? & ? & ?)
  | H : MirrorToConversation _ _ = (Ok _, _) |- _ =>
      apply MirrorToConversation_ok in H as (? & ? & ? & ? & ? & ?); [|done]
  end.

(** Rewrites what the inverted primitives said about the worlds in between. *)
Ltac sync_with f :=
  repeat match goal with
  | H : f ?w = _ |- context [f ?w] => is_var w; rewrite H
  | H : f ?w = _, H' : context [f ?w] |- _ =>
      is_var w; lazymatch H with H' => fail | _ => rewrite H in H' end
  end.
Ltac sync :=
  sync_with (@w_db Tables); sync_with (@w_now Tables); sync_with (@w_in_tx Tables);
  sync_with (@w_uuid Tables); simpl in *.

Section Facts.
Context `{SqlLaws}.
Implicit Types (d : Tables) (t row : AgentTransfer) (pin : PickInput).

(** What a committed attempt did: the candidate was still queued under the
    lock, and the tables changed by exactly the pick. *)
Lemma pick_tx_ok pin c w row w' :
  wf_keys (w_db w) -> pick_tx pin c w = (Ok row, w') ->
  exists t, db_transfers (w_db w) !! tr_ID c = Some t /\ is_active_transfer t = true /\
    tr_AgentID t = None /\ row = picked_row (pi_UserID pin) (w_now w) t /\
    w_db w' = pick_effect pin row (w_db w) /\ w_now w' = w_now w.
Proof.
  intros Hwf Hp. apply transaction_ok_inv in Hp as (w1 & Hb & Hab & ->).
  inv_run. repeat inv_prim. unfold still_queued in *. breflect.
  match goal with E : (tr_ID _ =? _)%N = true |- _ => apply N.eqb_eq in E; rename E into Eid end.
  rewrite is_none_true in *. sync. pose proof (wf_tr _ Hwf _ _ Hk) as Hid. subst k.
  rewrite Eid in *. exists a0. unfold pick_effect.
  destruct (pi_AssignContactOwner pin) eqn:?; inv_run; repeat inv_prim; inv_run; sync; done.
Qed.

Lemma nextCandidate_ok pin skip w t w' :
  nextCandidate pin skip w = (Ok t, w') ->
  (exists k, db_transfers (w_db w) !! k = Some t) /\ pickable pin skip t = true /\
  w_db w' = w_db w /\ w_now w' = w_now w /\
  (forall k' t', db_transfers (w_db w) !! k' = Some t' -> pickable pin skip t' = true ->
     tr_TransferredAt t <= tr_TransferredAt t').
Proof.
  unfold nextCandidate. intros Hr. inv_run. destruct a as [t0|e]; [|by destruct e].
  inv_run. rename Hq into Hf. simpl.
  split; [by apply first_row_ok in Hf as (k & ? & ?); eauto|].
  split; [by apply first_row_ok in Hf as (k & ? & ?)|].
  repeat split. intros k' t' Hk' Hp. by eapply first_row_least.
Qed.

Lemma query_db {A} (f : Tables -> res err A) w r w' :
  query f w = (r, w') -> w_db w' = w_db w.
Proof.
  destruct r as [a|e]; [by intros (? & ? & ->)%query_ok_inv|by intros (? & ?)%query_err_inv].
Qed.

Lemma pick_tx_fail_db pin c w e w' : pick_tx pin c w = (Err e, w') -> w_db w' = w_db w.
Proof. apply transaction_err. Qed.

(** The tables the transaction of a successful pick started from: the ones
    the caller saw, after commits of other connections. *)
Lemma pick_loop_ok others pin n skip w row w' :
  (forall i d, wf_keys d -> wf_keys (others i d)) -> wf_keys (w_db w) ->
  pick_loop others pin n skip w = (Ok row, w') ->
  exists ixs t c now, let d := foldr others (w_db w) ixs in
    wf_keys d /\ pickable pin skip c = true /\ tr_ID c = tr_ID t /\
    db_transfers d !! tr_ID t = Some t /\ is_active_transfer t = true /\ tr_AgentID t = None /\
    row = picked_row (pi_UserID pin) now t /\ w_db w' = pick_effect pin row d.
Proof.
  intros Hoth. revert skip w. induction n as [|n IH]; simpl; intros skip w Hwf Hr; [done|].
  inv_run. apply nextCandidate_ok in Hrun as (_ & Hpick & Hdb & Hnow & _).
  destruct a1 as [row'|e].
  - inv_run. apply pick_tx_ok in Hrun1 as (t & Hk & Hact & Hag & -> & Hdb' & _);
      [|simpl; rewrite Hdb; auto].
    simpl in *. rewrite Hdb in *.
    pose proof (wf_tr _ (Hoth n _ Hwf) _ _ Hk) as Hid. rewrite <- Hid in Hk.
    exists [n], t, a, (w_now w0). simpl. split_and!; auto.
  - apply pick_tx_fail_db in Hrun1. simpl in Hrun1. rewrite Hdb in Hrun1.
    destruct e; try done. apply IH in Hr as (ixs & t & c & now & Hr); [|rewrite Hrun1; auto].
    exists (ixs ++ [n]), t, c, now. rewrite foldr_snoc. simpl. rewrite <- Hrun1.
    destruct Hr as (? & Hp & ?). split_and!; try tauto.
    revert Hp. unfold pickable. rewrite !andb_true_iff, !negb_true_iff, !bool_decide_eq_false.
    rewrite not_elem_of_app. tauto.
Qed.

Lemma save_mirror_transfers row d :
  db_transfers (mirror_effect row (save_effect row d)) = <[tr_ID row := row]> (db_transfers d).
Proof. unfold mirror_effect, save_effect. repeat case_match; done. Qed.

Lemma pick_effect_transfers pin row d :
  db_transfers (pick_effect pin row d) = <[tr_ID row := row]> (db_transfers d).
Proof. unfold pick_effect. destruct (pi_AssignContactOwner pin); simpl; apply save_mirror_transfers. Qed.

Lemma picked_row_fields user now t :
  tr_ID (picked_row user now t) = tr_ID t /\
  tr_Status (picked_row user now t) = tr_Status t /\
  tr_OrganizationID (picked_row user now t) = tr_OrganizationID t /\
  tr_ContactID (picked_row user now t) = tr_ContactID t /\
  tr_TeamID (picked_row user now t) = tr_TeamID t /\
  tr_AgentID (picked_row user now t) = Some user /\
  tr_PickedUpAt (picked_row user now t) = Some now.
Proof. unfold picked_row. simpl. destruct (tr_TransferredByUserID t); split_and!; done. Qed.

Lemma MirrorToConversation_quiet t w :
  quiet w -> exists w', MirrorToConversation t w = (Ok tt, w') /\ quiet w'.
Proof.
  intros Hq. unfold MirrorToConversation.
  destruct (negb _); [destruct (tr_AgentID t); [|by eexists]|];
    (eexists; split; [erewrite bind_run; [|by apply stmt_quiet]; done|by apply quiet_after_stmt]).
Qed.

(** The row a transaction re-reads under the lock by its primary key. *)
Lemma first_row_by_key d k t p :
  wf_keys d -> db_transfers d !! k = Some t -> p t = true ->
  first_row (fun t => N.eqb (tr_ID t) k && p t) unordered (db_transfers d) = Ok t.
Proof.
  intros Hwf Hk Hp. destruct (first_row _ _ _) as [t'|e] eqn:E.
  - apply first_row_ok in E as (k' & Hk' & Hp'). apply andb_true_iff in Hp' as [Hid _].
    apply N.eqb_eq in Hid. rewrite <- (wf_tr _ Hwf _ _ Hk'), Hid in Hk'. congruence.
  - apply first_row_err in E as [_ E]. specialize (E _ _ Hk).
    by rewrite (wf_tr _ Hwf _ _ Hk), N.eqb_refl, Hp in E.
Qed.

(** Without faults or competition the first attempt succeeds. *)
Lemma pick_tx_quiet pin c w :
  wf_keys (w_db w) -> quiet w -> db_transfers (w_db w) !! tr_ID c = Some c ->
  is_active_transfer c = true -> tr_AgentID c = None ->
  exists w', pick_tx pin c w = (Ok (picked_row (pi_UserID pin) (w_now w) c), w').
Proof.
  intros Hwf Hq Hc Hact Hag.
  assert (Hfirst : first_row (still_queued (tr_ID c)) unordered (db_transfers (w_db w)) = Ok c).
  { apply (first_row_by_key _ _ c (fun t => is_active_transfer t && is_none (tr_AgentID t))%bool);
      [done|done|by rewrite Hact, Hag]. }
  pose proof (quiet_tx_start w Hq) as Hq0.
  match goal with |- exists w', pick_tx pin c w = _ =>
    unfold pick_tx; match goal with |- exists w', transaction ?b w = (Ok ?r, _) =>
      assert (exists w1, b (tx_start w) = (Ok r, w1) /\ quiet w1) as (w1 & Hb & Hq1);
      [|eexists; by apply transaction_quiet] end end.
  erewrite bind_run by (by apply stmt_quiet).
  set (w1 := after_stmt _ _ (tx_start w)). assert (quiet w1) by by apply quiet_after_stmt.
  erewrite bind_run by (apply stmt_quiet; [done|]; simpl; by rewrite Hfirst).
  set (w2 := after_stmt _ _ w1). assert (quiet w2) by by apply quiet_after_stmt.
  erewrite bind_run by done. erewrite bind_run by (by apply stmt_quiet).
  set (w3 := after_stmt _ _ w2). assert (quiet w3) by by apply quiet_after_stmt.
  destruct (MirrorToConversation_quiet (picked_row (pi_UserID pin) (w_now w2) c) w3)
    as (w4 & Hmir & Hq4); [done|].
  rewrite (bind_run _ _ _ _ _ Hmir).
  destruct (pi_AssignContactOwner pin).
  - eexists. erewrite bind_run by (by apply stmt_quiet). split; [done|]. by apply quiet_after_stmt.
  - eexists. erewrite bind_run by done. by split.
Qed.
End Facts.

(** ** Steps: one transaction of one operation, whatever else has run before it *)

Section Steps.
Context `{SqlLaws}.
Implicit Types (d : Tables) (t row : AgentTransfer) (pin : PickInput).

(** What [return_tx] does to the tables, given the copy of the row read up front. *)
Definition return_effect (copy : AgentTransfer) (d : Tables) : Tables :=
mirror_effect (set_tr_AgentID None copy)
  (set_db_transfers (update_where (fun t => N.eqb (tr_ID t) (tr_ID copy) && is_active_transfer t)
     [set_tr_AgentID None; set_tr_PickedUpAt None] (db_transfers d)) d).

Definition resumed_row (byUserID : uuid) (now : time) (t : AgentTransfer) : AgentTransfer :=
set_tr_ResumedBy (Some byUserID) (set_tr_ResumedAt (Some now) (set_tr_Status TransferStatusResumed t)).

Definition expire_effect (t : AgentTransfer) (d : Tables) : Tables :=
mirror_effect (set_tr_Status TransferStatusExpired t)
  (set_db_transfers (update_where (fun r => N.eqb (tr_ID r) (tr_ID t) && is_active_transfer r)
     [set_tr_Status TransferStatusExpired] (db_transfers d)) d).

(** The tables before and after one committed transaction of the package.
  The candidate of a pick and the copy a return works from are whatever the
  caller read earlier: nothing is assumed of them. *)
Inductive transfer_step (d : Tables) : Tables -> Prop :=
| step_pick pin candidate w row w' :
  w_db w = d -> pick_tx pin candidate w = (Ok row, w') -> transfer_step d (w_db w')
| step_return copy w u w' :
  w_db w = d -> return_tx copy w = (Ok u, w') -> transfer_step d (w_db w')
| step_resume org id by_ w out w' :
  w_db w = d -> Resume org id by_ w = (Ok out, w') -> transfer_step d (w_db w')
| step_expire org id w u w' :
  w_db w = d -> Expire org id w = (Ok u, w') -> transfer_step d (w_db w')
| step_assign org contact agent team w u w' :
  w_db w = d -> AssignActiveTx org contact agent team w = (Ok u, w') -> transfer_step d (w_db w').

Lemma return_tx_ok copy w u w' :
return_tx copy w = (Ok u, w') -> w_db w' = return_effect copy (w_db w).
Proof.
intros Hr. apply transaction_ok_inv in Hr as (w1 & Hb & Hab & ->).
inv_run. repeat inv_prim. sync. done.
Qed.

(** The row a primary-key query found sits at its key. *)
Lemma first_by_key d (key : uuid) p t :
wf_keys d -> (forall r, p r = true -> tr_ID r = key) ->
first_row p unordered (db_transfers d) = Ok t ->
db_transfers d !! key = Some t /\ tr_ID t = key /\ p t = true.
Proof.
intros Hwf Hkey Hf. apply first_row_ok in Hf as (k & Hk & Hp).
pose proof (wf_tr _ Hwf _ _ Hk). pose proof (Hkey _ Hp). subst. naive_solver.
Qed.

Lemma Resume_ok org id by_ w out w' :
wf_keys (w_db w) -> Resume org id by_ w = (Ok out, w') ->
w_db w' = w_db w \/
exists t, db_transfers (w_db w) !! id = Some t /\ tr_Status t = TransferStatusActive /\
  tr_ID t = id /\ live (tr_DeletedAt t) = true /\
  let row := resumed_row by_ (w_now w) t in
  out = (Some row, Assigned, None) /\ w_db w' = mirror_effect row (save_effect row (w_db w)).
Proof.
intros Hwf Hr. unfold Resume in Hr. inv_run.
destruct a as [out|e]; [|left; by eapply transaction_if_err].
apply transaction_if_ok_inv in Hrun as (w1 & Hb & [(Hc & _ & ->)|(_ & ?)]); [|by left].
right. unfold resume_body in Hb. inv_run. inv_prim. sync.
apply (first_by_key _ id) in Hq as (Hk & Hid & _);
  [|done|intros r; rewrite !andb_true_iff, N.eqb_eq; tauto].
inv_prim. sync. apply andb_true_iff in Hp as [Hid' Hlive]. apply N.eqb_eq in Hid'.
pose proof (wf_tr _ Hwf _ _ Hk0). subst k. rewrite Hid' in Hk0. rewrite Hk in Hk0. simplify_eq.
exists a1.
case_bool_decide; simpl in Hb; inv_run; [|done].
repeat inv_prim. sync. split_and!; try done.
Qed.

Lemma Expire_ok org id w u w' :
wf_keys (w_db w) -> Expire org id w = (Ok u, w') ->
w_db w' = w_db w \/
exists t, db_transfers (w_db w) !! id = Some t /\ tr_ID t = id /\ is_active_transfer t = true /\
  w_db w' = expire_effect t (w_db w).
Proof.
intros Hwf Hr. apply transaction_ok_inv in Hr as (w1 & Hb & Hab & ->). inv_run. inv_prim. sync.
apply (first_by_key _ id) in Hq as (Hk & Hid & _);
  [|done|intros r; rewrite !andb_true_iff, N.eqb_eq; tauto].
inv_prim. sync. subst.
match goal with Hb : (if ?b then _ else _) _ = _ |- _ => destruct b eqn:E end; inv_run.
- left. apply Nat.eqb_eq in E. sync. rewrite update_where_none by (by apply rows_affected_zero).
  by destruct (w_db w).
- right. inv_prim. sync. exists a. split_and!; try done.
  apply Nat.eqb_neq in E. apply not_false_iff_true. intros Hna. apply E, rows_affected_zero.
  intros k r Hr. destruct (N.eqb_spec (tr_ID r) (tr_ID a)) as [Hra|]; [|done].
  rewrite <- (wf_tr _ Hwf _ _ Hr), Hra, Hk in Hr. by simplify_eq.
Qed.

Lemma AssignActiveTx_ok org contact agent team w u w' :
  keyed tr_ID (db_transfers (w_db w)) -> AssignActiveTx org contact agent team w = (Ok u, w') ->
  w_in_tx w' = w_in_tx w /\
  ((w_db w' = w_db w /\ forall k t, db_transfers (w_db w) !! k = Some t -> active_for org contact t = false) \/
   exists t now, db_transfers (w_db w) !! tr_ID t = Some t /\ active_for org contact t = true /\
    w_db w' = save_effect (assign_transfer agent team now t) (w_db w)).
Proof.
  intros Hwf Hr. unfold AssignActiveTx in Hr. inv_run. destruct a as [t|e].
  - inv_prim. inv_run. inv_prim. sync.
    pose proof (Hwf _ _ Hk). subst k. split; [done|]. right. exists t. eexists. split_and!; done.
  - destruct e; try done. inv_run. apply stmt_benign_inv in Hrun as (Hf & _ & ->); [|done].
    simpl in *. apply first_row_err in Hf as [_ Hno]. split; [done|]. left. done.
Qed.

(** How one transaction of the queue may change a transfer row. *)
Inductive row_moved (t : AgentTransfer) : AgentTransfer -> Prop :=
| row_same : row_moved t t
| row_picked user now : is_active_transfer t = true -> tr_AgentID t = None ->
  row_moved t (picked_row user now t)
| row_returned : is_active_transfer t = true ->
  row_moved t (set_tr_PickedUpAt None (set_tr_AgentID None t))
| row_resumed user now : is_active_transfer t = true -> row_moved t (resumed_row user now t)
| row_expired : is_active_transfer t = true -> row_moved t (set_tr_Status TransferStatusExpired t).

(** ... and how one of the package may. *)
Inductive row_step (t : AgentTransfer) : AgentTransfer -> Prop :=
| row_queue t' : row_moved t t' -> row_step t t'
| row_assigned agent team now : is_active_transfer t = true ->
  row_step t (assign_transfer agent team now t).

(** Every row of the table stays in it and takes one of the steps. *)
Definition rows_by (step : AgentTransfer -> AgentTransfer -> Prop) (rows rows' : gmap N AgentTransfer) : Prop :=
forall k, match rows !! k with
          | None => rows' !! k = None
          | Some t => exists t', rows' !! k = Some t' /\ step t t'
          end.

Definition rows_step := rows_by row_step.

Section Rows.
Context (step : AgentTransfer -> AgentTransfer -> Prop) (step_refl : forall t, step t t).

Lemma rows_by_refl rows : rows_by step rows rows.
Proof. intros k. destruct (rows !! k); eauto. Qed.

Lemma rows_by_insert rows k t t' :
rows !! k = Some t -> step t t' -> rows_by step rows (<[k := t']> rows).
Proof.
intros Hk Hs j. destruct (decide (j = k)) as [->|].
- rewrite Hk, lookup_insert_eq. eauto.
- rewrite lookup_insert_ne by done. apply rows_by_refl.
Qed.

Lemma rows_by_update rows p us :
(forall t, p t = true -> step t (apply_updates us t)) -> rows_by step rows (update_where p us rows).
Proof.
intros Hs k. rewrite update_where_lookup. destruct (rows !! k) as [t|]; [|done]. simpl.
eexists. split; [done|]. destruct (p t) eqn:?; eauto.
Qed.
End Rows.

Lemma row_step_refl t : row_step t t.
Proof. apply row_queue, row_same. Qed.

Lemma rows_moved_step rows rows' : rows_by row_moved rows rows' -> rows_step rows rows'.
Proof.
intros Hs k. specialize (Hs k). destruct (rows !! k); [|done].
destruct Hs as (t' & ? & ?). eauto using row_queue.
Qed.

Lemma mirror_transfers t d : db_transfers (mirror_effect t d) = db_transfers d.
Proof. unfold mirror_effect. repeat case_match; done. Qed.

Lemma active_of t : tr_Status t = TransferStatusActive -> live (tr_DeletedAt t) = true ->
is_active_transfer t = true.
Proof. intros Hs Hl. unfold is_active_transfer. by rewrite Hs, Hl. Qed.

(** [Resume] reports its failures in its answer. *)
Lemma Resume_answers org id by_ w e w' : Resume org id by_ w <> (Err e, w').
Proof. unfold Resume, bind, try. by destruct (transaction_if _ _ w). Qed.

(** The transactions of the queue, committed or not. *)
Lemma pick_rows pin candidate w r w' :
wf_keys (w_db w) -> pick_tx pin candidate w = (r, w') ->
rows_by row_moved (db_transfers (w_db w)) (db_transfers (w_db w')).
Proof.
intros Hwf Hr. destruct r as [row|e]; [|apply pick_tx_fail_db in Hr as ->; by apply rows_by_refl, row_same].
apply pick_tx_ok in Hr as (t & Hk & Hact & Hag & -> & -> & _); [|done].
rewrite pick_effect_transfers. pose proof (wf_tr _ Hwf _ _ Hk) as Hid.
destruct (picked_row_fields (pi_UserID pin) (w_now w) t) as (-> & _). rewrite Hid.
apply (rows_by_insert _ row_same _ _ t); auto using row_picked.
Qed.

Lemma return_rows copy w r w' :
return_tx copy w = (r, w') -> rows_by row_moved (db_transfers (w_db w)) (db_transfers (w_db w')).
Proof.
intros Hr. destruct r as [u|e]; [|apply transaction_err in Hr as ->; by apply rows_by_refl, row_same].
apply return_tx_ok in Hr as ->. unfold return_effect. rewrite mirror_transfers. simpl.
apply rows_by_update; [exact row_same|]. intros t [_ Ht]%andb_true_iff. by apply row_returned.
Qed.

Lemma resume_rows org id by_ w r w' :
wf_keys (w_db w) -> Resume org id by_ w = (r, w') ->
rows_by row_moved (db_transfers (w_db w)) (db_transfers (w_db w')).
Proof.
intros Hwf Hr. destruct r as [out|e]; [|by apply Resume_answers in Hr].
apply Resume_ok in Hr as [->|(t & Hk & Hact & Hid & Hl & _ & ->)]; [by apply rows_by_refl, row_same| |done].
rewrite save_mirror_transfers. simpl. rewrite Hid. apply (rows_by_insert _ row_same _ _ t); [done|].
apply row_resumed. by apply active_of.
Qed.

Lemma expire_rows org id w r w' :
wf_keys (w_db w) -> Expire org id w = (r, w') ->
rows_by row_moved (db_transfers (w_db w)) (db_transfers (w_db w')).
Proof.
intros Hwf Hr. destruct r as [u|e]; [|apply transaction_err in Hr as ->; by apply rows_by_refl, row_same].
apply Expire_ok in Hr as [->|(t & Hk & Hid & _ & ->)]; [by apply rows_by_refl, row_same| |done].
unfold expire_effect. rewrite mirror_transfers. simpl. apply rows_by_update; [exact row_same|].
intros r [_ Hr]%andb_true_iff. by apply row_expired.
Qed.

Lemma transfer_step_rows d d' :
wf_keys d -> transfer_step d d' -> rows_step (db_transfers d) (db_transfers d').
Proof.
intros Hwf Hs. destruct Hs as [pin c w row w' <- Hr|copy w u w' <- Hr|org id by_ w out w' <- Hr
  |org id w u w' <- Hr|org contact agent team w u w' <- Hr];
  [by eapply rows_moved_step, pick_rows|by eapply rows_moved_step, return_rows
  |by eapply rows_moved_step, resume_rows|by eapply rows_moved_step, expire_rows|].
apply AssignActiveTx_ok in Hr as [_ [[-> _]|(t & now & Hk & Hact & ->)]];
  [by apply rows_by_refl, row_step_refl| |exact (wf_tr _ Hwf)].
simpl. assert (tr_ID (assign_transfer agent team now t) = tr_ID t) as ->.
{ unfold assign_transfer. repeat case_match; done. }
apply (rows_by_insert _ row_step_refl _ _ t); [done|]. apply row_assigned.
unfold active_for in Hact. breflect. done.
Qed.

(** What no step may change: who the transfer is for. *)
Definition same_case (t t' : AgentTransfer) : Prop :=
tr_ID t' = tr_ID t /\ tr_OrganizationID t' = tr_OrganizationID t /\
tr_ContactID t' = tr_ContactID t /\ tr_TransferredAt t' = tr_TransferredAt t /\
tr_DeletedAt t' = tr_DeletedAt t.

Lemma row_step_case t t' : row_step t t' ->
same_case t t' /\ (t' = t \/ is_active_transfer t = true).
Proof.
intros Hs. split; [|by destruct Hs as [? []|]; auto].
destruct Hs as [? []|]; unfold same_case; split_and!;
  unfold picked_row, assign_transfer; repeat case_match; done.
Qed.

(** A transfer the queue moves stays with its team. *)
Lemma row_moved_team t t' : row_moved t t' -> tr_TeamID t' = tr_TeamID t.
Proof. destruct 1; unfold picked_row; repeat case_match; done. Qed.

Lemma mirror_wf t d : wf_keys d -> wf_keys (mirror_effect t d).
Proof.
intros [Hc Ht Hct]. unfold mirror_effect, mirror_updates.
repeat case_match; split; try done; simpl; apply (keyed_update cv_ID); done.
Qed.

Lemma own_wf user c d : wf_keys d -> wf_keys (own_effect user c d).
Proof. intros [Hc Ht Hct]. split; try done. simpl. by apply (keyed_update ct_ID). Qed.

Lemma rows_step_keyed rows rows' : rows_step rows rows' -> keyed tr_ID rows -> keyed tr_ID rows'.
Proof.
intros Hs Hk k t' Ht'. specialize (Hs k). destruct (rows !! k) as [t|] eqn:E; [|congruence].
destruct Hs as (t'' & Ht'' & Hstep). simplify_eq.
destruct (row_step_case _ _ Hstep) as [(-> & _) _]. by apply Hk.
Qed.

Lemma wf_set_transfers d rows : wf_keys d -> keyed tr_ID rows -> wf_keys (set_db_transfers rows d).
Proof. by intros [] ?; split. Qed.

Lemma transfer_step_wf d d' : wf_keys d -> transfer_step d d' -> wf_keys d'.
Proof.
intros Hwf Hs. pose proof (rows_step_keyed _ _ (transfer_step_rows _ _ Hwf Hs) (wf_tr _ Hwf)) as Hk.
destruct Hs as [pin c w row w' <- Hr|copy w u w' <- Hr|org id by_ w out w' <- Hr
  |org id w u w' <- Hr|org contact agent team w u w' <- Hr].
- apply pick_tx_ok in Hr as (t & _ & _ & _ & -> & E & _); [|done].
  rewrite E in *. rewrite pick_effect_transfers in Hk. unfold pick_effect in *.
  case_match; [apply own_wf|]; apply mirror_wf, wf_set_transfers; done.
- apply return_tx_ok in Hr. rewrite Hr in *. unfold return_effect in *.
  rewrite mirror_transfers in Hk. by apply mirror_wf, wf_set_transfers.
- apply Resume_ok in Hr as [->|(t & _ & _ & _ & _ & _ & E)]; [done| |done].
  rewrite E in *. rewrite save_mirror_transfers in Hk. by apply mirror_wf, wf_set_transfers.
- apply Expire_ok in Hr as [->|(t & _ & _ & _ & E)]; [done| |done].
  rewrite E in *. unfold expire_effect in *. rewrite mirror_transfers in Hk.
  by apply mirror_wf, wf_set_transfers.
- apply AssignActiveTx_ok in Hr as [_ [[-> _]|(t & now & _ & _ & E)]]; [done| |exact (wf_tr _ Hwf)].
  rewrite E in *. by apply wf_set_transfers.
Qed.

(** ** The mirror *)

(** The index [idx_agent_transfers_one_active]. *)
Definition one_active (d : Tables) : Prop :=
forall k t k' t', db_transfers d !! k = Some t -> db_transfers d !! k' = Some t' ->
  active_for (tr_OrganizationID t) (tr_ContactID t) t' = true -> is_active_transfer t = true -> k = k'.

(** The live conversation shows what the active transfer says. *)
Definition shows (t : AgentTransfer) (c : Conversation) : Prop :=
cv_AssigneeID c = tr_AgentID t /\ cv_TeamID c = tr_TeamID t /\
(tr_AgentID t <> None -> cv_Handling c = HandlingHuman).

Definition mirrored_but (out : AgentTransfer -> Prop) (d : Tables) : Prop :=
forall k t j c, db_transfers d !! k = Some t -> is_active_transfer t = true -> ~ out t ->
  db_conversations d !! j = Some c ->
  live_conversation (tr_OrganizationID t) (tr_ContactID t) c = true -> shows t c.

Definition mirrored : Tables -> Prop := mirrored_but (fun _ => False).

Definition same_contact (t t' : AgentTransfer) : Prop :=
tr_OrganizationID t' = tr_OrganizationID t /\ tr_ContactID t' = tr_ContactID t.

(** An update of conversations that keeps whose they are and whether they live. *)
Lemma live_apply org contact us c :
(forall c, (cv_OrganizationID (apply_updates us c), cv_ContactID (apply_updates us c),
            cv_Status (apply_updates us c), cv_DeletedAt (apply_updates us c)) =
           (cv_OrganizationID c, cv_ContactID c, cv_Status c, cv_DeletedAt c)) ->
live_conversation org contact (apply_updates us c) = live_conversation org contact c.
Proof. intros Hus. specialize (Hus c). unfold live_conversation. by injection Hus as -> -> -> ->. Qed.

Lemma live_two org contact org' contact' c :
live_conversation org contact c = true -> live_conversation org' contact' c = true ->
org' = org /\ contact' = contact.
Proof.
unfold live_conversation. rewrite !andb_true_iff, !N.eqb_eq. intros (((<- & <-) & _) & _) (((<- & <-) & _) & _). done.
Qed.

(** Mirroring the contact's active transfer restores the mirror. *)
Lemma mirror_restores d t k :
one_active d -> db_transfers d !! k = Some t -> is_active_transfer t = true ->
mirrored_but (same_contact t) d -> mirrored (mirror_effect t d).
Proof.
intros Hone Hk Hact Hm. unfold mirror_effect.
assert (tr_Status t = TransferStatusActive) as ->
  by (unfold is_active_transfer in Hact; breflect; done).
simpl. intros k' t' j c' Hk' Hact' _ Hc' Hlive. simpl in *.
rewrite update_where_lookup in Hc'. destruct (db_conversations d !! j) as [c|] eqn:Hc; [|done].
simpl in Hc'. simplify_eq.
destruct (live_conversation (tr_OrganizationID t) (tr_ContactID t) c) eqn:Hl.
- rewrite live_apply in Hlive by (intros; unfold mirror_updates; case_match; done).
  destruct (live_two _ _ _ _ _ Hl Hlive) as [Ho Hct].
  assert (k = k') as <-.
  { apply (Hone k t k' t'); try done. unfold active_for. by rewrite Ho, Hct, !N.eqb_refl, Hact'. }
  simplify_eq. unfold shows, mirror_updates, is_some.
  destruct (tr_AgentID t); simpl; split_and!; done.
- apply (Hm k' t' j c); try done. intros [Ho Hct]. by rewrite Ho, Hct, Hl in Hlive.
Qed.

(** Ending a transfer keeps the mirror of the others. *)
Lemma mirror_ends d t :
tr_Status t <> TransferStatusActive ->
(forall k t', db_transfers d !! k = Some t' -> is_active_transfer t' = true -> ~ same_contact t t') ->
mirrored d -> mirrored (mirror_effect t d).
Proof.
intros Hst Hno Hm. unfold mirror_effect. rewrite bool_decide_eq_false_2 by done.
destruct (tr_AgentID t) as [a|]; [|done].
intros k' t' j c' Hk' Hact' _ Hc' Hlive. simpl in *.
rewrite update_where_lookup in Hc'. destruct (db_conversations d !! j) as [c|] eqn:Hc; [|done].
simpl in Hc'. simplify_eq. destruct (_ && _)%bool eqn:Hl.
- apply andb_true_iff in Hl as [Hl _].
  change (set_cv_AssigneeID None c) with (apply_updates [set_cv_AssigneeID None] c) in Hlive.
  rewrite live_apply in Hlive by done.
  destruct (live_two _ _ _ _ _ Hl Hlive). by destruct (Hno k' t').
- apply (Hm k' t' j c); tauto.
Qed.

(** A row of an indexed table changed without becoming active keeps the index. *)
Lemma one_active_step d rows :
one_active d -> rows_step (db_transfers d) rows ->
one_active (set_db_transfers rows d).
Proof.
intros Hone Hs k t' k2 t2' Hk Hk2 Hact2 Hact. simpl in *.
pose proof (Hs k) as H1. pose proof (Hs k2) as H2.
destruct (db_transfers d !! k) as [t|] eqn:E1; [|congruence].
destruct (db_transfers d !! k2) as [t2|] eqn:E2; [|congruence].
destruct H1 as (x & Hx & R1). destruct H2 as (x2 & Hx2 & R2). simplify_eq.
destruct (row_step_case _ _ R1) as [(_ & Ho1 & Hc1 & _) A1].
destruct (row_step_case _ _ R2) as [(_ & Ho2 & Hc2 & _) A2].
apply (Hone k t k2 t2 E1 E2).
- unfold active_for in *. rewrite Ho1, Hc1, Ho2, Hc2 in Hact2.
  apply andb_true_iff in Hact2 as [-> Hact2]. destruct A2 as [->|]; done.
- by destruct A1 as [->|].
Qed.

(** The queue as its users see it: the tables, and the copies of rows that
    running calls of [ReturnToQueue] have read and not yet worked off. *)
Definition QueueState : Type := Tables * list AgentTransfer.

(** One transaction of the queue, committed or not, or the unlocked read of a
    [ReturnToQueue]. The candidate of a pick is whatever its caller read
    earlier, and so is the copy a return works from: the row may have been
    picked, returned, resumed or expired since. *)
Inductive queue_step : QueueState -> QueueState -> Prop :=
| queue_pick pin candidate w r w' copies :
  pick_tx pin candidate w = (r, w') -> queue_step (w_db w, copies) (w_db w', copies)
| queue_read orgID userID w held w' copies :
  held_transfers orgID userID w = (Ok held, w') -> queue_step (w_db w, copies) (w_db w', copies ++ held)
| queue_return t w r w' copies :
  t ∈ copies -> return_tx t w = (r, w') -> queue_step (w_db w, copies) (w_db w', copies)
| queue_resume org id by_ w r w' copies :
  Resume org id by_ w = (r, w') -> queue_step (w_db w, copies) (w_db w', copies)
| queue_expire org id w r w' copies :
  Expire org id w = (r, w') -> queue_step (w_db w, copies) (w_db w', copies).

(** What stays true of a copy however stale it is: its row is still filed
    under its key, for the same contact and team, and no other transfer of
    that contact is active. *)
Record copy_ok (d : Tables) (copy : AgentTransfer) : Prop := {
  copy_active : tr_Status copy = TransferStatusActive;
  copy_row : exists t, db_transfers d !! tr_ID copy = Some t /\ tr_ID t = tr_ID copy /\
    same_contact t copy /\ tr_TeamID t = tr_TeamID copy;
  copy_alone : forall k t, db_transfers d !! k = Some t -> is_active_transfer t = true ->
    same_contact t copy -> k = tr_ID copy
}.

Lemma one_active_transfers d d' :
db_transfers d' = db_transfers d -> one_active d -> one_active d'.
Proof. unfold one_active. by intros ->. Qed.

Lemma transfer_step_one d d' : wf_keys d -> one_active d -> transfer_step d d' -> one_active d'.
Proof.
intros Hwf Hone Hs.
apply (one_active_transfers (set_db_transfers (db_transfers d') d)); [done|].
by apply one_active_step; [|apply transfer_step_rows].
Qed.

(** Changing the rows of one contact leaves the mirror of the others. *)
Lemma mirrored_but_insert d t t' k :
db_transfers d !! k = Some t -> same_contact t t' -> mirrored d ->
mirrored_but (same_contact t') (set_db_transfers (<[k := t']> (db_transfers d)) d).
Proof.
intros Hk [Ho Hc] Hm k2 t2 j c Hk2 Hact2 Hout Hj Hlive. simpl in *.
destruct (decide (k2 = k)) as [->|].
- rewrite lookup_insert_eq in Hk2. simplify_eq. destruct Hout. done.
- rewrite lookup_insert_ne in Hk2 by done. apply (Hm k2 t2 j c); tauto.
Qed.

Lemma update_active_key rows t us :
keyed tr_ID rows -> rows !! tr_ID t = Some t -> is_active_transfer t = true ->
update_where (fun r => N.eqb (tr_ID r) (tr_ID t) && is_active_transfer r)%bool us rows =
<[tr_ID t := apply_updates us t]> rows.
Proof.
  intros Hk Ht Hact. apply (update_where_key tr_ID); [done| |done|by rewrite N.eqb_refl, Hact].
  intros r [?%N.eqb_eq _]%andb_true_iff. done.
Qed.

(** Closing the contact's one active transfer. *)
Lemma mirrored_close d k t t' :
one_active d -> mirrored d -> db_transfers d !! k = Some t -> is_active_transfer t = true ->
same_contact t t' -> tr_Status t' <> TransferStatusActive ->
mirrored (mirror_effect t' (set_db_transfers (<[k := t']> (db_transfers d)) d)).
Proof.
intros Hone Hm Hk Hact [Ho Hc] Hst.
assert (forall k2 t2, (<[k := t']> (db_transfers d)) !! k2 = Some t2 ->
          is_active_transfer t2 = true -> ~ same_contact t' t2) as Hno.
{ intros k2 t2 Hk2 Hact2 [Ho2 Hc2]. destruct (decide (k2 = k)) as [->|].
  - rewrite lookup_insert_eq in Hk2. simplify_eq. unfold is_active_transfer in Hact2.
    breflect. done.
  - rewrite lookup_insert_ne in Hk2 by done. assert (k = k2) as <-; [|done].
    apply (Hone k t k2 t2); try done. unfold active_for.
    by rewrite Ho2, Hc2, Ho, Hc, !N.eqb_refl, Hact2. }
apply mirror_ends; [done|done|]. intros k2 t2 j c Hk2 Hact2 _ Hj Hlive. simpl in *.
assert (k2 <> k) as Hne.
{ intros ->. rewrite lookup_insert_eq in Hk2. simplify_eq.
  unfold is_active_transfer in Hact2. breflect. done. }
rewrite lookup_insert_ne in Hk2 by done. apply (Hm k2 t2 j c); tauto.
Qed.

(** One committed pick, resume or expiry keeps the mirror. *)
Lemma pick_mirrored pin c w row w' :
wf_keys (w_db w) -> one_active (w_db w) -> mirrored (w_db w) ->
pick_tx pin c w = (Ok row, w') -> mirrored (w_db w').
Proof.
intros Hwf Hone Hm Hr. pose proof (wf_tr _ Hwf : keyed tr_ID (db_transfers (w_db w))) as Hkeyed.
pose proof (transfer_step_one _ _ Hwf Hone (step_pick _ _ _ _ _ _ eq_refl Hr)) as Hone'.
apply pick_tx_ok in Hr as (t & Hk & Hact & Hag & -> & E & _); [|done]. rewrite E in *.
set (row := picked_row _ _ t) in *.
assert (mirrored (mirror_effect row (save_effect row (w_db w)))) as Hmir.
{ destruct (picked_row_fields (pi_UserID pin) (w_now w) t) as (Hid & Hst & Ho & Hc & _).
  apply (mirror_restores _ _ (tr_ID row)).
  - eapply one_active_transfers, Hone'. by rewrite pick_effect_transfers.
  - apply lookup_insert_eq.
  - unfold is_active_transfer in *. subst row. by unfold picked_row; case_match.
  - subst row. rewrite <- (wf_tr _ Hwf _ _ Hk), <- Hid in Hk. by eapply mirrored_but_insert. }
unfold pick_effect. case_match; done.
Qed.

Lemma Resume_mirrored org id by_ w out w' :
wf_keys (w_db w) -> one_active (w_db w) -> mirrored (w_db w) ->
Resume org id by_ w = (Ok out, w') -> mirrored (w_db w').
Proof.
intros Hwf Hone Hm Hr.
apply Resume_ok in Hr as [->|(t & Hk & Hact & Hid & Hl & _ & E)]; [done| |done]. rewrite E in *.
unfold save_effect. simpl. rewrite Hid.
apply (mirrored_close _ _ t); auto using active_of. done.
Qed.

Lemma Expire_mirrored org id w u w' :
wf_keys (w_db w) -> one_active (w_db w) -> mirrored (w_db w) ->
Expire org id w = (Ok u, w') -> mirrored (w_db w').
Proof.
intros Hwf Hone Hm Hr. pose proof (wf_tr _ Hwf : keyed tr_ID (db_transfers (w_db w))) as Hkeyed.
apply Expire_ok in Hr as [->|(t & Hk & Hid & Hact & E)]; [done| |done]. rewrite E in *.
rewrite <- Hid in Hk. unfold expire_effect.
rewrite update_active_key by done. by apply (mirrored_close _ _ t).
Qed.

(** A return from a copy, the row being as it may by now be. *)
Lemma return_mirrored copy w u w' :
wf_keys (w_db w) -> one_active (w_db w) -> mirrored (w_db w) -> copy_ok (w_db w) copy ->
return_tx copy w = (Ok u, w') -> mirrored (w_db w').
Proof.
intros Hwf Hone Hm [Hst (t & Hk & Hid & [Ho Hc] & Hteam) Halone] Hr.
pose proof (wf_tr _ Hwf : keyed tr_ID (db_transfers (w_db w))) as Hkeyed.
pose proof (transfer_step_one _ _ Hwf Hone (step_return _ _ _ _ _ eq_refl Hr)) as Hone'.
apply return_tx_ok in Hr. rewrite Hr in *. unfold return_effect in *.
destruct (is_active_transfer t) eqn:Hact.
- rewrite <- Hid in Hk, Hone' |- *. rewrite update_active_key in Hone' |- * by done. simpl in *.
  assert (tr_Status t = TransferStatusActive) as Hstt by (unfold is_active_transfer in Hact; breflect; done).
  replace (mirror_effect (set_tr_AgentID None copy)) with (mirror_effect (set_tr_PickedUpAt None (set_tr_AgentID None t)))
    in Hone' |- * by (unfold mirror_effect, mirror_updates; simpl; by rewrite Hst, Hstt, Ho, Hc, Hteam).
  apply (mirror_restores _ (set_tr_PickedUpAt None (set_tr_AgentID None t)) (tr_ID t)).
  + eapply one_active_transfers, Hone'. by rewrite mirror_transfers.
  + apply lookup_insert_eq.
  + done.
  + by apply (mirrored_but_insert _ t).
- rewrite update_where_none.
  2: { intros k r Hr'. destruct (N.eqb_spec (tr_ID r) (tr_ID copy)) as [Hra|]; [|done].
    rewrite <- (wf_tr _ Hwf _ _ Hr'), Hra, Hk in Hr'. by simplify_eq. }
  unfold mirror_effect. simpl. rewrite bool_decide_eq_true_2 by done.
  intros k r j c' Hr' Hract _ Hc' Hlive. simpl in *.
  rewrite update_where_lookup in Hc'. destruct (db_conversations (w_db w) !! j) as [c0|] eqn:Hj; [|done].
  simpl in Hc'. simplify_eq. destruct (live_conversation (tr_OrganizationID copy) (tr_ContactID copy) c0) eqn:Hl.
  + rewrite live_apply in Hlive by (intros; unfold mirror_updates; simpl; done).
    destruct (live_two _ _ _ _ _ Hl Hlive) as [? ?].
    assert (k = tr_ID copy) as -> by (by apply (Halone k r)). congruence.
  + apply (Hm k r j c0); tauto.
Qed.

(** The queue's transactions keep every copy sound. *)
Lemma copy_ok_moved d d' copy :
rows_by row_moved (db_transfers d) (db_transfers d') -> copy_ok d copy -> copy_ok d' copy.
Proof.
intros Hs [Hst (t & Hk & Hid & [Ho Hc] & Hteam) Halone]. split; [done| |].
- pose proof (Hs (tr_ID copy)) as H1. rewrite Hk in H1. destruct H1 as (t' & Ht' & Hmv).
  pose proof (row_moved_team _ _ Hmv).
  destruct (row_step_case _ _ (row_queue _ _ Hmv)) as [(Hi & Ho' & Hc' & _) _].
  exists t'. unfold same_contact. split_and!; congruence.
- intros k r' Hr' Hact [Ho' Hc']. pose proof (Hs k) as H1.
  destruct (db_transfers d !! k) as [r|] eqn:Hr; [|congruence].
  destruct H1 as (r'' & E & Hmv). simplify_eq.
  destruct (row_step_case _ _ (row_queue _ _ Hmv)) as [(_ & Ho2 & Hc2 & _) Hor].
  apply (Halone k r Hr); [by destruct Hor as [->|]|]. split; congruence.
Qed.

Lemma find_rows_keys p limit (rows : gmap N AgentTransfer) :
keyed tr_ID rows -> NoDup (tr_ID <$> find_rows p limit rows) /\
forall t, t ∈ find_rows p limit rows -> rows !! tr_ID t = Some t /\ p t = true.
Proof.
intros Hkeyed. split.
- unfold find_rows. pose proof (find_nodup _ (fun _ => p) limit rows) as Hnd.
  pose proof (find_sound _ (fun _ => p) limit rows) as Hs.
  induction (sql_find _ _ _) as [|k ks IH]; [constructor|].
  apply NoDup_cons in Hnd as [Hnin Hnd].
  assert (NoDup (tr_ID <$> omap (fun k => rows !! k) ks)) as IH'.
  { apply IH; [done|]. intros k' Hk'. apply Hs. by right. }
  simpl. destruct (Hs k) as (r & Hr & _); [by left|]. rewrite Hr. simpl. apply NoDup_cons.
  split; [|done]. intros Hin. apply list_elem_of_fmap in Hin as (r' & Hid & Hin).
  apply list_elem_of_omap in Hin as (k' & Hk' & Hr').
  rewrite (Hkeyed _ _ Hr), (Hkeyed _ _ Hr') in Hid. by subst.
- intros t Ht. apply find_rows_elem in Ht as (k & Hk & Hp). by rewrite (Hkeyed _ _ Hk).
Qed.

(** Fresh copies of active rows are sound. *)
Lemma copy_ok_fresh d p t :
wf_keys d -> one_active d -> (forall t, p t = true -> is_active_transfer t = true) ->
t ∈ find_rows p None (db_transfers d) -> copy_ok d t.
Proof.
intros Hwf Hone Hp Ht. destruct (find_rows_keys p None _ (wf_tr _ Hwf)) as [_ Hin].
destruct (Hin t Ht) as [Hk Hpt]. apply Hp in Hpt. split.
- unfold is_active_transfer in Hpt. breflect. done.
- exists t. by unfold same_contact.
- intros k r Hr Hact [Ho Hc]. apply (Hone k r (tr_ID t) t Hr Hk); [|done].
  unfold active_for. by rewrite Ho, Hc, !N.eqb_refl, Hpt.
Qed.

(** What the queue keeps: the keys, the index, the mirror and the copies. *)
Record queue_ok (s : QueueState) : Prop := {
  queue_wf : wf_keys s.1;
  queue_one : one_active s.1;
  queue_mirror : mirrored s.1;
  queue_copies : forall t, t ∈ s.2 -> copy_ok s.1 t
}.

Lemma one_active_moved d d' :
rows_by row_moved (db_transfers d) (db_transfers d') -> one_active d -> one_active d'.
Proof.
intros Hs Hone. apply (one_active_transfers (set_db_transfers (db_transfers d') d)); [done|].
by apply one_active_step, rows_moved_step.
Qed.

(** A transaction that moved rows as the queue does and kept the keys and the
    mirror kept everything. *)
Lemma queue_ok_moved d d' copies :
rows_by row_moved (db_transfers d) (db_transfers d') -> wf_keys d' -> mirrored d' ->
queue_ok (d, copies) -> queue_ok (d', copies).
Proof.
intros Hs Hwf' Hm' [Hwf Hone Hm Hc]. split; simpl in *; eauto using one_active_moved, copy_ok_moved.
Qed.

Lemma queue_step_ok s s' : queue_step s s' -> queue_ok s -> queue_ok s'.
Proof.
intros Hs Hok. pose proof Hok as [Hwf Hone Hm Hcp].
destruct Hs as [pin c w r w' copies Hr|org user w held w' copies Hr|t w r w' copies Hin Hr
  |org id by_ w r w' copies Hr|org id w r w' copies Hr]; simpl in *.
- apply (queue_ok_moved (w_db w)); [by eapply pick_rows| | |done];
    (destruct r as [row|e]; [|by rewrite (pick_tx_fail_db _ _ _ _ _ Hr)]).
  + eapply transfer_step_wf, step_pick; done.
  + by eapply pick_mirrored.
- pose proof Hr as Hdb%query_db. apply query_ok_inv in Hr as ([= <-] & _). rewrite Hdb.
  split; [done..|]. simpl. intros t [Ht|Ht]%elem_of_app; [by apply Hcp|].
  eapply copy_ok_fresh; [done|done| |done]. unfold held_by. intros r Hr. by breflect.
- apply (queue_ok_moved (w_db w)); [by eapply return_rows| | |done];
    (destruct r as [u|e]; [|by rewrite (transaction_err _ _ _ _ Hr)]).
  + eapply transfer_step_wf, step_return; done.
  + eapply return_mirrored; eauto.
- apply (queue_ok_moved (w_db w)); [by eapply resume_rows| | |done];
    (destruct r as [out|e]; [|by apply Resume_answers in Hr]).
  + eapply transfer_step_wf, step_resume; done.
  + by eapply Resume_mirrored.
- apply (queue_ok_moved (w_db w)); [by eapply expire_rows| | |done];
    (destruct r as [u|e]; [|by rewrite (transaction_err _ _ _ _ Hr)]).
  + eapply transfer_step_wf, step_expire; done.
  + by eapply Expire_mirrored.
Qed.

Lemma queue_steps_ok s s' : rtc queue_step s s' -> queue_ok s -> queue_ok s'.
Proof. induction 1; eauto using queue_step_ok. Qed.

Lemma nextCandidate_quiet pin skip w t :
quiet w -> first_row (pickable pin skip) by_transferred_at (db_transfers (w_db w)) = Ok t ->
nextCandidate pin skip w = (Ok t, after_stmt [] (w_db w) w).
Proof. intros Hq E. unfold nextCandidate, bind, try. by erewrite query_quiet. Qed.

Lemma pick_effect_conversations pin row d :
tr_Status row = TransferStatusActive ->
db_conversations (pick_effect pin row d) =
update_where (live_conversation (tr_OrganizationID row) (tr_ContactID row)) (mirror_updates row)
  (db_conversations d).
Proof. intros Hst. unfold pick_effect, mirror_effect. rewrite Hst. by case_match. Qed.

Lemma pick_effect_contacts pin row d :
db_contacts (pick_effect pin row d) =
if pi_AssignContactOwner pin
then update_where (fun c => N.eqb (ct_ID c) (tr_ContactID row) && is_none (ct_AssignedUserID c) && live (ct_DeletedAt c))
       [set_ct_AssignedUserID (Some (pi_UserID pin))] (db_contacts d)
else db_contacts d.
Proof. unfold pick_effect, mirror_effect. repeat case_match; done. Qed.

(** What a returned row looks like. *)
Definition returned_row (t : AgentTransfer) : AgentTransfer :=
set_tr_PickedUpAt None (set_tr_AgentID None t).

Lemma return_tx_quiet copy w :
quiet w -> exists w', return_tx copy w = (Ok tt, w') /\ quiet w'.
Proof.
intros Hq. pose proof (quiet_tx_start w Hq) as Hq0. unfold return_tx.
match goal with |- exists w', transaction ?b w = _ /\ _ =>
  assert (exists w1, b (tx_start w) = (Ok tt, w1) /\ quiet w1) as (w1 & Hb & Hq1) end.
- erewrite bind_run by (by apply stmt_quiet).
  set (w1 := after_stmt _ _ (tx_start w)). assert (quiet w1) by by apply quiet_after_stmt.
  erewrite bind_run by (by apply stmt_quiet).
  set (w2 := after_stmt _ _ w1). assert (quiet w2) by by apply quiet_after_stmt.
  by apply MirrorToConversation_quiet.
- eexists. split; [by apply transaction_quiet|by apply quiet_tx_commit].
Qed.

(** The rows after a batch of returns. *)
Lemma return_each_quiet others l w :
(forall i d, others i d = d) -> wf_keys (w_db w) -> quiet w ->
NoDup (tr_ID <$> l) ->
(forall t, t ∈ l -> db_transfers (w_db w) !! tr_ID t = Some t /\ is_active_transfer t = true) ->
exists w', return_each others l w = (Ok (returned_row <$> l), w') /\
  db_contacts (w_db w') = db_contacts (w_db w) /\
  (forall k, db_transfers (w_db w') !! k =
     (fun t => if bool_decide (k ∈ tr_ID <$> l) then returned_row t else t) <$> db_transfers (w_db w) !! k).
Proof.
intros Hoth. revert w. induction l as [|t l IH]; intros w Hwf Hq Hnd Hl.
- exists w. split_and!; [done|done|]. intros k. simpl. by destruct (db_transfers (w_db w) !! k).
- simpl. apply NoDup_cons in Hnd as [Hnin Hnd].
  assert (interleave (others (length l)) w = (Ok tt, w)) as Hint.
  { unfold interleave. rewrite Hoth. by destruct w. }
  destruct (return_tx_quiet t w Hq) as (w1 & Hret & Hq1).
  pose proof (return_tx_ok _ _ _ _ Hret) as Hdb.
  destruct (Hl t) as [Ht Hact]; [by left|].
  pose proof (wf_tr _ Hwf : keyed tr_ID (db_transfers (w_db w))) as Hkeyed.
  unfold return_effect in Hdb. rewrite update_active_key in Hdb by done.
  assert (db_transfers (w_db w1) = <[tr_ID t := returned_row t]> (db_transfers (w_db w))) as Hrows
    by by rewrite Hdb, mirror_transfers.
  destruct (IH w1) as (w' & Hrun & Hct & Hk).
  + eapply transfer_step_wf; [exact Hwf|]. by eapply step_return.
  + done.
  + done.
  + intros t' Ht'. rewrite Hrows, lookup_insert_ne; [apply Hl; by right|].
    intros E. apply Hnin. rewrite E. by apply list_elem_of_fmap_2.
  + exists w'. split_and!.
    * rewrite (bind_run _ _ _ _ _ Hint). unfold bind at 1, try. rewrite Hret.
      by rewrite (bind_run _ _ _ _ _ Hrun).
    * rewrite Hct, Hdb. unfold mirror_effect. by repeat case_match.
    * intros k. rewrite Hk, Hrows. destruct (decide (k = tr_ID t)) as [->|Hne].
      -- rewrite lookup_insert_eq, Ht. simpl.
         rewrite bool_decide_eq_false_2 by done. rewrite bool_decide_eq_true_2 by by left. done.
      -- rewrite lookup_insert_ne by done. destruct (db_transfers (w_db w) !! k); [|done]. simpl.
         erewrite (bool_decide_ext (k ∈ _ :: _)); [done|]. rewrite elem_of_cons.
           split; [by intros [?|?]|by right].
Qed.

(** ** Properties *)

(** C1: With a healthy database and nobody else at the queue, [PickNext] hands
  the picker the longest-waiting transfer of the queues they may draw from,
  and the tables change by exactly that pick; it answers [ErrNoneQueued],
  changing nothing, exactly when no such transfer waits. *)
Theorem PickNext_takes_the_oldest others pin w :
wf_keys (w_db w) -> quiet w -> (forall i d, others i d = d) ->
(exists t w', db_transfers (w_db w) !! tr_ID t = Some t /\ pickable pin [] t = true /\
   (forall k t', db_transfers (w_db w) !! k = Some t' -> pickable pin [] t' = true ->
      tr_TransferredAt t <= tr_TransferredAt t') /\
   let row := picked_row (pi_UserID pin) (w_now w) t in
   PickNext others pin w = (Ok row, w') /\ w_db w' = pick_effect pin row (w_db w)) \/
((forall k t, db_transfers (w_db w) !! k = Some t -> pickable pin [] t = false) /\
 exists w', PickNext others pin w = (Err ErrNoneQueued, w') /\ w_db w' = w_db w).
Proof.
intros Hwf Hq Hoth. unfold PickNext, pickAttempts, pick_loop at 1 2.
destruct (first_row (pickable pin []) by_transferred_at (db_transfers (w_db w))) as [t|e] eqn:E.
- left. pose proof (nextCandidate_quiet pin [] w t Hq E) as Hnext.
  pose proof (nextCandidate_ok _ _ _ _ _ Hnext) as ((k & Hk) & Hp & _ & _ & Hleast).
  rewrite <- (wf_tr _ Hwf _ _ Hk) in Hk. clear k.
  assert (is_active_transfer t = true /\ tr_AgentID t = None) as [Hact Hag].
  { unfold pickable, queued in Hp. breflect. by rewrite is_none_true in *. }
  set (w1 := after_stmt [] (w_db w) w) in *. assert (quiet w1) as Hq1 by by apply quiet_after_stmt.
  assert (interleave (others 2%nat) w1 = (Ok tt, w1)) as Hint.
  { unfold interleave. by rewrite Hoth. }
  destruct (pick_tx_quiet pin t w1) as (w2 & Hpick); [done..|].
  pose proof (pick_tx_ok _ _ w1 _ _ Hwf Hpick) as (t' & _ & _ & _ & _ & Hdb & _).
  exists t, w2. split_and!; try done.
  rewrite (bind_run _ _ _ _ _ Hnext), (bind_run _ _ _ _ _ Hint). unfold try, bind. by rewrite Hpick.
- right. pose proof (first_row_err _ _ _ _ E) as [-> Hno]. split; [exact Hno|].
  eexists. unfold nextCandidate, bind, try.
  erewrite query_quiet_err by done. split; done.
Qed.

(** C2: Whatever other agents commit in between and whatever fails, a transfer
  [PickNext] returns was still waiting when the pick committed: it becomes
  this agent's, nobody else's transfer changes, the contact's live
  conversation shows the agent and the team, and an owned contact keeps its
  owner. *)
Theorem PickNext_never_steals others pin w row w' :
(forall i d, wf_keys d -> wf_keys (others i d)) -> wf_keys (w_db w) ->
PickNext others pin w = (Ok row, w') ->
exists ixs t, let d := foldr others (w_db w) ixs in
  db_transfers d !! tr_ID row = Some t /\ is_active_transfer t = true /\ tr_AgentID t = None /\
  tr_AgentID row = Some (pi_UserID pin) /\ is_active_transfer row = true /\
  (forall k, k <> tr_ID row -> db_transfers (w_db w') !! k = db_transfers d !! k) /\
  (forall j c, db_conversations d !! j = Some c -> exists c', db_conversations (w_db w') !! j = Some c' /\
     if live_conversation (tr_OrganizationID t) (tr_ContactID t) c
     then c' = set_cv_Handling HandlingHuman (set_cv_TeamID (tr_TeamID t)
                 (set_cv_AssigneeID (Some (pi_UserID pin)) c))
     else c' = c) /\
  (forall j c owner, db_contacts d !! j = Some c -> ct_AssignedUserID c = Some owner ->
     db_contacts (w_db w') !! j = Some c).
Proof.
intros Hoth Hwf Hr. apply pick_loop_ok in Hr as (ixs & t & c & now & Hwf' & _ & _ & Hk & Hact & Hag & Hrow & Hdb);
  [|done|done].
destruct (picked_row_fields (pi_UserID pin) now t) as (Hid & Hst & Ho & Hc & Hteam & Hagent & _).
rewrite <- Hrow in *. exists ixs, t. rewrite Hid, Hdb, pick_effect_transfers. split_and!; try done.
- unfold is_active_transfer in *. rewrite Hst. subst row. by unfold picked_row; case_match.
- intros k Hne. rewrite lookup_insert_ne; congruence.
- intros j cv Hj. rewrite pick_effect_conversations by (rewrite Hst; unfold is_active_transfer in Hact; breflect; done).
  rewrite update_where_lookup, Hj. simpl. rewrite Ho, Hc. eexists. split; [done|].
  case_match; [|done]. unfold mirror_updates. by rewrite Hagent, Hteam.
- intros j ct owner Hj Hown. rewrite pick_effect_contacts. case_match; [|done].
  rewrite update_where_lookup, Hj. simpl. rewrite Hown. simpl. by rewrite andb_false_r.
Qed.

(** Under any sequence of transactions of the package, from stale reads or
  fresh ones, a transfer that is no longer active never changes again; an
  active one keeps its identity, its contact and its place in the queue; and
  no transfer appears or disappears. *)
Theorem transfers_lifecycle d d' :
wf_keys d -> rtc transfer_step d d' ->
wf_keys d' /\
forall k, match db_transfers d !! k with
  | None => db_transfers d' !! k = None
  | Some t => exists t', db_transfers d' !! k = Some t' /\ same_case t t' /\
      (is_active_transfer t = false -> t' = t)
  end.
Proof.
intros Hwf Hs. induction Hs as [d|d1 d2 d3 Hs _ IH].
- split; [done|]. intros k. destruct (db_transfers d !! k) as [t|]; [|done]. by exists t.
- destruct (IH (transfer_step_wf _ _ Hwf Hs)) as [Hwf3 IHrows]. split; [done|]. intros k.
  pose proof (transfer_step_rows _ _ Hwf Hs k) as H1. specialize (IHrows k).
  destruct (db_transfers d1 !! k) as [t|]; [|by rewrite H1 in IHrows].
  destruct H1 as (t2 & Ht2 & R). rewrite Ht2 in IHrows. destruct IHrows as (t3 & Ht3 & Hcase & Hcl).
  apply row_step_case in R as [Hcase' Hst]. exists t3. unfold same_case in *.
  split_and!; try (destruct_and!; congruence).
  intros Hna. destruct Hst as [->|?]; [by apply Hcl|congruence].
Qed.

(** C3: Start with at most one active transfer per contact, each shown by the
  contact's live conversation, and no call of [ReturnToQueue] under way. Let
  transfers be picked, returned, resumed and expired, by anyone and in any
  order, each transaction committing or failing; let a return work from the
  copy an earlier read of the rows an agent held gave it, however stale. Then there is still
  at most one active transfer per contact, and the contact's live
  conversation shows its agent and team, in human hands whenever it has an
  agent. (Creating transfers and moving them to another team or agent are
  other operations: [team_moved_meanwhile].) *)
Theorem queue_mirrors d d' copies :
wf_keys d -> one_active d -> mirrored d -> rtc queue_step (d, []) (d', copies) ->
one_active d' /\ mirrored d'.
Proof.
intros Hwf Hone Hm Hs. apply queue_steps_ok in Hs as [_ Hone' Hm' _]; [done|].
split; [done..|]. intros t Ht. by apply elem_of_nil in Ht.
Qed.

(** The steps are those of [ReturnToQueue]: whatever steps other connections
  take while it works off its list, the tables it leaves are reached by steps. *)
Definition by_steps (others : nat -> Tables -> Tables) : Prop :=
forall i d copies, exists more, rtc queue_step (d, copies) (others i d, copies ++ more).

Lemma return_each_steps others held w r w' copies :
by_steps others -> held ⊆ copies -> return_each others held w = (r, w') ->
exists more, rtc queue_step (w_db w, copies) (w_db w', copies ++ more).
Proof.
intros Hoth. revert w r copies. induction held as [|t rest IH]; intros w r copies Hall Hr.
{ injection Hr as <- <-. exists []. by rewrite app_nil_r. }
simpl in Hr. unfold bind at 1, interleave in Hr. cbn beta iota in Hr.
set (w1 := set_db _ w) in Hr. destruct (Hoth (length rest) (w_db w) copies) as [m1 Hm1].
unfold bind, try in Hr. destruct (return_tx t w1) as [r1 w2] eqn:Hrt.
assert (rtc queue_step (w_db w, copies) (w_db w2, copies ++ m1)) as Hs.
{ eapply rtc_r; [exact Hm1|]. apply (queue_return t w1 r1 w2); [|done].
  apply elem_of_app. left. apply Hall. by left. }
destruct (return_each others rest w2) as [r2 w3] eqn:Hre.
assert (w3 = w') as -> by (by destruct r2; injection Hr as _ ->).
destruct (IH w2 r2 (copies ++ m1)) as [m2 Hm2]; [|done|].
{ intros x Hx. apply elem_of_app. left. apply Hall. by right. }
exists (m1 ++ m2). rewrite app_assoc. by etrans.
Qed.

Lemma ReturnToQueue_steps others orgID userID w r w' copies :
by_steps others -> ReturnToQueue others orgID userID w = (r, w') ->
exists more, rtc queue_step (w_db w, copies) (w_db w', copies ++ more).
Proof.
intros Hoth Hr. unfold ReturnToQueue, bind in Hr.
destruct (held_transfers orgID userID w) as [[held|e] w1] eqn:Hq.
- destruct (return_each_steps others held w1 r w' (copies ++ held)) as [more Hm]; [done| |done|].
  { intros x Hx. apply elem_of_app. by right. }
  exists (held ++ more). rewrite app_assoc. eapply rtc_l; [by eapply queue_read|exact Hm].
- injection Hr as <- <-. apply query_db in Hq as ->. exists []. by rewrite app_nil_r.
Qed.

(** With a healthy database and nobody interfering, [ReturnToQueue] puts
  every active transfer the agent holds back into the queue, unpicked, and
  reports exactly those; every other transfer and every contact's owner stay
  as they were. *)
Theorem ReturnToQueue_clears_the_desk others orgID userID w :
(forall i d, others i d = d) -> wf_keys (w_db w) -> quiet w ->
exists out w', ReturnToQueue others orgID userID w = (Ok out, w') /\
  db_contacts (w_db w') = db_contacts (w_db w) /\
  (forall k, db_transfers (w_db w') !! k =
     (fun t => if held_by orgID userID t then returned_row t else t) <$> db_transfers (w_db w) !! k) /\
  (forall t, t ∈ out <-> exists k r, db_transfers (w_db w) !! k = Some r /\
     held_by orgID userID r = true /\ t = returned_row r).
Proof.
intros Hoth Hwf Hq. pose proof (wf_tr _ Hwf : keyed tr_ID (db_transfers (w_db w))) as Hkeyed.
set (l := find_rows (held_by orgID userID) None (db_transfers (w_db w))).
destruct (find_rows_keys (held_by orgID userID) None _ Hkeyed) as [Hnd Hin]. fold l in Hnd, Hin.
set (w1 := after_stmt [] (w_db w) w).
destruct (return_each_quiet others l w1) as (w' & Hrun & Hct & Hk);
  [done|done|by apply quiet_after_stmt|done| |].
{ intros t Ht. destruct (Hin t Ht) as [? Hp]. split; [done|]. unfold held_by in Hp. by breflect. }
exists (returned_row <$> l), w'. split_and!; [|done| |].
- unfold ReturnToQueue. erewrite bind_run by (by apply query_quiet). done.
- intros k. rewrite Hk. simpl. destruct (db_transfers (w_db w) !! k) as [t|] eqn:E; [|done]. simpl.
  f_equal. destruct (held_by orgID userID t) eqn:Hh.
  + rewrite bool_decide_eq_true_2; [done|]. rewrite <- (Hkeyed _ _ E).
    apply list_elem_of_fmap_2. by eapply find_rows_complete.
  + rewrite bool_decide_eq_false_2; [done|]. intros Hk'.
    apply list_elem_of_fmap in Hk' as (t' & -> & Ht'). apply Hin in Ht' as [Ht' Hp]. congruence.
- intros t. rewrite list_elem_of_fmap. split.
  + intros (r & -> & Hr). apply Hin in Hr as [? ?]. eauto.
  + intros (k & r & Hr & Hp & ->). exists r. split; [done|]. by eapply find_rows_complete.
Qed.

End Steps.

(** ** Instances *)

Definition sample_pick : PickInput := {|
  pi_OrgID := 1; pi_UserID := 42; pi_TeamID := None; pi_GeneralOnly := false;
  pi_AllowedTeamIDs := [50%N]; pi_Unrestricted := false; pi_AssignContactOwner := true |}.

Definition quiet_queue : world Tables := world_on sample_queue 1000 [].

Lemma sample_queue_wf : wf_keys sample_queue.
Proof. split; apply rows_of_keyed. Qed.

(** Transfer [31] has waited longest; its contact keeps its owner. *)
Lemma PickNext_takes_the_oldest_witness :
  (exists t w', pickable sample_pick [] t = true /\
     @PickNext sql_ref (fun _ d => d) sample_pick quiet_queue = (Ok (picked_row 42 1000 t), w')) /\
  fst (@PickNext sql_ref (fun _ d => d) sample_pick quiet_queue) =
    Ok (picked_row 42 1000 (sample_transfer 31 11 None (Some 50%N) 90)).
Proof.
  split; [|vm_compute; reflexivity].
  destruct (@PickNext_takes_the_oldest sql_ref _ (fun _ d => d) sample_pick quiet_queue
              sample_queue_wf (conj eq_refl eq_refl) (fun _ _ => eq_refl))
    as [(t & w' & _ & Hp & _ & Hr & _)|[Hno _]].
  - exists t, w'. split; [exact Hp|exact Hr].
  - specialize (Hno 31%N (sample_transfer 31 11 None (Some 50%N) 90) eq_refl). discriminate Hno.
Defined.

(** Agent [41] takes transfer [31] between the read and the lock of the first
    attempt: the pick settles for transfer [30]. *)
Definition rival (i : nat) (d : Tables) : Tables :=
  if Nat.eqb i 2 then set_db_transfers (alter (set_tr_AgentID (Some 41%N)) 31%N (db_transfers d)) d else d.

Lemma rival_wf i d : wf_keys d -> wf_keys (rival i d).
Proof.
  intros Hwf. unfold rival. case_match; [|done]. destruct Hwf as [Hc Ht Hct].
  split; try done. simpl. intros k t. destruct (decide (k = 31%N)) as [->|].
  - rewrite lookup_alter_eq. destruct (db_transfers d !! 31%N) eqn:E; [|done].
    simpl. intros [= <-]. exact (Ht _ _ E).
  - rewrite lookup_alter_ne by done. apply Ht.
Qed.

Lemma PickNext_never_steals_witness :
  exists row w', @PickNext sql_ref rival sample_pick quiet_queue = (Ok row, w') /\
    tr_ID row = 30%N /\ tr_AgentID row = Some 42%N.
Proof.
  destruct (@PickNext sql_ref rival sample_pick quiet_queue) as [[row|e] w'] eqn:E;
    [|vm_compute in E; discriminate E].
  destruct (@PickNext_never_steals sql_ref _ rival sample_pick quiet_queue row w'
              rival_wf sample_queue_wf E) as (ixs & t & _ & _ & _ & Hag & _).
  exists row, w'. split; [reflexivity|]. split; [|exact Hag].
  vm_compute in E. injection E as <- _. reflexivity.
Defined.

Lemma sample_pick_step :
  exists row w', @pick_tx sql_ref sample_pick (sample_transfer 30 10 None None 100) quiet_queue = (Ok row, w').
Proof. destruct (@pick_tx sql_ref _ _ _) as [[row|e] w'] eqn:E; [eauto|vm_compute in E; discriminate E]. Qed.

Lemma transfers_lifecycle_witness :
  exists d', rtc (@transfer_step sql_ref) sample_queue d' /\ wf_keys d' /\
    exists t', db_transfers d' !! 30%N = Some t'.
Proof.
  destruct sample_pick_step as (row & w' & E). exists (w_db w').
  assert (rtc (@transfer_step sql_ref) sample_queue (w_db w')) as Hs
    by (eapply rtc_once, step_pick; [|exact E]; reflexivity).
  destruct (@transfers_lifecycle sql_ref _ sample_queue (w_db w') sample_queue_wf Hs) as [Hwf Hk].
  split; [exact Hs|]. split; [exact Hwf|]. specialize (Hk 30%N).
  destruct Hk as (t' & Ht' & _). exists t'. exact Ht'.
Defined.

(** A finite check of the two hypotheses on the sample tables. *)
Lemma sample_queue_one_active : one_active sample_queue.
Proof.
  intros k t k' t' Hk Hk' Ha _.
  change (rows_of tr_ID sample_transfers !! k = Some t) in Hk.
  change (rows_of tr_ID sample_transfers !! k' = Some t') in Hk'.
  sample_cases Hk; sample_cases Hk'; first [reflexivity | discriminate Ha].
Qed.

Lemma sample_queue_mirrored : mirrored sample_queue.
Proof.
  intros k t j c Hk _ _ Hj Hl.
  change (rows_of tr_ID sample_transfers !! k = Some t) in Hk.
  change (rows_of cv_ID sample_conversations !! j = Some c) in Hj.
  sample_cases Hk; sample_cases Hj; first [discriminate Hl | split_and!; done].
Qed.

(** Agent [40] leaves: its transfer [32] is read, expires before its turn and
    is returned from the stale copy; agent [42] then picks transfer [30]. *)
Definition stale_copy : AgentTransfer := sample_transfer 32 12 (Some 40%N) None 80.

Lemma queue_mirrors_witness :
  exists d', rtc (@queue_step sql_ref) (sample_queue, []) (d', [stale_copy]) /\
    one_active d' /\ mirrored d' /\
    tr_Status <$> db_transfers d' !! 32%N = Some TransferStatusExpired /\
    tr_AgentID <$> db_transfers d' !! 30%N = Some (Some 42%N).
Proof.
  set (w1 := snd (@held_transfers sql_ref 1 40 quiet_queue)).
  set (w2 := snd (@Expire sql_ref 1 32 w1)).
  set (w3 := snd (return_tx stale_copy w2)).
  set (w4 := snd (@pick_tx sql_ref sample_pick (sample_transfer 30 10 None None 100) w3)).
  assert (rtc (@queue_step sql_ref) (sample_queue, []) (w_db w4, [stale_copy])) as Hs.
  { apply (rtc_l _ _ (w_db w1, [stale_copy])).
    { apply (@queue_read sql_ref 1%N 40%N quiet_queue [stale_copy] w1 []). vm_compute. reflexivity. }
    apply (rtc_l _ _ (w_db w2, [stale_copy])).
    { apply (@queue_expire sql_ref 1%N 32%N w1 (fst (@Expire sql_ref 1 32 w1)) w2).
      apply surjective_pairing. }
    apply (rtc_l _ _ (w_db w3, [stale_copy])).
    { apply (@queue_return sql_ref stale_copy w2 (fst (return_tx stale_copy w2)) w3);
        [by left|apply surjective_pairing]. }
    apply rtc_once. eapply (@queue_pick sql_ref sample_pick (sample_transfer 30 10 None None 100) w3).
    apply surjective_pairing. }
  exists (w_db w4). split; [exact Hs|].
  destruct (@queue_mirrors sql_ref _ sample_queue (w_db w4) [stale_copy] sample_queue_wf
    sample_queue_one_active sample_queue_mirrored Hs) as [Hone Hm].
  split; [exact Hone|]. split; [exact Hm|]. vm_compute. split; reflexivity.
Defined.

Lemma ReturnToQueue_clears_the_desk_witness :
  exists out w', @ReturnToQueue sql_ref (fun _ d => d) 1 40 quiet_queue = (Ok out, w') /\
    db_transfers (w_db w') !! 32%N = Some (sample_transfer 32 12 None None 80).
Proof.
  destruct (@ReturnToQueue_clears_the_desk sql_ref _ (fun _ d => d) 1%N 40%N quiet_queue
              (fun _ _ => eq_refl) sample_queue_wf (conj eq_refl eq_refl))
    as (out & w' & Hr & _ & Hk & _).
  exists out, w'. split; [exact Hr|]. rewrite Hk. reflexivity.
Defined.

(** The loop of [ReturnToQueue] updates [id = ? AND status = 'active'] without
    asking that the transfer still be the departing agent's: a transfer a
    supervisor gave to agent [41] after the list was read is taken from them. *)
Definition supervisor (_ : nat) (d : Tables) : Tables :=
  set_db_transfers (alter (set_tr_AgentID (Some 41%N)) 32%N (db_transfers d)) d.

Example ReturnToQueue_race :
  tr_AgentID <$> db_transfers (supervisor 0 sample_queue) !! 32%N = Some (Some 41%N) /\
  tr_AgentID <$> db_transfers (w_db (snd (@ReturnToQueue sql_ref supervisor 1 40 quiet_queue))) !! 32%N = Some None.
Proof. vm_compute. split; reflexivity. Qed.

(** The mirror copies the team of the row as it was read: a transfer moved to
    team [51] after the list was read keeps its team, and the conversation
    shows the one it had before. *)
Definition rerouting (_ : nat) (d : Tables) : Tables :=
  set_db_transfers (alter (set_tr_TeamID (Some 51%N)) 32%N (db_transfers d))
    (set_db_conversations (set_cv_TeamID (Some 51%N) <$> db_conversations d) d).

Example team_moved_meanwhile :
  let d := w_db (snd (@ReturnToQueue sql_ref rerouting 1 40 quiet_queue)) in
  tr_TeamID <$> db_transfers d !! 32%N = Some (Some 51%N) /\
  (fun c => (live_conversation 1 12 c, cv_TeamID c)) <$> db_conversations d !! 22%N = Some (true, None).
Proof. vm_compute. split; reflexivity. Qed.

(** Nor does [PickNext] ask again whether the picker may draw from the queue:
    a transfer moved to team [51] between the read and the lock is still
    picked by somebody outside that team. *)
Definition rerouted (_ : nat) (d : Tables) : Tables :=
  set_db_transfers (alter (set_tr_TeamID (Some 51%N)) 31%N (db_transfers d)) d.

Example PickNext_team_race :
  match fst (@PickNext sql_ref rerouted sample_pick quiet_queue) with
  | Ok row => tr_TeamID row = Some 51%N /\ queue_allowed sample_pick (tr_TeamID row) = false
  | Err _ => False
  end.
Proof. vm_compute. split; reflexivity. Qed.
