(* ===== verification/Conversation.v ===== *)
(** * Conversations ([internal/conversation])

    The lifecycle of a contact's conversation: [service.go] (the state machine:
    [TouchInbound], [RecordOutbound], [Resolve], [Snooze], [Assign], [Open],
    [SetPending], [Reopen], [SetHandling], [SweepIdle]), [reads.go] (per-user
    read markers) and [attribution.go] (campaign replies).  Each exported
    method is one transaction under the contact's advisory lock.  The rules of
    an organization ([SettingsFor]) are a parameter. *)
From S2P Require Import Prelude Store Events Models Statements Samples Transfers.

(** ** Settings *)

Definition DefaultReopenWindow : Z := 24 * Hour.

Record Settings := {
  ReopenWindow : Z;
  AutoPendingOnAgentReply : bool;
  AutoResolveIdle : Z;
  PendingTimeout : Z
}.

Definition DefaultSettings : Settings := {|
  ReopenWindow := DefaultReopenWindow;
  AutoPendingOnAgentReply := false;
  AutoResolveIdle := 0;
  PendingTimeout := 0
|}.

Definition ErrNotFound := ErrSentinel "conversation: no active conversation".

(** ** Statements *)

(** The rows the unique index [idx_conversations_one_active] lets no other row join. *)
Definition clashes (r r' : Conversation) : bool :=
  IsActive (cv_Status r) && live (cv_DeletedAt r) &&
  live_conversation (cv_OrganizationID r) (cv_ContactID r) r'.

(** The row [Where("id = ?")] names. *)
Definition conv_by_id (id : uuid) (c : Conversation) : bool := N.eqb (cv_ID c) id && live (cv_DeletedAt c).

(** [UPDATE conversations SET us WHERE id = ?], refused when the new row would
    break the index. *)
Definition update_conversation (id : uuid) (us : list (Conversation -> Conversation)) : MT unit :=
  stmt (fun _ => [LConversation id])
    (fun d =>
      let t := db_conversations d in
      if forallb (fun kr => negb (conv_by_id id kr.2) || no_other (clashes (apply_updates us kr.2)) kr.1 t) (map_to_list t)
      then (Ok tt, set_db_conversations (update_where (conv_by_id id) us t) d)
      else (Err ErrUnique, d)).

(** [INSERT INTO conversations]. *)
Definition insert_conversation (c : Conversation) : MT unit :=
  stmt no_locks (fun d =>
    let t := db_conversations d in
    if is_none (t !! cv_ID c) && no_other (clashes c) (cv_ID c) t
    then (Ok tt, set_db_conversations (<[cv_ID c := c]> t) d)
    else (Err ErrUnique, d)).

Section Service.
Context `{Sql} `{UuidText}.
(** [SettingsFor]: the inbox rules of an organization. *)
Variable settings : uuid -> Settings.

(** ** [service.go] *)

Definition find_active (orgID contactID : uuid) : MT Conversation :=
  r <- try (query (fun d => first_row (live_conversation orgID contactID) unordered (db_conversations d))) ;;
  match r with
  | Err ErrRecordNotFound => fail ErrNotFound
  | Err e => fail e
  | Ok c => ret c
  end.

Definition Active (orgID contactID : uuid) : MT Conversation := find_active orgID contactID.

(** [tx.Set("gorm:query_option", "FOR UPDATE")] is an option of GORM v1 that
    GORM v2 ignores: the row is read without a lock. *)
Definition activeForUpdate (orgID contactID : uuid) : MT Conversation := find_active orgID contactID.

Definition byID (id : uuid) : MT Conversation :=
  query (fun d => first_row (conv_by_id id) unordered (db_conversations d)).

Definition publishAs (orgID contactID conversationID : uuid) (eventType : string) (actor : Actor)
    (data : list (string * any)) : MT unit :=
  if negb (IsKnown eventType) then ret tt
  else
    id <- uuid_New ;;
    n <- now ;;
    let data := (data ++ [("conversation_id"%string, AString (uuid_String conversationID))]) in
    _ <- try (PublishTx (About SubjectConversation conversationID
                (ForContact contactID (New_event id n orgID eventType actor data)))) ;;
    ret tt.

Definition publish (orgID contactID conversationID : uuid) (eventType : string)
    (data : list (string * any)) : MT unit :=
  publishAs orgID contactID conversationID eventType SystemActor data.

(** The payload of [conversation.status_changed]. *)
Definition from_to (from to : ConversationStatus) : list (string * any) :=
  [("from"%string, AString (string_of_status from)); ("to"%string, AString (string_of_status to))].

Definition set_account (account : string) : list (Conversation -> Conversation) :=
  if String.eqb account "" then [] else [set_cv_WhatsAppAccount account].

Definition bump_messages (c : Conversation) : Conversation := set_cv_MessageCount (cv_MessageCount c + 1) c.
Definition bump_reopened (c : Conversation) : Conversation := set_cv_ReopenedCount (cv_ReopenedCount c + 1) c.

(** What [reopenRecent] may bring back. *)
Definition reopenable (orgID contactID : uuid) (since : time) (c : Conversation) : bool :=
  N.eqb (cv_OrganizationID c) orgID && N.eqb (cv_ContactID c) contactID &&
  bool_decide (cv_Status c = ConversationResolved) && sql_gt (cv_ResolvedAt c) since &&
  live (cv_DeletedAt c).

Definition by_resolved_desc (a b : Conversation) : bool :=
  default 0 (cv_ResolvedAt b) <? default 0 (cv_ResolvedAt a).

Definition reopen_updates (at_ : time) (account : string) : list (Conversation -> Conversation) :=
  [set_cv_Status ConversationOpen; set_cv_ResolvedAt None; set_cv_ResolvedByID None;
   set_cv_ResolutionReason ""; bump_reopened; set_cv_LastCustomerMessageAt (Some at_);
   set_cv_LastMessageAt (Some at_); set_cv_WaitingSince (Some at_); bump_messages] ++
  set_account account.

Definition reopen_window (orgID : uuid) : Z :=
  let window := ReopenWindow (settings orgID) in
  if window <=? 0 then DefaultReopenWindow else window.

Definition reopenRecent (orgID contactID : uuid) (at_ : time) (account : string) : MT (option Conversation) :=
  r <- try (query (fun d => first_row (reopenable orgID contactID (at_ - reopen_window orgID))
                              by_resolved_desc (db_conversations d))) ;;
  match r with
  | Err ErrRecordNotFound => ret None
  | Err e => fail e
  | Ok recent =>
      update_conversation (cv_ID recent) (reopen_updates at_ account) ;;;
      publish orgID contactID (cv_ID recent) "conversation.status_changed"
        (from_to ConversationResolved ConversationOpen ++ [("reopened"%string, ABool true)]) ;;;
      c <- byID (cv_ID recent) ;;
      ret (Some c)
  end.

(** The row [create] inserts. *)
Definition new_conversation (id orgID contactID : uuid) (account : string) (at_ : time)
    (handling : ConversationHandling) : Conversation := {|
  cv_ID := id; cv_DeletedAt := None; cv_OrganizationID := orgID; cv_ContactID := contactID;
  cv_Status := ConversationOpen; cv_AssigneeID := None; cv_TeamID := None; cv_Handling := handling;
  cv_WhatsAppAccount := account; cv_OriginCampaignID := None;
  cv_SnoozedUntil := None; cv_SnoozedByID := None; cv_OpenedAt := at_;
  cv_FirstCustomerMessageAt := Some at_; cv_FirstResponseAt := None; cv_FirstResponderID := None;
  cv_LastCustomerMessageAt := Some at_; cv_LastAgentMessageAt := None; cv_LastMessageAt := Some at_;
  cv_WaitingSince := Some at_; cv_ResolvedAt := None; cv_ResolvedByID := None;
  cv_ResolutionReason := ""; cv_ReopenedCount := 0; cv_MessageCount := 1 |}.

Definition create (orgID contactID : uuid) (account : string) (at_ : time)
    (handling : ConversationHandling) : MT Conversation :=
  id <- uuid_New ;;
  let c := new_conversation id orgID contactID account at_ handling in
  insert_conversation c ;;;
  publish orgID contactID id "conversation.created"
    [("status"%string, AString (string_of_status ConversationOpen))] ;;;
  ret c.

(** The columns a customer message changes on a live conversation. *)
Definition inbound_updates (at_ : time) (account : string) (existing : Conversation)
    : list (Conversation -> Conversation) :=
  [set_cv_Status ConversationOpen; set_cv_LastCustomerMessageAt (Some at_);
   set_cv_LastMessageAt (Some at_); bump_messages] ++
  (if is_none (cv_WaitingSince existing) then [set_cv_WaitingSince (Some at_)] else []) ++
  (if is_none (cv_FirstCustomerMessageAt existing) then [set_cv_FirstCustomerMessageAt (Some at_)] else []) ++
  (if bool_decide (cv_Status existing = ConversationSnoozed)
   then [set_cv_SnoozedUntil None; set_cv_SnoozedByID None] else []) ++
  set_account account.

Definition touch_body (orgID contactID : uuid) (account : string) (at_ : time)
    (handling : ConversationHandling) : MT Conversation :=
  lockContact contactID ;;;
  r <- try (activeForUpdate orgID contactID) ;;
  match r with
  | Ok existing =>
      update_conversation (cv_ID existing) (inbound_updates at_ account existing) ;;;
      (if negb (bool_decide (cv_Status existing = ConversationOpen))
       then publish orgID contactID (cv_ID existing) "conversation.status_changed"
              (from_to (cv_Status existing) ConversationOpen)
       else ret tt) ;;;
      byID (cv_ID existing)
  | Err e =>
      if negb (bool_decide (e = ErrNotFound)) then fail e
      else
        reopened <- reopenRecent orgID contactID at_ account ;;
        match reopened with
        | Some c => ret c
        | None => create orgID contactID account at_ handling
        end
  end.

Definition touchInbound (orgID contactID : uuid) (account : string) (at_ : time)
    (handling : ConversationHandling) : MT Conversation :=
  transaction (touch_body orgID contactID account at_ handling).

Definition TouchInbound (orgID contactID : uuid) (account : string) (at_ : time) (botActive : bool)
    : MT Conversation :=
  touchInbound orgID contactID account at_ (if botActive then HandlingBot else HandlingNone).

(** The columns a message of ours changes. *)
Definition outbound_updates (orgID : uuid) (sender : SenderType) (senderID : option uuid) (at_ : time)
    (existing : Conversation) : list (Conversation -> Conversation) :=
  [set_cv_LastMessageAt (Some at_); bump_messages] ++
  (if CountsAsAgentReply sender
   then [set_cv_LastAgentMessageAt (Some at_); set_cv_WaitingSince None] ++
        (if is_none (cv_FirstResponseAt existing)
         then [set_cv_FirstResponseAt (Some at_); set_cv_FirstResponderID senderID] else []) ++
        (if AutoPendingOnAgentReply (settings orgID) && bool_decide (cv_Status existing = ConversationOpen)
         then [set_cv_Status ConversationPending] else [])
   else []).

Definition outbound_body (orgID contactID : uuid) (sender : SenderType) (senderID : option uuid) (at_ : time)
    : MT (option Conversation) :=
  lockContact contactID ;;;
  r <- try (activeForUpdate orgID contactID) ;;
  existing <- match r with
              | Ok existing => ret (Some existing)
              | Err e =>
                  if bool_decide (e = ErrNotFound) then
                    if negb (bool_decide (sender = SenderAgent)) then ret None
                    else c <- create orgID contactID "" at_ HandlingHuman ;; ret (Some c)
                  else fail e
              end ;;
  match existing with
  | None => ret None
  | Some existing =>
      update_conversation (cv_ID existing) (outbound_updates orgID sender senderID at_ existing) ;;;
      c <- byID (cv_ID existing) ;;
      ret (Some c)
  end.

Definition RecordOutbound (orgID contactID : uuid) (sender : SenderType) (senderID : option uuid) (at_ : time)
    : MT (option Conversation) :=
  transaction (outbound_body orgID contactID sender senderID at_).

Definition endActiveSession (orgID contactID : uuid) (at_ : time) : MT unit :=
  stmt no_locks (fun d =>
    (Ok tt, set_db_sessions
      (update_where (fun s => N.eqb (ss_OrganizationID s) orgID && N.eqb (ss_ContactID s) contactID &&
                              bool_decide (ss_Status s = SessionStatusActive) && live (ss_DeletedAt s))
         [set_ss_Status SessionStatusCompleted; set_ss_CompletedAt (Some at_)] (db_sessions d)) d)).

Definition resolve_updates (reason : string) (actor : Actor) (now : time) : list (Conversation -> Conversation) :=
  [set_cv_Status ConversationResolved; set_cv_ResolvedAt (Some now); set_cv_ResolutionReason reason;
   set_cv_WaitingSince None; set_cv_SnoozedUntil None; set_cv_Handling HandlingNone] ++
  (if String.eqb (actor_Type actor) ActorUser then [set_cv_ResolvedByID (actor_ID actor)] else []).

Definition Resolve (orgID contactID : uuid) (reason : string) (actor : Actor) : MT Conversation :=
  transaction (
    lockContact contactID ;;;
    existing <- activeForUpdate orgID contactID ;;
    n <- now ;;
    update_conversation (cv_ID existing) (resolve_updates reason actor n) ;;;
    endActiveSession orgID contactID n ;;;
    publishAs orgID contactID (cv_ID existing) "conversation.status_changed" actor
      (from_to (cv_Status existing) ConversationResolved ++ [("reason"%string, AString reason)]) ;;;
    byID (cv_ID existing)).

Definition snooze_updates (until : time) (actor : Actor) : list (Conversation -> Conversation) :=
  [set_cv_Status ConversationSnoozed; set_cv_SnoozedUntil (Some until); set_cv_SnoozedByID (actor_ID actor)].

Definition Snooze (orgID contactID : uuid) (until : time) (actor : Actor) : MT Conversation :=
  transaction (
    lockContact contactID ;;;
    existing <- activeForUpdate orgID contactID ;;
    update_conversation (cv_ID existing) (snooze_updates until actor) ;;;
    publishAs orgID contactID (cv_ID existing) "conversation.status_changed" actor
      (from_to (cv_Status existing) ConversationSnoozed ++ [("until"%string, ATime until)]) ;;;
    byID (cv_ID existing)).

Definition assign_updates (assignee teamID : option uuid) : list (Conversation -> Conversation) :=
  [set_cv_AssigneeID assignee] ++
  (if is_some teamID then [set_cv_TeamID teamID] else []) ++
  (if is_some assignee then [set_cv_Handling HandlingHuman] else []).

Definition Assign (orgID contactID : uuid) (assignee teamID : option uuid) (actor : Actor) : MT Conversation :=
  transaction (
    lockContact contactID ;;;
    existing <- activeForUpdate orgID contactID ;;
    update_conversation (cv_ID existing) (assign_updates assignee teamID) ;;;
    AssignActiveTx orgID contactID assignee teamID ;;;
    publishAs orgID contactID (cv_ID existing) "conversation.assigned" actor
      (match assignee with
       | Some a => [("assignee_id"%string, AString (uuid_String a))]
       | None => []
       end) ;;;
    byID (cv_ID existing)).

Definition SetHandling (orgID contactID : uuid) (handling : ConversationHandling) : MT unit :=
  r <- try (update_conversations (live_conversation orgID contactID) [set_cv_Handling handling]) ;;
  match r with
  | Ok _ => ret tt
  | Err ErrRecordNotFound => ret tt
  | Err e => fail e
  end.

(** ** The idle sweep *)

Definition sweep_batch : nat := 200.

(** The rows [resolveStale] loads. *)
Definition stale (orgID : uuid) (statuses : list ConversationStatus) (cutoff : time) (c : Conversation) : bool :=
  N.eqb (cv_OrganizationID c) orgID && bool_decide (cv_Status c ∈ statuses) &&
  is_none (cv_SnoozedUntil c) && (coalesce (cv_LastMessageAt c) (cv_OpenedAt c) <? cutoff) &&
  live (cv_DeletedAt c).

Fixpoint resolve_each (others : nat -> Tables -> Tables) (orgID : uuid) (reason : string)
    (rows : list Conversation) (closed : nat) : MT (nat * option err) :=
  match rows with
  | [] => ret (closed, None)
  | row :: rest =>
      interleave (others (length rest)) ;;;
      r <- try (Resolve orgID (cv_ContactID row) reason SystemActor) ;;
      match r with
      | Ok _ => resolve_each others orgID reason rest (S closed)
      | Err e =>
          if bool_decide (e = ErrNotFound) then resolve_each others orgID reason rest closed
          else ret (closed, Some e)
      end
  end.

Definition resolveStale (others : nat -> Tables -> Tables) (orgID : uuid)
    (statuses : list ConversationStatus) (cutoff : time) (reason : string) : MT (nat * option err) :=
  r <- try (query (fun d => Ok (find_rows (stale orgID statuses cutoff) (Some sweep_batch) (db_conversations d)))) ;;
  match r with
  | Err e => ret (O, Some e)
  | Ok rows => resolve_each others orgID reason rows 0
  end.

Record IdleResult := { ir_Idle : nat; ir_Pending : nat }.

Definition SweepIdle (others : nat -> Tables -> Tables) (orgID : uuid) (now : time)
    : MT (IdleResult * option err) :=
  let set := settings orgID in
  idle <- (if 0 <? AutoResolveIdle set
           then resolveStale others orgID [ConversationOpen; ConversationPending]
                  (now - AutoResolveIdle set) ResolutionClientInactivity
           else ret (O, None)) ;;
  match idle with
  | (_, Some e) => ret ({| ir_Idle := 0; ir_Pending := 0 |}, Some e)
  | (n, None) =>
      pending <- (if 0 <? PendingTimeout set
                  then resolveStale others orgID [ConversationPending]
                         (now - PendingTimeout set) ResolutionPendingTimeout
                  else ret (O, None)) ;;
      match pending with
      | (_, Some e) => ret ({| ir_Idle := n; ir_Pending := 0 |}, Some e)
      | (m, None) => ret ({| ir_Idle := n; ir_Pending := m |}, None)
      end
  end.

(** ** Explicit status changes *)

Definition setStatus (orgID contactID : uuid) (status : ConversationStatus) (actor : Actor)
    (extra : Conversation -> list (Conversation -> Conversation)) : MT Conversation :=
  transaction (
    lockContact contactID ;;;
    existing <- activeForUpdate orgID contactID ;;
    if bool_decide (cv_Status existing = status) then ret existing
    else
      update_conversation (cv_ID existing) (set_cv_Status status :: extra existing) ;;;
      publishAs orgID contactID (cv_ID existing) "conversation.status_changed" actor
        (from_to (cv_Status existing) status) ;;;
      byID (cv_ID existing)).

Definition SetPending (orgID contactID : uuid) (actor : Actor) : MT Conversation :=
  setStatus orgID contactID ConversationPending actor (fun _ => [set_cv_WaitingSince None]).

Definition Open (orgID contactID : uuid) (actor : Actor) : MT Conversation :=
  setStatus orgID contactID ConversationOpen actor (fun _ => [set_cv_SnoozedUntil None; set_cv_SnoozedByID None]).

Definition Reopen (orgID conversationID : uuid) (actor : Actor) : MT Conversation :=
  transaction (
    conv <- byID conversationID ;;
    if negb (N.eqb (cv_OrganizationID conv) orgID) then fail ErrNotFound
    else
      lockContact (cv_ContactID conv) ;;;
      r <- try (activeForUpdate orgID (cv_ContactID conv)) ;;
      match r with
      | Ok existing => ret existing
      | Err e =>
          if negb (bool_decide (e = ErrNotFound)) then fail e
          else
            update_conversation (cv_ID conv)
              [set_cv_Status ConversationOpen; set_cv_ResolvedAt None; set_cv_ResolvedByID None;
               set_cv_ResolutionReason ""; set_cv_SnoozedUntil None] ;;;
            update_conversation (cv_ID conv) [bump_reopened] ;;;
            publishAs orgID (cv_ContactID conv) (cv_ID conv) "conversation.status_changed" actor
              (from_to ConversationResolved ConversationOpen ++ [("reason"%string, AString "reopened")]) ;;;
            byID (cv_ID conv)
      end).

(** ** [reads.go] *)

Definition MarkRead (conversationID userID : uuid) (at_ : time) : MT unit :=
  stmt no_locks (fun d =>
    let row := match db_reads d !! (conversationID, userID) with
               | None => MkRead at_ at_
               | Some r => MkRead (Z.max (rd_LastReadAt r) at_) at_
               end in
    (Ok tt, set_db_reads (<[(conversationID, userID) := row]> (db_reads d)) d)).

Definition ReadPosition (conversationID userID : uuid) : MT (option time) :=
  query (fun d => Ok (rd_LastReadAt <$> db_reads d !! (conversationID, userID))).

Definition MaySendReadReceipts (c : option Conversation) (viewerID : uuid) (viewerCanWrite : bool) : bool :=
  match c with
  | None => viewerCanWrite
  | Some c => match cv_AssigneeID c with Some a => N.eqb a viewerID | None => viewerCanWrite end
  end.

(** ** [attribution.go] *)

Definition DefaultAttributionWindow : Z := 72 * Hour.

Definition attributable (contact : uuid) (opened window : Z) (r : BulkMessageRecipient) : bool :=
  opt_eqb (br_ContactID r) (Some contact) && sql_gt (br_SentAt r) (opened - window) &&
  sql_le (br_SentAt r) opened && live (br_DeletedAt r).

Definition by_sent_desc (a b : BulkMessageRecipient) : bool :=
  default 0 (br_SentAt b) <? default 0 (br_SentAt a).

(** The campaign, and the conversation as the caller holds it afterwards. *)
Definition AttributeToCampaign (conv : option Conversation) (window : Z)
    : MT (option uuid * option Conversation) :=
  match conv with
  | None => ret (None, None)
  | Some c =>
      if is_some (cv_OriginCampaignID c) then ret (None, conv)
      else
        let window := if window <=? 0 then DefaultAttributionWindow else window in
        r <- try (query (fun d => first_row (attributable (cv_ContactID c) (cv_OpenedAt c) window)
                                    by_sent_desc (db_recipients d))) ;;
        match r with
        | Err ErrRecordNotFound => ret (None, conv)
        | Err e => fail e
        | Ok recipient =>
            let campaignID := br_CampaignID recipient in
            update_conversations (fun r => conv_by_id (cv_ID c) r && is_none (cv_OriginCampaignID r))
              [set_cv_OriginCampaignID (Some campaignID)] ;;;
            ret (Some campaignID, Some (set_cv_OriginCampaignID (Some campaignID) c))
        end
  end.

Definition PublishCampaignReplied (conv : Conversation) (campaignID : uuid) : MT unit :=
  id <- uuid_New ;;
  n <- now ;;
  PublishTx (ForContact (cv_ContactID conv)
    (New_event id n (cv_OrganizationID conv) "campaign.replied" SystemActor
       [("campaign_id"%string, AString (uuid_String campaignID));
        ("conversation_id"%string, AString (uuid_String (cv_ID conv)))])).
End Service.
