(* ===== verification/ConversationLemmas.v ===== *)
(** * What the conversation operations did

    For every operation of [Conversation], the tables after a successful run;
    the rows an operation may turn a row into ([conv_row_step]); the invariant
    of the tables ([crm_ok]) and its preservation by every call, whatever
    fails ([crm_step_ok]). *)
From S2P Require Import Prelude Store Events Models Statements Samples Transfers Conversation.

#[local] Arguments inbound_updates : simpl never.
#[local] Arguments reopen_updates : simpl never.
#[local] Arguments outbound_updates : simpl never.
#[local] Arguments resolve_updates : simpl never.
#[local] Arguments snooze_updates : simpl never.
#[local] Arguments assign_updates : simpl never.
#[local] Arguments new_conversation : simpl never.
#[local] Arguments clashes : simpl never.
#[local] Arguments publishAs : simpl never.
#[local] Arguments publish : simpl never.
#[local] Arguments IsKnown : simpl never.

(** ** Rows and their keys *)

Lemma conv_by_id_true id c : conv_by_id id c = true <-> cv_ID c = id /\ live (cv_DeletedAt c) = true.
Proof. unfold conv_by_id. by rewrite andb_true_iff, N.eqb_eq. Qed.

Lemma live_conversation_live org contact c :
  live_conversation org contact c = true ->
  cv_OrganizationID c = org /\ cv_ContactID c = contact /\ IsActive (cv_Status c) = true /\
  live (cv_DeletedAt c) = true.
Proof. unfold live_conversation. rewrite !andb_true_iff, !N.eqb_eq. tauto. Qed.

Lemma update_by_id (t : gmap N Conversation) id r us :
  keyed cv_ID t -> t !! id = Some r -> live (cv_DeletedAt r) = true ->
  update_where (conv_by_id id) us t = <[id := apply_updates us r]> t.
Proof.
  intros Hkeyed Ht Hlive. apply map_eq. intros k. rewrite update_where_lookup.
  destruct (decide (k = id)) as [->|].
  - rewrite Ht, lookup_insert_eq. simpl.
    assert (conv_by_id id r = true) as -> by (apply conv_by_id_true; eauto). done.
  - rewrite lookup_insert_ne by done. destruct (t !! k) as [c|] eqn:E; [|done]. simpl.
    destruct (conv_by_id id c) eqn:Hc; [|done]. apply conv_by_id_true in Hc as [Hc _].
    by rewrite (Hkeyed _ _ E) in Hc.
Qed.

(** ** What the statements did *)

Section Ops.
Context `{SqlLaws} `{UuidText}.
Implicit Types (d : Tables) (w : world Tables) (c r : Conversation).

Lemma find_active_ok org contact w c w' :
  find_active org contact w = (Ok c, w') ->
  (exists k, db_conversations (w_db w) !! k = Some c) /\ live_conversation org contact c = true /\
  ran w w' (w_db w).
Proof.
  unfold find_active. intros Hr. inv_run. destruct a as [t0|e]; [|by destruct e].
  inv_run. apply first_row_ok in Hq as (k & Hk & Hp). split; [eauto|]. split; [done|].
  by repeat split.
Qed.

(** The contact has no live conversation. *)
Definition no_live (org contact : uuid) d : Prop :=
  forall k r, db_conversations d !! k = Some r -> live_conversation org contact r = false.

Lemma find_active_none org contact w w' :
  find_active org contact w = (Err ErrNotFound, w') ->
  no_live org contact (w_db w) /\ ran w w' (w_db w).
Proof.
  unfold find_active, bind, try, fail. destruct (query _ w) as [[c|x] w1] eqn:E; [done|].
  intros Hr. assert (aborts x = false) as Ha by (destruct x; by simplify_eq).
  assert (w' = w1) as -> by (destruct x; by simplify_eq).
  apply query_benign_inv in E as (Hf & Hab & ->); [|done].
  apply first_row_err in Hf as [_ Hno]. by repeat split.
Qed.

Lemma update_conversation_ok id us w u w' r :
  update_conversation id us w = (Ok u, w') -> keyed cv_ID (db_conversations (w_db w)) ->
  db_conversations (w_db w) !! id = Some r -> live (cv_DeletedAt r) = true ->
  no_other (clashes (apply_updates us r)) id (db_conversations (w_db w)) = true /\
  ran w w' (set_db_conversations (<[id := apply_updates us r]> (db_conversations (w_db w))) (w_db w)).
Proof.
  intros Hr Hk Hid Hl. apply stmt_ok_inv in Hr as (d & Hf & ? & ->). simpl in Hf.
  destruct (forallb _ _) eqn:Hall; [|done]. simplify_eq. split.
  - rewrite forallb_forall in Hall. specialize (Hall (id, r)).
    rewrite <- list_elem_of_In, elem_of_map_to_list in Hall. specialize (Hall Hid). simpl in Hall.
    assert (conv_by_id id r = true) as E by (apply conv_by_id_true; eauto). by rewrite E in Hall.
  - rewrite (update_by_id _ _ r) by done. by repeat split.
Qed.

Lemma insert_conversation_ok c w u w' :
  insert_conversation c w = (Ok u, w') ->
  db_conversations (w_db w) !! cv_ID c = None /\
  no_other (clashes c) (cv_ID c) (db_conversations (w_db w)) = true /\
  ran w w' (set_db_conversations (<[cv_ID c := c]> (db_conversations (w_db w))) (w_db w)).
Proof.
  intros Hr. apply stmt_ok_inv in Hr as (d & Hf & ? & ->). simpl in Hf.
  destruct (is_none _ && _)%bool eqn:E; [|done]. simplify_eq. breflect.
  rewrite is_none_true in *. split_and!; done.
Qed.

Lemma byID_ok id w c w' :
  byID id w = (Ok c, w') -> keyed cv_ID (db_conversations (w_db w)) ->
  db_conversations (w_db w) !! id = Some c /\ live (cv_DeletedAt c) = true /\ ran w w' (w_db w).
Proof.
  intros Hr Hk. apply query_ok_inv in Hr as (Hf & Hab & ->).
  apply first_row_ok in Hf as (k & Hc & Hp). apply conv_by_id_true in Hp as [Hid Hl].
  rewrite (Hk _ _ Hc) in Hid. subst. split_and!; done.
Qed.

(** The event [publishAs] announces. *)
Definition announced (org contact conv : uuid) (ty : string) (actor : Actor)
    (data : list (string * any)) (row : CRMEventOutbox) : Prop :=
  ob_OrganizationID row = org /\ ob_Type row = ty /\ ob_ContactID row = Some contact /\
  ob_SubjectType row = SubjectConversation /\ ob_SubjectID row = Some conv /\
  ob_PublishedAt row = None /\
  ob_Data row = data ++ [("conversation_id"%string, AString (uuid_String conv))].

(** [publishAs] writes the outbox only; in a transaction that still commits it
    wrote exactly one new row. *)
Lemma publishAs_ok org contact conv ty actor data w u w' :
  publishAs org contact conv ty actor data w = (Ok u, w') ->
  exists o, w_db w' = set_db_outbox o (w_db w) /\ w_in_tx w' = w_in_tx w /\ w_now w' = w_now w /\
  (org <> uuid_Nil -> IsKnown ty = true -> w_in_tx w = true -> w_aborted w' = false ->
     exists row, announced org contact conv ty actor data row /\
       db_outbox (w_db w) !! ob_ID row = None /\ o = <[ob_ID row := row]> (db_outbox (w_db w))).
Proof.
  unfold publishAs. destruct (IsKnown ty) eqn:Hk; simpl.
  2:{ intros Hr. inv_run. exists (db_outbox (w_db w)). by destruct (w_db w). }
  intros Hr. inv_run. simpl in *. destruct a1 as [u'|e].
  - apply PublishTx_ok_inv in Hrun1 as (row & Hdb & Hnew & (fresh & Hrow) & Hab & Hab' & Htx & _ & Hnow).
    simpl in *. eexists. split; [exact Hdb|]. split_and!; try done.
    intros _ _ _ _. exists row. split; [|done].
    subst row. unfold announced, toRow. simpl. by repeat split.
  - apply PublishTx_err_inv in Hrun1 as (Hdb & Hnow & Htx & _ & Hab). simpl in *.
    exists (db_outbox (w_db w)). rewrite Hdb. split; [by destruct (w_db w)|]. split_and!; try done.
    intros Ho _ Hin Hna. rewrite Hab in Hna; done.
Qed.
(** The outbox gains one event, and it is this one. *)
Definition outbox_gets (P : CRMEventOutbox -> Prop) d (o : gmap uuid CRMEventOutbox) : Prop :=
  exists row, P row /\ db_outbox d !! ob_ID row = None /\ o = <[ob_ID row := row]> (db_outbox d).

(** The last two calls of most operations. *)
Lemma announce_ok org contact id ty actor data w u w1 c w2 r :
  publishAs org contact id ty actor data w = (Ok u, w1) -> byID id w1 = (Ok c, w2) ->
  keyed cv_ID (db_conversations (w_db w)) -> w_in_tx w = true -> IsKnown ty = true ->
  db_conversations (w_db w) !! id = Some r ->
  c = r /\ exists o, w_db w2 = set_db_outbox o (w_db w) /\ w_now w2 = w_now w /\
    (org <> uuid_Nil -> outbox_gets (announced org contact id ty actor data) (w_db w) o).
Proof.
  intros Hp Hb Hk Hin Hty Hr. apply publishAs_ok in Hp as (o & Hdb & _ & Hnow & Hev).
  apply byID_ok in Hb as (Hc & _ & Hdb2 & Hnow2 & _ & Hab & _); [|by rewrite Hdb].
  rewrite Hdb in Hc. simpl in Hc. split; [congruence|]. exists o. rewrite Hdb2, Hnow2.
  split_and!; try done. intros Hne. destruct (Hev Hne Hty Hin Hab) as (row & ? & ? & ->).
  exists row. done.
Qed.

(** Updates of a row that keep what identifies it. *)
Definition same_conversation c c' : Prop :=
  cv_ID c' = cv_ID c /\ cv_OrganizationID c' = cv_OrganizationID c /\
  cv_ContactID c' = cv_ContactID c /\ cv_DeletedAt c' = cv_DeletedAt c /\ cv_OpenedAt c' = cv_OpenedAt c.

Lemma inbound_same at_ account r : same_conversation r (apply_updates (inbound_updates at_ account r) r).
Proof. unfold inbound_updates, set_account. repeat case_match; done. Qed.

Lemma reopen_same at_ account r : same_conversation r (apply_updates (reopen_updates at_ account) r).
Proof. unfold reopen_updates, set_account. repeat case_match; done. Qed.

Section Inbound.
Context (settings : uuid -> Settings) (orgID contactID : uuid).

(** The rows a message may bring back: resolved, of this contact, and not before [since]. *)
Definition recently_resolved (since : time) (r : Conversation) : Prop :=
  cv_OrganizationID r = orgID /\ cv_ContactID r = contactID /\ cv_DeletedAt r = None /\
  cv_Status r = ConversationResolved /\ exists t, cv_ResolvedAt r = Some t /\ since < t.

Lemma recently_resolved_spec since r :
  reopenable orgID contactID since r = true <-> recently_resolved since r.
Proof.
  unfold reopenable, recently_resolved, sql_gt, live.
  rewrite !andb_true_iff, !N.eqb_eq, bool_decide_eq_true. split.
  - intros [[[[? ?] ?] Hat] Hl]. split_and!; [done|done|by destruct (cv_DeletedAt r)|done|].
    destruct (cv_ResolvedAt r) as [t|]; [|done]. exists t. split; [done|]. by apply Z.ltb_lt.
  - intros (? & ? & -> & ? & t & -> & ?). split_and!; try done. by apply Z.ltb_lt.
Qed.

(** The three ways a customer message lands, and the event each announces. *)
Inductive touched (account : string) (at_ : time) (handling : ConversationHandling)
    (fresh : uuid) d c o : Prop :=
| touched_live r :
    db_conversations d !! cv_ID r = Some r -> live_conversation orgID contactID r = true ->
    c = apply_updates (inbound_updates at_ account r) r ->
    (if bool_decide (cv_Status r = ConversationOpen) then o = db_outbox d
     else orgID <> uuid_Nil ->
       outbox_gets (announced orgID contactID (cv_ID r) "conversation.status_changed" SystemActor
                      (from_to (cv_Status r) ConversationOpen)) d o) ->
    touched account at_ handling fresh d c o
| touched_reopened r :
    no_live orgID contactID d -> db_conversations d !! cv_ID r = Some r ->
    recently_resolved (at_ - reopen_window settings orgID) r ->
    (forall k r', db_conversations d !! k = Some r' ->
       recently_resolved (at_ - reopen_window settings orgID) r' ->
       default 0 (cv_ResolvedAt r') <= default 0 (cv_ResolvedAt r)) ->
    c = apply_updates (reopen_updates at_ account) r ->
    (orgID <> uuid_Nil ->
       outbox_gets (announced orgID contactID (cv_ID r) "conversation.status_changed" SystemActor
                      (from_to ConversationResolved ConversationOpen ++ [("reopened"%string, ABool true)])) d o) ->
    touched account at_ handling fresh d c o
| touched_created :
    no_live orgID contactID d ->
    (forall k r, db_conversations d !! k = Some r ->
       ~ recently_resolved (at_ - reopen_window settings orgID) r) ->
    db_conversations d !! fresh = None ->
    c = new_conversation fresh orgID contactID account at_ handling ->
    (orgID <> uuid_Nil ->
       outbox_gets (announced orgID contactID fresh "conversation.created" SystemActor
                      [("status"%string, AString (string_of_status ConversationOpen))]) d o) ->
    touched account at_ handling fresh d c o.

Lemma create_ok account at_ handling w c w' :
  create orgID contactID account at_ handling w = (Ok c, w') -> w_in_tx w = true -> w_aborted w' = false ->
  c = new_conversation (w_uuid w) orgID contactID account at_ handling /\
  db_conversations (w_db w) !! cv_ID c = None /\
  no_other (clashes c) (cv_ID c) (db_conversations (w_db w)) = true /\
  exists o, w_db w' = set_db_outbox o (set_db_conversations (<[cv_ID c := c]> (db_conversations (w_db w))) (w_db w)) /\
    w_in_tx w' = true /\ w_now w' = w_now w /\
    (orgID <> uuid_Nil ->
       outbox_gets (announced orgID contactID (cv_ID c) "conversation.created" SystemActor
                      [("status"%string, AString (string_of_status ConversationOpen))]) (w_db w) o).
Proof.
  intros Hr Hin Hab. unfold create in Hr. inv_run.
  apply insert_conversation_ok in Hrun0 as (Hnew & Hno & Hdb & Hnow & Htx & _ & _ & _).
  apply publishAs_ok in Hrun1 as (o & Hdb2 & Htx2 & Hnow2 & Hev). simpl in *.
  split; [done|]. split; [done|]. split; [done|]. exists o. rewrite Hdb2, Hdb, Htx2, Htx, Hnow2, Hnow.
  split_and!; try done. intros Hne.
  destruct Hev as (row & Ha & Hn & ->); [done|done|by rewrite Htx|done|].
  rewrite Hdb in *. by exists row.
Qed.

Lemma reopenRecent_ok at_ account w c w' :
  reopenRecent settings orgID contactID at_ account w = (Ok (Some c), w') ->
  keyed cv_ID (db_conversations (w_db w)) -> w_in_tx w = true ->
  exists r, db_conversations (w_db w) !! cv_ID r = Some r /\
    reopenable orgID contactID (at_ - reopen_window settings orgID) r = true /\
    (forall k r', db_conversations (w_db w) !! k = Some r' ->
       reopenable orgID contactID (at_ - reopen_window settings orgID) r' = true ->
       default 0 (cv_ResolvedAt r') <= default 0 (cv_ResolvedAt r)) /\
    c = apply_updates (reopen_updates at_ account) r /\
    no_other (clashes c) (cv_ID r) (db_conversations (w_db w)) = true /\
    exists o, w_db w' = set_db_outbox o (set_db_conversations (<[cv_ID r := c]> (db_conversations (w_db w))) (w_db w)) /\
      (orgID <> uuid_Nil ->
       outbox_gets (announced orgID contactID (cv_ID r) "conversation.status_changed" SystemActor
         (from_to ConversationResolved ConversationOpen ++ [("reopened"%string, ABool true)])) (w_db w) o).
Proof.
  intros Hr Hkeyed Hin. unfold reopenRecent in Hr. inv_run.
  destruct a as [r|e]; [|destruct e; inv_run; done]. inv_run.
  assert (exists k, db_conversations (w_db w) !! k = Some r /\
            reopenable orgID contactID (at_ - reopen_window settings orgID) r = true) as (k & Hk & Hp)
    by by eapply first_row_ok.
  pose proof (first_row_greatest _ _ _ _ Hq) as Hgr.
  rewrite <- (Hkeyed _ _ Hk) in Hk. clear k.
  assert (live (cv_DeletedAt r) = true) as Hlive by (unfold reopenable in Hp; breflect; done).
  apply (update_conversation_ok _ _ _ _ _ r) in Hrun0 as (Hno & ? & ? & ? & _); [|done..]. simpl in *.
  destruct (reopen_same at_ account r) as (Hid & _).
  destruct (announce_ok _ _ _ _ _ _ _ _ _ _ _ (apply_updates (reopen_updates at_ account) r) Hrun1 Hrun2)
    as (-> & o & Hdb & _ & Hev); [sync; by apply keyed_insert|sync; done|done|sync; apply lookup_insert_eq|].
  simplify_eq.
  exists r. split_and!; try done. exists o. rewrite Hdb. sync. split; [done|].
  intros Hne. destruct (Hev Hne) as (row & ? & ? & ->). sync. by exists row.
Qed.

Lemma reopenRecent_none at_ account w w' :
  reopenRecent settings orgID contactID at_ account w = (Ok None, w') ->
  (forall k r, db_conversations (w_db w) !! k = Some r ->
     reopenable orgID contactID (at_ - reopen_window settings orgID) r = false) /\
  ran w w' (w_db w).
Proof.
  intros Hr. unfold reopenRecent in Hr. inv_run. destruct a as [r|e]; [inv_run; done|].
  destruct e; try done. inv_run. apply query_benign_inv in Hrun as (Hf & Hab & ->); [|done].
  apply first_row_err in Hf as [_ Hno]. by repeat split.
Qed.

Lemma touch_ok account at_ handling w c w' :
  wf_keys (w_db w) -> touchInbound settings orgID contactID account at_ handling w = (Ok c, w') ->
  exists o, touched account at_ handling (w_uuid w) (w_db w) c o /\
    no_other (clashes c) (cv_ID c) (db_conversations (w_db w)) = true /\
    w_db w' = set_db_outbox o (set_db_conversations (<[cv_ID c := c]> (db_conversations (w_db w))) (w_db w)).
Proof.
  intros Hwf Hr. apply transaction_ok_inv in Hr as (w1 & Hb & Hab & ->).
  pose proof (wf_conv _ Hwf : keyed cv_ID (db_conversations (w_db w))) as Hkeyed.
  unfold touch_body in Hb. inv_run. inv_prim. sync. destruct a0 as [r|e].
  - apply find_active_ok in Hrun0 as ((k & Hk) & Hl & ? & ? & ? & _). sync.
    rewrite <- (Hkeyed _ _ Hk) in Hk. clear k.
    pose proof (live_conversation_live _ _ _ Hl) as (_ & _ & _ & Hlive).
    inv_run.
    match goal with E : update_conversation _ _ _ = _ |- _ =>
      apply (update_conversation_ok _ _ _ _ _ r) in E as (Hno & ? & ? & ? & _);
        [|by sync|by sync|done] end.
    destruct (inbound_same at_ account r) as (Hid & _). sync.
    set (r' := apply_updates (inbound_updates at_ account r) r) in *.
    assert (db_conversations (w_db w3) !! cv_ID r = Some r') as Hrow by (sync; apply lookup_insert_eq).
    assert (keyed cv_ID (db_conversations (w_db w3))) as Hkeyed3 by (sync; by apply keyed_insert).
    case_bool_decide as Hopen; simpl in *.
    + inv_run. apply byID_ok in Hb as (Hc & _ & ? & _); [|done].
      rewrite Hrow in Hc. injection Hc as <-. exists (db_outbox (w_db w)). rewrite Hid. sync. split_and!; [|done|done].
      apply (touched_live _ _ _ _ _ _ _ r); [done..|]. by rewrite bool_decide_eq_true_2.
    + unfold publish in *. match goal with E : publishAs _ _ _ _ _ _ _ = _ |- _ =>
        apply (announce_ok _ _ _ _ _ _ _ _ _ c w1 r') in E as (-> & o & Hdb5 & _ & Hev); [|done..] end.
      exists o. rewrite Hid, Hdb5. sync. split_and!; [|done|done].
      apply (touched_live _ _ _ _ _ _ _ r); [done..|]. rewrite bool_decide_eq_false_2 by done.
      intros Hne. destruct (Hev Hne) as (row & ? & ? & ->). sync. by exists row.
  - case_bool_decide as He; simpl in Hb; [|done]. subst e.
    apply find_active_none in Hrun0 as (Hno & ? & ? & ? & ? & ? & ?). sync. inv_run. destruct a0 as [c'|].
    + apply reopenRecent_ok in Hrun as (r & Hk & Hp & Hgr & -> & Hno' & o & Hdb & Hev); [|sync; done..].
      inv_run. sync. destruct (reopen_same at_ account r) as (Hid & _).
      exists o. rewrite Hid. split_and!; [|done|done].
      apply (touched_reopened _ _ _ _ _ _ _ r); try done; [by apply recently_resolved_spec|].
      intros k r' Hr' Hre. apply (Hgr k); [done|]. by apply recently_resolved_spec.
    + apply reopenRecent_none in Hrun as (Hnr & ? & ? & ? & ? & ? & ?). sync.
      apply create_ok in Hb as (Hc & Hnew & Hno' & o & Hdb & _ & _ & Hev); [|done..]. sync.
      exists o. split_and!; [|done|done]. subst c. apply touched_created; try done.
      intros k r Hk Hre. apply recently_resolved_spec in Hre. by rewrite (Hnr _ _ Hk) in Hre.
Qed.
End Inbound.

(** The event of a status change. *)
Definition status_event (org contact id : uuid) (actor : Actor) (from to : ConversationStatus)
    (more : list (string * any)) : CRMEventOutbox -> Prop :=
  announced org contact id "conversation.status_changed" actor (from_to from to ++ more).

Definition sessions_ended (org contact : uuid) (at_ : time) (d : Tables) : gmap uuid ChatbotSession :=
  update_where (fun s => N.eqb (ss_OrganizationID s) org && N.eqb (ss_ContactID s) contact &&
                         bool_decide (ss_Status s = SessionStatusActive) && live (ss_DeletedAt s))
    [set_ss_Status SessionStatusCompleted; set_ss_CompletedAt (Some at_)] (db_sessions d).

Lemma endActiveSession_ok org contact at_ w u w' :
  endActiveSession org contact at_ w = (Ok u, w') ->
  ran w w' (set_db_sessions (sessions_ended org contact at_ (w_db w)) (w_db w)).
Proof. intros Hr. apply stmt_ok_inv in Hr as (d & [= <- <-] & ? & ->). by repeat split. Qed.

(** An operation on the live conversation, up to its [UPDATE]. *)
Lemma live_op_ok org contact (us : Conversation -> list (Conversation -> Conversation)) w r w1 u w2 :
  activeForUpdate org contact w = (Ok r, w1) -> update_conversation (cv_ID r) (us r) w1 = (Ok u, w2) ->
  keyed cv_ID (db_conversations (w_db w)) -> same_conversation r (apply_updates (us r) r) ->
  db_conversations (w_db w) !! cv_ID r = Some r /\ live_conversation org contact r = true /\
  no_other (clashes (apply_updates (us r) r)) (cv_ID r) (db_conversations (w_db w)) = true /\
  ran w w2 (set_db_conversations (<[cv_ID r := apply_updates (us r) r]> (db_conversations (w_db w))) (w_db w)) /\
  keyed cv_ID (db_conversations (w_db w2)) /\
  db_conversations (w_db w2) !! cv_ID r = Some (apply_updates (us r) r) /\ w_now w1 = w_now w.
Proof.
  intros Ha Hu Hkeyed [Hid _].
  apply find_active_ok in Ha as ((k & Hk) & Hl & ? & ? & ? & ? & ? & ?). sync.
  rewrite <- (Hkeyed _ _ Hk) in Hk. clear k.
  pose proof (live_conversation_live _ _ _ Hl) as (_ & _ & _ & Hlive).
  apply (update_conversation_ok _ _ _ _ _ r) in Hu as (Hno & ? & ? & ? & ? & ? & ?); [|by sync|by sync|done].
  sync. split_and!; try done; sync; try congruence.
  - by apply keyed_insert.
  - apply lookup_insert_eq.
Qed.


Lemma wf_conv_keyed d : wf_keys d -> keyed cv_ID (db_conversations d).
Proof. intros Hwf k c. apply (wf_conv _ Hwf). Qed.

(** Inverts the lookup and the [UPDATE] of an operation on the live row. *)
Ltac inv_live us :=
  lazymatch goal with
  | A : activeForUpdate _ _ _ = (Ok ?r, _), U : update_conversation _ _ _ = _ |- _ =>
      apply (live_op_ok _ _ us _ _ _ _ _ A) in U
        as (Hk & Hl & Hno & (? & ? & ? & ? & ? & ?) & Hk2 & Hrow & ?); [clear A|by sync|]
  end.

(** Inverts the announcement and the final read. *)
Ltac inv_announce :=
  lazymatch goal with
  | P : publishAs _ _ _ _ _ _ _ = (Ok _, _), B : byID _ _ = (Ok _, _), Hrow : _ !! _ = Some ?r |- _ =>
      let Hdb := fresh "Hdb" in let Hev := fresh "Hev" in let o := fresh "o" in
      destruct (announce_ok _ _ _ _ _ _ _ _ _ _ _ r P B) as (-> & o & Hdb & _ & Hev);
      [by sync|by sync|done|by sync|]; clear P B; sync;
      unfold outbox_gets in Hev; sync; fold (outbox_gets) in Hev
  end.

Lemma resolve_same reason actor n r : same_conversation r (apply_updates (resolve_updates reason actor n) r).
Proof. unfold resolve_updates. case_match; done. Qed.

Lemma Resolve_ok org contact reason actor w c w' :
  wf_keys (w_db w) -> Resolve org contact reason actor w = (Ok c, w') ->
  exists r o, db_conversations (w_db w) !! cv_ID r = Some r /\ live_conversation org contact r = true /\
    c = apply_updates (resolve_updates reason actor (w_now w)) r /\
    w_db w' = set_db_outbox o (set_db_sessions (sessions_ended org contact (w_now w) (w_db w))
                (set_db_conversations (<[cv_ID r := c]> (db_conversations (w_db w))) (w_db w))) /\
    (org <> uuid_Nil -> outbox_gets (status_event org contact (cv_ID r) actor (cv_Status r)
        ConversationResolved [("reason"%string, AString reason)]) (w_db w) o).
Proof.
  intros Hkeyed%wf_conv_keyed Hr. apply transaction_ok_inv in Hr as (w1 & Hb & Hab & ->).
  inv_run. inv_prim. sync.
  lazymatch goal with U : update_conversation _ (resolve_updates _ _ ?n) _ = _ |- _ =>
    inv_live (fun _ : Conversation => resolve_updates reason actor n) end; [|apply resolve_same].
  match goal with E : endActiveSession _ _ _ _ = _ |- _ =>
    apply endActiveSession_ok in E as (? & ? & ? & ? & ? & ?) end. sync.
  inv_announce. exists a0, o. split_and!; try done.
Qed.

Lemma Snooze_ok org contact until actor w c w' :
  wf_keys (w_db w) -> Snooze org contact until actor w = (Ok c, w') ->
  exists r o, db_conversations (w_db w) !! cv_ID r = Some r /\ live_conversation org contact r = true /\
    c = apply_updates (snooze_updates until actor) r /\
    no_other (clashes c) (cv_ID r) (db_conversations (w_db w)) = true /\
    w_db w' = set_db_outbox o (set_db_conversations (<[cv_ID r := c]> (db_conversations (w_db w))) (w_db w)) /\
    (org <> uuid_Nil -> outbox_gets (status_event org contact (cv_ID r) actor (cv_Status r)
        ConversationSnoozed [("until"%string, ATime until)]) (w_db w) o).
Proof.
  intros Hkeyed%wf_conv_keyed Hr. apply transaction_ok_inv in Hr as (w1 & Hb & Hab & ->).
  inv_run. inv_prim. sync. inv_live (fun _ : Conversation => snooze_updates until actor); [|done]. sync.
  inv_announce. exists a0, o. split_and!; done.
Qed.

Lemma assign_same assignee team r : same_conversation r (apply_updates (assign_updates assignee team) r).
Proof. unfold assign_updates. repeat case_match; done. Qed.

Lemma setStatus_ok org contact status actor extra w c w' :
  wf_keys (w_db w) -> setStatus org contact status actor extra w = (Ok c, w') ->
  (forall r, same_conversation r (apply_updates (set_cv_Status status :: extra r) r)) ->
  exists r, db_conversations (w_db w) !! cv_ID r = Some r /\ live_conversation org contact r = true /\
    ((cv_Status r = status /\ c = r /\ w_db w' = w_db w) \/
     (cv_Status r <> status /\ c = apply_updates (set_cv_Status status :: extra r) r /\
      no_other (clashes c) (cv_ID r) (db_conversations (w_db w)) = true /\ exists o,
      w_db w' = set_db_outbox o (set_db_conversations (<[cv_ID r := c]> (db_conversations (w_db w))) (w_db w)) /\
      (org <> uuid_Nil -> outbox_gets (status_event org contact (cv_ID r) actor (cv_Status r) status []) (w_db w) o))).
Proof.
  intros Hkeyed%wf_conv_keyed Hr Hsame. apply transaction_ok_inv in Hr as (w1 & Hb & Hab & ->).
  inv_run. inv_prim. sync. exists a0. case_bool_decide as Hst.
  - inv_run. match goal with A : activeForUpdate _ _ _ = _ |- _ =>
      apply find_active_ok in A as ((k & Hk) & Hl & ? & ? & ? & ? & ? & ?) end. sync.
    rewrite <- (Hkeyed _ _ Hk) in Hk. split_and!; [done|done|]. left. done.
  - inv_run. inv_live (fun r => set_cv_Status status :: extra r); [|done]. sync.
    inv_announce. split_and!; [done|done|]. right. split_and!; [done|done|done|]. exists o. split_and!; done.
Qed.

Lemma Assign_ok org contact assignee team actor w c w' :
  wf_keys (w_db w) -> Assign org contact assignee team actor w = (Ok c, w') ->
  exists r o rows, db_conversations (w_db w) !! cv_ID r = Some r /\ live_conversation org contact r = true /\
    c = apply_updates (assign_updates assignee team) r /\
    no_other (clashes c) (cv_ID r) (db_conversations (w_db w)) = true /\
    w_db w' = set_db_outbox o (set_db_transfers rows
                (set_db_conversations (<[cv_ID r := c]> (db_conversations (w_db w))) (w_db w))) /\
    ((rows = db_transfers (w_db w) /\
      forall k t, db_transfers (w_db w) !! k = Some t -> active_for org contact t = false) \/
     exists t now, db_transfers (w_db w) !! tr_ID t = Some t /\
       active_for org contact t = true /\
       rows = <[tr_ID t := assign_transfer assignee team now t]> (db_transfers (w_db w))) /\
    (org <> uuid_Nil -> outbox_gets (announced org contact (cv_ID r) "conversation.assigned" actor
        (match assignee with Some a => [("assignee_id"%string, AString (uuid_String a))] | None => [] end))
        (w_db w) o).
Proof.
  intros Hwf Hr. pose proof (wf_conv_keyed _ Hwf) as Hkeyed.
  apply transaction_ok_inv in Hr as (w1 & Hb & Hab & ->).
  inv_run. inv_prim. sync. inv_live (fun _ : Conversation => assign_updates assignee team); [|apply assign_same]. sync.
  match goal with E : AssignActiveTx _ _ _ _ _ = _ |- _ =>
    apply AssignActiveTx_ok in E as (? & Htr); [|sync; exact (wf_tr _ Hwf)] end. sync.
  assert (exists rows, w_db w4 = set_db_transfers rows (w_db w3) /\
    ((rows = db_transfers (w_db w) /\
      forall k t, db_transfers (w_db w) !! k = Some t -> active_for org contact t = false) \/
     exists t now, db_transfers (w_db w) !! tr_ID t = Some t /\
       active_for org contact t = true /\
       rows = <[tr_ID t := assign_transfer assignee team now t]> (db_transfers (w_db w)))) as (rows & ? & Hrows).
  { destruct Htr as [[-> Hna]|(t & now & Ht & Hact & ->)]; sync.
    - exists (db_transfers (w_db w)). split; [done|by left].
    - eexists. split; [|right; exists t, now; done].
      assert (tr_ID (assign_transfer assignee team now t) = tr_ID t) as E
        by (unfold assign_transfer; repeat case_match; done).
      unfold save_effect. by rewrite E. }
  clear Htr. sync. inv_announce. exists a0, o, rows. split_and!; done.
Qed.

Definition reopen_now : list (Conversation -> Conversation) :=
  [set_cv_Status ConversationOpen; set_cv_ResolvedAt None; set_cv_ResolvedByID None;
   set_cv_ResolutionReason ""; set_cv_SnoozedUntil None].

Lemma Reopen_ok org id actor w c w' :
  wf_keys (w_db w) -> Reopen org id actor w = (Ok c, w') ->
  (exists k, w_db w' = w_db w /\ db_conversations (w_db w) !! k = Some c /\ IsActive (cv_Status c) = true) \/
  exists r o, db_conversations (w_db w) !! id = Some r /\ cv_ID r = id /\
    cv_Status r = ConversationResolved /\ cv_OrganizationID r = org /\ live (cv_DeletedAt r) = true /\
    no_live org (cv_ContactID r) (w_db w) /\
    c = bump_reopened (apply_updates reopen_now r) /\
    no_other (clashes (apply_updates reopen_now r)) id (db_conversations (w_db w)) = true /\
    w_db w' = set_db_outbox o (set_db_conversations (<[id := c]> (db_conversations (w_db w))) (w_db w)) /\
    (org <> uuid_Nil -> outbox_gets (status_event org (cv_ContactID r) id actor ConversationResolved
        ConversationOpen [("reason"%string, AString "reopened")]) (w_db w) o).
Proof.
  intros Hkeyed%wf_conv_keyed Hr. apply transaction_ok_inv in Hr as (w1 & Hb & Hab & ->).
  inv_run. rename a into r. match goal with E : byID _ _ = _ |- _ =>
    apply byID_ok in E as (Hk & Hlive & ? & ? & ? & ? & ? & ?); [|done] end. sync.
  pose proof (Hkeyed _ _ Hk) as Hid.
  destruct (N.eqb_spec (cv_OrganizationID r) org) as [Horg|]; simpl in Hb; [|done]. inv_run. inv_prim. sync.
  destruct a0 as [e|e].
  { left. inv_run. match goal with A : activeForUpdate _ _ _ = _ |- _ =>
      apply find_active_ok in A as ((k & Hk') & Hl & ? & ? & ? & ? & ? & ?) end. sync.
    apply live_conversation_live in Hl as (_ & _ & Hl & _). by exists k. }
  case_bool_decide as He; simpl in Hb; [|done]. subst e.
  match goal with A : activeForUpdate _ _ _ = _ |- _ =>
      apply find_active_none in A as (Hno & ? & ? & ? & ? & ? & ?) end. sync. inv_run.
  match goal with E : update_conversation _ [bump_reopened] _ = _ |- _ => rename E into E2 end.
  match goal with E : update_conversation _ _ _ = _ |- _ => lazymatch E with E2 => fail | _ =>
    apply (update_conversation_ok _ _ _ _ _ r) in E as (Hno1 & ? & ? & ? & ? & ? & ?);
      [|by sync|sync; by rewrite Hid|done] end end. sync.
  fold reopen_now in *. rewrite Hid in *.
  apply (update_conversation_ok _ _ _ _ _ (apply_updates reopen_now r)) in E2 as (_ & ? & ? & ? & ? & ? & ?);
    [|sync; by apply keyed_insert|sync; apply lookup_insert_eq|done]. sync.
  right. assert (cv_Status r = ConversationResolved) as Hst.
  { specialize (Hno _ _ Hk). unfold live_conversation in Hno. rewrite Horg, !N.eqb_refl, Hlive in Hno.
    unfold IsActive in Hno. by case_bool_decide. }
  rewrite insert_insert_eq in *.
  change (apply_updates [bump_reopened] (apply_updates reopen_now r))
    with (bump_reopened (apply_updates reopen_now r)) in *.
  match goal with H : w_db ?w3 = _, P : publishAs _ _ _ _ _ _ ?w3 = _ |- _ =>
    assert (keyed cv_ID (db_conversations (w_db w3))) by (sync; by apply keyed_insert);
    assert (db_conversations (w_db w3) !! id = Some (bump_reopened (apply_updates reopen_now r))) as Hrow
      by (sync; apply lookup_insert_eq) end. sync.
  inv_announce. exists r, o. split_and!; done.
Qed.
Lemma outbound_same settings org sender by_ at_ r r' :
  same_conversation r' (apply_updates (outbound_updates settings org sender by_ at_ r) r').
Proof. unfold outbound_updates. repeat case_match; done. Qed.

Lemma RecordOutbound_ok settings org contact sender by_ at_ w oc w' :
  wf_keys (w_db w) -> RecordOutbound settings org contact sender by_ at_ w = (Ok oc, w') ->
  (oc = None /\ no_live org contact (w_db w) /\ sender <> SenderAgent /\ w_db w' = w_db w) \/
  (exists r, db_conversations (w_db w) !! cv_ID r = Some r /\ live_conversation org contact r = true /\
    let r' := apply_updates (outbound_updates settings org sender by_ at_ r) r in
    oc = Some r' /\ no_other (clashes r') (cv_ID r) (db_conversations (w_db w)) = true /\
    w_db w' = set_db_conversations (<[cv_ID r := r']> (db_conversations (w_db w))) (w_db w)) \/
  (sender = SenderAgent /\ no_live org contact (w_db w) /\ exists o,
    let r := new_conversation (w_uuid w) org contact "" at_ HandlingHuman in
    let r' := apply_updates (outbound_updates settings org sender by_ at_ r) r in
    oc = Some r' /\ db_conversations (w_db w) !! w_uuid w = None /\
    no_other (clashes r) (w_uuid w) (db_conversations (w_db w)) = true /\
    w_db w' = set_db_outbox o (set_db_conversations (<[w_uuid w := r']> (db_conversations (w_db w))) (w_db w))).
Proof.
  intros Hkeyed%wf_conv_keyed Hr. apply transaction_ok_inv in Hr as (w1 & Hb & Hab & ->).
  unfold outbound_body in Hb. inv_run. inv_prim. sync. rename a0 into act. destruct act as [r|e].
  - inv_run. right. left. exists r.
    inv_live (fun r => outbound_updates settings org sender by_ at_ r); [|apply outbound_same]. sync.
    match goal with B : byID _ _ = _ |- _ => apply byID_ok in B as (Hc & _ & ? & _); [|by sync] end. sync.
    rewrite Hrow in Hc. simplify_eq. split_and!; done.
  - case_bool_decide as He; simpl in *; [|done]. subst e.
    match goal with A : activeForUpdate _ _ _ = _ |- _ =>
      apply find_active_none in A as (Hno & ? & ? & ? & ? & ? & ?) end. sync.
    case_bool_decide as Hs; simpl in *; inv_run; sync; [|by left].
    right. right. split_and!; [done|done|].
    match goal with C : create _ _ _ _ _ _ = _, U : update_conversation _ _ ?w4 = _ |- _ =>
      pose proof (stmt_ok_inv _ _ _ _ _ U) as (_ & _ & Hna & _);
      apply create_ok in C as (Hc & Hnew & Hno1 & o & ? & ? & ? & _); [|done|done] end. sync.
    match goal with Hc : ?x = new_conversation _ _ _ _ _ _ |- _ => rename x into r end.
    assert (cv_ID r = w_uuid w) as Hid by by rewrite Hc. rewrite Hid in *.
    match goal with U : update_conversation _ _ _ = _ |- _ =>
      apply (update_conversation_ok _ _ _ _ _ r) in U as (_ & ? & ? & ? & ? & ? & ?);
        [|sync; by apply keyed_insert|sync; apply lookup_insert_eq|by rewrite Hc] end. sync.
    rewrite insert_insert_eq in *.
    match goal with B : byID _ _ = _ |- _ => apply byID_ok in B as (Hc2 & _ & ? & _) end; [|sync; apply keyed_insert; [done|]].
    2:{ rewrite <- Hid. apply outbound_same. }
    sync. rewrite lookup_insert_eq in Hc2. rewrite <- Hc in *. simplify_eq. exists o. split_and!; done.
Qed.

(** ** The life of a row *)

(** The changes an operation may make to a conversation row. *)
Inductive conv_row_step settings (c : Conversation) : Conversation -> Prop :=
| cr_same : conv_row_step settings c c
| cr_inbound at_ account : IsActive (cv_Status c) = true ->
    conv_row_step settings c (apply_updates (inbound_updates at_ account c) c)
| cr_reopened at_ account org contact :
    reopenable org contact (at_ - reopen_window settings org) c = true ->
    conv_row_step settings c (apply_updates (reopen_updates at_ account) c)
| cr_outbound org sender by_ at_ : IsActive (cv_Status c) = true ->
    conv_row_step settings c (apply_updates (outbound_updates settings org sender by_ at_ c) c)
| cr_resolved reason actor now : IsActive (cv_Status c) = true ->
    conv_row_step settings c (apply_updates (resolve_updates reason actor now) c)
| cr_snoozed until actor : IsActive (cv_Status c) = true ->
    conv_row_step settings c (apply_updates (snooze_updates until actor) c)
| cr_assigned assignee team : IsActive (cv_Status c) = true ->
    conv_row_step settings c (apply_updates (assign_updates assignee team) c)
| cr_pending : IsActive (cv_Status c) = true ->
    conv_row_step settings c (set_cv_WaitingSince None (set_cv_Status ConversationPending c))
| cr_opened : IsActive (cv_Status c) = true ->
    conv_row_step settings c
      (set_cv_SnoozedByID None (set_cv_SnoozedUntil None (set_cv_Status ConversationOpen c)))
| cr_reopen : cv_Status c = ConversationResolved ->
    conv_row_step settings c (bump_reopened (apply_updates reopen_now c))
| cr_handling h : IsActive (cv_Status c) = true -> conv_row_step settings c (set_cv_Handling h c)
| cr_attributed campaign : cv_OriginCampaignID c = None ->
    conv_row_step settings c (set_cv_OriginCampaignID (Some campaign) c)
| cr_mirrored t : IsActive (cv_Status c) = true -> conv_row_step settings c (apply_updates (mirror_updates t) c)
| cr_unassigned : IsActive (cv_Status c) = true -> conv_row_step settings c (set_cv_AssigneeID None c).

(** A conversation row that makes sense. *)
Record row_ok c : Prop := {
  ok_resolved : cv_Status c = ConversationResolved <-> cv_ResolvedAt c <> None;
  ok_finished : cv_Status c = ConversationResolved ->
    cv_WaitingSince c = None /\ cv_Handling c = HandlingNone /\ cv_SnoozedUntil c = None;
  ok_snoozed : cv_Status c = ConversationSnoozed -> cv_SnoozedUntil c <> None;
  ok_answered : cv_FirstResponseAt c <> None -> cv_LastAgentMessageAt c <> None;
  ok_waiting : cv_WaitingSince c <> None -> cv_LastCustomerMessageAt c <> None;
  ok_counts : 1 <= cv_MessageCount c /\ 0 <= cv_ReopenedCount c
}.

Lemma active_not_resolved s : IsActive s = true <-> s <> ConversationResolved.
Proof. unfold IsActive. by rewrite negb_true_iff, bool_decide_eq_false. Qed.

(** Each update, field by field. *)
Ltac solve_row :=
  unfold inbound_updates, reopen_updates, outbound_updates, resolve_updates, snooze_updates, assign_updates,
    reopen_now, mirror_updates, set_account, bump_messages, bump_reopened, apply_updates;
  repeat case_match; cbn [app fold_left]; intros [? ? ? ? ? ?]; (split; cbn; [intuition congruence..|lia]).

Lemma inbound_ok at_ account c : cv_Status c <> ConversationResolved ->
  row_ok c -> row_ok (apply_updates (inbound_updates at_ account c) c).
Proof. intros Ha. solve_row. Qed.

Lemma outbound_ok settings org sender by_ at_ c : cv_Status c <> ConversationResolved ->
  row_ok c -> row_ok (apply_updates (outbound_updates settings org sender by_ at_ c) c).
Proof. intros Ha. solve_row. Qed.

Lemma resolve_ok reason actor now c : cv_Status c <> ConversationResolved ->
  row_ok c -> row_ok (apply_updates (resolve_updates reason actor now) c).
Proof. intros Ha. solve_row. Qed.

Lemma assign_ok assignee team c : cv_Status c <> ConversationResolved ->
  row_ok c -> row_ok (apply_updates (assign_updates assignee team) c).
Proof. intros Ha. solve_row. Qed.

Lemma reopen_now_ok c : cv_Status c = ConversationResolved ->
  row_ok c -> row_ok (bump_reopened (apply_updates reopen_now c)).
Proof. intros Ha. solve_row. Qed.

Lemma mirror_ok t c : cv_Status c <> ConversationResolved ->
  row_ok c -> row_ok (apply_updates (mirror_updates t) c).
Proof. intros Ha. solve_row. Qed.

Lemma row_step_ok settings c c' : conv_row_step settings c c' -> row_ok c -> row_ok c'.
Proof.
  destruct 1 as [|at_ account Ha|at_ account org contact Hre|org sender by_ at_ Ha|reason actor now Ha
    |until actor Ha|assignee team Ha|Ha|Ha|Ha|h Ha|camp Ha|t Ha|Ha];
    try rewrite active_not_resolved in Ha;
    auto using inbound_ok, outbound_ok, resolve_ok, assign_ok, reopen_now_ok, mirror_ok; try solve_row.
Qed.

(** ** The table *)

(** The index [idx_conversations_one_active]. *)
Definition one_live (t : gmap uuid Conversation) : Prop :=
  forall k c k' c', t !! k = Some c -> t !! k' = Some c' -> clashes c c' = true -> k = k'.

Record convs_ok (t : gmap uuid Conversation) : Prop := {
  co_keyed : keyed cv_ID t;
  co_index : one_live t;
  co_rows : forall k c, t !! k = Some c -> row_ok c
}.

Lemma clashes_true c c' : clashes c c' = true <->
  IsActive (cv_Status c) = true /\ live (cv_DeletedAt c) = true /\
  IsActive (cv_Status c') = true /\ live (cv_DeletedAt c') = true /\
  cv_OrganizationID c' = cv_OrganizationID c /\ cv_ContactID c' = cv_ContactID c.
Proof. unfold clashes, live_conversation. rewrite !andb_true_iff, !N.eqb_eq. tauto. Qed.

Lemma clashes_sym c c' : clashes c c' = clashes c' c.
Proof. apply eq_bool_prop_intro. rewrite !Is_true_true, !clashes_true. naive_solver. Qed.

(** Writing one row the index admits. *)
Lemma convs_ok_insert t c :
  convs_ok t -> row_ok c -> no_other (clashes c) (cv_ID c) t = true -> convs_ok (<[cv_ID c := c]> t).
Proof.
  intros [Hk Hi Hr] Hc Hno. rewrite no_other_spec in Hno. split.
  - by apply keyed_insert.
  - intros k x k' x' Hx Hx' Hcl.
    apply lookup_insert_Some in Hx as [[<- <-]|[Hne Hx]], Hx' as [[<- <-]|[Hne' Hx']]; [done|..].
    + rewrite (Hno _ _ Hx') in Hcl by done. done.
    + rewrite clashes_sym, (Hno _ _ Hx) in Hcl by done. done.
    + by apply (Hi k x k' x').
  - intros k x. destruct (decide (k = cv_ID c)) as [->|Hne].
    + rewrite lookup_insert_eq. by intros [= <-].
    + rewrite lookup_insert_ne by done. apply Hr.
Qed.

(** Closing a row clashes with nothing. *)
Lemma closed_no_other c k t : cv_Status c = ConversationResolved -> no_other (clashes c) k t = true.
Proof.
  intros Hc. apply no_other_spec. intros k' r _ _. unfold clashes, IsActive. by rewrite Hc.
Qed.

(** An update of several rows that keeps whose they are. *)
Lemma convs_ok_update t p us :
  convs_ok t ->
  (forall c, p c = true -> row_ok c -> row_ok (apply_updates us c)) ->
  (forall c, same_conversation c (apply_updates us c) /\ cv_Status (apply_updates us c) = cv_Status c) ->
  convs_ok (update_where p us t).
Proof.
  intros [Hk Hi Hr] Hok Hsame. split.
  - apply keyed_update; [|done]. intros c. by destruct (Hsame c) as [[-> _] _].
  - intros k x k' x' Hx Hx' Hcl. rewrite update_where_lookup in Hx, Hx'.
    destruct (t !! k) as [c|] eqn:E; [|done]. destruct (t !! k') as [c'|] eqn:E'; [|done].
    simpl in *. apply (Hi k c k' c' E E'). revert Hcl. rewrite !clashes_true.
    destruct (Hsame c) as [(_ & Ho1 & Hc1 & Hd1 & _) Hs1], (Hsame c') as [(_ & Ho2 & Hc2 & Hd2 & _) Hs2].
    simplify_eq. destruct (p c), (p c'); rewrite ?Ho1, ?Hc1, ?Hd1, ?Hs1, ?Ho2, ?Hc2, ?Hd2, ?Hs2; tauto.
  - intros k x Hx. rewrite update_where_lookup in Hx. destruct (t !! k) as [c|] eqn:E; [|done].
    simpl in Hx. simplify_eq. destruct (p c) eqn:Hp; eauto.
Qed.

(** The tables as the services keep them. *)
Record crm_ok d : Prop := { crm_keys : wf_keys d; crm_convs : convs_ok (db_conversations d) }.

Lemma crm_ok_convs d d' :
  crm_ok d -> db_transfers d' = db_transfers d -> db_contacts d' = db_contacts d ->
  convs_ok (db_conversations d') -> crm_ok d'.
Proof.
  intros [[Hc Ht Hct] _] Htr Hco Hok. split; [|done]. split; [apply Hok|by rewrite Htr|by rewrite Hco].
Qed.

(** ** Steps of the services *)

(** One call of the conversation service or one transaction of the transfer
    package, with any faults and whatever it returns. *)
Inductive crm_step settings (d : Tables) : Tables -> Prop :=
| cs_inbound org contact account at_ bot w out w' :
    w_db w = d -> TouchInbound settings org contact account at_ bot w = (out, w') -> crm_step settings d (w_db w')
| cs_outbound org contact sender by_ at_ w out w' :
    w_db w = d -> RecordOutbound settings org contact sender by_ at_ w = (out, w') -> crm_step settings d (w_db w')
| cs_resolve org contact reason actor w out w' :
    w_db w = d -> Resolve org contact reason actor w = (out, w') -> crm_step settings d (w_db w')
| cs_snooze org contact until actor w out w' :
    w_db w = d -> Snooze org contact until actor w = (out, w') -> crm_step settings d (w_db w')
| cs_assign org contact assignee team actor w out w' :
    w_db w = d -> Assign org contact assignee team actor w = (out, w') -> crm_step settings d (w_db w')
| cs_pending org contact actor w out w' :
    w_db w = d -> SetPending org contact actor w = (out, w') -> crm_step settings d (w_db w')
| cs_open org contact actor w out w' :
    w_db w = d -> Open org contact actor w = (out, w') -> crm_step settings d (w_db w')
| cs_reopen org id actor w out w' :
    w_db w = d -> Reopen org id actor w = (out, w') -> crm_step settings d (w_db w')
| cs_handling org contact h w out w' :
    w_db w = d -> SetHandling org contact h w = (out, w') -> crm_step settings d (w_db w')
| cs_attribute conv window w out w' :
    w_db w = d -> AttributeToCampaign conv window w = (out, w') -> crm_step settings d (w_db w')
| cs_read conv user at_ w out w' :
    w_db w = d -> MarkRead conv user at_ w = (out, w') -> crm_step settings d (w_db w')
| cs_transfer d' : transfer_step d d' -> crm_step settings d d'.

Lemma crm_ok_write d d' o c :
  crm_ok d -> row_ok c -> no_other (clashes c) (cv_ID c) (db_conversations d) = true ->
  d' = set_db_outbox o (set_db_conversations (<[cv_ID c := c]> (db_conversations d)) d) -> crm_ok d'.
Proof.
  intros Hok Hc Hno ->. apply (crm_ok_convs d); [done..|]. simpl.
  apply convs_ok_insert; [apply Hok|done|done].
Qed.

Lemma new_conversation_ok id org contact account at_ h : row_ok (new_conversation id org contact account at_ h).
Proof. split; simpl; try done; lia. Qed.

Lemma conv_row d id r : crm_ok d -> db_conversations d !! id = Some r -> row_ok r /\ cv_ID r = id.
Proof. intros [_ [Hk _ Hr]] Hid. eauto. Qed.

Lemma transfer_step_convs d d' : wf_keys d -> transfer_step d d' ->
  db_conversations d' = db_conversations d \/
  exists p us, db_conversations d' = update_where p us (db_conversations d) /\
    (forall c, p c = true -> IsActive (cv_Status c) = true) /\
    (us = [set_cv_AssigneeID None] \/ exists t, us = mirror_updates t).
Proof.
  intros Hwf Hs.
  assert (forall t d0, db_conversations d0 = db_conversations d ->
    db_conversations (mirror_effect t d0) = db_conversations d \/
    exists p us, db_conversations (mirror_effect t d0) = update_where p us (db_conversations d) /\
      (forall c, p c = true -> IsActive (cv_Status c) = true) /\
      (us = [set_cv_AssigneeID None] \/ exists t, us = mirror_updates t)) as Hmir.
  { intros t d0 E. unfold mirror_effect. case_match; [|case_match; [|by left]]; right.
    - eexists _, _. split; [simpl; by rewrite E|]. split; [|by right; eexists].
      intros c Hc. apply live_conversation_live in Hc as (_ & _ & ? & _). done.
    - eexists _, _. split; [simpl; by rewrite E|]. split; [|by left].
      intros c [Hc _]%andb_true_iff. apply live_conversation_live in Hc as (_ & _ & ? & _). done. }
  destruct Hs as [pin c w row w' <- Hr|copy w u w' <- Hr|org id by_ w out w' <- Hr
    |org id w u w' <- Hr|org contact agent team w u w' <- Hr].
  - apply pick_tx_ok in Hr as (t & _ & _ & _ & -> & -> & _); [|done]. unfold pick_effect.
    case_match; [|by apply Hmir]. simpl. by apply Hmir.
  - apply return_tx_ok in Hr as ->. by apply Hmir.
  - apply Resume_ok in Hr as [->|(t & _ & _ & _ & _ & _ & ->)]; [by left|by apply Hmir|done].
  - apply Expire_ok in Hr as [->|(t & _ & _ & _ & ->)]; [by left|by apply Hmir|done].
  - apply AssignActiveTx_ok in Hr as [_ [[-> _]|(t & now & _ & _ & ->)]]; [by left|by left|exact (wf_tr _ Hwf)].
Qed.

Lemma update_conversations_run p us w out w' :
  update_conversations p us w = (out, w') ->
  w_db w' = w_db w \/
  w_db w' = set_db_conversations (update_where p us (db_conversations (w_db w))) (w_db w).
Proof.
  destruct out as [n|e]; intros Hr.
  - apply update_conversations_ok in Hr as (_ & -> & _). by right.
  - apply stmt_db_err in Hr as (-> & _). by left.
Qed.

Lemma crm_ok_update d d' p us :
  crm_ok d -> (forall c, p c = true -> row_ok c -> row_ok (apply_updates us c)) ->
  (forall c, same_conversation c (apply_updates us c) /\ cv_Status (apply_updates us c) = cv_Status c) ->
  d' = d \/ d' = set_db_conversations (update_where p us (db_conversations d)) d -> crm_ok d'.
Proof.
  intros Hok Hp Hs [->| ->]; [done|]. apply (crm_ok_convs d); [done..|]. simpl.
  apply convs_ok_update; [apply Hok|done|done].
Qed.

Lemma SetHandling_run org contact h w out w' :
  SetHandling org contact h w = (out, w') ->
  w_db w' = w_db w \/ w_db w' = set_db_conversations
    (update_where (live_conversation org contact) [set_cv_Handling h] (db_conversations (w_db w))) (w_db w).
Proof.
  unfold SetHandling, bind, try.
  destruct (update_conversations _ _ w) as [x w1] eqn:E. apply update_conversations_run in E.
  destruct x as [n|[]]; intros [= _ <-]; done.
Qed.

Lemma AttributeToCampaign_run conv window w out w' :
  AttributeToCampaign conv window w = (out, w') ->
  w_db w' = w_db w \/ exists c campaign, conv = Some c /\ w_db w' = set_db_conversations
    (update_where (fun r => conv_by_id (cv_ID c) r && is_none (cv_OriginCampaignID r))
       [set_cv_OriginCampaignID (Some campaign)] (db_conversations (w_db w))) (w_db w).
Proof.
  unfold AttributeToCampaign. destruct conv as [c|]; [|intros [= _ <-]; by left].
  destruct (is_some _); [intros [= _ <-]; by left|]. unfold bind at 1, try.
  destruct (query _ w) as [[br|e] w1] eqn:E; pose proof (query_db _ _ _ _ E) as Hdb.
  - unfold bind. destruct (update_conversations _ _ w1) as [x w2] eqn:E2.
    apply update_conversations_run in E2. rewrite Hdb in E2.
    destruct x; intros [= _ <-]; (destruct E2; [by left|right; eauto]).
  - destruct e; intros [= _ <-]; by left.
Qed.

Lemma MarkRead_run conv user at_ w out w' :
  MarkRead conv user at_ w = (out, w') -> exists rs, w_db w' = set_db_reads rs (w_db w).
Proof.
  destruct out as [u|e]; intros Hr.
  - apply stmt_ok_inv in Hr as (d & [= _ <-] & _ & ->). eexists. reflexivity.
  - apply stmt_db_err in Hr as (-> & _). exists (db_reads (w_db w)). by destruct (w_db w).
Qed.

(** A row replacing another of the same contact. *)
Lemma no_other_same c c' k x t :
  no_other (clashes c) k t = true ->
  cv_OrganizationID c' = cv_OrganizationID c -> cv_ContactID c' = cv_ContactID c ->
  IsActive (cv_Status c) = true -> live (cv_DeletedAt c) = true ->
  no_other (clashes c') k (<[k := x]> t) = true.
Proof.
  rewrite !no_other_spec. intros Hno Ho Hc Ha Hl k' r Hk' Hne. rewrite lookup_insert_ne in Hk' by done.
  specialize (Hno _ _ Hk' Hne). apply not_true_iff_false. rewrite clashes_true, Ho, Hc.
  intros (_ & _ & A1 & A2 & A3 & A4). apply not_true_iff_false in Hno. apply Hno, clashes_true. done.
Qed.

Lemma Assign_wf org contact assignee team actor w c w' :
  wf_keys (w_db w) -> Assign org contact assignee team actor w = (Ok c, w') -> wf_keys (w_db w').
Proof.
  intros Hwf Hr. apply Assign_ok in Hr as (r & o & rows & Hk & _ & -> & _ & E & Hrows & _); [|done].
  pose proof Hwf as [Hc Ht Hct]. rewrite E. split; simpl; [| |done].
  - apply keyed_insert; [done|]. by destruct (assign_same assignee team r).
  - destruct Hrows as [[-> _]|(t & now & Htr & _ & ->)]; [done|]. apply keyed_insert; [done|].
    unfold assign_transfer. repeat case_match; done.
Qed.

Lemma crm_step_ok settings d d' : crm_ok d -> crm_step settings d d' -> crm_ok d'.
Proof.
  intros Hok Hs. pose proof (crm_keys _ Hok) as Hwf. destruct Hs as
    [org contact account at_ bot w [c|e] w' <- Hr|org contact sender by_ at_ w [oc|e] w' <- Hr
    |org contact reason actor w [c|e] w' <- Hr|org contact until actor w [c|e] w' <- Hr
    |org contact assignee team actor w [c|e] w' <- Hr|org contact actor w [c|e] w' <- Hr
    |org contact actor w [c|e] w' <- Hr|org id actor w [c|e] w' <- Hr
    |org contact h w out w' <- Hr|conv window w out w' <- Hr|conv user at_ w out w' <- Hr|d' Hr];
    try (by apply transaction_err in Hr as ->).
  - apply touch_ok in Hr as (o & Ht & Hno & ->); [|done].
    eapply crm_ok_write; [done| |exact Hno|done].
    destruct Ht as [r Hk Hl -> _|r Hno' Hk Hre _ -> _|Hno' _ _ -> _].
    + destruct (conv_row _ _ _ Hok Hk) as [Hrow _]. apply live_conversation_live in Hl as (_ & _ & Hl & _).
      eapply (row_step_ok settings); [by apply cr_inbound|done].
    + destruct (conv_row _ _ _ Hok Hk) as [Hrow _]. eapply (row_step_ok settings); [eapply cr_reopened; by eapply recently_resolved_spec|done].
    + apply new_conversation_ok.
  - apply RecordOutbound_ok in Hr as [(_ & _ & _ & ->)|[(r & Hk & Hl & _ & Hno & ->)
      |(_ & _ & o & _ & Hnew & Hno & ->)]]; [done| | |done].
    + destruct (conv_row _ _ _ Hok Hk) as [Hrow _]. apply live_conversation_live in Hl as (_ & _ & Hl & _).
      destruct (outbound_same settings org sender by_ at_ r r) as [Hid _].
      rewrite <- Hid in Hno |- *. eapply (crm_ok_write _ _ (db_outbox (w_db w))); [done| |exact Hno|].
      * eapply (row_step_ok settings); [by apply cr_outbound|done].
      * done.
    + set (r := new_conversation _ _ _ _ _ _) in *.
      destruct (outbound_same settings org sender by_ at_ r r) as [Hid _].
      eapply (crm_ok_write (set_db_conversations (<[w_uuid w := r]> (db_conversations (w_db w))) (w_db w)) _ o).
      * eapply (crm_ok_write _ _ (db_outbox (w_db w)) r); [done|apply new_conversation_ok|exact Hno|done].
      * apply (row_step_ok settings r); [by apply cr_outbound|apply new_conversation_ok].
      * rewrite Hid. destruct (outbound_same settings org sender by_ at_ r r) as (_ & ? & ? & _).
        by apply (no_other_same r).
      * simpl. rewrite Hid. by rewrite insert_insert_eq.
  - apply Resolve_ok in Hr as (r & o & Hk & Hl & -> & -> & _); [|done].
    destruct (conv_row _ _ _ Hok Hk) as [Hrow _]. apply live_conversation_live in Hl as (_ & _ & Hl & _).
    destruct (resolve_same reason actor (w_now w) r) as [Hid _].
    apply (crm_ok_convs (w_db w)); [done..|]. simpl. rewrite <- Hid.
    apply convs_ok_insert; [apply Hok| |].
    + eapply (row_step_ok settings); [by apply cr_resolved|done].
    + apply closed_no_other. unfold resolve_updates, apply_updates. by case_match.
  - apply Snooze_ok in Hr as (r & o & Hk & Hl & -> & Hno & -> & _); [|done].
    destruct (conv_row _ _ _ Hok Hk) as [Hrow _]. apply live_conversation_live in Hl as (_ & _ & Hl & _).
    eapply (crm_ok_write (w_db w) _ o (apply_updates (snooze_updates until actor) r)); [done| |done|done].
    eapply (row_step_ok settings); [by apply cr_snoozed|done].
  - pose proof (Assign_wf _ _ _ _ _ _ _ _ Hwf Hr) as Hwf'.
    apply Assign_ok in Hr as (r & o & rows & Hk & Hl & -> & Hno & E & _); [|done].
    destruct (conv_row _ _ _ Hok Hk) as [Hrow _]. apply live_conversation_live in Hl as (_ & _ & Hl & _).
    destruct (assign_same assignee team r) as [Hid _].
    split; [done|]. rewrite E. simpl. rewrite <- Hid in Hno |- *. apply convs_ok_insert; [apply Hok| |done].
    eapply (row_step_ok settings); [by apply cr_assigned|done].
  - apply setStatus_ok in Hr as (r & Hk & Hl & [(_ & _ & ->)|(_ & -> & Hno & o & -> & _)]); [done| |done|done].
    destruct (conv_row _ _ _ Hok Hk) as [Hrow _]. apply live_conversation_live in Hl as (_ & _ & Hl & _).
    eapply (crm_ok_write (w_db w) _ o (set_cv_WaitingSince None (set_cv_Status ConversationPending r))); [done| |done|done].
    eapply (row_step_ok settings); [by apply cr_pending|done].
  - apply setStatus_ok in Hr as (r & Hk & Hl & [(_ & _ & ->)|(_ & -> & Hno & o & -> & _)]); [done| |done|done].
    destruct (conv_row _ _ _ Hok Hk) as [Hrow _]. apply live_conversation_live in Hl as (_ & _ & Hl & _).
    eapply (crm_ok_write (w_db w) _ o
      (set_cv_SnoozedByID None (set_cv_SnoozedUntil None (set_cv_Status ConversationOpen r)))); [done| |done|done].
    eapply (row_step_ok settings); [by apply cr_opened|done].
  - apply Reopen_ok in Hr as [(k & -> & _)|(r & o & Hk & Hid & Hst & _ & _ & _ & -> & Hno & -> & _)]; [done| |done].
    destruct (conv_row _ _ _ Hok Hk) as [Hrow _].
    eapply (crm_ok_write (w_db w) _ o (bump_reopened (apply_updates reopen_now r))); [done| | |].
    + eapply (row_step_ok settings); [by apply cr_reopen|done].
    + change (cv_ID (bump_reopened (apply_updates reopen_now r))) with (cv_ID r). by rewrite Hid.
    + change (cv_ID (bump_reopened (apply_updates reopen_now r))) with (cv_ID r). by rewrite Hid.
  - eapply crm_ok_update; [done| | |by apply SetHandling_run in Hr].
    + intros c Hc Hrow. apply live_conversation_live in Hc as (_ & _ & Hl & _).
      eapply (row_step_ok settings); [by apply cr_handling|done].
    + done.
  - apply AttributeToCampaign_run in Hr as [->|(c & camp & _ & Hdb)]; [done|].
    eapply crm_ok_update; [done| | |by right].
    + intros r [_ Hr]%andb_true_iff Hrow. apply is_none_true in Hr.
      eapply (row_step_ok settings); [by apply cr_attributed|done].
    + done.
  - apply MarkRead_run in Hr as (rs & ->). apply (crm_ok_convs (w_db w)); try done. apply Hok.
  - destruct (transfer_step_convs _ _ Hwf Hr) as [E|(p & us & E & Hp & Hus)].
    + split; [by eapply transfer_step_wf|rewrite E; apply Hok].
    + split; [by eapply transfer_step_wf|]. rewrite E. apply convs_ok_update; [apply Hok| |].
      * intros c Hc Hrow. destruct Hus as [->|(t & ->)];
          (eapply (row_step_ok settings); [|done]); [apply cr_unassigned|apply cr_mirrored]; auto.
      * intros c. destruct Hus as [->|(t & ->)]; [done|]. unfold mirror_updates. case_match; done.
Qed.

End Ops.
