(* ===== verification/ConversationProps.v ===== *)
(** * What the conversation service guarantees

    Consistency of the tables under every call, the functional behaviour of
    [TouchInbound], the response clock ([waiting_since]), the announcement of
    status changes, the idle sweep, the mirror between assignments and
    transfers, campaign attribution; then their instances on the sample tables
    and the behaviours of the code that differ from its comments. *)
From S2P Require Import Prelude Store Events Models Statements Samples Transfers Conversation ConversationLemmas.

#[local] Arguments inbound_updates : simpl never.
#[local] Arguments reopen_updates : simpl never.
#[local] Arguments outbound_updates : simpl never.
#[local] Arguments resolve_updates : simpl never.
#[local] Arguments new_conversation : simpl never.
#[local] Arguments clashes : simpl never.
#[local] Arguments publishAs : simpl never.
#[local] Arguments IsKnown : simpl never.

(** ** Runs that meet no fault *)

Section Quiet.
Context `{SqlLaws} `{UuidText}.
Implicit Types (d : Tables) (w : world Tables) (c r : Conversation).

(** [uuid.New()] has not produced an identifier of the tables. *)
Definition fresh_ids w : Prop :=
  w_uuid w <> uuid_Nil /\
  forall n, (w_uuid w <= n)%N -> db_conversations (w_db w) !! n = None /\ db_outbox (w_db w) !! n = None.

Lemma find_active_quiet org contact w :
  quiet w -> exists w', w_db w' = w_db w /\ w_uuid w' = w_uuid w /\ quiet w' /\
    ((exists c, find_active org contact w = (Ok c, w')) \/
     find_active org contact w = (Err ErrNotFound, w') /\ no_live org contact (w_db w)).
Proof.
  intros Hq. unfold find_active, bind, try.
  destruct (first_row (live_conversation org contact) unordered (db_conversations (w_db w))) as [c|e] eqn:E.
  - exists (after_stmt [] (w_db w) w). split_and!; [done|done|by apply quiet_after_stmt..|].
    left. exists c. by erewrite query_quiet.
  - pose proof (first_row_err _ _ _ _ E) as [-> Hno]. exists (set_faults [] w).
    destruct Hq as [Hf Hab]. split_and!; [done|done|by split|]. right. split; [|done].
    by erewrite query_quiet_err by done.
Qed.

Lemma update_conversation_quiet id us w r :
  quiet w -> keyed cv_ID (db_conversations (w_db w)) -> db_conversations (w_db w) !! id = Some r ->
  live (cv_DeletedAt r) = true ->
  no_other (clashes (apply_updates us r)) id (db_conversations (w_db w)) = true ->
  exists w', update_conversation id us w = (Ok tt, w') /\ quiet w' /\ w_uuid w' = w_uuid w /\
    w_db w' = set_db_conversations (<[id := apply_updates us r]> (db_conversations (w_db w))) (w_db w).
Proof.
  intros Hq Hk Hr Hl Hno. eexists. split; [apply stmt_quiet; [done|]|].
  - simpl. rewrite (update_by_id _ _ r) by done.
    assert (forallb (fun kr => negb (conv_by_id id kr.2) ||
        no_other (clashes (apply_updates us kr.2)) kr.1 (db_conversations (w_db w)))%bool
        (map_to_list (db_conversations (w_db w))) = true) as ->; [|done].
    apply forallb_forall. intros [k c] Hin. apply list_elem_of_In, elem_of_map_to_list in Hin. simpl.
    destruct (conv_by_id id c) eqn:Hc; [|done]. simpl. apply conv_by_id_true in Hc as [Hc _].
    rewrite (Hk _ _ Hin) in Hc. subst. by rewrite Hr in Hin; simplify_eq.
  - split_and!; [by apply quiet_after_stmt|done|done].
Qed.

Lemma publishAs_quiet org contact conv ty actor data w :
  quiet w -> w_uuid w <> uuid_Nil -> db_outbox (w_db w) !! w_uuid w = None ->
  exists w' o, publishAs org contact conv ty actor data w = (Ok tt, w') /\ quiet w' /\
    w_db w' = set_db_outbox o (w_db w).
Proof.
  intros Hq Hnil Hnew. unfold publishAs. destruct (IsKnown ty) eqn:Hty; simpl.
  2:{ exists w, (db_outbox (w_db w)). split_and!; [done|done|by destruct (w_db w)]. }
  unfold bind at 1. simpl. unfold bind at 1. simpl.
  unfold PublishTx. simpl. rewrite Hty. simpl.
  destruct (N.eqb_spec org uuid_Nil).
  { exists (set_uuid (w_uuid w + 1)%N w), (db_outbox (w_db w)).
    split_and!; [done|by destruct Hq|simpl; by destruct (w_db w)]. }
  destruct (N.eqb_spec (w_uuid w) uuid_Nil); [done|].
  unfold try, bind. simpl. unfold stmt. simpl. destruct Hq as [Hf Hab]. rewrite Hab, Hf. simpl.
  unfold toRow. simpl. destruct (N.eqb_spec (w_uuid w) uuid_Nil); [done|]. rewrite Hnew.
  eexists _, _. split_and!; [done|by split|done].
Qed.

Lemma byID_quiet id w r :
  quiet w -> keyed cv_ID (db_conversations (w_db w)) -> db_conversations (w_db w) !! id = Some r ->
  live (cv_DeletedAt r) = true -> byID id w = (Ok r, after_stmt [] (w_db w) w).
Proof.
  intros Hq Hk Hr Hl. apply query_quiet; [done|].
  destruct (first_row _ _ _) as [c|e] eqn:E.
  - apply first_row_ok in E as (k & Hc & Hp). apply conv_by_id_true in Hp as [Hid _].
    rewrite (Hk _ _ Hc) in Hid. congruence.
  - apply first_row_err in E as [_ E]. specialize (E _ _ Hr).
    apply not_true_iff_false in E. destruct E. apply conv_by_id_true. eauto.
Qed.
End Quiet.

Section Total.
Context `{SqlLaws} `{UuidText}.
Implicit Types (d : Tables) (w : world Tables) (c r : Conversation).

Lemma live_no_other t id r r' :
  convs_ok t -> t !! id = Some r -> IsActive (cv_Status r) = true -> live (cv_DeletedAt r) = true ->
  same_conversation r r' -> no_other (clashes r') id t = true.
Proof.
  intros [_ Hi _] Hr Ha Hl (_ & Ho & Hc & _). apply no_other_spec. intros k x Hx Hne.
  apply not_true_iff_false. rewrite clashes_true, Ho, Hc. intros (_ & _ & A1 & A2 & A3 & A4).
  apply Hne. symmetry. apply (Hi id r k x Hr Hx). apply clashes_true. done.
Qed.

Lemma none_no_other d org contact k r' :
  no_live org contact d -> cv_OrganizationID r' = org -> cv_ContactID r' = contact ->
  no_other (clashes r') k (db_conversations d) = true.
Proof.
  intros Hno <- <-. apply no_other_spec. intros j x Hx _. unfold clashes. rewrite (Hno _ _ Hx).
  by rewrite andb_false_r.
Qed.

Lemma reopenRecent_quiet settings org contact account at_ w :
  crm_ok (w_db w) -> quiet w -> fresh_ids w -> no_live org contact (w_db w) ->
  exists oc w', reopenRecent settings org contact at_ account w = (Ok oc, w') /\ quiet w' /\
    (oc = None -> w_db w' = w_db w /\ w_uuid w' = w_uuid w).
Proof.
  intros Hok Hq [Hnil Hfresh] Hno. pose proof (co_keyed _ (crm_convs _ Hok)) as Hkeyed.
  unfold reopenRecent, bind at 1, try at 1.
  destruct (first_row (reopenable org contact (at_ - reopen_window settings org)) by_resolved_desc
              (db_conversations (w_db w))) as [r|e] eqn:E.
  - erewrite query_quiet by done. set (w1 := after_stmt _ _ w).
    assert (quiet w1) as Hq1 by by apply quiet_after_stmt.
    apply first_row_ok in E as (k & Hk & Hp). rewrite <- (Hkeyed _ _ Hk) in Hk. clear k.
    assert (cv_OrganizationID r = org /\ cv_ContactID r = contact /\ live (cv_DeletedAt r) = true)
      as (Ho & Hc & Hl) by (unfold reopenable in Hp; rewrite !andb_true_iff, !N.eqb_eq in Hp; tauto).
    destruct (reopen_same at_ account r) as (Hid & Ho' & Hc' & Hd' & _).
    destruct (update_conversation_quiet (cv_ID r) (reopen_updates at_ account) w1 r)
      as (w2 & Hu & Hq2 & Huu2 & Hdb2); try done.
    { apply (none_no_other _ org contact); [done|congruence..]. }
    rewrite (bind_run _ _ _ _ _ Hu).
    destruct (publishAs_quiet org contact (cv_ID r) "conversation.status_changed" SystemActor
       (from_to ConversationResolved ConversationOpen ++ [("reopened"%string, ABool true)]) w2)
      as (w3 & o & Hp3 & Hq3 & Hdb3); [done|by rewrite Huu2|rewrite Huu2, Hdb2; apply Hfresh; simpl; lia|].
    unfold publish. rewrite (bind_run _ _ _ _ _ Hp3).
    erewrite bind_run.
    2:{ eapply byID_quiet; [done|..].
        - rewrite Hdb3, Hdb2. simpl. by apply keyed_insert.
        - rewrite Hdb3, Hdb2. simpl. apply lookup_insert_eq.
        - by rewrite Hd'. }
    eexists _, _. split; [done|]. split; [by apply quiet_after_stmt|done].
  - pose proof (first_row_err _ _ _ _ E) as [-> _]. erewrite query_quiet_err by done.
    eexists _, _. split; [done|]. destruct Hq. split; [by split|done].
Qed.

Lemma create_quiet org contact account at_ h w :
  quiet w -> fresh_ids w -> no_live org contact (w_db w) ->
  exists c w', create org contact account at_ h w = (Ok c, w') /\ quiet w'.
Proof.
  intros Hq [Hnil Hfresh] Hno. unfold create. unfold bind at 1. simpl.
  set (w1 := set_uuid _ w). assert (quiet w1) as Hq1 by by destruct Hq.
  set (c := new_conversation (w_uuid w) org contact account at_ h).
  assert (exists w2, insert_conversation c w1 = (Ok tt, w2) /\ quiet w2 /\ w_uuid w2 = w_uuid w1 /\
            db_outbox (w_db w2) = db_outbox (w_db w)) as (w2 & Hi & Hq2 & Hu2 & Ho2).
  { eexists. split; [apply stmt_quiet; [done|]|].
    - simpl. destruct (Hfresh (w_uuid w)) as [Hnew _]; [lia|].
      change (cv_ID c) with (w_uuid w). rewrite Hnew. simpl.
      rewrite (none_no_other _ org contact) by done. done.
    - split_and!; [by apply quiet_after_stmt|done|done]. }
  rewrite (bind_run _ _ _ _ _ Hi).
  destruct (publishAs_quiet org contact (w_uuid w) "conversation.created" SystemActor
     [("status"%string, AString (string_of_status ConversationOpen))] w2) as (w3 & o & Hp3 & Hq3 & _);
    [done|rewrite Hu2; simpl; clear; unfold uuid_Nil; lia|rewrite Ho2, Hu2; apply Hfresh; simpl; lia|].
  unfold publish. rewrite (bind_run _ _ _ _ _ Hp3). eexists _, _. done.
Qed.

Lemma touch_body_quiet settings org contact account at_ h w :
  crm_ok (w_db w) -> quiet w -> fresh_ids w ->
  exists c w', touch_body settings org contact account at_ h w = (Ok c, w') /\ quiet w'.
Proof.
  intros Hok Hq [Hnil Hfresh]. pose proof (crm_convs _ Hok) as Hcs. pose proof (co_keyed _ Hcs) as Hkeyed.
  unfold touch_body. erewrite bind_run by (by apply stmt_quiet).
  set (w1 := after_stmt _ _ w). assert (quiet w1) as Hq1 by by apply quiet_after_stmt.
  destruct (find_active_quiet org contact w1 Hq1) as (w2 & Hdb2 & Hu2 & Hq2 & [(r & Hf)|[Hf Hno]]).
  - pose proof (find_active_ok _ _ _ _ _ Hf) as ((k & Hk) & Hl & _). simpl in Hk.
    rewrite <- (Hkeyed _ _ Hk) in Hk. clear k.
    pose proof (live_conversation_live _ _ _ Hl) as (_ & _ & Ha & Hlive).
    unfold try at 1. unfold bind at 1, activeForUpdate. rewrite Hf.
    destruct (update_conversation_quiet (cv_ID r) (inbound_updates at_ account r) w2 r)
      as (w3 & Hu & Hq3 & Huu3 & Hdb3); [done|by rewrite Hdb2|by rewrite Hdb2|done| |].
    { rewrite Hdb2. apply (live_no_other _ _ r); try done. apply inbound_same. }
    rewrite (bind_run _ _ _ _ _ Hu).
    assert (exists w4 o, (if negb (bool_decide (cv_Status r = ConversationOpen))
       then publish org contact (cv_ID r) "conversation.status_changed" (from_to (cv_Status r) ConversationOpen)
       else ret tt) w3 = (Ok tt, w4) /\ quiet w4 /\ w_db w4 = set_db_outbox o (w_db w3)) as (w4 & o & Hp & Hq4 & Hdb4).
    { case_bool_decide; simpl.
      - exists w3, (db_outbox (w_db w3)). split_and!; [done|done|by destruct (w_db w3)].
      - apply publishAs_quiet; rewrite ?Huu3, ?Hu2, ?Hdb3; simpl; rewrite ?Hdb2; try done.
        apply Hfresh. simpl. lia. }
    rewrite (bind_run _ _ _ _ _ Hp).
    eexists _, _. split; [eapply byID_quiet|by apply quiet_after_stmt]; [done|..].
    + rewrite Hdb4, Hdb3. simpl. apply keyed_insert; [by rewrite Hdb2|]. by destruct (inbound_same at_ account r).
    + rewrite Hdb4, Hdb3. simpl. apply lookup_insert_eq.
    + by destruct (inbound_same at_ account r) as (_ & _ & _ & -> & _).
  - unfold try at 1. unfold bind at 1, activeForUpdate. rewrite Hf. simpl.
    destruct (reopenRecent_quiet settings org contact account at_ w2) as (oc & w3 & Hre & Hq3 & Hnone);
      [by rewrite Hdb2|done|split; [by rewrite Hu2|rewrite Hdb2, Hu2; apply Hfresh]|by rewrite Hdb2|].
    rewrite (bind_run _ _ _ _ _ Hre). destruct oc as [c|]; [by eexists _, _|].
    destruct (Hnone eq_refl) as [Hdb3 Hu3].
    apply create_quiet; [done| |by rewrite Hdb3, Hdb2].
    split; [by rewrite Hu3, Hu2|]. rewrite Hu3, Hu2, Hdb3, Hdb2. apply Hfresh.
Qed.
End Total.

(** ** The conversation of a contact as an exchange of messages *)

Section Chat.
Context `{SqlLaws} `{UuidText} (settings : uuid -> Settings) (orgID contactID : uuid).
Implicit Types (d : Tables) (w : world Tables) (c r : Conversation).

Inductive chat :=
| FromCustomer (at_ : time) (account : string) (botActive : bool)
| FromUs (sender : SenderType) (senderID : option uuid) (at_ : time).

Definition chat_call (m : chat) : MT unit :=
  match m with
  | FromCustomer at_ account bot => TouchInbound settings orgID contactID account at_ bot ;;; ret tt
  | FromUs sender by_ at_ => RecordOutbound settings orgID contactID sender by_ at_ ;;; ret tt
  end.

Fixpoint chat_run (l : list chat) : MT unit :=
  match l with
  | [] => ret tt
  | m :: l => chat_call m ;;; chat_run l
  end.

Definition customer_time (m : chat) : option time :=
  match m with FromCustomer at_ _ _ => Some at_ | _ => None end.
Definition reply_time (m : chat) : option time :=
  match m with FromUs s _ at_ => if CountsAsAgentReply s then Some at_ else None | _ => None end.

(** What one message makes of the live row. *)
Definition chat_row (m : chat) (c : Conversation) : Conversation :=
  match m with
  | FromCustomer at_ account _ => apply_updates (inbound_updates at_ account c) c
  | FromUs sender by_ at_ => apply_updates (outbound_updates settings orgID sender by_ at_ c) c
  end.

Lemma chat_row_live m c :
  live_conversation orgID contactID c = true -> live_conversation orgID contactID (chat_row m c) = true.
Proof.
  unfold live_conversation. rewrite !andb_true_iff. intros (((Ho & Hc) & Ha) & Hl).
  assert (same_conversation c (chat_row m c)) as (_ & -> & -> & -> & _)
    by (destruct m; [apply inbound_same|apply outbound_same]).
  split_and!; try done. destruct m as [at_ account b|s by_ at_]; simpl;
    unfold inbound_updates, outbound_updates, set_account, apply_updates; repeat case_match; done.
Qed.

Lemma chat_row_times m c :
  cv_WaitingSince (chat_row m c) =
    (match reply_time m with
     | Some _ => None
     | None => match cv_WaitingSince c with Some t => Some t | None => customer_time m end
     end) /\
  cv_FirstResponseAt (chat_row m c) =
    match cv_FirstResponseAt c with Some t => Some t | None => reply_time m end.
Proof.
  destruct m as [at_ account b|s by_ at_]; simpl;
    unfold inbound_updates, outbound_updates, set_account, apply_updates, is_none.
  - destruct (cv_WaitingSince c) eqn:E1, (cv_FirstResponseAt c) eqn:E2;
      repeat case_match; cbn [app fold_left]; cbn; rewrite ?E1, ?E2; done.
  - destruct (cv_WaitingSince c) eqn:E1, (cv_FirstResponseAt c) eqn:E2;
      repeat case_match; cbn [app fold_left]; cbn; rewrite ?E1, ?E2; done.
Qed.

Lemma one_live_row d r r' k k' :
  crm_ok d -> db_conversations d !! k = Some r -> db_conversations d !! k' = Some r' ->
  live_conversation orgID contactID r = true -> live_conversation orgID contactID r' = true -> r = r'.
Proof.
  intros Hok Hk Hk' Hl Hl'. assert (k = k') as ->; [|congruence].
  apply (co_index _ (crm_convs _ Hok) k r k' r' Hk Hk'). apply clashes_true.
  apply live_conversation_live in Hl, Hl'. destruct_and!. split_and!; congruence.
Qed.

Lemma chat_call_row m w u w' r :
  crm_ok (w_db w) -> db_conversations (w_db w) !! cv_ID r = Some r ->
  live_conversation orgID contactID r = true -> chat_call m w = (Ok u, w') ->
  crm_ok (w_db w') /\ db_conversations (w_db w') !! cv_ID r = Some (chat_row m r) /\
  cv_ID (chat_row m r) = cv_ID r.
Proof.
  intros Hok Hr Hl Hrun. pose proof (crm_keys _ Hok) as Hwf.
  destruct m as [at_ account b|s by_ at_]; simpl in *; inv_run.
  - pose proof (crm_step_ok settings _ _ Hok (cs_inbound _ _ _ _ _ _ _ w _ _ eq_refl Hrun0)) as Hok'.
    apply touch_ok in Hrun0 as (o & Ht & _ & Hdb); [|done]. rewrite Hdb in *.
    destruct (inbound_same at_ account r) as (Hid & _).
    destruct Ht as [x Hk Hlx -> _|x Hno _ _ _ _ _|Hno _ _ _ _];
      [|by rewrite (Hno _ _ Hr) in Hl|by rewrite (Hno _ _ Hr) in Hl].
    rewrite (one_live_row _ _ _ _ _ Hok Hk Hr Hlx Hl) in *.
    split_and!; [done| |done]. simpl. rewrite Hid. apply lookup_insert_eq.
  - pose proof (crm_step_ok settings _ _ Hok (cs_outbound _ _ _ _ _ _ _ w _ _ eq_refl Hrun0)) as Hok'.
    destruct (outbound_same settings orgID s by_ at_ r r) as (Hid & _).
    apply RecordOutbound_ok in Hrun0 as [(_ & Hno & _)|[(x & Hk & Hlx & _ & _ & Hdb)|(_ & Hno & _)]];
      [by rewrite (Hno _ _ Hr) in Hl| |by rewrite (Hno _ _ Hr) in Hl|done].
    rewrite Hdb in *. rewrite (one_live_row _ _ _ _ _ Hok Hk Hr Hlx Hl) in *.
    split_and!; [done| |done]. simpl. apply lookup_insert_eq.
Qed.

Lemma chat_run_row l w u w' r :
  crm_ok (w_db w) -> db_conversations (w_db w) !! cv_ID r = Some r ->
  live_conversation orgID contactID r = true -> chat_run l w = (Ok u, w') ->
  db_conversations (w_db w') !! cv_ID r = Some (foldl (fun c m => chat_row m c) r l).
Proof.
  revert w r. induction l as [|m l IH]; simpl; intros w r Hok Hr Hl Hrun; inv_run; [done|].
  destruct (chat_call_row _ _ _ _ _ Hok Hr Hl Hrun0) as (Hok' & Hr' & Hid).
  rewrite <- Hid. eapply IH; [exact Hok'| | |exact Hrun].
  - by rewrite Hid.
  - by apply chat_row_live.
Qed.

(** The fold in closed form. *)
Lemma waiting_no_reply l r :
  omap reply_time l = [] ->
  cv_WaitingSince (foldl (fun c m => chat_row m c) r l) =
    match cv_WaitingSince r with Some t => Some t | None => head (omap customer_time l) end.
Proof.
  revert r. induction l as [|m l IH]; simpl; intros r Hno; [by destruct (cv_WaitingSince r)|].
  destruct (reply_time m) eqn:Hm; [done|]. rewrite IH by done.
  destruct (chat_row_times m r) as [-> _]. rewrite Hm.
  destruct (cv_WaitingSince r); [done|]. by destruct (customer_time m).
Qed.

Lemma first_response_fold l r :
  cv_FirstResponseAt (foldl (fun c m => chat_row m c) r l) =
    match cv_FirstResponseAt r with Some t => Some t | None => head (omap reply_time l) end.
Proof.
  revert r. induction l as [|m l IH]; simpl; intros r; [by destruct (cv_FirstResponseAt r)|].
  rewrite IH. destruct (chat_row_times m r) as [_ ->].
  destruct (cv_FirstResponseAt r); [done|]. by destruct (reply_time m).
Qed.
End Chat.

(** ** Calls on one conversation *)

Section Calls.
Context `{SqlLaws} `{UuidText} (settings : uuid -> Settings) (orgID : uuid).
Implicit Types (d : Tables) (w : world Tables) (c r : Conversation).

(** The calls of the service that write conversations, sweeps apart (a sweep
    resolves one conversation after the other). *)
Inductive conversation_call :=
| CallInbound (contact : uuid) (account : string) (at_ : time) (bot : bool)
| CallResolve (contact : uuid) (reason : string) (actor : Actor)
| CallSnooze (contact : uuid) (until : time) (actor : Actor)
| CallPending (contact : uuid) (actor : Actor)
| CallOpen (contact : uuid) (actor : Actor)
| CallReopen (id : uuid) (actor : Actor)
| CallOutbound (contact : uuid) (sender : SenderType) (by_ : option uuid) (at_ : time)
| CallAssign (contact : uuid) (assignee team : option uuid) (actor : Actor)
| CallHandling (contact : uuid) (h : ConversationHandling)
| CallAttribute (conv : option Conversation) (window : Z)
| CallRead (conv user : uuid) (at_ : time).

Definition run_call (call : conversation_call) : MT unit :=
  match call with
  | CallInbound contact account at_ bot => TouchInbound settings orgID contact account at_ bot ;;; ret tt
  | CallResolve contact reason actor => Resolve orgID contact reason actor ;;; ret tt
  | CallSnooze contact until actor => Snooze orgID contact until actor ;;; ret tt
  | CallPending contact actor => SetPending orgID contact actor ;;; ret tt
  | CallOpen contact actor => Open orgID contact actor ;;; ret tt
  | CallReopen id actor => Reopen orgID id actor ;;; ret tt
  | CallOutbound contact sender by_ at_ => RecordOutbound settings orgID contact sender by_ at_ ;;; ret tt
  | CallAssign contact assignee team actor => Assign orgID contact assignee team actor ;;; ret tt
  | CallHandling contact h => SetHandling orgID contact h
  | CallAttribute conv window => AttributeToCampaign conv window ;;; ret tt
  | CallRead conv user at_ => MarkRead conv user at_
  end.

(** A call whose answer is dropped failed exactly when it failed. *)
Lemma dropped_run {A} (m : MT A) w (out : res err unit) w' :
  (m ;;; ret tt) w = (out, w') ->
  match out with Ok _ => exists a, m w = (Ok a, w') | Err e => m w = (Err e, w') end.
Proof. unfold bind. destruct (m w) as [[a|e] w1]; intros [= <- <-]; eauto. Qed.

Lemma run_call_err call w e w' : run_call call w = (Err e, w') -> w_db w' = w_db w.
Proof.
  destruct call; cbn [run_call]; intros Hr;
    lazymatch type of Hr with
    | (_ ;;; _) _ = _ => apply dropped_run in Hr; try (by eapply transaction_err)
    | _ => idtac
    end.
  - unfold SetHandling, bind, try, update_conversations in Hr.
    destruct (stmt _ _ w) as [[n|e'] w1] eqn:E; [done|]. apply stmt_db_err in E as (E & _).
    by destruct e'; injection Hr as _ <-.
  - unfold AttributeToCampaign in Hr. destruct conv as [c|]; [|done]. destruct (is_some _); [done|].
    unfold bind at 1, try in Hr. destruct (query _ w) as [[br|e'] w1] eqn:E; pose proof (query_db _ _ _ _ E) as Hdb.
    + unfold bind, update_conversations in Hr. destruct (stmt _ _ w1) as [[n|e'] w2] eqn:E2; [done|].
      apply stmt_db_err in E2 as (E2 & _). injection Hr as _ <-. congruence.
    + by destruct e'; injection Hr as _ <-.
  - by apply stmt_db_err in Hr as (-> & _).
Qed.

(** The one silent change: an agent's reply, where the organization has
    [AutoPendingOnAgentReply] on, moves an open conversation to pending. *)
Definition auto_pending (call : conversation_call) r r' : Prop :=
  exists contact sender by_ at_, call = CallOutbound contact sender by_ at_ /\
    CountsAsAgentReply sender = true /\ AutoPendingOnAgentReply (settings orgID) = true /\
    cv_Status r = ConversationOpen /\ cv_Status r' = ConversationPending.

(** The outbox of [d'] gained one event: conversation [k] went from the status
    of [r] to the status of [r']. *)
Definition announces (k : uuid) r r' d d' : Prop :=
  exists row, db_outbox d' = <[ob_ID row := row]> (db_outbox d) /\ db_outbox d !! ob_ID row = None /\
    ob_Type row = "conversation.status_changed"%string /\ ob_OrganizationID row = orgID /\
    ob_SubjectID row = Some k /\ ob_ContactID row = Some (cv_ContactID r) /\ ob_PublishedAt row = None /\
    exists rest, ob_Data row = from_to (cv_Status r) (cv_Status r') ++ rest.

(** Every change of status is announced. *)
Definition all_announced d d' : Prop :=
  forall k r r', db_conversations d !! k = Some r -> db_conversations d' !! k = Some r' ->
    cv_Status r' <> cv_Status r -> announces k r r' d d'.

Lemma status_event_announces d d' k r r' actor more o :
  outbox_gets (status_event orgID (cv_ContactID r) k actor (cv_Status r) (cv_Status r') more) d o ->
  db_outbox d' = o -> announces k r r' d d'.
Proof.
  intros (row & (Ho & Ht & Hc & _ & Hs & Hp & Hd) & Hn & Eo) Hout. exists row. split_and!; try done; [congruence|].
  rewrite Hd, <- app_assoc. eauto.
Qed.

(** One row written, with the event that says so. *)
Lemma one_row_announced d d' x c o actor more :
  db_conversations d !! cv_ID x = Some x ->
  db_conversations d' = <[cv_ID x := c]> (db_conversations d) -> db_outbox d' = o ->
  (cv_Status c <> cv_Status x ->
     outbox_gets (status_event orgID (cv_ContactID x) (cv_ID x) actor (cv_Status x) (cv_Status c) more) d o) ->
  all_announced d d'.
Proof.
  intros Hx Hc Ho Hev k r r' Hr Hr' Hne. rewrite Hc in Hr'.
  apply lookup_insert_Some in Hr' as [[<- <-]|[_ Hr']]; [|congruence].
  rewrite Hx in Hr. simplify_eq. eapply status_event_announces; [by apply Hev|done].
Qed.

Context (Horg : orgID <> uuid_Nil).

Lemma touch_announces contact account at_ h w c w' :
  wf_keys (w_db w) -> touchInbound settings orgID contact account at_ h w = (Ok c, w') ->
  all_announced (w_db w) (w_db w').
Proof.
  intros Hwf Hrun. apply touch_ok in Hrun as (o & Ht & _ & Hdb); [|done]. rewrite Hdb.
  destruct Ht as [x Hk Hl -> Hev|x Hno Hk Hre _ -> Hev|Hno _ Hnew -> Hev].
  - destruct (inbound_same at_ account x) as (-> & _).
    assert (cv_Status (apply_updates (inbound_updates at_ account x) x) = ConversationOpen) as Hst
      by (unfold inbound_updates, set_account, apply_updates; by repeat case_match).
    apply live_conversation_live in Hl as (_ & <- & _).
    eapply (one_row_announced _ _ x _ _ SystemActor []); [done..|]. rewrite Hst. intros Hne.
    rewrite bool_decide_eq_false_2 in Hev by congruence. by apply Hev.
  - destruct (reopen_same at_ account x) as (-> & _).
    assert (cv_ContactID x = contact /\ cv_Status x = ConversationResolved) as [<- Hst]
      by (destruct Hre as (? & ? & ? & ? & ?); done).
    assert (cv_Status (apply_updates (reopen_updates at_ account) x) = ConversationOpen) as Hst'
      by (unfold reopen_updates, set_account, apply_updates; by repeat case_match).
    eapply (one_row_announced _ _ x); [done..|]. rewrite Hst, Hst'. intros _. by apply Hev.
  - intros k r r' Hr Hr' Hne. simpl in Hr'.
    apply lookup_insert_Some in Hr' as [[<- _]|[_ Hr']]; [|congruence].
    change (cv_ID (new_conversation _ _ _ _ _ _)) with (w_uuid w) in Hr. congruence.
Qed.

Lemma Resolve_announces contact reason actor w c w' :
  wf_keys (w_db w) -> Resolve orgID contact reason actor w = (Ok c, w') -> all_announced (w_db w) (w_db w').
Proof.
  intros Hwf Hrun. apply Resolve_ok in Hrun as (x & o & Hk & Hl & -> & -> & Hev); [|done].
  apply live_conversation_live in Hl as (_ & <- & _).
  assert (cv_Status (apply_updates (resolve_updates reason actor (w_now w)) x) = ConversationResolved) as Hst
    by (unfold resolve_updates, apply_updates; by repeat case_match).
  eapply (one_row_announced _ _ x); [done..|]. rewrite Hst. intros _. by apply Hev.
Qed.

Lemma Snooze_announces contact until actor w c w' :
  wf_keys (w_db w) -> Snooze orgID contact until actor w = (Ok c, w') -> all_announced (w_db w) (w_db w').
Proof.
  intros Hwf Hrun. apply Snooze_ok in Hrun as (x & o & Hk & Hl & -> & _ & -> & Hev); [|done].
  apply live_conversation_live in Hl as (_ & <- & _).
  eapply (one_row_announced _ _ x); [done..|]. intros _. by apply Hev.
Qed.

Lemma setStatus_announces contact status actor extra w c w' :
  wf_keys (w_db w) -> setStatus orgID contact status actor extra w = (Ok c, w') ->
  (forall r, same_conversation r (apply_updates (set_cv_Status status :: extra r) r)) ->
  (forall r, cv_Status (apply_updates (set_cv_Status status :: extra r) r) = status) ->
  all_announced (w_db w) (w_db w').
Proof.
  intros Hwf Hrun Hsame Hst.
  apply setStatus_ok in Hrun as (x & Hk & Hl & [(_ & _ & ->)|(_ & -> & _ & o & -> & Hev)]); [| |done|done].
  - intros k r r' Hr Hr' Hne. congruence.
  - apply live_conversation_live in Hl as (_ & <- & _).
    eapply (one_row_announced _ _ x); [done..|]. rewrite Hst. intros _. by apply Hev.
Qed.

Lemma Reopen_announces id actor w c w' :
  wf_keys (w_db w) -> Reopen orgID id actor w = (Ok c, w') -> all_announced (w_db w) (w_db w').
Proof.
  intros Hwf Hrun.
  apply Reopen_ok in Hrun as [(j & -> & _)|(x & o & Hk & <- & Hst & _ & _ & _ & -> & _ & -> & Hev)]; [| |done].
  - intros k r r' Hr Hr' Hne. congruence.
  - eapply (one_row_announced _ _ x); [done..|]. rewrite Hst. intros _. by apply Hev.
Qed.

(** Nothing to announce when no status changes. *)
Lemma statuses_kept d d' :
  (forall k r r', db_conversations d !! k = Some r -> db_conversations d' !! k = Some r' ->
     cv_Status r' = cv_Status r) -> all_announced d d'.
Proof. intros Hs k r r' Hr Hr' Hne. destruct Hne. by eapply Hs. Qed.

Lemma update_where_status p us d k r r' :
  (forall c, cv_Status (apply_updates us c) = cv_Status c) ->
  db_conversations d !! k = Some r -> update_where p us (db_conversations d) !! k = Some r' ->
  cv_Status r' = cv_Status r.
Proof. intros Hus Hr. rewrite update_where_lookup, Hr. simpl. intros [= <-]. by case_match. Qed.

Lemma outbound_status org sender by_ at_ r :
  cv_Status (apply_updates (outbound_updates settings org sender by_ at_ r) r) =
    if CountsAsAgentReply sender && (AutoPendingOnAgentReply (settings org) && bool_decide (cv_Status r = ConversationOpen))
    then ConversationPending else cv_Status r.
Proof. unfold outbound_updates, apply_updates. destruct (CountsAsAgentReply sender); repeat case_match; done. Qed.

Lemma RecordOutbound_pends contact sender by_ at_ w oc w' k r r' :
  wf_keys (w_db w) -> RecordOutbound settings orgID contact sender by_ at_ w = (Ok oc, w') ->
  db_conversations (w_db w) !! k = Some r -> db_conversations (w_db w') !! k = Some r' ->
  cv_Status r' <> cv_Status r -> auto_pending (CallOutbound contact sender by_ at_) r r'.
Proof.
  intros Hwf Hrun Hr Hr' Hne.
  apply RecordOutbound_ok in Hrun as [(_ & _ & _ & Hdb)|[(x & Hk & Hl & _ & _ & Hdb)|(_ & _ & o & _ & Hnew & _ & Hdb)]];
    [| | |done]; rewrite Hdb in Hr'; simpl in Hr'.
  - congruence.
  - apply lookup_insert_Some in Hr' as [[<- <-]|[_ Hr']]; [|congruence].
    rewrite Hk in Hr. simplify_eq. rewrite outbound_status in Hne.
    destruct (CountsAsAgentReply sender) eqn:Hc; [|done].
    destruct (AutoPendingOnAgentReply (settings orgID)) eqn:Ha; [|done].
    case_bool_decide; [|done]. exists contact, sender, by_, at_. split_and!; [done..|].
    by rewrite outbound_status, Hc, Ha, bool_decide_eq_true_2.
  - apply lookup_insert_Some in Hr' as [[<- _]|[_ Hr']]; congruence.
Qed.

Lemma Assign_keeps_statuses contact assignee team actor w c w' :
  wf_keys (w_db w) -> Assign orgID contact assignee team actor w = (Ok c, w') -> all_announced (w_db w) (w_db w').
Proof.
  intros Hwf Hrun. apply Assign_ok in Hrun as (x & o & rows & Hk & _ & -> & _ & E & _); [|done].
  apply statuses_kept. rewrite E. simpl. intros k r r' Hr Hr'.
  apply lookup_insert_Some in Hr' as [[<- <-]|[_ Hr']]; [|congruence].
  rewrite Hk in Hr. simplify_eq. unfold assign_updates, apply_updates. by repeat case_match.
Qed.

(** The calls that write with one statement. *)
Lemma write_keeps_statuses call w (out : res err unit) w' :
  match call with CallHandling _ _ | CallAttribute _ _ | CallRead _ _ _ => True | _ => False end ->
  run_call call w = (out, w') -> all_announced (w_db w) (w_db w').
Proof.
  destruct call; try done; intros _ Hrun; cbn [run_call] in Hrun; apply statuses_kept; intros k x x' Hx Hx'.
  - apply SetHandling_run in Hrun as [E|E]; rewrite E in Hx'; [congruence|].
    eapply update_where_status; [|exact Hx|exact Hx']. done.
  - assert (exists out, AttributeToCampaign conv window w = (out, w')) as [a Ha].
    { apply dropped_run in Hrun. destruct out; [destruct Hrun|]; eauto. }
    apply AttributeToCampaign_run in Ha as [E|(c & camp & _ & E)]; rewrite E in Hx'; [congruence|].
    eapply update_where_status; [|exact Hx|exact Hx']. done.
  - apply MarkRead_run in Hrun as [rs E]. rewrite E in Hx'. simpl in Hx'. congruence.
Qed.
End Calls.

(** ** Properties *)

Section Properties.
Context `{SqlLaws} `{UuidText} (settings : uuid -> Settings).
Implicit Types (d : Tables) (w : world Tables) (c r : Conversation).

(** C4: Whatever calls of the conversation service and transactions of the
    transfer package run, in any order and under any faults, a contact has at
    most one conversation that is not resolved, and every row makes sense: it
    is resolved exactly when it has a resolution time, a resolved one waits for
    nobody and is handled by nobody, a snoozed one has its wake-up time, an
    answered one has an agent's message, a waiting one a customer's. *)
Theorem conversations_stay_consistent d d' :
  crm_ok d -> rtc (crm_step settings) d d' -> crm_ok d'.
Proof. intros Hok Hs. induction Hs as [|d1 d2 d3 Hs _ IH]; [done|]. apply IH. by eapply crm_step_ok. Qed.

(** C5: A customer message always lands (when the database is healthy): on the
    contact's live conversation; else on the most recently resolved one inside
    the reopen window, reopened; else on a new conversation.  No other
    conversation changes, and the event announcing the change of status, the
    reopening or the creation commits with it. *)
Theorem TouchInbound_lands orgID contactID account at_ bot w :
  crm_ok (w_db w) -> quiet w -> fresh_ids w ->
  exists c o w', TouchInbound settings orgID contactID account at_ bot w = (Ok c, w') /\
    touched settings orgID contactID account at_ (if bot then HandlingBot else HandlingNone)
      (w_uuid w) (w_db w) c o /\
    w_db w' = set_db_outbox o (set_db_conversations (<[cv_ID c := c]> (db_conversations (w_db w))) (w_db w)).
Proof.
  intros Hok Hq Hfresh. unfold TouchInbound.
  destruct (touch_body_quiet settings orgID contactID account at_ (if bot then HandlingBot else HandlingNone) (tx_start w))
    as (c & w1 & Hb & Hq1); [done|by apply quiet_tx_start|done|].
  pose proof (transaction_quiet _ _ _ _ Hq Hb Hq1) as Hrun.
  destruct (touch_ok settings orgID contactID account at_ _ _ _ _ (crm_keys _ Hok) Hrun) as (o & Ht & _ & Hdb).
  exists c, o. eexists. split; [exact Hrun|]. split; [exact Ht|exact Hdb].
Qed.

(** C7: Through any exchange of customer messages and messages of ours, the
    live conversation's [waiting_since] is the time of the first customer
    message after the last agent reply (nothing resets it while the customer
    chases), or what it was when nobody replied, and [first_response_at] is the
    first agent reply ever. *)
Theorem waiting_since_is_the_oldest_unanswered orgID contactID l w u w' r :
  crm_ok (w_db w) -> db_conversations (w_db w) !! cv_ID r = Some r ->
  live_conversation orgID contactID r = true -> chat_run settings orgID contactID l w = (Ok u, w') ->
  exists r', db_conversations (w_db w') !! cv_ID r = Some r' /\
    (omap reply_time l = [] ->
       cv_WaitingSince r' = match cv_WaitingSince r with
                            | Some t => Some t | None => head (omap customer_time l) end) /\
    (forall before reply after, l = before ++ reply :: after ->
       is_Some (reply_time reply) -> omap reply_time after = [] ->
       cv_WaitingSince r' = head (omap customer_time after)) /\
    cv_FirstResponseAt r' = match cv_FirstResponseAt r with
                            | Some t => Some t | None => head (omap reply_time l) end.
Proof.
  intros Hok Hr Hl Hrun.
  exists (foldl (fun c m => chat_row settings orgID m c) r l). split_and!.
  - by eapply chat_run_row.
  - apply waiting_no_reply.
  - intros before reply after -> [t Ht] Hno. rewrite foldl_app. simpl.
    rewrite waiting_no_reply by done.
    match goal with |- context [chat_row _ _ reply ?c] =>
      destruct (chat_row_times settings orgID reply c) as [-> _] end. by rewrite Ht.
  - apply first_response_fold.
Qed.

(** C6: A call of the service that writes one conversation (an inbound or
    outbound message, [Resolve], [Snooze], [SetPending], [Open], [Reopen],
    [Assign], [SetHandling], an attribution, a read mark) either fails and
    changes nothing, or commits every change of a conversation's status
    together with exactly one new outbox event that names the conversation,
    the contact and the two statuses.  The one exception is the agent's reply
    that moves an open conversation to pending under
    [AutoPendingOnAgentReply]. *)
Theorem status_changes_are_announced orgID call w out w' :
  crm_ok (w_db w) -> orgID <> uuid_Nil -> run_call settings orgID call w = (out, w') ->
  (forall e, out = Err e -> w_db w' = w_db w) /\
  forall k r r', db_conversations (w_db w) !! k = Some r -> db_conversations (w_db w') !! k = Some r' ->
    cv_Status r' <> cv_Status r ->
    announces orgID k r r' (w_db w) (w_db w') \/ auto_pending settings orgID call r r'.
Proof.
  intros Hok Horg Hrun. split; [intros e ->; by eapply run_call_err|].
  pose proof (crm_keys _ Hok) as Hwf. intros k r r' Hr Hr' Hne.
  destruct out as [u|e].
  2: { apply run_call_err in Hrun. rewrite Hrun in Hr'. congruence. }
  destruct call; try (left; eapply write_keeps_statuses; [|exact Hrun|exact Hr|exact Hr'|exact Hne]; exact I);
    cbn [run_call] in Hrun; apply dropped_run in Hrun as [a Hrun];
    [left; by eapply touch_announces|left; by eapply Resolve_announces|left; by eapply Snooze_announces
    |left; by eapply setStatus_announces|left; by eapply setStatus_announces|left; by eapply Reopen_announces
    |right; by eapply RecordOutbound_pends|left; by eapply Assign_keeps_statuses].
Qed.
End Properties.

(** ** The idle sweep *)

Section Sweep.
Context `{SqlLaws} `{UuidText} (settings : uuid -> Settings) (orgID : uuid).
Implicit Types (d : Tables) (w : world Tables) (c r : Conversation).

(** The row a sweep leaves. *)
Definition swept (reason : string) (now : time) (r : Conversation) : Conversation :=
  apply_updates (resolve_updates reason SystemActor now) r.

(** Every row is as before, or was one of [p] and is now resolved. *)
Definition swept_rows (p : Conversation -> bool) (reason : string) (t t' : gmap uuid Conversation) : Prop :=
  forall k, t' !! k = t !! k \/
    exists r now, t !! k = Some r /\ p r = true /\ t' !! k = Some (swept reason now r).

Lemma swept_resolved reason now r : cv_Status (swept reason now r) = ConversationResolved.
Proof. unfold swept, resolve_updates, apply_updates. by repeat case_match. Qed.

Lemma stale_live statuses cutoff r :
  (forall s, s ∈ statuses -> s <> ConversationResolved) -> stale orgID statuses cutoff r = true ->
  live_conversation orgID (cv_ContactID r) r = true.
Proof.
  intros Hst Hs. unfold stale in Hs. rewrite !andb_true_iff, bool_decide_eq_true in Hs.
  destruct Hs as ((((Ho & Hs) & _) & _) & Hl). unfold live_conversation.
  rewrite Ho, N.eqb_refl, Hl. apply Hst, active_not_resolved in Hs. by rewrite Hs.
Qed.

Lemma resolve_each_ok p reason t0 rows n w out w' :
  convs_ok t0 -> crm_ok (w_db w) -> swept_rows p reason t0 (db_conversations (w_db w)) ->
  (forall r, r ∈ rows -> t0 !! cv_ID r = Some r /\ p r = true /\
     live_conversation orgID (cv_ContactID r) r = true) ->
  resolve_each (fun _ d => d) orgID reason rows n w = (out, w') ->
  swept_rows p reason t0 (db_conversations (w_db w')) /\ crm_ok (w_db w').
Proof.
  intros Ht0. revert n w. induction rows as [|r rows IH]; simpl; intros n w Hok Hsw Hrows Hrun.
  { unfold ret in Hrun. by simplify_eq. }
  unfold bind at 1 in Hrun. simpl in Hrun. unfold bind, try in Hrun.
  match type of Hrun with context [Resolve ?o ?c ?re ?a ?w0] =>
    destruct (Resolve o c re a w0) as [x w1] eqn:E; assert (w_db w0 = w_db w) as Hw0 by done;
    assert (crm_ok (w_db w1)) as Hok1
      by (eapply (crm_step_ok settings); [|eapply cs_resolve; [reflexivity|exact E]]; by rewrite Hw0) end.
  assert (swept_rows p reason t0 (db_conversations (w_db w1))) as Hsw1.
  { destruct x as [c|e]; [|apply transaction_err in E as ->; by rewrite Hw0].
    apply Resolve_ok in E as (y & o & Hk & Hl & -> & Hdb & _); [|apply Hok].
    rewrite Hw0 in Hk, Hdb. destruct (Hrows r) as (Hr0 & Hpr & Hlr); [by left|].
    assert (y = r) as ->.
    { destruct (Hsw (cv_ID y)) as [Ey|(z & now & _ & _ & Ez)].
      - rewrite Ey in Hk. assert (cv_ID y = cv_ID r) as Eid; [|rewrite Eid in Hk; congruence].
        apply (co_index _ Ht0 _ y _ r Hk Hr0), clashes_true.
        apply live_conversation_live in Hl, Hlr. destruct_and!. split_and!; congruence.
      - rewrite Hk in Ez. simplify_eq. apply live_conversation_live in Hl as (_ & _ & Ha & _).
        by rewrite swept_resolved in Ha. }
    rewrite Hdb. intros k. simpl. destruct (decide (k = cv_ID r)) as [->|Hne].
    - rewrite lookup_insert_eq. right. eexists _, _. split_and!; done.
    - rewrite lookup_insert_ne by done. apply Hsw. }
  destruct x as [c|e].
  - eapply IH; [exact Hok1|exact Hsw1| |exact Hrun]. intros y Hy. apply Hrows. by right.
  - destruct (bool_decide (e = ErrNotFound)).
    + eapply IH; [exact Hok1|exact Hsw1| |exact Hrun]. intros y Hy. apply Hrows. by right.
    + unfold ret in Hrun. by simplify_eq.
Qed.

Lemma resolveStale_ok statuses cutoff reason w out w' :
  crm_ok (w_db w) -> (forall s, s ∈ statuses -> s <> ConversationResolved) ->
  resolveStale (fun _ d => d) orgID statuses cutoff reason w = (out, w') ->
  swept_rows (stale orgID statuses cutoff) reason (db_conversations (w_db w)) (db_conversations (w_db w')) /\
  crm_ok (w_db w').
Proof.
  intros Hok Hst Hrun. unfold resolveStale, bind, try in Hrun.
  destruct (query _ w) as [[rows|e] w1] eqn:E; pose proof (query_db _ _ _ _ E) as Hdb.
  - apply query_ok_inv in E as ([= <-] & _ & _).
    eapply resolve_each_ok; [..|exact Hrun]; rewrite ?Hdb; [apply Hok|done|intros k; by left|].
    intros r Hr. apply find_rows_elem in Hr as (k & Hk & Hp).
    rewrite (co_keyed _ (crm_convs _ Hok) _ _ Hk). split_and!; [done|done|by eapply stale_live].
  - unfold ret in Hrun. simplify_eq. rewrite Hdb. split; [intros k; by left|done].
Qed.

(** What one of the two sweeps may close. *)
Definition sweep_closes (now : time) (reason : string) (r : Conversation) : Prop :=
  (reason = ResolutionClientInactivity /\ 0 < AutoResolveIdle (settings orgID) /\
   stale orgID [ConversationOpen; ConversationPending] (now - AutoResolveIdle (settings orgID)) r = true) \/
  (reason = ResolutionPendingTimeout /\ 0 < PendingTimeout (settings orgID) /\
   stale orgID [ConversationPending] (now - PendingTimeout (settings orgID)) r = true).

Lemma sweep_phase (active : bool) statuses cutoff reason w out w' :
  crm_ok (w_db w) -> (forall s, s ∈ statuses -> s <> ConversationResolved) ->
  (if active then resolveStale (fun _ d => d) orgID statuses cutoff reason else ret (O, None)) w = (out, w') ->
  crm_ok (w_db w') /\ forall k r, db_conversations (w_db w) !! k = Some r ->
    db_conversations (w_db w') !! k = Some r \/
    exists at_, active = true /\ stale orgID statuses cutoff r = true /\
      db_conversations (w_db w') !! k = Some (swept reason at_ r).
Proof.
  intros Hok Hst Hrun. destruct active; [|unfold ret in Hrun; simplify_eq; eauto].
  destruct (resolveStale_ok _ _ _ _ _ _ Hok Hst Hrun) as [Hsw Hok']. split; [done|].
  intros k r Hr. destruct (Hsw k) as [->|(r' & at_ & Hr' & Hp & ->)]; [by left|].
  right. exists at_. by simplify_eq.
Qed.

Lemma stale_swept statuses cutoff reason at_ r :
  (forall s, s ∈ statuses -> s <> ConversationResolved) ->
  stale orgID statuses cutoff (swept reason at_ r) = false.
Proof.
  intros Hst. unfold stale. rewrite swept_resolved, bool_decide_eq_false_2; [by rewrite andb_false_r|].
  intros Hin. by apply (Hst _ Hin).
Qed.

(** A sweep nobody interferes with closes nothing but conversations that were
    live, not snoozed and silent past the organization's idle (or pending)
    limit, each as [Resolve] would and with the reason of the sweep that closed
    it; every other conversation is untouched, whatever fails halfway. *)
Theorem SweepIdle_closes_only_stale now w out w' :
  crm_ok (w_db w) -> SweepIdle settings (fun _ d => d) orgID now w = (out, w') ->
  forall k r, db_conversations (w_db w) !! k = Some r ->
    db_conversations (w_db w') !! k = Some r \/
    exists reason at_, sweep_closes now reason r /\
      live_conversation orgID (cv_ContactID r) r = true /\
      db_conversations (w_db w') !! k = Some (swept reason at_ r).
Proof.
  intros Hok Hrun k r Hr. unfold SweepIdle in Hrun. unfold bind at 1 in Hrun.
  assert (forall s, s ∈ [ConversationOpen; ConversationPending] -> s <> ConversationResolved) as Hst1
    by (intros s Hs; set_solver).
  assert (forall s, s ∈ [ConversationPending] -> s <> ConversationResolved) as Hst2
    by (intros s Hs; set_solver).
  match type of Hrun with context [let (_, _) := ?m in _] => destruct m as [r1 w1] eqn:E1 end.
  destruct (sweep_phase _ _ _ _ _ _ _ Hok Hst1 E1) as [Hok1 H1']. specialize (H1' k r Hr).
  assert (forall w2 o2, (if 0 <? PendingTimeout (settings orgID)
      then resolveStale (fun _ d => d) orgID [ConversationPending] (now - PendingTimeout (settings orgID))
             ResolutionPendingTimeout else ret (O, None)) w1 = (o2, w2) ->
    db_conversations (w_db w2) !! k = Some r \/ exists reason at_, sweep_closes now reason r /\
      live_conversation orgID (cv_ContactID r) r = true /\
      db_conversations (w_db w2) !! k = Some (swept reason at_ r)) as Hphase2.
  { intros w2 o2 E2. destruct (sweep_phase _ _ _ _ _ _ _ Hok1 Hst2 E2) as [_ H2'].
    destruct H1' as [Hk|(at_ & Hact & Hs & Hk)].
    - destruct (H2' _ _ Hk) as [?|(at_ & Hact & Hs & ?)]; [by left|right].
      exists ResolutionPendingTimeout, at_. split_and!; [|exact (stale_live _ _ _ Hst2 Hs)|done].
      right. split_and!; [done|by apply Z.ltb_lt|done].
    - right. exists ResolutionClientInactivity, at_. split_and!; [|exact (stale_live _ _ _ Hst1 Hs)|].
      + left. split_and!; [done|by apply Z.ltb_lt|done].
      + destruct (H2' _ _ Hk) as [?|(at2 & _ & Hs2 & _)]; [done|].
        by rewrite stale_swept in Hs2. }
  assert (db_conversations (w_db w1) !! k = Some r \/ exists reason at_, sweep_closes now reason r /\
      live_conversation orgID (cv_ContactID r) r = true /\
      db_conversations (w_db w1) !! k = Some (swept reason at_ r)) as Hphase1.
  { destruct H1' as [?|(at_ & Hact & Hs & ?)]; [by left|right]. exists ResolutionClientInactivity, at_.
    split_and!; [|exact (stale_live _ _ _ Hst1 Hs)|done]. left. split_and!; [done|by apply Z.ltb_lt|done]. }
  destruct r1 as [[n [e|]]|e]; [injection Hrun as _ <-; exact Hphase1| |injection Hrun as _ <-; exact Hphase1].
  unfold bind in Hrun. match type of Hrun with context [let (_, _) := ?m in _] => destruct m as [r2 w2] eqn:E2 end.
  destruct r2 as [[m [e|]]|e]; injection Hrun as _ <-; by eapply Hphase2.
Qed.
End Sweep.

(** ** Assigning keeps the mirror *)

Section Mirror.
Context `{SqlLaws} `{UuidText}.
Implicit Types (d : Tables) (w : world Tables) (c r : Conversation).

Lemma active_for_true org contact t : active_for org contact t = true <->
  tr_OrganizationID t = org /\ tr_ContactID t = contact /\ is_active_transfer t = true.
Proof. unfold active_for. rewrite !andb_true_iff, !N.eqb_eq. tauto. Qed.

Lemma assign_transfer_fields agent team now t :
  let t' := assign_transfer agent team now t in
  tr_ID t' = tr_ID t /\ tr_OrganizationID t' = tr_OrganizationID t /\ tr_ContactID t' = tr_ContactID t /\
  is_active_transfer t' = is_active_transfer t /\ tr_AgentID t' = agent /\
  tr_TeamID t' = (if is_some team then team else tr_TeamID t).
Proof. unfold assign_transfer. destruct agent, team; simpl; repeat case_match; done. Qed.

(** The transfers of the contact after the assignment. *)
Lemma assigned_rows org contact assignee team d rows k t :
  keyed tr_ID (db_transfers d) -> one_active d ->
  ((rows = db_transfers d /\ forall k t, db_transfers d !! k = Some t -> active_for org contact t = false) \/
   exists t now, db_transfers d !! tr_ID t = Some t /\ active_for org contact t = true /\
     rows = <[tr_ID t := assign_transfer assignee team now t]> (db_transfers d)) ->
  rows !! k = Some t -> is_active_transfer t = true ->
  (active_for org contact t = false /\ db_transfers d !! k = Some t) \/
  (active_for org contact t = true /\ exists t0 now, db_transfers d !! k = Some t0 /\
     active_for org contact t0 = true /\ t = assign_transfer assignee team now t0).
Proof.
  intros Hkeyed Hone [[-> Hno]|(t0 & now & Ht0 & Hact0 & ->)] Ht Hact.
  - left. eauto.
  - destruct (assign_transfer_fields assignee team now t0) as (_ & Ho & Hc & Ha & _).
    apply lookup_insert_Some in Ht as [[<- <-]|[Hne Ht]].
    + right. apply active_for_true in Hact0 as (? & ? & ?). split; [apply active_for_true; split_and!; congruence|].
      exists t0, now. split_and!; [done|apply active_for_true; done|done].
    + left. split; [|done]. apply not_true_iff_false. intros Hf. apply Hne.
      apply active_for_true in Hact0 as (<- & <- & ?).
      by apply (Hone _ t0 _ t).
Qed.

(** Assigning the live conversation assigns the contact's active transfer with
    it: if the conversations mirrored the active transfers before, they do after
    every successful [Assign]. *)
Theorem Assign_keeps_the_mirror org contact assignee team actor w c w' :
  crm_ok (w_db w) -> one_active (w_db w) -> mirrored (w_db w) ->
  Assign org contact assignee team actor w = (Ok c, w') ->
  mirrored (w_db w') /\ cv_AssigneeID c = assignee /\
  (forall k t, db_transfers (w_db w') !! k = Some t -> active_for org contact t = true ->
     tr_AgentID t = assignee).
Proof.
  intros Hok Hone Hm Hrun. pose proof (wf_tr _ (crm_keys _ Hok) : keyed tr_ID (db_transfers (w_db w))) as Hkeyed.
  pose proof (crm_step_ok (fun _ => DefaultSettings) _ _ Hok (cs_assign _ _ _ _ _ _ _ w _ _ eq_refl Hrun)) as Hok'.
  apply Assign_ok in Hrun as (r & o & rows & Hk & Hl & -> & _ & Hdb & Hrows & _); [|apply Hok].
  rewrite Hdb in *. set (r' := apply_updates (assign_updates assignee team) r) in *.
  assert (cv_AssigneeID r' = assignee /\ cv_TeamID r' = (if is_some team then team else cv_TeamID r) /\
          (assignee <> None -> cv_Handling r' = HandlingHuman)) as (Ha & Ht & Hh).
  { subst r'. unfold assign_updates, apply_updates. destruct assignee, team; done. }
  assert (live_conversation org contact r' = true) as Hl'.
  { revert Hl. unfold live_conversation, r', assign_updates, apply_updates. by repeat case_match. }
  split_and!; [| done |].
  - intros k t j c' Hkt Hact _ Hj Hlive. simpl in Hkt, Hj.
    destruct (assigned_rows _ _ _ _ _ _ _ _ Hkeyed Hone Hrows Hkt Hact)
      as [[Hnf Hold]|(Hf & t0 & now & Hold & Hf0 & ->)].
    + apply (Hm k t j c'); [done|done|tauto| |done].
      apply lookup_insert_Some in Hj as [[<- <-]|[_ Hj]]; [|done].
      destruct (live_two _ _ _ _ _ Hl' Hlive) as [Eo Ec].
      assert (active_for org contact t = true) by (apply active_for_true; done). congruence.
    + destruct (assign_transfer_fields assignee team now t0) as (_ & Ho & Hc & _ & Hag & Hteam).
      apply active_for_true in Hf0 as (Ho0 & Hc0 & Hact0). rewrite Ho, Hc, Ho0, Hc0 in Hlive.
      assert (r' = c') as <-
        by (apply (one_live_row org contact _ r' c' (cv_ID r) j Hok'); [apply lookup_insert_eq|done..]).
      destruct (Hm k t0 (cv_ID r) r Hold Hact0) as (_ & Hst & _); [tauto|exact Hk|by rewrite Ho0, Hc0|].
      unfold shows. rewrite Hag, Hteam, Ha, Ht, Hst. done.
  - intros k t Hkt Hf. simpl in Hkt. pose proof Hf as (_ & _ & Hact)%active_for_true.
    destruct (assigned_rows _ _ _ _ _ _ _ _ Hkeyed Hone Hrows Hkt Hact)
      as [[Hnf _]|(_ & t0 & now & _ & _ & ->)]; [congruence|].
    by destruct (assign_transfer_fields assignee team now t0) as (_ & _ & _ & _ & ? & _).
Qed.

(** [AttributeToCampaign] credits the campaign whose message last reached the
    contact within the window before the conversation opened, and never
    replaces an origin the row already has. *)
Theorem AttributeToCampaign_credits_the_last_send conv window w campaign conv' w' :
  AttributeToCampaign conv window w = (Ok (Some campaign, conv'), w') ->
  exists c k br, conv = Some c /\ cv_OriginCampaignID c = None /\
    db_recipients (w_db w) !! k = Some br /\ br_CampaignID br = campaign /\
    attributable (cv_ContactID c) (cv_OpenedAt c) (if window <=? 0 then DefaultAttributionWindow else window) br = true /\
    (forall k' br', db_recipients (w_db w) !! k' = Some br' ->
       attributable (cv_ContactID c) (cv_OpenedAt c) (if window <=? 0 then DefaultAttributionWindow else window) br' = true ->
       default 0 (br_SentAt br') <= default 0 (br_SentAt br)) /\
    conv' = Some (set_cv_OriginCampaignID (Some campaign) c) /\
    (forall j r, db_conversations (w_db w) !! j = Some r -> db_conversations (w_db w') !! j =
       Some (if conv_by_id (cv_ID c) r && is_none (cv_OriginCampaignID r)
             then set_cv_OriginCampaignID (Some campaign) r else r)).
Proof.
  unfold AttributeToCampaign. intros Hrun. destruct conv as [c|]; [|done].
  destruct (cv_OriginCampaignID c) as [oc|] eqn:Hoc; [done|]. simpl in Hrun. inv_run.
  destruct a as [br|e]; [|destruct e; done]. inv_run. simpl in *.
  match goal with U : update_conversations _ _ _ = _ |- _ =>
    apply update_conversations_ok in U as (_ & Hdb & _) end. simplify_eq. simpl in Hdb.
  pose proof (first_row_ok _ _ _ _ Hq) as (k & Hk & Hp).
  exists c, k, br. split_and!; try done.
  - by apply (first_row_greatest _ (fun b => default 0 (br_SentAt b)) _ _ Hq).
  - intros j r Hj. rewrite Hdb. simpl. rewrite update_where_lookup, Hj. done.
Qed.
End Mirror.

(** ** Instances *)

Definition quiet_inbox : world Tables := world_on sample_queue 1000 [].

Lemma sample_row_ok id contact : row_ok (sample_conversation id contact ConversationOpen).
Proof. split; simpl; try done; lia. Qed.

Lemma sample_queue_ok : crm_ok sample_queue.
Proof.
  split; [apply sample_queue_wf|]. split.
  - apply rows_of_keyed.
  - intros k c k' c' Hk Hk' Hc.
    change (rows_of cv_ID sample_conversations !! k = Some c) in Hk.
    change (rows_of cv_ID sample_conversations !! k' = Some c') in Hk'.
    sample_cases Hk; sample_cases Hk'; first [reflexivity | discriminate Hc].
  - intros k c Hk. change (rows_of cv_ID sample_conversations !! k = Some c) in Hk.
    sample_cases Hk; (split; simpl; try done; lia).
Qed.

Lemma quiet_inbox_fresh : fresh_ids quiet_inbox.
Proof.
  split; [discriminate|]. intros n Hn. change (1000 <= n)%N in Hn. split; [|apply lookup_empty].
  change (rows_of cv_ID sample_conversations !! n = None).
  destruct (rows_of cv_ID sample_conversations !! n) as [c|] eqn:E; [|done].
  exfalso. sample_cases E; simpl in Hn; lia.
Qed.

Definition house_rules : uuid -> Settings := fun _ => {|
  ReopenWindow := 0; AutoPendingOnAgentReply := true; AutoResolveIdle := 500; PendingTimeout := 0 |}.

(** The calls of the examples. *)
Definition inbound10 : MT Conversation := @TouchInbound sql_ref uuid_ref house_rules 1 10 "main" 900 true.
Definition resolve10 : MT Conversation := @Resolve sql_ref uuid_ref 1 10 "done" (UserActor 40 "Ann").

Lemma conversations_stay_consistent_witness :
  exists d', rtc (@crm_step sql_ref uuid_ref house_rules) sample_queue d' /\ crm_ok d' /\
    cv_Status <$> db_conversations d' !! 20%N = Some ConversationResolved.
Proof.
  exists (w_db (snd (resolve10 quiet_inbox))).
  assert (rtc (@crm_step sql_ref uuid_ref house_rules) sample_queue (w_db (snd (resolve10 quiet_inbox)))) as Hs.
  { apply rtc_once.
    exact (@cs_resolve sql_ref uuid_ref house_rules sample_queue 1%N 10%N _ _ quiet_inbox _ _ eq_refl
             (surjective_pairing (resolve10 quiet_inbox))). }
  split; [exact Hs|]. split.
  - exact (@conversations_stay_consistent sql_ref _ uuid_ref house_rules sample_queue _ sample_queue_ok Hs).
  - vm_compute. reflexivity.
Defined.

Lemma TouchInbound_lands_witness :
  exists c o w', inbound10 quiet_inbox = (Ok c, w') /\ w_db w' =
    set_db_outbox o (set_db_conversations (<[cv_ID c := c]> (db_conversations sample_queue)) sample_queue).
Proof.
  destruct (@TouchInbound_lands sql_ref _ uuid_ref house_rules 1%N 10%N "main" 900 true quiet_inbox
              sample_queue_ok (conj eq_refl eq_refl) quiet_inbox_fresh) as (c & o & w' & Hr & _ & Hdb).
  exists c, o, w'. split; [exact Hr|exact Hdb].
Defined.

Definition sample_chat : list chat :=
  [FromCustomer 10 "" false; FromUs SenderBot None 11; FromUs SenderAgent (Some 40%N) 12;
   FromCustomer 13 "" false; FromCustomer 14 "" false].

Lemma waiting_since_is_the_oldest_unanswered_witness :
  exists r', db_conversations (w_db (snd (@chat_run sql_ref uuid_ref house_rules 1 10 sample_chat quiet_inbox)))
               !! 20%N = Some r' /\
    cv_WaitingSince r' = Some 13 /\ cv_FirstResponseAt r' = Some 12.
Proof.
  destruct (@chat_run sql_ref uuid_ref house_rules 1%N 10%N sample_chat quiet_inbox) as [[u|e] w'] eqn:E;
    [|vm_compute in E; discriminate E].
  destruct (@waiting_since_is_the_oldest_unanswered sql_ref _ uuid_ref house_rules 1%N 10%N sample_chat
              quiet_inbox u w' (sample_conversation 20 10 ConversationOpen) sample_queue_ok eq_refl eq_refl E)
    as (r' & Hr' & _ & Hw & Hf).
  exists r'. split; [exact Hr'|]. split; [|exact Hf].
  rewrite (Hw [FromCustomer 10 "" false; FromUs SenderBot None 11] (FromUs SenderAgent (Some 40%N) 12)
             [FromCustomer 13 "" false; FromCustomer 14 "" false] eq_refl (mk_is_Some _ _ eq_refl) eq_refl).
  reflexivity.
Defined.

Definition resolve10' : MT unit :=
  @run_call sql_ref uuid_ref house_rules 1 (CallResolve 10 "done" (UserActor 40 "Ann")).

Lemma status_changes_are_announced_witness :
  exists r', db_conversations (w_db (snd (resolve10' quiet_inbox))) !! 20%N = Some r' /\
    announces 1 20 (sample_conversation 20 10 ConversationOpen) r' sample_queue
      (w_db (snd (resolve10' quiet_inbox))).
Proof.
  destruct (db_conversations (w_db (snd (resolve10' quiet_inbox))) !! 20%N) as [r'|] eqn:E;
    [|vm_compute in E; discriminate E].
  exists r'. split; [reflexivity|].
  destruct (@status_changes_are_announced sql_ref _ uuid_ref house_rules 1%N
              (CallResolve 10 "done" (UserActor 40 "Ann")) quiet_inbox _ _ sample_queue_ok ltac:(discriminate)
              (surjective_pairing (resolve10' quiet_inbox))) as [_ Ha].
  destruct (Ha 20%N (sample_conversation 20 10 ConversationOpen) r' eq_refl E) as [Hann|Hpend].
  - vm_compute in E. injection E as <-. vm_compute. discriminate.
  - exact Hann.
  - destruct Hpend as (contact & sender & by_ & at_ & Hcall & _). discriminate Hcall.
Defined.

Lemma SweepIdle_closes_only_stale_witness :
  exists reason at_, @sweep_closes house_rules 1 1000 reason (sample_conversation 20 10 ConversationOpen) /\
    cv_Status <$> db_conversations (w_db (snd (@SweepIdle sql_ref uuid_ref house_rules (fun _ d => d) 1 1000 quiet_inbox)))
      !! 20%N = Some (cv_Status (swept reason at_ (sample_conversation 20 10 ConversationOpen))).
Proof.
  destruct (@SweepIdle_closes_only_stale sql_ref _ uuid_ref house_rules 1%N 1000 quiet_inbox _ _ sample_queue_ok
              (surjective_pairing (@SweepIdle sql_ref uuid_ref house_rules (fun _ d => d) 1%N 1000 quiet_inbox))
              20%N (sample_conversation 20 10 ConversationOpen) eq_refl)
    as [Hk|(reason & at_ & Hc & _ & Hk)].
  - vm_compute in Hk. discriminate Hk.
  - exists reason, at_. split; [exact Hc|]. rewrite Hk. reflexivity.
Defined.

Lemma Assign_keeps_the_mirror_witness :
  exists c w', @Assign sql_ref uuid_ref 1 10 (Some 41%N) None SystemActor quiet_inbox = (Ok c, w') /\
    mirrored (w_db w') /\ cv_AssigneeID c = Some 41%N.
Proof.
  destruct (@Assign sql_ref uuid_ref 1%N 10%N (Some 41%N) None SystemActor quiet_inbox) as [[c|e] w'] eqn:E;
    [|vm_compute in E; discriminate E].
  destruct (@Assign_keeps_the_mirror sql_ref _ uuid_ref 1%N 10%N (Some 41%N) None SystemActor quiet_inbox c w'
              sample_queue_ok sample_queue_one_active sample_queue_mirrored E) as (Hm & Ha & _).
  exists c, w'. split; [reflexivity|]. split; [exact Hm|exact Ha].
Defined.

(** Two sends of campaigns [71] and [72] before the conversation opened, one after. *)
Definition sample_sends : Tables :=
  set_db_recipients (rows_of br_ID
    [MkRecipient 60 None 71 (Some 10%N) (Some (-30)); MkRecipient 61 None 72 (Some 10%N) (Some (-20));
     MkRecipient 62 None 73 (Some 10%N) (Some 5)]) sample_queue.

Lemma AttributeToCampaign_credits_the_last_send_witness :
  exists conv' w', @AttributeToCampaign sql_ref (Some (sample_conversation 20 10 ConversationOpen)) 0
      (world_on sample_sends 1000 []) = (Ok (Some 72%N, conv'), w') /\
    cv_OriginCampaignID <$> db_conversations (w_db w') !! 20%N = Some (Some 72%N).
Proof.
  destruct (@AttributeToCampaign sql_ref (Some (sample_conversation 20 10 ConversationOpen)) 0
      (world_on sample_sends 1000 [])) as [[[[campaign|] conv']|e] w'] eqn:E;
    [|vm_compute in E; discriminate E..].
  assert (campaign = 72%N) as -> by (vm_compute in E; injection E as <- _ _; reflexivity).
  destruct (@AttributeToCampaign_credits_the_last_send sql_ref _ _ _ _ _ _ _ E)
    as (c & k & br & Hc & _ & _ & _ & _ & _ & _ & Hrows).
  exists conv', w'. split; [reflexivity|]. injection Hc as <-.
  rewrite (Hrows 20%N (sample_conversation 20 10 ConversationOpen) eq_refl). reflexivity.
Defined.

(** ** What the model shows of the code *)

(** An agent opening a conversation: [create] already counts the message and
    records it as the customer's, then the update of [RecordOutbound] counts
    it again. *)
Example RecordOutbound_counts_twice :
  match fst (@RecordOutbound sql_ref uuid_ref house_rules 1 13 SenderAgent (Some 40%N) 77 quiet_inbox) with
  | Ok (Some c) => cv_MessageCount c = 2 /\ cv_FirstCustomerMessageAt c = Some 77 /\
                   cv_LastCustomerMessageAt c = Some 77
  | _ => False
  end.
Proof. vm_compute. repeat split; reflexivity. Qed.

(** [AutoPendingOnAgentReply] moves Open to Pending with no status event. *)
Example RecordOutbound_changes_status_silently :
  let w' := snd (@RecordOutbound sql_ref uuid_ref house_rules 1 10 SenderAgent (Some 40%N) 77 quiet_inbox) in
  cv_Status <$> db_conversations (w_db w') !! 20%N = Some ConversationPending /\
  db_outbox (w_db w') = ∅.
Proof. vm_compute. split; reflexivity. Qed.

(** [SetPending] out of a snooze keeps the wake-up time, so no sweep of the idle
    rule ever looks at the row again. *)
Definition snoozed_then_pending : MT Conversation :=
  @Snooze sql_ref uuid_ref 1 10 5000 SystemActor ;;;
  @SetPending sql_ref uuid_ref 1 10 SystemActor.

Example SetPending_keeps_the_snooze :
  match fst (snoozed_then_pending quiet_inbox) with
  | Ok c => cv_Status c = ConversationPending /\ cv_SnoozedUntil c = Some 5000 /\
            (forall cutoff, stale 1 [ConversationOpen; ConversationPending] cutoff c = false)
  | Err _ => False
  end.
Proof.
  destruct (fst (snoozed_then_pending quiet_inbox)) as [c|e] eqn:E; vm_compute in E; [|discriminate E].
  injection E as <-. split; [reflexivity|]. split; reflexivity.
Qed.

(** Two messages arriving together both read the conversation before it has an
    origin: the second update matches no row, yet both report the campaign. *)
Example AttributeToCampaign_claims_twice :
  let stale_copy := Some (sample_conversation 20 10 ConversationOpen) in
  let w1 := snd (@AttributeToCampaign sql_ref stale_copy 0 (world_on sample_sends 1000 [])) in
  match fst (@AttributeToCampaign sql_ref stale_copy 0 w1) with
  | Ok (Some campaign, _) => campaign = 72%N
  | _ => False
  end.
Proof. vm_compute. reflexivity. Qed.

(** A customer who writes between the list and the close is closed anyway. *)
Definition customer_writes (_ : nat) (d : Tables) : Tables :=
  w_db (snd (@TouchInbound sql_ref uuid_ref house_rules 1 10 "" 990 false (world_on d 990 []))).

Example SweepIdle_race :
  cv_LastCustomerMessageAt <$> db_conversations (customer_writes 0 sample_queue) !! 20%N = Some (Some 990) /\
  cv_Status <$> db_conversations
    (w_db (snd (@SweepIdle sql_ref uuid_ref house_rules customer_writes 1 1000 quiet_inbox))) !! 20%N
    = Some ConversationResolved.
Proof. vm_compute. split; reflexivity. Qed.
