(* ===== verification/Contacts.v ===== *)
(** * The lifecycle of a contact ([internal/contacts/lifecycle.go])

    [Resolve] finds, restores or creates the contact an identity belongs to;
    [Delete] and [Restore] are the two explicit moves.  A number has several
    spellings, a person may have been merged into another one, and a deletion
    is undone only when nobody meant it.  [others] is what other connections
    commit between the lookup and the insert of [create]. *)
From S2P Require Import Prelude GoLib Store Events Models Statements Text Fields FieldService.

(** ** The tables *)

Record ContactsDB := MkContactsDB {
  co_tables : Tables;
  co_fields : FieldsDB
}.

Definition set_co_tables (v : Tables) (r : ContactsDB) : ContactsDB := MkContactsDB v (co_fields r).
Definition set_co_fields (v : FieldsDB) (r : ContactsDB) : ContactsDB := MkContactsDB (co_tables r) v.

Abbreviation MP := (M ContactsDB).

Definition on_crm {A} (m : MT A) : MP A := zoom co_tables set_co_tables m.
Definition on_values {A} (m : MF A) : MP A := zoom co_fields set_co_fields m.

(** Whether the columns of the server take a row (their sizes). *)
Class ContactServer := { row_fits : Contact -> bool }.

(** ** Constants and options *)

Inductive Outcome := OutcomeFound | OutcomeCreated | OutcomeRestored | OutcomeFollowedMerge.

#[export] Instance outcome_eq_dec : EqDecision Outcome.
Proof. solve_decision. Defined.

Definition SourceInbound := "inbound".
Definition SourceImport := "import".
Definition SourceCampaign := "campaign".
Definition SourceAPI := "api".
Definition SourceManual := "manual".
Definition SourceCall := "call".
Definition SourceAddressBookSync := "address_book_sync".

Definition ReasonUser := "user".
Definition ReasonAddressBookSync := "address_book_sync".
Definition ReasonMerged := "merged".

Definition ErrNoMatch := ErrSentinel "contacts: no matching contact".

Record Identity := MkIdentity { id_Phone : string; id_BSUID : string }.

Record ResolveOpts := MkResolveOpts {
  ro_CreateIfMissing : bool;
  ro_ForceCreate : bool;
  ro_AllowRestore : bool;
  ro_Source : string;
  ro_ProfileName : string;
  ro_UpdateName : bool;
  ro_Actor : Actor;
  ro_DefaultCountryCode : string
}.

(** ** Statements *)

(** The rows the unique index [idx_contacts_org_phone_live] lets no other row join. *)
Definition same_number (r r' : Contact) : bool :=
  live (ct_DeletedAt r) && live (ct_DeletedAt r') &&
  N.eqb (ct_OrganizationID r') (ct_OrganizationID r) && String.eqb (ct_PhoneNumber r') (ct_PhoneNumber r).

Definition insert_contact `{ContactServer} (c : Contact) : MT unit :=
  stmt no_locks (fun d =>
    let t := db_contacts d in
    if negb (row_fits c) then (Err ErrDriver, d)
    else if is_none (t !! ct_ID c) && no_other (same_number c) (ct_ID c) t
    then (Ok tt, set_db_contacts (<[ct_ID c := c]> t) d)
    else (Err ErrUnique, d)).

(** [UPDATE contacts SET us WHERE p], refused when a new row would break the index or does not fit. *)
Definition update_contacts `{ContactServer} (p : Contact -> bool) (us : list (Contact -> Contact)) : MT unit :=
  stmt no_locks (fun d =>
    let t := db_contacts d in
    let takes (kr : N * Contact) := negb (p kr.2) ||
      (row_fits (apply_updates us kr.2) && no_other (same_number (apply_updates us kr.2)) kr.1 t) in
    if forallb takes (map_to_list t) then (Ok tt, set_db_contacts (update_where p us t) d)
    else (Err ErrUnique, d)).

(** [Where("id = ?")], with and without the soft delete. *)
Definition contact_id (id : uuid) (c : Contact) : bool := N.eqb (ct_ID c) id.
Definition live_by_key (id : uuid) (c : Contact) : bool := contact_id id c && live (ct_DeletedAt c).
Definition contact_in (orgID id : uuid) (c : Contact) : bool := N.eqb (ct_OrganizationID c) orgID && contact_id id c.

(** [ORDER BY deleted_at IS NOT NULL, created_at], then the primary key. *)
Definition lookup_order (a b : Contact) : bool :=
  let da := negb (live (ct_DeletedAt a)) in let db := negb (live (ct_DeletedAt b)) in
  (negb da && db) ||
  (Bool.eqb da db && ((ct_CreatedAt a <? ct_CreatedAt b) ||
                      ((ct_CreatedAt a =? ct_CreatedAt b) && N.ltb (ct_ID a) (ct_ID b)))).

Definition restore_updates : list (Contact -> Contact) := [set_ct_DeletedAt None; set_ct_DeletedReason ""].

Section Lifecycle.
Context `{SQ : Sql} `{UT : UuidText} `{FS : FieldsServer} `{CS : ContactServer}.

(** ** Events *)

Definition contact_data (c : Contact) : list (string * any) :=
  [("contact_id", AString (uuid_String (ct_ID c))); ("contact_phone", AString (ct_PhoneNumber c));
   ("contact_name", AString (ct_ProfileName c)); ("whatsapp_account", AString (ct_WhatsAppAccount c))].

Definition publish (orgID : uuid) (contact : Contact) (eventType : string) (actor : Actor) : MP unit :=
  if negb (IsKnown eventType) then ret tt
  else
    let actor := if is_empty (actor_Type actor) then SystemActor else actor in
    id <- uuid_New ;;
    n <- now ;;
    _ <- try (on_crm (PublishTx (ForContact (ct_ID contact) (New_event id n orgID eventType actor (contact_data contact))))) ;;
    ret tt.

(** ** [lookup] *)

Definition first (orgID : uuid) (cond : Contact -> bool) : MP Contact :=
  on_crm (query (fun d => first_row (fun c => N.eqb (ct_OrganizationID c) orgID && cond c) lookup_order (db_contacts d))).

Definition spelled (phone : string) (c : Contact) : bool := existsb (String.eqb (ct_PhoneNumber c)) (Variants phone).
Definition normalized_as (n : string) (c : Contact) : bool := String.eqb (ct_PhoneNormalized c) n.
Definition with_bsuid (bsuid : string) (c : Contact) : bool := String.eqb (ct_BSUID c) bsuid.

(** [if c, err := first(...); err == nil { return c } else if !errors.Is(err, gorm.ErrRecordNotFound) { return err }] *)
Definition or_else (m next : MP Contact) : MP Contact :=
  r <- try m ;;
  match r with
  | Ok c => ret c
  | Err ErrRecordNotFound => next
  | Err e => fail e
  end.

Definition lookup (orgID : uuid) (id : Identity) (countryCode : string) : MP Contact :=
  let by_bsuid :=
    if is_empty (id_BSUID id) then fail ErrRecordNotFound
    else or_else (first orgID (with_bsuid (id_BSUID id))) (fail ErrRecordNotFound) in
  if is_empty (id_Phone id) then by_bsuid
  else
    or_else (first orgID (spelled (id_Phone id)))
      (let normalized := NormalizeWithCountry (id_Phone id) countryCode in
       if is_empty normalized then by_bsuid
       else or_else (first orgID (normalized_as normalized)) by_bsuid).

(** ** [create] *)

(** [setSystemField]: the definition by its key, then [FirstOrCreate] of the value. *)
Definition system_def (orgID : uuid) (key : string) (d : CustomFieldDefinition) : bool :=
  N.eqb (cd_OrganizationID d) orgID && String.eqb (cd_EntityType d) FieldEntityContact &&
  String.eqb (cd_Key d) key && is_none (cd_DeletedAt d).

Definition value_at (orgID contactID fieldID : uuid) (r : CustomFieldValue) : bool :=
  N.eqb (fv_OrganizationID r) orgID && String.eqb (fv_EntityType r) FieldEntityContact &&
  N.eqb (fv_EntityID r) contactID && N.eqb (fv_FieldID r) fieldID.

Definition insert_value (row : CustomFieldValue) : MF unit :=
  stmt no_locks (fun d =>
    match as_stored (columns row) with
    | None => (Err ErrDriver, d)
    | Some v =>
        if is_none (fd_values d !! fv_ID row) && Nat.eqb (rows_affected (same_slot row) (fd_values d)) 0
        then (Ok tt, set_fd_values (<[fv_ID row := Apply v row]> (fd_values d)) d)
        else (Err ErrUnique, d)
    end).

Definition by_def_id (a b : CustomFieldDefinition) : bool := N.ltb (cd_ID a) (cd_ID b).
Definition by_value_id (a b : CustomFieldValue) : bool := N.ltb (fv_ID a) (fv_ID b).

Definition setSystemField (orgID contactID : uuid) (key value : string) : MP unit :=
  r <- try (on_values (query (fun d => first_row (system_def orgID key) by_def_id (fd_defs d)))) ;;
  match r with
  | Err _ => ret tt
  | Ok def =>
      if negb (String.eqb (cd_Type def) FieldTypeDropdown) || negb (HasOption def value) then ret tt
      else
        found <- try (on_values (query (fun d => first_row (value_at orgID contactID (cd_ID def)) by_value_id (fd_values d)))) ;;
        match found with
        | Err ErrRecordNotFound =>
            id <- uuid_New ;;
            t <- now ;;
            _ <- try (on_values (insert_value
              (MkFieldValue id orgID FieldEntityContact contactID (cd_ID def) None None None (Some value) None t))) ;;
            ret tt
        | _ => ret tt
        end
  end.

Definition seedSystemFields (orgID : uuid) (contact : Contact) (source : string) : MP unit :=
  setSystemField orgID (ct_ID contact) FieldKeyLifecycleStage LifecycleNew ;;;
  if is_empty source then ret tt else setSystemField orgID (ct_ID contact) FieldKeySource source.

Definition new_contact (key : uuid) (t : time) (orgID : uuid) (id : Identity) (opts : ResolveOpts) : Contact :=
  let phone := if is_empty (Normalize (id_Phone id)) then TrimSpace (id_Phone id) else Normalize (id_Phone id) in
  MkContact key t None orgID phone (ro_ProfileName opts) "" None None None false (id_BSUID id)
    (NormalizeWithCountry (id_Phone id) (ro_DefaultCountryCode opts)) (ro_Source opts) None "" None false.

Definition create (others : Tables -> Tables) (orgID : uuid) (id : Identity) (opts : ResolveOpts) : MP (Contact * Outcome) :=
  key <- uuid_New ;;
  t <- now ;;
  let contact := new_contact key t orgID id opts in
  on_crm (interleave others) ;;;
  r <- try (on_crm (insert_contact contact)) ;;
  match r with
  | Err e =>
      again <- try (lookup orgID id (ro_DefaultCountryCode opts)) ;;
      match again with
      | Ok existing => if live (ct_DeletedAt existing) then ret (existing, OutcomeFound) else fail e
      | Err _ => fail e
      end
  | Ok _ =>
      seedSystemFields orgID contact (ro_Source opts) ;;;
      publish orgID contact "contact.created" (ro_Actor opts) ;;;
      ret (contact, OutcomeCreated)
  end.

(** ** [Resolve] *)

Definition touchName (contact : Contact) (opts : ResolveOpts) : MP Contact :=
  if negb (ro_UpdateName opts) || is_empty (ro_ProfileName opts) || String.eqb (ct_ProfileName contact) (ro_ProfileName opts)
  then ret contact
  else
    r <- try (on_crm (update_contacts (live_by_key (ct_ID contact)) [set_ct_ProfileName (ro_ProfileName opts)])) ;;
    ret (match r with Ok _ => set_ct_ProfileName (ro_ProfileName opts) contact | Err _ => contact end).

(** The contact a merged one was merged into, while it is there. *)
Definition survivor_of (orgID : uuid) (contact : Contact) : MP (option Contact) :=
  match ct_MergedIntoID contact with
  | None => ret None
  | Some into =>
      r <- try (on_crm (query (fun d =>
             first_row (fun c => contact_in orgID into c && live (ct_DeletedAt c)) unordered (db_contacts d)))) ;;
      ret (match r with Ok survivor => Some survivor | Err _ => None end)
  end.

Definition resolveExisting (others : Tables -> Tables) (orgID : uuid) (contact : Contact) (id : Identity) (opts : ResolveOpts)
    : MP (Contact * Outcome) :=
  survivor <- survivor_of orgID contact ;;
  match survivor with
  | Some survivor => c <- touchName survivor opts ;; ret (c, OutcomeFollowedMerge)
  | None =>
      if live (ct_DeletedAt contact) then c <- touchName contact opts ;; ret (c, OutcomeFound)
      else if negb (ro_AllowRestore opts) || String.eqb (ct_DeletedReason contact) ReasonUser ||
              String.eqb (ct_DeletedReason contact) ReasonMerged
      then if negb (ro_CreateIfMissing opts) then fail ErrNoMatch else create others orgID id opts
      else
        on_crm (update_contacts (contact_id (ct_ID contact)) restore_updates) ;;;
        c <- touchName (apply_updates restore_updates contact) opts ;;
        publish orgID c "contact.restored" (ro_Actor opts) ;;;
        ret (c, OutcomeRestored)
  end.

Definition Resolve (others : Tables -> Tables) (orgID : uuid) (id : Identity) (opts : ResolveOpts) : MP (Contact * Outcome) :=
  if is_empty (TrimSpace (id_Phone id)) && is_empty (id_BSUID id)
  then fail (ErrMsg "contacts: identity has neither phone nor BSUID")
  else if ro_ForceCreate opts then create others orgID id opts
  else
    found <- try (lookup orgID id (ro_DefaultCountryCode opts)) ;;
    match found with
    | Ok contact => resolveExisting others orgID contact id opts
    | Err ErrRecordNotFound => if negb (ro_CreateIfMissing opts) then fail ErrNoMatch else create others orgID id opts
    | Err e => fail e
    end.

(** ** [Delete] and [Restore] *)

(** [ConversationCloser], when the service was built with one. *)
Definition Closer : Type := uuid -> uuid -> string -> Actor -> MT Conversation.

Definition ResolutionContactDeleted := "contact_deleted".

Definition endWorkInFlight (conversations : option Closer) (orgID contactID : uuid) (actor : Actor) : MP unit :=
  n <- now ;;
  _ <- try (on_crm (stmt no_locks (fun d => (Ok tt, set_db_sessions
         (update_where (fun s => N.eqb (ss_OrganizationID s) orgID && N.eqb (ss_ContactID s) contactID &&
                                 bool_decide (ss_Status s = SessionStatusActive) && live (ss_DeletedAt s))
            [set_ss_Status SessionStatusCancelled; set_ss_CompletedAt (Some n)] (db_sessions d)) d)))) ;;
  _ <- try (on_crm (stmt no_locks (fun d => (Ok tt, set_db_transfers
         (update_where (fun t => N.eqb (tr_OrganizationID t) orgID && N.eqb (tr_ContactID t) contactID &&
                                 bool_decide (tr_Status t = TransferStatusActive) && live (tr_DeletedAt t))
            [set_tr_Status TransferStatusExpired] (db_transfers d)) d)))) ;;
  match conversations with
  | None => ret tt
  | Some resolve => _ <- try (on_crm (resolve orgID contactID ResolutionContactDeleted actor)) ;; ret tt
  end.

Definition delete_updates (reason : string) (t : time) : list (Contact -> Contact) :=
  [set_ct_DeletedReason reason; set_ct_DeletedAt (Some t)].

Definition Delete (conversations : option Closer) (orgID contactID : uuid) (reason : string) (actor : Actor) : MP unit :=
  contact <- on_crm (query (fun d =>
    first_row (fun c => contact_in orgID contactID c && live (ct_DeletedAt c)) unordered (db_contacts d))) ;;
  t <- now ;;
  on_crm (update_contacts (live_by_key contactID) (delete_updates reason t)) ;;;
  (if negb (String.eqb reason ReasonAddressBookSync) then endWorkInFlight conversations orgID contactID actor else ret tt) ;;;
  publish orgID contact "contact.deleted" actor.

Definition Restore (orgID contactID : uuid) (actor : Actor) : MP unit :=
  contact <- on_crm (query (fun d => first_row (contact_in orgID contactID) unordered (db_contacts d))) ;;
  if is_some (ct_MergedIntoID contact) then fail (ErrMsg "contacts: the contact was merged and cannot be restored")
  else
    on_crm (update_contacts (contact_id contactID) restore_updates) ;;;
    publish orgID contact "contact.restored" actor.
End Lifecycle.
