(* ===== verification/ContactsProps.v ===== *)
(** * What the lifecycle of contacts promises

    Whatever fails, [Resolve] answers with a live contact of the organization
    and undoes no deletion somebody meant; a contact it creates is the one the
    same identity finds from then on; [Delete] either did nothing or the
    contact is gone, and with it the work in flight. *)
From S2P Require Import Prelude GoLib Store Events Models Statements Samples Text Fields FieldService Transfers Conversation ConversationLemmas ConversationProps Contacts.

(** ** The order of a lookup *)

Lemma lookup_order_irrefl a : lookup_order a a = false.
Proof.
  unfold lookup_order. rewrite Z.ltb_irrefl, N.ltb_irrefl, Z.eqb_refl. by destruct (live _).
Qed.

Lemma lookup_order_trans a b c : lookup_order a b = true -> lookup_order b c = true -> lookup_order a c = true.
Proof.
  unfold lookup_order. destruct (live (ct_DeletedAt a)), (live (ct_DeletedAt b)), (live (ct_DeletedAt c)); simpl; try done;
    rewrite !orb_true_iff, !andb_true_iff, !Z.ltb_lt, !Z.eqb_eq, !N.ltb_lt; lia.
Qed.

Lemma lookup_order_live a b : live (ct_DeletedAt a) = true -> live (ct_DeletedAt b) = false -> lookup_order a b = true.
Proof. unfold lookup_order. by intros -> ->. Qed.

(** The answer is live when a live row matches. *)
Lemma first_row_live `{SqlLaws} p t a :
  first_row p lookup_order t = Ok a -> live (ct_DeletedAt a) = false ->
  forall k c, t !! k = Some c -> p c = true -> live (ct_DeletedAt c) = false.
Proof.
  unfold first_row. destruct (sql_first _ _ _) as [k|] eqn:E; [|done].
  pose proof (first_sound _ _ _ _ _ E) as (r & Hk & _). rewrite Hk. intros [= ->] Ha k' c Hk' Hc.
  destruct (live (ct_DeletedAt c)) eqn:Hl; [|done].
  pose proof (first_least _ (fun _ => p) lookup_order t k a k' c lookup_order_irrefl lookup_order_trans E Hk Hk' Hc) as Hf.
  by rewrite (lookup_order_live c a Hl Ha) in Hf.
Qed.

(** The only live row that matches is the answer. *)
Lemma first_row_only `{SqlLaws} p t k c :
  t !! k = Some c -> p c = true -> live (ct_DeletedAt c) = true ->
  (forall k' c', t !! k' = Some c' -> p c' = true -> live (ct_DeletedAt c') = true -> c' = c) ->
  first_row p lookup_order t = Ok c.
Proof.
  intros Hk Hp Hl Honly. destruct (first_row p lookup_order t) as [a|e] eqn:E.
  - f_equal. pose proof (first_row_ok _ _ _ _ E) as (k' & Hk' & Hp').
    destruct (live (ct_DeletedAt a)) eqn:Ha; [by eapply Honly|].
    by rewrite (first_row_live _ _ _ E Ha _ _ Hk Hp) in Hl.
  - apply first_row_err in E as [_ E]. by rewrite (E _ _ Hk) in Hp.
Qed.

(** ** Contacts before and after *)

Definition people (d : ContactsDB) : gmap uuid Contact := db_contacts (co_tables d).

(** A call that leaves the contacts alone. *)
Definition same_people (d d' : ContactsDB) : Prop := people d' = people d.

#[export] Instance same_people_preorder : PreOrder same_people.
Proof. split; unfold same_people; [done|congruence]. Qed.

Definition renamed (opts : ResolveOpts) (c c' : Contact) : Prop :=
  c' = c \/ (ro_UpdateName opts = true /\ c' = set_ct_ProfileName (ro_ProfileName opts) c).

Lemma renamed_same opts c c' : renamed opts c c' ->
  ct_ID c' = ct_ID c /\ ct_DeletedAt c' = ct_DeletedAt c /\ ct_OrganizationID c' = ct_OrganizationID c /\
  ct_PhoneNumber c' = ct_PhoneNumber c /\ ct_MergedIntoID c' = ct_MergedIntoID c.
Proof. by intros [->|[_ ->]]. Qed.

(** What a resolution does to the contacts [t] of an organization. *)
Inductive resolved (id : Identity) (opts : ResolveOpts) (orgID : uuid) (t : gmap uuid Contact) : res err (Contact * Outcome) -> gmap uuid Contact -> Prop :=
| rd_failed e : resolved id opts orgID t (Err e) t
| rd_known c c' o : t !! ct_ID c = Some c -> ct_OrganizationID c = orgID -> live (ct_DeletedAt c) = true -> renamed opts c c' ->
    o = OutcomeFound \/ o = OutcomeFollowedMerge -> resolved id opts orgID t (Ok (c', o)) (<[ct_ID c := c']> t)
| rd_restored c c' : t !! ct_ID c = Some c -> ct_OrganizationID c = orgID -> live (ct_DeletedAt c) = false ->
    ro_AllowRestore opts = true -> ct_DeletedReason c <> ReasonUser -> ct_DeletedReason c <> ReasonMerged ->
    renamed opts (apply_updates restore_updates c) c' ->
    resolved id opts orgID t (Ok (c', OutcomeRestored)) (<[ct_ID c := c']> t)
| rd_created key at_ : let c := new_contact key at_ orgID id opts in
    t !! key = None -> no_other (same_number c) key t = true ->
    resolved id opts orgID t (Ok (c, OutcomeCreated)) (<[key := c]> t).

Section Lifecycle.
Context `{SL : SqlLaws} `{UT : UuidText} `{FS : FieldsServer} `{CS : ContactServer}.

Lemma moves_on_crm {A} (R : Tables -> Tables -> Prop) (m : MT A) :
  moves R m -> (forall a b, R a b -> db_contacts b = db_contacts a) -> moves same_people (on_crm m).
Proof. intros Hm HR. eapply moves_zoom; [exact Hm|]. intros s t Ht. by apply HR. Qed.

Lemma moves_on_values {A} (m : MF A) : moves same_people (on_values m).
Proof. apply (moves_zoom _ _ _ (fun _ _ => True)); [by intros ? ? ? ?|]. by intros s t _. Qed.

Lemma reads_on_crm {A} (m : MT A) : reads m -> reads (on_crm m).
Proof. intros Hm. eapply moves_zoom; [exact Hm|]. by intros [? ?] t <-. Qed.

Lemma PublishTx_people e : moves (fun a b => db_contacts b = db_contacts a) (PublishTx e).
Proof.
  intros w [u|x] w' E.
  - apply PublishTx_ok_inv in E as (row & -> & _). done.
  - apply PublishTx_err_inv in E as (-> & _). done.
Qed.

Lemma publish_people orgID c ty actor : moves same_people (publish orgID c ty actor).
Proof.
  unfold publish. repeat (moves_step; try typeclasses eauto).
  eapply moves_on_crm; [apply PublishTx_people|done].
Qed.

Lemma setSystemField_people orgID id key value : moves same_people (setSystemField orgID id key value).
Proof.
  unfold setSystemField. repeat first [apply moves_on_values | moves_step; try typeclasses eauto].
Qed.

Lemma seedSystemFields_people orgID c source : moves same_people (seedSystemFields orgID c source).
Proof. unfold seedSystemFields. repeat first [apply setSystemField_people | moves_step; try typeclasses eauto]. Qed.

(** *** Reading *)

Lemma lookup_reads orgID id cc : reads (lookup orgID id cc).
Proof.
  unfold lookup, or_else, first.
  repeat first [apply reads_on_crm | moves_step; try typeclasses eauto].
Qed.

(** A row the code has read. *)
Definition stored (d : ContactsDB) (orgID : uuid) (c : Contact) : Prop :=
  people d !! ct_ID c = Some c /\ ct_OrganizationID c = orgID.

Definition people_keyed (d : ContactsDB) : Prop := keyed ct_ID (people d).

Lemma first_spec d orgID cond : people_keyed d ->
  triple (eq d) (first orgID cond)
    (fun r d' => d' = d /\ forall c, r = Ok c -> stored d orgID c /\ cond c = true).
Proof.
  intros Hk. unfold first, on_crm. eapply triple_zoom with (before := eq (co_tables d))
    (after := fun r t => t = co_tables d /\ forall c, r = Ok c -> stored d orgID c /\ cond c = true); [|by intros ? <-|].
  - apply triple_query; [|by intros e t <-]. intros t a <- E. split; [done|]. intros c [= <-].
    apply first_row_ok in E as (k & Hr & Hc). apply andb_true_iff in Hc as [Ho Hc]. apply N.eqb_eq in Ho.
    split; [split; [|done]|done]. unfold people. by rewrite (Hk _ _ Hr).
  - intros ? r t <- [-> Hr]. split; [by destruct d|done].
Qed.

Lemma or_else_spec d (m next : MP Contact) (Q : Contact -> Prop) :
  triple (eq d) m (fun r d' => d' = d /\ forall c, r = Ok c -> Q c) ->
  triple (eq d) next (fun r d' => d' = d /\ forall c, r = Ok c -> Q c) ->
  triple (eq d) (or_else m next) (fun r d' => d' = d /\ forall c, r = Ok c -> Q c).
Proof.
  intros Hm Hn. unfold or_else.
  apply (triple_bind _ (fun r d' => d' = d /\ forall c, r = Ok c -> Q c)).
  - apply triple_try. intros w r w' Hp E. by apply (Hm w r w' Hp E).
  - intros [c|[]]; try (apply triple_fail; by intros ? [-> _]).
    + apply triple_ret. intros ? [-> Hc]. split; [done|]. intros ? [= <-]. by apply Hc.
    + eapply triple_conseq; [exact Hn| |done]. by intros ? [-> _].
Qed.

Lemma lookup_spec d orgID id cc : people_keyed d ->
  triple (eq d) (lookup orgID id cc) (fun r d' => d' = d /\ forall c, r = Ok c -> stored d orgID c).
Proof.
  intros Hk. unfold lookup. cbv zeta.
  assert (triple (eq d) (fail ErrRecordNotFound) (fun r d' => d' = d /\ forall c, r = Ok c -> stored d orgID c)) as Hf
    by (by apply triple_fail; intros ? <-).
  assert (forall cond next, triple (eq d) next (fun r d' => d' = d /\ forall c, r = Ok c -> stored d orgID c) ->
    triple (eq d) (or_else (first orgID cond) next) (fun r d' => d' = d /\ forall c, r = Ok c -> stored d orgID c)) as Ho.
  { intros cond next Hn. apply or_else_spec; [|done]. eapply triple_conseq; [by apply first_spec|done|].
    intros r d' [-> Hr]. split; [done|]. intros c Hc. by apply Hr. }
  destruct (is_empty (id_Phone id)), (is_empty (id_BSUID id)), (is_empty (NormalizeWithCountry (id_Phone id) cc)); auto.
Qed.

Lemma survivor_of_spec d orgID contact : people_keyed d ->
  triple (eq d) (survivor_of orgID contact)
    (fun r d' => d' = d /\ exists s, r = Ok s /\ forall c, s = Some c -> stored d orgID c /\ live (ct_DeletedAt c) = true).
Proof.
  intros Hk. unfold survivor_of. destruct (ct_MergedIntoID contact) as [into|]; [|apply triple_ret; intros ? <-; naive_solver].
  eapply (triple_bind _ (fun r d' => d' = d /\ forall c, r = Ok c -> stored d orgID c /\ live (ct_DeletedAt c) = true)).
  - apply triple_try. eapply triple_zoom with (before := eq (co_tables d))
      (after := fun r t => t = co_tables d /\ forall c, r = Ok c -> stored d orgID c /\ live (ct_DeletedAt c) = true); [|by intros ? <-|].
    + apply triple_query; [|by intros e t <-]. intros t a <- E. split; [done|]. intros c [= <-].
      apply first_row_ok in E as (k & Hr & Hc). unfold contact_in in Hc. rewrite !andb_true_iff, !N.eqb_eq in Hc.
      destruct Hc as [[Ho _] Hl]. split; [split; [|done]|done]. unfold people. by rewrite (Hk _ _ Hr).
    + intros ? r t <- [-> Hr]. split; [by destruct d|done].
  - intros r. apply triple_ret. intros ? [-> Hr]. split; [done|]. eexists. split; [done|].
    intros c Hc. destruct r; simplify_eq. by apply Hr.
Qed.

(** *** Writing *)

Lemma update_contact_spec d p id us : people_keyed d -> names_key ct_ID id p ->
  forall c, people d !! id = Some c -> p c = true ->
  triple (eq d) (on_crm (update_contacts p us))
    (fun r d' => match r with Ok _ => people d' = <[id := apply_updates us c]> (people d) | Err _ => d' = d end).
Proof.
  intros Hk Hp c Hc Hpc. eapply triple_zoom with (before := eq (co_tables d))
    (after := fun r t => match r with Ok _ => db_contacts t = <[id := apply_updates us c]> (people d) | Err _ => t = co_tables d end).
  - apply triple_stmt; [|by intros e t <-]. intros t a t' <- E. cbv zeta in E. destruct (forallb _ (map_to_list (db_contacts (co_tables d)))); [|done]. injection E as _ <-.
    by apply (update_where_key ct_ID).
  - by intros ? <-.
  - intros ? [?|?] t <- Ht; [done|rewrite Ht; by destruct d].
Qed.

Lemma touchName_spec d orgID c opts : people_keyed d -> stored d orgID c -> live (ct_DeletedAt c) = true ->
  triple (eq d) (touchName c opts)
    (fun r d' => exists c', r = Ok c' /\ renamed opts c c' /\ people d' = <[ct_ID c := c']> (people d)).
Proof.
  intros Hk [Hc _] Hl. unfold touchName. destruct (negb (ro_UpdateName opts)) eqn:Hu; simpl;
    [apply triple_ret; intros ? <-; exists c; repeat split; [by left|by rewrite insert_id]|].
  apply negb_false_iff in Hu.
  destruct (is_empty _ || _); [apply triple_ret; intros ? <-; exists c; split; [done|split; [by left|by rewrite insert_id]]|].
  eapply (triple_bind _ (fun r d' => match r with
    | Ok _ => people d' = <[ct_ID c := set_ct_ProfileName (ro_ProfileName opts) c]> (people d) | Err _ => d' = d end)).
  - apply triple_try. eapply triple_conseq; [apply (update_contact_spec d _ (ct_ID c) _ Hk)|done|by intros [?|?] ? E; exact E]; [|exact Hc|].
    + intros r Hr. unfold live_by_key, contact_id in Hr. apply andb_true_iff in Hr as [Hr _]. by apply N.eqb_eq in Hr.
    + unfold live_by_key, contact_id. by rewrite N.eqb_refl, Hl.
  - intros [[]|e]; apply triple_ret; intros d'.
    + intros E. eexists. split; [done|]. split; [by right|done].
    + intros ->. exists c. split; [done|split; [by left|by rewrite insert_id]].
Qed.


Lemma insert_contact_spec d c :
  triple (eq d) (on_crm (insert_contact c))
    (fun r d' => match r with
       | Ok _ => people d !! ct_ID c = None /\ no_other (same_number c) (ct_ID c) (people d) = true /\
                 people d' = <[ct_ID c := c]> (people d)
       | Err _ => d' = d end).
Proof.
  eapply triple_zoom with (before := eq (co_tables d)) (after := fun r t => match r with
    | Ok _ => people d !! ct_ID c = None /\ no_other (same_number c) (ct_ID c) (people d) = true /\
              db_contacts t = <[ct_ID c := c]> (people d)
    | Err _ => t = co_tables d end).
  - apply triple_stmt; [|by intros e t <-]. intros t a t' <- E. cbv zeta in E.
    destruct (negb (row_fits c)); [done|]. destruct (_ && _) eqn:Hn; [|done]. injection E as _ <-.
    apply andb_true_iff in Hn as [Hn Hu]. by apply is_none_true in Hn.
  - by intros ? <-.
  - intros ? [?|?] t <- Ht; [done|rewrite Ht; by destruct d].
Qed.

(** From here on nothing changes the contacts. *)
Lemma then_ret {A B} (m : MP A) (b : B) (t : gmap uuid Contact) (Q : res err B -> ContactsDB -> Prop) :
  moves same_people m -> (forall w, exists a, (m w).1 = Ok a) ->
  (forall d, people d = t -> Q (Ok b) d) -> triple (fun d => people d = t) (m ;;; ret b) Q.
Proof.
  intros Hm Hok HQ w r w' Hw E. destruct (Hok w) as [a Ha]. destruct (m w) as [r1 w1] eqn:E1. simpl in Ha. subst r1.
  unfold bind in E. rewrite E1 in E. injection E as <- <-. apply HQ. by rewrite (Hm _ _ _ E1).
Qed.

Lemma publish_returns orgID c ty actor w : exists a, (publish orgID c ty actor w).1 = Ok a.
Proof.
  unfold publish. destruct (negb _); [by exists tt|]. unfold bind, try, uuid_New, now, ret. cbn -[on_crm].
  destruct (on_crm _ _) as [r w1]. by exists tt.
Qed.

Lemma setSystemField_returns orgID id key value w : exists a, (setSystemField orgID id key value w).1 = Ok a.
Proof.
  unfold setSystemField, bind at 1, try at 1. destruct (on_values _ w) as [[def|e] w1]; [|by exists tt].
  destruct (_ || _); [by exists tt|]. unfold bind at 1, try at 1. destruct (on_values _ w1) as [[v|[]] w2]; try by exists tt.
  unfold bind, try, uuid_New, now, ret. destruct (on_values _ _) as [r w3]. by exists tt.
Qed.

Lemma seedSystemFields_returns orgID c source w : exists a, (seedSystemFields orgID c source w).1 = Ok a.
Proof.
  unfold seedSystemFields, bind. pose proof (setSystemField_returns orgID (ct_ID c) FieldKeyLifecycleStage LifecycleNew w) as [a Ha].
  destruct (setSystemField _ _ _ _ w) as [r w1]. simpl in Ha. subst r.
  destruct (is_empty source); [by exists tt|apply setSystemField_returns].
Qed.

Lemma then_more {A B} (m : MP A) (k : A -> MP B) (t : gmap uuid Contact) (Q : res err B -> ContactsDB -> Prop) :
  moves same_people m -> (forall w, exists a, (m w).1 = Ok a) ->
  (forall a, triple (fun d => people d = t) (k a) Q) -> triple (fun d => people d = t) (bind m k) Q.
Proof.
  intros Hm Hok HQ w r w' Hw E. destruct (Hok w) as [a Ha]. destruct (m w) as [r1 w1] eqn:E1. simpl in Ha. subst r1.
  unfold bind in E. rewrite E1 in E. apply (HQ a w1); [|done]. by rewrite (Hm _ _ _ E1).
Qed.

(** The tables once the other connections have committed. *)
Definition meanwhile (others : Tables -> Tables) (d : ContactsDB) : ContactsDB := set_co_tables (others (co_tables d)) d.

Lemma create_spec d others orgID id opts : people_keyed (meanwhile others d) ->
  triple (eq d) (create others orgID id opts)
    (fun r d' => resolved id opts orgID (people (meanwhile others d)) r (people d')).
Proof.
  intros Hk. unfold create. apply (triple_bind _ (fun _ => eq d)); [by apply triple_uuid; intros ? ? <-|intros key].
  apply (triple_bind _ (fun _ => eq d)); [by apply triple_now; intros ? ? <-|intros t]. cbv zeta.
  set (c := new_contact key t orgID id opts). set (o := meanwhile others d) in *.
  apply (triple_bind _ (fun _ => eq o)).
  { intros w r w' Hw E. apply zoom_inv in E as (part & E & ->). injection E as <- <-. unfold o. by rewrite Hw. }
  intros _. eapply triple_bind; [apply triple_try, insert_contact_spec|]. intros [[]|e].
  - apply (triple_assume _ (people o !! ct_ID c = None /\ no_other (same_number c) (ct_ID c) (people o) = true)); [tauto|].
    intros [Hf Hu]. eapply (triple_conseq _ (fun d' => people d' = <[ct_ID c := c]> (people o))); [|tauto|intros r d' H'; exact H'].
    apply then_more; [apply seedSystemFields_people|intros; apply seedSystemFields_returns|intros _].
    apply then_ret; [apply publish_people|intros; apply publish_returns|]. intros d' ->. by apply (rd_created id opts orgID _ key t).
  - apply (triple_bind _ (fun r d' => d' = o /\ forall x, r = Ok x -> stored o orgID x)).
    { apply triple_try. eapply triple_conseq; [by apply lookup_spec|by intros ? ->|]. by intros r d' [-> Hr]. }
    intros [x|e']; [|apply triple_fail; intros ? [-> _]; apply rd_failed].
    destruct (live (ct_DeletedAt x)) eqn:Hl; [|apply triple_fail; intros ? [-> _]; apply rd_failed].
    apply triple_ret. intros ? [-> Hx]. destruct (Hx x eq_refl) as [Hs Ho].
    rewrite <- (insert_id (people o) (ct_ID x) x) at 2 by done. apply rd_known; [done..|by left|by left].
Qed.

Lemma resolveExisting_spec d others orgID contact id opts :
  people_keyed d -> people_keyed (meanwhile others d) -> stored d orgID contact ->
  triple (eq d) (resolveExisting others orgID contact id opts)
    (fun r d' => resolved id opts orgID (people d) r (people d') \/ resolved id opts orgID (people (meanwhile others d)) r (people d')).
Proof.
  intros Hk Hk' Hc. unfold resolveExisting.
  assert (forall (c : Contact) o, stored d orgID c -> live (ct_DeletedAt c) = true -> o = OutcomeFound \/ o = OutcomeFollowedMerge ->
    triple (eq d) (x <- touchName c opts ;; ret (x, o))
      (fun r d' => resolved id opts orgID (people d) r (people d') \/ resolved id opts orgID (people (meanwhile others d)) r (people d'))) as Hknown.
  { intros c o Hs Hl Ho. apply (triple_bind _ (fun c' d' => renamed opts c c' /\ people d' = <[ct_ID c := c']> (people d))).
    - eapply triple_conseq; [by apply (touchName_spec d orgID c opts)|done|]. by intros r d' (c' & -> & ?).
    - intros c'. apply triple_ret. intros d' (Hr & ->). left. destruct Hs. by apply rd_known. }
  apply (triple_bind _ (fun s d' => d' = d /\ forall c, s = Some c -> stored d orgID c /\ live (ct_DeletedAt c) = true)).
  { eapply triple_conseq; [by apply (survivor_of_spec d)|done|]. by intros r d' (-> & s & -> & Hs). }
  intros [s|].
  { apply (triple_assume _ (stored d orgID s /\ live (ct_DeletedAt s) = true)); [intros ? [_ H']; by apply H'|]. intros [? ?].
    eapply triple_conseq; [apply (Hknown s OutcomeFollowedMerge); auto|by intros ? [-> _]|done]. }
  destruct (live (ct_DeletedAt contact)) eqn:Hl.
  { eapply triple_conseq; [apply (Hknown contact OutcomeFound); auto|by intros ? [-> _]|done]. }
  destruct (_ || _) eqn:Hr.
  { destruct (negb (ro_CreateIfMissing opts)); [apply triple_fail; intros ? [-> _]; left; apply rd_failed|].
    eapply triple_conseq; [by apply create_spec|by intros ? [-> _]|]. by right. }
  apply orb_false_iff in Hr as [Hr Hm]. apply orb_false_iff in Hr as [Ha Hu].
  apply negb_false_iff in Ha. apply String.eqb_neq in Hu, Hm. destruct Hc as [Hc Ho].
  set (c := apply_updates restore_updates contact).
  apply (triple_bind _ (fun _ d' => people d' = <[ct_ID contact := c]> (people d))).
  { eapply triple_conseq; [apply (update_contact_spec d (contact_id (ct_ID contact)) (ct_ID contact) restore_updates Hk)|by intros ? [-> _]|];
      [|exact Hc|apply N.eqb_refl|].
    - intros x Hx. by apply N.eqb_eq in Hx.
    - intros [[]|e] d' E; [done|left; subst; apply rd_failed]. }
  intros _. intros w r w' Hw E. pose proof (touchName_spec (w_db w) orgID c opts) as Ht. 
  destruct (touchName c opts w) as [r1 w1] eqn:E1. unfold bind at 1 in E. rewrite E1 in E.
  assert (people_keyed (w_db w)) as K by (unfold people_keyed; rewrite Hw; by apply keyed_insert).
  assert (stored (w_db w) orgID c) as S by (split; [rewrite Hw; apply lookup_insert_eq|done]).
  destruct (Ht K S eq_refl w r1 w1 eq_refl E1) as (c' & -> & Hren & Hp).
  rewrite Hw in Hp. change (ct_ID c) with (ct_ID contact) in Hp. rewrite insert_insert_eq in Hp.
  left. revert E. apply (then_ret _ (c', OutcomeRestored) (people (w_db w1)) (fun r d' => resolved id opts orgID (people d) r (people d')));
    [apply publish_people|intros; apply publish_returns| |done]. intros d' ->. rewrite Hp. by apply rd_restored.
Qed.

Lemma Resolve_spec d others orgID id opts : people_keyed d -> people_keyed (meanwhile others d) ->
  triple (eq d) (Resolve others orgID id opts)
    (fun r d' => resolved id opts orgID (people d) r (people d') \/ resolved id opts orgID (people (meanwhile others d)) r (people d')).
Proof.
  intros Hk Hk'. unfold Resolve.
  assert (forall e, triple (eq d) (fail e) (fun (r : res err (Contact * Outcome)) d' =>
    resolved id opts orgID (people d) r (people d') \/ resolved id opts orgID (people (meanwhile others d)) r (people d'))) as Hf
    by (intros e; apply triple_fail; intros ? <-; left; apply rd_failed).
  assert (triple (eq d) (create others orgID id opts) (fun r d' =>
    resolved id opts orgID (people d) r (people d') \/ resolved id opts orgID (people (meanwhile others d)) r (people d'))) as Hc
    by (eapply triple_conseq; [by apply create_spec|done|by right]).
  destruct (_ && _); [apply Hf|]. destruct (ro_ForceCreate opts); [done|].
  apply (triple_bind _ (fun r d' => d' = d /\ forall x, r = Ok x -> stored d orgID x)).
  { apply triple_try. by apply lookup_spec. }
  intros [c|e].
  - intros w r w' [Hw Hc'] E. eapply resolveExisting_spec; eauto.
  - intros w r w' [Hw _] E. destruct e; try by eapply Hf.
    destruct (negb (ro_CreateIfMissing opts)); [by eapply Hf|by eapply Hc].
Qed.

(** *** Deletions stand *)

Definition meant (c : Contact) : Prop := ct_DeletedReason c = ReasonUser \/ ct_DeletedReason c = ReasonMerged.

Lemma resolved_answer id opts orgID t c o t' : resolved id opts orgID t (Ok (c, o)) t' ->
  t' !! ct_ID c = Some c /\ ct_OrganizationID c = orgID /\ live (ct_DeletedAt c) = true.
Proof.
  inversion 1 as [|x c' o' Hx Ho Hl Hr _|x c' Hx Ho Hl _ _ _ Hr|key at_ c' Hf _]; subst; simpl; try rewrite lookup_insert_eq;
    try apply renamed_same in Hr as (-> & -> & -> & _); by rewrite ?lookup_insert_eq.
Qed.

Lemma resolved_deleted id opts orgID t r t' k c : resolved id opts orgID t r t' -> t !! k = Some c -> live (ct_DeletedAt c) = false ->
  ro_AllowRestore opts = false \/ meant c -> t' !! k = Some c.
Proof.
  intros Hr Hk Hl Hc. destruct Hr as [e|x c' o Hx _ Hlx _ _|x c' Hx _ _ Ha Hu Hm _|key at_ c' Hf _]; [done|..];
    rewrite lookup_insert_ne; try done; intros <-; simplify_eq; unfold meant in Hc; intuition congruence.
Qed.

Lemma resolved_live id opts orgID t r t' k c : keyed ct_ID t -> resolved id opts orgID t r t' -> t !! k = Some c -> live (ct_DeletedAt c) = true ->
  exists c', t' !! k = Some c' /\ renamed opts c c'.
Proof.
  intros Hkey Hr Hk Hl. destruct Hr as [e|x c' o Hx _ _ Hr _|x c' Hx _ Hlx _ _ _ _|key at_ c' Hf _];
    [by exists c; split; [|left]|..].
  - destruct (decide (k = ct_ID x)) as [->|]; [|rewrite lookup_insert_ne by done; exists c; by split; [|left]].
    rewrite lookup_insert_eq. simplify_eq. eauto.
  - destruct (decide (k = ct_ID x)) as [->|]; [simplify_eq; congruence|].
    rewrite lookup_insert_ne by done. exists c; by split; [|left].
  - destruct (decide (k = key)) as [->|]; [congruence|]. rewrite lookup_insert_ne by done. exists c; by split; [|left].
Qed.

(** Whatever fails, and whatever contacts others add meanwhile, [Resolve] answers with a live contact of the
    organization as it is stored; a contact that somebody deleted or that was merged away stays as it is, and every
    deleted contact does unless the caller allows restoring; a live contact keeps everything but its name. *)
Theorem deletions_stand others orgID id opts w r w' :
  (forall t, db_contacts t ⊆ db_contacts (others t)) ->
  people_keyed (w_db w) -> people_keyed (meanwhile others (w_db w)) ->
  Resolve others orgID id opts w = (r, w') ->
  (forall c o, r = Ok (c, o) -> stored (w_db w') orgID c /\ live (ct_DeletedAt c) = true) /\
  (forall k c, people (w_db w) !! k = Some c -> live (ct_DeletedAt c) = false ->
     ro_AllowRestore opts = false \/ meant c -> people (w_db w') !! k = Some c) /\
  (forall k c, people (w_db w) !! k = Some c -> live (ct_DeletedAt c) = true ->
     exists c', people (w_db w') !! k = Some c' /\ renamed opts c c').
Proof.
  intros Hadd Hk Hk' E.
  assert (exists t, keyed ct_ID t /\ people (w_db w) ⊆ t /\ resolved id opts orgID t r (people (w_db w'))) as (t & Ht & Hsub & Hr).
  { destruct (Resolve_spec (w_db w) others orgID id opts Hk Hk' w r w' eq_refl E) as [Hr|Hr]; [exists (people (w_db w))|exists (people (meanwhile others (w_db w)))].
    - by split; [|split].
    - split; [done|split; [apply Hadd|done]]. }
  split; [|split].
  - intros c o ->. apply resolved_answer in Hr as (? & ? & ?). done.
  - intros k c Hc. eapply resolved_deleted; [done|by eapply lookup_weaken].
  - intros k c Hc. eapply resolved_live; [done..|by eapply lookup_weaken].
Qed.

(** *** A contact that was created is found again *)

Definition nobody (t : Tables) : Tables := t.

(** When [first] has no live row to offer, there is none. *)
Lemma first_none_live orgID cond w r w' : first orgID cond w = (r, w') ->
  r = Err ErrRecordNotFound \/ (exists x, r = Ok x /\ live (ct_DeletedAt x) = false) ->
  forall k c, people (w_db w) !! k = Some c -> ct_OrganizationID c = orgID -> cond c = true -> live (ct_DeletedAt c) = false.
Proof.
  intros E Hr k c Hk Ho Hc. apply zoom_inv in E as (part & E & _).
  assert (N.eqb (ct_OrganizationID c) orgID && cond c = true) as Hp by (by rewrite Ho, N.eqb_refl).
  destruct Hr as [->|(x & -> & Hx)].
  - apply query_benign_inv in E as [E _]; [|done]. apply first_row_err in E as [_ E]. pose proof (E _ _ Hk) as E'. cbv beta in E'. by rewrite Hp in E'.
  - apply query_ok_inv in E as [E _]. by apply (first_row_live _ _ _ E Hx k c).
Qed.

Lemma lookup_none_live orgID id cc w r w' : id_Phone id <> "" -> lookup orgID id cc w = (r, w') ->
  r = Err ErrRecordNotFound \/ (exists x, r = Ok x /\ live (ct_DeletedAt x) = false) ->
  forall k c, people (w_db w) !! k = Some c -> ct_OrganizationID c = orgID -> spelled (id_Phone id) c = true -> live (ct_DeletedAt c) = false.
Proof.
  intros Hne E Hr. unfold lookup in E. destruct (is_empty (id_Phone id)) eqn:He; [by apply is_empty_spec in He|].
  unfold or_else at 1, bind at 1, try at 1 in E. destruct (first orgID (spelled (id_Phone id)) w) as [[x|e] w1] eqn:E1.
  - injection E as <- _. by apply (first_none_live _ _ _ _ _ E1).
  - destruct e; try (injection E as <- _; by destruct Hr as [|(? & ? & _)]). apply (first_none_live _ _ _ _ _ E1). by left.
Qed.

(** [Resolve] creates only when no live contact has the number in any spelling. *)
Lemma created_means_unknown others orgID id opts w c w' : people_keyed (w_db w) -> people_keyed (meanwhile others (w_db w)) ->
  ro_ForceCreate opts = false -> id_Phone id <> "" -> Resolve others orgID id opts w = (Ok (c, OutcomeCreated), w') ->
  forall k x, people (w_db w) !! k = Some x -> ct_OrganizationID x = orgID -> spelled (id_Phone id) x = true -> live (ct_DeletedAt x) = false.
Proof.
  intros Hk Hk' Hforce Hne E. unfold Resolve in E. destruct (_ && _); [done|]. rewrite Hforce in E.
  unfold bind at 1, try at 1 in E. destruct (lookup orgID id (ro_DefaultCountryCode opts) w) as [r w1] eqn:El.
  apply (lookup_none_live _ _ _ _ _ _ Hne El). destruct r as [x|[]]; try done; [|by left]. right. exists x. split; [done|].
  destruct (live (ct_DeletedAt x)) eqn:Hl; [|done]. exfalso. unfold resolveExisting in E. rewrite Hl in E.
  apply bind_ok_inv in E as ([s|] & w2 & _ & E); apply bind_ok_inv in E as (? & ? & _ & [= ]).
Qed.

(** The digits of a number, bare or with a plus, and the spelling at hand. *)
Definition same_spelling (phone phone' : string) : Prop :=
  phone' = phone \/ phone' = Normalize phone \/ phone' = ("+" ++ Normalize phone)%string.

Lemma spelled_elem phone c : spelled phone c = true <-> ct_PhoneNumber c ∈ Variants phone.
Proof.
  unfold spelled. rewrite existsb_exists. split.
  - intros (v & Hv & E). apply String.eqb_eq in E as ->. by apply list_elem_of_In.
  - intros Hin. exists (ct_PhoneNumber c). by rewrite <- list_elem_of_In, String.eqb_refl.
Qed.

Lemma Normalize_in_Variants phone : Normalize phone <> "" -> Normalize phone ∈ Variants phone.
Proof.
  intros Hne. destruct (has_at (Normalize phone)) eqn:Ha; [|by apply Variants_no_at]. unfold Variants.
  destruct (is_empty _) eqn:E; [by apply is_empty_spec in E|]. rewrite Ha. by left.
Qed.

Lemma Normalize_plus_any phone : Normalize phone <> "" -> has_at (Normalize phone) = false ->
  Normalize ("+" ++ Normalize phone) = Normalize phone.
Proof. intros Hne Ha. apply Normalize_plus; [by apply Normalize_nonempty_digits|done]. Qed.

(** A bare number is looked for under the forms every spelling of it is looked for under. *)
Lemma spelled_fewer phone phone' s : Normalize phone <> "" -> has_at (Normalize phone) = false -> same_spelling phone phone' ->
  Normalize phone' = Normalize phone /\ (s ∈ Variants phone' -> s ∈ Variants phone).
Proof.
  intros Hne Ha Hs. pose proof (Normalize_nonempty_digits _ Ha) as Hd.
  assert (forall p, TrimSpace p = Normalize phone \/ TrimSpace p = ("+" ++ Normalize phone)%string -> Normalize p = Normalize phone ->
    s ∈ Variants p -> s ∈ Variants phone) as Hbare.
  { intros p Ht Hn Hin. pose proof (Variants_no_at phone Hne Ha) as [H1 H2]. unfold Variants in Hin. rewrite Hn, Ha in Hin.
    destruct (is_empty (Normalize phone)); [by apply not_elem_of_nil in Hin|].
    assert (negb (String.eqb (TrimSpace p) (Normalize phone)) && negb (String.eqb (TrimSpace p) ("+" ++ Normalize phone)) = false) as E.
    { destruct Ht as [-> | ->]; rewrite String.eqb_refl; [done|apply andb_false_r]. }
    rewrite E in Hin. rewrite !elem_of_cons in Hin. destruct Hin as [->|[->|Hin]]; [done..|by apply not_elem_of_nil in Hin]. }
  destruct Hs as [->|[->| ->]]; [done|..]; (split; [|apply Hbare]); rewrite ?Normalize_idem, ?Normalize_plus_any by done; try done.
  - left. by apply all_digits_trim.
  - right. apply TrimSpace_black. constructor; [done|]. eapply Forall_impl; [exact Hd|]. intros x Hx. by apply digit_facts.
Qed.

Lemma touchName_returns c opts w : exists c', (touchName c opts w).1 = Ok c' /\ ct_ID c' = ct_ID c.
Proof.
  unfold touchName. destruct (_ || _ || _); [by exists c|]. unfold bind, try, ret.
  destruct (on_crm _ w) as [[[]|e] w1]; [by eexists|by exists c].
Qed.

(** A healthy lookup for a number only one live contact has. *)
Lemma resolve_finds others orgID id opts w c : id_Phone id <> "" -> TrimSpace (id_Phone id) <> "" -> ro_ForceCreate opts = false -> quiet w ->
  people (w_db w) !! ct_ID c = Some c -> ct_OrganizationID c = orgID -> live (ct_DeletedAt c) = true -> ct_MergedIntoID c = None ->
  spelled (id_Phone id) c = true ->
  (forall k x, people (w_db w) !! k = Some x -> ct_OrganizationID x = orgID -> spelled (id_Phone id) x = true -> live (ct_DeletedAt x) = true -> x = c) ->
  exists c' w', Resolve others orgID id opts w = (Ok (c', OutcomeFound), w') /\ ct_ID c' = ct_ID c.
Proof.
  intros Hne Hne' Hforce Hq Hc Ho Hl Hm Hs Honly.
  assert (first_row (fun x => N.eqb (ct_OrganizationID x) orgID && spelled (id_Phone id) x) lookup_order (people (w_db w)) = Ok c) as Hfirst.
  { apply (first_row_only _ _ (ct_ID c)); [done|by rewrite Ho, N.eqb_refl|done|].
    intros k x Hk Hx Hlx. apply andb_true_iff in Hx as [Hox Hsx]. apply N.eqb_eq in Hox. by apply (Honly k). }
  unfold Resolve. destruct (is_empty (TrimSpace _)) eqn:He; [by apply is_empty_spec in He|]. simpl. rewrite Hforce.
  assert (exists w1, lookup orgID id (ro_DefaultCountryCode opts) w = (Ok c, w1)) as [w1 El].
  { unfold lookup. destruct (is_empty (id_Phone id)) eqn:E; [by apply is_empty_spec in E|].
    unfold or_else at 1, bind at 1, try at 1, first at 1, on_crm at 1, zoom at 1.
    erewrite query_quiet; [by eexists|done|exact Hfirst]. }
  erewrite bind_run by (by apply try_run). cbn beta iota. unfold resolveExisting, survivor_of. rewrite Hm.
  erewrite bind_run by done. cbn beta iota. rewrite Hl.
  destruct (touchName_returns c opts w1) as (c' & E & Hid). destruct (touchName c opts w1) as [r w2] eqn:Et. simpl in E. subst r.
  exists c', w2. erewrite bind_run by done. done.
Qed.

(** [Resolve] creates a contact only for a number no live contact of the organization has in any of its spellings,
    and from then on the number - as it was, as bare digits or with a plus - is found to be that contact's. *)
Theorem created_is_found orgID id opts w c w1 :
  people_keyed (w_db w) -> ro_ForceCreate opts = false -> has_at (Normalize (id_Phone id)) = false -> Normalize (id_Phone id) <> "" ->
  Resolve nobody orgID id opts w = (Ok (c, OutcomeCreated), w1) ->
  (forall k x, people (w_db w) !! k = Some x -> ct_OrganizationID x = orgID -> ct_PhoneNumber x ∈ Variants (id_Phone id) ->
     live (ct_DeletedAt x) = false) /\
  (forall id' opts' others w2, people (w_db w2) = people (w_db w1) -> quiet w2 -> ro_ForceCreate opts' = false ->
     same_spelling (id_Phone id) (id_Phone id') ->
     exists c' w3, Resolve others orgID id' opts' w2 = (Ok (c', OutcomeFound), w3) /\ ct_ID c' = ct_ID c).
Proof.
  intros Hk Hforce Ha Hne E.
  assert (forall p, Normalize p <> "" -> p <> "" /\ TrimSpace p <> "") as Hne'.
  { intros p Hp. assert (TrimSpace p <> "") as H'; [intros E'; rewrite <- Normalize_TrimSpace, E' in Hp; done|].
    split; [intros ->; done|done]. }
  pose proof (created_means_unknown nobody orgID id opts w c w1 Hk Hk Hforce (proj1 (Hne' _ Hne)) E) as Hno.
  split; [intros k x Hx Hox Hsx; apply (Hno k x Hx Hox); by apply spelled_elem|].
  intros id' opts' others w2 Hw2 Hq Hforce' Hs.
  assert (resolved id opts orgID (people (w_db w)) (Ok (c, OutcomeCreated)) (people (w_db w1))) as Hr.
  { destruct (Resolve_spec (w_db w) nobody orgID id opts Hk Hk w _ w1 eq_refl E) as [?|?]; done. }
  inversion Hr as [|? ? ? ? ? ? ? [|]| |key at_ c0 Hf _ Ec Ep]; try done. subst c0.
  set (c0 := new_contact key at_ orgID id opts) in *. rewrite <- Ec in *. clear Hr.
  assert (ct_PhoneNumber c0 = Normalize (id_Phone id)) as Hp.
  { subst c0. simpl. destruct (is_empty (Normalize (id_Phone id))) eqn:Em; [by apply is_empty_spec in Em|done]. }
  destruct (spelled_fewer _ _ "" Hne Ha Hs) as [Hn' _].
  apply resolve_finds; try done; try (by apply Hne'; rewrite Hn').
  - rewrite Hw2, <- Ep. apply lookup_insert_eq.
  - apply spelled_elem. rewrite Hp, <- Hn'. apply Normalize_in_Variants. by rewrite Hn'.
  - intros k x Hx Hox Hsx Hlx. rewrite Hw2, <- Ep in Hx. destruct (decide (k = key)) as [->|]; [by rewrite lookup_insert_eq in Hx; simplify_eq|].
    rewrite lookup_insert_ne in Hx by done. exfalso. rewrite (Hno k x Hx Hox) in Hlx; [done|].
    apply spelled_elem. apply spelled_elem in Hsx. by apply (spelled_fewer _ _ _ Hne Ha Hs).
Qed.
End Lifecycle.

(** ** Closing the conversation of a contact that is deleted *)

Section Closing.
Context `{SL : SqlLaws} `{UT : UuidText}.
Implicit Types (d : Tables) (w : world Tables).

(** Nobody works on anything for the contact. *)
Definition no_session (org contact : uuid) d : Prop :=
  forall k s, db_sessions d !! k = Some s -> ss_OrganizationID s = org -> ss_ContactID s = contact ->
    live (ss_DeletedAt s) = true -> ss_Status s <> SessionStatusActive.

Definition no_transfer (org contact : uuid) d : Prop :=
  forall k t, db_transfers d !! k = Some t -> tr_OrganizationID t = org -> tr_ContactID t = contact ->
    live (tr_DeletedAt t) = true -> tr_Status t <> TransferStatusActive.

(** What [Delete] relies on: the service it is given leaves contacts alone and starts no work; on a healthy database
    the contact has no live conversation afterwards. *)
Record CloserLaws (resolve : Closer) : Prop := {
  closer_contacts : forall org contact reason actor, moves (fun d d' => db_contacts d' = db_contacts d) (resolve org contact reason actor);
  closer_work : forall org contact reason actor, moves (keeps (fun d => no_session org contact d /\ no_transfer org contact d))
    (resolve org contact reason actor);
  closer_closes : forall org contact reason actor w r w', quiet w -> w_in_tx w = false -> fresh_ids w -> crm_ok (w_db w) -> resolve org contact reason actor w = (r, w') ->
    quiet w' /\ no_live org contact (w_db w')
}.

Lemma sessions_ended_none org contact at_ d : no_session org contact d -> no_session org contact (set_db_sessions (sessions_ended org contact at_ d) d).
Proof.
  intros Hno k s Hk Ho Hc Hl. simpl in Hk. unfold sessions_ended in Hk. rewrite update_where_lookup in Hk.
  destruct (db_sessions d !! k) as [s0|] eqn:E; [|done]. simpl in Hk. destruct (_ && _) eqn:Hp; simplify_eq; [done|by eapply Hno].
Qed.

Lemma Resolve_run org contact reason actor w r w' : wf_keys (w_db w) -> Conversation.Resolve org contact reason actor w = (r, w') ->
  w_db w' = w_db w \/ exists x o, db_conversations (w_db w) !! cv_ID x = Some x /\ live_conversation org contact x = true /\
    w_db w' = set_db_outbox o (set_db_sessions (sessions_ended org contact (w_now w) (w_db w))
      (set_db_conversations (<[cv_ID x := apply_updates (resolve_updates reason actor (w_now w)) x]> (db_conversations (w_db w))) (w_db w))).
Proof.
  intros Hwf E. destruct r as [c|e]; [|left; by eapply transaction_err].
  apply Resolve_ok in E as (x & o & Hk & Hl & -> & -> & _); [|done]. right. eauto.
Qed.

Lemma Resolve_moves org contact reason actor (R : Tables -> Tables -> Prop) `{!PreOrder R} :
  (forall d t, R d (set_db_conversations t d)) -> (forall d at_, R d (set_db_sessions (sessions_ended org contact at_ d) d)) ->
  (forall d o, R d (set_db_outbox o d)) -> moves R (Conversation.Resolve org contact reason actor).
Proof.
  intros Hc Hs Ho. unfold Conversation.Resolve, lockContact, activeForUpdate, find_active, byID, publishAs, PublishTx, endActiveSession.
  repeat (moves_step; try typeclasses eauto); (apply moves_stmt; [typeclasses eauto|]); intros d0 u d1 E.
  - by simplify_eq.
  - cbv zeta in E. case_match; simplify_eq. apply Hc.
  - simplify_eq. apply Hs.
  - destruct (db_outbox d0 !! _); simplify_eq. apply Ho.
Qed.

Lemma Resolve_quiet org contact reason actor w : quiet w -> w_in_tx w = false -> fresh_ids w -> crm_ok (w_db w) ->
  exists r w', Conversation.Resolve org contact reason actor w = (r, w') /\ quiet w' /\
    (is_ok r = true \/ (w_db w' = w_db w /\ no_live org contact (w_db w))).
Proof.
  intros Hq Htx [Hnil Hfresh] Hok. unfold Conversation.Resolve, activeForUpdate.
  set (w0 := after_stmt [LContact contact] (w_db (tx_start w)) (tx_start w)).
  assert (quiet w0) as Hq0 by (by apply quiet_after_stmt, quiet_tx_start).
  assert (lockContact contact (tx_start w) = (Ok tt, w0)) as E0.
  { unfold lockContact. by erewrite stmt_quiet by (done || by apply quiet_tx_start). }
  destruct (find_active_quiet org contact w0 Hq0) as (w1 & Hdb1 & Hu1 & Hq1 & [(x & E1)|[E1 Hno]]).
  2: { eexists _, _. split; [|split; [|right; split; [|exact Hno]]].
       - unfold transaction, transaction_if. erewrite (bind_run (stmt no_locks _)).
         2: { apply stmt_quiet; [|done]. by destruct Hq. }
         fold (tx_start w). change (after_stmt _ _ (set_in_tx true (set_aborted false w))) with (tx_start w).
         erewrite bind_run by exact E0. unfold bind at 1. rewrite E1. reflexivity.
       - destruct Hq1 as [Hf _]. by split.
       - done. }
  pose proof (find_active_ok _ _ _ _ _ E1) as ((k & Hk) & Hl & _). change (w_db w0) with (w_db w) in Hk, Hdb1.
  pose proof Hok as [Hwf [Hkeyed Hone _]]. rewrite <- (Hkeyed _ _ Hk) in Hk. clear k.
  pose proof (live_conversation_live _ _ _ Hl) as (Ho & Hc & Ha & Hd).
  destruct (update_conversation_quiet (cv_ID x) (resolve_updates reason actor (w_now w1)) w1 x) as (w2 & E2 & Hq2 & Hu2 & Hdb2); try done.
  1,2: by rewrite Hdb1.
  { rewrite Hdb1. by eapply live_no_other; [apply Hok|..|apply resolve_same]. }
  assert (endActiveSession org contact (w_now w1) w2 = (Ok tt, after_stmt [] (set_db_sessions (sessions_ended org contact (w_now w1) (w_db w2)) (w_db w2)) w2)) as E3.
  { unfold endActiveSession. by erewrite stmt_quiet. }
  set (w3 := after_stmt _ _ w2) in E3. assert (quiet w3) as Hq3 by (by apply quiet_after_stmt).
  destruct (publishAs_quiet org contact (cv_ID x) "conversation.status_changed" actor
    (from_to (cv_Status x) ConversationResolved ++ [("reason"%string, AString reason)]) w3) as (w4 & o & E4 & Hq4 & Hdb4); [done|..].
  { change (w_uuid w3) with (w_uuid w2). by rewrite Hu2, Hu1. }
  { change (w_uuid w3) with (w_uuid w2). change (db_outbox (w_db w3)) with (db_outbox (w_db w2)). rewrite Hu2, Hu1, Hdb2, Hdb1.
    apply (Hfresh (w_uuid w)). apply N.le_refl. }
  set (c := apply_updates (resolve_updates reason actor (w_now w1)) x) in *.
  assert (same_conversation x c) as Hsame by apply resolve_same.
  assert (db_conversations (w_db w4) = <[cv_ID x := c]> (db_conversations (w_db w))) as Hc4.
  { rewrite Hdb4. unfold w3. simpl. by rewrite Hdb2, Hdb1. }
  assert (byID (cv_ID x) w4 = (Ok c, after_stmt [] (w_db w4) w4)) as E5.
  { apply byID_quiet; [done|..].
    - rewrite Hc4. apply keyed_insert; [done|]. by destruct Hsame as [-> _].
    - rewrite Hc4. apply lookup_insert_eq.
    - by destruct Hsame as (_ & _ & _ & -> & _). }
  eexists (Ok c), _. split; [|split; [|by left]].
  - apply (transaction_quiet _ w c (after_stmt [] (w_db w4) w4) Hq); [|by apply quiet_after_stmt].
    erewrite bind_run by exact E0. erewrite bind_run by exact E1. erewrite bind_run by done.
    erewrite bind_run by exact E2. erewrite bind_run by exact E3. erewrite bind_run by exact E4. exact E5.
  - by apply quiet_tx_commit, quiet_after_stmt.
Qed.

Lemma resolved_no_live d org contact x reason actor at_ o se : crm_ok d -> db_conversations d !! cv_ID x = Some x -> live_conversation org contact x = true ->
  no_live org contact (set_db_outbox o (set_db_sessions se
      (set_db_conversations (<[cv_ID x := apply_updates (resolve_updates reason actor at_) x]> (db_conversations d)) d))).
Proof.
  intros [_ [_ Hone _]] Hx Hl k r Hk. simpl in Hk. apply live_conversation_live in Hl as (Ho & Hc & Ha & Hd).
  destruct (decide (k = cv_ID x)) as [->|Hne].
  - rewrite lookup_insert_eq in Hk. injection Hk as <-. unfold live_conversation, resolve_updates.
    destruct (String.eqb _ _); simpl; by rewrite ?andb_false_r.
  - rewrite lookup_insert_ne in Hk by done. apply not_true_iff_false. intros Hl. apply live_conversation_live in Hl as (Ho' & Hc' & Ha' & Hd').
    apply Hne. symmetry. apply (Hone (cv_ID x) x k r Hx Hk). apply clashes_true. by subst.
Qed.

(** The conversation service is such a service. *)
Lemma Resolve_closes : CloserLaws Conversation.Resolve.
Proof.
  split.
  - intros org contact reason actor. apply Resolve_moves; try typeclasses eauto; try done. split; [done|congruence].
  - intros org contact reason actor. apply Resolve_moves; [typeclasses eauto|..].
    + intros d t Hd. exact Hd.
    + intros d at_ [Hs Ht]. split; [by apply sessions_ended_none|done].
    + intros d o Hd. exact Hd.
  - intros org contact reason actor w r w' Hq Htx Hf Hok E.
    destruct (Resolve_quiet org contact reason actor w Hq Htx Hf Hok) as (r1 & w1 & E1 & Hq1 & Hr1). rewrite E in E1. injection E1 as <- <-.
    split; [done|]. destruct Hr1 as [Hr|[-> Hno]]; [|done]. destruct r as [c|]; [|done].
    apply Resolve_ok in E as (x & o & Hk & Hl & -> & -> & _); [|apply Hok]. by apply resolved_no_live.
Qed.
End Closing.

(** ** Deleting *)

Section Deleting.
Context `{SL : SqlLaws} `{UT : UuidText} `{FS : FieldsServer} `{CS : ContactServer}.
Variable conversations : option Closer.
Hypothesis closer_laws : forall resolve, conversations = Some resolve -> CloserLaws resolve.

(** A call that only adds to the outbox. *)
Definition outbox_only (a b : Tables) : Prop := exists o, b = set_db_outbox o a.

#[local] Instance outbox_only_preorder : PreOrder outbox_only.
Proof.
  split; [intros a; exists (db_outbox a); by destruct a|]. intros a b c [o ->] [o' ->]. by exists o'.
Qed.

Lemma PublishTx_outbox e : moves outbox_only (PublishTx e).
Proof.
  intros w [u|x] w' E.
  - apply PublishTx_ok_inv in E as (row & -> & _). by eexists.
  - apply PublishTx_err_inv in E as (-> & _). reflexivity.
Qed.

Lemma publish_outbox orgID c ty actor : moves (fun a b => outbox_only (co_tables a) (co_tables b)) (publish orgID c ty actor).
Proof.
  assert (PreOrder (fun a b : ContactsDB => outbox_only (co_tables a) (co_tables b))) as HP
    by (split; [intros a; reflexivity|intros a b d H1 H2; by etrans]).
  unfold publish. repeat (moves_step; try typeclasses eauto).
  eapply moves_zoom; [apply PublishTx_outbox|by intros s t Ht].
Qed.

Lemma endWorkInFlight_people orgID id actor : moves same_people (endWorkInFlight conversations orgID id actor).
Proof.
  unfold endWorkInFlight. repeat (moves_step; try typeclasses eauto).
  3: { eapply moves_on_crm; [apply closer_contacts; by apply closer_laws|done]. }
  all: eapply (moves_on_crm (fun d d' => db_contacts d' = db_contacts d)); [apply moves_stmt|done];
    [split; [done|congruence]|by intros d u d' [= _ <-]].
Qed.

Lemma endWorkInFlight_returns orgID id actor w : exists a, (endWorkInFlight conversations orgID id actor w).1 = Ok a.
Proof.
  unfold endWorkInFlight, bind at 1, now. unfold bind at 1, try at 1. destruct (on_crm _ w) as [r w1].
  unfold bind at 1, try at 1. destruct (on_crm _ w1) as [r2 w2]. destruct conversations as [resolve|]; [|by exists tt].
  unfold bind, try, ret. destruct (on_crm _ w2) as [r3 w3]. by exists tt.
Qed.

Lemma Delete_spec orgID id reason actor d : people_keyed d ->
  triple (eq d) (Delete conversations orgID id reason actor)
    (fun r d' => match r with
       | Err _ => d' = d
       | Ok _ => exists c at_, stored d orgID c /\ ct_ID c = id /\ live (ct_DeletedAt c) = true /\
                   people d' = <[id := apply_updates (delete_updates reason at_) c]> (people d)
       end).
Proof.
  intros Hk. unfold Delete.
  apply (triple_bind _ (fun c d' => d' = d /\ stored d orgID c /\ ct_ID c = id /\ live (ct_DeletedAt c) = true)).
  { eapply triple_zoom with (before := eq (co_tables d)) (after := fun r t => t = co_tables d /\
      forall c, r = Ok c -> stored d orgID c /\ ct_ID c = id /\ live (ct_DeletedAt c) = true); [|by intros ? <-|].
    - apply triple_query; [|by intros e t <-]. intros t a <- E. split; [done|]. intros c [= <-].
      apply first_row_ok in E as (k & Hr & Hc). unfold contact_in, contact_id in Hc. rewrite !andb_true_iff, !N.eqb_eq in Hc.
      destruct Hc as [[Ho Hid] Hl]. split; [split; [|done]|done]. unfold people. by rewrite (Hk _ _ Hr).
    - intros ? r t <- [-> Hr]. assert (set_co_tables (co_tables d) d = d) as -> by (by destruct d).
      destruct r as [c|]; [|done]. split; [done|by apply Hr]. }
  intros c. apply (triple_assume _ (stored d orgID c /\ ct_ID c = id /\ live (ct_DeletedAt c) = true)); [by intros ? [_ ?]|].
  intros (Hs & Hid & Hl). apply (triple_conseq _ (eq d) _ _ (fun r d' => match r with
       | Err _ => d' = d
       | Ok _ => exists c at_, stored d orgID c /\ ct_ID c = id /\ live (ct_DeletedAt c) = true /\
                   people d' = <[id := apply_updates (delete_updates reason at_) c]> (people d) end)); [|by intros ? [-> _]|done].
  apply (triple_bind _ (fun _ => eq d)); [by apply triple_now|]. intros at_.
  apply (triple_bind _ (fun _ d' => people d' = <[id := apply_updates (delete_updates reason at_) c]> (people d))).
  { eapply triple_conseq; [apply (update_contact_spec d (live_by_key id) id (delete_updates reason at_) Hk)|done|]; [|by subst id; apply Hs|..].
    - intros x Hx. unfold live_by_key, contact_id in Hx. apply andb_true_iff in Hx as [Hx _]. by apply N.eqb_eq in Hx.
    - unfold live_by_key, contact_id. by rewrite Hid, N.eqb_refl, Hl.
    - by intros [[]|e] d'. }
  intros _. apply then_more; [|intros w|intros _].
  - destruct (negb _); [apply endWorkInFlight_people|apply moves_ret; typeclasses eauto].
  - destruct (negb _); [apply endWorkInFlight_returns|by exists tt].
  - intros w r w' Hw E. destruct (publish_returns orgID c "contact.deleted" actor w) as [u Hu]. rewrite E in Hu. simpl in Hu. subst r.
    exists c, at_. split; [done|split; [done|split; [done|]]]. rewrite <- Hw. by apply (publish_people _ _ _ _ _ _ _ E).
Qed.
(** *** The work in flight *)

(** A world in which the conversation service runs undisturbed. *)
Definition at_rest (w : world ContactsDB) : Prop :=
  let t := see (co_tables (w_db w)) w in quiet t /\ w_in_tx t = false /\ fresh_ids t /\ crm_ok (w_db t).

(** A statement on the CRM's tables of a world at rest. *)
Lemma stmt_at_rest {A} (f : Tables -> res err A * Tables) (a : A) w w' :
  quiet (see (co_tables (w_db w)) w) -> on_crm (stmt no_locks f) w = (Ok a, w') ->
  exists t, f (co_tables (w_db w)) = (Ok a, t) /\
    see (co_tables (w_db w')) w' = after_stmt [] t (see (co_tables (w_db w)) w).
Proof.
  intros Hq E. apply zoom_inv in E as (part & E & ->). unfold stmt in E. destruct Hq as [Hf Hab]. rewrite Hf, Hab in E.
  simpl in *. destruct (f (co_tables (w_db w))) as [[b|e] t] eqn:Ef.
  - injection E as <- <-. exists t. split; [done|]. unfold after_stmt, see. simpl in *. by rewrite Hf.
  - by destruct (aborts e).
Qed.

Lemma at_rest_stmt {A} (f : Tables -> res err A * Tables) (a : A) w w' :
  at_rest w -> on_crm (stmt no_locks f) w = (Ok a, w') ->
  (forall d b t, f d = (Ok b, t) -> db_conversations t = db_conversations d /\ db_outbox t = db_outbox d /\ (crm_ok d -> crm_ok t)) ->
  at_rest w' /\ exists t, f (co_tables (w_db w)) = (Ok a, t) /\ co_tables (w_db w') = t.
Proof.
  intros (Hq & Htx & [Hnil Hfresh] & Hok) E Hf. destruct (stmt_at_rest f a w w' Hq E) as (t & Ef & Ew).
  destruct (Hf _ _ _ Ef) as (Hc & Ho & Hkeep).
  assert (co_tables (w_db w') = t) as Et by (change (co_tables (w_db w')) with (w_db (see (co_tables (w_db w')) w')); by rewrite Ew).
  split; [|by exists t]. unfold at_rest. rewrite Ew. split; [by apply quiet_after_stmt|]. split; [done|]. split; [|by apply Hkeep].
  split; [done|]. intros n Hn. simpl. rewrite Hc, Ho. by apply Hfresh.
Qed.

Lemma stmt_goes_through {A} (f : Tables -> res err A * Tables) w r w' :
  quiet (see (co_tables (w_db w)) w) -> (exists a t, f (co_tables (w_db w)) = (Ok a, t)) ->
  on_crm (stmt no_locks f) w = (r, w') -> exists a, r = Ok a.
Proof.
  intros Hq (a & t & Ef) E. apply zoom_inv in E as (part & E & _).
  rewrite (stmt_quiet no_locks f _ a t Hq Ef) in E. injection E as <- _. by exists a.
Qed.

Lemma keys_updated {R} (key : R -> N) (p : R -> bool) us (t : gmap N R) :
  (forall r, key (apply_updates us r) = key r) -> (forall k r, t !! k = Some r -> key r = k) ->
  forall k r, update_where p us t !! k = Some r -> key r = k.
Proof.
  intros Hu Ht k r. rewrite update_where_lookup. intros (r0 & E & ->)%fmap_Some. apply Ht in E. destruct (p r0); [by rewrite Hu|done].
Qed.

Lemma work_ended resolve orgID id actor w u w' :
  conversations = Some resolve -> at_rest w -> endWorkInFlight conversations orgID id actor w = (Ok u, w') ->
  let d := co_tables (w_db w') in no_session orgID id d /\ no_transfer orgID id d /\ no_live orgID id d.
Proof.
  intros Hcl Hw E. unfold endWorkInFlight in E. rewrite Hcl in E. apply bind_ok_inv in E as (n & w0 & [= <- <-] & E).
  apply bind_ok_inv in E as (r1 & w1 & E1%try_ok_inv & E). apply bind_ok_inv in E as (r2 & w2 & E2%try_ok_inv & E).
  assert (exists u1, r1 = Ok u1) as [u1 ->].
  { eapply stmt_goes_through; [| |exact E1]; [apply Hw|by eexists _, _]. }
  apply at_rest_stmt in E1 as [Hw1 (t1 & [= _ Eq1] & Et1)]; [|done|].
  2: { intros d b t [= _ <-]. split; [done|]. split; [done|]. intros Hok. apply (crm_ok_convs d); [done..|apply Hok]. }
  assert (exists u2, r2 = Ok u2) as [u2 ->].
  { eapply stmt_goes_through; [| |exact E2]; [apply Hw1|by eexists _, _]. }
  apply at_rest_stmt in E2 as [Hw2 (t2 & [= _ Eq2] & Et2)]; [|done|].
  2: { intros d b t [= _ <-]. split; [done|]. split; [done|]. intros [[Hc Ht Hp] Hcv]. split; [|exact Hcv]. split; [exact Hc| |exact Hp].
       by apply keys_updated. }
  assert (no_session orgID id (co_tables (w_db w2)) /\ no_transfer orgID id (co_tables (w_db w2))) as Hno.
  { rewrite Et2, <- Eq2, Et1, <- Eq1. split; intros k x; simpl; rewrite update_where_lookup; intros (y & Ey & ->)%fmap_Some; case_match eqn:Hm; simpl; try done;
      intros <- <- Hl Hs; simpl in *; rewrite Hs, Hl, !N.eqb_refl in Hm; discriminate Hm. }
  apply bind_ok_inv in E as (r3 & w3 & E3%try_ok_inv & [_ ->]%ret_ok_inv).
  apply zoom_inv in E3 as (part & E3 & ->). simpl. destruct Hw2 as (Hq & Htx & Hf & Hok).
  pose proof (closer_work _ (closer_laws _ Hcl) _ _ _ _ _ _ _ E3) as Hkeep.
  destruct (closer_closes _ (closer_laws _ Hcl) _ _ _ _ _ _ _ Hq Htx Hf Hok E3) as [_ Hlive].
  destruct (Hkeep Hno) as [? ?]. done.
Qed.

(** A contact that is deleted on purpose leaves no work in flight: no session
    of the chatbot, no transfer in the queue, no open conversation. *)
Theorem deleting_ends_the_work resolve orgID id reason actor w u w' :
  conversations = Some resolve -> at_rest w -> reason <> ReasonAddressBookSync ->
  Delete conversations orgID id reason actor w = (Ok u, w') ->
  let d := co_tables (w_db w') in no_session orgID id d /\ no_transfer orgID id d /\ no_live orgID id d.
Proof.
  intros Hcl Hw Hr E. unfold Delete in E. apply bind_ok_inv in E as (c & w1 & E1 & E).
  assert (at_rest w1) as Hw1.
  { apply at_rest_stmt in E1 as [H1 _]; [done|done|]. intros d b t Eq. destruct (first_row _ _ _); injection Eq as _ <-; done. }
  apply bind_ok_inv in E as (at_ & w1' & [= <- <-] & E). apply bind_ok_inv in E as (u2 & w2 & E2 & E).
  assert (at_rest w2) as Hw2.
  { apply at_rest_stmt in E2 as [H2 _]; [done|done|]. intros d b t Eq. cbv zeta in Eq. destruct (forallb _ _); [|done]. injection Eq as _ <-.
    split; [done|]. split; [done|]. intros [[Hc Ht Hp] Hcv]. split; [|exact Hcv]. split; [exact Hc|exact Ht|]. by apply keys_updated. }
  apply String.eqb_neq in Hr. rewrite Hr in E. cbn [negb] in E. apply bind_ok_inv in E as (u3 & w3 & E3 & E).
  pose proof (work_ended _ _ _ _ _ _ _ Hcl Hw2 E3) as Hno. destruct (publish_outbox _ _ _ _ _ _ _ E) as [o Ho].
  cbv zeta in *. rewrite Ho. exact Hno.
Qed.
End Deleting.
