(* ===== verification/Rank.v ===== *)
(** * Board ranks ([internal/deals/rank.go])

    A deal's place in its column is a sortable string.  [rankBetween] finds a
    key strictly between two others.  Strings are compared byte by byte, as Go
    does; a byte is an integer modulo 256. *)
From S2P Require Import Prelude.

Definition rankFirst : Z := 97.  (* 'a' *)
Definition rankLast : Z := 122.  (* 'z' *)

Definition bytes_of (s : string) : list Z :=
  (fun c => Z.of_N (N_of_ascii c)) <$> list_ascii_of_string s.
Definition string_of_bytes (l : list Z) : string :=
  string_of_list_ascii ((fun z => ascii_of_N (Z.to_N z)) <$> l).

(** Go's [<] on strings. *)
Fixpoint bytes_ltb (s t : list Z) : bool :=
  match s, t with
  | _, [] => false
  | [], _ :: _ => true
  | x :: s, y :: t => (x <? y) || ((x =? y) && bytes_ltb s t)
  end.
Definition str_ltb (s t : string) : bool := bytes_ltb (bytes_of s) (bytes_of t).

(** Arithmetic on [byte]. *)
Definition byte_add (x y : Z) : Z := (x + y) mod 256.
Definition byte_sub (x y : Z) : Z := (x - y) mod 256.

(** The loop of [rankBetween] from position [i] on: [prev] and [next] are what
    is left of the two keys there. *)
Fixpoint rank_loop (fuel : nat) (prev next : list Z) (diverged : bool) : option (list Z) :=
  match fuel with
  | O => None
  | S fuel =>
      let p := hd rankFirst prev in
      let n := if negb diverged then hd (byte_add rankLast 1) next else byte_add rankLast 1 in
      if byte_add p 1 <? n then Some [byte_add p (byte_sub n p / 2)]
      else cons p <$> rank_loop fuel (tl prev) (tl next) (diverged || (p <? n))
  end.

(** At the longer key's end the loop stops: one step more is enough. *)
Definition rank_fuel (prev next : list Z) : nat := S (Nat.max (length prev) (length next)).

Definition rank_bytes (prev next : list Z) : list Z :=
  let next := if negb (Nat.eqb (length next) 0) && negb (bytes_ltb prev next) then [] else next in
  default [] (rank_loop (rank_fuel prev next) prev next false).

Definition rankBetween (prev next : string) : string :=
  string_of_bytes (rank_bytes (bytes_of prev) (bytes_of next)).

(** ** Keys *)

Definition is_byte (z : Z) : Prop := 0 <= z < 256.

(** What [rankBetween] produces: letters, the last one not ['a'] (a key that
    ended in ['a'] would leave no room before it). *)
Fixpoint rank_ok (l : list Z) : bool :=
  match l with
  | [] => false
  | [x] => (rankFirst <? x) && (x <=? rankLast)
  | x :: l => (rankFirst <=? x) && (x <=? rankLast) && rank_ok l
  end.

(** An empty key stands for the end of the column. *)
Definition rank_end (l : list Z) : bool := match l with [] => true | _ => rank_ok l end.

Definition valid_rank (s : string) : bool := rank_ok (bytes_of s).

(** ** The loop returns *)

Lemma rank_loop_total fuel prev next diverged :
  (Nat.max (length prev) (length next) < fuel)%nat -> is_Some (rank_loop fuel prev next diverged).
Proof.
  revert prev next diverged. induction fuel as [|fuel IH]; intros prev next d Hf; [lia|].
  cbn [rank_loop]. set (p := hd rankFirst prev). set (n := if negb d then _ else _).
  cbv zeta. destruct (byte_add p 1 <? n) eqn:E; [eauto|].
  destruct (IH (tl prev) (tl next) (d || (p <? n))) as [r ->]; [|simpl; eauto].
  destruct prev, next; simpl in *; try lia.
  exfalso. destruct d; discriminate E.
Qed.

(** ** Between two keys *)

Lemma bytes_ltb_irrefl l : bytes_ltb l l = false.
Proof. induction l as [|x l IH]; simpl; [done|]. by rewrite Z.ltb_irrefl, Z.eqb_refl, IH. Qed.

Lemma bytes_ltb_trans a b c : bytes_ltb a b = true -> bytes_ltb b c = true -> bytes_ltb a c = true.
Proof.
  revert b c. induction a as [|x a IH]; intros [|y b] [|z c]; simpl; try done.
  rewrite !orb_true_iff, !andb_true_iff, !Z.ltb_lt, !Z.eqb_eq.
  intros [?|[-> ?]] [?|[-> ?]]; [left; lia|by left|by left|right; eauto].
Qed.

Lemma bytes_ltb_cons x a b : bytes_ltb (x :: a) (x :: b) = bytes_ltb a b.
Proof. simpl. by rewrite Z.ltb_irrefl, Z.eqb_refl. Qed.

Lemma rank_ok_cons x l :
  rank_ok (x :: l) = true <-> rankFirst <= x <= rankLast /\ (l = [] -> rankFirst < x) /\ (l <> [] -> rank_ok l = true).
Proof.
  unfold rankFirst, rankLast. destruct l as [|y l].
  - simpl. unfold rankFirst, rankLast. rewrite andb_true_iff, Z.ltb_lt, Z.leb_le. naive_solver lia.
  - change (rank_ok (x :: y :: l)) with ((rankFirst <=? x) && (x <=? rankLast) && rank_ok (y :: l))%bool.
    unfold rankFirst, rankLast. rewrite !andb_true_iff, !Z.leb_le. naive_solver.
Qed.

Lemma rank_end_tl x l : rank_end (x :: l) = true -> rank_end l = true.
Proof.
  unfold rank_end at 1. rewrite rank_ok_cons. intros (_ & _ & Hl). destruct l; [done|]. by apply Hl.
Qed.

Lemma byte_add_small x y : 0 <= x + y < 256 -> byte_add x y = x + y.
Proof. apply Z.mod_small. Qed.
Lemma byte_sub_small x y : 0 <= x - y < 256 -> byte_sub x y = x - y.
Proof. apply Z.mod_small. Qed.

(** A letter strictly between two others. *)
Lemma middle_letter p n :
  rankFirst <= p -> p + 1 < n -> n <= rankLast + 1 ->
  p < byte_add p (byte_sub n p / 2) < n.
Proof.
  unfold rankFirst, rankLast. intros Hp Hpn Hn. rewrite byte_sub_small by lia.
  assert (1 <= (n - p) / 2) by (apply Z.div_le_lower_bound; lia).
  assert ((n - p) / 2 < n - p) by (apply Z.div_lt; lia).
  rewrite byte_add_small by lia. lia.
Qed.

Lemma hd_letter prev : rank_end prev = true -> 97 <= hd rankFirst prev <= 122.
Proof.
  destruct prev as [|x prev]; simpl; [unfold rankFirst; lia|]. intros Hprev.
  apply rank_ok_cons in Hprev as (H & _). unfold rankFirst, rankLast in H. lia.
Qed.

Lemma middle_ok p n (m := byte_add p (byte_sub n p / 2)) :
  97 <= p -> p + 1 < n -> n <= 123 -> rank_ok [m] = true /\ p < m < n.
Proof.
  intros Hp Hpn Hn. pose proof (middle_letter p n) as Hm. unfold rankFirst, rankLast in Hm.
  fold m in Hm. split; [|lia]. apply rank_ok_cons. unfold rankFirst, rankLast. split; [lia|]. split; [lia|done].
Qed.

Lemma above_prev prev m : hd rankFirst prev < m -> bytes_ltb prev [m] = true.
Proof. destruct prev as [|x prev]; [done|]. simpl. intros H. apply orb_true_iff. left. by apply Z.ltb_lt. Qed.

(** Once apart from [next], or with no [next], any key above what is left of
    [prev] will do. *)
Lemma rank_loop_free fuel prev next d r :
  d = true \/ next = [] -> rank_end prev = true -> rank_loop fuel prev next d = Some r ->
  rank_ok r = true /\ bytes_ltb prev r = true.
Proof.
  revert prev next d r. induction fuel as [|fuel IH]; intros prev next d r Hd Hprev Hr; [done|].
  cbn [rank_loop] in Hr. pose proof (hd_letter _ Hprev) as Hp. set (p := hd rankFirst prev) in *.
  assert ((if negb d then hd (byte_add rankLast 1) next else byte_add rankLast 1) = 123) as En
    by (destruct Hd as [->| ->]; [done|by destruct d]).
  rewrite En, (byte_add_small p 1) in Hr by lia. cbv zeta in Hr.
  destruct (Z.ltb_spec (p + 1) 123).
  - injection Hr as <-. destruct (middle_ok p 123) as [Hok Hm]; [lia..|].
    split; [done|]. apply above_prev. fold p. lia.
  - destruct (rank_loop fuel _ _ _) as [r'|] eqn:E; [|done]. simpl in Hr. injection Hr as <-.
    assert (p = 122) as Hp122 by lia.
    destruct prev as [|x prev]; [by subst p|]. simpl in p. subst p x. simpl in E.
    apply IH in E as [Hok Hlt]; [|destruct Hd as [->| ->]; [by left|by right]|by eapply rank_end_tl].
    split; [|by rewrite bytes_ltb_cons].
    apply rank_ok_cons. unfold rankFirst, rankLast. split; [lia|]. split; [lia|done].
Qed.

Lemma rank_loop_between fuel prev next r :
  rank_end prev = true -> rank_ok next = true -> bytes_ltb prev next = true ->
  rank_loop fuel prev next false = Some r ->
  rank_ok r = true /\ bytes_ltb prev r = true /\ bytes_ltb r next = true.
Proof.
  revert prev next r. induction fuel as [|fuel IH]; intros prev next r Hprev Hnext Hlt Hr; [done|].
  cbn [rank_loop] in Hr. pose proof (hd_letter _ Hprev) as Hp.
  destruct next as [|n next]; [done|]. simpl in Hr.
  pose proof Hnext as ((Hn1 & Hn2) & Hlast & Hrest)%rank_ok_cons. unfold rankFirst, rankLast in Hn1, Hn2, Hlast.
  assert (hd rankFirst prev <= n) as Hpn.
  { destruct prev as [|x prev]; simpl in *; [unfold rankFirst; lia|].
    apply orb_true_iff in Hlt. rewrite andb_true_iff, Z.ltb_lt, Z.eqb_eq in Hlt. lia. }
  rewrite (byte_add_small _ 1) in Hr by lia.
  destruct (Z.ltb_spec (hd rankFirst prev + 1) n).
  - injection Hr as <-. destruct (middle_ok (hd rankFirst prev) n) as [Hok Hm]; [lia..|].
    split_and!; [done|apply above_prev; lia|]. simpl. apply orb_true_iff. left. apply Z.ltb_lt. lia.
  - destruct (rank_loop fuel _ _ _) as [r'|] eqn:E; [|done]. simpl in Hr. injection Hr as <-.
    assert (rank_end (tl prev) = true) as Htl by (destruct prev; [done|by eapply rank_end_tl]).
    assert (forall r', bytes_ltb (tl prev) r' = true -> bytes_ltb prev (hd rankFirst prev :: r') = true) as Hup.
    { intros q Hq. destruct prev as [|x prev]; [done|]. simpl in *. by rewrite Z.eqb_refl, Hq, orb_true_r. }
    assert (rank_ok r' = true -> rank_ok (hd rankFirst prev :: r') = true) as Hokc.
    { intros Hq. apply rank_ok_cons. unfold rankFirst, rankLast. split; [unfold rankFirst in Hp; lia|].
      split; [by intros ->|done]. }
    destruct (Z.ltb_spec (hd rankFirst prev) n) as [Hlt'|Heq].
    + apply rank_loop_free in E as [Hok Hlt2]; [|by left|done].
      split_and!; [by apply Hokc|by apply Hup|]. simpl. apply orb_true_iff. left. by apply Z.ltb_lt.
    + assert (hd rankFirst prev = n) as En by lia.
      assert (rank_ok next = true /\ bytes_ltb (tl prev) next = true) as [Hok' Hlt'].
      { destruct prev as [|x prev]; simpl in *.
        - unfold rankFirst in En. destruct next as [|y next]; [specialize (Hlast eq_refl); lia|].
          split; [by apply Hrest|done].
        - subst x. rewrite Z.ltb_irrefl, Z.eqb_refl in Hlt. simpl in Hlt.
          split; [|done]. apply Hrest. intros ->. destruct prev; done. }
      apply IH in E as (Hok & Hlt1 & Hlt2); [|done..].
      split_and!; [by apply Hokc|by apply Hup|]. rewrite En. by rewrite bytes_ltb_cons.
Qed.

(** ** Strings *)

Lemma bytes_of_string_of_bytes l : Forall is_byte l -> bytes_of (string_of_bytes l) = l.
Proof.
  intros Hl. unfold bytes_of, string_of_bytes. rewrite list_ascii_of_string_of_list_ascii.
  rewrite <-list_fmap_compose. induction Hl as [|x l [Hx Hx'] _ IH]; [done|].
  rewrite fmap_cons, IH. f_equal. unfold compose. rewrite N_ascii_embedding by lia. lia.
Qed.

Lemma rank_ok_bytes l : rank_ok l = true -> Forall is_byte l.
Proof.
  induction l as [|x l IH]; [done|]. rewrite rank_ok_cons. unfold rankFirst, rankLast.
  intros (Hx & _ & Hl). constructor; [unfold is_byte; lia|].
  destruct l; [constructor|]. apply IH. by apply Hl.
Qed.

(** The length of a key grows by one step at most. *)
Lemma rank_loop_length fuel prev next d r :
  rank_loop fuel prev next d = Some r -> (length r <= fuel)%nat.
Proof.
  revert prev next d r. induction fuel as [|fuel IH]; intros prev next d r Hr; [done|].
  cbn [rank_loop] in Hr. cbv zeta in Hr. destruct (_ <? _); [injection Hr as <-; simpl; lia|].
  destruct (rank_loop fuel _ _ _) as [r'|] eqn:E; [|done]. simpl in Hr. injection Hr as <-.
  apply IH in E. simpl. lia.
Qed.

Lemma rank_bytes_loop prev next :
  let next' := if negb (Nat.eqb (length next) 0) && negb (bytes_ltb prev next) then [] else next in
  rank_loop (rank_fuel prev next') prev next' false = Some (rank_bytes prev next).
Proof.
  intros next'. unfold rank_bytes. fold next'.
  destruct (rank_loop_total (rank_fuel prev next') prev next' false) as [r ->]; [unfold rank_fuel; lia|done].
Qed.

Lemma bytes_of_nil s : bytes_of s = [] <-> s = ""%string.
Proof. by destruct s. Qed.

Lemma rank_bytes_ok prev next :
  rank_end prev = true -> rank_end next = true ->
  rank_ok (rank_bytes prev next) = true /\ bytes_ltb prev (rank_bytes prev next) = true /\
  (next <> [] -> bytes_ltb prev next = true -> bytes_ltb (rank_bytes prev next) next = true).
Proof.
  intros Hp Hn. pose proof (rank_bytes_loop prev next) as Hr. cbv zeta in Hr.
  destruct next as [|n next].
  - apply rank_loop_free in Hr as [? ?]; [|by right|done]. by split_and!.
  - cbn [length Nat.eqb negb andb] in Hr. destruct (bytes_ltb prev (n :: next)) eqn:E; cbn [negb] in Hr.
    + apply rank_loop_between in Hr as (? & ? & ?); [|done..]. by split_and!.
    + apply rank_loop_free in Hr as [? ?]; [|by right|done]. by split_and!.
Qed.

Lemma rank_bytes_length prev next :
  (length (rank_bytes prev next) <= S (Nat.max (length prev) (length next)))%nat.
Proof.
  pose proof (rank_bytes_loop prev next) as Hr. apply rank_loop_length in Hr.
  revert Hr. unfold rank_fuel. destruct (_ && _)%bool; simpl length; lia.
Qed.

Lemma length_bytes_of s : length (bytes_of s) = String.length s.
Proof.
  unfold bytes_of. rewrite length_fmap. induction s as [|c s IH]; [done|]. simpl. by rewrite IH.
Qed.

Lemma rank_end_of s : s = "" \/ valid_rank s = true -> rank_end (bytes_of s) = true.
Proof. intros [->|Hs]; [done|]. unfold valid_rank in Hs. unfold rank_end. by destruct (bytes_of s). Qed.

Lemma bytes_of_rankBetween prev next :
  (prev = "" \/ valid_rank prev = true) -> (next = "" \/ valid_rank next = true) ->
  bytes_of (rankBetween prev next) = rank_bytes (bytes_of prev) (bytes_of next).
Proof.
  intros Hp Hn. apply bytes_of_string_of_bytes, rank_ok_bytes.
  by apply rank_bytes_ok; apply rank_end_of.
Qed.

Lemma str_ltb_trans a b c : str_ltb a b = true -> str_ltb b c = true -> str_ltb a c = true.
Proof. apply bytes_ltb_trans. Qed.

Lemma str_ltb_irrefl a : str_ltb a a = false.
Proof. apply bytes_ltb_irrefl. Qed.

Lemma bytes_ltb_total a b : bytes_ltb a b = false -> a <> b -> bytes_ltb b a = true.
Proof.
  revert b. induction a as [|x a IH]; intros [|y b]; simpl; try done.
  rewrite orb_false_iff, andb_false_iff, Z.ltb_ge, Z.eqb_neq, orb_true_iff, andb_true_iff, Z.ltb_lt, Z.eqb_eq.
  intros [H1 [H2|H2]] Hne; [left; lia|].
  destruct (decide (x = y)) as [->|]; [right; split; [done|]; apply IH; congruence|left; lia].
Qed.

Lemma bytes_of_inj s t : bytes_of s = bytes_of t -> s = t.
Proof.
  revert t. induction s as [|c s IH]; intros [|c' t]; try done. unfold bytes_of. simpl.
  intros [= Hc Hl]. apply IH in Hl as ->. f_equal.
  rewrite <-(ascii_N_embedding c), <-(ascii_N_embedding c'). f_equal. lia.
Qed.

Lemma str_ltb_total a b : str_ltb a b = false -> a <> b -> str_ltb b a = true.
Proof. intros Hab Hne. apply bytes_ltb_total; [done|]. intros E. by apply Hne, bytes_of_inj. Qed.

(** What the callers rely on, in one lemma. *)
Lemma rankBetween_facts prev next :
  (prev = "" \/ valid_rank prev = true) -> (next = "" \/ valid_rank next = true) ->
  valid_rank (rankBetween prev next) = true /\ str_ltb prev (rankBetween prev next) = true /\
  (next <> "" -> str_ltb prev next = true -> str_ltb (rankBetween prev next) next = true).
Proof.
  intros Hp Hn. unfold valid_rank, str_ltb. rewrite bytes_of_rankBetween by done.
  destruct (rank_bytes_ok (bytes_of prev) (bytes_of next)) as (H1 & H2 & H3);
    [by apply rank_end_of..|].
  split_and!; [done|done|]. intros Hne. apply H3. by rewrite bytes_of_nil.
Qed.

(** C10: [rankBetween] on the keys of a board ends, and its key lies strictly
    between the neighbours: after [prev] (the start of the column when [prev]
    is empty), and before [next] when there is one above [prev].  The key is
    again one that leaves room on both sides (letters, not ending in ['a']),
    and it is at most one byte longer than the longer neighbour. *)
Theorem rankBetween_between prev next :
  (prev = "" \/ valid_rank prev = true) -> (next = "" \/ valid_rank next = true) ->
  (let next' := if negb (next =? "")%string && negb (str_ltb prev next) then "" else next in
   rank_loop (rank_fuel (bytes_of prev) (bytes_of next')) (bytes_of prev) (bytes_of next') false
   = Some (bytes_of (rankBetween prev next))) /\
  valid_rank (rankBetween prev next) = true /\ str_ltb prev (rankBetween prev next) = true /\
  (next <> "" -> str_ltb prev next = true -> str_ltb (rankBetween prev next) next = true) /\
  (String.length (rankBetween prev next) <= S (Nat.max (String.length prev) (String.length next)))%nat.
Proof.
  intros Hp Hn. destruct (rankBetween_facts prev next) as (H1 & H2 & H3); [done..|].
  split_and!; [|done..|].
  - cbv zeta. rewrite bytes_of_rankBetween by done. rewrite <-rank_bytes_loop. unfold str_ltb.
    assert (negb (next =? "")%string = negb (Nat.eqb (length (bytes_of next)) 0)) as ->
      by (rewrite length_bytes_of; by destruct next).
    by destruct (_ && _)%bool.
  - rewrite <-!length_bytes_of, bytes_of_rankBetween by done. apply rank_bytes_length.
Qed.

Lemma rankBetween_between_witness :
  valid_rank (rankBetween "n" "o") = true /\ str_ltb "n" (rankBetween "n" "o") = true /\
  str_ltb (rankBetween "n" "o") "o" = true /\ rankBetween "n" "o" = "nn".
Proof.
  destruct (rankBetween_between "n" "o") as (_ & H1 & H2 & H3 & _);
    [right; vm_compute; reflexivity|right; vm_compute; reflexivity|].
  split; [exact H1|]. split; [exact H2|]. split; [apply H3; [discriminate|vm_compute; reflexivity]|].
  vm_compute. reflexivity.
Defined.

(** ** Keys made by appending

    A deal that is created goes to the bottom of its column.  The key of the
    bottom grows by a byte every five appends. *)
Fixpoint nth_append (n : nat) (last : string) : string :=
  match n with O => last | S n => nth_append n (rankBetween last "") end.

Example append_320 : String.length (nth_append 320 "") = 64%nat.
Proof. vm_compute. reflexivity. Qed.

(** The 321st key does not fit the column [board_position], a [varchar(64)]. *)
Example append_321 : String.length (nth_append 321 "") = 65%nat.
Proof. vm_compute. reflexivity. Qed.

(** A key that no board holds: below an ["a"] there is no room, and the result
    is not before [next]. *)
Example no_room_before_a : str_ltb (rankBetween "" "a") "a" = false.
Proof. vm_compute. reflexivity. Qed.
