(* ===== verification/Deals.v ===== *)
(** * Deals and pipelines ([internal/deals], [internal/models/deal.go])

    A deal moves through the stages of a pipeline: [service.go] (creating and
    moving deals), [manage.go] (editing deals, pipelines and stages),
    [board.go] (the columns of a board and their pages) and [seed.go].  The
    ranks that order a column are in [Rank].  What PostgreSQL makes of a
    column value is a parameter ([Pg]); the widths of the text columns are
    modelled ([fits]), a value too large for [numeric(14,2)] is not. *)
From S2P Require Import Prelude GoLib Store Events Models Statements Rank Text.

(** The column types and operators of PostgreSQL the deal tables use. *)
Class Pg := {
  pg_numeric : float64 -> float64;          (** a value through [numeric(14,2)] *)
  pg_sum : list float64 -> float64;         (** [coalesce(sum(value),0)] *)
  pg_date : time -> time;                   (** an instant through [date] *)
  pg_ilike : string -> string -> bool       (** [title ILIKE pattern] *)
}.

Definition ErrNotFound := ErrSentinel "deals: not found".
Definition ErrPipelineInUse := ErrSentinel "deals: this pipeline still has open deals".
Definition ErrStageHasDeals := ErrSentinel "deals: this stage still holds deals".

(** ** Rows and statements *)

Definition contact_in (id orgID : uuid) (c : Contact) : bool :=
  N.eqb (ct_ID c) id && N.eqb (ct_OrganizationID c) orgID && live (ct_DeletedAt c).

Definition pipeline_in (id orgID : uuid) (p : Pipeline) : bool :=
  N.eqb (pl_ID p) id && N.eqb (pl_OrganizationID p) orgID && live (pl_DeletedAt p).
Definition pipeline_by_id (id : uuid) (p : Pipeline) : bool := N.eqb (pl_ID p) id && live (pl_DeletedAt p).
Definition pipeline_of (orgID : uuid) (p : Pipeline) : bool :=
  N.eqb (pl_OrganizationID p) orgID && live (pl_DeletedAt p).

Definition stage_in (id pipelineID : uuid) (s : PipelineStage) : bool :=
  N.eqb (st_ID s) id && N.eqb (st_PipelineID s) pipelineID && live (st_DeletedAt s).
Definition stage_in_org (id orgID : uuid) (s : PipelineStage) : bool :=
  N.eqb (st_ID s) id && N.eqb (st_OrganizationID s) orgID && live (st_DeletedAt s).
Definition stage_of (pipelineID : uuid) (s : PipelineStage) : bool :=
  N.eqb (st_PipelineID s) pipelineID && live (st_DeletedAt s).
Definition stage_by_id (id : uuid) (s : PipelineStage) : bool := N.eqb (st_ID s) id && live (st_DeletedAt s).

Definition deal_in (id orgID : uuid) (d : Deal) : bool :=
  N.eqb (dl_ID d) id && N.eqb (dl_OrganizationID d) orgID && live (dl_DeletedAt d).
Definition deal_by_id (id : uuid) (d : Deal) : bool := N.eqb (dl_ID d) id && live (dl_DeletedAt d).
Definition deal_at (stageID : uuid) (d : Deal) : bool := N.eqb (dl_StageID d) stageID && live (dl_DeletedAt d).

(** The index [idx_pipelines_org_name]. *)
Definition same_name (p q : Pipeline) : bool :=
  N.eqb (pl_OrganizationID p) (pl_OrganizationID q) &&
  String.eqb (ToLower (pl_Name p)) (ToLower (pl_Name q)) && live (pl_DeletedAt p) && live (pl_DeletedAt q).

Definition insert_pipeline (p : Pipeline) : MT unit :=
  stmt no_locks (fun d =>
    let t := db_pipelines d in
    if is_none (t !! pl_ID p) && no_other (same_name p) (pl_ID p) t
    then (Ok tt, set_db_pipelines (<[pl_ID p := p]> t) d)
    else (Err ErrUnique, d)).

(** An [UPDATE] checks the index for the rows whose name it changes. *)
Definition update_pipelines (p : Pipeline -> bool) (us : list (Pipeline -> Pipeline)) : MT nat :=
  stmt no_locks (fun d =>
    let t := db_pipelines d in
    if forallb (fun kr =>
         negb (p kr.2) || String.eqb (pl_Name (apply_updates us kr.2)) (pl_Name kr.2)
         || no_other (same_name (apply_updates us kr.2)) kr.1 t) (map_to_list t)
    then (Ok (rows_affected p t), set_db_pipelines (update_where p us t) d)
    else (Err ErrUnique, d)).

Definition insert_stage (s : PipelineStage) : MT unit :=
  stmt no_locks (fun d =>
    if is_none (db_stages d !! st_ID s)
    then (Ok tt, set_db_stages (<[st_ID s := s]> (db_stages d)) d)
    else (Err ErrUnique, d)).

Definition update_stages (p : PipelineStage -> bool) (us : list (PipelineStage -> PipelineStage)) : MT nat :=
  stmt no_locks (fun d =>
    (Ok (rows_affected p (db_stages d)), set_db_stages (update_where p us (db_stages d)) d)).

(** [Save]: every column of the row, inserting it when it is not there. *)
Definition save_stage (s : PipelineStage) : MT unit :=
  stmt no_locks (fun d => (Ok tt, set_db_stages (<[st_ID s := s]> (db_stages d)) d)).

(** The widths of the text columns of [deals]. *)
Definition fits (d : Deal) : bool :=
  varchar 64 (dl_BoardPosition d) && varchar 255 (dl_LostReason d) && varchar 255 (dl_Title d) &&
  varchar 3 (dl_Currency d) && varchar 10 (dl_Status d).

Definition insert_deal (r : Deal) : MT unit :=
  stmt no_locks (fun d =>
    if negb (fits r) then (Err ErrDriver, d)
    else if is_none (db_deals d !! dl_ID r)
    then (Ok tt, set_db_deals (<[dl_ID r := r]> (db_deals d)) d)
    else (Err ErrUnique, d)).

Definition update_deals (p : Deal -> bool) (us : list (Deal -> Deal)) : MT nat :=
  stmt (fun d => LDeal <$> matching p (db_deals d)) (fun d =>
    let t := db_deals d in
    if forallb (fun kr => negb (p kr.2) || fits (apply_updates us kr.2)) (map_to_list t)
    then (Ok (rows_affected p t), set_db_deals (update_where p us t) d)
    else (Err ErrDriver, d)).

Definition insert_history (h : DealStageHistory) : MT unit :=
  stmt no_locks (fun d =>
    if is_none (db_stage_history d !! hs_ID h)
    then (Ok tt, set_db_stage_history (<[hs_ID h := h]> (db_stage_history d)) d)
    else (Err ErrUnique, d)).

Definition replace_error {A} (m : MT A) (e : err) : MT A :=
  r <- try m ;; match r with Ok a => ret a | Err _ => fail e end.

Section Service.
Context `{Sql} `{UuidText} `{Pg}.

(** ** [service.go]: pipelines *)

Definition default_stage (name : string) (position : Z) (stageType : string) (probability : Z)
    (color : string) (rotting : Z) : PipelineStage :=
  MkStage uuid_Nil None uuid_Nil uuid_Nil name position stageType probability color rotting None.

Definition DefaultStages : list PipelineStage := [
  default_stage "New" 10 StageOpen 10 "gray" 0;
  default_stage "Qualified" 20 StageOpen 30 "blue" 0;
  default_stage "Proposal" 30 StageOpen 60 "purple" 14;
  default_stage "Won" 40 StageWon 100 "green" 0;
  default_stage "Lost" 50 StageLost 0 "red" 0].

(** The loop over [DefaultStages()]. *)
Fixpoint create_stages (orgID pipelineID : uuid) (stages : list PipelineStage) : MT unit :=
  match stages with
  | [] => ret tt
  | stage :: rest =>
      id <- uuid_New ;;
      insert_stage (set_st_PipelineID pipelineID (set_st_OrganizationID orgID (set_st_ID id stage))) ;;;
      create_stages orgID pipelineID rest
  end.

Definition count_pipelines (orgID : uuid) : MT nat :=
  query (fun d => Ok (rows_affected (pipeline_of orgID) (db_pipelines d))).

Definition by_position (a b : PipelineStage) : bool := st_Position a <? st_Position b.

(** [Preload("Stages", Order("position"))]. *)
Definition preload_stages (pipelineID : uuid) : MT (list PipelineStage) :=
  query (fun d => Ok (sort_by by_position (find_rows (stage_of pipelineID) None (db_stages d)))).

(** A pipeline and its [Stages]. *)
Definition GetPipeline (orgID pipelineID : uuid) : MT (Pipeline * list PipelineStage) :=
  replace_error
    (p <- query (fun d => first_row (pipeline_in pipelineID orgID) unordered (db_pipelines d)) ;;
     stages <- preload_stages (pl_ID p) ;;
     ret (p, stages)) ErrNotFound.

(** [is_default DESC, position], then the primary key as [First] adds it. *)
Definition by_default (a b : Pipeline) : bool :=
  match pl_IsDefault a, pl_IsDefault b with
  | true, false => true
  | false, true => false
  | _, _ => (pl_Position a <? pl_Position b) ||
            ((pl_Position a =? pl_Position b) && (pl_ID a <? pl_ID b)%N)
  end.

Definition active_pipeline (orgID : uuid) (p : Pipeline) : bool :=
  pipeline_of orgID p && is_none (pl_ArchivedAt p).

Definition DefaultPipeline (orgID : uuid) : MT (Pipeline * list PipelineStage) :=
  replace_error
    (p <- query (fun d => first_row (active_pipeline orgID) by_default (db_pipelines d)) ;;
     stages <- preload_stages (pl_ID p) ;;
     ret (p, stages)) ErrNotFound.

Definition CreatePipeline (orgID : uuid) (name currency : string) (actorID : option uuid) :
    MT (Pipeline * list PipelineStage) :=
  if is_empty name then fail (ErrMsg "deals: a pipeline needs a name")
  else
    let currency := if is_empty currency then "USD"%string else currency in
    id <- uuid_New ;;
    transaction (
      existing <- count_pipelines orgID ;;
      insert_pipeline (MkPipeline id None orgID name "Deal" "Deals" currency
                         (Nat.eqb existing 0) 0 None actorID) ;;;
      create_stages orgID id DefaultStages) ;;;
    GetPipeline orgID id.

(** ** [service.go]: deals *)

Record CreateInput := {
  ci_OrgID : uuid;
  ci_PipelineID : option uuid;
  ci_StageID : option uuid;
  ci_ContactID : uuid;
  ci_ConversationID : option uuid;
  ci_Title : string;
  ci_Value : float64;
  ci_Currency : string;
  ci_OwnerID : option uuid;
  ci_ExpectedCloseDate : option time;
  ci_CreatedBy : option uuid
}.

Definition statusForStage (stage : PipelineStage) : string :=
  if String.eqb (st_StageType stage) StageWon then DealWon
  else if String.eqb (st_StageType stage) StageLost then DealLost
  else DealOpen.

Definition resolvePipeline (inp : CreateInput) : MT (Pipeline * list PipelineStage) :=
  match ci_PipelineID inp with
  | Some id => GetPipeline (ci_OrgID inp) id
  | None => DefaultPipeline (ci_OrgID inp)
  end.

Definition is_open_stage (s : PipelineStage) : bool := String.eqb (st_StageType s) StageOpen.

Definition resolveStage (inp : CreateInput) (pipeline : Pipeline) (stages : list PipelineStage) : MT PipelineStage :=
  match ci_StageID inp with
  | Some id =>
      replace_error (query (fun d => first_row (stage_in id (pl_ID pipeline)) unordered (db_stages d)))
        (ErrMsg "deals: that stage is not part of the pipeline")
  | None =>
      match List.find is_open_stage stages with
      | Some stage => ret stage
      | None => fail (ErrMsg "deals: the pipeline has no open stage")
      end
  end.

Definition actorFor (userID : option uuid) : Actor :=
  match userID with None => SystemActor | Some u => UserActor u "" end.

Definition deal_data (deal : Deal) : list (string * any) := [
  ("deal_id"%string, AString (uuid_String (dl_ID deal)));
  ("title"%string, AString (dl_Title deal));
  ("value"%string, AFloat (dl_Value deal));
  ("pipeline_id"%string, AString (uuid_String (dl_PipelineID deal)));
  ("currency"%string, AString (dl_Currency deal));
  ("stage_id"%string, AString (uuid_String (dl_StageID deal)));
  ("status"%string, AString (dl_Status deal))].

Definition publish (deal : Deal) (eventType : string) (actor : Actor) : MT unit :=
  if negb (IsKnown eventType) then ret tt
  else
    id <- uuid_New ;;
    n <- now ;;
    PublishTx (About SubjectDeal (dl_ID deal) (ForContact (dl_ContactID deal)
      (New_event id n (dl_OrganizationID deal) eventType actor (deal_data deal)))).

(** [board_position DESC], then the primary key. *)
Definition by_rank_desc (a b : Deal) : bool :=
  str_ltb (dl_BoardPosition b) (dl_BoardPosition a) ||
  (String.eqb (dl_BoardPosition a) (dl_BoardPosition b) && (dl_ID a <? dl_ID b)%N).

(** A position, [""] when the row is not there. *)
Definition position_or_empty (q : MT Deal) : MT string :=
  r <- try q ;;
  match r with
  | Err ErrRecordNotFound => ret ""%string
  | Err e => fail e
  | Ok deal => ret (dl_BoardPosition deal)
  end.

Definition lastRank (stageID : uuid) : MT string :=
  position_or_empty (query (fun d => first_row (deal_at stageID) by_rank_desc (db_deals d))).

(** The row a value leaves in the table. *)
Definition stored_deal (deal : Deal) : Deal :=
  set_dl_Value (pg_numeric (dl_Value deal)) (set_dl_Currency (bpchar 3 (dl_Currency deal))
    (set_dl_ExpectedCloseDate (pg_date <$> dl_ExpectedCloseDate deal) deal)).

Definition Create (inp : CreateInput) : MT (Deal * option PipelineStage) :=
  if is_empty (ci_Title inp) then fail (ErrMsg "deals: a deal needs a title")
  else
    contact <- replace_error
      (query (fun d => first_row (contact_in (ci_ContactID inp) (ci_OrgID inp)) unordered (db_contacts d)))
      (ErrMsg "deals: contact not found") ;;
    ps <- resolvePipeline inp ;;
    let pipeline := ps.1 in
    stage <- resolveStage inp pipeline ps.2 ;;
    let currency := if is_empty (ci_Currency inp) then pl_Currency pipeline else ci_Currency inp in
    let owner := match ci_OwnerID inp with None => ct_AssignedUserID contact | o => o end in
    n <- now ;;
    id <- uuid_New ;;
    deal <- transaction (
      last <- lastRank (st_ID stage) ;;
      let deal := MkDeal id None (ci_OrgID inp) (pl_ID pipeline) (st_ID stage) (ci_ContactID inp)
        (ci_ConversationID inp) (ci_Title inp) (ci_Value inp) currency owner (ci_ExpectedCloseDate inp)
        (statusForStage stage) n (rankBetween last "") None "" (ci_CreatedBy inp) in
      insert_deal (stored_deal deal) ;;;
      hid <- uuid_New ;;
      insert_history (MkHistory hid (ci_OrgID inp) id None (st_ID stage) (ci_CreatedBy inp) 0) ;;;
      publish deal "deal.created" (actorFor (ci_CreatedBy inp)) ;;;
      ret deal) ;;
    ret (deal, Some stage).

Record MoveInput := {
  mi_StageID : uuid;
  mi_BeforeID : option uuid;
  mi_AfterID : option uuid;
  mi_LostReason : string
}.

Definition rankOf (id : option uuid) (self : uuid) : MT string :=
  match id with
  | None => ret ""%string
  | Some id =>
      if N.eqb id self then ret ""%string
      else position_or_empty (query (fun d => first_row (deal_by_id id) unordered (db_deals d)))
  end.

Definition rankFor (stageID dealID : uuid) (inp : MoveInput) : MT string :=
  after <- rankOf (mi_AfterID inp) dealID ;;
  before <- rankOf (mi_BeforeID inp) dealID ;;
  if is_none (mi_AfterID inp) && is_none (mi_BeforeID inp)
  then last <- lastRank stageID ;; ret (rankBetween last "")
  else ret (rankBetween after before).

(** What a change of status does to the closing columns. *)
Definition close_updates (status : string) (n : time) (lostReason : string) : list (Deal -> Deal) :=
  if String.eqb status DealOpen then [set_dl_ClosedAt None; set_dl_LostReason ""]
  else if String.eqb status DealLost
  then set_dl_ClosedAt (Some n) :: (if is_empty lostReason then [] else [set_dl_LostReason lostReason])
  else [set_dl_ClosedAt (Some n)].

Definition move_updates (stage : PipelineStage) (n : time) (position lostReason : string) : list (Deal -> Deal) :=
  [set_dl_StageID (st_ID stage); set_dl_Status (statusForStage stage); set_dl_StageEnteredAt n;
   set_dl_BoardPosition position] ++ close_updates (statusForStage stage) n lostReason.

Definition move_event (status : string) : string :=
  if String.eqb status DealWon then "deal.won"
  else if String.eqb status DealLost then "deal.lost"
  else "deal.stage_changed".

(** [First] with [FOR UPDATE]. *)
Definition lock_deal (orgID dealID : uuid) : MT Deal :=
  stmt (fun _ => [LDeal dealID]) (fun d => (first_row (deal_in dealID orgID) unordered (db_deals d), d)).

(** The rest of [Move] when the card stays in its column. *)
Definition reorder_card (dealID : uuid) (deal : Deal) (position : string) : MT (Deal * option PipelineStage) :=
  if String.eqb position (dl_BoardPosition deal) then ret (deal, None)
  else
    update_deals (deal_by_id dealID) [set_dl_BoardPosition position] ;;;
    ret (set_dl_BoardPosition position deal, None).

(** The rest of [Move] when it changes stage. *)
Definition change_stage (orgID dealID : uuid) (inp : MoveInput) (actor : Actor) (deal : Deal)
    (stage : PipelineStage) (position : string) : MT (Deal * option PipelineStage) :=
  n <- now ;;
  let status := statusForStage stage in
  update_deals (deal_by_id dealID) (move_updates stage n position (mi_LostReason inp)) ;;;
  hid <- uuid_New ;;
  insert_history (MkHistory hid orgID dealID (Some (dl_StageID deal)) (st_ID stage) (actor_ID actor)
    (float_trunc (Seconds (Sub n (dl_StageEnteredAt deal))))) ;;;
  moved <- query (fun d => first_row (deal_by_id dealID) unordered (db_deals d)) ;;
  publish moved (move_event status) actor ;;;
  ret (moved, Some stage).

Definition Move (orgID dealID : uuid) (inp : MoveInput) (actor : Actor) : MT (Deal * option PipelineStage) :=
  transaction (
    deal <- replace_error (lock_deal orgID dealID) ErrNotFound ;;
    stage <- replace_error
      (query (fun d => first_row (stage_in (mi_StageID inp) (dl_PipelineID deal)) unordered (db_stages d)))
      (ErrMsg "deals: that stage is not part of this deal's pipeline") ;;
    position <- rankFor (st_ID stage) dealID inp ;;
    if N.eqb (st_ID stage) (dl_StageID deal) then reorder_card dealID deal position
    else change_stage orgID dealID inp actor deal stage position).

Definition MoveStage (orgID dealID stageID : uuid) (actor : Actor) : MT (Deal * option PipelineStage) :=
  Move orgID dealID {| mi_StageID := stageID; mi_BeforeID := None; mi_AfterID := None; mi_LostReason := "" |} actor.

(** ** [manage.go]: deals *)

(** A deal with its [Stage] and [Contact]. *)
Definition Get (orgID dealID : uuid) : MT (Deal * option PipelineStage * option Contact) :=
  replace_error
    (deal <- query (fun d => first_row (deal_in dealID orgID) unordered (db_deals d)) ;;
     stages <- query (fun d => Ok (find_rows (stage_by_id (dl_StageID deal)) None (db_stages d))) ;;
     contacts <- query (fun d => Ok (find_rows
       (fun c => N.eqb (ct_ID c) (dl_ContactID deal) && live (ct_DeletedAt c)) None (db_contacts d))) ;;
     ret (deal, head stages, head contacts)) ErrNotFound.

Record UpdateInput := {
  ui_Title : option string;
  ui_Value : option float64;
  ui_Currency : option string;
  ui_OwnerID : option (option uuid);
  ui_ExpectedCloseDate : option (option time);
  ui_LostReason : option string
}.

(** An assignment for a field that is given. *)
Definition given {A R} (o : option A) (f : A -> R -> R) : list (R -> R) :=
  match o with Some a => [f a] | None => [] end.
(** The same for a text that must not be empty. *)
Definition given_text {R} (o : option string) (f : string -> R -> R) : list (R -> R) :=
  match o with Some s => if is_empty s then [] else [f s] | None => [] end.
(** The field is given and blank. *)
Definition blank (o : option string) : bool :=
  match o with Some s => is_empty (TrimSpace s) | None => false end.

Definition deal_updates (inp : UpdateInput) : list (Deal -> Deal) :=
  given (ui_Title inp) (fun s => set_dl_Title (TrimSpace s)) ++
  given (ui_Value inp) (fun v => set_dl_Value (pg_numeric v)) ++
  given_text (ui_Currency inp) (fun s => set_dl_Currency (bpchar 3 (ToUpper s))) ++
  given (ui_OwnerID inp) set_dl_OwnerID ++
  given (ui_ExpectedCloseDate inp) (fun t => set_dl_ExpectedCloseDate (pg_date <$> t)) ++
  given (ui_LostReason inp) set_dl_LostReason.

Definition Update (orgID dealID : uuid) (inp : UpdateInput) (actor : Actor) :
    MT (Deal * option PipelineStage * option Contact) :=
  if blank (ui_Title inp) then fail (ErrMsg "deals: a deal needs a title")
  else
    let updates := deal_updates inp in
    deal <- transaction (
      deal <- replace_error (query (fun d => first_row (deal_in dealID orgID) unordered (db_deals d))) ErrNotFound ;;
      if Nat.eqb (length updates) 0 then ret deal
      else
        update_deals (deal_by_id dealID) updates ;;;
        fresh <- query (fun d => first_row (deal_by_id dealID) unordered (db_deals d)) ;;
        publish fresh "deal.updated" actor ;;;
        ret fresh) ;;
    Get orgID (dl_ID deal).

Definition Delete (orgID dealID : uuid) (actor : Actor) : MT unit :=
  transaction (
    deal <- replace_error (query (fun d => first_row (deal_in dealID orgID) unordered (db_deals d))) ErrNotFound ;;
    n <- now ;;
    update_deals (deal_by_id (dl_ID deal)) [set_dl_DeletedAt (Some n)] ;;;
    publish deal "deal.deleted" actor).

(** ** [manage.go]: pipelines *)

Record PipelineInput := {
  pi_Name : option string;
  pi_ObjectLabelSingular : option string;
  pi_ObjectLabelPlural : option string;
  pi_Currency : option string;
  pi_IsDefault : option bool;
  pi_Position : option Z
}.

Definition pipeline_updates (inp : PipelineInput) : list (Pipeline -> Pipeline) :=
  given (pi_Name inp) (fun s => set_pl_Name (TrimSpace s)) ++
  given_text (pi_ObjectLabelSingular inp) set_pl_ObjectLabelSingular ++
  given_text (pi_ObjectLabelPlural inp) set_pl_ObjectLabelPlural ++
  given_text (pi_Currency inp) (fun s => set_pl_Currency (ToUpper s)) ++
  given (pi_Position inp) set_pl_Position.

Definition UpdatePipeline (orgID pipelineID : uuid) (inp : PipelineInput) : MT (Pipeline * list PipelineStage) :=
  if blank (pi_Name inp) then fail (ErrMsg "deals: a pipeline needs a name")
  else
    let updates := pipeline_updates inp in
    transaction (
      replace_error (query (fun d => first_row (pipeline_in pipelineID orgID) unordered (db_pipelines d))) ErrNotFound ;;;
      updates <- (if bool_decide (pi_IsDefault inp = Some true) then
                    update_pipelines (pipeline_of orgID) [set_pl_IsDefault false] ;;;
                    ret (updates ++ [set_pl_IsDefault true])
                  else ret updates) ;;
      if Nat.eqb (length updates) 0 then ret tt
      else update_pipelines (pipeline_by_id pipelineID) updates ;;; ret tt) ;;;
    GetPipeline orgID pipelineID.

Definition open_deal_in (pipelineID : uuid) (d : Deal) : bool :=
  N.eqb (dl_PipelineID d) pipelineID && String.eqb (dl_Status d) DealOpen && live (dl_DeletedAt d).

Definition DeletePipeline (orgID pipelineID : uuid) : MT unit :=
  transaction (
    pipeline <- replace_error
      (query (fun d => first_row (pipeline_in pipelineID orgID) unordered (db_pipelines d))) ErrNotFound ;;
    opened <- query (fun d => Ok (rows_affected (open_deal_in pipelineID) (db_deals d))) ;;
    if Nat.ltb 0 opened then fail ErrPipelineInUse
    else
      n <- now ;;
      update_stages (stage_of pipelineID) [set_st_DeletedAt (Some n)] ;;;
      n <- now ;;
      update_pipelines (pipeline_by_id (pl_ID pipeline)) [set_pl_DeletedAt (Some n)] ;;;
      ret tt).

Definition ArchivePipeline (orgID pipelineID : uuid) (archived : bool) : MT (Pipeline * list PipelineStage) :=
  n <- now ;;
  let at_ := if archived then Some n else None in
  affected <- update_pipelines (pipeline_in pipelineID orgID) [set_pl_ArchivedAt at_] ;;
  if Nat.eqb affected 0 then fail ErrNotFound
  else GetPipeline orgID pipelineID.

(** ** [manage.go]: stages *)

Record StageInput := {
  si_Name : option string;
  si_StageType : option string;
  si_Probability : option Z;
  si_Color : option string;
  si_RottingDays : option Z;
  si_Position : option Z
}.

Definition valid_stage_type (t : string) : bool :=
  String.eqb t StageOpen || String.eqb t StageWon || String.eqb t StageLost.

(** The row is written even when a later field is refused: the caller drops it. *)
Definition applyStageInput (stage : PipelineStage) (inp : StageInput) : res err PipelineStage :=
  if match si_StageType inp with Some t => negb (valid_stage_type t) | None => false end
  then Err (ErrMsg "deals: not a stage type")
  else if match si_Probability inp with Some p => (p <? 0) || (100 <? p) | None => false end
  then Err (ErrMsg "deals: probability is a percentage between 0 and 100")
  else if match si_RottingDays inp with Some n => n <? 0 | None => false end
  then Err (ErrMsg "deals: rotting days cannot be negative")
  else Ok (apply_updates
    (given (si_StageType inp) set_st_StageType ++ given (si_Probability inp) set_st_Probability ++
     given_text (si_Color inp) set_st_Color ++ given (si_RottingDays inp) set_st_RottingDays ++
     given (si_Position inp) set_st_Position) stage).

Definition lift {A} (r : res err A) : MT A := match r with Ok a => ret a | Err e => fail e end.

(** [COALESCE(MAX(position),0)]. *)
Definition max_position (l : list PipelineStage) : Z :=
  match st_Position <$> l with [] => 0 | x :: r => foldr Z.max x r end.

Definition open_stage_of (pipelineID : uuid) (s : PipelineStage) : bool := stage_of pipelineID s && is_open_stage s.

Definition CreateStage (orgID pipelineID : uuid) (inp : StageInput) : MT PipelineStage :=
  if is_none (si_Name inp) || blank (si_Name inp) then fail (ErrMsg "deals: a stage needs a name")
  else
    GetPipeline orgID pipelineID ;;;
    id <- uuid_New ;;
    stage <- lift (applyStageInput (MkStage id None orgID pipelineID (TrimSpace (default ""%string (si_Name inp)))
                     0 StageOpen 0 "gray" 0 None) inp) ;;
    stage <- (if is_none (si_Position inp) then
                r <- try (query (fun d =>
                  Ok (max_position (find_rows (open_stage_of pipelineID) None (db_stages d))))) ;;
                let last := match r with Ok l => l | Err _ => 0 end in
                ret (set_st_Position (wrap64 (last + 5)) stage)
              else ret stage) ;;
    insert_stage stage ;;;
    ret stage.

Definition syncStatusToStage (stage : PipelineStage) : MT unit :=
  let status := statusForStage stage in
  let updates := set_dl_Status status :: (if String.eqb status DealOpen then [set_dl_ClosedAt None] else []) in
  update_deals (fun d => deal_at (st_ID stage) d && negb (String.eqb (dl_Status d) status)) updates ;;;
  ret tt.

Definition UpdateStage (orgID stageID : uuid) (inp : StageInput) : MT PipelineStage :=
  stage <- replace_error (query (fun d => first_row (stage_in_org stageID orgID) unordered (db_stages d))) ErrNotFound ;;
  if blank (si_Name inp) then fail (ErrMsg "deals: a stage needs a name")
  else
    let stage := apply_updates (given (si_Name inp) (fun s => set_st_Name (TrimSpace s))) stage in
    stage <- lift (applyStageInput stage inp) ;;
    save_stage stage ;;;
    syncStatusToStage stage ;;;
    ret stage.

(** The loop of [ReorderStages] from index [i] on. *)
Fixpoint reorder (orgID pipelineID : uuid) (i : Z) (order : list uuid) : MT unit :=
  match order with
  | [] => ret tt
  | stageID :: rest =>
      affected <- update_stages
        (fun s => stage_in stageID pipelineID s && N.eqb (st_OrganizationID s) orgID)
        [set_st_Position ((i + 1) * 10)] ;;
      if Nat.eqb affected 0 then fail (ErrMsg "deals: stage is not part of this pipeline")
      else reorder orgID pipelineID (i + 1) rest
  end.

Definition ReorderStages (orgID pipelineID : uuid) (order : list uuid) : MT unit :=
  transaction (reorder orgID pipelineID 0 order).

(** The cards of [stage] go to [moveTo]. *)
Definition move_cards (stage : PipelineStage) (stageID : uuid) (moveTo : option uuid) : MT unit :=
  match moveTo with
  | None => fail ErrStageHasDeals
  | Some target =>
      target <- replace_error
        (query (fun d => first_row (stage_in target (st_PipelineID stage)) unordered (db_stages d)))
        (ErrMsg "deals: the destination stage is not in this pipeline") ;;
      if N.eqb (st_ID target) (st_ID stage) then fail (ErrMsg "deals: a stage cannot be moved into itself")
      else
        n <- now ;;
        update_deals (deal_at stageID)
          [set_dl_StageID (st_ID target); set_dl_Status (statusForStage target); set_dl_StageEnteredAt n] ;;;
        ret tt
  end.

Definition DeleteStage (orgID stageID : uuid) (moveTo : option uuid) : MT unit :=
  transaction (
    stage <- replace_error (query (fun d => first_row (stage_in_org stageID orgID) unordered (db_stages d))) ErrNotFound ;;
    remaining <- query (fun d => Ok (rows_affected (deal_at stageID) (db_deals d))) ;;
    (if Nat.ltb 0 remaining then move_cards stage stageID moveTo else ret tt) ;;;
    openStages <- query (fun d => Ok (rows_affected
      (fun s => open_stage_of (st_PipelineID stage) s && negb (N.eqb (st_ID s) stageID)) (db_stages d))) ;;
    if Nat.eqb openStages 0 && is_open_stage stage then fail (ErrMsg "deals: a pipeline needs at least one open stage")
    else
      n <- now ;;
      update_stages (stage_by_id (st_ID stage)) [set_st_DeletedAt (Some n)] ;;;
      ret tt).

(** ** [seed.go] *)

Definition DefaultPipelineName := "Sales".

(** The caller's handle is a transaction. *)
Definition SeedOrganization (orgID : uuid) : MT unit :=
  existing <- count_pipelines orgID ;;
  if Nat.ltb 0 existing then ret tt
  else
    id <- uuid_New ;;
    insert_pipeline (MkPipeline id None orgID DefaultPipelineName "Deal" "Deals" "USD" true 0 None None) ;;;
    create_stages orgID id DefaultStages.

(** ** [board.go] *)

Definition DefaultColumnPage : Z := 50.

Record BoardFilter := {
  bf_OwnerID : option uuid;
  bf_CloseFrom : option time;
  bf_CloseTo : option time;
  bf_Search : string;
  bf_Status : string;
  bf_Limit : Z;
  bf_Scope : option (Tables -> Deal -> bool)
}.

(** The deal's contact was not deleted. *)
Definition liveDealContactOnly (t : Tables) (d : Deal) : bool :=
  match db_contacts t !! dl_ContactID d with Some c => live (ct_DeletedAt c) | None => false end.

(** [x >= y] on a column that may be NULL. *)
Definition sql_ge (x : option Z) (y : Z) : bool :=
  match x with Some v => y <=? v | None => false end.

Definition filtered (orgID pipelineID : uuid) (f : BoardFilter) (t : Tables) (d : Deal) : bool :=
  let status := if is_empty (bf_Status f) then DealOpen else bf_Status f in
  let search := TrimSpace (bf_Search f) in
  N.eqb (dl_OrganizationID d) orgID && N.eqb (dl_PipelineID d) pipelineID && live (dl_DeletedAt d) &&
  liveDealContactOnly t d &&
  (String.eqb status "all" || String.eqb (dl_Status d) status) &&
  match bf_OwnerID f with Some u => bool_decide (dl_OwnerID d = Some u) | None => true end &&
  match bf_CloseFrom f with Some a => sql_ge (dl_ExpectedCloseDate d) a | None => true end &&
  match bf_CloseTo f with Some b => sql_le (dl_ExpectedCloseDate d) b | None => true end &&
  (is_empty search || pg_ilike (dl_Title d) ("%" ++ search ++ "%")) &&
  match bf_Scope f with Some scope => scope t d | None => true end.

Definition page_limit (f : BoardFilter) : nat :=
  Z.to_nat (if (bf_Limit f <=? 0) || (200 <? bf_Limit f) then DefaultColumnPage else bf_Limit f).

Definition by_rank (a b : Deal) : bool := str_ltb (dl_BoardPosition a) (dl_BoardPosition b).

(** [ORDER BY board_position LIMIT limit + 1], and whether a row was left over. *)
Definition page (p : Deal -> bool) (limit : nat) (t : Tables) : list Deal * bool :=
  let cards := take (limit + 1) (sort_by by_rank (find_rows p None (db_deals t))) in
  if Nat.ltb limit (length cards) then (take limit cards, true) else (cards, false).

Record Column := {
  co_Stage : PipelineStage;
  co_Count : nat;
  co_Value : float64;
  co_Weighted : float64;
  co_Deals : list Deal;
  co_HasMore : bool
}.

(** One column: its summary is one query, its cards another. *)
Definition board_column (orgID pipelineID : uuid) (f : BoardFilter) (stage : PipelineStage) : MT Column :=
  let p t d := filtered orgID pipelineID f t d && N.eqb (dl_StageID d) (st_ID stage) in
  sum <- query (fun t => let rows := find_rows (p t) None (db_deals t) in
                         Ok (length rows, pg_sum (dl_Value <$> rows))) ;;
  cards <- query (fun t => Ok (page (p t) (page_limit f) t)) ;;
  ret {| co_Stage := stage; co_Count := sum.1; co_Value := sum.2;
         co_Weighted := float_div (float_mul sum.2 (float_of_int (st_Probability stage))) (float_of_int 100);
         co_Deals := cards.1; co_HasMore := cards.2 |}.

Fixpoint board_columns (orgID pipelineID : uuid) (f : BoardFilter) (stages : list PipelineStage) : MT (list Column) :=
  match stages with
  | [] => ret []
  | stage :: rest =>
      column <- board_column orgID pipelineID f stage ;;
      columns <- board_columns orgID pipelineID f rest ;;
      ret (column :: columns)
  end.

Definition Board (orgID pipelineID : uuid) (f : BoardFilter) : MT (Pipeline * list Column) :=
  ps <- GetPipeline orgID pipelineID ;;
  columns <- board_columns orgID pipelineID f ps.2 ;;
  ret (ps.1, columns).

(** The cards of a column after a key. *)
Definition after_card (orgID pipelineID stageID : uuid) (after : string) (f : BoardFilter) (t : Tables) (d : Deal) : bool :=
  filtered orgID pipelineID f t d && N.eqb (dl_StageID d) stageID &&
  (is_empty after || str_ltb after (dl_BoardPosition d)).

Definition StageDeals (orgID pipelineID stageID : uuid) (after : string) (f : BoardFilter) : MT (list Deal * bool) :=
  query (fun t => Ok (page (after_card orgID pipelineID stageID after f t) (page_limit f) t)).

Definition VisibleTo (userID : uuid) (canReadAllContacts : bool) : option (Tables -> Deal -> bool) :=
  if canReadAllContacts then None
  else Some (fun t d =>
    bool_decide (dl_OwnerID d = Some userID) ||
    match db_contacts t !! dl_ContactID d with
    | Some c => bool_decide (ct_AssignedUserID c = Some userID)
    | None => false
    end).
End Service.

(** ** [models/deal.go] *)

Definition IsOpen (d : Deal) : bool := String.eqb (dl_Status d) DealOpen.

Definition IsRotting (d : Deal) (stage : PipelineStage) (n : time) : bool :=
  if (st_RottingDays stage <=? 0) || negb (String.eqb (dl_Status d) DealOpen) then false
  else wrap64 (wrap64 (st_RottingDays stage * 24) * Hour) <? Sub n (dl_StageEnteredAt d).
