(* ===== verification/DealsLemmas.v ===== *)
(** * What the deal operations did

    The invariant of the boards ([board_ok]); for every operation of [Deals],
    the tables after a successful run; that every call keeps the invariant,
    whatever fails ([board_step_ok]). *)
From S2P Require Import Prelude GoLib Store Events Models Statements Rank Text Deals.

#[local] Arguments DefaultStages : simpl never.
#[local] Arguments rankBetween : simpl never.
#[local] Arguments deal_data : simpl never.
#[local] Arguments IsKnown : simpl never.
#[local] Arguments is_open_stage : simpl never.
#[local] Arguments statusForStage : simpl never.

(** ** Conditions that name a row *)

Lemma deal_in_true id org r :
  deal_in id org r = true <-> dl_ID r = id /\ dl_OrganizationID r = org /\ live (dl_DeletedAt r) = true.
Proof. unfold deal_in. rewrite !andb_true_iff, !N.eqb_eq. tauto. Qed.
Lemma deal_by_id_true id r : deal_by_id id r = true <-> dl_ID r = id /\ live (dl_DeletedAt r) = true.
Proof. unfold deal_by_id. rewrite andb_true_iff, N.eqb_eq. tauto. Qed.
Lemma deal_at_true id r : deal_at id r = true <-> dl_StageID r = id /\ live (dl_DeletedAt r) = true.
Proof. unfold deal_at. rewrite andb_true_iff, N.eqb_eq. tauto. Qed.
Lemma stage_in_true id pl s :
  stage_in id pl s = true <-> st_ID s = id /\ st_PipelineID s = pl /\ live (st_DeletedAt s) = true.
Proof. unfold stage_in. rewrite !andb_true_iff, !N.eqb_eq. tauto. Qed.
Lemma stage_in_org_true id org s :
  stage_in_org id org s = true <-> st_ID s = id /\ st_OrganizationID s = org /\ live (st_DeletedAt s) = true.
Proof. unfold stage_in_org. rewrite !andb_true_iff, !N.eqb_eq. tauto. Qed.
Lemma stage_by_id_true id s : stage_by_id id s = true <-> st_ID s = id /\ live (st_DeletedAt s) = true.
Proof. unfold stage_by_id. rewrite andb_true_iff, N.eqb_eq. tauto. Qed.
Lemma stage_of_true pl s : stage_of pl s = true <-> st_PipelineID s = pl /\ live (st_DeletedAt s) = true.
Proof. unfold stage_of. rewrite andb_true_iff, N.eqb_eq. tauto. Qed.
Lemma pipeline_in_true id org p :
  pipeline_in id org p = true <-> pl_ID p = id /\ pl_OrganizationID p = org /\ live (pl_DeletedAt p) = true.
Proof. unfold pipeline_in. rewrite !andb_true_iff, !N.eqb_eq. tauto. Qed.
Lemma pipeline_by_id_true id p : pipeline_by_id id p = true <-> pl_ID p = id /\ live (pl_DeletedAt p) = true.
Proof. unfold pipeline_by_id. rewrite andb_true_iff, N.eqb_eq. tauto. Qed.
Lemma pipeline_of_true org p :
  pipeline_of org p = true <-> pl_OrganizationID p = org /\ live (pl_DeletedAt p) = true.
Proof. unfold pipeline_of. rewrite andb_true_iff, N.eqb_eq. tauto. Qed.

Lemma deal_in_key id org : names_key dl_ID id (deal_in id org).
Proof. by intros r [? _]%deal_in_true. Qed.
Lemma deal_by_id_key id : names_key dl_ID id (deal_by_id id).
Proof. by intros r [? _]%deal_by_id_true. Qed.
Lemma stage_in_key id pl : names_key st_ID id (stage_in id pl).
Proof. by intros r [? _]%stage_in_true. Qed.
Lemma stage_in_org_key id org : names_key st_ID id (stage_in_org id org).
Proof. by intros r [? _]%stage_in_org_true. Qed.
Lemma stage_by_id_key id : names_key st_ID id (stage_by_id id).
Proof. by intros r [? _]%stage_by_id_true. Qed.
Lemma pipeline_in_key id org : names_key pl_ID id (pipeline_in id org).
Proof. by intros r [? _]%pipeline_in_true. Qed.
Lemma pipeline_by_id_key id : names_key pl_ID id (pipeline_by_id id).
Proof. by intros r [? _]%pipeline_by_id_true. Qed.

#[export] Hint Resolve deal_in_key deal_by_id_key stage_in_key stage_in_org_key stage_by_id_key
  pipeline_in_key pipeline_by_id_key : crm.

(** ** The invariant of the boards *)

(** [UpdateStage] writes the stage and its cards in two transactions: the
    stages it saved without their cards, since. *)
Class HalfEdited := half_edited : gset uuid.

(** A live deal sits in a stage of its own pipeline; while that stage is there
    and not half edited the deal has the status the stage means, and an open
    deal's stage is there. *)
Definition deal_ok `{HalfEdited} (stages : gmap uuid PipelineStage) (r : Deal) : Prop :=
  live (dl_DeletedAt r) = true ->
  exists s, stages !! dl_StageID r = Some s /\ st_PipelineID s = dl_PipelineID r /\
    (live (st_DeletedAt s) = true -> dl_StageID r ∉ half_edited -> dl_Status r = statusForStage s) /\
    (dl_Status r = DealOpen -> live (st_DeletedAt s) = true).

(** An organization has one live default pipeline at most. *)
Definition one_default (pipelines : gmap uuid Pipeline) : Prop :=
  forall k k' p p', pipelines !! k = Some p -> pipelines !! k' = Some p' ->
    live (pl_DeletedAt p) = true -> live (pl_DeletedAt p') = true ->
    pl_IsDefault p = true -> pl_IsDefault p' = true ->
    pl_OrganizationID p = pl_OrganizationID p' -> k = k'.

Record board_ok `{HalfEdited} (d : Tables) : Prop := {
  bk_deals : keyed dl_ID (db_deals d);
  bk_stages : keyed st_ID (db_stages d);
  bk_pipelines : keyed pl_ID (db_pipelines d);
  bk_deal : forall k r, db_deals d !! k = Some r -> deal_ok (db_stages d) r;
  bk_default : one_default (db_pipelines d)
}.

(** *** Tables whose boards look the same *)

(** What [deal_ok] sees of a stage. *)
Definition same_stage (s s' : PipelineStage) : Prop :=
  st_ID s' = st_ID s /\ st_PipelineID s' = st_PipelineID s /\ st_StageType s' = st_StageType s /\
  st_DeletedAt s' = st_DeletedAt s.

Lemma statusForStage_same s s' : same_stage s s' -> statusForStage s' = statusForStage s.
Proof. intros (_ & _ & E & _). unfold statusForStage. by rewrite E. Qed.

Lemma deal_ok_stages `{HE : HalfEdited} stages stages' r :
  (forall k s, stages !! k = Some s -> exists s', stages' !! k = Some s' /\ same_stage s s') ->
  deal_ok stages r -> deal_ok stages' r.
Proof.
  intros Hs Hr Hl. destruct (Hr Hl) as (s & Hk & Hp & Hst & Ho). destruct (Hs _ _ Hk) as (s' & Hk' & Hss).
  exists s'. rewrite (statusForStage_same _ _ Hss). destruct Hss as (_ & -> & _ & ->). done.
Qed.

(** A deal keeps what the invariant says about it, or is deleted. *)
Definition same_deal (r r' : Deal) : Prop :=
  dl_ID r' = dl_ID r /\
  (live (dl_DeletedAt r') = true ->
   live (dl_DeletedAt r) = true /\ dl_StageID r' = dl_StageID r /\ dl_PipelineID r' = dl_PipelineID r /\
   dl_Status r' = dl_Status r).

Lemma deal_ok_same `{HE : HalfEdited} stages r r' : same_deal r r' -> deal_ok stages r -> deal_ok stages r'.
Proof.
  intros (_ & Hs) Hr Hl. destruct (Hs Hl) as (Hl0 & E1 & E2 & E3). unfold deal_ok in Hr.
  rewrite E1, E2, E3. by apply Hr.
Qed.

(** A pipeline keeps its key and organization, and gains neither life nor default. *)
Definition same_pipeline (p p' : Pipeline) : Prop :=
  pl_ID p' = pl_ID p /\ pl_OrganizationID p' = pl_OrganizationID p /\
  (live (pl_DeletedAt p') = true -> live (pl_DeletedAt p) = true) /\
  (pl_IsDefault p' = true -> pl_IsDefault p = true).

Lemma one_default_same ps ps' :
  (forall k p', ps' !! k = Some p' -> exists p, ps !! k = Some p /\ same_pipeline p p') ->
  one_default ps -> one_default ps'.
Proof.
  intros Hs H1 k k' p p' Hk Hk' Hl Hl' Hd Hd' Ho.
  apply Hs in Hk as (q & Hk & _ & E & HL & HD), Hk' as (q' & Hk' & _ & E' & HL' & HD').
  eapply H1; eauto. by rewrite <- E, <- E'.
Qed.

Lemma update_where_some {R} (p : R -> bool) us (t : gmap N R) k r :
  update_where p us t !! k = Some r ->
  exists r0, t !! k = Some r0 /\ r = if p r0 then apply_updates us r0 else r0.
Proof. rewrite update_where_lookup. destruct (t !! k) as [r0|]; [|done]. intros [= <-]. eauto. Qed.

Lemma board_ok_deals `{HE : HalfEdited} d t :
  keyed dl_ID t -> (forall k r, t !! k = Some r -> deal_ok (db_stages d) r) -> board_ok d -> board_ok (set_db_deals t d).
Proof. by intros ? ? []; split. Qed.

Lemma board_ok_update_deals `{HE : HalfEdited} d p us :
  (forall k r, db_deals d !! k = Some r -> p r = true ->
     dl_ID (apply_updates us r) = dl_ID r /\ deal_ok (db_stages d) (apply_updates us r)) ->
  board_ok d -> board_ok (set_db_deals (update_where p us (db_deals d)) d).
Proof.
  intros Hp Hb. apply board_ok_deals; [|..|done]; intros k r (r0 & Hk & ->)%update_where_some;
    destruct (p r0) eqn:E; try (by eapply bk_deal).
  - destruct (Hp _ _ Hk E) as [-> _]. by apply (bk_deals _ Hb).
  - by apply (bk_deals _ Hb).
  - by apply (Hp _ _ Hk E).
Qed.

Lemma board_ok_stages `{HE : HalfEdited} d t :
  keyed st_ID t -> (forall k r, db_deals d !! k = Some r -> deal_ok t r) -> board_ok d -> board_ok (set_db_stages t d).
Proof. by intros ? ? []; split. Qed.

Lemma board_ok_pipelines `{HE : HalfEdited} d t :
  keyed pl_ID t -> one_default t -> board_ok d -> board_ok (set_db_pipelines t d).
Proof. by intros ? ? []; split. Qed.

Lemma board_ok_other `{HE : HalfEdited} d d' :
  db_deals d' = db_deals d -> db_stages d' = db_stages d -> db_pipelines d' = db_pipelines d ->
  board_ok d -> board_ok d'.
Proof. intros E1 E2 E3 []. split; by rewrite ?E1, ?E2, ?E3. Qed.

(** ** The statements keep it *)

Abbreviation keeps_boards := (moves (keeps board_ok)).

Lemma moves_update_deals `{HE : HalfEdited} p us : (forall r, same_deal r (apply_updates us r)) -> keeps_boards (update_deals p us).
Proof.
  intros Hus. apply moves_stmt; [typeclasses eauto|]. intros d a d' E. cbv zeta in E. dmatch_in E; [|done]. simplify_eq.
  intros Hb. apply board_ok_update_deals; [|done]. intros k r Hk _. split; [by apply Hus|].
  eapply deal_ok_same; [by apply Hus|by eapply bk_deal].
Qed.

Lemma moves_insert_history `{HE : HalfEdited} h : keeps_boards (insert_history h).
Proof.
  apply moves_stmt; [typeclasses eauto|]. intros d a d' E. destruct (is_none _); [|done]. simplify_eq. intros Hb. by apply (board_ok_other d).
Qed.

Lemma moves_PublishTx `{HE : HalfEdited} e : keeps_boards (PublishTx e).
Proof.
  unfold PublishTx. solve_moves. apply moves_stmt; [typeclasses eauto|]. intros d b d' E. cbv zeta in E.
  destruct (db_outbox d !! _); [done|]. simplify_eq. intros Hb. by apply (board_ok_other d).
Qed.

Lemma moves_insert_stage `{HE : HalfEdited} s : keeps_boards (insert_stage s).
Proof.
  apply moves_stmt; [typeclasses eauto|]. intros d a d' E. destruct (is_none _) eqn:Hn; [|done]. simplify_eq.
  apply is_none_true in Hn. intros Hb. apply board_ok_stages; [by apply keyed_insert; [apply Hb|]| |done].
  intros k r Hk. eapply deal_ok_stages; [|by eapply bk_deal]. intros j s0 Hj. exists s0.
  rewrite lookup_insert_ne by congruence. by split_and!.
Qed.

Lemma moves_update_stages `{HE : HalfEdited} p us : (forall s, same_stage s (apply_updates us s)) -> keeps_boards (update_stages p us).
Proof.
  intros Hus. apply moves_stmt; [typeclasses eauto|]. intros d a d' [= _ <-] Hb. apply board_ok_stages; [| |done].
  - apply keyed_update; [|by apply Hb]. intros r. by apply Hus.
  - intros k r Hk. eapply deal_ok_stages; [|by eapply bk_deal]. intros j s Hj.
    rewrite update_where_lookup, Hj. simpl. eexists. split; [done|]. destruct (p s); [done|by split_and!].
Qed.

Lemma same_pipeline_update ps p us :
  (forall q, same_pipeline q (apply_updates us q)) -> keyed pl_ID ps -> one_default ps ->
  keyed pl_ID (update_where p us ps) /\ one_default (update_where p us ps).
Proof.
  intros Hus Hk H1. split; [apply keyed_update; [|done]; intros r; by apply Hus|].
  eapply one_default_same; [|done]. intros k q (q0 & Hq & ->)%update_where_some. exists q0.
  split; [done|]. destruct (p q0); [done|by split_and!].
Qed.

Lemma moves_update_pipelines `{HE : HalfEdited} p us :
  (forall q, same_pipeline q (apply_updates us q)) -> keeps_boards (update_pipelines p us).
Proof.
  intros Hus. apply moves_stmt; [typeclasses eauto|]. intros d a d' E. cbv zeta in E. dmatch_in E; [|done].
  simplify_eq. intros Hb. destruct (same_pipeline_update (db_pipelines d) p us) as [? ?]; [done|by apply Hb..|].
  by apply board_ok_pipelines.
Qed.

#[export] Hint Resolve moves_insert_history moves_PublishTx moves_insert_stage : crm.

(** ** Reading *)

Lemma replace_error_ok {A} (m : MT A) e w a w' : replace_error m e w = (Ok a, w') -> m w = (Ok a, w').
Proof. unfold replace_error. intros Hr. inv_run. destruct a0; by inv_run. Qed.

Lemma moves_replace_error (R : Tables -> Tables -> Prop) `{!PreOrder R} {A} (m : MT A) e :
  moves R m -> moves R (replace_error m e).
Proof. intros Hm. unfold replace_error. solve_moves. Qed.

Lemma position_or_empty_ok (f : Tables -> res err Deal) w r w' :
  position_or_empty (query f) w = (Ok r, w') ->
  w_aborted w = false /\
  ((exists deal, f (w_db w) = Ok deal /\ r = dl_BoardPosition deal /\ w' = after_stmt [] (w_db w) w) \/
   (f (w_db w) = Err ErrRecordNotFound /\ r = "" /\ w' = set_faults (tl (w_faults w)) w)).
Proof.
  unfold position_or_empty, bind, try. destruct (query f w) as [[deal|e] w1] eqn:E.
  - intros [= <- <-]. apply query_ok_inv in E as (E & Hab & ->). eauto 10.
  - destruct e; try done. intros [= <- <-]. apply query_benign_inv in E as (E & Hab & ->); [|done]. eauto.
Qed.

Lemma moves_position_or_empty (R : Tables -> Tables -> Prop) `{!PreOrder R} q :
  moves R q -> moves R (position_or_empty q).
Proof. intros Hq. unfold position_or_empty. solve_moves. Qed.

Section Ops.
Context `{SL : SqlLaws} `{UT : UuidText} `{PG : Pg} `{HE : HalfEdited}.
Implicit Types (d : Tables) (w : world Tables).

Lemma moves_GetPipeline R `{!PreOrder R} org id : moves R (GetPipeline org id).
Proof. unfold GetPipeline, preload_stages. apply moves_replace_error; [done|]. solve_moves. Qed.

Lemma moves_DefaultPipeline R `{!PreOrder R} org : moves R (DefaultPipeline org).
Proof. unfold DefaultPipeline, preload_stages. apply moves_replace_error; [done|]. solve_moves. Qed.

Lemma moves_Get R `{!PreOrder R} org id : moves R (Get org id).
Proof. unfold Get. apply moves_replace_error; [done|]. solve_moves. Qed.

Lemma moves_lastRank R `{!PreOrder R} id : moves R (lastRank id).
Proof. unfold lastRank. apply moves_position_or_empty; [done|]. solve_moves. Qed.

Lemma moves_publish deal ty actor : keeps_boards (publish deal ty actor).
Proof. unfold publish. solve_moves. Qed.

(** *** The bottom of a column *)

(** [r] is the greatest position of the live deals of the stage, [""] when there is none. *)
Definition bottom_rank (stageID : uuid) d (r : string) : Prop :=
  (r = "" /\ forall k x, db_deals d !! k = Some x -> deal_at stageID x = false) \/
  (exists k x, db_deals d !! k = Some x /\ deal_at stageID x = true /\ dl_BoardPosition x = r /\
     forall k' x', db_deals d !! k' = Some x' -> deal_at stageID x' = true ->
       str_ltb r (dl_BoardPosition x') = false).

Lemma by_rank_desc_irrefl a : by_rank_desc a a = false.
Proof. unfold by_rank_desc. rewrite str_ltb_irrefl, N.ltb_irrefl. simpl. by rewrite andb_false_r. Qed.

Lemma by_rank_desc_trans a b c : by_rank_desc a b = true -> by_rank_desc b c = true -> by_rank_desc a c = true.
Proof.
  unfold by_rank_desc. rewrite !orb_true_iff, !andb_true_iff, !String.eqb_eq, !N.ltb_lt.
  intros [Hab|[Eab Hab]] [Hbc|[Ebc Hbc]].
  - left. by eapply str_ltb_trans.
  - left. by rewrite <- Ebc.
  - left. by rewrite Eab.
  - right. split; [congruence|lia].
Qed.

Lemma lastRank_ok id w r w' :
  lastRank id w = (Ok r, w') -> bottom_rank id (w_db w) r /\ w_db w' = w_db w /\ w_now w' = w_now w.
Proof.
  intros (_ & [(x & Hf & -> & ->)|(Hf & -> & ->)])%position_or_empty_ok.
  - split; [|done]. right. unfold first_row in Hf. destruct (sql_first _ _ _) as [k|] eqn:E; [|done].
    pose proof (first_sound _ _ _ _ _ E) as (x' & Hk & Hp). rewrite Hk in Hf. simplify_eq.
    exists k, x. split_and!; [done..|]. intros k' x' Hk' Hp'.
    pose proof (first_least _ _ _ _ _ _ _ _ by_rank_desc_irrefl by_rank_desc_trans E Hk Hk' Hp') as Hl.
    apply orb_false_iff in Hl as [Hl _]. done.
  - split; [|done]. left. split; [done|]. by apply first_row_err in Hf as [_ Hno].
Qed.

(** A new key goes below every card of the column. *)
Lemma bottom_rank_below id d last k x :
  bottom_rank id d last -> (last = "" \/ valid_rank last = true) ->
  db_deals d !! k = Some x -> deal_at id x = true ->
  str_ltb (dl_BoardPosition x) (rankBetween last "") = true.
Proof.
  intros Hb Hv Hk Hx. destruct (rankBetween_facts last "") as (_ & Hlt & _); [done|by left|].
  destruct Hb as [(_ & Hno)|(k0 & x0 & _ & _ & Hr & Hmax)]; [by rewrite (Hno _ _ Hk) in Hx|].
  specialize (Hmax _ _ Hk Hx). destruct (decide (last = dl_BoardPosition x)) as [<-|Hne]; [done|].
  eapply str_ltb_trans; [|exact Hlt]. by apply str_ltb_total.
Qed.

(** *** The neighbours of a drop *)

Definition neighbour_rank d (id : option uuid) (self : uuid) : string :=
  match id with
  | None => ""
  | Some i =>
      if N.eqb i self then ""
      else match db_deals d !! i with
           | Some x => if live (dl_DeletedAt x) then dl_BoardPosition x else ""
           | None => ""
           end
  end.

Lemma rankOf_ok id self w r w' :
  keyed dl_ID (db_deals (w_db w)) -> rankOf id self w = (Ok r, w') ->
  r = neighbour_rank (w_db w) id self /\ w_db w' = w_db w /\ w_now w' = w_now w.
Proof.
  intros Hk. unfold rankOf, neighbour_rank. destruct id as [i|]; [|by intros [= <- <-]].
  destruct (N.eqb i self); [by intros [= <- <-]|].
  intros (_ & [(x & Hf & -> & ->)|(Hf & -> & ->)])%position_or_empty_ok; (split; [|done]).
  - apply (first_row_key dl_ID i) in Hf as [-> [_ ->]%deal_by_id_true]; auto with crm.
  - apply first_row_err in Hf as [_ Hno]. destruct (db_deals (w_db w) !! i) as [x|] eqn:E; [|done].
    specialize (Hno _ _ E). unfold deal_by_id in Hno. rewrite (Hk _ _ E), N.eqb_refl in Hno.
    simpl in Hno. by rewrite Hno.
Qed.

(** The position a drop asks for. *)
Definition drop_rank d (stageID dealID : uuid) (inp : MoveInput) (pos : string) : Prop :=
  if is_none (mi_AfterID inp) && is_none (mi_BeforeID inp)
  then exists last, bottom_rank stageID d last /\ pos = rankBetween last ""
  else pos = rankBetween (neighbour_rank d (mi_AfterID inp) dealID) (neighbour_rank d (mi_BeforeID inp) dealID).

Lemma rankFor_ok stageID dealID inp w pos w' :
  keyed dl_ID (db_deals (w_db w)) -> rankFor stageID dealID inp w = (Ok pos, w') ->
  drop_rank (w_db w) stageID dealID inp pos /\ w_db w' = w_db w /\ w_now w' = w_now w.
Proof.
  intros Hk Hr. unfold rankFor in Hr. inv_run1. inv_run1.
  apply rankOf_ok in Hrun as (-> & Hd & Hn); [|done]. rewrite <-Hd in Hk.
  apply rankOf_ok in Hrun0 as (-> & Hd0 & Hn0); [|done]. rewrite Hd in *.
  unfold drop_rank. destruct (_ && _)%bool.
  - inv_run1. apply lastRank_ok in Hrun as (Hb & Hd1 & Hn1). inv_run. rewrite Hd0 in Hb.
    split_and!; [eauto|congruence..].
  - inv_run. split_and!; congruence.
Qed.

Lemma publish_ok deal ty actor w u w' :
  IsKnown ty = true -> publish deal ty actor w = (Ok u, w') ->
  exists o, w_db w' = set_db_outbox (<[ob_ID o := o]> (db_outbox (w_db w))) (w_db w) /\
    db_outbox (w_db w) !! ob_ID o = None /\ ob_Type o = ty /\ ob_OrganizationID o = dl_OrganizationID deal /\
    ob_ContactID o = Some (dl_ContactID deal) /\ ob_SubjectType o = SubjectDeal /\
    ob_SubjectID o = Some (dl_ID deal) /\ ob_Data o = deal_data deal /\ ob_PublishedAt o = None.
Proof.
  intros Hty. unfold publish. rewrite Hty. simpl. intros Hr. inv_run1. inv_run1. inv_run1. inv_run1.
  apply PublishTx_ok_inv in Hr as (o & Hdb & Hno & (f & ->) & _).
  eexists. split; [exact Hdb|]. by split_and!.
Qed.
(** *** Moving a card *)

Lemma update_deals_ok p us w n w' :
  update_deals p us w = (Ok n, w') ->
  w_db w' = set_db_deals (update_where p us (db_deals (w_db w))) (w_db w) /\ w_now w' = w_now w /\
  (forall k r, db_deals (w_db w) !! k = Some r -> p r = true -> fits (apply_updates us r) = true).
Proof.
  intros Hr. apply stmt_ok_inv in Hr as (d & Hf & _ & ->). cbv zeta in Hf.
  dmatch_in Hf; [|done]. simplify_eq. split_and!; [done|done|].
  intros k r Hk Hp. rewrite forallb_forall in Heqb.
  assert (In (k, r) (map_to_list (db_deals (w_db w)))) as Hin by by apply list_elem_of_In, elem_of_map_to_list.
  apply Heqb in Hin. simpl in Hin. by rewrite Hp in Hin.
Qed.

Lemma insert_history_ok h w u w' :
  insert_history h w = (Ok u, w') ->
  db_stage_history (w_db w) !! hs_ID h = None /\
  w_db w' = set_db_stage_history (<[hs_ID h := h]> (db_stage_history (w_db w))) (w_db w) /\ w_now w' = w_now w.
Proof.
  intros Hr. apply stmt_ok_inv in Hr as (d & Hf & _ & ->).
  destruct (is_none _) eqn:E; [|done]. simplify_eq. by apply is_none_true in E.
Qed.

Lemma select_deal_ok p id w r w' :
  keyed dl_ID (db_deals (w_db w)) -> names_key dl_ID id p ->
  query (fun d => first_row p unordered (db_deals d)) w = (Ok r, w') ->
  db_deals (w_db w) !! id = Some r /\ p r = true /\ w_db w' = w_db w /\ w_now w' = w_now w.
Proof.
  intros Hk Hp Hr. apply query_ok_inv in Hr as (Hf & _ & ->).
  by apply (first_row_key dl_ID id) in Hf as [? ?].
Qed.

Lemma select_stage_ok p id e w r w' :
  keyed st_ID (db_stages (w_db w)) -> names_key st_ID id p ->
  replace_error (query (fun d => first_row p unordered (db_stages d))) e w = (Ok r, w') ->
  db_stages (w_db w) !! id = Some r /\ p r = true /\ w_db w' = w_db w /\ w_now w' = w_now w.
Proof.
  intros Hk Hp Hr%replace_error_ok.
  apply query_ok_inv in Hr as (Hf & _ & ->). by apply (first_row_key st_ID id) in Hf as [? ?].
Qed.

(** The row of the history a move leaves. *)
Definition move_history (h : DealStageHistory) (org : uuid) (old : Deal) (stageID : uuid) (actor : Actor) (n : time) : Prop :=
  hs_OrganizationID h = org /\ hs_DealID h = dl_ID old /\ hs_FromStageID h = Some (dl_StageID old) /\
  hs_ToStageID h = stageID /\ hs_MovedByID h = actor_ID actor /\
  hs_DurationSeconds h = float_trunc (Seconds (Sub n (dl_StageEnteredAt old))).

(** The outbox row that announces a deal. *)
Definition deal_event (o : CRMEventOutbox) (deal : Deal) (ty : string) : Prop :=
  ob_Type o = ty /\ ob_OrganizationID o = dl_OrganizationID deal /\
  ob_ContactID o = Some (dl_ContactID deal) /\ ob_SubjectType o = SubjectDeal /\
  ob_SubjectID o = Some (dl_ID deal) /\ ob_Data o = deal_data deal /\ ob_PublishedAt o = None.

(** What a successful [Move] of [old] into [stage] at [pos] made of the tables. *)
Inductive moved (org : uuid) (inp : MoveInput) (actor : Actor) (n : time) (old : Deal) (stage : PipelineStage)
    (pos : string) d : Deal -> option PipelineStage -> Tables -> Prop :=
| moved_within :
    st_ID stage = dl_StageID old ->
    moved org inp actor n old stage pos d (set_dl_BoardPosition pos old) None
      (set_db_deals (<[dl_ID old := set_dl_BoardPosition pos old]> (db_deals d)) d)
| moved_across h o :
    st_ID stage <> dl_StageID old ->
    let new := apply_updates (move_updates stage n pos (mi_LostReason inp)) old in
    move_history h org old (st_ID stage) actor n -> db_stage_history d !! hs_ID h = None ->
    deal_event o new (move_event (statusForStage stage)) -> db_outbox d !! ob_ID o = None ->
    moved org inp actor n old stage pos d new (Some stage)
      (set_db_outbox (<[ob_ID o := o]> (db_outbox d))
        (set_db_stage_history (<[hs_ID h := h]> (db_stage_history d))
          (set_db_deals (<[dl_ID old := new]> (db_deals d)) d))).

(** What [Move] found before it wrote. *)
Definition move_ready (org id : uuid) (inp : MoveInput) d (old : Deal) (stage : PipelineStage) (pos : string) : Prop :=
  db_deals d !! id = Some old /\ deal_in id org old = true /\
  db_stages d !! mi_StageID inp = Some stage /\ stage_in (mi_StageID inp) (dl_PipelineID old) stage = true /\
  drop_rank d (mi_StageID inp) id inp pos.

Lemma move_updates_id stage n pos reason r : dl_ID (apply_updates (move_updates stage n pos reason) r) = dl_ID r.
Proof. unfold move_updates, close_updates. by repeat case_match. Qed.
Lemma move_updates_live stage n pos reason r :
  dl_DeletedAt (apply_updates (move_updates stage n pos reason) r) = dl_DeletedAt r.
Proof. unfold move_updates, close_updates. by repeat case_match. Qed.
Lemma move_updates_status stage n pos reason r :
  dl_Status (apply_updates (move_updates stage n pos reason) r) = statusForStage stage.
Proof. unfold move_updates, close_updates. by repeat case_match. Qed.
Lemma move_updates_stage stage n pos reason r :
  dl_StageID (apply_updates (move_updates stage n pos reason) r) = st_ID stage.
Proof. unfold move_updates, close_updates. by repeat case_match. Qed.
Lemma move_updates_pipeline stage n pos reason r :
  dl_PipelineID (apply_updates (move_updates stage n pos reason) r) = dl_PipelineID r.
Proof. unfold move_updates, close_updates. by repeat case_match. Qed.
Lemma move_updates_position stage n pos reason r :
  dl_BoardPosition (apply_updates (move_updates stage n pos reason) r) = pos.
Proof. unfold move_updates, close_updates. by repeat case_match. Qed.

Lemma move_updates_org stage n pos reason r :
  dl_OrganizationID (apply_updates (move_updates stage n pos reason) r) = dl_OrganizationID r.
Proof. unfold move_updates, close_updates. by repeat case_match. Qed.

Lemma move_event_known status : IsKnown (move_event status) = true.
Proof. unfold move_event. by repeat case_match. Qed.

Lemma Move_ok org id inp actor w deal st w' :
  board_ok (w_db w) -> Move org id inp actor w = (Ok (deal, st), w') ->
  exists old stage pos, move_ready org id inp (w_db w) old stage pos /\
    moved org inp actor (w_now w) old stage pos (w_db w) deal st (w_db w').
Proof.
  intros Hb Hr. apply transaction_ok_inv in Hr as (w1 & Hr & _ & ->).
  apply bind_ok_inv in Hr as (old & w2 & Hold%replace_error_ok & Hr).
  apply stmt_ok_inv in Hold as (d0 & Hf & _ & ->). injection Hf as Hf <-.
  apply (first_row_key dl_ID id) in Hf as [Hold Hin]; [|apply Hb|apply deal_in_key].
  apply bind_ok_inv in Hr as (stage & w2 & Hst & Hr).
  apply (select_stage_ok _ (mi_StageID inp)) in Hst as (Hst & Hsin & Hd2 & Hn2);
    [|apply Hb|apply stage_in_key].
  pose proof Hsin as (Hsid & Hpl & _)%stage_in_true. pose proof Hin as (Hid & _ & Hl)%deal_in_true. subst id.
  simpl in Hold, Hst, Hd2, Hn2.
  apply bind_ok_inv in Hr as (pos & w3 & Hpos & Hr).
  apply rankFor_ok in Hpos as (Hpos & Hd3 & Hn3); [|rewrite Hd2; apply Hb].
  rewrite Hsid, Hd2 in Hpos. exists old, stage, pos. split; [by split_and!|].
  assert (w_db w3 = w_db w) as Hdw by congruence. assert (w_now w3 = w_now w) as Hnw by congruence.
  clear Hd2 Hn2 Hd3 Hn3. assert (deal_by_id (dl_ID old) old = true) as Hbid by by apply deal_by_id_true.
  destruct (N.eqb_spec (st_ID stage) (dl_StageID old)) as [Heq|Hne].
  - unfold reorder_card in Hr. destruct (String.eqb_spec pos (dl_BoardPosition old)) as [->|].
    + inv_run. simpl. rewrite Hdw. 
      assert (set_dl_BoardPosition (dl_BoardPosition old) old = old) as E by by destruct old.
      pose proof (moved_within org inp actor (w_now w) old stage (dl_BoardPosition old) (w_db w) Heq) as Hm.
      rewrite E, (insert_id _ _ _ Hold) in Hm. simplify_eq. by destruct (w_db w).
    + apply bind_ok_inv in Hr as (? & w4 & Hu & Hr). inv_run.
      apply update_deals_ok in Hu as (Hd4 & _ & _). simpl. rewrite Hd4, Hdw.
      rewrite (update_where_key dl_ID (dl_ID old) _ _ _ old) by first [apply Hb|apply deal_by_id_key|done]. simplify_eq. by constructor.
  - unfold change_stage in Hr. cbv zeta in Hr. apply bind_ok_inv in Hr as (n & wn & [-> ->]%now_ok_inv & Hr). apply bind_ok_inv in Hr as (? & w4 & Hu & Hr).
    rewrite Hnw in *. apply update_deals_ok in Hu as (Hd4 & Hn4 & _). rewrite Hdw in Hd4.
    rewrite (update_where_key dl_ID (dl_ID old) _ _ _ old) in Hd4 by first [apply Hb|apply deal_by_id_key|done].
    apply bind_ok_inv in Hr as (hid & wh & [-> ->]%uuid_New_ok_inv & Hr). apply bind_ok_inv in Hr as (? & w5 & Hh & Hr).
    apply insert_history_ok in Hh as (Hhn & Hd5 & Hn5). simpl in Hhn, Hd5, Hn5. rewrite Hd4 in Hhn, Hd5.
    apply bind_ok_inv in Hr as (new & w6 & Hnew & Hr).
    apply (select_deal_ok _ (dl_ID old)) in Hnew as (Hnew & _ & Hd6 & _); [|rewrite Hd5; simpl|apply deal_by_id_key].
    2:{ apply keyed_insert; [apply Hb|]. by rewrite move_updates_id. }
    rewrite Hd5 in Hnew, Hd6. simpl in Hnew. rewrite lookup_insert_eq in Hnew. simplify_eq.
    apply bind_ok_inv in Hr as (? & w7 & Hp & Hr). inv_run. simplify_eq.
    apply publish_ok in Hp as (o & Hd7 & Hno & He); [|apply move_event_known].
    simpl. rewrite Hd6 in Hd7, Hno. simpl in Hno. rewrite Hd7. simpl.
    apply (moved_across org inp actor (w_now w) old stage pos (w_db w)); try done.
Qed.
(** *** Creating a deal *)

(** The stages of a pipeline as the code reads them. *)
Definition stages_of d (pipelineID : uuid) : list PipelineStage :=
  sort_by by_position (find_rows (stage_of pipelineID) None (db_stages d)).

Lemma stages_of_elem d id s :
  s ∈ stages_of d id <-> exists k, db_stages d !! k = Some s /\ stage_of id s = true.
Proof.
  unfold stages_of. rewrite elem_of_sort_by. split; [apply find_rows_elem|].
  intros (k & Hk & Hs). by eapply find_rows_complete.
Qed.

(** A pipeline [resolvePipeline] may pick. *)
Definition pipeline_read d (p : Pipeline) (stages : list PipelineStage) : Prop :=
  db_pipelines d !! pl_ID p = Some p /\ live (pl_DeletedAt p) = true /\ stages = stages_of d (pl_ID p).

Lemma GetPipeline_ok org id w ps w' :
  keyed pl_ID (db_pipelines (w_db w)) -> GetPipeline org id w = (Ok ps, w') ->
  pipeline_read (w_db w) ps.1 ps.2 /\ pl_ID ps.1 = id /\ pl_OrganizationID ps.1 = org /\
  w_db w' = w_db w /\ w_now w' = w_now w.
Proof.
  intros Hk Hr%replace_error_ok. apply bind_ok_inv in Hr as (p & w1 & Hp & Hr).
  apply query_ok_inv in Hp as (Hf & _ & ->).
  apply (first_row_key pl_ID id) in Hf as [Hp (<- & Ho & Hl)%pipeline_in_true]; [|done|apply pipeline_in_key].
  apply bind_ok_inv in Hr as (stages & w1 & Hs & Hr). apply query_ok_inv in Hs as (Hs & _ & ->).
  inv_run. injection Hs as <-. by split_and!.
Qed.

Lemma DefaultPipeline_ok org w ps w' :
  keyed pl_ID (db_pipelines (w_db w)) -> DefaultPipeline org w = (Ok ps, w') ->
  pipeline_read (w_db w) ps.1 ps.2 /\ active_pipeline org ps.1 = true /\
  w_db w' = w_db w /\ w_now w' = w_now w.
Proof.
  intros Hk Hr%replace_error_ok. apply bind_ok_inv in Hr as (p & w1 & Hp & Hr).
  apply query_ok_inv in Hp as (Hf & _ & ->). apply first_row_ok in Hf as (k & Hp & Ha).
  apply bind_ok_inv in Hr as (stages & w1 & Hs & Hr). apply query_ok_inv in Hs as (Hs & _ & ->).
  inv_run. injection Hs as <-. unfold pipeline_read. simpl. rewrite (Hk _ _ Hp).
  unfold active_pipeline in *. pose proof Ha as [Ho _]%andb_true_iff. apply pipeline_of_true in Ho as [_ Hl].
  by split_and!.
Qed.

Lemma resolvePipeline_ok inp w ps w' :
  keyed pl_ID (db_pipelines (w_db w)) -> resolvePipeline inp w = (Ok ps, w') ->
  pipeline_read (w_db w) ps.1 ps.2 /\ pl_OrganizationID ps.1 = ci_OrgID inp /\
  match ci_PipelineID inp with Some id => pl_ID ps.1 = id | None => pl_ArchivedAt ps.1 = None end /\
  w_db w' = w_db w /\ w_now w' = w_now w.
Proof.
  intros Hk. unfold resolvePipeline. destruct (ci_PipelineID inp).
  - intros (? & ? & ? & ? & ?)%GetPipeline_ok; [by split_and!|done].
  - intros (? & Ha & ? & ?)%DefaultPipeline_ok; [|done].
    unfold active_pipeline in Ha. apply andb_true_iff in Ha as [[? _]%pipeline_of_true ?%is_none_true].
    by split_and!.
Qed.

(** The stage a new deal enters. *)
Definition entry_stage d (inp : CreateInput) (p : Pipeline) (stage : PipelineStage) : Prop :=
  db_stages d !! st_ID stage = Some stage /\ st_PipelineID stage = pl_ID p /\ live (st_DeletedAt stage) = true /\
  match ci_StageID inp with
  | Some id => st_ID stage = id
  | None => is_open_stage stage = true /\
      forall k s, db_stages d !! k = Some s -> stage_of (pl_ID p) s = true -> is_open_stage s = true ->
        st_Position stage <= st_Position s
  end.

Lemma resolveStage_ok inp p stages w stage w' :
  keyed st_ID (db_stages (w_db w)) -> stages = stages_of (w_db w) (pl_ID p) ->
  resolveStage inp p stages w = (Ok stage, w') ->
  entry_stage (w_db w) inp p stage /\ w_db w' = w_db w /\ w_now w' = w_now w.
Proof.
  intros Hk -> Hr. unfold resolveStage in Hr. unfold entry_stage. destruct (ci_StageID inp) as [id|].
  - apply (select_stage_ok _ id) in Hr as (Hs & (<- & ? & ?)%stage_in_true & ? & ?);
      [by split_and!|done|apply stage_in_key].
  - destruct (List.find _ _) as [s|] eqn:E; [|done]. inv_run.
    apply find_sort_by in E as (Hin & Ho & Hmin).
    2,3: unfold by_position; intros *; rewrite ?Z.ltb_lt, ?Z.ltb_ge; lia.
    rewrite <-(elem_of_sort_by by_position) in Hin. apply stages_of_elem in Hin as (k & Hs & [? ?]%stage_of_true).
    split; [|done]. split_and!; [by rewrite (Hk _ _ Hs)|done..|].
    intros k' s' Hk' Hs' Ho'. apply Z.ltb_ge. apply Hmin; [|done]. by eapply find_rows_complete.
Qed.

Lemma insert_deal_ok r w u w' :
  insert_deal r w = (Ok u, w') ->
  fits r = true /\ db_deals (w_db w) !! dl_ID r = None /\
  w_db w' = set_db_deals (<[dl_ID r := r]> (db_deals (w_db w))) (w_db w) /\ w_now w' = w_now w.
Proof.
  intros Hr. apply stmt_ok_inv in Hr as (d & Hf & _ & ->).
  destruct (fits r) eqn:Hfit; [|done]. simpl in Hf. destruct (is_none _) eqn:E; [|done]. simplify_eq.
  by apply is_none_true in E.
Qed.

(** The deal [Create] makes. *)
Definition new_deal (inp : CreateInput) (id : uuid) (p : Pipeline) (stage : PipelineStage) (contact : Contact)
    (n : time) (last : string) : Deal :=
  MkDeal id None (ci_OrgID inp) (pl_ID p) (st_ID stage) (ci_ContactID inp) (ci_ConversationID inp)
    (ci_Title inp) (ci_Value inp) (if is_empty (ci_Currency inp) then pl_Currency p else ci_Currency inp)
    (match ci_OwnerID inp with None => ct_AssignedUserID contact | o => o end) (ci_ExpectedCloseDate inp)
    (statusForStage stage) n (rankBetween last "") None "" (ci_CreatedBy inp).

Definition created (inp : CreateInput) (deal : Deal) (h : DealStageHistory) (o : CRMEventOutbox) d : Tables :=
  set_db_outbox (<[ob_ID o := o]> (db_outbox d))
    (set_db_stage_history (<[hs_ID h := h]> (db_stage_history d))
      (set_db_deals (<[dl_ID deal := stored_deal deal]> (db_deals d)) d)).

(** What [Create] read, and what it wrote. *)
Definition create_effect (inp : CreateInput) (n : time) d (deal : Deal) (stage : PipelineStage) d' : Prop :=
  exists contact p last h o,
    (exists k, db_contacts d !! k = Some contact) /\ contact_in (ci_ContactID inp) (ci_OrgID inp) contact = true /\
    pipeline_read d p (stages_of d (pl_ID p)) /\ pl_OrganizationID p = ci_OrgID inp /\
    match ci_PipelineID inp with Some id => pl_ID p = id | None => pl_ArchivedAt p = None end /\
    entry_stage d inp p stage /\ bottom_rank (st_ID stage) d last /\
    deal = new_deal inp (dl_ID deal) p stage contact n last /\ fits (stored_deal deal) = true /\
    db_deals d !! dl_ID deal = None /\
    hs_OrganizationID h = ci_OrgID inp /\ hs_DealID h = dl_ID deal /\ hs_FromStageID h = None /\
    hs_ToStageID h = st_ID stage /\ hs_MovedByID h = ci_CreatedBy inp /\ db_stage_history d !! hs_ID h = None /\
    deal_event o deal "deal.created" /\ db_outbox d !! ob_ID o = None /\
    d' = created inp deal h o d.

Lemma Create_ok inp w deal st w' :
  board_ok (w_db w) -> Create inp w = (Ok (deal, st), w') ->
  exists stage, st = Some stage /\ create_effect inp (w_now w) (w_db w) deal stage (w_db w').
Proof.
  intros Hb Hr. unfold Create in Hr. destruct (is_empty _); [done|].
  apply bind_ok_inv in Hr as (contact & w1 & Hc%replace_error_ok & Hr).
  apply query_ok_inv in Hc as (Hc & _ & ->). apply first_row_ok in Hc as (kc & Hc & Hcin).
  apply bind_ok_inv in Hr as (ps & w2 & Hp & Hr). cbv zeta in Hr.
  apply resolvePipeline_ok in Hp as (Hp & Hporg & Hpid & Hd2 & Hn2); [|apply Hb]. simpl in Hp, Hd2, Hn2.
  apply bind_ok_inv in Hr as (stage & w3 & Hs & Hr).
  apply resolveStage_ok in Hs as (Hs & Hd3 & Hn3); [|rewrite Hd2; apply Hb|rewrite Hd2; apply Hp].
  apply bind_ok_inv in Hr as (n & wn & [-> ->]%now_ok_inv & Hr).
  apply bind_ok_inv in Hr as (id & wu & [-> ->]%uuid_New_ok_inv & Hr).
  apply bind_ok_inv in Hr as (dl & w4 & Ht & Hr). inv_run. simplify_eq. exists stage. split; [done|].
  apply transaction_ok_inv in Ht as (w5 & Ht & _ & ->).
  apply bind_ok_inv in Ht as (last & w6 & Hl & Ht). apply lastRank_ok in Hl as (Hl & Hd6 & Hn6).
  cbv zeta in Ht. simpl in Hl, Hd6, Hn6.
  assert (w_db w3 = w_db w) as Hd by congruence. rewrite Hd in *. rewrite Hd2 in Hs.
  assert (w_now w3 = w_now w) as Hn by congruence. rewrite Hn in *. clear Hd2 Hn2 Hd3 Hn3.
  apply bind_ok_inv in Ht as (? & w7 & Hi & Ht). apply insert_deal_ok in Hi as (Hfit & Hno & Hd7 & _).
  rewrite Hd6 in Hno, Hd7.
  apply bind_ok_inv in Ht as (hid & wh & [-> ->]%uuid_New_ok_inv & Ht).
  apply bind_ok_inv in Ht as (? & w8 & Hh & Ht). apply insert_history_ok in Hh as (Hhno & Hd8 & _).
  simpl in Hhno, Hd8. rewrite Hd7 in Hhno, Hd8.
  apply bind_ok_inv in Ht as (? & w9 & Hpub & Ht). inv_run.
  apply publish_ok in Hpub as (o & Hd9 & Ho & He); [|done]. rewrite Hd8 in Hd9, Ho. simpl in Ho.
  exists contact, ps.1, last, (MkHistory (w_uuid w7) (ci_OrgID inp) (w_uuid w3) None (st_ID stage) (ci_CreatedBy inp) 0), o.
  pose proof Hp as (Hp1 & Hp2 & Hp3).
  split_and!; try done; by eauto.
Qed.
(** *** Editing deals and pipelines *)

#[local] Instance same_deal_preorder : PreOrder same_deal.
Proof.
  split; [by intros r; split|]. intros a b c [E1 H1] [E2 H2]. split; [congruence|].
  intros Hl. apply H2 in Hl as (Hl & ? & ? & ?). apply H1 in Hl as (? & ? & ? & ?). split_and!; congruence.
Qed.

#[local] Instance same_stage_preorder : PreOrder same_stage.
Proof.
  split; [by intros r; split_and!|]. intros a b c (? & ? & ? & ?) (? & ? & ? & ?). split_and!; congruence.
Qed.

#[local] Instance same_pipeline_preorder : PreOrder same_pipeline.
Proof.
  split; [by intros r; split_and!|]. intros a b c (? & ? & ? & ?) (? & ? & ? & ?).
  split_and!; [congruence..|auto|auto].
Qed.

Lemma Forall_given {A R} (P : (R -> R) -> Prop) (o : option A) f : (forall a, P (f a)) -> Forall P (given o f).
Proof. intros Hf. destruct o; simpl; [by constructor|constructor]. Qed.
Lemma Forall_given_text {R} (P : (R -> R) -> Prop) (o : option string) f :
  (forall a, P (f a)) -> Forall P (given_text o f).
Proof. intros Hf. unfold given_text. destruct o as [s|]; [destruct (is_empty s)|]; by repeat constructor. Qed.

Lemma deal_updates_same inp r : same_deal r (apply_updates (deal_updates inp) r).
Proof.
  apply apply_updates_rel; [apply _|]. unfold deal_updates. rewrite !Forall_app.
  split_and!; first [apply Forall_given|apply Forall_given_text]; by intros ? x.
Qed.

Lemma pipeline_updates_same inp q : same_pipeline q (apply_updates (pipeline_updates inp) q).
Proof.
  apply apply_updates_rel; [apply _|]. unfold pipeline_updates. rewrite !Forall_app.
  split_and!; first [apply Forall_given|apply Forall_given_text]; by intros ? x.
Qed.

Lemma moves_Update org id inp actor : keeps_boards (Update org id inp actor).
Proof.
  unfold Update. destruct (blank _); [solve_moves|]. cbv zeta.
  apply moves_bind; [typeclasses eauto| |intros ?; apply (moves_Get (keeps board_ok))]. apply moves_transaction; [typeclasses eauto|].
  apply moves_bind; [typeclasses eauto|apply moves_replace_error; [typeclasses eauto|solve_moves]|intros ?].
  destruct (Nat.eqb _ _); [solve_moves|].
  apply moves_bind; [typeclasses eauto|apply moves_update_deals, deal_updates_same|intros ?].
  solve_moves. apply moves_publish.
Qed.

Lemma moves_Delete org id actor : keeps_boards (Delete org id actor).
Proof.
  unfold Delete. apply moves_transaction; [typeclasses eauto|].
  apply moves_bind; [typeclasses eauto|apply moves_replace_error; [typeclasses eauto|solve_moves]|intros ?].
  apply moves_bind; [typeclasses eauto|solve_moves|intros ?].
  apply moves_bind; [typeclasses eauto|apply moves_update_deals|intros ?; apply moves_publish]. intros r. by split.
Qed.

Lemma moves_create_stages org id l : keeps_boards (create_stages org id l).
Proof. induction l as [|s l IH]; simpl; solve_moves. Qed.

Lemma one_default_insert ps p :
  ps !! pl_ID p = None ->
  (pl_IsDefault p = true -> forall k q, ps !! k = Some q -> pipeline_of (pl_OrganizationID p) q = false) ->
  one_default ps -> one_default (<[pl_ID p := p]> ps).
Proof.
  intros Hno Hdef H1 k k' q q'. rewrite !lookup_insert_Some.
  assert (forall j x, ps !! j = Some x -> live (pl_DeletedAt x) = true -> pl_IsDefault p = true ->
            pl_OrganizationID p = pl_OrganizationID x -> False) as Hex.
  { intros j x Hj Hl Hd Ho. specialize (Hdef Hd _ _ Hj). unfold pipeline_of in Hdef.
    by rewrite Ho, N.eqb_refl, Hl in Hdef. }
  intros [[<- <-]|[Hne Hk]] [[<- <-]|[Hne' Hk']] Hl Hl' Hd Hd' Ho; [done| | |by eapply H1]; exfalso; eauto.
Qed.

Lemma insert_pipeline_keeps p w u w' :
  insert_pipeline p w = (Ok u, w') ->
  (pl_IsDefault p = true -> forall k q, db_pipelines (w_db w) !! k = Some q -> pipeline_of (pl_OrganizationID p) q = false) ->
  keeps board_ok (w_db w) (w_db w').
Proof.
  intros Hr Hdef Hb. apply stmt_ok_inv in Hr as (d & Hf & _ & ->). cbv zeta in Hf. dmatch_in Hf; [|done].
  simplify_eq. breflect. rewrite is_none_true in *. apply board_ok_pipelines; [| |done].
  - apply keyed_insert; [apply Hb|done].
  - apply one_default_insert; [done..|apply Hb].
Qed.

(** The first pipeline of an organization is its default one. *)
Lemma first_pipeline_keeps p stages w u w' :
  bind (insert_pipeline p) (fun _ => create_stages (pl_OrganizationID p) (pl_ID p) stages) w = (Ok u, w') ->
  (pl_IsDefault p = true -> rows_affected (pipeline_of (pl_OrganizationID p)) (db_pipelines (w_db w)) = 0%nat) ->
  keeps board_ok (w_db w) (w_db w').
Proof.
  intros Hr Hdef. apply bind_ok_inv in Hr as (? & w1 & Hi & Hr).
  etrans; [eapply insert_pipeline_keeps; [done|]|by eapply moves_create_stages].
  intros Hd. by apply rows_affected_zero, Hdef.
Qed.

Lemma moves_CreatePipeline org name cur actor : keeps_boards (CreatePipeline org name cur actor).
Proof.
  unfold CreatePipeline. destruct (is_empty name); [solve_moves|]. cbv zeta.
  apply moves_bind; [typeclasses eauto|solve_moves|intros id].
  apply moves_bind; [typeclasses eauto| |intros ?; apply (moves_GetPipeline (keeps board_ok))].
  apply moves_transaction_ok; [typeclasses eauto|]. intros w u w' Hr.
  apply bind_ok_inv in Hr as (n & w1 & (Hn & _ & ->)%query_ok_inv & Hr). injection Hn as <-.
  eapply (first_pipeline_keeps (MkPipeline _ _ _ _ _ _ _ _ _ _ _)) in Hr; [done|]. simpl. apply Nat.eqb_eq.
Qed.

Lemma moves_SeedOrganization org : keeps_boards (transaction (SeedOrganization org)).
Proof.
  apply moves_transaction_ok; [typeclasses eauto|]. intros w u w' Hr.
  apply bind_ok_inv in Hr as (n & w1 & (Hn & _ & ->)%query_ok_inv & Hr). injection Hn as <-.
  destruct (Nat.ltb_spec 0 (rows_affected (pipeline_of org) (db_pipelines (w_db w)))); [by inv_run|].
  apply bind_ok_inv in Hr as (id & wu & [-> ->]%uuid_New_ok_inv & Hr).
  eapply (first_pipeline_keeps (MkPipeline _ _ _ _ _ _ _ _ _ _ _)) in Hr; [done|]. simpl. lia.
Qed.

Lemma update_pipelines_ok p us w n w' :
  update_pipelines p us w = (Ok n, w') ->
  n = rows_affected p (db_pipelines (w_db w)) /\
  w_db w' = set_db_pipelines (update_where p us (db_pipelines (w_db w))) (w_db w).
Proof.
  intros Hr. apply stmt_ok_inv in Hr as (d & Hf & _ & ->). cbv zeta in Hf. dmatch_in Hf; [|done]. by simplify_eq.
Qed.

(** Clearing the flag everywhere and then setting it on one row leaves one. *)
Lemma one_default_switch ps org id us :
  keyed pl_ID ps -> one_default ps -> (forall q, same_pipeline q (apply_updates us q)) ->
  (forall q, ps !! id = Some q -> live (pl_DeletedAt q) = true -> pl_OrganizationID q = org) ->
  one_default (update_where (pipeline_by_id id) (us ++ [set_pl_IsDefault true])
                 (update_where (pipeline_of org) [set_pl_IsDefault false] ps)).
Proof.
  intros Hk H1 Hus Horg.
  set (ps1 := update_where (pipeline_of org) _ ps).
  assert (forall k q, ps1 !! k = Some q -> pl_ID q = k /\
            (pipeline_of org q = true -> pl_IsDefault q = false) /\
            (exists q0, ps !! k = Some q0 /\ same_pipeline q0 q)) as Hps1.
  { intros k q (q0 & Hq & ->)%update_where_some. pose proof (Hk _ _ Hq). destruct (pipeline_of org q0) eqn:E.
    - split_and!; [done|done|]. exists q0. by split_and!.
    - split_and!; [done|congruence|]. exists q0. by split_and!. }
  assert (forall k p, update_where (pipeline_by_id id) (us ++ [set_pl_IsDefault true]) ps1 !! k = Some p ->
     exists q0, ps !! k = Some q0 /\ pl_OrganizationID p = pl_OrganizationID q0 /\
       (live (pl_DeletedAt p) = true -> live (pl_DeletedAt q0) = true) /\
       (k = id \/ (live (pl_DeletedAt p) = true -> pl_IsDefault p = true ->
                   pl_IsDefault q0 = true /\ pl_OrganizationID p <> org))) as Hall.
  { intros k p (q & Hq & ->)%update_where_some. apply Hps1 in Hq as (Hid & Hdef & q0 & Hq0 & S1 & S2 & S3 & S4).
    exists q0. destruct (pipeline_by_id id q) eqn:E.
    - apply pipeline_by_id_true in E as [E _]. rewrite apply_updates_app.
      destruct (Hus q) as (_ & U2 & U3 & _). change (apply_updates [?f] ?x) with (f x). simpl.
      split_and!; [done|congruence|auto|left; congruence].
    - split_and!; [done|done|done|]. right. intros Hl Hd. split; [auto|]. intros Ho.
      rewrite Hdef in Hd; [done|]. by apply pipeline_of_true. }
  intros k k' p p' (q & Hq & Eo & Hl & Hc)%Hall (q' & Hq' & Eo' & Hl' & Hc')%Hall L L' D D' O.
  destruct Hc as [->|Hc], Hc' as [->|Hc']; [done|..].
  - destruct (Hc' L' D') as [_ []]. rewrite <- O, Eo. by apply Horg; auto.
  - destruct (Hc L D) as [_ []]. rewrite O, Eo'. by apply Horg; auto.
  - destruct (Hc L D) as [? _], (Hc' L' D') as [? _]. eapply H1; eauto. congruence.
Qed.

Lemma moves_UpdatePipeline org id inp : keeps_boards (UpdatePipeline org id inp).
Proof.
  unfold UpdatePipeline. destruct (blank _); [solve_moves|]. cbv zeta.
  apply moves_bind; [typeclasses eauto| |intros ?; apply (moves_GetPipeline (keeps board_ok))].
  apply moves_transaction_ok; [typeclasses eauto|]. intros w u w' Hr Hb.
  apply bind_ok_inv in Hr as (p & w1 & (Hf & _ & ->)%replace_error_ok%query_ok_inv & Hr).
  apply (first_row_key pl_ID id) in Hf as [Hp (_ & Ho & Hl)%pipeline_in_true]; [|apply Hb|apply pipeline_in_key].
  apply bind_ok_inv in Hr as (us & w2 & Hus & Hr). destruct (bool_decide _).
  - apply bind_ok_inv in Hus as (n & w3 & (_ & Hd3)%update_pipelines_ok & Hus). inv_run. simpl in Hd3.
    destruct (Nat.eqb_spec (length (pipeline_updates inp ++ [set_pl_IsDefault true])) 0) as [E|_].
    { by rewrite length_app, Nat.add_comm in E. }
    apply bind_ok_inv in Hr as (n' & w4 & (_ & Hd4)%update_pipelines_ok & Hr). inv_run.
    rewrite Hd4, Hd3. apply (board_ok_other (set_db_pipelines (update_where (pipeline_by_id id)
      (pipeline_updates inp ++ [set_pl_IsDefault true]) (update_where (pipeline_of (pl_OrganizationID p))
        [set_pl_IsDefault false] (db_pipelines (w_db w)))) (w_db w))); [done..|].
    apply board_ok_pipelines; [| |done].
    + apply keyed_update; [|apply keyed_update; [done|apply Hb]]. intros q.
      rewrite apply_updates_app. change (apply_updates [?f] ?x) with (f x). simpl. apply pipeline_updates_same.
    + apply one_default_switch; [apply Hb|apply Hb|apply pipeline_updates_same|]. intros q Hq _. congruence.
  - inv_run. destruct (Nat.eqb _ _); [by inv_run|].
    apply bind_ok_inv in Hr as (n & w3 & Hu & Hr). inv_run.
    eapply (moves_update_pipelines _ _ (pipeline_updates_same inp)); [exact Hu|done].
Qed.

Lemma moves_ArchivePipeline org id b : keeps_boards (ArchivePipeline org id b).
Proof.
  unfold ArchivePipeline. apply moves_bind; [typeclasses eauto|solve_moves|intros n]. cbv zeta.
  apply moves_bind; [typeclasses eauto|by apply moves_update_pipelines|intros k].
  destruct (Nat.eqb k 0); [solve_moves|apply (moves_GetPipeline (keeps board_ok))].
Qed.
(** *** Stages *)

Lemma update_stages_ok p us w n w' :
  update_stages p us w = (Ok n, w') ->
  n = rows_affected p (db_stages (w_db w)) /\
  w_db w' = set_db_stages (update_where p us (db_stages (w_db w))) (w_db w).
Proof. intros Hr. apply stmt_ok_inv in Hr as (d & Hf & _ & ->). by simplify_eq. Qed.

Lemma statusForStage_open s : statusForStage s = DealOpen <->
  st_StageType s <> StageWon /\ st_StageType s <> StageLost.
Proof.
  unfold statusForStage. destruct (String.eqb_spec (st_StageType s) StageWon),
    (String.eqb_spec (st_StageType s) StageLost); split; try done; tauto.
Qed.

Lemma deal_ok_delete stages r p n :
  (live (dl_DeletedAt r) = true -> dl_Status r = DealOpen -> forall s, stages !! dl_StageID r = Some s -> p s = false) ->
  deal_ok stages r -> deal_ok (update_where p [set_st_DeletedAt (Some n)] stages) r.
Proof.
  intros Hp Hr Hl. destruct (Hr Hl) as (s & Hs & Hpl & Hst & Ho).
  rewrite update_where_lookup, Hs. simpl. eexists. split; [done|].
  destruct (p s) eqn:E; [|done]. change (apply_updates [?f] ?x) with (f x). split_and!; [done|done|].
  intros Hop. by rewrite (Hp Hl Hop _ Hs) in E.
Qed.

Lemma moves_DeletePipeline org id : keeps_boards (DeletePipeline org id).
Proof.
  apply moves_transaction_ok; [typeclasses eauto|]. intros w u w' Hr Hb.
  apply bind_ok_inv in Hr as (p & w1 & (Hf & _ & ->)%replace_error_ok%query_ok_inv & Hr).
  apply bind_ok_inv in Hr as (n & w1 & (Hn & _ & ->)%query_ok_inv & Hr). injection Hn as <-. simpl in Hr.
  destruct (Nat.ltb_spec 0 (rows_affected (open_deal_in id) (db_deals (w_db w)))) as [|Hno]; [done|].
  assert (rows_affected (open_deal_in id) (db_deals (w_db w)) = 0%nat) as Hz by lia.
  pose proof (proj1 (rows_affected_zero _ _) Hz) as Hn. clear Hz.
  apply bind_ok_inv in Hr as (n & wn & [-> ->]%now_ok_inv & Hr).
  apply bind_ok_inv in Hr as (k & w2 & (_ & Hd2)%update_stages_ok & Hr).
  apply bind_ok_inv in Hr as (n & wn & [-> ->]%now_ok_inv & Hr).
  apply bind_ok_inv in Hr as (k' & w3 & Hp & Hr). inv_run.
  eapply moves_update_pipelines; [|exact Hp|].
  { intros q. change (apply_updates [?f] ?x) with (f x). by split_and!. }
  rewrite Hd2. simpl. apply board_ok_stages; [| |done].
  - apply keyed_update; [done|apply Hb].
  - intros j r Hj. apply deal_ok_delete; [|by eapply bk_deal].
    intros Hl Ho s Hs. destruct (bk_deal _ Hb _ _ Hj Hl) as (s' & Hs' & Hpl & _). simplify_eq.
    specialize (Hn _ _ Hj). unfold open_deal_in in Hn. rewrite Hl, Ho in Hn. simpl in Hn.
    rewrite andb_true_r, andb_true_r in Hn. unfold stage_of. by rewrite Hpl, Hn.
Qed.

Lemma moves_CreateStage org id inp : keeps_boards (CreateStage org id inp).
Proof.
  unfold CreateStage. destruct (_ || _)%bool; [solve_moves|].
  apply moves_bind; [typeclasses eauto|apply (moves_GetPipeline (keeps board_ok))|intros ps].
  unfold lift. solve_moves.
Qed.

Lemma moves_reorder org id i order : keeps_boards (reorder org id i order).
Proof.
  revert i. induction order as [|x order IH]; intros i; simpl; [solve_moves|].
  apply moves_bind; [typeclasses eauto|by apply moves_update_stages|intros n].
  destruct (Nat.eqb n 0); [solve_moves|apply IH].
Qed.

Lemma moves_ReorderStages org id order : keeps_boards (ReorderStages org id order).
Proof. apply moves_transaction; [typeclasses eauto|apply moves_reorder]. Qed.

(** What [applyStageInput] leaves alone. *)
Definition same_place (s s' : PipelineStage) : Prop :=
  st_ID s' = st_ID s /\ st_PipelineID s' = st_PipelineID s /\ st_OrganizationID s' = st_OrganizationID s /\
  st_DeletedAt s' = st_DeletedAt s.

#[local] Instance same_place_preorder : PreOrder same_place.
Proof.
  split; [by intros r; split_and!|]. intros a b c (? & ? & ? & ?) (? & ? & ? & ?). split_and!; congruence.
Qed.

Lemma applyStageInput_place inp s s' : applyStageInput s inp = Ok s' -> same_place s s'.
Proof.
  unfold applyStageInput. repeat (destruct (match _ with Some _ => _ | None => _ end); [done|]).
  intros [= <-]. apply apply_updates_rel; [apply _|]. rewrite !Forall_app.
  split_and!; first [apply Forall_given|apply Forall_given_text]; by intros ? x.
Qed.

(** The status of the cards of [s] follows its type. *)
Definition sync_updates (status : string) : list (Deal -> Deal) :=
  set_dl_Status status :: (if String.eqb status DealOpen then [set_dl_ClosedAt None] else []).
Definition out_of_sync (s : PipelineStage) (r : Deal) : bool :=
  deal_at (st_ID s) r && negb (String.eqb (dl_Status r) (statusForStage s)).

Lemma UpdateStage_ok org id inp w s w' :
  keyed st_ID (db_stages (w_db w)) -> UpdateStage org id inp w = (Ok s, w') ->
  exists s0, db_stages (w_db w) !! id = Some s0 /\ stage_in_org id org s0 = true /\ same_place s0 s /\
    w_db w' = set_db_deals (update_where (out_of_sync s) (sync_updates (statusForStage s)) (db_deals (w_db w)))
                (set_db_stages (<[st_ID s := s]> (db_stages (w_db w))) (w_db w)).
Proof.
  intros Hk Hr. unfold UpdateStage in Hr. apply bind_ok_inv in Hr as (s0 & w1 & Hs & Hr).
  apply (select_stage_ok _ id) in Hs as (Hs & Hin & Hd1 & _); [|done|apply stage_in_org_key].
  destruct (blank _); [done|]. cbv zeta in Hr.
  apply bind_ok_inv in Hr as (s' & w2 & Hl & Hr). unfold lift in Hl.
  destruct (applyStageInput _ _) as [s1|] eqn:E; [|done]. apply ret_ok_inv in Hl as [-> ->].
  apply applyStageInput_place in E.
  assert (same_place s0 s1) as Hpl.
  { etrans; [|exact E]. apply apply_updates_rel; [apply _|]. apply Forall_given. by intros ? x. }
  apply bind_ok_inv in Hr as (? & w2 & (d & Hf & _ & ->)%stmt_ok_inv & Hr). injection Hf as _ <-.
  apply bind_ok_inv in Hr as (? & w3 & Hu & Hr). inv_run. unfold syncStatusToStage in Hu. cbv zeta in Hu.
  apply bind_ok_inv in Hu as (n & w4 & (Hd4 & _ & _)%update_deals_ok & Hu). inv_run.
  exists s0. split_and!; [done..|by destruct Hpl as (?&?&?&?)|]. rewrite Hd4. simpl. by rewrite Hd1.
Qed.

(** A stage edited, its cards with it, is no longer half edited. *)
Lemma UpdateStage_keeps org id inp w s w' (half : gset uuid) :
  UpdateStage org id inp w = (Ok s, w') -> @board_ok half (w_db w) ->
  @board_ok (half ∖ {[id]}) (w_db w').
Proof.
  intros Hr Hb. apply UpdateStage_ok in Hr as (s0 & Hs0 & (Hid & _ & Hl0)%stage_in_org_true & Hpl & ->); [|apply Hb].
  destruct Hpl as (E1 & E2 & _ & E4). subst id. rewrite E1.
  split; simpl; try apply Hb.
  - apply keyed_update; [|apply Hb]. intros r. unfold sync_updates. by case_match.
  - apply keyed_insert; [apply Hb|done].
  - intros k r (r0 & Hk & ->)%update_where_some. pose proof (bk_deal _ Hb _ _ Hk) as Hr0.
    assert (forall r1, dl_DeletedAt r1 = dl_DeletedAt r0 -> dl_StageID r1 = dl_StageID r0 ->
      dl_PipelineID r1 = dl_PipelineID r0 ->
      dl_Status r1 = (if out_of_sync s r0 then statusForStage s else dl_Status r0) ->
      @deal_ok (half ∖ {[st_ID s0]}) (<[st_ID s0 := s]> (db_stages (w_db w))) r1) as Hok.
    { intros r1 D1 D2 D3 D4 Hl. rewrite D1 in Hl. destruct (Hr0 Hl) as (s' & Hs' & Hp & Hst & Ho).
      rewrite D2, D3, D4. unfold out_of_sync, deal_at. rewrite E1, Hl, andb_true_r.
      destruct (N.eqb_spec (dl_StageID r0) (st_ID s0)) as [Eq|Ne]; simpl.
      - rewrite Eq, lookup_insert_eq. rewrite Eq, Hs0 in Hs'. simplify_eq. exists s. rewrite E2, E4.
        destruct (String.eqb_spec (dl_Status r0) (statusForStage s)); by split_and!.
      - rewrite lookup_insert_ne by done. exists s'. split_and!; [done..| |done].
        intros Hs'l Hnot. apply Hst; [done|]. unfold half_edited in *. set_solver. }
    destruct (out_of_sync s r0) eqn:E; [|by apply Hok]. unfold sync_updates. case_match; by apply Hok.
Qed.

(** A stage edited without its cards. *)
Lemma UpdateStage_half org id inp w e w' (half : gset uuid) :
  UpdateStage org id inp w = (Err e, w') -> @board_ok half (w_db w) ->
  w_db w' = w_db w \/ @board_ok ({[id]} ∪ half) (w_db w').
Proof.
  intros Hr Hb. unfold UpdateStage, bind at 1 in Hr.
  match type of Hr with context [replace_error ?q ?x] => set (find := replace_error q x) in Hr end.
  assert (moves eq find) as Hfind by (subst find; apply moves_replace_error; [apply _|solve_moves]).
  destruct (find w) as [[s0|e0] w1] eqn:Hs; pose proof (Hfind _ _ _ Hs) as Hd1; [|left; by injection Hr as _ <-].
  apply (select_stage_ok _ id) in Hs as (Hs & Hin & _); [|apply Hb|apply stage_in_org_key].
  destruct (blank _); [left; by injection Hr as _ <-|]. unfold bind at 1, lift in Hr.
  destruct (applyStageInput _ _) as [s1|] eqn:E; [|left; by injection Hr as _ <-]. simpl in Hr.
  apply applyStageInput_place in E.
  assert (same_place s0 s1) as (E1 & E2 & _ & E4).
  { etrans; [|exact E]. apply apply_updates_rel; [apply _|]. apply Forall_given. by intros ? x. }
  unfold bind at 1 in Hr. destruct (save_stage s1 w1) as [[[]|e1] w2] eqn:Hsave.
  2: { left. apply stmt_db_err in Hsave as (Hd2 & _). injection Hr as _ <-. congruence. }
  apply stmt_ok_inv in Hsave as (d & [= <-] & _ & ->).
  right. unfold bind in Hr. destruct (syncStatusToStage s1 _) as [[[]|e1] w3] eqn:Hsync; [done|].
  injection Hr as _ <-. unfold syncStatusToStage, bind in Hsync.
  destruct (update_deals _ _ _) as [[n|e2] w4] eqn:Hup; [done|].
  apply stmt_db_err in Hup as (Hd4 & _). injection Hsync as _ <-. rewrite Hd4. simpl. rewrite <- Hd1.
  apply stage_in_org_true in Hin as (Hid & _ & _). subst id. rewrite E1.
  split; simpl; try apply Hb; [apply keyed_insert; [apply Hb|done]|].
  intros k r Hk Hl. destruct (bk_deal _ Hb _ _ Hk Hl) as (s & Hss & Hp & Hst & Ho).
  destruct (N.eqb_spec (dl_StageID r) (st_ID s0)) as [Eq|Ne].
  - rewrite Eq, lookup_insert_eq. rewrite Eq, Hs in Hss. simplify_eq. exists s1. rewrite E2, E4.
    split_and!; [done|done| |done]. intros _ Hnot. unfold half_edited in Hnot. set_solver.
  - rewrite lookup_insert_ne by done. exists s. split_and!; [done..| |done].
    intros Hsl Hnot. apply Hst; [done|]. unfold half_edited in *. set_solver.
Qed.

(** Deleting a stage: where its cards went, and what is left. *)
Lemma DeleteStage_ok org id moveTo w u w' :
  board_ok (w_db w) -> DeleteStage org id moveTo w = (Ok u, w') ->
  exists s0 deals', db_stages (w_db w) !! id = Some s0 /\ stage_in_org id org s0 = true /\
    ((deals' = db_deals (w_db w) /\ forall k r, deals' !! k = Some r -> deal_at id r = false) \/
     (exists target, moveTo = Some (st_ID target) /\ st_ID target <> id /\
        db_stages (w_db w) !! st_ID target = Some target /\ stage_in (st_ID target) (st_PipelineID s0) target = true /\
        deals' = update_where (deal_at id)
          [set_dl_StageID (st_ID target); set_dl_Status (statusForStage target); set_dl_StageEnteredAt (w_now w)]
          (db_deals (w_db w)))) /\
    (is_open_stage s0 = true -> exists k s, k <> id /\ db_stages (w_db w) !! k = Some s /\
       open_stage_of (st_PipelineID s0) s = true) /\
    exists n, w_db w' = set_db_stages (update_where (stage_by_id id) [set_st_DeletedAt (Some n)] (db_stages (w_db w)))
      (set_db_deals deals' (w_db w)).
Proof.
  intros Hb Hr. apply transaction_ok_inv in Hr as (w0 & Hr & _ & ->).
  apply bind_ok_inv in Hr as (s0 & w1 & Hs & Hr).
  apply (select_stage_ok _ id) in Hs as (Hs & Hin & Hd1 & Hn1); [|apply Hb|apply stage_in_org_key].
  pose proof Hin as (Hid & _ & Hl)%stage_in_org_true. simpl in Hs, Hd1, Hn1.
  apply bind_ok_inv in Hr as (n & w2 & (Hn & _ & ->)%query_ok_inv & Hr). injection Hn as <-. rewrite Hd1 in Hr.
  apply bind_ok_inv in Hr as (? & w3 & Hmv & Hr).
  assert (exists deals', w_db w3 = set_db_deals deals' (w_db w) /\
    ((deals' = db_deals (w_db w) /\ forall k r, deals' !! k = Some r -> deal_at id r = false) \/
     (exists target, moveTo = Some (st_ID target) /\ st_ID target <> id /\
        db_stages (w_db w) !! st_ID target = Some target /\ stage_in (st_ID target) (st_PipelineID s0) target = true /\
        deals' = update_where (deal_at id)
          [set_dl_StageID (st_ID target); set_dl_Status (statusForStage target); set_dl_StageEnteredAt (w_now w)]
          (db_deals (w_db w))))) as (deals' & Hd3 & Hdeals).
  { destruct (Nat.ltb_spec 0 (rows_affected (deal_at id) (db_deals (w_db w)))) as [_|Hno].
    - unfold move_cards in Hmv. destruct moveTo as [to|]; [|done].
      apply bind_ok_inv in Hmv as (target & w4 & Ht & Hmv).
      apply (select_stage_ok _ to) in Ht as (Ht & Htin & Hd4 & Hn4); [|apply Hb|apply stage_in_key].
      simpl in Ht, Hd4, Hn4. pose proof Htin as (Hto & _)%stage_in_true. subst to.
      destruct (N.eqb_spec (st_ID target) (st_ID s0)) as [|Hne]; [done|].
      apply bind_ok_inv in Hmv as (n & wn & [-> ->]%now_ok_inv & Hmv).
      apply bind_ok_inv in Hmv as (k & w5 & (Hd5 & _ & _)%update_deals_ok & Hmv). inv_run.
      eexists. split; [rewrite Hd5, Hd4; done|]. right. exists target. rewrite Hn4, Hn1. by split_and!.
    - inv_run. exists (db_deals (w_db w)). simpl. split; [by destruct (w_db w)|]. left. split; [done|].
      apply rows_affected_zero. lia. }
  exists s0, deals'. split; [done|]. split; [done|]. split; [done|].
  apply bind_ok_inv in Hr as (n & w4 & (Hn & _ & ->)%query_ok_inv & Hr). injection Hn as <-.
  rewrite Hd3 in Hr. simpl in Hr. destruct (_ && _)%bool eqn:Hop in Hr; [done|].
  apply bind_ok_inv in Hr as (n & wn & [-> ->]%now_ok_inv & Hr).
  apply bind_ok_inv in Hr as (k & w5 & (_ & Hd5)%update_stages_ok & Hr). inv_run. split.
  - intros Ho. rewrite Ho, andb_true_r in Hop. apply Nat.eqb_neq in Hop.
    apply rows_affected_pos in Hop as (k' & s & Hk' & [Hs' Hne]%andb_true_iff).
    exists k', s. rewrite <- (bk_stages _ Hb _ _ Hk') at 1. apply negb_true_iff, N.eqb_neq in Hne. by split_and!.
  - simpl. rewrite Hd5. simpl. eauto.
Qed.
(** *** The invariant, call by call *)

(** The cards of a deleted stage that went to [target]. *)
Lemma moved_cards_ok d id s0 target n :
  board_ok d -> db_stages d !! id = Some s0 -> db_stages d !! st_ID target = Some target ->
  stage_in (st_ID target) (st_PipelineID s0) target = true ->
  board_ok (set_db_deals (update_where (deal_at id)
    [set_dl_StageID (st_ID target); set_dl_Status (statusForStage target); set_dl_StageEnteredAt n] (db_deals d)) d).
Proof.
  intros Hb Hs0 Ht (_ & Hpl & Hlt)%stage_in_true. apply board_ok_update_deals; [|done].
  intros k r Hk [Hst Hl]%deal_at_true. split; [done|]. intros _.
  destruct (bk_deal _ Hb _ _ Hk Hl) as (s & Hs & Hp & _). rewrite Hst, Hs0 in Hs. simplify_eq.
  exists target. split_and!; [done|by rewrite Hpl|done..].
Qed.

Lemma DeleteStage_keeps org id moveTo w u w' :
  DeleteStage org id moveTo w = (Ok u, w') -> keeps board_ok (w_db w) (w_db w').
Proof.
  intros Hr Hb. apply DeleteStage_ok in Hr as (s0 & deals' & Hs0 & Hin & Hdeals & _ & n & ->); [|done].
  set (d1 := set_db_deals deals' (w_db w)).
  assert (board_ok d1 /\ forall k r, deals' !! k = Some r -> deal_at id r = false) as [Hb1 Hno].
  { destruct Hdeals as [[-> Hno]|(target & _ & Hne & Ht & Htin & ->)].
    - split; [by apply (board_ok_other (w_db w))|done].
    - split; [by eapply moved_cards_ok|]. intros k r (r0 & Hk & ->)%update_where_some.
      destruct (deal_at id r0) eqn:E; [|done]. unfold deal_at. simpl. by apply N.eqb_neq in Hne as ->. }
  assert (w_db w = set_db_deals (db_deals (w_db w)) (w_db w)) as Ew by by destruct (w_db w).
  apply (board_ok_stages d1); [|intros k r Hk|done].
  - apply keyed_update; [done|apply Hb].
  - apply deal_ok_delete; [|by apply (bk_deal _ Hb1 k)]. intros Hl _ s Hs.
    specialize (Hno _ _ Hk). unfold deal_at in Hno. rewrite Hl, andb_true_r in Hno.
    unfold stage_by_id. by rewrite (bk_stages _ Hb _ _ Hs), Hno.
Qed.

Lemma Move_keeps org id inp actor w r w' :
  Move org id inp actor w = (Ok r, w') -> keeps board_ok (w_db w) (w_db w').
Proof.
  destruct r as [deal st]. intros Hr Hb. apply Move_ok in Hr as (old & stage & pos & Hready & Hm); [|done].
  destruct Hready as (Hold & Hin & Hst & Hsin & _). pose proof Hin as (Hid & _ & Hl)%deal_in_true. subst id.
  apply stage_in_true in Hsin as (Hsid & Hpl & Hsl).
  assert (forall r, dl_ID r = dl_ID old -> deal_ok (db_stages (w_db w)) r ->
    board_ok (set_db_deals (<[dl_ID old := r]> (db_deals (w_db w))) (w_db w))) as Hset.
  { intros r Hid Hr. apply board_ok_deals; [by apply keyed_insert; [apply Hb|]| |done].
    intros k x. rewrite lookup_insert_Some. intros [[_ <-]|[_ Hk]]; [done|by eapply bk_deal]. }
  inversion Hm as [Heq E1 E2 E3|h o Hne new Hh Hhn He Hon E1 E2 E3]; subst.
  - apply Hset; [done|]. eapply deal_ok_same; [|by eapply bk_deal]. by split.
  - eapply board_ok_other; [..|apply (Hset new); [by apply move_updates_id|]]; [done..|].
    intros _. exists stage. unfold new.
    rewrite move_updates_stage, move_updates_pipeline, move_updates_status, Hsid. by split_and!.
Qed.

Lemma Create_keeps inp w r w' : Create inp w = (Ok r, w') -> keeps board_ok (w_db w) (w_db w').
Proof.
  destruct r as [deal st]. intros Hr Hb. apply Create_ok in Hr as (stage & _ & He); [|done].
  destruct He as (contact & p & last & h & o & _ & _ & _ & _ & _ & (Hs & Hpl & Hl & _) & _ & Hdeal & _ & Hno & _ & _ & _ & _ & _ & _ & _ & _ & ->).
  eapply (board_ok_other (set_db_deals _ (w_db w))); [done..|]. apply board_ok_deals; [| |done].
  - apply keyed_insert; [apply Hb|done].
  - intros k r. rewrite lookup_insert_Some. intros [[_ <-]|[_ Hk]]; [|by eapply bk_deal].
    intros _. rewrite Hdeal. exists stage. simpl. by split_and!.
Qed.

Lemma rolls_back_Create inp : rolls_back (Create inp).
Proof.
  unfold Create. destruct (is_empty _); [by intros w e w' [= _ <-]|].
  apply rolls_back_bind; [apply moves_replace_error; [apply _|solve_moves]|intros contact].
  apply rolls_back_bind; [unfold resolvePipeline; destruct (ci_PipelineID inp);
    [apply (moves_GetPipeline eq)|apply (moves_DefaultPipeline eq)]|intros ps]. cbv zeta.
  apply rolls_back_bind; [unfold resolveStage; destruct (ci_StageID inp);
    [apply moves_replace_error; [apply _|solve_moves]|destruct (List.find _ _); solve_moves]|intros stage].
  apply rolls_back_bind; [solve_moves|intros n]. apply rolls_back_bind; [solve_moves|intros id].
  apply (rolls_back_last _ (fun deal => (deal, Some stage))), rolls_back_transaction.
Qed.

Lemma moves_of_ok {A} (m : MT A) :
  rolls_back m -> (forall w a w', m w = (Ok a, w') -> keeps board_ok (w_db w) (w_db w')) -> keeps_boards m.
Proof. intros He Ho w [a|e] w' E; [by eapply Ho|]. apply He in E as ->. reflexivity. Qed.

Lemma moves_Create inp : keeps_boards (Create inp).
Proof. apply moves_of_ok; [apply rolls_back_Create|apply Create_keeps]. Qed.

Lemma moves_Move org id inp actor : keeps_boards (Move org id inp actor).
Proof. apply moves_of_ok; [apply rolls_back_transaction|apply Move_keeps]. Qed.

Lemma moves_DeleteStage org id moveTo : keeps_boards (DeleteStage org id moveTo).
Proof. apply moves_of_ok; [apply rolls_back_transaction|apply DeleteStage_keeps]. Qed.

End Ops.

Section History.
Context `{SL : SqlLaws} `{UT : UuidText} `{PG : Pg}.

(** The tables, and the stages whose last change of heart went half way. *)
Definition Boards : Type := Tables * gset uuid.

(** A call of the deal service, successful or not, and what it made of the
    tables: an [UpdateStage] that saved the stage and then failed leaves it
    half edited, until one of the stage succeeds. *)
Inductive board_step : Boards -> Boards -> Prop :=
| bs_create_pipeline org name cur actor w r w' half :
    CreatePipeline org name cur actor w = (r, w') -> board_step (w_db w, half) (w_db w', half)
| bs_seed org w r w' half :
    transaction (SeedOrganization org) w = (r, w') -> board_step (w_db w, half) (w_db w', half)
| bs_update_pipeline org id inp w r w' half :
    UpdatePipeline org id inp w = (r, w') -> board_step (w_db w, half) (w_db w', half)
| bs_delete_pipeline org id w r w' half :
    DeletePipeline org id w = (r, w') -> board_step (w_db w, half) (w_db w', half)
| bs_archive_pipeline org id b w r w' half :
    ArchivePipeline org id b w = (r, w') -> board_step (w_db w, half) (w_db w', half)
| bs_create_stage org id inp w r w' half :
    CreateStage org id inp w = (r, w') -> board_step (w_db w, half) (w_db w', half)
| bs_update_stage org id inp w s w' half :
    UpdateStage org id inp w = (Ok s, w') -> board_step (w_db w, half) (w_db w', half ∖ {[id]})
| bs_update_refused org id inp w e w' half :
    UpdateStage org id inp w = (Err e, w') -> w_db w' = w_db w -> board_step (w_db w, half) (w_db w', half)
| bs_update_half org id inp w e w' half :
    UpdateStage org id inp w = (Err e, w') -> w_db w' <> w_db w ->
    board_step (w_db w, half) (w_db w', {[id]} ∪ half)
| bs_reorder_stages org id order w r w' half :
    ReorderStages org id order w = (r, w') -> board_step (w_db w, half) (w_db w', half)
| bs_delete_stage org id moveTo w r w' half :
    DeleteStage org id moveTo w = (r, w') -> board_step (w_db w, half) (w_db w', half)
| bs_create inp w r w' half : Create inp w = (r, w') -> board_step (w_db w, half) (w_db w', half)
| bs_move org id inp actor w r w' half :
    Move org id inp actor w = (r, w') -> board_step (w_db w, half) (w_db w', half)
| bs_update org id inp actor w r w' half :
    Update org id inp actor w = (r, w') -> board_step (w_db w, half) (w_db w', half)
| bs_delete org id actor w r w' half :
    Delete org id actor w = (r, w') -> board_step (w_db w, half) (w_db w', half).

Lemma board_step_ok s s' : board_step s s' -> @board_ok s.2 s.1 -> @board_ok s'.2 s'.1.
Proof.
  intros []; simpl.
  - by eapply moves_CreatePipeline.
  - by eapply moves_SeedOrganization.
  - by eapply moves_UpdatePipeline.
  - by eapply moves_DeletePipeline.
  - by eapply moves_ArchivePipeline.
  - by eapply moves_CreateStage.
  - by eapply UpdateStage_keeps.
  - congruence.
  - intros Hb. by edestruct UpdateStage_half.
  - by eapply moves_ReorderStages.
  - by eapply moves_DeleteStage.
  - by eapply moves_Create.
  - by eapply moves_Move.
  - by eapply moves_Update.
  - by eapply moves_Delete.
Qed.
End History.
