(* ===== verification/DealsProps.v ===== *)
(** * Properties of deals and pipelines

    The theorems on [Deals], and the runs on sample tables that instantiate
    them. *)
From S2P Require Import Prelude GoLib Store Events Models Statements Samples Rank Text Deals DealsLemmas.

#[local] Arguments DefaultStages : simpl never.
#[local] Arguments rankBetween : simpl never.
#[local] Arguments deal_data : simpl never.
#[local] Arguments IsKnown : simpl never.
#[local] Arguments is_open_stage : simpl never.
#[local] Arguments statusForStage : simpl never.
#[local] Arguments fits : simpl never.
#[local] Arguments N.eqb : simpl never.

Section Props.
Context `{SL : SqlLaws} `{UT : UuidText} `{PG : Pg} `{HE : HalfEdited}.
Implicit Types (d : Tables) (w : world Tables).

(** ** Runs on a healthy database *)

(** UUIDs from [u] on are new to every table a deal operation fills. *)
Definition fresh_from (u : N) d : Prop :=
  u <> uuid_Nil /\
  forall n, (u <= n)%N -> db_deals d !! n = None /\ db_stage_history d !! n = None /\ db_outbox d !! n = None.

Lemma replace_error_run {A} (m : MT A) e w a w' : m w = (Ok a, w') -> replace_error m e w = (Ok a, w').
Proof. intros E. unfold replace_error, bind, try. by rewrite E. Qed.

Lemma first_row_cases {R} (p : R -> bool) lt (t : gmap N R) :
  (exists r, first_row p lt t = Ok r) \/ first_row p lt t = Err ErrRecordNotFound.
Proof. unfold first_row. destruct (sql_first _ _ _) as [k|]; [destruct (t !! k)|]; eauto. Qed.

Lemma position_or_empty_run p lt d n u tx l :
  exists r, position_or_empty (query (fun d => first_row p lt (db_deals d))) (healthy d n u tx l) = (Ok r, healthy d n u tx l).
Proof.
  unfold position_or_empty, bind, try. destruct (first_row_cases p lt (db_deals d)) as [[r E]|E].
  - rewrite (query_healthy _ _ _ _ _ _ r) by done. by eexists.
  - rewrite (query_healthy_err _ _ _ _ _ _ ErrRecordNotFound) by done. by eexists.
Qed.

Lemma rankOf_run id self d n u tx l :
  exists r, rankOf id self (healthy d n u tx l) = (Ok r, healthy d n u tx l).
Proof.
  unfold rankOf. destruct id as [i|]; [|by eexists]. destruct (N.eqb i self); [by eexists|].
  apply position_or_empty_run.
Qed.

Lemma rankFor_run stageID id inp d n u tx l :
  exists r, rankFor stageID id inp (healthy d n u tx l) = (Ok r, healthy d n u tx l).
Proof.
  unfold rankFor. destruct (rankOf_run (mi_AfterID inp) id d n u tx l) as [a Ea].
  destruct (rankOf_run (mi_BeforeID inp) id d n u tx l) as [b Eb].
  rewrite (bind_run _ _ _ _ _ Ea), (bind_run _ _ _ _ _ Eb). destruct (_ && _)%bool; [|by eexists].
  destruct (position_or_empty_run (deal_at stageID) by_rank_desc d n u tx l) as [r Er].
  unfold lastRank. rewrite (bind_run _ _ _ _ _ Er). by eexists.
Qed.

Lemma update_deals_run id us r d n u tx l :
  keyed dl_ID (db_deals d) -> db_deals d !! id = Some r -> live (dl_DeletedAt r) = true ->
  fits (apply_updates us r) = true ->
  exists k l', update_deals (deal_by_id id) us (healthy d n u tx l) =
    (Ok k, healthy (set_db_deals (<[id := apply_updates us r]> (db_deals d)) d) n u tx l').
Proof.
  intros Hk Hr Hl Hf. assert (deal_by_id id r = true) as Hid by (apply deal_by_id_true; eauto).
  eexists _, _. apply stmt_healthy. cbv zeta. rewrite (proj2 (forallb_forall _ _)).
  - by rewrite (update_where_key dl_ID id _ _ _ r) by first [done|apply deal_by_id_key].
  - intros [k x] Hin. apply list_elem_of_In, elem_of_map_to_list in Hin. simpl.
    destruct (deal_by_id id x) eqn:E; [|done]. apply deal_by_id_true in E as [E _]. simpl.
    rewrite (Hk _ _ Hin) in E. by simplify_eq.
Qed.

Lemma insert_history_run h d n u tx l :
  db_stage_history d !! hs_ID h = None ->
  exists l', insert_history h (healthy d n u tx l) =
    (Ok tt, healthy (set_db_stage_history (<[hs_ID h := h]> (db_stage_history d)) d) n u tx l').
Proof. intros Hno. eexists. apply stmt_healthy. by rewrite Hno. Qed.

Lemma publish_run deal ty actor d n u tx l :
  dl_OrganizationID deal <> uuid_Nil -> IsKnown ty = true -> u <> uuid_Nil -> db_outbox d !! u = None ->
  exists d' l', publish deal ty actor (healthy d n u tx l) = (Ok tt, healthy d' n (u + 1)%N tx l').
Proof.
  intros Horg Hty Hu Hno. unfold publish. rewrite Hty. simpl. unfold bind. simpl.
  unfold PublishTx. simpl. apply N.eqb_neq in Horg as ->. rewrite Hty. simpl.
  apply N.eqb_neq in Hu as Hu'. rewrite Hu'. unfold bind. simpl.
  eexists _, _. apply (stmt_healthy _ _ d n (u + 1)%N). cbv beta. by rewrite Hno.
Qed.

(** A row that fits its columns, moved. *)
Lemma fits_true r : fits r = true <->
  varchar 64 (dl_BoardPosition r) = true /\ varchar 255 (dl_LostReason r) = true /\ varchar 255 (dl_Title r) = true /\
  varchar 3 (dl_Currency r) = true /\ varchar 10 (dl_Status r) = true.
Proof. unfold fits. rewrite !andb_true_iff. tauto. Qed.

Lemma fits_position r pos : fits r = true -> varchar 64 pos = true -> fits (set_dl_BoardPosition pos r) = true.
Proof. rewrite !fits_true. simpl. tauto. Qed.

Lemma fits_moved r stage n pos reason :
  fits r = true -> varchar 255 reason = true -> varchar 64 pos = true ->
  fits (apply_updates (move_updates stage n pos reason) r) = true.
Proof.
  rewrite !fits_true. intros (_ & Hl & Ht & Hc & _) Hreason Hpos.
  rewrite move_updates_position, move_updates_status.
  assert (varchar 10 (statusForStage stage) = true) as -> by (unfold statusForStage; by repeat case_match).
  unfold move_updates, close_updates, apply_updates. repeat case_match; simpl; split_and!; done.
Qed.

Lemma reorder_card_run id old pos d n u l :
  keyed dl_ID (db_deals d) -> db_deals d !! id = Some old -> live (dl_DeletedAt old) = true ->
  fits old = true -> varchar 64 pos = true ->
  exists r d' l', reorder_card id old pos (healthy d n u true l) = (Ok r, healthy d' n u true l').
Proof.
  intros Hk Hold Hl Hf Hlen. unfold reorder_card. destruct (String.eqb _ _); [by repeat eexists|].
  edestruct (update_deals_run id [set_dl_BoardPosition pos] old d n u true l) as (k & l2 & Hup);
    [done..|by apply fits_position|]. rewrite (bind_run _ _ _ _ _ Hup). by repeat eexists.
Qed.

Lemma change_stage_run org id inp actor old stage pos d n u l :
  keyed dl_ID (db_deals d) -> org <> uuid_Nil -> fresh_from u d ->
  db_deals d !! id = Some old -> deal_in id org old = true ->
  fits old = true -> varchar 255 (mi_LostReason inp) = true -> varchar 64 pos = true ->
  exists r d' u' l', change_stage org id inp actor old stage pos (healthy d n u true l) = (Ok r, healthy d' n u' true l').
Proof.
  intros Hk Horg [Hu Hfresh] Hold (Hid & Ho & Hl)%deal_in_true Hf Hreason Hlen. unfold change_stage.
  rewrite (bind_run _ _ _ _ _ (now_healthy _ _ _ _ _)). cbv zeta.
  set (us := move_updates stage n pos (mi_LostReason inp)).
  destruct (update_deals_run id us old d n u true l) as (k & l2 & Hup);
    [done..|by apply fits_moved|].
  rewrite (bind_run _ _ _ _ _ Hup). clear Hup. set (new := apply_updates us old). set (d2 := set_db_deals _ d).
  rewrite (bind_run _ _ _ _ _ (uuid_healthy _ _ _ _ _)).
  set (h := MkHistory _ _ _ _ _ _ _).
  destruct (insert_history_run h d2 n (u + 1)%N true l2) as (l3 & Hh); [by apply Hfresh|].
  rewrite (bind_run _ _ _ _ _ Hh). clear Hh. set (d3 := set_db_stage_history _ d2).
  assert (query (fun d => first_row (deal_by_id id) unordered (db_deals d)) (healthy d3 n (u + 1)%N true l3) =
          (Ok new, healthy d3 n (u + 1)%N true l3)) as Hre.
  { apply query_healthy. apply (first_row_unique dl_ID id).
    - apply keyed_insert; [done|]. unfold new, us. by rewrite move_updates_id.
    - apply deal_by_id_key.
    - simpl. by rewrite lookup_insert_eq.
    - apply deal_by_id_true. unfold new, us. by rewrite move_updates_id, move_updates_live. }
  rewrite (bind_run _ _ _ _ _ Hre).
  destruct (publish_run new (move_event (statusForStage stage)) actor d3 n (u + 1)%N true l3) as (d4 & l4 & Hp).
  - unfold new, us. by rewrite move_updates_org, Ho.
  - apply move_event_known.
  - unfold uuid_Nil in *. lia.
  - apply Hfresh. lia.
  - rewrite (bind_run _ _ _ _ _ Hp). by repeat eexists.
Qed.

(** A healthy database lets [Move] through. *)
Lemma Move_runs org id inp actor d n u l old stage :
  board_ok d -> org <> uuid_Nil -> fresh_from u d ->
  db_deals d !! id = Some old -> deal_in id org old = true ->
  db_stages d !! mi_StageID inp = Some stage -> stage_in (mi_StageID inp) (dl_PipelineID old) stage = true ->
  fits old = true -> varchar 255 (mi_LostReason inp) = true ->
  (forall pos, drop_rank d (mi_StageID inp) id inp pos -> varchar 64 pos = true) ->
  exists r w', Move org id inp actor (healthy d n u false l) = (Ok r, w').
Proof.
  intros Hb Horg Hu Hold Hin Hst Hsin Hf Hreason Hfit.
  pose proof Hin as (_ & _ & Hl)%deal_in_true. pose proof Hsin as (Hsid & _)%stage_in_true.
  set (l1 := l ++ [LDeal id]).
  assert (lock_deal org id (healthy d n u true l) = (Ok old, healthy d n u true l1)) as Hlock.
  { apply stmt_healthy. f_equal. apply (first_row_unique dl_ID id); [apply Hb|apply deal_in_key|done..]. }
  assert (query (fun d => first_row (stage_in (mi_StageID inp) (dl_PipelineID old)) unordered (db_stages d))
            (healthy d n u true l1) = (Ok stage, healthy d n u true l1)) as Hq.
  { apply query_healthy. apply (first_row_unique st_ID (mi_StageID inp)); [apply Hb|apply stage_in_key|done..]. }
  destruct (rankFor_run (st_ID stage) id inp d n u true l1) as [pos Hpos].
  assert (varchar 64 pos = true) as Hlen.
  { apply Hfit. rewrite Hsid in Hpos. apply rankFor_ok in Hpos; [|apply Hb]. tauto. }
  assert (exists r d' u' l', (if N.eqb (st_ID stage) (dl_StageID old) then reorder_card id old pos
      else change_stage org id inp actor old stage pos) (healthy d n u true l1) =
      (Ok r, healthy d' n u' true l')) as (r & d' & u' & l' & Hrest).
  { destruct (N.eqb _ _); [|eapply change_stage_run; eauto; apply Hb].
    destruct (reorder_card_run id old pos d n u l1) as (r & d' & l' & E); [apply Hb|done..|eauto]. }
  eexists r, _. unfold Move. apply transaction_healthy with (d' := d') (n' := n) (u' := u') (l' := l').
  rewrite (bind_run _ _ _ _ _ (replace_error_run _ _ _ _ _ Hlock)).
  rewrite (bind_run _ _ _ _ _ (replace_error_run _ _ _ _ _ Hq)).
  rewrite (bind_run _ _ _ _ _ Hpos). exact Hrest.
Qed.

Lemma GetPipeline_like_run p before d n u tx l q :
  first_row p before (db_pipelines d) = Ok q ->
  replace_error
    (p <- query (fun d => first_row p before (db_pipelines d)) ;;
     stages <- preload_stages (pl_ID p) ;;
     ret (p, stages)) ErrNotFound (healthy d n u tx l) = (Ok (q, stages_of d (pl_ID q)), healthy d n u tx l).
Proof.
  intros Hq. apply replace_error_run. unfold preload_stages.
  erewrite bind_run by by apply query_healthy. by erewrite bind_run by by apply query_healthy.
Qed.

Lemma find_open_stage d id :
  (exists k s, db_stages d !! k = Some s /\ open_stage_of id s = true) ->
  exists s, List.find is_open_stage (stages_of d id) = Some s.
Proof.
  intros (k & s & Hk & [Hs Ho]%andb_true_iff). destruct (List.find _ _) as [s'|] eqn:E; [eauto|].
  exfalso. assert (s ∈ stages_of d id) as Hin%list_elem_of_In by (apply stages_of_elem; eauto).
  by rewrite (List.find_none _ _ E _ Hin) in Ho.
Qed.

Lemma insert_deal_run r d n u tx l :
  fits r = true -> db_deals d !! dl_ID r = None ->
  exists l', insert_deal r (healthy d n u tx l) =
    (Ok tt, healthy (set_db_deals (<[dl_ID r := r]> (db_deals d)) d) n u tx l').
Proof. intros Hf Hno. eexists. apply stmt_healthy. by rewrite Hf, Hno. Qed.

(** A healthy database lets [Create] through when the defaults apply. *)
Lemma Create_runs inp d n u l contact :
  board_ok d -> ci_OrgID inp <> uuid_Nil -> fresh_from u d ->
  ci_Title inp <> "" -> ci_PipelineID inp = None -> ci_StageID inp = None ->
  (exists k, db_contacts d !! k = Some contact) -> contact_in (ci_ContactID inp) (ci_OrgID inp) contact = true ->
  (forall k c, db_contacts d !! k = Some c -> ct_ID c = k) ->
  (exists k p, db_pipelines d !! k = Some p /\ active_pipeline (ci_OrgID inp) p = true) ->
  (forall k p, db_pipelines d !! k = Some p -> active_pipeline (ci_OrgID inp) p = true ->
     exists k s, db_stages d !! k = Some s /\ open_stage_of (pl_ID p) s = true) ->
  (forall k p stage n last, db_pipelines d !! k = Some p -> bottom_rank (st_ID stage) d last ->
     fits (stored_deal (new_deal inp u p stage contact n last)) = true) ->
  exists r w', Create inp (healthy d n u false l) = (Ok r, w').
Proof.
  intros Hb Horg [Hu Hfresh] Ht Hp Hs (kc & Hc) Hcin Hck (kp & p0 & Hkp & Hact) Hopen Hfit.
  unfold Create. apply String.eqb_neq in Ht. unfold is_empty at 1. rewrite Ht.
  destruct (first_row_cases (contact_in (ci_ContactID inp) (ci_OrgID inp)) unordered (db_contacts d)) as [[c Ec]|Ec].
  2:{ apply first_row_err in Ec as [_ Ec]. by rewrite (Ec _ _ Hc) in Hcin. }
  assert (c = contact) as ->.
  { apply first_row_ok in Ec as (k & Hk & Hcin'). unfold contact_in in Hcin, Hcin'.
    apply andb_true_iff in Hcin as [[Hcin _]%andb_true_iff _], Hcin' as [[Hcin' _]%andb_true_iff _].
    apply N.eqb_eq in Hcin, Hcin'. pose proof (Hck _ _ Hc). pose proof (Hck _ _ Hk). congruence. }
  rewrite (bind_run _ _ _ _ _ (replace_error_run _ _ _ _ _ (query_healthy
    (fun d => first_row _ unordered (db_contacts d)) d n u false l contact Ec))).
  destruct (first_row_cases (active_pipeline (ci_OrgID inp)) by_default (db_pipelines d)) as [[p Ep]|Ep].
  2:{ apply first_row_err in Ep as [_ Ep]. by rewrite (Ep _ _ Hkp) in Hact. }
  pose proof Ep as (kp' & Hkp' & _)%first_row_ok.
  unfold resolvePipeline. rewrite Hp.
  rewrite (bind_run _ _ _ _ _ (GetPipeline_like_run _ _ d n u false l p Ep)). cbv zeta.
  unfold resolveStage. rewrite Hs. simpl fst. simpl snd.
  destruct (find_open_stage d (pl_ID p)) as [stage Est].
  { apply first_row_ok in Ep as (k & Hk & Ha). by eapply Hopen. }
  rewrite Est. rewrite (bind_run (ret stage) _ _ stage (healthy d n u false l)) by done.
  rewrite (bind_run _ _ _ _ _ (now_healthy _ _ _ _ _)), (bind_run _ _ _ _ _ (uuid_healthy _ _ _ _ _)).
  destruct (position_or_empty_run (deal_at (st_ID stage)) by_rank_desc d n (u + 1)%N true l) as [last El].
  pose proof (lastRank_ok _ _ _ _ El) as (Hl & _).
  match goal with |- context [transaction ?body] =>
    assert (exists deal d4 u4 l4, body (healthy d n (u + 1)%N true l) = (Ok deal, healthy d4 n u4 true l4))
      as (dl & d4 & u4 & l4 & Hbody) end.
  { unfold lastRank. rewrite (bind_run _ _ _ _ _ El). cbv zeta.
    set (deal := MkDeal _ _ _ _ _ _ _ _ _ _ _ _ _ _ _ _ _ _).
    destruct (insert_deal_run (stored_deal deal) d n (u + 1)%N true l) as (l2 & Hi);
      [by apply (Hfit kp' p stage n last)|by apply Hfresh|].
    rewrite (bind_run _ _ _ _ _ Hi). clear Hi. set (d2 := set_db_deals _ d).
    rewrite (bind_run _ _ _ _ _ (uuid_healthy _ _ _ _ _)). set (h := MkHistory _ _ _ _ _ _ _).
    destruct (insert_history_run h d2 n (u + 1 + 1)%N true l2) as (l3 & Hh); [apply Hfresh; simpl; lia|].
    rewrite (bind_run _ _ _ _ _ Hh). clear Hh. set (d3 := set_db_stage_history _ d2).
    destruct (publish_run deal "deal.created" (actorFor (ci_CreatedBy inp)) d3 n (u + 1 + 1)%N true l3)
      as (d4 & l4 & Hpub); [done|done|unfold uuid_Nil in *; lia|apply Hfresh; lia|].
    rewrite (bind_run _ _ _ _ _ Hpub). by repeat eexists. }
  rewrite (bind_run _ _ _ _ _ (transaction_healthy _ _ _ _ _ _ _ _ _ _ Hbody)). by repeat eexists.
Qed.

(** ** Theorems *)

(** C8: Along any sequence of calls of the deal service — pipelines and
    stages created, edited, reordered, archived and deleted, deals created,
    moved, edited and deleted, one after the other, any of them failing at any
    statement — a live deal sits in a stage of its own pipeline, its status is
    the one the stage means as long as the stage is there and not half edited,
    an open deal's stage is always there, and no organization has two default
    pipelines.  A stage is half edited from an [UpdateStage] that saved it and
    failed before its cards to the next one of it that succeeds. *)
Theorem boards_stay_consistent d d' half :
  @board_ok (∅ : gset uuid) d -> rtc board_step (d, ∅) (d', half) ->
  (forall k r, db_deals d' !! k = Some r -> live (dl_DeletedAt r) = true ->
     exists s, db_stages d' !! dl_StageID r = Some s /\ st_PipelineID s = dl_PipelineID r /\
       (live (st_DeletedAt s) = true -> dl_StageID r ∉ half -> dl_Status r = statusForStage s) /\
       (dl_Status r = DealOpen -> live (st_DeletedAt s) = true)) /\
  (forall k k' p p', db_pipelines d' !! k = Some p -> db_pipelines d' !! k' = Some p' ->
     live (pl_DeletedAt p) = true -> live (pl_DeletedAt p') = true ->
     pl_IsDefault p = true -> pl_IsDefault p' = true -> pl_OrganizationID p = pl_OrganizationID p' -> k = k') /\
  @board_ok half d'.
Proof.
  intros Hb Hs. assert (@board_ok half d') as Hb'.
  { assert (forall s s', rtc board_step s s' -> @board_ok s.2 s.1 -> @board_ok s'.2 s'.1) as Hkeep
      by (induction 1; eauto using board_step_ok). exact (Hkeep _ _ Hs Hb). }
  split; [|split; [apply Hb'|done]]. intros k r Hk Hl. by apply (bk_deal _ Hb' _ _ Hk).
Qed.

(** C9: On a healthy database [Move] succeeds for a live deal of the
    organization (not the nil one) and a live stage of its pipeline, when the
    row fits its columns: it did before, the reason given has at most 255
    characters, and the key of the place at most 64.  Inside a column only the card's
    position changes, with no history and no event; across columns the stage,
    the status the stage means, the time of entry and the position change
    together with one history row (from, to, mover, seconds spent in the stage
    it left) and one event, and the deal is closed now or reopened.  A [Move]
    that fails, for whatever reason, changes nothing. *)
Theorem Move_lands org id inp actor w old stage :
  board_ok (w_db w) -> quiet w -> w_in_tx w = false -> fresh_from (w_uuid w) (w_db w) -> org <> uuid_Nil ->
  db_deals (w_db w) !! id = Some old -> deal_in id org old = true ->
  db_stages (w_db w) !! mi_StageID inp = Some stage -> stage_in (mi_StageID inp) (dl_PipelineID old) stage = true ->
  fits old = true -> varchar 255 (mi_LostReason inp) = true ->
  (forall pos, drop_rank (w_db w) (mi_StageID inp) id inp pos -> varchar 64 pos = true) ->
  (exists deal st pos w', Move org id inp actor w = (Ok (deal, st), w') /\
     drop_rank (w_db w) (mi_StageID inp) id inp pos /\
     moved org inp actor (w_now w) old stage pos (w_db w) deal st (w_db w') /\
     (mi_StageID inp <> dl_StageID old ->
        dl_Status deal = statusForStage stage /\
        dl_ClosedAt deal = (if String.eqb (statusForStage stage) DealOpen then None else Some (w_now w)))) /\
  (forall w0 e w', Move org id inp actor w0 = (Err e, w') -> w_db w' = w_db w0).
Proof.
  intros Hb Hq Htx Hu Horg Hold Hin Hst Hsin Hf Hreason Hfit. split; [|intros ???; apply rolls_back_transaction].
  rewrite (quiet_healthy w) by done.
  destruct (Move_runs org id inp actor (w_db w) (w_now w) (w_uuid w) (w_locks w) old stage) as ([deal st] & w' & Hr);
    try done. pose proof Hr as (old' & stage' & pos & (Ho & _ & Hs & _ & Hp) & Hm)%Move_ok; [|done].
  simpl in *. rewrite Hold in Ho. rewrite Hst in Hs. injection Ho as <-. injection Hs as <-.
  exists deal, st, pos, w'. split_and!; [done..|]. apply stage_in_true in Hsin as (<- & _).
  intros Hne. inversion Hm; [done|]. subst. unfold new. rewrite move_updates_status. split; [done|].
  unfold move_updates, close_updates. by repeat case_match.
Qed.

(** A card dropped between two live cards, the first above the second,
    comes to lie strictly between them, in the stage it was dropped in; no
    other card changes. *)
Theorem Move_between org id inp actor w deal st w' a b ra rb :
  board_ok (w_db w) -> Move org id inp actor w = (Ok (deal, st), w') ->
  mi_AfterID inp = Some a -> mi_BeforeID inp = Some b -> a <> id -> b <> id ->
  db_deals (w_db w) !! a = Some ra -> live (dl_DeletedAt ra) = true -> valid_rank (dl_BoardPosition ra) = true ->
  db_deals (w_db w) !! b = Some rb -> live (dl_DeletedAt rb) = true -> valid_rank (dl_BoardPosition rb) = true ->
  str_ltb (dl_BoardPosition ra) (dl_BoardPosition rb) = true ->
  exists r, db_deals (w_db w') !! id = Some r /\ dl_StageID r = mi_StageID inp /\
    valid_rank (dl_BoardPosition r) = true /\
    str_ltb (dl_BoardPosition ra) (dl_BoardPosition r) = true /\
    str_ltb (dl_BoardPosition r) (dl_BoardPosition rb) = true /\
    forall k, k <> id -> db_deals (w_db w') !! k = db_deals (w_db w) !! k.
Proof.
  intros Hb Hr Ha Hbf Hai Hbi Hra Hla Hva Hrb Hlb Hvb Hlt.
  apply Move_ok in Hr as (old & stage & pos & (Hold & Hin & Hst & Hsin & Hp) & Hm); [|done].
  pose proof Hin as (Hid & _)%deal_in_true. apply stage_in_true in Hsin as (Hsid & _). subst id.
  unfold drop_rank, neighbour_rank in Hp. rewrite Ha, Hbf, Hra, Hrb, Hla, Hlb in Hp. simpl in Hp.
  apply N.eqb_neq in Hai, Hbi. rewrite Hai, Hbi in Hp.
  destruct (rankBetween_facts (dl_BoardPosition ra) (dl_BoardPosition rb)) as (Hv & Hl & Hu); [by right..|].
  assert (dl_BoardPosition rb <> "") as Hne by (intros E; by rewrite E in Hvb).
  specialize (Hu Hne Hlt). rewrite <- Hp in Hv, Hl, Hu.
  inversion Hm; subst; simpl; eexists; (split; [apply lookup_insert_eq|]).
  - split_and!; [simpl; congruence|done..|]. intros k Hk. by rewrite lookup_insert_ne.
  - unfold new. rewrite move_updates_stage, move_updates_position.
    split_and!; [done..|]. intros k Hk. by rewrite lookup_insert_ne.
Qed.

(** With a title, a live contact and a pipeline that has an open stage,
    [Create] succeeds on a healthy database as long as the new row fits its
    columns.  Whenever it succeeds, the new deal sits in the
    stage asked for, or in the open stage that comes first on the board, below
    every card already there, with the status of that stage, the contact's
    owner if none was given, one history row and one event.  A [Create] that
    fails leaves nothing behind. *)
Theorem Create_at_the_bottom inp w contact :
  board_ok (w_db w) -> quiet w -> w_in_tx w = false -> fresh_from (w_uuid w) (w_db w) ->
  ci_OrgID inp <> uuid_Nil -> ci_Title inp <> "" -> ci_PipelineID inp = None -> ci_StageID inp = None ->
  (exists k, db_contacts (w_db w) !! k = Some contact) ->
  contact_in (ci_ContactID inp) (ci_OrgID inp) contact = true ->
  (forall k c, db_contacts (w_db w) !! k = Some c -> ct_ID c = k) ->
  (exists k p, db_pipelines (w_db w) !! k = Some p /\ active_pipeline (ci_OrgID inp) p = true) ->
  (forall k p, db_pipelines (w_db w) !! k = Some p -> active_pipeline (ci_OrgID inp) p = true ->
     exists k s, db_stages (w_db w) !! k = Some s /\ open_stage_of (pl_ID p) s = true) ->
  (forall k p stage n last, db_pipelines (w_db w) !! k = Some p -> bottom_rank (st_ID stage) (w_db w) last ->
     fits (stored_deal (new_deal inp (w_uuid w) p stage contact n last)) = true) ->
  (exists deal st w', Create inp w = (Ok (deal, st), w')) /\
  (forall inp w deal st w', board_ok (w_db w) -> Create inp w = (Ok (deal, st), w') ->
     exists stage, st = Some stage /\ create_effect inp (w_now w) (w_db w) deal stage (w_db w') /\
       forall k x, db_deals (w_db w) !! k = Some x -> deal_at (st_ID stage) x = true ->
         (forall k x, db_deals (w_db w) !! k = Some x -> valid_rank (dl_BoardPosition x) = true) ->
         str_ltb (dl_BoardPosition x) (dl_BoardPosition deal) = true) /\
  (forall inp w e w', Create inp w = (Err e, w') -> w_db w' = w_db w).
Proof.
  intros Hb Hq Htx Hu Horg Ht Hp Hs Hc Hcin Hck Hact Hopen Hfit. split_and!.
  - rewrite (quiet_healthy w) by done.
    destruct (Create_runs inp (w_db w) (w_now w) (w_uuid w) (w_locks w) contact) as ([deal st] & w' & Hr); try done.
    eauto.
  - intros inp' w0 deal st w' Hb0 Hr. apply Create_ok in Hr as (stage & -> & He); [|done].
    exists stage. split; [done|]. split; [done|]. intros k x Hk Hx Hvalid.
    destruct He as (c & p & last & h & o & _ & _ & _ & _ & _ & _ & Hl & -> & _). simpl.
    eapply bottom_rank_below; [exact Hl| |done..]. destruct Hl as [[-> _]|(k' & x' & Hk' & _ & <- & _)]; eauto.
  - intros inp' w0 e w'. apply rolls_back_Create.
Qed.

(** A deleted stage strands no card.  When [DeleteStage] succeeds the
    stage is gone and no live deal is left in it: every live deal it held is
    in the stage named as the destination, a live stage of the same pipeline,
    with the status that stage means, and entered it now; every other deal is
    as before.  An open stage is deleted only if its pipeline keeps another.
    When [DeleteStage] fails nothing changed, and it always fails on a stage
    that holds deals when no destination is given. *)
Theorem DeleteStage_strands_nothing org id moveTo w u w' :
  board_ok (w_db w) -> DeleteStage org id moveTo w = (Ok u, w') ->
  (exists s, db_stages (w_db w') !! id = Some s /\ live (st_DeletedAt s) = false) /\
  (forall k r, db_deals (w_db w') !! k = Some r -> deal_at id r = false) /\
  (forall k r, db_deals (w_db w) !! k = Some r ->
     if deal_at id r then
       exists r' target, db_deals (w_db w') !! k = Some r' /\ moveTo = Some (st_ID target) /\
         db_stages (w_db w') !! st_ID target = Some target /\ live (st_DeletedAt target) = true /\
         st_PipelineID target = dl_PipelineID r' /\ dl_StageID r' = st_ID target /\
         dl_Status r' = statusForStage target /\ dl_StageEnteredAt r' = w_now w
     else db_deals (w_db w') !! k = Some r) /\
  (forall s0, db_stages (w_db w) !! id = Some s0 -> is_open_stage s0 = true ->
     exists k s, k <> id /\ db_stages (w_db w') !! k = Some s /\ open_stage_of (st_PipelineID s0) s = true) /\
  (forall w0 e w1, DeleteStage org id moveTo w0 = (Err e, w1) -> w_db w1 = w_db w0).
Proof.
  intros Hb Hr. apply DeleteStage_ok in Hr as (s0 & deals' & Hs0 & Hin & Hdeals & Hopen & n & ->); [|done].
  apply stage_in_org_true in Hin as (Hid & _ & Hl0).
  assert (forall k s, db_stages (w_db w) !! k = Some s -> k <> id ->
    update_where (stage_by_id id) [set_st_DeletedAt (Some n)] (db_stages (w_db w)) !! k = Some s) as Hother.
  { intros k s Hk Hne. rewrite update_where_lookup, Hk. simpl. unfold stage_by_id.
    rewrite (bk_stages _ Hb _ _ Hk). by apply N.eqb_neq in Hne as ->. }
  simpl. split_and!; [| | | |intros ???; apply rolls_back_transaction].
  - rewrite update_where_lookup, Hs0. simpl. unfold stage_by_id. rewrite Hid, N.eqb_refl, Hl0. by eexists.
  - destruct Hdeals as [[-> Hno]|(target & _ & Hne & _ & _ & ->)]; [done|].
    intros k r (r0 & Hk & ->)%update_where_some. destruct (deal_at id r0) eqn:E; [|done].
    unfold deal_at. simpl. by apply N.eqb_neq in Hne as ->.
  - intros k r Hk. destruct Hdeals as [[-> Hno]|(target & Hto & Hne & Ht & Htin & ->)]; [by rewrite (Hno _ _ Hk)|].
    apply stage_in_true in Htin as (_ & Hpl & Hlt). rewrite update_where_lookup, Hk. simpl.
    destruct (deal_at id r) eqn:E; [|done]. apply deal_at_true in E as [Est El].
    destruct (bk_deal _ Hb _ _ Hk El) as (s & Hs & Hp & _). rewrite Est, Hs0 in Hs. injection Hs as <-.
    eexists _, target. split; [done|]. split_and!; [done|by apply Hother|done|by rewrite Hpl|done..].
  - intros s Hs Ho. rewrite Hs0 in Hs. injection Hs as <-. destruct (Hopen Ho) as (k & s & Hk & Hs & Hos).
    exists k, s. split_and!; [done|by apply Hother|done].
Qed.

(** *** Pages of a column *)

Lemma by_rank_asym a b : by_rank a b = true -> by_rank b a = false.
Proof.
  unfold by_rank. intros Hab. destruct (str_ltb (dl_BoardPosition b) (dl_BoardPosition a)) eqn:E; [|done].
  by rewrite <- (str_ltb_irrefl (dl_BoardPosition a)), (str_ltb_trans _ _ _ Hab E).
Qed.

Lemma by_rank_neg a b c : by_rank b a = false -> by_rank c b = false -> by_rank c a = false.
Proof.
  unfold by_rank. intros Hba Hcb. destruct (str_ltb (dl_BoardPosition c) (dl_BoardPosition a)) eqn:E; [|done].
  destruct (decide (dl_BoardPosition c = dl_BoardPosition b)) as [Ecb|Ne]; [congruence|].
  apply str_ltb_total in Hcb; [|done]. by rewrite (str_ltb_trans _ _ _ Hcb E) in Hba.
Qed.

(** Every row the condition selects is on the page or after its last card. *)
Lemma page_spec p limit t cards more :
  page p limit t = (cards, more) -> (0 < limit)%nat ->
  (length cards <= limit)%nat /\ in_order by_rank cards /\
  (forall r, r ∈ cards -> exists k, db_deals t !! k = Some r /\ p r = true) /\
  (forall k r, db_deals t !! k = Some r -> p r = true -> r ∈ cards \/
     more = true /\ exists c, last cards = Some c /\ by_rank r c = false).
Proof.
  unfold page. set (l := sort_by by_rank (find_rows p None (db_deals t))).
  assert (in_order by_rank l) as Hl by (apply sort_by_order; [apply by_rank_asym|apply by_rank_neg]).
  assert (forall r, r ∈ l <-> r ∈ find_rows p None (db_deals t)) as Hin by (intros r; apply elem_of_sort_by).
  assert (forall n, in_order by_rank (take n l)) as Htake.
  { intros n i j x y Hij Hx Hy. apply lookup_take_Some in Hx as [Hx _], Hy as [Hy _]. by eapply Hl. }
  assert (forall n r, r ∈ take n l -> exists k, db_deals t !! k = Some r /\ p r = true) as Hrows.
  { intros n r (j & Hj)%list_elem_of_lookup. apply lookup_take_Some in Hj as [Hj _].
    by apply list_elem_of_lookup_2, Hin, find_rows_elem in Hj. }
  intros Hp Hlim. rewrite length_take in Hp. destruct (Nat.ltb_spec limit ((limit + 1) `min` length l)) as [Hlt|Hge].
  - rewrite take_take, Nat.min_l in Hp by lia. injection Hp as <- <-.
    split_and!; [rewrite length_take; lia|apply Htake|apply Hrows|].
    intros k r Hk Hpr. assert (r ∈ l) as (j & Hj)%list_elem_of_lookup by (by eapply Hin, find_rows_complete).
    destruct (decide (j < limit)%nat) as [Hjl|Hjl].
    + left. apply list_elem_of_lookup. exists j. by apply lookup_take_Some.
    + right. split; [done|]. rewrite last_lookup, length_take, Nat.min_l by lia.
      destruct (l !! Nat.pred limit) as [c|] eqn:Ec; [|apply lookup_ge_None in Ec; lia].
      exists c. rewrite lookup_take_lt by lia. split; [done|]. eapply Hl; [|exact Ec|exact Hj]. lia.
  - rewrite take_ge in Hp by lia. injection Hp as <- <-.
    split_and!; [lia|done| |].
    + intros r Hr. by apply Hin, find_rows_elem in Hr.
    + intros k r Hk Hpr. left. by eapply Hin, find_rows_complete.
Qed.

(** A page of a column's cards is in board order, at most as long as the
    limit, and holds only cards of the filtered column after the cursor.  When
    no two cards of the column share a position, nothing is lost between
    pages: every card after the cursor is on the page or is asked for by the
    next request, whose cursor is the position of the page's last card; and a
    page that reports no more is the end. *)
Theorem StageDeals_pages org pid sid after f w cards more w' :
  StageDeals org pid sid after f w = (Ok (cards, more), w') ->
  (forall k k' r r', db_deals (w_db w) !! k = Some r -> db_deals (w_db w) !! k' = Some r' ->
     deal_at sid r = true -> deal_at sid r' = true -> dl_BoardPosition r = dl_BoardPosition r' -> r = r') ->
  w_db w' = w_db w /\ (length cards <= page_limit f)%nat /\ in_order by_rank cards /\
  (forall r, r ∈ cards -> exists k, db_deals (w_db w) !! k = Some r /\ after_card org pid sid after f (w_db w) r = true) /\
  (forall k r, db_deals (w_db w) !! k = Some r -> after_card org pid sid after f (w_db w) r = true ->
     r ∈ cards \/ more = true /\ exists c, last cards = Some c /\
       after_card org pid sid (dl_BoardPosition c) f (w_db w) r = true).
Proof.
  intros Hr Hdistinct. apply query_ok_inv in Hr as (Hp & _ & ->). injection Hp as Hp.
  assert (0 < page_limit f)%nat as Hlim.
  { unfold page_limit, DefaultColumnPage. destruct (_ || _)%bool eqn:E; [lia|]. breflect. lia. }
  apply page_spec in Hp as (Hlen & Hord & Hin & Hall); [|done]. split_and!; [done..|].
  assert (forall a r, after_card org pid sid a f (w_db w) r = true -> deal_at sid r = true) as Hat.
  { intros a r Ha. unfold after_card, filtered in Ha. breflect. unfold deal_at. apply andb_true_iff. by split. }
  intros k r Hk Ha. destruct (Hall _ _ Hk Ha) as [?|(-> & c & Hc & Hrc)]; [by left|].
  apply last_Some_elem_of in Hc as Hcin. destruct (Hin _ Hcin) as (kc & Hkc & Hac).
  destruct (decide (dl_BoardPosition r = dl_BoardPosition c)) as [E|Hne].
  { left. by rewrite (Hdistinct _ _ _ _ Hk Hkc (Hat _ _ Ha) (Hat _ _ Hac) E). }
  right. split; [done|]. exists c. split; [done|].
  unfold after_card in *. apply andb_true_iff in Ha as [Ha _]. rewrite Ha. simpl.
  apply orb_true_iff. right. by apply str_ltb_total.
Qed.
End Props.

(** ** Instances *)

#[local] Instance pg_ref : Pg := {|
  pg_numeric x := x;
  pg_sum l := foldr float_add float_zero l;
  pg_date t := (t / (24 * Hour)) * (24 * Hour);
  pg_ilike title pattern := true
|}.

(** No stage of the sample board is half edited. *)
#[local] Instance whole : HalfEdited := (∅ : gset uuid).

Definition sample_deal (id stage : uuid) (position : string) : Deal :=
  MkDeal id None 1%N 60%N stage 10%N None "A deal" (Float 5 3) "USD" None None DealOpen 100 position None "" None.
Definition sample_stage (id : uuid) (name : string) (position : Z) (type : string) : PipelineStage :=
  MkStage id None 1%N 60%N name position type 10 "gray" 0 None.

(** Pipeline [60] with two open stages and the two closing ones; three cards in
    the first stage, one in the second. *)
Definition sample_pipelines := [MkPipeline 60%N None 1%N "Sales" "Deal" "Deals" "USD" true 0 None None].
Definition sample_stages :=
  [sample_stage 61 "New" 10 StageOpen; sample_stage 62 "Proposal" 20 StageOpen;
   sample_stage 63 "Won" 30 StageWon; sample_stage 64 "Lost" 40 StageLost].
Definition sample_deals :=
  [sample_deal 70 61 "c"; sample_deal 71 61 "n"; sample_deal 72 61 "u"; sample_deal 73 62 "n"].

Definition sample_board : Tables :=
  set_db_contacts (rows_of ct_ID sample_contacts)
  (set_db_pipelines (rows_of pl_ID sample_pipelines)
  (set_db_stages (rows_of st_ID sample_stages)
  (set_db_deals (rows_of dl_ID sample_deals) empty_tables))).

Definition quiet_board : world Tables := world_on sample_board 5000000000 [].

Lemma sample_board_ok : board_ok sample_board.
Proof.
  split; try apply rows_of_keyed.
  - intros k r Hk. change (rows_of dl_ID sample_deals !! k = Some r) in Hk.
    sample_cases Hk; intros _;
      first [exists (sample_stage 61 "New" 10 StageOpen); by split_and!
            |exists (sample_stage 62 "Proposal" 20 StageOpen); by split_and!].
  - intros k k' p p' Hk Hk' _ _ _ _ _. change (rows_of pl_ID sample_pipelines !! k = Some p) in Hk.
    change (rows_of pl_ID sample_pipelines !! k' = Some p') in Hk'. by sample_cases Hk; sample_cases Hk'.
Qed.

Lemma sample_board_fresh : fresh_from 1000 sample_board.
Proof.
  split; [discriminate|]. intros n Hn. split; [|split; apply lookup_empty].
  change (rows_of dl_ID sample_deals !! n = None).
  destruct (rows_of dl_ID sample_deals !! n) as [r|] eqn:E; [|done].
  exfalso. sample_cases E; simpl in Hn; lia.
Qed.

(** The calls of the examples. *)
Definition win71 : MT (Deal * option PipelineStage) :=
  @Move sql_ref uuid_ref 1 71 {| mi_StageID := 63%N; mi_BeforeID := None; mi_AfterID := None; mi_LostReason := "" |} (UserActor 40 "Ann").
Definition between_c_and_n : MoveInput :=
  {| mi_StageID := 61%N; mi_BeforeID := Some 71%N; mi_AfterID := Some 70%N; mi_LostReason := "" |}.
Definition drop73 : MT (Deal * option PipelineStage) :=
  @Move sql_ref uuid_ref 1 73 between_c_and_n (UserActor 40 "Ann").
Definition delete61 : MT unit := @DeleteStage sql_ref 1 61 (Some 62%N).

Definition of_type (type : string) : StageInput :=
  {| si_Name := None; si_StageType := Some type; si_Probability := None;
     si_Color := None; si_RottingDays := None; si_Position := None |}.
Definition retype (id : uuid) (type : string) : MT PipelineStage := @UpdateStage sql_ref 1 id (of_type type).

(** The board after stage [62] was made a won stage and its cards' update failed. *)
Definition half_retyped : world Tables :=
  snd (retype 62 StageWon (world_on sample_board 5000000000 [false; false; true])).

Lemma boards_stay_consistent_witness :
  exists d', rtc (@board_step sql_ref uuid_ref pg_ref) (sample_board, ∅) (d', {[62%N]} ∪ ∅) /\
    @board_ok ({[62%N]} ∪ ∅ : gset uuid) d' /\
    dl_Status <$> db_deals d' !! 71%N = Some DealWon /\ dl_StageID <$> db_deals d' !! 73%N = Some 63%N.
Proof.
  destruct (win71 quiet_board) as [r1 w1] eqn:E1.
  set (w1' := set_faults [false; false; true] w1).
  destruct (retype 62 StageWon w1') as [[s|e] w2] eqn:E2;
    [exfalso; vm_compute in E1; injection E1 as _ <-; vm_compute in E2; discriminate E2|].
  destruct (@DeleteStage sql_ref 1 62 (Some 63%N) (set_faults [] w2)) as [r3 w3] eqn:E3.
  pose proof (@bs_move sql_ref uuid_ref pg_ref 1%N 71%N _ _ quiet_board r1 w1 ∅ E1) as H1.
  assert (w_db w2 <> w_db w1') as Hne.
  { vm_compute in E1. injection E1 as _ <-. vm_compute in E2. injection E2 as _ <-.
    intros H. apply (f_equal (fun d => st_StageType <$> db_stages d !! 62%N)) in H.
    vm_compute in H. discriminate H. }
  pose proof (@bs_update_half sql_ref uuid_ref pg_ref 1%N 62%N (of_type StageWon) w1' e w2 ∅ E2 Hne) as H2.
  pose proof (@bs_delete_stage sql_ref uuid_ref pg_ref 1%N 62%N (Some 63%N) (set_faults [] w2) r3 w3 ({[62%N]} ∪ ∅) E3) as H3.
  pose proof (rtc_l _ _ _ _ H1 (rtc_l _ _ _ _ H2 (rtc_once _ _ H3))) as Hs. exists (w_db w3).
  split; [exact Hs|]. split.
  - exact (proj2 (proj2 (@boards_stay_consistent sql_ref _ uuid_ref pg_ref _ _ _ sample_board_ok Hs))).
  - vm_compute in E1. injection E1 as <- <-. vm_compute in E2. injection E2 as <- <-.
    vm_compute in E3. injection E3 as <- <-. split; vm_compute; reflexivity.
Defined.

Lemma Move_lands_witness :
  exists deal st w', drop73 quiet_board = (Ok (deal, st), w') /\ dl_Status deal = DealOpen /\
    dl_ClosedAt deal = None /\ dl_BoardPosition deal = "h".
Proof.
  destruct (@Move_lands sql_ref _ uuid_ref whole 1%N 73%N between_c_and_n (UserActor 40 "Ann") quiet_board
    (sample_deal 73 62 "n") (sample_stage 61 "New" 10 StageOpen) sample_board_ok (conj eq_refl eq_refl) eq_refl
    sample_board_fresh) as [(deal & st & pos & w' & Hr & Hp & _ & Hs) _];
    [discriminate|reflexivity|reflexivity|reflexivity|reflexivity|vm_compute; reflexivity|vm_compute; reflexivity
    |intros pos ->; vm_compute; reflexivity|].
  exists deal, st, w'. split; [exact Hr|]. destruct Hs as [Hst Hc]; [discriminate|].
  split; [rewrite Hst; reflexivity|]. split; [rewrite Hc; reflexivity|].
  vm_compute in Hr. injection Hr as <- _ _. reflexivity.
Defined.

Lemma Move_between_witness :
  exists r, db_deals (w_db (snd (drop73 quiet_board))) !! 73%N = Some r /\ dl_StageID r = 61%N /\
    str_ltb "c" (dl_BoardPosition r) = true /\ str_ltb (dl_BoardPosition r) "n" = true.
Proof.
  destruct (drop73 quiet_board) as [[[deal st]|e] w'] eqn:E; [|vm_compute in E; discriminate E].
  assert (@Move sql_ref uuid_ref 1 73 between_c_and_n (UserActor 40 "Ann") quiet_board = (Ok (deal, st), w')) as E'
    by exact E.
  destruct (@Move_between sql_ref _ uuid_ref whole 1%N 73%N between_c_and_n (UserActor 40 "Ann") quiet_board deal st w' 70%N 71%N
    (sample_deal 70 61 "c") (sample_deal 71 61 "n") sample_board_ok E' eq_refl eq_refl)
    as (r & Hr & Hs & _ & Hl & Hu & _);
    [discriminate|discriminate|vm_compute; reflexivity..|].
  exists r. split; [exact Hr|]. split; [exact Hs|]. split; [exact Hl|exact Hu].
Defined.

Definition sample_input : CreateInput := {|
  ci_OrgID := 1%N; ci_PipelineID := None; ci_StageID := None; ci_ContactID := 11%N; ci_ConversationID := None;
  ci_Title := "Renewal"; ci_Value := Float 7 2; ci_Currency := ""; ci_OwnerID := None;
  ci_ExpectedCloseDate := None; ci_CreatedBy := Some 40%N |}.

Lemma Create_at_the_bottom_witness :
  exists deal st w', @Create sql_ref uuid_ref pg_ref sample_input quiet_board = (Ok (deal, st), w') /\
    str_ltb "u" (dl_BoardPosition deal) = true.
Proof.
  destruct (@Create_at_the_bottom sql_ref _ uuid_ref pg_ref whole sample_input quiet_board (sample_contact 11 (Some 41%N))
    sample_board_ok (conj eq_refl eq_refl) eq_refl sample_board_fresh) as ((deal & st & w' & Hr) & Heff & _);
    try discriminate; try reflexivity.
  - exists 11%N. reflexivity.
  - intros k c Hk. change (rows_of ct_ID sample_contacts !! k = Some c) in Hk. by eapply rows_of_keyed.
  - exists 60%N. eexists. split; reflexivity.
  - intros k p Hk _. change (rows_of pl_ID sample_pipelines !! k = Some p) in Hk. sample_cases Hk.
    exists 61%N. eexists. split; reflexivity.
  - intros k p stage n last Hk Hlast. change (rows_of pl_ID sample_pipelines !! k = Some p) in Hk. sample_cases Hk.
    assert (varchar 10 (statusForStage stage) = true) as Hst by (unfold statusForStage; by repeat case_match).
    assert (varchar 64 (rankBetween last "") = true) as Hpos.
    { destruct Hlast as [[-> _]|(k' & x & Hk' & _ & <- & _)]; [vm_compute; reflexivity|].
      change (rows_of dl_ID sample_deals !! k' = Some x) in Hk'. sample_cases Hk'; vm_compute; reflexivity. }
    apply fits_true. simpl. rewrite Hpos, Hst. split_and!; vm_compute; reflexivity.
  - exists deal, st, w'. split; [exact Hr|].
    destruct (Heff sample_input quiet_board deal st w' sample_board_ok Hr) as (stage & Hst & _ & Hlow).
    assert (st = Some (sample_stage 61 "New" 10 StageOpen)) as E by (vm_compute in Hr; injection Hr as _ <- _; reflexivity).
    rewrite E in Hst. injection Hst as <-.
    apply (Hlow 72%N (sample_deal 72 61 "u") eq_refl eq_refl).
    intros k x Hk. change (rows_of dl_ID sample_deals !! k = Some x) in Hk. sample_cases Hk; reflexivity.
Defined.

Lemma DeleteStage_strands_nothing_witness :
  exists w', delete61 quiet_board = (Ok tt, w') /\
    forall k r, db_deals (w_db w') !! k = Some r -> deal_at 61 r = false.
Proof.
  destruct (delete61 quiet_board) as [[[]|e] w'] eqn:E; [|vm_compute in E; discriminate E].
  destruct (@DeleteStage_strands_nothing sql_ref _ whole 1%N 61%N (Some 62%N) quiet_board tt w' sample_board_ok E) as (_ & Hno & _).
  exists w'. split; [reflexivity|exact Hno].
Defined.

Definition two_a_page : BoardFilter := {|
  bf_OwnerID := None; bf_CloseFrom := None; bf_CloseTo := None; bf_Search := ""; bf_Status := ""; bf_Limit := 2;
  bf_Scope := None |}.

Lemma StageDeals_pages_witness :
  exists cards w', @StageDeals sql_ref pg_ref 1 60 61 "" two_a_page quiet_board = (Ok (cards, true), w') /\
    (length cards <= 2)%nat /\
    exists c, last cards = Some c /\
      @after_card pg_ref 1 60 61 (dl_BoardPosition c) two_a_page sample_board (sample_deal 72 61 "u") = true.
Proof.
  destruct (@StageDeals sql_ref pg_ref 1 60 61 "" two_a_page quiet_board) as [[[cards more]|e] w'] eqn:E;
    [|vm_compute in E; discriminate E].
  destruct (@StageDeals_pages sql_ref _ pg_ref 1%N 60%N 61%N "" two_a_page quiet_board cards more w' E)
    as (_ & Hlen & _ & _ & Hall).
  - intros k k' r r' Hk Hk' Hr Hr' Heq.
    change (rows_of dl_ID sample_deals !! k = Some r) in Hk. change (rows_of dl_ID sample_deals !! k' = Some r') in Hk'.
    sample_cases Hk; sample_cases Hk'; first [reflexivity|discriminate Heq|discriminate Hr|discriminate Hr'].
  - assert (more = true /\ cards = [sample_deal 70 61 "c"; sample_deal 71 61 "n"]) as [-> Ec]
      by (vm_compute in E; injection E as <- <- _; split; reflexivity).
    exists cards, w'. split; [reflexivity|]. split; [exact Hlen|].
    destruct (Hall 72%N (sample_deal 72 61 "u") eq_refl eq_refl) as [Hin|[_ Hc]]; [|exact Hc].
    exfalso. rewrite Ec in Hin. by repeat (apply elem_of_cons in Hin as [?|Hin]; [done|]); apply not_elem_of_nil in Hin.
Defined.

(** ** What the model shows of the code *)

Definition board_with (deals : list Deal) : world Tables :=
  world_on (set_db_deals (rows_of dl_ID deals) sample_board) 5000000000 [].

(** After 320 deals created in one stage and never moved, the next one does not
    fit the column [board_position] and cannot be created. *)
Example Create_fails_when_the_key_is_full :
  fst (@Create sql_ref uuid_ref pg_ref sample_input (board_with [sample_deal 70 61 (nth_append 320 "")])) = Err ErrDriver.
Proof. vm_compute. reflexivity. Qed.

(** A deal is won with no closing time: by retyping its stage, by deleting its
    stage into a won one, and by creating it in a won stage. *)
Definition won_but_not_closed (d : Tables) (id : uuid) : Prop :=
  dl_Status <$> db_deals d !! id = Some DealWon /\ dl_ClosedAt <$> db_deals d !! id = Some None.

Example UpdateStage_leaves_closed_at :
  won_but_not_closed (w_db (snd (retype 62 StageWon quiet_board))) 73.
Proof. split; vm_compute; reflexivity. Qed.

Example DeleteStage_leaves_closed_at :
  won_but_not_closed (w_db (snd (@DeleteStage sql_ref 1 62 (Some 63%N) quiet_board))) 73 /\
  db_stage_history (w_db (snd (@DeleteStage sql_ref 1 62 (Some 63%N) quiet_board))) = ∅ /\
  db_outbox (w_db (snd (@DeleteStage sql_ref 1 62 (Some 63%N) quiet_board))) = ∅.
Proof. split; [split|]; vm_compute; [reflexivity..|split; reflexivity]. Qed.

(** Two cards share a position after their stage was merged into another, and
    the page after the first of them skips the second. *)
Example DeleteStage_duplicates_positions :
  let d := w_db (snd (delete61 quiet_board)) in
  dl_BoardPosition <$> db_deals d !! 71%N = Some "n" /\ dl_BoardPosition <$> db_deals d !! 73%N = Some "n" /\
  dl_StageID <$> db_deals d !! 71%N = dl_StageID <$> db_deals d !! 73%N.
Proof. vm_compute. repeat split; reflexivity. Qed.

(** [UpdateStage] writes the stage first and its cards in a second statement of
    their own: when the second fails, the card of a won stage stays open. *)
Example UpdateStage_half_done :
  let w := half_retyped in
  st_StageType <$> db_stages (w_db w) !! 62%N = Some StageWon /\ dl_Status <$> db_deals (w_db w) !! 73%N = Some DealOpen.
Proof. vm_compute. split; reflexivity. Qed.

(** Retyping takes a pipeline's last open stages away, which deleting would refuse. *)
Example UpdateStage_takes_the_last_open_stage :
  let d := w_db (snd (retype 62 StageWon (snd (retype 61 StageWon quiet_board)))) in
  rows_affected (open_stage_of 60) (db_stages d) = 0%nat.
Proof. vm_compute. reflexivity. Qed.

(** Both named neighbours are gone: the card lands in the middle of the keys,
    not at the bottom of the column. *)
Example Move_between_ghosts :
  dl_BoardPosition <$> db_deals (w_db (snd (@Move sql_ref uuid_ref 1 73
    {| mi_StageID := 61%N; mi_BeforeID := Some 98%N; mi_AfterID := Some 99%N; mi_LostReason := "" |}
    SystemActor quiet_board))) !! 73%N = Some "n".
Proof. vm_compute. reflexivity. Qed.
