(* ===== verification/Triggers.v ===== *)
(** * Automation triggers ([internal/crmactions/config.go],
      [internal/automation/catalog.go] and [match.go])

    The settings of a rule ([Config], a decoded JSON object), the catalog of
    triggers, and whether an event satisfies a rule's trigger.  How Go prints a
    number that is not a string is a parameter ([GoFmt]). *)
From S2P Require Import Prelude GoLib Store Events.

(** ** [crmactions.Config] *)

(** A decoded JSON object: keys once, in some order. *)
Definition Config : Type := list (string * any).

(** [c[key]]; the zero value when the key is not there. *)
Definition get (c : Config) (key : string) : any :=
  match List.find (fun e => String.eqb e.1 key) c with Some (_, v) => v | None => ANil end.

Definition Str (c : Config) (key : string) : string :=
  match get c key with AString s => TrimSpace s | _ => "" end.

Definition Boolean (c : Config) (key : string) : bool :=
  match get c key with ABool b => b | _ => false end.

Definition Number (c : Config) (key : string) : option float64 :=
  match get c key with
  | AFloat f => Some f
  | AInt n => Some (float_of_int n)
  | _ => None
  end.

Definition Integer (c : Config) (key : string) : Z := float_trunc (default float_zero (Number c key)).

Definition text_item (item : any) : option string :=
  match item with
  | AString s => if is_empty (TrimSpace s) then None else Some (TrimSpace s)
  | _ => None
  end.

Definition Strings (c : Config) (key : string) : list string :=
  match get c key with AList l => omap text_item l | _ => [] end.

Definition Object (c : Config) (key : string) : Config :=
  match get c key with AMap m => m | _ => [] end.

(** The arithmetic is that of [time.Duration], an [int64]. *)
Definition Duration (c : Config) (key : string) : option Z :=
  let spec := Object c key in
  match Number spec "amount" with
  | None => None
  | Some amount =>
      if f_mant amount <=? 0 then None
      else
        let n := float_trunc amount in
        let unit := Str spec "unit" in
        if String.eqb unit "minutes" then Some (wrap64 (n * Minute))
        else if String.eqb unit "hours" then Some (wrap64 (n * Hour))
        else if String.eqb unit "days" then Some (wrap64 (wrap64 (n * 24) * Hour))
        else None
  end.

(** ** [catalog.go] *)

Definition KindEvent := "event".
Definition KindTime := "time".
Definition TriggerNoCustomerReply := "time.no_customer_reply".
Definition TriggerNoAgentReply := "time.no_agent_reply".
Definition TriggerDateField := "time.date_field".

Record Trigger := MkTrigger {
  tg_Type : string;
  tg_Kind : string;
  tg_Group : string;
  tg_ConfigKeys : list string
}.

Definition triggers : list Trigger := [
  MkTrigger "contact.created" KindEvent "contacts" ["sources"%string];
  MkTrigger "contact.tag_added" KindEvent "contacts" ["tags"%string];
  MkTrigger "contact.tag_removed" KindEvent "contacts" ["tags"%string];
  MkTrigger "contact.field_changed" KindEvent "contacts" ["field"%string; "to"%string];
  MkTrigger "contact.assigned" KindEvent "contacts" ["to_user_ids"%string];
  MkTrigger "contact.lifecycle_stage_changed" KindEvent "contacts" ["to"%string];
  MkTrigger "conversation.created" KindEvent "conversations" ["accounts"%string];
  MkTrigger "conversation.status_changed" KindEvent "conversations" ["to"%string; "reasons"%string];
  MkTrigger "conversation.assigned" KindEvent "conversations" ["user_ids"%string; "team_ids"%string];
  MkTrigger "conversation.sla_breached" KindEvent "conversations" [];
  MkTrigger "call.missed" KindEvent "calls" ["direction"%string];
  MkTrigger "call.completed" KindEvent "calls" ["direction"%string];
  MkTrigger "chatbot.flow_completed" KindEvent "chatbot" ["flow_ids"%string];
  MkTrigger "campaign.replied" KindEvent "campaigns" ["campaign_ids"%string];
  MkTrigger "task.created" KindEvent "tasks" ["type_keys"%string];
  MkTrigger "task.completed" KindEvent "tasks" ["type_keys"%string];
  MkTrigger "task.overdue" KindEvent "tasks" ["type_keys"%string];
  MkTrigger "deal.created" KindEvent "deals" ["pipeline_id"%string];
  MkTrigger "deal.stage_changed" KindEvent "deals" ["pipeline_id"%string; "to_stage_ids"%string];
  MkTrigger "deal.won" KindEvent "deals" ["pipeline_id"%string];
  MkTrigger "deal.lost" KindEvent "deals" ["pipeline_id"%string];
  MkTrigger TriggerNoCustomerReply KindTime "time" ["after"%string; "statuses"%string];
  MkTrigger TriggerNoAgentReply KindTime "time" ["after"%string];
  MkTrigger TriggerDateField KindTime "time" ["field"%string; "offset_days"%string; "at_local_hour"%string]].

Definition LookupTrigger (triggerType : string) : option Trigger :=
  List.find (fun t => String.eqb (tg_Type t) triggerType) triggers.

Definition IsTimeTrigger (triggerType : string) : bool :=
  match LookupTrigger triggerType with Some t => String.eqb (tg_Kind t) KindTime | None => false end.

(** The builder's list: by group, then by type. *)
Definition trigger_before (a b : Trigger) : bool :=
  if negb (String.eqb (tg_Group a) (tg_Group b)) then String.ltb (tg_Group a) (tg_Group b)
  else String.ltb (tg_Type a) (tg_Type b).

Definition Triggers : list Trigger :=
  sort_by trigger_before
    (List.filter (fun t => negb (String.eqb (tg_Kind t) KindEvent && negb (IsKnown (tg_Type t)))) triggers).

Fixpoint join (sep : string) (l : list string) : string :=
  match l with
  | [] => ""
  | [s] => s
  | s :: l => (s ++ sep ++ join sep l)%string
  end.

Section Match.
Context `{GoFmt}.

Definition validateTriggerConfig (triggerType : string) (cfg : Config) : res err unit :=
  match LookupTrigger triggerType with
  | None => Err (ErrMsg ("automation: " ++ triggerType ++ " is not a trigger")%string)
  | Some trigger =>
      let unknown := List.filter (fun k => negb (existsb (String.eqb k) (tg_ConfigKeys trigger))) (fst <$> cfg) in
      if negb (Nat.eqb (length unknown) 0)
      then Err (ErrMsg ("automation: " ++ triggerType ++ " does not understand " ++ join ", " (sort_Strings unknown))%string)
      else if String.eqb triggerType TriggerNoCustomerReply || String.eqb triggerType TriggerNoAgentReply
      then match Duration cfg "after" with
           | Some _ => Ok tt
           | None => Err (ErrMsg ("automation: " ++ triggerType ++ " needs an after duration")%string)
           end
      else if String.eqb triggerType TriggerDateField
      then match get cfg "field" with
           | ANil => Err (ErrMsg ("automation: " ++ triggerType ++ " needs a date field")%string)
           | v => if is_empty (TrimSpace (Sprint v))
                  then Err (ErrMsg ("automation: " ++ triggerType ++ " needs a date field")%string)
                  else Ok tt
           end
      else Ok tt
  end.

(** ** [match.go] *)

Definition toText (value : any) : string :=
  match value with
  | ANil => ""
  | AString s => s
  | ABool b => if b then "true" else "false"
  | AFloat f => FormatFloat f
  | v => TrimSpace (Sprint v)
  end.

Definition dataString (event : Event) (key : string) : string := toText (get (e_Data event) key).

Definition EqualFold (a b : string) : bool := String.eqb (ToLower a) (ToLower b).

Definition Contains (s sub : string) : bool := is_some (String.index 0 sub s).

Definition anyOrEquals (expected value : string) : bool := is_empty expected || String.eqb expected value.

Definition member (allowed : list string) (value : string) : bool :=
  negb (is_empty value) && existsb (fun item => String.eqb item value) allowed.

Definition anyOrMember (allowed : list string) (value : string) : bool :=
  Nat.eqb (length allowed) 0 || member allowed value.

Definition anyOrMemberFold (allowed : list string) (value : string) : bool :=
  Nat.eqb (length allowed) 0 || existsb (fun item => EqualFold item value) allowed.

Definition matchValueCondition (cfg : Config) (value : any) : bool :=
  let operator := Str cfg "operator" in
  if is_empty operator then true
  else
    let actual := TrimSpace (toText value) in
    let expected := TrimSpace (toText (get cfg "value")) in
    if String.eqb operator "equals" then EqualFold actual expected
    else if String.eqb operator "not_equals" then negb (EqualFold actual expected)
    else if String.eqb operator "contains" then Contains (ToLower actual) (ToLower expected)
    else if String.eqb operator "is_empty" then is_empty actual
    else if String.eqb operator "is_not_empty" then negb (is_empty actual)
    else false.

(** [MatchTrigger], given the rule's trigger type and settings. *)
Definition MatchTrigger (triggerType : string) (cfg : Config) (event : Event) : bool :=
  let ty t := String.eqb triggerType t in
  let data := dataString event in
  if negb (String.eqb triggerType (e_Type event)) then false
  else if ty "contact.created"%string then anyOrMember (Strings cfg "sources") (data "source"%string)
  else if ty "contact.tag_added"%string || ty "contact.tag_removed"%string
  then anyOrMemberFold (Strings cfg "tags") (data "tag"%string)
  else if ty "contact.field_changed"%string then
    let field := Str cfg "field" in
    if negb (is_empty field) && negb (String.eqb field (data "field"%string)) then false
    else
      let values := Strings cfg "to" in
      if Nat.ltb 0 (length values)
      then anyOrMemberFold values (TrimSpace (toText (get (e_Data event) "to")))
      else matchValueCondition (Object cfg "to") (get (e_Data event) "to")
  else if ty "contact.assigned"%string then anyOrMember (Strings cfg "to_user_ids") (data "to"%string)
  else if ty "conversation.created"%string then anyOrMember (Strings cfg "accounts") (data "account"%string)
  else if ty "conversation.status_changed"%string then
    if negb (anyOrMember (Strings cfg "to") (data "to"%string)) then false
    else anyOrMember (Strings cfg "reasons") (data "reason"%string)
  else if ty "conversation.assigned"%string then
    if Nat.eqb (length (Strings cfg "user_ids")) 0 && Nat.eqb (length (Strings cfg "team_ids")) 0 then true
    else member (Strings cfg "user_ids") (data "assignee_id"%string) ||
         member (Strings cfg "team_ids") (data "team_id"%string)
  else if ty "task.created"%string || ty "task.completed"%string || ty "task.overdue"%string
  then anyOrMember (Strings cfg "type_keys") (data "type_key"%string)
  else if ty "deal.created"%string || ty "deal.won"%string || ty "deal.lost"%string
  then anyOrEquals (Str cfg "pipeline_id") (data "pipeline_id"%string)
  else if ty "deal.stage_changed"%string then
    if negb (anyOrEquals (Str cfg "pipeline_id") (data "pipeline_id"%string)) then false
    else anyOrMember (Strings cfg "to_stage_ids") (data "stage_id"%string)
  else if ty "contact.lifecycle_stage_changed"%string then anyOrMember (Strings cfg "to") (data "stage"%string)
  else if ty "call.missed"%string || ty "call.completed"%string
  then anyOrEquals (Str cfg "direction") (data "direction"%string)
  else if ty "chatbot.flow_completed"%string then anyOrMember (Strings cfg "flow_ids") (data "flow_id"%string)
  else if ty "campaign.replied"%string then anyOrMember (Strings cfg "campaign_ids") (data "campaign_id"%string)
  else if ty "conversation.sla_breached"%string then true
  else IsTimeTrigger triggerType.
End Match.

(** ** The catalog and the code agree *)

(** Every trigger type is listed once. *)
Example triggers_once : bool_decide (NoDup (tg_Type <$> triggers)) = true.
Proof. vm_compute. reflexivity. Qed.

(** Every event trigger names an event that exists and may be automated on. *)
Example triggers_automatable :
  forallb (fun t => String.eqb (tg_Kind t) KindTime || existsb (String.eqb (tg_Type t)) AutomatableEventTypes) triggers = true.
Proof. vm_compute. reflexivity. Qed.

Section MatchProps.
Context `{GoFmt}.

(** Case analysis over the catalog. *)
Lemma trigger_cases (P : Trigger -> Prop) triggerType t :
  Forall P triggers -> LookupTrigger triggerType = Some t -> tg_Type t = triggerType /\ P t.
Proof.
  intros HP Hl. unfold LookupTrigger in Hl. apply List.find_some in Hl as [Hin Ht%String.eqb_eq].
  split; [done|]. apply list_elem_of_In in Hin. by apply (proj1 (Forall_forall _ _) HP).
Qed.

(** A matcher that reads the settings through the trigger's own keys only. *)
Definition reads_its_keys (t : Trigger) : Prop :=
  forall cfg cfg' event, (forall k, k ∈ tg_ConfigKeys t -> get cfg k = get cfg' k) ->
    MatchTrigger (tg_Type t) cfg event = MatchTrigger (tg_Type t) cfg' event.

Lemma triggers_read_their_keys : Forall reads_its_keys triggers.
Proof.
  repeat constructor; intros cfg cfg' event Hk; unfold MatchTrigger;
    (destruct (negb _); [done|]); simpl String.eqb; cbv iota beta zeta; simpl orb; cbv iota;
    unfold Strings, Str, Object; rewrite ?Hk by (simpl; set_solver); reflexivity.
Qed.

(** What a trigger's settings can do.  An event of another type never
    starts a rule; a rule without settings starts on every event of its type;
    and only the settings the catalog lists for the trigger (the ones
    [validateTriggerConfig] lets through) have any influence. *)
Theorem MatchTrigger_settings triggerType t event :
  LookupTrigger triggerType = Some t ->
  (e_Type event <> triggerType -> forall cfg, MatchTrigger triggerType cfg event = false) /\
  (e_Type event = triggerType -> MatchTrigger triggerType [] event = true) /\
  (forall cfg cfg', (forall k, k ∈ tg_ConfigKeys t -> get cfg k = get cfg' k) ->
     MatchTrigger triggerType cfg event = MatchTrigger triggerType cfg' event) /\
  (forall cfg u, validateTriggerConfig triggerType cfg = Ok u -> forall k, k ∈ fst <$> cfg -> k ∈ tg_ConfigKeys t).
Proof.
  intros Hl. split_and!.
  - intros Hne cfg. unfold MatchTrigger. assert (String.eqb triggerType (e_Type event) = false) as ->; [|done].
    apply String.eqb_neq. congruence.
  - intros <-. apply (trigger_cases (fun t => forall event, e_Type event = tg_Type t -> MatchTrigger (tg_Type t) [] event = true)) in Hl as [E Hm].
    + rewrite <- E. by apply Hm.
    + repeat constructor; intros e He; unfold MatchTrigger; rewrite He; reflexivity.
  - intros cfg cfg'. apply (trigger_cases reads_its_keys) in Hl as [<- Hr]; [apply Hr|apply triggers_read_their_keys].
  - intros cfg u. unfold validateTriggerConfig. rewrite Hl. cbv zeta.
    destruct (Nat.eqb_spec (length (List.filter (fun k => negb (existsb (String.eqb k) (tg_ConfigKeys t))) (fst <$> cfg))) 0)
      as [Hz|]; [|done]. simpl negb. intros _ k Hk. apply nil_length_inv in Hz.
    destruct (existsb (String.eqb k) (tg_ConfigKeys t)) eqn:E.
    + apply existsb_exists in E as (k' & Hin & ->%String.eqb_eq). by apply list_elem_of_In.
    + exfalso. assert (In k []) as []. rewrite <- Hz. apply filter_In. split; [by apply list_elem_of_In|by rewrite E].
Qed.
End MatchProps.

Definition fmt_ref : GoFmt := {| FormatFloat x := "0"; Sprint x := "x" |}.

Lemma MatchTrigger_settings_witness :
  @MatchTrigger fmt_ref "contact.tag_added" [("tags"%string, AList [AString "VIP"])]
    (New_event 1 0 1 "contact.tag_added" SystemActor [("tag"%string, AString "vip")]) = true /\
  @MatchTrigger fmt_ref "contact.tag_added" []
    (New_event 1 0 1 "contact.tag_added" SystemActor [("tag"%string, AString "vip")]) = true.
Proof.
  split; [vm_compute; reflexivity|].
  apply (@MatchTrigger_settings fmt_ref "contact.tag_added" (MkTrigger "contact.tag_added" KindEvent "contacts" ["tags"%string])
    (New_event 1 0 1 "contact.tag_added" SystemActor [("tag"%string, AString "vip")])); reflexivity.
Defined.
