(* ===== verification/Broadcasts.v ===== *)
(** * Telling browsers about events ([handlers/crm_events.go])

    Every replica subscribes to the fan-out channel and passes what arrives to
    its local hub: the generic [crm_event] and, for the events a view patches
    itself from, a typed one.  Only ids travel; clients fetch the record with
    their own permissions. *)
From S2P Require Import Prelude GoLib Store Events Wire Hub Triggers.

Definition TypeCRMEvent := "crm_event".
Definition TypeContactUpdated := "contact_updated".
Definition TypeContactMerged := "contact_merged".
Definition TypeConversationUpdated := "conversation_updated".
Definition TypeTaskUpdated := "task_updated".
Definition TypeCustomFieldsUpdated := "custom_fields_updated".

Section Broadcasts.
Context `{GJ : GoJson}.

Definition ContactTopic (id : string) : string := ("contact:" ++ id)%string.

Definition when_some {A} (key : string) (f : A -> any) (o : option A) : list (string * any) :=
  match o with Some a => [(key, f a)] | None => [] end.

Definition crmEventPayload (e : Event) : list (string * any) :=
  [("event_id"%string, AString (uuid_String (e_ID e))); ("type"%string, AString (e_Type e));
   ("occurred_at"%string, ATime (e_OccurredAt e))] ++
  when_some "contact_id" (fun c => AString (uuid_String c)) (e_ContactID e) ++
  (if is_empty (subj_Type (e_Subject e)) then [] else [("subject_type"%string, AString (subj_Type (e_Subject e)))]) ++
  when_some "subject_id" (fun s => AString (uuid_String s)) (subj_ID (e_Subject e)).

Definition one_of (types : list string) (ty : string) : bool := existsb (String.eqb ty) types.

Definition contact_changes : list string :=
  ["contact.created"; "contact.updated"; "contact.assigned"; "contact.tag_added"; "contact.tag_removed";
   "contact.deleted"; "contact.restored"; "contact.lifecycle_stage_changed"].
Definition conversation_changes : list string :=
  ["conversation.created"; "conversation.status_changed"; "conversation.assigned"].
Definition task_changes : list string :=
  ["task.created"; "task.completed"; "task.updated"; "task.cancelled"; "task.overdue"; "task.due"].

(** The helper [send]: to the organization, and on the contact's topic. *)
Definition send (e : Event) (payload : list (string * any)) (msgType : string) : list BroadcastMessage :=
  let msg := {| ws_Type := msgType; ws_Payload := AMap payload |} in
  bm_org (e_OrgID e) msg ::
  match e_ContactID e with Some c => [bm_topic (e_OrgID e) (ContactTopic (uuid_String c)) msg] | None => [] end.

Definition merged_payload (e : Event) (payload : list (string * any)) : list (string * any) :=
  payload ++ [("primary_contact_id"%string, get (e_Data e) "primary_contact_id");
              ("secondary_contact_id"%string, get (e_Data e) "secondary_contact_id")].

Definition broadcastTypedEvent (e : Event) (payload : list (string * any)) : list BroadcastMessage :=
  if one_of contact_changes (e_Type e) then send e payload TypeContactUpdated
  else if String.eqb (e_Type e) "contact.field_changed" then send e payload TypeCustomFieldsUpdated
  else if String.eqb (e_Type e) "contact.merged" then
    let msg := {| ws_Type := TypeContactMerged; ws_Payload := AMap (merged_payload e payload) |} in
    bm_org (e_OrgID e) msg ::
    match get (e_Data e) "secondary_contact_id" with
    | AString secondary => if is_empty secondary then [] else [bm_topic (e_OrgID e) (ContactTopic secondary) msg]
    | _ => []
    end
  else if one_of conversation_changes (e_Type e) then send e payload TypeConversationUpdated
  else if one_of task_changes (e_Type e) then send e payload TypeTaskUpdated
  else [].

(** What one event becomes for the hub, in order. *)
Definition event_messages (e : Event) : list BroadcastMessage :=
  bm_org (e_OrgID e) {| ws_Type := TypeCRMEvent; ws_Payload := AMap (crmEventPayload e) |} ::
  broadcastTypedEvent e (crmEventPayload e).

(** One message of the subscription of [StartCRMEventSubscriber]. *)
Definition on_fanout (payload : string) (h : Hub) : Hub :=
  match DecodeFanout payload with
  | Err _ => h
  | Ok event => fold_left (fun h msg => Broadcast msg h) (event_messages event) h
  end.

(** ** Only ids *)

Definition same_header (e e' : Event) : Prop :=
  e_ID e = e_ID e' /\ e_Type e = e_Type e' /\ e_OrgID e = e_OrgID e' /\ e_ContactID e = e_ContactID e' /\
  e_Subject e = e_Subject e' /\ e_OccurredAt e = e_OccurredAt e'.

Definition payload_keys : list string :=
  ["event_id"; "type"; "occurred_at"; "contact_id"; "subject_type"; "subject_id"; "primary_contact_id"; "secondary_contact_id"].

Definition known_keys (fields : list (string * any)) : bool := forallb (fun f => one_of payload_keys f.1) fields.

Definition ids_only (m : BroadcastMessage) : Prop :=
  exists fields, ws_Payload (bm_Message m) = AMap fields /\ known_keys fields = true.

Lemma crmEventPayload_keys e : known_keys (crmEventPayload e) = true.
Proof. unfold crmEventPayload, when_some. by destruct (e_ContactID e), (is_empty _), (subj_ID _). Qed.

Lemma merged_payload_keys e payload : known_keys payload = true -> known_keys (merged_payload e payload) = true.
Proof. intros Hp. unfold known_keys, merged_payload in *. by rewrite forallb_app, Hp. Qed.

Lemma send_spec e payload ty m :
  m ∈ send e payload ty -> bm_OrgID m = e_OrgID e /\ bm_UserID m = uuid_Nil /\ ws_Payload (bm_Message m) = AMap payload.
Proof.
  unfold send. destruct (e_ContactID e); rewrite !elem_of_cons, elem_of_nil; naive_solver.
Qed.

(** C20: Browsers hear ids only.  What the hub is given for an event does not
    depend on the event's data, except for the two contact ids of a merge; it
    goes to the event's organization, and its payload has no other keys than
    the ids, the type and the time. *)
Theorem browsers_hear_ids_only e e' :
  same_header e e' ->
  (e_Type e = "contact.merged" ->
     get (e_Data e) "primary_contact_id" = get (e_Data e') "primary_contact_id" /\
     get (e_Data e) "secondary_contact_id" = get (e_Data e') "secondary_contact_id") ->
  event_messages e = event_messages e' /\
  forall m, m ∈ event_messages e -> bm_OrgID m = e_OrgID e /\ bm_UserID m = uuid_Nil /\ ids_only m.
Proof.
  intros (E1 & E2 & E3 & E4 & E5 & E6) Hmerged. split.
  - unfold event_messages, broadcastTypedEvent, crmEventPayload, send, merged_payload. rewrite E1, E2, E3, E4, E5, E6 in *.
    destruct (String.eqb_spec (e_Type e') "contact.merged") as [Em|]; [|done]. by destruct (Hmerged Em) as [-> ->].
  - pose proof (crmEventPayload_keys e) as Hkeys. pose proof (merged_payload_keys e _ Hkeys) as Hmkeys.
    assert (forall ty m, m ∈ send e (crmEventPayload e) ty -> bm_OrgID m = e_OrgID e /\ bm_UserID m = uuid_Nil /\ ids_only m) as Hsend.
    { intros ty m (? & ? & Hp)%send_spec. split_and!; [done..|]. by eexists. }
    intros m. unfold event_messages. rewrite elem_of_cons. intros [->|Hm]; [split_and!; [done..|]; by eexists|].
    unfold broadcastTypedEvent in Hm.
    destruct (one_of contact_changes _); [by eapply Hsend|]. destruct (String.eqb _ "contact.field_changed"); [by eapply Hsend|].
    destruct (String.eqb _ "contact.merged").
    + apply elem_of_cons in Hm as [->|Hm]; [split_and!; [done..|]; by eexists|].
      repeat case_match; try (by apply not_elem_of_nil in Hm).
      apply elem_of_cons in Hm as [->|Hm%not_elem_of_nil]; [split_and!; [done..|]; by eexists|done].
    + destruct (one_of conversation_changes _); [by eapply Hsend|]. destruct (one_of task_changes _); [by eapply Hsend|].
      by apply not_elem_of_nil in Hm.
Qed.
End Broadcasts.

Definition merge_event (data : list (string * any)) : Event :=
  ForContact 7 (New_event 20 0 1 "contact.merged" SystemActor
    ([("primary_contact_id"%string, AString "7"); ("secondary_contact_id"%string, AString "8")] ++ data)).

Lemma browsers_hear_ids_only_witness :
  @event_messages uuid_ref (merge_event [("phone"%string, AString "+49 30 1234567")]) = @event_messages uuid_ref (merge_event []) /\
  length (@event_messages uuid_ref (merge_event [])) = 3%nat.
Proof.
  split; [|vm_compute; reflexivity].
  apply (@browsers_hear_ids_only uuid_ref (merge_event [("phone"%string, AString "+49 30 1234567")]) (merge_event []));
    [split_and!; reflexivity|intros _; split; reflexivity].
Defined.
