(* ===== verification/Steps.v ===== *)
(** * Automation steps ([internal/automation/steps.go] and [flow.go])

    A rule's path is a tree of steps: actions, questions with two branches and
    waits.  [stepChecker] refuses malformed trees, [stepRunner] walks a tree
    for one contact, [continuationAfter] finds where a paused walk goes on.

    The actions themselves ([internal/crmactions]) and the filters of
    questions ([internal/contactquery]) are interfaces ([StepLib], [StepEnv]):
    an action acts on a state [Outside] of its own and may fail. *)
From S2P Require Import Prelude GoLib Store Events Triggers.

Class StepLib := {
  Filter : Type;
  Registry : Type;
  decode_filter : any -> option Filter;              (** JSON to a filter that is not empty *)
  Lookup_action : string -> bool;                    (** [crmactions.Lookup] *)
  Validate_action : string -> Config -> option string; (** [crmactions.Validate], the plain error *)
  Validate_filter : Registry -> Filter -> option string (** [contactquery.Validate] *)
}.

(** ** [rules.go]: [ActionSpec] *)

Inductive ActionSpec :=
| MkStep (ID Type_ : string) (Config_ : Config) (ContinueOnError : bool) (Then Else : list ActionSpec).

Definition as_ID (s : ActionSpec) : string := let '(MkStep x _ _ _ _ _) := s in x.
Definition as_Type (s : ActionSpec) : string := let '(MkStep _ x _ _ _ _) := s in x.
Definition as_Config (s : ActionSpec) : Config := let '(MkStep _ _ x _ _ _) := s in x.
Definition as_ContinueOnError (s : ActionSpec) : bool := let '(MkStep _ _ _ x _ _) := s in x.
Definition as_Then (s : ActionSpec) : list ActionSpec := let '(MkStep _ _ _ _ x _) := s in x.
Definition as_Else (s : ActionSpec) : list ActionSpec := let '(MkStep _ _ _ _ _ x) := s in x.

(** Induction over a tree and its branches. *)
Section StepInd.
Variable P : ActionSpec -> Prop.
Hypothesis Hstep : forall id ty cfg c t e, Forall P t -> Forall P e -> P (MkStep id ty cfg c t e).

Fixpoint step_ind (s : ActionSpec) : P s :=
  match s with
  | MkStep id ty cfg c t e =>
      let fix go (l : list ActionSpec) : Forall P l :=
        match l with [] => Forall_nil_2 P | x :: l => Forall_cons_2 P x l (step_ind x) (go l) end in
      Hstep id ty cfg c t e (go t) (go e)
  end.
End StepInd.

(** ** [steps.go] *)

Definition StepCondition := "condition".
Definition StepWait := "wait".
Definition MaxStepsPerRule : nat := 40.
Definition MaxNesting : nat := 3.
Definition MaxWait : Z := 30 * 24 * Hour.
Definition MinWait : Z := Minute.

Definition IsFlowStep (t : string) : bool := String.eqb t StepCondition || String.eqb t StepWait.

Definition waitDuration (cfg : Config) : option Z := Duration cfg "for".

Record StepProblem := { sp_StepID : string; sp_Message : string }.

(** Every step on every path. *)
Fixpoint step_count (s : ActionSpec) : nat :=
  match s with
  | MkStep _ _ _ _ t e => 1 + list_sum (step_count <$> t) + list_sum (step_count <$> e)
  end.
Definition countSteps (steps : list ActionSpec) : nat := list_sum (step_count <$> steps).

(** [continuationAfter] on a list, given what it finds inside a step. *)
Section Continuation.
Variable inside : ActionSpec -> option (list (list ActionSpec)).

Fixpoint cont_list (id : string) (steps : list ActionSpec) : option (list (list ActionSpec)) :=
  match steps with
  | [] => None
  | s :: rest =>
      if String.eqb (as_ID s) id then Some [rest]
      else match inside s with
           | Some inner => Some (inner ++ [rest])
           | None => cont_list id rest
           end
  end.
End Continuation.

Fixpoint cont_inside (id : string) (s : ActionSpec) : option (list (list ActionSpec)) :=
  match s with
  | MkStep _ _ _ _ t e =>
      match cont_list (cont_inside id) id t with
      | Some inner => Some inner
      | None => cont_list (cont_inside id) id e
      end
  end.

Definition continuationAfter (steps : list ActionSpec) (id : string) : option (list (list ActionSpec)) :=
  cont_list (cont_inside id) id steps.

(** [findStep]. *)
Section Find.
Variable inside : ActionSpec -> option ActionSpec.

Fixpoint find_list (id : string) (steps : list ActionSpec) : option ActionSpec :=
  match steps with
  | [] => None
  | s :: rest =>
      if String.eqb (as_ID s) id then Some s
      else match inside s with Some found => Some found | None => find_list id rest end
  end.
End Find.

Fixpoint find_inside (id : string) (s : ActionSpec) : option ActionSpec :=
  match s with
  | MkStep _ _ _ _ t e =>
      match find_list (find_inside id) id t with
      | Some found => Some found
      | None => find_list (find_inside id) id e
      end
  end.

Definition findStep (steps : list ActionSpec) (id : string) : option ActionSpec :=
  find_list (find_inside id) id steps.

(** *** [stepChecker] *)

Section Checker.
Context `{SL : StepLib}.
(** [c.registry()]. *)
Variable registry : res err Registry.

Definition conditionFilter (cfg : Config) : option Filter := decode_filter (get cfg "filter").

Record stepChecker := {
  sc_seen : list string;
  sc_count : nat;
  sc_structural : option err;
  sc_problems : list StepProblem
}.

Definition sc_init : stepChecker :=
  {| sc_seen := []; sc_count := 0; sc_structural := None; sc_problems := [] |}.

Definition sc_fail (e : err) (c : stepChecker) : stepChecker :=
  {| sc_seen := sc_seen c; sc_count := sc_count c; sc_structural := Some e; sc_problems := sc_problems c |}.
Definition sc_problem (id message : string) (c : stepChecker) : stepChecker :=
  {| sc_seen := sc_seen c; sc_count := sc_count c; sc_structural := sc_structural c;
     sc_problems := sc_problems c ++ [{| sp_StepID := id; sp_Message := message |}] |}.
Definition sc_counted (c : stepChecker) : stepChecker :=
  {| sc_seen := sc_seen c; sc_count := S (sc_count c); sc_structural := sc_structural c; sc_problems := sc_problems c |}.
Definition sc_saw (id : string) (c : stepChecker) : stepChecker :=
  {| sc_seen := sc_seen c ++ [id]; sc_count := sc_count c; sc_structural := sc_structural c; sc_problems := sc_problems c |}.

(** [StepError.Error]. *)
Definition step_error (id message : string) : err :=
  ErrMsg (if is_empty id then "automation: " ++ message else "automation: step " ++ id ++ ": " ++ message)%string.

Definition checkCondition (s : ActionSpec) (c : stepChecker) : stepChecker :=
  match conditionFilter (as_Config s) with
  | None => sc_problem (as_ID s) "choose what to check about the contact" c
  | Some filter =>
      match registry with
      | Err e => sc_fail e c
      | Ok reg =>
          match Validate_filter reg filter with
          | Some m => sc_problem (as_ID s) m c
          | None => c
          end
      end
  end.

Definition checkWait (s : ActionSpec) (c : stepChecker) : stepChecker :=
  match waitDuration (as_Config s) with
  | None => sc_problem (as_ID s) "choose how long to wait" c
  | Some wait =>
      if wait <? MinWait then sc_problem (as_ID s) "a wait must be at least a minute" c
      else if MaxWait <? wait then sc_problem (as_ID s) "a wait can be at most 30 days" c
      else c
  end.

(** [walk] over a list, given the check of one step. *)
Fixpoint walk_list (one : ActionSpec -> stepChecker -> stepChecker) (steps : list ActionSpec) (c : stepChecker) : stepChecker :=
  match steps with
  | [] => c
  | s :: rest => if is_some (sc_structural c) then c else walk_list one rest (one s c)
  end.

Definition has_branches (s : ActionSpec) : bool :=
  Nat.ltb 0 (length (as_Then s)) || Nat.ltb 0 (length (as_Else s)).

(** What [walk] does to a step that is not a question. *)
Definition check_leaf (s : ActionSpec) (c : stepChecker) : stepChecker :=
  if String.eqb (as_Type s) StepWait then
    if has_branches s then sc_fail (step_error (as_ID s) "only a question can split the path") c
    else checkWait s c
  else if negb (Lookup_action (as_Type s)) then
    sc_fail (step_error (as_ID s) (quote (as_Type s) ++ " is not a step this product can run")%string) c
  else if has_branches s then sc_fail (step_error (as_ID s) "only a question can split the path") c
  else match Validate_action (as_Type s) (as_Config s) with
       | Some m => sc_problem (as_ID s) m c
       | None => c
       end.

(** The checks every step passes first; [None] when one of them failed. *)
Definition check_entry (s : ActionSpec) (c : stepChecker) : stepChecker :=
  let c := sc_counted c in
  if Nat.ltb MaxStepsPerRule (sc_count c) then sc_fail (step_error "" "a rule may have at most 40 steps") c
  else if is_empty (as_ID s) then sc_fail (step_error "" "every step needs an id") c
  else if existsb (String.eqb (as_ID s)) (sc_seen c) then sc_fail (step_error (as_ID s) "two steps share this id") c
  else sc_saw (as_ID s) c.

Fixpoint walk_step (s : ActionSpec) (depth : nat) (c : stepChecker) : stepChecker :=
  match s with
  | MkStep id ty cfg _ t e =>
      let c := check_entry s c in
      if is_some (sc_structural c) then c
      else if String.eqb ty StepCondition then
        if Nat.leb MaxNesting depth then sc_fail (step_error id "questions can be nested at most 3 deep") c
        else
          let c := checkCondition s c in
          let c := walk_list (fun s => walk_step s (S depth)) t c in
          walk_list (fun s => walk_step s (S depth)) e c
      else check_leaf s c
  end.

Definition walk (steps : list ActionSpec) (depth : nat) (c : stepChecker) : stepChecker :=
  walk_list (fun s => walk_step s depth) steps c.
End Checker.

(** ** [flow.go]: [stepRunner] *)

(** What every step of one run shares. *)
Record RunContext := {
  rc_OrgID : uuid;
  rc_Event : Event;
  rc_Actor : Actor;
  rc_Origin : Origin;
  rc_CreatorID : option uuid;
  rc_DryRun : bool;
  rc_ContactID : uuid;
  rc_Vars : list (string * any)
}.

Class StepEnv `{StepLib} := {
  Outside : Type;
  (** [crmactions.Execute]: the output, the error's text if it failed, and what it did. *)
  Execute : RunContext -> string -> Config -> Outside -> list (string * any) * option string * Outside;
  (** [filterMatches]: does the contact satisfy the filter? *)
  filterMatches : uuid -> Filter -> uuid -> Outside -> res string bool
}.

Definition ResultWaiting := "waiting".
Definition Succeeded := "succeeded".
Definition Failed := "failed".
Definition Skipped := "skipped".

Record ActionResult := MkResult {
  rs_ID : string;
  rs_Type : string;
  rs_Status : string;
  rs_Error : string;
  rs_Output : list (string * any)
}.

Record pause := MkPause { pa_StepID : string; pa_ResumeAt : time }.

Section Runner.
Context `{SE : StepEnv}.
Variable orgID : uuid.       (* [r.rule.OrganizationID] *)
Variable rc : RunContext.
Variable dryRun : bool.
Variable now_ : time.        (* [time.Now().UTC()] *)

(** The changing fields of [stepRunner], and the outside world. *)
Record stepRunner := MkRunner {
  rn_results : list ActionResult;
  rn_stopped : bool;
  rn_paused : option pause;
  rn_out : Outside
}.

Definition halted (r : stepRunner) : bool := rn_stopped r || is_some (rn_paused r).

Definition record (res : ActionResult) (r : stepRunner) : stepRunner :=
  MkRunner (rn_results r ++ [res]) (rn_stopped r) (rn_paused r) (rn_out r).
Definition stop (r : stepRunner) : stepRunner := MkRunner (rn_results r) true (rn_paused r) (rn_out r).
Definition stop_unless (b : bool) (r : stepRunner) : stepRunner := if b then r else stop r.
Definition set_out (o : Outside) (r : stepRunner) : stepRunner :=
  MkRunner (rn_results r) (rn_stopped r) (rn_paused r) o.
Definition set_paused (p : option pause) (r : stepRunner) : stepRunner :=
  MkRunner (rn_results r) (rn_stopped r) p (rn_out r).

Definition runAction (s : ActionSpec) (r : stepRunner) : stepRunner :=
  match Validate_action (as_Type s) (as_Config s) with
  | Some m => stop_unless (as_ContinueOnError s) (record (MkResult (as_ID s) (as_Type s) Failed m []) r)
  | None =>
      match Execute rc (as_Type s) (as_Config s) (rn_out r) with
      | (output, None, o) => record (MkResult (as_ID s) (as_Type s) Succeeded "" output) (set_out o r)
      | (output, Some m, o) =>
          stop_unless (as_ContinueOnError s) (record (MkResult (as_ID s) (as_Type s) Failed m output) (set_out o r))
      end
  end.

Definition runWait (s : ActionSpec) (r : stepRunner) : stepRunner :=
  match waitDuration (as_Config s) with
  | None => stop (record (MkResult (as_ID s) (as_Type s) Failed "the wait has no length" []) r)
  | Some wait =>
      let until := now_ + wait in
      if dryRun then
        record (MkResult (as_ID s) (as_Type s) Succeeded "" [("until"%string, ATime until); ("dry_run"%string, ABool true)]) r
      else
        set_paused (Some (MkPause (as_ID s) until))
          (record (MkResult (as_ID s) (as_Type s) ResultWaiting "" [("until"%string, ATime until)]) r)
  end.

(** The answer to a question, or the error. *)
Definition condition_answer (s : ActionSpec) (r : stepRunner) : res string bool :=
  match conditionFilter (as_Config s) with
  | Some filter =>
      if N.eqb (rc_ContactID rc) uuid_Nil then Ok false
      else filterMatches orgID filter (rc_ContactID rc) (rn_out r)
  | None => Ok false
  end.

Definition condition_result (s : ActionSpec) (matched : bool) : ActionResult :=
  MkResult (as_ID s) (as_Type s) Succeeded ""
    [("matched"%string, ABool matched); ("branch"%string, AString (if matched then "then" else "else"))].

Definition skipped (s : ActionSpec) : ActionResult :=
  MkResult (as_ID s) (as_Type s) Skipped "an earlier step failed" [].

(** [run] over a list, given the run of one step. *)
Fixpoint run_list (one : ActionSpec -> stepRunner -> stepRunner) (steps : list ActionSpec) (r : stepRunner) : stepRunner :=
  match steps with
  | [] => r
  | s :: rest =>
      if is_some (rn_paused r) then r
      else if rn_stopped r then
        MkRunner (rn_results r ++ (skipped <$> steps)) (rn_stopped r) (rn_paused r) (rn_out r)
      else run_list one rest (one s r)
  end.

Fixpoint run_step (s : ActionSpec) (r : stepRunner) : stepRunner :=
  match s with
  | MkStep id ty _ _ t e =>
      if String.eqb ty StepCondition then
        match condition_answer s r with
        | Err m => stop (record (MkResult id ty Failed m []) r)
        | Ok matched => run_list run_step (if matched then t else e) (record (condition_result s matched) r)
        end
      else if String.eqb ty StepWait then runWait s r
      else runAction s r
  end.

Definition run (steps : list ActionSpec) (r : stepRunner) : stepRunner := run_list run_step steps r.

(** The loop of [resume]: list after list until the runner halts. *)
Fixpoint run_lists (lists : list (list ActionSpec)) (r : stepRunner) : stepRunner :=
  match lists with
  | [] => r
  | l :: rest => let r := run l r in if halted r then r else run_lists rest r
  end.
End Runner.

(** ** [flow.go] and [engine.go]: results *)

Fixpoint finish_last (id : string) (rev_results : list ActionResult) : list ActionResult :=
  match rev_results with
  | [] => []
  | x :: rest =>
      if String.eqb (rs_ID x) id && String.eqb (rs_Status x) ResultWaiting
      then MkResult (rs_ID x) (rs_Type x) Succeeded (rs_Error x) (rs_Output x) :: rest
      else x :: finish_last id rest
  end.

(** The last result of the step that is still waiting is done. *)
Definition finishWaitResult (results : list ActionResult) (id : string) : list ActionResult :=
  reverse (finish_last id (reverse results)).

Definition AutomationSucceeded := "succeeded".
Definition AutomationPartiallyFailed := "partially_failed".
Definition AutomationFailed := "failed".
Definition AutomationSkipped := "skipped".
Definition AutomationWaiting := "waiting".
Definition AutomationCancelled := "cancelled".

Definition count_status (st : string) (results : list ActionResult) : nat :=
  length (List.filter (fun x => String.eqb (rs_Status x) st) results).

Definition statusFor (results : list ActionResult) : string :=
  if Nat.eqb (length results) 0 then AutomationSucceeded
  else if Nat.eqb (count_status Failed results) 0 then AutomationSucceeded
  else if Nat.eqb (count_status Succeeded results) 0 then AutomationFailed
  else AutomationPartiallyFailed.
