(* ===== verification/StepsProps.v ===== *)
(** * Properties of automation steps

    What [stepChecker] accepts; that a run parked at a wait and resumed does
    what a run without the wait would have done. *)
From S2P Require Import Prelude GoLib Store Events Triggers Steps.

#[local] Arguments Nat.leb : simpl never.
#[local] Arguments Nat.ltb : simpl never.
#[local] Arguments has_branches : simpl never.

(** ** Trees *)

(** The ids of a step and of the steps on its paths, in the order of the walk. *)
Fixpoint step_ids (s : ActionSpec) : list string :=
  match s with
  | MkStep id _ _ _ t e => id :: mjoin (step_ids <$> t) ++ mjoin (step_ids <$> e)
  end.
Definition tree_ids (steps : list ActionSpec) : list string := mjoin (step_ids <$> steps).

Lemma tree_ids_cons s steps : tree_ids (s :: steps) = step_ids s ++ tree_ids steps.
Proof. done. Qed.

Lemma step_ids_length s : length (step_ids s) = step_count s.
Proof.
  induction s as [id ty cfg c t e Ht He] using step_ind. simpl. rewrite length_app. f_equal.
  assert (forall l, Forall (fun s => length (step_ids s) = step_count s) l ->
    length (mjoin (step_ids <$> l)) = list_sum (step_count <$> l)) as Hl.
  { intros l Hl. induction Hl as [|x l Hx Hl IH]; [done|].
    change (mjoin (step_ids <$> x :: l)) with (step_ids x ++ mjoin (step_ids <$> l)).
    rewrite length_app, Hx, IH. done. }
  by rewrite !Hl.
Qed.

Lemma tree_ids_length steps : length (tree_ids steps) = countSteps steps.
Proof.
  unfold countSteps. induction steps as [|s l IH]; [done|]. rewrite tree_ids_cons, length_app, step_ids_length, IH. done.
Qed.

(** ** What the checker accepts *)

Section Checker.
Context `{SL : StepLib}.

(** The shape of a step at a nesting depth: it has an id; only a question has
    branches, at most three deep; anything else is a wait or a known action. *)
Fixpoint well_shaped (depth : nat) (s : ActionSpec) : bool :=
  match s with
  | MkStep id ty _ _ t e =>
      negb (is_empty id) &&
      if String.eqb ty StepCondition
      then Nat.ltb depth MaxNesting && forallb (well_shaped (S depth)) t && forallb (well_shaped (S depth)) e
      else (String.eqb ty StepWait || Lookup_action ty) && negb (has_branches s)
  end.

(** The checks of a walk have to do with its state so far in this way. *)
Definition walked (reg : Registry) (ids : list string) (ok : bool) (c c' : stepChecker) : Prop :=
  (sc_structural c' = None <->
     sc_structural c = None /\ (sc_count c + length ids <= MaxStepsPerRule)%nat /\
     NoDup ids /\ (forall x, x ∈ ids -> x ∉ sc_seen c) /\ ok = true) /\
  (sc_structural c' = None -> sc_seen c' = sc_seen c ++ ids /\ sc_count c' = (sc_count c + length ids)%nat).

Lemma walked_nil reg c : (sc_count c <= MaxStepsPerRule)%nat -> walked reg [] true c c.
Proof.
  intros Hc. split; [|intros _; rewrite app_nil_r; simpl; split; [done|lia]].
  split; [|by intros (? & _)]. intros Hs. split_and!; [done|simpl; lia|constructor|by intros ? ?%not_elem_of_nil|done].
Qed.

Lemma walked_trans reg ids ids' ok ok' c c' c'' :
  walked reg ids ok c c' -> (sc_structural c' = None -> walked reg ids' ok' c' c'') ->
  (sc_structural c' <> None -> sc_structural c'' <> None) ->
  walked reg (ids ++ ids') (ok && ok') c c''.
Proof.
  intros [H1 H1'] H2 H3. unfold walked. rewrite length_app.
  destruct (sc_structural c') as [e|] eqn:E.
  - split; [|intros Hn; by destruct (H3 ltac:(done))]. split; [intros Hn; by destruct (H3 ltac:(done))|].
    intros (Hs & Hn & Hd & Hx & Hok). apply andb_true_iff in Hok as [-> ->].
    assert (Some e = None) as He; [|done]. apply H1.
    apply NoDup_app in Hd as (Hd & _ & _). split_and!; [done|lia|done|set_solver|done].
  - destruct (H2 eq_refl) as [H2a H2b]. destruct (H1' eq_refl) as [Hseen Hcount].
    destruct (proj1 H1 eq_refl) as (Hs & Hn & Hd & Hx & ->). rewrite Hseen, Hcount in *. split.
    + rewrite H2a, NoDup_app. simpl. split.
      * intros (_ & Hn' & Hd' & Hx' & ->). split_and!; [done|lia|done|set_solver|done|set_solver|done].
      * intros (_ & Hn' & (_ & Hdis & Hd') & Hx' & ->). split_and!; [done|lia|done|set_solver|done].
    + intros Hc. destruct (H2b Hc) as [-> ->]. rewrite <- app_assoc. split; [done|lia].
Qed.

(** Steps that only report problems keep the rest. *)
Definition only_problems (c c' : stepChecker) : Prop :=
  sc_structural c' = sc_structural c /\ sc_seen c' = sc_seen c /\ sc_count c' = sc_count c.

Lemma checkCondition_problems reg s c : only_problems c (checkCondition (Ok reg) s c).
Proof. unfold checkCondition. by repeat case_match. Qed.
Lemma checkWait_problems s c : only_problems c (checkWait s c).
Proof. unfold checkWait. by repeat case_match. Qed.

Lemma check_leaf_spec s c :
  sc_structural c = None ->
  sc_seen (check_leaf s c) = sc_seen c /\ sc_count (check_leaf s c) = sc_count c /\
  (sc_structural (check_leaf s c) = None <->
   (String.eqb (as_Type s) StepWait || Lookup_action (as_Type s)) && negb (has_branches s) = true).
Proof.
  intros Hc. unfold check_leaf. destruct (String.eqb _ StepWait); simpl.
  - destruct (has_branches s); [done|]. destruct (checkWait_problems s c) as (-> & -> & ->). by rewrite Hc.
  - destruct (Lookup_action _); [|done]. simpl. destruct (has_branches s); [done|]. by case_match.
Qed.

Lemma check_entry_spec s c :
  sc_structural c = None ->
  (sc_structural (check_entry s c) = None <->
     (S (sc_count c) <= MaxStepsPerRule)%nat /\ as_ID s <> "" /\ as_ID s ∉ sc_seen c) /\
  (sc_structural (check_entry s c) = None ->
     sc_seen (check_entry s c) = sc_seen c ++ [as_ID s] /\ sc_count (check_entry s c) = S (sc_count c)).
Proof.
  intros Hc. unfold check_entry. simpl. destruct (Nat.ltb_spec MaxStepsPerRule (S (sc_count c))) as [?|Hn]; simpl.
  { split; [|done]. split; [done|]. lia. }
  unfold is_empty. destruct (String.eqb_spec (as_ID s) "") as [E|Hne]; simpl.
  { split; [|done]. split; [done|]. by intros (_ & [] & _). }
  destruct (existsb _ _) eqn:E; simpl.
  - apply existsb_exists in E as (x & Hx & <-%String.eqb_eq). apply list_elem_of_In in Hx.
    split; [|done]. split; [done|]. by intros (_ & _ & []).
  - split; [|done]. split; [|done]. intros _. split_and!; [lia|done|].
    intros Hx%list_elem_of_In. assert (existsb (String.eqb (as_ID s)) (sc_seen c) = true) as E'; [|by rewrite E in E'].
    apply existsb_exists. exists (as_ID s). by rewrite String.eqb_refl.
Qed.

Lemma walk_list_stuck one steps c : sc_structural c <> None -> walk_list one steps c = c.
Proof. intros Hc. destruct steps as [|s l]; [done|]. simpl. by destruct (sc_structural c). Qed.

Lemma walked_entry reg s c :
  sc_structural c = None -> walked reg [as_ID s] (negb (is_empty (as_ID s))) c (check_entry s c).
Proof.
  intros Hc. destruct (check_entry_spec s c Hc) as [H1 H2]. unfold walked. simpl. split.
  - rewrite H1, Hc, negb_true_iff. unfold is_empty. rewrite String.eqb_neq. split.
    + intros (? & ? & ?). split_and!; [done|lia|apply NoDup_singleton|set_solver|done].
    + intros (_ & ? & _ & Hx & ?). split_and!; [lia|done|set_solver].
  - intros Hs. destruct (H2 Hs) as [-> ->]. split; [done|lia].
Qed.

Lemma walked_leaf reg s c :
  sc_structural c = None -> (sc_count c <= MaxStepsPerRule)%nat ->
  walked reg [] ((String.eqb (as_Type s) StepWait || Lookup_action (as_Type s)) && negb (has_branches s)) c (check_leaf s c).
Proof.
  intros Hc Hn. destruct (check_leaf_spec s c Hc) as (H1 & H2 & H3). unfold walked. rewrite H1, H2, H3, Hc, app_nil_r.
  simpl. split; [|intros _; split; [done|lia]]. split; [|tauto].
  intros Hok. split_and!; [done|lia|constructor|by intros ? ?%not_elem_of_nil|done].
Qed.

(** A question at an allowed depth. *)
Lemma walked_question reg s c :
  sc_structural c = None -> (sc_count c <= MaxStepsPerRule)%nat -> walked reg [] true c (checkCondition (Ok reg) s c).
Proof.
  intros Hc Hn. destruct (checkCondition_problems reg s c) as (H1 & H2 & H3). unfold walked.
  rewrite H1, H2, H3, Hc, app_nil_r. simpl. split; [|intros _; split; [done|lia]]. split; [|done].
  intros _. split_and!; [done|lia|constructor|by intros ? ?%not_elem_of_nil|done].
Qed.

Lemma walked_count reg ids ok c c' :
  walked reg ids ok c c' -> sc_structural c' = None -> (sc_count c' <= MaxStepsPerRule)%nat.
Proof. intros [H1 H2] Hc. destruct (H2 Hc) as [_ ->]. apply H1 in Hc. tauto. Qed.

Definition walks (reg : Registry) (s : ActionSpec) : Prop :=
  forall depth c, sc_structural c = None -> walked reg (step_ids s) (well_shaped depth s) c (walk_step (Ok reg) s depth c).

Lemma walk_list_walked reg l depth c :
  Forall (walks reg) l -> sc_structural c = None -> (sc_count c <= MaxStepsPerRule)%nat ->
  walked reg (tree_ids l) (forallb (well_shaped depth) l) c (walk_list (fun s => walk_step (Ok reg) s depth) l c).
Proof.
  intros Hl. revert c. induction Hl as [|s l Hs Hl IH]; intros c Hc Hn; [by apply walked_nil|].
  rewrite tree_ids_cons. simpl. rewrite Hc. simpl. pose proof (Hs depth c Hc) as Hw.
  eapply walked_trans; [exact Hw| |].
  - intros Hc'. apply IH; [done|by eapply walked_count].
  - intros Hc'. by rewrite walk_list_stuck.
Qed.

Lemma walk_step_walked reg s : walks reg s.
Proof.
  induction s as [id ty cfg b t e Ht He] using step_ind. intros depth c Hc.
  set (s := MkStep id ty cfg b t e). pose proof (walked_entry reg s c Hc) as Hent.
  change (step_ids s) with ([id] ++ (tree_ids t ++ tree_ids e)). simpl walk_step. fold s. simpl well_shaped.
  destruct (sc_structural (check_entry s c)) as [x|] eqn:Ec.
  { simpl is_some. cbv iota. eapply walked_trans; [exact Hent|congruence|done]. }
  simpl is_some. cbv iota. pose proof (walked_count _ _ _ _ _ Hent Ec) as Hn.
  eapply walked_trans; [exact Hent| |congruence]. intros _. clear Hent Hc.
  destruct (String.eqb ty StepCondition).
  - destruct (Nat.leb_spec MaxNesting depth) as [Hd|Hd].
    { assert (Nat.ltb depth MaxNesting = false) as -> by (apply Nat.ltb_ge; lia). simpl.
      split; [|done]. split; [done|]. by intros (_ & _ & _ & _ & ?). }
    assert (Nat.ltb depth MaxNesting = true) as -> by (apply Nat.ltb_lt; lia).
    pose proof (walked_question reg s (check_entry s c) Ec Hn) as Hq.
    destruct (checkCondition_problems reg s (check_entry s c)) as (Hq1 & _ & Hq3). rewrite Ec in Hq1.
    change (tree_ids t ++ tree_ids e) with ([] ++ (tree_ids t ++ tree_ids e)). rewrite <- andb_assoc.
    eapply walked_trans; [exact Hq| |congruence]. intros _.
    pose proof (walk_list_walked reg t (S depth) _ Ht Hq1 ltac:(by rewrite Hq3)) as Hwt.
    eapply walked_trans; [exact Hwt| |].
    + intros Hct. apply walk_list_walked; [done..|by eapply walked_count].
    + intros Hct. by rewrite walk_list_stuck.
  - pose proof (walked_leaf reg s (check_entry s c) Ec Hn) as [L1 L2]. simpl as_Type in *.
    change (has_branches (MkStep id ty cfg b t e)) with (has_branches s).
    destruct (negb (has_branches s)) eqn:Hb.
    + assert (t = [] /\ e = []) as [-> ->] by (by destruct t, e). rewrite andb_true_r in L1 |- *. by split.
    + rewrite andb_false_r in L1 |- *. split; [|intros Hx; by apply L1 in Hx as (_ & _ & _ & _ & ?)].
      split; [intros Hx; by apply L1 in Hx as (_ & _ & _ & _ & ?)|by intros (_ & _ & _ & _ & ?)].
Qed.

(** The checker accepts exactly the trees the builder promises: all ids
    there and different, at most forty steps over all paths, questions nested
    at most three deep, and nothing but a question splitting the path; every
    other step is a wait or an action the product knows.  A tree it accepts
    has been visited completely. *)
Theorem walk_accepts reg steps :
  sc_structural (walk (Ok reg) steps 0 sc_init) = None <->
  NoDup (tree_ids steps) /\ (countSteps steps <= MaxStepsPerRule)%nat /\ forallb (well_shaped 0) steps = true.
Proof.
  assert (walked reg (tree_ids steps) (forallb (well_shaped 0) steps) sc_init (walk (Ok reg) steps 0 sc_init)) as [H1 _].
  { apply walk_list_walked; [|done|simpl; lia]. apply Forall_forall. intros s _. apply walk_step_walked. }
  rewrite H1, tree_ids_length. simpl. split.
  - intros (_ & ? & ? & _ & ?). by split_and!.
  - intros (? & ? & ?). split_and!; [done..|by intros ? _ ?%not_elem_of_nil|done].
Qed.
End Checker.

(** ** Pausing and resuming *)

(** [continuationAfter] over what is left of several lists. *)
Fixpoint cont_stack (id : string) (lists : list (list ActionSpec)) : option (list (list ActionSpec)) :=
  match lists with
  | [] => None
  | l :: rest =>
      match continuationAfter l id with
      | Some inner => Some (inner ++ rest)
      | None => cont_stack id rest
      end
  end.

Definition stack_ids (lists : list (list ActionSpec)) : list string := mjoin (tree_ids <$> lists).

Lemma stack_ids_cons l lists : stack_ids (l :: lists) = tree_ids l ++ stack_ids lists.
Proof. done. Qed.
Lemma stack_ids_app a b : stack_ids (a ++ b) = stack_ids a ++ stack_ids b.
Proof. induction a as [|l a IH]; [done|]. simpl. by rewrite !stack_ids_cons, IH, app_assoc. Qed.

Lemma cont_stack_app id a b :
  cont_stack id (a ++ b) =
    match cont_stack id a with Some x => Some (x ++ b) | None => cont_stack id b end.
Proof.
  induction a as [|l a IH]; [done|]. simpl. destruct (continuationAfter l id); [by rewrite <- app_assoc|done].
Qed.

Lemma continuationAfter_cons id s l :
  continuationAfter (s :: l) id =
    if String.eqb (as_ID s) id then Some [l]
    else match cont_inside id s with Some inner => Some (inner ++ [l]) | None => continuationAfter l id end.
Proof. done. Qed.

Lemma cont_inside_branches id s :
  cont_inside id s =
    match continuationAfter (as_Then s) id with Some x => Some x | None => continuationAfter (as_Else s) id end.
Proof. by destruct s. Qed.

Lemma step_ids_unfold s : step_ids s = as_ID s :: tree_ids (as_Then s) ++ tree_ids (as_Else s).
Proof. by destruct s. Qed.

(** An id that is not in the tree has no continuation. *)
Lemma continuation_none_list id l :
  Forall (fun s => id ∉ step_ids s -> cont_inside id s = None) l -> id ∉ tree_ids l -> continuationAfter l id = None.
Proof.
  induction 1 as [|s l Hs Hl IH]; [done|]. rewrite tree_ids_cons, continuationAfter_cons.
  intros [Hi Hl']%not_elem_of_app. rewrite (Hs Hi). destruct (String.eqb_spec (as_ID s) id) as [E|]; [|by apply IH].
  destruct Hi. rewrite step_ids_unfold, E. by left.
Qed.

Lemma cont_inside_none id s : id ∉ step_ids s -> cont_inside id s = None.
Proof.
  induction s as [sid ty cfg b t e Ht He] using step_ind.
  rewrite step_ids_unfold, cont_inside_branches. simpl. intros Hn.
  rewrite (continuation_none_list id t), (continuation_none_list id e); [done|done|set_solver|done|set_solver].
Qed.

Lemma continuation_none id l : id ∉ tree_ids l -> continuationAfter l id = None.
Proof. apply continuation_none_list, Forall_forall. intros s _. apply cont_inside_none. Qed.

(** What a continuation is: part of the tree, smaller, and the place where any
    step it holds goes on just as in the tree. *)
Definition continues (l : list ActionSpec) (lists : list (list ActionSpec)) : Prop :=
  NoDup (stack_ids lists) /\ (forall x, x ∈ stack_ids lists -> x ∈ tree_ids l) /\
  (length (stack_ids lists) < length (tree_ids l))%nat /\
  forall id, id ∈ stack_ids lists -> continuationAfter l id = cont_stack id lists.

Lemma continues_rest s l : NoDup (tree_ids (s :: l)) -> continues (s :: l) [l].
Proof.
  rewrite tree_ids_cons, step_ids_unfold. intros Hnd. unfold continues.
  rewrite tree_ids_cons, step_ids_unfold.
  assert (stack_ids [l] = tree_ids l) as -> by apply app_nil_r.
  pose proof Hnd as (_ & Hdis & Hl)%NoDup_app. split_and!; [done|set_solver|simpl; rewrite !length_app; lia|].
  intros id Hid. rewrite continuationAfter_cons. simpl.
  destruct (String.eqb_spec (as_ID s) id) as [E|].
  { destruct (Hdis id); [rewrite E; by left|done]. }
  rewrite cont_inside_branches, (continuation_none id (as_Then s)), (continuation_none id (as_Else s)).
  - destruct (continuationAfter l id); [by rewrite app_nil_r|done].
  - intros Hin. apply (Hdis id); [right; set_solver|done].
  - intros Hin. apply (Hdis id); [right; set_solver|done].
Qed.

Lemma continues_inside s l lists :
  NoDup (tree_ids (s :: l)) ->
  (continues (as_Then s) lists \/ continues (as_Else s) lists) -> continues (s :: l) (lists ++ [l]).
Proof.
  rewrite tree_ids_cons, step_ids_unfold. intros Hnd Hc. unfold continues at 1.
  rewrite tree_ids_cons, step_ids_unfold.
  assert (stack_ids (lists ++ [l]) = stack_ids lists ++ tree_ids l) as ->
    by (rewrite stack_ids_app; f_equal; apply app_nil_r).
  pose proof Hnd as (Hs & Hdis & Hl)%NoDup_app. apply NoDup_cons in Hs as [Hsid Hte].
  apply NoDup_app in Hte as (_ & Hbr & _).
  assert (NoDup (stack_ids lists) /\ (forall x, x ∈ stack_ids lists -> x ∈ tree_ids (as_Then s) ++ tree_ids (as_Else s)) /\
    (length (stack_ids lists) < length (tree_ids (as_Then s) ++ tree_ids (as_Else s)))%nat /\
    forall id, id ∈ stack_ids lists -> cont_inside id s = cont_stack id lists) as (Hn & Hsub & Hlen & Hcont).
  { rewrite length_app. destruct Hc as [(Hn & Hsub & Hlen & Hcont)|(Hn & Hsub & Hlen & Hcont)];
      (split_and!; [done|set_solver|lia|]); intros id Hid; rewrite cont_inside_branches, <- (Hcont id Hid).
    - destruct (continuationAfter (as_Then s) id) eqn:E; [done|]. apply continuation_none.
      intros Hin. apply (Hbr id); [by apply Hsub|done].
    - rewrite (continuation_none id (as_Then s)); [done|]. intros Hin. apply (Hbr id); [done|by apply Hsub]. }
  split_and!; [apply NoDup_app; split_and!; [done|set_solver|done]|set_solver|simpl; rewrite !length_app in *; simpl; lia|].
  intros id [Hid|Hid]%elem_of_app; rewrite continuationAfter_cons, cont_stack_app.
  - destruct (String.eqb_spec (as_ID s) id) as [E|]; [destruct Hsid; rewrite E; by apply Hsub|].
    rewrite (Hcont id Hid). destruct (cont_stack id lists) eqn:E; [done|]. simpl.
    rewrite (continuation_none id l); [done|]. intros Hin. apply (Hdis id); [right; by apply Hsub|done].
  - destruct (String.eqb_spec (as_ID s) id) as [E|]; [destruct (Hdis id); [rewrite E; by left|done]|].
    assert (id ∉ tree_ids (as_Then s) ++ tree_ids (as_Else s)) as Hni by (intros Hin; apply (Hdis id); [by right|done]).
    apply not_elem_of_app in Hni as [Ht He].
    rewrite cont_inside_branches, (continuation_none _ _ Ht), (continuation_none _ _ He).
    assert (cont_stack id lists = None) as ->; [|simpl; destruct (continuationAfter l id); [by rewrite app_nil_r|done]].
    destruct (cont_stack id lists) eqn:E; [|done]. exfalso.
    assert (id ∈ stack_ids lists \/ cont_stack id lists = None) as [Hin|?]; [|set_solver|congruence].
    clear -Hid. induction lists as [|x lists IH]; [by right|]. rewrite stack_ids_cons. simpl.
    destruct (decide (id ∈ tree_ids x)) as [?|Hx]; [left; set_solver|].
    rewrite (continuation_none _ _ Hx). destruct IH as [?|?]; [left; set_solver|by right].
Qed.

Lemma continues_skip s l lists : NoDup (tree_ids (s :: l)) -> continues l lists -> continues (s :: l) lists.
Proof.
  rewrite tree_ids_cons. intros (Hnx & Hdis & Hnl)%NoDup_app (C1 & C2 & C3 & C4).
  unfold continues. rewrite tree_ids_cons. split_and!; [done|set_solver|rewrite length_app; lia|].
  intros i Hi. rewrite continuationAfter_cons, <- (C4 i Hi).
  assert (i ∉ step_ids s) as Hni by (intros Hin; apply (Hdis i Hin), C2, Hi). rewrite (cont_inside_none _ _ Hni).
  rewrite step_ids_unfold in Hni. destruct (String.eqb_spec (as_ID s) i) as [E|]; [|done]. destruct Hni. rewrite E. by left.
Qed.

Lemma continues_list id l : 
  Forall (fun s => forall lists, NoDup (step_ids s) -> cont_inside id s = Some lists ->
            continues (as_Then s) lists \/ continues (as_Else s) lists) l ->
  NoDup (tree_ids l) -> forall lists, continuationAfter l id = Some lists -> continues l lists.
Proof.
  induction 1 as [|x l Hx Hl IH]; intros Hnd lists; [done|]. rewrite continuationAfter_cons.
  pose proof Hnd as Hnd'. rewrite tree_ids_cons in Hnd'. apply NoDup_app in Hnd' as (Hnx & _ & Hnl).
  destruct (String.eqb (as_ID x) id); [intros [= <-]; by apply continues_rest|].
  destruct (cont_inside id x) as [inner|] eqn:E.
  - intros [= <-]. apply continues_inside; [done|by apply Hx].
  - intros Hc. apply continues_skip; [done|by apply IH].
Qed.

Lemma continues_step id s lists :
  NoDup (step_ids s) -> cont_inside id s = Some lists ->
  continues (as_Then s) lists \/ continues (as_Else s) lists.
Proof.
  revert lists. induction s as [sid ty cfg b t e Ht He] using step_ind. intros lists.
  rewrite step_ids_unfold, cont_inside_branches. simpl. intros (_ & (Hnt & _ & Hne)%NoDup_app)%NoDup_cons Hc.
  destruct (continuationAfter t id) as [x|] eqn:E.
  - injection Hc as <-. left. by eapply continues_list.
  - right. by eapply continues_list.
Qed.

Lemma continuation_continues id l lists :
  NoDup (tree_ids l) -> continuationAfter l id = Some lists -> continues l lists.
Proof.
  intros Hnd. apply continues_list; [|done]. apply Forall_forall. intros s _ ls. apply continues_step.
Qed.

Lemma cont_stack_smaller id lists lists' :
  NoDup (stack_ids lists) -> cont_stack id lists = Some lists' ->
  (length (stack_ids lists') < length (stack_ids lists))%nat.
Proof.
  induction lists as [|l lists IH]; [done|]. rewrite stack_ids_cons. simpl. intros (Hl & _ & Hnd)%NoDup_app.
  rewrite length_app. destruct (continuationAfter l id) as [inner|] eqn:E.
  - intros [= <-]. destruct (continuation_continues id l inner Hl E) as (_ & _ & Hlen & _).
    rewrite stack_ids_app, length_app. lia.
  - intros Hc. specialize (IH Hnd Hc). lia.
Qed.

Lemma cont_stack_none id lists : id ∉ stack_ids lists -> cont_stack id lists = None.
Proof.
  induction lists as [|x lists IH]; [done|]. rewrite stack_ids_cons. intros [Hx Hr]%not_elem_of_app.
  simpl. rewrite (continuation_none _ _ Hx). by apply IH.
Qed.

(** Where a walk paused at [id] goes on, seen from one step. *)
Definition cont_step (id : string) (s : ActionSpec) : option (list (list ActionSpec)) :=
  if String.eqb (as_ID s) id then Some [] else cont_inside id s.

Lemma continuationAfter_step id s l :
  continuationAfter (s :: l) id =
    match cont_step id s with Some inner => Some (inner ++ [l]) | None => continuationAfter l id end.
Proof. rewrite continuationAfter_cons. unfold cont_step. by destruct (String.eqb _ _). Qed.

Lemma cont_step_none id s : id ∉ step_ids s -> cont_step id s = None.
Proof.
  intros Hn. unfold cont_step. rewrite (cont_inside_none _ _ Hn). rewrite step_ids_unfold in Hn.
  destruct (String.eqb_spec (as_ID s) id) as [E|]; [|done]. destruct Hn. rewrite E. by left.
Qed.

Lemma continuation_here id l lists : continuationAfter l id = Some lists -> id ∈ tree_ids l.
Proof. intros Hc. destruct (decide (id ∈ tree_ids l)) as [?|Hn]; [done|]. by rewrite (continuation_none _ _ Hn) in Hc. Qed.

Section Resuming.
Context `{SE : StepEnv}.
Variable orgID : uuid.

(** What others do to the outside while the run waits in a step, when the run
    is taken up again after it, and the context [runContext] rebuilds then. *)
Variable elapse : string -> Outside -> Outside.
Variable resumed_at : string -> time.
Variable context : string -> Outside -> RunContext.

(** What a result says apart from its output; skipped steps left out. *)
Definition outline (results : list ActionResult) : list (string * string * string * string) :=
  (fun x => (rs_ID x, rs_Type x, rs_Status x, rs_Error x)) <$>
    List.filter (fun x => negb (String.eqb (rs_Status x) Skipped)) results.

Lemma outline_app a b : outline (a ++ b) = outline a ++ outline b.
Proof. unfold outline. by rewrite List.filter_app, fmap_app. Qed.

Lemma outline_skipped l : outline (skipped <$> l) = [].
Proof. by induction l. Qed.

(** *** The run that is never interrupted *)

(** The context in force, and the runner. *)
Notation Walk := (RunContext * stepRunner)%type.

(** A wait passed on the spot: what happens outside meanwhile, and the context
    from then on. *)
Definition wait_out (s : ActionSpec) (k : Walk) : Walk :=
  match waitDuration (as_Config s) with
  | None => (k.1, stop (record (MkResult (as_ID s) (as_Type s) Failed "the wait has no length" []) k.2))
  | Some _ =>
      let o := elapse (as_ID s) (rn_out k.2) in
      (context (as_ID s) o, record (MkResult (as_ID s) (as_Type s) Succeeded "" []) (set_out o k.2))
  end.

Fixpoint straight_list (one : ActionSpec -> Walk -> Walk) (steps : list ActionSpec) (k : Walk) : Walk :=
  match steps with
  | [] => k
  | s :: rest => if rn_stopped k.2 then k else straight_list one rest (one s k)
  end.

Fixpoint straight_step (s : ActionSpec) (k : Walk) : Walk :=
  match s with
  | MkStep id ty _ _ t e =>
      if String.eqb ty StepCondition then
        match condition_answer orgID k.1 s k.2 with
        | Err m => (k.1, stop (record (MkResult id ty Failed m []) k.2))
        | Ok matched => straight_list straight_step (if matched then t else e) (k.1, record (condition_result s matched) k.2)
        end
      else if String.eqb ty StepWait then wait_out s k
      else (k.1, runAction k.1 s k.2)
  end.

(** The steps one after the other, until one stops the run. *)
Definition straight (steps : list ActionSpec) : Walk -> Walk := straight_list straight_step steps.

Fixpoint straight_lists (lists : list (list ActionSpec)) (k : Walk) : Walk :=
  match lists with
  | [] => k
  | l :: rest => straight_lists rest (straight l k)
  end.

(** *** Runs that go alike *)

(** Two runners that did the same and go on alike. *)
Definition alike (r r' : stepRunner) : Prop :=
  outline (rn_results r) = outline (rn_results r') /\ rn_stopped r = rn_stopped r' /\
  rn_paused r = None /\ rn_paused r' = None /\ rn_out r = rn_out r'.

Definition alike_walk (k k' : Walk) : Prop := k.1 = k'.1 /\ alike k.2 k'.2.

#[local] Instance alike_sym : Symmetric alike.
Proof. intros r r' (? & ? & ? & ? & ?). by split_and!. Qed.
#[local] Instance alike_trans : Transitive alike.
Proof. intros r r' r'' (? & ? & ? & ? & ?) (? & ? & ? & ? & ?). split_and!; congruence. Qed.
#[local] Instance alike_walk_sym : Symmetric alike_walk.
Proof. intros k k' [? ?]. by split. Qed.
#[local] Instance alike_walk_trans : Transitive alike_walk.
Proof. intros k k' k'' [? ?] [? ?]. split; [congruence|by etransitivity]. Qed.

Lemma alike_halted r r' : alike r r' -> halted r = rn_stopped r'.
Proof. intros (_ & Hs & Hp & _). unfold halted. rewrite Hs, Hp. by rewrite orb_false_r. Qed.

Lemma alike_out r r' o : alike r r' -> alike (set_out o r) (set_out o r').
Proof. by intros (H1 & H2 & H3 & H4 & H5). Qed.

Lemma alike_record r r' res res' :
  alike r r' -> outline [res] = outline [res'] -> alike (record res r) (record res' r').
Proof. intros (H1 & H2 & H3 & H4 & H5) Hr. unfold alike; simpl; rewrite !outline_app, H1, Hr; done. Qed.

Lemma alike_stop r r' : alike r r' -> alike (stop r) (stop r').
Proof. by intros (H1 & H2 & H3 & H4 & H5). Qed.

Lemma alike_step r r' res res' b o :
  alike r r' -> outline [res] = outline [res'] ->
  alike (stop_unless b (record res (set_out o r))) (stop_unless b (record res' (set_out o r'))).
Proof. intros Ha Hr. destruct b; [|apply alike_stop]; by apply alike_record, Hr; apply alike_out. Qed.

Lemma alike_action rc s r r' : alike r r' -> alike (runAction rc s r) (runAction rc s r').
Proof.
  intros Ha. pose proof Ha as (_ & _ & _ & _ & Ho). unfold runAction. destruct (Validate_action _ _) as [m|].
  - destruct (as_ContinueOnError s); simpl; [|apply alike_stop]; by apply alike_record.
  - rewrite Ho. destruct (Execute _ _ _ _) as [[out [m|]] o]; [by apply alike_step|by apply (alike_step _ _ _ _ true)].
Qed.

Lemma alike_answer rc s r r' : alike r r' -> condition_answer orgID rc s r = condition_answer orgID rc s r'.
Proof. intros (_ & _ & _ & _ & Ho). unfold condition_answer. by rewrite Ho. Qed.

Lemma alike_refl_l r r' : alike r r' -> alike r r.
Proof. intros Ha. etransitivity; [exact Ha|by symmetry]. Qed.

Lemma run_cons rc dry now s l r :
  run orgID rc dry now (s :: l) r =
    if is_some (rn_paused r) then r
    else if rn_stopped r then MkRunner (rn_results r ++ (skipped <$> s :: l)) (rn_stopped r) (rn_paused r) (rn_out r)
    else run orgID rc dry now l (run_step orgID rc dry now s r).
Proof. done. Qed.

(** A stopped runner only skips. *)
Lemma run_stopped rc dry now l r : alike r r -> rn_stopped r = true -> alike (run orgID rc dry now l r) r.
Proof.
  intros Ha Hs. pose proof Ha as (_ & _ & Hp & _). destruct l as [|s l]; [done|]. rewrite run_cons, Hp, Hs. simpl.
  split_and!; [|done..]. simpl rn_results. rewrite outline_app.
  change (outline (rn_results r) ++ outline (skipped <$> s :: l) = outline (rn_results r)).
  by rewrite outline_skipped, app_nil_r.
Qed.

(** A trial passes its waits. *)
Lemma dry_never_pauses rc now l r : rn_paused r = None -> rn_paused (run orgID rc true now l r) = None.
Proof.
  assert (forall l, Forall (fun s => forall r, rn_paused r = None -> rn_paused (run_step orgID rc true now s r) = None) l ->
    forall r, rn_paused r = None -> rn_paused (run orgID rc true now l r) = None) as Hlist.
  { induction 1 as [|s l' Hs Hl IH]; intros r0 Hr; [done|]. rewrite run_cons, Hr. simpl.
    destruct (rn_stopped r0); [done|]. by apply IH, Hs. }
  apply Hlist, Forall_forall. intros s _. clear l r. induction s as [id ty cfg b t e Ht He] using step_ind.
  intros r Hr. simpl. destruct (String.eqb ty StepCondition); [|destruct (String.eqb ty StepWait)].
  - destruct (condition_answer _ _ _ _) as [[]|m]; [by apply Hlist..|done].
  - unfold runWait. by destruct (waitDuration _).
  - unfold runAction. destruct (Validate_action _ _); [by destruct (as_ContinueOnError _)|].
    destruct (Execute _ _ _ _) as [[out [m|]] o]; [by destruct (as_ContinueOnError _)|done].
Qed.

(** *** The uninterrupted run, from alike states *)

Lemma straight_cons s l k :
  straight (s :: l) k = if rn_stopped k.2 then k else straight l (straight_step s k).
Proof. done. Qed.

Lemma straight_stopped l k : rn_stopped k.2 = true -> straight l k = k.
Proof. intros Hs. destruct l; [done|]. by rewrite straight_cons, Hs. Qed.

Lemma straight_lists_stopped lists k : rn_stopped k.2 = true -> straight_lists lists k = k.
Proof. intros Hs. induction lists as [|l lists IH]; [done|]. simpl. by rewrite straight_stopped. Qed.

Lemma straight_lists_app a b k : straight_lists (a ++ b) k = straight_lists b (straight_lists a k).
Proof. revert k. induction a as [|l a IH]; intros k; [done|]. apply IH. Qed.

Lemma alike_straight_list l :
  Forall (fun s => forall k k', alike_walk k k' -> alike_walk (straight_step s k) (straight_step s k')) l ->
  forall k k', alike_walk k k' -> alike_walk (straight l k) (straight l k').
Proof.
  induction 1 as [|s l Hs Hl IH]; intros k k' Ha; [done|]. rewrite !straight_cons.
  pose proof Ha as (_ & _ & <- & _). destruct (rn_stopped k.2); [done|]. apply IH, Hs, Ha.
Qed.

Lemma alike_wait_out s k k' : alike_walk k k' -> alike_walk (wait_out s k) (wait_out s k').
Proof.
  intros [Hc Ha]. pose proof Ha as (_ & _ & _ & _ & Ho). unfold wait_out. rewrite Hc, Ho.
  destruct (waitDuration _); (split; [done|]); [by apply alike_record; [apply alike_out|]|by apply alike_stop, alike_record].
Qed.

Lemma alike_straight_step s k k' : alike_walk k k' -> alike_walk (straight_step s k) (straight_step s k').
Proof.
  revert k k'. induction s as [id ty cfg b t e Ht He] using step_ind. intros k k' [Hc Ha]. simpl.
  destruct (String.eqb ty StepCondition).
  - rewrite Hc, (alike_answer _ _ _ _ Ha). destruct (condition_answer _ _ _ _) as [matched|m].
    + destruct matched; apply alike_straight_list; try done; (split; [done|]); by apply alike_record.
    + split; [done|]. by apply alike_stop, alike_record.
  - destruct (String.eqb ty StepWait); [by apply alike_wait_out|]. rewrite Hc. split; [done|]. by apply alike_action.
Qed.

Lemma alike_straight l k k' : alike_walk k k' -> alike_walk (straight l k) (straight l k').
Proof. apply alike_straight_list, Forall_forall. intros s _. apply alike_straight_step. Qed.

Lemma alike_straight_lists lists k k' : alike_walk k k' -> alike_walk (straight_lists lists k) (straight_lists lists k').
Proof. revert k k'. induction lists as [|l lists IH]; intros k k' Ha; [done|]. by apply IH, alike_straight. Qed.

(** *** A run that parks is on the way to where the uninterrupted one gets *)

(** A paused run as [resume] takes it up again, [o] being the outside by then. *)
Definition resumed (r : stepRunner) (id : string) : stepRunner :=
  MkRunner (finishWaitResult (rn_results r) id) false None (elapse id (rn_out r)).

(** ... with the context rebuilt. *)
Definition taken_up (r : stepRunner) (id : string) : Walk := (context id (elapse id (rn_out r)), resumed r id).

(** [r], run in the context [rc], did the same as the walk [k'], or is paused
    where the rest leads to [k']. *)
Definition on_track (cont : string -> option (list (list ActionSpec))) (rc : RunContext) (r : stepRunner) (k' : Walk) : Prop :=
  match rn_paused r with
  | None => alike_walk (rc, r) k'
  | Some p =>
      rn_stopped r = false /\ exists lists, cont (pa_StepID p) = Some lists /\
        alike_walk (straight_lists lists (taken_up r (pa_StepID p))) k'
  end.

Lemma finish_waiting results id ty out :
  finishWaitResult (results ++ [MkResult id ty ResultWaiting "" out]) id = results ++ [MkResult id ty Succeeded "" out].
Proof.
  unfold finishWaitResult. rewrite reverse_snoc. simpl. rewrite String.eqb_refl. simpl.
  change (reverse (MkResult id ty Succeeded "" out :: reverse results) = results ++ [MkResult id ty Succeeded "" out]).
  by rewrite reverse_cons, reverse_involutive.
Qed.

Lemma on_track_alike cont rc r k' : alike_walk (rc, r) k' -> on_track cont rc r k'.
Proof. intros Ha. unfold on_track. pose proof Ha as [_ (_ & _ & Hp & _)]. simpl in Hp. by rewrite Hp. Qed.

Lemma on_track_wait rc now s r k' :
  alike_walk (rc, r) k' -> rn_stopped r = false ->
  on_track (fun id => cont_step id s) rc (runWait false now s r) (wait_out s k').
Proof.
  intros [Hc Ha] Hs. simpl in Hc, Ha. unfold runWait, wait_out. destruct (waitDuration (as_Config s)) as [w|].
  - unfold on_track. simpl. split; [done|]. exists []. unfold cont_step. rewrite String.eqb_refl. split; [done|].
    simpl. unfold taken_up, resumed. simpl. rewrite finish_waiting.
    destruct Ha as (H1 & H2 & H3 & H4 & H5). unfold alike_walk, alike. simpl. rewrite !outline_app, H1, <- H2, Hs, H5. done.
  - apply on_track_alike. split; [done|]. by apply alike_stop, alike_record.
Qed.

Lemma on_track_more cont cont' rc r k' :
  (forall id lists, cont id = Some lists -> cont' id = Some lists) -> on_track cont rc r k' -> on_track cont' rc r k'.
Proof. intros Hc. unfold on_track. destruct (rn_paused r); [|done]. intros (? & lists & ? & ?). eauto. Qed.

Lemma on_track_list rc now l :
  Forall (fun s => NoDup (step_ids s) -> forall r k', alike_walk (rc, r) k' -> rn_stopped r = false ->
            on_track (fun id => cont_step id s) rc (run_step orgID rc false now s r) (straight_step s k')) l ->
  NoDup (tree_ids l) -> forall r k', alike_walk (rc, r) k' ->
  on_track (continuationAfter l) rc (run orgID rc false now l r) (straight l k').
Proof.
  induction 1 as [|s l Hs Hl IH]; intros Hnd r k' Ha; [by apply on_track_alike|].
  pose proof Ha as [Hc (_ & Hst & Hp & Hp' & _)]. simpl in Hc, Hst, Hp. destruct (rn_stopped r) eqn:E.
  { rewrite (straight_stopped _ k') by done. apply on_track_alike. split; [done|]. etransitivity; [|apply Ha].
    apply run_stopped; [|done]. by eapply alike_refl_l, Ha. }
  rewrite tree_ids_cons in Hnd. apply NoDup_app in Hnd as (Hns & Hdis & Hnl).
  rewrite run_cons, straight_cons, Hp, E, <- Hst. simpl. specialize (Hs Hns r k' Ha E). unfold on_track in Hs.
  set (r1 := run_step orgID rc false now s r) in *. set (k1 := straight_step s k') in *.
  destruct (rn_paused r1) as [p|] eqn:Ep.
  - destruct Hs as (Hst1 & inner & Hcs & Ha1).
    assert (run orgID rc false now l r1 = r1) as -> by (destruct l; [done|by rewrite run_cons, Ep]).
    unfold on_track. rewrite Ep. split; [done|]. exists (inner ++ [l]). split; [by rewrite continuationAfter_step, Hcs|].
    rewrite straight_lists_app. by apply alike_straight.
  - eapply on_track_more; [|by apply IH]. intros id lists Hi. rewrite continuationAfter_step, cont_step_none; [done|].
    intros Hin. apply (Hdis id Hin). by eapply continuation_here.
Qed.

Lemma on_track_step rc now s :
  NoDup (step_ids s) -> forall r k', alike_walk (rc, r) k' -> rn_stopped r = false ->
  on_track (fun id => cont_step id s) rc (run_step orgID rc false now s r) (straight_step s k').
Proof.
  induction s as [id ty cfg b t e Ht He] using step_ind. rewrite step_ids_unfold. simpl as_ID. simpl as_Then. simpl as_Else.
  intros Hnd r k' Ha Hst. pose proof Ha as [Hc Har]. simpl in Hc, Har. simpl run_step. simpl straight_step.
  set (s := MkStep id ty cfg b t e). apply NoDup_cons in Hnd as [Hid Hnd]. apply NoDup_app in Hnd as (Hnt & Hdis & Hne).
  destruct (String.eqb ty StepCondition).
  - rewrite (alike_answer rc s _ _ Har), Hc. destruct (condition_answer orgID k'.1 s k'.2) as [matched|m].
    + rewrite <- Hc. assert (alike_walk (rc, record (condition_result s matched) r) (rc, record (condition_result s matched) k'.2)) as Ha1
        by (split; [done|]; by apply alike_record).
      assert (forall i, cont_inside i s = match continuationAfter t i with Some x => Some x | None => continuationAfter e i end)
        as Hb by (intros i; apply (cont_inside_branches i s)).
      assert (forall i, i ∈ tree_ids t ++ tree_ids e -> cont_step i s = cont_inside i s) as Hcs.
      { intros i Hi. unfold cont_step. destruct (String.eqb_spec (as_ID s) i) as [E|]; [|done]. subst i. done. }
      destruct matched.
      * eapply on_track_more; [|by apply (on_track_list rc now t)]. intros i lists Hi.
        pose proof (continuation_here _ _ _ Hi). rewrite Hcs by set_solver. by rewrite Hb, Hi.
      * eapply on_track_more; [|by apply (on_track_list rc now e)]. intros i lists Hi.
        pose proof (continuation_here _ _ _ Hi) as Hin. rewrite Hcs by set_solver. rewrite Hb.
        rewrite (continuation_none i t); [done|]. intros Hx. by apply (Hdis i).
    + apply on_track_alike. split; [done|]. by apply alike_stop, alike_record.
  - destruct (String.eqb ty StepWait); [by apply on_track_wait|]. rewrite <- Hc.
    apply on_track_alike. split; [done|]. by apply alike_action.
Qed.

Lemma on_track_run rc now l r k' :
  NoDup (tree_ids l) -> alike_walk (rc, r) k' ->
  on_track (continuationAfter l) rc (run orgID rc false now l r) (straight l k').
Proof. intros Hnd. apply on_track_list; [|done]. apply Forall_forall. intros s _. apply on_track_step. Qed.

Lemma on_track_lists rc now lists r k' :
  NoDup (stack_ids lists) -> alike_walk (rc, r) k' -> rn_stopped r = false ->
  on_track (fun id => cont_stack id lists) rc (run_lists orgID rc false now lists r) (straight_lists lists k').
Proof.
  revert r k'. induction lists as [|l lists IH]; intros r k' Hnd Ha Hst; [by apply on_track_alike|].
  rewrite stack_ids_cons in Hnd. apply NoDup_app in Hnd as (Hnl & Hdis & Hns). simpl.
  pose proof (on_track_run rc now l r k' Hnl Ha) as Hx. unfold on_track in Hx.
  set (r1 := run orgID rc false now l r) in *. set (k1 := straight l k') in *.
  destruct (rn_paused r1) as [p|] eqn:Ep.
  - destruct Hx as (Hst1 & inner & Hc & Ha1). assert (halted r1 = true) as -> by (unfold halted; by rewrite Ep, orb_true_r).
    unfold on_track. rewrite Ep, Hc. split; [done|]. eexists; split; [done|].
    rewrite straight_lists_app. by apply alike_straight_lists.
  - pose proof Hx as [_ Hxr]. simpl in Hxr. rewrite (alike_halted _ _ Hxr). pose proof Hxr as (_ & Hs1 & _). simpl in Hs1.
    destruct (rn_stopped k1.2) eqn:E.
    + rewrite straight_lists_stopped by done. by apply on_track_alike.
    + eapply on_track_more; [|by apply IH]. intros id ls Hc. simpl.
      rewrite (continuation_none id l); [done|]. intros Hin. apply (Hdis id Hin).
      apply dec_stable. intros Hn. cbv beta in Hc. by rewrite (cont_stack_none _ _ Hn) in Hc.
Qed.

(** A run for the whole of its life: each time it is paused, [resume] goes on
    with what is left of the rule, in a context built afresh from the outside
    as it is by then. *)
Fixpoint journey (fuel : nat) (steps : list ActionSpec) (r : stepRunner) : stepRunner :=
  match rn_paused r, fuel with
  | Some p, S fuel =>
      let id := pa_StepID p in
      match continuationAfter steps id with
      | Some lists =>
          journey fuel steps (run_lists orgID (taken_up r id).1 false (resumed_at id) lists (taken_up r id).2)
      | None => r
      end
  | _, _ => r
  end.

Lemma journey_on_track fuel steps rc r k' :
  NoDup (tree_ids steps) -> on_track (continuationAfter steps) rc r k' ->
  (forall p lists, rn_paused r = Some p -> continuationAfter steps (pa_StepID p) = Some lists ->
     (length (stack_ids lists) < fuel)%nat) ->
  alike (journey fuel steps r) k'.2.
Proof.
  intros Hnd. revert rc r. induction fuel as [|fuel IH]; intros rc r Ht Hf; unfold on_track in Ht; simpl;
    destruct (rn_paused r) as [p|] eqn:Ep; try apply Ht; destruct Ht as (Hs & lists & Hc & Ha).
  { specialize (Hf p lists eq_refl Hc). lia. }
  rewrite Hc. pose proof (continuation_continues _ _ _ Hnd Hc) as (Hnd' & _ & _ & Hcont).
  set (k := taken_up r (pa_StepID p)) in *.
  assert (alike_walk (k.1, k.2) k) as Hk by (split; [done|]; by split_and!).
  pose proof (on_track_lists k.1 (resumed_at (pa_StepID p)) lists k.2 k Hnd' Hk eq_refl) as Hx.
  set (q := run_lists _ _ _ _ _ _) in *.
  assert (forall id ls, cont_stack id lists = Some ls -> continuationAfter steps id = Some ls) as Hup.
  { intros id ls Hcs. rewrite Hcont; [done|]. apply dec_stable. intros Hn. by rewrite (cont_stack_none _ _ Hn) in Hcs. }
  apply (IH k.1).
  - unfold on_track in Hx |- *. destruct (rn_paused q); [|by etransitivity].
    destruct Hx as (Hsq & ls & Hcq & Haq). split; [done|]. exists ls. split; [by apply Hup|by etransitivity].
  - intros p' ls' Ep' Hc'. unfold on_track in Hx. rewrite Ep' in Hx. destruct Hx as (_ & ls & Hcq & _).
    rewrite (Hup _ _ Hcq) in Hc'. injection Hc' as <-. pose proof (cont_stack_smaller _ _ _ Hnd' Hcq).
    specialize (Hf p lists eq_refl Hc). lia.
Qed.

Lemma count_status_outline st results :
  st <> Skipped -> count_status st results = length (List.filter (fun x => String.eqb x.1.2 st) (outline results)).
Proof.
  intros Hst. unfold count_status. induction results as [|x l IH]; [done|].
  unfold outline in *. simpl. destruct (String.eqb_spec (rs_Status x) Skipped) as [E|]; simpl;
    destruct (String.eqb_spec (rs_Status x) st) as [E'|]; simpl; try congruence; [by f_equal|exact IH].
Qed.

Lemma statusFor_outline results results' : outline results = outline results' -> statusFor results = statusFor results'.
Proof.
  assert (forall rs, statusFor rs = if Nat.eqb (count_status Failed rs) 0 then AutomationSucceeded
    else if Nat.eqb (count_status Succeeded rs) 0 then AutomationFailed else AutomationPartiallyFailed) as Hs by by intros [|x l].
  intros Ho. by rewrite !Hs, !count_status_outline, Ho.
Qed.

(** C11: A wait only delays.  A checked rule whose run parks at its waits and is
    resumed each time - from the stored steps, the stored results and the id of
    the wait, at whatever times, with whatever others did outside meanwhile,
    and in a context built afresh - ends, after at most as many resumptions as
    the rule has steps.  It has then acted on the outside exactly as the run
    that is never interrupted (the steps one after the other, the same things
    happening outside during each wait and the context changing there), has
    stopped or completed as that run does, shows the same step, type, status
    and error for every step that was not skipped, in the same order, and ends
    in the same status. *)
Theorem resume_continues_the_run reg steps start rc o :
  sc_structural (walk (Ok reg) steps 0 sc_init) = None ->
  let fresh := MkRunner [] false None o in
  let parked := journey (countSteps steps) steps (run orgID rc false start steps fresh) in
  let uninterrupted := (straight steps (rc, fresh)).2 in
  rn_paused parked = None /\ rn_out parked = rn_out uninterrupted /\
  rn_stopped parked = rn_stopped uninterrupted /\
  outline (rn_results parked) = outline (rn_results uninterrupted) /\
  statusFor (rn_results parked) = statusFor (rn_results uninterrupted).
Proof.
  intros Hw fresh parked uninterrupted. apply walk_accepts in Hw as (Hnd & _ & _).
  assert (alike parked uninterrupted) as (H1 & H2 & H3 & _ & H5).
  { apply (journey_on_track _ _ rc); [done|by apply on_track_run|].
    intros p lists _ Hc. pose proof (continuation_continues _ _ _ Hnd Hc) as (_ & _ & Hl & _).
    by rewrite <- tree_ids_length. }
  split_and!; [done..|by apply statusFor_outline].
Qed.
End Resuming.

(** ** Concrete actions, for the witnesses *)

(** Two actions; the outside world is the list of what they did.  An action
    whose configuration says so fails. *)
Definition lib_ref : StepLib := {|
  Filter := bool;
  Registry := unit;
  decode_filter x := match x with ABool b => Some b | _ => None end;
  Lookup_action ty := String.eqb ty "send_message" || String.eqb ty "add_tags";
  Validate_action _ _ := None;
  Validate_filter _ _ := None
|}.

#[export] Instance env_ref : @StepEnv lib_ref :=
  @Build_StepEnv lib_ref (list string)
    (fun _ ty cfg o => if Boolean cfg "fails" then ([], Some "timeout"%string, o) else ([], None, o ++ [ty]))
    (fun _ filter _ _ => Ok filter).

Definition rc_ref : RunContext := {|
  rc_OrgID := 1; rc_Event := New_event 9 0 1 "contact.created" SystemActor []; rc_Actor := SystemActor;
  rc_Origin := {| orig_RuleID := Some 4%N; orig_Depth := 1 |}; rc_CreatorID := None; rc_DryRun := false;
  rc_ContactID := 7; rc_Vars := []
|}.

Definition wait_ref (id : string) : ActionSpec :=
  MkStep id StepWait [("for"%string, AMap [("amount"%string, AFloat (Float 1 0)); ("unit"%string, AString "hours")])] false [] [].
Definition send_ref (id : string) : ActionSpec := MkStep id "send_message" [] false [] [].
Definition failing_ref (id : string) : ActionSpec :=
  MkStep id "add_tags" [("fails"%string, ABool true)] false [] [].

(** Send, wait, ask: on yes send, wait, send; then a tag that fails. *)
Definition steps_ref : list ActionSpec :=
  [send_ref "a"; wait_ref "b";
   MkStep "c" StepCondition [("filter"%string, ABool true)] false
     [send_ref "d"; wait_ref "e"; send_ref "f"] [];
   failing_ref "g"; send_ref "h"].

(** During the wait [b] somebody else writes, and the context after each wait
    carries its id. *)
Definition meanwhile (id : string) (o : list string) : list string :=
  if String.eqb id "b" then o ++ ["somebody else"]%string else o.
Definition rc_after (id : string) (_ : list string) : RunContext :=
  {| rc_OrgID := 1; rc_Event := rc_Event rc_ref; rc_Actor := SystemActor; rc_Origin := rc_Origin rc_ref;
     rc_CreatorID := None; rc_DryRun := false; rc_ContactID := 7; rc_Vars := [("after"%string, AString id)] |}.

Definition sample_journey (fuel : nat) (steps : list ActionSpec) : stepRunner :=
  @journey lib_ref env_ref 1 meanwhile (fun _ => 5) rc_after fuel steps
    (run 1 rc_ref false 0 steps (@MkRunner lib_ref env_ref [] false None [])).

Lemma resume_continues_the_run_witness :
  let parked := sample_journey (countSteps steps_ref) steps_ref in
  rn_out parked = ["send_message"; "somebody else"; "send_message"; "send_message"]%string /\
  statusFor (rn_results parked) = AutomationPartiallyFailed /\
  rn_paused parked = None.
Proof.
  pose proof (@resume_continues_the_run lib_ref env_ref 1 meanwhile (fun _ => 5) rc_after tt steps_ref 0 rc_ref []
    ltac:(vm_compute; reflexivity)) as (H1 & H2 & _ & _ & H5).
  split_and!; [exact H2|exact H5|exact H1].
Defined.

(** The enclosing lists' remaining steps: the run that never waited lists them
    as skipped, a resumed run leaves them out. *)
Definition steps_inner_failure : list ActionSpec :=
  [MkStep "c" StepCondition [("filter"%string, ABool true)] false [wait_ref "e"; failing_ref "g"] []; send_ref "h"].

Lemma resumed_failure_forgets_the_rest :
  let fresh := @MkRunner lib_ref env_ref [] false None [] in
  (rs_ID <$> rn_results (run 1 rc_ref true 0 steps_inner_failure fresh)) = ["c"; "e"; "g"; "h"]%string /\
  (rs_ID <$> rn_results (sample_journey 4 steps_inner_failure)) = ["c"; "e"; "g"]%string.
Proof. split; vm_compute; reflexivity. Qed.
