(* ===== verification/AutoModels.v ===== *)
(** * The automation tables ([internal/models/automation.go])

    Rules, runs, waits and contact states, and what the engine needs from the
    packages it calls ([EngineEnv]). *)
From S2P Require Import Prelude GoLib Store Events Wire Models Statements Triggers Steps.

(** ** Why a run did nothing *)

Definition SkipConditionsNotMet := "conditions_not_met".
Definition SkipTriggerNotMet := "trigger_not_met".
Definition SkipCooldown := "cooldown".
Definition SkipOncePerContact := "once_per_contact".
Definition SkipRateLimited := "rate_limited".
Definition SkipLoopDepth := "loop_depth".
Definition SkipSelfTrigger := "self_trigger".
Definition CancelRuleOff := "rule_off".
Definition CancelStepRemoved := "step_removed".
Definition CancelContactGone := "contact_gone".
Definition CancelRuleDeleted := "rule_deleted".

Definition WaitPending := "pending".
Definition WaitResumed := "resumed".
Definition WaitCancelled := "cancelled".

(** [RunPolicy] of [rules.go]; its numbers are [int]s. *)
Record RunPolicy := MkPolicy {
  rp_OncePerContact : bool;
  rp_CooldownMinutes : Z;
  rp_MaxRunsPerHour : Z
}.

Section Records.
Context `{SL : StepLib}.

(** [models.AutomationRule].  The JSON columns hold the values [actionsToJSON],
    [policyToJSON] and [filterToJSON] encode. *)
Record AutomationRule := MkRule {
  ar_ID : uuid;
  ar_CreatedAt : time;
  ar_DeletedAt : option time;
  ar_OrganizationID : uuid;
  ar_Name : string;
  ar_Description : string;
  ar_Enabled : bool;
  ar_TriggerType : string;
  ar_TriggerConfig : Config;
  ar_ContactFilter : option Filter;
  ar_Actions : list ActionSpec;
  ar_RunPolicy : RunPolicy;
  ar_CreatedByID : option uuid;
  ar_UpdatedByID : option uuid;
  ar_LastRunAt : option time;
  ar_RunCount : Z;
  ar_ErrorCount : Z;
  ar_ConsecutiveFailures : Z
}.

Definition set_ar_DeletedAt (v : option time) (r : AutomationRule) : AutomationRule :=
  MkRule (ar_ID r) (ar_CreatedAt r) v (ar_OrganizationID r) (ar_Name r) (ar_Description r)
    (ar_Enabled r) (ar_TriggerType r) (ar_TriggerConfig r) (ar_ContactFilter r) (ar_Actions
    r) (ar_RunPolicy r) (ar_CreatedByID r) (ar_UpdatedByID r) (ar_LastRunAt r) (ar_RunCount
    r) (ar_ErrorCount r) (ar_ConsecutiveFailures r).
Definition set_ar_Name (v : string) (r : AutomationRule) : AutomationRule :=
  MkRule (ar_ID r) (ar_CreatedAt r) (ar_DeletedAt r) (ar_OrganizationID r) v (ar_Description
    r) (ar_Enabled r) (ar_TriggerType r) (ar_TriggerConfig r) (ar_ContactFilter r)
    (ar_Actions r) (ar_RunPolicy r) (ar_CreatedByID r) (ar_UpdatedByID r) (ar_LastRunAt r)
    (ar_RunCount r) (ar_ErrorCount r) (ar_ConsecutiveFailures r).
Definition set_ar_Description (v : string) (r : AutomationRule) : AutomationRule :=
  MkRule (ar_ID r) (ar_CreatedAt r) (ar_DeletedAt r) (ar_OrganizationID r) (ar_Name r) v
    (ar_Enabled r) (ar_TriggerType r) (ar_TriggerConfig r) (ar_ContactFilter r) (ar_Actions
    r) (ar_RunPolicy r) (ar_CreatedByID r) (ar_UpdatedByID r) (ar_LastRunAt r) (ar_RunCount
    r) (ar_ErrorCount r) (ar_ConsecutiveFailures r).
Definition set_ar_Enabled (v : bool) (r : AutomationRule) : AutomationRule :=
  MkRule (ar_ID r) (ar_CreatedAt r) (ar_DeletedAt r) (ar_OrganizationID r) (ar_Name r)
    (ar_Description r) v (ar_TriggerType r) (ar_TriggerConfig r) (ar_ContactFilter r)
    (ar_Actions r) (ar_RunPolicy r) (ar_CreatedByID r) (ar_UpdatedByID r) (ar_LastRunAt r)
    (ar_RunCount r) (ar_ErrorCount r) (ar_ConsecutiveFailures r).
Definition set_ar_TriggerType (v : string) (r : AutomationRule) : AutomationRule :=
  MkRule (ar_ID r) (ar_CreatedAt r) (ar_DeletedAt r) (ar_OrganizationID r) (ar_Name r)
    (ar_Description r) (ar_Enabled r) v (ar_TriggerConfig r) (ar_ContactFilter r)
    (ar_Actions r) (ar_RunPolicy r) (ar_CreatedByID r) (ar_UpdatedByID r) (ar_LastRunAt r)
    (ar_RunCount r) (ar_ErrorCount r) (ar_ConsecutiveFailures r).
Definition set_ar_TriggerConfig (v : Config) (r : AutomationRule) : AutomationRule :=
  MkRule (ar_ID r) (ar_CreatedAt r) (ar_DeletedAt r) (ar_OrganizationID r) (ar_Name r)
    (ar_Description r) (ar_Enabled r) (ar_TriggerType r) v (ar_ContactFilter r) (ar_Actions
    r) (ar_RunPolicy r) (ar_CreatedByID r) (ar_UpdatedByID r) (ar_LastRunAt r) (ar_RunCount
    r) (ar_ErrorCount r) (ar_ConsecutiveFailures r).
Definition set_ar_ContactFilter (v : option Filter) (r : AutomationRule) : AutomationRule :=
  MkRule (ar_ID r) (ar_CreatedAt r) (ar_DeletedAt r) (ar_OrganizationID r) (ar_Name r)
    (ar_Description r) (ar_Enabled r) (ar_TriggerType r) (ar_TriggerConfig r) v (ar_Actions
    r) (ar_RunPolicy r) (ar_CreatedByID r) (ar_UpdatedByID r) (ar_LastRunAt r) (ar_RunCount
    r) (ar_ErrorCount r) (ar_ConsecutiveFailures r).
Definition set_ar_Actions (v : list ActionSpec) (r : AutomationRule) : AutomationRule :=
  MkRule (ar_ID r) (ar_CreatedAt r) (ar_DeletedAt r) (ar_OrganizationID r) (ar_Name r)
    (ar_Description r) (ar_Enabled r) (ar_TriggerType r) (ar_TriggerConfig r)
    (ar_ContactFilter r) v (ar_RunPolicy r) (ar_CreatedByID r) (ar_UpdatedByID r)
    (ar_LastRunAt r) (ar_RunCount r) (ar_ErrorCount r) (ar_ConsecutiveFailures r).
Definition set_ar_RunPolicy (v : RunPolicy) (r : AutomationRule) : AutomationRule :=
  MkRule (ar_ID r) (ar_CreatedAt r) (ar_DeletedAt r) (ar_OrganizationID r) (ar_Name r)
    (ar_Description r) (ar_Enabled r) (ar_TriggerType r) (ar_TriggerConfig r)
    (ar_ContactFilter r) (ar_Actions r) v (ar_CreatedByID r) (ar_UpdatedByID r)
    (ar_LastRunAt r) (ar_RunCount r) (ar_ErrorCount r) (ar_ConsecutiveFailures r).
Definition set_ar_UpdatedByID (v : option uuid) (r : AutomationRule) : AutomationRule :=
  MkRule (ar_ID r) (ar_CreatedAt r) (ar_DeletedAt r) (ar_OrganizationID r) (ar_Name r)
    (ar_Description r) (ar_Enabled r) (ar_TriggerType r) (ar_TriggerConfig r)
    (ar_ContactFilter r) (ar_Actions r) (ar_RunPolicy r) (ar_CreatedByID r) v (ar_LastRunAt
    r) (ar_RunCount r) (ar_ErrorCount r) (ar_ConsecutiveFailures r).
Definition set_ar_LastRunAt (v : option time) (r : AutomationRule) : AutomationRule :=
  MkRule (ar_ID r) (ar_CreatedAt r) (ar_DeletedAt r) (ar_OrganizationID r) (ar_Name r)
    (ar_Description r) (ar_Enabled r) (ar_TriggerType r) (ar_TriggerConfig r)
    (ar_ContactFilter r) (ar_Actions r) (ar_RunPolicy r) (ar_CreatedByID r) (ar_UpdatedByID
    r) v (ar_RunCount r) (ar_ErrorCount r) (ar_ConsecutiveFailures r).
Definition set_ar_RunCount (v : Z) (r : AutomationRule) : AutomationRule :=
  MkRule (ar_ID r) (ar_CreatedAt r) (ar_DeletedAt r) (ar_OrganizationID r) (ar_Name r)
    (ar_Description r) (ar_Enabled r) (ar_TriggerType r) (ar_TriggerConfig r)
    (ar_ContactFilter r) (ar_Actions r) (ar_RunPolicy r) (ar_CreatedByID r) (ar_UpdatedByID
    r) (ar_LastRunAt r) v (ar_ErrorCount r) (ar_ConsecutiveFailures r).
Definition set_ar_ErrorCount (v : Z) (r : AutomationRule) : AutomationRule :=
  MkRule (ar_ID r) (ar_CreatedAt r) (ar_DeletedAt r) (ar_OrganizationID r) (ar_Name r)
    (ar_Description r) (ar_Enabled r) (ar_TriggerType r) (ar_TriggerConfig r)
    (ar_ContactFilter r) (ar_Actions r) (ar_RunPolicy r) (ar_CreatedByID r) (ar_UpdatedByID
    r) (ar_LastRunAt r) (ar_RunCount r) v (ar_ConsecutiveFailures r).
Definition set_ar_ConsecutiveFailures (v : Z) (r : AutomationRule) : AutomationRule :=
  MkRule (ar_ID r) (ar_CreatedAt r) (ar_DeletedAt r) (ar_OrganizationID r) (ar_Name r)
    (ar_Description r) (ar_Enabled r) (ar_TriggerType r) (ar_TriggerConfig r)
    (ar_ContactFilter r) (ar_Actions r) (ar_RunPolicy r) (ar_CreatedByID r) (ar_UpdatedByID
    r) (ar_LastRunAt r) (ar_RunCount r) (ar_ErrorCount r) v.

(** [models.AutomationRun]. *)
Record AutomationRun := MkRun {
  an_ID : uuid;
  an_OrganizationID : uuid;
  an_RuleID : uuid;
  an_EventID : uuid;
  an_EventType : string;
  an_ContactID : option uuid;
  an_Status : string;
  an_SkipReason : string;
  an_Depth : Z;
  an_ActionResults : list ActionResult;
  an_DryRun : bool;
  an_StartedAt : time;
  an_FinishedAt : option time
}.

Definition set_an_Status (v : string) (r : AutomationRun) : AutomationRun :=
  MkRun (an_ID r) (an_OrganizationID r) (an_RuleID r) (an_EventID r) (an_EventType r)
    (an_ContactID r) v (an_SkipReason r) (an_Depth r) (an_ActionResults r) (an_DryRun r)
    (an_StartedAt r) (an_FinishedAt r).
Definition set_an_SkipReason (v : string) (r : AutomationRun) : AutomationRun :=
  MkRun (an_ID r) (an_OrganizationID r) (an_RuleID r) (an_EventID r) (an_EventType r)
    (an_ContactID r) (an_Status r) v (an_Depth r) (an_ActionResults r) (an_DryRun r)
    (an_StartedAt r) (an_FinishedAt r).
Definition set_an_ActionResults (v : list ActionResult) (r : AutomationRun) : AutomationRun :=
  MkRun (an_ID r) (an_OrganizationID r) (an_RuleID r) (an_EventID r) (an_EventType r)
    (an_ContactID r) (an_Status r) (an_SkipReason r) (an_Depth r) v (an_DryRun r)
    (an_StartedAt r) (an_FinishedAt r).
Definition set_an_FinishedAt (v : option time) (r : AutomationRun) : AutomationRun :=
  MkRun (an_ID r) (an_OrganizationID r) (an_RuleID r) (an_EventID r) (an_EventType r)
    (an_ContactID r) (an_Status r) (an_SkipReason r) (an_Depth r) (an_ActionResults r)
    (an_DryRun r) (an_StartedAt r) v.

(** [models.AutomationWait]; the event is its JSON. *)
Record AutomationWait := MkWait {
  aw_ID : uuid;
  aw_OrganizationID : uuid;
  aw_RuleID : uuid;
  aw_RunID : uuid;
  aw_ContactID : option uuid;
  aw_StepID : string;
  aw_Event : any;
  aw_ResumeAt : time;
  aw_Status : string
}.

Definition set_aw_Status (v : string) (r : AutomationWait) : AutomationWait :=
  MkWait (aw_ID r) (aw_OrganizationID r) (aw_RuleID r) (aw_RunID r) (aw_ContactID r)
    (aw_StepID r) (aw_Event r) (aw_ResumeAt r) v.

(** [models.AutomationContactState], filed under rule, contact and subject. *)
Record AutomationContactState := MkContactState { ast_LastRunAt : time; ast_RunCount : Z }.
End Records.

(** ** The packages the engine calls *)

Class EngineEnv `{SE : StepEnv} `{GJ : GoJson} := {
  Filter_IsEmpty : Filter -> bool;
  (** The organization's filter registry ([Service.BuildRegistry]). *)
  BuildRegistry : uuid -> Outside -> res err Registry;
  (** [SELECT count] of a contact by id is positive. *)
  contact_alive : uuid -> Outside -> bool;
  (** [crmcontext.Build] for a rule: organization, contact, extra variables. *)
  Build : uuid -> uuid -> list (string * any) -> Outside -> res err (list (string * any));
  (** The instant in the organization's own clock, as a person reads it. *)
  local_now : uuid -> time -> string;
  (** [notify.Send] of "Automation disabled" to a user; its error is ignored. *)
  Send_disabled : uuid -> uuid -> uuid -> string -> Z -> Outside -> Outside
}.

Section Tables.
Context `{SE : StepEnv}.

(** The tables of the automation package, the hourly counters in Redis, and
    everything the actions work on. *)
Record AutoDB := MkAuto {
  au_rules : gmap uuid AutomationRule;
  au_runs : gmap uuid AutomationRun;
  au_waits : gmap uuid AutomationWait;
  au_states : gmap (uuid * uuid * string) AutomationContactState;
  au_rate : gmap (uuid * Z) Z;
  au_out : Outside
}.

Definition set_au_rules (v : gmap uuid AutomationRule) (r : AutoDB) : AutoDB :=
  MkAuto v (au_runs r) (au_waits r) (au_states r) (au_rate r) (au_out r).
Definition set_au_runs (v : gmap uuid AutomationRun) (r : AutoDB) : AutoDB :=
  MkAuto (au_rules r) v (au_waits r) (au_states r) (au_rate r) (au_out r).
Definition set_au_waits (v : gmap uuid AutomationWait) (r : AutoDB) : AutoDB :=
  MkAuto (au_rules r) (au_runs r) v (au_states r) (au_rate r) (au_out r).
Definition set_au_states (v : gmap (uuid * uuid * string) AutomationContactState) (r : AutoDB) : AutoDB :=
  MkAuto (au_rules r) (au_runs r) (au_waits r) v (au_rate r) (au_out r).
Definition set_au_rate (v : gmap (uuid * Z) Z) (r : AutoDB) : AutoDB :=
  MkAuto (au_rules r) (au_runs r) (au_waits r) (au_states r) v (au_out r).
Definition set_au_out (v : Outside) (r : AutoDB) : AutoDB :=
  MkAuto (au_rules r) (au_runs r) (au_waits r) (au_states r) (au_rate r) v.

(** ** Statements *)

Definition update_rules (p : AutomationRule -> bool) (us : list (AutomationRule -> AutomationRule)) : M AutoDB nat :=
  stmt no_locks (fun d => (Ok (rows_affected p (au_rules d)), set_au_rules (update_where p us (au_rules d)) d)).
Definition update_runs (p : AutomationRun -> bool) (us : list (AutomationRun -> AutomationRun)) : M AutoDB nat :=
  stmt no_locks (fun d => (Ok (rows_affected p (au_runs d)), set_au_runs (update_where p us (au_runs d)) d)).
Definition update_waits (p : AutomationWait -> bool) (us : list (AutomationWait -> AutomationWait)) : M AutoDB nat :=
  stmt no_locks (fun d => (Ok (rows_affected p (au_waits d)), set_au_waits (update_where p us (au_waits d)) d)).

(** The unique index of the runs: rule and event, except for dry runs. *)
Definition same_run (ruleID eventID : uuid) (r : AutomationRun) : bool :=
  N.eqb (an_RuleID r) ruleID && N.eqb (an_EventID r) eventID && negb (an_DryRun r).

Definition taken (run : AutomationRun) (d : AutoDB) : bool :=
  is_some (au_runs d !! an_ID run) ||
  (negb (an_DryRun run) && negb (Nat.eqb (rows_affected (same_run (an_RuleID run) (an_EventID run)) (au_runs d)) 0)).

(** [Create(run)]. *)
Definition insert_run (run : AutomationRun) : M AutoDB unit :=
  stmt no_locks (fun d =>
    if taken run d then (Err ErrUnique, d)
    else (Ok tt, set_au_runs (<[an_ID run := run]> (au_runs d)) d)).

(** [step_id] is a [varchar(64)]. *)
Definition insert_wait (wait : AutomationWait) : M AutoDB unit :=
  stmt no_locks (fun d =>
    if Nat.ltb 64 (String.length (aw_StepID wait)) then (Err ErrDriver, d)
    else if is_some (au_waits d !! aw_ID wait) then (Err ErrUnique, d)
    else (Ok tt, set_au_waits (<[aw_ID wait := wait]> (au_waits d)) d)).

Definition insert_rule (rule : AutomationRule) : M AutoDB unit :=
  stmt no_locks (fun d =>
    if is_some (au_rules d !! ar_ID rule) then (Err ErrUnique, d)
    else (Ok tt, set_au_rules (<[ar_ID rule := rule]> (au_rules d)) d)).

(** What the actions and notifications do to the rest of the system. *)
Definition outside {A} (f : Outside -> A * Outside) : M AutoDB A := fun w =>
  let '(a, o) := f (au_out (w_db w)) in (Ok a, set_db (set_au_out o (w_db w)) w).
End Tables.
