(* ===== verification/Rules.v ===== *)
(** * The rule service ([internal/automation/rules.go])

    Rules are stored, edited, switched on and off.  A rule that is off is a
    draft and may be unfinished; [check] separates what is wrong with a rule's
    shape (an error) from what is unfinished (problems), and only a rule
    without problems may be on. *)
From S2P Require Import Prelude GoLib Store Events Wire Models Statements Triggers Steps AutoModels.

Definition RuleErrNotFound := ErrSentinel "automation: rule not found".
Definition ErrNoActions := ErrSentinel "automation: add at least one action before turning this rule on".

Definition MaxRulesPerOrg : nat := 200.
Definition DefaultMaxRunsPerHour : Z := 500.

Section Rules.
Context `{SQ : Sql} `{EE : EngineEnv} `{GF : GoFmt}.

(** [Input]; a nil [TriggerConfig] has no keys. *)
Record Input := MkInput {
  in_Name : string;
  in_Description : string;
  in_Enabled : option bool;
  in_TriggerType : string;
  in_TriggerConfig : Config;
  in_ContactFilter : option Filter;
  in_Actions : list ActionSpec;
  in_RunPolicy : option RunPolicy;
  in_ActorID : option uuid
}.

Definition set_in_Enabled (v : option bool) (inp : Input) : Input :=
  MkInput (in_Name inp) (in_Description inp) v (in_TriggerType inp) (in_TriggerConfig inp)
    (in_ContactFilter inp) (in_Actions inp) (in_RunPolicy inp) (in_ActorID inp).

(** ** Reading a stored rule *)

Definition RuleActions (rule : AutomationRule) : list ActionSpec := ar_Actions rule.

Definition RulePolicy (rule : AutomationRule) : RunPolicy :=
  let policy := ar_RunPolicy rule in
  if rp_MaxRunsPerHour policy <=? 0
  then MkPolicy (rp_OncePerContact policy) (rp_CooldownMinutes policy) DefaultMaxRunsPerHour
  else policy.

Definition RuleFilter (rule : AutomationRule) : option Filter :=
  match ar_ContactFilter rule with
  | Some filter => if Filter_IsEmpty filter then None else Some filter
  | None => None
  end.

Definition RuleTriggerConfig (rule : AutomationRule) : Config := ar_TriggerConfig rule.

Definition InputFromRule (rule : AutomationRule) : Input :=
  MkInput (ar_Name rule) (ar_Description rule) (Some (ar_Enabled rule)) (ar_TriggerType rule)
    (ar_TriggerConfig rule) (RuleFilter rule) (RuleActions rule) (Some (RulePolicy rule)) None.

Definition policyToJSON (policy : option RunPolicy) : RunPolicy :=
  default (MkPolicy false 0 DefaultMaxRunsPerHour) policy.

(** The filter column of an input. *)
Definition stored_filter (inp : Input) : option Filter :=
  match in_ContactFilter inp with
  | Some filter => if Filter_IsEmpty filter then None else Some filter
  | None => None
  end.

(** ** [check] and [Validate] *)

(** The settings a time trigger cannot fire without. *)
Definition trigger_problems (triggerType : string) (cfg : Config) : list StepProblem :=
  if String.eqb triggerType TriggerNoCustomerReply || String.eqb triggerType TriggerNoAgentReply then
    match Duration cfg "after" with
    | Some _ => []
    | None => [{| sp_StepID := "trigger"; sp_Message := "choose how long to wait for a reply" |}]
    end
  else if String.eqb triggerType TriggerDateField then
    if is_empty (Str cfg "field") then [{| sp_StepID := "trigger"; sp_Message := "choose which date to watch" |}]
    else []
  else [].

Definition count_problems (actions : list ActionSpec) : list StepProblem :=
  if Nat.eqb (countSteps actions) 0 then [{| sp_StepID := ""; sp_Message := "add at least one step" |}] else [].

(** [registry] is what [loadRegistry] returns. *)
Definition filter_problems (registry : res err Registry) (filter : option Filter) : res err (list StepProblem) :=
  match filter with
  | Some filter =>
      if Filter_IsEmpty filter then Ok []
      else match registry with
           | Err e => Err e
           | Ok reg =>
               match Validate_filter reg filter with
               | Some m => Ok [{| sp_StepID := "filter"; sp_Message := m |}]
               | None => Ok []
               end
           end
  | None => Ok []
  end.

(** Everything after the check of the name. *)
Definition check_body (registry : res err Registry) (inp : Input) : res err (list StepProblem) :=
  match validateTriggerConfig (in_TriggerType inp) (in_TriggerConfig inp) with
  | Err e => Err e
  | Ok _ =>
      let checker := walk registry (in_Actions inp) 0 sc_init in
      match sc_structural checker with
      | Some e => Err e
      | None =>
          match filter_problems registry (in_ContactFilter inp) with
          | Err e => Err e
          | Ok more =>
              Ok (trigger_problems (in_TriggerType inp) (in_TriggerConfig inp) ++ sc_problems checker ++
                  count_problems (in_Actions inp) ++ more)
          end
      end
  end.

Definition check (registry : res err Registry) (inp : Input) : res err (list StepProblem) :=
  if is_empty (TrimSpace (in_Name inp)) then Err (ErrMsg "automation: a rule needs a name")
  else check_body registry inp.

Definition Validate (orgID : uuid) (inp : Input) : M AutoDB unit :=
  d <- get_db ;;
  match check (BuildRegistry orgID (au_out d)) inp with
  | Err e => fail e
  | Ok problems =>
      match in_Enabled inp, problems with
      | Some true, p :: _ => fail (step_error (sp_StepID p) (sp_Message p))
      | _, _ => ret tt
      end
  end.

(** ** The rows a statement is about *)

Definition live_rule (r : AutomationRule) : bool := is_none (ar_DeletedAt r).
Definition rule_of (orgID : uuid) (r : AutomationRule) : bool :=
  N.eqb (ar_OrganizationID r) orgID && live_rule r.
Definition rule_in (ruleID orgID : uuid) (r : AutomationRule) : bool :=
  N.eqb (ar_ID r) ruleID && N.eqb (ar_OrganizationID r) orgID && live_rule r.
Definition rule_by_id (ruleID : uuid) (r : AutomationRule) : bool := N.eqb (ar_ID r) ruleID && live_rule r.

(** ** Operations *)

Definition GetRule (orgID ruleID : uuid) : M AutoDB AutomationRule :=
  r <- try (query (fun d => first_row (rule_in ruleID orgID) unordered (au_rules d))) ;;
  match r with Ok rule => ret rule | Err _ => fail RuleErrNotFound end.

Definition CreateRule (orgID : uuid) (inp : Input) : M AutoDB AutomationRule :=
  existing <- query (fun d => Ok (rows_affected (rule_of orgID) (au_rules d))) ;;
  if Nat.leb MaxRulesPerOrg existing then fail (ErrMsg "automation: an organization may have at most 200 rules")
  else if bool_decide (in_Enabled inp = Some true) && Nat.eqb (countSteps (in_Actions inp)) 0 then fail ErrNoActions
  else
    Validate orgID inp ;;;
    id <- uuid_New ;;
    n <- now ;;
    let rule := MkRule id n None orgID (TrimSpace (in_Name inp)) (in_Description inp)
                  (default false (in_Enabled inp)) (in_TriggerType inp) (in_TriggerConfig inp)
                  (stored_filter inp) (in_Actions inp) (policyToJSON (in_RunPolicy inp))
                  (in_ActorID inp) None None 0 0 0 in
    insert_rule rule ;;;
    ret rule.

Definition rule_updates (inp : Input) : list (AutomationRule -> AutomationRule) :=
  [set_ar_Name (TrimSpace (in_Name inp)); set_ar_Description (in_Description inp);
   set_ar_TriggerType (in_TriggerType inp); set_ar_TriggerConfig (in_TriggerConfig inp);
   set_ar_Actions (in_Actions inp); set_ar_RunPolicy (policyToJSON (in_RunPolicy inp));
   set_ar_UpdatedByID (in_ActorID inp); set_ar_ConsecutiveFailures 0] ++
  match in_Enabled inp with Some b => [set_ar_Enabled b] | None => [] end ++
  [set_ar_ContactFilter (stored_filter inp)].

Definition UpdateRule (orgID ruleID : uuid) (inp : Input) : M AutoDB AutomationRule :=
  rule <- GetRule orgID ruleID ;;
  let willBeEnabled := default (ar_Enabled rule) (in_Enabled inp) in
  if willBeEnabled && Nat.eqb (countSteps (in_Actions inp)) 0 then fail ErrNoActions
  else
    Validate orgID (set_in_Enabled (Some willBeEnabled) inp) ;;;
    update_rules (rule_by_id (ar_ID rule)) (rule_updates inp) ;;;
    GetRule orgID ruleID.

(** What [SetEnabled] asks of a rule before it turns it on. *)
Definition may_turn_on (orgID ruleID : uuid) : M AutoDB unit :=
  rule <- GetRule orgID ruleID ;;
  if Nat.eqb (countSteps (RuleActions rule)) 0 then fail ErrNoActions
  else Validate orgID (set_in_Enabled (Some true) (InputFromRule rule)).

Definition SetEnabled (orgID ruleID : uuid) (enabled : bool) : M AutoDB AutomationRule :=
  (if enabled then may_turn_on orgID ruleID else ret tt) ;;;
  affected <- update_rules (rule_in ruleID orgID)
    ([set_ar_Enabled enabled] ++ if enabled then [set_ar_ConsecutiveFailures 0] else []) ;;
  if Nat.eqb affected 0 then fail RuleErrNotFound else GetRule orgID ruleID.

Definition DeleteRule (orgID ruleID : uuid) : M AutoDB unit :=
  n <- now ;;
  affected <- update_rules (rule_in ruleID orgID) [set_ar_DeletedAt (Some n)] ;;
  if Nat.eqb affected 0 then fail RuleErrNotFound else ret tt.

Definition older_rule (a b : AutomationRule) : bool := ar_CreatedAt a <? ar_CreatedAt b.

Definition ListRules (orgID : uuid) : M AutoDB (list AutomationRule) :=
  query (fun d => Ok (sort_by (fun a b => older_rule b a) (find_rows (rule_of orgID) None (au_rules d)))).

Definition enabled_for (orgID : uuid) (triggerType : string) (r : AutomationRule) : bool :=
  N.eqb (ar_OrganizationID r) orgID && String.eqb (ar_TriggerType r) triggerType && ar_Enabled r && live_rule r.

(** [Enabled]: oldest first. *)
Definition EnabledRules (orgID : uuid) (triggerType : string) : M AutoDB (list AutomationRule) :=
  query (fun d => Ok (sort_by older_rule (find_rows (enabled_for orgID triggerType) None (au_rules d)))).

(** [DraftRule]: the stored rule with unsaved edits. *)
Definition DraftRule (saved : AutomationRule) (inp : Input) : AutomationRule :=
  set_ar_ContactFilter (stored_filter inp)
    (set_ar_RunPolicy (policyToJSON (in_RunPolicy inp))
      (set_ar_Actions (in_Actions inp)
        (set_ar_TriggerConfig (in_TriggerConfig inp)
          (set_ar_TriggerType (in_TriggerType inp)
            (set_ar_Name (TrimSpace (in_Name inp)) saved))))).
End Rules.
