(* ===== verification/Engine.v ===== *)
(** * The automation engine ([engine.go], [flow.go], [timetriggers.go],
    [consumer.go])

    [Handle] runs the rules an event starts; [runRule] judges the event,
    claims the run, walks the rule's steps and records the outcome; a run that
    reaches a wait is parked and [ResumeWaits] carries it on.

    [runRule] is [judge] followed by [settle] or [perform]: everything before
    the claim, and the claim with what follows it. *)
From S2P Require Import Prelude GoLib Store Events Wire Models Statements Triggers Steps AutoModels Rules.

Definition MaxDepth : Z := 3.
Definition AutoDisableAfter : Z := 10.
Definition ResumeBatch : nat := 200.

Section Engine.
Context `{SQ : Sql} `{EE : EngineEnv} `{GF : GoFmt}.
Variable redis : bool.      (* is [e.Redis] set? *)

(** ** Judging an event *)

Definition subjectKey (event : Event) : string :=
  match get (e_Data event) "subject_key" with AString key => key | _ => "" end.

Definition conditionsMatch (rule : AutomationRule) (contactID : uuid) (o : Outside) : res string bool :=
  match RuleFilter rule with
  | None => Ok true
  | Some filter => filterMatches (ar_OrganizationID rule) filter contactID o
  end.

Definition policyReason (rule : AutomationRule) (policy : RunPolicy) (contactID : uuid) (subject : string) : M AutoDB string :=
  if negb (rp_OncePerContact policy) && (rp_CooldownMinutes policy <=? 0) then ret ""
  else
    state <- try (query (fun d =>
      match au_states d !! (ar_ID rule, contactID, subject) with
      | Some state => Ok state
      | None => Err ErrRecordNotFound
      end)) ;;
    match state with
    | Err _ => ret ""
    | Ok state =>
        if rp_OncePerContact policy then ret SkipOncePerContact
        else
          n <- now ;;
          if (0 <? rp_CooldownMinutes policy) &&
             (Sub n (ast_LastRunAt state) <? wrap64 (rp_CooldownMinutes policy * Minute))
          then ret SkipCooldown else ret ""
    end.

(** The clock hour of the counter. *)
Definition rate_hour (t : time) : Z := Z.quot (t / Second) 3600.

(** Redis [INCR]; the key expires long after its hour. *)
Definition incr_rate (ruleID : uuid) (hour : Z) : M AutoDB Z :=
  stmt no_locks (fun d =>
    let count := default 0 (au_rate d !! (ruleID, hour)) + 1 in
    (Ok count, set_au_rate (<[(ruleID, hour) := count]> (au_rate d)) d)).

Definition rateLimited (rule : AutomationRule) (policy : RunPolicy) : M AutoDB bool :=
  if negb redis || (rp_MaxRunsPerHour policy <=? 0) then ret false
  else
    n <- now ;;
    count <- try (incr_rate (ar_ID rule) (rate_hour n)) ;;
    match count with
    | Err _ => ret false
    | Ok count => ret (rp_MaxRunsPerHour policy <? count)
    end.

(** The reasons that do not need the database: trigger and loop protection. *)
Definition loop_reason (rule : AutomationRule) (event : Event) : string :=
  if opt_eqb (orig_RuleID (e_Origin event)) (Some (ar_ID rule)) then SkipSelfTrigger
  else if MaxDepth <=? orig_Depth (e_Origin event) then SkipLoopDepth
  else "".

Definition skipReason (rule : AutomationRule) (event : Event) (dryRun : bool) : M AutoDB string :=
  if negb dryRun && negb (MatchTrigger (ar_TriggerType rule) (ar_TriggerConfig rule) event) then ret SkipTriggerNotMet
  else if negb (is_empty (loop_reason rule event)) then ret (loop_reason rule event)
  else
    d <- get_db ;;
    let matched :=
      match e_ContactID event with
      | Some contactID => conditionsMatch rule contactID (au_out d)
      | None => Ok true
      end in
    match matched with
    | Err _ | Ok false => ret SkipConditionsNotMet
    | Ok true =>
        if dryRun then ret ""
        else
          let policy := RulePolicy rule in
          reason <- match e_ContactID event with
                    | Some contactID => policyReason rule policy contactID (subjectKey event)
                    | None => ret ""
                    end ;;
          if negb (is_empty reason) then ret reason
          else
            limited <- rateLimited rule policy ;;
            if limited then ret SkipRateLimited else ret ""
    end.

(** ** What every step of one run shares *)

(** [e.variables]. *)
Definition variables (rule : AutomationRule) (event : Event) (contactID : uuid) (t : time) (o : Outside) : list (string * any) :=
  let extra := [("rule"%string, AMap [("name"%string, AString (ar_Name rule))]);
                ("event"%string, AMap [("type"%string, AString (e_Type event)); ("data"%string, AMap (e_Data event))])] in
  let vars := match Build (ar_OrganizationID rule) contactID extra o with Ok vars => vars | Err _ => extra end in
  vars ++ [("now"%string, AString (local_now (ar_OrganizationID rule) t))].

Definition runContext (rule : AutomationRule) (event : Event) (dryRun : bool) (t : time) (o : Outside) : RunContext :=
  let contactID := default uuid_Nil (e_ContactID event) in
  {| rc_OrgID := ar_OrganizationID rule;
     rc_Event := event;
     rc_Actor := {| actor_Type := ActorAutomation; actor_ID := Some (ar_ID rule); actor_Name := ar_Name rule |};
     rc_Origin := {| orig_RuleID := Some (ar_ID rule); orig_Depth := orig_Depth (e_Origin event) + 1 |};
     rc_CreatorID := ar_CreatedByID rule;
     rc_DryRun := dryRun;
     rc_ContactID := contactID;
     rc_Vars := variables rule event contactID t o |}.

(** [execute]. *)
Definition execute (rule : AutomationRule) (event : Event) (dryRun : bool) : M AutoDB (list ActionResult * option pause) :=
  t <- now ;;
  outside (fun o =>
    let r := run (ar_OrganizationID rule) (runContext rule event dryRun t o) dryRun t (RuleActions rule)
               (MkRunner [] false None o) in
    ((rn_results r, rn_paused r), rn_out r)).

(** ** Recording a run *)

Definition run_by_id (id : uuid) (r : AutomationRun) : bool := N.eqb (an_ID r) id.

(** [claim]: the unique index refuses silently ([ON CONFLICT DO NOTHING]). *)
Definition claim (run : AutomationRun) : M AutoDB bool :=
  stmt no_locks (fun d =>
    if taken run d then (Ok false, d)
    else (Ok true, set_au_runs (<[an_ID run := run]> (au_runs d)) d)).

Definition recordContactState (rule : AutomationRule) (contactID : uuid) (subject : string) (run : AutomationRun) : M AutoDB unit :=
  let key := (ar_ID rule, contactID, subject) in
  try (stmt no_locks (fun d =>
    let count := match au_states d !! key with Some s => ast_RunCount s + 1 | None => 1 end in
    (Ok tt, set_au_states (<[key := MkContactState (an_StartedAt run) count]> (au_states d)) d))) ;;;
  ret tt.

Definition record_contact (rule : AutomationRule) (subject : string) (run : AutomationRun) : M AutoDB unit :=
  match an_ContactID run with
  | Some contactID => recordContactState rule contactID subject run
  | None => ret tt
  end.

Definition disable_rule (rule : AutomationRule) (current : AutomationRule) : M AutoDB unit :=
  r <- try (update_rules (rule_by_id (ar_ID rule)) [set_ar_Enabled false]) ;;
  match r with
  | Err _ => ret tt
  | Ok _ =>
      match ar_CreatedByID current with
      | None => ret tt
      | Some userID =>
          outside (fun o => (tt, Send_disabled (ar_OrganizationID rule) userID (ar_ID rule) (ar_Name current)
                                   (ar_ConsecutiveFailures current) o))
      end
  end.

Definition maybeAutoDisable (rule : AutomationRule) : M AutoDB unit :=
  current <- try (query (fun d => first_row (rule_by_id (ar_ID rule)) unordered (au_rules d))) ;;
  match current with
  | Err _ => ret tt
  | Ok current =>
      if (ar_ConsecutiveFailures current <? AutoDisableAfter) || negb (ar_Enabled current) then ret tt
      else disable_rule rule current
  end.

Definition bump_RunCount (r : AutomationRule) := set_ar_RunCount (ar_RunCount r + 1) r.
Definition bump_ErrorCount (r : AutomationRule) := set_ar_ErrorCount (ar_ErrorCount r + 1) r.
Definition bump_Failures (r : AutomationRule) := set_ar_ConsecutiveFailures (ar_ConsecutiveFailures r + 1) r.

Definition counter_updates (run : AutomationRun) : list (AutomationRule -> AutomationRule) :=
  [set_ar_LastRunAt (Some (an_StartedAt run)); bump_RunCount] ++
  if String.eqb (an_Status run) AutomationFailed then [bump_ErrorCount; bump_Failures]
  else [set_ar_ConsecutiveFailures 0].

Definition updateRuleCounters (rule : AutomationRule) (run : AutomationRun) : M AutoDB unit :=
  r <- try (update_rules (rule_by_id (ar_ID rule)) (counter_updates run)) ;;
  match r with
  | Err _ => ret tt
  | Ok _ => if String.eqb (an_Status run) AutomationFailed then maybeAutoDisable rule else ret tt
  end.

(** The row changes of a run that is parked, and of one that is over. *)
Definition parked_updates (run : AutomationRun) : list (AutomationRun -> AutomationRun) :=
  [set_an_Status (an_Status run); set_an_ActionResults (an_ActionResults run)].
Definition finished_updates (run : AutomationRun) (t : time) : list (AutomationRun -> AutomationRun) :=
  parked_updates run ++ [set_an_FinishedAt (Some t)].

Definition finish (rule : AutomationRule) (run : AutomationRun) (subject : string) : M AutoDB AutomationRun :=
  finished <- now ;;
  let run := set_an_FinishedAt (Some finished) run in
  if an_DryRun run then insert_run run ;;; ret run
  else if String.eqb (an_Status run) AutomationSkipped && negb (is_empty (an_SkipReason run)) then
    claim run ;;; ret run
  else if String.eqb (an_Status run) AutomationWaiting then
    let run := set_an_FinishedAt None run in
    update_runs (run_by_id (an_ID run)) (parked_updates run) ;;;
    record_contact rule subject run ;;;
    ret run
  else
    update_runs (run_by_id (an_ID run)) (finished_updates run finished) ;;;
    updateRuleCounters rule run ;;;
    record_contact rule subject run ;;;
    ret run.

(** [park]: the wait row carries the event and the step. *)
Definition park (rule : AutomationRule) (run : AutomationRun) (event : Event) (at_ : pause) : M AutoDB unit :=
  match marshal_event event with
  | Err e => fail e
  | Ok encoded =>
      id <- uuid_New ;;
      insert_wait (MkWait id (ar_OrganizationID rule) (ar_ID rule) (an_ID run) (an_ContactID run)
                     (pa_StepID at_) encoded (pa_ResumeAt at_) WaitPending)
  end.

(** ** Running a rule *)

Definition new_run (id : uuid) (t : time) (rule : AutomationRule) (event : Event) (dryRun : bool) : AutomationRun :=
  MkRun id (ar_OrganizationID rule) (ar_ID rule) (e_ID event) (e_Type event) (e_ContactID event)
    "" "" (orig_Depth (e_Origin event)) [] dryRun t None.

(** The event is not for this rule now: an answer is recorded, except that the
    trigger's settings did not match. *)
Definition settle (rule : AutomationRule) (run : AutomationRun) (event : Event) (dryRun : bool) (reason : string)
    : M AutoDB (option AutomationRun) :=
  if String.eqb reason SkipTriggerNotMet && negb dryRun then ret None
  else
    run <- finish rule (set_an_SkipReason reason (set_an_Status AutomationSkipped run)) (subjectKey event) ;;
    ret (Some run).

(** The steps, the outcome and, at a wait, the parked run. *)
Definition act (rule : AutomationRule) (run : AutomationRun) (event : Event) (dryRun : bool)
    : M AutoDB (option AutomationRun) :=
  result <- execute rule event dryRun ;;
  let '(results, paused) := result in
  let run := set_an_ActionResults results
               (set_an_Status (if is_some paused then AutomationWaiting else statusFor results) run) in
  out <- finish rule run (subjectKey event) ;;
  match paused with
  | None => ret (Some out)
  | Some at_ => park rule out event at_ ;;; ret (Some out)
  end.

(** The claim and what follows it. *)
Definition perform (rule : AutomationRule) (run : AutomationRun) (event : Event) (dryRun : bool)
    : M AutoDB (option AutomationRun) :=
  claimed <- (if dryRun then ret true else claim run) ;;
  if negb claimed then ret None else act rule run event dryRun.

Definition runRule (rule : AutomationRule) (event : Event) (dryRun : bool) : M AutoDB (option AutomationRun) :=
  started <- now ;;
  id <- uuid_New ;;
  let run := new_run id started rule event dryRun in
  reason <- skipReason rule event dryRun ;;
  if negb (is_empty reason) then settle rule run event dryRun reason
  else perform rule run event dryRun.

Definition DryRun (rule : AutomationRule) (event : Event) : M AutoDB (option AutomationRun) := runRule rule event true.

(** The loop of [Handle]: a rule that fails does not stop the others. *)
Fixpoint handle_rules (event : Event) (rules : list AutomationRule) : M AutoDB (list AutomationRun) :=
  match rules with
  | [] => ret []
  | rule :: rules =>
      r <- try (runRule rule event false) ;;
      rest <- handle_rules event rules ;;
      ret (match r with Ok (Some run) => run :: rest | _ => rest end)
  end.

Definition Handle (event : Event) : M AutoDB (list AutomationRun) :=
  rules <- EnabledRules (e_OrgID event) (e_Type event) ;;
  handle_rules event rules.

(** ** [flow.go]: resuming *)

Definition wait_by_id (id : uuid) (w : AutomationWait) : bool := N.eqb (aw_ID w) id.
Definition wait_pending (id : uuid) (w : AutomationWait) : bool :=
  N.eqb (aw_ID w) id && String.eqb (aw_Status w) WaitPending.
Definition wait_due (t : time) (w : AutomationWait) : bool :=
  String.eqb (aw_Status w) WaitPending && (aw_ResumeAt w <=? t).

Definition runResults (run : AutomationRun) : list ActionResult := an_ActionResults run.

Definition cancelWait (wait : AutomationWait) (run : AutomationRun) (reason : string) : M AutoDB unit :=
  finished <- now ;;
  update_runs (run_by_id (an_ID run))
    [set_an_Status AutomationCancelled; set_an_SkipReason reason; set_an_FinishedAt (Some finished)] ;;;
  update_waits (wait_by_id (aw_ID wait)) [set_aw_Status WaitCancelled] ;;;
  ret tt.

(** The steps after the wait, for real. *)
Definition continue_run (rule : AutomationRule) (event : Event) (results : list ActionResult)
    (remaining : list (list ActionSpec)) : M AutoDB (list ActionResult * option pause) :=
  t <- now ;;
  outside (fun o =>
    let r := run_lists (ar_OrganizationID rule) (runContext rule event false t o) false t remaining
               (MkRunner results false None o) in
    ((rn_results r, rn_paused r), rn_out r)).

(** What [resume] does once it knows where to go on. *)
Definition go_on (wait : AutomationWait) (run : AutomationRun) (rule : AutomationRule)
    (remaining : list (list ActionSpec)) : M AutoDB unit :=
  match unmarshal_event (aw_Event wait) with
  | Err e => fail e
  | Ok event =>
      result <- continue_run rule event (finishWaitResult (runResults run) (aw_StepID wait)) remaining ;;
      let '(results, paused) := result in
      let run := set_an_ActionResults results run in
      match paused with
      | Some at_ =>
          let run := set_an_Status AutomationWaiting run in
          update_runs (run_by_id (an_ID run)) (parked_updates run) ;;;
          park rule run event at_
      | None =>
          finished <- now ;;
          let run := set_an_FinishedAt (Some finished) (set_an_Status (statusFor results) run) in
          update_runs (run_by_id (an_ID run)) (finished_updates run finished) ;;;
          updateRuleCounters rule run
      end
  end.

Definition resume (wait : AutomationWait) : M AutoDB unit :=
  r <- try (query (fun d => first_row (run_by_id (aw_RunID wait)) unordered (au_runs d))) ;;
  match r with
  | Err _ => update_waits (wait_by_id (aw_ID wait)) [set_aw_Status WaitCancelled] ;;; ret tt
  | Ok run =>
      r <- try (GetRule (aw_OrganizationID wait) (aw_RuleID wait)) ;;
      match r with
      | Err _ => cancelWait wait run CancelRuleDeleted
      | Ok rule =>
          if negb (ar_Enabled rule) then cancelWait wait run CancelRuleOff
          else
            alive <- match aw_ContactID wait with
                     | Some contactID => query (fun d => Ok (contact_alive contactID (au_out d)))
                     | None => ret true
                     end ;;
            if negb alive then cancelWait wait run CancelContactGone
            else match continuationAfter (RuleActions rule) (aw_StepID wait) with
                 | None => cancelWait wait run CancelStepRemoved
                 | Some remaining => go_on wait run rule remaining
                 end
      end
  end.

(** The loop of [ResumeWaits]; [others] is what other replicas do meanwhile. *)
Fixpoint resume_each (others : nat -> AutoDB -> AutoDB) (due : list AutomationWait) (resumed : nat) : M AutoDB nat :=
  match due with
  | [] => ret resumed
  | wait :: rest =>
      interleave (others (length rest)) ;;;
      affected <- update_waits (wait_pending (aw_ID wait)) [set_aw_Status WaitResumed] ;;
      if Nat.eqb affected 0 then resume_each others rest resumed
      else
        r <- try (resume wait) ;;
        resume_each others rest (match r with Ok _ => S resumed | Err _ => resumed end)
  end.

Definition sooner (a b : AutomationWait) : bool := aw_ResumeAt a <? aw_ResumeAt b.

Definition due_waits (t : time) (d : AutoDB) : list AutomationWait :=
  take ResumeBatch (sort_by sooner (find_rows (wait_due t) None (au_waits d))).

Definition ResumeWaits (others : nat -> AutoDB -> AutoDB) : M AutoDB nat :=
  t <- now ;;
  due <- query (fun d => Ok (due_waits t d)) ;;
  resume_each others due 0.

(** ** [consumer.go] *)

Definition MaxDeliveries : Z := 3.

(** [handleEntry]: is the stream entry acknowledged?  [deliveries] is how many
    times Redis says it has been handed out. *)
Definition handleEntry (payload : string) (deliveries : Z) : M AutoDB bool :=
  match DecodeFanout payload with
  | Err _ => ret true
  | Ok event =>
      r <- try (Handle event) ;;
      match r with
      | Err _ => ret (MaxDeliveries <=? deliveries)
      | Ok _ => ret true
      end
  end.
End Engine.
