(* ===== verification/EngineLemmas.v ===== *)
(** * Lemmas on the automation engine

    How the operations of [Rules] and [Engine] move the tables. *)
From S2P Require Import Prelude GoLib Store Events Wire Models Statements Triggers Steps StepsProps AutoModels Rules Engine.

Section Frames.
Context `{SL : SqlLaws} `{EE : EngineEnv} `{GF : GoFmt}.
Implicit Types (d : AutoDB) (w : world AutoDB).

(** ** Runs stay *)

(** The event was handled for the rule: its run is recorded. *)
Definition handled (ruleID eventID : uuid) d : Prop :=
  exists k r, au_runs d !! k = Some r /\ same_run ruleID eventID r = true.

(** What a run is about never changes. *)
Definition same_ident (r r' : AutomationRun) : Prop :=
  an_RuleID r' = an_RuleID r /\ an_EventID r' = an_EventID r /\ an_DryRun r' = an_DryRun r.

#[export] Instance same_ident_preorder : PreOrder same_ident.
Proof. split; [by intros r|]. intros a b c (? & ? & ?) (? & ? & ?). split_and!; congruence. Qed.

Definition runs_stay d d' : Prop :=
  forall k r, au_runs d !! k = Some r -> exists r', au_runs d' !! k = Some r' /\ same_ident r r'.

#[export] Instance runs_stay_preorder : PreOrder runs_stay.
Proof.
  split.
  - intros d k r Hr. exists r. split; [done|]. reflexivity.
  - intros a b c Hab Hbc k r Hr. destruct (Hab k r Hr) as (r' & Hr' & E).
    destruct (Hbc k r' Hr') as (r'' & Hr'' & F). exists r''. split; [done|]. by etrans.
Qed.

Lemma handled_stays ruleID eventID d d' : runs_stay d d' -> handled ruleID eventID d -> handled ruleID eventID d'.
Proof.
  intros Hs (k & r & Hr & Hm). destruct (Hs k r Hr) as (r' & Hr' & E1 & E2 & E3).
  exists k, r'. split; [done|]. unfold same_run in *. by rewrite E1, E2, E3.
Qed.

Lemma runs_stay_eq d d' : au_runs d' = au_runs d -> runs_stay d d'.
Proof. intros E k r Hr. exists r. rewrite E. split; [done|]. reflexivity. Qed.

Lemma taken_handled run d : handled (an_RuleID run) (an_EventID run) d -> an_DryRun run = false -> taken run d = true.
Proof.
  intros (k & r & Hr & Hm) Hd. unfold taken. rewrite Hd. simpl. apply orb_true_iff. right.
  destruct (Nat.eqb_spec (rows_affected (same_run (an_RuleID run) (an_EventID run)) (au_runs d)) 0) as [E|]; [|done].
  by rewrite (proj1 (rows_affected_zero _ _) E k r Hr) in Hm.
Qed.

Lemma not_taken_fresh run d : taken run d = false -> au_runs d !! an_ID run = None.
Proof. unfold taken. intros [Hk _]%orb_false_iff. destruct (au_runs d !! an_ID run); done. Qed.

Lemma runs_stay_insert run d :
  au_runs d !! an_ID run = None -> runs_stay d (set_au_runs (<[an_ID run := run]> (au_runs d)) d).
Proof.
  intros Hn k r Hr. exists r. simpl. split; [|reflexivity]. by rewrite lookup_insert_ne by congruence.
Qed.

Lemma moves_update_runs p us :
  Forall (fun f => forall r, same_ident r (f r)) us -> moves runs_stay (update_runs p us).
Proof.
  intros Hus. apply moves_stmt; [typeclasses eauto|]. intros d a d' [= _ <-] k r Hr. simpl. rewrite update_where_lookup, Hr. simpl.
  eexists; split; [done|]. destruct (p r); [|reflexivity]. by apply (apply_updates_rel same_ident).
Qed.

Lemma moves_claim run : moves runs_stay (claim run).
Proof.
  apply moves_stmt; [typeclasses eauto|]. intros d a d' E. destruct (taken run d) eqn:Et; injection E as <- <-; [reflexivity|].
  by apply runs_stay_insert, not_taken_fresh.
Qed.

Lemma moves_insert_run run : moves runs_stay (insert_run run).
Proof.
  apply moves_stmt; [typeclasses eauto|]. intros d a d' E. destruct (taken run d) eqn:Et; [done|]. injection E as <- <-.
  by apply runs_stay_insert, not_taken_fresh.
Qed.

Lemma moves_outside {A} (R : AutoDB -> AutoDB -> Prop) (f : Outside -> A * Outside) :
  (forall d o, R d (set_au_out o d)) -> moves R (outside f).
Proof. intros Hf w r w' E. unfold outside in E. destruct (f _) as [a o]. injection E as <- <-. apply Hf. Qed.

(** Statements on the other tables leave the runs alone. *)
Lemma moves_runs_eq {A} locks (f : AutoDB -> res err A * AutoDB) :
  (forall d a d', f d = (Ok a, d') -> au_runs d' = au_runs d) -> moves runs_stay (stmt locks f).
Proof. intros Hf. apply moves_stmt; [typeclasses eauto|]. intros d a d' E. by eapply runs_stay_eq, Hf. Qed.

Ltac solve_runs :=
  repeat first
    [ progress moves_step
    | apply moves_claim | apply moves_insert_run
    | apply moves_update_runs; repeat constructor; done
    | apply moves_outside; intros; by apply runs_stay_eq
    | apply moves_runs_eq; intros; repeat case_match; by simplify_eq
    | typeclasses eauto ].

Lemma finish_runs rule run subject : moves runs_stay (finish rule run subject).
Proof.
  unfold finish, record_contact, recordContactState, updateRuleCounters, maybeAutoDisable, disable_rule, update_rules. solve_runs.
Qed.

(** Nothing but the hourly counters. *)
Definition counts_only d d' : Prop := set_au_rate (au_rate d') d = d'.

#[export] Instance counts_only_preorder : PreOrder counts_only.
Proof.
  split; unfold counts_only; [by intros []|]. intros a b c Hab Hbc. rewrite <- Hab in Hbc. by rewrite <- Hbc.
Qed.

Lemma judge_counts redis rule event dryRun : moves counts_only (skipReason redis rule event dryRun).
Proof.
  unfold skipReason, policyReason, rateLimited, incr_rate.
  repeat first [progress moves_step | typeclasses eauto
    | apply moves_stmt; [typeclasses eauto|]; intros ? ? ? [= _ <-]; unfold counts_only; done].
Qed.

Lemma counts_runs d d' : counts_only d d' -> runs_stay d d'.
Proof. intros <-. by apply runs_stay_eq. Qed.

Lemma moves_weaken {A} (R R' : AutoDB -> AutoDB -> Prop) (m : M AutoDB A) :
  (forall d d', R d d' -> R' d d') -> moves R m -> moves R' m.
Proof. intros Hw Hm w r w' E. eapply Hw, Hm, E. Qed.

Lemma execute_runs rule event dryRun : moves runs_stay (execute rule event dryRun).
Proof. unfold execute. solve_runs. Qed.

Lemma park_runs rule run event at_ : moves runs_stay (park rule run event at_).
Proof. unfold park, insert_wait. solve_runs. Qed.

Lemma act_runs rule run event dryRun : moves runs_stay (act rule run event dryRun).
Proof.
  unfold act. apply moves_bind; [typeclasses eauto|apply execute_runs|intros [results paused]].
  apply moves_bind; [typeclasses eauto|apply finish_runs|intros out].
  destruct paused; [|apply moves_ret; typeclasses eauto].
  apply moves_bind; [typeclasses eauto|apply park_runs|intros ?]. apply moves_ret; typeclasses eauto.
Qed.

Lemma perform_runs rule run event dryRun : moves runs_stay (perform rule run event dryRun).
Proof.
  unfold perform. apply moves_bind; [typeclasses eauto|destruct dryRun; solve_runs|intros []]; simpl;
    [apply act_runs|apply moves_ret; typeclasses eauto].
Qed.

Lemma runRule_runs redis rule event dryRun : moves runs_stay (runRule redis rule event dryRun).
Proof.
  unfold runRule, settle. do 2 (apply moves_bind; [typeclasses eauto|solve_runs|intros ?]). cbv zeta.
  apply moves_bind; [typeclasses eauto|eapply moves_weaken; [apply counts_runs|apply judge_counts]|intros reason].
  destruct (negb _); [|apply perform_runs]. destruct (_ && _); [apply moves_ret; typeclasses eauto|].
  apply moves_bind; [typeclasses eauto|apply finish_runs|intros ?]. apply moves_ret; typeclasses eauto.
Qed.

(** A computation whose result is known to satisfy [Q]. *)
Lemma moves_bind_with {A B} (R : AutoDB -> AutoDB -> Prop) `{!PreOrder R} (Q : A -> Prop) (m : M AutoDB A) (k : A -> M AutoDB B) :
  moves R m -> (forall w a w', m w = (Ok a, w') -> Q a) -> (forall a, Q a -> moves R (k a)) -> moves R (bind m k).
Proof.
  intros Hm HQ Hk w r w' E. unfold bind in E. destruct (m w) as [[a|e] w1] eqn:E1.
  - etrans; [by eapply Hm|]. eapply Hk; [by eapply HQ|done].
  - simplify_eq. by eapply Hm.
Qed.

(** ** The claim *)

(** A claim for an event that was handled changes nothing. *)
Lemma claim_taken run w r w' :
  taken run (w_db w) = true -> claim run w = (r, w') -> w_db w' = w_db w /\ r <> Ok true.
Proof.
  intros Ht. unfold claim, stmt. destruct (w_aborted w); [by intros [= <- <-]|].
  destruct (w_faults w) as [|[] fs]; simpl; [|by intros [= <- <-]|]; rewrite Ht; by intros [= <- <-].
Qed.

Lemma claim_inv run w r w' :
  claim run w = (r, w') ->
  (w_db w' = w_db w /\ r <> Ok true) \/
  (r = Ok true /\ taken run (w_db w) = false /\ w_db w' = set_au_runs (<[an_ID run := run]> (au_runs (w_db w))) (w_db w)).
Proof.
  unfold claim, stmt. destruct (w_aborted w); [by intros [= <- <-]; left|].
  destruct (w_faults w) as [|[] fs]; simpl; [|by intros [= <- <-]; left|];
    (destruct (taken run (w_db w)) eqn:Ht; intros [= <- <-]; [by left|right; done]).
Qed.

(** A run for the rule and the event, not a dry one. *)
Definition run_for (ruleID eventID : uuid) (run : AutomationRun) : Prop :=
  an_RuleID run = ruleID /\ an_EventID run = eventID /\ an_DryRun run = false.

Lemma inserted_handled ruleID eventID run d :
  run_for ruleID eventID run -> handled ruleID eventID (set_au_runs (<[an_ID run := run]> (au_runs d)) d).
Proof.
  intros (E1 & E2 & E3). exists (an_ID run), run. simpl. rewrite lookup_insert_eq. split; [done|].
  unfold same_run. by rewrite E1, E2, E3, !N.eqb_refl.
Qed.

(** [perform] acts for an event that was not handled, and then it is; for one
    that was handled it does nothing at all. *)
Lemma perform_once rule run event w r w' :
  run_for (ar_ID rule) (e_ID event) run -> perform rule run event false w = (r, w') ->
  (w_db w' = w_db w) \/
  (~ handled (ar_ID rule) (e_ID event) (w_db w) /\ handled (ar_ID rule) (e_ID event) (w_db w')).
Proof.
  intros Hrun E. unfold perform, bind at 1 in E. simpl in E.
  destruct (claim run w) as [[[]|e] w1] eqn:Ec; apply claim_inv in Ec as [[Hdb Hr]|(Hr & Ht & Hdb)]; simplify_eq.
  - right. split.
    + intros Hh. destruct Hrun as (E1 & E2 & E3). rewrite <- E1, <- E2 in Hh. by rewrite (taken_handled _ _ Hh E3) in Ht.
    + eapply handled_stays; [exact (act_runs _ _ _ _ _ _ _ E)|]. rewrite Hdb. by apply inserted_handled.
  - simpl in E. injection E as <- <-. by left.
  - by left.
Qed.

(** ** What a run does to the outside *)

Section Outside.
Variable R : Outside -> Outside -> Prop.
Context `{!PreOrder R}.
Variables (orgID : uuid) (rc : RunContext) (dry : bool) (t : time).
Hypothesis Execute_R : forall ty cfg o, R o (Execute rc ty cfg o).2.

Lemma runAction_out s r : R (rn_out r) (rn_out (runAction rc s r)).
Proof.
  unfold runAction. destruct (Validate_action _ _); [by destruct (as_ContinueOnError s)|].
  pose proof (Execute_R (as_Type s) (as_Config s) (rn_out r)) as He.
  destruct (Execute _ _ _ _) as [[out [m|]] o]; simpl in *; [by destruct (as_ContinueOnError s)|done].
Qed.

Lemma run_list_out one l r :
  Forall (fun s => forall r, R (rn_out r) (rn_out (one s r))) l -> R (rn_out r) (rn_out (run_list one l r)).
Proof.
  intros Hl. revert r. induction Hl as [|s l Hs Hl IH]; intros r; simpl; [done|].
  destruct (is_some _); [done|]. destruct (rn_stopped r); [done|]. etrans; [apply Hs|apply IH].
Qed.

Lemma run_step_out s r : R (rn_out r) (rn_out (run_step orgID rc dry t s r)).
Proof.
  revert r. induction s as [id ty cfg b th el Ht He] using step_ind. intros r. simpl.
  destruct (String.eqb ty StepCondition).
  - destruct (condition_answer _ _ _ _) as [matched|m]; [|done].
    destruct matched; (etrans; [|by apply run_list_out]); done.
  - destruct (String.eqb ty StepWait); [|apply runAction_out].
    unfold runWait. repeat case_match; done.
Qed.

Lemma run_out l r : R (rn_out r) (rn_out (run orgID rc dry t l r)).
Proof. apply run_list_out, Forall_forall. intros s _. apply run_step_out. Qed.

Lemma run_lists_out ls r : R (rn_out r) (rn_out (run_lists orgID rc dry t ls r)).
Proof.
  revert r. induction ls as [|l ls IH]; intros r; simpl; [done|].
  destruct (halted _); [apply run_out|]. etrans; [apply run_out|apply IH].
Qed.
End Outside.

(** The relation of a step on the outside, as one on the tables. *)
Definition out_moves (R : Outside -> Outside -> Prop) d d' : Prop := R (au_out d) (au_out d').

#[export] Instance out_moves_preorder (R : Outside -> Outside -> Prop) `{!PreOrder R} : PreOrder (out_moves R).
Proof. split; unfold out_moves; [intros d; reflexivity|]. intros a b c ? ?. by etrans. Qed.

Lemma moves_out_eq {A} R `{!PreOrder R} locks (f : AutoDB -> res err A * AutoDB) :
  (forall d a d', f d = (Ok a, d') -> au_out d' = au_out d) -> moves (out_moves R) (stmt locks f).
Proof.
  intros Hf. apply moves_stmt; [typeclasses eauto|]. intros d a d' E. unfold out_moves. by rewrite (Hf d a d' E).
Qed.

Lemma execute_out R `{!PreOrder R} rule event dryRun :
  (forall t o ty cfg o', R o' (Execute (runContext rule event dryRun t o) ty cfg o').2) ->
  moves (out_moves R) (execute rule event dryRun).
Proof.
  intros He. unfold execute. apply moves_bind; [typeclasses eauto|apply moves_now; typeclasses eauto|intros t].
  intros w r w' E. unfold outside in E. injection E as _ <-. unfold out_moves. simpl.
  by apply (run_out R _ _ _ _ (fun ty cfg o' => He t _ ty cfg o') _ (MkRunner [] false None (au_out (w_db w)))).
Qed.

Ltac solve_out :=
  repeat first
    [ progress moves_step
    | apply moves_out_eq; [typeclasses eauto|]; intros; repeat case_match; by simplify_eq
    | typeclasses eauto ].

Section OutMoves.
Variable R : Outside -> Outside -> Prop.
Context `{!PreOrder R}.
Hypothesis Send_R : forall org user rule name n o, R o (Send_disabled org user rule name n o).

Lemma updateRuleCounters_out rule run : moves (out_moves R) (updateRuleCounters rule run).
Proof.
  unfold updateRuleCounters, maybeAutoDisable, disable_rule, update_rules. solve_out.
  intros w r w' E. unfold outside in E. injection E as _ <-. apply Send_R.
Qed.

Lemma record_contact_out rule subject run : moves (out_moves R) (record_contact rule subject run).
Proof. unfold record_contact, recordContactState. solve_out. Qed.

Lemma finish_out rule run subject : moves (out_moves R) (finish rule run subject).
Proof.
  unfold finish. cbv zeta. apply moves_bind; [typeclasses eauto|apply moves_now; typeclasses eauto|intros t].
  unfold insert_run, claim, update_runs.
  repeat first [apply updateRuleCounters_out | apply record_contact_out | progress solve_out].
Qed.

Lemma act_out rule run event dryRun :
  (forall t o ty cfg o', R o' (Execute (runContext rule event dryRun t o) ty cfg o').2) ->
  moves (out_moves R) (act rule run event dryRun).
Proof.
  intros He. unfold act. apply moves_bind; [typeclasses eauto|by apply execute_out|intros [results paused]].
  apply moves_bind; [typeclasses eauto|apply finish_out|intros out].
  unfold park, insert_wait. solve_out.
Qed.

Lemma settle_out rule run event dryRun reason : moves (out_moves R) (settle rule run event dryRun reason).
Proof.
  unfold settle. destruct (_ && _); [apply moves_ret; typeclasses eauto|].
  apply moves_bind; [typeclasses eauto|apply finish_out|intros ?]. apply moves_ret; typeclasses eauto.
Qed.

Lemma counts_out d d' : counts_only d d' -> out_moves R d d'.
Proof. intros <-. unfold out_moves. done. Qed.

(** A run of a rule acts only when nothing speaks against it. *)
Lemma runRule_out redis rule event dryRun :
  (loop_reason rule event = "" ->
     forall t o ty cfg o', R o' (Execute (runContext rule event dryRun t o) ty cfg o').2) ->
  moves (out_moves R) (runRule redis rule event dryRun).
Proof.
  intros He w r w' E. unfold runRule, bind, now, uuid_New in E. cbv zeta in E. simpl in E.
  destruct (skipReason redis rule event dryRun _) as [[reason|e] w1] eqn:Ej;
    [|injection E as _ <-; apply judge_counts in Ej; by apply counts_out in Ej].
  pose proof Ej as Ec. apply judge_counts in Ec. apply counts_out in Ec. change (R (au_out (w_db w)) (au_out (w_db w'))).
  etrans; [exact Ec|]. destruct (negb (is_empty reason)) eqn:Hne; [by eapply settle_out|].
  assert (loop_reason rule event = "") as Hl.
  { unfold skipReason in Ej. destruct (negb dryRun && _); [by injection Ej as <- _|].
    destruct (is_empty (loop_reason rule event)) eqn:Hl; [by apply String.eqb_eq in Hl|].
    simpl in Ej. injection Ej as <- _. by rewrite Hl in Hne. }
  unfold perform, bind in E. destruct dryRun.
  - simpl in E. by eapply (act_out _ _ _ _ (He Hl)).
  - destruct (claim _ w1) as [[[]|e] w2] eqn:Ecl; simpl in E;
      (assert (au_out (w_db w2) = au_out (w_db w1)) as Eo by
        (apply claim_inv in Ecl as [[-> _]|(_ & _ & ->)]; done)).
    + rewrite <- Eo. by eapply (act_out _ _ _ _ (He Hl)).
    + injection E as _ <-. by rewrite Eo.
    + injection E as _ <-. by rewrite Eo.
Qed.
End OutMoves.
End Frames.
