(* ===== verification/EngineProps.v ===== *)
(** * Properties of the automation engine *)
From S2P Require Import Prelude GoLib Store Events Wire Models Statements Triggers Steps StepsProps AutoModels Rules Engine EngineLemmas.

(** ** Redelivered events *)

Section Once.
Context `{SL : SqlLaws} `{EE : EngineEnv} `{GF : GoFmt}.
Implicit Types (d : AutoDB) (w : world AutoDB).

Lemma settle_handled rule run event reason w r w' :
  run_for (ar_ID rule) (e_ID event) run -> is_empty reason = false ->
  handled (ar_ID rule) (e_ID event) (w_db w) ->
  settle rule run event false reason w = (r, w') -> w_db w' = w_db w.
Proof.
  intros (E1 & E2 & E3) Hne Hh E. unfold settle in E. simpl negb in E. rewrite andb_true_r in E.
  destruct (String.eqb reason SkipTriggerNotMet); [by injection E as _ <-|].
  unfold finish in E. simpl in E. rewrite Hne, E3 in E. simpl in E. unfold bind, now, ret in E.
  set (run' := set_an_FinishedAt _ _) in E.
  assert (taken run' (w_db w) = true) as Ht by (apply taken_handled; subst run'; simpl; rewrite ?E1, ?E2; done).
  destruct (claim run' w) as [[b|e] w1] eqn:Ec; apply (claim_taken _ _ _ _ Ht) in Ec as [Hdb _]; by simplify_eq.
Qed.

(** A redelivered event changes nothing.  Once a run of the rule for the
    event is recorded, running the rule for it again - whatever fails on the
    way - leaves the rules, the runs, the parked runs, the contacts' states
    and everything the actions work on as they are; only the hourly counter
    may move. *)
Theorem redelivery_changes_nothing redis rule event w r w' :
  handled (ar_ID rule) (e_ID event) (w_db w) ->
  runRule redis rule event false w = (r, w') -> counts_only (w_db w) (w_db w').
Proof.
  intros Hh E. unfold runRule, bind, now, uuid_New in E. cbv zeta in E. simpl in E.
  destruct (skipReason redis rule event false _) as [[reason|e] w1] eqn:Ej; apply judge_counts in Ej; simpl in Ej;
    [|by injection E as _ <-].
  apply (handled_stays _ _ _ _ (counts_runs _ _ Ej)) in Hh.
  assert (run_for (ar_ID rule) (e_ID event) (new_run (w_uuid w) (w_now w) rule event false)) as Hr by done.
  destruct (is_empty reason) eqn:Hne; simpl in E.
  - apply perform_once in E as [E|[Hn _]]; [by rewrite E|done|done].
  - apply settle_handled in E; [by rewrite E|done..].
Qed.

(** The world of a rule and an event through any number of deliveries, to any
    number of replicas: [n] of them acted.  Each replica has judged the event
    at some earlier time; between its claim and the claims of others anything
    may happen that does not delete runs. *)
Inductive deliveries (ruleID eventID : uuid) : nat -> world AutoDB -> Prop :=
| delivered_none w : deliveries ruleID eventID 0 w
| delivered_meanwhile n w w' :
    deliveries ruleID eventID n w -> runs_stay (w_db w) (w_db w') -> deliveries ruleID eventID n w'
| delivered_idle n w rule run event r w' :
    deliveries ruleID eventID n w -> ar_ID rule = ruleID -> e_ID event = eventID -> run_for ruleID eventID run ->
    perform rule run event false w = (r, w') -> w_db w' = w_db w -> deliveries ruleID eventID n w'
| delivered_acting n w rule run event r w' :
    deliveries ruleID eventID n w -> ar_ID rule = ruleID -> e_ID event = eventID -> run_for ruleID eventID run ->
    perform rule run event false w = (r, w') -> w_db w' <> w_db w -> deliveries ruleID eventID (S n) w'.

(** C12: However often an event is delivered, to however many replicas at once,
    and whatever the rule was edited to in between, at most one delivery acts
    on it: the claim of the run is what decides, not the judging before it. *)
Theorem acts_at_most_once ruleID eventID n w : deliveries ruleID eventID n w -> (n <= 1)%nat.
Proof.
  intros Hd. assert (n = 0%nat \/ (n = 1%nat /\ handled ruleID eventID (w_db w))) as [->|[-> _]]; [|lia..].
  induction Hd as [w|n w w' _ IH Hs|n w rule run event r w' _ IH <- <- Hr E Hdb|n w rule run event r w' _ IH <- <- Hr E Hdb].
  - by left.
  - destruct IH as [->|[-> Hh]]; [by left|right]. split; [done|]. by eapply handled_stays.
  - rewrite Hdb. done.
  - apply perform_once in E as [E|[Hn Hh]]; [done| |done]. right. split; [|done].
    destruct IH as [->|[-> ?]]; done.
Qed.
End Once.

(** ** Loop protection *)

Section Loops.
Context `{SL : SqlLaws} `{EE : EngineEnv} `{GF : GoFmt}.
Variable redis : bool.

(** The events the outside world has published, oldest first.  An action
    publishes each of its events either with the origin of the run it is given
    (the actions on contacts) or with no origin at all (those that go through
    the conversation, task and deal services); a notification publishes none. *)
Variable emitted : Outside -> list Event.
Definition no_origin : Origin := {| orig_RuleID := None; orig_Depth := 0 |}.
Hypothesis Execute_emits : forall rc ty cfg o, exists es,
  emitted (Execute rc ty cfg o).2 = emitted o ++ es /\
  Forall (fun e => e_Origin e = rc_Origin rc \/ e_Origin e = no_origin) es.
Hypothesis Send_emits : forall org user rule name n o, emitted (Send_disabled org user rule name n o) = emitted o.

(** The events that say which rule they come from. *)
Definition from_a_rule (e : Event) : bool := is_some (orig_RuleID (e_Origin e)).

Definition emits (P : Event -> Prop) (o o' : Outside) : Prop :=
  exists es, emitted o' = emitted o ++ es /\ Forall P es.

#[local] Instance emits_preorder P : PreOrder (emits P).
Proof.
  split; unfold emits; [intros o; exists []; by rewrite app_nil_r|].
  intros a b c (es & -> & He) (fs & -> & Hf). exists (es ++ fs). rewrite app_assoc. split; [done|by apply Forall_app].
Qed.

Lemma emits_none P o o' : emitted o' = emitted o -> emits P o o'.
Proof. intros E. exists []. by rewrite E, app_nil_r. Qed.

(** What reacting to an event may publish that says where it comes from:
    events one step deeper, and none at all from [MaxDepth] on. *)
Definition reaction (event e : Event) : Prop :=
  from_a_rule e = true ->
  orig_Depth (e_Origin event) < MaxDepth /\ orig_Depth (e_Origin e) = orig_Depth (e_Origin event) + 1.

Lemma runRule_emits rule event : moves (out_moves (emits (reaction event))) (runRule redis rule event false).
Proof.
  apply runRule_out; [typeclasses eauto|intros; by apply emits_none|].
  intros Hl t o ty cfg o'. destruct (Execute_emits (runContext rule event false t o) ty cfg o') as (es & He & Hes).
  exists es. split; [done|]. eapply Forall_impl; [exact Hes|]. unfold reaction, from_a_rule.
  intros e [E|E]; rewrite E; [|done]. intros _. split; [|done].
  unfold loop_reason in Hl. destruct (opt_eqb _ _); [done|]. destruct (MaxDepth <=? _) eqn:Hd; [done|lia].
Qed.

Lemma Handle_emits event : moves (out_moves (emits (reaction event))) (Handle redis event).
Proof.
  unfold Handle. apply moves_bind; [typeclasses eauto|apply moves_query; typeclasses eauto|intros rules].
  induction rules as [|rule rules IH]; simpl; [apply moves_ret; typeclasses eauto|].
  apply moves_bind; [typeclasses eauto|apply moves_try, runRule_emits|intros r].
  apply moves_bind; [typeclasses eauto|apply IH|intros rest]. apply moves_ret; typeclasses eauto.
Qed.

Fixpoint handle_all (events : list Event) : M AutoDB unit :=
  match events with
  | [] => ret tt
  | event :: events => try (Handle redis event) ;;; handle_all events
  end.

(** What rules published between two states: the events that say which rule
    they come from. *)
Definition published (d d' : AutoDB) : list Event :=
  List.filter from_a_rule (drop (length (emitted (au_out d))) (emitted (au_out d'))).

(** The [n]th generation of events that rules publish when they react to
    [events], to the reactions, and so on. *)
Fixpoint generation (n : nat) (events : list Event) (w : world AutoDB) : list Event :=
  match n with
  | O => events
  | S n => let w' := (handle_all events w).2 in generation n (published (w_db w) (w_db w')) w'
  end.

Lemma handle_all_emits events :
  moves (out_moves (emits (fun e => Exists (fun event => reaction event e) events))) (handle_all events).
Proof.
  induction events as [|event events IH]; simpl; [apply moves_ret; typeclasses eauto|].
  apply moves_bind; [typeclasses eauto| |intros _].
  - apply moves_try. eapply moves_weaken; [|apply Handle_emits]. intros d d' (es & He & Hes). exists es.
    split; [done|]. eapply Forall_impl; [exact Hes|]. intros e Hr. by left.
  - eapply moves_weaken; [|exact IH]. intros d d' (es & He & Hes). exists es.
    split; [done|]. eapply Forall_impl; [exact Hes|]. intros e Hr. by right.
Qed.

Lemma published_deeper n events w :
  Forall (fun e => n <= orig_Depth (e_Origin e)) events ->
  Forall (fun e => n < MaxDepth /\ n + 1 <= orig_Depth (e_Origin e)) (published (w_db w) (w_db (handle_all events w).2)).
Proof.
  intros Hn. destruct (handle_all events w) as [r w'] eqn:E. apply handle_all_emits in E as (es & He & Hes).
  unfold published. simpl. rewrite He, drop_app_length. apply Forall_forall.
  intros e [Hin Hfrom]%list_elem_of_In%filter_In. apply list_elem_of_In in Hin.
  apply (proj1 (Forall_forall _ _) Hes) in Hin. apply Exists_exists in Hin as (event & Hev & Hr).
  destruct (Hr Hfrom) as [Hd Hdepth]. apply (proj1 (Forall_forall _ _) Hn) in Hev. simpl in Hev. lia.
Qed.

(** C13: Rules that set each other off through events that say where they
    come from stop.  Each event an action publishes carries the origin the
    action is given or none; followed through the events that carry one, a
    chain of reactions that starts with events of depth zero or more has at
    most [MaxDepth] generations: the next one is empty, whatever the rules are
    and whatever fails.  (An event without an origin, which the actions on
    conversations, tasks and deals publish, starts a chain of its own.) *)
Theorem reactions_stop events w :
  Forall (fun e => 0 <= orig_Depth (e_Origin e)) events ->
  generation (S (Z.to_nat MaxDepth)) events w = [].
Proof.
  intros Hz. change (S (Z.to_nat MaxDepth)) with 4%nat.
  assert (forall (k : nat) n events w, Forall (fun e => n <= orig_Depth (e_Origin e)) events -> MaxDepth < n + Z.of_nat k ->
            (0 < k)%nat -> generation k events w = []) as Hk; [|by apply (Hk 4%nat 0); [|unfold MaxDepth; lia|lia]].
  clear events w Hz. induction k as [|k IH]; intros n events w Hn Hmax Hpos; [lia|]. simpl.
  pose proof (published_deeper n events w Hn) as Hd.
  destruct k as [|k]; simpl.
  - destruct (published _ _) as [|e l]; [done|]. apply Forall_cons in Hd as [Hd _]. lia.
  - apply (IH (n + 1)); [|lia|lia]. eapply Forall_impl; [exact Hd|]. simpl. lia.
Qed.
End Loops.

(** ** Dry runs, limits, the consumer *)

Section Limits.
Context `{SL : SqlLaws} `{EE : EngineEnv} `{GF : GoFmt}.
Implicit Types (d : AutoDB) (w : world AutoDB).

(** Only dry runs were added. *)
Definition dry_only d d' : Prop :=
  d' = set_au_runs (au_runs d') d /\
  (forall k r, au_runs d !! k = Some r -> au_runs d' !! k = Some r) /\
  (forall k r, au_runs d' !! k = Some r -> au_runs d !! k = Some r \/ an_DryRun r = true).

#[export] Instance dry_only_preorder : PreOrder dry_only.
Proof.
  split.
  - intros []. by split_and!; [|auto..].
  - intros a b c (Ea & Ha & Ha') (Eb & Hb & Hb'). split_and!.
    + rewrite Eb. rewrite Ea. by destruct a.
    + auto.
    + intros k r Hr. destruct (Hb' k r Hr) as [?|?]; auto.
Qed.

Lemma dry_insert run : an_DryRun run = true -> moves dry_only (insert_run run).
Proof.
  intros Hdry. apply moves_stmt; [typeclasses eauto|]. intros d a d' E. destruct (taken run d) eqn:Et; [done|].
  injection E as _ <-. apply not_taken_fresh in Et. split_and!; [by destruct d| |]; simpl.
  - intros k r Hr. rewrite lookup_insert_ne; [done|]. congruence.
  - intros k r. destruct (decide (k = an_ID run)) as [->|].
    + rewrite lookup_insert_eq. intros [= <-]. by right.
    + rewrite lookup_insert_ne by done. by left.
Qed.

Lemma dry_finish rule run subject : an_DryRun run = true -> moves dry_only (finish rule run subject).
Proof.
  intros Hdry. unfold finish. apply moves_bind; [typeclasses eauto|apply moves_now; typeclasses eauto|intros t].
  cbv zeta. simpl. rewrite Hdry. apply moves_bind; [typeclasses eauto|by apply dry_insert|intros _].
  apply moves_ret. typeclasses eauto.
Qed.

Lemma dry_judge redis rule event : moves eq (skipReason redis rule event true).
Proof. unfold skipReason. simpl. solve_moves. Qed.

(** A run that is only tried never pauses. *)
Lemma dry_execute rule event w a w' : execute rule event true w = (Ok a, w') -> a.2 = None.
Proof.
  unfold execute, bind, now, outside. intros [= <- _]. simpl. by apply dry_never_pauses.
Qed.

(** Trying a rule changes nothing.  When the actions respect the dry-run
    flag, [DryRun] leaves the rules, the counters, the parked runs and
    everything the actions work on alone; all it adds is the record of the
    trial, which does not stand in the way of a real run. *)
Theorem DryRun_only_records redis rule event w r w' :
  (forall rc ty cfg o, rc_DryRun rc = true -> (Execute rc ty cfg o).2 = o) ->
  DryRun redis rule event w = (r, w') -> dry_only (w_db w) (w_db w').
Proof.
  intros Hex. assert (moves dry_only (DryRun redis rule event)) as Hm; [|apply Hm].
  unfold DryRun, runRule. apply moves_bind; [typeclasses eauto|apply moves_now; typeclasses eauto|intros started].
  apply moves_bind; [typeclasses eauto|apply moves_uuid_New; typeclasses eauto|intros id]. cbv zeta.
  apply moves_bind; [typeclasses eauto| |intros reason].
  { eapply moves_weaken; [|apply dry_judge]. by intros d d' <-. }
  destruct (negb _).
  - unfold settle. simpl. rewrite andb_false_r. apply moves_bind; [typeclasses eauto|by apply dry_finish|intros ?].
    apply moves_ret; typeclasses eauto.
  - unfold perform. simpl. apply moves_bind; [typeclasses eauto|apply moves_ret; typeclasses eauto|intros []]; simpl;
      [|apply moves_ret; typeclasses eauto].
    unfold act. apply (moves_bind_with dry_only (fun a => a.2 = None)).
    + intros u a u' E. pose proof E as Ho. apply (execute_out eq) in Ho; [|intros t o ty cfg o'; symmetry; by apply Hex].
      unfold execute, bind, now, outside in E. injection E as _ <-. unfold out_moves in Ho. simpl in Ho |- *. rewrite <- Ho.
      by destruct (w_db u) as [? ? ? ? ? ?]; unfold set_au_out; simpl; split_and!; [|auto..].
    + apply dry_execute.
    + intros [results paused] Hp. simpl in Hp. subst paused. apply moves_bind; [typeclasses eauto|by apply dry_finish|intros ?].
      apply moves_ret; typeclasses eauto.
Qed.

(** The runs of a rule that the hourly limit let pass in a clock hour.  Other
    processes count in the same place. *)
Definition counted (ruleID : uuid) (hour : Z) d : Z := default 0 (au_rate d !! (ruleID, hour)).

Inductive passes (ruleID : uuid) (hour cap : Z) : nat -> world AutoDB -> Prop :=
| passes_none w : 0 <= counted ruleID hour (w_db w) -> passes ruleID hour cap 0 w
| passes_meanwhile n w w' :
    passes ruleID hour cap n w -> counted ruleID hour (w_db w) <= counted ruleID hour (w_db w') -> passes ruleID hour cap n w'
| passes_once n w rule w' :
    passes ruleID hour cap n w -> ar_ID rule = ruleID -> rp_MaxRunsPerHour (RulePolicy rule) <= cap ->
    rate_hour (w_now w) = hour -> quiet w ->
    rateLimited true rule (RulePolicy rule) w = (Ok false, w') -> passes ruleID hour cap (S n) w'.

Lemma RulePolicy_capped rule : 0 < rp_MaxRunsPerHour (RulePolicy rule).
Proof. unfold RulePolicy. destruct (Z.leb_spec (rp_MaxRunsPerHour (ar_RunPolicy rule)) 0); [done|lia]. Qed.

(** No rule runs away.  While Redis answers, a rule whose hourly limit
    stays at or below [cap] passes the limit at most [cap] times in a clock
    hour, counting every process; and every rule has a limit, the default when
    its author set none. *)
Theorem hourly_limit ruleID hour cap n w :
  0 < cap -> passes ruleID hour cap n w -> Z.of_nat n <= cap.
Proof.
  intros Hcap Hp. assert (Z.of_nat n <= counted ruleID hour (w_db w) /\ Z.of_nat n <= cap) as [_ ?]; [|done].
  induction Hp as [w Hw|n w w' _ IH Hle|n w rule w' _ IH <- Hmax <- [Hf Ha] E]; [lia..|].
  pose proof (RulePolicy_capped rule) as Hpos. unfold rateLimited in E. simpl in E.
  destruct (Z.leb_spec (rp_MaxRunsPerHour (RulePolicy rule)) 0); [lia|].
  unfold bind, now, try, incr_rate, stmt in E. rewrite Ha, Hf in E. simpl in E. unfold ret in E.
  destruct (Z.ltb_spec (rp_MaxRunsPerHour (RulePolicy rule)) (default 0 (au_rate (w_db w) !! (ar_ID rule, rate_hour (w_now w))) + 1));
    [done|]. injection E as <-. unfold counted in *. simpl. rewrite lookup_insert_eq. simpl. lia.
Qed.

(** What the consumer leaves pending it has not touched.  [handleEntry]
    always answers; an entry that is not acknowledged is one whose rules could
    not be read, delivered fewer than [MaxDeliveries] times, and nothing was
    done for it.  An entry that cannot be decoded is acknowledged. *)
Theorem unacknowledged_untouched redis payload n w r w' :
  handleEntry redis payload n w = (r, w') ->
  (r = Ok true \/ (r = Ok false /\ n < MaxDeliveries /\ w_db w' = w_db w)) /\
  (is_ok (DecodeFanout payload) = false -> r = Ok true /\ w' = w).
Proof.
  unfold handleEntry. destruct (DecodeFanout payload) as [event|e]; [|intros [= <- <-]; split; auto].
  unfold bind, try. destruct (Handle redis event w) as [[runs|e] w1] eqn:Eh; unfold ret; intros [= <- <-]; (split; [|done]).
  - by left.
  - unfold MaxDeliveries. destruct (Z.leb_spec 3 n); [by left|right]. split_and!; [done..|].
    unfold Handle, bind in Eh. destruct (EnabledRules _ _ w) as [[rules|e'] w2] eqn:Er.
    + exfalso. assert (forall rules w r w', handle_rules redis event rules w = (r, w') -> exists runs, r = Ok runs) as Htot.
      { clear. induction rules as [|rule rules IH]; intros w r w' E; simpl in E; [injection E as <- _; eauto|].
        unfold bind, try in E. destruct (runRule _ _ _ _ w) as [x w1].
        destruct (handle_rules _ _ _ w1) as [[rest|e] w2] eqn:E2; apply IH in E2 as [? E2]; simplify_eq.
        injection E as <- _. eauto. }
      apply Htot in Eh as [? ?]. done.
    + injection Eh as -> ->. unfold EnabledRules in Er. apply (moves_query eq) in Er. by symmetry.
Qed.
End Limits.
