(* ===== verification/AutoInvariants.v ===== *)
(** * Invariants of the automation tables

    What holds of the rules and of the parked runs after any sequence of calls
    of the rule service and the engine; then, on a healthy database, that a rule
    which keeps failing is off and every parked run has its wait. *)
From S2P Require Import Prelude GoLib Store Events Wire Models Statements Triggers Steps StepsProps AutoModels Rules Engine EngineLemmas.

(** ** The calls *)

Section Calls.
Context `{SQ : Sql} `{EE : EngineEnv} `{GF : GoFmt}.

Inductive call :=
| CallCreate (orgID : uuid) (inp : Input)
| CallUpdate (orgID ruleID : uuid) (inp : Input)
| CallSetEnabled (orgID ruleID : uuid) (enabled : bool)
| CallDelete (orgID ruleID : uuid)
| CallHandle (event : Event)
| CallRun (rule : AutomationRule) (event : Event) (dryRun : bool)
| CallResume.

Definition perform_call (redis : bool) (c : call) : M AutoDB unit :=
  match c with
  | CallCreate orgID inp => CreateRule orgID inp ;;; ret tt
  | CallUpdate orgID ruleID inp => UpdateRule orgID ruleID inp ;;; ret tt
  | CallSetEnabled orgID ruleID enabled => SetEnabled orgID ruleID enabled ;;; ret tt
  | CallDelete orgID ruleID => DeleteRule orgID ruleID
  | CallHandle event => Handle redis event ;;; ret tt
  | CallRun rule event dryRun => runRule redis rule event dryRun ;;; ret tt
  | CallResume => ResumeWaits (fun _ d => d) ;;; ret tt
  end.

(** A sequence of calls; each meets the world the last one left, whether it
    succeeded or not. *)
Fixpoint perform_calls (redis : bool) (cs : list call) : M AutoDB unit :=
  match cs with
  | [] => ret tt
  | c :: cs => try (perform_call redis c) ;;; perform_calls redis cs
  end.
End Calls.

(** ** A rule that is on can run *)

Section Runnable.
Context `{SL : SqlLaws} `{EE : EngineEnv} `{GF : GoFmt}.
Implicit Types (d : AutoDB) (w : world AutoDB).

(** Nothing was unfinished when the rule was last checked. *)
Definition runnable (rule : AutomationRule) : Prop :=
  exists registry, check_body registry (InputFromRule rule) = Ok [].

(** In particular it has steps, and its tree is one the checker accepts. *)
Lemma runnable_steps rule :
  runnable rule ->
  (0 < countSteps (ar_Actions rule))%nat /\
  exists registry, sc_structural (walk registry (ar_Actions rule) 0 sc_init) = None /\
                   sc_problems (walk registry (ar_Actions rule) 0 sc_init) = [].
Proof.
  intros (registry & Hc). unfold check_body in Hc. simpl in Hc. unfold RuleActions in Hc.
  destruct (validateTriggerConfig _ _); [|done]. destruct (sc_structural _) eqn:Es; [done|].
  destruct (filter_problems _ _); [|done]. injection Hc as Hc.
  apply app_eq_nil in Hc as [_ Hc]. apply app_eq_nil in Hc as [Hp Hc]. apply app_eq_nil in Hc as [Hn _].
  split; [|by exists registry]. unfold count_problems in Hn. destruct (Nat.eqb_spec (countSteps (ar_Actions rule)) 0); [done|lia].
Qed.

Definition on_is_runnable (rule : AutomationRule) : Prop := ar_Enabled rule = true -> runnable rule.

Record rules_ok (t : gmap uuid AutomationRule) : Prop := {
  rules_keyed : keyed ar_ID t;
  rules_runnable : forall k r, t !! k = Some r -> on_is_runnable r
}.

Definition db_ok d : Prop := rules_ok (au_rules d).

(** Row changes that cannot hurt. *)
Definition harmless (r r' : AutomationRule) : Prop := ar_ID r' = ar_ID r /\ (on_is_runnable r -> on_is_runnable r').

#[export] Instance harmless_preorder : PreOrder harmless.
Proof. split; [by intros r|]. intros a b c [? ?] [? ?]. split; [congruence|tauto]. Qed.

Lemma rules_ok_update t p us :
  rules_ok t -> (forall k r, t !! k = Some r -> p r = true -> harmless r (apply_updates us r)) ->
  rules_ok (update_where p us t).
Proof.
  intros [Hk Hr] Hus. split.
  - intros k r Hl. rewrite update_where_lookup in Hl. destruct (t !! k) as [r0|] eqn:E; [|done]. simpl in Hl. simplify_eq.
    destruct (p r0) eqn:Hp; [|by apply Hk]. destruct (Hus k r0 E Hp) as [-> _]. by apply Hk.
  - intros k r Hl. rewrite update_where_lookup in Hl. destruct (t !! k) as [r0|] eqn:E; [|done]. simpl in Hl. simplify_eq.
    destruct (p r0) eqn:Hp; [|by eapply Hr]. apply (Hus k r0 E Hp). by eapply Hr.
Qed.

Abbreviation KeepRules := (keeps db_ok).

Lemma keep_rules_eq {A} locks (f : AutoDB -> res err A * AutoDB) :
  (forall d a d', f d = (Ok a, d') -> au_rules d' = au_rules d) -> moves KeepRules (stmt locks f).
Proof. intros Hf. apply moves_stmt; [typeclasses eauto|]. intros d a d' E Hd. unfold db_ok. by rewrite (Hf d a d' E). Qed.

Lemma keep_rules_outside {A} (f : Outside -> A * Outside) : moves KeepRules (outside f).
Proof. apply moves_outside. intros d o Hd. exact Hd. Qed.

Lemma keep_update_rules p us :
  Forall (fun f => forall r, harmless r (f r)) us -> moves KeepRules (update_rules p us).
Proof.
  intros Hus. apply moves_stmt; [typeclasses eauto|]. intros d a d' [= _ <-] Hd.
  apply rules_ok_update; [done|]. intros k r _ _. by apply (apply_updates_rel harmless).
Qed.

Lemma harmless_counters run : Forall (fun f => forall r, harmless r (f r)) (counter_updates run).
Proof. unfold counter_updates. case_match; repeat constructor; intros Hr; exact Hr. Qed.

Lemma harmless_off : Forall (fun f => forall r, harmless r (f r)) [set_ar_Enabled false].
Proof. constructor; [|constructor]. intros r. split; [done|]. intros _. done. Qed.

Lemma harmless_delete t : Forall (fun f => forall r, harmless r (f r)) [set_ar_DeletedAt t].
Proof. repeat constructor; intros Hr; exact Hr. Qed.

(** Reduces a call to its statements and closes those on other tables. *)
Ltac solve_rules :=
  repeat first
    [ progress moves_step
    | apply keep_update_rules; first [apply harmless_counters | apply harmless_off | apply harmless_delete]
    | apply keep_rules_outside
    | apply keep_rules_eq; intros; repeat case_match; by simplify_eq
    | typeclasses eauto ].

Lemma finish_rules rule run subject : moves KeepRules (finish rule run subject).
Proof.
  unfold finish, record_contact, recordContactState, updateRuleCounters, maybeAutoDisable, disable_rule. solve_rules.
Qed.

Lemma act_rules rule run event dryRun : moves KeepRules (act rule run event dryRun).
Proof.
  unfold act, execute. repeat first [apply finish_rules | progress solve_rules | progress unfold park, insert_wait].
Qed.

Lemma runRule_rules redis rule event dryRun : moves KeepRules (runRule redis rule event dryRun).
Proof.
  unfold runRule. do 2 (apply moves_bind; [typeclasses eauto|solve_rules|intros ?]). cbv zeta.
  apply moves_bind; [typeclasses eauto| |intros reason].
  { eapply moves_weaken; [|apply judge_counts]. intros d d' <- Hd. exact Hd. }
  unfold settle, perform. repeat first [apply finish_rules | apply act_rules | progress solve_rules].
Qed.

Lemma Handle_rules redis event : moves KeepRules (Handle redis event).
Proof.
  unfold Handle, EnabledRules. apply moves_bind; [typeclasses eauto|solve_rules|intros rules].
  induction rules as [|rule rules IH]; simpl; [solve_rules|].
  repeat first [apply runRule_rules | apply IH | progress solve_rules].
Qed.

Lemma resume_rules wait : moves KeepRules (resume wait).
Proof.
  unfold resume, GetRule, cancelWait, go_on, continue_run, updateRuleCounters, maybeAutoDisable, disable_rule, park, insert_wait.
  solve_rules.
Qed.

Lemma ResumeWaits_rules others :
  (forall n d, KeepRules d (others n d)) -> moves KeepRules (ResumeWaits others).
Proof.
  intros Ho. unfold ResumeWaits. do 2 (apply moves_bind; [typeclasses eauto|solve_rules|intros ?]).
  generalize 0%nat. match goal with |- forall _, moves _ (resume_each _ ?l _) => induction l as [|x l IH] end;
    intros n; simpl; [solve_rules|].
  repeat first [apply resume_rules | apply IH | apply moves_interleave; intros; apply Ho | progress solve_rules].
Qed.

(** *** The service *)

(** What [Validate] accepts may be on. *)
Definition accepted (inp : Input) : Prop :=
  in_Enabled inp = Some true -> exists registry, check_body registry inp = Ok [].

Lemma Validate_ok orgID inp w u w' : Validate orgID inp w = (Ok u, w') -> w' = w /\ accepted inp.
Proof.
  unfold Validate, bind, get_db, check. destruct (is_empty _); [done|].
  destruct (check_body _ inp) as [problems|e] eqn:Ec; [|done].
  destruct (in_Enabled inp) as [[]|] eqn:Ee; [destruct problems|..]; try done;
    intros [= _ <-]; (split; [done|]); unfold accepted; rewrite Ee; [eauto|done..].
Qed.

Lemma Validate_moves R `{!PreOrder R} orgID inp : moves R (Validate orgID inp).
Proof.
  unfold Validate. apply moves_bind; [done|by apply moves_get_db|intros d].
  destruct (check _ _); [|by apply moves_fail]. repeat case_match; by first [apply moves_ret|apply moves_fail].
Qed.

(** A row that holds what an accepted input says is runnable. *)
Lemma accepted_runnable registry inp rule :
  check_body registry inp = Ok [] -> ar_TriggerType rule = in_TriggerType inp ->
  ar_TriggerConfig rule = in_TriggerConfig inp -> ar_Actions rule = in_Actions inp ->
  ar_ContactFilter rule = stored_filter inp -> runnable rule.
Proof.
  intros Hc E1 E2 E3 E4. exists registry. rewrite <- Hc. unfold check_body. simpl. unfold RuleActions, RuleFilter.
  rewrite E1, E2, E3, E4. unfold stored_filter.
  destruct (in_ContactFilter inp) as [filter|]; simpl; [|done].
  destruct (Filter_IsEmpty filter) eqn:Ef; unfold filter_problems; rewrite ?Ef; done.
Qed.

Lemma keep_insert_rule rule : on_is_runnable rule -> moves KeepRules (insert_rule rule).
Proof.
  intros Hon. apply moves_stmt; [typeclasses eauto|]. intros d a d' E Hd.
  destruct (is_some _); [done|]. injection E as <- <-. destruct Hd as [Hk Hr]. split; [by apply keyed_insert|].
  intros k r. simpl. destruct (decide (k = ar_ID rule)) as [->|].
  - rewrite lookup_insert_eq. by intros [= <-].
  - rewrite lookup_insert_ne by done. apply Hr.
Qed.

Lemma CreateRule_rules orgID inp : moves KeepRules (CreateRule orgID inp).
Proof.
  unfold CreateRule. apply moves_bind; [typeclasses eauto|solve_rules|intros existing].
  destruct (Nat.leb _ _); [solve_rules|]. destruct (_ && _); [solve_rules|].
  apply (moves_bind_with KeepRules (fun _ => accepted inp)); [apply Validate_moves; typeclasses eauto| |intros _ Hacc].
  { intros w u w' E. by apply Validate_ok in E as [_ Hacc]. }
  do 2 (apply moves_bind; [typeclasses eauto|solve_rules|intros ?]). cbv zeta.
  apply moves_bind; [typeclasses eauto| |intros; solve_rules].
  apply keep_insert_rule. intros Hon. simpl in Hon. destruct (in_Enabled inp) as [[]|] eqn:Ee; try done.
  destruct (Hacc Ee) as (registry & Hc). by apply (accepted_runnable registry inp).
Qed.

Lemma GetRule_reads orgID ruleID : reads (GetRule orgID ruleID).
Proof. unfold GetRule. solve_moves. Qed.

Lemma GetRule_ok orgID ruleID w rule w' :
  GetRule orgID ruleID w = (Ok rule, w') ->
  w_db w' = w_db w /\ (rules_ok (au_rules (w_db w)) -> au_rules (w_db w) !! ruleID = Some rule /\ rule_in ruleID orgID rule = true).
Proof.
  intros E. pose proof (GetRule_reads _ _ _ _ _ E) as Hdb. split; [done|]. intros [Hk _].
  unfold GetRule, bind, try in E. destruct (query _ w) as [[r|e] w1] eqn:Eq; [|done].
  injection E as -> _. apply query_ok_inv in Eq as (Eq & _). apply first_row_ok in Eq as (k & Hr & Hp).
  split; [|done]. apply andb_true_iff in Hp as [[<-%N.eqb_eq _]%andb_true_iff _]. by rewrite (Hk _ _ Hr).
Qed.

Lemma apply_rule_updates inp r :
  let r' := apply_updates (rule_updates inp) r in
  ar_ID r' = ar_ID r /\ ar_Enabled r' = default (ar_Enabled r) (in_Enabled inp) /\
  ar_TriggerType r' = in_TriggerType inp /\ ar_TriggerConfig r' = in_TriggerConfig inp /\
  ar_Actions r' = in_Actions inp /\ ar_ContactFilter r' = stored_filter inp.
Proof. unfold rule_updates. by destruct (in_Enabled inp). Qed.

Lemma UpdateRule_rules orgID ruleID inp : moves KeepRules (UpdateRule orgID ruleID inp).
Proof.
  intros w r w' E Hd. unfold UpdateRule, bind at 1 in E.
  destruct (GetRule orgID ruleID w) as [[rule|e] w1] eqn:Eg.
  2:{ injection E as _ <-. apply GetRule_reads in Eg. by rewrite <- Eg. }
  apply GetRule_ok in Eg as [Hdb Hrow]. destruct (Hrow Hd) as [Hlk Hin].
  revert E. destruct (_ && _); [by intros [= _ <-]; rewrite Hdb|]. intros E.
  unfold bind at 1 in E. destruct (Validate _ _ w1) as [[u|e] w2] eqn:Ev.
  2:{ injection E as _ <-. apply (Validate_moves eq) in Ev. by rewrite <- Ev, Hdb. }
  apply Validate_ok in Ev as [-> Hacc]. unfold bind in E.
  destruct (update_rules _ _ w1) as [[n|e] w3] eqn:Eu.
  2:{ injection E as _ <-. unfold update_rules, stmt in Eu. destruct (w_aborted w1); [injection Eu as _ <-; by rewrite Hdb|].
      destruct (w_faults w1) as [|[] fs]; try done. injection Eu as _ <-. simpl. by rewrite Hdb. }
  apply GetRule_reads in E. rewrite <- E. apply stmt_ok_inv in Eu as (d & [= _ <-] & _ & ->). simpl. rewrite Hdb.
  apply rules_ok_update; [done|]. intros k r0 Hk Hp. destruct (apply_rule_updates inp r0) as (E1 & E2 & E3 & E4 & E5 & E6).
  split; [done|]. intros _ Hon. rewrite E2 in Hon.
  assert (r0 = rule) as ->.
  { apply andb_true_iff in Hp as [Hid%N.eqb_eq _]. pose proof (rules_keyed _ Hd _ _ Hk). pose proof (rules_keyed _ Hd _ _ Hlk).
    assert (k = ruleID) as -> by congruence. congruence. }
  destruct Hacc as (registry & Hc); [simpl; by rewrite Hon|].
  by apply (accepted_runnable registry (set_in_Enabled (Some (default (ar_Enabled rule) (in_Enabled inp))) inp)).
Qed.

Lemma SetEnabled_rules orgID ruleID enabled : moves KeepRules (SetEnabled orgID ruleID enabled).
Proof.
  intros w r w' E Hd. unfold SetEnabled, bind at 1 in E.
  assert (exists w1, (w_db w1 = w_db w) /\ ((w' = w1) \/
    ((enabled = true -> exists rule, au_rules (w_db w) !! ruleID = Some rule /\ runnable rule) /\
     (affected <- update_rules (rule_in ruleID orgID) ([set_ar_Enabled enabled] ++ if enabled then [set_ar_ConsecutiveFailures 0] else []) ;;
      if Nat.eqb affected 0 then fail RuleErrNotFound else GetRule orgID ruleID) w1 = (r, w')))) as (w1 & Hdb & [->|[Hon E']]).
  { destruct enabled; [|exists w; split; [done|]; by right].
    unfold may_turn_on, bind at 1 in E. destruct (GetRule orgID ruleID w) as [[rule|e] w1] eqn:Eg; exists w1.
    2:{ apply GetRule_reads in Eg. injection E as _ <-. split; [done|by left]. }
    apply GetRule_ok in Eg as [Hdb Hrow]. split; [done|]. destruct (Hrow Hd) as [Hlk Hin].
    destruct (Nat.eqb _ 0); [injection E as _ <-; by left|].
    destruct (Validate _ _ w1) as [[u|e] w2] eqn:Ev.
    - apply Validate_ok in Ev as [-> Hacc]. right. split; [|done]. intros _. exists rule. split; [done|]. by apply Hacc.
    - left. injection E as _ <-. unfold Validate, bind, get_db in Ev.
      destruct (check _ _); [repeat case_match|]; by injection Ev as _ <-. }
  { by rewrite Hdb. }
  clear E. unfold bind in E'. destruct (update_rules _ _ w1) as [[n|e] w3] eqn:Eu.
  2:{ injection E' as _ <-. unfold update_rules, stmt in Eu. destruct (w_aborted w1); [injection Eu as _ <-; by rewrite Hdb|].
      destruct (w_faults w1) as [|[] fs]; try done. injection Eu as _ <-. simpl. by rewrite Hdb. }
  assert (w_db w' = w_db w3) as -> by (destruct (Nat.eqb n 0); [by injection E' as _ <-|by apply GetRule_reads in E']).
  apply stmt_ok_inv in Eu as (d & [= _ <-] & _ & ->). simpl. rewrite Hdb.
  apply rules_ok_update; [done|]. intros k r0 Hk Hp. split; [by destruct enabled|]. intros _ Hen.
  destruct enabled; [|done]. destruct (Hon eq_refl) as (rule & Hlk & (registry & Hc)).
  apply andb_true_iff in Hp as [[Hid%N.eqb_eq _]%andb_true_iff _].
  assert (r0 = rule) as ->.
  { pose proof (rules_keyed _ Hd _ _ Hk). assert (k = ruleID) as -> by congruence. congruence. }
  by exists registry.
Qed.

Lemma perform_call_rules redis c : moves KeepRules (perform_call redis c).
Proof.
  destruct c; simpl; try (apply moves_bind; [typeclasses eauto| |intros; apply moves_ret; typeclasses eauto]).
  - apply CreateRule_rules.
  - apply UpdateRule_rules.
  - apply SetEnabled_rules.
  - unfold DeleteRule. solve_rules.
  - apply Handle_rules.
  - apply runRule_rules.
  - apply ResumeWaits_rules. intros n d Hd. exact Hd.
Qed.

(** C14: A rule that is on can run.  After any sequence of calls of the rule
    service and the engine - with requests refused and statements failing
    anywhere - every enabled rule passed the checks of [Validate] with nothing
    unfinished: it has steps, its tree is one the checker accepts, every
    action is configured and its trigger can fire. *)
Theorem enabled_rules_can_run redis cs w r w' :
  rules_ok (au_rules (w_db w)) -> perform_calls redis cs w = (r, w') ->
  forall k rule, au_rules (w_db w') !! k = Some rule -> ar_Enabled rule = true ->
    runnable rule /\ (0 < countSteps (ar_Actions rule))%nat.
Proof.
  intros Hok E. assert (db_ok (w_db w')) as [_ Hr].
  { revert Hok. change (KeepRules (w_db w) (w_db w')). revert E. apply (fun m => m). revert w r w'.
    change (moves KeepRules (perform_calls redis cs)). induction cs as [|c cs IH]; simpl; [apply moves_ret; typeclasses eauto|].
    apply moves_bind; [typeclasses eauto|apply moves_try, perform_call_rules|intros _; exact IH]. }
  intros k rule Hk Hon. pose proof (Hr k rule Hk Hon) as Hrun. split; [done|]. by apply runnable_steps in Hrun as [? _].
Qed.
End Runnable.

(** * The engine on a healthy database

    Calls that meet no driver fault: a rule that keeps failing is turned off,
    and every parked run has its wait. *)

(** ** Computations that stay healthy *)

Section Quiet.
Context {DB : Type}.
Implicit Types (w : world DB) (R : DB -> DB -> Prop).

(** No fault to come, no transaction open. *)
Definition calm w : Prop := quiet w /\ w_in_tx w = false.

Definition qmoves {A} R (m : M DB A) : Prop :=
  forall w r w', calm w -> m w = (r, w') -> calm w' /\ R (w_db w) (w_db w').

Lemma stmt_calm {A} locks (f : DB -> res err A * DB) w :
  calm w ->
  stmt locks f w =
    match f (w_db w) with
    | (Ok a, d) => (Ok a, set_db d (add_locks (locks (w_db w)) w))
    | (Err e, _) => (Err e, w)
    end.
Proof.
  intros [[Hf Ha] Ht]. unfold stmt. rewrite Ha, Hf. simpl. destruct w as [d n u fs ab tx l]. simpl in *. subst.
  unfold set_faults. simpl. destruct (f d) as [[a|e] d']; [done|]. by destruct (aborts e).
Qed.

Lemma calm_set_db d w : calm w -> calm (set_db d w).
Proof. by intros [[? ?] ?]. Qed.

Section Combinators.
Context R `{!PreOrder R}.

Lemma qmoves_ret {A} (a : A) : qmoves R (ret a).
Proof. intros w r w' Hc [= _ <-]. by split. Qed.
Lemma qmoves_fail {A} (e : err) : qmoves R (@fail DB A e).
Proof. intros w r w' Hc [= _ <-]. by split. Qed.
Lemma qmoves_now : qmoves R now.
Proof. intros w r w' Hc [= _ <-]. by split. Qed.
Lemma qmoves_get_db : qmoves R get_db.
Proof. intros w r w' Hc [= _ <-]. by split. Qed.
Lemma qmoves_uuid_New : qmoves R uuid_New.
Proof. intros w r w' [[? ?] ?] [= _ <-]. by split. Qed.

Lemma qmoves_bind {A B} (m : M DB A) (k : A -> M DB B) :
  qmoves R m -> (forall a, qmoves R (k a)) -> qmoves R (bind m k).
Proof.
  intros Hm Hk w r w' Hc E. unfold bind in E. destruct (m w) as [[a|e] w1] eqn:E1; apply Hm in E1 as [Hc1 H1]; [|done| |done].
  - apply Hk in E as [Hc' H2]; [|done]. split; [done|by etrans].
  - by simplify_eq.
Qed.

Lemma qmoves_try {A} (m : M DB A) : qmoves R m -> qmoves R (try m).
Proof. intros Hm w r w' Hc E. unfold try in E. destruct (m w) eqn:E1. simplify_eq. by eapply Hm. Qed.

Lemma qmoves_stmt {A} locks (f : DB -> res err A * DB) :
  (forall d a d', f d = (Ok a, d') -> R d d') -> qmoves R (stmt locks f).
Proof.
  intros Hf w r w' Hc E. rewrite (stmt_calm _ _ _ Hc) in E. destruct (f (w_db w)) as [[a|e] d] eqn:Ef; simplify_eq.
  - split; [by destruct Hc as [[? ?] ?]|]. simpl. by eapply Hf.
  - by split.
Qed.

Lemma qmoves_query {A} (f : DB -> res err A) : qmoves R (query f).
Proof. apply qmoves_stmt. by intros d a d' [= _ <-]. Qed.

Lemma qmoves_interleave others : (forall d, R d (others d)) -> qmoves R (interleave others).
Proof. intros Ho w r w' Hc [= _ <-]. split; [by apply calm_set_db|apply Ho]. Qed.
End Combinators.
End Quiet.

Ltac qmoves_step :=
  lazymatch goal with
  | |- qmoves _ (bind _ _) => apply qmoves_bind; [..|intros ?]
  | |- qmoves _ (ret _) => apply qmoves_ret
  | |- qmoves _ (fail _) => apply qmoves_fail
  | |- qmoves _ now => apply qmoves_now
  | |- qmoves _ uuid_New => apply qmoves_uuid_New
  | |- qmoves _ get_db => apply qmoves_get_db
  | |- qmoves _ (try _) => apply qmoves_try
  | |- qmoves _ (query _) => apply qmoves_query
  | |- qmoves _ (match ?x with _ => _ end) => destruct x eqn:?
  | |- qmoves _ (let _ := _ in _) => cbv zeta
  end.

(** ** A rule that keeps failing is turned off *)

Section AutoDisable.
Context `{SL : SqlLaws} `{EE : EngineEnv} `{GF : GoFmt}.
Implicit Types (d : AutoDB) (w : world AutoDB).

(** A live rule that is on has failed fewer than ten times in a row. *)
Definition healthy_rule (rule : AutomationRule) : Prop :=
  ar_Enabled rule = true -> ar_DeletedAt rule = None -> ar_ConsecutiveFailures rule < AutoDisableAfter.

Definition tired_off d : Prop :=
  keyed ar_ID (au_rules d) /\ forall k r, au_rules d !! k = Some r -> healthy_rule r.

Abbreviation KeepTired := (keeps tired_off).

Lemma tired_rules_eq d d' : au_rules d' = au_rules d -> tired_off d -> tired_off d'.
Proof. unfold tired_off. by intros ->. Qed.

Lemma tired_update d p us :
  tired_off d -> (forall r, ar_ID (apply_updates us r) = ar_ID r) ->
  (forall k r, au_rules d !! k = Some r -> p r = true -> healthy_rule r -> healthy_rule (apply_updates us r)) ->
  tired_off (set_au_rules (update_where p us (au_rules d)) d).
Proof.
  intros [Hk Hr] Hid Hus. split; [by apply keyed_update|]. intros k r. simpl. rewrite update_where_lookup.
  destruct (au_rules d !! k) as [r0|] eqn:E; [|done]. simpl. intros [= <-]. destruct (p r0) eqn:Hp; [|by eapply Hr].
  eapply Hus; [done..|by eapply Hr].
Qed.

Lemma first_rule_by_id d ruleID k r :
  keyed ar_ID (au_rules d) -> au_rules d !! k = Some r -> rule_by_id ruleID r = true ->
  first_row (rule_by_id ruleID) unordered (au_rules d) = Ok r.
Proof.
  intros Hk Hr Hp. assert (k = ruleID) as ->.
  { apply andb_true_iff in Hp as [<-%N.eqb_eq _]. symmetry. by apply Hk. }
  apply (first_row_unique ar_ID ruleID); try done. intros r' Hp'. by apply andb_true_iff in Hp' as [<-%N.eqb_eq _].
Qed.

Lemma counters_fields run r :
  let r' := apply_updates (counter_updates run) r in
  ar_ID r' = ar_ID r /\ ar_Enabled r' = ar_Enabled r /\ ar_DeletedAt r' = ar_DeletedAt r /\
  ar_ConsecutiveFailures r' = (if String.eqb (an_Status run) AutomationFailed then ar_ConsecutiveFailures r + 1 else 0).
Proof. unfold counter_updates. by destruct (String.eqb _ _). Qed.

(** All rules are healthy but for the one that has just failed. *)
Definition tired_but (ruleID : uuid) d : Prop :=
  keyed ar_ID (au_rules d) /\
  forall k r, au_rules d !! k = Some r -> healthy_rule r \/ rule_by_id ruleID r = true.

Lemma tired_counters rule run d :
  tired_off d ->
  let d' := set_au_rules (update_where (rule_by_id (ar_ID rule)) (counter_updates run) (au_rules d)) d in
  tired_but (ar_ID rule) d' /\ (an_Status run <> AutomationFailed -> tired_off d').
Proof.
  intros Hd d'. pose proof Hd as [Hk Hr].
  assert (keyed ar_ID (au_rules d')) as Hk' by (apply keyed_update; [intros r; apply counters_fields|done]).
  assert (forall k r, au_rules d' !! k = Some r ->
    healthy_rule r \/ (rule_by_id (ar_ID rule) r = true /\ an_Status run = AutomationFailed)) as Hd'.
  { intros k r Hl. subst d'. simpl in Hl. rewrite update_where_lookup in Hl.
    destruct (au_rules d !! k) as [r0|] eqn:E0; [|done]. simpl in Hl. injection Hl as <-.
    destruct (rule_by_id (ar_ID rule) r0) eqn:Hp; [|left; by eapply Hr].
    destruct (counters_fields run r0) as (F1 & F2 & F3 & F4). unfold healthy_rule. rewrite F4.
    destruct (String.eqb_spec (an_Status run) AutomationFailed); [right|left; unfold AutoDisableAfter; lia].
    split; [|done]. unfold rule_by_id, live_rule in *. by rewrite F1, F3. }
  split.
  - split; [done|]. intros k r Hl. destruct (Hd' k r Hl) as [?|[? _]]; auto.
  - intros Hne. split; [done|]. intros k r Hl. by destruct (Hd' k r Hl) as [?|[_ ?]].
Qed.

Lemma maybeAutoDisable_tired rule w r w' :
  calm w -> tired_but (ar_ID rule) (w_db w) -> maybeAutoDisable rule w = (r, w') ->
  calm w' /\ tired_off (w_db w').
Proof.
  intros Hc [Hk Hr] E. unfold maybeAutoDisable, bind, try, query in E. rewrite stmt_calm in E by done.
  destruct (first_row _ _ _) as [current|e] eqn:Ef.
  - set (w1 := set_db _ _) in E. assert (calm w1) as Hc1 by by destruct Hc as [[? ?] ?].
    apply first_row_ok in Ef as (k & Hcur & Hp).
    assert (forall k' r', au_rules (w_db w) !! k' = Some r' -> rule_by_id (ar_ID rule) r' = true -> r' = current) as Huniq.
    { intros k' r' Hl' Hp'. pose proof (first_rule_by_id _ _ _ _ Hk Hl' Hp') as F1.
      pose proof (first_rule_by_id _ _ _ _ Hk Hcur Hp) as F2. congruence. }
    destruct (_ || _) eqn:Hcond.
    + injection E as _ <-. split; [done|]. split; [done|]. intros k' r' Hl'.
      destruct (Hr k' r' Hl') as [?|Hp']; [done|]. rewrite (Huniq k' r' Hl' Hp'). intros Hon _.
      apply orb_true_iff in Hcond as [?%Z.ltb_lt|Hoff]; [done|]. by rewrite Hon in Hoff.
    + unfold disable_rule, bind, try, update_rules in E. rewrite stmt_calm in E by done. simpl in E.
      set (w2 := set_db _ _) in E. assert (calm w2) as Hc2 by by destruct Hc as [[? ?] ?].
      assert (tired_off (w_db w2)) as Hw2.
      { split; [by apply keyed_update|]. intros k' r'. subst w2. simpl. rewrite update_where_lookup.
        destruct (au_rules (w_db w) !! k') as [r0|] eqn:E0; [|done]. simpl. intros [= <-].
        destruct (rule_by_id (ar_ID rule) r0) eqn:Hp0; [done|]. destruct (Hr k' r0 E0) as [?|?]; [done|congruence]. }
      destruct (ar_CreatedByID current); injection E as _ <-; [|by split].
      split; [by apply calm_set_db|]. exact Hw2.
  - injection E as _ <-. split; [done|]. split; [done|]. intros k r' Hl.
    destruct (Hr k r' Hl) as [?|Hp]; [done|]. by rewrite (first_rule_by_id _ _ _ _ Hk Hl Hp) in Ef.
Qed.

Lemma qmoves_outside {A} R (f : Outside -> A * Outside) :
  (forall d o, R d (set_au_out o d)) -> qmoves R (outside f).
Proof.
  intros Hf w r w' Hc E. unfold outside in E. destruct (f _) as [a o]. injection E as _ <-.
  split; [by apply calm_set_db|apply Hf].
Qed.

(** Any relation will do for the statements that leave the rules alone. *)
Lemma keep_tired_eq {A} locks (f : AutoDB -> res err A * AutoDB) :
  (forall d a d', f d = (Ok a, d') -> au_rules d' = au_rules d) -> qmoves KeepTired (stmt locks f).
Proof. intros Hf. apply qmoves_stmt; [typeclasses eauto|]. intros d a d' E Hd. exact (tired_rules_eq _ _ (Hf d a d' E) Hd). Qed.

#[local] Instance always_preorder : PreOrder (fun _ _ : AutoDB => True).
Proof. by split. Qed.

Lemma maybeAutoDisable_calm rule : qmoves (fun _ _ => True) (maybeAutoDisable rule).
Proof.
  unfold maybeAutoDisable, disable_rule, update_rules.
  repeat first [progress qmoves_step | typeclasses eauto | by apply qmoves_outside | by apply qmoves_stmt; [typeclasses eauto|]].
Qed.

Lemma updateRuleCounters_tired rule run : qmoves KeepTired (updateRuleCounters rule run).
Proof.
  intros w r w' Hc E. unfold updateRuleCounters, bind, try, update_rules in E. rewrite stmt_calm in E by done. simpl in E.
  set (w1 := set_db _ _) in E. assert (calm w1) as Hc1 by by destruct Hc as [[? ?] ?].
  destruct (String.eqb_spec (an_Status run) AutomationFailed) as [Ef|Ef].
  - split; [by eapply maybeAutoDisable_calm|]. intros Hd. apply (tired_counters rule run) in Hd as [Hbut _].
    by eapply maybeAutoDisable_tired.
  - injection E as _ <-. split; [done|]. intros Hd. exact (proj2 (tired_counters rule run _ Hd) Ef).
Qed.

Ltac solve_tired :=
  repeat first
    [ progress qmoves_step
    | apply updateRuleCounters_tired
    | apply qmoves_outside; intros d0 o0 Hd0; exact Hd0
    | apply keep_tired_eq; intros; repeat case_match; by simplify_eq
    | typeclasses eauto ].

Lemma finish_tired rule run subject : qmoves KeepTired (finish rule run subject).
Proof. unfold finish, record_contact, recordContactState, insert_run, claim, update_runs. solve_tired. Qed.

Lemma act_tired rule run event dryRun : qmoves KeepTired (act rule run event dryRun).
Proof. unfold act, execute. repeat first [apply finish_tired | progress solve_tired | progress unfold park, insert_wait]. Qed.

Lemma runRule_tired redis rule event dryRun : qmoves KeepTired (runRule redis rule event dryRun).
Proof.
  unfold runRule, skipReason, policyReason, rateLimited, incr_rate, settle, perform, claim.
  repeat first [apply finish_tired | apply act_tired | progress solve_tired].
Qed.

Lemma Handle_tired redis event : qmoves KeepTired (Handle redis event).
Proof.
  unfold Handle, EnabledRules. apply qmoves_bind; [typeclasses eauto|solve_tired|intros rules].
  induction rules as [|rule rules IH]; simpl; [solve_tired|].
  repeat first [apply runRule_tired | apply IH | progress solve_tired].
Qed.

Lemma resume_tired wait : qmoves KeepTired (resume wait).
Proof.
  unfold resume, GetRule, cancelWait, go_on, continue_run, park, insert_wait, update_runs, update_waits. solve_tired.
Qed.

Lemma ResumeWaits_tired : qmoves KeepTired (ResumeWaits (fun _ d => d)).
Proof.
  unfold ResumeWaits. do 2 (apply qmoves_bind; [typeclasses eauto|solve_tired|intros ?]).
  generalize 0%nat. match goal with |- forall _, qmoves _ (resume_each _ ?l _) => induction l as [|x l IH] end;
    intros n; simpl; [solve_tired|]. unfold update_waits.
  repeat first [apply resume_tired | apply IH | apply qmoves_interleave; intros d Hd; exact Hd | progress solve_tired].
Qed.

(** The service starts the count again whenever it leaves a rule on. *)
Lemma service_update_tired p us :
  (forall r, ar_ID (apply_updates us r) = ar_ID r) ->
  (forall r, healthy_rule r -> healthy_rule (apply_updates us r)) -> qmoves KeepTired (update_rules p us).
Proof.
  intros Hid Hus. apply qmoves_stmt; [typeclasses eauto|]. intros d a d' [= _ <-] Hd.
  apply tired_update; [done..|]. intros k r _ _. apply Hus.
Qed.

Lemma perform_call_tired redis c : qmoves KeepTired (perform_call redis c).
Proof.
  destruct c; simpl; try (apply qmoves_bind; [typeclasses eauto| |intros; apply qmoves_ret; typeclasses eauto]).
  - unfold CreateRule, Validate, insert_rule. repeat first [progress qmoves_step | typeclasses eauto].
    apply qmoves_stmt; [typeclasses eauto|]. intros d ? d' E [Hk Hr]. destruct (is_some _); [done|]. injection E as _ <-.
    split; [by apply keyed_insert|]. intros k r. simpl. destruct (decide (k = a1)) as [->|].
    + rewrite lookup_insert_eq. by intros [= <-].
    + rewrite lookup_insert_ne by done. apply Hr.
  - unfold UpdateRule, GetRule, Validate. repeat first [progress solve_tired | apply service_update_tired].
    all: intros r; unfold rule_updates; destruct (in_Enabled inp); done.
  - unfold SetEnabled, may_turn_on, GetRule, Validate. repeat first [progress solve_tired | apply service_update_tired].
    all: intros r; destruct enabled; done.
  - unfold DeleteRule. repeat first [progress solve_tired | apply service_update_tired]; done.
  - apply Handle_tired.
  - apply runRule_tired.
  - apply ResumeWaits_tired.
Qed.

(** C15: A rule that keeps failing is turned off.  On a database that does not
    fail, after any calls of the rule service and the engine, every live rule
    that is on has failed fewer than [AutoDisableAfter] runs in a row: the
    tenth consecutive failure turns it off, and turning it on or editing it
    starts the count again. *)
Theorem failing_rules_are_off redis cs w r w' :
  calm w -> tired_off (w_db w) -> perform_calls redis cs w = (r, w') ->
  forall k rule, au_rules (w_db w') !! k = Some rule ->
    ar_Enabled rule = true -> ar_DeletedAt rule = None -> ar_ConsecutiveFailures rule < AutoDisableAfter.
Proof.
  intros Hc Hd E.
  assert (qmoves KeepTired (perform_calls redis cs)) as Hm.
  { clear E Hc Hd w w' r. induction cs as [|c cs IH]; simpl; [apply qmoves_ret; typeclasses eauto|].
    apply qmoves_bind; [typeclasses eauto|apply qmoves_try, perform_call_tired|intros _; exact IH]. }
  apply (Hm _ _ _ Hc) in E as [_ Ht]. intros k rule. apply (proj2 (Ht Hd)).
Qed.
End AutoDisable.
