(* ===== verification/ResumeProps.v ===== *)
(** * Properties of parked runs

    A wait is resumed once, a due wait is taken up, and a run that cannot go
    on is cancelled with its reason and acts on nothing. *)
From S2P Require Import Prelude GoLib Store Events Wire Models Statements Triggers Steps StepsProps AutoModels Rules Engine.
From S2P Require Import EngineLemmas AutoInvariants.

Section Waits.
Context `{SL : SqlLaws} `{EE : EngineEnv} `{GF : GoFmt}.
Implicit Types (d : AutoDB) (w : world AutoDB).

Definition pending (wt : AutomationWait) : bool := String.eqb (aw_Status wt) WaitPending.

(** A wait keeps its key, and once taken up or cancelled it stays so. *)
Definition settles (wt wt' : AutomationWait) : Prop :=
  aw_ID wt' = aw_ID wt /\ (pending wt = false -> pending wt' = false).

#[export] Instance settles_preorder : PreOrder settles.
Proof. split; [by intros wt|]. intros a b c [? ?] [? ?]. split; [congruence|auto]. Qed.

Definition waits_settle d d' : Prop :=
  forall k wt, au_waits d !! k = Some wt -> exists wt', au_waits d' !! k = Some wt' /\ settles wt wt'.

#[export] Instance waits_settle_preorder : PreOrder waits_settle.
Proof.
  split.
  - intros d k wt Hw. exists wt. split; [done|]. reflexivity.
  - intros a b c Hab Hbc k wt Hw. destruct (Hab k wt Hw) as (wt' & Hw' & E).
    destruct (Hbc k wt' Hw') as (wt'' & Hw'' & F). exists wt''. split; [done|]. by etrans.
Qed.

Lemma waits_settle_eq d d' : au_waits d' = au_waits d -> waits_settle d d'.
Proof. intros E k wt Hw. exists wt. rewrite E. split; [done|]. reflexivity. Qed.

Lemma moves_update_waits p us :
  Forall (fun f => forall wt, settles wt (f wt)) us -> moves waits_settle (update_waits p us).
Proof.
  intros Hus. apply moves_stmt; [typeclasses eauto|]. intros d a d' [= _ <-] k wt Hw. simpl.
  rewrite update_where_lookup, Hw. simpl. eexists; split; [done|]. destruct (p wt); [|reflexivity].
  by apply (apply_updates_rel settles).
Qed.

Lemma moves_insert_wait wt : moves waits_settle (insert_wait wt).
Proof.
  apply moves_stmt; [typeclasses eauto|]. intros d a d' E. destruct (Nat.ltb _ _); [done|].
  destruct (au_waits d !! aw_ID wt) eqn:Hn; [done|]. injection E as _ <-. intros k wt' Hw. exists wt'. simpl.
  split; [|reflexivity]. rewrite lookup_insert_ne; [done|]. congruence.
Qed.

Lemma moves_waits_eq {A} locks (f : AutoDB -> res err A * AutoDB) :
  (forall d a d', f d = (Ok a, d') -> au_waits d' = au_waits d) -> moves waits_settle (stmt locks f).
Proof. intros Hf. apply moves_stmt; [typeclasses eauto|]. intros d a d' E. by eapply waits_settle_eq, Hf. Qed.

Lemma settles_status st : st <> WaitPending -> Forall (fun f => forall wt, settles wt (f wt)) [set_aw_Status st].
Proof.
  intros Hst. repeat constructor. intros _. unfold pending. simpl. by apply String.eqb_neq.
Qed.

Ltac solve_waits :=
  repeat first
    [ progress moves_step
    | apply moves_update_waits, settles_status; done
    | apply moves_insert_wait
    | apply moves_outside; intros; by apply waits_settle_eq
    | apply moves_waits_eq; intros; repeat case_match; by simplify_eq
    | typeclasses eauto ].

Lemma resume_waits wait : moves waits_settle (resume wait).
Proof.
  unfold resume, GetRule, cancelWait, go_on, continue_run, updateRuleCounters, maybeAutoDisable, disable_rule, park,
    update_rules, update_runs. solve_waits.
Qed.

Lemma resume_each_waits others due n :
  (forall k d, waits_settle d (others k d)) -> moves waits_settle (resume_each others due n).
Proof.
  intros Ho. revert n. induction due as [|x l IH]; intros n; simpl; [solve_waits|].
  repeat first [apply resume_waits | apply IH | apply moves_interleave; intros; apply Ho | progress solve_waits].
Qed.

(** *** Once *)

(** [n] takers won the wait with this id; meanwhile anything may happen that
    does not make a settled wait pending again. *)
Inductive takers (id : uuid) : nat -> world AutoDB -> Prop :=
| takers_none w : keyed aw_ID (au_waits (w_db w)) -> takers id 0 w
| takers_meanwhile n w w' :
    takers id n w -> waits_settle (w_db w) (w_db w') -> keyed aw_ID (au_waits (w_db w')) -> takers id n w'
| takers_try n w a w' :
    takers id n w -> update_waits (wait_pending id) [set_aw_Status WaitResumed] w = (Ok a, w') ->
    takers id (if Nat.eqb a 0 then n else S n) w'.

(** Two replicas that tick at once do not resume the same run twice.  The
    guarded update of [ResumeWaits] changes a row for at most one of any number
    of attempts on a wait, whatever happens in between. *)
Theorem wait_taken_once id n w : takers id n w -> (n <= 1)%nat.
Proof.
  intros Ht. assert (keyed aw_ID (au_waits (w_db w)) /\
    (n = 0%nat \/ (n = 1%nat /\ exists wt, au_waits (w_db w) !! id = Some wt /\ pending wt = false))) as [_ [->|[-> _]]]; [|lia..].
  induction Ht as [w Hk|n w w' _ [_ IH] Hs Hk|n w a w' _ [Hk IH] E].
  - split; [done|by left].
  - split; [done|]. destruct IH as [->|(-> & wt & Hw & Hp)]; [by left|right]. split; [done|].
    destruct (Hs id wt Hw) as (wt' & Hw' & _ & Hp'). eauto.
  - apply stmt_ok_inv in E as (d & [= <- <-] & _ & ->). simpl. split; [by apply keyed_update|].
    destruct (Nat.eqb_spec (rows_affected (wait_pending id) (au_waits (w_db w))) 0) as [Ea|Ea].
    + rewrite update_where_none; [done|]. by apply rows_affected_zero.
    + apply rows_affected_pos in Ea as (k & wt & Hw & Hp). pose proof Hp as Hp'.
      apply andb_true_iff in Hp as [Hid%N.eqb_eq Hpend]. assert (k = id) as -> by (rewrite <- Hid; symmetry; by apply Hk).
      destruct IH as [->|(-> & wt0 & Hw0 & Hp0)]; [|unfold pending in Hp0; congruence].
      right. split; [done|]. rewrite update_where_lookup, Hw. simpl. rewrite Hp'. eexists; split; [done|]. done.
Qed.

(** *** Every due wait *)

Lemma calm_moves {A} (m : M AutoDB A) w r w' : qmoves (fun _ _ => True) m -> calm w -> m w = (r, w') -> calm w'.
Proof. intros Hm Hc E. by apply Hm in E as [? _]. Qed.

#[local] Instance always_auto : PreOrder (fun _ _ : AutoDB => True).
Proof. by split. Qed.

Ltac solve_calm :=
  repeat first [progress qmoves_step | typeclasses eauto | by apply qmoves_outside
    | by apply qmoves_stmt; [typeclasses eauto|] | by apply qmoves_interleave].

Lemma resume_calm wait : qmoves (fun _ _ => True) (resume wait).
Proof.
  unfold resume, GetRule, cancelWait, go_on, continue_run, updateRuleCounters, maybeAutoDisable, disable_rule, park,
    update_rules, update_runs, update_waits, insert_wait. solve_calm.
Qed.

Definition settled (id : uuid) d : Prop := forall wt, au_waits d !! id = Some wt -> pending wt = false.

Lemma resume_each_takes others due n w r w' :
  (forall k d, waits_settle d (others k d)) -> calm w ->
  (forall wt, wt ∈ due -> exists wt', au_waits (w_db w) !! aw_ID wt = Some wt' /\ aw_ID wt' = aw_ID wt) ->
  resume_each others due n w = (r, w') ->
  is_ok r = true /\ forall wt, wt ∈ due -> settled (aw_ID wt) (w_db w').
Proof.
  intros Ho. revert n w. induction due as [|wait due IH]; intros n w Hc Hrows E; simpl in E.
  { injection E as <- <-. split; [done|]. by intros wt ?%not_elem_of_nil. }
  unfold bind at 1 in E. unfold interleave in E. set (w0 := set_db _ w) in E.
  assert (calm w0) as Hc0 by by apply calm_set_db.
  assert (waits_settle (w_db w) (w_db w0)) as Hs0 by apply Ho. clearbody w0.
  unfold bind at 1 in E. unfold update_waits at 1 in E. rewrite stmt_calm in E by done.
  set (w1 := set_db _ (add_locks _ w0)) in E. assert (calm w1) as Hc1 by by destruct Hc0 as [[? ?] ?].
  assert (waits_settle (w_db w0) (w_db w1)) as Hs1.
  { intros k wt Hw. subst w1. simpl. rewrite update_where_lookup, Hw. simpl. eexists; split; [done|].
    destruct (wait_pending _ wt); [|reflexivity]. split; [done|]. done. }
  assert (settled (aw_ID wait) (w_db w1)) as Hset.
  { intros wt. subst w1. simpl. rewrite update_where_lookup.
    destruct (Hrows wait ltac:(by left)) as (wt0 & Hw0 & Hid). destruct (Hs0 _ _ Hw0) as (wt1 & Hw1 & Hid1 & _).
    rewrite Hw1. simpl. intros [= <-]. destruct (wait_pending (aw_ID wait) wt1) eqn:Hp; [done|].
    unfold wait_pending in Hp. rewrite Hid1, Hid, N.eqb_refl in Hp. done. }
  assert (exists w2 m, calm w2 /\ waits_settle (w_db w1) (w_db w2) /\ resume_each others due m w2 = (r, w')) as (w2 & m & Hc2 & Hs2 & E2).
  { destruct (Nat.eqb _ 0); [exists w1, n; split_and!; [done|reflexivity|done]|].
    unfold bind, try in E. destruct (resume wait w1) as [x w2] eqn:Er. exists w2, (match x with Ok _ => S n | Err _ => n end).
    split_and!; [by eapply calm_moves; [apply resume_calm|..]|by eapply resume_waits|done]. }
  destruct (IH m w2 Hc2) as [Hok Hdue]; [|done|].
  { intros wt Hwt. destruct (Hrows wt ltac:(by right)) as (wt0 & Hw0 & Hid).
    destruct (Hs0 _ _ Hw0) as (wt1 & Hw1 & Hid1 & _). destruct (Hs1 _ _ Hw1) as (wt2 & Hw2 & Hid2 & _).
    destruct (Hs2 _ _ Hw2) as (wt3 & Hw3 & Hid3 & _). exists wt3. split; [done|congruence]. }
  split; [done|]. intros wt [->|Hwt]%elem_of_cons; [|by apply Hdue].
  assert (waits_settle (w_db w2) (w_db w')) as Hs3 by by eapply resume_each_waits.
  destruct (Hrows wait ltac:(by left)) as (wt0 & Hw0 & _). destruct (Hs0 _ _ Hw0) as (wt1 & Hw1 & _).
  destruct (Hs1 _ _ Hw1) as (wt2 & Hw2 & _). pose proof (Hset _ Hw2) as Hp.
  destruct (Hs2 _ _ Hw2) as (wt3 & Hw3 & _ & Hp3). destruct (Hs3 _ _ Hw3) as (wt4 & Hw4 & _ & Hp4).
  intros wt'. rewrite Hw4. intros [= <-]. auto.
Qed.

(** Nobody waits for ever.  A tick on a database that does not fail
    succeeds, takes up the [ResumeBatch] waits that are due soonest, and each
    of them is then over: resumed or cancelled, by this replica or another.
    When no more than that many were due, no wait of before that is due is
    left pending. *)
Theorem due_waits_are_taken others w r w' :
  (forall k d, waits_settle d (others k d)) -> calm w -> keyed aw_ID (au_waits (w_db w)) ->
  ResumeWaits others w = (r, w') ->
  is_ok r = true /\
  (forall wt, wt ∈ due_waits (w_now w) (w_db w) -> settled (aw_ID wt) (w_db w')) /\
  ((length (find_rows (wait_due (w_now w)) None (au_waits (w_db w))) <= ResumeBatch)%nat ->
     forall k wt, au_waits (w_db w) !! k = Some wt -> wait_due (w_now w) wt = true -> settled k (w_db w')).
Proof.
  intros Ho Hc Hk E. unfold ResumeWaits, bind, now, query in E. rewrite stmt_calm in E by done.
  set (w1 := set_db _ _) in E. assert (calm w1) as Hc1 by by destruct Hc as [[? ?] ?].
  apply resume_each_takes in E as [Hok Hdue]; [|done..|].
  - split_and!; [done..|]. intros Hlen k wt Hw Hd. rewrite <- (Hk _ _ Hw). apply Hdue. unfold due_waits.
    rewrite take_ge by by rewrite (Permutation_length (sort_by_perm sooner _)).
    apply elem_of_sort_by. by eapply find_rows_complete.
  - intros wt Hwt. unfold due_waits in Hwt. apply elem_of_take in Hwt as (i & Hi & _).
    apply list_elem_of_lookup_2, elem_of_sort_by, find_rows_elem in Hi as (k & Hw & _).
    exists wt. split; [|done]. by rewrite (Hk _ _ Hw).
Qed.

(** *** Cancelling *)

(** Why a parked run cannot go on, if it cannot. *)
Definition cancel_reason (wait : AutomationWait) d : option string :=
  match au_rules d !! aw_RuleID wait with
  | Some rule =>
      if negb (rule_in (aw_RuleID wait) (aw_OrganizationID wait) rule) then Some CancelRuleDeleted
      else if negb (ar_Enabled rule) then Some CancelRuleOff
      else if negb (match aw_ContactID wait with Some c => contact_alive c (au_out d) | None => true end) then Some CancelContactGone
      else if is_none (continuationAfter (RuleActions rule) (aw_StepID wait)) then Some CancelStepRemoved
      else None
  | None => Some CancelRuleDeleted
  end.

(** A query that answers on a calm world changes nothing. *)
Lemma query_calm {A} (f : AutoDB -> res err A) w :
  calm w -> exists w', query f w = (f (w_db w), w') /\ calm w' /\ w_db w' = w_db w /\ w_now w' = w_now w.
Proof.
  intros Hc. unfold query. rewrite stmt_calm by done. destruct (f (w_db w)).
  - eexists. split_and!; [done|by destruct Hc as [[? ?] ?]|done|done].
  - exists w. by split_and!.
Qed.

Lemma GetRule_calm orgID ruleID w :
  calm w -> keyed ar_ID (au_rules (w_db w)) -> exists w', calm w' /\ w_db w' = w_db w /\ w_now w' = w_now w /\
    GetRule orgID ruleID w =
      (match au_rules (w_db w) !! ruleID with
       | Some rule => if rule_in ruleID orgID rule then Ok rule else Err RuleErrNotFound
       | None => Err RuleErrNotFound
       end, w').
Proof.
  intros Hc Hk. unfold GetRule, bind, try.
  destruct (query_calm (fun d => first_row (rule_in ruleID orgID) unordered (au_rules d)) w Hc) as (w' & -> & Hc' & Hdb & Hn).
  exists w'. split_and!; [done..|].
  assert (names_key ar_ID ruleID (rule_in ruleID orgID)) as Hnk.
  { intros r Hr. by apply andb_true_iff in Hr as [[?%N.eqb_eq _]%andb_true_iff _]. }
  destruct (first_row _ _ _) as [rule|e] eqn:Ef.
  - apply (first_row_key ar_ID ruleID) in Ef as [Hl Hp]; [|done..]. by rewrite Hl, Hp.
  - apply first_row_err in Ef as [_ Hno]. destruct (au_rules (w_db w) !! ruleID) as [rule|] eqn:Hl; [|done].
    by rewrite (Hno _ _ Hl).
Qed.

(** The tables after [cancelWait]. *)
Definition cancelled (wait : AutomationWait) (run : AutomationRun) (reason : string) (t : time) d : AutoDB :=
  set_au_waits (update_where (wait_by_id (aw_ID wait)) [set_aw_Status WaitCancelled] (au_waits d))
    (set_au_runs (<[an_ID run := set_an_FinishedAt (Some t) (set_an_SkipReason reason (set_an_Status AutomationCancelled run))]>
                    (au_runs d)) d).

Lemma cancelWait_calm wait run reason w :
  calm w -> keyed an_ID (au_runs (w_db w)) -> au_runs (w_db w) !! an_ID run = Some run ->
  exists w', cancelWait wait run reason w = (Ok tt, w') /\ w_db w' = cancelled wait run reason (w_now w) (w_db w).
Proof.
  intros Hc Hk Hr. unfold cancelWait, bind, now, update_runs, update_waits. rewrite stmt_calm by done. simpl.
  rewrite stmt_calm by by destruct Hc as [[? ?] ?]. simpl. eexists; split; [done|]. simpl. unfold cancelled.
  rewrite (update_where_key an_ID (an_ID run) _ _ _ run); [done|done| |done|].
  - intros r Hp. by apply N.eqb_eq in Hp.
  - apply N.eqb_refl.
Qed.

(** A parked run that cannot go on acts on nothing.  When its rule was
    deleted or turned off, its contact is gone or its step was removed,
    [resume] cancels the run with that reason and the wait with it, and
    touches nothing else; when none of this holds it goes on with the steps
    that follow the wait in the rule as it is now. *)
Theorem resume_or_cancel wait run w :
  calm w -> keyed ar_ID (au_rules (w_db w)) -> keyed an_ID (au_runs (w_db w)) ->
  au_runs (w_db w) !! aw_RunID wait = Some run ->
  match cancel_reason wait (w_db w) with
  | Some reason => exists w', resume wait w = (Ok tt, w') /\ w_db w' = cancelled wait run reason (w_now w) (w_db w)
  | None => exists rule remaining w1,
      au_rules (w_db w) !! aw_RuleID wait = Some rule /\
      continuationAfter (ar_Actions rule) (aw_StepID wait) = Some remaining /\
      w_db w1 = w_db w /\ calm w1 /\ resume wait w = go_on wait run rule remaining w1
  end.
Proof.
  intros Hc Hkr Hkn Hrun. remember (resume wait w) as res eqn:E. unfold resume in E.
  assert (an_ID run = aw_RunID wait) as Hid by by apply Hkn.
  destruct (query_calm (fun d => first_row (run_by_id (aw_RunID wait)) unordered (au_runs d)) w Hc) as (w1 & Eq & Hc1 & Hdb1 & Hn1).
  rewrite (first_row_unique an_ID (aw_RunID wait) _ _ _ run) in Eq; [|done| |done|by apply N.eqb_eq].
  2:{ intros r Hp. by apply N.eqb_eq in Hp. }
  rewrite (bind_run _ _ _ _ _ (try_run _ _ _ _ Eq)) in E. rewrite <- Hdb1 in Hkr.
  destruct (GetRule_calm (aw_OrganizationID wait) (aw_RuleID wait) w1 Hc1 Hkr) as (w2 & Hc2 & Hdb2 & Hn2 & Eg).
  rewrite (bind_run _ _ _ _ _ (try_run _ _ _ _ Eg)), Hdb1 in E. clear Eq Eg. unfold cancel_reason.
  assert (forall reason w3, calm w3 -> w_db w3 = w_db w -> w_now w3 = w_now w -> res = cancelWait wait run reason w3 ->
    exists w', res = (Ok tt, w') /\ w_db w' = cancelled wait run reason (w_now w) (w_db w)) as Hcancel.
  { intros reason w3 H1 H2 H3 ->. rewrite <- H2, <- H3. apply cancelWait_calm; [done|by rewrite H2|by rewrite H2, Hid]. }
  assert (w_db w2 = w_db w) as Hdbw by congruence. assert (w_now w2 = w_now w) as Hnw by congruence.
  destruct (au_rules (w_db w) !! aw_RuleID wait) as [rule|] eqn:Hrule; [|by eapply Hcancel].
  destruct (rule_in _ _ rule) eqn:Hin; simpl in *; [|by eapply Hcancel].
  destruct (ar_Enabled rule); simpl in *; [|by eapply Hcancel].
  assert (exists w3, calm w3 /\ w_db w3 = w_db w /\ w_now w3 = w_now w /\
    match aw_ContactID wait with
    | Some contactID => query (fun d => Ok (contact_alive contactID (au_out d)))
    | None => ret true
    end w2 = (Ok (match aw_ContactID wait with Some c => contact_alive c (au_out (w_db w)) | None => true end), w3))
    as (w3 & Hc3 & Hdb3 & Hn3 & E3).
  { destruct (aw_ContactID wait) as [c|]; [|by exists w2].
    destruct (query_calm (fun d => Ok (contact_alive c (au_out d))) w2 Hc2) as (w3 & E3 & ? & ? & ?).
    exists w3. split_and!; [done|congruence|congruence|]. by rewrite E3, Hdbw. }
  rewrite (bind_run _ _ _ _ _ E3) in E. destruct (match aw_ContactID wait with Some _ => _ | None => _ end); simpl in *;
    [|by eapply Hcancel].
  unfold RuleActions in *. destruct (continuationAfter _ _) as [remaining|] eqn:Ec; simpl; [|by eapply Hcancel].
  exists rule, remaining, w3. by split_and!.
Qed.
End Waits.
