(* ===== verification/TimeTriggers.v ===== *)
(** * Time triggers ([internal/automation/timetriggers.go])

    Nothing happens when a customer does not reply, so a tick goes looking: it
    finds the conversations and dates a rule is about and runs the rule for a
    synthetic event whose id is a function of the rule and the subject. *)
From S2P Require Import Prelude GoLib Store Events Wire Models Statements Triggers Steps StepsProps AutoModels Rules Engine.
From S2P Require Import EngineLemmas EngineProps AutoInvariants.

(** What the tick reads besides the automation tables, and the calendar. *)
Class TimeEnv `{EE : EngineEnv} := {
  conversations : Outside -> gmap uuid Conversation;
  (** The contacts whose value of a date field falls on a day: organization,
      field key, day, at most so many. *)
  date_rows : uuid -> string -> string -> nat -> Outside -> list (uuid * time);
  local_hour : uuid -> time -> Z;                (** the hour in the organization's zone *)
  local_day : uuid -> time -> Z -> string;       (** the day so many days from then *)
  NewSHA1 : string -> uuid                       (** [uuid.NewSHA1(timeTriggerNamespace, _)] *)
}.

Definition TimeTriggerBatch : nat := 1000.

Section TimeTriggers.
Context `{SQ : Sql} `{TE : TimeEnv} `{GF : GoFmt}.
Variable redis : bool.

Definition subject_id (rule : AutomationRule) (subject : string) : uuid :=
  NewSHA1 (uuid_String (ar_ID rule) ++ "|" ++ subject)%string.

Definition syntheticEvent (rule : AutomationRule) (contactID : uuid) (subject : string) (data : list (string * any)) (t : time) : Event :=
  {| e_ID := subject_id rule subject; e_Type := ar_TriggerType rule; e_OrgID := ar_OrganizationID rule;
     e_ContactID := Some contactID; e_Subject := {| subj_Type := ""; subj_ID := None |};
     e_Actor := SystemActor; e_Data := data ++ [("subject_key"%string, AString subject)];
     e_OccurredAt := t; e_Origin := {| orig_RuleID := None; orig_Depth := 0 |} |}.

(** [%s:%d] of a conversation and an instant. *)
Definition period_subject (id : uuid) (at_ : time) : string :=
  (uuid_String id ++ ":" ++ Itoa (at_ / Second))%string.

(** *** No reply from the customer *)

Definition quiet_customer (orgID : uuid) (statuses : list string) (before : time) (c : Conversation) : bool :=
  N.eqb (cv_OrganizationID c) orgID && existsb (String.eqb (string_of_status (cv_Status c))) statuses &&
  sql_lt (cv_LastAgentMessageAt c) before &&
  match cv_LastCustomerMessageAt c, cv_LastAgentMessageAt c with
  | None, _ => true
  | Some a, Some b => a <? b
  | Some _, None => false
  end && is_none (cv_DeletedAt c).

Definition customer_event (rule : AutomationRule) (t : time) (c : Conversation) : Event :=
  syntheticEvent rule (cv_ContactID c) (period_subject (cv_ID c) (default 0 (cv_LastAgentMessageAt c)))
    [("conversation_id"%string, AString (uuid_String (cv_ID c))); ("status"%string, AString (string_of_status (cv_Status c)))] t.

(** *** No reply from an agent *)

Definition late_agent (orgID : uuid) (before : time) (c : Conversation) : bool :=
  N.eqb (cv_OrganizationID c) orgID && negb (bool_decide (cv_Status c = ConversationResolved)) &&
  negb (bool_decide (cv_Handling c = HandlingBot)) && sql_lt (cv_WaitingSince c) before && is_none (cv_DeletedAt c).

Definition agent_event (rule : AutomationRule) (t : time) (c : Conversation) : Event :=
  syntheticEvent rule (cv_ContactID c) (period_subject (cv_ID c) (default 0 (cv_WaitingSince c)))
    [("conversation_id"%string, AString (uuid_String (cv_ID c))); ("waiting_since"%string, ATime (default 0 (cv_WaitingSince c)))] t.

(** *** A date *)

Definition containsID (ids : list uuid) (want : uuid) : bool := existsb (N.eqb want) ids.

Definition date_subject (contactID : uuid) (field day : string) (offset : Z) : string :=
  (uuid_String contactID ++ ":" ++ field ++ ":" ++ day ++ ":" ++ Itoa offset)%string.

(** The id events had before their subject named the contact. *)
Definition legacy_id (rule : AutomationRule) (field target : string) (offset : Z) : uuid :=
  subject_id rule (field ++ ":" ++ target ++ ":" ++ Itoa offset)%string.

Definition ran_as (ruleID eventID : uuid) (r : AutomationRun) : bool :=
  N.eqb (an_RuleID r) ruleID && N.eqb (an_EventID r) eventID && is_some (an_ContactID r).

Definition date_event (rule : AutomationRule) (field : string) (offset : Z) (t : time) (row : uuid * time) : Event :=
  let day := FormatDay (day_of row.2) in
  syntheticEvent rule row.1 (date_subject row.1 field day offset) [("field"%string, AString field); ("date"%string, AString day)] t.

Definition dateFieldEvents (rule : AutomationRule) (cfg : Config) : M AutoDB (list Event) :=
  let field := Str cfg "field" in
  if is_empty field then ret []
  else
    let offset := Integer cfg "offset_days" in
    t <- now ;;
    if match Number cfg "at_local_hour" with
       | Some hour => negb (local_hour (ar_OrganizationID rule) t =? float_trunc hour)
       | None => false
       end then ret []
    else
      let target := local_day (ar_OrganizationID rule) t (wrap64 (- offset)) in
      rows <- query (fun d => Ok (date_rows (ar_OrganizationID rule) field target TimeTriggerBatch (au_out d))) ;;
      alreadyRan <- query (fun d =>
        Ok (omap an_ContactID (find_rows (ran_as (ar_ID rule) (legacy_id rule field target offset)) None (au_runs d)))) ;;
      ret (date_event rule field offset t <$> List.filter (fun row => negb (containsID alreadyRan row.1)) rows).

(** *** The tick *)

Definition timeTriggerEvents (rule : AutomationRule) : M AutoDB (list Event) :=
  let cfg := RuleTriggerConfig rule in
  if String.eqb (ar_TriggerType rule) TriggerNoCustomerReply then
    match Duration cfg "after" with
    | None => ret []
    | Some after =>
        let statuses := Strings cfg "statuses" in
        let statuses := if Nat.eqb (length statuses) 0
                        then [string_of_status ConversationOpen; string_of_status ConversationPending] else statuses in
        t <- now ;;
        rows <- query (fun d => Ok (find_rows (quiet_customer (ar_OrganizationID rule) statuses (t - after))
                                      (Some TimeTriggerBatch) (conversations (au_out d)))) ;;
        ret (customer_event rule t <$> rows)
    end
  else if String.eqb (ar_TriggerType rule) TriggerNoAgentReply then
    match Duration cfg "after" with
    | None => ret []
    | Some after =>
        t <- now ;;
        rows <- query (fun d => Ok (find_rows (late_agent (ar_OrganizationID rule) (t - after))
                                      (Some TimeTriggerBatch) (conversations (au_out d)))) ;;
        ret (agent_event rule t <$> rows)
    end
  else if String.eqb (ar_TriggerType rule) TriggerDateField then dateFieldEvents rule cfg
  else ret [].

Fixpoint fire_events (rule : AutomationRule) (events : list Event) (fired : nat) : M AutoDB nat :=
  match events with
  | [] => ret fired
  | event :: events =>
      r <- try (runRule redis rule event false) ;;
      fire_events rule events
        (match r with Ok (Some run) => if String.eqb (an_Status run) AutomationSkipped then fired else S fired | _ => fired end)
  end.

Fixpoint fire_rules (rules : list AutomationRule) (fired : nat) : M AutoDB nat :=
  match rules with
  | [] => ret fired
  | rule :: rules =>
      events <- try (timeTriggerEvents rule) ;;
      fired <- match events with Ok events => fire_events rule events fired | Err _ => ret fired end ;;
      fire_rules rules fired
  end.

Definition time_rule (r : AutomationRule) : bool :=
  ar_Enabled r && existsb (String.eqb (ar_TriggerType r)) [TriggerNoCustomerReply; TriggerNoAgentReply; TriggerDateField] &&
  live_rule r.

Definition RunTimeTriggers : M AutoDB nat :=
  rules <- query (fun d => Ok (find_rows time_rule None (au_rules d))) ;;
  fire_rules rules 0.
End TimeTriggers.

(** ** A waiting period is judged once *)

Section Periods.
Context `{SL : SqlLaws} `{TE : TimeEnv} `{GF : GoFmt}.
Implicit Types (d : AutoDB) (w : world AutoDB).

#[local] Instance anything_auto : PreOrder (fun _ _ : AutoDB => True).
Proof. by split. Qed.

Lemma skipReason_calm redis rule event dryRun : qmoves (fun _ _ => True) (skipReason redis rule event dryRun).
Proof.
  unfold skipReason, policyReason, rateLimited, incr_rate.
  repeat first [progress qmoves_step | typeclasses eauto | by apply qmoves_stmt; [typeclasses eauto|]].
Qed.

(** A claim on a calm world with a fresh id leaves the event handled. *)
Lemma claim_handles ruleID eventID run w r w' :
  calm w -> run_for ruleID eventID run -> au_runs (w_db w) !! an_ID run = None ->
  claim run w = (r, w') -> is_ok r = true /\ handled ruleID eventID (w_db w').
Proof.
  intros Hc Hr Hn E. unfold claim in E. rewrite stmt_calm in E by done. destruct (taken run (w_db w)) eqn:Ht; simpl in E;
    injection E as <- <-; (split; [done|]); simpl; [|by apply inserted_handled].
  unfold taken in Ht. rewrite Hn in Ht. simpl in Ht. apply andb_true_iff in Ht as [_ Ht%negb_true_iff%Nat.eqb_neq].
  apply rows_affected_pos in Ht as (k & r & Hk & Hs). destruct Hr as (<- & <- & _). by exists k, r.
Qed.

Lemma skipReason_never_fails redis rule event dryRun w r w' :
  skipReason redis rule event dryRun w = (r, w') -> is_ok r = true.
Proof.
  unfold skipReason. destruct (_ && _); [by intros [= <- _]|]. destruct (negb _); [by intros [= <- _]|].
  unfold bind at 1, get_db. destruct (match e_ContactID event with Some _ => _ | None => _ end) as [[]|]; try by intros [= <- _].
  destruct dryRun; [by intros [= <- _]|]. cbv zeta. unfold policyReason, rateLimited, bind, try, now, ret.
  intros E. repeat case_match; simplify_eq; done.
Qed.

(** Only a trigger whose settings do not match says so. *)
Lemma skipReason_trigger redis rule event w w' :
  MatchTrigger (ar_TriggerType rule) (ar_TriggerConfig rule) event = true ->
  skipReason redis rule event false w <> (Ok SkipTriggerNotMet, w').
Proof.
  intros Hm. unfold skipReason. rewrite Hm. simpl. unfold loop_reason.
  destruct (opt_eqb _ _); [by intros [= ?]|]. destruct (MaxDepth <=? _); [by intros [= ?]|]. simpl.
  unfold bind at 1, get_db. destruct (match e_ContactID event with Some _ => _ | None => _ end) as [[]|]; try by intros [= ?].
  cbv zeta. unfold bind at 1. intros E.
  assert (forall x w1, match e_ContactID event with
      | Some contactID => policyReason rule (RulePolicy rule) contactID (subjectKey event)
      | None => ret ""
      end w = (Ok x, w1) -> x <> SkipTriggerNotMet) as Hp.
  { intros x w1. destruct (e_ContactID event) as [c|]; [|by intros [= <- _]]. unfold policyReason.
    destruct (_ && _); [by intros [= <- _]|]. unfold bind at 1, try. destruct (query _ w) as [[st|e] w2]; [|by intros [= <- _]].
    destruct (rp_OncePerContact _); [by intros [= <- _]|]. unfold bind, now. destruct (_ && _); by intros [= <- _]. }
  revert E Hp. generalize (match e_ContactID event with
      | Some contactID => policyReason rule (RulePolicy rule) contactID (subjectKey event)
      | None => ret ""
      end). intros policy E Hp. destruct (policy w) as [[x|e] w1] eqn:Ex; [|done]. specialize (Hp x w1 eq_refl). destruct (negb (is_empty x)); [by injection E as -> _|].
  unfold bind in E. destruct (rateLimited _ _ _ w1) as [[[]|e] w2]; by injection E as ? _.
Qed.

(** What a call of [runRule] leaves behind when the trigger's settings match. *)
Lemma runRule_handles redis rule event w r w' :
  calm w -> au_runs (w_db w) !! w_uuid w = None ->
  MatchTrigger (ar_TriggerType rule) (ar_TriggerConfig rule) event = true ->
  runRule redis rule event false w = (r, w') -> handled (ar_ID rule) (e_ID event) (w_db w').
Proof.
  intros Hc Hn Hm E. unfold runRule, bind, now, uuid_New in E. cbv zeta in E. simpl in E.
  set (w0 := set_uuid _ w) in E. assert (calm w0) as Hc0 by by destruct Hc as [[? ?] ?].
  set (run := new_run (w_uuid w) (w_now w) rule event false) in E.
  assert (run_for (ar_ID rule) (e_ID event) run) as Hr by done.
  destruct (skipReason redis rule event false w0) as [[reason|e] w1] eqn:Ej.
  2:{ apply skipReason_never_fails in Ej. done. }
  pose proof (skipReason_calm _ _ _ _ _ _ _ Hc0 Ej) as [Hc1 _]. pose proof (judge_counts _ _ _ _ _ _ _ Ej) as Hcnt.
  assert (au_runs (w_db w1) !! w_uuid w = None) as Hn1 by by rewrite <- Hcnt.
  assert (reason <> SkipTriggerNotMet) as Hne.
  { intros ->. by apply skipReason_trigger in Ej. }
  destruct (is_empty reason) eqn:Hemp; simpl in E.
  - unfold perform, bind at 1 in E. simpl in E. destruct (claim run w1) as [x w2] eqn:Ec.
    pose proof (claim_handles _ _ run w1 _ _ Hc1 Hr Hn1 Ec) as [_ Hh].
    destruct x as [[]|e]; simpl in E.
    + eapply handled_stays; [exact (act_runs _ _ _ _ _ _ _ E)|done].
    + by injection E as _ <-.
    + by injection E as _ <-.
  - unfold settle in E. apply String.eqb_neq in Hne. rewrite Hne in E. simpl in E. unfold finish, bind, now in E. simpl in E.
    rewrite Hemp in E. simpl in E. set (run' := set_an_FinishedAt _ _) in E.
    destruct (claim run' w1) as [x w2] eqn:Ec.
    pose proof (claim_handles (ar_ID rule) (e_ID event) run' w1 _ _ Hc1 ltac:(done) Hn1 Ec) as [Hok Hh].
    destruct x; [|done]. by injection E as _ <-.
Qed.

(** A time trigger fires once for a waiting period.  Whatever a tick
    decides for the subject of a period - a run, or a skip - is recorded under
    an id made of the rule and the subject, so on a later tick, with the rule
    edited or the details changed, the same period changes nothing. *)
Theorem period_fires_once redis rule rule' contactID contactID' subject data data' t t' w r w1 w2 r' w3 :
  calm w -> au_runs (w_db w) !! w_uuid w = None -> IsTimeTrigger (ar_TriggerType rule) = true -> ar_ID rule' = ar_ID rule ->
  runRule redis rule (syntheticEvent rule contactID subject data t) false w = (r, w1) ->
  runs_stay (w_db w1) (w_db w2) ->
  runRule redis rule' (syntheticEvent rule' contactID' subject data' t') false w2 = (r', w3) ->
  counts_only (w_db w2) (w_db w3).
Proof.
  intros Hc Hn Ht Hid E1 Hs E2.
  assert (MatchTrigger (ar_TriggerType rule) (ar_TriggerConfig rule) (syntheticEvent rule contactID subject data t) = true) as Hm.
  { assert (existsb (String.eqb (ar_TriggerType rule)) [TriggerNoCustomerReply; TriggerNoAgentReply; TriggerDateField] = true) as Hin.
    { revert Ht. unfold IsTimeTrigger, LookupTrigger. destruct (List.find _ triggers) as [tg|] eqn:Ef; [|done].
      apply List.find_some in Ef as [Hin <-%String.eqb_eq]. simpl in Hin.
      repeat (destruct Hin as [<-|Hin]; [vm_compute; done|]). done. }
    unfold MatchTrigger. simpl. rewrite String.eqb_refl. simpl.
    apply existsb_exists in Hin as (x & Hx & ->%String.eqb_eq). simpl in Hx.
    destruct Hx as [<-|[<-|[<-|[]]]]; vm_compute; reflexivity. }
  apply runRule_handles in E1; [|done..]. apply (handled_stays _ _ _ _ Hs) in E1.
  eapply redelivery_changes_nothing; [|exact E2]. unfold syntheticEvent, subject_id in *. simpl in *. by rewrite Hid.
Qed.
End Periods.
