(* ===== verification/AutoSamples.v ===== *)
(** * Concrete automations: the witnesses, and what the engine does that its
      comments do not say *)
From S2P Require Import Prelude GoLib Store Events Wire Models Statements Samples Triggers Steps StepsProps AutoModels Rules Engine EngineLemmas EngineProps AutoInvariants ResumeProps TimeTriggers Conversation.

(** An outside world that is the list of the events published so far: an
    action publishes one, with the origin it is given, and one that is told to
    do so a second one without. *)
Definition env_events : @StepEnv lib_ref :=
  @Build_StepEnv lib_ref (list Event)
    (fun rc ty cfg o =>
       if Boolean cfg "fails" then ([], Some "timeout"%string, o)
       else if rc_DryRun rc then ([], None, o)
       else ([], None, o ++ [{| e_ID := N.of_nat (100 + length o); e_Type := "contact.tag_added"; e_OrgID := rc_OrgID rc;
                                e_ContactID := Some (rc_ContactID rc); e_Subject := {| subj_Type := ""; subj_ID := None |};
                                e_Actor := rc_Actor rc; e_Data := []; e_OccurredAt := 0; e_Origin := rc_Origin rc |}] ++
                         (if Boolean cfg "resolve" then
                            [New_event (N.of_nat (101 + length o)) 0 (rc_OrgID rc) "conversation.status_changed" (rc_Actor rc) []]
                          else [])))
    (fun _ filter _ _ => Ok filter).

Definition tag_event (id : uuid) : Event :=
  ForContact 7 (New_event id 0 1 "contact.tag_added" SystemActor [("tag"%string, AString "vip")]).

#[local] Existing Instances lib_ref env_events fmt_ref sql_ref uuid_ref json_ref.

#[local] Instance eng_ref : EngineEnv := {|
  Filter_IsEmpty _ := false;
  BuildRegistry _ _ := Ok tt;
  contact_alive c _ := negb (N.eqb c 99);
  Build _ _ _ _ := Ok [];
  local_now _ _ := "";
  Send_disabled _ _ _ _ _ o := o
|}.

Definition events_of (o : @Outside lib_ref env_events) : list Event := o.
Definition out_events (d : AutoDB) : list Event := au_out d.

Definition rule_ref (id : uuid) (steps : list ActionSpec) : AutomationRule :=
  MkRule id 0 None 1 "welcome" "" true "contact.tag_added" [] None steps (MkPolicy false 0 2) (Some 3%N) None None 0 0 0.

Definition db_ref (rules : list AutomationRule) : AutoDB :=
  MkAuto (list_to_map ((fun r => (ar_ID r, r)) <$> rules)) ∅ ∅ ∅ ∅ [].

Definition world_ref (d : AutoDB) : world AutoDB := World d (10 * Hour) 1000 [] false false [].

Lemma calm_ref d : calm (world_ref d).
Proof. by split_and!. Qed.

(** Two rules that answer each other's tags. *)
Definition tagger : list ActionSpec := [MkStep "t" "add_tags" [] false [] []].
Definition two_rules : AutoDB := db_ref [rule_ref 4 tagger; rule_ref 5 tagger].

Definition tag_run (id : uuid) : AutomationRun := new_run id 0 (rule_ref 4 tagger) (tag_event 20) false.

Lemma acts_at_most_once_witness :
  let w1 := (perform (rule_ref 4 tagger) (tag_run 30) (tag_event 20) false (world_ref two_rules)).2 in
  deliveries 4 20 1 w1 /\ (1 <= 1)%nat.
Proof.
  intros w1. assert (deliveries 4 20 1 w1) as Hd.
  { eapply (delivered_acting 4 20 0 (world_ref two_rules) (rule_ref 4 tagger) (tag_run 30) (tag_event 20));
      [apply delivered_none|reflexivity|reflexivity|by split_and!|apply surjective_pairing|].
    intros E. apply (f_equal (fun d => length (out_events d))) in E. vm_compute in E. discriminate. }
  split; [exact Hd|]. exact (acts_at_most_once 4 20 1 w1 Hd).
Defined.

Lemma redelivery_changes_nothing_witness :
  let w1 := (runRule true (rule_ref 4 tagger) (tag_event 20) false (world_ref two_rules)).2 in
  handled 4 20 (w_db w1) /\ length (out_events (w_db w1)) = 1%nat /\
  counts_only (w_db w1) (w_db (runRule true (rule_ref 4 tagger) (tag_event 20) false w1).2).
Proof.
  intros w1. assert (handled 4 20 (w_db w1)) as Hh.
  { exists 1000%N. destruct (au_runs (w_db w1) !! 1000%N) as [r|] eqn:E; vm_compute in E; [|discriminate].
    exists r. split; [reflexivity|]. injection E as <-. reflexivity. }
  split_and!; [exact Hh|vm_compute; reflexivity|].
  eapply (redelivery_changes_nothing true (rule_ref 4 tagger) (tag_event 20) w1); [exact Hh|apply surjective_pairing].
Defined.

(** Rule [6] publishes an event with its origin and one without. *)
Definition closer : list ActionSpec := [MkStep "t" "add_tags" [("resolve"%string, ABool true)] false [] []].
Definition three_rules : AutoDB := db_ref [rule_ref 4 tagger; rule_ref 5 tagger; rule_ref 6 closer].

Lemma reactions_stop_witness :
  let gen n := generation false events_of n [tag_event 20] (world_ref three_rules) in
  (orig_Depth ∘ e_Origin <$> gen 2%nat) = [2; 2; 2; 2; 2; 2] /\ gen 4%nat = [].
Proof.
  intros gen. split; [vm_compute; reflexivity|].
  apply (reactions_stop false events_of); [|reflexivity|repeat constructor; simpl; lia].
  intros rc ty cfg o. simpl. destruct (Boolean cfg "fails"); [exists []; by rewrite app_nil_r|].
  destruct (rc_DryRun rc); [exists []; by rewrite app_nil_r|]. eexists; split; [reflexivity|].
  constructor; [by left|]. destruct (Boolean cfg "resolve"); [|constructor]. constructor; [by right|constructor].
Defined.

Lemma DryRun_only_records_witness :
  let w1 := (DryRun true (rule_ref 4 tagger) (tag_event 20) (world_ref two_rules)).2 in
  dry_only two_rules (w_db w1) /\ size (au_runs (w_db w1)) = 1%nat.
Proof.
  intros w1. split; [|vm_compute; reflexivity].
  eapply (DryRun_only_records true (rule_ref 4 tagger) (tag_event 20) (world_ref two_rules)); [|apply surjective_pairing].
  intros rc ty cfg o Hdry. simpl. destruct (Boolean cfg "fails"); [reflexivity|]. by rewrite Hdry.
Defined.

Lemma hourly_limit_witness :
  let w n := Nat.iter n (fun w => (rateLimited true (rule_ref 4 tagger) (RulePolicy (rule_ref 4 tagger)) w).2) (world_ref two_rules) in
  passes 4 10 2 2 (w 2%nat) /\ (rateLimited true (rule_ref 4 tagger) (RulePolicy (rule_ref 4 tagger)) (w 2%nat)).1 = Ok true /\
  Z.of_nat 2 <= 2.
Proof.
  intros w. assert (passes 4 10 2 2 (w 2%nat)) as Hp.
  { eapply (passes_once 4 10 2 1 (w 1%nat) (rule_ref 4 tagger)); [|reflexivity|vm_compute; discriminate|reflexivity|by split|vm_compute; reflexivity].
    eapply (passes_once 4 10 2 0 (w 0%nat) (rule_ref 4 tagger)); [|reflexivity|vm_compute; discriminate|reflexivity|by split|vm_compute; reflexivity].
    apply passes_none. vm_compute. discriminate. }
  split_and!; [exact Hp|vm_compute; reflexivity|]. exact (hourly_limit 4 10 2 2 (w 2%nat) ltac:(lia) Hp).
Defined.

Lemma unacknowledged_untouched_witness :
  let p := match event_payload (tag_event 50) with Ok p => p | Err _ => "" end in
  let w := World two_rules 0 1000 [true] false false [] in
  (handleEntry true p 1 w).1 = Ok false /\ w_db (handleEntry true p 1 w).2 = two_rules /\
  (handleEntry true "" 1 w).1 = Ok true.
Proof.
  intros p w. split; [vm_compute; reflexivity|]. split.
  - destruct (unacknowledged_untouched true p 1 w _ _ (surjective_pairing _)) as [[E|(_ & _ & E)] _].
    + vm_compute in E. discriminate.
    + exact E.
  - apply (unacknowledged_untouched true "" 1 w _ _ (surjective_pairing _)). reflexivity.
Defined.

Definition failing : list ActionSpec := [MkStep "t" "add_tags" [("fails"%string, ABool true)] false [] []].

(** Ten events, each of which makes the rule fail. *)
Definition ten_failures : list call := (fun n => CallRun (rule_ref 4 failing) (tag_event (N.of_nat n)) false) <$> seq 1 10.

Lemma failing_rules_are_off_witness :
  let w1 := (perform_calls false ten_failures (world_ref (db_ref [rule_ref 4 failing]))).2 in
  (ar_ConsecutiveFailures <$> au_rules (w_db w1) !! 4%N) = Some 10 /\ (ar_Enabled <$> au_rules (w_db w1) !! 4%N) = Some false.
Proof.
  intros w1. split; [vm_compute; reflexivity|].
  destruct (au_rules (w_db w1) !! 4%N) as [r|] eqn:E; [|vm_compute in E; discriminate]. simpl. f_equal.
  destruct (ar_Enabled r) eqn:Ee; [|reflexivity].
  assert (ar_ConsecutiveFailures r < AutoDisableAfter) as Hlt.
  { eapply (failing_rules_are_off false ten_failures (world_ref (db_ref [rule_ref 4 failing])));
      [apply calm_ref| |apply surjective_pairing|exact E|exact Ee|].
    - split; intros k r' Hr; simpl in Hr; apply lookup_singleton_Some in Hr as [<- <-]; [reflexivity|intros _ _; reflexivity].
    - vm_compute in E. injection E as <-. reflexivity. }
  vm_compute in E. injection E as <-. vm_compute in Hlt. discriminate.
Defined.

Definition draft : Input := MkInput "hello" "" (Some true) "contact.tag_added" [] None tagger None None.

Lemma enabled_rules_can_run_witness :
  let w1 := (perform_calls false [CallCreate 1 draft; CallUpdate 1 1000 (set_in_Enabled None (MkInput "x" "" None "contact.tag_added" [] None [] None None))]
               (world_ref (db_ref []))).2 in
  exists r, au_rules (w_db w1) !! 1000%N = Some r /\ ar_Enabled r = true /\ (0 < countSteps (ar_Actions r))%nat.
Proof.
  intros w1. destruct (au_rules (w_db w1) !! 1000%N) as [r|] eqn:E; [|vm_compute in E; discriminate].
  assert (ar_Enabled r = true) as Ee by (vm_compute in E; injection E as <-; reflexivity).
  exists r. split_and!; [reflexivity|exact Ee|].
  eapply (enabled_rules_can_run false _ (world_ref (db_ref []))); [|apply surjective_pairing|exact E|exact Ee].
  split; intros k r' Hr; simpl in Hr; by rewrite lookup_empty in Hr.
Defined.

(** A run parked at step "b". *)
Definition waiting_steps : list ActionSpec := [MkStep "a" "add_tags" [] false [] []; wait_ref "b"; MkStep "c" "add_tags" [] false [] []].
Definition parked_world : world AutoDB :=
  let w := (runRule false (rule_ref 4 waiting_steps) (tag_event 20) false (world_ref (db_ref [rule_ref 4 waiting_steps]))).2 in
  World (w_db w) (20 * Hour) (w_uuid w) [] false false [].
Definition parked_event : any :=
  Eval vm_compute in (match marshal_event (tag_event 20) with Ok column => column | Err _ => ANil end).
Definition parked_wait : AutomationWait :=
  MkWait 1001 1 4 1000 (Some 7%N) "b" parked_event (11 * Hour) WaitPending.

Lemma parked_row : au_waits (w_db parked_world) = {[1001%N := parked_wait]}.
Proof. vm_compute. reflexivity. Qed.

Lemma parked_keyed : keyed aw_ID (au_waits (w_db parked_world)).
Proof. rewrite parked_row. by intros k wt [<- <-]%lookup_singleton_Some. Qed.

Lemma wait_taken_once_witness :
  let try w := (update_waits (wait_pending 1001) [set_aw_Status WaitResumed] w).2 in
  takers 1001 1 (try (try parked_world)) /\ (1 <= 1)%nat.
Proof.
  intros try. assert (takers 1001 1 (try (try parked_world))) as Ht.
  { eapply (takers_try 1001 1 (try parked_world) 0%nat); [|vm_compute; reflexivity].
    eapply (takers_try 1001 0 parked_world 1%nat); [|vm_compute; reflexivity]. apply takers_none, parked_keyed. }
  split; [exact Ht|]. exact (wait_taken_once 1001 1 _ Ht).
Defined.

Lemma due_waits_are_taken_witness :
  let w1 := (ResumeWaits (fun _ d => d) parked_world).2 in
  settled 1001 (w_db w1) /\ length (out_events (w_db w1)) = 2%nat.
Proof.
  intros w1. split; [|vm_compute; reflexivity].
  pose proof (due_waits_are_taken (fun _ d => d) parked_world _ _ ltac:(intros k d; reflexivity) ltac:(by split_and!)
    parked_keyed (surjective_pairing _)) as (_ & _ & Hall).
  eapply Hall; [vm_compute; repeat constructor|rewrite parked_row; apply lookup_singleton_eq|reflexivity].
Defined.

Lemma resume_or_cancel_witness :
  let w := World (set_au_rules (au_rules (db_ref [rule_ref 4 []])) (w_db parked_world)) 0 2000 [] false false [] in
  cancel_reason parked_wait (w_db w) = Some CancelStepRemoved /\
  exists w', resume parked_wait w = (Ok tt, w').
Proof.
  intros w. assert (cancel_reason parked_wait (w_db w) = Some CancelStepRemoved) as Hc by (vm_compute; reflexivity).
  split; [exact Hc|].
  destruct (au_runs (w_db w) !! 1000%N) as [run|] eqn:Er; [|vm_compute in Er; discriminate].
  pose proof (resume_or_cancel parked_wait run w (conj (conj eq_refl eq_refl) eq_refl)) as Hres. rewrite Hc in Hres.
  destruct Hres as (w' & E & _); [| |exact Er|exists w'; exact E].
  - intros k r Hr. simpl in Hr. apply lookup_singleton_Some in Hr as [<- <-]. reflexivity.
  - assert (au_runs (w_db w) = {[1000%N := run]}) as Hruns by (vm_compute in Er |- *; injection Er as <-; reflexivity).
    rewrite Hruns. intros k r [<- <-]%lookup_singleton_Some. vm_compute in Er. injection Er as <-. reflexivity.
Defined.

(** ** Time triggers *)

Fixpoint hash (s : string) (acc : N) : N :=
  match s with EmptyString => acc | String c s => hash s (acc * 256 + N_of_ascii c)%N end.

(** Conversations [20] and [21], both quiet since hour one. *)
Definition quiet_conversation (id contact : uuid) : Conversation :=
  set_cv_LastAgentMessageAt (Some Hour) (set_cv_LastCustomerMessageAt None (sample_conversation id contact ConversationOpen)).

#[local] Instance time_ref : TimeEnv := {|
  conversations _ := rows_of cv_ID [quiet_conversation 20 7; quiet_conversation 21 8];
  date_rows _ _ _ _ _ := [];
  local_hour _ t := t / Hour;
  local_day _ _ _ := "2026-01-01";
  NewSHA1 s := hash s 1
|}.


Definition quiet_rule : AutomationRule :=
  set_ar_RunPolicy (MkPolicy false 0 1)
    (set_ar_TriggerConfig [("after"%string, AMap [("amount"%string, AFloat (Float 2 0)); ("unit"%string, AString "hours")])]
      (set_ar_TriggerType TriggerNoCustomerReply (rule_ref 6 tagger))).

Definition at_hour (h : Z) (w : world AutoDB) : world AutoDB := World (w_db w) (h * Hour) (w_uuid w) [] false false [].
Definition tick (w : world AutoDB) : world AutoDB := (RunTimeTriggers true w).2.

Lemma period_fires_once_witness :
  let event := syntheticEvent quiet_rule 7 (period_subject 20 Hour) [] in
  let w1 := (runRule true quiet_rule (event 0) false (world_ref (db_ref [quiet_rule]))).2 in
  let w2 := at_hour 12 w1 in
  length (out_events (w_db w1)) = 1%nat /\
  counts_only (w_db w2) (w_db (runRule true quiet_rule (event Hour) false w2).2).
Proof.
  intros event w1 w2. split; [vm_compute; reflexivity|].
  subst w2 w1.
  destruct (runRule true quiet_rule (event 0) false (world_ref (db_ref [quiet_rule]))) as [r w1] eqn:E. simpl.
  destruct (runRule true quiet_rule (event Hour) false (at_hour 12 w1)) as [r' w3] eqn:E'. simpl.
  eapply (period_fires_once true quiet_rule quiet_rule 7 7 (period_subject 20 Hour) [] [] 0 Hour (world_ref (db_ref [quiet_rule])) r w1 (at_hour 12 w1) r' w3);
    [apply calm_ref|reflexivity|reflexivity|reflexivity|exact E| |exact E'].
  simpl. apply runs_stay_preorder.
Defined.

(** * What modelling the automation engine showed

    Concrete runs in which the engine does not do what its comments say. *)

#[local] Existing Instances lib_ref env_events fmt_ref sql_ref eng_ref time_ref uuid_ref json_ref.

(** ** Loop protection *)

(** The rows a computation adds to the outbox carry no origin. *)
Definition without_origin (d d' : Tables) : Prop :=
  forall k row, db_outbox d' !! k = Some row ->
    db_outbox d !! k = Some row \/ (ob_OriginRuleID row = None /\ ob_OriginDepth row = 0).

(** An event the conversation service publishes starts a new chain, whoever
    made the change: an automation's own changes are not told apart. *)
Lemma conversation_events_forget_the_rule `{UuidText} orgID contactID conversationID eventType actor data w r w' :
  publishAs orgID contactID conversationID eventType actor data w = (r, w') -> without_origin (w_db w) (w_db w').
Proof.
  unfold publishAs. destruct (negb (IsKnown eventType)); [intros [= _ <-] k row Hk; by left|].
  unfold bind, uuid_New, now, try. cbv zeta. simpl.
  destruct (PublishTx _ _) as [[u|e] w1] eqn:Ep; intros [= _ <-].
  - apply PublishTx_ok_inv in Ep as (row & Hdb & _ & (fresh & ->) & _). rewrite Hdb. intros k row' Hk. simpl in Hk.
    apply lookup_insert_Some in Hk as [[_ <-]|[_ Hk]]; [by right|by left].
  - apply PublishTx_err_inv in Ep as (Hdb & _). rewrite Hdb. simpl. intros k row Hk. by left.
Qed.

(** ** Faults *)

Definition with_faults (faults : list bool) (w : world AutoDB) : world AutoDB :=
  World (w_db w) (w_now w) (w_uuid w) faults false false [].

Definition status_of (id : uuid) (d : AutoDB) : option string := an_Status <$> au_runs d !! id.

(** The last statement of a resumed run fails: the steps were done, but the
    run says "waiting" and no wait is left to continue it. *)
Example resume_failure_strands :
  let w1 := (ResumeWaits (fun _ d => d) (with_faults [false; false; false; false; false; true] parked_world)).2 in
  let w2 := (ResumeWaits (fun _ d => d) w1).2 in
  length (out_events (w_db w1)) = 2%nat /\ status_of 1000 (w_db w1) = Some AutomationWaiting /\
  (aw_Status <$> au_waits (w_db w1) !! 1001%N) = Some WaitResumed /\ w_db w2 = w_db w1.
Proof. split_and!; vm_compute; reflexivity. Qed.

(** The lookup of the rule fails once: the run is cancelled for good as
    "rule_deleted" although the rule is there and on. *)
Example transient_lookup_cancels :
  let w1 := (ResumeWaits (fun _ d => d) (with_faults [false; false; false; true] parked_world)).2 in
  status_of 1000 (w_db w1) = Some AutomationCancelled /\
  (an_SkipReason <$> au_runs (w_db w1) !! 1000%N) = Some CancelRuleDeleted /\
  (ar_Enabled <$> au_rules (w_db w1) !! 4%N) = Some true.
Proof. split_and!; vm_compute; reflexivity. Qed.

(** The lookup of the run fails once: its wait is cancelled, the run waits for
    ever. *)
Example transient_lookup_strands :
  let w1 := (ResumeWaits (fun _ d => d) (with_faults [false; false; true] parked_world)).2 in
  status_of 1000 (w_db w1) = Some AutomationWaiting /\
  (aw_Status <$> au_waits (w_db w1) !! 1001%N) = Some WaitCancelled.
Proof. split_and!; vm_compute; reflexivity. Qed.

(** A step id longer than the [step_id] column: the checker accepts the rule,
    its runs wait without a wait. *)
Definition long_id : string := String.concat "" (repeat "0123456789" 7).

Example long_step_id_strands :
  let rule := rule_ref 4 [wait_ref long_id] in
  let w1 := (runRule false rule (tag_event 20) false (world_ref (db_ref [rule]))).2 in
  sc_structural (walk (Ok tt) [wait_ref long_id] 0 sc_init) = None /\
  sc_problems (walk (Ok tt) [wait_ref long_id] 0 sc_init) = [] /\
  status_of 1000 (w_db w1) = Some AutomationWaiting /\ au_waits (w_db w1) = ∅.
Proof. split_and!; vm_compute; reflexivity. Qed.

(** Recording the outcome fails: the run stays without a status and the
    contact's state is not written, so "once per contact" lets the next event
    through. *)
Example unrecorded_run_repeats :
  let rule := set_ar_RunPolicy (MkPolicy true 0 500) (rule_ref 4 tagger) in
  let w1 := (runRule false rule (tag_event 20) false (with_faults [false; false; true] (world_ref (db_ref [rule])))).2 in
  let w2 := (runRule false rule (tag_event 21) false (with_faults [] w1)).2 in
  status_of 1000 (w_db w1) = Some "" /\ length (out_events (w_db w1)) = 1%nat /\ length (out_events (w_db w2)) = 2%nat.
Proof. split_and!; vm_compute; reflexivity. Qed.

(** Redeliveries use up the hourly limit, although they do nothing. *)
Example redeliveries_count :
  let rule := rule_ref 4 tagger in
  let again w := (runRule true rule (tag_event 20) false w).2 in
  let w3 := again (again (world_ref (db_ref [rule]))) in
  length (out_events (w_db w3)) = 1%nat /\
  (runRule true rule (tag_event 21) false w3).1 =
    Ok (Some (MkRun 1002 1 4 21 "contact.tag_added" (Some 7%N) AutomationSkipped SkipRateLimited 0 [] false (10 * Hour) (Some (10 * Hour)))).
Proof. split; vm_compute; reflexivity. Qed.

(** ** Time triggers *)

(** Two customers are quiet and the rule may run once an hour: the tick acts
    for the first and records the second as rate limited, and no later tick
    tries that waiting period again. *)
Example rate_limited_for_good :
  let w1 := tick (world_ref (db_ref [quiet_rule])) in
  let w2 := tick (at_hour 12 w1) in
  let w3 := tick (at_hour 13 w2) in
  length (out_events (w_db w1)) = 1%nat /\ length (out_events (w_db w2)) = 1%nat /\ length (out_events (w_db w3)) = 1%nat /\
  (an_SkipReason ∘ snd <$> List.filter (fun kr => negb (is_empty (an_SkipReason kr.2))) (map_to_list (au_runs (w_db w3)))) = [SkipRateLimited].
Proof. split_and!; vm_compute; reflexivity. Qed.
