(* ===== verification/Schedule.v ===== *)
(** * Business hours ([internal/schedule])

    The stored schedule is decoded JSON; a row that cannot be read is skipped,
    and the first row of a weekday decides.  The theorem: a week written with
    any of the accepted spellings is open exactly at the hours it states. *)
From S2P Require Import Prelude GoLib.
#[local] Open Scope string_scope.
#[local] Open Scope Z_scope.

(** [schedule.Entry]; [Start] and [End] are minutes from midnight, -1 when unreadable. *)
Record Entry := MkEntry { en_Weekday : Z; en_Enabled : bool; en_Start : Z; en_End : Z }.

Definition weekdayFromInt (n : Z) : option Z := if (n <? 0) || (6 <? n) then None else Some n.

(** [time.Weekday.String]. *)
Definition weekday_names : list string :=
  ["Sunday"; "Monday"; "Tuesday"; "Wednesday"; "Thursday"; "Friday"; "Saturday"].

(** The first position of a text in a list. *)
Fixpoint position (s : string) (n : Z) (l : list string) : option Z :=
  match l with
  | [] => None
  | x :: l => if String.eqb x s then Some n else position s (n + 1) l
  end.

Definition parseWeekday (v : any) : option Z :=
  match v with
  | AFloat f => weekdayFromInt (float_trunc f)
  | AInt n => weekdayFromInt n
  | AString s =>
      let trimmed := TrimSpace s in
      match ParseInt trimmed with
      | Some n => weekdayFromInt n
      | None => position (ToLower trimmed) 0 (map ToLower weekday_names)
      end
  | _ => None
  end.

(** [fmt.Sscanf]: the blanks before a number; a line break ends the scan. *)
Fixpoint skip_blanks (l : list ascii) : option (list ascii) :=
  match l with
  | c :: r => if Ascii.eqb c "010" then None else if is_space c then skip_blanks r else Some l
  | [] => Some []
  end.

(** [%d]: an optional sign, then digits that fit a machine integer; and the rest. *)
Definition scan_int (l : list ascii) : option (Z * list ascii) :=
  l ← skip_blanks l;
  let '(sign, l) := match l with
                    | c :: r => if Ascii.eqb c "+" || Ascii.eqb c "-" then ([c], r) else ([], l)
                    | [] => ([], l)
                    end in
  let '(ds, l) := span numeric l in
  n ← ParseInt (string_of_list_ascii (sign ++ ds)); Some (n, l).

(** [Sscanf(s, "%d:%d")]; what follows the second number does not matter. *)
Definition scan_clock (s : string) : option (Z * Z) :=
  '(h, l) ← scan_int (list_ascii_of_string s);
  l ← expect ":" l;
  '(m, _) ← scan_int l;
  Some (h, m).

Definition parseClock (v : any) : option Z :=
  match v with
  | AString s =>
      let s := TrimSpace s in
      if is_empty s then None
      else
        '(hour, minute) ← scan_clock s;
        if (hour <? 0) || (23 <? hour) || (minute <? 0) || (59 <? minute) then None
        else Some (hour * 60 + minute)
  | _ => None
  end.

(** Reading a key of a decoded object. *)
Fixpoint map_get (m : list (string * any)) (k : string) : any :=
  match m with
  | [] => ANil
  | (x, v) :: m => if String.eqb x k then v else map_get m k
  end.

Definition parse_entry (item : any) : option Entry :=
  match item with
  | AMap m =>
      weekday ← parseWeekday (map_get m "day");
      let enabled := match map_get m "enabled" with ABool b => b | _ => false end in
      Some (MkEntry weekday enabled
              (default (-1) (parseClock (map_get m "start_time")))
              (default (-1) (parseClock (map_get m "end_time"))))
  | _ => None
  end.

Definition Parse (raw : list any) : list Entry := omap parse_entry raw.

Fixpoint hours_on (weekday minutes : Z) (entries : list Entry) : bool :=
  match entries with
  | [] => false
  | e :: entries =>
      if negb (en_Weekday e =? weekday) then hours_on weekday minutes entries
      else if negb (en_Enabled e) then false
      else if (en_Start e <? 0) || (en_End e <? 0) then false
      else (en_Start e <=? minutes) && (minutes <? en_End e)
  end.

(** A nil location means UTC. *)
Definition IsOpen (t : time) (entries : list Entry) (loc : option Location) : bool :=
  let '(day, ns) := local (default UTC loc) t in
  hours_on (Weekday day) (ns / Minute) entries.

(** [schedule.Location]; the zone database is given. *)
Definition Location_of (LoadLocation : string -> option Location) (name : string) : Location :=
  if is_empty name then UTC else default UTC (LoadLocation name).

(** ** What a schedule states *)

(** A day as its author sees it: hours and minutes of opening and closing. *)
Record DayHours := MkDayHours {
  dh_Day : Z;
  dh_Enabled : bool;
  dh_Opens : Z * Z;
  dh_Closes : Z * Z
}.

Definition on_clock (c : Z * Z) : Prop := 0 <= c.1 < 24 /\ 0 <= c.2 < 60.
Definition proper_day (d : DayHours) : Prop := 0 <= dh_Day d < 7 /\ on_clock (dh_Opens d) /\ on_clock (dh_Closes d).

Definition minute_of (c : Z * Z) : Z := 60 * c.1 + c.2.

(** The first statement about a weekday counts; a weekday without one is closed. *)
Definition open_at (week : list DayHours) (weekday minute : Z) : Prop :=
  exists d, List.find (fun d => dh_Day d =? weekday) week = Some d /\
    dh_Enabled d = true /\ minute_of (dh_Opens d) <= minute < minute_of (dh_Closes d).

(** The spellings of a weekday: a number, its numeral, its English name in any letter case. *)
Inductive names_day (d : Z) : any -> Prop :=
| by_number f : float_trunc f = d -> names_day d (AFloat f)
| by_int : names_day d (AInt d)
| by_numeral s : TrimSpace s = Itoa d -> names_day d (AString s)
| by_name s x : weekday_names !! Z.to_nat d = Some x -> ToLower (TrimSpace s) = ToLower x -> names_day d (AString s).

(** 09:05 is written [09:05], perhaps with blanks around it. *)
Definition clock_text (c : Z * Z) : string := two c.1 (String ":" (two c.2 "")).
Definition states_clock (c : Z * Z) (v : any) : Prop := exists s, v = AString s /\ TrimSpace s = clock_text c.

Definition states_day (d : DayHours) (row : any) : Prop :=
  exists m, row = AMap m /\ names_day (dh_Day d) (map_get m "day") /\
    map_get m "enabled" = ABool (dh_Enabled d) /\
    states_clock (dh_Opens d) (map_get m "start_time") /\ states_clock (dh_Closes d) (map_get m "end_time").

(** Rows that say nothing: not an object, or no day of the week. *)
Definition no_day (v : any) : Prop :=
  match v with AInt n => n < 0 \/ 6 < n | AFloat _ | AString _ => False | _ => True end.
Definition says_nothing (row : any) : Prop := match row with AMap m => no_day (map_get m "day") | _ => True end.

Inductive written : list DayHours -> list any -> Prop :=
| written_nil : written [] []
| written_day d row week rows : states_day d row -> written week rows -> written (d :: week) (row :: rows)
| written_noise row week rows : says_nothing row -> written week rows -> written week (row :: rows).

(** ** Lemmas *)

Definition clock_ok (h m : Z) : bool := bool_decide (scan_clock (clock_text (h, m)) = Some (h, m)).

Lemma clocks_checked : all_below 24 (fun h => all_below 60 (fun m => clock_ok h m)) = true.
Proof. vm_compute. reflexivity. Qed.

Lemma parseClock_text c v : on_clock c -> states_clock c v -> parseClock v = Some (minute_of c).
Proof.
  destruct c as [h m]. intros [Hh Hm] (s & -> & Hs). cbn [fst snd] in Hh, Hm.
  pose proof (all_below_spec _ _ _ (all_below_spec _ _ _ clocks_checked Hh) Hm) as Hc%bool_decide_eq_true.
  unfold parseClock. rewrite Hs. cbv zeta.
  replace (is_empty (clock_text (h, m))) with false by done. rewrite Hc. cbn [mbind option_bind].
  rewrite (proj2 (orb_false_iff _ _)); [unfold minute_of; simpl; f_equal; lia|].
  rewrite !orb_false_iff, !Z.ltb_ge. lia.
Qed.

Lemma weekdayFromInt_ok d : 0 <= d < 7 -> weekdayFromInt d = Some d.
Proof. intros ?. unfold weekdayFromInt. rewrite (proj2 (orb_false_iff _ _)); [done|]. rewrite !Z.ltb_ge. lia. Qed.

(** A text that starts with a letter is no number. *)
Lemma ParseInt_letter c r : (97 <= N_of_ascii (to_lower c))%N -> ParseInt (String c r) = None.
Proof.
  intros Hc. unfold ParseInt. destruct (Ascii.eqb_spec c "-") as [->|_]; [by vm_compute in Hc|].
  destruct (Ascii.eqb_spec c "+") as [->|_]; [by vm_compute in Hc|].
  replace (unsigned (String c r)) with (@None Z); [done|]. unfold unsigned. cbn.
  destruct (digit c) as [x|] eqn:Hd; [|done]. exfalso. revert Hc.
  replace (to_lower c) with c; [revert Hd; unfold digit; destruct (_ && _)%bool eqn:E; [|done]|].
  - intros _. apply andb_true_iff in E as [_ E%N.leb_le]. lia.
  - revert Hd. unfold digit, to_lower, ascii_map. destruct (_ && _)%bool eqn:E; [intros _|done].
    apply andb_true_iff in E as [_ E%N.leb_le]. rewrite (proj2 (andb_false_iff _ _)); [by rewrite ascii_N_embedding|].
    left. apply N.leb_gt. lia.
Qed.

Lemma parseWeekday_names d v : 0 <= d < 7 -> names_day d v -> parseWeekday v = Some d.
Proof.
  intros Hd. destruct 1 as [f Hf| |s Hs|s x Hx Hs]; cbn [parseWeekday].
  - rewrite Hf. by apply weekdayFromInt_ok.
  - by apply weekdayFromInt_ok.
  - rewrite Hs, ParseInt_Itoa; [by apply weekdayFromInt_ok|]. unfold in_int64, min_int64, max_int64. lia.
  - rewrite Hs. assert (exists n, (n < 7)%nat /\ d = Z.of_nat n) as (n & Hn & ->) by (exists (Z.to_nat d); lia).
    rewrite Nat2Z.id in Hx. destruct (TrimSpace s) as [|c r].
    + do 7 (destruct n as [|n]; [injection Hx as <-; vm_compute in Hs; discriminate Hs|]). lia.
    + rewrite ParseInt_letter.
      * do 7 (destruct n as [|n]; [injection Hx as <-; vm_compute; reflexivity|]). lia.
      * assert (exists c' r', ToLower x = String c' r' /\ (97 <= N_of_ascii c')%N) as (c' & r' & E & Hc).
        { do 7 (destruct n as [|n]; [injection Hx as <-; eexists _, _; split; [reflexivity|by vm_compute]|]). lia. }
        rewrite E in Hs. cbn in Hs. injection Hs as Hs _. by rewrite Hs.
Qed.

Lemma parse_row d row :
  proper_day d -> states_day d row ->
  parse_entry row = Some (MkEntry (dh_Day d) (dh_Enabled d) (minute_of (dh_Opens d)) (minute_of (dh_Closes d))).
Proof.
  intros (Hd & Ho & Hc) (m & -> & Hn & He & Hs & Hf). cbn [parse_entry].
  by rewrite (parseWeekday_names _ _ Hd Hn), He, (parseClock_text _ _ Ho Hs), (parseClock_text _ _ Hc Hf).
Qed.

Lemma parse_noise row : says_nothing row -> parse_entry row = None.
Proof.
  destruct row as [| | | | | | |m]; try done. cbn [says_nothing parse_entry].
  destruct (map_get m "day") as [| | |n| | | |]; try done. cbn. intros Hn. unfold weekdayFromInt.
  rewrite (proj2 (orb_true_iff _ _)); [done|]. rewrite !Z.ltb_lt. lia.
Qed.

(** A week that was written out is open exactly at the hours it states: the
    opening minute included, the closing minute not, in the given time zone. *)
Theorem open_as_written week rows t loc :
  Forall proper_day week -> written week rows ->
  IsOpen t (Parse rows) loc = true <->
  open_at week (Weekday (local (default UTC loc) t).1) ((local (default UTC loc) t).2 / Minute).
Proof.
  intros Hw Hr. unfold IsOpen. destruct (local (default UTC loc) t) as [day ns]. cbn [fst snd].
  generalize (Weekday day) as wd. generalize (ns / Minute) as mi. clear day ns t loc. intros mi wd.
  induction Hr as [|d row week rows Hd _ IH|row week rows Hn _ IH].
  - split; [done|]. by intros (? & ? & _).
  - apply Forall_cons in Hw as [Hp Hw]. specialize (IH Hw). unfold Parse in IH |- *. cbn [omap list_omap].
    rewrite (parse_row _ _ Hp Hd). unfold open_at in IH |- *. cbn [hours_on List.find en_Weekday en_Enabled en_Start en_End].
    destruct (Z.eqb_spec (dh_Day d) wd) as [_|]; [|exact IH]. cbn [negb].
    destruct Hp as (_ & [Ho1 Ho2] & [Hc1 Hc2]). destruct (dh_Enabled d) eqn:He; cbn [negb].
    + rewrite (proj2 (orb_false_iff _ _)) by (rewrite !Z.ltb_ge; unfold minute_of; lia).
      rewrite andb_true_iff, Z.leb_le, Z.ltb_lt. split; [intros Hm|intros (? & [= <-] & _ & Hm); done].
      by exists d.
    + split; [done|]. intros (? & [= <-] & ? & _). congruence.
  - specialize (IH Hw). unfold Parse in IH |- *. cbn [omap list_omap]. by rewrite (parse_noise _ Hn).
Qed.

(** ** Samples *)

(** Monday 09:00 to 17:00, Tuesday closed. *)
Definition sample_week : list DayHours :=
  [MkDayHours 1 true (9, 0) (17, 0); MkDayHours 2 false (9, 0) (17, 0)].

Definition sample_row (day : any) (enabled : bool) (from to : string) : any :=
  AMap [("day", day); ("enabled", ABool enabled); ("start_time", AString from); ("end_time", AString to)].

Definition sample_rows : list any :=
  [sample_row (AString " mONDAY") true "09:00" "17:00 "; ANil; sample_row (AFloat (Float 2 0)) false "09:00" "17:00"].

Lemma sample_written : written sample_week sample_rows.
Proof.
  repeat constructor; eexists; (split; [reflexivity|]); (split; [|split; [reflexivity|split; eexists; by split]]).
  - by apply (by_name 1 _ "Monday").
  - by apply by_number.
Qed.

Lemma open_as_written_witness :
  Forall proper_day sample_week /\ written sample_week sample_rows /\
  (IsOpen (4 * Day + 16 * Hour) (Parse sample_rows) None = true <->
   open_at sample_week (Weekday 4) (16 * 60)).
Proof.
  assert (Forall proper_day sample_week) as Hw by (repeat constructor; simpl; lia).
  split; [exact Hw|]. split; [exact sample_written|].
  exact (open_as_written sample_week sample_rows (4 * Day + 16 * Hour) None Hw sample_written).
Defined.

(** Hours past midnight: the shop that states 22:00 to 06:00 is never open. *)
Theorem overnight_hours_never_open weekday minutes from to entries :
  to <= from -> hours_on weekday minutes (MkEntry weekday true from to :: entries) = false.
Proof.
  intros Hle. cbn [hours_on en_Weekday en_Enabled en_Start en_End]. rewrite Z.eqb_refl. cbn [negb].
  destruct (_ || _)%bool; [done|]. apply not_true_iff_false. rewrite andb_true_iff, Z.leb_le, Z.ltb_lt. lia.
Qed.

(** Midnight cannot be written as a closing time: the day is closed instead. *)
Example midnight_closes_the_day :
  IsOpen (4 * Day + 12 * Hour) (Parse [sample_row (AString "monday") true "09:00" "24:00"]) None = false.
Proof. reflexivity. Qed.
