(* ===== verification/Placeholders.v ===== *)
(** * Parameters of message templates ([internal/templateutil])

    [{{1}}], [{{name}}]: finding them, and putting values in their place.  The
    regular expressions of the code are matched by hand: [scan] tries a matcher
    at every position and goes on after what it matched, as [FindAll] and
    [ReplaceAll] do. *)
From S2P Require Import Prelude GoLib Events Wire Text.
#[local] Open Scope string_scope.
#[local] Open Scope Z_scope.

(** ** Matching *)

Section Scan.
Context {A : Type} (at_ : list ascii -> option (A * nat)).

(** The matches of an expression that never matches the empty text, left to right. *)
Fixpoint scan (skip : nat) (l : list ascii) : list A :=
  match l with
  | [] => []
  | c :: r =>
      match skip with
      | S k => scan k r
      | O => match at_ l with Some (a, n) => a :: scan (pred n) r | None => scan 0 r end
      end
  end.

(** The text with every match replaced. *)
Fixpoint rewrite_all (f : A -> list ascii) (skip : nat) (l : list ascii) : list ascii :=
  match l with
  | [] => []
  | c :: r =>
      match skip with
      | S k => rewrite_all f k r
      | O => match at_ l with
             | Some (a, n) => f a ++ rewrite_all f (pred n) r
             | None => c :: rewrite_all f 0 r
             end
      end
  end.
End Scan.

Definition bracket (name : string) : string := "{{" ++ name ++ "}}".

Definition no_close (c : ascii) : bool := negb (Ascii.eqb c "}").

(** [ParameterPattern] at the head of a text: what stands between the braces, and the length. *)
Definition param_at (l : list ascii) : option (string * nat) :=
  if starts ["{"; "{"]%char l then
    let '(body, rest) := span no_close (drop 2 l) in
    if negb (Nat.eqb (length body) 0) && starts ["}"; "}"]%char rest
    then Some (string_of_list_ascii body, (length body + 4)%nat) else None
  else None.

(** ** The package *)

Definition isPositionalParam (name : string) : bool :=
  forallb numeric (list_ascii_of_string name) && negb (is_empty name).

(** Names not seen before, in order. *)
Fixpoint distinct (seen : list string) (l : list string) : list string :=
  match l with
  | [] => []
  | x :: l =>
      if is_empty x || existsb (String.eqb x) seen then distinct seen l
      else x :: distinct (x :: seen) l
  end.

Definition ExtParamNames (content : string) : list string :=
  distinct [] (map TrimSpace (scan param_at 0 (list_ascii_of_string content))).

Definition ValidateHeaderParamCount (content : string) : option string :=
  let names := ExtParamNames content in
  if Nat.ltb 1 (length names)
  then Some ("header text may contain at most one variable; found " ++ Itoa (Z.of_nat (length names))) else None.

Definition ValidateNoMixedParams (content : string) : option string :=
  let names := ExtParamNames content in
  if existsb isPositionalParam names && existsb (fun n => negb (isPositionalParam n)) names
  then Some "template cannot mix positional ({{1}}, {{2}}) and named ({{name}}) parameters" else None.

(** The value of the [i]-th name: by name first, then by its position from 1. *)
Definition param_value {A} (params : list (string * A)) (i : nat) (name : string) : option A :=
  let get k := snd <$> List.find (fun e => String.eqb e.1 k) params in
  match get name with Some v => Some v | None => get (Itoa (Z.of_nat i + 1)) end.

Definition ResolveParamsFromMap (paramNames : list string) (params : list (string * string)) : list string :=
  match params with
  | [] => []
  | _ => imap (fun i name => default "" (param_value params i name)) paramNames
  end.

Definition fill_one (params : list (string * string)) (i : nat) (name : string) (content : string) : string :=
  match param_value params i name with
  | Some v => ReplaceAll content (bracket name) v
  | None => content
  end.

(** One replacement after the other. *)
Fixpoint fill_from (fill : nat -> string -> string -> string) (i : nat) (names : list string) (content : string) : string :=
  match names with
  | [] => content
  | name :: names => fill_from fill (S i) names (fill i name content)
  end.

Definition ReplaceWithStringParams (content : string) (params : list (string * string)) : string :=
  match params with
  | [] => content
  | _ => fill_from (fill_one params) 0 (ExtParamNames content) content
  end.

Section Jsonb.
Context `{GoFmt}.

Definition ResolveParams (bodyContent : string) (params : list (string * any)) : list string :=
  match params with
  | [] => []
  | _ => imap (fun i name => from_option Sprint "" (param_value params i name)) (ExtParamNames bodyContent)
  end.

(** Both the name and the position are replaced, by the empty text when there is no value. *)
Definition fill_both (params : list (string * any)) (i : nat) (name : string) (content : string) : string :=
  let val := from_option Sprint "" (param_value params i name) in
  ReplaceAll (ReplaceAll content (bracket name) val) (bracket (Itoa (Z.of_nat i + 1))) val.

Definition ReplaceWithJSONBParams (bodyContent content : string) (params : list (string * any)) : string :=
  match params with
  | [] => content
  | _ => fill_from (fill_both params) 0 (ExtParamNames bodyContent) content
  end.
End Jsonb.

(** ** Templates as sequences of pieces *)

#[local] Open Scope list_scope.
#[local] Open Scope Z_scope.

Inductive piece := Lit (s : string) | Par (name : string).

Definition text (p : piece) : string := match p with Lit s => s | Par n => bracket n end.
Definition texts (ps : list piece) : string := foldr (fun p s => (text p ++ s)%string) "" ps.

(** The characters of a text that can neither open nor close a placeholder. *)
Definition unopened (s : string) : Prop := Forall (fun c => c <> "{"%char) (list_ascii_of_string s).
Definition braceless (s : string) : Prop := Forall (fun c => c <> "{"%char /\ c <> "}"%char) (list_ascii_of_string s).

(** Literal text without an opening brace; names written tight in their braces. *)
Definition piece_ok (p : piece) : Prop :=
  match p with Lit s => unopened s | Par n => is_empty n = false /\ TrimSpace n = n /\ braceless n end.

Definition par_name (p : piece) : option string := match p with Par n => Some n | Lit _ => None end.

Lemma list_of_bracket n :
  list_ascii_of_string (bracket n) = ["{"; "{"]%char ++ list_ascii_of_string n ++ ["}"; "}"]%char.
Proof. unfold bracket. by rewrite !list_of_string_app. Qed.

Lemma list_of_texts p ps :
  list_ascii_of_string (texts (p :: ps)) = list_ascii_of_string (text p) ++ list_ascii_of_string (texts ps).
Proof. apply list_of_string_app. Qed.

Lemma scan_skip {A} (at_ : list ascii -> option (A * nat)) a l : scan at_ (length a) (a ++ l) = scan at_ 0 l.
Proof. induction a as [|c a IH]; simpl; [done|exact IH]. Qed.

Lemma scan_plain {A} (at_ : list ascii -> option (A * nat)) a l :
  (forall c r, c <> "{"%char -> at_ (c :: r) = None) ->
  Forall (fun c => c <> "{"%char) a -> scan at_ 0 (a ++ l) = scan at_ 0 l.
Proof. intros Hno. induction 1 as [|c a Hc _ IH]; simpl; [done|]. by rewrite Hno, IH. Qed.

Lemma starts_other c p l d : c <> d -> starts (d :: p) (c :: l) = false.
Proof. intros Hne. simpl. destruct (Ascii.eqb_spec d c) as [->|]; done. Qed.

Lemma param_at_plain c r : c <> "{"%char -> param_at (c :: r) = None.
Proof. intros Hc. unfold param_at. by rewrite starts_other. Qed.

Lemma span_to p a c l : Forall (fun x => p x = true) a -> p c = false -> span p (a ++ c :: l) = (a, c :: l).
Proof. intros Ha Hc. induction Ha as [|x a Hx _ IH]; simpl; [by rewrite Hc|]. by rewrite Hx, IH. Qed.

Lemma braceless_closed n : braceless n -> Forall (fun x => no_close x = true) (list_ascii_of_string n).
Proof. intros Hb. apply (Forall_impl _ _ _ Hb). intros x [_ Hx]. unfold no_close. by destruct (Ascii.eqb_spec x "}"). Qed.

Lemma not_empty_length n : is_empty n = false -> Nat.eqb (length (list_ascii_of_string n)) 0 = false.
Proof. by destruct n. Qed.

Lemma param_at_open l :
  param_at ("{"%char :: "{"%char :: l) =
    let '(body, rest) := span no_close l in
    if negb (Nat.eqb (length body) 0) && starts ["}"; "}"]%char rest
    then Some (string_of_list_ascii body, (length body + 4)%nat) else None.
Proof. done. Qed.

Lemma param_at_par n l :
  is_empty n = false -> braceless n ->
  param_at (list_ascii_of_string (bracket n) ++ l) = Some (n, length (list_ascii_of_string (bracket n))).
Proof.
  intros Hn Hb. rewrite list_of_bracket. cbn [app]. rewrite <- app_assoc, param_at_open.
  cbn [app]. rewrite (span_to _ _ _ _ (braceless_closed _ Hb)) by done.
  rewrite not_empty_length by done. cbn [negb andb]. rewrite string_of_list_ascii_of_string.
  rewrite (starts_app ["}"; "}"]%char l : starts _ ("}"%char :: "}"%char :: l) = true).
  do 2 f_equal. cbn [length]. rewrite length_app. cbn [length]. lia.
Qed.

Lemma scan_match {A} (at_ : list ascii -> option (A * nat)) x a l :
  a <> [] -> at_ (a ++ l) = Some (x, length a) -> scan at_ 0 (a ++ l) = x :: scan at_ 0 l.
Proof. destruct a as [|c a]; [done|]. intros _ Hx. cbn [app] in Hx |- *. cbn [scan]. rewrite Hx. cbn [length pred]. by rewrite scan_skip. Qed.

(** The placeholders of a template are its parameters. *)
Lemma scan_texts ps : Forall piece_ok ps -> scan param_at 0 (list_ascii_of_string (texts ps)) = omap par_name ps.
Proof.
  induction 1 as [|[s|n] ps Hp _ IH]; [done|..]; rewrite list_of_texts; cbn [text omap list_omap par_name].
  - rewrite scan_plain by (exact param_at_plain || exact Hp). exact IH.
  - destruct Hp as (Hn & _ & Hb). rewrite (scan_match _ n); [by rewrite IH|by rewrite list_of_bracket|by apply param_at_par].
Qed.

Lemma trimmed_names ps : Forall piece_ok ps -> map TrimSpace (omap par_name ps) = omap par_name ps.
Proof.
  induction 1 as [|[s|n] ps Hp _ IH]; [done|exact IH|]. destruct Hp as (_ & Ht & _).
  cbn [omap list_omap par_name map]. by rewrite Ht, IH.
Qed.

Lemma ExtParamNames_texts ps : Forall piece_ok ps -> ExtParamNames (texts ps) = distinct [] (omap par_name ps).
Proof. intros Hps. unfold ExtParamNames. by rewrite scan_texts, trimmed_names. Qed.

Lemma distinct_elem seen l x : x ∈ distinct seen l <-> x ∈ l /\ is_empty x = false /\ x ∉ seen.
Proof.
  revert seen. induction l as [|y l IH]; intros seen; cbn [distinct].
  { split; [by intros ?%not_elem_of_nil|by intros [?%not_elem_of_nil _]]. }
  destruct (is_empty y || existsb (String.eqb y) seen) eqn:E.
  - rewrite IH, elem_of_cons. split; [tauto|]. intros ([->|?] & He & Hs); [exfalso|done].
    apply orb_true_iff in E as [E|E]; [congruence|]. apply existsb_exists in E as (z & Hz & <-%String.eqb_eq).
    by apply list_elem_of_In in Hz.
  - apply orb_false_iff in E as [E1 E2]. rewrite elem_of_cons, IH, !elem_of_cons. split.
    + intros [->|(? & ? & Hs)]; [split; [by left|split; [done|]]|tauto].
      intros Hin%list_elem_of_In. enough (existsb (String.eqb y) seen = true) by congruence.
      apply existsb_exists. exists y. split; [done|apply String.eqb_refl].
    + intros (? & ? & ?). destruct (decide (x = y)) as [->|]; [by left|right]. tauto.
Qed.

(** ** Filling in one parameter *)

Lemma replace_from_skip p q a l : replace_from p q (length a) (a ++ l) = replace_from p q 0 l.
Proof. induction a as [|c a IH]; simpl; [done|exact IH]. Qed.

Lemma replace_from_plain p q a l :
  Forall (fun c => c <> "{"%char) a -> replace_from ("{"%char :: p) q 0 (a ++ l) = a ++ replace_from ("{"%char :: p) q 0 l.
Proof.
  induction 1 as [|c a Hc _ IH]; [done|]. cbn [app replace_from]. by rewrite starts_other, IH.
Qed.

Lemma replace_from_match p q l : p <> [] -> replace_from p q 0 (p ++ l) = q ++ replace_from p q 0 l.
Proof.
  destruct p as [|c p]; [done|]. intros _. cbn [app]. cbn [replace_from].
  replace (starts (c :: p) (c :: p ++ l)) with true by (symmetry; apply (starts_app (c :: p) l)).
  cbn [length pred]. by rewrite replace_from_skip.
Qed.

Lemma starts_closed a b l :
  Forall (fun c => c <> "}"%char) a -> Forall (fun c => c <> "}"%char) b ->
  starts (a ++ ["}"; "}"]%char) (b ++ "}"%char :: l) = true -> a = b.
Proof.
  intros Ha. revert b. induction Ha as [|x a Hx _ IH]; intros b Hb; destruct Hb as [|y b Hy Hb]; cbn [app starts]; [done|..].
  - destruct (Ascii.eqb_spec "}" y) as [<-|]; done.
  - destruct (Ascii.eqb_spec x "}") as [->|]; done.
  - destruct (Ascii.eqb_spec x y) as [->|]; [|done]. intros E. by rewrite (IH b Hb E).
Qed.

Lemma braceless_no n : braceless n -> Forall (fun c => c <> "}"%char) (list_ascii_of_string n).
Proof. intros Hb. apply (Forall_impl _ _ _ Hb). by intros ? []. Qed.
Lemma braceless_unopened n : braceless n -> unopened n.
Proof. intros Hb. apply (Forall_impl _ _ _ Hb). by intros ? []. Qed.

(** Another placeholder stays as it is. *)
Lemma replace_from_other m n q l :
  m <> n -> is_empty m = false -> braceless m -> braceless n ->
  replace_from (list_ascii_of_string (bracket n)) q 0 (list_ascii_of_string (bracket m) ++ l) =
  list_ascii_of_string (bracket m) ++ replace_from (list_ascii_of_string (bracket n)) q 0 l.
Proof.
  intros Hne Hm Hbm Hbn. rewrite !list_of_bracket. cbn [app].
  set (p := list_ascii_of_string n ++ _).
  assert (forall l, starts ("{"%char :: p) (list_ascii_of_string m ++ l) = false) as Hno.
  { intros l'. destruct m as [|c m]; [done|]. apply Forall_cons in Hbm as [[Hc _] _]. cbn [list_ascii_of_string app].
    by apply starts_other. }
  cbn [replace_from].
  replace (starts ("{"%char :: "{"%char :: p) _) with false.
  2:{ symmetry. cbn [starts Ascii.eqb Bool.eqb andb]. apply not_true_iff_false. rewrite <- app_assoc. cbn [app]. unfold p. intros E.
      apply starts_closed in E; [|by apply braceless_no..]. apply list_of_string_inj in E. congruence. }
  replace (starts ("{"%char :: "{"%char :: p) ("{"%char :: (list_ascii_of_string m ++ ["}"; "}"]%char) ++ l)) with false.
  2:{ symmetry. cbn [starts Ascii.eqb Bool.eqb andb]. rewrite <- app_assoc. apply Hno. }
  do 2 f_equal. rewrite <- app_assoc. rewrite replace_from_plain by exact (braceless_unopened _ Hbm).
  rewrite <- app_assoc. done.
Qed.

Definition subst (n v : string) (p : piece) : piece :=
  match p with Par m => if String.eqb m n then Lit v else p | Lit _ => p end.

Lemma ReplaceAll_texts n v ps :
  piece_ok (Par n) -> Forall piece_ok ps -> ReplaceAll (texts ps) (bracket n) v = texts (map (subst n v) ps).
Proof.
  intros (Hn & _ & Hb) Hps. unfold ReplaceAll. apply list_of_string_inj. rewrite list_ascii_of_string_of_list_ascii.
  induction Hps as [|[s|m] ps Hp _ IH]; [done|..]; cbn [map]; rewrite !list_of_texts; cbn [text subst].
  - rewrite <- IH. rewrite list_of_bracket. cbn [app]. by apply replace_from_plain.
  - destruct Hp as (Hm & _ & Hbm). destruct (String.eqb_spec m n) as [->|Hne]; cbn [text]; rewrite <- IH.
    + apply replace_from_match. by rewrite list_of_bracket.
    + by apply replace_from_other.
Qed.

Lemma subst_ok n v ps : unopened v -> Forall piece_ok ps -> Forall piece_ok (map (subst n v) ps).
Proof.
  intros Hv Hps. rewrite Forall_fmap. apply (Forall_impl _ _ _ Hps). intros [s|m] Hp; [done|]. cbn [compose subst].
  destruct (String.eqb m n); [exact Hv|exact Hp].
Qed.

(** ** Filling in all of them *)

Definition all_unopened (params : list (string * string)) : Prop := Forall (fun e => unopened e.2) params.

Lemma param_value_in {A} (params : list (string * A)) i n v : param_value params i n = Some v -> exists k, (k, v) ∈ params.
Proof.
  unfold param_value.
  assert (forall k, snd <$> List.find (fun e => String.eqb e.1 k) params = Some v -> exists k, (k, v) ∈ params) as Hget.
  { intros k E. destruct (List.find _ params) as [[k' v']|] eqn:Ef; [|done]. injection E as ->.
    apply find_some in Ef as [Hin _]. exists k'. by apply list_elem_of_In. }
  destruct (snd <$> List.find (fun e => String.eqb e.1 n) params) eqn:E; [intros [= ->]|]; eauto.
Qed.

(** Every parameter with its value. *)
Definition fill (value : string -> option string) (p : piece) : piece :=
  match p with Par n => match value n with Some v => Lit v | None => p end | Lit _ => p end.

Lemma fill_from_texts params i names ps value :
  all_unopened params -> Forall (fun n => piece_ok (Par n)) names -> NoDup names -> Forall piece_ok ps ->
  (forall j n, names !! j = Some n -> value n = param_value params (i + j) n) ->
  (forall n, n ∉ names -> value n = None) ->
  fill_from (fill_one params) i names (texts ps) = texts (map (fill value) ps).
Proof.
  intros Hu. revert i ps value. induction names as [|n names IH]; intros i ps value Hok Hnd Hps Hv Hno; cbn [fill_from].
  - replace (map (fill value) ps) with ps; [done|]. clear Hps. induction ps as [|[s|m] ps IHp]; [done|..]; cbn [map fill];
      rewrite <- IHp; [done|]. by rewrite Hno by apply not_elem_of_nil.
  - apply Forall_cons in Hok as [Hn Hok]. apply NoDup_cons in Hnd as [Hnin Hnd].
    assert (value n = param_value params i n) as Hvn by (rewrite (Hv 0%nat n) by done; by rewrite Nat.add_0_r).
    set (value' m := if String.eqb m n then None else value m).
    assert (forall ps', Forall piece_ok ps' ->
              fill_from (fill_one params) (S i) names (texts ps') = texts (map (fill value') ps')) as IH'.
    { intros ps' Hps'. apply IH; [done..| |].
      - intros j m Hm. unfold value'. destruct (String.eqb_spec m n) as [->|].
        + exfalso. apply Hnin. by eapply list_elem_of_lookup_2.
        + rewrite (Hv (S j) m) by done. by rewrite Nat.add_succ_comm.
      - intros m Hm. unfold value'. destruct (String.eqb_spec m n); [done|]. apply Hno. by rewrite not_elem_of_cons. }
    unfold fill_one. destruct (param_value params i n) as [v|] eqn:E.
    + assert (unopened v) as Hov.
      { apply param_value_in in E as (k & Hin). unfold all_unopened in Hu. rewrite Forall_forall in Hu. by apply (Hu _ Hin). }
      rewrite ReplaceAll_texts by done. rewrite IH' by (by apply subst_ok). f_equal. rewrite map_map.
      apply map_ext. intros [s|m]; [done|]. cbn [subst fill]. unfold value'.
      destruct (String.eqb_spec m n) as [->|Hne]; cbn [fill]; [by rewrite Hvn|].
      apply String.eqb_neq in Hne. by rewrite Hne.
    + rewrite IH' by done. f_equal. apply map_ext. intros [s|m]; [done|]. cbn [fill]. unfold value'.
      destruct (String.eqb_spec m n) as [->|]; [by rewrite Hvn|done].
Qed.

Lemma distinct_nodup seen l : NoDup (distinct seen l).
Proof.
  revert seen. induction l as [|y l IH]; intros seen; cbn [distinct]; [constructor|].
  destruct (_ || _)%bool; [done|]. apply NoDup_cons. split; [|done]. rewrite distinct_elem. intros (_ & _ & Hs). apply Hs. by left.
Qed.
