(* ===== verification/Messaging.v ===== *)
(** * When a message may be sent ([internal/messaging/rules.go])

    Pure checks over a contact and a template.  Letters are folded in ASCII
    only, as everywhere in the development. *)
From S2P Require Import Prelude GoLib Events Models Text Samples Placeholders.
#[local] Open Scope string_scope.
#[local] Open Scope Z_scope.

Definition ServiceWindow : Z := 24 * Hour.

(** [models.Template]: the columns the rules and the renderers read. *)
Record Template := MkTemplate {
  tp_Category : string;
  tp_Status : string;
  tp_HeaderContent : string;
  tp_BodyContent : string
}.

Inductive refusal :=
| ErrTemplateMissing
| ErrTemplateNotApproved
| ErrMarketingOptOut
| ErrOutsideServiceWindow
| ErrMissingParams (names : list string)    (** [*MissingParamsError] *)
| ErrNoRecipient.

Definition EqualFold (a b : string) : bool := String.eqb (ToLower a) (ToLower b).

Definition WithinServiceWindow (contact : option Contact) (now : time) : bool :=
  match c ← contact; ct_LastMessageAt c with
  | Some t => Sub now t <? ServiceWindow
  | None => false
  end.

Definition IsMarketing (template : option Template) : bool :=
  match template with Some t => EqualFold (tp_Category t) "MARKETING" | None => false end.

Definition checkRecipient (contact : option Contact) : option refusal :=
  match contact with
  | None => Some ErrNoRecipient
  | Some c => if is_empty (TrimSpace (ct_PhoneNumber c)) && is_empty (TrimSpace (ct_BSUID c)) then Some ErrNoRecipient else None
  end.

Definition CheckFreeText (contact : option Contact) (now : time) : option refusal :=
  match checkRecipient contact with
  | Some e => Some e
  | None => if WithinServiceWindow contact now then None else Some ErrOutsideServiceWindow
  end.

Definition BodyParamNames (template : option Template) : list string :=
  match template with Some t => ExtParamNames (tp_BodyContent t) | None => [] end.

(** Reading a key that is not there gives the empty text. *)
Definition param_text (params : list (string * string)) (name : string) : string :=
  from_option snd "" (List.find (fun e => String.eqb e.1 name) params).

Definition MissingParams (template : option Template) (params : list (string * string)) : list string :=
  List.filter (fun name => is_empty (TrimSpace (param_text params name))) (BodyParamNames template).

(** [params] is [None] when the caller has none yet. *)
Definition CheckTemplate (template : option Template) (contact : option Contact) (params : option (list (string * string)))
    : option refusal :=
  match template with
  | None => Some ErrTemplateMissing
  | Some t =>
      match checkRecipient contact with
      | Some e => Some e
      | None =>
          if negb (EqualFold (tp_Status t) "APPROVED") then Some ErrTemplateNotApproved
          else if IsMarketing template && from_option ct_MarketingOptOut false contact then Some ErrMarketingOptOut
          else match params with
               | None => None
               | Some params =>
                   match MissingParams template params with [] => None | missing => Some (ErrMissingParams missing) end
               end
      end
  end.

(** ** Lemmas *)

#[local] Open Scope list_scope.
#[local] Open Scope Z_scope.

(** What a template that may go out satisfies. *)
Definition sendable (t : Template) (contact : option Contact) : Prop :=
  ToLower (tp_Status t) = "approved" /\
  (ToLower (tp_Category t) = "marketing" -> from_option ct_MarketingOptOut false contact = false) /\
  exists c, contact = Some c /\ (TrimSpace (ct_PhoneNumber c) <> "" \/ TrimSpace (ct_BSUID c) <> "").

(** Every parameter stands for its value. *)
Definition with_values (params : list (string * string)) (p : piece) : piece :=
  match p with Par n => Lit (param_text params n) | Lit _ => p end.

Lemma is_empty_neq s : is_empty s = false <-> s <> "".
Proof. apply String.eqb_neq. Qed.

Lemma checkRecipient_ok contact :
  checkRecipient contact = None ->
  exists c, contact = Some c /\ (TrimSpace (ct_PhoneNumber c) <> "" \/ TrimSpace (ct_BSUID c) <> "").
Proof.
  destruct contact as [c|]; [|done]. cbn [checkRecipient]. destruct (_ && _)%bool eqn:E; [done|]. intros _.
  exists c. split; [done|]. rewrite <- !is_empty_neq. by apply andb_false_iff.
Qed.

Lemma CheckTemplate_ok t contact params :
  CheckTemplate (Some t) contact (Some params) = None ->
  sendable t contact /\ MissingParams (Some t) params = [].
Proof.
  unfold CheckTemplate. destruct (checkRecipient contact) eqn:Er; [done|]. apply checkRecipient_ok in Er.
  destruct (EqualFold (tp_Status t) "APPROVED") eqn:Es; [|done]. cbn [negb]. apply String.eqb_eq in Es.
  destruct (_ && _)%bool eqn:Em; [done|]. destruct (MissingParams _ _) eqn:E; [|done]. intros _.
  repeat split; [done| |done]. intros Hc. apply andb_false_iff in Em as [Em|]; [|done]. exfalso.
  unfold IsMarketing, EqualFold in Em. apply String.eqb_neq in Em. by apply Em.
Qed.

Lemma nothing_missing t params :
  MissingParams (Some t) params = [] ->
  forall n, n ∈ ExtParamNames (tp_BodyContent t) -> TrimSpace (param_text params n) <> "".
Proof.
  unfold MissingParams. cbn [BodyParamNames]. intros Hm n Hn. apply is_empty_neq.
  destruct (is_empty (TrimSpace (param_text params n))) eqn:E; [|done]. exfalso.
  enough (In n []) by done. rewrite <- Hm. apply filter_In. split; [by apply list_elem_of_In|done].
Qed.

Lemma param_text_found params n :
  TrimSpace (param_text params n) <> "" ->
  exists e, List.find (fun e => String.eqb e.1 n) params = Some e /\ param_text params n = e.2.
Proof. unfold param_text. destruct (List.find _ _) as [e|]; [by exists e|done]. Qed.

Lemma fill_literals value ps : (forall n, Par n ∈ ps -> False) -> map (fill value) ps = ps.
Proof.
  induction ps as [|[s|n] ps IH]; intros Hno; cbn [map fill]; [done| |by exfalso; apply (Hno n); left].
  rewrite IH; [done|]. intros n Hn. apply (Hno n). by right.
Qed.

(** A template that passes the check is addressed to someone, approved, and not
    marketing for a contact who opted out; filling it in gives its text with
    every parameter replaced by the caller's value for it, none of them blank.
    The template writes its names tight in the braces, and no value opens a
    placeholder of its own. *)
Theorem checked_template_is_complete t contact params ps :
  tp_BodyContent t = texts ps -> Forall piece_ok ps -> all_unopened params ->
  CheckTemplate (Some t) contact (Some params) = None ->
  sendable t contact /\
  ReplaceWithStringParams (tp_BodyContent t) params = texts (map (with_values params) ps) /\
  (forall n, Par n ∈ ps -> TrimSpace (param_text params n) <> "").
Proof.
  intros Hb Hps Hu Hc. apply CheckTemplate_ok in Hc as [Hs Hm]. split; [done|].
  assert (forall n, Par n ∈ ps -> TrimSpace (param_text params n) <> "") as Hno.
  { intros n Hn. apply (nothing_missing _ _ Hm). rewrite Hb, ExtParamNames_texts by done. apply distinct_elem.
    pose proof (proj1 (Forall_forall _ _) Hps _ Hn) as (He & _ & _). split_and!; [|done|by apply not_elem_of_nil].
    apply list_elem_of_omap. by exists (Par n). }
  split; [|done]. set (value n := if decide (n ∈ ExtParamNames (texts ps)) then Some (param_text params n) else None).
  transitivity (texts (map (fill value) ps)); [|f_equal; apply map_ext_in; intros [s|n] Hn%list_elem_of_In; [done|]].
  - rewrite Hb. unfold ReplaceWithStringParams. destruct (decide (params = [])) as [Ep|Ep].
    { rewrite fill_literals; [by rewrite Ep|]. intros n Hn. apply (Hno n Hn). by rewrite Ep. }
    replace (match params with [] => _ | _ => _ end) with
      (fill_from (fill_one params) 0 (ExtParamNames (texts ps)) (texts ps)) by (by destruct params).
    apply fill_from_texts; try done.
    + rewrite ExtParamNames_texts by done. apply Forall_forall. intros n (Hn & _ & _)%distinct_elem.
      apply list_elem_of_omap in Hn as ([s|m] & Hin & E); [done|]. injection E as ->.
      by apply (proj1 (Forall_forall _ _) Hps).
    + apply distinct_nodup.
    + intros j n Hj. pose proof (list_elem_of_lookup_2 _ _ _ Hj) as Hin. unfold value. rewrite decide_True by done.
      assert (TrimSpace (param_text params n) <> "") as (e & Ef & ->)%param_text_found.
      { apply (nothing_missing _ _ Hm). by rewrite Hb. }
      unfold param_value. by rewrite Ef.
    + intros n Hn. unfold value. by rewrite decide_False.
  - cbn [fill with_values]. unfold value. rewrite decide_True; [done|]. rewrite ExtParamNames_texts by done.
    pose proof (proj1 (Forall_forall _ _) Hps _ Hn) as (He & _ & _). apply distinct_elem.
    split_and!; [|done|by apply not_elem_of_nil]. apply list_elem_of_omap. by exists (Par n).
Qed.

(** ** Samples *)

Definition sample_template : Template := MkTemplate "Utility" "approved" "" "Hello {{name}}, order {{2}} is ready.".

Lemma checked_template_is_complete_witness :
  let params := [("name", "Ada"); ("2", "17")]%string in
  CheckTemplate (Some sample_template) (Some (sample_contact 10%N None)) (Some params) = None /\
  ReplaceWithStringParams (tp_BodyContent sample_template) params = "Hello Ada, order 17 is ready."%string.
Proof.
  cbv zeta. set (params := [("name", "Ada"); ("2", "17")]%string).
  set (ps := [Lit "Hello "; Par "name"; Lit ", order "; Par "2"; Lit " is ready."]%string).
  assert (CheckTemplate (Some sample_template) (Some (sample_contact 10%N None)) (Some params) = None) as Hc by reflexivity.
  split; [exact Hc|].
  assert (Forall piece_ok ps) as Hps by (repeat constructor; try done).
  assert (all_unopened params) as Hu by (repeat constructor; try done).
  destruct (checked_template_is_complete sample_template (Some (sample_contact 10%N None)) params ps eq_refl Hps Hu Hc)
    as (_ & E & _). rewrite E. reflexivity.
Defined.

(** A reply from the business reopens the window of a customer who wrote long ago. *)
Example own_reply_reopens_the_window :
  let c := set_ct_LastInboundAt (Some 0) (set_ct_LastMessageAt (Some (100 * Hour)) (sample_contact 10%N None)) in
  WithinServiceWindow (Some c) (101 * Hour) = true.
Proof. reflexivity. Qed.

(** Blanks inside the braces pass the check, and are never filled in. *)
Example blanks_pass_and_stay :
  let t := MkTemplate "UTILITY" "APPROVED" "" "Hello {{ name }}" in
  let params := [("name", "Ada")]%string in
  CheckTemplate (Some t) (Some (sample_contact 10%N None)) (Some params) = None /\
  ReplaceWithStringParams (tp_BodyContent t) params = "Hello {{ name }}"%string.
Proof. by split. Qed.

(** A value can be taken for a parameter that is filled in later. *)
Example value_read_as_parameter :
  ReplaceWithStringParams "{{name}} {{code}}" [("name", "{{code}}"); ("code", "1234")]%string = "1234 1234"%string.
Proof. reflexivity. Qed.
