(* ===== verification/Templating.v ===== *)
(** * The template language ([internal/templating])

    [{{path}}], [{{if}}], [{{for}}].  The regular expressions of the package are
    matched by hand.  Each starts with a tag, two braces around characters that
    are not [}], and looks at what stands in the tag; the blocks then run to the
    first closing tag.  [None] is a call that does not return: a slice out of
    range, which is a panic, or loops that go on for ever ([fuel] bounds the
    rounds of [ProcessForLoops], the one loop that may).

    Lists of maps decode to lists; [int64(v)] of a double that is too large is
    what it is on amd64. *)
From S2P Require Import Prelude GoLib Events Wire Text Fields Schedule Placeholders.
#[local] Open Scope string_scope.
#[local] Open Scope list_scope.
#[local] Open Scope Z_scope.

Abbreviation chars := (list ascii).

(** ** The expressions *)

Definition one_of (s : string) (c : ascii) : bool := existsb (Ascii.eqb c) (list_ascii_of_string s).
Definition between (a b : N) (c : ascii) : bool := ((a <=? N_of_ascii c) && (N_of_ascii c <=? b))%N.

(** [\s], [\w], and the first character of a name. *)
Definition re_space (c : ascii) : bool := (is_space c && negb (N_of_ascii c =? 11)%N)%bool.
Definition letter (c : ascii) : bool := between 97 122 c || between 65 90 c.
Definition ident_start (c : ascii) : bool := letter c || Ascii.eqb c "_".
Definition word (c : ascii) : bool := ident_start c || numeric c.

Definition open2 : chars := ["{"; "{"]%char.
Definition close2 : chars := ["}"; "}"]%char.

(** A tag at the head of a text: what is inside, and what follows. *)
Definition tag_at (l : chars) : option (chars * chars) :=
  if starts open2 l then
    let '(inner, rest) := span no_close (drop 2 l) in
    if starts close2 rest then Some (inner, drop 2 rest) else None
  else None.

Definition tag (s : chars) : chars := open2 ++ s ++ close2.
Definition tag_of (s : string) : chars := tag (list_ascii_of_string s).

(** The texts before and after the first occurrence. *)
Fixpoint cut (p l : chars) : option (chars * chars) :=
  if starts p l then Some ([], drop (length p) l)
  else match l with
       | [] => None
       | c :: r => '(a, b) ← cut p r; Some (c :: a, b)
       end.

(** The leftmost match: the text before it, the match, the text after. *)
Fixpoint first_match {A} (at_ : chars -> option (A * chars)) (l : chars) : option (chars * A * chars) :=
  match at_ l with
  | Some (m, rest) => Some ([], m, rest)
  | None => match l with
            | [] => None
            | c :: r => '(a, m, rest) ← first_match at_ r; Some (c :: a, m, rest)
            end
  end.

Definition non_empty (x : chars * chars) : option (chars * chars) :=
  match x.1 with [] => None | _ => Some x end.

Definition blanks (l : chars) : option chars := snd <$> non_empty (span re_space l).
Definition exactly (p l : chars) : option chars := if starts p l then Some (drop (length p) l) else None.

(** [\w+(\.\w+)*]. *)
Fixpoint dotted_rest (l : chars) : chars * chars :=
  match l with
  | c :: r =>
      if word c || (Ascii.eqb c "." && match r with d :: _ => word d | [] => false end)
      then let '(a, b) := dotted_rest r in (c :: a, b) else ([], l)
  | [] => ([], [])
  end.
Definition dotted (l : chars) : option (chars * chars) :=
  match l with c :: _ => if word c then Some (dotted_rest l) else None | [] => None end.

(** [for x in items]: the variable and the path. *)
Definition for_header (inner : chars) : option (string * string) :=
  l ← exactly (list_ascii_of_string "for") inner;
  l ← blanks l;
  '(x, l) ← non_empty (span word l);
  l ← blanks l;
  l ← exactly (list_ascii_of_string "in") l;
  l ← blanks l;
  '(path, l) ← dotted l;
  match l with [] => Some (string_of_list_ascii x, string_of_list_ascii path) | _ => None end.

(** [if condition]. *)
Definition if_header (inner : chars) : option string :=
  l ← exactly (list_ascii_of_string "if") inner;
  match l with
  | c :: ((_ :: _) as l) => if re_space c then Some (TrimSpace (string_of_list_ascii l)) else None
  | _ => None
  end.

(** [forLoopPattern], [ifElsePattern]. *)
Definition for_at (l : chars) : option (string * string * chars * chars) :=
  '(inner, r) ← tag_at l;
  '(x, path) ← for_header inner;
  '(body, rest) ← cut (tag_of "endfor") r;
  Some (x, path, body, rest).

Definition if_at (l : chars) : option (string * chars * chars) :=
  '(inner, r) ← tag_at l;
  cond ← if_header inner;
  '(body, rest) ← cut (tag_of "endif") r;
  Some (cond, body, rest).

(** [variablePattern]: a path with blanks around it. *)
Inductive spot := InName | AfterDot | AfterBracket | InIndex | AfterIndex.

Fixpoint path_goes_on (p : spot) (l : chars) : bool :=
  match l with
  | [] => match p with InName | AfterIndex => true | _ => false end
  | c :: r =>
      match p with
      | InName | AfterIndex =>
          if word c && (match p with InName => true | _ => false end) then path_goes_on InName r
          else if Ascii.eqb c "." then path_goes_on AfterDot r
          else if Ascii.eqb c "[" then path_goes_on AfterBracket r
          else forallb re_space l
      | AfterDot => ident_start c && path_goes_on InName r
      | AfterBracket => numeric c && path_goes_on InIndex r
      | InIndex => if numeric c then path_goes_on InIndex r else Ascii.eqb c "]" && path_goes_on AfterIndex r
      end
  end.

Definition is_variable (inner : chars) : bool :=
  match (span re_space inner).2 with c :: r => ident_start c && path_goes_on InName r | [] => false end.

Definition variable_at (l : chars) : option (chars * nat) :=
  '(inner, _) ← tag_at l; if is_variable inner then Some (inner, (length inner + 4)%nat) else None.

(** ** Paths *)

(** [SplitPath]; [inside] the brackets of an index. *)
Fixpoint split_path (current : chars) (inside : bool) (l : chars) : list chars :=
  let flush := match current with [] => [] | _ => [reverse current] end in
  match l with
  | [] => flush
  | c :: r =>
      if inside then split_path (c :: current) (negb (Ascii.eqb c "]")) r
      else if Ascii.eqb c "." then flush ++ split_path [] false r
      else if Ascii.eqb c "[" then
        match current with [] => split_path [] false r | _ => split_path (c :: current) true r end
      else split_path (c :: current) false r
  end.

Definition SplitPath (path : string) : list string :=
  map string_of_list_ascii (split_path [] false (list_ascii_of_string path)).

(** [v[field]] of a map, nil of anything else. *)
Definition get_field (v : any) (field : string) : any :=
  match v with AMap m => map_get m field | _ => ANil end.

(** A part with an index: [part[idx+1 : len(part)-1]] may be out of range. *)
Definition get_index (current : any) (field index_and_bracket : chars) : option any :=
  match index_and_bracket with
  | [] => None
  | _ =>
      match ParseInt (string_of_list_ascii (removelast index_and_bracket)) with
      | None => Some ANil
      | Some index =>
          let current := match field with [] => current | _ => get_field current (string_of_list_ascii field) end in
          match current with
          | AList arr => Some (if index <? 0 then ANil else default ANil (arr !! Z.to_nat index))
          | _ => Some ANil
          end
      end
  end.

Fixpoint walk_path (current : any) (parts : list string) : option any :=
  match parts with
  | [] => Some current
  | part :: parts =>
      match current with
      | ANil => Some ANil
      | _ =>
          match cut ["["%char] (list_ascii_of_string part) with
          | Some (field, index) => current ← get_index current field index; walk_path current parts
          | None => walk_path (get_field current part) parts
          end
      end
  end.

Definition NestedValue (data : list (string * any)) (path : string) : option any :=
  if is_empty path then Some ANil else walk_path (AMap data) (SplitPath path).

(** [LookupNested]: the value, and whether the walk got there. *)
Fixpoint lookup_parts (current : any) (parts : list string) : any * bool :=
  match parts with
  | [] => (current, true)
  | part :: parts =>
      match current with
      | AMap m => match parts with [] => (map_get m part, true) | _ => lookup_parts (map_get m part) parts end
      | _ => (ANil, false)
      end
  end.

Definition LookupNested (data : list (string * any)) (path : string) : option (any * bool) :=
  if is_empty path then Some (ANil, false)
  else if Contains path "[" then v ← NestedValue data path; Some (v, match v with ANil => false | _ => true end)
  else Some (lookup_parts (AMap data) (SplitPath path)).

(** ** Values *)

Section Render.
Context `{FE : FieldsEnv}.

(** A double that is an [int64], and which. *)
Definition as_int64 (x : float64) : option Z :=
  let n := float_trunc x in
  if (f_num x =? n * f_den x) && (min_int64 <=? n) && (n <=? max_int64) then Some n else None.

Definition FormatValue (v : any) : string :=
  match v with
  | ANil => ""
  | AString s => s
  | AInt n => Itoa n
  | AFloat x => match as_int64 x with Some n => Itoa n | None => FormatFloat x end
  | ABool b => if b then "true" else "false"
  | _ => Sprint v
  end.

Definition IsTruthy (v : any) : bool :=
  match v with
  | ANil => false
  | ABool b => b
  | AString s => negb (is_empty s) && negb (String.eqb s "false") && negb (String.eqb s "0")
  | AInt n => negb (n =? 0)
  | AFloat x => negb (f_mant x =? 0)
  | AList l => match l with [] => false | _ => true end
  | AMap m => match m with [] => false | _ => true end
  | ATime _ => true
  end.

Definition CompareEqual (v : any) (compareValue : string) : bool :=
  match v with
  | ANil => existsb (String.eqb compareValue) [""; "null"; "nil"]
  | AString s => String.eqb s compareValue
  | ABool b => String.eqb (if b then "true" else "false") compareValue
  | AInt n => String.eqb (Itoa n) compareValue
  | AFloat x => String.eqb (match as_int64 x with Some n => Itoa n | None => Sprint v end) compareValue
  | _ => String.eqb (Sprint v) compareValue
  end.

Definition CompareNumeric (v : any) (compareValue : string) : comparison :=
  let num := match v with
             | AInt n => Some (Finite (float_of_int n))
             | AFloat x => Some (Finite x)
             | AString s => ParseFloat s
             | _ => None
             end in
  match num, ParseFloat compareValue with
  | Some a, Some b => if num_lt a b then Lt else if num_lt b a then Gt else Eq
  | _, _ => Eq
  end.

(** The operator of a condition: the longer ones first. *)
Definition operator (l : chars) : string * chars :=
  match List.find (fun op => starts (list_ascii_of_string op) l) ["=="; "!="; ">="; "<="; ">"; "<"] with
  | Some op => (op, drop (String.length op) l)
  | None => ("", l)
  end.

(** [conditionPattern]: the path, the operator, the rest, which holds no line break. *)
Definition split_condition (cond : chars) : option (string * string * string) :=
  '(path, l) ← dotted cond;
  let '(op, l) := operator (span re_space l).2 in
  let rest := (span re_space l).2 in
  if existsb (Ascii.eqb "010") rest then None
  else Some (string_of_list_ascii path, op, TrimSpace (string_of_list_ascii rest)).

Definition quoted_by (q : ascii) (l : chars) : bool :=
  match l with c :: ((_ :: _) as r) => Ascii.eqb c q && Ascii.eqb (List.last r "000"%char) q | _ => false end.

Definition unquote (s : string) : string :=
  let l := list_ascii_of_string s in
  if quoted_by "'" l || quoted_by "034" l then string_of_list_ascii (removelast (tl l)) else s.

Definition EvaluateCondition (condition : string) (data : list (string * any)) : option bool :=
  match split_condition (list_ascii_of_string (TrimSpace condition)) with
  | None => Some false
  | Some (path, op, compareValue) =>
      v ← NestedValue data path;
      let compareValue := unquote compareValue in
      Some (if String.eqb op "" then IsTruthy v
            else if String.eqb op "==" then CompareEqual v compareValue
            else if String.eqb op "!=" then negb (CompareEqual v compareValue)
            else match CompareNumeric v compareValue with
                 | Gt => String.eqb op ">" || String.eqb op ">="
                 | Lt => String.eqb op "<" || String.eqb op "<="
                 | Eq => String.eqb op ">=" || String.eqb op "<="
                 end)
  end.

(** ** Rendering *)

Section Variables.
Context (value : chars -> option chars).

(** [variablePattern.ReplaceAllStringFunc]. *)
Fixpoint replace_variables (skip : nat) (l : chars) : option chars :=
  match l with
  | [] => Some []
  | c :: r =>
      match skip with
      | S k => replace_variables k r
      | O => match variable_at l with
             | Some (inner, n) => v ← value inner; out ← replace_variables (pred n) r; Some (v ++ out)
             | None => out ← replace_variables 0 r; Some (c :: out)
             end
      end
  end.
End Variables.

(** The path is what stands between the braces, blanks included. *)
Definition ProcessVariables (template : chars) (data : list (string * any)) : option chars :=
  replace_variables (fun inner =>
    v ← NestedValue data (string_of_list_ascii inner); Some (list_ascii_of_string (FormatValue v))) 0 template.

(** Every round makes the text shorter: its length is fuel enough. *)
Fixpoint conditionals (fuel : nat) (data : list (string * any)) (result : chars) : option chars :=
  match first_match if_at result with
  | None => Some result
  | Some (before, (condition, body), after) =>
      match fuel with
      | O => None
      | S fuel =>
          let '(ifPart, elsePart) := default (body, []) (cut (tag_of "else") body) in
          b ← EvaluateCondition condition data;
          conditionals fuel data (before ++ (if b : bool then ifPart else elsePart) ++ after)
      end
  end.

Definition ProcessConditionals (template : chars) (data : list (string * any)) : option chars :=
  conditionals (length template) data template.

Definition maxLoopIterations : nat := 50.

Definition set_key (k : string) (v : any) (m : list (string * any)) : list (string * any) :=
  (k, v) :: List.filter (fun e => negb (String.eqb e.1 k)) m.

Definition loop_data (x : string) (i : nat) (v : any) (data : list (string * any)) : list (string * any) :=
  set_key (x ++ "_index")%string (AInt (Z.of_nat i)) (set_key x v data).

Fixpoint loop_output (x : string) (body : chars) (data : list (string * any)) (i : nat) (arr : list any) : option chars :=
  match arr with
  | [] => Some []
  | v :: arr =>
      let loopData := loop_data x i v data in
      processedBody ← ProcessConditionals body loopData;
      processedBody ← ProcessVariables processedBody loopData;
      out ← loop_output x body data (S i) arr;
      Some (processedBody ++ out)
  end.

Fixpoint ProcessForLoops (fuel : nat) (result : chars) (data : list (string * any)) : option chars :=
  match first_match for_at result with
  | None => Some result
  | Some (before, (x, path, body), after) =>
      match fuel with
      | O => None
      | S fuel =>
          v ← NestedValue data path;
          output ← match v with AList arr => loop_output x body data 0 (take maxLoopIterations arr) | _ => Some [] end;
          ProcessForLoops fuel (before ++ output ++ after) data
      end
  end.

Definition Process (fuel : nat) (template : string) (data : list (string * any)) : option string :=
  result ← ProcessForLoops fuel (list_ascii_of_string template) data;
  result ← ProcessConditionals result data;
  result ← ProcessVariables result data;
  Some (string_of_list_ascii result).

(** The order of a Go map does not matter: each name is extracted on its own. *)
Fixpoint ExtractResponseMapping (responseData : list (string * any)) (mapping : list (string * string))
    : option (list (string * any)) :=
  match mapping with
  | [] => Some []
  | (varName, jsonPath) :: mapping =>
      v ← NestedValue responseData jsonPath;
      out ← ExtractResponseMapping responseData mapping;
      Some (match v with ANil => out | _ => (varName, v) :: out end)
  end.

(** ** Encoding what is put in *)

Record Resolved := MkResolved { rv_Value : string; rv_Raw : string; rv_Found : bool }.

Definition ProcessVariablesWith (template : string) (data : list (string * any)) (encode : Resolved -> string) : option string :=
  string_of_list_ascii <$>
    replace_variables (fun inner =>
      '(v, found) ← LookupNested data (TrimSpace (string_of_list_ascii inner));
      Some (list_ascii_of_string (encode (MkResolved (FormatValue v) (string_of_list_ascii (tag inner)) found))))
      0 (list_ascii_of_string template).

Inductive EscapeMode := EscapeRaw | EscapeJSON | EscapeQuery | EscapeHeader.

Definition hex_digit (n : N) : ascii := ascii_of_N (if (n <? 10)%N then 48 + n else 87 + n)%N.
Definition hex_upper (n : N) : ascii := ascii_of_N (if (n <? 10)%N then 48 + n else 55 + n)%N.

(** [json.Marshal] of a character: [\n] and the like, [\u00xx], HTML's own
    characters, U+2028 and U+2029, and U+FFFD for bytes that are no character. *)
Definition json_char (c : chars) : chars :=
  match c with
  | [b] =>
      let n := N_of_ascii b in
      if Ascii.eqb b "034" || Ascii.eqb b "\" then ["\"%char; b]
      else if (n =? 8)%N then ["\"; "b"]%char
      else if (n =? 12)%N then ["\"; "f"]%char
      else if (n =? 10)%N then ["\"; "n"]%char
      else if (n =? 13)%N then ["\"; "r"]%char
      else if (n =? 9)%N then ["\"; "t"]%char
      else if (n <? 32)%N || one_of "<>&" b
        then ["\"; "u"; "0"; "0"]%char ++ [hex_digit (n / 16); hex_digit (n mod 16)]
      else if (n <? 128)%N then [b]
      else list_ascii_of_string "\ufffd"
  | [a; b; d] =>
      if (N_of_ascii a =? 226)%N && (N_of_ascii b =? 128)%N && ((N_of_ascii d =? 168) || (N_of_ascii d =? 169))%N
      then list_ascii_of_string "\u202" ++ [hex_digit (N_of_ascii d - 160)] else c
  | _ => c
  end.

(** [url.QueryEscape]. *)
Definition query_char (c : ascii) : chars :=
  if word c || one_of "-.~" c then [c]
  else if Ascii.eqb c " " then ["+"%char]
  else ["%"%char; hex_upper (N_of_ascii c / 16); hex_upper (N_of_ascii c mod 16)].

Definition line_break (c : ascii) : bool := Ascii.eqb c "010" || Ascii.eqb c "013".

Definition Encode (mode : EscapeMode) (raw : string) : string :=
  match mode with
  | EscapeRaw => raw
  | EscapeJSON => string_of_list_ascii (concat (map json_char (characters raw)))
  | EscapeQuery => string_of_list_ascii (concat (map query_char (list_ascii_of_string raw)))
  | EscapeHeader => string_of_list_ascii (List.filter (fun c => negb (line_break c)) (list_ascii_of_string raw))
  end.

Definition RenderEscaped (template : string) (data : list (string * any)) (mode : EscapeMode) : option string :=
  ProcessVariablesWith template data (fun r => if rv_Found r then Encode mode (rv_Value r) else rv_Raw r).

Definition RenderEscapedStrings (template : string) (vars : list (string * string)) (mode : EscapeMode) : option string :=
  RenderEscaped template (map (fun e => (e.1, AString e.2)) vars) mode.
End Render.
