(* ===== verification/TemplatingProps.v ===== *)
(** * What templates render to

    A template is text, variables, conditionals over text and variables, and
    loops over these; [render] gives its meaning directly.  [Process] works on
    the printed form, a pass of rewriting for each construct; the theorem is
    that both agree, and that the loops end.  Texts and the values of the data
    open no tag of their own: without that condition values are read as
    template again (the examples of [Escapes]). *)
From stdpp Require Import pretty.
From S2P Require Import Prelude GoLib Events Wire Text Fields Schedule Placeholders Templating.
#[local] Open Scope string_scope.
#[local] Open Scope list_scope.
#[local] Open Scope Z_scope.

(** ** Tags in a text *)

Definition quiet_char (c : ascii) : Prop := c <> "{"%char.
Definition inside_char (c : ascii) : Prop := c <> "{"%char /\ c <> "}"%char.

Lemma inside_quiet s : Forall inside_char s -> Forall quiet_char s.
Proof. intros Hs. apply (Forall_impl _ _ _ Hs). by intros ? []. Qed.
Lemma inside_closed s : Forall inside_char s -> Forall (fun x => no_close x = true) s.
Proof. intros Hs. apply (Forall_impl _ _ _ Hs). intros x [_ Hx]. unfold no_close. by destruct (Ascii.eqb_spec x "}"). Qed.

Lemma tag_at_quiet c l : quiet_char c -> tag_at (c :: l) = None.
Proof. intros Hc. unfold tag_at, open2. by rewrite starts_other. Qed.

Lemma tag_at_single c l : quiet_char c -> tag_at ("{"%char :: c :: l) = None.
Proof. intros Hc. unfold tag_at, open2. cbn [starts]. destruct (Ascii.eqb_spec "{" c) as [<-|]; [by destruct (Hc eq_refl)|reflexivity]. Qed.

Lemma tag_at_open l :
  tag_at ("{"%char :: "{"%char :: l) =
    let '(inner, rest) := span no_close l in if starts close2 rest then Some (inner, drop 2 rest) else None.
Proof. done. Qed.

Lemma tag_app s l : tag s ++ l = "{"%char :: "{"%char :: s ++ "}"%char :: "}"%char :: l.
Proof. unfold tag, open2, close2. cbn [app]. by rewrite <- app_assoc. Qed.

Lemma tag_at_tag s l : Forall inside_char s -> tag_at (tag s ++ l) = Some (s, l).
Proof.
  intros Hs. rewrite tag_app, tag_at_open, (span_to _ _ _ _ (inside_closed _ Hs)) by done.
  by rewrite (starts_app close2 l : starts close2 ("}"%char :: "}"%char :: l) = true).
Qed.

(** Text, and tags: what the passes see of a template. *)
Inductive token := Chars (a : chars) | Tag (s : chars).

Definition token_text (t : token) : chars := match t with Chars a => a | Tag s => tag s end.
Definition token_ok (t : token) : Prop := match t with Chars a => Forall quiet_char a | Tag s => Forall inside_char s end.
Definition tokens_text (ts : list token) : chars := concat (map token_text ts).

Lemma tokens_text_app a b : tokens_text (a ++ b) = tokens_text a ++ tokens_text b.
Proof. unfold tokens_text. by rewrite map_app, concat_app. Qed.

Lemma inside_head s l : Forall inside_char s -> exists c r, s ++ "}"%char :: l = c :: r /\ quiet_char c.
Proof. destruct 1 as [|c s Hc Hs]; [by exists "}"%char, l|]. exists c, (s ++ "}"%char :: l). split; [done|apply Hc]. Qed.

Section FirstMatch.
Context {A : Type} (at_ : chars -> option (A * chars)).
Hypothesis at_tag : forall l, tag_at l = None -> at_ l = None.

Definition after_text (a : chars) (o : option (chars * A * chars)) : option (chars * A * chars) :=
  '(b, m, rest) ← o; Some (a ++ b, m, rest).

Lemma after_text_app a b o : after_text a (after_text b o) = after_text (a ++ b) o.
Proof. destruct o as [[[x m] r]|]; [|done]. cbn. by rewrite app_assoc. Qed.

Lemma after_text_nil o : after_text [] o = o.
Proof. by destruct o as [[[x m] r]|]. Qed.

Lemma first_match_skip c l : at_ (c :: l) = None -> first_match at_ (c :: l) = after_text [c] (first_match at_ l).
Proof. intros Hc. cbn [first_match]. rewrite Hc. by destruct (first_match at_ l) as [[[a m] r]|]. Qed.

Lemma first_match_quiet a l : Forall quiet_char a -> first_match at_ (a ++ l) = after_text a (first_match at_ l).
Proof.
  induction 1 as [|c a Hc _ IH]; cbn [app]; [by rewrite after_text_nil|].
  rewrite first_match_skip by (by apply at_tag, tag_at_quiet). by rewrite IH, after_text_app.
Qed.

Lemma first_match_tag s l :
  Forall inside_char s -> at_ (tag s ++ l) = None -> first_match at_ (tag s ++ l) = after_text (tag s) (first_match at_ l).
Proof.
  intros Hs Hno. rewrite tag_app in Hno |- *. rewrite first_match_skip by done.
  rewrite first_match_skip.
  2:{ apply at_tag. destruct (inside_head s ("}"%char :: l) Hs) as (c & r & -> & Hc). by apply tag_at_single. }
  rewrite first_match_quiet by (by apply inside_quiet).
  change ("}"%char :: "}"%char :: l) with (close2 ++ l). rewrite first_match_quiet by (repeat constructor; done).
  rewrite !after_text_app. done.
Qed.

(** Tokens of other kinds are passed over. *)
Lemma first_match_tokens ts l :
  Forall token_ok ts -> (forall s l', Tag s ∈ ts -> at_ (tag s ++ l') = None) ->
  first_match at_ (tokens_text ts ++ l) = after_text (tokens_text ts) (first_match at_ l).
Proof.
  induction 1 as [|t ts Ht _ IH]; intros Hno; [by rewrite after_text_nil|].
  unfold tokens_text. cbn [map concat]. rewrite <- app_assoc. fold (tokens_text ts).
  assert (forall s l', Tag s ∈ ts -> at_ (tag s ++ l') = None) as Hno' by (intros s l' Hs; apply Hno; by right).
  specialize (IH Hno'). destruct t as [a|s]; cbn [token_text].
  - by rewrite first_match_quiet, IH, after_text_app.
  - rewrite first_match_tag, IH, after_text_app; [done|done|]. apply Hno. by left.
Qed.

Lemma first_match_at l m r : at_ l = Some (m, r) -> first_match at_ l = Some ([], m, r).
Proof. intros Hm. destruct l; cbn [first_match]; by rewrite Hm. Qed.

Lemma first_match_nil : first_match at_ [] = None.
Proof. cbn. rewrite at_tag; done. Qed.
End FirstMatch.

(** ** Cutting at a closing tag *)

Definition before (a : chars) (o : option (chars * chars)) : option (chars * chars) := '(b, r) ← o; Some (a ++ b, r).

Lemma before_app a b o : before a (before b o) = before (a ++ b) o.
Proof. destruct o as [[x r]|]; [|done]. cbn. by rewrite app_assoc. Qed.

Lemma before_nil o : before [] o = o.
Proof. by destruct o as [[x r]|]. Qed.

Lemma cut_skip p c l : starts p (c :: l) = false -> cut p (c :: l) = before [c] (cut p l).
Proof. intros Hp. cbn [cut]. rewrite Hp. by destruct (cut p l) as [[? ?]|]. Qed.

Lemma starts_tag_quiet e c l : quiet_char c -> starts (tag e) (c :: l) = false.
Proof. intros Hc. unfold tag, open2. cbn [app]. by rewrite starts_other. Qed.

Lemma starts_tag_single e c l : quiet_char c -> starts (tag e) ("{"%char :: c :: l) = false.
Proof.
  intros Hc. unfold tag, open2. cbn [app starts]. destruct (Ascii.eqb_spec "{" c) as [<-|]; [by destruct (Hc eq_refl)|reflexivity].
Qed.

Lemma cut_quiet e a l : Forall quiet_char a -> cut (tag e) (a ++ l) = before a (cut (tag e) l).
Proof.
  induction 1 as [|c a Hc _ IH]; cbn [app]; [by rewrite before_nil|].
  rewrite cut_skip by (by apply starts_tag_quiet). by rewrite IH, before_app.
Qed.

Lemma starts_tag_other e s l : e <> s -> Forall inside_char e -> Forall inside_char s -> starts (tag e) (tag s ++ l) = false.
Proof.
  intros Hne He Hs. apply not_true_iff_false. rewrite tag_app. unfold tag, open2. cbn [app starts Ascii.eqb Bool.eqb andb].
  intros E. apply starts_closed in E; [done|..]; (eapply Forall_impl; [eassumption|]; by intros ? []).
Qed.

Lemma cut_other e s l :
  e <> s -> Forall inside_char e -> Forall inside_char s -> cut (tag e) (tag s ++ l) = before (tag s) (cut (tag e) l).
Proof.
  intros Hne He Hs. pose proof (starts_tag_other e s l Hne He Hs) as Hno. rewrite tag_app in Hno |- *.
  rewrite cut_skip by done. rewrite cut_skip.
  2:{ destruct (inside_head s ("}"%char :: l) Hs) as (c & r & -> & Hc). by apply starts_tag_single. }
  rewrite cut_quiet by (by apply inside_quiet).
  change ("}"%char :: "}"%char :: l) with (close2 ++ l). rewrite cut_quiet by (repeat constructor; done).
  rewrite !before_app. done.
Qed.

Lemma cut_here p l : cut p (p ++ l) = Some ([], l).
Proof. destruct p as [|c p]; [by destruct l|]. cbn [app]. cbn [cut]. rewrite (starts_app (c :: p) l : starts (c :: p) (c :: p ++ l) = true). do 2 f_equal. apply (drop_app_length (c :: p) l). Qed.

Lemma cut_tokens e ts l :
  Forall inside_char e -> Forall token_ok ts -> Tag e ∉ ts ->
  cut (tag e) (tokens_text ts ++ l) = before (tokens_text ts) (cut (tag e) l).
Proof.
  intros He. induction 1 as [|t ts Ht _ IH]; intros Hno; [by rewrite before_nil|].
  rewrite not_elem_of_cons in Hno. destruct Hno as [Hne Hno]. specialize (IH Hno).
  unfold tokens_text. cbn [map concat]. rewrite <- app_assoc. fold (tokens_text ts). destruct t as [a|s]; cbn [token_text].
  - by rewrite cut_quiet, IH, before_app.
  - rewrite cut_other, IH, before_app; [done| |done|done]. intros ->. done.
Qed.

Lemma cut_tokens_at e ts l :
  Forall inside_char e -> Forall token_ok ts -> Tag e ∉ ts ->
  cut (tag e) (tokens_text ts ++ tag e ++ l) = Some (tokens_text ts, l).
Proof. intros He Hts Hno. rewrite cut_tokens, cut_here by done. cbn. by rewrite app_nil_r. Qed.

Lemma cut_tokens_none e ts : Forall inside_char e -> Forall token_ok ts -> Tag e ∉ ts -> cut (tag e) (tokens_text ts) = None.
Proof. intros He Hts Hno. pose proof (cut_tokens e ts [] He Hts Hno) as E. rewrite app_nil_r in E. by rewrite E. Qed.

(** ** Templates *)

(** Keys of a path, joined by dots. *)
Fixpoint join_dots (keys : list string) : chars :=
  match keys with
  | [] => []
  | [k] => list_ascii_of_string k
  | k :: keys => list_ascii_of_string k ++ "."%char :: join_dots keys
  end.

Definition is_word (k : string) : bool := forallb word (list_ascii_of_string k) && negb (is_empty k).
Definition is_ident (k : string) : bool :=
  match list_ascii_of_string k with c :: r => ident_start c && forallb word r | [] => false end.

Inductive leaf := Txt (s : chars) | Var (keys : list string).
Inductive block := Leaf (l : leaf) | If (cond : string) (thens : list leaf) (elses : option (list leaf)).
Inductive item := Block (b : block) | For (x : string) (path : list string) (body : list block).

Definition leaf_token (l : leaf) : token := match l with Txt s => Chars s | Var keys => Tag (join_dots keys) end.
Definition if_tag (cond : string) : chars := list_ascii_of_string "if " ++ list_ascii_of_string cond.
Definition for_tag (x : string) (path : list string) : chars :=
  list_ascii_of_string "for " ++ list_ascii_of_string x ++ list_ascii_of_string " in " ++ join_dots path.
Definition chars_of : string -> chars := list_ascii_of_string.

Definition block_tokens (b : block) : list token :=
  match b with
  | Leaf l => [leaf_token l]
  | If cond thens elses =>
      Tag (if_tag cond) :: map leaf_token thens ++
      (match elses with Some elses => Tag (chars_of "else") :: map leaf_token elses | None => [] end) ++
      [Tag (chars_of "endif")]
  end.
Definition blocks_tokens (bs : list block) : list token := concat (map block_tokens bs).

Definition item_tokens (i : item) : list token :=
  match i with
  | Block b => block_tokens b
  | For x path body => Tag (for_tag x path) :: blocks_tokens body ++ [Tag (chars_of "endfor")]
  end.
Definition items_tokens (is_ : list item) : list token := concat (map item_tokens is_).

(** The template as it is written. *)
Definition written_template (is_ : list item) : string := string_of_list_ascii (tokens_text (items_tokens is_)).

(** ** Well-formed templates *)

Definition reserved (keys : list string) : Prop := keys = ["else"] \/ keys = ["endif"] \/ keys = ["endfor"].

Definition leaf_ok (l : leaf) : Prop :=
  match l with
  | Txt s => Forall quiet_char s
  | Var keys => keys <> [] /\ Forall (fun k => is_ident k = true) keys /\ ~ reserved keys
  end.
Definition block_ok (b : block) : Prop :=
  match b with
  | Leaf l => leaf_ok l
  | If cond thens elses =>
      is_empty cond = false /\ braceless cond /\ Forall leaf_ok thens /\ Forall leaf_ok (default [] elses)
  end.
Definition item_ok (i : item) : Prop :=
  match i with
  | Block b => block_ok b
  | For x path body =>
      is_word x = true /\ path <> [] /\ Forall (fun k => is_word k = true) path /\ Forall block_ok body
  end.

(** ** Their meaning *)

Section Meaning.
Context `{FE : FieldsEnv}.

Definition lookup_keys (data : list (string * any)) (keys : list string) : any :=
  fold_left get_field keys (AMap data).

Definition render_leaf (data : list (string * any)) (l : leaf) : chars :=
  match l with Txt s => s | Var keys => list_ascii_of_string (FormatValue (lookup_keys data keys)) end.
Definition render_leaves (data : list (string * any)) (ls : list leaf) : chars := concat (map (render_leaf data) ls).

Definition holds (cond : string) (data : list (string * any)) : bool := default false (EvaluateCondition cond data).

Definition chosen (data : list (string * any)) (cond : string) (thens : list leaf) (elses : option (list leaf)) : list leaf :=
  if holds cond data then thens else default [] elses.

Definition render_block (data : list (string * any)) (b : block) : chars :=
  match b with
  | Leaf l => render_leaf data l
  | If cond thens elses => render_leaves data (chosen data cond thens elses)
  end.
Definition render_blocks (data : list (string * any)) (bs : list block) : chars := concat (map (render_block data) bs).

(** The body once for each of the first fifty entries. *)
Definition render_item (data : list (string * any)) (i : item) : chars :=
  match i with
  | Block b => render_block data b
  | For x path body =>
      match lookup_keys data path with
      | AList arr => concat (imap (fun n v => render_blocks (loop_data x n v data) body) (take 50 arr))
      | _ => []
      end
  end.

Definition render (data : list (string * any)) (is_ : list item) : string :=
  string_of_list_ascii (concat (map (render_item data) is_)).

(** Values that open no tag when they are printed. *)
Definition no_open (s : string) : bool := forallb (fun c => negb (Ascii.eqb c "{")) (list_ascii_of_string s).

Fixpoint tame (v : any) : bool :=
  no_open (FormatValue v) &&
  match v with
  | AList l => forallb tame l
  | AMap m => forallb (fun e => tame e.2) m
  | _ => true
  end.
Definition tame_data (data : list (string * any)) : bool := forallb (fun e => tame e.2) data.
End Meaning.

(** ** What stands in a tag *)

Lemma forallb_words k : is_word k = true -> Forall (fun c => word c = true) (list_ascii_of_string k).
Proof. intros [Hk _]%andb_true_iff. by apply forallb_Forall. Qed.

Lemma ident_word k : is_ident k = true -> is_word k = true.
Proof.
  unfold is_ident, is_word, is_empty. destruct k as [|c k]; [done|]. cbn [list_ascii_of_string forallb].
  intros [Hc Hk]%andb_true_iff. by rewrite Hk, andb_true_r, andb_true_r; unfold word; rewrite Hc.
Qed.

(** Facts about single characters, checked for all of them. *)
Lemma word_facts c :
  word c = true -> inside_char c /\ re_space c = false /\ c <> "."%char /\ c <> "["%char /\ c <> "]"%char.
Proof. destruct c as [[] [] [] [] [] [] [] []]; vm_compute; intros E; try discriminate E; repeat split; discriminate. Qed.

Lemma ident_start_word c : ident_start c = true -> word c = true.
Proof. intros Hc. unfold word. by rewrite Hc. Qed.

Lemma is_word_cons k : is_word k = true -> exists c r, list_ascii_of_string k = c :: r /\ word c = true /\ Forall (fun c => word c = true) r.
Proof.
  intros Hk. pose proof (forallb_words k Hk) as Hw. apply andb_true_iff in Hk as [_ He].
  destruct k as [|c k]; [done|]. cbn [list_ascii_of_string] in *. apply Forall_cons in Hw as [? ?]. eauto.
Qed.

Definition path_char (c : ascii) : Prop := word c = true \/ c = "."%char.

Lemma join_dots_chars keys : Forall (fun k => is_word k = true) keys -> Forall path_char (join_dots keys).
Proof.
  induction 1 as [|k keys Hk Hks IH]; [constructor|]. apply forallb_words in Hk.
  assert (Forall path_char (list_ascii_of_string k)) as Hp by (apply (Forall_impl _ _ _ Hk); by left).
  destruct keys as [|k' keys]; [exact Hp|]. cbn [join_dots]. apply Forall_app. split; [done|]. constructor; [by right|exact IH].
Qed.

Lemma path_char_facts c : path_char c -> inside_char c /\ re_space c = false /\ c <> "["%char.
Proof. intros [Hc| ->]; [apply word_facts in Hc; naive_solver|]. by repeat split. Qed.

Lemma path_inside l : Forall path_char l -> Forall inside_char l.
Proof. intros Hl. apply (Forall_impl _ _ _ Hl). intros c Hc. by apply path_char_facts. Qed.
Lemma path_no_space l : Forall path_char l -> Forall (fun c => re_space c = false) l.
Proof. intros Hl. apply (Forall_impl _ _ _ Hl). intros c Hc. by apply path_char_facts. Qed.

(** A tag without blanks is no header. *)
Lemma no_blank_no_header s :
  Forall (fun c => re_space c = false) s -> for_header s = None /\ if_header s = None.
Proof.
  intros Hs. unfold for_header, if_header, exactly. split.
  - destruct (starts _ s) eqn:E; [|done]. cbn [mbind option_bind]. apply starts_spec in E as [r ->].
    apply Forall_app in Hs as [_ Hr]. rewrite drop_app_length.
    replace (blanks r) with (@None chars); [done|]. destruct Hr as [|c r Hc _]; [done|]. unfold blanks. cbn [span]. by rewrite Hc.
  - destruct (starts _ s) eqn:E; [|done]. cbn [mbind option_bind]. apply starts_spec in E as [r ->].
    apply Forall_app in Hs as [_ Hr]. rewrite drop_app_length. destruct Hr as [|c r Hc Hr]; [done|]. by destruct Hr; [|rewrite Hc].
Qed.

Lemma if_tag_no_for cond : for_header (if_tag cond) = None.
Proof. done. Qed.

Lemma span_all p a c l : Forall (fun x => p x = true) a -> p c = false -> span p (a ++ c :: l) = (a, c :: l).
Proof. apply span_to. Qed.

Lemma span_end p a : Forall (fun x => p x = true) a -> span p a = (a, []).
Proof. induction 1 as [|x a Hx _ IH]; [done|]. cbn [span]. by rewrite Hx, IH. Qed.

Lemma dotted_rest_words w l :
  Forall (fun c => word c = true) w -> dotted_rest (w ++ l) = (w ++ (dotted_rest l).1, (dotted_rest l).2).
Proof.
  induction 1 as [|c w Hc _ IH]; cbn [app]; [by destruct (dotted_rest l)|]. cbn [dotted_rest]. rewrite Hc. cbn [orb].
  by rewrite IH.
Qed.

Lemma dotted_rest_join keys : Forall (fun k => is_word k = true) keys -> dotted_rest (join_dots keys) = (join_dots keys, []).
Proof.
  induction 1 as [|k keys Hk Hks IH]; [done|]. pose proof (forallb_words k Hk) as Hw. destruct keys as [|k' keys].
  - cbn [join_dots]. rewrite <- (app_nil_r (list_ascii_of_string k)), dotted_rest_words by done. done.
  - cbn [join_dots] in IH |- *. rewrite dotted_rest_words by done. cbn [dotted_rest].
    set (rest := match keys with [] => _ | _ => _ end) in *.
    assert (match rest with d :: _ => word d | [] => false end = true) as Hd.
    { apply Forall_cons in Hks as [Hk' _]. apply is_word_cons in Hk' as (c & r & E & Hc & _). subst rest.
      destruct keys; rewrite E; exact Hc. }
    rewrite Hd, andb_true_r. cbn [Ascii.eqb Bool.eqb orb]. rewrite orb_true_r. by rewrite IH.
Qed.

Lemma dotted_join keys :
  keys <> [] -> Forall (fun k => is_word k = true) keys -> dotted (join_dots keys) = Some (join_dots keys, []).
Proof.
  intros Hne Hks. pose proof (dotted_rest_join keys Hks) as E. destruct keys as [|k keys]; [done|].
  apply Forall_cons in Hks as [Hk _]. apply is_word_cons in Hk as (c & r & Ek & Hc & _).
  assert (exists r', join_dots (k :: keys) = c :: r') as [r' Er].
  { destruct keys; cbn [join_dots]; rewrite Ek; cbn [app]; eauto. }
  rewrite Er in E |- *. unfold dotted. by rewrite Hc, E.
Qed.

Lemma blanks_one l : match l with c :: _ => re_space c = false | [] => False end -> blanks (" "%char :: l) = Some l.
Proof. destruct l as [|c l]; [done|]. intros Hc. unfold blanks. cbn [span]. rewrite Hc. done. Qed.

Lemma exactly_app p l : exactly p (p ++ l) = Some l.
Proof. unfold exactly. rewrite starts_app. by rewrite drop_app_length. Qed.

Lemma for_header_tag x path :
  is_word x = true -> path <> [] -> Forall (fun k => is_word k = true) path ->
  for_header (for_tag x path) = Some (x, string_of_list_ascii (join_dots path)).
Proof.
  intros Hx Hne Hp. unfold for_header, for_tag.
  change (list_ascii_of_string "for ") with (list_ascii_of_string "for" ++ [" "%char]). rewrite <- app_assoc, exactly_app.
  cbn [mbind option_bind app].
  pose proof (is_word_cons x Hx) as (c & r & Ex & Hc & Hr).
  rewrite blanks_one by (rewrite Ex; by apply word_facts in Hc as (_ & ? & _)). cbn [mbind option_bind].
  change (list_ascii_of_string " in " ++ join_dots path) with (" "%char :: list_ascii_of_string "in" ++ " "%char :: join_dots path).
  rewrite (span_to word _ _ _ (forallb_words x Hx)) by done.
  unfold non_empty at 1. cbn [fst]. rewrite Ex at 1. cbn [mbind option_bind].
  rewrite blanks_one by done. cbn [mbind option_bind]. rewrite exactly_app. cbn [mbind option_bind].
  assert (match join_dots path with c :: _ => re_space c = false | [] => False end) as Hd.
  { pose proof (path_no_space _ (join_dots_chars path Hp)) as Hs. pose proof (dotted_join path Hne Hp) as Hd.
    destruct (join_dots path); [done|]. by apply Forall_cons in Hs as [? _]. }
  rewrite blanks_one by done. cbn [mbind option_bind]. rewrite dotted_join by done. cbn [mbind option_bind].
  by rewrite string_of_list_ascii_of_string.
Qed.

Lemma if_header_tag cond : is_empty cond = false -> if_header (if_tag cond) = Some (TrimSpace cond).
Proof.
  intros Hc. unfold if_header, if_tag. change (list_ascii_of_string "if ") with (list_ascii_of_string "if" ++ [" "%char]).
  rewrite <- app_assoc, exactly_app. cbn [mbind option_bind app]. destruct cond as [|c cond]; [done|].
  cbn [list_ascii_of_string]. change (re_space " ") with true. cbv iota.
  cbn [string_of_list_ascii]. by rewrite string_of_list_ascii_of_string.
Qed.

(** ** Paths *)

Section Paths.
Context `{FE : FieldsEnv}.

Lemma split_path_word w cur l :
  Forall (fun c => word c = true) w -> split_path cur false (w ++ l) = split_path (reverse w ++ cur) false l.
Proof.
  intros Hw. revert cur. induction Hw as [|c w Hc _ IH]; intros cur; [done|]. cbn [app split_path].
  apply word_facts in Hc as (_ & _ & Hd & Hb & _).
  destruct (Ascii.eqb_spec c "."); [done|]. destruct (Ascii.eqb_spec c "["); [done|].
  rewrite IH. f_equal. by rewrite reverse_cons, <- app_assoc.
Qed.

Lemma split_path_flush cur l :
  cur <> [] -> split_path cur false ("."%char :: l) = reverse cur :: split_path [] false l.
Proof. destruct cur; [done|]. done. Qed.

Lemma word_not_empty k : is_word k = true -> reverse (list_ascii_of_string k) <> [].
Proof. intros (c & r & -> & _)%is_word_cons E. by apply (f_equal reverse) in E; rewrite reverse_involutive in E. Qed.

Lemma split_join keys :
  Forall (fun k => is_word k = true) keys -> split_path [] false (join_dots keys) = map list_ascii_of_string keys.
Proof.
  induction 1 as [|k keys Hk Hks IH]; [done|]. pose proof (forallb_words k Hk) as Hw.
  pose proof (word_not_empty k Hk) as Hne. destruct keys as [|k' keys].
  - cbn [join_dots]. rewrite <- (app_nil_r (list_ascii_of_string k)) at 1. rewrite split_path_word, app_nil_r by done.
    cbn [split_path map]. destruct (reverse (list_ascii_of_string k)) eqn:E; [done|]. by rewrite <- E, reverse_involutive.
  - change (join_dots (k :: k' :: keys)) with (list_ascii_of_string k ++ "."%char :: join_dots (k' :: keys)).
    rewrite split_path_word, app_nil_r by done. rewrite split_path_flush by done.
    rewrite reverse_involutive, IH. done.
Qed.

Lemma SplitPath_join keys :
  Forall (fun k => is_word k = true) keys -> SplitPath (string_of_list_ascii (join_dots keys)) = keys.
Proof.
  intros Hks. unfold SplitPath. rewrite list_ascii_of_string_of_list_ascii, split_join by done. rewrite map_map.
  rewrite <- (map_id keys) at 2. apply map_ext. intros k. apply string_of_list_ascii_of_string.
Qed.

Lemma cut_bracket_none l : Forall (fun c => c <> "["%char) l -> cut ["["%char] l = None.
Proof. induction 1 as [|c l Hc _ IH]; [done|]. rewrite cut_skip by (by apply starts_other). by rewrite IH. Qed.

Lemma fields_of_nil keys : fold_left get_field keys ANil = ANil.
Proof. by induction keys. Qed.

Lemma walk_words keys v :
  Forall (fun k => is_word k = true) keys -> walk_path v keys = Some (fold_left get_field keys v).
Proof.
  intros Hks. revert v. induction Hks as [|k keys Hk _ IH]; intros v; [done|]. cbn [walk_path fold_left].
  rewrite cut_bracket_none.
  - destruct v; try apply IH. by rewrite fields_of_nil.
  - apply (Forall_impl _ _ _ (forallb_words k Hk)). intros c Hc. by apply word_facts in Hc as (_ & _ & _ & ? & _).
Qed.

(** A plain path reads the keys one after the other. *)
Lemma NestedValue_join data keys :
  keys <> [] -> Forall (fun k => is_word k = true) keys ->
  NestedValue data (string_of_list_ascii (join_dots keys)) = Some (lookup_keys data keys).
Proof.
  intros Hne Hks. unfold NestedValue. replace (is_empty _) with false.
  - by rewrite SplitPath_join, walk_words.
  - destruct keys as [|k keys]; [done|]. apply Forall_cons in Hks as [(c & r & Ek & _)%is_word_cons _].
    destruct keys; cbn [join_dots]; by rewrite Ek.
Qed.

Lemma path_goes_on_words w l :
  Forall (fun c => word c = true) w -> path_goes_on InName (w ++ l) = path_goes_on InName l.
Proof. induction 1 as [|c w Hc _ IH]; [done|]. cbn [app path_goes_on]. by rewrite Hc. Qed.

Lemma is_ident_cons k :
  is_ident k = true -> exists c r, list_ascii_of_string k = c :: r /\ ident_start c = true /\ Forall (fun c => word c = true) r.
Proof.
  unfold is_ident. destruct (list_ascii_of_string k) as [|c r]; [done|]. intros [Hc Hr]%andb_true_iff.
  exists c, r. by rewrite <- forallb_Forall.
Qed.

Lemma path_goes_on_join k keys :
  is_ident k = true -> Forall (fun k => is_ident k = true) keys ->
  exists c r, join_dots (k :: keys) = c :: r /\ ident_start c = true /\ path_goes_on InName r = true.
Proof.
  intros Hk Hks. revert k Hk. induction Hks as [|k' keys Hk' _ IH]; intros k Hk;
    destruct (is_ident_cons k Hk) as (c & r & Ek & Hc & Hr).
  - exists c, r. split; [exact Ek|]. split; [done|]. by rewrite <- (app_nil_r r), path_goes_on_words.
  - destruct (IH k' Hk') as (c' & r' & E' & Hc' & Hr').
    exists c, (r ++ "."%char :: join_dots (k' :: keys)).
    change (join_dots (k :: k' :: keys)) with (list_ascii_of_string k ++ "."%char :: join_dots (k' :: keys)).
    rewrite Ek. split; [done|]. split; [done|]. rewrite path_goes_on_words by done. rewrite E'. cbn [path_goes_on].
    change (ident_start c' && path_goes_on InName r' = true). by rewrite Hc', Hr'.
Qed.

Lemma is_variable_join keys :
  keys <> [] -> Forall (fun k => is_ident k = true) keys -> is_variable (join_dots keys) = true.
Proof.
  destruct keys as [|k keys]; [done|]. intros _ [Hk Hks]%Forall_cons.
  destruct (path_goes_on_join k keys Hk Hks) as (c & r & E & Hc & Hr). unfold is_variable. rewrite E. cbn [span].
  apply ident_start_word in Hc as Hw. apply word_facts in Hw as (_ & -> & _). cbn [snd]. by rewrite Hc, Hr.
Qed.

(** ** Nothing but an unfinished index panics *)

Definition finished (p : chars) : Prop := forall f i, cut ["["%char] p = Some (f, i) -> i <> [].

Lemma finished_plain p : "["%char ∉ p -> finished p.
Proof. intros Hp f i. rewrite cut_bracket_none; [done|]. apply Forall_forall. intros c Hc ->. done. Qed.

Lemma finished_more c cur : "["%char ∈ cur -> finished (reverse (c :: cur)).
Proof.
  intros Hin%elem_of_reverse. rewrite reverse_cons. revert Hin. generalize (reverse cur). clear cur. intros p Hp f i.
  revert f. induction p as [|d p IH]; intros f; [by apply not_elem_of_nil in Hp|]. cbn [app].
  destruct (decide (d = "["%char)) as [->|Hd].
  - intros [= _ <-]. by destruct p.
  - rewrite cut_skip by (by apply starts_other). destruct (cut _ (p ++ [c])) as [[f' i']|] eqn:E; [|done].
    intros [= _ <-]. apply elem_of_cons in Hp as [Hp|Hp]; [congruence|]. by eapply IH.
Qed.

Lemma split_path_finished (l cur : chars) (inside : bool) :
  last l <> Some "["%char ->
  (if inside then "["%char ∈ cur /\ (l = [] -> finished (reverse cur)) else finished (reverse cur)) ->
  Forall finished (split_path cur inside l).
Proof.
  assert (forall cur : chars, finished (reverse cur) -> Forall finished (match cur with [] => [] | _ => [reverse cur] end)) as Hflush.
  { intros []; repeat constructor; done. }
  assert (finished (@reverse ascii [])) as Hnil by (apply finished_plain; apply not_elem_of_nil).
  revert cur inside. induction l as [|c l IH]; intros cur inside Hl Hcur; cbn [split_path].
  { apply Hflush. destruct inside; [|done]. by apply Hcur. }
  assert (last l <> Some "["%char) as Hl' by (destruct l; [done|exact Hl]).
  destruct inside.
  - destruct Hcur as [Hin _]. apply IH; [done|].
    destruct (Ascii.eqb c "]"); cbn [negb]; [by apply finished_more|]. split; [by right|]. intros _. by apply finished_more.
  - destruct (Ascii.eqb_spec c "."); [apply Forall_app; split; [by apply Hflush|by apply IH]|].
    destruct (Ascii.eqb_spec c "[") as [->|Hc].
    + destruct cur as [|x cur]; [by apply IH|]. apply IH; [done|]. split; [by left|]. intros ->. by destruct Hl.
    + apply IH; [done|]. destruct (decide ("["%char ∈ cur)) as [Hin|Hno]; [by apply finished_more|].
      apply finished_plain. rewrite elem_of_reverse, elem_of_cons. naive_solver.
Qed.

Lemma get_index_returns v f i : i <> [] -> is_Some (get_index v f i).
Proof. destruct i as [|c i]; [done|]. intros _. unfold get_index. repeat (dmatch; try by eexists). Qed.

Lemma walk_path_returns parts v : Forall (fun p => finished (list_ascii_of_string p)) parts -> is_Some (walk_path v parts).
Proof.
  intros Hp. revert v. induction Hp as [|p parts Hp _ IH]; intros v; cbn [walk_path]; [by eexists|].
  destruct (cut _ _) as [[f i]|] eqn:E.
  - destruct (get_index_returns v f i (Hp _ _ E)) as [v' Ev]. rewrite Ev. cbn [mbind option_bind].
    destruct v; try (by eexists); apply IH.
  - destruct v; try (by eexists); apply IH.
Qed.

Lemma NestedValue_returns data path :
  last (list_ascii_of_string path) <> Some "["%char -> is_Some (NestedValue data path).
Proof.
  intros Hp. unfold NestedValue. destruct (is_empty path); [by eexists|]. apply walk_path_returns. unfold SplitPath.
  rewrite Forall_fmap. assert (Forall finished (split_path [] false (list_ascii_of_string path))) as Hf.
  { apply split_path_finished; [done|]. apply finished_plain. apply not_elem_of_nil. }
  apply (Forall_impl _ _ _ Hf). intros p Hf'. cbn [compose]. by rewrite list_ascii_of_string_of_list_ascii.
Qed.

Lemma path_goes_on_last p (l : chars) :
  path_goes_on p l = true -> l <> [] -> last l <> Some "["%char.
Proof.
  assert (forall c, forallb re_space [c] = true -> c <> "["%char) as Hs by (intros c Hc ->; done).
  revert p. induction l as [|c l IH]; intros p Hg Hne; [done|]. destruct l as [|d l].
  - cbn [last]. intros [= ->]. by destruct p.
  - rewrite last_cons_cons. assert (d :: l <> []) as Hne' by done. revert Hg Hne' IH. generalize (d :: l). clear d l Hne.
    intros l Hg Hne IH. cbn [path_goes_on] in Hg.
    assert (forallb re_space (c :: l) = true -> last l <> Some "["%char) as Hblank.
    { intros Hb Hl. apply last_Some_elem_of, list_elem_of_In in Hl. by pose proof (proj1 (forallb_forall _ _) Hb _ (or_intror Hl)). }
    assert (forall b p', (b && path_goes_on p' l)%bool = true -> last l <> Some "["%char) as Hmore.
    { intros b p' [_ Hp]%andb_true_iff. by apply (IH p'). }
    destruct p; repeat match type of Hg with (if ?b then _ else _) = _ => destruct b end;
      first [by apply (IH _ Hg)|by apply (Hmore _ _ Hg)|by apply Hblank].
Qed.

(** ** Conditionals and variables always come to an end *)

Lemma dotted_rest_head (l : chars) : match (dotted_rest l).1 with [] => True | _ => last (dotted_rest l).1 <> Some "["%char end.
Proof.
  induction l as [|c l IH]; cbn [dotted_rest]; [done|]. destruct (_ || _)%bool eqn:E; [|done].
  destruct (dotted_rest l) as [a b]. cbn [fst] in IH |- *. destruct a as [|d a]; [|by rewrite last_cons_cons].
  intros [= ->]. by vm_compute in E.
Qed.

Lemma dotted_last (l a b : chars) : dotted l = Some (a, b) -> last a <> Some "["%char.
Proof.
  unfold dotted. destruct l as [|c l]; [done|]. destruct (word c); [|done].
  pose proof (dotted_rest_head (c :: l)) as Hl. revert Hl. generalize (dotted_rest (c :: l)).
  intros [a' b'] Hl [= -> ->]. cbn [fst] in Hl. by destruct a.
Qed.

Lemma EvaluateCondition_returns cond data : is_Some (EvaluateCondition cond data).
Proof.
  unfold EvaluateCondition. destruct (split_condition _) as [[[path op] v]|] eqn:E; [|by eexists].
  unfold split_condition in E. destruct (dotted _) as [[a b]|] eqn:Ed; [|done]. cbn [mbind option_bind] in E.
  destruct (operator _) as [o r]. destruct (existsb _ _); [done|]. injection E as <- _ _.
  destruct (NestedValue_returns data (string_of_list_ascii a)) as [x ->]; [|by eexists].
  rewrite list_ascii_of_string_of_list_ascii. by eapply dotted_last.
Qed.

Lemma is_variable_last (inner : chars) : is_variable inner = true -> last inner <> Some "["%char.
Proof.
  unfold is_variable.
  assert (forall a, Forall (fun c => re_space c = true) a -> forall b, last b <> Some "["%char -> last (a ++ b) <> Some "["%char) as Happ.
  { intros a Ha b Hb. rewrite last_app. destruct (last b) eqn:E; [done|]. intros Hl. apply last_Some_elem_of in Hl.
    by apply (proj1 (Forall_forall _ _) Ha) in Hl. }
  assert (inner = (span re_space inner).1 ++ (span re_space inner).2 /\ Forall (fun c => re_space c = true) (span re_space inner).1) as [E Hs].
  { induction inner as [|c l [IH1 IH2]]; cbn [span]; [by split|]. destruct (re_space c) eqn:Ec; [|by split].
    destruct (span re_space l) as [a b]. cbn [fst snd app] in *. split; [by rewrite <- IH1|by constructor]. }
  rewrite E at 2. destruct (span re_space inner).2 as [|c r]; [done|]. intros [Hc Hr]%andb_true_iff. apply Happ; [done|].
  destruct r as [|d r]; [intros [= ->]; by vm_compute in Hc|]. rewrite last_cons_cons. by apply (path_goes_on_last InName).
Qed.

Lemma variable_at_inner l inner n : variable_at l = Some (inner, n) -> is_variable inner = true.
Proof.
  unfold variable_at. destruct (tag_at l) as [[i r]|]; [|done]. cbn [mbind option_bind].
  destruct (is_variable i) eqn:E; [|done]. by intros [= <- _].
Qed.

Lemma replace_variables_returns value l skip :
  (forall inner, is_variable inner = true -> is_Some (value inner)) -> is_Some (replace_variables value skip l).
Proof.
  intros Hv. revert skip. induction l as [|c l IH]; intros skip; [by eexists|]. cbn [replace_variables].
  destruct skip as [|k]; [|apply IH]. destruct (variable_at (c :: l)) as [[inner n]|] eqn:E.
  - destruct (Hv inner) as [v ->]; [by eapply variable_at_inner|]. cbn [mbind option_bind].
    destruct (IH (pred n)) as [out ->]. by eexists.
  - destruct (IH 0%nat) as [out ->]. by eexists.
Qed.

Lemma ProcessVariables_returns template data : is_Some (ProcessVariables template data).
Proof.
  apply replace_variables_returns. intros inner Hi.
  destruct (NestedValue_returns data (string_of_list_ascii inner)) as [v ->]; [|by eexists].
  rewrite list_ascii_of_string_of_list_ascii. by apply is_variable_last.
Qed.

Lemma first_match_sound {A} (at_ : chars -> option (A * chars)) l a m r :
  first_match at_ l = Some (a, m, r) -> exists l', l = a ++ l' /\ at_ l' = Some (m, r).
Proof.
  revert a. induction l as [|c l IH]; intros a; cbn [first_match].
  - destruct (at_ []) as [[m' r']|] eqn:E; [|done]. intros [= <- <- <-]. by exists [].
  - destruct (at_ (c :: l)) as [[m' r']|] eqn:E; [intros [= <- <- <-]; by exists (c :: l)|].
    destruct (first_match at_ l) as [[[b m'] r']|]; [|done]. intros [= <- -> ->].
    destruct (IH b eq_refl) as (l' & -> & Hm). by exists l'.
Qed.

Lemma cut_sound p l a b : cut p l = Some (a, b) -> l = a ++ p ++ b.
Proof.
  revert a. induction l as [|c l IH]; intros a; cbn [cut]; destruct (starts p _) eqn:E.
  - intros [= <- <-]. by destruct p.
  - done.
  - intros [= <- <-]. apply starts_spec in E as [r E]. by rewrite E, drop_app_length.
  - destruct (cut p l) as [[a' b']|]; [|done]. intros [= <- ->]. by rewrite (IH a' eq_refl).
Qed.

Lemma span_length p l : length l = (length (span p l).1 + length (span p l).2)%nat.
Proof. induction l as [|c l IH]; [done|]. cbn [span]. destruct (p c); [|done]. destruct (span p l). simpl in *. lia. Qed.

Lemma tag_at_shorter l inner r : tag_at l = Some (inner, r) -> (length r + 2 <= length l)%nat.
Proof.
  unfold tag_at. destruct (starts open2 l) eqn:E; [|done]. apply starts_spec in E as [l' ->]. rewrite drop_app_length' by done.
  pose proof (span_length no_close l') as Hl. destruct (span no_close l') as [i rest]. cbn [fst snd] in Hl.
  destruct (starts close2 rest); [|done]. intros [= _ <-]. rewrite length_app, length_drop. simpl. lia.
Qed.

(** A round takes the opening and the closing tag away. *)
Lemma if_at_shorter l cond body r : if_at l = Some (cond, body, r) -> (length body + length r < length l)%nat.
Proof.
  unfold if_at. destruct (tag_at l) as [[inner r0]|] eqn:Et; [|done]. cbn [mbind option_bind].
  apply tag_at_shorter in Et. destruct (if_header inner); [|done]. cbn [mbind option_bind].
  destruct (cut _ r0) as [[b r']|] eqn:Ec; [|done]. intros [= _ <- <-]. apply cut_sound in Ec as ->.
  rewrite !length_app in Et. lia.
Qed.

Lemma branch_shorter body :
  let '(t, e) := default (body, []) (cut (tag_of "else") body) in (length t <= length body)%nat /\ (length e <= length body)%nat.
Proof.
  destruct (cut (tag_of "else") body) as [[t e]|] eqn:E; cbn [default from_option id]; [|simpl; lia].
  apply cut_sound in E as ->. rewrite !length_app. lia.
Qed.

Lemma conditionals_return fuel data l : (length l <= fuel)%nat -> is_Some (conditionals fuel data l).
Proof.
  revert l. induction fuel as [|fuel IH]; intros l Hl; cbn [conditionals];
    destruct (first_match if_at l) as [[[a [cond body]] r]|] eqn:E; try (by eexists).
  - apply first_match_sound in E as (l' & -> & Hat). apply if_at_shorter in Hat. rewrite length_app in Hl. lia.
  - apply first_match_sound in E as (l' & -> & Hat). apply if_at_shorter in Hat. rewrite length_app in Hl.
    pose proof (branch_shorter body) as Hb. destruct (default (body, []) _) as [t e].
    destruct (EvaluateCondition_returns cond data) as [b ->]. cbn [mbind option_bind]. apply IH.
    rewrite !length_app. destruct b; lia.
Qed.

(** C30: Whatever the template and the data: conditionals and variables are rendered
    without a panic, and the loop over the conditionals ends. *)
Theorem rendering_returns template data :
  exists afterIfs out, ProcessConditionals template data = Some afterIfs /\ ProcessVariables afterIfs data = Some out.
Proof.
  destruct (conditionals_return (length template) data template) as [a Ha]; [done|].
  destruct (ProcessVariables_returns a data) as [out Hout]. by exists a, out.
Qed.

(** ** The tags of a template *)

Lemma Forall_fmap_app {A B} (f : A -> B) (P : B -> Prop) l : Forall P (map f l) <-> Forall (fun x => P (f x)) l.
Proof. apply Forall_fmap. Qed.

Lemma idents_words keys : Forall (fun k => is_ident k = true) keys -> Forall (fun k => is_word k = true) keys.
Proof. intros Hk. apply (Forall_impl _ _ _ Hk). apply ident_word. Qed.

Lemma path_text keys : Forall (fun k => is_ident k = true) keys -> Forall path_char (join_dots keys).
Proof. intros Hk. by apply join_dots_chars, idents_words. Qed.

Lemma join_dots_is keys s :
  Forall (fun k => is_ident k = true) keys -> split_path [] false (chars_of s) = [chars_of s] ->
  join_dots keys = chars_of s -> keys = [s].
Proof.
  intros Hk Hs E. apply idents_words in Hk. pose proof (split_join keys Hk) as Ek. rewrite E, Hs in Ek.
  destruct keys as [|k [|k' keys]]; try done. injection Ek as Ek. apply list_of_string_inj in Ek. by subst.
Qed.

(** What a pass over leaves meets. *)
Definition plain_tag (s : chars) : Prop :=
  Forall inside_char s /\ for_header s = None /\ if_header s = None /\
  s <> chars_of "else" /\ s <> chars_of "endif" /\ s <> chars_of "endfor".

Lemma leaf_token_ok l : leaf_ok l -> token_ok (leaf_token l).
Proof. destruct l as [s|keys]; [done|]. intros (_ & Hk & _). by apply path_inside, path_text. Qed.

Lemma leaf_tag l s : leaf_ok l -> Tag s = leaf_token l -> plain_tag s.
Proof.
  destruct l as [t|keys]; [done|]. intros (_ & Hk & Hr) [= ->]. pose proof (path_text _ Hk) as Hp.
  destruct (no_blank_no_header _ (path_no_space _ Hp)) as [Hf Hi]. split; [by apply path_inside|].
  unfold reserved in Hr. split_and!; [done..| | |]; intros E; apply join_dots_is in E; try done; rewrite E in Hr; tauto.
Qed.

Lemma leaves_tokens_ok ls : Forall leaf_ok ls -> Forall token_ok (map leaf_token ls).
Proof. intros Hls. apply Forall_fmap_app. apply (Forall_impl _ _ _ Hls). apply leaf_token_ok. Qed.

Lemma leaves_tag ls s : Forall leaf_ok ls -> Tag s ∈ map leaf_token ls -> plain_tag s.
Proof.
  intros Hls (l & E & Hl)%list_elem_of_fmap. apply (leaf_tag l); [|done]. by apply (proj1 (Forall_forall _ _) Hls).
Qed.

Lemma cond_inside cond : braceless cond -> Forall inside_char (if_tag cond).
Proof. intros Hc. unfold if_tag. apply Forall_app. split; [by repeat constructor|exact Hc]. Qed.

Lemma chars_inside s : forallb (fun c => negb (Ascii.eqb c "{") && negb (Ascii.eqb c "}")) (chars_of s) = true -> Forall inside_char (chars_of s).
Proof.
  intros Hs%forallb_Forall. apply (Forall_impl _ _ _ Hs). intros c [Ha Hb]%andb_true_iff. unfold inside_char.
  split; intros ->; done.
Qed.

Lemma block_tokens_ok b : block_ok b -> Forall token_ok (block_tokens b).
Proof.
  destruct b as [l|cond thens elses]; cbn [block_ok block_tokens].
  - intros Hl. constructor; [by apply leaf_token_ok|constructor].
  - intros (_ & Hc & Ht & He). constructor; [by apply cond_inside|]. apply Forall_app. split; [by apply leaves_tokens_ok|].
    apply Forall_app. split; [|constructor; [by apply chars_inside|constructor]]. destruct elses as [e|]; [|constructor].
    constructor; [by apply chars_inside|by apply leaves_tokens_ok].
Qed.

Lemma block_tag b s : block_ok b -> Tag s ∈ block_tokens b -> for_header s = None /\ s <> chars_of "endfor".
Proof.
  destruct b as [l|cond thens elses]; cbn [block_ok block_tokens].
  - intros Hl E%list_elem_of_singleton. apply leaf_tag in E as (_ & ? & _ & _ & _ & ?); done.
  - intros (_ & _ & Ht & He). rewrite elem_of_cons, !elem_of_app. intros [[= ->]|[Hs|[Hs|E%list_elem_of_singleton]]].
    + split; [done|]. by intros E%(f_equal (hd "0"%char)).
    + apply leaves_tag in Hs as (_ & ? & _ & _ & _ & ?); done.
    + destruct elses as [e|]; [|by apply not_elem_of_nil in Hs]. apply elem_of_cons in Hs as [[= ->]|Hs]; [done|].
      apply leaves_tag in Hs as (_ & ? & _ & _ & _ & ?); done.
    + injection E as ->. done.
Qed.

Lemma blocks_tokens_ok bs : Forall block_ok bs -> Forall token_ok (blocks_tokens bs).
Proof.
  induction 1 as [|b bs Hb _ IH]; [constructor|]. unfold blocks_tokens. cbn [map concat]. apply Forall_app.
  split; [by apply block_tokens_ok|exact IH].
Qed.

Lemma blocks_tag bs s : Forall block_ok bs -> Tag s ∈ blocks_tokens bs -> for_header s = None /\ s <> chars_of "endfor".
Proof.
  induction 1 as [|b bs Hb _ IH]; [by intros ?%not_elem_of_nil|]. unfold blocks_tokens. cbn [map concat].
  intros [Hs|Hs]%elem_of_app; [by apply (block_tag b)|by apply IH].
Qed.

(** ** The variables *)

Definition leaves_text (ls : list leaf) : chars := tokens_text (map leaf_token ls).
Definition blocks_text (bs : list block) : chars := tokens_text (blocks_tokens bs).
Definition items_text (is_ : list item) : chars := tokens_text (items_tokens is_).

Lemma leaves_text_app a b : leaves_text (a ++ b) = leaves_text a ++ leaves_text b.
Proof. unfold leaves_text. by rewrite map_app, tokens_text_app. Qed.
Lemma leaves_text_cons l ls : leaves_text (l :: ls) = token_text (leaf_token l) ++ leaves_text ls.
Proof. done. Qed.
Lemma blocks_text_cons b bs : blocks_text (b :: bs) = tokens_text (block_tokens b) ++ blocks_text bs.
Proof. unfold blocks_text, blocks_tokens. cbn [map concat]. by rewrite tokens_text_app. Qed.
Lemma blocks_text_app a b : blocks_text (a ++ b) = blocks_text a ++ blocks_text b.
Proof. unfold blocks_text, blocks_tokens. by rewrite map_app, concat_app, tokens_text_app. Qed.
Lemma items_text_cons i is_ : items_text (i :: is_) = tokens_text (item_tokens i) ++ items_text is_.
Proof. unfold items_text, items_tokens. cbn [map concat]. by rewrite tokens_text_app. Qed.

Lemma tag_length s : length (tag s) = (length s + 4)%nat.
Proof. unfold tag. rewrite !length_app. simpl. lia. Qed.

Lemma replace_variables_skip value a l : replace_variables value (length a) (a ++ l) = replace_variables value 0 l.
Proof. induction a as [|c a IH]; [done|exact IH]. Qed.

Lemma replace_variables_quiet value a l :
  Forall quiet_char a -> replace_variables value 0 (a ++ l) = out ← replace_variables value 0 l; Some (a ++ out).
Proof.
  induction 1 as [|c a Hc _ IH]; cbn [app]; [by destruct (replace_variables value 0 l)|]. cbn [replace_variables].
  unfold variable_at. rewrite tag_at_quiet by done. cbn [mbind option_bind]. rewrite IH. by destruct (replace_variables value 0 l).
Qed.

Lemma replace_variables_tag value s v l :
  Forall inside_char s -> is_variable s = true -> value s = Some v ->
  replace_variables value 0 (tag s ++ l) = out ← replace_variables value 0 l; Some (v ++ out).
Proof.
  intros Hs Hv Ev. assert (variable_at (tag s ++ l) = Some (s, length (tag s))) as E.
  { unfold variable_at. rewrite tag_at_tag by done. cbn [mbind option_bind]. by rewrite Hv, tag_length. }
  destruct (tag s) as [|c t] eqn:Et; [done|]. cbn [app] in E |- *. cbn [replace_variables]. rewrite E.
  cbn [mbind option_bind length pred]. rewrite Ev. cbn [mbind option_bind]. by rewrite replace_variables_skip.
Qed.

Lemma variables_pass ls data :
  Forall leaf_ok ls -> ProcessVariables (leaves_text ls) data = Some (render_leaves data ls).
Proof.
  unfold ProcessVariables. set (value := fun inner => _). induction 1 as [|l ls Hl _ IH]; [done|].
  rewrite leaves_text_cons. unfold render_leaves. cbn [map concat]. fold (render_leaves data ls). destruct l as [s|keys]; cbn [leaf_token token_text render_leaf].
  - by rewrite replace_variables_quiet, IH.
  - destruct Hl as (Hne & Hk & _).
    rewrite (replace_variables_tag value _ (list_ascii_of_string (FormatValue (lookup_keys data keys)))).
    + by rewrite IH.
    + by apply path_inside, path_text.
    + by apply is_variable_join.
    + unfold value. by rewrite NestedValue_join by (done || by apply idents_words).
Qed.

(** ** The conditionals *)

Definition resolve_block (data : list (string * any)) (b : block) : list leaf :=
  match b with Leaf l => [l] | If cond thens elses => chosen data cond thens elses end.

Definition count_ifs (bs : list block) : nat := length (List.filter (fun b => match b with If _ _ _ => true | _ => false end) bs).

Lemma if_at_no_tag l : tag_at l = None -> if_at l = None.
Proof. intros E. unfold if_at. by rewrite E. Qed.
Lemma for_at_no_tag l : tag_at l = None -> for_at l = None.
Proof. intros E. unfold for_at. by rewrite E. Qed.

Lemma if_at_other s l : Forall inside_char s -> if_header s = None -> if_at (tag s ++ l) = None.
Proof. intros Hs Hh. unfold if_at. rewrite tag_at_tag by done. cbn [mbind option_bind]. by rewrite Hh. Qed.
Lemma for_at_other s l : Forall inside_char s -> for_header s = None -> for_at (tag s ++ l) = None.
Proof. intros Hs Hh. unfold for_at. rewrite tag_at_tag by done. cbn [mbind option_bind]. by rewrite Hh. Qed.

Lemma no_ifs_in_leaves ls l :
  Forall leaf_ok ls -> first_match if_at (leaves_text ls ++ l) = after_text (leaves_text ls) (first_match if_at l).
Proof.
  intros Hls. apply first_match_tokens; [apply if_at_no_tag|by apply leaves_tokens_ok|].
  intros s l' Hs. apply leaves_tag in Hs as (? & _ & ? & _); [|done]. by apply if_at_other.
Qed.

(** The text between the opening tag and [{{endif}}], and its two parts. *)
Definition if_body (thens : list leaf) (elses : option (list leaf)) : list token :=
  map leaf_token thens ++ match elses with Some e => Tag (chars_of "else") :: map leaf_token e | None => [] end.

Lemma if_text cond thens elses :
  tokens_text (block_tokens (If cond thens elses)) = tag (if_tag cond) ++ tokens_text (if_body thens elses) ++ tag (chars_of "endif").
Proof.
  cbn [block_tokens]. unfold if_body. rewrite app_assoc. unfold tokens_text. cbn [map concat token_text].
  rewrite (map_app token_text _ [Tag (chars_of "endif")]), concat_app. cbn [map concat token_text]. by rewrite app_nil_r.
Qed.

Lemma if_body_ok cond thens elses :
  block_ok (If cond thens elses) -> Forall token_ok (if_body thens elses) /\ Tag (chars_of "endif") ∉ if_body thens elses.
Proof.
  intros (_ & _ & Ht & He). unfold if_body. split.
  - apply Forall_app. split; [by apply leaves_tokens_ok|]. destruct elses as [e|]; [|constructor].
    constructor; [by apply chars_inside|by apply leaves_tokens_ok].
  - rewrite elem_of_app. intros [Hs|Hs].
    + apply leaves_tag in Hs as (_ & _ & _ & _ & ? & _); done.
    + destruct elses as [e|]; [|by apply not_elem_of_nil in Hs]. apply elem_of_cons in Hs as [Hs|Hs]; [by injection Hs|].
      apply leaves_tag in Hs as (_ & _ & _ & _ & ? & _); done.
Qed.

Lemma if_parts cond thens elses :
  block_ok (If cond thens elses) ->
  default (tokens_text (if_body thens elses), []) (cut (tag_of "else") (tokens_text (if_body thens elses))) =
  (leaves_text thens, leaves_text (default [] elses)).
Proof.
  intros (_ & _ & Ht & He). unfold if_body.
  assert (Tag (chars_of "else") ∉ map leaf_token thens) as Hno.
  { intros Hs. apply leaves_tag in Hs as (_ & _ & _ & ? & _); done. }
  change (tag_of "else") with (tag (chars_of "else")). rewrite tokens_text_app. destruct elses as [e|].
  - change (tokens_text (Tag (chars_of "else") :: map leaf_token e)) with (tag (chars_of "else") ++ leaves_text e).
    rewrite cut_tokens_at; [done|by apply chars_inside|by apply leaves_tokens_ok|done].
  - change (tokens_text []) with (@nil ascii). rewrite app_nil_r.
    rewrite cut_tokens_none; [done|by apply chars_inside|by apply leaves_tokens_ok|done].
Qed.

Lemma if_at_if cond thens elses l :
  block_ok (If cond thens elses) ->
  if_at (tokens_text (block_tokens (If cond thens elses)) ++ l) = Some (TrimSpace cond, tokens_text (if_body thens elses), l).
Proof.
  intros Hok. pose proof Hok as (Hne & Hc & _). destruct (if_body_ok _ _ _ Hok) as [Hts Hno].
  rewrite if_text, <- !app_assoc. unfold if_at. rewrite tag_at_tag by (by apply cond_inside). cbn [mbind option_bind].
  rewrite if_header_tag by done. cbn [mbind option_bind]. change (tag_of "endif") with (tag (chars_of "endif")).
  rewrite cut_tokens_at; [done|by apply chars_inside|done|done].
Qed.

Lemma EvaluateCondition_trim cond data : EvaluateCondition (TrimSpace cond) data = EvaluateCondition cond data.
Proof. unfold EvaluateCondition. by rewrite TrimSpace_idem. Qed.

Lemma chosen_ok data cond thens elses : block_ok (If cond thens elses) -> Forall leaf_ok (chosen data cond thens elses).
Proof. intros (_ & _ & Ht & He). unfold chosen. by destruct (holds cond data). Qed.

Lemma conditionals_pass fuel data bs ls :
  Forall leaf_ok ls -> Forall block_ok bs -> (count_ifs bs <= fuel)%nat ->
  conditionals fuel data (leaves_text ls ++ blocks_text bs) = Some (leaves_text (ls ++ concat (map (resolve_block data) bs))).
Proof.
  intros Hls Hbs. revert fuel ls Hls. induction Hbs as [|b bs Hb Hbs IH]; intros fuel ls Hls Hf.
  - cbn [map concat]. rewrite app_nil_r. unfold blocks_text, tokens_text. cbn [blocks_tokens map concat].
    assert (first_match if_at (leaves_text ls ++ []) = None) as E.
    { by rewrite no_ifs_in_leaves, (first_match_nil if_at if_at_no_tag). }
    rewrite app_nil_r in E |- *. destruct fuel; cbn [conditionals]; by rewrite E.
  - rewrite blocks_text_cons. destruct b as [l|cond thens elses].
    + change (tokens_text (block_tokens (Leaf l))) with (leaves_text [l]). rewrite app_assoc, <- leaves_text_app.
      rewrite IH; [|apply Forall_app; split; [done|by constructor]|exact Hf]. do 2 f_equal. cbn [map concat resolve_block].
      by rewrite <- app_assoc.
    + destruct fuel as [|fuel]; [cbn in Hf; lia|].
      assert (first_match if_at (leaves_text ls ++ tokens_text (block_tokens (If cond thens elses)) ++ blocks_text bs) =
        Some (leaves_text ls, (TrimSpace cond, tokens_text (if_body thens elses)), blocks_text bs)) as E.
      { rewrite no_ifs_in_leaves by done. rewrite (first_match_at if_at _ _ _ (if_at_if _ _ _ _ Hb)). cbn. by rewrite app_nil_r. }
      cbn [conditionals]. rewrite E. rewrite (if_parts cond) by done.
      rewrite EvaluateCondition_trim. destruct (EvaluateCondition_returns cond data) as [v Ev]. rewrite Ev. cbn [mbind option_bind].
      replace (if v then leaves_text thens else leaves_text (default [] elses)) with (leaves_text (chosen data cond thens elses)).
      * rewrite app_assoc, <- leaves_text_app. rewrite IH.
        -- do 2 f_equal. cbn [map concat resolve_block]. by rewrite <- app_assoc.
        -- apply Forall_app. split; [done|by apply chosen_ok].
        -- cbn in Hf. unfold count_ifs. lia.
      * unfold chosen, holds. rewrite Ev. by destruct v.
Qed.

Lemma count_ifs_length bs : (count_ifs bs <= length (blocks_text bs))%nat.
Proof.
  induction bs as [|[l|cond t e] bs IH]; [done|..]; rewrite blocks_text_cons, length_app.
  - cbn in IH |- *. unfold count_ifs in IH. lia.
  - rewrite if_text, length_app, tag_length. unfold count_ifs in IH |- *. cbn [List.filter length]. lia.
Qed.

Lemma resolved_ok data bs : Forall block_ok bs -> Forall leaf_ok (concat (map (resolve_block data) bs)).
Proof.
  induction 1 as [|b bs Hb _ IH]; [constructor|]. cbn [map concat]. apply Forall_app. split; [|exact IH].
  destruct b as [l|cond t e]; [by constructor|by apply chosen_ok].
Qed.

Lemma render_resolved data bs : render_leaves data (concat (map (resolve_block data) bs)) = render_blocks data bs.
Proof.
  induction bs as [|b bs IH]; [done|]. unfold render_blocks, render_leaves in *. cbn [map concat].
  rewrite map_app, concat_app, IH. f_equal. destruct b; [|done]. cbn. by rewrite app_nil_r.
Qed.

(** Blocks: the conditionals, then the variables of what is left. *)
Lemma blocks_pass bs data :
  Forall block_ok bs ->
  exists out, ProcessConditionals (blocks_text bs) data = Some out /\ ProcessVariables out data = Some (render_blocks data bs).
Proof.
  intros Hbs. exists (leaves_text (concat (map (resolve_block data) bs))). split.
  - unfold ProcessConditionals. apply (conditionals_pass _ data bs []); [constructor|done|apply count_ifs_length].
  - rewrite variables_pass by (by apply resolved_ok). by rewrite render_resolved.
Qed.

(** ** The loops *)

Definition resolve (data : list (string * any)) (i : item) : block :=
  match i with Block b => b | For _ _ _ => Leaf (Txt (render_item data i)) end.

Lemma for_tag_inside x path :
  is_word x = true -> Forall (fun k => is_word k = true) path -> Forall inside_char (for_tag x path).
Proof.
  intros Hx Hp. unfold for_tag. repeat (apply Forall_app; split); try (by repeat constructor).
  - apply (Forall_impl _ _ _ (forallb_words x Hx)). intros c Hc. by apply word_facts in Hc as [? _].
  - by apply path_inside, join_dots_chars.
Qed.

Lemma item_text_for x path body :
  tokens_text (item_tokens (For x path body)) = tag (for_tag x path) ++ blocks_text body ++ tag (chars_of "endfor").
Proof.
  cbn [item_tokens]. unfold tokens_text. cbn [map concat token_text].
  rewrite (map_app token_text _ [Tag (chars_of "endfor")]), concat_app. cbn [map concat token_text]. by rewrite app_nil_r.
Qed.

Lemma no_fors_in_blocks bs l :
  Forall block_ok bs -> first_match for_at (blocks_text bs ++ l) = after_text (blocks_text bs) (first_match for_at l).
Proof.
  intros Hbs. pose proof (blocks_tokens_ok bs Hbs) as Hts. apply first_match_tokens; [apply for_at_no_tag|done|].
  intros s l' Hs. apply for_at_other; [by apply (proj1 (Forall_forall _ _) Hts) in Hs|by apply blocks_tag in Hs as [? _]].
Qed.

Lemma for_at_for x path body l :
  item_ok (For x path body) ->
  for_at (tokens_text (item_tokens (For x path body)) ++ l) =
    Some (x, string_of_list_ascii (join_dots path), blocks_text body, l).
Proof.
  intros (Hx & Hne & Hp & Hb). rewrite item_text_for, <- !app_assoc. unfold for_at.
  rewrite tag_at_tag by (by apply for_tag_inside). cbn [mbind option_bind]. rewrite for_header_tag by done. cbn [mbind option_bind].
  change (tag_of "endfor") with (tag (chars_of "endfor")).
  unfold blocks_text at 1. rewrite cut_tokens_at; [done|by apply chars_inside|by apply blocks_tokens_ok|].
  intros Hs. by apply blocks_tag in Hs as [_ ?].
Qed.

Lemma loop_output_spec x body data n arr :
  Forall block_ok body ->
  loop_output x (blocks_text body) data n arr =
    Some (concat (imap (fun k v => render_blocks (loop_data x (n + k) v data) body) arr)).
Proof.
  intros Hb. revert n. induction arr as [|v arr IH]; intros n; [done|]. cbn [loop_output].
  destruct (blocks_pass body (loop_data x n v data) Hb) as (out & -> & Hv). cbn [mbind option_bind]. rewrite Hv.
  cbn [mbind option_bind]. rewrite IH. cbn [mbind option_bind imap concat]. rewrite Nat.add_0_r. do 3 f_equal.
  apply imap_ext. intros k w _. cbn [compose]. by rewrite Nat.add_succ_comm.
Qed.

(** ** Values that open no tag *)

Lemma no_open_quiet s : no_open s = true -> Forall quiet_char (list_ascii_of_string s).
Proof.
  intros Hs%forallb_Forall. apply (Forall_impl _ _ _ Hs). intros c Hc%negb_true_iff. by apply Ascii.eqb_neq in Hc.
Qed.

Lemma quiet_no_open s : Forall quiet_char (list_ascii_of_string s) -> no_open s = true.
Proof.
  intros Hs. apply forallb_Forall. apply (Forall_impl _ _ _ Hs). intros c Hc. apply negb_true_iff. by apply Ascii.eqb_neq.
Qed.

Lemma tame_prints v : tame v = true -> Forall quiet_char (list_ascii_of_string (FormatValue v)).
Proof. intros Hv. apply no_open_quiet. by destruct v; apply andb_true_iff in Hv as [? _]. Qed.

Lemma map_get_tame m k : forallb (fun e => tame e.2) m = true -> tame (map_get m k) = true.
Proof.
  induction m as [|[x v] m IH]; [done|]. cbn [forallb map_get snd]. intros [Hv Hm]%andb_true_iff.
  destruct (String.eqb x k); [done|by apply IH].
Qed.

Lemma get_field_tame v k : tame v = true -> tame (get_field v k) = true.
Proof. destruct v; try done. cbn [tame get_field]. intros [_ Hm]%andb_true_iff. by apply map_get_tame. Qed.

Lemma lookup_keys_tame data keys : keys <> [] -> tame_data data = true -> tame (lookup_keys data keys) = true.
Proof.
  destruct keys as [|k keys]; [done|]. intros _ Hd. unfold lookup_keys. cbn [fold_left].
  assert (tame (get_field (AMap data) k) = true) as Hk by (by apply map_get_tame).
  revert Hk. generalize (get_field (AMap data) k). induction keys as [|k' keys IH]; intros v Hv; [done|].
  cbn [fold_left]. by apply IH, get_field_tame.
Qed.

Lemma Itoa_quiet z : Forall quiet_char (list_ascii_of_string (Itoa z)).
Proof.
  assert (forall s acc n, digits_from acc s = Some n -> Forall quiet_char (list_ascii_of_string s)) as Hdig.
  { induction s as [|c s IH]; intros acc n; cbn [digits_from list_ascii_of_string]; [constructor|].
    destruct (digit c) as [d|] eqn:E; [|done]. intros Hs. constructor; [intros ->; by vm_compute in E|by eapply IH]. }
  assert (forall p : N, Forall quiet_char (list_ascii_of_string (pretty p))) as Hp.
  { intros p. pose proof (unsigned_pretty p) as Hu. unfold unsigned in Hu. destruct (is_empty _); [done|].
    destruct (digits_from 0 (pretty p)) as [n|] eqn:E; [|done]. by eapply Hdig. }
  unfold Itoa, pretty, pretty_Z. destruct z as [|p|p]; [by apply (Hp 0%N)|by apply (Hp (Npos p))|].
  change (Forall quiet_char ("-"%char :: list_ascii_of_string (pretty (Npos p)))). by constructor.
Qed.

Lemma loop_data_tame x n v data : tame v = true -> tame_data data = true -> tame_data (loop_data x n v data) = true.
Proof.
  intros Hv Hd. unfold loop_data, set_key, tame_data.
  assert (forall (p : string * any -> bool) m, forallb (fun e => tame e.2) m = true -> forallb (fun e => tame e.2) (List.filter p m) = true) as Hf.
  { intros p m. rewrite !forallb_forall. intros Hm e [He _]%filter_In. by apply Hm. }
  cbn [forallb snd]. assert (tame (AInt (Z.of_nat n)) = true) as ->.
  { cbn [tame FormatValue]. by rewrite (quiet_no_open _ (Itoa_quiet _)). }
  apply Hf. cbn [forallb snd]. rewrite Hv. by apply Hf.
Qed.

Lemma concat_quiet (ls : list chars) : Forall (Forall quiet_char) ls -> Forall quiet_char (concat ls).
Proof. induction 1; [constructor|]. cbn [concat]. by apply Forall_app. Qed.

Lemma render_leaves_quiet data ls : tame_data data = true -> Forall leaf_ok ls -> Forall quiet_char (render_leaves data ls).
Proof.
  intros Hd Hls. apply concat_quiet, Forall_fmap_app. apply (Forall_impl _ _ _ Hls). intros [s|keys]; [done|].
  intros (Hne & _ & _). by apply tame_prints, lookup_keys_tame.
Qed.

Lemma render_blocks_quiet data bs : tame_data data = true -> Forall block_ok bs -> Forall quiet_char (render_blocks data bs).
Proof. intros Hd Hbs. rewrite <- render_resolved. by apply render_leaves_quiet, resolved_ok. Qed.

Lemma resolve_parts_ok data i : tame_data data = true -> item_ok i -> block_ok (resolve data i).
Proof.
  intros Hd. destruct i as [b|x path body]; [done|]. intros (Hx & Hne & Hp & Hb). cbn [resolve block_ok leaf_ok render_item].
  pose proof (lookup_keys_tame data path Hne Hd) as Ht. destruct (lookup_keys data path) as [| | | | | |arr|]; try constructor.
  apply concat_quiet. cbn [tame] in Ht. apply andb_true_iff in Ht as [_ Ht%forallb_Forall].
  assert (Forall (fun v => tame v = true) (take 50 arr)) as Ha by (by apply Forall_take). clear Ht.
  apply Forall_forall. intros out Hout. apply elem_of_lookup_imap in Hout as (k & v & -> & Hv).
  apply render_blocks_quiet; [|done]. apply loop_data_tame; [|done].
  by apply (proj1 (Forall_forall _ _) Ha), (list_elem_of_lookup_2 _ k).
Qed.

Definition count_fors (is_ : list item) : nat := length (List.filter (fun i => match i with For _ _ _ => true | _ => false end) is_).

Lemma loops_pass fuel data is_ bs :
  tame_data data = true -> Forall block_ok bs -> Forall item_ok is_ -> (count_fors is_ <= fuel)%nat ->
  ProcessForLoops fuel (blocks_text bs ++ items_text is_) data = Some (blocks_text (bs ++ map (resolve data) is_)).
Proof.
  intros Hd Hbs His. revert fuel bs Hbs. induction His as [|i is_ Hi His IH]; intros fuel bs Hbs Hf.
  - cbn [map]. rewrite app_nil_r. change (items_text []) with (@nil ascii).
    assert (first_match for_at (blocks_text bs ++ []) = None) as E.
    { by rewrite no_fors_in_blocks, (first_match_nil for_at for_at_no_tag). }
    rewrite app_nil_r in E |- *. destruct fuel; cbn [ProcessForLoops]; by rewrite E.
  - rewrite items_text_cons. assert (forall fuel, (count_fors is_ <= fuel)%nat ->
      ProcessForLoops fuel (blocks_text (bs ++ [resolve data i]) ++ items_text is_) data = Some (blocks_text (bs ++ map (resolve data) (i :: is_)))) as IH'.
    { intros fuel' Hf'. rewrite IH; [|apply Forall_app; split; [done|constructor; [by apply resolve_parts_ok|constructor]]|done].
      by rewrite <- app_assoc. }
    destruct i as [b|x path body].
    + rewrite app_assoc. replace (blocks_text bs ++ tokens_text (item_tokens (Block b))) with (blocks_text (bs ++ [b])); [by apply IH'|].
      rewrite blocks_text_app, (blocks_text_cons b). change (blocks_text []) with (@nil ascii). by rewrite app_nil_r.
    + destruct fuel as [|fuel]; [cbn in Hf; lia|].
      assert (first_match for_at (blocks_text bs ++ tokens_text (item_tokens (For x path body)) ++ items_text is_) =
        Some (blocks_text bs, (x, string_of_list_ascii (join_dots path), blocks_text body), items_text is_)) as E.
      { rewrite no_fors_in_blocks by done. rewrite (first_match_at for_at _ _ _ (for_at_for _ _ _ _ Hi)). cbn. by rewrite app_nil_r. }
      cbn [ProcessForLoops]. rewrite E. pose proof Hi as (Hx & Hne & Hp & Hb). rewrite NestedValue_join by done.
      cbn [mbind option_bind]. specialize (IH' fuel). cbn in Hf. unfold count_fors in IH'. rewrite blocks_text_app, <- app_assoc in IH'.
      match goal with |- (?o ≫= _) = _ => replace o with (Some (render_item data (For x path body))) end.
      { cbn [mbind option_bind]. rewrite <- IH' by lia. cbn [resolve]. rewrite blocks_text_cons.
        change (blocks_text []) with (@nil ascii). rewrite app_nil_r. unfold tokens_text. cbn [block_tokens leaf_token map concat token_text].
        by rewrite app_nil_r. }
      cbn [render_item]. destruct (lookup_keys data path); try done. by rewrite loop_output_spec.
Qed.

Lemma count_fors_length is_ : (count_fors is_ <= length is_)%nat.
Proof. apply (List.filter_length_le). Qed.

(** C29: A template renders to its meaning: loops give their body once for each of
    the first fifty entries, with the entry and its number bound; conditionals
    give the branch their condition selects; variables give the printed value
    their keys lead to.  One round for each loop is fuel enough.  This holds of
    a template written in the syntax - text without opening braces, conditions
    that are not empty and have no braces, names that are words and no keywords, no loop in a loop, no
    conditional in a conditional - and of data none of whose values prints an
    opening brace: what a loop or a conditional puts in the text is read again
    as a template. *)
Theorem Process_renders fuel is_ data :
  Forall item_ok is_ -> tame_data data = true -> (length is_ <= fuel)%nat ->
  Process fuel (written_template is_) data = Some (render data is_).
Proof.
  intros His Hd Hf. unfold Process, written_template. rewrite list_ascii_of_string_of_list_ascii.
  pose proof (count_fors_length is_) as Hc. pose proof (loops_pass fuel data is_ [] Hd (Forall_nil_2 _) His) as E.
  change (blocks_text [] ++ items_text is_) with (tokens_text (items_tokens is_)) in E. rewrite E by lia. cbn [mbind option_bind app].
  destruct (blocks_pass (map (resolve data) is_) data) as (out & -> & Hv).
  { apply Forall_fmap_app. apply (Forall_impl _ _ _ His). intros i. by apply resolve_parts_ok. }
  cbn [mbind option_bind]. rewrite Hv. cbn [mbind option_bind]. unfold render, render_blocks. do 3 f_equal. rewrite map_map.
  apply map_ext. by intros [].
Qed.
End Paths.
