(* ===== verification/Escapes.v ===== *)
(** * Encoding the values put into a document ([templating.Encode])

    A value written inside a JSON string reads back as itself, whatever it
    holds; a value written into a header adds no line; a value written into a
    query adds no parameter.  Then templates on concrete data. *)
From S2P Require Import Prelude GoLib Events Wire Text QueryText Fields Schedule Placeholders Templating TemplatingProps.
#[local] Open Scope string_scope.
#[local] Open Scope list_scope.
#[local] Open Scope Z_scope.

(** ** Reading what stands inside a JSON string *)

Definition hex_value (c : ascii) : option N :=
  if numeric c then digit c
  else if between 97 102 c then Some (N_of_ascii c - 87)%N
  else if between 65 70 c then Some (N_of_ascii c - 55)%N else None.

(** UTF-8 of a code point below U+10000. *)
Definition utf8 (n : N) : chars :=
  if (n <? 128)%N then [ascii_of_N n]
  else if (n <? 2048)%N then [ascii_of_N (192 + n / 64); ascii_of_N (128 + n mod 64)]
  else [ascii_of_N (224 + n / 4096); ascii_of_N (128 + n / 64 mod 64); ascii_of_N (128 + n mod 64)].

Definition simple_escape (e : ascii) : option ascii :=
  if Ascii.eqb e "034" || Ascii.eqb e "\" || Ascii.eqb e "/" then Some e
  else if Ascii.eqb e "b" then Some "008"%char
  else if Ascii.eqb e "f" then Some "012"%char
  else if Ascii.eqb e "n" then Some "010"%char
  else if Ascii.eqb e "r" then Some "013"%char
  else if Ascii.eqb e "t" then Some "009"%char
  else None.

(** The text a JSON string stands for; [None] where the string would end early or be malformed. *)
Fixpoint unescape (l : chars) : option chars :=
  match l with
  | [] => Some []
  | c :: r =>
      if Ascii.eqb c "\" then
        match r with
        | e :: r =>
            if Ascii.eqb e "u" then
              match r with
              | h1 :: h2 :: h3 :: h4 :: r =>
                  a ← hex_value h1; b ← hex_value h2; c ← hex_value h3; d ← hex_value h4;
                  out ← unescape r; Some (utf8 (4096 * a + 256 * b + 16 * c + d) ++ out)
              | _ => None
              end
            else x ← simple_escape e; out ← unescape r; Some (x :: out)
        | [] => None
        end
      else if Ascii.eqb c "034" || (N_of_ascii c <? 32)%N then None
      else out ← unescape r; Some (c :: out)
  end.

(** ** Lemmas *)

Lemma unescape_high c l : (128 <= N_of_ascii c)%N -> unescape (c :: l) = out ← unescape l; Some (c :: out).
Proof.
  intros Hc. cbn [unescape]. destruct (Ascii.eqb_spec c "\") as [->|_]; [by vm_compute in Hc|].
  destruct (Ascii.eqb_spec c "034") as [->|_]; [by vm_compute in Hc|].
  destruct (N.ltb_spec (N_of_ascii c) 32); [lia|]. done.
Qed.

Lemma unescape_highs a l :
  Forall (fun c => (128 <= N_of_ascii c)%N) a -> unescape (a ++ l) = out ← unescape l; Some (a ++ out).
Proof.
  induction 1 as [|c a Hc _ IH]; cbn [app]; [by destruct (unescape l)|]. rewrite unescape_high, IH by done.
  by destruct (unescape l).
Qed.

(** One byte: checked for all of ASCII. *)
Lemma unescape_ascii b l : (N_of_ascii b < 128)%N -> unescape (json_char [b] ++ l) = out ← unescape l; Some (b :: out).
Proof.
  destruct b as [[] [] [] [] [] [] [] []]; intros Hb; first [by vm_compute in Hb|clear Hb];
    cbn [json_char N_of_ascii N_of_digits]; cbn; by destruct (unescape l).
Qed.

Lemma in_range_ge (r : N * N) c : in_range r c = true -> (r.1 <= N_of_ascii c)%N.
Proof. unfold in_range. rewrite andb_true_iff, !N.leb_le. lia. Qed.

Lemma rune_tail_facts c rs :
  rune_tail c = Some rs ->
  match rs with [] => (N_of_ascii c < 128)%N | _ => (128 <= N_of_ascii c)%N /\ Forall (fun r => (128 <= r.1)%N) rs end.
Proof.
  destruct c as [[] [] [] [] [] [] [] []]; vm_compute; intros [= <-]; try done; (split; [done|repeat constructor; done]).
Qed.

Lemma follows_high rs l : Forall (fun r => (128 <= r.1)%N) rs -> follows rs l = true ->
  length (take (length rs) l) = length rs /\ Forall (fun c => (128 <= N_of_ascii c)%N) (take (length rs) l).
Proof.
  intros Hrs. revert l. induction Hrs as [|r rs Hr _ IH]; intros l Hf; [by split|].
  destruct l as [|c l]; [done|]. cbn [follows] in Hf. apply andb_true_iff in Hf as [Hc Hf]. apply in_range_ge in Hc.
  destruct (IH _ Hf) as [Hl Ha]. cbn [length take]. split; [by rewrite Hl|]. constructor; [lia|done].
Qed.

(** Two and more bytes: they stay, but for U+2028 and U+2029. *)
Lemma unescape_multi a b t l :
  Forall (fun c => (128 <= N_of_ascii c)%N) (a :: b :: t) ->
  unescape (json_char (a :: b :: t) ++ l) = out ← unescape l; Some ((a :: b :: t) ++ out).
Proof.
  intros Hc. destruct t as [|d [|e t]]; [by apply unescape_highs| |by apply unescape_highs]. cbn [json_char].
  destruct (_ && _)%bool eqn:E; [|by apply unescape_highs].
  apply andb_true_iff in E as [E Ed]. apply andb_true_iff in E as [Ea%N.eqb_eq Eb%N.eqb_eq].
  rewrite <- (ascii_N_embedding a), Ea, <- (ascii_N_embedding b), Eb, <- (ascii_N_embedding d).
  apply orb_true_iff in Ed as [Ed%N.eqb_eq|Ed%N.eqb_eq]; rewrite Ed; cbn; by destruct (unescape l).
Qed.

Lemma valid_runes_skip k l : (k <= length l)%nat -> valid_runes k l = valid_runes 0 (drop k l).
Proof. revert l. induction k as [|k IH]; intros [|c l] Hk; try done. apply IH. simpl in Hk. lia. Qed.

Lemma unescape_characters n l :
  (length l <= n)%nat -> valid_runes 0 l = true -> unescape (concat (map json_char (split_runes [] 0 l))) = Some l.
Proof.
  revert l. induction n as [|n IH]; intros [|c l] Hn Hv; try done; [simpl in Hn; lia|].
  rewrite split_cons. cbn [map concat]. cbn [valid_runes] in Hv. pose proof (rune_more_le c l) as Hle.
  destruct (rune_more c l) as [k|] eqn:E; [|done]. cbn [default from_option id] in Hle |- *. rewrite valid_runes_skip in Hv by done.
  assert (unescape (concat (map json_char (split_runes [] 0 (drop k l)))) = Some (drop k l)) as IH'.
  { apply IH; [|done]. rewrite length_drop. simpl in Hn. lia. }
  unfold rune_more in E. destruct (rune_tail c) as [rs|] eqn:Et; [|done]. apply rune_tail_facts in Et.
  destruct (follows rs l) eqn:Ef; [|done]. injection E as <-. destruct rs as [|r rs].
  - cbn [length take drop] in IH' |- *. rewrite unescape_ascii by done. by rewrite IH'.
  - destruct Et as [Hc Hrs]. destruct (follows_high _ _ Hrs Ef) as [Hl Ha].
    destruct (take (length (r :: rs)) l) as [|b t] eqn:Etk; [done|].
    rewrite unescape_multi by (by constructor). rewrite IH'. cbn [mbind option_bind].
    by rewrite <- (take_drop (length (r :: rs)) l) at 2; rewrite Etk.
Qed.

(** C31: A value encoded for JSON reads back as itself: it cannot end the string it
    is put in, nor add anything to the document. *)
Theorem json_values_read_back raw :
  ValidString raw = true -> unescape (list_ascii_of_string (Encode EscapeJSON raw)) = Some (list_ascii_of_string raw).
Proof.
  intros Hv. cbn [Encode]. rewrite list_ascii_of_string_of_list_ascii. by eapply unescape_characters.
Qed.

(** ** Headers *)

Section Headers.
Context `{FE : FieldsEnv}.

Definition one_line (l : chars) : Prop := Forall (fun c => line_break c = false) l.

Lemma encoded_header_one_line raw : one_line (list_ascii_of_string (Encode EscapeHeader raw)).
Proof.
  cbn [Encode]. rewrite list_ascii_of_string_of_list_ascii. apply Forall_forall. intros c Hc%list_elem_of_In.
  apply filter_In in Hc as [_ Hc]. by apply negb_true_iff in Hc.
Qed.

Lemma tag_inner_part l inner r : tag_at l = Some (inner, r) -> forall c, c ∈ inner -> c ∈ l.
Proof.
  unfold tag_at. destruct (starts open2 l) eqn:E; [|done]. apply starts_spec in E as [l' ->]. rewrite drop_app_length' by done.
  assert (forall c, c ∈ (span no_close l').1 -> c ∈ l') as Hs.
  { induction l' as [|x l' IH]; cbn [span]; [done|]. destruct (no_close x); [|by intros c ?%not_elem_of_nil].
    destruct (span no_close l') as [a b]. cbn [fst] in *. intros c [->|Hc]%elem_of_cons; [by left|right; by apply IH]. }
  destruct (span no_close l') as [i rest]. cbn [fst] in Hs. destruct (starts close2 rest); [|done]. intros [= <- _] c Hc.
  apply elem_of_app. right. by apply Hs.
Qed.

Lemma replace_variables_one_line value l skip out :
  (forall inner v, one_line inner -> value inner = Some v -> one_line v) ->
  one_line l -> replace_variables value skip l = Some out -> one_line out.
Proof.
  intros Hv. revert skip out. induction l as [|c l IH]; intros skip out Hl; cbn [replace_variables]; [by intros [= <-]; constructor|].
  apply Forall_cons in Hl as Hcl. destruct Hcl as [Hc Hl']. destruct skip as [|k]; [|by apply IH].
  destruct (variable_at (c :: l)) as [[inner n]|] eqn:E.
  - destruct (value inner) as [v|] eqn:Ev; [|done]. cbn [mbind option_bind].
    destruct (replace_variables value (pred n) l) as [o|] eqn:Eo; [|done]. intros [= <-]. apply Forall_app. split; [|by eapply IH].
    apply (Hv inner); [|done]. unfold variable_at in E. destruct (tag_at (c :: l)) as [[i r]|] eqn:Et; [|done].
    cbn [mbind option_bind] in E. destruct (is_variable i); [|done]. injection E as <- _.
    apply Forall_forall. intros x Hx. apply (tag_inner_part _ _ _ Et) in Hx. by apply (proj1 (Forall_forall _ _) Hl).
  - destruct (replace_variables value 0 l) as [o|] eqn:Eo; [|done]. intros [= <-]. constructor; [done|by eapply IH].
Qed.

(** A header rendered from a one-line template is one line, whatever the data. *)
Theorem rendered_header_is_one_line template data out :
  one_line (list_ascii_of_string template) -> RenderEscaped template data EscapeHeader = Some out -> one_line (list_ascii_of_string out).
Proof.
  intros Ht. unfold RenderEscaped, ProcessVariablesWith. set (value := fun inner => _).
  destruct (replace_variables value 0 _) as [o|] eqn:E; [|done]. intros [= <-]. rewrite list_ascii_of_string_of_list_ascii.
  apply (replace_variables_one_line _ _ _ _) with (2 := Ht) (3 := E). intros inner v Hi. unfold value.
  destruct (LookupNested _ _) as [[x found]|]; [|done]. cbn [mbind option_bind rv_Found rv_Value rv_Raw]. intros <-%(inj Some).
  destruct found; [apply encoded_header_one_line|]. rewrite list_ascii_of_string_of_list_ascii. unfold tag, open2, close2.
  apply Forall_app. split; [by repeat constructor|]. apply Forall_app. split; [done|by repeat constructor].
Qed.

(** ** Queries *)

(** A value encoded for a query separates nothing. *)
Lemma encoded_query_chars raw :
  Forall (fun c => word c = true \/ one_of "-.~+%" c = true) (list_ascii_of_string (Encode EscapeQuery raw)).
Proof.
  cbn [Encode]. rewrite list_ascii_of_string_of_list_ascii.
  assert (forall c, Forall (fun c => word c = true \/ one_of "-.~+%" c = true) (query_char c)) as Hq.
  { intros c. assert (forallb (fun c => word c || one_of "-.~+%" c) (query_char c) = true) as Hb%forallb_Forall.
    { by destruct c as [[] [] [] [] [] [] [] []]; vm_compute. }
    apply (Forall_impl _ _ _ Hb). intros d. apply orb_true_iff. }
  induction (list_ascii_of_string raw) as [|c l IH]; [constructor|]. cbn [map concat]. by apply Forall_app.
Qed.
End Headers.

(** * Templates on concrete data

    Instances of the theorems, and behaviours worth knowing. *)
#[local] Open Scope string_scope.
#[local] Open Scope list_scope.
#[local] Open Scope Z_scope.

#[local] Instance sample_fmt : GoFmt := {| FormatFloat _ := "0.5"; Sprint v := match v with AString s => s | _ => "value" end |}.
#[local] Instance sample_parse : FieldsEnv := {|
  ParseFloat s := (fun n => Finite (float_of_int n)) <$> ParseInt s;
  Sprintf_q v := "value"
|}.

Definition sample_data : list (string * any) :=
  [("name", AString "Ada"); ("user", AMap [("age", AInt 40)]);
   ("items", AList [AMap [("title", AString "tea"); ("price", AInt 3)]; AMap [("title", AString "cake"); ("price", AInt 7)]])].

Definition lit (s : string) : leaf := Txt (list_ascii_of_string s).

(** Dear {{name}}, {{if user.age > 30}}welcome{{else}}hi{{endif}}: {{for i in items}}... *)
Definition sample_template_items : list item :=
  [Block (Leaf (lit "Dear ")); Block (Leaf (Var ["name"])); Block (Leaf (lit ", "));
   Block (If "user.age > 30" [lit "welcome"] (Some [lit "hi"])); Block (Leaf (lit ":"));
   For "i" ["items"]
     [Leaf (lit " "); Leaf (Var ["i"; "title"]); If "i.price >= 5" [lit "!"] None]].

Lemma sample_items_ok : Forall item_ok sample_template_items.
Proof.
  repeat constructor; cbn; try done; try (by repeat constructor); try (by unfold reserved; naive_solver).
Qed.

Lemma Process_renders_witness :
  tame_data sample_data = true /\
  Process 6 (written_template sample_template_items) sample_data = Some "Dear Ada, welcome: tea cake!".
Proof.
  assert (tame_data sample_data = true) as Ht by reflexivity. split; [exact Ht|].
  rewrite (Process_renders 6 sample_template_items sample_data sample_items_ok Ht (le_n 6)). reflexivity.
Defined.

Example sample_template_text :
  written_template sample_template_items =
    "Dear {{name}}, {{if user.age > 30}}welcome{{else}}hi{{endif}}:{{for i in items}} {{i.title}}{{if i.price >= 5}}!{{endif}}{{endfor}}".
Proof. reflexivity. Qed.

Lemma json_values_read_back_witness :
  ValidString "a<b" = true /\ unescape (list_ascii_of_string (Encode EscapeJSON "a<b")) = Some (list_ascii_of_string "a<b").
Proof. split; [reflexivity|]. by apply (json_values_read_back "a<b"). Defined.

Lemma rendered_header_is_one_line_witness :
  RenderEscaped "Bearer {{name}}" [("name", AString (String "A" (String "010" "B")))] EscapeHeader = Some "Bearer AB" /\
  one_line (list_ascii_of_string "Bearer AB").
Proof.
  assert (RenderEscaped "Bearer {{name}}" [("name", AString (String "A" (String "010" "B")))] EscapeHeader = Some "Bearer AB") as E by reflexivity.
  split; [exact E|]. apply (rendered_header_is_one_line "Bearer {{name}}" _ "Bearer AB") with (2 := E). by repeat constructor.
Defined.

(** ** Behaviours worth knowing *)

(** Blanks inside the braces are matched, and the value is lost. *)
Example blanks_lose_the_value : Process 0 "Hi {{ name }}!" sample_data = Some "Hi !".
Proof. reflexivity. Qed.

(** A value inside a loop that is itself a loop: rendering never ends. *)
Definition loop_text : string := "{{for x in items}}{{x}}{{endfor}}".

Theorem loop_in_a_value_never_ends fuel : Process fuel loop_text [("items", AList [AString loop_text])] = None.
Proof.
  unfold Process. assert (ProcessForLoops fuel (list_ascii_of_string loop_text) [("items", AList [AString loop_text])] = None) as E;
    [|by rewrite E].
  induction fuel as [|fuel IH]; [reflexivity|].
  transitivity (ProcessForLoops fuel (list_ascii_of_string loop_text) [("items", AList [AString loop_text])]); [reflexivity|exact IH].
Qed.

(** A value inside a loop is read as template: one customer's text reads another value. *)
Example value_read_as_template :
  Process 1 "{{for m in messages}}{{m}}{{endfor}}" [("messages", AList [AString "{{secret}}"]); ("secret", AString "1234")] = Some "1234".
Proof. reflexivity. Qed.

(** Nested conditionals: the outer block ends at the first [{{endif}}]. *)
Example nested_if_leaks :
  Process 0 "{{if none}}a{{if name}}b{{endif}}c{{endif}}" sample_data = Some "c".
Proof. reflexivity. Qed.

(** A condition on an entry of a list only asks whether the list is empty. *)
Example indexed_condition_ignored : EvaluateCondition "items[0].title == 'nothing'" sample_data = Some true.
Proof. reflexivity. Qed.

(** A mapping path that ends in an opening bracket slices out of range. *)
Example open_bracket_panics : ExtractResponseMapping sample_data [("x", "items[")] = None.
Proof. reflexivity. Qed.
