(* ===== verification/People.v ===== *)
(** * Organizations, their people and teams ([internal/models/models.go])

    The columns the services read: who exists, who is active and available,
    which teams they serve, and the settings stored as JSON. *)
From S2P Require Import Prelude Wire.

(** A [JSONB] column: nil, or a map. *)
Abbreviation Jsonb := (list (string * any)) (only parsing).

(** [models.Organization]. *)
Record Organization := MkOrganization {
  og_ID : uuid;
  og_DeletedAt : option time;
  og_Name : string;
  og_Settings : Jsonb
}.


(** [models.User]. *)
Record User := MkUser {
  us_ID : uuid;
  us_DeletedAt : option time;
  us_OrganizationID : uuid;
  us_Email : string;
  us_FullName : string;
  us_RoleID : option uuid;
  us_Settings : option Jsonb;
  us_IsActive : bool;
  us_IsAvailable : bool
}.

Definition set_us_Settings (v : option Jsonb) (r : User) : User :=
  MkUser (us_ID r) (us_DeletedAt r) (us_OrganizationID r) (us_Email r) (us_FullName r) (us_RoleID r)
  v (us_IsActive r) (us_IsAvailable r).
Definition set_us_IsActive (v : bool) (r : User) : User :=
  MkUser (us_ID r) (us_DeletedAt r) (us_OrganizationID r) (us_Email r) (us_FullName r) (us_RoleID r)
  (us_Settings r) v (us_IsAvailable r).
Definition set_us_IsAvailable (v : bool) (r : User) : User :=
  MkUser (us_ID r) (us_DeletedAt r) (us_OrganizationID r) (us_Email r) (us_FullName r) (us_RoleID r)
  (us_Settings r) (us_IsActive r) v.

(** [models.Team]. *)
Record Team := MkTeam {
  tm_ID : uuid;
  tm_DeletedAt : option time;
  tm_OrganizationID : uuid;
  tm_Name : string;
  tm_AssignmentStrategy : string;
  tm_PerAgentTimeoutSecs : Z;
  tm_IsActive : bool
}.

Definition set_tm_IsActive (v : bool) (r : Team) : Team :=
  MkTeam (tm_ID r) (tm_DeletedAt r) (tm_OrganizationID r) (tm_Name r) (tm_AssignmentStrategy r)
  (tm_PerAgentTimeoutSecs r) v.

(** [models.TeamMember]. *)
Record TeamMember := MkTeamMember {
  mb_ID : uuid;
  mb_DeletedAt : option time;
  mb_TeamID : uuid;
  mb_UserID : uuid;
  mb_Role : string;
  mb_LastAssignedAt : option time
}.

Definition set_mb_DeletedAt (v : option time) (r : TeamMember) : TeamMember :=
  MkTeamMember (mb_ID r) v (mb_TeamID r) (mb_UserID r) (mb_Role r) (mb_LastAssignedAt r).
Definition set_mb_LastAssignedAt (v : option time) (r : TeamMember) : TeamMember :=
  MkTeamMember (mb_ID r) (mb_DeletedAt r) (mb_TeamID r) (mb_UserID r) (mb_Role r) v.
