(* ===== verification/CRMContext.v ===== *)
(** * The variables a template may use ([internal/crmcontext])

    [Build] reads the records a template is about and lays them out as one
    namespace; [RenderOwned] renders the placeholders of that namespace and
    leaves the others as written.  The automation engine adds its own roots.
    The last part shows that the namespace keeps its roots. *)
From S2P Require Import Prelude GoLib Store Events Wire Models Statements Text Fields FieldService People Schedule Placeholders Templating Samples TemplatingProps.
#[local] Open Scope string_scope.
#[local] Open Scope list_scope.
#[local] Open Scope Z_scope.

(** ** Names *)

Definition reservedRoots : list string := ["contact"; "conversation"; "user"; "org"; "event"; "task"; "deal"; "now"].

Definition is_root (name : string) : bool := existsb (String.eqb name) reservedRoots.

(** The name up to its first dot. *)
Definition root_of (name : string) : string :=
  string_of_list_ascii (span (fun c => negb (Ascii.eqb c ".")) (list_ascii_of_string name)).1.

Definition IsReserved (name : string) : bool := is_root (root_of name).

Definition legacyAliases : list (string * string) :=
  [("contact_name", "contact.name"); ("profile_name", "contact.name"); ("phone_number", "contact.phone_number");
   ("user_name", "user.name"); ("agent_name", "user.name"); ("org_name", "org.name")].

(** Whether a map has a key, and what it holds. *)
Definition find_key (m : list (string * any)) (k : string) : option any := snd <$> List.find (fun e => String.eqb e.1 k) m.

(** The pieces of a path between its dots, empty ones included. *)
Fixpoint segments (current : chars) (l : chars) : list chars :=
  match l with
  | [] => [reverse current]
  | c :: r => if Ascii.eqb c "." then reverse current :: segments [] r else segments (c :: current) r
  end.

Fixpoint lookup_segments (current : any) (parts : list string) : option any :=
  match parts with
  | [] => Some current
  | part :: parts =>
      match current with
      | AMap m => v ← find_key m part; lookup_segments v parts
      | _ => None
      end
  end.

Definition lookup (data : list (string * any)) (path : string) : option any :=
  lookup_segments (AMap data) (map string_of_list_ascii (segments [] (list_ascii_of_string path))).

(** The order in which Go visits the aliases does not matter: no path is an alias. *)
Definition WithLegacyAliases (data : list (string * any)) : list (string * any) :=
  fold_left (fun data e =>
    match find_key data e.1 with
    | Some _ => data
    | None => match lookup data e.2 with Some v => data ++ [(e.1, v)] | None => data end
    end) legacyAliases data.

Definition Owns (path : string) : bool := existsb (fun e => String.eqb path e.1) legacyAliases || IsReserved path.

(** ** The catalog of the variable picker *)

Record PickerVariable := MkVariable { vr_Path : string; vr_Label : string; vr_Group : string; vr_Example : string; vr_Dynamic : bool }.

Definition contexts : list (string * list string) :=
  [("canned", ["contact"; "user"; "org"]); ("campaign", ["contact"; "org"]);
   ("automation", ["contact"; "conversation"; "org"; "event"]); ("chatbot", ["contact"; "conversation"; "org"]);
   ("custom_action", ["contact"; "user"; "org"]); ("keyword", ["contact"; "conversation"; "org"]); ("ivr", ["contact"; "org"])].

Definition variable_catalog : list PickerVariable :=
  [MkVariable "contact.name" "Contact name" "contact" "Amara Okafor" false;
   MkVariable "contact.phone_number" "Phone number" "contact" "+2348012345678" false;
   MkVariable "contact.id" "Contact ID" "contact" "" false;
   MkVariable "contact.tags" "Tags" "contact" "vip, renewal" false;
   MkVariable "contact.lifecycle_stage" "Lifecycle stage" "contact" "Lead" false;
   MkVariable "contact.source" "Source" "contact" "Import" false;
   MkVariable "contact.created_at" "First seen" "contact" "" false;
   MkVariable "contact.owner.name" "Owner name" "contact" "Sam Ade" false;
   MkVariable "contact.owner.email" "Owner email" "contact" "" false;
   MkVariable "contact.fields." "Custom field" "contact" "" true;
   MkVariable "conversation.status" "Conversation status" "conversation" "open" false;
   MkVariable "conversation.handling" "Handled by" "conversation" "human" false;
   MkVariable "conversation.assignee.name" "Assigned agent" "conversation" "" false;
   MkVariable "conversation.team.name" "Assigned team" "conversation" "" false;
   MkVariable "conversation.opened_at" "Conversation opened" "conversation" "" false;
   MkVariable "user.name" "Your name" "user" "Sam Ade" false;
   MkVariable "user.email" "Your email" "user" "" false;
   MkVariable "org.name" "Organisation name" "org" "Walk-in Urgent Care" false;
   MkVariable "org.timezone" "Organisation timezone" "org" "Africa/Lagos" false;
   MkVariable "event.type" "Trigger event" "event" "conversation.created" false;
   MkVariable "now" "Current time" "org" "" false].

Definition Catalog (contextName : string) : list PickerVariable :=
  match List.find (fun e => String.eqb e.1 contextName) contexts with
  | None => []
  | Some (_, groups) => List.filter (fun v => existsb (String.eqb (vr_Group v)) groups) variable_catalog
  end.

Definition Contexts : list string := sort_by String.ltb (map fst contexts).

(** ** Building the namespace *)

(** The tables [Build] reads; [cx_tags] is the column of the contacts. *)
Record ContextDB := MkContextDB {
  cx_tables : Tables;
  cx_tags : gmap uuid (list any);
  cx_fields : FieldsDB;
  cx_orgs : gmap uuid Organization;
  cx_users : gmap uuid User;
  cx_teams : gmap uuid Team
}.

Definition set_cx_fields (v : FieldsDB) (r : ContextDB) : ContextDB :=
  MkContextDB (cx_tables r) (cx_tags r) v (cx_orgs r) (cx_users r) (cx_teams r).

Abbreviation MX := (M ContextDB).

(** Printing times; a value whose Go type has a name of its own ([models.JSONB],
    [models.JSONBArray], a nil [*models.CustomRole]), which the type switches of
    the template package do not know; a number that is no double of the model. *)
Class ContextEnv `{FE : FieldsEnv} := {
  RFC3339 : time -> string;
  FormatMinute : Location -> time -> string;   (** [Format("2006-01-02 15:04")] in a time zone *)
  named : any -> any;
  no_double : number -> any
}.

Class ContextEnvLaws `{CE : ContextEnv} : Prop := {
  named_no_map : forall v m, named v <> AMap m;
  named_not_nil : forall v, named v <> ANil
}.

Section Build.
Context `{SQ : Sql} `{UT : UuidText} `{FS : FieldsServer} `{CE : !ContextEnv}.

Record Opts := MkOpts {
  op_ContactID : uuid;
  op_UserID : option uuid;
  op_ConversationID : option uuid;
  op_IncludeFields : bool;
  op_Extra : list (string * any);
  op_MaskPhone : option (string -> string);
  op_Now : option time       (** the zero time is [None] *)
}.

Definition value_any (v : raw) : any :=
  match v with RawAny v => v | RawNumber (Finite x) => AFloat x | RawNumber n => no_double n end.

Definition live_id {R} (key : R -> uuid) (deleted : R -> option time) (id : uuid) (r : R) : bool :=
  N.eqb (key r) id && is_none (deleted r).

(** [First(&row).Error == nil]. *)
Definition found {R} (q : MX R) : MX (option R) :=
  r <- try q ;; ret (match r with Ok x => Some x | Err _ => None end).

Definition user_by_id (id : uuid) : MX User := query (fun d => first_row (live_id us_ID us_DeletedAt id) unordered (cx_users d)).

(** The typed values of a contact, and the two that are promoted. *)
Definition contact_fields (orgID : uuid) (contact : Contact) : MX (list (string * any)) :=
  values <- zoom cx_fields set_cx_fields (ValuesFor orgID [ct_ID contact] FieldEntityContact) ;;
  let fields := map (fun e => (e.1, value_any e.2)) (map_to_list (default ∅ (values !! ct_ID contact))) in
  ret [("fields", AMap fields); ("lifecycle_stage", map_get fields "lifecycle_stage"); ("source", map_get fields "source")].

Definition contact_owner (contact : Contact) : MX (list (string * any)) :=
  match ct_AssignedUserID contact with
  | None => ret []
  | Some id =>
      owner <- found (user_by_id id) ;;
      ret (match owner with
           | Some u => [("owner", AMap [("id", AString (uuid_String (us_ID u))); ("name", AString (us_FullName u)); ("email", AString (us_Email u))])]
           | None => []
           end)
  end.

Definition contact_in (id orgID : uuid) (c : Contact) : bool :=
  N.eqb (ct_ID c) id && N.eqb (ct_OrganizationID c) orgID && live (ct_DeletedAt c).

Definition contact (orgID : uuid) (opts : Opts) : MX (list (string * any)) :=
  contact <- query (fun d => first_row (contact_in (op_ContactID opts) orgID) unordered (db_contacts (cx_tables d))) ;;
  d <- get_db ;;
  let phone := from_option id (fun p => p) (op_MaskPhone opts) (ct_PhoneNumber contact) in
  let base :=
    [("id", AString (uuid_String (ct_ID contact))); ("name", AString (ct_ProfileName contact));
     ("profile_name", AString (ct_ProfileName contact)); ("phone_number", AString phone);
     ("tags", named (AList (default [] (cx_tags d !! ct_ID contact))));
     ("created_at", AString (RFC3339 (ct_CreatedAt contact)));
     ("metadata", named (AMap (from_option cm_Metadata [] (fd_contacts (cx_fields d) !! ct_ID contact))))] in
  fields <- (if op_IncludeFields opts then contact_fields orgID contact else ret [("fields", AMap [])]) ;;
  owner <- contact_owner contact ;;
  ret (base ++ fields ++ owner).

Definition string_of_handling (h : ConversationHandling) : string :=
  match h with HandlingBot => "bot" | HandlingHuman => "human" | HandlingHandoffPending => "handoff_pending" | HandlingNone => "none" end.

Definition conversation_of (orgID : uuid) (opts : Opts) : option (Conversation -> bool) :=
  match op_ConversationID opts with
  | Some id => Some (fun c => N.eqb (cv_OrganizationID c) orgID && live (cv_DeletedAt c) && N.eqb (cv_ID c) id)
  | None =>
      if N.eqb (op_ContactID opts) uuid_Nil then None
      else Some (fun c => N.eqb (cv_OrganizationID c) orgID && live (cv_DeletedAt c) && N.eqb (cv_ContactID c) (op_ContactID opts) &&
                          negb (bool_decide (cv_Status c = ConversationResolved)))
  end.

Definition conversation (orgID : uuid) (opts : Opts) : MX (option any) :=
  match conversation_of orgID opts with
  | None => ret None
  | Some p =>
      conv <- found (query (fun d => first_row p (fun a b => cv_OpenedAt b <? cv_OpenedAt a) (db_conversations (cx_tables d)))) ;;
      match conv with
      | None => ret None
      | Some conv =>
          assignee <- (match cv_AssigneeID conv with Some id => found (user_by_id id) | None => ret None end) ;;
          team <- (match cv_TeamID conv with
                   | Some id => found (query (fun d => first_row (live_id tm_ID tm_DeletedAt id) unordered (cx_teams d)))
                   | None => ret None
                   end) ;;
          ret (Some (AMap (
            [("id", AString (uuid_String (cv_ID conv))); ("status", AString (string_of_status (cv_Status conv)));
             ("handling", AString (string_of_handling (cv_Handling conv))); ("opened_at", AString (RFC3339 (cv_OpenedAt conv)))] ++
            (match assignee with
             | Some u => [("assignee", AMap [("id", AString (uuid_String (us_ID u))); ("name", AString (us_FullName u))])] | None => [] end) ++
            (match team with
             | Some t => [("team", AMap [("id", AString (uuid_String (tm_ID t))); ("name", AString (tm_Name t))])] | None => [] end))))
      end
  end.

(** The caller's own roots, but for the reserved ones. *)
Definition merge_extra (extra out : list (string * any)) : list (string * any) :=
  fold_left (fun out e => if is_root e.1 then out else set_key e.1 e.2 out) extra out.

Definition timezone_of (org : Organization) : string :=
  match map_get (og_Settings org) "timezone" with AString s => if is_empty s then "UTC" else s | _ => "UTC" end.

Definition Build (orgID : uuid) (opts : Opts) : MX (list (string * any)) :=
  t <- now ;;
  org <- query (fun d => first_row (live_id og_ID og_DeletedAt orgID) unordered (cx_orgs d)) ;;
  contactPart <- (if N.eqb (op_ContactID opts) uuid_Nil then ret []
                  else c <- contact orgID opts ;; ret [("contact", AMap c)]) ;;
  userPart <- (match op_UserID opts with
               | None => ret []
               | Some id =>
                   u <- found (user_by_id id) ;;
                   ret (match u with
                        | Some u => [("user", AMap [("id", AString (uuid_String (us_ID u))); ("name", AString (us_FullName u));
                                                    ("email", AString (us_Email u)); ("role", named ANil)])]
                        | None => []
                        end)
               end) ;;
  conv <- conversation orgID opts ;;
  ret (merge_extra (op_Extra opts)
    ([("now", AString (RFC3339 (default t (op_Now opts))));
      ("org", AMap [("id", AString (uuid_String (og_ID org))); ("name", AString (og_Name org)); ("timezone", AString (timezone_of org))])] ++
     contactPart ++ userPart ++ match conv with Some c => [("conversation", c)] | None => [] end)).

(** [automation.Engine.variables]: what the text of a rule may refer to. *)
Definition variables (loc : Location) (orgID contactID : uuid) (ruleName eventType : string) (eventData : list (string * any))
    : MX (list (string * any)) :=
  let extra := [("rule", AMap [("name", AString ruleName)]);
                ("event", AMap [("type", AString eventType); ("data", AMap eventData)])] in
  built <- try (Build orgID (MkOpts contactID None None true extra None None)) ;;
  t <- now ;;
  ret (set_key "now" (AString (FormatMinute loc t)) (match built with Ok vars => vars | Err _ => extra end)).

(** ** Rendering *)

Definition RenderOwned (template : string) (data : list (string * any)) (mode : EscapeMode) : option string :=
  ProcessVariablesWith template data (fun r =>
    let path := TrimSpace (string_of_list_ascii (removelast (removelast (tl (tl (list_ascii_of_string (rv_Raw r))))))) in
    if negb (Owns path) || negb (rv_Found r) then rv_Raw r else Encode mode (rv_Value r)).
End Build.

(** * The namespace keeps its roots, and renders what it owns *)
#[local] Open Scope string_scope.
#[local] Open Scope list_scope.
#[local] Open Scope Z_scope.

(** ** Merging *)

(** The last value a list of pairs gives a key. *)
Definition last_value (extra : list (string * any)) (k : string) : option any :=
  fold_left (fun acc e => if String.eqb e.1 k then Some e.2 else acc) extra None.

Lemma find_set_key m k v k' : find_key (set_key k v m) k' = if String.eqb k k' then Some v else find_key m k'.
Proof.
  unfold find_key, set_key. cbn [List.find fst snd]. destruct (String.eqb_spec k k') as [|Hne]; [done|]. f_equal.
  induction m as [|[x y] m IH]; [done|]. cbn [List.filter List.find fst]. destruct (String.eqb_spec x k) as [->|Hx]; cbn [negb].
  - rewrite IH. apply String.eqb_neq in Hne. by rewrite Hne.
  - cbn [List.find fst]. destruct (String.eqb x k'); [done|exact IH].
Qed.

Lemma last_value_acc extra k acc :
  fold_left (fun acc e => if String.eqb e.1 k then Some e.2 else acc) extra acc =
  match last_value extra k with Some v => Some v | None => acc end.
Proof.
  unfold last_value. revert acc. induction extra as [|e extra IH]; intros acc; [by destruct acc|]. cbn [fold_left].
  rewrite IH, (IH (if String.eqb e.1 k then Some e.2 else None)). destruct (fold_left _ extra None); [done|].
  by destruct (String.eqb e.1 k).
Qed.

Lemma last_value_cons x v extra k :
  last_value ((x, v) :: extra) k = match last_value extra k with Some w => Some w | None => if String.eqb x k then Some v else None end.
Proof. unfold last_value at 1. cbn [fold_left fst snd]. apply last_value_acc. Qed.

Lemma find_merge_extra extra out k :
  find_key (merge_extra extra out) k =
  if is_root k then find_key out k else match last_value extra k with Some v => Some v | None => find_key out k end.
Proof.
  revert out. induction extra as [|[x v] extra IH]; intros out; [by destruct (is_root k)|].
  unfold merge_extra in *. cbn [fold_left fst snd]. rewrite IH, last_value_cons. destruct (is_root x) eqn:Hx.
  - destruct (String.eqb_spec x k) as [->|]; [by rewrite Hx|]. by destruct (last_value extra k).
  - rewrite find_set_key. destruct (String.eqb_spec x k) as [->|]; [rewrite Hx|destruct (is_root k); [done|]];
      by destruct (last_value extra k).
Qed.

Section Props.
Context `{SQ : Sql} `{UT : UuidText} `{FS : FieldsServer} `{CE : !ContextEnv}.

Definition without_extra (o : Opts) : Opts :=
  MkOpts (op_ContactID o) (op_UserID o) (op_ConversationID o) (op_IncludeFields o) [] (op_MaskPhone o) (op_Now o).

(** C32: The records win: whatever a caller passes, the reserved names mean what they
    mean without it; every other name is the caller's. *)
Theorem records_win orgID opts w vars w' :
  Build orgID opts w = (Ok vars, w') ->
  exists base, Build orgID (without_extra opts) w = (Ok base, w') /\
    forall k, find_key vars k =
      if is_root k then find_key base k else match last_value (op_Extra opts) k with Some v => Some v | None => find_key base k end.
Proof.
  unfold Build. cbn [without_extra op_Extra op_ContactID op_UserID op_ConversationID op_IncludeFields op_MaskPhone op_Now].
  intros E. apply bind_ok_inv in E as (t & w1 & E1 & E). rewrite (bind_run _ _ _ _ _ E1).
  apply bind_ok_inv in E as (org & w2 & E2 & E). rewrite (bind_run _ _ _ _ _ E2).
  apply bind_ok_inv in E as (c & w3 & E3 & E). change (contact orgID (without_extra opts)) with (contact orgID opts).
  rewrite (bind_run _ _ _ _ _ E3). apply bind_ok_inv in E as (u & w4 & E4 & E). rewrite (bind_run _ _ _ _ _ E4).
  apply bind_ok_inv in E as (cv & w5 & E5 & E). change (conversation orgID (without_extra opts)) with (conversation orgID opts).
  rewrite (bind_run _ _ _ _ _ E5). apply ret_ok_inv in E as [-> ->]. eexists. split; [reflexivity|]. intros k.
  apply find_merge_extra.
Qed.

(** ** Rendering what the namespace owns *)

(** What a placeholder becomes: the encoded value where the path is the
    namespace's and its objects are there, itself otherwise. *)
Definition owned_text (data : list (string * any)) (mode : EscapeMode) (l : leaf) : chars :=
  match l with
  | Txt s => s
  | Var keys =>
      let '(v, there) := lookup_parts (AMap data) keys in
      if Owns (string_of_list_ascii (join_dots keys)) && there
      then list_ascii_of_string (Encode mode (FormatValue v)) else tag (join_dots keys)
  end.

Lemma path_black keys :
  Forall (fun k => is_word k = true) keys ->
  Forall (fun c => is_space c = false) (list_ascii_of_string (string_of_list_ascii (join_dots keys))).
Proof.
  intros Hk. rewrite list_ascii_of_string_of_list_ascii. apply (Forall_impl _ _ _ (join_dots_chars keys Hk)).
  intros c [Hc| ->]; [|done]. by destruct c as [[] [] [] [] [] [] [] []].
Qed.

Lemma no_bracket keys :
  Forall (fun k => is_word k = true) keys -> Contains (string_of_list_ascii (join_dots keys)) "[" = false.
Proof.
  intros Hk. unfold Contains. rewrite list_ascii_of_string_of_list_ascii. cbn [list_ascii_of_string].
  induction (join_dots_chars keys Hk) as [|c l Hc _ IH]; [done|]. cbn [occurs]. rewrite IH, orb_false_r.
  apply starts_other. by apply path_char_facts in Hc as (_ & _ & ?).
Qed.

Lemma joined_not_empty keys :
  keys <> [] -> Forall (fun k => is_word k = true) keys -> is_empty (string_of_list_ascii (join_dots keys)) = false.
Proof.
  intros Hne Hk. destruct keys as [|k keys]; [done|]. apply Forall_cons in Hk as [(c & r & Ek & _)%is_word_cons _].
  destruct keys; cbn [join_dots]; by rewrite Ek.
Qed.

Lemma LookupNested_join data keys :
  keys <> [] -> Forall (fun k => is_word k = true) keys ->
  LookupNested data (string_of_list_ascii (join_dots keys)) = Some (lookup_parts (AMap data) keys).
Proof.
  intros Hne Hk. unfold LookupNested. by rewrite joined_not_empty, no_bracket, SplitPath_join.
Qed.

Lemma unwrap_tag s :
  removelast (removelast (tl (tl (list_ascii_of_string (string_of_list_ascii (tag s)))))) = s.
Proof.
  rewrite list_ascii_of_string_of_list_ascii. unfold tag, open2, close2. cbn [app tl].
  change ["}"; "}"]%char with (["}"]%char ++ ["}"]%char). by rewrite app_assoc, !removelast_last.
Qed.

(** Placeholders of the namespace are rendered, the others stay as they are
    written: the agent, or the next renderer, still finds them. *)
Theorem owned_placeholders_are_rendered ls data mode :
  Forall leaf_ok ls ->
  RenderOwned (string_of_list_ascii (leaves_text ls)) data mode =
    Some (string_of_list_ascii (concat (map (owned_text data mode) ls))).
Proof.
  unfold RenderOwned, ProcessVariablesWith. rewrite list_ascii_of_string_of_list_ascii.
  set (value := fun inner => _). intros Hls.
  replace (replace_variables value 0 (leaves_text ls)) with (Some (concat (map (owned_text data mode) ls))); [done|].
  induction Hls as [|l ls Hl _ IH]; [done|]. rewrite leaves_text_cons. cbn [map concat]. destruct l as [s|keys]; cbn [leaf_token token_text].
  - by rewrite replace_variables_quiet, <- IH.
  - destruct Hl as (Hne & Hk & _). pose proof (idents_words _ Hk) as Hw.
    rewrite (replace_variables_tag value _ (owned_text data mode (Var keys))).
    + by rewrite <- IH.
    + by apply path_inside, join_dots_chars.
    + by apply is_variable_join.
    + unfold value. rewrite TrimSpace_black by (by apply path_black). rewrite LookupNested_join by done.
      cbn [mbind option_bind owned_text]. destruct (lookup_parts (AMap data) keys) as [v there]. cbn [rv_Raw rv_Found rv_Value].
      rewrite unwrap_tag, TrimSpace_black by (by apply path_black). destruct (Owns _), there; cbn [negb orb andb]; try done;
        by rewrite list_ascii_of_string_of_list_ascii.
Qed.

(** ** The catalog *)

(** Every variable the picker offers is one the namespace answers for. *)
Example catalog_is_owned : forallb (fun v => Owns (vr_Path v)) variable_catalog = true.
Proof. reflexivity. Qed.

(** But a rule's [event] never gets there: the engine passes it as an extra root,
    and the root is reserved. *)
Lemma base_has_no_event orgID opts w base w' :
  Build orgID (without_extra opts) w = (Ok base, w') -> find_key base "event" = None.
Proof.
  unfold Build. cbn [without_extra op_Extra]. intros E.
  apply bind_ok_inv in E as (t & w1 & _ & E). apply bind_ok_inv in E as (org & w2 & _ & E).
  apply bind_ok_inv in E as (c & w3 & E3 & E). apply bind_ok_inv in E as (u & w4 & E4 & E).
  apply bind_ok_inv in E as (cv & w5 & _ & E). apply ret_ok_inv in E as [-> _]. cbn [merge_extra fold_left].
  assert (c = [] \/ exists m, c = [("contact", AMap m)]) as [->|[m ->]].
  { revert E3. destruct (N.eqb _ _); [intros [= <- _]; by left|]. intros E3. apply bind_ok_inv in E3 as (m & w6 & _ & E3).
    apply ret_ok_inv in E3 as [-> _]. right. by exists m. }
  all: assert (u = [] \/ exists v, u = [("user", v)]) as [->|[v ->]];
    [revert E4; cbn [op_UserID without_extra]; destruct (op_UserID opts); [|intros [-> _]%ret_ok_inv; by left];
     intros E4; apply bind_ok_inv in E4 as (x & w6 & _ & E4); apply ret_ok_inv in E4 as [-> _]; destruct x; [right; by eexists|by left]|..].
  all: by destruct cv.
Qed.

Theorem rules_never_see_their_event loc orgID contactID ruleName eventType eventData w vars w' built wb :
  variables loc orgID contactID ruleName eventType eventData w = (Ok vars, w') ->
  Build orgID (MkOpts contactID None None true
    [("rule", AMap [("name", AString ruleName)]); ("event", AMap [("type", AString eventType); ("data", AMap eventData)])] None None) w
    = (Ok built, wb) ->
  find_key vars "event" = None.
Proof.
  unfold variables. intros E Eb. apply bind_ok_inv in E as (r & w1 & E1 & E). apply try_ok_inv in E1. rewrite E1 in Eb.
  injection Eb as -> ->. apply bind_ok_inv in E as (t & w2 & E2 & E). apply ret_ok_inv in E as [-> _].
  rewrite find_set_key. cbn. apply records_win in E1 as (base & Eb & Hk). rewrite Hk. cbn. by apply base_has_no_event in Eb.
Qed.
End Props.
