(* ===== verification/Notify.v ===== *)
(** * Pages of a list, and the notifications ([internal/notify])

    A page is the first rows, in an order, of those after the last row of the
    page before.  On rows that stay the same, the pages together are the
    ordered list: nothing is skipped and nothing is shown twice.  The notifications
    of a user are such a list. *)
From S2P Require Import Prelude GoLib Store Events Wire Models Statements Text People Schedule.

Section Keyset.
Context {R : Type} (before : R -> R -> bool).
Hypothesis before_irrefl : forall x, before x x = false.
Hypothesis before_trans : forall x y z, before x y = true -> before y z = true -> before x z = true.

Definition total_on (l : list R) : Prop := forall x y, x ∈ l -> y ∈ l -> x = y \/ before x y = true \/ before y x = true.

Lemma before_asym x y : before x y = true -> before y x = false.
Proof. intros Hxy. destruct (before y x) eqn:E; [|done]. by rewrite <- (before_irrefl x), (before_trans _ _ _ Hxy E). Qed.

(** Insertion sort puts a total order in order. *)
Lemma insert_ordered x l : total_on (x :: l) -> in_order before l -> in_order before (insert_by before x l).
Proof.
  induction l as [|y l IH]; intros Ht Hl; cbn [insert_by].
  - apply in_order_cons. split; [by intros ? ?%not_elem_of_nil|done].
  - apply in_order_cons in Hl as [Hy Hl]. destruct (before y x) eqn:E; apply in_order_cons.
    + split; [|apply IH; [|done]].
      * intros z. rewrite insert_by_perm. intros [->|Hz]%elem_of_cons; [by apply before_asym|by apply Hy].
      * intros a b Ha Hb. apply Ht; (rewrite elem_of_cons in Ha, Hb; rewrite !elem_of_cons; tauto).
    + split; [|by apply in_order_cons]. intros z [->|Hz]%elem_of_cons; [done|].
      destruct (before z x) eqn:Ez; [|done]. exfalso.
      pose proof (Hy z Hz) as Hzy. pose proof (Ht x y ltac:(by left) ltac:(by right; left)) as [->|[Hxy|Hyx]]; [congruence| |congruence].
      by rewrite (before_trans z x y Ez Hxy) in Hzy.
Qed.

Lemma total_perm l l' : l ≡ₚ l' -> total_on l -> total_on l'.
Proof. intros Hp Ht x y Hx Hy. apply Ht; by rewrite Hp. Qed.

Lemma sort_ordered l : total_on l -> in_order before (sort_by before l).
Proof.
  induction l as [|x l IH]; intros Ht; [by intros i j x y _ Hi; destruct i|]. cbn [sort_by foldr].
  apply insert_ordered.
  - apply (total_perm (x :: l)); [|done]. by rewrite (sort_by_perm before l).
  - apply IH. intros a b Ha Hb. apply Ht; by right.
Qed.

(** An ordered list is the only one with its rows. *)
Lemma in_order_unique l1 l2 : total_on l1 -> in_order before l1 -> in_order before l2 -> l1 ≡ₚ l2 -> l1 = l2.
Proof.
  revert l2. induction l1 as [|x l1 IH]; intros l2 Ht H1 H2 Hp; [by apply Permutation_nil_l in Hp|].
  destruct l2 as [|y l2]; [by apply Permutation_nil_r in Hp|].
  apply in_order_cons in H1 as [Hx H1]. apply in_order_cons in H2 as [Hy H2].
  assert (x = y) as ->.
  { assert (y ∈ x :: l1) as Hyin by (rewrite Hp; left). assert (x ∈ y :: l2) as Hxin by (rewrite <- Hp; left).
    destruct (Ht x y ltac:(by left) Hyin) as [|[E|E]]; [done| |]; exfalso.
    - apply elem_of_cons in Hxin as [->|Hxin]; [by rewrite before_irrefl in E|]. by rewrite (Hy x Hxin) in E.
    - apply elem_of_cons in Hyin as [->|Hyin]; [by rewrite before_irrefl in E|]. by rewrite (Hx y Hyin) in E. }
  f_equal. apply IH; [|done|done|by apply Permutation_cons_inv in Hp]. intros a b Ha Hb. apply Ht; by right.
Qed.

Lemma filter_perm (p : R -> bool) l l' : l ≡ₚ l' -> List.filter p l ≡ₚ List.filter p l'.
Proof.
  induction 1 as [|x l l' _ IH|x y l|l1 l2 l3 _ IH1 _ IH2]; cbn [List.filter]; [done|..].
  - destruct (p x); [by rewrite IH|done].
  - destruct (p x), (p y); try done. apply Permutation_swap.
  - by etrans.
Qed.

(** The rows after one of the ordered list are the rest of the list. *)
Lemma filter_after p c s :
  NoDup (p ++ c :: s) -> total_on (p ++ c :: s) -> in_order before (p ++ c :: s) ->
  List.filter (before c) (p ++ c :: s) = s.
Proof.
  intros Hnd Ht Ho. rewrite List.filter_app. cbn [List.filter]. rewrite before_irrefl.
  apply in_order_app in Ho as (_ & Hs & Hps). apply in_order_cons in Hs as [Hcs _].
  apply NoDup_app in Hnd as (_ & _ & Hnd). apply NoDup_cons in Hnd as [Hcs' _].
  replace (List.filter (before c) p) with (@nil R).
  - cbn [app]. assert (forall x, x ∈ s -> before c x = true) as Hall.
    { intros x Hx. destruct (Ht c x) as [->|[|E]]; [apply elem_of_app; right; by left|apply elem_of_app; right; by right|done|done|].
      by rewrite (Hcs x Hx) in E. }
    clear -Hall. induction s as [|x s IH]; [done|]. cbn [List.filter]. rewrite (Hall x) by (by left). f_equal.
    apply IH. intros y Hy. apply Hall. by right.
  - assert (forall x, x ∈ p -> before c x = false) as Hall by (intros x Hx; apply (Hps x c); [done|by left]).
    clear -Hall. induction p as [|x p IH]; [done|]. cbn [List.filter]. rewrite (Hall x) by (by left). apply IH. intros y Hy. apply Hall. by right.
Qed.

(** So they are what sorting the later rows gives. *)
Lemma sort_after rows p c s :
  NoDup rows -> total_on rows -> sort_by before rows = p ++ c :: s ->
  sort_by before (List.filter (before c) rows) = s.
Proof.
  intros Hnd Ht E. assert (p ++ c :: s ≡ₚ rows) as Hp by (rewrite <- E; apply sort_by_perm).
  assert (NoDup (p ++ c :: s)) as Hnd' by (by rewrite Hp).
  assert (total_on (p ++ c :: s)) as Ht' by (by apply (total_perm rows)).
  assert (in_order before (p ++ c :: s)) as Ho by (rewrite <- E; by apply sort_ordered).
  pose proof (filter_after p c s Hnd' Ht' Ho) as Ef.
  assert (List.filter (before c) rows ≡ₚ s) as Hps.
  { rewrite <- (filter_perm _ _ _ Hp). by rewrite Ef. }
  assert (total_on (List.filter (before c) rows)) as Htf.
  { intros a b [Ha%list_elem_of_In _]%list_elem_of_In%filter_In [Hb%list_elem_of_In _]%list_elem_of_In%filter_In. by apply Ht. }
  apply in_order_unique.
  - apply (total_perm (List.filter (before c) rows)); [|done]. by rewrite sort_by_perm.
  - by apply sort_ordered.
  - by apply in_order_app in Ho as (_ & [_ ?]%in_order_cons & _).
  - by rewrite sort_by_perm.
Qed.
End Keyset.

(** * In-app notifications ([internal/notify], [internal/handlers/notifications.go])

    [Send] stores a row for every recipient who wants one and then signals it;
    the list is read page by page from the newest, each page starting where the
    last one stopped. *)
#[local] Open Scope string_scope.
#[local] Open Scope list_scope.
#[local] Open Scope Z_scope.

(** [models.Notification]. *)
Record Notification := MkNotification {
  nt_ID : uuid;
  nt_OrganizationID : uuid;
  nt_UserID : uuid;
  nt_Type : string;
  nt_Title : string;
  nt_Body : string;
  nt_Link : string;
  nt_EntityType : string;
  nt_EntityID : option uuid;
  nt_Data : list (string * any);
  nt_ReadAt : option time;
  nt_CreatedAt : time
}.

Definition set_nt_ReadAt (v : option time) (r : Notification) : Notification :=
  MkNotification (nt_ID r) (nt_OrganizationID r) (nt_UserID r) (nt_Type r) (nt_Title r) (nt_Body r)
  (nt_Link r) (nt_EntityType r) (nt_EntityID r) (nt_Data r) v (nt_CreatedAt r).

Definition NotificationTaskDue := "task_due".
Definition NotificationTaskOverdue := "task_overdue".
Definition NotificationTypes : list string :=
  [NotificationTaskDue; NotificationTaskOverdue; "task_assigned"; "conversation_assigned"; "conversation_snooze_ended";
   "sla_escalation"; "automation"; "merge_suggestions"; "deal_rotting"; "campaign_paused"].
Definition IsNotificationType (name : string) : bool := existsb (String.eqb name) NotificationTypes.

Record NotifyDB := MkNotifyDB { no_users : gmap uuid User; no_rows : gmap uuid Notification }.
Definition set_no_rows (v : gmap uuid Notification) (r : NotifyDB) : NotifyDB := MkNotifyDB (no_users r) v.

Abbreviation MN := (M NotifyDB).

(** ** Preferences *)

(** [settings["notifications"][type][flag]], on unless it says otherwise. *)
Definition prefFlag (settings : option Jsonb) (notificationType flag : string) : bool :=
  match settings with
  | None => true
  | Some settings =>
      match map_get settings "notifications" with
      | AMap raw =>
          match map_get raw notificationType with
          | AMap entry => match map_get entry flag with ABool value => value | _ => true end
          | _ => true
          end
      | _ => true
      end
  end.

Definition WantsInApp (settings : option Jsonb) (notificationType : string) : bool := prefFlag settings notificationType "in_app".
Definition WantsSound (settings : option Jsonb) (notificationType : string) : bool := prefFlag settings notificationType "sound".

(** ** Sending *)

Record Input := MkInput {
  np_OrgID : uuid;
  np_UserIDs : list uuid;
  np_Type : string;
  np_Title : string;
  np_Body : string;
  np_Link : string;
  np_EntityType : string;
  np_EntityID : option uuid;
  np_Data : list (string * any)
}.

(** Ids other than the nil id, each once, in order. *)
Fixpoint unique (seen : list uuid) (l : list uuid) : list uuid :=
  match l with
  | [] => []
  | id :: l => if N.eqb id uuid_Nil || existsb (N.eqb id) seen then unique seen l else id :: unique (id :: seen) l
  end.

(** The sizes of the columns. *)
Definition notification_fits (n : Notification) : bool :=
  Nat.leb (RuneCount (nt_Type n)) 50 && Nat.leb (RuneCount (nt_Title n)) 255 && Nat.leb (RuneCount (nt_Link n)) 500 &&
  Nat.leb (RuneCount (nt_EntityType n)) 32.

(** Rows under new keys, all of them or none. *)
Fixpoint insert_all (rows : list Notification) (t : gmap uuid Notification) : res err (gmap uuid Notification) :=
  match rows with
  | [] => Ok t
  | r :: rows =>
      if negb (notification_fits r) then Err ErrDriver
      else if is_some (t !! nt_ID r) then Err ErrUnique
      else insert_all rows (<[nt_ID r := r]> t)
  end.

Definition create_batch (rows : list Notification) : MN unit :=
  stmt no_locks (fun d =>
    match insert_all rows (no_rows d) with Ok t => (Ok tt, set_no_rows t d) | Err e => (Err e, d) end).

Fixpoint each_batch (fuel : nat) (rows : list Notification) : MN unit :=
  match fuel, rows with
  | S fuel, _ :: _ => create_batch (take 200 rows) ;;; each_batch fuel (drop 200 rows)
  | _, _ => ret tt
  end.

(** [CreateInBatches(rows, 200)]: more than one batch goes in a transaction. *)
Definition CreateInBatches (rows : list Notification) : MN unit :=
  if Nat.leb (length rows) 200 then create_batch rows else transaction (each_batch (length rows) rows).

Section Service.
Context `{SQ : Sql}.

(** A user without a row counts as willing; if the preferences cannot be read, everybody does. *)
Definition eligible (inp : Input) : MN (list uuid) :=
  let ids := unique [] (np_UserIDs inp) in
  match ids with
  | [] => ret []
  | _ =>
      users <- try (query (fun d => Ok (find_rows (fun u => existsb (N.eqb (us_ID u)) ids && is_none (us_DeletedAt u)) None (no_users d)))) ;;
      ret (match users with
           | Err _ => ids
           | Ok users =>
               List.filter (fun id =>
                 match List.find (fun u => N.eqb (us_ID u) id) users with
                 | Some u => WantsInApp (us_Settings u) (np_Type inp)
                 | None => true
                 end) ids
           end)
  end.

Fixpoint new_rows (inp : Input) (t : time) (recipients : list uuid) : MN (list Notification) :=
  match recipients with
  | [] => ret []
  | userID :: recipients =>
      id <- uuid_New ;;
      rows <- new_rows inp t recipients ;;
      ret (MkNotification id (np_OrgID inp) userID (np_Type inp) (np_Title inp) (np_Body inp) (np_Link inp)
             (np_EntityType inp) (np_EntityID inp) (np_Data inp) None t :: rows)
  end.

(** The rows it returns are signalled, one after the other. *)
Definition Send (inp : Input) : MN (list Notification) :=
  recipients <- eligible inp ;;
  match recipients with
  | [] => ret []
  | _ =>
      t <- now ;;
      rows <- new_rows inp t recipients ;;
      CreateInBatches rows ;;;
      ret rows
  end.

(** ** Reading *)

Record Cursor := MkCursor { cr_CreatedAt : time; cr_ID : uuid }.
Record ListOpts := MkListOpts { lo_UnreadOnly : bool; lo_Before : option Cursor; lo_Limit : Z }.

Definition DefaultLimit : Z := 20.
Definition MaxLimit : Z := 100.

Definition page_limit (limit : Z) : nat :=
  let limit := if limit <=? 0 then DefaultLimit else limit in
  Z.to_nat (if MaxLimit <? limit then MaxLimit else limit).

(** [(created_at, id) < (?, ?)]. *)
Definition row_less (at1 : time) (id1 : uuid) (at2 : time) (id2 : uuid) : bool :=
  (at1 <? at2) || ((at1 =? at2) && (id1 <? id2)%N).

(** [ORDER BY created_at DESC, id DESC]. *)
Definition newer (a b : Notification) : bool := row_less (nt_CreatedAt b) (nt_ID b) (nt_CreatedAt a) (nt_ID a).

Definition cursor_at (n : Notification) : Cursor := MkCursor (nt_CreatedAt n) (nt_ID n).

Definition mine (orgID userID : uuid) (unreadOnly : bool) (n : Notification) : bool :=
  N.eqb (nt_OrganizationID n) orgID && N.eqb (nt_UserID n) userID && (negb unreadOnly || is_none (nt_ReadAt n)).

Definition older_than (before : option Cursor) (n : Notification) : bool :=
  match before with Some c => row_less (nt_CreatedAt n) (nt_ID n) (cr_CreatedAt c) (cr_ID c) | None => true end.

Definition List_ (orgID userID : uuid) (opts : ListOpts) : MN (list Notification * option Cursor) :=
  let limit := page_limit (lo_Limit opts) in
  rows <- query (fun d => Ok (take (limit + 1) (sort_by newer
    (find_rows (fun n => mine orgID userID (lo_UnreadOnly opts) n && older_than (lo_Before opts) n) None (no_rows d))))) ;;
  ret (if Nat.leb (length rows) limit then (rows, None)
       else let rows := take limit rows in (rows, cursor_at <$> last rows)).

Definition unread (orgID userID : uuid) (n : Notification) : bool := mine orgID userID true n.

Definition UnreadCount (orgID userID : uuid) : MN Z :=
  query (fun d => Ok (Z.of_nat (rows_affected (unread orgID userID) (no_rows d)))).

Definition mark (p : Notification -> bool) : MN unit :=
  t <- now ;;
  stmt no_locks (fun d => (Ok tt, set_no_rows (update_where p [set_nt_ReadAt (Some t)] (no_rows d)) d)).

Definition MarkRead (orgID userID notificationID : uuid) : MN unit :=
  mark (fun n => N.eqb (nt_ID n) notificationID && unread orgID userID n).

Definition MarkAllRead (orgID userID : uuid) : MN unit := mark (unread orgID userID).

(** ** The endpoints *)

(** A page and the text of the next cursor, given how times are printed. *)
Definition cursor_text `{UuidText} (RFC3339Nano : time -> string) (c : Cursor) : string :=
  RFC3339Nano (cr_CreatedAt c) ++ "|" ++ uuid_String (cr_ID c).

(** A malformed cursor is none. *)
Definition parseNotificationCursor `{UuidText} (parse_time : string -> option time) (raw : string) : option Cursor :=
  if is_empty raw then None
  else
    let l := list_ascii_of_string raw in
    let '(at_, rest) := GoLib.span (fun c => negb (Ascii.eqb c "|")) l in
    match rest with
    | [] => None
    | _ :: id =>
        t ← parse_time (string_of_list_ascii at_);
        u ← uuid_Parse (string_of_list_ascii id);
        Some (MkCursor t u)
    end.

(** The page size a request asks for. *)
Definition requested_limit (raw : string) : Z :=
  match ParseInt raw with Some n => if 0 <? n then n else DefaultLimit | None => DefaultLimit end.
End Service.
