(* ===== verification/NotifyProps.v ===== *)
(** * Every notification is shown once; everybody is told once

    The last part applies the theorems on notifications and on template
    variables to concrete rows. *)
From S2P Require Import Prelude GoLib Store Events Wire Models Statements Samples Text People Schedule Notify Fields FieldService FieldsRuns Placeholders Templating TemplatingProps CRMContext.
#[local] Open Scope string_scope.
#[local] Open Scope list_scope.
#[local] Open Scope Z_scope.

(** ** The order of the list *)

Lemma row_less_irrefl t u : row_less t u t u = false.
Proof. unfold row_less. by rewrite Z.ltb_irrefl, N.ltb_irrefl, andb_false_r. Qed.

Lemma row_less_spec t u t' u' : row_less t u t' u' = true <-> t < t' \/ (t = t' /\ (u < u')%N).
Proof. unfold row_less. by rewrite orb_true_iff, andb_true_iff, Z.ltb_lt, Z.eqb_eq, N.ltb_lt. Qed.

Lemma newer_irrefl x : newer x x = false.
Proof. apply row_less_irrefl. Qed.

Lemma newer_trans x y z : newer x y = true -> newer y z = true -> newer x z = true.
Proof. unfold newer. rewrite !row_less_spec. lia. Qed.

Lemma newer_total (t : gmap uuid Notification) l :
  keyed nt_ID t -> (forall n, n ∈ l -> exists k, t !! k = Some n) -> total_on newer l.
Proof.
  intros Hk Hl x y Hx Hy. destruct (Hl x Hx) as [i Hi]. destruct (Hl y Hy) as [j Hj].
  destruct (decide (nt_ID x = nt_ID y)) as [E|Hne].
  - left. rewrite (Hk _ _ Hi), (Hk _ _ Hj) in E. congruence.
  - right. unfold newer. rewrite !row_less_spec. lia.
Qed.

Section Props.
Context `{SL : SqlLaws}.

Lemma find_rows_iff {R} (p : R -> bool) (t : gmap N R) r :
  r ∈ find_rows p None t <-> exists k, t !! k = Some r /\ p r = true.
Proof. split; [apply find_rows_elem|]. intros (k & Hk & Hp). by eapply find_rows_complete. Qed.

Lemma find_rows_and (p q : Notification -> bool) (t : gmap N Notification) :
  keyed nt_ID t -> find_rows (fun n => p n && q n) None t ≡ₚ List.filter q (find_rows p None t).
Proof.
  intros Hk. apply NoDup_Permutation.
  - by apply (find_rows_nodup nt_ID).
  - apply NoDup_ListNoDup, List.NoDup_filter, NoDup_ListNoDup. by apply (find_rows_nodup nt_ID).
  - intros n. rewrite find_rows_iff, list_elem_of_In, filter_In, <- list_elem_of_In, find_rows_iff.
    setoid_rewrite andb_true_iff. naive_solver.
Qed.

(** ** Sending *)

Lemma insert_all_app rows1 rows2 t :
  insert_all (rows1 ++ rows2) t = match insert_all rows1 t with Ok t1 => insert_all rows2 t1 | Err e => Err e end.
Proof.
  revert t. induction rows1 as [|r rows1 IH]; intros t; [done|]. cbn [app insert_all].
  destruct (negb (notification_fits r)); [done|]. destruct (is_some _); [done|apply IH].
Qed.

(** The table after an insert holds the rows it held and the new ones. *)
Lemma insert_all_spec rows t t' :
  insert_all rows t = Ok t' ->
  Forall (fun n => t !! nt_ID n = None) rows /\ (forall k n, t' !! k = Some n <-> t !! k = Some n \/ (n ∈ rows /\ nt_ID n = k)).
Proof.
  revert t. induction rows as [|r rows IH]; intros t; cbn [insert_all].
  - intros Et. injection Et as <-. split; [constructor|]. intros k n. split; [by left|]. intros [|[Hn%not_elem_of_nil _]]; done.
  - destruct (negb (notification_fits r)); [done|]. destruct (t !! nt_ID r) eqn:Er; [done|]. cbn [is_some].
    intros [Hf Ht]%IH. split.
    + constructor; [done|]. apply (Forall_impl _ _ _ Hf). intros n [? ?]%lookup_insert_None. done.
    + intros k n. rewrite Ht, lookup_insert_Some, elem_of_cons. split; [|naive_solver].
      destruct (decide (nt_ID r = k)) as [<-|]; naive_solver.
Qed.

Lemma create_batch_ok rows w w' :
  create_batch rows w = (Ok tt, w') ->
  insert_all rows (no_rows (w_db w)) = Ok (no_rows (w_db w')) /\ no_users (w_db w') = no_users (w_db w).
Proof.
  intros E. apply stmt_ok_inv in E as (d & E & _ & ->). cbn. destruct (insert_all _ _); [|done]. by injection E as <-.
Qed.

Lemma each_batch_ok fuel rows w w' :
  (length rows <= fuel)%nat -> each_batch fuel rows w = (Ok tt, w') ->
  insert_all rows (no_rows (w_db w)) = Ok (no_rows (w_db w')) /\ no_users (w_db w') = no_users (w_db w).
Proof.
  revert rows w. induction fuel as [|fuel IH]; intros [|r rows] w Hl E; try (by apply ret_ok_inv in E as [_ ->]); [simpl in Hl; lia|].
  cbn [each_batch] in E. apply bind_ok_inv in E as ([] & w1 & E1 & E). apply create_batch_ok in E1 as [E1 Eu].
  apply IH in E as [E Eu']; [|rewrite length_drop; simpl in *; lia].
  rewrite <- (take_drop 200 (r :: rows)), insert_all_app, E1, E. by rewrite Eu', Eu.
Qed.

Lemma CreateInBatches_ok rows w w' :
  CreateInBatches rows w = (Ok tt, w') ->
  insert_all rows (no_rows (w_db w)) = Ok (no_rows (w_db w')) /\ no_users (w_db w') = no_users (w_db w).
Proof.
  unfold CreateInBatches. destruct (Nat.leb _ _); [apply create_batch_ok|].
  intros E. apply transaction_ok_inv in E as (w1 & E & _ & ->). by apply each_batch_ok in E.
Qed.

Lemma CreateInBatches_rolls_back rows : rolls_back (CreateInBatches rows).
Proof.
  unfold CreateInBatches. destruct (Nat.leb _ _); [|apply rolls_back_transaction].
  apply rolls_back_stmt.
Qed.

Lemma new_rows_run inp t recipients w :
  exists rows n, new_rows inp t recipients w = (Ok rows, set_uuid n w) /\ map nt_UserID rows = recipients /\
    Forall (fun n => nt_OrganizationID n = np_OrgID inp /\ nt_Type n = np_Type inp /\ nt_EntityID n = np_EntityID inp /\
                     nt_ReadAt n = None /\ nt_CreatedAt n = t) rows.
Proof.
  revert w. induction recipients as [|u l IH]; intros w; [exists [], (w_uuid w); by destruct w|]. cbn [new_rows].
  destruct (IH (set_uuid (w_uuid w + 1)%N w)) as (rows & n & E & Em & Ef). unfold bind at 1. cbn [uuid_New].
  unfold bind. rewrite E. eexists _, n. split; [reflexivity|]. cbn [map]. rewrite Em. split; [done|]. by constructor.
Qed.

Lemma existsb_id id l : existsb (N.eqb id) l = true <-> id ∈ l.
Proof.
  rewrite existsb_exists. setoid_rewrite <- list_elem_of_In. split; [intros (x & Hx & ->%N.eqb_eq); done|].
  intros Hid. exists id. by rewrite N.eqb_refl.
Qed.

Lemma unique_spec seen l : NoDup (unique seen l) /\ (forall id, id ∈ unique seen l <-> id ∈ l /\ id <> uuid_Nil /\ id ∉ seen).
Proof.
  revert seen. induction l as [|x l IH]; intros seen; cbn [unique].
  - split; [constructor|]. intros id. rewrite elem_of_nil. tauto.
  - destruct (N.eqb x uuid_Nil || existsb (N.eqb x) seen) eqn:E.
    + destruct (IH seen) as [Hnd Hin]. split; [done|]. intros id. rewrite Hin, elem_of_cons.
      apply orb_true_iff in E as [->%N.eqb_eq|E%existsb_id]; naive_solver.
    + apply orb_false_iff in E as [Ex%N.eqb_neq Es]. assert (x ∉ seen) as Hs by (by rewrite <- existsb_id, Es).
      destruct (IH (x :: seen)) as [Hnd Hin]. split.
      * constructor; [|done]. rewrite Hin, elem_of_cons. tauto.
      * intros id. rewrite !elem_of_cons, Hin, elem_of_cons. destruct (decide (id = x)) as [->|]; tauto.
Qed.

(** Whether nothing stored says that the user does not want it. *)
Definition willing (users : gmap uuid User) (notificationType : string) (id : uuid) : Prop :=
  forall k u, users !! k = Some u -> us_ID u = id -> us_DeletedAt u = None -> WantsInApp (us_Settings u) notificationType = true.

(** The database answers the first question it is asked; the primary key of its users holds. *)
Definition answers (w : world NotifyDB) : Prop :=
  (w_aborted w = false /\ hd false (w_faults w) = false) /\ keyed us_ID (no_users (w_db w)).

Lemma query_answers {A} (f : NotifyDB -> A) w r w' : answers w -> query (fun d => Ok (f d)) w = (r, w') -> r = Ok (f (w_db w)).
Proof. intros [[Hab Hf] _]. unfold query, stmt. rewrite Hab. destruct (w_faults w) as [|[] fs]; [|done|]; by intros [= <- _]. Qed.

Lemma eligible_ok inp w ids w' :
  eligible inp w = (Ok ids, w') ->
  w_db w' = w_db w /\ NoDup ids /\ (forall id, id ∈ ids -> id ∈ np_UserIDs inp /\ id <> uuid_Nil) /\
  (forall id, id ∈ np_UserIDs inp -> id <> uuid_Nil -> willing (no_users (w_db w)) (np_Type inp) id -> id ∈ ids) /\
  (answers w -> forall id, id ∈ ids -> willing (no_users (w_db w)) (np_Type inp) id).
Proof.
  unfold eligible. destruct (unique_spec [] (np_UserIDs inp)) as [Hnd Hin]. set (all := unique [] (np_UserIDs inp)) in *.
  assert (forall id, id ∈ all -> id ∈ np_UserIDs inp /\ id <> uuid_Nil) as Hout by (intros id (? & ? & _)%Hin; done).
  assert (forall id, id ∈ np_UserIDs inp -> id <> uuid_Nil -> id ∈ all) as Hback
    by (intros id ? ?; apply Hin; split; [done|]; split; [done|]; by intros ?%not_elem_of_nil).
  destruct all as [|x l] eqn:Ea; [|intros E; rewrite <- Ea in *].
  { intros [-> ->]%ret_ok_inv. split; [done|]. split; [constructor|]. split; [by intros id ?%not_elem_of_nil|].
    split; [|by intros _ id ?%not_elem_of_nil]. intros id H1 H2 _. by apply Hback. }
  apply bind_ok_inv in E as (users & w1 & Eu & E). apply ret_ok_inv in E as [-> ->]. apply try_ok_inv in Eu.
  destruct users as [users|e].
  2: { pose proof Eu as Eu'. apply query_err_inv in Eu as (Hdb & _). rewrite Hdb. split; [done|]. split; [done|]. split; [done|].
    split; [|intros Ha; by apply (query_answers _ _ _ _ Ha) in Eu']. intros id H1 H2 _. by apply Hback. }
  apply query_ok_inv in Eu as (Eu & _ & ->). injection Eu as <-. split; [done|]. split; [|split; [|split]].
  - by apply NoDup_ListNoDup, List.NoDup_filter, NoDup_ListNoDup.
  - intros id [Hid%list_elem_of_In _]%list_elem_of_In%filter_In. by apply Hout.
  - intros id Hid Hn Hw. apply list_elem_of_In, filter_In. split; [by apply list_elem_of_In, Hback|].
    destruct (List.find _ _) as [u|] eqn:Ef; [|done]. apply find_some in Ef as [Hu%list_elem_of_In Eid%N.eqb_eq].
    apply find_rows_iff in Hu as (k & Hk & [_ Hd]%andb_true_iff). apply (Hw k u Hk Eid). by destruct (us_DeletedAt u).
  - intros [_ Hkey] id [Hall Hw]%list_elem_of_In%filter_In k u Hk Eid Hd. apply list_elem_of_In in Hall.
    destruct (List.find _ _) as [u'|] eqn:Ef.
    + apply find_some in Ef as [Hu'%list_elem_of_In Eid'%N.eqb_eq]. apply find_rows_iff in Hu' as (k' & Hk' & _).
      assert (k' = k) as -> by (rewrite <- (Hkey _ _ Hk), <- (Hkey _ _ Hk'); congruence). by simplify_eq.
    + exfalso. assert (u ∈ find_rows (fun u => existsb (N.eqb (us_ID u)) all && is_none (us_DeletedAt u)) None (no_users (w_db w))) as Hu.
      { apply find_rows_iff. exists k. split; [done|]. rewrite Hd, andb_true_r. apply existsb_id. by rewrite Eid. }
      apply list_elem_of_In in Hu. pose proof (find_none _ _ Ef u Hu) as Hne. simpl in Hne. by rewrite Eid, N.eqb_refl in Hne.
Qed.

(** What is stored when a notification goes out: everything as before, and a
    row for every willing user it names, once; for no other user, if the
    preferences [were_read]. *)
Definition told (inp : Input) (were_read : Prop) (d : NotifyDB) (rows : list Notification) (d' : NotifyDB) : Prop :=
  NoDup (map nt_UserID rows) /\
  Forall (fun n => nt_UserID n ∈ np_UserIDs inp /\ nt_UserID n <> uuid_Nil /\ nt_OrganizationID n = np_OrgID inp /\
                   nt_Type n = np_Type inp /\ nt_EntityID n = np_EntityID inp /\ nt_ReadAt n = None /\
                   no_rows d !! nt_ID n = None) rows /\
  (forall k n, no_rows d' !! k = Some n <-> no_rows d !! k = Some n \/ (n ∈ rows /\ nt_ID n = k)) /\
  (forall id, id ∈ np_UserIDs inp -> id <> uuid_Nil -> willing (no_users d) (np_Type inp) id ->
     exists n, n ∈ rows /\ nt_UserID n = id) /\
  (were_read -> forall n, n ∈ rows -> willing (no_users d) (np_Type inp) (nt_UserID n)).

Lemma Send_inv inp w r w' :
  Send inp w = (r, w') ->
  no_users (w_db w') = no_users (w_db w) /\
  match r with Err _ => no_rows (w_db w') = no_rows (w_db w) | Ok rows => told inp (answers w) (w_db w) rows (w_db w') end.
Proof.
  unfold Send. intros E. unfold bind at 1 in E. destruct (eligible inp w) as [[ids|e] w1] eqn:Ee.
  2: { injection E as <- <-. assert (reads (eligible inp)) as Hr by (unfold eligible; solve_moves). by rewrite <- (Hr _ _ _ Ee). }
  apply eligible_ok in Ee as (Hdb & Hnd & Hout & Hin & Hwill). destruct ids as [|x l] eqn:Ei.
  { injection E as <- <-. rewrite Hdb. split; [done|]. split; [constructor|]. split; [constructor|]. split.
    - intros k n. split; [by left|]. intros [|[Hn%not_elem_of_nil _]]; done.
    - split; [|by intros _ n ?%not_elem_of_nil]. intros id H1 H2 H3. by apply Hin, not_elem_of_nil in H1. }
  rewrite <- Ei in *. clear x l Ei. unfold bind at 1 in E. cbn [now] in E. unfold bind at 1 in E.
  destruct (new_rows_run inp (w_now w1) ids w1) as (rows & n & En & Em & Ef). rewrite En in E. unfold bind in E.
  destruct (CreateInBatches rows (set_uuid n w1)) as [[[]|e] w2] eqn:Ec; injection E as <- <-.
  2: { apply CreateInBatches_rolls_back in Ec. cbn [w_db set_uuid] in Ec. by rewrite Ec, Hdb. }
  apply CreateInBatches_ok in Ec as [Ec Eu]. cbn [w_db set_uuid] in Ec, Eu. rewrite Hdb in Ec, Eu.
  apply insert_all_spec in Ec as [Hnone Hrows]. unfold told. rewrite Em. split; [done|]. split; [done|]. split; [|split; [done|split]].
  - apply Forall_forall. intros m Hm. rewrite Forall_forall in Hnone, Ef. destruct (Ef m Hm) as (? & ? & ? & ? & _).
    assert (nt_UserID m ∈ ids) as [? ?]%Hout by (rewrite <- Em; apply list_elem_of_fmap; eauto). auto 10.
  - intros id H1 H2 H3. apply Hin in H1; [|done..]. rewrite <- Em in H1. apply list_elem_of_fmap in H1 as (m & -> & Hm). eauto.
  - intros Ha m Hm. apply (Hwill Ha). rewrite <- Em. apply list_elem_of_fmap. eauto.
Qed.

(** C33: A notification that goes out is stored once for every user it names who
    has not turned it off, and for no other; it replaces nothing.  (If the
    preferences cannot be read, every user it names gets it.)  One that fails
    stores nothing. *)
Theorem everybody_is_told_once inp w r w' :
  Send inp w = (r, w') ->
  no_users (w_db w') = no_users (w_db w) /\
  match r with Err _ => no_rows (w_db w') = no_rows (w_db w) | Ok rows => told inp (answers w) (w_db w) rows (w_db w') end.
Proof. apply Send_inv. Qed.

(** ** Pages *)

(** Reading page after page, as the client does. *)
Fixpoint all_pages (fuel : nat) (orgID userID : uuid) (unreadOnly : bool) (limit : Z) (before : option Cursor)
    : MN (list Notification) :=
  match fuel with
  | O => ret []
  | S fuel =>
      page <- List_ orgID userID (MkListOpts unreadOnly before limit) ;;
      match page.2 with
      | None => ret page.1
      | Some c => rest <- all_pages fuel orgID userID unreadOnly limit (Some c) ;; ret (page.1 ++ rest)
      end
  end.

Lemma page_limit_pos limit : (1 <= page_limit limit <= 100)%nat.
Proof.
  unfold page_limit, DefaultLimit, MaxLimit. destruct (Z.leb_spec limit 0); [vm_compute; lia|].
  destruct (Z.ltb_spec 100 limit); lia.
Qed.

Lemma List_ok_inv orgID userID opts w page w' :
  List_ orgID userID opts w = (Ok page, w') ->
  w_db w' = w_db w /\
  let limit := page_limit (lo_Limit opts) in
  let s := sort_by newer (find_rows (fun n => mine orgID userID (lo_UnreadOnly opts) n && older_than (lo_Before opts) n) None (no_rows (w_db w))) in
  page = if Nat.leb (length s) limit then (s, None) else (take limit s, cursor_at <$> last (take limit s)).
Proof.
  unfold List_. intros E. apply bind_ok_inv in E as (rows & w1 & Eq & E). apply query_ok_inv in Eq as (Eq & _ & ->).
  apply ret_ok_inv in E as [-> ->]. split; [done|]. cbv zeta. injection Eq as <-.
  set (s := sort_by newer _). set (limit := page_limit _). rewrite length_take.
  destruct (Nat.leb_spec (length s) limit).
  - rewrite take_ge by lia. rewrite (proj2 (Nat.leb_le _ _)) by lia. done.
  - rewrite (proj2 (Nat.leb_gt _ _)) by lia. rewrite take_take, Nat.min_l by lia. done.
Qed.

Lemma pages_suffix fuel orgID userID unreadOnly limit before w rows w' p s :
  let found := find_rows (mine orgID userID unreadOnly) None (no_rows (w_db w)) in
  keyed nt_ID (no_rows (w_db w)) -> sort_by newer found = p ++ s ->
  match before with None => p = [] | Some c => exists p' n, p = p' ++ [n] /\ c = cursor_at n end ->
  (length s < fuel)%nat ->
  all_pages fuel orgID userID unreadOnly limit before w = (Ok rows, w') -> rows = s /\ w_db w' = w_db w.
Proof.
  cbv zeta. revert before w rows w' p s. induction fuel as [|fuel IH]; intros before w rows w' p s Hk Hs Hb Hf E; [lia|].
  cbn [all_pages] in E. apply bind_ok_inv in E as (page & w1 & El & E). apply List_ok_inv in El as [Hdb Hpage].
  cbn [lo_Limit lo_UnreadOnly lo_Before] in Hpage. cbv zeta in Hpage.
  set (found := find_rows (mine orgID userID unreadOnly) None (no_rows (w_db w))) in *.
  assert (total_on newer found) as Ht.
  { apply (newer_total (no_rows (w_db w))); [done|]. intros n Hn. apply find_rows_iff in Hn as (k & ? & _). eauto. }
  assert (sort_by newer (find_rows (fun n => mine orgID userID unreadOnly n && older_than before n) None (no_rows (w_db w))) = s) as Hsuf.
  { assert (find_rows (fun n => mine orgID userID unreadOnly n && older_than before n) None (no_rows (w_db w)) ≡ₚ
            List.filter (older_than before) found) as Hp by (by apply find_rows_and).
    assert (sort_by newer (List.filter (older_than before) found) = s) as <-.
    { destruct before as [c|].
      - destruct Hb as (p' & n & -> & ->). rewrite <- app_assoc in Hs.
        apply (sort_after newer newer_irrefl newer_trans) in Hs; [exact Hs|by apply (find_rows_nodup nt_ID)|done].
      - subst p. cbn [app] in Hs. rewrite <- Hs. f_equal. clear. induction found as [|n l IHl]; [done|]. cbn. by rewrite IHl. }
    apply (in_order_unique newer newer_irrefl).
    - apply (newer_total (no_rows (w_db w))); [done|]. intros n. rewrite elem_of_sort_by, find_rows_iff. naive_solver.
    - apply (sort_ordered newer newer_irrefl newer_trans). apply (newer_total (no_rows (w_db w))); [done|].
      intros n. rewrite find_rows_iff. naive_solver.
    - apply (sort_ordered newer newer_irrefl newer_trans). intros a b Ha Hb'. apply list_elem_of_In, filter_In in Ha as [Ha _].
      apply list_elem_of_In, filter_In in Hb' as [Hb' _]. apply Ht; by apply list_elem_of_In.
    - by rewrite !sort_by_perm. }
  rewrite Hsuf in Hpage. pose proof (page_limit_pos limit) as Hlim. destruct (Nat.leb_spec (length s) (page_limit limit)).
  - subst page. apply ret_ok_inv in E as [-> ->]. done.
  - subst page. cbn [fst snd] in E. set (n := page_limit limit) in *.
    assert (take n s <> []) as Hne by (intros En; assert (length (take n s) = n) by (apply length_take_le; lia); rewrite En in *; simpl in *; lia).
    destruct (exists_last Hne) as (l & x & El). rewrite El, last_snoc in E. cbn [fmap option_fmap option_map] in E.
    apply bind_ok_inv in E as (rest & w2 & Er & E). apply ret_ok_inv in E as [-> ->].
    apply (IH (Some (cursor_at x)) w1 rest w2 (p ++ take n s) (drop n s)) in Er as [-> ->].
    + rewrite <- El, take_drop. by rewrite Hdb.
    + by rewrite Hdb.
    + rewrite Hdb. fold found. by rewrite <- app_assoc, take_drop.
    + exists (p ++ l), x. by rewrite El, app_assoc.
    + rewrite length_drop. lia.
Qed.

(** Reading page after page shows a user exactly the notifications that are
    theirs, each once, the newest first; and reading changes nothing. *)
Theorem pages_show_each_once fuel orgID userID unreadOnly limit w rows w' :
  keyed nt_ID (no_rows (w_db w)) -> (size (no_rows (w_db w)) < fuel)%nat ->
  all_pages fuel orgID userID unreadOnly limit None w = (Ok rows, w') ->
  w_db w' = w_db w /\ NoDup rows /\ in_order newer rows /\
  forall n, n ∈ rows <-> exists k, no_rows (w_db w) !! k = Some n /\ mine orgID userID unreadOnly n = true.
Proof.
  intros Hk Hf E. set (found := find_rows (mine orgID userID unreadOnly) None (no_rows (w_db w))).
  assert (NoDup found) as Hnd by (by apply (find_rows_nodup nt_ID)).
  assert (length (sort_by newer found) < fuel)%nat as Hlen.
  { rewrite sort_by_perm. enough (length found <= size (no_rows (w_db w)))%nat by lia.
    rewrite <- length_map_to_list, <- (length_fmap snd). apply submseteq_length, NoDup_submseteq; [done|].
    intros n [k [Hk' _]]%find_rows_iff. apply list_elem_of_fmap. exists (k, n). by rewrite elem_of_map_to_list. }
  destruct (pages_suffix fuel orgID userID unreadOnly limit None w rows w' [] (sort_by newer found) Hk eq_refl eq_refl Hlen E)
    as [-> ->].
  split; [done|]. split; [by rewrite sort_by_perm|]. split.
  - apply (sort_ordered newer newer_irrefl newer_trans), (newer_total (no_rows (w_db w))); [done|].
    intros n (k & ? & _)%find_rows_iff. eauto.
  - intros n. rewrite elem_of_sort_by. apply find_rows_iff.
Qed.
End Props.

(** * The theorems on template variables and notifications at concrete rows *)
#[local] Open Scope string_scope.
#[local] Open Scope list_scope.
#[local] Open Scope Z_scope.

#[local] Existing Instance sql_ref.
#[local] Existing Instance uuid_ref.
#[local] Existing Instance plain_fmt.
#[local] Existing Instance plain_fields.
#[local] Existing Instance plain_server.
#[local] Instance plain_context : ContextEnv := {|
  RFC3339 := Itoa; FormatMinute := fun _ => Itoa; named := fun _ => ABool true; no_double := fun _ => ANil |}.

(** ** Variables *)

Definition sample_org : Organization := MkOrganization 1 None "Acme" [("timezone", AString "Africa/Lagos")].

Definition sample_context : ContextDB :=
  MkContextDB empty_tables ∅ (MkFieldsDB ∅ ∅ ∅ ∅ ∅) {[1%N := sample_org]} ∅ ∅.

Definition sample_opts : Opts := MkOpts uuid_Nil None None true [("rule", AString "welcome"); ("org", AString "forged")] None None.

Definition context_world : world ContextDB := World sample_context 5 1000 [] false false [].

(** The caller's [org] is ignored, its [rule] is kept. *)
Lemma records_win_witness :
  exists vars w',
    Build 1 sample_opts context_world = (Ok vars, w') /\
    find_key vars "rule" = Some (AString "welcome") /\ find_key vars "org" <> Some (AString "forged").
Proof.
  destruct (Build 1 sample_opts context_world) as [r w'] eqn:E. destruct r as [vars|]; [|vm_compute in E; discriminate E].
  exists vars, w'. split; [reflexivity|].
  destruct (records_win 1 sample_opts context_world vars w' E) as (base & Eb & Hk). rewrite !Hk. split; [reflexivity|].
  vm_compute in Eb. injection Eb as <- _. cbn. discriminate.
Defined.

(** The role is not one of the namespace's: its placeholder stays. *)
Lemma owned_placeholders_are_rendered_witness :
  Forall leaf_ok [Txt (list_ascii_of_string "Hi "); Var ["org"; "name"]; Var ["role"]] /\
  RenderOwned "Hi {{org.name}}{{role}}" [("org", AMap [("name", AString "Acme")])] EscapeRaw = Some "Hi Acme{{role}}".
Proof.
  assert (Forall leaf_ok [Txt (list_ascii_of_string "Hi "); Var ["org"; "name"]; Var ["role"]]) as Hl.
  { repeat constructor; cbn; try done; try (by repeat constructor); try (by unfold reserved; naive_solver). }
  split; [exact Hl|].
  change "Hi {{org.name}}{{role}}" with
    (string_of_list_ascii (leaves_text [Txt (list_ascii_of_string "Hi "); Var ["org"; "name"]; Var ["role"]])).
  rewrite (owned_placeholders_are_rendered _ _ EscapeRaw Hl). reflexivity.
Defined.

(** ** Notifications *)

Definition sample_note (id : uuid) (user : uuid) (at_ : time) : Notification :=
  MkNotification id 1 user NotificationTaskDue "Call back" "" "" "task" None [] None at_.

Definition quiet_user : User :=
  MkUser 41 None 1 "" "Bo" None (Some [("notifications", AMap [(NotificationTaskDue, AMap [("in_app", ABool false)])])]) true true.

Definition sample_notes : NotifyDB :=
  MkNotifyDB {[41%N := quiet_user]}
    (rows_of nt_ID [sample_note 60 40 10; sample_note 61 40 30; sample_note 62 40 20; sample_note 63 41 25]).

Definition notes_world : world NotifyDB := World sample_notes 50 1000 [] false false [].

(** Three notifications, read one at a time. *)
Lemma pages_show_each_once_witness :
  keyed nt_ID (no_rows sample_notes) /\
  exists rows w', all_pages 5 1 40 false 1 None notes_world = (Ok rows, w') /\ NoDup rows /\ map nt_ID rows = [61%N; 62%N; 60%N].
Proof.
  assert (keyed nt_ID (no_rows sample_notes)) as Hk by apply rows_of_keyed. split; [exact Hk|].
  destruct (all_pages 5 1 40 false 1 None notes_world) as [r w'] eqn:E. destruct r as [rows|]; [|vm_compute in E; discriminate E].
  exists rows, w'. split; [reflexivity|].
  assert (size (no_rows sample_notes) < 5)%nat as Hs by (vm_compute; lia).
  destruct (pages_show_each_once 5 1 40 false 1 notes_world rows w' Hk Hs E) as (_ & Hnd & _). split; [exact Hnd|].
  vm_compute in E. by injection E as <- _.
Defined.

Definition sample_input : Input := MkInput 1 [40; 41; 40; 0]%N NotificationTaskDue "Call back" "" "" "task" None [].

(** Bo turned these off; the other user is named twice and told once. *)
Lemma everybody_is_told_once_witness :
  exists rows w', Send sample_input notes_world = (Ok rows, w') /\ NoDup (map nt_UserID rows) /\ map nt_UserID rows = [40%N] /\
    forall n, n ∈ rows -> willing (no_users (w_db notes_world)) NotificationTaskDue (nt_UserID n).
Proof.
  destruct (Send sample_input notes_world) as [r w'] eqn:E. destruct r as [rows|]; [|vm_compute in E; discriminate E].
  exists rows, w'. split; [reflexivity|].
  destruct (everybody_is_told_once sample_input notes_world (Ok rows) w' E) as (_ & Hnd & _ & _ & _ & Hw). split; [exact Hnd|].
  split; [vm_compute in E; by injection E as <- _|]. apply Hw. split; [by split|]. intros k u Hu. by apply (lookup_singleton_Some 41%N k quiet_user u) in Hu as [<- <-].
Defined.
