(* ===== verification/TaskModels.v ===== *)
(** * The rows of tasks and their types ([internal/models/task.go],
      [internal/tasks/seed.go], [internal/handlers/task_types.go]) *)
From S2P Require Import Prelude GoLib Text Store Events Models People Notify Statements Fields FieldService.
#[local] Open Scope string_scope.
#[local] Open Scope list_scope.
#[local] Open Scope Z_scope.

Definition TaskOpen := "open".
Definition TaskCompleted := "completed".
Definition TaskCancelled := "cancelled".

Definition TaskPriorityLow := "low".
Definition TaskPriorityNormal := "normal".
Definition TaskPriorityHigh := "high".

Definition TaskSourceManual := "manual".
Definition TaskSourceAutomation := "automation".
Definition TaskSourceAPI := "api".
Definition TaskSourceChatbot := "chatbot".
Definition TaskSourceCall := "call".

Definition TaskTypeCallBack := "call_back".
Definition TaskTypeSendQuote := "send_quote".
Definition TaskTypeCheckIn := "check_in".
Definition TaskTypeFollowUp := "follow_up".
Definition TaskTypeOther := "other".

(** [models.TaskType]. *)
Record TaskType := MkTaskType {
  tt_ID : uuid;
  tt_DeletedAt : option time;
  tt_OrganizationID : uuid;
  tt_Key : string;
  tt_Label : string;
  tt_Icon : string;
  tt_Color : string;
  tt_DefaultDueOffsetMinutes : Z;
  tt_IsSystem : bool;
  tt_Position : Z;
  tt_ArchivedAt : option time
}.

Definition set_tt_DeletedAt (v : option time) (r : TaskType) : TaskType :=
  MkTaskType (tt_ID r) v (tt_OrganizationID r) (tt_Key r) (tt_Label r) (tt_Icon r) (tt_Color r)
  (tt_DefaultDueOffsetMinutes r) (tt_IsSystem r) (tt_Position r) (tt_ArchivedAt r).
Definition set_tt_Label (v : string) (r : TaskType) : TaskType :=
  MkTaskType (tt_ID r) (tt_DeletedAt r) (tt_OrganizationID r) (tt_Key r) v (tt_Icon r) (tt_Color r)
  (tt_DefaultDueOffsetMinutes r) (tt_IsSystem r) (tt_Position r) (tt_ArchivedAt r).
Definition set_tt_Icon (v : string) (r : TaskType) : TaskType :=
  MkTaskType (tt_ID r) (tt_DeletedAt r) (tt_OrganizationID r) (tt_Key r) (tt_Label r) v (tt_Color r)
  (tt_DefaultDueOffsetMinutes r) (tt_IsSystem r) (tt_Position r) (tt_ArchivedAt r).
Definition set_tt_Color (v : string) (r : TaskType) : TaskType :=
  MkTaskType (tt_ID r) (tt_DeletedAt r) (tt_OrganizationID r) (tt_Key r) (tt_Label r) (tt_Icon r) v
  (tt_DefaultDueOffsetMinutes r) (tt_IsSystem r) (tt_Position r) (tt_ArchivedAt r).
Definition set_tt_DefaultDueOffsetMinutes (v : Z) (r : TaskType) : TaskType :=
  MkTaskType (tt_ID r) (tt_DeletedAt r) (tt_OrganizationID r) (tt_Key r) (tt_Label r) (tt_Icon r)
  (tt_Color r) v (tt_IsSystem r) (tt_Position r) (tt_ArchivedAt r).
Definition set_tt_Position (v : Z) (r : TaskType) : TaskType :=
  MkTaskType (tt_ID r) (tt_DeletedAt r) (tt_OrganizationID r) (tt_Key r) (tt_Label r) (tt_Icon r)
  (tt_Color r) (tt_DefaultDueOffsetMinutes r) (tt_IsSystem r) v (tt_ArchivedAt r).
Definition set_tt_ArchivedAt (v : option time) (r : TaskType) : TaskType :=
  MkTaskType (tt_ID r) (tt_DeletedAt r) (tt_OrganizationID r) (tt_Key r) (tt_Label r) (tt_Icon r)
  (tt_Color r) (tt_DefaultDueOffsetMinutes r) (tt_IsSystem r) (tt_Position r) v.

(** [models.Task], without the preloaded relations. *)
Record Task := MkTask {
  tk_ID : uuid;
  tk_DeletedAt : option time;
  tk_OrganizationID : uuid;
  tk_ContactID : uuid;
  tk_ConversationID : option uuid;
  tk_DealID : option uuid;
  tk_MessageID : option uuid;
  tk_CallLogID : option uuid;
  tk_TypeID : uuid;
  tk_Title : string;
  tk_Description : string;
  tk_OwnerID : uuid;
  tk_CreatedByID : option uuid;
  tk_Priority : string;
  tk_Status : string;
  tk_DueAt : time;
  tk_AllDay : bool;
  tk_RemindAt : option time;
  tk_CompletedAt : option time;
  tk_CompletedByID : option uuid;
  tk_CancelledAt : option time;
  tk_Source : string;
  tk_AutomationRuleID : option uuid;
  tk_ReminderSentAt : option time;
  tk_OverdueNotifiedAt : option time
}.

Definition set_tk_DeletedAt (v : option time) (r : Task) : Task :=
  MkTask (tk_ID r) v (tk_OrganizationID r) (tk_ContactID r) (tk_ConversationID r) (tk_DealID r)
  (tk_MessageID r) (tk_CallLogID r) (tk_TypeID r) (tk_Title r) (tk_Description r) (tk_OwnerID r)
  (tk_CreatedByID r) (tk_Priority r) (tk_Status r) (tk_DueAt r) (tk_AllDay r) (tk_RemindAt r)
  (tk_CompletedAt r) (tk_CompletedByID r) (tk_CancelledAt r) (tk_Source r) (tk_AutomationRuleID r)
  (tk_ReminderSentAt r) (tk_OverdueNotifiedAt r).
Definition set_tk_Title (v : string) (r : Task) : Task :=
  MkTask (tk_ID r) (tk_DeletedAt r) (tk_OrganizationID r) (tk_ContactID r) (tk_ConversationID r)
  (tk_DealID r) (tk_MessageID r) (tk_CallLogID r) (tk_TypeID r) v (tk_Description r) (tk_OwnerID r)
  (tk_CreatedByID r) (tk_Priority r) (tk_Status r) (tk_DueAt r) (tk_AllDay r) (tk_RemindAt r)
  (tk_CompletedAt r) (tk_CompletedByID r) (tk_CancelledAt r) (tk_Source r) (tk_AutomationRuleID r)
  (tk_ReminderSentAt r) (tk_OverdueNotifiedAt r).
Definition set_tk_Description (v : string) (r : Task) : Task :=
  MkTask (tk_ID r) (tk_DeletedAt r) (tk_OrganizationID r) (tk_ContactID r) (tk_ConversationID r)
  (tk_DealID r) (tk_MessageID r) (tk_CallLogID r) (tk_TypeID r) (tk_Title r) v (tk_OwnerID r)
  (tk_CreatedByID r) (tk_Priority r) (tk_Status r) (tk_DueAt r) (tk_AllDay r) (tk_RemindAt r)
  (tk_CompletedAt r) (tk_CompletedByID r) (tk_CancelledAt r) (tk_Source r) (tk_AutomationRuleID r)
  (tk_ReminderSentAt r) (tk_OverdueNotifiedAt r).
Definition set_tk_OwnerID (v : uuid) (r : Task) : Task :=
  MkTask (tk_ID r) (tk_DeletedAt r) (tk_OrganizationID r) (tk_ContactID r) (tk_ConversationID r)
  (tk_DealID r) (tk_MessageID r) (tk_CallLogID r) (tk_TypeID r) (tk_Title r) (tk_Description r) v
  (tk_CreatedByID r) (tk_Priority r) (tk_Status r) (tk_DueAt r) (tk_AllDay r) (tk_RemindAt r)
  (tk_CompletedAt r) (tk_CompletedByID r) (tk_CancelledAt r) (tk_Source r) (tk_AutomationRuleID r)
  (tk_ReminderSentAt r) (tk_OverdueNotifiedAt r).
Definition set_tk_Priority (v : string) (r : Task) : Task :=
  MkTask (tk_ID r) (tk_DeletedAt r) (tk_OrganizationID r) (tk_ContactID r) (tk_ConversationID r)
  (tk_DealID r) (tk_MessageID r) (tk_CallLogID r) (tk_TypeID r) (tk_Title r) (tk_Description r)
  (tk_OwnerID r) (tk_CreatedByID r) v (tk_Status r) (tk_DueAt r) (tk_AllDay r) (tk_RemindAt r)
  (tk_CompletedAt r) (tk_CompletedByID r) (tk_CancelledAt r) (tk_Source r) (tk_AutomationRuleID r)
  (tk_ReminderSentAt r) (tk_OverdueNotifiedAt r).
Definition set_tk_Status (v : string) (r : Task) : Task :=
  MkTask (tk_ID r) (tk_DeletedAt r) (tk_OrganizationID r) (tk_ContactID r) (tk_ConversationID r)
  (tk_DealID r) (tk_MessageID r) (tk_CallLogID r) (tk_TypeID r) (tk_Title r) (tk_Description r)
  (tk_OwnerID r) (tk_CreatedByID r) (tk_Priority r) v (tk_DueAt r) (tk_AllDay r) (tk_RemindAt r)
  (tk_CompletedAt r) (tk_CompletedByID r) (tk_CancelledAt r) (tk_Source r) (tk_AutomationRuleID r)
  (tk_ReminderSentAt r) (tk_OverdueNotifiedAt r).
Definition set_tk_DueAt (v : time) (r : Task) : Task :=
  MkTask (tk_ID r) (tk_DeletedAt r) (tk_OrganizationID r) (tk_ContactID r) (tk_ConversationID r)
  (tk_DealID r) (tk_MessageID r) (tk_CallLogID r) (tk_TypeID r) (tk_Title r) (tk_Description r)
  (tk_OwnerID r) (tk_CreatedByID r) (tk_Priority r) (tk_Status r) v (tk_AllDay r) (tk_RemindAt r)
  (tk_CompletedAt r) (tk_CompletedByID r) (tk_CancelledAt r) (tk_Source r) (tk_AutomationRuleID r)
  (tk_ReminderSentAt r) (tk_OverdueNotifiedAt r).
Definition set_tk_AllDay (v : bool) (r : Task) : Task :=
  MkTask (tk_ID r) (tk_DeletedAt r) (tk_OrganizationID r) (tk_ContactID r) (tk_ConversationID r)
  (tk_DealID r) (tk_MessageID r) (tk_CallLogID r) (tk_TypeID r) (tk_Title r) (tk_Description r)
  (tk_OwnerID r) (tk_CreatedByID r) (tk_Priority r) (tk_Status r) (tk_DueAt r) v (tk_RemindAt r)
  (tk_CompletedAt r) (tk_CompletedByID r) (tk_CancelledAt r) (tk_Source r) (tk_AutomationRuleID r)
  (tk_ReminderSentAt r) (tk_OverdueNotifiedAt r).
Definition set_tk_RemindAt (v : option time) (r : Task) : Task :=
  MkTask (tk_ID r) (tk_DeletedAt r) (tk_OrganizationID r) (tk_ContactID r) (tk_ConversationID r)
  (tk_DealID r) (tk_MessageID r) (tk_CallLogID r) (tk_TypeID r) (tk_Title r) (tk_Description r)
  (tk_OwnerID r) (tk_CreatedByID r) (tk_Priority r) (tk_Status r) (tk_DueAt r) (tk_AllDay r) v
  (tk_CompletedAt r) (tk_CompletedByID r) (tk_CancelledAt r) (tk_Source r) (tk_AutomationRuleID r)
  (tk_ReminderSentAt r) (tk_OverdueNotifiedAt r).
Definition set_tk_CompletedAt (v : option time) (r : Task) : Task :=
  MkTask (tk_ID r) (tk_DeletedAt r) (tk_OrganizationID r) (tk_ContactID r) (tk_ConversationID r)
  (tk_DealID r) (tk_MessageID r) (tk_CallLogID r) (tk_TypeID r) (tk_Title r) (tk_Description r)
  (tk_OwnerID r) (tk_CreatedByID r) (tk_Priority r) (tk_Status r) (tk_DueAt r) (tk_AllDay r)
  (tk_RemindAt r) v (tk_CompletedByID r) (tk_CancelledAt r) (tk_Source r) (tk_AutomationRuleID r)
  (tk_ReminderSentAt r) (tk_OverdueNotifiedAt r).
Definition set_tk_CompletedByID (v : option uuid) (r : Task) : Task :=
  MkTask (tk_ID r) (tk_DeletedAt r) (tk_OrganizationID r) (tk_ContactID r) (tk_ConversationID r)
  (tk_DealID r) (tk_MessageID r) (tk_CallLogID r) (tk_TypeID r) (tk_Title r) (tk_Description r)
  (tk_OwnerID r) (tk_CreatedByID r) (tk_Priority r) (tk_Status r) (tk_DueAt r) (tk_AllDay r)
  (tk_RemindAt r) (tk_CompletedAt r) v (tk_CancelledAt r) (tk_Source r) (tk_AutomationRuleID r)
  (tk_ReminderSentAt r) (tk_OverdueNotifiedAt r).
Definition set_tk_CancelledAt (v : option time) (r : Task) : Task :=
  MkTask (tk_ID r) (tk_DeletedAt r) (tk_OrganizationID r) (tk_ContactID r) (tk_ConversationID r)
  (tk_DealID r) (tk_MessageID r) (tk_CallLogID r) (tk_TypeID r) (tk_Title r) (tk_Description r)
  (tk_OwnerID r) (tk_CreatedByID r) (tk_Priority r) (tk_Status r) (tk_DueAt r) (tk_AllDay r)
  (tk_RemindAt r) (tk_CompletedAt r) (tk_CompletedByID r) v (tk_Source r) (tk_AutomationRuleID r)
  (tk_ReminderSentAt r) (tk_OverdueNotifiedAt r).
Definition set_tk_ReminderSentAt (v : option time) (r : Task) : Task :=
  MkTask (tk_ID r) (tk_DeletedAt r) (tk_OrganizationID r) (tk_ContactID r) (tk_ConversationID r)
  (tk_DealID r) (tk_MessageID r) (tk_CallLogID r) (tk_TypeID r) (tk_Title r) (tk_Description r)
  (tk_OwnerID r) (tk_CreatedByID r) (tk_Priority r) (tk_Status r) (tk_DueAt r) (tk_AllDay r)
  (tk_RemindAt r) (tk_CompletedAt r) (tk_CompletedByID r) (tk_CancelledAt r) (tk_Source r)
  (tk_AutomationRuleID r) v (tk_OverdueNotifiedAt r).
Definition set_tk_OverdueNotifiedAt (v : option time) (r : Task) : Task :=
  MkTask (tk_ID r) (tk_DeletedAt r) (tk_OrganizationID r) (tk_ContactID r) (tk_ConversationID r)
  (tk_DealID r) (tk_MessageID r) (tk_CallLogID r) (tk_TypeID r) (tk_Title r) (tk_Description r)
  (tk_OwnerID r) (tk_CreatedByID r) (tk_Priority r) (tk_Status r) (tk_DueAt r) (tk_AllDay r)
  (tk_RemindAt r) (tk_CompletedAt r) (tk_CompletedByID r) (tk_CancelledAt r) (tk_Source r)
  (tk_AutomationRuleID r) (tk_ReminderSentAt r) v.

Definition IsOverdue (t : Task) (at_ : time) : bool := String.eqb (tk_Status t) TaskOpen && (tk_DueAt t <? at_).
Definition IsOpen (t : Task) : bool := String.eqb (tk_Status t) TaskOpen.

(** The tables the task service and its callers use. *)
Record TaskDB := MkTaskDB {
  kd_tables : Tables;
  kd_tasks : gmap uuid Task;
  kd_types : gmap uuid TaskType;
  kd_notify : NotifyDB;
  kd_members : gmap uuid TeamMember
}.

Definition set_kd_tables (v : Tables) (r : TaskDB) : TaskDB :=
  MkTaskDB v (kd_tasks r) (kd_types r) (kd_notify r) (kd_members r).
Definition set_kd_tasks (v : gmap uuid Task) (r : TaskDB) : TaskDB :=
  MkTaskDB (kd_tables r) v (kd_types r) (kd_notify r) (kd_members r).
Definition set_kd_types (v : gmap uuid TaskType) (r : TaskDB) : TaskDB :=
  MkTaskDB (kd_tables r) (kd_tasks r) v (kd_notify r) (kd_members r).
Definition set_kd_notify (v : NotifyDB) (r : TaskDB) : TaskDB :=
  MkTaskDB (kd_tables r) (kd_tasks r) (kd_types r) v (kd_members r).

Abbreviation MK := (M TaskDB).

Definition task_live (t : Task) : bool := is_none (tk_DeletedAt t).
Definition type_live (t : TaskType) : bool := is_none (tt_DeletedAt t).

(** The sizes of the columns. *)
Definition task_fits (t : Task) : bool :=
  Nat.leb (RuneCount (tk_Title t)) 255 && Nat.leb (RuneCount (tk_Priority t)) 10.
Definition type_fits (t : TaskType) : bool :=
  Nat.leb (RuneCount (tt_Key t)) 50 && Nat.leb (RuneCount (tt_Label t)) 100 &&
  Nat.leb (RuneCount (tt_Icon t)) 50 && Nat.leb (RuneCount (tt_Color t)) 20.

(** * The kinds of tasks ([internal/tasks/seed.go], [internal/handlers/task_types.go])

    The built-in types every organization starts with, and the settings page
    that adds, edits, orders and deletes types.  A task names its type by id,
    automations and flows by its key. *)
#[local] Open Scope string_scope.
#[local] Open Scope list_scope.
#[local] Open Scope Z_scope.

(** ** Seeds *)

Definition built_in (key label icon color : string) (offset position : Z) : TaskType :=
  MkTaskType uuid_Nil None uuid_Nil key label icon color offset true position None.

Definition BuiltInTypes : list TaskType := [
  built_in TaskTypeCallBack "Call back" "phone" "blue" 60 10;
  built_in TaskTypeSendQuote "Send quote" "file-text" "purple" 1440 20;
  built_in TaskTypeCheckIn "Check in" "message-circle" "green" 4320 30;
  built_in TaskTypeFollowUp "Follow up" "repeat" "amber" 1440 40;
  built_in TaskTypeOther "Other" "check-square" "gray" 1440 50].

Definition type_of (orgID : uuid) (t : TaskType) : bool := N.eqb (tt_OrganizationID t) orgID && type_live t.
Definition type_keyed (orgID : uuid) (key : string) (t : TaskType) : bool := type_of orgID t && String.eqb (tt_Key t) key.
Definition type_at (id orgID : uuid) (t : TaskType) : bool := N.eqb (tt_ID t) id && type_of orgID t.

(** [idx_task_types_org_key]: whether another live row has the key. *)
Definition key_taken (row : TaskType) (types : gmap uuid TaskType) : bool :=
  negb (Nat.eqb (rows_affected (fun t => type_keyed (tt_OrganizationID row) (tt_Key row) t && negb (N.eqb (tt_ID t) (tt_ID row))) types) 0).

(** A zero value gives way to the default of its column. *)
Definition with_defaults (row : TaskType) : TaskType :=
  apply_updates
    ((if is_empty (tt_Icon row) then [set_tt_Icon "check-square"] else []) ++
     (if is_empty (tt_Color row) then [set_tt_Color "gray"] else []) ++
     (if tt_DefaultDueOffsetMinutes row =? 0 then [set_tt_DefaultDueOffsetMinutes 1440] else [])) row.

(** [tx.Create(&row)]: the row as it was stored. *)
Definition insert_type (row : TaskType) : MK TaskType :=
  let row := with_defaults row in
  stmt no_locks (fun d =>
    if negb (type_fits row) then (Err ErrDriver, d)
    else if is_some (kd_types d !! tt_ID row) || key_taken row (kd_types d) then (Err ErrUnique, d)
    else (Ok row, set_kd_types (<[tt_ID row := row]> (kd_types d)) d)).

Definition seeded (id orgID : uuid) (t : TaskType) : TaskType :=
  MkTaskType id None orgID (tt_Key t) (tt_Label t) (tt_Icon t) (tt_Color t) (tt_DefaultDueOffsetMinutes t) (tt_IsSystem t)
    (tt_Position t) None.

Section TaskTypes.
Context `{SQ : Sql}.

Fixpoint seed_missing (orgID : uuid) (have : list string) (l : list TaskType) : MK unit :=
  match l with
  | [] => ret tt
  | t :: l =>
      if existsb (String.eqb (tt_Key t)) have then seed_missing orgID have l
      else
        id <- uuid_New ;;
        insert_type (seeded id orgID t) ;;;
        seed_missing orgID have l
  end.

Definition SeedOrganization (orgID : uuid) : MK unit :=
  existing <- query (fun d => Ok (tt_Key <$> find_rows (type_of orgID) None (kd_types d))) ;;
  seed_missing orgID existing BuiltInTypes.

(** [SeedAllOrganizations], given the organizations there are. *)
Fixpoint SeedAllOrganizations (orgIDs : list uuid) : MK unit :=
  match orgIDs with
  | [] => ret tt
  | orgID :: orgIDs => SeedOrganization orgID ;;; SeedAllOrganizations orgIDs
  end.

(** ** The settings page *)

Record taskTypeRequest := MkTypeRequest {
  ty_Key : string;
  ty_Label : string;
  ty_Icon : string;
  ty_Color : string;
  ty_DefaultDueOffsetMinutes : option Z;
  ty_Position : option Z;
  ty_Archived : option bool
}.

(** [^[a-z][a-z0-9_]*$]. *)
Definition taskTypeKeyPattern (key : string) : bool :=
  match list_ascii_of_string key with
  | [] => false
  | c :: l => is_lower c && forallb (fun c => is_lower c || is_digit c || Ascii.eqb c "_") l
  end.

Definition validateTaskType (key label : string) (offset : option Z) : option string :=
  if is_empty label then Some "label is required"
  else if Nat.ltb 100 (String.length label) then Some "label must be 100 characters or fewer"
  else if negb (taskTypeKeyPattern key) then
    Some "key must start with a letter and contain only lowercase letters, numbers and underscores"
  else if Nat.ltb 50 (String.length key) then Some "key must be 50 characters or fewer"
  else match offset with
       | Some m => if (m <? 0) || (525600 <? m) then Some "the default deadline must be between 0 minutes and a year" else None
       | None => None
       end.

Definition firstNonEmpty (a b : string) : string := if is_empty a then b else a.

(** [max(position)]. *)
Definition highest (l : list TaskType) : option Z :=
  foldr (fun t acc => Some (match acc with Some m => Z.max m (tt_Position t) | None => tt_Position t end)) None l.

Definition nextTaskTypePosition (orgID : uuid) : MK Z :=
  r <- try (query (fun d => Ok (highest (find_rows (type_of orgID) None (kd_types d))))) ;;
  ret (match r with Ok (Some highest) => highest + 10 | _ => 10 end).

Definition refuse {A} (e : option string) (m : MK A) : MK A :=
  match e with Some text => fail (ErrMsg text) | None => m end.

Definition CreateTaskType (orgID : uuid) (req : taskTypeRequest) : MK TaskType :=
  let label := TrimSpace (ty_Label req) in
  let key := TrimSpace (ty_Key req) in
  let key := if is_empty key then slugifyKey label 50 else key in
  refuse (validateTaskType key label (ty_DefaultDueOffsetMinutes req)) (
    existing <- try (query (fun d => Ok (rows_affected (type_keyed orgID key) (kd_types d)))) ;;
    match existing with
    | Ok (S _) => fail (ErrMsg "A task type with this key already exists")
    | _ =>
        id <- uuid_New ;;
        position <- (match ty_Position req with Some p => ret p | None => nextTaskTypePosition orgID end) ;;
        insert_type (MkTaskType id None orgID key label (firstNonEmpty (ty_Icon req) "check-square")
          (firstNonEmpty (ty_Color req) "gray") (default 1440 (ty_DefaultDueOffsetMinutes req)) false position None)
    end).

(** [db.Save]: the row again, all of it. *)
Definition save_type (row : TaskType) : MK unit :=
  stmt no_locks (fun d =>
    if negb (type_fits row) then (Err ErrDriver, d)
    else if type_live row && key_taken row (kd_types d) then (Err ErrUnique, d)
    else (Ok tt, set_kd_types (<[tt_ID row := row]> (kd_types d)) d)).

Definition type_edits (req : taskTypeRequest) : list (TaskType -> TaskType) :=
  (let label := TrimSpace (ty_Label req) in if is_empty label then [] else [set_tt_Label label]) ++
  (if is_empty (ty_Icon req) then [] else [set_tt_Icon (ty_Icon req)]) ++
  (if is_empty (ty_Color req) then [] else [set_tt_Color (ty_Color req)]) ++
  (match ty_DefaultDueOffsetMinutes req with Some m => [set_tt_DefaultDueOffsetMinutes m] | None => [] end) ++
  (match ty_Position req with Some p => [set_tt_Position p] | None => [] end).

Definition UpdateTaskType (orgID id : uuid) (req : taskTypeRequest) : MK TaskType :=
  row <- query (fun d => first_row (type_at id orgID) unordered (kd_types d)) ;;
  if negb (is_empty (ty_Key req)) && negb (String.eqb (ty_Key req) (tt_Key row)) then
    fail (ErrMsg "A task type's key cannot change: automations and chatbot flows create tasks by key.")
  else
    t <- now ;;
    let row := apply_updates (type_edits req) row in
    row <- (match ty_Archived req with
            | Some true =>
                if tt_IsSystem row then
                  fail (ErrMsg "Built-in task types cannot be archived: the product creates tasks of these kinds itself.")
                else ret (set_tt_ArchivedAt (Some t) row)
            | Some false => ret (set_tt_ArchivedAt None row)
            | None => ret row
            end) ;;
    refuse (validateTaskType (tt_Key row) (tt_Label row) (Some (tt_DefaultDueOffsetMinutes row))) (
      save_type row ;;;
      ret row).

Fixpoint reorder (orgID : uuid) (i : Z) (ids : list uuid) : MK unit :=
  match ids with
  | [] => ret tt
  | id :: ids =>
      stmt no_locks (fun d => (Ok tt, set_kd_types (update_where (type_at id orgID) [set_tt_Position ((i + 1) * 10)] (kd_types d)) d)) ;;;
      reorder orgID (i + 1) ids
  end.

Definition ReorderTaskTypes (orgID : uuid) (ids : list uuid) : MK unit :=
  match ids with [] => fail (ErrMsg "ids is required") | _ => transaction (reorder orgID 0 ids) end.

Definition task_of_type (orgID typeID : uuid) (t : Task) : bool :=
  N.eqb (tk_OrganizationID t) orgID && N.eqb (tk_TypeID t) typeID && task_live t.

Definition DeleteTaskType (orgID id : uuid) : MK unit :=
  row <- query (fun d => first_row (type_at id orgID) unordered (kd_types d)) ;;
  if tt_IsSystem row then
    fail (ErrMsg "Built-in task types cannot be deleted. Relabel one instead to fit how you work.")
  else
    used <- query (fun d => Ok (rows_affected (task_of_type orgID (tt_ID row)) (kd_tasks d))) ;;
    if negb (Nat.eqb used 0) then
      fail (ErrMsg "This type is used by tasks. Archive it instead to stop offering it while keeping their history.")
    else
      t <- now ;;
      stmt no_locks (fun d => (Ok tt, set_kd_types
        (update_where (fun r => N.eqb (tt_ID r) (tt_ID row) && type_live r) [set_tt_DeletedAt (Some t)] (kd_types d)) d)).

(** [position, label]. *)
Definition by_place (a b : TaskType) : bool :=
  (tt_Position a <? tt_Position b) || ((tt_Position a =? tt_Position b) && String.ltb (tt_Label a) (tt_Label b)).

Definition ListTaskTypes (orgID : uuid) (include_archived : bool) : MK (list TaskType) :=
  query (fun d => Ok (sort_by by_place
    (find_rows (fun t => type_of orgID t && (include_archived || is_none (tt_ArchivedAt t))) None (kd_types d)))).
End TaskTypes.
