(* ===== verification/Tasks.v ===== *)
(** * Tasks ([internal/tasks/service.go])

    What was promised, who owes it and when.  Every change of a task is written
    in one transaction with the event that announces it. *)
From S2P Require Import Prelude GoLib Text Store Events Models Statements People Notify TaskModels.
#[local] Open Scope string_scope.
#[local] Open Scope list_scope.
#[local] Open Scope Z_scope.

Definition SubjectTask := "task".

Definition ErrNotFound := ErrSentinel "tasks: not found".
Definition ErrNotOpen := ErrSentinel "tasks: task is not open".
Definition ErrTitleRequired := ErrSentinel "tasks: title is required".

Definition DefaultReminderLead : Z := 15 * Minute.

Record CreateInput := MkCreateInput {
  ki_OrgID : uuid;
  ki_ContactID : uuid;
  ki_TypeKey : string;
  ki_TypeID : option uuid;
  ki_Title : string;
  ki_Description : string;
  ki_OwnerID : option uuid;
  ki_CreatedBy : option uuid;
  ki_Priority : string;
  ki_DueAt : option time;
  ki_AllDay : bool;
  ki_RemindAt : option time;
  ki_Source : string;
  ki_ConversationID : option uuid;
  ki_MessageID : option uuid;
  ki_DealID : option uuid;
  ki_CallLogID : option uuid;
  ki_AutomationRuleID : option uuid;
  ki_Location : option Location
}.

(** ** Statements *)

(** The outbox of the service is the one of all services. *)
Definition publish_event (e : Event) : MK unit := zoom kd_tables set_kd_tables (PublishTx e).

(** [errors of any kind become e]. *)
Definition or_error {A} (e : err) (m : MK A) : MK A :=
  r <- try m ;; match r with Ok a => ret a | Err _ => fail e end.

Definition task_at (id orgID : uuid) (t : Task) : bool := N.eqb (tk_ID t) id && N.eqb (tk_OrganizationID t) orgID && task_live t.
Definition task_by_id (id : uuid) (t : Task) : bool := N.eqb (tk_ID t) id && task_live t.

Definition insert_task (row : Task) : MK unit :=
  stmt no_locks (fun d =>
    if negb (task_fits row) then (Err ErrDriver, d)
    else match kd_tasks d !! tk_ID row with
         | Some _ => (Err ErrUnique, d)
         | None => (Ok tt, set_kd_tasks (<[tk_ID row := row]> (kd_tasks d)) d)
         end).

(** [Where("id = ?").Updates(map)]: on a live row, which must still fit. *)
Definition update_task (id : uuid) (us : list (Task -> Task)) : MK unit :=
  stmt no_locks (fun d =>
    match kd_tasks d !! id with
    | Some row =>
        if negb (task_live row) then (Ok tt, d)
        else if negb (task_fits (apply_updates us row)) then (Err ErrDriver, d)
        else (Ok tt, set_kd_tasks (<[id := apply_updates us row]> (kd_tasks d)) d)
    | None => (Ok tt, d)
    end).

Definition member_at (id orgID : uuid) (u : User) : bool :=
  N.eqb (us_ID u) id && N.eqb (us_OrganizationID u) orgID && us_IsActive u && is_none (us_DeletedAt u).

Definition actorFor (userID : option uuid) : Actor :=
  match userID with None => SystemActor | Some u => UserActor u "" end.

Definition priorityOrNormal (p : string) : string :=
  if String.eqb p TaskPriorityLow || String.eqb p TaskPriorityHigh then p else TaskPriorityNormal.

Definition sourceOrManual (s : string) : string :=
  if String.eqb s TaskSourceAutomation || String.eqb s TaskSourceAPI || String.eqb s TaskSourceChatbot || String.eqb s TaskSourceCall
  then s else TaskSourceManual.

Section Tasks.
Context `{SQ : Sql} `{UT : UuidText}.

Definition task_data (task : Task) : list (string * any) := [
  ("task_id", AString (uuid_String (tk_ID task)));
  ("title", AString (tk_Title task));
  ("owner_id", AString (uuid_String (tk_OwnerID task)));
  ("due_at", ATime (tk_DueAt task));
  ("status", AString (tk_Status task))].

Definition publish (task : Task) (eventType : string) (actor : Actor) : MK unit :=
  if negb (IsKnown eventType) then ret tt
  else
    id <- uuid_New ;;
    t <- now ;;
    publish_event (About SubjectTask (tk_ID task) (ForContact (tk_ContactID task)
      (New_event id t (tk_OrganizationID task) eventType actor (task_data task)))).

(** ** Creating *)

Definition resolveType (inp : CreateInput) : MK TaskType :=
  let p := match ki_TypeID inp with
           | Some id => type_at id (ki_OrgID inp)
           | None => type_keyed (ki_OrgID inp) (if is_empty (ki_TypeKey inp) then TaskTypeFollowUp else ki_TypeKey inp)
           end in
  taskType <- or_error (ErrMsg "tasks: unknown task type") (query (fun d => first_row p unordered (kd_types d))) ;;
  if is_some (tt_ArchivedAt taskType) then fail (ErrMsg ("tasks: task type " ++ quote (tt_Key taskType) ++ " is archived")%string)
  else ret taskType.

Fixpoint first_member (orgID : uuid) (candidates : list (option uuid)) : MK uuid :=
  match candidates with
  | [] => fail (ErrMsg "tasks: no active owner available for this task")
  | None :: candidates => first_member orgID candidates
  | Some id :: candidates =>
      if N.eqb id uuid_Nil then first_member orgID candidates
      else
        user <- try (query (fun d => first_row (member_at id orgID) unordered (no_users (kd_notify d)))) ;;
        match user with Ok u => ret (us_ID u) | Err _ => first_member orgID candidates end
  end.

Definition resolveOwner (inp : CreateInput) (contact : Contact) : MK uuid :=
  first_member (ki_OrgID inp) [ki_OwnerID inp; ct_AssignedUserID contact; ki_CreatedBy inp].

Definition resolveDue (at_ : time) (inp : CreateInput) (taskType : TaskType) : time :=
  let due := at_ + wrap64 (tt_DefaultDueOffsetMinutes taskType * Minute) in
  let due := default due (ki_DueAt inp) in
  if ki_AllDay inp then end_of_day (default UTC (ki_Location inp)) due else due.

Definition live_contact (id orgID : uuid) (c : Contact) : bool :=
  N.eqb (ct_ID c) id && N.eqb (ct_OrganizationID c) orgID && live (ct_DeletedAt c).

Definition new_task (id owner : uuid) (due : time) (remind : time) (inp : CreateInput) (taskType : TaskType) : Task :=
  MkTask id None (ki_OrgID inp) (ki_ContactID inp) (ki_ConversationID inp) (ki_DealID inp) (ki_MessageID inp)
    (ki_CallLogID inp) (tt_ID taskType) (ki_Title inp) (ki_Description inp) owner (ki_CreatedBy inp)
    (priorityOrNormal (ki_Priority inp)) TaskOpen due (ki_AllDay inp) (Some remind) None None None
    (sourceOrManual (ki_Source inp)) (ki_AutomationRuleID inp) None None.

Definition Create (inp : CreateInput) : MK Task :=
  if is_empty (ki_Title inp) then fail (ErrMsg "tasks: a task needs a title")
  else
    contact <- or_error (ErrMsg "tasks: contact not found")
      (query (fun d => first_row (live_contact (ki_ContactID inp) (ki_OrgID inp)) unordered (db_contacts (kd_tables d)))) ;;
    taskType <- resolveType inp ;;
    owner <- resolveOwner inp contact ;;
    t <- now ;;
    let due := resolveDue t inp taskType in
    id <- uuid_New ;;
    let task := new_task id owner due (default (due - DefaultReminderLead) (ki_RemindAt inp)) inp taskType in
    transaction (
      insert_task task ;;;
      publish task "task.created" (actorFor (ki_CreatedBy inp))) ;;;
    ret task.

(** ** Changing *)

Definition get_task (id orgID : uuid) : MK Task :=
  or_error ErrNotFound (query (fun d => first_row (task_at id orgID) unordered (kd_tasks d))).

(** The update of an operation, the row as it is then, its event. *)
Definition change (taskID : uuid) (us : list (Task -> Task)) (eventType : string) (actor : Actor) : MK Task :=
  update_task taskID us ;;;
  task <- query (fun d => first_row (task_by_id taskID) unordered (kd_tasks d)) ;;
  publish task eventType actor ;;;
  ret task.

Definition closing (status : string) (at_ : time) (actor : Actor) : list (Task -> Task) :=
  set_tk_Status status ::
  (if String.eqb status TaskCompleted then [set_tk_CompletedAt (Some at_); set_tk_CompletedByID (actor_ID actor)]
   else [set_tk_CancelledAt (Some at_)]).

(** [others]: what other connections commit between reading the task and
    writing it; the read takes no lock. *)
Definition close (others : TaskDB -> TaskDB) (orgID taskID : uuid) (status eventType : string) (actor : Actor) : MK Task :=
  transaction (
    task <- get_task taskID orgID ;;
    if negb (String.eqb (tk_Status task) TaskOpen) then ret task
    else
      interleave others ;;;
      t <- now ;;
      change taskID (closing status t actor) eventType actor).

Definition alone : TaskDB -> TaskDB := fun d => d.

Definition Complete (orgID taskID : uuid) (actor : Actor) : MK Task := close alone orgID taskID TaskCompleted "task.completed" actor.
Definition Cancel (orgID taskID : uuid) (actor : Actor) : MK Task := close alone orgID taskID TaskCancelled "task.cancelled" actor.

Definition Reassign (orgID taskID newOwner : uuid) (actor : Actor) : MK Task :=
  or_error (ErrMsg "tasks: the new owner is not an active member of this organization")
    (query (fun d => first_row (member_at newOwner orgID) unordered (no_users (kd_notify d)))) ;;;
  transaction (
    get_task taskID orgID ;;;
    change taskID [set_tk_OwnerID newOwner] "task.updated" actor).

Record UpdateInput := MkUpdateInput {
  ku_Title : option string;
  ku_Description : option string;
  ku_Priority : option string;
  ku_DueAt : option time;
  ku_AllDay : option bool;
  ku_RemindAt : option time;
  ku_ClearRemind : bool
}.

Definition task_edits (inp : UpdateInput) : list (Task -> Task) :=
  (match ku_Title inp with Some title => [set_tk_Title (TrimSpace title)] | None => [] end) ++
  (match ku_Description inp with Some v => [set_tk_Description v] | None => [] end) ++
  (match ku_Priority inp with Some v => [set_tk_Priority v] | None => [] end) ++
  (match ku_AllDay inp with Some v => [set_tk_AllDay v] | None => [] end) ++
  (match ku_DueAt inp with
   | Some v => [set_tk_DueAt v; set_tk_ReminderSentAt None; set_tk_OverdueNotifiedAt None]
   | None => []
   end) ++
  (if ku_ClearRemind inp then [set_tk_RemindAt None]
   else match ku_RemindAt inp with Some v => [set_tk_RemindAt (Some v); set_tk_ReminderSentAt None] | None => [] end).

Definition blank_title (inp : UpdateInput) : bool :=
  match ku_Title inp with Some title => is_empty (TrimSpace title) | None => false end.

Definition Update (orgID taskID : uuid) (inp : UpdateInput) (actor : Actor) : MK Task :=
  transaction (
    task <- get_task taskID orgID ;;
    if negb (String.eqb (tk_Status task) TaskOpen) then fail ErrNotOpen
    else if blank_title inp then fail ErrTitleRequired
    else match task_edits inp with
         | [] => ret task
         | us => change taskID us "task.updated" actor
         end).

Definition reopening : list (Task -> Task) :=
  [set_tk_Status TaskOpen; set_tk_CompletedAt None; set_tk_CompletedByID None; set_tk_CancelledAt None;
   set_tk_ReminderSentAt None; set_tk_OverdueNotifiedAt None].

Definition Reopen (orgID taskID : uuid) (actor : Actor) : MK Task :=
  transaction (
    task <- get_task taskID orgID ;;
    if String.eqb (tk_Status task) TaskOpen then ret task
    else change taskID reopening "task.updated" actor).

(** [DB.Delete(&models.Task{}, "id = ? AND organization_id = ?")]. *)
Definition delete_task (orgID taskID : uuid) : MK unit :=
  t <- now ;;
  stmt no_locks (fun d => (Ok tt, set_kd_tasks (update_where (task_at taskID orgID) [set_tk_DeletedAt (Some t)] (kd_tasks d)) d)).

(** ** Reading *)

Definition Get (orgID taskID : uuid) : MK Task := get_task taskID orgID.

(** Work about a contact that is gone is nobody's. *)
Definition liveContactOnly (d : TaskDB) (t : Task) : bool :=
  match db_contacts (kd_tables d) !! tk_ContactID t with Some c => live (ct_DeletedAt c) | None => false end.

Record ListOpts := MkListOpts {
  kl_OwnerID : option uuid;
  kl_ContactID : option uuid;
  kl_DealID : option uuid;
  kl_Status : string;
  kl_OverdueOnly : bool;
  kl_DueBefore : option time;
  kl_Scope : option (TaskDB -> Task -> bool);
  kl_Limit : Z;
  kl_Offset : Z
}.

Definition if_given {A} (o : option A) (p : A -> bool) : bool := match o with Some a => p a | None => true end.

Definition listed (orgID : uuid) (opts : ListOpts) (at_ : time) (d : TaskDB) (t : Task) : bool :=
  let status := if is_empty (kl_Status opts) then TaskOpen else kl_Status opts in
  N.eqb (tk_OrganizationID t) orgID && task_live t && liveContactOnly d t &&
  (String.eqb status "all" || String.eqb (tk_Status t) status) &&
  if_given (kl_OwnerID opts) (N.eqb (tk_OwnerID t)) &&
  if_given (kl_ContactID opts) (N.eqb (tk_ContactID t)) &&
  if_given (kl_DealID opts) (fun id => opt_eqb (tk_DealID t) (Some id)) &&
  (negb (kl_OverdueOnly opts) || (String.eqb (tk_Status t) TaskOpen && (tk_DueAt t <? at_))) &&
  if_given (kl_DueBefore opts) (fun b => tk_DueAt t <? b) &&
  if_given (kl_Scope opts) (fun scope => scope d t).

Definition list_limit (limit : Z) : nat := Z.to_nat (if (limit <=? 0) || (200 <? limit) then 50 else limit).

Definition sooner (a b : Task) : bool := tk_DueAt a <? tk_DueAt b.

Definition List_ (orgID : uuid) (opts : ListOpts) : MK (list Task * nat) :=
  t <- now ;;
  total <- query (fun d => Ok (rows_affected (listed orgID opts t d) (kd_tasks d))) ;;
  rows <- query (fun d => Ok (take (list_limit (kl_Limit opts)) (drop (Z.to_nat (kl_Offset opts))
            (sort_by sooner (find_rows (listed orgID opts t d) None (kd_tasks d)))))) ;;
  ret (rows, total).

Record DueCounts := MkDueCounts { dc_Overdue : Z; dc_DueToday : Z }.

Definition Total (c : DueCounts) : Z := dc_Overdue c + dc_DueToday c.

Definition open_of (orgID ownerID : uuid) (d : TaskDB) (t : Task) : bool :=
  N.eqb (tk_OrganizationID t) orgID && N.eqb (tk_OwnerID t) ownerID && String.eqb (tk_Status t) TaskOpen &&
  task_live t && liveContactOnly d t.

Definition DueFor (orgID ownerID : uuid) (loc : option Location) : MK DueCounts :=
  t <- now ;;
  let endOfDay := end_of_day (default UTC loc) t in
  query (fun d => Ok (MkDueCounts
    (Z.of_nat (rows_affected (fun k => open_of orgID ownerID d k && (tk_DueAt k <? t)) (kd_tasks d)))
    (Z.of_nat (rows_affected (fun k => open_of orgID ownerID d k && (t <=? tk_DueAt k) && (tk_DueAt k <=? endOfDay)) (kd_tasks d))))).
End Tasks.
