(* ===== verification/TasksProps.v ===== *)
(** * Every change of a task is announced

    What each operation of the service leaves behind, whatever fails: nothing,
    or the task as it should be together with exactly one event about it.
    Then the invariant over any history of calls. *)
From S2P Require Import Prelude GoLib Text Store Events Models Statements Samples People Notify TaskModels Tasks.
#[local] Open Scope string_scope.
#[local] Open Scope list_scope.
#[local] Open Scope Z_scope.

#[local] Arguments IsKnown : simpl never.

(** The task as stored, and one new event that tells about it; nothing else. *)
Definition announced `{UuidText} (d d' : TaskDB) (task : Task) (eventType : string) (actor : Actor) : Prop :=
  exists row,
    d' = set_kd_tables (set_db_outbox (<[ob_ID row := row]> (db_outbox (kd_tables d))) (kd_tables d))
           (set_kd_tasks (<[tk_ID task := task]> (kd_tasks d)) d) /\
    db_outbox (kd_tables d) !! ob_ID row = None /\
    ob_Type row = eventType /\ ob_OrganizationID row = tk_OrganizationID task /\
    ob_ContactID row = Some (tk_ContactID task) /\ ob_SubjectType row = SubjectTask /\
    ob_SubjectID row = Some (tk_ID task) /\ ob_ActorID row = actor_ID actor /\
    ob_Data row = [("task_id", AString (uuid_String (tk_ID task))); ("title", AString (tk_Title task));
                   ("owner_id", AString (uuid_String (tk_OwnerID task))); ("due_at", ATime (tk_DueAt task));
                   ("status", AString (tk_Status task))] /\
    ob_PublishedAt row = None.

Section Props.
Context `{SL : SqlLaws} `{UT : UuidText}.

(** ** What the pieces write *)

Lemma or_error_ok {A} e (m : MK A) w a w' : or_error e m w = (Ok a, w') -> m w = (Ok a, w').
Proof.
  unfold or_error. intros E. apply bind_ok_inv in E as (r & w1 & E1 & E). apply try_ok_inv in E1.
  destruct r as [x|]; [|done]. apply ret_ok_inv in E as [-> ->]. done.
Qed.

Lemma reads_or_error {A} e (m : MK A) : reads m -> reads (or_error e m).
Proof. intros Hm. unfold or_error. solve_moves. Qed.

Lemma query_tasks {A} (f : TaskDB -> res err A) w a w' :
  query f w = (Ok a, w') -> f (w_db w) = Ok a /\ w_db w' = w_db w /\ w_now w' = w_now w.
Proof. intros (E & _ & ->)%query_ok_inv. done. Qed.

Lemma task_at_true id orgID r :
  task_at id orgID r = true <-> tk_ID r = id /\ tk_OrganizationID r = orgID /\ task_live r = true.
Proof. unfold task_at. rewrite !andb_true_iff, !N.eqb_eq. tauto. Qed.

Lemma get_task_ok id orgID w row w' :
  keyed tk_ID (kd_tasks (w_db w)) -> get_task id orgID w = (Ok row, w') ->
  kd_tasks (w_db w) !! id = Some row /\ tk_ID row = id /\ tk_OrganizationID row = orgID /\ task_live row = true /\
  w_db w' = w_db w /\ w_now w' = w_now w.
Proof.
  intros Hk E. apply or_error_ok, query_tasks in E as (E & ? & ?).
  apply (first_row_key tk_ID id) in E as [? Hat]; [|done|].
  - apply task_at_true in Hat as (? & ? & ?). auto 10.
  - intros r Hr. by apply task_at_true in Hr as (? & _).
Qed.

(** What no operation of the service changes. *)
Definition same_task (r r' : Task) : Prop :=
  tk_ID r' = tk_ID r /\ tk_DeletedAt r' = tk_DeletedAt r /\ tk_OrganizationID r' = tk_OrganizationID r /\
  tk_ContactID r' = tk_ContactID r.

#[local] Instance same_task_preorder : PreOrder same_task.
Proof. split; [by intros r|]. intros r1 r2 r3 (? & ? & ? & ?) (? & ? & ? & ?). repeat split; congruence. Qed.

Lemma publish_task_ok task eventType actor w u w' :
  IsKnown eventType = true -> publish task eventType actor w = (Ok u, w') ->
  exists row, w_db w' = set_kd_tables (set_db_outbox (<[ob_ID row := row]> (db_outbox (kd_tables (w_db w)))) (kd_tables (w_db w))) (w_db w) /\
    db_outbox (kd_tables (w_db w)) !! ob_ID row = None /\
    (exists fresh id t, row = toRow fresh (w_now w) (About SubjectTask (tk_ID task) (ForContact (tk_ContactID task)
      (New_event id t (tk_OrganizationID task) eventType actor (task_data task))))) /\ w_now w' = w_now w.
Proof.
  unfold publish. intros -> E. cbn [negb] in E. inv_run. apply zoom_inv in E as (part & E & ->).
  apply PublishTx_ok_inv in E as (row & Hdb & Hnew & (fresh & ->) & _ & _ & _ & _ & Hnow).
  eexists. split; [cbn [see w_db]; by rewrite Hdb|]. split; [exact Hnew|]. split; [eauto|exact Hnow].
Qed.

Lemma change_ok taskID us eventType actor w row task w' :
  keyed tk_ID (kd_tasks (w_db w)) -> kd_tasks (w_db w) !! taskID = Some row -> task_live row = true ->
  Forall (fun f => forall r, same_task r (f r)) us -> IsKnown eventType = true ->
  change taskID us eventType actor w = (Ok task, w') ->
  task = apply_updates us row /\ task_fits task = true /\ announced (w_db w) (w_db w') task eventType actor.
Proof.
  intros Hk Hrow Hl Hus Hev E. pose proof (Hk _ _ Hrow) as Hid.
  destruct (apply_updates_rel same_task us row Hus) as (Hid' & Hdel & Horg & Hct).
  unfold change in E. apply bind_ok_inv in E as ([] & w1 & Eu & E).
  apply stmt_ok_inv in Eu as (d & Eu & _ & ->). rewrite Hrow, Hl in Eu. cbn [negb] in Eu.
  destruct (task_fits _) eqn:Hfit; cbn [negb] in Eu; [|done]. injection Eu as <-.
  apply bind_ok_inv in E as (task' & w2 & Eq & E). apply query_tasks in Eq as (Eq & Hdb2 & _). cbn in Eq.
  assert (task' = apply_updates us row) as ->.
  { apply (first_row_key tk_ID taskID) in Eq as [Eq _].
    - rewrite lookup_insert_eq in Eq. by injection Eq.
    - intros k r [[<- <-]|[_ Hr]]%lookup_insert_Some; [congruence|by apply Hk].
    - by intros r [?%N.eqb_eq _]%andb_true_iff. }
  apply bind_ok_inv in E as ([] & w3 & Ep & E). apply ret_ok_inv in E as [-> ->]. split; [done|]. split; [done|].
  apply publish_task_ok in Ep as (o & Hdb & Hnew & (fresh & id & t & ->) & _); [|done]. rewrite Hdb2 in Hdb, Hnew.
  refine (ex_intro _ _ (conj _ (conj Hnew _))).
  - rewrite Hdb. cbn. by rewrite Hid', Hid.
  - cbn. by rewrite Horg, Hct.
Qed.
(** ** The operations on a task *)

Inductive TaskOp :=
| DoComplete | DoCancel | DoReassign (newOwner : uuid) | DoUpdate (inp : UpdateInput) | DoReopen.

Definition run_op (op : TaskOp) (orgID taskID : uuid) (actor : Actor) : MK Task :=
  match op with
  | DoComplete => Complete orgID taskID actor
  | DoCancel => Cancel orgID taskID actor
  | DoReassign newOwner => Reassign orgID taskID newOwner actor
  | DoUpdate inp => Update orgID taskID inp actor
  | DoReopen => Reopen orgID taskID actor
  end.

Definition nothing_asked : UpdateInput := MkUpdateInput None None None None None None false.

(** Whether an operation has something to do on a task. *)
Definition pending_for (op : TaskOp) (row : Task) : Prop :=
  match op with
  | DoComplete | DoCancel => tk_Status row = TaskOpen
  | DoReassign _ => True
  | DoUpdate inp => tk_Status row = TaskOpen /\ inp <> nothing_asked
  | DoReopen => tk_Status row <> TaskOpen
  end.

Definition given {A} (o : option A) (f : A -> Task -> Task) (row : Task) : Task :=
  match o with Some v => f v row | None => row end.

(** A new deadline or reminder may be told about again. *)
Definition rescheduled (due : time) (row : Task) : Task :=
  set_tk_OverdueNotifiedAt None (set_tk_ReminderSentAt None (set_tk_DueAt due row)).
Definition reminded (remind : time) (row : Task) : Task := set_tk_ReminderSentAt None (set_tk_RemindAt (Some remind) row).

(** What becomes of the task. *)
Definition outcome (op : TaskOp) (at_ : time) (actor : Actor) (row : Task) : Task :=
  match op with
  | DoComplete => set_tk_CompletedByID (actor_ID actor) (set_tk_CompletedAt (Some at_) (set_tk_Status TaskCompleted row))
  | DoCancel => set_tk_CancelledAt (Some at_) (set_tk_Status TaskCancelled row)
  | DoReassign newOwner => set_tk_OwnerID newOwner row
  | DoUpdate inp =>
      let row := given (ku_Title inp) (fun title => set_tk_Title (TrimSpace title)) row in
      let row := given (ku_Description inp) set_tk_Description row in
      let row := given (ku_Priority inp) set_tk_Priority row in
      let row := given (ku_AllDay inp) set_tk_AllDay row in
      let row := given (ku_DueAt inp) rescheduled row in
      if ku_ClearRemind inp then set_tk_RemindAt None row else given (ku_RemindAt inp) reminded row
  | DoReopen =>
      set_tk_OverdueNotifiedAt None (set_tk_ReminderSentAt None (set_tk_CancelledAt None
        (set_tk_CompletedByID None (set_tk_CompletedAt None (set_tk_Status TaskOpen row)))))
  end.

Definition event_of (op : TaskOp) : string :=
  match op with DoComplete => "task.completed" | DoCancel => "task.cancelled" | _ => "task.updated" end.

Lemma edits_outcome inp at_ actor row : apply_updates (task_edits inp) row = outcome (DoUpdate inp) at_ actor row.
Proof.
  unfold task_edits. rewrite !apply_updates_app. cbn [outcome].
  destruct (ku_Title inp), (ku_Description inp), (ku_Priority inp), (ku_AllDay inp), (ku_DueAt inp), (ku_RemindAt inp), (ku_ClearRemind inp);
    unfold apply_updates, rescheduled, reminded; cbn [fold_left given]; reflexivity.
Qed.

Lemma no_edits inp : task_edits inp = [] <-> inp = nothing_asked.
Proof.
  split; [|by intros ->]. destruct inp as [[] [] [] [] [] [] []]; intros E; first [discriminate E | reflexivity].
Qed.

Lemma same_setters inp : Forall (fun f => forall r, same_task r (f r)) (task_edits inp).
Proof. destruct inp as [[] [] [] [] [] [] []]; repeat constructor. Qed.

(** A transaction that reads the task first. *)
Lemma in_task orgID taskID (k : Task -> MK Task) w task w' :
  keyed tk_ID (kd_tasks (w_db w)) -> transaction (bind (get_task taskID orgID) k) w = (Ok task, w') ->
  exists row w2 w3, kd_tasks (w_db w) !! taskID = Some row /\ tk_OrganizationID row = orgID /\ task_live row = true /\
    k row w2 = (Ok task, w3) /\ w_db w2 = w_db w /\ w_now w2 = w_now w /\ w_db w' = w_db w3.
Proof.
  intros Hk Et. apply transaction_ok_inv in Et as (w3 & Et & _ & ->). apply bind_ok_inv in Et as (row & w2 & Eg & Et).
  apply get_task_ok in Eg as (Hrow & _ & Horg & Hl & Hdb & Hnow); [|exact Hk]. exists row, w2, w3. auto 10.
Qed.

(** What the change of a task that was just read leaves. *)
Lemma changed taskID us eventType actor w w2 row task w3 :
  w_db w2 = w_db w -> keyed tk_ID (kd_tasks (w_db w)) -> kd_tasks (w_db w) !! taskID = Some row -> task_live row = true ->
  Forall (fun f => forall r, same_task r (f r)) us -> IsKnown eventType = true ->
  change taskID us eventType actor w2 = (Ok task, w3) ->
  task = apply_updates us row /\ task_fits task = true /\ announced (w_db w) (w_db w3) task eventType actor.
Proof. intros Hdb Hk Hrow Hl Hus Hev E. rewrite <- Hdb in *. by apply (change_ok taskID us eventType actor w2 row task w3). Qed.

Lemma interleave_alone w : interleave alone w = (Ok tt, w).
Proof. by destruct w. Qed.

Lemma run_op_fails op orgID taskID actor : rolls_back (run_op op orgID taskID actor).
Proof.
  destruct op; try apply rolls_back_transaction. apply rolls_back_bind; [apply reads_or_error; solve_moves|].
  intros _. apply rolls_back_transaction.
Qed.

Lemma close_ok orgID taskID status eventType actor w task w' :
  keyed tk_ID (kd_tasks (w_db w)) -> IsKnown eventType = true -> close alone orgID taskID status eventType actor w = (Ok task, w') ->
  exists row, kd_tasks (w_db w) !! taskID = Some row /\ tk_OrganizationID row = orgID /\ task_live row = true /\
    ((tk_Status row <> TaskOpen /\ task = row /\ w_db w' = w_db w) \/
     (tk_Status row = TaskOpen /\ task = apply_updates (closing status (w_now w) actor) row /\ task_fits task = true /\
      announced (w_db w) (w_db w') task eventType actor)).
Proof.
  intros Hk Hev E. apply in_task in E as (row & w2 & w3 & Hrow & Horg & Hl & E & Hdb & Hnow & Hdb'); [|done].
  exists row. do 3 (split; [done|]). destruct (String.eqb_spec (tk_Status row) TaskOpen) as [Hs|Hs]; cbn [negb] in E; [right|left].
  - split; [done|]. unfold bind at 1 in E. rewrite interleave_alone in E. unfold bind at 1 in E. cbn [now] in E.
    rewrite Hnow in E. rewrite Hdb'. apply (changed taskID _ _ _ w w2 row) in E; try done.
    unfold closing. destruct (String.eqb status TaskCompleted); repeat constructor; done.
  - apply ret_ok_inv in E as [-> ->]. by rewrite Hdb', Hdb.
Qed.

Lemma run_op_ok op orgID taskID actor w task w' :
  keyed tk_ID (kd_tasks (w_db w)) -> run_op op orgID taskID actor w = (Ok task, w') ->
  exists row, kd_tasks (w_db w) !! taskID = Some row /\ tk_OrganizationID row = orgID /\ task_live row = true /\
    ((~ pending_for op row /\ task = row /\ w_db w' = w_db w) \/
     (pending_for op row /\ task = outcome op (w_now w) actor row /\ task_fits task = true /\
      announced (w_db w) (w_db w') task (event_of op) actor)).
Proof.
  intros Hk E. destruct op as [| |newOwner|inp|]; cbn [run_op] in E.
  - by apply close_ok in E.
  - by apply close_ok in E.
  - unfold Reassign in E. apply bind_ok_inv in E as (u & w1 & Eu & E).
    apply or_error_ok, query_tasks in Eu as (_ & Hdb1 & Hnow1). rewrite <- Hdb1, <- Hnow1 in *.
    apply in_task in E as (row & w2 & w3 & Hrow & Horg & Hl & E & Hdb & Hnow & Hdb'); [|done].
    exists row. do 3 (split; [done|]). right. split; [done|]. rewrite Hdb'.
    apply (changed taskID _ _ _ w1 w2 row) in E; try done. by repeat constructor.
  - apply in_task in E as (row & w2 & w3 & Hrow & Horg & Hl & E & Hdb & Hnow & Hdb'); [|done].
    exists row. do 3 (split; [done|]). rewrite Hdb'.
    destruct (String.eqb_spec (tk_Status row) TaskOpen) as [Hs|Hs]; cbn [negb] in E; [|done].
    destruct (blank_title inp); [done|]. destruct (task_edits inp) as [|f us] eqn:Eu.
    + left. apply ret_ok_inv in E as [-> ->]. split; [|by rewrite Hdb]. apply no_edits in Eu as ->. by intros [_ ?].
    + right. rewrite <- Eu in E. apply (changed taskID _ _ _ w w2 row) in E; try done; [|apply same_setters].
      rewrite (edits_outcome inp (w_now w) actor row) in E. split; [|done]. split; [done|]. rewrite <- no_edits. by rewrite Eu.
  - apply in_task in E as (row & w2 & w3 & Hrow & Horg & Hl & E & Hdb & Hnow & Hdb'); [|done].
    exists row. do 3 (split; [done|]). rewrite Hdb'. destruct (String.eqb_spec (tk_Status row) TaskOpen) as [Hs|Hs]; [left|right].
    + apply ret_ok_inv in E as [-> ->]. split; [|by rewrite Hdb]. by intros Hn.
    + split; [done|]. apply (changed taskID _ _ _ w w2 row) in E; try done. by repeat constructor.
Qed.

(** C34: Every operation on a task does all of its work or none: when it fails the
    tables are as they were; when it succeeds without anything to do they are
    too; otherwise they hold the task as the operation means it to be, and one
    new event about it. *)
Theorem change_is_announced op orgID taskID actor w r w' :
  keyed tk_ID (kd_tasks (w_db w)) -> run_op op orgID taskID actor w = (r, w') ->
  match r with
  | Err _ => w_db w' = w_db w
  | Ok task =>
      exists row, kd_tasks (w_db w) !! taskID = Some row /\ tk_OrganizationID row = orgID /\ task_live row = true /\
        ((~ pending_for op row /\ task = row /\ w_db w' = w_db w) \/
         (pending_for op row /\ task = outcome op (w_now w) actor row /\ task_fits task = true /\
          announced (w_db w) (w_db w') task (event_of op) actor))
  end.
Proof. intros Hk E. destruct r as [task|e]; [by apply run_op_ok|by apply run_op_fails in E]. Qed.
(** ** Creating *)

(** The type a task is created with: the one with the id, or with the key. *)
Definition names_type (inp : CreateInput) (ty : TaskType) : Prop :=
  match ki_TypeID inp with
  | Some id => tt_ID ty = id
  | None => tt_Key ty = (if String.eqb (ki_TypeKey inp) "" then "follow_up" else ki_TypeKey inp)
  end.

(** The deadline: the one asked for or the type's, at the end of its day when
    the day is all that counts. *)
Definition deadline (at_ : time) (inp : CreateInput) (ty : TaskType) : time :=
  let due := match ki_DueAt inp with Some due => due | None => at_ + tt_DefaultDueOffsetMinutes ty * Minute end in
  if ki_AllDay inp then let loc := default UTC (ki_Location inp) in date_in loc (local loc due).1 (24 * Hour - Second) else due.

Lemma resolveType_ok inp w ty w' :
  resolveType inp w = (Ok ty, w') ->
  w_db w' = w_db w /\ w_now w' = w_now w /\
  (exists k, kd_types (w_db w) !! k = Some ty) /\ tt_OrganizationID ty = ki_OrgID inp /\ tt_DeletedAt ty = None /\
  tt_ArchivedAt ty = None /\ names_type inp ty.
Proof.
  unfold resolveType. intros E. apply bind_ok_inv in E as (x & w1 & E1 & E). apply or_error_ok, query_tasks in E1 as (E1 & Hdb & Hnow).
  destruct (tt_ArchivedAt x) eqn:Ea; [done|]. apply ret_ok_inv in E as [-> ->].
  apply first_row_ok in E1 as (k & Hk & Hp). split; [done|]. split; [done|]. split; [eauto|]. unfold names_type.
  destruct (ki_TypeID inp) as [id|].
  - apply andb_true_iff in Hp as [Hid%N.eqb_eq [Ho%N.eqb_eq Hl%is_none_true]%andb_true_iff]. done.
  - apply andb_true_iff in Hp as [[Ho%N.eqb_eq Hl%is_none_true]%andb_true_iff Hkey%String.eqb_eq]. done.
Qed.

Lemma first_member_ok orgID candidates w owner w' :
  first_member orgID candidates w = (Ok owner, w') ->
  w_db w' = w_db w /\ w_now w' = w_now w /\ Some owner ∈ candidates /\
  exists k u, no_users (kd_notify (w_db w)) !! k = Some u /\ us_ID u = owner /\ us_OrganizationID u = orgID /\
    us_IsActive u = true /\ us_DeletedAt u = None.
Proof.
  revert w. induction candidates as [|[id|] candidates IH]; intros w E; [done| |].
  - cbn [first_member] in E. destruct (N.eqb_spec id uuid_Nil).
    { apply IH in E as (? & ? & ? & ?). split_and!; [done..|by right|done]. }
    apply bind_ok_inv in E as (r & w1 & E1 & E). apply try_ok_inv in E1. destruct r as [u|e].
    + apply query_tasks in E1 as (E1 & Hdb & Hnow). apply ret_ok_inv in E as [-> ->].
      apply first_row_ok in E1 as (k & Hk & Hp). unfold member_at in Hp. breflect.
      repeat match goal with X : N.eqb _ _ = true |- _ => apply N.eqb_eq in X end.
      split; [done|]. split; [done|]. split; [subst id; left|]. exists k, u. split_and!; try done. by apply is_none_true.
    + apply query_err_inv in E1 as (Hdb & Hnow & _). apply IH in E as (H1 & H2 & H3 & H4).
      rewrite Hdb in *. split; [done|]. split; [congruence|]. split; [by right|done].
  - apply IH in E as (? & ? & ? & ?). split_and!; [done..|by right|done].
Qed.

Lemma resolveDue_deadline at_ inp ty :
  in_int64 (tt_DefaultDueOffsetMinutes ty * Minute) -> resolveDue at_ inp ty = deadline at_ inp ty.
Proof. intros Hb. unfold resolveDue, deadline. rewrite wrap64_small by done. by destruct (ki_DueAt inp), (ki_AllDay inp). Qed.

(** What a created task is. *)
Definition created (inp : CreateInput) (at_ : time) (d d' : TaskDB) (task : Task) : Prop :=
  exists kc c kt ty ku u,
    db_contacts (kd_tables d) !! kc = Some c /\ ct_ID c = tk_ContactID task /\ ct_OrganizationID c = ki_OrgID inp /\
    ct_DeletedAt c = None /\
    kd_types d !! kt = Some ty /\ tt_ID ty = tk_TypeID task /\ tt_OrganizationID ty = ki_OrgID inp /\
    tt_DeletedAt ty = None /\ tt_ArchivedAt ty = None /\ names_type inp ty /\
    no_users (kd_notify d) !! ku = Some u /\ us_ID u = tk_OwnerID task /\ us_OrganizationID u = ki_OrgID inp /\
    us_IsActive u = true /\ us_DeletedAt u = None /\
    Some (tk_OwnerID task) ∈ [ki_OwnerID inp; ct_AssignedUserID c; ki_CreatedBy inp] /\
    tk_ContactID task = ki_ContactID inp /\ tk_OrganizationID task = ki_OrgID inp /\
    tk_Title task = ki_Title inp /\ ki_Title inp <> "" /\ tk_Status task = "open" /\ tk_DeletedAt task = None /\
    tk_CompletedAt task = None /\ tk_CompletedByID task = None /\ tk_CancelledAt task = None /\
    tk_ReminderSentAt task = None /\ tk_OverdueNotifiedAt task = None /\
    (in_int64 (tt_DefaultDueOffsetMinutes ty * Minute) -> tk_DueAt task = deadline at_ inp ty) /\
    tk_RemindAt task = Some (match ki_RemindAt inp with Some t => t | None => tk_DueAt task - 15 * Minute end) /\
    kd_tasks d !! tk_ID task = None /\
    announced d d' task "task.created" (actorFor (ki_CreatedBy inp)).

Lemma first_member_reads orgID candidates : reads (first_member orgID candidates).
Proof. induction candidates as [|[id|] candidates IH]; cbn [first_member]; solve_moves. Qed.

Lemma create_task_fails inp : rolls_back (Create inp).
Proof.
  unfold Create. destruct (is_empty _); [apply reads_rolls_back; solve_moves|].
  apply rolls_back_bind; [apply reads_or_error; solve_moves|intros c].
  apply rolls_back_bind; [unfold resolveType; solve_moves; apply reads_or_error; solve_moves|intros ty].
  apply rolls_back_bind; [apply first_member_reads|intros owner].
  apply rolls_back_bind; [solve_moves|intros t]. cbv zeta. apply rolls_back_bind; [solve_moves|intros id].
  apply (rolls_back_last _ (fun _ => _)), rolls_back_transaction.
Qed.

Lemma create_task_ok inp w task w' : Create inp w = (Ok task, w') -> created inp (w_now w) (w_db w) (w_db w') task.
Proof.
  unfold Create. destruct (is_empty (ki_Title inp)) eqn:Et; [done|]. intros E. apply bind_ok_inv in E as (c & w1 & Ec & E). apply or_error_ok, query_tasks in Ec as (Ec & Hdb1 & Hnow1).
  apply bind_ok_inv in E as (ty & w2 & Ety & E). apply resolveType_ok in Ety as (Hdb2 & Hnow2 & (kt & Hkt) & Hto & Htd & Hta & Htn).
  apply bind_ok_inv in E as (owner & w3 & Eo & E).
  apply first_member_ok in Eo as (Hdb3 & Hnow3 & Hin & (ku & u & Hku & <- & Huo & Hua & Hud)).
  apply bind_ok_inv in E as (t & w4 & Enow & E). apply now_ok_inv in Enow as [-> ->].
  apply bind_ok_inv in E as (id & w5 & Eid & E). apply uuid_New_ok_inv in Eid as [-> ->].
  apply bind_ok_inv in E as ([] & w6 & Etx & E). apply ret_ok_inv in E as [-> ->].
  apply transaction_ok_inv in Etx as (w7 & Etx & _ & ->). apply bind_ok_inv in Etx as ([] & w8 & Ei & Ep).
  rewrite Hdb2, Hdb1 in *. rewrite Hnow3, Hnow2, Hnow1 in *.
  apply stmt_ok_inv in Ei as (d & Ei & _ & ->). cbn [tx_start after_stmt set_db w_db add_locks set_faults set_in_tx set_aborted set_uuid] in Ei.
  rewrite Hdb3 in Ei. destruct (task_fits _) eqn:Hfit; cbn [negb] in Ei; [|done].
  destruct (kd_tasks (w_db w) !! _) eqn:Hnone; [done|]. injection Ei as <-.
  apply publish_task_ok in Ep as (o & Hdb & Hnew & (fresh & id & t & ->) & _); [|done].
  apply first_row_ok in Ec as (kc & Hkc & Hc). unfold live_contact in Hc. breflect.
  repeat match goal with X : N.eqb _ _ = true |- _ => apply N.eqb_eq in X end.
  assert (ct_DeletedAt c = None) as Hcd by (by destruct (ct_DeletedAt c)).
  exists kc, c, kt, ty, ku, u. cbn [new_task tk_DeletedAt tk_CompletedAt tk_CompletedByID tk_CancelledAt tk_ReminderSentAt tk_OverdueNotifiedAt tk_ContactID tk_TypeID tk_OwnerID tk_OrganizationID tk_Title tk_Status tk_DueAt tk_RemindAt tk_ID].
  repeat (split; [first [done | by intros Hemp; rewrite Hemp in Et | by apply resolveDue_deadline | by destruct (ki_RemindAt inp)]|]).
  refine (ex_intro _ _ (conj _ (conj Hnew _))); [|done]. cbn in Hdb |- *. by rewrite Hdb.
Qed.

(** A task that could be created is about a live contact of the organization,
    of a type that is neither deleted nor archived, and owed by an active
    member who was asked for, owns the contact or creates it; it is open, due
    when it should be, reminded of before that, and announced by one event.
    When it could not be created nothing is left of it. *)
Theorem created_task inp w r w' :
  Create inp w = (r, w') ->
  match r with
  | Err _ => w_db w' = w_db w
  | Ok task => created inp (w_now w) (w_db w) (w_db w') task
  end.
Proof. intros E. destruct r as [task|e]; [by apply create_task_ok|by apply create_task_fails in E]. Qed.
End Props.

(** * What tasks always look like

    The invariant of the stored tasks over any history of calls, one after the
    other and whatever fails, and what is left when two of them overlap. *)
#[local] Open Scope string_scope.
#[local] Open Scope list_scope.
#[local] Open Scope Z_scope.

(** A task is named; its status is one of three and its closing stamps agree with it. *)
Definition task_ok (t : Task) : Prop :=
  tk_Title t <> "" /\
  ((tk_Status t = TaskOpen /\ tk_CompletedAt t = None /\ tk_CompletedByID t = None /\ tk_CancelledAt t = None) \/
   (tk_Status t = TaskCompleted /\ is_Some (tk_CompletedAt t) /\ tk_CancelledAt t = None) \/
   (tk_Status t = TaskCancelled /\ is_Some (tk_CancelledAt t) /\ tk_CompletedAt t = None /\ tk_CompletedByID t = None)).

Definition tasks_ok (tasks : gmap uuid Task) : Prop := keyed tk_ID tasks /\ forall k t, tasks !! k = Some t -> task_ok t.

Lemma tasks_ok_insert tasks t : tasks_ok tasks -> task_ok t -> tasks_ok (<[tk_ID t := t]> tasks).
Proof. intros [Hk Ht] Hok. split; intros k r [[<- <-]|[_ Hr]]%lookup_insert_Some; [done|by apply Hk|done|by apply (Ht k)]. Qed.

Section Rules.
Context `{SL : SqlLaws} `{UT : UuidText}.

Lemma announced_tasks d d' task eventType actor : announced d d' task eventType actor -> kd_tasks d' = <[tk_ID task := task]> (kd_tasks d).
Proof. by intros (row & -> & _). Qed.

Lemma given_keeps {A B} (proj : Task -> B) (o : option A) f row : (forall v r, proj (f v r) = proj r) -> proj (given o f row) = proj row.
Proof. intros Hf. by destruct o; cbn. Qed.

(** An edit touches neither the status nor the stamps, and never leaves a task unnamed. *)
Lemma edit_keeps {B} (proj : Task -> B) inp at_ actor row :
  (forall v r, proj (set_tk_Title v r) = proj r) -> (forall v r, proj (set_tk_Description v r) = proj r) ->
  (forall v r, proj (set_tk_Priority v r) = proj r) -> (forall v r, proj (set_tk_AllDay v r) = proj r) ->
  (forall v r, proj (rescheduled v r) = proj r) -> (forall v r, proj (set_tk_RemindAt v r) = proj r) ->
  (forall v r, proj (reminded v r) = proj r) -> proj (outcome (DoUpdate inp) at_ actor row) = proj row.
Proof.
  intros H1 H2 H3 H4 H5 H6 H7. cbn [outcome]. destruct (ku_ClearRemind inp); rewrite ?H6, ?(given_keeps proj (ku_RemindAt inp)) by done;
    rewrite !(given_keeps proj); done.
Qed.

Lemma edited_title inp at_ actor row :
  tk_Title (outcome (DoUpdate inp) at_ actor row) = match ku_Title inp with Some title => TrimSpace title | None => tk_Title row end.
Proof.
  cbn [outcome]. destruct (ku_ClearRemind inp), (ku_RemindAt inp), (ku_DueAt inp), (ku_AllDay inp), (ku_Priority inp), (ku_Description inp),
    (ku_Title inp); reflexivity.
Qed.

Lemma Update_title orgID taskID inp actor w task w' :
  Update orgID taskID inp actor w = (Ok task, w') -> blank_title inp = true -> keyed tk_ID (kd_tasks (w_db w)) -> False.
Proof.
  intros E Hb Hk. apply in_task in E as (row & w2 & w3 & _ & _ & _ & E & _); [|done]. rewrite Hb in E. by destruct (negb _).
Qed.

Lemma run_op_keeps op orgID taskID actor : triple (fun d => tasks_ok (kd_tasks d)) (run_op op orgID taskID actor) (fun _ d => tasks_ok (kd_tasks d)).
Proof.
  intros w [task|e] w' Hok E; [|by rewrite (run_op_fails op orgID taskID actor w e w' E)]. pose proof Hok as [Hk Ht].
  pose proof E as (row & Hrow & _ & _ & [(_ & _ & ->)|(Hp & Htask & _ & Ha)])%run_op_ok; [done| |done].
  rewrite (announced_tasks _ _ _ _ _ Ha). apply tasks_ok_insert; [done|]. pose proof (Ht _ _ Hrow) as [Hname Hst]. subst task.
  destruct op as [| |newOwner|inp|]; cbn [pending_for] in Hp.
  - split; [done|]. right. left. cbn. rewrite Hp in Hst. split; [done|]. split; [by eexists|].
    destruct Hst as [(_ & _ & _ & ?)|[(? & _)|(? & _)]]; done.
  - split; [done|]. right. right. cbn. rewrite Hp in Hst. split; [done|]. split; [by eexists|].
    destruct Hst as [(_ & ? & ? & _)|[(? & _)|(? & _)]]; done.
  - split; [done|]. exact Hst.
  - split.
    + rewrite edited_title. destruct (ku_Title inp) as [title|] eqn:Et; [|done]. intros Hemp.
      apply (Update_title orgID taskID inp actor w _ w' E); [|done]. unfold blank_title. by rewrite Et, Hemp.
    + by rewrite !edit_keeps.
  - split; [done|]. by left.
Qed.

Lemma create_task_keeps inp : triple (fun d => tasks_ok (kd_tasks d)) (Create inp) (fun _ d => tasks_ok (kd_tasks d)).
Proof.
  intros w [task|e] w' Hok E; [|by rewrite (create_task_fails inp w e w' E)].
  apply create_task_ok in E as (kc & c & kt & ty & ku & u & E). destruct_and! E.
  match goal with Ha : announced _ _ _ _ _ |- _ => rewrite (announced_tasks _ _ _ _ _ Ha) end.
  apply tasks_ok_insert; [done|]. split; [congruence|]. by left.
Qed.

Lemma delete_keeps orgID taskID : triple (fun d => tasks_ok (kd_tasks d)) (delete_task orgID taskID) (fun _ d => tasks_ok (kd_tasks d)).
Proof.
  unfold delete_task. apply triple_then; [by apply triple_now|done|]. intros t. apply triple_stmt; [|done].
  intros d u d' [Hk Ht] [= _ <-]. cbn. split.
  - by apply keyed_update.
  - intros k r Hr. rewrite update_where_lookup in Hr. destruct (kd_tasks d !! k) as [x|] eqn:Ex; [|done]. cbn in Hr. injection Hr as <-.
    pose proof (Ht _ _ Ex) as Hx. by destruct (task_at taskID orgID x).
Qed.

(** ** Histories *)

Inductive TaskCall :=
| CallCreate (inp : CreateInput)
| CallChange (op : TaskOp) (orgID taskID : uuid) (actor : Actor)
| CallDelete (orgID taskID : uuid).

(** One call after the other, on whatever happens to the earlier ones. *)
Definition run_call (c : TaskCall) : MK unit :=
  match c with
  | CallCreate inp => try (Create inp) ;;; ret tt
  | CallChange op orgID taskID actor => try (run_op op orgID taskID actor) ;;; ret tt
  | CallDelete orgID taskID => try (delete_task orgID taskID) ;;; ret tt
  end.

Fixpoint history (calls : list TaskCall) : MK unit :=
  match calls with [] => ret tt | c :: calls => run_call c ;;; history calls end.

Lemma run_call_keeps c : triple (fun d => tasks_ok (kd_tasks d)) (run_call c) (fun _ d => tasks_ok (kd_tasks d)).
Proof.
  destruct c; (apply triple_then; [|done|intros; by apply triple_ret]); apply triple_try;
    [apply create_task_keeps|apply run_op_keeps|apply delete_keeps].
Qed.

(** C35: Over any history of calls, whatever fails in it, a task has a name and its
    closing stamps are those of its status: none when open, a completion or a
    cancellation and not both when closed. *)
Theorem status_tells_the_truth calls w r w' :
  tasks_ok (kd_tasks (w_db w)) -> history calls w = (r, w') -> tasks_ok (kd_tasks (w_db w')).
Proof.
  revert w r w'. enough (triple (fun d => tasks_ok (kd_tasks d)) (history calls) (fun _ d => tasks_ok (kd_tasks d))) as Hh
    by (intros w r w' Hok E; exact (Hh w r w' Hok E)).
  induction calls as [|c calls IH]; cbn [history]; [by apply triple_ret|].
  apply triple_then; [apply run_call_keeps|done|done].
Qed.
End Rules.
