(* ===== verification/TaskNotices.v ===== *)
(** * Telling owners about their deadlines ([internal/handlers/jobs.go])

    Every minute a job looks for open tasks to remind of and for tasks past
    their deadline, claims each by stamping a column and then notifies its
    owner.  Several servers run the job at once;
    the second part shows that a deadline is told about once. *)
From S2P Require Import Prelude GoLib Text Store Events Models Statements People Notify TaskModels Tasks Samples NotifyProps TasksProps.
#[local] Open Scope string_scope.
#[local] Open Scope list_scope.
#[local] Open Scope Z_scope.

(** The two kinds of notice: the column that claims, the type, the title. *)
Inductive Notice := DueSoon | Overdue.

#[export] Instance Notice_eq_dec : EqDecision Notice.
Proof. solve_decision. Defined.

Definition claimed_at (n : Notice) (t : Task) : option time :=
  match n with DueSoon => tk_ReminderSentAt t | Overdue => tk_OverdueNotifiedAt t end.
Definition set_claim (n : Notice) (v : option time) (t : Task) : Task :=
  match n with DueSoon => set_tk_ReminderSentAt v t | Overdue => set_tk_OverdueNotifiedAt v t end.
Definition notice_type (n : Notice) : string :=
  match n with DueSoon => NotificationTaskDue | Overdue => NotificationTaskOverdue end.
Definition notice_title (n : Notice) : string := match n with DueSoon => "Task due soon" | Overdue => "Task overdue" end.

(** [sql_le]/[sql_lt] read NULL as no. *)
Definition wants_notice (n : Notice) (at_ : time) (d : TaskDB) (t : Task) : bool :=
  String.eqb (tk_Status t) TaskOpen && is_none (claimed_at n t) && task_live t && liveContactOnly d t &&
  match n with DueSoon => sql_le (tk_RemindAt t) at_ | Overdue => tk_DueAt t <? at_ end.

Section Notices.
Context `{SQ : Sql} `{UT : UuidText}.

(** [UPDATE ... SET column = now WHERE id = ? AND column IS NULL]: the rows affected. *)
Definition claim (n : Notice) (at_ : time) (taskID : uuid) : MK nat :=
  stmt no_locks (fun d =>
    match kd_tasks d !! taskID with
    | Some row =>
        if task_live row && is_none (claimed_at n row)
        then (Ok 1%nat, set_kd_tasks (<[taskID := set_claim n (Some at_) row]> (kd_tasks d)) d)
        else (Ok 0%nat, d)
    | None => (Ok 0%nat, d)
    end).

Definition notice_input (n : Notice) (task : Task) : Input :=
  MkInput (tk_OrganizationID task) [tk_OwnerID task] (notice_type n) (notice_title n) (tk_Title task)
    ("/tasks?task=" ++ uuid_String (tk_ID task))%string "task" (Some (tk_ID task)) [].

Definition send_notice (n : Notice) (task : Task) : MK unit :=
  try (zoom kd_notify set_kd_notify (Send (notice_input n task))) ;;; ret tt.

Definition overdue_event (task : Task) : MK unit :=
  id <- uuid_New ;;
  t <- now ;;
  try (publish_event (About SubjectTask (tk_ID task) (ForContact (tk_ContactID task)
    (New_event id t (tk_OrganizationID task) "task.overdue" SystemActor
      [("task_id", AString (uuid_String (tk_ID task))); ("title", AString (tk_Title task)); ("due_at", ATime (tk_DueAt task))])))) ;;;
  ret tt.

Definition tell (n : Notice) (task : Task) : MK unit :=
  send_notice n task ;;;
  match n with Overdue => overdue_event task | DueSoon => ret tt end.

(** One task of the batch, with what others commit before the claim and before
    the notification. *)
Definition notify_task (others : TaskDB -> TaskDB) (n : Notice) (at_ : time) (task : Task) : MK unit :=
  interleave others ;;;
  affected <- try (claim n at_ (tk_ID task)) ;;
  match affected with
  | Ok (S _) =>
      interleave others ;;;
      tell n task
  | _ => ret tt
  end.

Fixpoint notify_each (others : nat -> TaskDB -> TaskDB) (n : Notice) (at_ : time) (due : list Task) : MK unit :=
  match due with
  | [] => ret tt
  | task :: due => notify_task (others (length due)) n at_ task ;;; notify_each others n at_ due
  end.

Definition due_batch (n : Notice) (at_ : time) (d : TaskDB) : list Task := find_rows (wants_notice n at_ d) (Some 500%nat) (kd_tasks d).

Definition notifyTaskBatch (others : nat -> TaskDB -> TaskDB) (n : Notice) (at_ : time) : MK unit :=
  due <- query (fun d => Ok (due_batch n at_ d)) ;;
  notify_each others n at_ due.

Definition notifyDueTasks (others : nat -> TaskDB -> TaskDB) : MK unit :=
  t <- now ;;
  notifyTaskBatch others DueSoon t ;;;
  notifyTaskBatch others Overdue t.
End Notices.

(** * A deadline is told about once

    Any number of servers run the notifier, each statement of theirs between
    any statements of the others and of the users' calls; a server may die
    between claiming a task and telling about it. *)
#[local] Open Scope string_scope.
#[local] Open Scope list_scope.
#[local] Open Scope Z_scope.

#[local] Arguments IsKnown : simpl never.

(** ** Counting rows *)

Lemma rows_affected_perm {R} (p : R -> bool) (t : gmap N R) l :
  map_to_list t ≡ₚ l -> rows_affected p t = length (List.filter (fun kr : N * R => p kr.2) l).
Proof. intros Hp. unfold rows_affected, matching. rewrite length_fmap. by apply Permutation_length, filter_perm. Qed.

Lemma rows_affected_insert {R} (p : R -> bool) (t : gmap N R) k r :
  t !! k = None -> rows_affected p (<[k := r]> t) = ((if p r then 1 else 0) + rows_affected p t)%nat.
Proof.
  intros Hk. rewrite (rows_affected_perm p _ _ (map_to_list_insert t k r Hk)). cbn [List.filter snd].
  unfold rows_affected, matching. rewrite length_fmap. by destruct (p r).
Qed.

Lemma rows_affected_update {R} (p q : R -> bool) us (t : gmap N R) :
  (forall r, p (apply_updates us r) = p r) -> rows_affected p (update_where q us t) = rows_affected p t.
Proof.
  intros Hp. unfold update_where. rewrite (rows_affected_perm p _ (prod_map id (fun r => if q r then apply_updates us r else r) <$> map_to_list t)) by (by rewrite map_to_list_fmap).
  unfold rows_affected, matching. rewrite length_fmap. induction (map_to_list t) as [|[k r] l IH]; [done|].
  cbn [fmap list_fmap List.filter snd prod_map fst]. destruct (q r); rewrite ?Hp; destruct (p r); cbn [length]; lia.
Qed.

(** ** What is counted *)

(** The notices about a deadline of a task that users have got. *)
Definition notices (n : Notice) (id : uuid) (d : TaskDB) : nat :=
  rows_affected (fun x => String.eqb (nt_Type x) (notice_type n) && opt_eqb (nt_EntityID x) (Some id)) (no_rows (kd_notify d)).

(** Whether a notifier may still claim it. *)
Definition vacant (n : Notice) (id : uuid) (d : TaskDB) : nat :=
  match kd_tasks d !! id with Some row => if is_none (claimed_at n row) then 1 else 0 | None => 1 end.

(** Which calls give a task a new deadline to tell about. *)
Definition renews (n : Notice) (id : uuid) (c : TaskCall) : bool :=
  match c with
  | CallChange (DoUpdate inp) _ taskID _ =>
      N.eqb taskID id && (is_some (ku_DueAt inp) ||
        match n with DueSoon => negb (ku_ClearRemind inp) && is_some (ku_RemindAt inp) | Overdue => false end)
  | CallChange DoReopen _ taskID _ => N.eqb taskID id
  | _ => false
  end.

(** A call that did so: the notice was claimed before it and may be claimed
    again after it.  A call that fails, the reopening of a task that is open and
    a new deadline nobody was told about yet are none. *)
Definition renewed (n : Notice) (id : uuid) (c : TaskCall) (d d' : TaskDB) : bool :=
  renews n id c && Nat.ltb (vacant n id d) (vacant n id d').

Lemma notice_type_inj n m : notice_type n = notice_type m -> n = m.
Proof. by destruct n, m. Qed.

Section Told.
Context `{SL : SqlLaws} `{UT : UuidText}.

(** ** The statements of a notifier *)

Lemma claim_spec m at_ taskID w r w' :
  claim m at_ taskID w = (r, w') ->
  (exists row k, r = Ok (S k) /\ kd_tasks (w_db w) !! taskID = Some row /\ claimed_at m row = None /\
     w_db w' = set_kd_tasks (<[taskID := set_claim m (Some at_) row]> (kd_tasks (w_db w))) (w_db w)) \/
  ((forall k, r <> Ok (S k)) /\ w_db w' = w_db w).
Proof.
  intros E. destruct r as [k|e]; [|right; split; [done|by apply rolls_back_stmt in E]].
  apply stmt_ok_inv in E as (d & E & _ & ->). destruct (kd_tasks (w_db w) !! taskID) as [row|] eqn:Er.
  - destruct (task_live row && is_none (claimed_at m row)) eqn:Eb; injection E as <- <-.
    + left. apply andb_true_iff in Eb as [_ Hc%is_none_true]. exists row, 0%nat. done.
    + right. split; [by intros k|done].
  - injection E as <- <-. right. split; [by intros k|done].
Qed.

Lemma claimed_other n m v row : n <> m -> claimed_at n (set_claim m v row) = claimed_at n row.
Proof. by destruct n, m. Qed.
Lemma claimed_self n v row : claimed_at n (set_claim n v row) = v.
Proof. by destruct n. Qed.

(** A claim that went through took the vacancy; any other changes none. *)
Lemma claim_counts n id m at_ taskID w r w' :
  claim m at_ taskID w = (r, w') ->
  notices n id (w_db w') = notices n id (w_db w) /\
  (vacant n id (w_db w') + (match r with Ok (S _) => if decide (m = n /\ taskID = id) then 1 else 0 | _ => 0 end))%nat = vacant n id (w_db w).
Proof.
  intros [(row & k & -> & Hrow & Hc & ->)|[Hr ->]]%claim_spec.
  - split; [done|]. unfold vacant. cbn [kd_tasks set_kd_tasks]. destruct (decide (m = n /\ taskID = id)) as [[-> ->]|Hne].
    + by rewrite lookup_insert_eq, claimed_self, Hrow, Hc.
    + destruct (decide (taskID = id)) as [->|Hid]; [|rewrite lookup_insert_ne by done; lia].
      rewrite lookup_insert_eq, Hrow, claimed_other by naive_solver. destruct (is_none _); lia.
  - split; [done|]. destruct r as [[|k]|]; [lia|by destruct (Hr k)|lia].
Qed.

(** A notification adds one notice at most, about its own task and deadline. *)
Lemma send_counts n id m task w r w' :
  send_notice m task w = (r, w') ->
  kd_tasks (w_db w') = kd_tasks (w_db w) /\
  (notices n id (w_db w') <= notices n id (w_db w) + if decide (m = n /\ tk_ID task = id) then 1 else 0)%nat.
Proof.
  unfold send_notice. intros E. unfold bind, try in E. destruct (zoom _ _ _ w) as [q w1] eqn:Ez. injection E as <- <-.
  apply zoom_inv in Ez as (part & Ez & ->). split; [done|]. unfold notices. cbn [w_db see kd_notify set_kd_notify].
  apply Send_inv in Ez as [_ Ez]. destruct q as [rows|e]; [|rewrite Ez; cbn; lia].
  cbn [w_db see] in Ez. destruct Ez as (Hnd & Hall & Hrows & _). set (p := fun x => _).
  assert (rows = [] \/ exists x, rows = [x]) as [->|[x ->]].
  { destruct rows as [|x [|y rows]]; [by left|right; eauto|exfalso]. cbn [map] in Hnd.
    apply Forall_cons in Hall as [[Hx _] [[Hy _] _]%Forall_cons]. cbn [notice_input np_UserIDs] in Hx, Hy.
    apply list_elem_of_singleton in Hx, Hy. apply NoDup_cons in Hnd as [Hnx _]. apply Hnx. rewrite Hx, Hy. left. }
  - assert (no_rows (w_db part) = no_rows (kd_notify (w_db w))) as ->; [|lia]. apply map_eq. intros k. apply option_eq. intros x.
    rewrite Hrows. split; [intros [|[Hx%not_elem_of_nil _]]; done|by left].
  - apply Forall_cons in Hall as [(_ & _ & _ & Hty & Hent & _ & Hnew) _]. cbn [notice_input np_Type np_EntityID] in Hty, Hent.
    assert (no_rows (w_db part) = <[nt_ID x := x]> (no_rows (kd_notify (w_db w)))) as ->.
    { apply map_eq. intros k. apply option_eq. intros y. rewrite Hrows, lookup_insert_Some, list_elem_of_singleton.
      split; [|naive_solver]. destruct (decide (nt_ID x = k)) as [<-|]; naive_solver. }
    rewrite rows_affected_insert by done. unfold p at 1. rewrite Hty, Hent.
    destruct (String.eqb_spec (notice_type m) (notice_type n)) as [->%notice_type_inj|Hne]; cbn [andb]; [|destruct (decide _); lia].
    destruct (opt_eqb (Some (tk_ID task)) (Some id)) eqn:Eid; [|destruct (decide _); lia].
    apply opt_eqb_eq in Eid. injection Eid as ->. rewrite decide_True by done. lia.
Qed.

Lemma overdue_event_counts task w r w' :
  overdue_event task w = (r, w') -> kd_tasks (w_db w') = kd_tasks (w_db w) /\ kd_notify (w_db w') = kd_notify (w_db w).
Proof.
  unfold overdue_event. intros E. unfold bind, uuid_New, now, try, publish_event in E.
  destruct (zoom _ _ _ _) as [q w1] eqn:Ez in E. injection E as _ <-. by apply zoom_inv in Ez as (part & _ & ->).
Qed.

Lemma tell_counts n id m task w r w' :
  tell m task w = (r, w') ->
  kd_tasks (w_db w') = kd_tasks (w_db w) /\
  (notices n id (w_db w') <= notices n id (w_db w) + if decide (m = n /\ tk_ID task = id) then 1 else 0)%nat.
Proof.
  unfold tell. intros E. unfold bind at 1 in E. destruct (send_notice m task w) as [[u|e] w1] eqn:Es; apply (send_counts n id) in Es as [Ht Hn].
  - destruct m; [injection E as _ <-; done|]. apply overdue_event_counts in E as [Ht' Hd]. split; [by rewrite Ht'|].
    unfold notices in *. by rewrite Hd.
  - by injection E as _ <-.
Qed.

(** ** The calls of users *)

Lemma outcome_claim n op at_ actor row :
  renews n (tk_ID row) (CallChange op (tk_OrganizationID row) (tk_ID row) actor) = false ->
  claimed_at n (outcome op at_ actor row) = claimed_at n row.
Proof.
  destruct op as [| |newOwner|inp|]; cbn [renews]; rewrite ?N.eqb_refl; cbn [andb]; try (by destruct n).
  intros Hr. apply orb_false_iff in Hr as [Hd Hr]. cbn [outcome]. destruct (ku_DueAt inp); [done|]. cbn [given].
  destruct n; cbn [claimed_at]; destruct (ku_ClearRemind inp), (ku_RemindAt inp); try done;
    destruct (ku_AllDay inp), (ku_Priority inp), (ku_Description inp), (ku_Title inp); reflexivity.
Qed.

Lemma vacant_le n id d : (vacant n id d <= 1)%nat.
Proof. unfold vacant. repeat dmatch; lia. Qed.

(** A call tells nobody, and makes room for a notice only by renewing the deadline. *)
Lemma call_counts n id c w r w' :
  tasks_ok (kd_tasks (w_db w)) -> run_call c w = (r, w') ->
  notices n id (w_db w') = notices n id (w_db w) /\
  (vacant n id (w_db w') <= vacant n id (w_db w) + if renewed n id c (w_db w) (w_db w') then 1 else 0)%nat.
Proof.
  intros [Hk _]. unfold renewed. destruct (renews n id c) eqn:Hr; cbn [andb].
  - intros E. split; [|pose proof (vacant_le n id (w_db w')); destruct (Nat.ltb_spec (vacant n id (w_db w)) (vacant n id (w_db w'))); lia]. destruct c as [inp|op orgID taskID actor|orgID taskID]; [done| |done].
    cbn [run_call] in E. unfold bind, try in E. destruct (run_op _ _ _ _ w) as [[task|e] w1] eqn:Eo; injection E as _ <-.
    + apply run_op_ok in Eo as (row & _ & _ & _ & [(_ & _ & ->)|(_ & _ & _ & (o & -> & _))]); done.
    + by rewrite (run_op_fails op orgID taskID actor w e w1 Eo).
  - destruct c as [inp|op orgID taskID actor|orgID taskID]; cbn [run_call]; intros E; unfold bind, try in E.
    + destruct (Create inp w) as [[task|e] w1] eqn:Ec; injection E as _ <-; [|rewrite (create_task_fails inp w e w1 Ec); lia].
      apply create_task_ok in Ec as (kc & cc & kt & ty & ku & u & Ec). destruct_and! Ec.
      match goal with Ha : announced _ _ _ _ _ |- _ => destruct Ha as (o & -> & _) end.
      split; [done|]. unfold vacant. cbn [kd_tasks set_kd_tasks set_kd_tables]. destruct (decide (tk_ID task = id)) as [<-|Hne].
      * rewrite lookup_insert_eq. match goal with Hn : kd_tasks _ !! _ = None |- _ => rewrite Hn end. destruct (is_none _); lia.
      * rewrite lookup_insert_ne by done. lia.
    + destruct (run_op _ _ _ _ w) as [[task|e] w1] eqn:Eo; injection E as _ <-; [|rewrite (run_op_fails op orgID taskID actor w e w1 Eo); lia].
      apply run_op_ok in Eo as (row & Hrow & <- & _ & [(_ & _ & ->)|(_ & -> & _ & (o & -> & _))]); [lia| |done].
      split; [done|]. pose proof (Hk _ _ Hrow) as <-. unfold vacant. cbn [kd_tasks set_kd_tasks set_kd_tables].
      assert (tk_ID (outcome op (w_now w) actor row) = tk_ID row) as ->.
      { destruct op as [| |newOwner|inp|]; try done. by rewrite edit_keeps. }
      destruct (decide (tk_ID row = id)) as [<-|Hne]; [|rewrite lookup_insert_ne by done; lia].
      rewrite lookup_insert_eq, Hrow, outcome_claim; [lia|done].
    + destruct (delete_task orgID taskID w) as [[u|e] w1] eqn:Ed; injection E as _ <-; unfold delete_task in Ed.
      * inv_run. injection Hs as _ <-. split; [done|]. unfold vacant. cbn [kd_tasks set_kd_tasks w_db after_stmt set_db].
        rewrite update_where_lookup. destruct (kd_tasks (w_db w) !! id) as [row|]; cbn [fmap option_fmap option_map]; [|lia].
        destruct (task_at taskID orgID row); [|lia].
        replace (claimed_at n (apply_updates [set_tk_DeletedAt (Some (w_now w))] row)) with (claimed_at n row) by (by destruct n). lia.
      * unfold bind, now in Ed. apply rolls_back_stmt in Ed. rewrite Ed. lia.
Qed.

Lemma read_counts n id (p : Notification -> bool) w r w' :
  zoom kd_notify set_kd_notify (mark p) w = (r, w') ->
  kd_tasks (w_db w') = kd_tasks (w_db w) /\ notices n id (w_db w') = notices n id (w_db w).
Proof.
  intros (part & E & ->)%zoom_inv. split; [done|]. unfold notices. cbn [w_db see kd_notify set_kd_notify].
  unfold mark, bind, now in E. destruct r as [u|e].
  - apply stmt_ok_inv in E as (d & E & _ & ->). injection E as _ <-. cbn. by apply rows_affected_update.
  - apply rolls_back_stmt in E. by rewrite E.
Qed.

(** ** Turns *)

(** A server in its run of the job: the tasks still to do, the one it claimed. *)
Record worker := MkWorker { wk_notice : Notice; wk_todo : list Task; wk_claimed : option Task }.

(** [sy_renewed]: how often the deadline looked at was renewed after a claim. *)
Record system := Sys { sy_db : TaskDB; sy_workers : list worker; sy_renewed : nat }.

Section Turns.
Variables (n : Notice) (id : uuid).

Inductive turn : system -> system -> Prop :=
| turn_start d ws k m : turn (Sys d ws k) (Sys d (ws ++ [MkWorker m [] None]) k)
| turn_look d ws k i m at_ : ws !! i = Some (MkWorker m [] None) ->
    turn (Sys d ws k) (Sys d (<[i := MkWorker m (due_batch m at_ d) None]> ws) k)
| turn_claim d ws k i m at_ task todo w r w' : ws !! i = Some (MkWorker m (task :: todo) None) -> w_db w = d ->
    claim m at_ (tk_ID task) w = (r, w') ->
    turn (Sys d ws k) (Sys (w_db w') (<[i := MkWorker m todo (match r with Ok (S _) => Some task | _ => None end)]> ws) k)
| turn_tell d ws k i m task todo w r w' : ws !! i = Some (MkWorker m todo (Some task)) -> w_db w = d ->
    tell m task w = (r, w') ->
    turn (Sys d ws k) (Sys (w_db w') (<[i := MkWorker m todo None]> ws) k)
| turn_die d ws k i m todo claimed : ws !! i = Some (MkWorker m todo claimed) ->
    turn (Sys d ws k) (Sys d (<[i := MkWorker m [] None]> ws) k)
| turn_call d ws k c w r w' : w_db w = d -> run_call c w = (r, w') ->
    turn (Sys d ws k) (Sys (w_db w') ws (k + if renewed n id c d (w_db w') then 1 else 0))
| turn_read d ws k p w r w' : w_db w = d -> zoom kd_notify set_kd_notify (mark p) w = (r, w') ->
    turn (Sys d ws k) (Sys (w_db w') ws k).

(** Claims on the deadline that nobody was told about yet. *)
Definition flying (wk : worker) : nat :=
  match wk_claimed wk with Some task => if decide (wk_notice wk = n /\ tk_ID task = id) then 1 else 0 | None => 0 end.

Definition accounted (s : system) : Prop :=
  tasks_ok (kd_tasks (sy_db s)) /\
  (notices n id (sy_db s) + list_sum (map flying (sy_workers s)) + vacant n id (sy_db s) <= 1 + sy_renewed s)%nat.

Lemma flying_insert ws i wk wk' :
  ws !! i = Some wk -> (list_sum (map flying (<[i := wk']> ws)) + flying wk = list_sum (map flying ws) + flying wk')%nat.
Proof.
  revert i. induction ws as [|x ws IH]; intros i Hi; [done|]. destruct i as [|i]; cbn in Hi.
  - injection Hi as ->. cbn. lia.
  - specialize (IH i Hi).
    change (flying x + list_sum (map flying (<[i := wk']> ws)) + flying wk = flying x + list_sum (map flying ws) + flying wk')%nat. lia.
Qed.

Lemma flying_app ws wk : list_sum (map flying (ws ++ [wk])) = (list_sum (map flying ws) + flying wk)%nat.
Proof. rewrite map_app, list_sum_app. cbn. lia. Qed.

Lemma claim_tasks_ok m at_ taskID w r w' : claim m at_ taskID w = (r, w') -> tasks_ok (kd_tasks (w_db w)) -> tasks_ok (kd_tasks (w_db w')).
Proof.
  intros [(row & k & _ & Hrow & _ & ->)|[_ ->]]%claim_spec Hok; [|done]. cbn. destruct Hok as [Hk Ht].
  pose proof (Hk _ _ Hrow) as Hid. assert (tk_ID (set_claim m (Some at_) row) = taskID) as <- by (by destruct m).
  apply tasks_ok_insert; [done|]. pose proof (Ht _ _ Hrow) as Hx. by destruct m.
Qed.

Lemma turn_accounted s s' : turn s s' -> accounted s -> accounted s'.
Proof.
  unfold accounted.
  destruct 1 as [d ws k m|d ws k i m at_ Hi|d ws k i m at_ task todo w r w' Hi <- E|d ws k i m task todo w r w' Hi <- E|
    d ws k i m todo claimed Hi|d ws k c w r w' <- E|d ws k p w r w' <- E]; cbn [sy_db sy_workers sy_renewed]; intros [Hok Hle].
  - rewrite flying_app. split; [done|]. cbn. lia.
  - pose proof (flying_insert _ _ _ (MkWorker m (due_batch m at_ d) None) Hi) as Hf.
    assert (forall todo, flying (MkWorker m todo None) = 0%nat) as H1 by done. rewrite !H1 in Hf. split; [done|]. lia.
  - split; [by eapply claim_tasks_ok|]. apply (claim_counts n id) in E as [-> Hv].
    pose proof (flying_insert _ _ _ (MkWorker m todo (match r with Ok (S _) => Some task | _ => None end)) Hi) as Hf.
    assert (flying (MkWorker m (task :: todo) None) = 0%nat) as H1 by done.
    assert (flying (MkWorker m todo (match r with Ok (S _) => Some task | _ => None end)) =
            match r with Ok (S _) => if decide (m = n /\ tk_ID task = id) then 1 else 0 | _ => 0 end)%nat as H2
      by (by destruct r as [[|j]|]).
    lia.
  - pose proof (flying_insert _ _ _ (MkWorker m todo None) Hi) as Hf.
    assert (flying (MkWorker m todo (Some task)) = if decide (m = n /\ tk_ID task = id) then 1 else 0)%nat as H1 by done.
    assert (flying (MkWorker m todo None) = 0%nat) as H2 by done. apply (tell_counts n id) in E as [Ht Hn]. unfold vacant in *. rewrite Ht. split; [done|]. lia.
  - pose proof (flying_insert _ _ _ (MkWorker m [] None) Hi) as Hf.
    assert (flying (MkWorker m [] None) = 0%nat) as H1 by done. split; [done|]. lia.
  - split; [by apply (run_call_keeps c w r w' Hok E)|]. apply (call_counts n id) in E as [-> Hv]; [|done]. lia.
  - apply (read_counts n id) in E as [Ht Hn]. unfold vacant in *. rewrite Ht, Hn. split; [done|]. lia.
Qed.

(** C36: However many servers look for due tasks, and however their statements and
    those of the users interleave, fail or stop, an owner is told about a
    deadline of a task at most once, and once more for every call that renewed
    it after it was claimed: one that set the deadline or the reminder anew or
    reopened the task. *)
Theorem deadline_told_once s s' :
  tasks_ok (kd_tasks (sy_db s)) -> sy_workers s = [] -> sy_renewed s = 0%nat -> notices n id (sy_db s) = 0%nat ->
  rtc turn s s' -> (notices n id (sy_db s') <= 1 + sy_renewed s')%nat.
Proof.
  intros Hok Hws Hk Hn Hr. assert (accounted s) as Ha.
  { split; [done|]. rewrite Hws, Hk, Hn. cbn. apply vacant_le. }
  enough (accounted s') as [_ ?] by lia. clear Hok Hws Hk Hn. induction Hr as [|s s1 s2 Ht _ IH]; [done|].
  apply IH. by apply (turn_accounted s).
Qed.

(** ** The job takes such turns *)

Lemma notify_each_turns m at_ due ws k i w r w' :
  ws !! i = Some (MkWorker m due None) -> notify_each (fun _ => alone) m at_ due w = (r, w') ->
  exists wk, rtc turn (Sys (w_db w) ws k) (Sys (w_db w') (<[i := wk]> ws) k).
Proof.
  revert ws w. induction due as [|task due IH]; intros ws w Hi E.
  { injection E as _ <-. exists (MkWorker m [] None). rewrite list_insert_id by done. apply rtc_refl. }
  cbn [notify_each] in E. unfold notify_task in E. unfold bind at 1 in E.
  unfold bind at 1 in E. rewrite interleave_alone in E. unfold bind at 1, try at 1 in E.
  destruct (claim m at_ (tk_ID task) w) as [c w1] eqn:Ec. cbn iota beta zeta in E.
  assert (forall claimed, claimed = match c with Ok (S _) => Some task | _ => None end ->
    turn (Sys (w_db w) ws k) (Sys (w_db w1) (<[i := MkWorker m due claimed]> ws) k)) as Hclaim
    by (intros claimed ->; by eapply turn_claim).
  assert (forall ws1 v, ws1 !! i = Some (MkWorker m due None) -> (forall z, <[i := z]> ws1 = <[i := z]> ws) ->
    notify_each (fun _ => alone) m at_ due v = (r, w') ->
    exists wk, rtc turn (Sys (w_db v) ws1 k) (Sys (w_db w') (<[i := wk]> ws) k)) as Hrest.
  { intros ws1 v Hi1 Hins Ev. destruct (IH ws1 v Hi1 Ev) as [wk Hr]. exists wk. by rewrite <- Hins. }
  pose proof (lookup_lt_Some _ _ _ Hi) as Hlt.
  assert (c = Ok 0%nat \/ (exists e, c = Err e) \/ exists j, c = Ok (S j)) as [Hc|[[e Hc]|[j Hc]]] by (destruct c as [[|j]|e]; eauto).
  1-2: subst c; destruct (Hrest (<[i := MkWorker m due None]> ws) w1) as [wk Hr];
    [by apply list_lookup_insert_eq|intros z; apply list_insert_insert_eq|exact E|];
    exists wk; eapply rtc_l; [by apply Hclaim|exact Hr].
  subst c. cbn iota in E. unfold bind at 1 in E. rewrite interleave_alone in E.
  destruct (tell m task w1) as [[u|e] w2] eqn:Et.
  all: assert (turn (Sys (w_db w1) (<[i := MkWorker m due (Some task)]> ws) k) (Sys (w_db w2) (<[i := MkWorker m due None]> ws) k)) as Htell
    by (rewrite <- (list_insert_insert_eq ws i (MkWorker m due None) (MkWorker m due (Some task)));
        eapply turn_tell; [by apply list_lookup_insert_eq|done|exact Et]).
  - destruct (Hrest (<[i := MkWorker m due None]> ws) w2) as [wk Hr];
      [by apply list_lookup_insert_eq|intros z; apply list_insert_insert_eq|exact E|].
    exists wk. eapply rtc_l; [by apply Hclaim|]. eapply rtc_l; [exact Htell|exact Hr].
  - injection E as _ <-. exists (MkWorker m due None). eapply rtc_l; [by apply Hclaim|]. by apply rtc_once.
Qed.

(** A run of the job is such turns of one server, whatever fails in it. *)
Theorem job_is_turns m at_ ws k i w r w' :
  ws !! i = Some (MkWorker m [] None) -> notifyTaskBatch (fun _ => alone) m at_ w = (r, w') ->
  exists wk, rtc turn (Sys (w_db w) ws k) (Sys (w_db w') (<[i := wk]> ws) k).
Proof.
  intros Hi E. unfold notifyTaskBatch, bind in E. destruct (query _ w) as [[due|e] w1] eqn:Eq.
  - apply query_tasks in Eq as (Eq & Hdb & _). injection Eq as <-. pose proof (lookup_lt_Some _ _ _ Hi) as Hlt.
    apply (notify_each_turns m at_ _ (<[i := MkWorker m (due_batch m at_ (w_db w)) None]> ws) k i) in E as [wk Hr];
      [|by apply list_lookup_insert_eq].
    rewrite Hdb, list_insert_insert_eq in Hr. exists wk. eapply rtc_l; [by apply turn_look|exact Hr].
  - injection E as _ <-. apply query_err_inv in Eq as (-> & _). exists (MkWorker m [] None). rewrite list_insert_id by done. apply rtc_refl.
Qed.
End Turns.
End Told.
