(* ===== verification/TaskTypesProps.v ===== *)
(** * The built-in kinds of tasks are always there

    Seeding adds what is missing and nothing else; nothing the settings page
    offers takes a built-in type away, so automations and flows, which name
    types by key, always find theirs.  The last part applies the theorems on
    tasks to small tables. *)
From S2P Require Import Prelude GoLib Text Store Events Models Statements Fields FieldService People Notify TaskModels Tasks TasksProps Samples TaskNotices.
#[local] Open Scope string_scope.
#[local] Open Scope list_scope.
#[local] Open Scope Z_scope.

(** Types are filed by id, and a live key names one type of an organization. *)
Definition types_ok (types : gmap uuid TaskType) : Prop :=
  keyed tt_ID types /\
  forall k k' t t', types !! k = Some t -> types !! k' = Some t' -> tt_DeletedAt t = None -> tt_DeletedAt t' = None ->
    tt_OrganizationID t = tt_OrganizationID t' -> tt_Key t = tt_Key t' -> k = k'.

(** An organization's own type of that key, neither deleted nor archived. *)
Definition has_builtin (orgID : uuid) (key : string) (types : gmap uuid TaskType) : Prop :=
  exists id t, types !! id = Some t /\ tt_OrganizationID t = orgID /\ tt_Key t = key /\ tt_DeletedAt t = None /\
    tt_IsSystem t = true /\ tt_ArchivedAt t = None.

Lemma type_of_true orgID t : type_of orgID t = true <-> tt_OrganizationID t = orgID /\ tt_DeletedAt t = None.
Proof. unfold type_of, type_live. by rewrite andb_true_iff, N.eqb_eq, is_none_true. Qed.
Lemma type_at_true id orgID t : type_at id orgID t = true <-> tt_ID t = id /\ tt_OrganizationID t = orgID /\ tt_DeletedAt t = None.
Proof. unfold type_at. by rewrite andb_true_iff, N.eqb_eq, type_of_true. Qed.
Lemma type_keyed_true orgID key t :
  type_keyed orgID key t = true <-> (tt_OrganizationID t = orgID /\ tt_DeletedAt t = None) /\ tt_Key t = key.
Proof. unfold type_keyed. by rewrite andb_true_iff, String.eqb_eq, type_of_true. Qed.

Lemma key_free row types :
  key_taken row types = false ->
  forall k t, types !! k = Some t -> tt_OrganizationID t = tt_OrganizationID row -> tt_Key t = tt_Key row ->
    tt_DeletedAt t = None -> tt_ID t = tt_ID row.
Proof.
  unfold key_taken. intros Ef%negb_false_iff%Nat.eqb_eq k t Hk Ho Hkey Hd. destruct (N.eq_dec (tt_ID t) (tt_ID row)) as [|Hne]; [done|].
  pose proof (proj1 (rows_affected_zero _ _) Ef k t Hk) as Hp. apply andb_false_iff in Hp as [Hp|Hp].
  - by rewrite (proj2 (type_keyed_true _ _ _) (conj (conj Ho Hd) Hkey)) in Hp.
  - by apply negb_false_iff, N.eqb_eq in Hp.
Qed.

(** A row that takes no other's key may be stored. *)
Lemma types_ok_insert types row :
  types_ok types -> (tt_DeletedAt row = None -> key_taken row types = false) -> types_ok (<[tt_ID row := row]> types).
Proof.
  intros [Hk Hu] Hfree. split.
  - intros k t [[<- <-]|[_ Ht]]%lookup_insert_Some; [done|by apply Hk].
  - intros k k' t t' [[<- <-]|[Hne Ht]]%lookup_insert_Some [[<- <-]|[Hne' Ht']]%lookup_insert_Some Hd Hd' Ho Hkey; [done|..].
    + rewrite <- (Hk _ _ Ht'). symmetry. eapply key_free; eauto.
    + rewrite <- (Hk _ _ Ht). eapply key_free; eauto.
    + by apply (Hu k k' t t').
Qed.

Section Props.
Context `{SL : SqlLaws} `{UT : UuidText}.

Definition good (orgID : uuid) (key : string) (d : TaskDB) : Prop := types_ok (kd_types d) /\ has_builtin orgID key (kd_types d).

(** A new row leaves the others. *)
Lemma insert_type_triple orgID key row :
  triple (good orgID key) (insert_type row) (fun _ => good orgID key).
Proof.
  unfold insert_type. apply triple_stmt; [|done]. intros d t d' [Hok (id & b & Hb & Hrest)]. destruct (negb _); [done|].
  set (row' := with_defaults row). destruct (is_some (kd_types d !! tt_ID row') || key_taken row' (kd_types d)) eqn:E; [done|].
  apply orb_false_iff in E as [Hnone Hfree]. intros [= _ <-]. unfold good. cbn [set_kd_types kd_types]. split; [by apply types_ok_insert|].
  exists id, b. split; [|done].
  rewrite lookup_insert_ne; [done|]. intros Heq. unfold is_some in Hnone. by rewrite Heq, Hb in Hnone.
Qed.

Lemma seed_missing_triple orgID key org have l : triple (good orgID key) (seed_missing org have l) (fun _ => good orgID key).
Proof.
  induction l as [|t l IH]; cbn [seed_missing]; [by apply triple_ret|]. destruct (existsb _ have); [done|].
  apply triple_then; [by apply triple_uuid|done|]. intros id. apply triple_then; [apply insert_type_triple|done|done].
Qed.

Lemma Seed_triple orgID key org : triple (good orgID key) (SeedOrganization org) (fun _ => good orgID key).
Proof. apply triple_then; [by apply triple_query|done|]. intros have. apply seed_missing_triple. Qed.

Lemma refuse_triple {A} P e (m : MK A) : triple P m (fun _ => P) -> triple P (refuse e m) (fun _ => P).
Proof. intros Hm. destruct e; [by apply triple_fail|done]. Qed.

Lemma CreateTaskType_triple orgID key org req : triple (good orgID key) (CreateTaskType org req) (fun _ => good orgID key).
Proof.
  unfold CreateTaskType. apply refuse_triple. apply triple_then; [apply triple_try; by apply triple_query|done|]. intros n.
  destruct n as [[|n]|e]; try (by apply triple_fail);
    (apply triple_then; [by apply triple_uuid|done|]; intros id; apply triple_then; [|done|]; [|intros p; apply insert_type_triple]);
    (destruct (ty_Position req); [by apply triple_ret|]);
    (apply triple_then; [apply triple_try; by apply triple_query|done|]; intros r; by apply triple_ret).
Qed.

Lemma edits_same req row :
  let row' := apply_updates (type_edits req) row in
  tt_ID row' = tt_ID row /\ tt_OrganizationID row' = tt_OrganizationID row /\ tt_Key row' = tt_Key row /\
  tt_DeletedAt row' = tt_DeletedAt row /\ tt_IsSystem row' = tt_IsSystem row /\ tt_ArchivedAt row' = tt_ArchivedAt row.
Proof.
  cbv zeta. unfold type_edits. destruct (is_empty (TrimSpace (ty_Label req))), (is_empty (ty_Icon req)), (is_empty (ty_Color req)),
    (ty_DefaultDueOffsetMinutes req), (ty_Position req); done.
Qed.

(** Writing a stored type back, with what may change of it. *)
Lemma save_type_triple orgID key row0 row :
  tt_ID row = tt_ID row0 -> tt_OrganizationID row = tt_OrganizationID row0 -> tt_Key row = tt_Key row0 ->
  tt_DeletedAt row = tt_DeletedAt row0 -> tt_IsSystem row = tt_IsSystem row0 ->
  (tt_IsSystem row0 = true -> tt_ArchivedAt row0 = None -> tt_ArchivedAt row = None) ->
  triple (fun d => good orgID key d /\ kd_types d !! tt_ID row0 = Some row0) (save_type row) (fun _ => good orgID key).
Proof.
  intros Hid Ho Hk Hd Hs Ha. unfold save_type. apply triple_stmt; [|by intros e d []].
  intros d t d' [[Hok (id & b & Hb & Hrest)] Hrow]. destruct (negb _); [done|].
  destruct (type_live row && key_taken row (kd_types d)) eqn:E; [done|]. intros [= _ <-]. unfold good. cbn [set_kd_types kd_types]. split.
  - apply types_ok_insert; [done|]. intros Hlive. apply andb_false_iff in E as [E|E]; [|done]. unfold type_live in E. by rewrite Hlive in E.
  - destruct (decide (id = tt_ID row)) as [->|Hne].
    + rewrite Hid, Hrow in Hb. injection Hb as <-. exists (tt_ID row), row. rewrite lookup_insert_eq. naive_solver congruence.
    + exists id, b. by rewrite lookup_insert_ne.
Qed.

Lemma UpdateTaskType_triple orgID key org id req : triple (good orgID key) (UpdateTaskType org id req) (fun _ => good orgID key).
Proof.
  unfold UpdateTaskType.
  apply (triple_bind _ (fun row d => good orgID key d /\ kd_types d !! tt_ID row = Some row)).
  { apply triple_query; [|done]. intros d row Hg E. split; [done|]. apply (first_row_key tt_ID id) in E as [E (Hid & _)%type_at_true].
    - by rewrite Hid. - apply Hg. - by intros r (? & _)%type_at_true. }
  intros row0. destruct (_ && _); [by apply triple_fail; intros d []|].
  apply (triple_bind _ (fun _ d => good orgID key d /\ kd_types d !! tt_ID row0 = Some row0)); [by apply triple_now|]. intros t.
  destruct (edits_same req row0) as (Hid & Ho & Hk & Hd & Hs & Ha). set (row1 := apply_updates _ row0) in *.
  assert (forall row, tt_ID row = tt_ID row1 -> tt_OrganizationID row = tt_OrganizationID row1 -> tt_Key row = tt_Key row1 ->
    tt_DeletedAt row = tt_DeletedAt row1 -> tt_IsSystem row = tt_IsSystem row1 ->
    (tt_IsSystem row0 = true -> tt_ArchivedAt row0 = None -> tt_ArchivedAt row = None) ->
    triple (fun d => good orgID key d /\ kd_types d !! tt_ID row0 = Some row0)
      (refuse (validateTaskType (tt_Key row) (tt_Label row) (Some (tt_DefaultDueOffsetMinutes row))) (save_type row ;;; ret row))
      (fun _ => good orgID key)) as Hsave.
  { intros row H1 H2 H3 H4 H5 H6. destruct (validateTaskType _ _ _); cbn [refuse]; [by apply triple_fail; intros d []|].
    apply (triple_bind _ (fun _ => good orgID key)); [|intros u; by apply triple_ret].
    eapply triple_conseq; [apply (save_type_triple orgID key row0 row); congruence || done|done|by intros [] d]. }
  destruct (ty_Archived req) as [[|]|].
  - destruct (tt_IsSystem row1) eqn:Hsys; [intros w r w' [Hg _] [= <- <-]; exact Hg|].
    intros w r w' Hw E. unfold bind at 1, ret at 1 in E. apply (Hsave (set_tt_ArchivedAt (Some t) row1)) in E; try done.
    intros Hsys0. rewrite Hsys0 in Hs. congruence.
  - intros w r w' Hw E. unfold bind at 1, ret at 1 in E. by apply (Hsave (set_tt_ArchivedAt None row1)) in E.
  - intros w r w' Hw E. unfold bind at 1, ret at 1 in E. apply (Hsave row1) in E; try done. intros _ ?. by rewrite Ha.
Qed.
Lemma reorder_triple orgID key org i ids : triple (good orgID key) (reorder org i ids) (fun _ => good orgID key).
Proof.
  revert i. induction ids as [|id ids IH]; intros i; cbn [reorder]; [by apply triple_ret|].
  apply triple_then; [|done|intros u; apply IH]. apply triple_stmt; [|done].
  intros d u d' [[Hk Hu] (bid & b & Hb & Hrest)] [= _ <-]. unfold good. cbn [set_kd_types kd_types].
  assert (forall k t, update_where (type_at id org) [set_tt_Position ((i + 1) * 10)] (kd_types d) !! k = Some t ->
    exists t0, kd_types d !! k = Some t0 /\ tt_ID t = tt_ID t0 /\ tt_OrganizationID t = tt_OrganizationID t0 /\
               tt_Key t = tt_Key t0 /\ tt_DeletedAt t = tt_DeletedAt t0) as Hback.
  { intros k t Ht. rewrite update_where_lookup in Ht. destruct (kd_types d !! k) as [t0|]; [|done]. cbn in Ht. injection Ht as <-.
    exists t0. by destruct (type_at id org t0). }
  split; [split|].
  - apply keyed_update; [done|exact Hk].
  - intros k k' t t' (t0 & Ht0 & _ & Eo & Ek & Ed)%Hback (t0' & Ht0' & _ & Eo' & Ek' & Ed')%Hback Hd Hd' Ho Hkey.
    apply (Hu k k' t0 t0'); congruence.
  - exists bid, (if type_at id org b then set_tt_Position ((i + 1) * 10) b else b). rewrite update_where_lookup, Hb. cbn.
    split; [by destruct (type_at id org b)|]. by destruct (type_at id org b).
Qed.

Lemma ReorderTaskTypes_triple orgID key org ids : triple (good orgID key) (ReorderTaskTypes org ids) (fun _ => good orgID key).
Proof.
  unfold ReorderTaskTypes. destruct ids as [|id ids]; [by apply triple_fail|].
  eapply triple_conseq; [apply (triple_transaction _ _ (fun _ => good orgID key))|done|by intros [] d].
  eapply triple_conseq; [apply reorder_triple|done|by intros [] d].
Qed.

Lemma DeleteTaskType_triple orgID key org id : triple (good orgID key) (DeleteTaskType org id) (fun _ => good orgID key).
Proof.
  unfold DeleteTaskType. apply (triple_bind _ (fun row d => good orgID key d /\ kd_types d !! tt_ID row = Some row)).
  { apply triple_query; [|done]. intros d row Hg E. split; [done|]. apply (first_row_key tt_ID id) in E as [E (Hid & _)%type_at_true].
    - by rewrite Hid. - apply Hg. - by intros r (? & _)%type_at_true. }
  intros row. destruct (tt_IsSystem row) eqn:Hsys; [by apply triple_fail; intros d []|].
  apply (triple_bind _ (fun _ d => good orgID key d /\ kd_types d !! tt_ID row = Some row)).
  { apply triple_query; [done|by intros e d []]. }
  intros used. destruct (negb _); [by apply triple_fail; intros d []|].
  apply (triple_bind _ (fun _ d => good orgID key d /\ kd_types d !! tt_ID row = Some row)); [by apply triple_now|]. intros t.
  apply triple_stmt; [|by intros e d []]. intros d u d' [[[Hk Hu] (bid & b & Hb & Hrest)] Hrow] [= _ <-].
  unfold good. cbn [set_kd_types kd_types]. set (gone := fun r : TaskType => _). set (del := set_tt_DeletedAt (Some t)).
  assert (forall k x, update_where gone [del] (kd_types d) !! k = Some x -> tt_DeletedAt x = None -> kd_types d !! k = Some x) as Hback.
  { intros k x Hx Hd. rewrite update_where_lookup in Hx. destruct (kd_types d !! k) as [x0|]; [|done]. cbn in Hx. injection Hx as Hx.
    destruct (gone x0); [by subst x|by rewrite Hx]. }
  split; [split|].
  - apply keyed_update; [done|exact Hk].
  - intros k k' x x' Hx Hx' Hd Hd'. apply Hback in Hx, Hx'; [|done..]. by apply (Hu k k' x x').
  - exists bid, b. split; [|exact Hrest]. rewrite update_where_lookup, Hb. cbn. unfold gone.
    destruct (N.eqb_spec (tt_ID b) (tt_ID row)) as [Heq|]; [|done]. exfalso. rewrite (Hk _ _ Hb) in Heq. subst bid. rewrite Hb in Hrow.
    injection Hrow as <-. destruct Hrest as (_ & _ & _ & Hb' & _). congruence.
Qed.

(** ** The settings page *)

Inductive TypeCall :=
| SeedTypes (orgID : uuid)
| AddType (orgID : uuid) (req : taskTypeRequest)
| EditType (orgID id : uuid) (req : taskTypeRequest)
| OrderTypes (orgID : uuid) (ids : list uuid)
| RemoveType (orgID id : uuid).

Definition run_type_call (c : TypeCall) : MK unit :=
  match c with
  | SeedTypes orgID => try (SeedOrganization orgID) ;;; ret tt
  | AddType orgID req => try (CreateTaskType orgID req) ;;; ret tt
  | EditType orgID id req => try (UpdateTaskType orgID id req) ;;; ret tt
  | OrderTypes orgID ids => try (ReorderTaskTypes orgID ids) ;;; ret tt
  | RemoveType orgID id => try (DeleteTaskType orgID id) ;;; ret tt
  end.

Fixpoint settings (calls : list TypeCall) : MK unit :=
  match calls with [] => ret tt | c :: calls => run_type_call c ;;; settings calls end.

Lemma settings_triple orgID key calls : triple (good orgID key) (settings calls) (fun _ => good orgID key).
Proof.
  induction calls as [|c calls IH]; cbn [settings]; [by apply triple_ret|]. apply triple_then; [|done|done].
  destruct c; (apply triple_then; [|done|intros; by apply triple_ret]); apply triple_try;
    [apply Seed_triple|apply CreateTaskType_triple|apply UpdateTaskType_triple|apply ReorderTaskTypes_triple|apply DeleteTaskType_triple].
Qed.

(** Whatever anybody does on the settings page, and whatever fails, a built-in
    type an organization has stays in use: a task of that key can be created. *)
Theorem builtin_types_stay orgID key calls w r w' inp v :
  types_ok (kd_types (w_db w)) -> has_builtin orgID key (kd_types (w_db w)) -> settings calls w = (r, w') ->
  ki_OrgID inp = orgID -> ki_TypeID inp = None -> ki_TypeKey inp = key -> key <> "" ->
  w_db v = w_db w' -> quiet v ->
  types_ok (kd_types (w_db w')) /\ exists ty v', resolveType inp v = (Ok ty, v') /\ tt_Key ty = key /\ tt_OrganizationID ty = orgID.
Proof.
  intros Hok Hb E <- Hid <- Hne Hv Hq. pose proof (settings_triple _ _ calls w r w' (conj Hok Hb) E) as [Hok' (id & b & Hrow & Ho & Hkey & Hd & Hs & Ha)].
  split; [done|]. unfold resolveType. rewrite Hid.
  assert (is_empty (ki_TypeKey inp) = false) as -> by (by apply String.eqb_neq).
  assert (first_row (type_keyed (ki_OrgID inp) (ki_TypeKey inp)) unordered (kd_types (w_db v)) = Ok b) as Ef.
  { rewrite Hv. destruct (first_row _ _ _) as [t|e] eqn:Ef.
    - apply first_row_ok in Ef as (k & Hk & ((Ho' & Hd') & Hkey')%type_keyed_true). f_equal.
      assert (k = id) as -> by (apply (proj2 Hok' k id t b); congruence). congruence.
    - apply first_row_err in Ef as [_ Hno]. exfalso. pose proof (Hno _ _ Hrow) as Hp.
      by rewrite (proj2 (type_keyed_true _ _ _) (conj (conj Ho Hd) Hkey)) in Hp. }
  unfold or_error, bind at 1 2, try.
  rewrite (query_quiet (fun d => first_row (type_keyed (ki_OrgID inp) (ki_TypeKey inp)) unordered (kd_types d)) v b Hq Ef).
  cbn. rewrite Ha. eexists _, _. split; [reflexivity|]. done.
Qed.

(** ** Seeding *)

(** What a seed may add: built-in types of the organization, under keys it lacked. *)
Definition seeds (orgID : uuid) (have : list string) (types types' : gmap uuid TaskType) : Prop :=
  forall k t, types' !! k = Some t -> types !! k = Some t \/
    exists b, b ∈ BuiltInTypes /\ tt_Key b ∉ have /\ t = seeded k orgID b.

Lemma with_defaults_builtin id orgID b : b ∈ BuiltInTypes -> with_defaults (seeded id orgID b) = seeded id orgID b.
Proof. intros Hb. repeat (apply elem_of_cons in Hb as [->|Hb]; [reflexivity|]). by apply not_elem_of_nil in Hb. Qed.

Lemma seed_missing_ok orgID have l w w' :
  (forall b, b ∈ l -> b ∈ BuiltInTypes) -> seed_missing orgID have l w = (Ok tt, w') ->
  kd_types (w_db w) ⊆ kd_types (w_db w') /\ seeds orgID have (kd_types (w_db w)) (kd_types (w_db w')) /\
  w_db w' = set_kd_types (kd_types (w_db w')) (w_db w) /\
  forall b, b ∈ l -> tt_Key b ∈ have \/ exists id, kd_types (w_db w') !! id = Some (seeded id orgID b).
Proof.
  revert w. induction l as [|t l IH]; intros w Hl E; cbn [seed_missing] in E.
  { apply ret_ok_inv in E as [_ ->]. split; [done|]. split; [by intros k t Ht; left|]. split; [by destruct (w_db w)|by intros b ?%not_elem_of_nil]. }
  assert (forall b, b ∈ l -> b ∈ BuiltInTypes) as Hl' by (intros b Hb; apply Hl; by right).
  destruct (existsb (String.eqb (tt_Key t)) have) eqn:Eh.
  - apply IH in E as (Hsub & Hs & Hdb & Hin); [|done]. split_and!; try done. intros b [->|Hb]%elem_of_cons; [left|by apply Hin].
    apply existsb_exists in Eh as (x & Hx & ->%String.eqb_eq). by apply list_elem_of_In.
  - apply bind_ok_inv in E as (id & w1 & Eid & E). apply uuid_New_ok_inv in Eid as [-> ->].
    apply bind_ok_inv in E as (row & w2 & Ei & E). apply stmt_ok_inv in Ei as (d & Ei & _ & ->).
    rewrite with_defaults_builtin in Ei by (apply Hl; left). destruct (negb _); [done|].
    destruct (is_some _ || _) eqn:En; [done|]. injection Ei as _ <-. apply orb_false_iff in En as [En _].
    apply IH in E as (Hsub & Hs & Hdb & Hin); [|done]. cbn [w_db set_db after_stmt kd_types set_kd_types set_uuid seeded tt_ID] in *.
    set (id := w_uuid w) in *. assert (kd_types (w_db w) !! id = None) as Hnone by (by destruct (kd_types (w_db w) !! id)).
    split_and!.
    + etrans; [|exact Hsub]. by apply insert_subseteq.
    + intros k x [[[<- <-]|[_ Hx]]%lookup_insert_Some|Hx]%Hs; [right|by left|by right].
      exists t. split; [apply Hl; left|]. split; [|done]. intros Hin'. apply not_true_iff_false in Eh. apply Eh, existsb_exists.
      exists (tt_Key t). rewrite String.eqb_refl. split; [by apply list_elem_of_In|done].
    + rewrite Hdb at 1. done.
    + intros b [->|Hb]%elem_of_cons; [|by apply Hin]. right. exists id. eapply lookup_weaken; [|exact Hsub]. apply lookup_insert_eq.
Qed.

(** Seeding gives an organization every built-in type it has none of the key
    of, and leaves every type that is there as it is; a second run finds
    nothing to do. *)
Theorem seeding_adds_what_is_missing orgID w w' v :
  SeedOrganization orgID w = (Ok tt, w') -> w_db v = w_db w' -> quiet v ->
  kd_types (w_db w) ⊆ kd_types (w_db w') /\
  (forall k t, kd_types (w_db w') !! k = Some t -> kd_types (w_db w) !! k = Some t \/
     exists b, b ∈ BuiltInTypes /\ t = seeded k orgID b) /\
  (forall b, b ∈ BuiltInTypes -> exists id t, kd_types (w_db w') !! id = Some t /\ tt_OrganizationID t = orgID /\
     tt_Key t = tt_Key b /\ tt_DeletedAt t = None) /\
  exists v', SeedOrganization orgID v = (Ok tt, v') /\ w_db v' = w_db w'.
Proof.
  intros E Hv Hq. unfold SeedOrganization in E. apply bind_ok_inv in E as (have & w1 & Eh & E).
  apply query_tasks in Eh as (Eh & Hdb & _). injection Eh as <-. set (have := tt_Key <$> _) in *.
  apply seed_missing_ok in E as (Hsub & Hs & _ & Hin); [|done]. rewrite Hdb in *.
  assert (forall b, b ∈ BuiltInTypes -> exists id t, kd_types (w_db w') !! id = Some t /\ tt_OrganizationID t = orgID /\
     tt_Key t = tt_Key b /\ tt_DeletedAt t = None) as Hall.
  { intros b [Hb|[id Hid]]%Hin; [|by eexists _, _].
    apply list_elem_of_fmap in Hb as (t & Hkey & (k & Hk & [Ho Hd]%type_of_true)%find_rows_elem).
    exists k, t. split; [by eapply lookup_weaken|]. done. }
  split; [done|]. split; [|split; [done|]].
  - intros k t [Ht|(b & Hb & _ & ->)]%Hs; [by left|right; eauto].
  - unfold SeedOrganization, bind at 1. rewrite (query_quiet (fun d => Ok (tt_Key <$> find_rows (type_of orgID) None (kd_types d))) v _ Hq eq_refl).
    set (have' := tt_Key <$> _). assert (forall b, b ∈ BuiltInTypes -> existsb (String.eqb (tt_Key b)) have' = true) as Hhave.
    { intros b (id & t & Ht & Ho & Hkey & Hd)%Hall. apply existsb_exists. exists (tt_Key b). rewrite String.eqb_refl. split; [|done].
      apply list_elem_of_In, list_elem_of_fmap. exists t. split; [done|]. rewrite Hv. eapply find_rows_complete; [done|]. by apply type_of_true. }
    assert (forall l u, (forall b, b ∈ l -> b ∈ BuiltInTypes) -> seed_missing orgID have' l u = (Ok tt, u)) as Hnop.
    { intros l u. induction l as [|b l IH]; intros Hl; [done|]. cbn [seed_missing]. rewrite Hhave by (apply Hl; left). apply IH.
      intros x Hx. apply Hl. by right. }
    rewrite Hnop by done. eexists. split; [reflexivity|]. exact Hv.
Qed.
End Props.

(** * Tasks on concrete tables

    The theorems applied to small tables, and behaviours worth knowing. *)
#[local] Open Scope string_scope.
#[local] Open Scope list_scope.
#[local] Open Scope Z_scope.

#[local] Existing Instance sql_ref.
#[local] Existing Instance uuid_ref.

Definition sample_type : TaskType := MkTaskType 70 None 1 "follow_up" "Follow up" "repeat" "amber" 1440 true 40 None.

Definition sample_task : Task :=
  MkTask 80 None 1 10 None None None None 70 "Send the quote" "" 40 (Some 40%N) "normal" "open" 1000 false (Some 100)
    None None None "manual" None None None.

Definition sample_member : User := MkUser 40 None 1 "" "Sam" None None true true.

Definition sample_tasks (l : list Task) : TaskDB :=
  MkTaskDB (set_db_contacts (rows_of ct_ID sample_contacts) empty_tables) (rows_of tk_ID l) {[70%N := sample_type]}
    (MkNotifyDB {[40%N := sample_member]} ∅) ∅.

Definition task_world (d : TaskDB) (at_ : time) (faults : list bool) : world TaskDB := World d at_ 1000 faults false false [].

Lemma sample_tasks_ok l : Forall task_ok l -> tasks_ok (kd_tasks (sample_tasks l)).
Proof. intros Hl. split; [apply rows_of_keyed|]. intros k t [_ Ht]%rows_of_elem. rewrite Forall_forall in Hl. by apply Hl. Qed.

Lemma sample_task_ok : task_ok sample_task.
Proof. split; [done|]. by left. Qed.

Lemma change_is_announced_witness :
  keyed tk_ID (kd_tasks (sample_tasks [sample_task])) /\
  exists task w', run_op DoComplete 1 80 (UserActor 40 "") (task_world (sample_tasks [sample_task]) 500 []) = (Ok task, w') /\
    kd_tasks (w_db w') !! 80%N = Some task /\ tk_CompletedAt task = Some 500.
Proof.
  assert (keyed tk_ID (kd_tasks (sample_tasks [sample_task]))) as Hk by apply rows_of_keyed. split; [exact Hk|].
  destruct (run_op DoComplete 1 80 (UserActor 40 "") (task_world (sample_tasks [sample_task]) 500 [])) as [r w'] eqn:E.
  destruct r as [task|]; [|vm_compute in E; discriminate E]. exists task, w'. split; [reflexivity|].
  destruct (change_is_announced DoComplete 1 80 (UserActor 40 "") (task_world (sample_tasks [sample_task]) 500 []) (Ok task) w' Hk E) as (row & Hrow & _ & _ & Hc).
  injection Hrow as <-. destruct Hc as [(Hn & _)|(_ & -> & _ & (o & -> & _))]; [destruct Hn; reflexivity|]. split; reflexivity.
Defined.

Definition sample_create : CreateInput :=
  MkCreateInput 1 10 "" None "Call Ada" "" None (Some 40%N) "urgent" None false None "" None None None None None None.

(** The contact has no owner, so the creator owes it; tomorrow, reminded of a quarter of an hour before. *)
Lemma created_task_witness :
  exists task w', Create sample_create (task_world (sample_tasks []) 0 []) = (Ok task, w') /\
    tk_OwnerID task = 40%N /\ tk_DueAt task = 1440 * Minute /\ kd_tasks (w_db w') !! tk_ID task = Some task.
Proof.
  destruct (Create sample_create (task_world (sample_tasks []) 0 [])) as [r w'] eqn:E.
  destruct r as [task|]; [|vm_compute in E; discriminate E]. exists task, w'. split; [reflexivity|].
  destruct (created_task sample_create _ (Ok task) w' E) as (kc & c & kt & ty & ku & u & Hc). destruct_and! Hc.
  split; [vm_compute in E; by injection E as <- _|]. split; [vm_compute in E; by injection E as <- _|].
  match goal with Ha : announced _ _ _ _ _ |- _ => destruct Ha as (o & -> & _) end. cbn. by rewrite lookup_insert_eq.
Defined.

Lemma status_tells_the_truth_witness :
  tasks_ok (kd_tasks (sample_tasks [sample_task])) /\
  exists w', history [CallCreate sample_create; CallChange DoCancel 1 80 SystemActor; CallChange DoReopen 1 80 SystemActor;
                      CallDelete 1 80] (task_world (sample_tasks [sample_task]) 500 [false; false; true]) = (Ok tt, w') /\
             tasks_ok (kd_tasks (w_db w')).
Proof.
  assert (tasks_ok (kd_tasks (sample_tasks [sample_task]))) as Hok by (apply sample_tasks_ok; repeat constructor; done).
  split; [exact Hok|]. match goal with |- exists v, history ?l ?w = _ /\ _ => destruct (history l w) as [r w'] eqn:E; exists w' end. split.
  - destruct r as [[]|]; [reflexivity|]. vm_compute in E. discriminate E.
  - eapply status_tells_the_truth; [|exact E]. exact Hok.
Defined.

(** ** Telling about deadlines *)

Definition due_system : system := Sys (sample_tasks [sample_task]) [] 0.

Definition looking : world TaskDB := task_world (sample_tasks [sample_task]) 200 [].
Definition claimed_world : world TaskDB := (claim DueSoon 200 80 looking).2.
Definition told_world : world TaskDB := (tell DueSoon sample_task claimed_world).2.

(** A server starts, finds the task, claims it and tells its owner. *)
Lemma one_server_tells : rtc (turn DueSoon 80) due_system (Sys (w_db told_world) [MkWorker DueSoon [] None] 0).
Proof.
  eapply rtc_l; [apply (turn_start DueSoon 80 _ [] 0 DueSoon)|].
  assert (due_batch DueSoon 200 (sample_tasks [sample_task]) = [sample_task]) as Hdue by (vm_compute; reflexivity).
  pose proof (turn_look DueSoon 80 (sample_tasks [sample_task]) [MkWorker DueSoon [] None] 0 0 DueSoon 200 eq_refl) as Hlook.
  rewrite Hdue in Hlook. eapply rtc_l; [exact Hlook|].
  assert (claim DueSoon 200 80 looking = (Ok 1%nat, claimed_world)) as Hclaim by (vm_compute; reflexivity).
  pose proof (turn_claim DueSoon 80 _ [MkWorker DueSoon [sample_task] None] 0 0 DueSoon 200 sample_task [] looking _ _
    eq_refl eq_refl Hclaim) as Hc. eapply rtc_l; [exact Hc|].
  assert (tell DueSoon sample_task claimed_world = (Ok tt, told_world)) as Htell by (vm_compute; reflexivity).
  pose proof (turn_tell DueSoon 80 _ [MkWorker DueSoon [] (Some sample_task)] 0 0 DueSoon sample_task [] claimed_world _ _
    eq_refl eq_refl Htell) as Ht. eapply rtc_l; [exact Ht|]. apply rtc_refl.
Qed.

Lemma deadline_told_once_witness :
  exists s, rtc (turn DueSoon 80) due_system s /\ notices DueSoon 80 (sy_db s) = 1%nat /\
    (notices DueSoon 80 (sy_db s) <= 1 + sy_renewed s)%nat.
Proof.
  exists (Sys (w_db told_world) [MkWorker DueSoon [] None] 0). split; [exact one_server_tells|]. split; [vm_compute; reflexivity|].
  apply (deadline_told_once DueSoon 80 due_system); [|reflexivity|reflexivity|vm_compute; reflexivity|exact one_server_tells].
  apply sample_tasks_ok. repeat constructor; done.
Defined.

Lemma job_is_turns_witness :
  exists r w' wk, notifyTaskBatch (fun _ => alone) DueSoon 200 (task_world (sample_tasks [sample_task]) 200 []) = (r, w') /\
    rtc (turn DueSoon 80) (Sys (sample_tasks [sample_task]) [MkWorker DueSoon [] None] 0) (Sys (w_db w') [wk] 0).
Proof.
  destruct (notifyTaskBatch _ _ _ _) as [r w'] eqn:E. exists r, w'.
  destruct (job_is_turns DueSoon 80 DueSoon 200 [MkWorker DueSoon [] None] 0 0 _ r w' eq_refl E) as [wk Hr].
  exists wk. split; [reflexivity|exact Hr].
Defined.

(** ** Kinds of tasks *)

Definition follow_up_input : CreateInput :=
  MkCreateInput 1 10 "follow_up" None "Call Ada" "" None None "" None false None "" None None None None None None.

(** Somebody tries to archive and to delete the built-in type. *)
Definition busy_settings : list TypeCall :=
  [EditType 1 70 (MkTypeRequest "" "Chase" "" "" None None None); EditType 1 70 (MkTypeRequest "" "" "" "" None None (Some true));
   RemoveType 1 70; SeedTypes 1].

Lemma sample_types_ok : types_ok (kd_types (sample_tasks [])) /\ has_builtin 1 "follow_up" (kd_types (sample_tasks [])).
Proof.
  split; [split|].
  - intros k t Ht. change (({[70%N := sample_type]} : gmap N TaskType) !! k = Some t) in Ht. by apply lookup_singleton_Some in Ht as [<- <-].
  - intros k k' t t' Ht Ht'. change (({[70%N := sample_type]} : gmap N TaskType) !! k = Some t) in Ht. change (({[70%N := sample_type]} : gmap N TaskType) !! k' = Some t') in Ht'.
    apply lookup_singleton_Some in Ht as [<- _]. by apply lookup_singleton_Some in Ht' as [<- _].
  - by exists 70%N, sample_type.
Qed.

Lemma builtin_types_stay_witness :
  exists r w' ty v', settings busy_settings (task_world (sample_tasks []) 5 []) = (r, w') /\
    resolveType follow_up_input (task_world (w_db w') 6 []) = (Ok ty, v') /\ tt_Key ty = "follow_up".
Proof.
  destruct (settings busy_settings (task_world (sample_tasks []) 5 [])) as [r w'] eqn:E. exists r, w'.
  destruct (builtin_types_stay 1 "follow_up" busy_settings (task_world (sample_tasks []) 5 []) r w' follow_up_input (task_world (w_db w') 6 [])
    (proj1 sample_types_ok) (proj2 sample_types_ok) E eq_refl eq_refl eq_refl ltac:(discriminate) eq_refl (conj eq_refl eq_refl))
    as (_ & ty & v' & Er & Hk & _).
  exists ty, v'. split; [reflexivity|]. split; [exact Er|exact Hk].
Defined.

Lemma seeding_adds_what_is_missing_witness :
  exists w', SeedOrganization 1 (task_world (sample_tasks []) 5 []) = (Ok tt, w') /\ size (kd_types (w_db w')) = 5%nat /\
    exists v', SeedOrganization 1 (task_world (w_db w') 6 []) = (Ok tt, v') /\ w_db v' = w_db w'.
Proof.
  destruct (SeedOrganization 1 (task_world (sample_tasks []) 5 [])) as [r w'] eqn:E. destruct r as [[]|]; [|vm_compute in E; discriminate E].
  exists w'. split; [reflexivity|]. split; [vm_compute in E; by injection E as <-|].
  destruct (seeding_adds_what_is_missing 1 _ w' (task_world (w_db w') 6 []) E eq_refl (conj eq_refl eq_refl)) as (_ & _ & _ & Hv). exact Hv.
Defined.

(** ** Behaviours worth knowing *)

(** Two people close a task at once, one as done, one as given up: both go
    through, both are announced, and the task has both stamps. *)
Definition cancelled_meanwhile (d : TaskDB) : TaskDB := w_db (Cancel 1 80 (UserActor 41 "") (task_world d 400 [])).2.

Example closed_twice :
  exists task w', close cancelled_meanwhile 1 80 TaskCompleted "task.completed" (UserActor 40 "")
                    (World (sample_tasks [sample_task]) 500 2000 [] false false []) = (Ok task, w') /\
    tk_CompletedAt task = Some 500 /\ tk_CancelledAt task = Some 400 /\
    size (db_outbox (kd_tables (w_db w'))) = 2%nat /\ ~ task_ok task.
Proof.
  destruct (close _ _ _ _ _ _ _) as [r w'] eqn:E. destruct r as [task|]; [|vm_compute in E; discriminate E].
  exists task, w'. split; [reflexivity|]. vm_compute in E. injection E as <- <-. split; [done|]. split; [done|]. split; [done|].
  intros [_ [(? & _)|[(_ & _ & ?)|(? & _)]]]; done.
Qed.

(** A task moved to a later deadline is reminded of at once: the reminder of
    the old deadline stays and may fire again. *)
Example moved_and_reminded_of_at_once :
  exists task w', Update 1 80 (MkUpdateInput None None None (Some (7 * Day)) None None false) (UserActor 40 "")
                    (task_world (sample_tasks [set_tk_ReminderSentAt (Some 110) sample_task]) 200 []) = (Ok task, w') /\
    tk_DueAt task = 7 * Day /\ wants_notice DueSoon 200 (w_db w') task = true.
Proof.
  destruct (Update _ _ _ _ _) as [r w'] eqn:E. destruct r as [task|]; [|vm_compute in E; discriminate E].
  exists task, w'. split; [reflexivity|]. vm_compute in E. injection E as <- <-. done.
Qed.

(** A closed task still changes hands, and a task gets a priority of no kind. *)
Example closed_task_reassigned :
  exists task w', Reassign 1 80 40 SystemActor (task_world (sample_tasks [set_tk_OwnerID 41 (set_tk_CompletedAt (Some 1)
                    (set_tk_Status TaskCompleted sample_task))]) 200 []) = (Ok task, w') /\
    tk_Status task = TaskCompleted /\ tk_OwnerID task = 40%N.
Proof.
  destruct (Reassign _ _ _ _ _) as [r w'] eqn:E. destruct r as [task|]; [|vm_compute in E; discriminate E].
  exists task, w'. split; [reflexivity|]. vm_compute in E. injection E as <- _. done.
Qed.

Example any_priority :
  exists task w', Update 1 80 (MkUpdateInput None None (Some "asap") None None None false) SystemActor
                    (task_world (sample_tasks [sample_task]) 200 []) = (Ok task, w') /\ tk_Priority task = "asap".
Proof.
  destruct (Update _ _ _ _ _) as [r w'] eqn:E. destruct r as [task|]; [|vm_compute in E; discriminate E].
  exists task, w'. split; [reflexivity|]. vm_compute in E. by injection E as <- _.
Qed.

(** A task done between the look and the claim is still chased. *)
Definition completed_meanwhile (d : TaskDB) : TaskDB := w_db (Complete 1 80 (UserActor 41 "") (task_world d 150 [])).2.

Example done_and_chased :
  let w' := (notifyTaskBatch (fun _ => completed_meanwhile) DueSoon 200 (World (sample_tasks [sample_task]) 200 2000 [] false false [])).2 in
  notices DueSoon 80 (w_db w') = 1%nat /\ (tk_Status <$> kd_tasks (w_db w') !! 80%N) = Some TaskCompleted.
Proof. vm_compute. done. Qed.

(** A type whose tasks are due at once is stored with a day: zero gives way to
    the column's default. *)
Example immediately_is_tomorrow :
  exists row w', CreateTaskType 1 (MkTypeRequest "urgent" "Urgent" "" "" (Some 0) None None) (task_world (sample_tasks []) 0 []) = (Ok row, w') /\
    tt_DefaultDueOffsetMinutes row = 1440.
Proof.
  destruct (CreateTaskType _ _ _) as [r w'] eqn:E. destruct r as [row|]; [|vm_compute in E; discriminate E].
  exists row, w'. split; [reflexivity|]. vm_compute in E. by injection E as <- _.
Qed.
