(* ===== verification/Assignment.v ===== *)
(** * Who gets the next conversation ([internal/assignment])

    [AssignToTeam] chooses a member of a team for a chat or a call: the one
    whose last turn is longest ago, or the one with the least to do.  Who is in
    a team is read through a cache in Redis; who is available is always asked
    of the database.  [LoadCounter] is the caller's way of counting. *)
From S2P Require Import Prelude GoLib Store Models Statements People.

Definition TeamRoleAgent := "agent".
Definition AssignmentStrategyRoundRobin := "round_robin".
Definition AssignmentStrategyLoadBalanced := "load_balanced".
Definition AssignmentStrategyManual := "manual".

(** The columns of [models.CallTransfer] the counter reads. *)
Record CallTransfer := MkCallTransfer {
  cl_ID : uuid;
  cl_DeletedAt : option time;
  cl_OrganizationID : uuid;
  cl_AgentID : option uuid;
  cl_Status : string
}.

Record TeamConfig := MkTeamConfig { tc_Strategy : string; tc_PerAgentTimeoutSecs : Z; tc_MemberIDs : list uuid }.

(** The tables of the assigner and its cache; [as_redis] is whether Redis answers. *)
Record AssignDB := MkAssignDB {
  as_users : gmap uuid User;
  as_teams : gmap uuid Team;
  as_members : gmap uuid TeamMember;
  as_transfers : gmap uuid AgentTransfer;
  as_calls : gmap uuid CallTransfer;
  as_cache : gmap uuid TeamConfig;
  as_redis : bool
}.

Definition set_as_members (v : gmap uuid TeamMember) (r : AssignDB) : AssignDB :=
  MkAssignDB (as_users r) (as_teams r) v (as_transfers r) (as_calls r) (as_cache r) (as_redis r).
Definition set_as_cache (v : gmap uuid TeamConfig) (r : AssignDB) : AssignDB :=
  MkAssignDB (as_users r) (as_teams r) (as_members r) (as_transfers r) (as_calls r) v (as_redis r).

Abbreviation MA := (M AssignDB).

(** A call to Redis is no statement of the database. *)
Definition redis {A} (f : AssignDB -> A * AssignDB) : MA A := fun w =>
  let '(a, d) := f (w_db w) in (Ok a, set_db d w).

Definition redis_get (teamID : uuid) : MA (option TeamConfig) :=
  redis (fun d => (if as_redis d then as_cache d !! teamID else None, d)).
Definition redis_set (teamID : uuid) (cfg : TeamConfig) : MA unit :=
  redis (fun d => (tt, if as_redis d then set_as_cache (<[teamID := cfg]> (as_cache d)) d else d)).
Definition redis_del (teamID : uuid) : MA unit :=
  redis (fun d => (tt, if as_redis d then set_as_cache (delete teamID (as_cache d)) d else d)).

Section Assigner.
Context `{SQ : Sql}.

(** A query whose error nobody looks at: the variable keeps its zero value. *)
Definition or_else {A} (zero : A) (m : MA A) : MA A :=
  r <- try m ;; ret (match r with Ok a => a | Err _ => zero end).

Definition active_team (teamID : uuid) (t : Team) : bool :=
  N.eqb (tm_ID t) teamID && is_none (tm_DeletedAt t) && tm_IsActive t.
Definition agent_of (teamID : uuid) (m : TeamMember) : bool :=
  N.eqb (mb_TeamID m) teamID && String.eqb (mb_Role m) TeamRoleAgent && is_none (mb_DeletedAt m).

Definition GetTeamConfig (teamID : uuid) : MA (option TeamConfig) :=
  cached <- redis_get teamID ;;
  match cached with
  | Some cfg => ret (Some cfg)
  | None =>
      team <- try (query (fun d => first_row (active_team teamID) unordered (as_teams d))) ;;
      match team with
      | Err _ => ret None
      | Ok team =>
          memberIDs <- or_else [] (query (fun d => Ok (map mb_UserID (find_rows (agent_of teamID) None (as_members d))))) ;;
          let cfg := MkTeamConfig (tm_AssignmentStrategy team) (tm_PerAgentTimeoutSecs team) memberIDs in
          redis_set teamID cfg ;;; ret (Some cfg)
      end
  end.

Definition InvalidateTeamCache (teamID : uuid) : MA unit := redis_del teamID.

Definition listed (ids : list uuid) (id : uuid) : bool := existsb (N.eqb id) ids.

Definition can_take (candidates : list uuid) (u : User) : bool :=
  listed candidates (us_ID u) && us_IsAvailable u && us_IsActive u && is_none (us_DeletedAt u).

Definition filterAvailable (memberIDs excludeAgentIDs : list uuid) : MA (list uuid) :=
  let candidates := List.filter (fun id => negb (listed excludeAgentIDs id)) memberIDs in
  match candidates with
  | [] => ret []
  | _ => or_else [] (query (fun d => Ok (map us_ID (find_rows (can_take candidates) None (as_users d)))))
  end.

Definition GetAvailableAgents (teamID : uuid) (excludeAgentIDs : list uuid) : MA (list uuid) :=
  cfg <- GetTeamConfig teamID ;;
  match cfg with None => ret [] | Some cfg => filterAvailable (tc_MemberIDs cfg) excludeAgentIDs end.

(** [last_assigned_at ASC NULLS FIRST]. *)
Definition earlier_turn (a b : TeamMember) : bool :=
  match mb_LastAssignedAt a, mb_LastAssignedAt b with
  | None, Some _ => true
  | Some x, Some y => x <? y
  | _, None => false
  end.

Definition member_among (teamID : uuid) (available : list uuid) (m : TeamMember) : bool :=
  N.eqb (mb_TeamID m) teamID && listed available (mb_UserID m) && is_none (mb_DeletedAt m).

(** [db.Model(&selected).Update("last_assigned_at", now)]. *)
Definition stamp_turn (id : uuid) (at_ : time) : MA unit :=
  stmt no_locks (fun d => (Ok tt, set_as_members
    (update_where (fun m => N.eqb (mb_ID m) id && is_none (mb_DeletedAt m)) [set_mb_LastAssignedAt (Some at_)] (as_members d)) d)).

Definition assignRoundRobin (teamID orgID : uuid) (memberIDs excludeAgentIDs : list uuid) : MA (option uuid) :=
  available <- filterAvailable memberIDs excludeAgentIDs ;;
  match available with
  | [] => ret None
  | _ =>
      members <- or_else [] (query (fun d => Ok (sort_by earlier_turn (find_rows (member_among teamID available) None (as_members d))))) ;;
      match members with
      | [] => ret None
      | selected :: _ =>
          t <- now ;;
          _ <- try (stamp_turn (mb_ID selected) t) ;;
          ret (Some (mb_UserID selected))
      end
  end.

(** The loop over the available agents, with the lowest count so far ([-1] at first). *)
Fixpoint lowest (loadMap : gmap uuid Z) (available : list uuid) (best : option uuid) (lowestCount : Z) : option uuid :=
  match available with
  | [] => best
  | uid :: available =>
      let count := default 0 (loadMap !! uid) in
      if (lowestCount <? 0) || (count <? lowestCount) then lowest loadMap available (Some uid) count
      else lowest loadMap available best lowestCount
  end.

Definition LoadCounter : Type := uuid -> list uuid -> MA (gmap uuid Z).

Definition assignLoadBalanced (orgID : uuid) (memberIDs excludeAgentIDs : list uuid) (loadCounter : LoadCounter) : MA (option uuid) :=
  available <- filterAvailable memberIDs excludeAgentIDs ;;
  match available with
  | [] => ret None
  | _ => loadMap <- loadCounter orgID available ;; ret (lowest loadMap available None (-1))
  end.

Definition AssignToTeam (teamID orgID : uuid) (excludeAgentIDs : list uuid) (loadCounter : LoadCounter) : MA (option uuid) :=
  cfg <- GetTeamConfig teamID ;;
  match cfg with
  | None => ret None
  | Some cfg =>
      if String.eqb (tc_Strategy cfg) AssignmentStrategyLoadBalanced
      then assignLoadBalanced orgID (tc_MemberIDs cfg) excludeAgentIDs loadCounter
      else if String.eqb (tc_Strategy cfg) AssignmentStrategyManual then ret None
      else assignRoundRobin teamID orgID (tc_MemberIDs cfg) excludeAgentIDs
  end.

(** [COUNT( * ) ... GROUP BY agent_id] over the agents of the rows. *)
Definition count_agents (agents : list uuid) : gmap uuid Z :=
  foldr (fun a m => <[a := default 0 (m !! a) + 1]> m) ∅ agents.

Definition ChatLoadCounter : LoadCounter := fun orgID agentIDs =>
  or_else ∅ (query (fun d => Ok (count_agents (omap tr_AgentID (find_rows (fun t =>
    N.eqb (tr_OrganizationID t) orgID && existsb (fun a => opt_eqb (tr_AgentID t) (Some a)) agentIDs &&
    bool_decide (tr_Status t = TransferStatusActive) && is_none (tr_DeletedAt t)) None (as_transfers d)))))).

Definition CallLoadCounter : LoadCounter := fun orgID agentIDs =>
  or_else ∅ (query (fun d => Ok (count_agents (omap cl_AgentID (find_rows (fun c =>
    N.eqb (cl_OrganizationID c) orgID && existsb (fun a => opt_eqb (cl_AgentID c) (Some a)) agentIDs &&
    existsb (String.eqb (cl_Status c)) ["waiting"; "connected"] && is_none (cl_DeletedAt c)) None (as_calls d)))))).
End Assigner.

(** The second parameter is not used. *)
Definition ResolvePerAgentTimeout (teamTimeout _unused globalDefault : Z) : Z :=
  if 0 <? teamTimeout then teamTimeout else if 0 <? globalDefault then globalDefault else 15.
