(* ===== verification/AssignmentProps.v ===== *)
(** * Turns are fair, and only those who can take a conversation get one

    The results about [Assignment.v]: whom either strategy chooses, whatever
    fails, and that round robin gives everybody a turn before anybody has a
    second one; then a small team. *)
From S2P Require Import Prelude GoLib Store Models Statements People Samples Assignment.

(** ** Who may be chosen *)

(** A user the database says is there, works here and is at the desk. *)
Definition at_the_desk (u : uuid) (d : AssignDB) : Prop :=
  exists k us, as_users d !! k = Some us /\ us_ID us = u /\ us_IsAvailable us = true /\ us_IsActive us = true /\ us_DeletedAt us = None.

(** A live row of the team for the user. *)
Definition seat (teamID u k : uuid) (m : TeamMember) (d : AssignDB) : Prop :=
  as_members d !! k = Some m /\ mb_TeamID m = teamID /\ mb_UserID m = u /\ mb_DeletedAt m = None.

(** Everything but the cache and the turns taken. *)
Definition same_people (d d' : AssignDB) : Prop :=
  as_users d' = as_users d /\ as_teams d' = as_teams d /\ as_transfers d' = as_transfers d /\ as_redis d' = as_redis d.

#[export] Instance same_people_preorder : PreOrder same_people.
Proof. split; [by repeat split|]. intros a b c (? & ? & ? & ?) (? & ? & ? & ?). unfold same_people. split_and!; congruence. Qed.

Section Choice.
Context `{SL : SqlLaws}.

Lemma listed_true ids id : listed ids id = true <-> id ∈ ids.
Proof. unfold listed. rewrite existsb_exists. setoid_rewrite N.eqb_eq. setoid_rewrite <- list_elem_of_In. naive_solver. Qed.

Lemma can_take_true candidates u :
  can_take candidates u = true <-> us_ID u ∈ candidates /\ us_IsAvailable u = true /\ us_IsActive u = true /\ us_DeletedAt u = None.
Proof. unfold can_take. rewrite !andb_true_iff, listed_true, is_none_true. tauto. Qed.

Lemma member_among_true teamID available m :
  member_among teamID available m = true <-> mb_TeamID m = teamID /\ mb_UserID m ∈ available /\ mb_DeletedAt m = None.
Proof. unfold member_among. rewrite !andb_true_iff, N.eqb_eq, listed_true, is_none_true. tauto. Qed.

Lemma elem_of_pluck {R} (key : R -> N) p (t : gmap N R) u :
  u ∈ map key (find_rows p None t) <-> exists k r, t !! k = Some r /\ p r = true /\ key r = u.
Proof.
  rewrite list_elem_of_fmap. split.
  - intros (r & -> & (k & Hk & Hp)%find_rows_elem). by exists k, r.
  - intros (k & r & Hk & Hp & <-). exists r. split; [done|]. by eapply find_rows_complete.
Qed.

(** ** Reading *)

Lemma or_else_ok {A} (zero : A) (m : MA A) w a w' :
  or_else zero m w = (Ok a, w') -> (exists w1, m w = (Ok a, w1)) \/ a = zero.
Proof. unfold or_else. intros E. inv_run. destruct a0 as [x|e]; inv_run; eauto. Qed.

Lemma redis_keeps {A} (f : AssignDB -> A * AssignDB) : (forall d, same_people d (f d).2) -> moves same_people (redis f).
Proof. intros Hf w r w' E. unfold redis in E. pose proof (Hf (w_db w)) as Hd. destruct (f (w_db w)) as [a d]. by simplify_eq. Qed.

Lemma or_else_keeps {A} R `{!PreOrder R} (zero : A) (m : MA A) : moves R m -> moves R (or_else zero m).
Proof. intros Hm. unfold or_else. solve_moves. Qed.

Lemma config_keeps teamID : moves same_people (GetTeamConfig teamID).
Proof.
  unfold GetTeamConfig, redis_get, redis_set. solve_moves.
  - by apply redis_keeps.
  - apply or_else_keeps; [typeclasses eauto|]. solve_moves.
  - apply redis_keeps. intros d. cbn [snd]. by destruct (as_redis d).
Qed.

(** Whoever the filter lets through may take a conversation. *)
Lemma available_are_there memberIDs excl w l w' u :
  filterAvailable memberIDs excl w = (Ok l, w') -> u ∈ l -> at_the_desk u (w_db w) /\ u ∈ memberIDs /\ ~ u ∈ excl.
Proof.
  unfold filterAvailable. intros E Hu. destruct (List.filter _ memberIDs) as [|c cs] eqn:Hc; inv_run; [by apply not_elem_of_nil in Hu|].
  apply or_else_ok in E as [(w1 & E)| ->]; [|by apply not_elem_of_nil in Hu].
  apply query_ok_inv in E as ([= <-] & _ & _). apply elem_of_pluck in Hu as (k & us & Hk & (Hin & Ha & Hi & Hd)%can_take_true & <-).
  split; [by exists k, us|]. rewrite <- Hc in Hin. apply list_elem_of_In, filter_In in Hin as [Hin Hex].
  split; [by apply list_elem_of_In|]. intros Hx%listed_true. by rewrite Hx in Hex.
Qed.

Lemma lowest_in loads l best n u : lowest loads l best n = Some u -> u ∈ l \/ best = Some u.
Proof.
  revert best n. induction l as [|x l IH]; intros best n; cbn [lowest]; [by right|].
  destruct (_ || _); intros [Hu|Hu]%IH; try (left; by right); [simplify_eq; left; by left|by right].
Qed.

(** The first of the least loaded. *)
Lemma lowest_least loads l best n u :
  (forall x, 0 <= default 0 (loads !! x)) -> (best = None -> n < 0) -> (forall b, best = Some b -> n = default 0 (loads !! b)) ->
  lowest loads l best n = Some u ->
  (forall x, x ∈ l -> default 0 (loads !! u) <= default 0 (loads !! x)) /\ (forall b, best = Some b -> default 0 (loads !! u) <= n).
Proof.
  intros Hpos. revert best n. induction l as [|x l IH]; intros best n Hno Hb; cbn [lowest].
  { intros ->. split; [by intros x Hx%not_elem_of_nil|]. intros b [= <-]. rewrite <- (Hb u) by done. lia. }
  destruct (_ || _) eqn:E; intros Hu.
  - apply IH in Hu as [Hl Hx]; [|done|by intros b [= <-]]. specialize (Hx x eq_refl). split; [by intros y [->|Hy]%elem_of_cons; eauto|].
    intros b Hbb. specialize (Hb b Hbb). specialize (Hpos b). apply orb_true_iff in E as [E|E]; breflect; lia.
  - apply orb_false_iff in E as [E1 E2]; breflect. apply IH in Hu as [Hl Hx]; [|done|done].
    assert (is_Some best) as [b Hbb]. { destruct best; [by eexists|]. specialize (Hno eq_refl). lia. }
    specialize (Hx b Hbb). split; [|by eauto]. intros y [->|Hy]%elem_of_cons; [lia|by apply Hl].
Qed.

(** Whatever fails: whoever is chosen is in the team as the cache or the
    database has it, was not excluded, works here and is at the desk. *)
Theorem chosen_is_there teamID orgID excl loadCounter w u w' :
  AssignToTeam teamID orgID excl loadCounter w = (Ok (Some u), w') ->
  at_the_desk u (w_db w) /\ ~ u ∈ excl /\
  exists cfg w1, GetTeamConfig teamID w = (Ok (Some cfg), w1) /\ u ∈ tc_MemberIDs cfg.
Proof.
  unfold AssignToTeam. intros E. inv_run. destruct a as [cfg|]; [|by inv_run].
  assert (at_the_desk u (w_db w0) -> same_people (w_db w) (w_db w0) -> at_the_desk u (w_db w)) as Hdesk.
  { intros (k & us & Hk & Hr) (Eu & _). exists k, us. by rewrite <- Eu. }
  pose proof (config_keeps teamID w _ _ Hrun) as Hsame.
  assert (exists l w1, filterAvailable (tc_MemberIDs cfg) excl w0 = (Ok l, w1) /\ u ∈ l) as (l & w1 & El & Hl).
  { destruct (String.eqb _ AssignmentStrategyLoadBalanced); [|destruct (String.eqb _ AssignmentStrategyManual); [by inv_run|]].
    - unfold assignLoadBalanced in E. inv_run. exists a, w1. split; [done|].
      destruct a as [|x l]; inv_run; [done|]. match goal with H : _ = lowest _ _ _ _ |- _ => symmetry in H; apply lowest_in in H as [?|?]; done end.
    - unfold assignRoundRobin in E. inv_run. exists a, w1. split; [done|]. destruct a as [|x l]; inv_run; [done|].
      destruct a as [|m ms]; inv_run; simplify_eq.
      match goal with H : or_else _ _ _ = _ |- _ => apply or_else_ok in H as [(w9 & Hm)|Hm]; [|done] end.
      apply query_ok_inv in Hm as ([= Hm] & _). assert (m ∈ m :: ms) as Hin by (by left). rewrite <- Hm in Hin.
      apply elem_of_sort_by, find_rows_elem in Hin as (k & _ & (_ & Hu & _)%member_among_true). done. }
  destruct (available_are_there _ _ _ _ _ _ El Hl) as (Hd & Hm & Hx). split_and!; [by eauto|done|]. by exists cfg, w0.
Qed.
End Choice.

(** ** Turns *)

Section Turns.
Context `{SL : SqlLaws}.
Variable teamID orgID : uuid.
Variable excl : list uuid.
Variable loadCounter : LoadCounter.

(** What the cache has on the team, when it can be read. *)
Definition cached (d : AssignDB) : option TeamConfig := if as_redis d then as_cache d !! teamID else None.

Definition takes_turns (strategy : string) : Prop :=
  strategy <> AssignmentStrategyLoadBalanced /\ strategy <> AssignmentStrategyManual.

Definition in_config (u : uuid) (d : AssignDB) : Prop :=
  match cached d with
  | Some cfg => u ∈ tc_MemberIDs cfg
  | None => exists k m, as_members d !! k = Some m /\ agent_of teamID m = true /\ mb_UserID m = u
  end.

Definition round_robin (d : AssignDB) : Prop :=
  match cached d with
  | Some cfg => takes_turns (tc_Strategy cfg)
  | None => (exists k t, as_teams d !! k = Some t /\ active_team teamID t = true) /\
            (forall k t, as_teams d !! k = Some t -> active_team teamID t = true -> takes_turns (tm_AssignmentStrategy t))
  end.

(** Those among whom the turn goes round. *)
Definition eligible (u : uuid) (d : AssignDB) : Prop :=
  in_config u d /\ ~ u ∈ excl /\ at_the_desk u d /\ exists k m, seat teamID u k m d.

(** The members' rows are filed by their ids, and nobody sits twice in the team. *)
Definition one_seat (d : AssignDB) : Prop :=
  keyed mb_ID (as_members d) /\
  forall u k m k' m', seat teamID u k m d -> seat teamID u k' m' d -> k = k'.

(** [u]'s last turn is before [v]'s. *)
Definition before_turn (d : AssignDB) (u v : uuid) : Prop :=
  forall k m k' m', seat teamID u k m d -> seat teamID v k' m' d -> earlier_turn m m' = true.

(** The state after [u] has had a turn. *)
Definition had_turn (u : uuid) (t : time) (d d' : AssignDB) : Prop :=
  same_people d d' /\ (forall v, in_config v d' <-> in_config v d) /\ round_robin d' /\
  exists k m, seat teamID u k m d /\ as_members d' = <[k := set_mb_LastAssignedAt (Some t) m]> (as_members d).

Lemma config_healthy d n f tx l :
  round_robin d ->
  exists cfg d1, GetTeamConfig teamID (healthy d n f tx l) = (Ok (Some cfg), healthy d1 n f tx l) /\
    takes_turns (tc_Strategy cfg) /\ (forall u, u ∈ tc_MemberIDs cfg <-> in_config u d) /\
    as_members d1 = as_members d /\ same_people d d1 /\ (forall u, in_config u d1 <-> in_config u d) /\ round_robin d1.
Proof.
  intros Hrr. unfold GetTeamConfig, redis_get, redis. unfold bind at 1. cbn [w_db healthy]. fold (cached d).
  assert (set_db d (healthy d n f tx l) = healthy d n f tx l) as -> by done.
  unfold round_robin in Hrr. destruct (cached d) as [cfg|] eqn:Hc.
  { exists cfg, d. unfold in_config, round_robin. rewrite Hc.
    split; [done|]. split; [exact Hrr|]. repeat (split; [done|]). exact Hrr. }
  destruct Hrr as [(k & t & Hk & Ht) Hall].
  destruct (first_row (active_team teamID) unordered (as_teams d)) as [t'|e] eqn:Ef.
  2:{ apply first_row_err in Ef as [_ Ef]. by rewrite (Ef k t Hk) in Ht. }
  erewrite bind_run by (eapply try_run; eapply query_healthy; exact Ef).
  pose proof (first_row_ok _ _ _ _ Ef) as (k' & Hk' & Ht').
  set (ids := map mb_UserID (find_rows (agent_of teamID) None (as_members d))).
  assert (or_else [] (query (fun d => Ok (map mb_UserID (find_rows (agent_of teamID) None (as_members d))))) (healthy d n f tx l) =
          (Ok ids, healthy d n f tx l)) as Ho.
  { unfold or_else. by erewrite bind_run by (by eapply try_run, query_healthy). }
  rewrite (bind_run _ _ _ _ _ Ho). set (cfg := MkTeamConfig _ _ ids). unfold redis_set, redis, bind. cbn [w_db healthy snd fst].
  assert (forall u, u ∈ ids <-> exists k m, as_members d !! k = Some m /\ agent_of teamID m = true /\ mb_UserID m = u) as Hids.
  { intros u. apply elem_of_pluck. }
  exists cfg. unfold cached in Hc. unfold in_config, round_robin, cached. destruct (as_redis d) eqn:Hr.
  - eexists. split; [reflexivity|]. cbn [as_redis as_cache set_as_cache as_members]. rewrite Hr, lookup_insert_eq, Hc.
    split_and!; [exact (Hall k' t' Hk' Ht')|done|done|done|done|exact (Hall k' t' Hk' Ht')].
  - exists d. split; [reflexivity|]. rewrite Hr. split_and!; [exact (Hall k' t' Hk' Ht')|done|done|done|done|by exists k, t|done].
Qed.

Lemma earlier_turn_asym a b : earlier_turn a b = true -> earlier_turn b a = false.
Proof. unfold earlier_turn. destruct (mb_LastAssignedAt a), (mb_LastAssignedAt b); try done. intros E. breflect. apply Z.ltb_ge. lia. Qed.

Lemma earlier_turn_neg a b c : earlier_turn b a = false -> earlier_turn c b = false -> earlier_turn c a = false.
Proof.
  unfold earlier_turn. destruct (mb_LastAssignedAt a), (mb_LastAssignedAt b), (mb_LastAssignedAt c); try done.
  intros E F. breflect. apply Z.ltb_ge. lia.
Qed.

Lemma available_healthy d n f tx l ids :
  exists av, filterAvailable ids excl (healthy d n f tx l) = (Ok av, healthy d n f tx l) /\
    (forall u, u ∈ av <-> u ∈ ids /\ ~ u ∈ excl /\ at_the_desk u d).
Proof.
  unfold filterAvailable. assert (forall u, u ∈ List.filter (fun id => negb (listed excl id)) ids <-> u ∈ ids /\ ~ u ∈ excl) as Hf.
  { intros u. rewrite list_elem_of_In, filter_In, <- list_elem_of_In, negb_true_iff, <- not_true_iff_false, listed_true. done. }
  destruct (List.filter _ ids) as [|c cs] eqn:Hc.
  { exists []. split; [done|]. intros u. specialize (Hf u). rewrite elem_of_nil in Hf |- *. tauto. }
  eexists. split; [unfold or_else; by erewrite bind_run by (by eapply try_run, query_healthy)|].
  intros u. rewrite elem_of_pluck. setoid_rewrite can_take_true. setoid_rewrite Hf. unfold at_the_desk. naive_solver.
Qed.

Lemma seats_listed av d m :
  m ∈ sort_by earlier_turn (find_rows (member_among teamID av) None (as_members d)) <->
  exists k, seat teamID (mb_UserID m) k m d /\ mb_UserID m ∈ av.
Proof.
  rewrite elem_of_sort_by. split.
  - intros (k & Hk & (? & ? & ?)%member_among_true)%find_rows_elem. by exists k.
  - intros (k & (Hk & ? & _ & ?) & ?). eapply find_rows_complete; [done|]. by apply member_among_true.
Qed.

(** Among those who can take it, nobody's last turn is longer ago. *)
Lemma turn_taken d n f l :
  round_robin d -> one_seat d -> (exists u, eligible u d) ->
  exists u d', AssignToTeam teamID orgID excl loadCounter (healthy d n f false l) = (Ok (Some u), healthy d' n f false l) /\
    eligible u d /\ had_turn u n d d' /\
    forall v k m k' m', eligible v d -> seat teamID v k m d -> seat teamID u k' m' d -> earlier_turn m m' = false.
Proof.
  intros Hrr [Hkey Hone] (u0 & Hc0 & Hx0 & Hd0 & k0 & m0 & Hs0).
  destruct (config_healthy d n f false l Hrr) as (cfg & d1 & E1 & [Hs1 Hs2] & Hids & Em & Hsame & Hcfg & Hrr1).
  unfold AssignToTeam. rewrite (bind_run _ _ _ _ _ E1).
  destruct (String.eqb_spec (tc_Strategy cfg) AssignmentStrategyLoadBalanced); [done|].
  destruct (String.eqb_spec (tc_Strategy cfg) AssignmentStrategyManual); [done|].
  assert (forall u, at_the_desk u d1 <-> at_the_desk u d) as Hdesk. { intros u. unfold at_the_desk. by destruct Hsame as (-> & _). }
  assert (forall u k m, seat teamID u k m d1 <-> seat teamID u k m d) as Hseat. { intros u k m. unfold seat. by rewrite Em. }
  destruct (available_healthy d1 n f false l (tc_MemberIDs cfg)) as (av & E2 & Hav).
  unfold assignRoundRobin. rewrite (bind_run _ _ _ _ _ E2).
  assert (u0 ∈ av) as Hu0 by (apply Hav; split_and!; [by apply Hids|done|by apply Hdesk]).
  destruct av as [|a av]; [by apply not_elem_of_nil in Hu0|]. set (AV := a :: av) in *.
  set (rows := sort_by earlier_turn (find_rows (member_among teamID AV) None (as_members d1))).
  assert (or_else [] (query (fun d => Ok (sort_by earlier_turn (find_rows (member_among teamID AV) None (as_members d)))))
            (healthy d1 n f false l) = (Ok rows, healthy d1 n f false l)) as E3.
  { unfold or_else. by erewrite bind_run by (by eapply try_run, query_healthy). }
  rewrite (bind_run _ _ _ _ _ E3). pose proof (seats_listed AV d1) as Hrows. fold rows in Hrows.
  assert (m0 ∈ rows) as Hm0. { apply Hrows. destruct Hs0 as (? & ? & <- & ?). exists k0. by rewrite Hseat. }
  pose proof (sort_by_order earlier_turn earlier_turn_asym earlier_turn_neg (find_rows (member_among teamID AV) None (as_members d1))) as Hord.
  fold rows in Hord. destruct rows as [|s rows]; [by apply not_elem_of_nil in Hm0|].
  destruct (proj1 (Hrows s) ltac:(by left)) as (k & Hk%Hseat & Hs). erewrite bind_run by apply now_healthy.
  assert (mb_ID s = k) as Hid. { destruct Hk as (Hk & _). by apply Hkey. }
  assert (stamp_turn (mb_ID s) n (healthy d1 n f false l) =
          (Ok tt, healthy (set_as_members (<[k := set_mb_LastAssignedAt (Some n) s]> (as_members d)) d1) n f false l)) as E4.
  { unfold stamp_turn. erewrite stmt_healthy by reflexivity. unfold no_locks. rewrite app_nil_r, Hid, Em.
    rewrite (update_where_key mb_ID k _ _ _ s Hkey); [done| |by destruct Hk as (? & _)|].
    - intros r Hr. breflect. by apply N.eqb_eq.
    - destruct Hk as (_ & _ & _ & Hk). by rewrite Hid, N.eqb_refl, Hk. }
  erewrite bind_run by (eapply try_run, E4). eexists (mb_UserID s), _. split; [reflexivity|].
  apply Hav in Hs as (Hs & Hx & Hd). apply Hids in Hs. apply Hdesk in Hd. split; [by split_and!; eauto|]. split.
  - split; [|split; [|split; [|by exists k, s]]].
    + by etrans; [exact Hsame|].
    + intros v. rewrite <- Hcfg. unfold in_config, cached. cbn [as_redis as_cache set_as_members as_members].
      destruct (if as_redis d1 then _ else None) as [c|]; [done|]. rewrite <- Em in *.
      assert (as_members d1 !! k = Some s) as Hl by (destruct Hk as (? & _); congruence).
      assert (agent_of teamID (set_mb_LastAssignedAt (Some n) s) = agent_of teamID s) as Hag by done.
      split; intros (k' & m' & Hk' & Ha & Hu).
      * apply lookup_insert_Some in Hk' as [[<- <-]|[_ Hk']]; [by exists k, s|by exists k', m'].
      * destruct (decide (k' = k)) as [->|]; [|by exists k', m'; rewrite lookup_insert_ne].
        exists k, (set_mb_LastAssignedAt (Some n) s). rewrite lookup_insert_eq. by simplify_eq.
    + exact Hrr1.
  - intros v kv mv k' m' (Hcv & Hxv & Hdv & _) Hsv Hsu.
    assert (k' = k) as -> by (by eapply Hone). assert (m' = s) as -> by (destruct Hsu as (? & _), Hk as (? & _); congruence).
    assert (mv ∈ s :: rows) as [i Hi]%list_elem_of_lookup.
    { apply Hrows. exists kv. pose proof Hsv as (_ & _ & Eu & _). rewrite Eu, Hseat. split; [done|].
      apply Hav. split_and!; [by apply Hids|done|by apply Hdesk]. }
    destruct i as [|i]; [injection Hi as <-; by destruct (earlier_turn s s) eqn:E; [rewrite (earlier_turn_asym _ _ E) in E|]|].
    apply (Hord 0%nat (S i) s mv); [lia|done|done].
Qed.

(** The turn leaves the team as it was, but for the one row. *)
Lemma turn_seats u t d d' v k m :
  one_seat d -> had_turn u t d d' -> seat teamID v k m d' ->
  exists m0, seat teamID v k m0 d /\ m = if decide (v = u) then set_mb_LastAssignedAt (Some t) m0 else m0.
Proof.
  intros [_ Hone] (_ & _ & _ & ku & mu & Hu & Em) (Hk & Ht & Hv & Hd). rewrite Em in Hk.
  apply lookup_insert_Some in Hk as [[<- <-]|[Hne Hk]].
  - exists mu. destruct Hu as (Hku & Htu & Huu & Hdu). cbn in Hv. assert (v = u) as -> by congruence. rewrite decide_True by done. by split; [split_and!|].
  - exists m. destruct (decide (v = u)) as [->|]; [|by split; [split_and!|]].
    destruct Hne. by eapply (Hone u ku mu k m); [|split_and!].
Qed.

Lemma turn_seats_back u t d d' v k m0 :
  had_turn u t d d' -> seat teamID v k m0 d -> exists m, seat teamID v k m d'.
Proof.
  intros (_ & _ & _ & ku & mu & (Hku & Htu & Huu & Hdu) & Em) (Hk & Ht & Hv & Hd). unfold seat. rewrite Em.
  destruct (decide (k = ku)) as [->|]; [|by exists m0; rewrite lookup_insert_ne].
  exists (set_mb_LastAssignedAt (Some t) mu). rewrite lookup_insert_eq. split_and!; [done|by cbn|cbn; congruence|by cbn].
Qed.

Lemma turn_one_seat u t d d' : one_seat d -> had_turn u t d d' -> one_seat d'.
Proof.
  intros Hd Ht. pose proof Hd as [Hkey Hone]. split.
  - destruct Ht as (_ & _ & _ & k & m & (Hk & _) & ->). apply keyed_insert; [done|cbn; by apply Hkey].
  - intros v k m k' m' H1 H2. eapply turn_seats in H1 as (m1 & H1 & _), H2 as (m2 & H2 & _); eauto.
Qed.

Lemma turn_eligible u t d d' v : one_seat d -> had_turn u t d d' -> eligible v d' <-> eligible v d.
Proof.
  intros Hd Ht. pose proof Ht as ((Eu & _) & Hc & _). unfold eligible, at_the_desk. rewrite Hc, Eu.
  assert ((exists k m, seat teamID v k m d') <-> exists k m, seat teamID v k m d) as ->; [|done].
  split; intros (k & m & Hs); [eapply turn_seats in Hs as (? & ? & _)|eapply turn_seats_back in Hs as [? ?]]; eauto.
Qed.

(** The assigner is asked at each of the [times]. *)
Definition at_time (t : time) (w : world AssignDB) : world AssignDB :=
  World (w_db w) t (w_uuid w) (w_faults w) (w_aborted w) (w_in_tx w) (w_locks w).

Fixpoint turns (times : list time) (w : world AssignDB) : list (option uuid) :=
  match times with
  | [] => []
  | t :: times =>
      let '(r, w) := AssignToTeam teamID orgID excl loadCounter (at_time t w) in
      match r with Ok u => u | Err _ => None end :: turns times w
  end.

(** Every turn in the rows is before [t]. *)
Definition earlier_than (t : time) (d : AssignDB) : Prop :=
  forall v k m s, seat teamID v k m d -> mb_LastAssignedAt m = Some s -> s < t.

Lemma turn_earlier_than u t d d' t' : one_seat d -> had_turn u t d d' -> t < t' -> earlier_than t d -> earlier_than t' d'.
Proof.
  intros Hd Ht Hlt He v k m s Hs E. destruct (turn_seats u t d d' v k m Hd Ht Hs) as (m0 & Hs0 & ->).
  destruct (decide (v = u)); [by cbn in E; simplify_eq|]. specialize (He v k m0 s Hs0 E). lia.
Qed.

(** Those still to come are before those who had theirs. *)
Lemma turns_go_round times d f l (E D : gset uuid) :
  round_robin d -> one_seat d -> (forall u, u ∈ E <-> eligible u d) ->
  StronglySorted Z.lt times -> Forall (fun t => earlier_than t d) times ->
  D ⊆ E -> (forall u v, u ∈ E -> ~ u ∈ D -> v ∈ D -> before_turn d u v) ->
  length times = size (E ∖ D) -> forall n,
  exists order, turns times (healthy d n f false l) = map Some order /\ NoDup order /\ (forall u, u ∈ order <-> u ∈ E /\ ~ u ∈ D).
Proof.
  revert d D. induction times as [|t times IH]; intros d D Hrr Hone HE Hsort Hpast HD Hbefore Hlen n.
  { exists []. split; [done|]. split; [constructor|]. intros u. symmetry in Hlen. apply size_empty_iff in Hlen.
    rewrite elem_of_nil. specialize (Hlen u). set_solver. }
  assert (exists u0, u0 ∈ E ∖ D) as [u0 Hu0]. { apply size_pos_elem_of. rewrite <- Hlen. cbn. lia. }
  apply elem_of_difference in Hu0 as [Hu0 Hn0].
  destruct (turn_taken d t f l Hrr Hone) as (u & d' & Erun & Hu & Hturn & Hmin); [exists u0; by apply HE|].
  apply HE in Hu. assert (~ u ∈ D) as HuD.
  { intros HuD. pose proof Hu as Hu'. apply HE in Hu0 as Hel0, Hu' as Hel. destruct Hel0 as (? & ? & ? & k0 & m0 & Hs0), Hel as (? & ? & ? & k & m & Hs).
    pose proof (Hbefore u0 u Hu0 Hn0 HuD k0 m0 k m Hs0 Hs) as Hb. rewrite (Hmin u0 k0 m0 k m) in Hb; [done|by apply HE|done|done]. }
  apply StronglySorted_inv in Hsort as [Hsort Hlt]. apply Forall_cons in Hpast as [Ht Hpast].
  cbn [turns]. change (at_time t (healthy d n f false l)) with (healthy d t f false l). rewrite Erun.
  pose proof Hturn as (_ & _ & Hrr' & _).
  destruct (IH d' ({[u]} ∪ D)) with (n := t) as (order & Ho & Hnd & Hin).
  - done.
  - by eapply turn_one_seat.
  - intros v. rewrite HE. symmetry. by eapply turn_eligible.
  - done.
  - apply Forall_forall. intros t' Ht'. rewrite Forall_forall in Hlt. eapply turn_earlier_than; [exact Hone|exact Hturn|by apply Hlt|exact Ht].
  - set_solver.
  - intros x y Hx Hnx Hy kx mx ky my Hsx Hsy. assert (x <> u /\ ~ x ∈ D) as [Hxu HxD] by set_solver.
    destruct (turn_seats u t d d' x kx mx Hone Hturn Hsx) as (mx0 & Hsx0 & ->), (turn_seats u t d d' y ky my Hone Hturn Hsy) as (my0 & Hsy0 & ->).
    rewrite decide_False by done. destruct (decide (y = u)) as [->|Hyu].
    + unfold earlier_turn. cbn. destruct (mb_LastAssignedAt mx0) as [s|] eqn:Es; [|done]. apply Z.ltb_lt. exact (Ht x kx mx0 s Hsx0 Es).
    + eapply (Hbefore x y); [done|done| |done|done]. set_solver.
  - assert (E ∖ D = {[u]} ∪ E ∖ ({[u]} ∪ D)) as Heq.
    { apply set_eq. intros z. rewrite elem_of_union, !elem_of_difference, elem_of_union, elem_of_singleton. destruct (decide (z = u)); naive_solver. }
    rewrite Heq, size_union, size_singleton in Hlen by set_solver. cbn in Hlen. lia.
  - exists (u :: order). split; [by rewrite Ho|]. split.
    + apply NoDup_cons. split; [|done]. rewrite Hin. set_solver.
    + intros v. rewrite elem_of_cons, Hin. destruct (decide (v = u)); set_solver.
Qed.
End Turns.

(** C37: Round robin is fair: on a healthy database, asked one call after the
    other at later and later times while nobody comes or goes and nobody holds
    two seats, the assigner gives each eligible member of the team exactly one
    turn before anybody has a second one - and an eligible member is one the
    team's configuration lists, who is at the desk and not excluded. *)
Theorem everybody_gets_a_turn `{SL : SqlLaws} teamID orgID excl loadCounter times d n f l (team : gset uuid) :
  round_robin teamID d -> one_seat teamID d -> (forall u, u ∈ team <-> eligible teamID excl u d) ->
  StronglySorted Z.lt times -> Forall (fun t => earlier_than teamID t d) times -> length times = size team ->
  exists order, turns teamID orgID excl loadCounter times (healthy d n f false l) = map Some order /\
    NoDup order /\ (forall u, u ∈ order <-> u ∈ team).
Proof.
  intros Hrr Hone HE Hs Hp Hl.
  pose proof (turns_go_round teamID orgID excl loadCounter times d f l team ∅ Hrr Hone HE Hs Hp) as Hgo.
  destruct (Hgo ltac:(set_solver) ltac:(intros; set_solver) ltac:(by rewrite difference_empty_L) n) as (order & ? & ? & Hin).
  exists order. split; [done|]. split; [done|]. intros u. rewrite Hin. set_solver.
Qed.

(** * A small team

    The fairness of round robin on three agents, of whom one is away, and what
    the cache of the team does when a query fails. *)

#[local] Existing Instance sql_ref.

Definition sample_agent (id : uuid) (available : bool) : User := MkUser id None 1%N "" "Agent" None None true available.
Definition sample_seat (id user : uuid) (turn : option time) : TeamMember := MkTeamMember id None 50%N user TeamRoleAgent turn.
Definition sample_team (strategy : string) : Team := MkTeam 50 None 1%N "Support" strategy 0 true.

Definition sample_desk (strategy : string) : AssignDB := MkAssignDB
  (rows_of us_ID [sample_agent 40 true; sample_agent 41 true; sample_agent 42 false])
  (rows_of tm_ID [sample_team strategy])
  (rows_of mb_ID [sample_seat 60 40 (Some 5); sample_seat 61 41 None; sample_seat 62 42 None]) ∅ ∅ ∅ true.

Definition desk_world (strategy : string) (faults : list bool) : world AssignDB :=
  World (sample_desk strategy) 10 100%N faults false false [].

Lemma everybody_gets_a_turn_witness :
  exists order, turns 50 1 [] ChatLoadCounter [10; 20] (healthy (sample_desk AssignmentStrategyRoundRobin) 10 100%N false []) = map Some order /\
    NoDup order /\ (forall u, u ∈ order <-> u ∈ ({[40%N; 41%N]} : gset uuid)).
Proof.
  apply everybody_gets_a_turn.
  - unfold round_robin, cached. cbn [as_redis sample_desk as_cache]. rewrite lookup_empty. split.
    + exists 50%N, (sample_team AssignmentStrategyRoundRobin). by split.
    + intros k t Hk _. sample_cases Hk. by split.
  - split; [apply rows_of_keyed|]. intros u k m k' m' (Hk & _ & Hu & _) (Hk' & _ & Hu' & _).
    sample_cases Hk; sample_cases Hk'; cbn in *; congruence.
  - intros u. unfold eligible, in_config, cached. cbn [as_redis sample_desk as_cache]. rewrite lookup_empty. split.
    + intros Hu. assert (u = 40%N \/ u = 41%N) as Hu' by set_solver. split_and!.
      * destruct Hu' as [-> | ->]; [exists 60%N, (sample_seat 60 40 (Some 5))|exists 61%N, (sample_seat 61 41 None)]; by split_and!.
      * apply not_elem_of_nil.
      * destruct Hu' as [-> | ->]; [exists 40%N, (sample_agent 40 true)|exists 41%N, (sample_agent 41 true)]; by split_and!.
      * destruct Hu' as [-> | ->]; [exists 60%N, (sample_seat 60 40 (Some 5))|exists 61%N, (sample_seat 61 41 None)]; by split_and!.
    + intros (_ & _ & (k & us & Hk & Hu & Ha & _) & _). sample_cases Hk; cbn in *; subst; [set_solver|set_solver|done].
  - repeat constructor.
  - assert (forall t, 5 < t -> earlier_than 50 t (sample_desk AssignmentStrategyRoundRobin)) as He.
    { intros t Ht v k m s (Hk & _) Hs. sample_cases Hk; cbn in Hs; simplify_eq; lia. }
    repeat constructor; apply He; lia.
  - reflexivity.
Defined.

(** When the team's row is read and the query of its members fails, an empty
    team is kept in the cache: the agent at the desk gets nothing, although the
    database has recovered. *)
Example a_failed_query_empties_the_team :
  let w := (AssignToTeam 50 1 [] ChatLoadCounter (desk_world AssignmentStrategyRoundRobin [false; true])).2 in
  w_faults w = [] /\
  (AssignToTeam 50 1 [] ChatLoadCounter w).1 = Ok None /\
  (AssignToTeam 50 1 [] ChatLoadCounter (desk_world AssignmentStrategyRoundRobin [])).1 = Ok (Some 41%N).
Proof. vm_compute. done. Qed.
