(* ===== verification/ChatModels.v ===== *)
(** * The chatbot's data ([internal/models/chatbot.go], [handlers/cache.go])

    Flows, keyword rules and settings with the caches they are read through,
    the log of a session's messages, and what lies outside the process: the
    WhatsApp client, HTTP, the language model, expressions, regular
    expressions and the actions of the CRM ([ChatEnv]). *)
From S2P Require Import Prelude GoLib Store Events Wire Models Statements Triggers Fields FieldService People Schedule CRMContext Assignment.

(** The columns of [models.ChatbotFlow] the engine reads. *)
Record ChatbotFlow := MkFlow {
  fl_ID : uuid;
  fl_DeletedAt : option time;
  fl_OrganizationID : uuid;
  fl_WhatsAppAccount : string;
  fl_Name : string;
  fl_IsEnabled : bool;
  fl_TriggerKeywords : list string;
  fl_CompletionMessage : string;
  fl_OnCompleteAction : string;
  fl_CompletionConfig : Config;
  fl_TimeoutMessage : string;
  fl_CancelKeywords : list string;
  fl_PanelConfig : Config;
  fl_Graph : option (list (string * any))
}.

Definition set_fl_IsEnabled (v : bool) (r : ChatbotFlow) : ChatbotFlow :=
  MkFlow (fl_ID r) (fl_DeletedAt r) (fl_OrganizationID r) (fl_WhatsAppAccount r) (fl_Name r) v
  (fl_TriggerKeywords r) (fl_CompletionMessage r) (fl_OnCompleteAction r) (fl_CompletionConfig r)
  (fl_TimeoutMessage r) (fl_CancelKeywords r) (fl_PanelConfig r) (fl_Graph r).
Definition set_fl_Graph (v : option (list (string * any))) (r : ChatbotFlow) : ChatbotFlow :=
  MkFlow (fl_ID r) (fl_DeletedAt r) (fl_OrganizationID r) (fl_WhatsAppAccount r) (fl_Name r)
  (fl_IsEnabled r) (fl_TriggerKeywords r) (fl_CompletionMessage r) (fl_OnCompleteAction r)
  (fl_CompletionConfig r) (fl_TimeoutMessage r) (fl_CancelKeywords r) (fl_PanelConfig r) v.

(** The columns of [models.KeywordRule] the engine reads. *)
Record KeywordRule := MkKeywordRule {
  kr_ID : uuid;
  kr_DeletedAt : option time;
  kr_OrganizationID : uuid;
  kr_WhatsAppAccount : string;
  kr_IsEnabled : bool;
  kr_Priority : Z;
  kr_Keywords : list string;
  kr_MatchType : string;
  kr_CaseSensitive : bool;
  kr_ResponseType : string;
  kr_ResponseContent : Config;
  kr_Actions : Config
}.


(** [models.ChatbotSettings] with the configurations embedded in it. *)
Record ChatbotSettings := MkSettings {
  st_ID : uuid;
  st_DeletedAt : option time;
  st_OrganizationID : uuid;
  st_WhatsAppAccount : string;
  st_IsEnabled : bool;
  st_DefaultResponse : string;
  st_GreetingButtons : list any;
  st_FallbackMessage : string;
  st_FallbackButtons : list any;
  st_HoursEnabled : bool;
  st_Hours : list any;
  st_OutOfHoursMessage : string;
  st_AllowAutomatedOutside : bool;
  st_AssignToSameAgent : bool;
  st_SLAEnabled : bool;
  st_ResponseMinutes : Z;
  st_ResolutionMinutes : Z;
  st_EscalationMinutes : Z;
  st_AutoCloseHours : Z;
  st_SLAAutoCloseMessage : string;
  st_WarningMessage : string;
  st_EscalationNotifyIDs : list string;
  st_ReminderEnabled : bool;
  st_ReminderMinutes : Z;
  st_ReminderMessage : string;
  st_AutoCloseMinutes : Z;
  st_AutoCloseMessage : string;
  st_AIEnabled : bool;
  st_AIProvider : string;
  st_AIAPIKey : string;
  st_SessionTimeoutMins : Z;
  st_ExcludedNumbers : list any
}.


(** [models.ChatbotSessionMessage]. *)
Record ChatbotSessionMessage := MkSessionMessage {
  sm_ID : uuid;
  sm_SessionID : uuid;
  sm_Direction : string;
  sm_Message : string;
  sm_StepName : string
}.


(** The columns of [models.WhatsAppFlow] the engine reads. *)
Record WhatsAppFlow := MkWhatsAppFlow {
  wf_ID : uuid;
  wf_DeletedAt : option time;
  wf_MetaFlowID : string;
  wf_Screens : list any;
  wf_FlowJSON : option (list (string * any))
}.


(** The columns of [models.Segment] the engine reads. *)
Record Segment := MkSegment {
  sg_ID : uuid;
  sg_DeletedAt : option time;
  sg_OrganizationID : uuid;
  sg_Filter : list (string * any)
}.


(** What the engine uses of a [models.WhatsAppAccount]. *)
Record WhatsAppAccount := MkAccount {
  wa_OrganizationID : uuid;
  wa_Name : string
}.


Definition DirectionIncoming := "incoming".
Definition DirectionOutgoing := "outgoing".
Definition TransferSourceFlow := "flow".
Definition TransferSourceKeyword := "keyword".
Definition TransferSourceChatbotDisabled := "chatbot_disabled".

(** ** The outside *)

(** [OutgoingMessageRequest]: what a customer is sent. *)
Inductive Outgoing :=
| OutText (content : string)
| OutInteractive (kind body : string) (buttons : list (string * string))   (** id and title *)
| OutCTA (body button url : string)
| OutFlow (flowID header body cta token firstScreen : string).

Record HttpRequest := MkRequest { hr_Method : string; hr_URL : string; hr_Body : option string; hr_Headers : list (string * string) }.

(** [crmactions.RunContext], as a flow fills it. *)
Record ActionContext := MkActionContext { ac_OrgID : uuid; ac_ContactID : uuid; ac_Actor : Actor; ac_Vars : list (string * any) }.

(** Answers depend on a state of the outside, which calls change. *)
Class ChatEnv `{CE : ContextEnv} := {
  Outside : Type;
  OrgLocation : uuid -> Outside -> Location;
  SendOutgoing : uuid -> Outgoing -> Outside -> bool * Outside;       (** [SendOutgoingMessage] to a contact: no error? *)
  HTTPDo : HttpRequest -> Outside -> option (string * Z) * Outside;   (** the body read and the status *)
  ValidateURL : string -> Outside -> bool;                            (** [safehttp.ValidateURL] *)
  regexp_match : string -> string -> option bool;                     (** [regexp.Compile], [MatchString] *)
  expr_run : string -> list (string * any) -> option any;             (** [expr.Compile], [expr.Run] *)
  generateAI : ChatbotSettings -> ChatbotSession -> string -> Outside -> option string * Outside;
  action_known : string -> bool;                                      (** [crmactions.Lookup] *)
  run_action : ActionContext -> string -> Config -> Outside -> bool * Outside;      (** [crmactions.Execute]: no error? *)
  contact_matches : uuid -> list (string * any) -> uuid -> Outside -> option bool;  (** a filter, compiled and counted *)
  map_order : list (string * any) -> Outside -> list (string * any);  (** the order [range] visits a map in *)
  render_fuel : nat                                                   (** rounds of loops in a template *)
}.

(** A map is visited entry by entry, each once. *)
Class ChatEnvLaws `{CH : ChatEnv} : Prop := map_order_perm : forall m o, map_order m o ≡ₚ m.

Section Data.
Context `{CH : ChatEnv}.

(** The tables and the caches; [cb_redis] is whether Redis answers. *)
Record ChatDB := MkChatDB {
  cb_context : ContextDB;
  cb_members : gmap uuid TeamMember;
  cb_calls : gmap uuid CallTransfer;
  cb_flows : gmap uuid ChatbotFlow;
  cb_rules : gmap uuid KeywordRule;
  cb_settings : gmap uuid ChatbotSettings;
  cb_waflows : gmap uuid WhatsAppFlow;
  cb_segments : gmap uuid Segment;
  cb_log : gmap uuid ChatbotSessionMessage;
  cb_redis : bool;
  cb_team_cache : gmap uuid TeamConfig;
  cb_flow_cache : gmap uuid (list ChatbotFlow);
  cb_rule_cache : gmap (uuid * string) (list KeywordRule);
  cb_settings_cache : gmap (uuid * string) ChatbotSettings;
  cb_out : Outside
}.

Definition set_cb_context (v : ContextDB) (r : ChatDB) : ChatDB :=
  MkChatDB v (cb_members r) (cb_calls r) (cb_flows r) (cb_rules r) (cb_settings r) (cb_waflows r)
  (cb_segments r) (cb_log r) (cb_redis r) (cb_team_cache r) (cb_flow_cache r) (cb_rule_cache r)
  (cb_settings_cache r) (cb_out r).
Definition set_cb_members (v : gmap uuid TeamMember) (r : ChatDB) : ChatDB :=
  MkChatDB (cb_context r) v (cb_calls r) (cb_flows r) (cb_rules r) (cb_settings r) (cb_waflows r)
  (cb_segments r) (cb_log r) (cb_redis r) (cb_team_cache r) (cb_flow_cache r) (cb_rule_cache r)
  (cb_settings_cache r) (cb_out r).
Definition set_cb_log (v : gmap uuid ChatbotSessionMessage) (r : ChatDB) : ChatDB :=
  MkChatDB (cb_context r) (cb_members r) (cb_calls r) (cb_flows r) (cb_rules r) (cb_settings r)
  (cb_waflows r) (cb_segments r) v (cb_redis r) (cb_team_cache r) (cb_flow_cache r)
  (cb_rule_cache r) (cb_settings_cache r) (cb_out r).
Definition set_cb_team_cache (v : gmap uuid TeamConfig) (r : ChatDB) : ChatDB :=
  MkChatDB (cb_context r) (cb_members r) (cb_calls r) (cb_flows r) (cb_rules r) (cb_settings r)
  (cb_waflows r) (cb_segments r) (cb_log r) (cb_redis r) v (cb_flow_cache r) (cb_rule_cache r)
  (cb_settings_cache r) (cb_out r).
Definition set_cb_flow_cache (v : gmap uuid (list ChatbotFlow)) (r : ChatDB) : ChatDB :=
  MkChatDB (cb_context r) (cb_members r) (cb_calls r) (cb_flows r) (cb_rules r) (cb_settings r)
  (cb_waflows r) (cb_segments r) (cb_log r) (cb_redis r) (cb_team_cache r) v (cb_rule_cache r)
  (cb_settings_cache r) (cb_out r).
Definition set_cb_rule_cache (v : gmap (uuid * string) (list KeywordRule)) (r : ChatDB) : ChatDB :=
  MkChatDB (cb_context r) (cb_members r) (cb_calls r) (cb_flows r) (cb_rules r) (cb_settings r)
  (cb_waflows r) (cb_segments r) (cb_log r) (cb_redis r) (cb_team_cache r) (cb_flow_cache r) v
  (cb_settings_cache r) (cb_out r).
Definition set_cb_settings_cache (v : gmap (uuid * string) ChatbotSettings) (r : ChatDB) : ChatDB :=
  MkChatDB (cb_context r) (cb_members r) (cb_calls r) (cb_flows r) (cb_rules r) (cb_settings r)
  (cb_waflows r) (cb_segments r) (cb_log r) (cb_redis r) (cb_team_cache r) (cb_flow_cache r)
  (cb_rule_cache r) v (cb_out r).
Definition set_cb_out (v : Outside) (r : ChatDB) : ChatDB :=
  MkChatDB (cb_context r) (cb_members r) (cb_calls r) (cb_flows r) (cb_rules r) (cb_settings r)
  (cb_waflows r) (cb_segments r) (cb_log r) (cb_redis r) (cb_team_cache r) (cb_flow_cache r)
  (cb_rule_cache r) (cb_settings_cache r) v.

Abbreviation MC := (M ChatDB).

(** *** Calls on a part *)

Definition set_context_tables (t : Tables) (d : ChatDB) : ChatDB :=
  let c := cb_context d in set_cb_context (MkContextDB t (cx_tags c) (cx_fields c) (cx_orgs c) (cx_users c) (cx_teams c)) d.

Definition tables_of (d : ChatDB) : Tables := cx_tables (cb_context d).

Definition on_tables {A} (m : M Tables A) : MC A := zoom tables_of set_context_tables m.

Definition on_context {A} (m : M ContextDB A) : MC A := zoom cb_context set_cb_context m.

Definition fields_of (d : ChatDB) : FieldsDB := cx_fields (cb_context d).
Definition set_fields (f : FieldsDB) (d : ChatDB) : ChatDB := set_cb_context (set_cx_fields f (cb_context d)) d.

Definition on_fields {A} (m : M FieldsDB A) : MC A := zoom fields_of set_fields m.

Definition desk_of (d : ChatDB) : AssignDB :=
  MkAssignDB (cx_users (cb_context d)) (cx_teams (cb_context d)) (cb_members d) (db_transfers (tables_of d)) (cb_calls d) (cb_team_cache d) (cb_redis d).
Definition set_desk (a : AssignDB) (d : ChatDB) : ChatDB := set_cb_team_cache (as_cache a) (set_cb_members (as_members a) d).

Definition on_desk {A} (m : MA A) : MC A := zoom desk_of set_desk m.

(** A call of the outside: no statement of the database. *)
Definition outside {A} (f : Outside -> A * Outside) : MC A := fun w =>
  let '(a, o) := f (cb_out (w_db w)) in (Ok a, set_db (set_cb_out o (w_db w)) w).

(** The state as a pure reader sees it. *)
Definition ask {A} (f : Outside -> A) : MC A := outside (fun o => (f o, o)).

(** A call of Redis. *)
Definition cache {A} (f : ChatDB -> A) : MC A := fun w => (Ok (f (w_db w)), w).
Definition store_cache (f : ChatDB -> ChatDB) : MC unit := fun w =>
  (Ok tt, if cb_redis (w_db w) then set_db (f (w_db w)) w else w).

(** *** Reading through a cache *)

Context `{SQ : Sql}.

Definition settings_for (orgID : uuid) (account : string) (s : ChatbotSettings) : bool :=
  N.eqb (st_OrganizationID s) orgID && (String.eqb (st_WhatsAppAccount s) account || is_empty (st_WhatsAppAccount s)) && is_none (st_DeletedAt s).

(** Those of the account come before those of the organization. *)
Definition of_account_first (a b : ChatbotSettings) : bool := negb (is_empty (st_WhatsAppAccount a)) && is_empty (st_WhatsAppAccount b).

Definition getChatbotSettingsCached (orgID : uuid) (account : string) : MC ChatbotSettings :=
  cached <- cache (fun d => if cb_redis d then cb_settings_cache d !! (orgID, account) else None) ;;
  match cached with
  | Some s => ret s
  | None =>
      s <- query (fun d => first_row (settings_for orgID account) of_account_first (cb_settings d)) ;;
      store_cache (fun d => set_cb_settings_cache (<[(orgID, account) := s]> (cb_settings_cache d)) d) ;;;
      ret s
  end.

Definition flow_of (orgID : uuid) (f : ChatbotFlow) : bool :=
  N.eqb (fl_OrganizationID f) orgID && fl_IsEnabled f && is_none (fl_DeletedAt f).

Definition getChatbotFlowsCached (orgID : uuid) : MC (list ChatbotFlow) :=
  cached <- cache (fun d => if cb_redis d then cb_flow_cache d !! orgID else None) ;;
  match cached with
  | Some flows => ret flows
  | None =>
      flows <- query (fun d => Ok (find_rows (flow_of orgID) None (cb_flows d))) ;;
      store_cache (fun d => set_cb_flow_cache (<[orgID := flows]> (cb_flow_cache d)) d) ;;;
      ret flows
  end.

Definition getChatbotFlowByIDCached (orgID flowID : uuid) : MC ChatbotFlow :=
  flows <- getChatbotFlowsCached orgID ;;
  match List.find (fun f => N.eqb (fl_ID f) flowID) flows with Some f => ret f | None => fail ErrRecordNotFound end.

Definition rule_for (orgID : uuid) (account : string) (r : KeywordRule) : bool :=
  N.eqb (kr_OrganizationID r) orgID && String.eqb (kr_WhatsAppAccount r) account && kr_IsEnabled r && is_none (kr_DeletedAt r).
Definition higher_priority (a b : KeywordRule) : bool := kr_Priority b <? kr_Priority a.

(** A query that fails leaves its list empty; the result is cached all the same. *)
Definition rules_of (orgID : uuid) (account : string) : MC (list KeywordRule) :=
  r <- try (query (fun d => Ok (sort_by higher_priority (find_rows (rule_for orgID account) None (cb_rules d))))) ;;
  ret (match r with Ok l => l | Err _ => [] end).

Definition getKeywordRulesCached (orgID : uuid) (account : string) : MC (list KeywordRule) :=
  cached <- cache (fun d => if cb_redis d then cb_rule_cache d !! (orgID, account) else None) ;;
  match cached with
  | Some rules => ret rules
  | None =>
      accountRules <- rules_of orgID account ;;
      globalRules <- rules_of orgID "" ;;
      let rules := accountRules ++ globalRules in
      store_cache (fun d => set_cb_rule_cache (<[(orgID, account) := rules]> (cb_rule_cache d)) d) ;;;
      ret rules
  end.
End Data.
