(* ===== verification/Handoff.v ===== *)
(** * Handing a conversation to people ([handlers/agent_transfers.go])

    The chatbot gives a contact to the queue, to a team or to the agent who
    knows them: a transfer is created with its deadlines, the sessions of the
    bot are ended, the live conversation is marked.  Outside business hours
    the customer is told so instead. *)
From S2P Require Import Prelude GoLib Store Events Wire Models Statements Text Triggers Fields FieldService People Schedule CRMContext Assignment Transfers Conversation ChatModels.

(** [isExcludedNumber]: numbers are compared in their normal form. *)
Definition isExcludedNumber (numbers : list any) (phone : string) : bool :=
  match numbers with
  | [] => false
  | _ =>
      if is_empty phone then false
      else
        let want := Normalize phone in
        if is_empty want then false
        else existsb (fun e => match e with AString s => negb (is_empty s) && String.eqb (Normalize s) want | _ => false end) numbers
  end.

Section Handoff.
Context `{SQ : Sql} `{CH : ChatEnv}.

Abbreviation MC := (M ChatDB).

(** ** Business hours and messages *)

Definition isWithinBusinessHours (orgID : uuid) (hours : list any) : MC bool :=
  t <- now ;;
  loc <- ask (OrgLocation orgID) ;;
  ret (IsOpen t (Parse hours) (Some loc)).

(** The hours are set and now is not among them. *)
Definition outside_hours (orgID : uuid) (s : ChatbotSettings) : MC bool :=
  if st_HoursEnabled s && Nat.ltb 0 (length (st_Hours s))
  then ok <- isWithinBusinessHours orgID (st_Hours s) ;; ret (negb ok)
  else ret false.

(** [SendOutgoingMessage] with [ChatbotSendOptions]. *)
Definition send (contact : Contact) (m : Outgoing) : MC unit :=
  ok <- outside (SendOutgoing (ct_ID contact) m) ;;
  if ok : bool then ret tt else fail (ErrMsg "send").

Definition sendAndSaveTextMessage (contact : Contact) (message : string) : MC unit := send contact (OutText message).

(** An error that is logged and forgotten. *)
Definition best_effort {A} (m : MC A) : MC unit := _ <- try m ;; ret tt.

Definition say_out_of_hours (contact : Contact) (s : ChatbotSettings) : MC unit :=
  if is_empty (st_OutOfHoursMessage s) then ret tt else best_effort (sendAndSaveTextMessage contact (st_OutOfHoursMessage s)).

(** ** Transfers *)

(** A count that fails counts nothing. *)
Definition hasActiveAgentTransfer (orgID contactID : uuid) : MC bool :=
  n <- try (query (fun d => Ok (rows_affected (active_for orgID contactID) (db_transfers (tables_of d))))) ;;
  ret (match n with Ok n => Nat.ltb 0 n | Err _ => false end).

Definition willChatbotHandle (account : WhatsAppAccount) (contact : Contact) : MC bool :=
  active <- hasActiveAgentTransfer (wa_OrganizationID account) (ct_ID contact) ;;
  if active : bool then ret false
  else
    settings <- try (getChatbotSettingsCached (wa_OrganizationID account) (wa_Name account)) ;;
    ret (match settings with
         | Ok s => st_IsEnabled s && negb (isExcludedNumber (st_ExcludedNumbers s) (ct_PhoneNumber contact))
         | Err _ => false
         end).

(** A deadline so many units from now; [None] when none is configured. *)
Definition deadline (t : time) (n unit : Z) (old : option time) : option time :=
  if 0 <? n then Some (t + wrap64 (n * unit)) else old.

Definition SetSLADeadlines (t : time) (s : ChatbotSettings) (tr : AgentTransfer) : AgentTransfer :=
  if negb (st_SLAEnabled s) then tr
  else
    set_tr_ResponseDeadline (deadline t (st_ResponseMinutes s) Minute (tr_ResponseDeadline tr))
      (set_tr_ResolutionDeadline (deadline t (st_ResolutionMinutes s) Minute (tr_ResolutionDeadline tr))
      (set_tr_EscalationAt (deadline t (st_EscalationMinutes s) Minute (tr_EscalationAt tr))
      (set_tr_ExpiresAt (deadline t (st_AutoCloseHours s) Hour (tr_ExpiresAt tr)) tr))).

Definition UpdateSLAOnPickup (t : time) (tr : AgentTransfer) : AgentTransfer :=
  let tr := set_tr_PickedUpAt (Some t) tr in
  match tr_ResponseDeadline tr with
  | Some due => if due <? t then set_tr_BreachedAt (Some t) (set_tr_Breached true tr) else tr
  | None => tr
  end.

(** [db.Create(transfer)]: one active transfer per contact
    ([idx_agent_transfers_one_active]). *)
Definition insert_transfer (tr : AgentTransfer) : MC unit :=
  stmt no_locks (fun d =>
    let t := tables_of d in
    if existsb (fun kr => active_for (tr_OrganizationID tr) (tr_ContactID tr) kr.2) (map_to_list (db_transfers t))
    then (Err ErrUnique, d)
    else (Ok tt, set_context_tables (set_db_transfers (<[tr_ID tr := tr]> (db_transfers t)) t) d)).

Definition assign_contact (contactID : uuid) (agentID : option uuid) : MC unit :=
  stmt no_locks (fun d =>
    let t := tables_of d in
    (Ok tt, set_context_tables (set_db_contacts
      (update_where (fun c => N.eqb (ct_ID c) contactID && live (ct_DeletedAt c)) [set_ct_AssignedUserID agentID] (db_contacts t)) t) d)).

Definition active_session (orgID contactID : uuid) (s : ChatbotSession) : bool :=
  N.eqb (ss_OrganizationID s) orgID && N.eqb (ss_ContactID s) contactID && bool_decide (ss_Status s = SessionStatusActive) && live (ss_DeletedAt s).

Definition update_sessions (p : ChatbotSession -> bool) (us : list (ChatbotSession -> ChatbotSession)) : MC unit :=
  stmt no_locks (fun d =>
    let t := tables_of d in (Ok tt, set_context_tables (set_db_sessions (update_where p us (db_sessions t)) t) d)).

Definition setConversationHandling (orgID contactID : uuid) (handling : ConversationHandling) : MC unit :=
  best_effort (on_tables (SetHandling orgID contactID handling)).

Definition mirrorTransfer (tr : AgentTransfer) : MC unit := best_effort (on_tables (MirrorToConversation tr)).

Definition saveAndFinalizeTransfer (tr : AgentTransfer) (account : WhatsAppAccount) (contact : Contact)
    (settings : option ChatbotSettings) (endChatbotSession : bool) : MC unit :=
  t <- now ;;
  let tr := from_option (fun s => SetSLADeadlines t s tr) tr settings in
  let tr := if is_some (tr_AgentID tr) then UpdateSLAOnPickup t tr else tr in
  insert_transfer tr ;;;
  (if is_some (tr_AgentID tr) && from_option st_AssignToSameAgent false settings && is_none (ct_AssignedUserID contact)
   then best_effort (assign_contact (ct_ID contact) (tr_AgentID tr)) else ret tt) ;;;
  (if endChatbotSession
   then best_effort (update_sessions (active_session (wa_OrganizationID account) (ct_ID contact))
          [set_ss_Status SessionStatusCancelled; set_ss_CompletedAt (Some t)]) else ret tt) ;;;
  setConversationHandling (wa_OrganizationID account) (ct_ID contact) HandlingHuman ;;;
  mirrorTransfer tr.

Definition new_transfer (id : uuid) (t : time) (account : WhatsAppAccount) (contact : Contact) (source : string)
    (agentID teamID : option uuid) (notes : string) : AgentTransfer :=
  MkAgentTransfer id None (wa_OrganizationID account) (ct_ID contact) (wa_Name account) (ct_PhoneNumber contact)
    TransferStatusActive source agentID teamID None notes t None None None None None None None None 0 None false None.

(** What the three creators share: nothing to do where somebody has the
    contact already, a word to the customer outside the hours, else a transfer
    to the agent that [choose] names. *)
Definition hand_over (account : WhatsAppAccount) (contact : Contact) (source : string) (teamID : option uuid) (notes : string)
    (choose : option ChatbotSettings -> MC (option uuid)) (endChatbotSession : bool) : MC Outcome :=
  active <- hasActiveAgentTransfer (wa_OrganizationID account) (ct_ID contact) ;;
  if active : bool then ret AlreadyActive
  else
    r <- try (getChatbotSettingsCached (wa_OrganizationID account) (wa_Name account)) ;;
    let settings := match r with Ok s => Some s | Err _ => None end in
    closed <- (match settings with Some s => outside_hours (wa_OrganizationID account) s | None => ret false end) ;;
    match settings, (closed : bool) with
    | Some s, true =>
        say_out_of_hours contact s ;;;
        setConversationHandling (wa_OrganizationID account) (ct_ID contact) HandlingHandoffPending ;;;
        ret SuppressedOutOfHours
    | _, _ =>
        agentID <- choose settings ;;
        id <- uuid_New ;;
        t <- now ;;
        saved <- try (saveAndFinalizeTransfer (new_transfer id t account contact source agentID teamID notes) account contact settings endChatbotSession) ;;
        ret (match saved with Err _ => Failed | Ok _ => if is_some agentID then Assigned else Queued end)
    end.

Definition createTransferToQueue (account : WhatsAppAccount) (contact : Contact) (source : string) : MC unit :=
  _ <- hand_over account contact source None "" (fun _ => ret None) false ;; ret tt.

(** The agent who looks after the contact, if that is wanted and they are there. *)
Definition same_agent (contact : Contact) (settings : option ChatbotSettings) : MC (option uuid) :=
  match ct_AssignedUserID contact with
  | Some id =>
      if from_option st_AssignToSameAgent false settings then
        agent <- try (query (fun d => first_row (live_id us_ID us_DeletedAt id) unordered (cx_users (cb_context d)))) ;;
        ret (match agent with Ok u => if us_IsAvailable u then Some id else None | Err _ => None end)
      else ret None
  | None => ret None
  end.

Definition createTransferFromKeyword (account : WhatsAppAccount) (contact : Contact) : MC unit :=
  _ <- hand_over account contact TransferSourceKeyword None "" (same_agent contact) true ;; ret tt.

Definition createTransferToTeam (account : WhatsAppAccount) (contact : Contact) (teamID : uuid) (notes source : string) : MC Outcome :=
  hand_over account contact source (Some teamID) notes
    (fun _ => on_desk (AssignToTeam teamID (wa_OrganizationID account) [] ChatLoadCounter)) true.
End Handoff.
