(* ===== verification/FlowGraph.v ===== *)
(** * Flow graphs ([internal/flowgraph], [handlers/chatbot_graph_types.go])

    A chatbot flow is a graph of nodes joined by edges; an edge carries the
    outcome it is for.  [parseChatGraph] reads one from its JSON column and
    builds the two indexes a traversal uses. *)
From S2P Require Import Prelude GoLib Store Events Wire Triggers.

Record Position := MkPosition { ps_X : float64; ps_Y : float64 }.
Record Edge := MkEdge { eg_From : string; eg_To : string; eg_Condition : string }.
Record Node := MkNode { nd_ID : string; nd_Type : string; nd_Label : string; nd_Position : Position; nd_Config : Config }.

(** A decoded graph with its indexes: nodes by id, outgoing edges by node. *)
Record Graph := MkGraph {
  gr_Version : Z;
  gr_Nodes : list Node;
  gr_Edges : list Edge;
  gr_EntryNode : string;
  gr_nodeMap : gmap string Node;
  gr_edgeMap : gmap string (list Edge)
}.

(** A later node of the same id replaces an earlier one. *)
Definition index_nodes (nodes : list Node) : gmap string Node :=
  fold_left (fun m n => <[nd_ID n := n]> m) nodes ∅.

Definition index_edges (edges : list Edge) : gmap string (list Edge) :=
  fold_left (fun m e => <[eg_From e := default [] (m !! eg_From e) ++ [e]]> m) edges ∅.

Definition BuildMaps (g : Graph) : Graph :=
  MkGraph (gr_Version g) (gr_Nodes g) (gr_Edges g) (gr_EntryNode g) (index_nodes (gr_Nodes g)) (index_edges (gr_Edges g)).

Definition node_at (g : Graph) (id : string) : option Node := gr_nodeMap g !! id.
Definition OutgoingEdges (g : Graph) (fromID : string) : list Edge := default [] (gr_edgeMap g !! fromID).

(** The loop over the outgoing edges, with the default target met so far. *)
Fixpoint resolve (outcome def : string) (edges : list Edge) : string :=
  match edges with
  | [] => def
  | e :: edges =>
      if String.eqb (eg_Condition e) outcome then eg_To e
      else resolve outcome (if String.eqb (eg_Condition e) "default" then eg_To e else def) edges
  end.

Definition ResolveEdge (g : Graph) (fromID outcome : string) : string := resolve outcome "" (OutgoingEdges g fromID).

(** ** The chatbot's graphs *)

Definition ChatNodeStart := "start".
Definition ChatNodeMessage := "message".
Definition ChatNodeButtons := "buttons".
Definition ChatNodePrompt := "prompt".
Definition ChatNodeAPICall := "api_call".
Definition ChatNodeCondition := "condition".
Definition ChatNodeTiming := "timing".
Definition ChatNodeSetVariable := "set_variable".
Definition ChatNodeAIResponse := "ai_response".
Definition ChatNodeTransfer := "transfer".
Definition ChatNodeWebhook := "webhook".
Definition ChatNodeGotoFlow := "goto_flow".
Definition ChatNodeWhatsAppFlow := "whatsapp_flow".
Definition ChatNodeEnd := "end".
Definition ChatNodeCRMAction := "crm_action".
Definition ChatNodeCRMCondition := "crm_condition".

Section Parse.
Context `{GJ : GoJson}.

Definition to_float (j : json) : option float64 :=
  match j with JNum lit => parse_float lit | JNull => Some float_zero | _ => None end.

Definition to_array {A} (f : json -> option A) (j : json) : option (list A) :=
  match j with JArr l => traverse f l | JNull => Some [] | _ => None end.

Definition to_position (j : json) : option Position :=
  m ← object j; x ← to_float (field m "x"); y ← to_float (field m "y"); Some (MkPosition x y).

Definition to_node (j : json) : option Node :=
  m ← object j;
  id ← to_string (field m "id"); ty ← to_string (field m "type"); label ← to_string (field m "label");
  position ← to_position (field m "position"); config ← to_map (field m "config");
  Some (MkNode id ty label position config).

Definition to_edge (j : json) : option Edge :=
  m ← object j;
  from ← to_string (field m "from"); to ← to_string (field m "to"); condition ← to_string (field m "condition");
  Some (MkEdge from to condition).

Definition to_graph (j : json) : option Graph :=
  m ← object j;
  version ← to_int (field m "version"); nodes ← to_array to_node (field m "nodes"); edges ← to_array to_edge (field m "edges");
  entry ← to_string (field m "entry_node");
  Some (MkGraph version nodes edges entry ∅ ∅).

(** [None]: no graph at all. *)
Definition parseChatGraph (raw : option (list (string * any))) : res err (option Graph) :=
  match raw with
  | None => Ok None
  | Some raw =>
      if negb (marshals (AMap raw)) then Err (ErrMsg "marshal graph")
      else match to_graph (json_of (AMap raw)) with
      | None => Err (ErrMsg "unmarshal graph")
      | Some g =>
          if negb (gr_Version g =? 2) then Err (ErrMsg ("unsupported graph version " ++ Itoa (gr_Version g) ++ " (want 2)")%string)
          else if is_empty (gr_EntryNode g) then Err (ErrMsg "graph missing entry_node")
          else
            let g := BuildMaps g in
            match node_at g (gr_EntryNode g) with
            | None => Err (ErrMsg ("entry_node " ++ quote (gr_EntryNode g) ++ " not found in nodes")%string)
            | Some _ => Ok (Some g)
            end
      end
  end.
End Parse.

(** ** What the indexes hold *)

(** A graph whose indexes are those of its nodes and edges. *)
Definition indexed (g : Graph) : Prop :=
  gr_nodeMap g = index_nodes (gr_Nodes g) /\ gr_edgeMap g = index_edges (gr_Edges g).

Lemma node_at_listed g id n : indexed g -> node_at g id = Some n -> nd_ID n = id /\ n ∈ gr_Nodes g.
Proof.
  intros [Hn _]. unfold node_at. rewrite Hn. unfold index_nodes.
  assert (forall l (m : gmap string Node), fold_left (fun m n => <[nd_ID n := n]> m) l m !! id = Some n ->
            (nd_ID n = id /\ n ∈ l) \/ m !! id = Some n) as Hf; [|by intros [?|?]%Hf].
  induction l as [|x l IH]; intros m; cbn [fold_left]; [by right|].
  intros [[? ?]|Hm]%IH; [left; split; [done|by right]|].
  apply lookup_insert_Some in Hm as [[<- <-]|[_ ?]]; [left; split; [done|by left]|by right].
Qed.

Lemma edges_from g id : indexed g -> OutgoingEdges g id = List.filter (fun e => String.eqb (eg_From e) id) (gr_Edges g).
Proof.
  intros [_ He]. unfold OutgoingEdges. rewrite He. unfold index_edges.
  assert (forall l (m : gmap string (list Edge)),
    default [] (fold_left (fun m e => <[eg_From e := default [] (m !! eg_From e) ++ [e]]> m) l m !! id) =
    default [] (m !! id) ++ List.filter (fun e => String.eqb (eg_From e) id) l) as Hf; [|by rewrite Hf, lookup_empty].
  induction l as [|e l IH]; intros m; cbn [fold_left List.filter]; [by rewrite app_nil_r|].
  rewrite IH. destruct (String.eqb_spec (eg_From e) id) as [->|Hne].
  - rewrite lookup_insert_eq. cbn. by rewrite <- app_assoc.
  - by rewrite lookup_insert_ne.
Qed.

Lemma parsed_indexed `{GJ : GoJson} raw g : parseChatGraph raw = Ok (Some g) -> indexed g /\ is_Some (node_at g (gr_EntryNode g)).
Proof.
  unfold parseChatGraph. destruct raw as [raw|]; [|done]. destruct (negb _); [done|]. destruct (to_graph _) as [g0|]; [|done].
  destruct (negb _); [done|]. destruct (is_empty _); [done|]. destruct (node_at _ _) as [n|] eqn:E; [|done]. intros [= <-].
  split; [done|]. by exists n.
Qed.

(** An edge for the outcome wins over any default; of several defaults the
    last counts; where there is neither, the way ends. *)
Inductive leads_to (edges : list Edge) (outcome : string) : string -> Prop :=
| leads_exactly pre e post : edges = pre ++ e :: post -> Forall (fun e => eg_Condition e <> outcome) pre ->
    eg_Condition e = outcome -> leads_to edges outcome (eg_To e)
| leads_by_default pre e post : edges = pre ++ e :: post -> Forall (fun e => eg_Condition e <> outcome) edges ->
    eg_Condition e = "default" -> Forall (fun e => eg_Condition e <> "default") post -> leads_to edges outcome (eg_To e)
| leads_nowhere : Forall (fun e => eg_Condition e <> outcome /\ eg_Condition e <> "default") edges -> leads_to edges outcome "".

Lemma resolve_cases outcome def edges :
  (exists pre e post, edges = pre ++ e :: post /\ Forall (fun e => eg_Condition e <> outcome) pre /\
     eg_Condition e = outcome /\ resolve outcome def edges = eg_To e) \/
  (exists pre e post, edges = pre ++ e :: post /\ Forall (fun e => eg_Condition e <> outcome) edges /\
     eg_Condition e = "default" /\ Forall (fun e => eg_Condition e <> "default") post /\ resolve outcome def edges = eg_To e) \/
  (Forall (fun e => eg_Condition e <> outcome /\ eg_Condition e <> "default") edges /\ resolve outcome def edges = def).
Proof.
  revert def. induction edges as [|e edges IH]; intros def; cbn [resolve]; [right; right; by split|].
  destruct (String.eqb_spec (eg_Condition e) outcome) as [E|Hne]; [left; exists [], e, edges; by split_and!|].
  set (d := if String.eqb (eg_Condition e) "default" then eg_To e else def).
  destruct (IH d) as [(pre & x & post & -> & Hpre & Hx & Hr)|[(pre & x & post & -> & Hall & Hx & Hpost & Hr)|[Hno Hr]]]; rewrite Hr.
  - left. exists (e :: pre), x, post. split_and!; [done|by constructor|done|done].
  - right; left. exists (e :: pre), x, post. split_and!; [done|by constructor|done|done|done].
  - right. unfold d. destruct (String.eqb_spec (eg_Condition e) "default") as [Ed|Hnd].
    + left. exists [], e, edges. split_and!; [done| |done| |done].
      * constructor; [done|]. by apply (Forall_impl _ _ _ Hno); intros ? [? _].
      * by apply (Forall_impl _ _ _ Hno); intros ? [_ ?].
    + right. split; [by constructor|done].
Qed.

Lemma ResolveEdge_leads g from outcome : leads_to (OutgoingEdges g from) outcome (ResolveEdge g from outcome).
Proof.
  unfold ResolveEdge. destruct (resolve_cases outcome "" (OutgoingEdges g from))
    as [(pre & e & post & E & Hpre & He & ->)|[(pre & e & post & E & Hall & He & Hpost & ->)|[Hno ->]]].
  - by eapply leads_exactly.
  - by eapply leads_by_default.
  - by apply leads_nowhere.
Qed.
