(* ===== verification/ChatNodes.v ===== *)
(** * What a node of a flow does ([handlers/chatbot_graph_runner.go],
      [chatbot_crm_nodes.go], [chatbot_processor.go])

    One executor per type of node.  An executor returns the context it leaves -
    the session it works on is shared with the runner - and an outcome or an
    error.  A panic (a mapped path that ends in an open bracket) ends the
    computation itself. *)
From S2P Require Import Prelude GoLib Store Events Wire Models Statements Text Triggers Fields FieldService People Schedule.
From S2P Require Import Placeholders Templating CRMContext Transfers ChatModels Handoff FlowGraph.

Section Nodes.
Context `{SQ : Sql} `{GJ : GoJson} `{FS : FieldsServer} `{CE : !ContextEnv} `{CH : !ChatEnv}.

Abbreviation MC := (M ChatDB).

(** ** Configurations *)

Fixpoint stringFromConfig (cfg : Config) (keys : list string) : string :=
  match keys with
  | [] => ""
  | k :: keys => match get cfg k with AString (String c s) => String c s | _ => stringFromConfig cfg keys end
  end.

(** [cfg[key].(string)], empty when it is no string. *)
Definition text_at (cfg : Config) (key : string) : string := match get cfg key with AString s => s | _ => "" end.

Definition intFromConfig (cfg : Config) (key : string) (def : Z) : Z :=
  match get cfg key with AFloat x => float_trunc x | AInt n => n | _ => def end.

Definition boolFromConfig (cfg : Config) (key : string) : bool := match get cfg key with ABool b => b | _ => false end.

Definition maps_of (v : any) : list Config :=
  match v with AList l => omap (fun item => match item with AMap m => Some m | _ => None end) l | _ => [] end.

Definition buttonsFromConfig (cfg : Config) : list Config := maps_of (get cfg "buttons").

(** ** The context of a run *)

Record chatNodeCtx := MkCtx {
  cc_account : WhatsAppAccount;
  cc_contact : Contact;
  cc_metadata : Config;                 (* the contact's metadata, as loaded *)
  cc_session : ChatbotSession;
  cc_userInput : string;
  cc_buttonID : string;
  cc_flowResponseData : Config;
  cc_consumed : bool;
  cc_crm : Config
}.

Definition set_session (s : ChatbotSession) (c : chatNodeCtx) : chatNodeCtx :=
  MkCtx (cc_account c) (cc_contact c) (cc_metadata c) s (cc_userInput c) (cc_buttonID c) (cc_flowResponseData c) (cc_consumed c) (cc_crm c).
Definition consume (c : chatNodeCtx) : chatNodeCtx :=
  MkCtx (cc_account c) (cc_contact c) (cc_metadata c) (cc_session c) (cc_userInput c) (cc_buttonID c) (cc_flowResponseData c) true (cc_crm c).

Definition data (c : chatNodeCtx) : Config := ss_SessionData (cc_session c).

Definition put (k : string) (v : any) (c : chatNodeCtx) : chatNodeCtx :=
  set_session (set_ss_SessionData (set_key k v (data c)) (cc_session c)) c.

(** [maps.Copy]. *)
Definition put_all (m : Config) (c : chatNodeCtx) : chatNodeCtx := fold_left (fun c e => put e.1 e.2 c) m c.

(** What a template sees: a reserved name is what the records say. *)
Definition vars (c : chatNodeCtx) : Config :=
  fold_left (fun out e => if IsReserved e.1 then out else set_key e.1 e.2 out) (data c) (cc_crm c).

(** The text is empty where the loops do not end in [render_fuel] rounds: there
    the code does not return. *)
Definition processTemplate (template : string) (vars : Config) : string := default "" (Process render_fuel template vars).

Record nodeOutcome := MkOutcome { no_outcome : string; no_yield : bool }.
Definition leave (outcome : string) : nodeOutcome := MkOutcome outcome false.
Definition stay : nodeOutcome := MkOutcome "" true.

Definition Result : Type := chatNodeCtx * res err nodeOutcome.

(** ** Sending *)

Definition logSessionMessage (sessionID : uuid) (direction message stepName : string) : MC unit :=
  id <- uuid_New ;;
  best_effort (stmt no_locks (fun d => (Ok tt, set_cb_log (<[id := MkSessionMessage id sessionID direction message stepName]> (cb_log d)) d))).

(** The buttons that are answered, and the links. *)
Definition button_type (b : Config) : string := text_at b "type".
Definition reply_buttons (buttons : list Config) : list Config :=
  List.filter (fun b => negb (String.eqb (button_type b) "url") && negb (String.eqb (button_type b) "phone")) buttons.
Definition cta_button (b : Config) : option Config :=
  if String.eqb (button_type b) "url" then Some b
  else if String.eqb (button_type b) "phone" then
    let phone := text_at b "phone_number" in
    if is_empty phone then None else Some [("title", get b "title"); ("url", AString ("tel:" ++ phone)%string)]
  else None.

Fixpoint wa_buttons (i : Z) (buttons : list Config) : list (string * string) :=
  match buttons with
  | [] => []
  | b :: buttons =>
      let rest := wa_buttons (i + 1) buttons in
      if is_empty (text_at b "title") then rest
      else (if is_empty (text_at b "id") then ("btn_" ++ Itoa (i + 1))%string else text_at b "id", text_at b "title") :: rest
  end.

Fixpoint send_links (contact : Contact) (body : string) (first : bool) (links : list Config) : MC unit :=
  match links with
  | [] => ret tt
  | b :: links =>
      let title := text_at b "title" in let url := text_at b "url" in
      (if is_empty title || is_empty url then ret tt else send contact (OutCTA (if first then body else title) title url)) ;;;
      send_links contact body false links
  end.

Definition sendAndSaveInteractiveButtons (contact : Contact) (body : string) (buttons : list Config) : MC unit :=
  let replies := reply_buttons buttons in
  let links := match replies with [] => omap cta_button buttons | _ => [] end in
  let wa := wa_buttons 0 (take 10 replies) in
  (match wa with [] => ret tt | _ => send contact (OutInteractive (if Nat.ltb 3 (length wa) then "list" else "button") body wa) end) ;;;
  send_links contact body true (take 2 links) ;;;
  match replies, links with [], [] => sendAndSaveTextMessage contact body | _, _ => ret tt end.

(** A message of a node: sent, then logged; an error of the client is the node's. *)
Definition say (node : Node) (c : chatNodeCtx) (m : MC unit) (logged : string) (what : string) (then_ : nodeOutcome) : MC Result :=
  sent <- try m ;;
  match sent with
  | Err _ => ret (c, Err (ErrMsg what))
  | Ok _ => logSessionMessage (ss_ID (cc_session c)) DirectionOutgoing logged (nd_ID node) ;;; ret (c, Ok then_)
  end.

Definition say_text (node : Node) (c : chatNodeCtx) (text what : string) (then_ : nodeOutcome) : MC Result :=
  say node c (sendAndSaveTextMessage (cc_contact c) text) text what then_.

(** A message whose failure is logged only. *)
Definition try_say (node : Node) (c : chatNodeCtx) (text : string) : MC unit :=
  sent <- try (sendAndSaveTextMessage (cc_contact c) text) ;;
  match sent with
  | Err _ => ret tt
  | Ok _ => logSessionMessage (ss_ID (cc_session c)) DirectionOutgoing text (nd_ID node)
  end.

(** ** Messages and questions *)

Definition execChatMessage (node : Node) (c : chatNodeCtx) : MC Result :=
  let text := stringFromConfig (nd_Config node) ["message"; "text"] in
  if is_empty text then ret (c, Ok (leave "default"))
  else say_text node c (processTemplate text (vars c)) "send message" (leave "default").

(** The text keys of a button, rendered. *)
Definition render_button (c : chatNodeCtx) (b : Config) : Config :=
  fold_left (fun b key => match get b key with
    | AString (String x s) => set_key key (AString (processTemplate (String x s) (vars c))) b
    | _ => b
    end) ["title"; "url"; "phone_number"] b.

Definition execChatButtons (node : Node) (c : chatNodeCtx) : MC Result :=
  if negb (cc_consumed c) && negb (is_empty (cc_buttonID c)) then
    let c := consume c in
    let storeAs := stringFromConfig (nd_Config node) ["store_as"] in
    let c := if is_empty storeAs then c
             else put storeAs (AString (if is_empty (cc_userInput c) then cc_buttonID c else cc_userInput c)) c in
    ret (c, Ok (leave ("button:" ++ cc_buttonID c)))
  else
    let body := stringFromConfig (nd_Config node) ["body"; "message"; "text"] in
    let body := processTemplate (if is_empty body then nd_Label node else body) (vars c) in
    match buttonsFromConfig (nd_Config node) with
    | [] => ret (c, Err (ErrMsg ("buttons node " ++ quote (nd_ID node) ++ " has no buttons configured")%string))
    | buttons => say node c (sendAndSaveInteractiveButtons (cc_contact c) body (map (render_button c) buttons)) body "send buttons" stay
    end.

Definition set_fields_of (c : chatNodeCtx) (values : list (string * any)) : MC unit :=
  best_effort (on_fields (SetValues (wa_OrganizationID (cc_account c)) (ct_ID (cc_contact c)) FieldEntityContact
    (map (fun e => (e.1, RawAny e.2)) values) None)).

Definition saveAnswerToContactField (node : Node) (c : chatNodeCtx) (value : string) : MC unit :=
  let key := stringFromConfig (nd_Config node) ["save_to_field"] in
  if is_empty key || is_empty value then ret tt else set_fields_of c [(key, AString value)].

Definition retries (n : Z) (c : chatNodeCtx) : chatNodeCtx := set_session (set_ss_StepRetries n (cc_session c)) c.

Definition handleChatPromptInvalid (node : Node) (c : chatNodeCtx) : MC Result :=
  let c := retries (ss_StepRetries (cc_session c) + 1) c in
  if intFromConfig (nd_Config node) "max_retries" 3 <=? ss_StepRetries (cc_session c)
  then ret (retries 0 c, Ok (leave "max_retries"))
  else
    let errorMsg := stringFromConfig (nd_Config node) ["validation_error"] in
    let errorMsg := if is_empty errorMsg then "Invalid input. Please try again." else errorMsg in
    say_text node c (processTemplate errorMsg (vars c)) "send validation error" stay.

(** An expression that does not compile validates nothing. *)
Definition accepted (node : Node) (input : string) : bool :=
  let regex := stringFromConfig (nd_Config node) ["validation_regex"] in
  is_empty regex || default true (regexp_match regex input).

Definition execChatPrompt (node : Node) (c : chatNodeCtx) : MC Result :=
  let body := stringFromConfig (nd_Config node) ["body"; "message"; "text"] in
  if negb (cc_consumed c) && is_empty (cc_userInput c) then
    if is_empty body then ret (c, Err (ErrMsg ("prompt node " ++ quote (nd_ID node) ++ " has no body configured")%string))
    else say_text node c (processTemplate body (vars c)) "send prompt" stay
  else if cc_consumed c then ret (c, Ok stay)
  else
    let c := consume c in
    let input := cc_userInput c in
    if negb (accepted node input) then handleChatPromptInvalid node c
    else
      let storeAs := stringFromConfig (nd_Config node) ["store_as"] in
      let c := if is_empty storeAs then c else put storeAs (AString input) c in
      saveAnswerToContactField node c input ;;;
      ret (retries 0 c, Ok (leave "default")).

(** ** Calls *)

Definition executeConfiguredAPI (cfg : Config) (replaceVar : string -> string) : MC (option (string * Z)) :=
  let url := text_at cfg "url" in
  if is_empty url then ret None
  else
    let method := if is_empty (text_at cfg "method") then "GET" else ToUpper (text_at cfg "method") in
    let body := if is_empty (text_at cfg "body") then None else Some (replaceVar (text_at cfg "body")) in
    let headers := match get cfg "headers" with
                   | AMap m => omap (fun e => match e.2 with AString s => Some (e.1, replaceVar s) | _ => None end) m
                   | _ => []
                   end in
    outside (HTTPDo (MkRequest method (replaceVar url) body
      ([("Content-Type", "application/json"); ("Accept", "application/json")] ++ headers))).

Definition succeeded (status : Z) : bool := (200 <=? status) && (status <? 300).

(** The texts of a map of paths; [keep] leaves some out. *)
Definition paths (keep : string -> bool) (m : Config) : list (string * string) :=
  omap (fun e => match e.2 with AString s => if keep s then Some (e.1, s) else None | _ => None end) m.

(** [json.Unmarshal] of a body into a map. *)
Definition body_map (body : string) : option Config := j ← json_parse body; to_map j.

(** A panic of the path walk ends the goroutine. *)
Definition extract (resp : Config) (mapping : list (string * string)) : MC Config :=
  match ExtractResponseMapping resp mapping with Some m => ret m | None => fail (ErrMsg "panic") end.

Definition not_blank (v : any) : bool := match v with ANil => false | AString "" => false | _ => true end.

Definition applyAPIFieldMapping (node : Node) (c : chatNodeCtx) (body : string) : MC unit :=
  match get (nd_Config node) "field_mapping" with
  | AMap ((_ :: _) as m) =>
      match body_map body with
      | None => ret tt
      | Some resp =>
          extracted <- extract resp (paths (fun s => negb (is_empty s)) m) ;;
          match List.filter (fun e => not_blank e.2) extracted with
          | [] => ret tt
          | values => set_fields_of c values
          end
      end
  | _ => ret tt
  end.

Definition apply_response_mapping (node : Node) (c : chatNodeCtx) (body : string) : MC chatNodeCtx :=
  match get (nd_Config node) "response_mapping" with
  | AMap ((_ :: _) as m) =>
      match body_map body with
      | None => ret c
      | Some resp => extracted <- extract resp (paths (fun _ => true) m) ;; ret (put_all extracted c)
      end
  | _ => ret c
  end.

Definition put_phone (c : chatNodeCtx) : chatNodeCtx := put "phone_number" (AString (ss_PhoneNumber (cc_session c))) c.

Definition execChatAPICall (node : Node) (c : chatNodeCtx) : MC Result :=
  let c := put_phone c in
  answer <- executeConfiguredAPI (nd_Config node) (fun s => processTemplate s (data c)) ;;
  match answer with
  | None => ret (c, Ok (leave "http:non2xx"))
  | Some (body, status) =>
      if negb (succeeded status) then ret (c, Ok (leave "http:non2xx"))
      else
        c <- apply_response_mapping node c body ;;
        applyAPIFieldMapping node c body ;;;
        let template := stringFromConfig (nd_Config node) ["message_template"] in
        let rendered := processTemplate template (data c) in
        (if is_empty template || is_empty rendered then ret tt else try_say node c rendered) ;;;
        ret (c, Ok (leave "http:2xx"))
  end.

Definition execChatWebhook (node : Node) (c : chatNodeCtx) : MC Result :=
  let c := put_phone c in
  _ <- executeConfiguredAPI (nd_Config node) (fun s => processTemplate s (data c)) ;;
  ret (c, Ok (leave "default")).

(** ** Branches *)

(** What an expression's value counts as. *)
Definition as_bool (v : any) : bool :=
  match v with
  | ABool b => b
  | ANil => false
  | AString s => negb (is_empty s) && negb (String.eqb (ToLower s) "false")
  | AFloat x => negb (f_mant x =? 0)
  | AInt n => negb (n =? 0)
  | _ => true
  end.

Definition evaluateConditionExpression (expression : string) (vars : Config) : option bool := as_bool <$> expr_run expression vars.

Definition branch (b : bool) : nodeOutcome := leave (if b then "true" else "false").

Definition execChatCondition (node : Node) (c : chatNodeCtx) : MC Result :=
  let expression := stringFromConfig (nd_Config node) ["expression"] in
  ret (c, Ok (branch (negb (is_empty expression) && default false (evaluateConditionExpression expression (vars c))))).

Definition evaluateTimingSchedule (t : time) (sched : list any) (loc : Location) : string :=
  if IsOpen t (Parse sched) (Some loc) then "in_hours" else "out_of_hours".

Definition execChatTiming (node : Node) (c : chatNodeCtx) : MC Result :=
  t <- now ;;
  loc <- ask (OrgLocation (wa_OrganizationID (cc_account c))) ;;
  ret (c, Ok (leave (evaluateTimingSchedule t (match get (nd_Config node) "schedule" with AList l => l | _ => [] end) loc))).

(** Each value is rendered against the data so far, in the order of the map. *)
Definition assign_variable (c : chatNodeCtx) (e : string * any) : chatNodeCtx :=
  if is_empty e.1 then c
  else match e.2 with
       | AString template => put e.1 (AString (processTemplate template (data c))) c
       | v => put e.1 v c
       end.

Definition execChatSetVariable (node : Node) (c : chatNodeCtx) : MC Result :=
  match get (nd_Config node) "set" with
  | AMap ((_ :: _) as m) =>
      assignments <- ask (map_order m) ;;
      ret (fold_left assign_variable assignments c, Ok (leave "default"))
  | _ => ret (c, Ok (leave "default"))
  end.

Definition execChatAIResponse (node : Node) (c : chatNodeCtx) : MC Result :=
  settings <- try (getChatbotSettingsCached (wa_OrganizationID (cc_account c)) (wa_Name (cc_account c))) ;;
  match settings with
  | Err _ => ret (c, Ok (leave "default"))
  | Ok settings =>
      if negb (st_AIEnabled settings) || is_empty (st_AIProvider settings) || is_empty (st_AIAPIKey settings)
      then ret (c, Ok (leave "default"))
      else
        let template := stringFromConfig (nd_Config node) ["prompt_template"; "prompt"] in
        let userMessage := if is_empty template then cc_userInput c else processTemplate template (data c) in
        answer <- outside (generateAI settings (cc_session c) userMessage) ;;
        match answer with
        | None => ret (c, Ok (leave "default"))
        | Some answer =>
            if is_empty answer then ret (c, Ok (leave "default"))
            else say_text node c answer "send ai response" (leave "default")
        end
  end.

(** ** Leaving the flow *)

Definition execChatTransfer (node : Node) (c : chatNodeCtx) : MC Result :=
  let body := stringFromConfig (nd_Config node) ["body"; "message"; "text"] in
  (if is_empty body then ret tt else try_say node c (processTemplate body (vars c))) ;;;
  let rawNotes := stringFromConfig (nd_Config node) ["notes"] in
  let notes := if is_empty rawNotes then "" else processTemplate rawNotes (data c) in
  let team := stringFromConfig (nd_Config node) ["team_id"] in
  (match (if is_empty team || String.eqb team "_general" then None else uuid_Parse team) with
   | Some teamID => _ <- createTransferToTeam (cc_account c) (cc_contact c) teamID notes TransferSourceFlow ;; ret tt
   | None => createTransferToQueue (cc_account c) (cc_contact c) TransferSourceFlow
   end) ;;;
  ret (set_session (set_ss_Status SessionStatusCompleted (cc_session c)) c, Ok stay).

Definition path_key := "__path__".

Definition append_path (entry : any) (c : chatNodeCtx) : chatNodeCtx :=
  put path_key (AList (match get (data c) path_key with AList l => l | _ => [] end ++ [entry])) c.

Definition appendChatPath (node : Node) (outcome : string) (c : chatNodeCtx) : chatNodeCtx :=
  append_path (AMap [("node", AString (nd_ID node)); ("type", AString (nd_Type node)); ("label", AString (nd_Label node));
                     ("outcome", AString outcome)]) c.

(** The flow to go to, where there is one it may go to. *)
Definition goto_target (node : Node) (c : chatNodeCtx) : MC (option ChatbotFlow) :=
  let id := stringFromConfig (nd_Config node) ["flow_id"] in
  match (if is_empty id then None else uuid_Parse id) with
  | None => ret None
  | Some targetID =>
      target <- try (getChatbotFlowByIDCached (wa_OrganizationID (cc_account c)) targetID) ;;
      ret (match target with
           | Ok f => if fl_IsEnabled f && String.eqb (fl_WhatsAppAccount f) (ss_WhatsAppAccount (cc_session c)) && is_some (fl_Graph f)
                     then Some f else None
           | Err _ => None
           end)
  end.

Definition execChatGotoFlow (node : Node) (c : chatNodeCtx) : MC Result :=
  target <- goto_target node c ;;
  match target with
  | None => ret (c, Ok (leave ""))
  | Some f =>
      let c := append_path (AMap [("action", AString "goto_flow"); ("flow", AString (fl_Name f)); ("flow_id", AString (uuid_String (fl_ID f)))]) c in
      ret (set_session (set_ss_CurrentFlowID (Some (fl_ID f)) (cc_session c)) c, Ok (leave "goto"))
  end.

Definition screen_id (screens : list any) : string := match screens with AMap m :: _ => text_at m "id" | _ => "" end.

(** The first screen of a form that is known here. *)
Definition first_screen (flowID : string) : MC string :=
  waFlow <- try (query (fun d => first_row (fun f => String.eqb (wf_MetaFlowID f) flowID && is_none (wf_DeletedAt f)) unordered (cb_waflows d))) ;;
  ret (match waFlow with
       | Err _ => ""
       | Ok f =>
           let first := screen_id (wf_Screens f) in
           if negb (is_empty first) then first
           else match wf_FlowJSON f with Some j => screen_id (match get j "screens" with AList l => l | _ => [] end) | None => "" end
       end).

Definition execChatWhatsAppFlow (node : Node) (c : chatNodeCtx) : MC Result :=
  match cc_flowResponseData c, cc_consumed c with
  | (_ :: _) as answers, false => ret (put_all answers (consume c), Ok (leave "default"))
  | _, _ =>
      let flowID := stringFromConfig (nd_Config node) ["flow_id"] in
      if is_empty flowID then ret (c, Ok (leave "default"))
      else
        let text keys := processTemplate (stringFromConfig (nd_Config node) keys) (data c) in
        let body := text ["body"; "message"; "text"] in
        firstScreen <- first_screen flowID ;;
        t <- now ;;
        let token := ("chatbot_" ++ uuid_String (ss_ID (cc_session c)) ++ "_" ++ nd_ID node ++ "_" ++ Itoa t)%string in
        say node c (send (cc_contact c) (OutFlow flowID (text ["header"]) body (text ["cta"]) token firstScreen)) body "send whatsapp_flow" stay
  end.

Definition execChatEnd (node : Node) (c : chatNodeCtx) : MC Result :=
  let msg := stringFromConfig (nd_Config node) ["message"] in
  if is_empty msg then ret (c, Ok (leave ""))
  else say_text node c (processTemplate msg (data c)) "send end message" (leave "").

(** ** The CRM *)

Record crmActionSpec := MkActionSpec { cs_Type : string; cs_Config : Config }.

Definition crmActionSpecs (cfg : Config) : list crmActionSpec :=
  omap (fun m => if is_empty (text_at m "type") then None
                 else Some (MkActionSpec (text_at m "type") (match get m "config" with AMap c => c | _ => [] end)))
    (maps_of (get cfg "actions")).

Definition chatRunContext (c : chatNodeCtx) : ActionContext :=
  MkActionContext (wa_OrganizationID (cc_account c)) (ct_ID (cc_contact c)) {| actor_Type := ActorBot; actor_ID := None; actor_Name := "Chatbot" |}
    (set_key "contact" (AMap [("id", AString (uuid_String (ct_ID (cc_contact c)))); ("profile_name", AString (ct_ProfileName (cc_contact c)));
                              ("phone_number", AString (ct_PhoneNumber (cc_contact c)))]) (data c)).

(** Runs actions in order; returns whether one failed. *)
Fixpoint run_actions (rc : ActionContext) (continueOnError : bool) (specs : list crmActionSpec) : MC bool :=
  match specs with
  | [] => ret false
  | spec :: specs =>
      ok <- (if action_known (cs_Type spec) then outside (run_action rc (cs_Type spec) (cs_Config spec)) else ret false) ;;
      if ok : bool then run_actions rc continueOnError specs
      else if continueOnError then _ <- run_actions rc continueOnError specs ;; ret true
      else ret true
  end.

Definition execChatCRMAction (node : Node) (c : chatNodeCtx) : MC Result :=
  match crmActionSpecs (nd_Config node) with
  | [] => ret (c, Ok (leave "default"))
  | specs =>
      failed <- run_actions (chatRunContext c) (boolFromConfig (nd_Config node) "continue_on_error") specs ;;
      ret (c, Ok (leave (if failed : bool then "error" else "default")))
  end.

(** The node's condition: a segment's filter, or one of its own. *)
Definition crmConditionFilter (node : Node) (orgID : uuid) : MC (option Config) :=
  let raw := stringFromConfig (nd_Config node) ["segment_id"] in
  if negb (is_empty raw) then
    match uuid_Parse raw with
    | None => ret None
    | Some id =>
        segment <- try (query (fun d => first_row (fun s =>
          N.eqb (sg_OrganizationID s) orgID && N.eqb (sg_ID s) id && is_none (sg_DeletedAt s)) unordered (cb_segments d))) ;;
        ret (match segment with Ok s => Some (sg_Filter s) | Err _ => None end)
    end
  else ret (match get (nd_Config node) "filter" with AMap ((_ :: _) as m) => Some m | _ => None end).

Definition execChatCRMCondition (node : Node) (c : chatNodeCtx) : MC Result :=
  let orgID := wa_OrganizationID (cc_account c) in
  filter <- crmConditionFilter node orgID ;;
  matched <- (match filter with
              | None => ret None
              | Some f => ask (contact_matches orgID f (ct_ID (cc_contact c)))
              end) ;;
  ret (c, Ok (branch (default false matched))).

(** ** [executeChatNode] *)

Definition executors : list (string * (Node -> chatNodeCtx -> MC Result)) :=
  [(ChatNodeStart, fun _ c => ret (c, Ok (leave "default")));
   (ChatNodeMessage, execChatMessage); (ChatNodeButtons, execChatButtons); (ChatNodePrompt, execChatPrompt);
   (ChatNodeAPICall, execChatAPICall); (ChatNodeCondition, execChatCondition); (ChatNodeTiming, execChatTiming);
   (ChatNodeSetVariable, execChatSetVariable); (ChatNodeAIResponse, execChatAIResponse); (ChatNodeTransfer, execChatTransfer);
   (ChatNodeWebhook, execChatWebhook); (ChatNodeGotoFlow, execChatGotoFlow); (ChatNodeWhatsAppFlow, execChatWhatsAppFlow);
   (ChatNodeEnd, execChatEnd); (ChatNodeCRMAction, execChatCRMAction); (ChatNodeCRMCondition, execChatCRMCondition)].

Definition executeChatNode (node : Node) (c : chatNodeCtx) : MC Result :=
  match List.find (fun e => String.eqb e.1 (nd_Type node)) executors with
  | Some (_, exec) => exec node c
  | None => ret (c, Err (ErrMsg ("chat node type " ++ quote (nd_Type node) ++ " not implemented in this phase")%string))
  end.
End Nodes.
