(* ===== verification/ChatRunner.v ===== *)
(** * Running a flow ([handlers/chatbot_graph_runner.go])

    [runChatGraph] takes one message of a customer through the graph of the
    session's flow: node after node until one waits for an answer, the way
    ends, or a hundred nodes have been tried.  The session is written back
    wherever the run stops. *)
From S2P Require Import Prelude GoLib Store Events Wire Models Statements Text Triggers Fields FieldService People Schedule.
From S2P Require Import Placeholders Templating CRMContext Transfers ChatModels Handoff FlowGraph ChatNodes.

Section Runner.
Context `{SQ : Sql} `{GJ : GoJson} `{FS : FieldsServer} `{CE : !ContextEnv} `{CH : !ChatEnv}.

Abbreviation MC := (M ChatDB).

Definition maxChatGraphIterations : nat := 100.

Definition errChatGraphRunaway := ErrSentinel "chat graph: too many non-blocking nodes in a single inbound (cycle?)".

(** ** Writing the session *)

Definition PublishEvent (e : Event) : MC unit := best_effort (on_tables (PublishTx e)).

Definition publishFlowCompleted (s : ChatbotSession) : MC unit :=
  id <- uuid_New ;;
  t <- now ;;
  let flow := match ss_CurrentFlowID s with Some f => [("flow_id", AString (uuid_String f))] | None => [] end in
  let e := New_event id t (ss_OrganizationID s) "chatbot.flow_completed" SystemActor ([("session_id", AString (uuid_String (ss_ID s)))] ++ flow) in
  PublishEvent (if N.eqb (ss_ContactID s) uuid_Nil then e else ForContact (ss_ContactID s) e).

(** [db.Save(s)]: every column of the row with this primary key. *)
Definition save_session (s : ChatbotSession) : MC unit :=
  stmt no_locks (fun d => let t := tables_of d in
    (Ok tt, set_context_tables (set_db_sessions (<[ss_ID s := s]> (db_sessions t)) t) d)).

(** Finished by this write, and not by an earlier one. *)
Definition justCompleted (s : ChatbotSession) : bool := bool_decide (ss_Status s = SessionStatusCompleted) && is_none (ss_CompletedAt s).

Definition stamped (t : time) (s : ChatbotSession) : ChatbotSession :=
  let s' := set_ss_LastActivityAt t s in if justCompleted s then set_ss_CompletedAt (Some t) s' else s'.

Definition persistChatSession (s : ChatbotSession) : MC ChatbotSession :=
  t <- now ;;
  save_session (stamped t s) ;;;
  (if justCompleted s then publishFlowCompleted (stamped t s) else ret tt) ;;;
  ret (stamped t s).

(** ** When a flow ends *)

Definition panel_fields (flow : ChatbotFlow) : list Config :=
  flat_map (fun section => maps_of (get section "fields")) (maps_of (get (fl_PanelConfig flow) "sections")).

(** A later field for the same target replaces an earlier one. *)
Definition panel_values (flow : ChatbotFlow) (c : chatNodeCtx) : Config :=
  fold_left (fun values field =>
    let target := text_at field "save_to_field" in let key := text_at field "key" in
    if is_empty target || is_empty key || negb (not_blank (get (data c) key)) then values
    else set_key target (get (data c) key) values) (panel_fields flow) [].

Definition syncPanelFieldsToContact (flow : ChatbotFlow) (c : chatNodeCtx) : MC unit :=
  match panel_values flow c with [] => ret tt | values => set_fields_of c values end.

(** The body is the session's variables and who they are about; only that it is posted matters here. *)
Definition postFlowCompletion (flow : ChatbotFlow) (c : chatNodeCtx) : MC unit :=
  let url := stringFromConfig (fl_CompletionConfig flow) ["url"] in
  if is_empty url then ret tt
  else
    ok <- ask (ValidateURL url) ;;
    t <- now ;;
    let payload := AMap [("flow_id", AString (uuid_String (fl_ID flow))); ("flow_name", AString (fl_Name flow));
      ("session_id", AString (uuid_String (ss_ID (cc_session c)))); ("contact_id", AString (uuid_String (ct_ID (cc_contact c))));
      ("contact_name", AString (ct_ProfileName (cc_contact c))); ("phone_number", AString (ct_PhoneNumber (cc_contact c)));
      ("variables", AMap (data c)); ("completed_at", ATime t)] in
    if negb ok || negb (marshals payload) then ret tt
    else
      _ <- outside (HTTPDo (MkRequest "POST" url (Some (json_text (json_of payload)))
        (("Content-Type", "application/json") :: match get (fl_CompletionConfig flow) "headers" with
                                                  | AMap m => paths (fun _ => true) m | _ => [] end))) ;;
      ret tt.

(** What the customer answered: all but the runner's own keys. *)
Definition answers (c : chatNodeCtx) : Config := List.filter (fun e => negb (String.prefix "__" e.1)) (data c).

Definition update_metadata (contactID : uuid) (m : Config) : MC unit :=
  stmt no_locks (fun d => let f := fields_of d in
    (Ok tt, set_fields (MkFieldsDB (fd_defs f) (fd_values f) (fd_segments f) (fd_rules f)
      (update_where (fun r => N.eqb (cm_ID r) contactID && is_none (cm_DeletedAt r))
         [fun r => MkContactMeta (cm_ID r) (cm_DeletedAt r) (cm_OrganizationID r) m] (fd_contacts f))) d)).

Definition storeFlowAnswers (flow : ChatbotFlow) (c : chatNodeCtx) : MC unit :=
  match answers c with
  | [] => ret tt
  | kept =>
      t <- now ;;
      let responses := match get (cc_metadata c) "flow_responses" with AMap m => m | _ => [] end in
      let answer := AMap [("flow_id", AString (uuid_String (fl_ID flow))); ("answers", AMap kept); ("completed_at", AString (RFC3339 t))] in
      best_effort (update_metadata (ct_ID (cc_contact c))
        (set_key "flow_responses" (AMap (set_key (fl_Name flow) answer responses)) (cc_metadata c)))
  end.

Definition completion_say (c : chatNodeCtx) (text : string) : MC unit :=
  sent <- try (sendAndSaveTextMessage (cc_contact c) text) ;;
  match sent with
  | Err _ => ret tt
  | Ok _ => logSessionMessage (ss_ID (cc_session c)) DirectionOutgoing text "completion"
  end.

Definition finishChatFlow (flow : ChatbotFlow) (c : chatNodeCtx) : MC unit :=
  syncPanelFieldsToContact flow c ;;;
  (let msg := TrimSpace (fl_CompletionMessage flow) in
   if is_empty msg then ret tt else completion_say c (processTemplate msg (data c))) ;;;
  (if String.eqb (fl_OnCompleteAction flow) "webhook" then postFlowCompletion flow c
   else if String.eqb (fl_OnCompleteAction flow) "create_record" then storeFlowAnswers flow c
   else ret tt).

(** ** The loop *)

(** A run returns its session as last written, and the error if there is one. *)
Definition Outcome_ : Type := ChatbotSession * option err.

Definition finish_with (s : ChatbotSession) (e : option err) : MC Outcome_ :=
  saved <- try (persistChatSession s) ;;
  ret (match saved, e with
       | Ok s', _ => (s', e)
       | Err x, None => (s, Some x)
       | Err _, Some _ => (s, e)
       end).

Definition complete (flow : ChatbotFlow) (c : chatNodeCtx) : MC Outcome_ :=
  let c := set_session (set_ss_Status SessionStatusCompleted (cc_session c)) c in
  finishChatFlow flow c ;;; finish_with (cc_session c) None.

Definition move_to (step : string) (c : chatNodeCtx) : chatNodeCtx := set_session (set_ss_CurrentStep step (cc_session c)) c.

(** Whether a node is to be passed over. *)
Definition skips (node : Node) (c : chatNodeCtx) : bool :=
  let expression := stringFromConfig (nd_Config node) ["skip_condition"] in
  negb (is_empty expression) && default false (evaluateConditionExpression expression (vars c)).

(** The flow a node has switched the session to, and its graph. *)
Definition switched (flow : ChatbotFlow) (c : chatNodeCtx) : option uuid :=
  match ss_CurrentFlowID (cc_session c) with
  | Some id => if N.eqb id (fl_ID flow) then None else Some id
  | None => None
  end.

Definition load_switched (c : chatNodeCtx) (id : uuid) : MC (res err (ChatbotFlow * Graph)) :=
  r <- try (getChatbotFlowByIDCached (wa_OrganizationID (cc_account c)) id) ;;
  ret (match r with
       | Err _ => Err (ErrMsg "goto_flow: load target")
       | Ok f => match fl_Graph f, parseChatGraph (fl_Graph f) with
                 | None, _ => Err (ErrMsg "goto_flow: target flow has no v2 graph")
                 | _, Ok (Some g) => Ok (f, g)
                 | _, _ => Err (ErrMsg "goto_flow: parse target graph")
                 end
       end).

Fixpoint run_loop (fuel : nat) (flow : ChatbotFlow) (graph : Graph) (c : chatNodeCtx) : MC Outcome_ :=
  match fuel with
  | O => finish_with (cc_session c) (Some errChatGraphRunaway)
  | S fuel =>
      match node_at graph (ss_CurrentStep (cc_session c)) with
      | None => ret (cc_session c, Some (ErrMsg ("node " ++ quote (ss_CurrentStep (cc_session c)) ++ " not found")%string))
      | Some node =>
          if skips node c then
            let c := appendChatPath node "skipped" c in
            let next := ResolveEdge graph (nd_ID node) "default" in
            if is_empty next then complete flow c else run_loop fuel flow graph (move_to next c)
          else
            r <- executeChatNode node c ;;
            match r with
            | (c, Err e) => finish_with (cc_session c) (Some e)
            | (c, Ok outcome) =>
                let c := appendChatPath node (no_outcome outcome) c in
                if no_yield outcome then finish_with (cc_session c) None
                else match switched flow c with
                | Some id =>
                    target <- load_switched c id ;;
                    match target with
                    | Err e => finish_with (cc_session c) (Some e)
                    | Ok (flow, graph) => run_loop fuel flow graph (move_to (gr_EntryNode graph) c)
                    end
                | None =>
                    let next := ResolveEdge graph (nd_ID node) (no_outcome outcome) in
                    if is_empty next then complete flow c else run_loop fuel flow graph (move_to next c)
                end
            end
      end
  end.

(** The variables of a session that every flow has. *)
Definition seed_variables (contact : Contact) (s : ChatbotSession) : ChatbotSession :=
  set_ss_SessionData (set_key "contact_name" (AString (ct_ProfileName contact))
    (set_key "phone_number" (AString (ss_PhoneNumber s)) (ss_SessionData s))) s.

(** The namespace of the records; without it the flow runs on session data. *)
Definition crm_of (contact : Contact) : MC Config :=
  crm <- try (on_context (Build (ct_OrganizationID contact) (MkOpts (ct_ID contact) None None true [] None None))) ;;
  ret (match crm with Ok m => WithLegacyAliases m | Err _ => [] end).

Definition runChatGraph (account : WhatsAppAccount) (contact : Contact) (metadata : Config) (session : ChatbotSession) (flow : ChatbotFlow)
    (userInput buttonID : string) (flowResponseData : Config) : MC Outcome_ :=
  match parseChatGraph (fl_Graph flow) with
  | Err _ => ret (session, Some (ErrMsg "parse chat graph"))
  | Ok None => ret (session, Some (ErrMsg "flow has no v2 graph; legacy executor should have run"))
  | Ok (Some graph) =>
      let session := seed_variables contact session in
      crm <- crm_of contact ;;
      let start := is_empty (ss_CurrentStep session) in
      let session := if start then set_ss_CurrentStep (gr_EntryNode graph) session else session in
      run_loop maxChatGraphIterations flow graph
        (MkCtx account contact metadata session (if start then "" else userInput) (if start then "" else buttonID)
           flowResponseData false crm)
  end.
End Runner.
