(* ===== verification/ChatProcessor.v ===== *)
(** * Answering a message ([handlers/chatbot_processor.go])

    What becomes of a customer's message once it is stored: nothing while a
    person has the contact, a word about the hours, a transfer, a turn of the
    flow the session is in, a new flow, a greeting, a keyword's reply, the
    language model, or the fallback - and the life of the sessions. *)
From S2P Require Import Prelude GoLib Store Events Wire Models Statements Text Triggers Fields FieldService People Schedule.
From S2P Require Import Placeholders Templating CRMContext Transfers ChatModels Handoff FlowGraph ChatNodes ChatRunner.

Section Processor.
Context `{SQ : Sql} `{GJ : GoJson} `{FS : FieldsServer} `{CE : !ContextEnv} `{CH : !ChatEnv}.

Abbreviation MC := (M ChatDB).

(** ** Keywords *)

Definition ResponseTypeTransfer := "transfer".

Record KeywordResponse := MkKeywordResponse { kp_Body : string; kp_Buttons : list Config; kp_ResponseType : string; kp_Actions : list crmActionSpec }.

Definition keywordRuleActions (rule : KeywordRule) : list crmActionSpec :=
  match get (kr_Actions rule) "list" with AList ((_ :: _) as l) => crmActionSpecs [("actions", AList l)] | _ => [] end.

(** A text against a keyword, with and without regard to case. *)
Definition compare_text (caseSensitive : bool) (cmp : string -> string -> bool) (text keyword : string) : bool :=
  if caseSensitive then cmp text keyword else cmp (ToLower text) (ToLower keyword).

Definition keyword_matches (rule : KeywordRule) (text keyword : string) : bool :=
  let with_case := compare_text (kr_CaseSensitive rule) in
  if String.eqb (kr_MatchType rule) "exact" then with_case String.eqb text keyword
  else if String.eqb (kr_MatchType rule) "contains" then with_case Contains text keyword
  else if String.eqb (kr_MatchType rule) "starts_with" then with_case (fun t k => String.prefix k t) text keyword
  else if String.eqb (kr_MatchType rule) "regex" then default false (regexp_match keyword text)
  else Contains (ToLower text) (ToLower keyword).

(** A rule that has no text to answer with is passed over, unless it transfers. *)
Definition rule_response (rule : KeywordRule) : option KeywordResponse :=
  let body := text_at (kr_ResponseContent rule) "body" in
  if String.eqb (kr_ResponseType rule) ResponseTypeTransfer
  then Some (MkKeywordResponse body [] (kr_ResponseType rule) (keywordRuleActions rule))
  else if is_empty body then None
  else Some (MkKeywordResponse body (maps_of (get (kr_ResponseContent rule) "buttons")) (kr_ResponseType rule) (keywordRuleActions rule)).

Fixpoint first_response (text : string) (rules : list KeywordRule) : option KeywordResponse :=
  match rules with
  | [] => None
  | rule :: rules =>
      match (if existsb (keyword_matches rule text) (kr_Keywords rule) then rule_response rule else None) with
      | Some r => Some r
      | None => first_response text rules
      end
  end.

Definition matchKeywordRules (orgID : uuid) (account text : string) : MC (option KeywordResponse) :=
  rules <- getKeywordRulesCached orgID account ;; ret (first_response text rules).

Definition runKeywordActions (account : WhatsAppAccount) (contact : Contact) (session : ChatbotSession) (specs : list crmActionSpec) : MC unit :=
  match specs with
  | [] => ret tt
  | _ => _ <- run_actions (chatRunContext (MkCtx account contact [] session "" "" [] false [])) true specs ;; ret tt
  end.

(** ** Sessions *)

Definition ClearContactChatbotTracking (contactID : uuid) : MC unit :=
  best_effort (stmt no_locks (fun d => let t := tables_of d in
    (Ok tt, set_context_tables (set_db_contacts
      (update_where (fun c => N.eqb (ct_ID c) contactID && live (ct_DeletedAt c))
         [set_ct_ChatbotLastMessageAt None; set_ct_ChatbotReminderSent false] (db_contacts t)) t) d))).

(** An active session of the contact with this account that was used after [timeout]. *)
Definition session_in_use (orgID contactID : uuid) (account : string) (timeout : time) (s : ChatbotSession) : bool :=
  active_session orgID contactID s && String.eqb (ss_WhatsAppAccount s) account && (timeout <? ss_LastActivityAt s).

Definition by_id (id : uuid) (s : ChatbotSession) : bool := N.eqb (ss_ID s) id && live (ss_DeletedAt s).

Definition new_session (id : uuid) (t : time) (orgID contactID : uuid) (account phone : string) : ChatbotSession :=
  MkChatbotSession id None orgID contactID account phone SessionStatusActive None "" 0 [] t t None.

Definition getOrCreateSession (orgID contactID : uuid) (account phone : string) (timeoutMins : Z) : MC (ChatbotSession * bool) :=
  t <- now ;;
  let timeout := t - wrap64 (timeoutMins * Minute) in
  r <- try (query (fun d => first_row (session_in_use orgID contactID account timeout) unordered (db_sessions (tables_of d)))) ;;
  match r with
  | Ok s =>
      best_effort (update_sessions (by_id (ss_ID s)) [set_ss_LastActivityAt t]) ;;;
      ret (set_ss_LastActivityAt t s, false)
  | Err _ =>
      id <- uuid_New ;;
      let s := new_session id t orgID contactID account phone in
      best_effort (save_session s) ;;;
      ret (s, true)
  end.

(** What ends a session, but for the status it gets. *)
Definition ending (status : SessionStatus) (t : time) : list (ChatbotSession -> ChatbotSession) :=
  [set_ss_CurrentStep ""; set_ss_StepRetries 0; set_ss_Status status; set_ss_CompletedAt (Some t)].

Definition exitFlow (s : ChatbotSession) : MC unit :=
  t <- now ;;
  best_effort (update_sessions (by_id (ss_ID s)) (ending SessionStatusCompleted t)) ;;;
  ClearContactChatbotTracking (ss_ContactID s).

Definition matchesCancelKeyword (flow : ChatbotFlow) (input : string) : bool :=
  let text := ToLower (TrimSpace input) in
  negb (is_empty text) &&
  existsb (fun kw => let k := ToLower (TrimSpace kw) in negb (is_empty k) && String.eqb text k) (fl_CancelKeywords flow).

(** The flow's farewell, logged as [what]. *)
Definition say_goodbye (contact : Contact) (sessionID : uuid) (flow : ChatbotFlow) (what : string) : MC unit :=
  let msg := TrimSpace (fl_TimeoutMessage flow) in
  if is_empty msg then ret tt
  else
    sent <- try (sendAndSaveTextMessage contact msg) ;;
    match sent with Err _ => ret tt | Ok _ => logSessionMessage sessionID DirectionOutgoing msg what end.

Definition cancelChatSession (contact : Contact) (s : ChatbotSession) (flow : ChatbotFlow) : MC unit :=
  t <- now ;;
  best_effort (update_sessions (by_id (ss_ID s)) (ending SessionStatusCancelled t)) ;;;
  say_goodbye contact (ss_ID s) flow "cancelled" ;;;
  ClearContactChatbotTracking (ss_ContactID s).

(** The account of the farewell is looked up by name ([account_known]). *)
Definition timeoutChatSession (account_known : uuid -> string -> bool) (s : ChatbotSession) : MC unit :=
  t <- now ;;
  r <- try (update_sessions (by_id (ss_ID s)) (ending SessionStatusTimeout t)) ;;
  match r with
  | Err _ => ret tt
  | Ok _ =>
      ClearContactChatbotTracking (ss_ContactID s) ;;;
      match ss_CurrentFlowID s with
      | None => ret tt
      | Some flowID =>
          flow <- try (getChatbotFlowByIDCached (ss_OrganizationID s) flowID) ;;
          match flow with
          | Err _ => ret tt
          | Ok flow =>
              if is_empty (TrimSpace (fl_TimeoutMessage flow)) then ret tt
              else
                contact <- try (query (fun d => first_row (fun c => N.eqb (ct_ID c) (ss_ContactID s) && live (ct_DeletedAt c)) unordered
                                                 (db_contacts (tables_of d)))) ;;
                match contact with
                | Err _ => ret tt
                | Ok contact => if account_known (ss_OrganizationID s) (ss_WhatsAppAccount s) then say_goodbye contact (ss_ID s) flow "timeout" else ret tt
                end
          end
      end
  end.

Definition stale_session (orgID : uuid) (cutoff : time) (s : ChatbotSession) : bool :=
  N.eqb (ss_OrganizationID s) orgID && bool_decide (ss_Status s = SessionStatusActive) && (ss_LastActivityAt s <? cutoff) && live (ss_DeletedAt s).

Fixpoint each {A} (f : A -> MC unit) (l : list A) : MC unit :=
  match l with [] => ret tt | x :: l => f x ;;; each f l end.

Definition timeout_of (account_known : uuid -> string -> bool) (s : ChatbotSettings) : MC unit :=
  let minutes := st_SessionTimeoutMins s in
  if minutes <=? 0 then ret tt
  else
    t <- now ;;
    stale <- try (query (fun d => Ok (find_rows (stale_session (st_OrganizationID s) (t - wrap64 (minutes * Minute))) (Some 500%nat)
                                        (db_sessions (tables_of d))))) ;;
    match stale with Err _ => ret tt | Ok stale => each (timeoutChatSession account_known) stale end.

Definition TimeoutStaleChatSessions (account_known : uuid -> string -> bool) : MC unit :=
  settings <- query (fun d => Ok (find_rows (fun s => is_none (st_DeletedAt s)) None (cb_settings d))) ;;
  each (timeout_of account_known) settings.

(** ** The answer to a message *)

Definition matchFlowTrigger (orgID : uuid) (text : string) : MC (option ChatbotFlow) :=
  flows <- try (getChatbotFlowsCached orgID) ;;
  ret (match flows with
       | Err _ => None
       | Ok flows => List.find (fun f => existsb (fun k => Contains (ToLower text) (ToLower k)) (fl_TriggerKeywords f)) flows
       end).

(** Buttons where there are any, else the text; an error is logged. *)
Definition reply (contact : Contact) (text : string) (buttons : list Config) : MC unit :=
  best_effort (match buttons with [] => sendAndSaveTextMessage contact text | _ => sendAndSaveInteractiveButtons contact text buttons end).

Definition reply_logged (contact : Contact) (s : ChatbotSession) (text : string) (buttons : list Config) (what : string) : MC unit :=
  reply contact text buttons ;;; logSessionMessage (ss_ID s) DirectionOutgoing text what.

(** An error of the runner is logged. *)
Definition run_flow (account : WhatsAppAccount) (contact : Contact) (metadata : Config) (s : ChatbotSession) (flow : ChatbotFlow)
    (text buttonID : string) (answers : Config) : MC unit :=
  _ <- runChatGraph account contact metadata s flow text buttonID answers ;; ret tt.

(** A session that is in a flow. *)
Definition continue_flow (account : WhatsAppAccount) (contact : Contact) (metadata : Config) (s : ChatbotSession) (flowID : uuid)
    (text buttonID : string) (answers : Config) : MC unit :=
  r <- try (getChatbotFlowByIDCached (wa_OrganizationID account) flowID) ;;
  match r with
  | Err _ => exitFlow s
  | Ok flow =>
      if is_none (fl_Graph flow) then exitFlow s
      else if matchesCancelKeyword flow text then cancelChatSession contact s flow
      else run_flow account contact metadata s flow text buttonID answers
  end.

(** The session as a flow starts in it. *)
Definition entering (flow : ChatbotFlow) (s : ChatbotSession) : ChatbotSession :=
  set_ss_SessionData [("_flow_id", AString (uuid_String (fl_ID flow))); ("_flow_name", AString (fl_Name flow))]
    (set_ss_StepRetries 0 (set_ss_CurrentStep "" (set_ss_CurrentFlowID (Some (fl_ID flow)) s))).

Definition ai_answer (settings : ChatbotSettings) (s : ChatbotSession) (text : string) : MC (option string) :=
  if st_AIEnabled settings && negb (is_empty (st_AIProvider settings)) && negb (is_empty (st_AIAPIKey settings))
  then answer <- outside (generateAI settings s text) ;;
       ret (match answer with Some a => if is_empty a then None else Some a | None => None end)
  else ret None.

(** Where no flow has the message: the greeting of a new session, a keyword's
    reply, the model, the fallback. *)
Definition answer_freely (account : WhatsAppAccount) (contact : Contact) (settings : ChatbotSettings) (s : ChatbotSession) (isNew : bool)
    (keyword : option KeywordResponse) (text : string) : MC unit :=
  if isNew && negb (is_empty (st_DefaultResponse settings))
  then reply_logged contact s (st_DefaultResponse settings) (maps_of (AList (st_GreetingButtons settings))) "greeting"
  else match keyword with
  | Some k =>
      reply_logged contact s (kp_Body k) (kp_Buttons k) "keyword_response" ;;;
      runKeywordActions account contact s (kp_Actions k)
  | None =>
      answer <- ai_answer settings s text ;;
      match answer with
      | Some a => reply_logged contact s a [] "ai_response"
      | None =>
          if negb (is_empty (st_FallbackMessage settings)) && negb isNew
          then reply_logged contact s (st_FallbackMessage settings) (maps_of (AList (st_FallbackButtons settings))) "fallback_response"
          else ret tt
      end
  end.

(** A keyword that asks for a person. *)
Definition transfer_by_keyword (account : WhatsAppAccount) (contact : Contact) (settings : ChatbotSettings) (s : ChatbotSession)
    (k : KeywordResponse) : MC unit :=
  closed <- outside_hours (wa_OrganizationID account) settings ;;
  if closed : bool then say_out_of_hours contact settings
  else
    (if is_empty (kp_Body k) then ret tt else best_effort (sendAndSaveTextMessage contact (kp_Body k))) ;;;
    runKeywordActions account contact s (kp_Actions k) ;;;
    createTransferFromKeyword account contact.

Definition is_transfer (k : KeywordResponse) : bool := String.eqb (kp_ResponseType k) ResponseTypeTransfer.

(** The chatbot's turn: it is on, and the message has a text. *)
Definition take_turn (account : WhatsAppAccount) (contact : Contact) (metadata : Config) (settings : ChatbotSettings)
    (phone text buttonID : string) (answers : Config) : MC unit :=
  r <- getOrCreateSession (wa_OrganizationID account) (ct_ID contact) (wa_Name account) phone (st_SessionTimeoutMins settings) ;;
  let '(s, isNew) := r in
  logSessionMessage (ss_ID s) DirectionIncoming text "keyword_check" ;;;
  keyword <- matchKeywordRules (wa_OrganizationID account) (wa_Name account) text ;;
  match (k ← keyword; if is_transfer k then Some k else None) with
  | Some k => transfer_by_keyword account contact settings s k
  | None =>
      match ss_CurrentFlowID s with
      | Some flowID => continue_flow account contact metadata s flowID text buttonID answers
      | None =>
          flow <- matchFlowTrigger (wa_OrganizationID account) text ;;
          match flow with
          | Some flow =>
              if is_none (fl_Graph flow) then ret tt
              else run_flow account contact metadata (entering flow s) flow text buttonID answers
          | None => answer_freely account contact settings s isNew keyword text
          end
      end
  end.

(** [processIncomingMessageFull] from where the message has been stored; the
    customer wrote from [phone]. *)
Definition processIncomingMessage (account : WhatsAppAccount) (contact : Contact) (metadata : Config)
    (phone text buttonID : string) (answers : Config) : MC unit :=
  ClearContactChatbotTracking (ct_ID contact) ;;;
  active <- hasActiveAgentTransfer (wa_OrganizationID account) (ct_ID contact) ;;
  if active : bool then ret tt
  else
    r <- try (getChatbotSettingsCached (wa_OrganizationID account) (wa_Name account)) ;;
    match r with
    | Err _ => ret tt
    | Ok settings =>
        if negb (st_IsEnabled settings) then createTransferToQueue account contact TransferSourceChatbotDisabled
        else
          closed <- outside_hours (wa_OrganizationID account) settings ;;
          if (closed : bool) && negb (st_AllowAutomatedOutside settings) then say_out_of_hours contact settings
          else if is_empty text then ret tt
          else take_turn account contact metadata settings phone text buttonID answers
    end.
End Processor.
