(* ===== verification/ChatSteps.v ===== *)
(** * What a node does to a run

    The contract of the executors of [ChatNodes.v], type by type: which
    outcomes a node can leave with, when it waits, when it takes the
    customer's message - and what of the session it may touch. *)
From S2P Require Import Prelude GoLib Store Events Wire Models Statements Text Triggers Fields FieldService People Schedule.
From S2P Require Import Placeholders Templating CRMContext Assignment Transfers ChatModels Handoff FlowGraph ChatNodes ChatRunner.

(** ** Postconditions of what a computation returns *)

Definition ensures {DB A} (m : M DB A) (Q : A -> Prop) : Prop := forall w a w', m w = (Ok a, w') -> Q a.

Section Ensures.
Context {DB : Type}.

Lemma ensures_ret {A} (a : A) (Q : A -> Prop) : Q a -> ensures (@ret DB A a) Q.
Proof. by intros Ha w b w' [-> _]%ret_ok_inv. Qed.

Lemma ensures_bind {A B} (m : M DB A) (k : A -> M DB B) P Q :
  ensures m P -> (forall a, P a -> ensures (k a) Q) -> ensures (bind m k) Q.
Proof. intros Hm Hk w b w' (a & w1 & E1 & E2)%bind_ok_inv. by eapply Hk; [eapply Hm|]. Qed.

Lemma ensures_then {A B} (m : M DB A) (k : A -> M DB B) Q : (forall a, ensures (k a) Q) -> ensures (bind m k) Q.
Proof. intros Hk. by apply (ensures_bind _ _ (fun _ => True)). Qed.

Lemma ensures_try {A} (m : M DB A) (Q : A -> Prop) :
  ensures m Q -> ensures (try m) (fun r => match r with Ok a => Q a | Err _ => True end).
Proof. intros Hm w [a|e] w' E%try_ok_inv; [by eapply Hm|done]. Qed.

Lemma ensures_fail {A} e (Q : A -> Prop) : ensures (@fail DB A e) Q.
Proof. by intros w a w' E. Qed.
End Ensures.

(** Down to what is returned. *)
Ltac ensures_step :=
  lazymatch goal with
  | |- ensures (ret _) _ => apply ensures_ret
  | |- ensures (fail _) _ => apply ensures_fail
  | |- ensures (bind _ _) _ => first [eapply ensures_bind; [solve [eauto with chat]|intros ? ?] | apply ensures_then; intros ?]
  | |- ensures (match ?x with _ => _ end) _ => destruct x eqn:?
  | |- ensures (let _ := _ in _) _ => cbv zeta
  end.

Create HintDb chat.

(** ** The contract *)

(** What the customer's message has for a question. *)
Record Message := MkMessage { ms_text : string; ms_button : string; ms_answers : Config }.

(** How a node ends its turn. *)
Inductive act :=
| Waits                                   (** for the next message *)
| HandsOver                               (** to a person *)
| Leaves (taken : bool) (outcome : string)  (** by an outcome, with the message taken or not *)
| Jumps (id : uuid).                      (** to a flow *)

(** The nodes that ask nothing, and what they can say. *)
Definition plain_outcomes : list (string * list string) :=
  [(ChatNodeStart, ["default"]); (ChatNodeMessage, ["default"]); (ChatNodeSetVariable, ["default"]); (ChatNodeAIResponse, ["default"]);
   (ChatNodeWebhook, ["default"]); (ChatNodeAPICall, ["http:2xx"; "http:non2xx"]); (ChatNodeCondition, ["true"; "false"]);
   (ChatNodeTiming, ["in_hours"; "out_of_hours"]); (ChatNodeGotoFlow, [""]); (ChatNodeEnd, [""]);
   (ChatNodeCRMAction, ["default"; "error"]); (ChatNodeCRMCondition, ["true"; "false"])].

Definition questions : list string := [ChatNodeButtons; ChatNodePrompt; ChatNodeWhatsAppFlow].

Section Contract.
Context `{CH : ChatEnv}.

(** [fresh]: the message has not been taken yet. *)
Inductive does (m : Message) (fresh : bool) (node : Node) : act -> Prop :=
| does_pass outs o : (nd_Type node, outs) ∈ plain_outcomes -> o ∈ outs -> does m fresh node (Leaves false o)
| does_wait : nd_Type node ∈ questions -> does m fresh node Waits
| does_hand_over : nd_Type node = ChatNodeTransfer -> does m fresh node HandsOver
| does_jump id : nd_Type node = ChatNodeGotoFlow -> does m fresh node (Jumps id)
| does_button : nd_Type node = ChatNodeButtons -> fresh = true -> ms_button m <> "" ->
    does m fresh node (Leaves true ("button:" ++ ms_button m))
| does_answer : nd_Type node = ChatNodePrompt -> fresh = true -> ms_text m <> "" ->
    does m fresh node (Leaves true (if accepted node (ms_text m) then "default" else "max_retries"))
| does_form : nd_Type node = ChatNodeWhatsAppFlow -> fresh = true -> ms_answers m <> [] -> does m fresh node (Leaves true "default")
| does_no_form : nd_Type node = ChatNodeWhatsAppFlow -> stringFromConfig (nd_Config node) ["flow_id"] = "" ->
    does m fresh node (Leaves false "default").

Definition message_of (c : chatNodeCtx) : Message := MkMessage (cc_userInput c) (cc_buttonID c) (cc_flowResponseData c).

(** ** What stays *)

(** Of a session only the variables and the count of retries change. *)
Definition progress (s s' : ChatbotSession) : Prop := exists d n, s' = set_ss_SessionData d (set_ss_StepRetries n s).

#[export] Instance progress_preorder : PreOrder progress.
Proof.
  split; [intros s; exists (ss_SessionData s), (ss_StepRetries s); by destruct s|].
  intros a b c (d & n & ->) (d' & n' & ->). exists d', n'. by destruct a.
Qed.

Record works (c c' : chatNodeCtx) : Prop := MkWorks {
  works_account : cc_account c' = cc_account c;
  works_contact : cc_contact c' = cc_contact c;
  works_metadata : cc_metadata c' = cc_metadata c;
  works_message : message_of c' = message_of c;
  works_crm : cc_crm c' = cc_crm c;
  works_fresh : cc_consumed c' = cc_consumed c;
  works_session : progress (cc_session c) (cc_session c')
}.

#[export] Instance works_preorder : PreOrder works.
Proof.
  split; [by intros c|]. intros a b c [] []. split; try congruence. by etrans.
Qed.

Definition did (c : chatNodeCtx) (a : act) (c' : chatNodeCtx) : Prop :=
  match a with
  | Waits => works c c' \/ works (consume c) c'
  | HandsOver => exists c1, works c c1 /\ c' = set_session (set_ss_Status SessionStatusCompleted (cc_session c1)) c1
  | Leaves false _ => works c c'
  | Leaves true _ => works (consume c) c'
  | Jumps id => exists c1, works c c1 /\ c' = set_session (set_ss_CurrentFlowID (Some id) (cc_session c1)) c1
  end.

Definition outcome_of (a : act) : nodeOutcome :=
  match a with Waits | HandsOver => stay | Leaves _ o => leave o | Jumps _ => leave "goto" end.

(** What an executor may return for a node. *)
Definition keeps_contract (node : Node) (c : chatNodeCtx) (r : Result) : Prop :=
  match r with
  | (c', Err e) => (works c c' \/ works (consume c) c') /\ exists s, e = ErrMsg s
  | (c', Ok o) => exists a, does (message_of c) (negb (cc_consumed c)) node a /\ did c a c' /\ o = outcome_of a
  end.

(** *** Writing variables *)

Lemma put_works k v c : works c (put k v c).
Proof. split; try done. exists (set_key k v (data c)), (ss_StepRetries (cc_session c)). cbn. by destruct (cc_session c). Qed.

Lemma retries_works n c : works c (retries n c).
Proof. split; try done. exists (data c), n. unfold data. cbn. by destruct (cc_session c). Qed.

Lemma fold_works {A} (f : chatNodeCtx -> A -> chatNodeCtx) l c : (forall c a, works c (f c a)) -> works c (fold_left f l c).
Proof. intros Hf. revert c. induction l as [|a l IH]; intros c; [done|]. cbn. by etrans; [apply Hf|]. Qed.

Lemma put_all_works m c : works c (put_all m c).
Proof. apply fold_works. intros. apply put_works. Qed.

Lemma assign_works c e : works c (assign_variable c e).
Proof. unfold assign_variable. destruct (is_empty _); [done|]. destruct e.2; apply put_works. Qed.

Lemma append_path_works e c : works c (append_path e c).
Proof. apply put_works. Qed.
End Contract.

#[export] Hint Resolve put_works retries_works put_all_works append_path_works : chat.
#[export] Hint Extern 5 (_ ∈ _) => vm_compute; repeat constructor : chat.

(** ** Every executor keeps the contract *)

Section Executors.
Context `{SQ : Sql} `{GJ : GoJson} `{FS : FieldsServer} `{CE : !ContextEnv} `{CH : !ChatEnv}.

Abbreviation MC := (M ChatDB).
Abbreviation contract node c m := (ensures m (keeps_contract node c)).

Lemma passes_by node c c' outs o :
  (nd_Type node, outs) ∈ plain_outcomes -> o ∈ outs -> works c c' -> keeps_contract node c (c', Ok (leave o)).
Proof. intros Ht Ho Hw. exists (Leaves false o). split_and!; [by eapply does_pass|done|done]. Qed.

Lemma waits_at node c c' : nd_Type node ∈ questions -> works c c' \/ works (consume c) c' -> keeps_contract node c (c', Ok stay).
Proof. intros Ht Hw. exists Waits. split_and!; [by apply does_wait|done|done]. Qed.

Lemma fails_with node c c' s : works c c' \/ works (consume c) c' -> keeps_contract node c (c', Err (ErrMsg s)).
Proof. intros Hw. split; [done|]. by exists s. Qed.

Lemma say_keeps node c c' (m : MC unit) logged what o :
  works c c' \/ works (consume c) c' -> keeps_contract node c (c', Ok o) -> contract node c (say node c' m logged what o).
Proof. intros Hw Ho. unfold say. repeat ensures_step; [done|by apply fails_with]. Qed.

Lemma say_passes node c outs o (m : MC unit) logged what :
  (nd_Type node, outs) ∈ plain_outcomes -> o ∈ outs -> contract node c (say node c m logged what (leave o)).
Proof. intros Ht Ho. apply say_keeps; [by left|by eapply passes_by]. Qed.

Lemma say_waits node c c' (m : MC unit) logged what :
  nd_Type node ∈ questions -> works c c' \/ works (consume c) c' -> contract node c (say node c' m logged what stay).
Proof. intros Ht Hw. by apply say_keeps; [|apply waits_at]. Qed.

(** What a node that asks nothing is proved by: its type, and what it passes on. *)
Ltac plain E outs :=
  repeat ensures_step;
  first [apply (passes_by _ _ _ outs); [rewrite E; solve [eauto with chat]|solve [eauto with chat]|first [reflexivity|assumption|solve [eauto with chat]]]
        |apply (say_passes _ _ outs); [rewrite E; solve [eauto with chat]|solve [eauto with chat]]].

Lemma execChatMessage_keeps node c : nd_Type node = ChatNodeMessage -> contract node c (execChatMessage node c).
Proof. intros E. unfold execChatMessage, say_text. plain E ["default"]. Qed.

Lemma execChatEnd_keeps node c : nd_Type node = ChatNodeEnd -> contract node c (execChatEnd node c).
Proof. intros E. unfold execChatEnd, say_text. plain E [""]. Qed.

Lemma execChatAIResponse_keeps node c : nd_Type node = ChatNodeAIResponse -> contract node c (execChatAIResponse node c).
Proof. intros E. unfold execChatAIResponse, say_text. plain E ["default"]. Qed.

Lemma execChatCondition_keeps node c : nd_Type node = ChatNodeCondition -> contract node c (execChatCondition node c).
Proof. intros E. unfold execChatCondition, branch. destruct (_ && _); plain E ["true"; "false"]. Qed.

Lemma execChatCRMCondition_keeps node c : nd_Type node = ChatNodeCRMCondition -> contract node c (execChatCRMCondition node c).
Proof.
  intros E. unfold execChatCRMCondition, branch. do 2 (apply ensures_then; intros ?). destruct (default false _); plain E ["true"; "false"].
Qed.

Lemma execChatCRMAction_keeps node c : nd_Type node = ChatNodeCRMAction -> contract node c (execChatCRMAction node c).
Proof.
  intros E. unfold execChatCRMAction. destruct (crmActionSpecs _); [plain E ["default"; "error"]|].
  apply ensures_then; intros [|]; plain E ["default"; "error"].
Qed.

Lemma execChatTiming_keeps node c : nd_Type node = ChatNodeTiming -> contract node c (execChatTiming node c).
Proof.
  intros E. unfold execChatTiming, evaluateTimingSchedule. do 2 (apply ensures_then; intros ?).
  destruct (IsOpen _ _ _); plain E ["in_hours"; "out_of_hours"].
Qed.

Lemma execChatWebhook_keeps node c : nd_Type node = ChatNodeWebhook -> contract node c (execChatWebhook node c).
Proof. intros E. unfold execChatWebhook. plain E ["default"]. Qed.

Lemma execChatSetVariable_keeps node c : nd_Type node = ChatNodeSetVariable -> contract node c (execChatSetVariable node c).
Proof.
  intros E. unfold execChatSetVariable.
  assert (forall l, works c (fold_left assign_variable l c)) as Hw by (intros l; apply fold_works; intros; apply assign_works).
  plain E ["default"].
Qed.

Lemma apply_response_mapping_works node c body : ensures (apply_response_mapping node c body) (works c).
Proof. unfold apply_response_mapping. repeat ensures_step; first [done|apply put_all_works]. Qed.
#[local] Hint Resolve apply_response_mapping_works : chat.

Lemma execChatAPICall_keeps node c : nd_Type node = ChatNodeAPICall -> contract node c (execChatAPICall node c).
Proof.
  intros E. unfold execChatAPICall. assert (works c (put_phone c)) as Hp by apply put_works. cbv zeta.
  apply ensures_then; intros [[body status]|]; [|plain E ["http:2xx"; "http:non2xx"]].
  destruct (negb _); [plain E ["http:2xx"; "http:non2xx"]|].
  eapply ensures_bind; [apply apply_response_mapping_works|]. intros c' Hc. assert (works c c') by (by etrans).
  plain E ["http:2xx"; "http:non2xx"].
Qed.

(** *** Questions *)

Lemma is_empty_false s : is_empty s = false -> s <> "".
Proof. by destruct s. Qed.

Lemma takes_it node c c' o : does (message_of c) true node (Leaves true o) -> cc_consumed c = false -> works (consume c) c' ->
  keeps_contract node c (c', Ok (leave o)).
Proof. intros Hd Hc Hw. exists (Leaves true o). rewrite Hc. done. Qed.

Lemma execChatButtons_keeps node c : nd_Type node = ChatNodeButtons -> contract node c (execChatButtons node c).
Proof.
  intros E. assert (nd_Type node ∈ questions) as Hq by (rewrite E; eauto with chat). unfold execChatButtons.
  destruct (negb (cc_consumed c) && negb (is_empty (cc_buttonID c))) eqn:Hb.
  - apply andb_true_iff in Hb as [Hf%negb_true_iff Hb%negb_true_iff].
    assert (does (message_of c) true node (Leaves true ("button:" ++ cc_buttonID c))) as Hd
      by (by apply (does_button (message_of c)); [| |apply is_empty_false]).
    cbv zeta. destruct (is_empty (stringFromConfig _ _)); (apply ensures_ret, takes_it; [done|done|]); [done|apply put_works].
  - repeat ensures_step; [by apply fails_with; left|]. apply say_waits; [done|by left].
Qed.

Lemma execChatPrompt_keeps node c : nd_Type node = ChatNodePrompt -> contract node c (execChatPrompt node c).
Proof.
  intros E. assert (nd_Type node ∈ questions) as Hq by (rewrite E; eauto with chat). unfold execChatPrompt, say_text.
  destruct (cc_consumed c) eqn:Hf; cbn [negb andb].
  { cbv zeta. apply ensures_ret, waits_at; [done|by left]. }
  destruct (is_empty (cc_userInput c)) eqn:Hi.
  { repeat ensures_step; [by apply fails_with; left|]. apply say_waits; [done|by left]. }
  assert (does (message_of c) true node (Leaves true (if accepted node (cc_userInput c) then "default" else "max_retries"))) as Hd
    by (by apply (does_answer (message_of c)); [| |apply is_empty_false]).
  cbv zeta. change (cc_userInput (consume c)) with (cc_userInput c). destruct (accepted _ _); cbn [negb].
  - apply ensures_then; intros _. apply ensures_ret, takes_it; [done|done|].
    destruct (is_empty (stringFromConfig _ _)); [apply retries_works|]. by etrans; [apply put_works|apply retries_works].
  - unfold handleChatPromptInvalid, say_text. cbv zeta. destruct (_ <=? _).
    + apply ensures_ret, takes_it; [done|done|]. by etrans; apply retries_works.
    + apply say_waits; [done|]. right. apply retries_works.
Qed.

Lemma execChatWhatsAppFlow_keeps node c : nd_Type node = ChatNodeWhatsAppFlow -> contract node c (execChatWhatsAppFlow node c).
Proof.
  intros E. assert (nd_Type node ∈ questions) as Hq by (rewrite E; eauto with chat). unfold execChatWhatsAppFlow.
  assert (forall (m : MC Result), contract node c m -> contract node c
    (match cc_flowResponseData c, cc_consumed c with
     | (_ :: _) as answers, false => ret (put_all answers (consume c), Ok (leave "default")) | _, _ => m end)) as Hform.
  { intros m Hm. destruct (cc_flowResponseData c) as [|e l] eqn:Ef; [done|]. destruct (cc_consumed c) eqn:Hf; [done|].
    apply ensures_ret, takes_it; [|done|apply put_all_works]. apply does_form; [done|done|]. cbn. by rewrite Ef. }
  apply Hform. cbv zeta. destruct (is_empty _) eqn:Hn.
  - apply ensures_ret. exists (Leaves false "default"). split_and!; [|done|done]. apply does_no_form; [done|].
    by destruct (stringFromConfig _ _).
  - repeat ensures_step. apply say_waits; [done|by left].
Qed.

(** *** Leaving *)

Lemma execChatTransfer_keeps node c : nd_Type node = ChatNodeTransfer -> contract node c (execChatTransfer node c).
Proof.
  intros E. unfold execChatTransfer. repeat ensures_step. exists HandsOver. split_and!; [by apply does_hand_over| |done]. by exists c.
Qed.

Lemma execChatGotoFlow_keeps node c : nd_Type node = ChatNodeGotoFlow -> contract node c (execChatGotoFlow node c).
Proof.
  intros E. unfold execChatGotoFlow. apply ensures_then; intros [f|]; [|plain E [""]]. cbv zeta.
  apply ensures_ret. exists (Jumps (fl_ID f)). split_and!; [by apply does_jump| |done].
  eexists. split; [apply append_path_works|done].
Qed.

(** The contract of [executeChatNode]. *)
Lemma executeChatNode_keeps node c : contract node c (executeChatNode node c).
Proof.
  unfold executeChatNode. destruct (List.find _ executors) as [[ty exec]|] eqn:Ef.
  - apply List.find_some in Ef as [Hin Ety%String.eqb_eq]. cbn in Ety. symmetry in Ety. unfold executors in Hin. cbn [In] in Hin.
    repeat match type of Hin with _ \/ _ => destruct Hin as [Hin|Hin] end; [..|done]; injection Hin as <- <-;
      first [plain Ety ["default"] | by apply execChatMessage_keeps | by apply execChatButtons_keeps | by apply execChatPrompt_keeps
            | by apply execChatAPICall_keeps | by apply execChatCondition_keeps | by apply execChatTiming_keeps
            | by apply execChatSetVariable_keeps | by apply execChatAIResponse_keeps | by apply execChatTransfer_keeps
            | by apply execChatWebhook_keeps | by apply execChatGotoFlow_keeps | by apply execChatWhatsAppFlow_keeps
            | by apply execChatEnd_keeps | by apply execChatCRMAction_keeps | by apply execChatCRMCondition_keeps].
  - apply ensures_ret, fails_with. by left.
Qed.
End Executors.
