(* ===== verification/ChatLemmas.v ===== *)
(** * What the nodes of a flow leave alone in the tables

    Until the runner writes the session back ([calm]): no event is published,
    a session is only ever ended, the flows that can be loaded stay. *)
From S2P Require Import Prelude GoLib Store Events Wire Models Statements Text Triggers Fields FieldService People Schedule.
From S2P Require Import Placeholders Templating CRMContext Assignment Transfers Conversation ChatModels Handoff FlowGraph ChatNodes ChatRunner ChatProcessor ChatSteps.

Section Lemmas.
Context `{SL : SqlLaws} `{GJ : GoJson} `{FS : FieldsServer} `{CE : !ContextEnv} `{CH : !ChatEnv}.

Abbreviation MC := (M ChatDB).

(** ** Tables *)

(** A flow that a lookup in the organization may return. *)
Definition served (orgID : uuid) (d : ChatDB) (f : ChatbotFlow) : Prop :=
  (exists k, cb_flows d !! k = Some f /\ flow_of orgID f = true) \/
  (exists l, cb_flow_cache d !! orgID = Some l /\ f ∈ l).

(** What may become of a session that somebody else writes. *)
Definition ended (s s' : ChatbotSession) : Prop :=
  s' = s \/ (ss_ID s' = ss_ID s /\ ss_Status s' <> SessionStatusActive /\ ss_CompletedAt s' <> None).

#[export] Instance ended_preorder : PreOrder ended.
Proof. split; [by left|]. intros a b c [->|(E & ? & ?)] [->|(E' & ? & ?)]; unfold ended; try tauto. right. split_and!; congruence. Qed.

Definition calm (d d' : ChatDB) : Prop :=
  db_outbox (tables_of d') = db_outbox (tables_of d) /\
  (forall orgID f, served orgID d' f -> served orgID d f) /\
  (forall k, option_Forall2 ended (db_sessions (tables_of d) !! k) (db_sessions (tables_of d') !! k)).

#[export] Instance calm_preorder : PreOrder calm.
Proof.
  split.
  - intros d. by split_and!.
  - intros a b c (E1 & F1 & S1) (E2 & F2 & S2). split_and!; [congruence|naive_solver|]. intros k. specialize (S1 k). specialize (S2 k). destruct S1; inversion S2; subst; constructor. by etrans.
Qed.

(** Nothing of this is touched. *)
Definition elsewhere (d d' : ChatDB) : Prop :=
  tables_of d' = tables_of d /\ cb_flows d' = cb_flows d /\ cb_flow_cache d' = cb_flow_cache d.

Lemma elsewhere_calm d d' : elsewhere d d' -> calm d d'.
Proof.
  intros (Et & Ef & Ec). unfold calm, served. rewrite Et, Ef, Ec. by split_and!.
Qed.

(** Other tables than the outbox and the sessions. *)
Lemma calm_tables d t :
  db_outbox t = db_outbox (tables_of d) -> db_sessions t = db_sessions (tables_of d) -> calm d (set_context_tables t d).
Proof.
  intros Eo Es. split_and!; [done|done|]. intros k. cbn. by rewrite Es.
Qed.

Lemma moves_any {DB A} (m : M DB A) : moves (fun _ _ => True) m.
Proof. done. Qed.

Lemma calm_outside {A} (f : Outside -> A * Outside) : moves calm (outside f).
Proof. intros w r w' E. unfold outside in E. destruct (f _) as [a o]. simplify_eq. by apply elsewhere_calm. Qed.

Lemma moves_ask {A} (f : Outside -> A) : moves calm (ask f).
Proof. apply calm_outside. Qed.

Lemma moves_cache {A} (f : ChatDB -> A) : moves calm (cache f).
Proof. by intros w r w' [= _ <-]. Qed.

Lemma moves_store_cache f : (forall d, calm d (f d)) -> moves calm (store_cache f).
Proof. intros Hf w r w' E. unfold store_cache in E. destruct (cb_redis _); simplify_eq; [apply Hf|reflexivity]. Qed.

Lemma on_fields_calm {A} (m : M FieldsDB A) : moves calm (on_fields m).
Proof. eapply moves_zoom; [apply moves_any|]. intros d f _. by apply elsewhere_calm. Qed.

Lemma on_desk_calm {A} (m : MA A) : moves calm (on_desk m).
Proof. eapply moves_zoom; [apply moves_any|]. intros d f _. by apply elsewhere_calm. Qed.

Definition same_tables (a b : ContextDB) : Prop := cx_tables b = cx_tables a.

#[export] Instance same_tables_preorder : PreOrder same_tables.
Proof. split; [done|]. intros a b c. unfold same_tables. congruence. Qed.

Lemma on_context_calm {A} (m : M ContextDB A) : moves same_tables m -> moves calm (on_context m).
Proof. intros Hm. eapply moves_zoom; [exact Hm|]. intros d x E. apply elsewhere_calm. split; [exact E|done]. Qed.

Lemma best_effort_calm {A} (m : MC A) : moves calm m -> moves calm (best_effort m).
Proof. intros Hm. unfold best_effort. solve_moves. Qed.
End Lemmas.

#[export] Hint Resolve calm_outside moves_ask moves_cache on_fields_calm on_desk_calm : crm.

(** Walks through the statements of a computation that stays [calm]. *)
Ltac calm_step :=
  first [progress moves_step | typeclasses eauto
        | lazymatch goal with |- moves _ (best_effort _) => apply best_effort_calm end
        | solve [eauto with crm]].
Ltac solve_calm := repeat calm_step.

(** ** Calls on the caches and the tables *)

Section Calls.
Context `{SL : SqlLaws} `{GJ : GoJson} `{FS : FieldsServer} `{CE : !ContextEnv} `{CH : !ChatEnv}.

Abbreviation MC := (M ChatDB).

Lemma Build_keeps orgID opts : moves same_tables (Build orgID opts).
Proof.
  assert (forall {R} (q : M ContextDB R), moves same_tables q -> moves same_tables (found q)) as Hf by (intros; unfold found; solve_moves).
  assert (forall id, moves same_tables (user_by_id id)) as Hu by (intros; unfold user_by_id; solve_moves).
  assert (forall {A} (m : M FieldsDB A), moves same_tables (zoom cx_fields set_cx_fields m)) as Hz
    by (intros; eapply moves_zoom; [apply moves_any|done]).
  unfold Build, contact, contact_fields, contact_owner, conversation.
  repeat first [progress moves_step | typeclasses eauto | apply Hf | apply Hu | apply Hz].
Qed.

Lemma crm_of_calm contact : moves calm (crm_of contact).
Proof. unfold crm_of. apply moves_bind; [typeclasses eauto| |intros; apply moves_ret; typeclasses eauto]. apply moves_try, on_context_calm, Build_keeps. Qed.

Lemma getChatbotSettingsCached_calm orgID account : moves calm (getChatbotSettingsCached orgID account).
Proof. unfold getChatbotSettingsCached. solve_calm. apply moves_store_cache. intros d. by apply elsewhere_calm. Qed.

(** What is put into the cache is what the tables hold. *)
Lemma getChatbotFlowsCached_calm orgID : moves calm (getChatbotFlowsCached orgID).
Proof.
  intros w r w' E. unfold getChatbotFlowsCached, bind, cache, ret in E. cbn in E.
  destruct (if cb_redis _ then _ else _); [injection E as _ <-; reflexivity|].
  destruct (query _ w) as [[flows|e] w1] eqn:Eq.
  - apply query_ok_inv in Eq as ([= <-] & _ & ->). unfold store_cache in E. simplify_eq. cbn. destruct (cb_redis _); [|done].
    split_and!; [done| |done].
    intros org f [?|(l & Hl & Hf)]; [by left|]. cbn in Hl. destruct (decide (org = orgID)) as [->|Hne].
    + rewrite lookup_insert_eq in Hl. injection Hl as <-. left. apply find_rows_elem in Hf as (k & ? & ?). by exists k.
    + rewrite lookup_insert_ne in Hl by done. right. by exists l.
  - assert (r = Err e) as -> by (by simplify_eq). apply rolls_back_stmt in Eq. simplify_eq. by rewrite Eq.
Qed.

(** What is returned is a flow of the tables or of the cache. *)
Lemma getChatbotFlowsCached_served orgID w flows w' f :
  getChatbotFlowsCached orgID w = (Ok flows, w') -> f ∈ flows -> served orgID (w_db w) f.
Proof.
  intros E Hf. unfold getChatbotFlowsCached, bind, cache, ret in E. cbn in E. destruct (if cb_redis _ then _ else _) as [l|] eqn:Ec.
  - simplify_eq. right. destruct (cb_redis _); [by exists flows|done].
  - destruct (query _ w) as [[l|e] w1] eqn:Eq; [|done]. apply query_ok_inv in Eq as ([= <-] & _ & _). unfold store_cache in E. simplify_eq.
    left. apply find_rows_elem in Hf as (k & ? & ?). by exists k.
Qed.

Lemma getChatbotFlowByIDCached_served orgID id w f w' :
  getChatbotFlowByIDCached orgID id w = (Ok f, w') -> served orgID (w_db w) f /\ fl_ID f = id.
Proof.
  intros E. unfold getChatbotFlowByIDCached in E. apply bind_ok_inv in E as (flows & w1 & E1 & E2).
  destruct (List.find _ flows) as [g|] eqn:Ef; [|done]. apply ret_ok_inv in E2 as [-> _].
  apply List.find_some in Ef as [Hin Hid%N.eqb_eq]. split; [|done]. eapply getChatbotFlowsCached_served; [done|by apply list_elem_of_In].
Qed.

Lemma getChatbotFlowByIDCached_calm orgID id : moves calm (getChatbotFlowByIDCached orgID id).
Proof. unfold getChatbotFlowByIDCached. apply moves_bind; [typeclasses eauto|apply getChatbotFlowsCached_calm|]. intros flows. solve_calm. Qed.

Lemma getKeywordRulesCached_calm orgID account : moves calm (getKeywordRulesCached orgID account).
Proof. unfold getKeywordRulesCached, rules_of. solve_calm. apply moves_store_cache. intros d. by apply elsewhere_calm. Qed.

Lemma calm_stmt {A} locks (f : ChatDB -> res err A * ChatDB) : (forall d, calm d (f d).2) -> moves calm (stmt locks f).
Proof. intros Hf. apply moves_stmt; [typeclasses eauto|]. intros d a d' E. specialize (Hf d). by rewrite E in Hf. Qed.

Lemma update_sessions_calm p us : (forall s, p s = true -> ended s (apply_updates us s)) -> moves calm (update_sessions p us).
Proof.
  intros Hp. apply calm_stmt. intros d. split_and!; [done|done|]. intros k. cbn.
  rewrite update_where_lookup. destruct (db_sessions (tables_of d) !! k) as [s|]; constructor. destruct (p s) eqn:E; [by apply Hp|by left].
Qed.

Lemma on_tables_calm {A} (m : M Tables A) :
  moves (fun t t' => db_outbox t' = db_outbox t /\ db_sessions t' = db_sessions t) m -> moves calm (on_tables m).
Proof. intros Hm. eapply moves_zoom; [exact Hm|]. intros d t [Eo Es]. by apply calm_tables. Qed.
End Calls.

#[export] Hint Resolve crm_of_calm getChatbotSettingsCached_calm getChatbotFlowsCached_calm getChatbotFlowByIDCached_calm
  getKeywordRulesCached_calm : crm.

(** ** Handing over *)

Section Handing.
Context `{SL : SqlLaws} `{GJ : GoJson} `{FS : FieldsServer} `{CE : !ContextEnv} `{CH : !ChatEnv}.

Abbreviation MC := (M ChatDB).

(** Other columns than those of the outbox and the sessions. *)
Definition apart (t t' : Tables) : Prop := db_outbox t' = db_outbox t /\ db_sessions t' = db_sessions t.

#[export] Instance apart_preorder : PreOrder apart.
Proof. split; [done|]. intros a b c [] []. split; congruence. Qed.

Lemma update_conversations_apart p us : moves apart (update_conversations p us).
Proof.
  unfold update_conversations. apply moves_stmt; [typeclasses eauto|]. intros d a d' E. cbv zeta in E.
  by repeat case_match; simplify_eq.
Qed.

Lemma MirrorToConversation_apart t : moves apart (MirrorToConversation t).
Proof. unfold MirrorToConversation. cbv zeta. repeat first [apply update_conversations_apart | calm_step]. Qed.

Lemma SetHandling_apart orgID contactID h : moves apart (SetHandling orgID contactID h).
Proof. unfold SetHandling. repeat first [apply update_conversations_apart | calm_step]. Qed.

Lemma send_calm contact m : moves calm (send contact m).
Proof. unfold send. solve_calm. Qed.

Lemma sendAndSaveTextMessage_calm contact text : moves calm (sendAndSaveTextMessage contact text).
Proof. apply send_calm. Qed.
#[local] Hint Resolve send_calm sendAndSaveTextMessage_calm : crm.

Lemma outside_hours_calm orgID s : moves calm (outside_hours orgID s).
Proof. unfold outside_hours, isWithinBusinessHours. solve_calm. Qed.

Lemma say_out_of_hours_calm contact s : moves calm (say_out_of_hours contact s).
Proof. unfold say_out_of_hours. solve_calm. Qed.

Lemma hasActiveAgentTransfer_calm orgID contactID : moves calm (hasActiveAgentTransfer orgID contactID).
Proof. unfold hasActiveAgentTransfer. solve_calm. Qed.

Lemma setConversationHandling_calm orgID contactID h : moves calm (setConversationHandling orgID contactID h).
Proof. apply best_effort_calm, on_tables_calm, SetHandling_apart. Qed.

Lemma mirrorTransfer_calm tr : moves calm (mirrorTransfer tr).
Proof. apply best_effort_calm, on_tables_calm, MirrorToConversation_apart. Qed.

Lemma insert_transfer_calm tr : moves calm (insert_transfer tr).
Proof. apply calm_stmt. intros d. cbv zeta. destruct (existsb _ _); [done|]. by apply calm_tables. Qed.

Lemma assign_contact_calm id agent : moves calm (assign_contact id agent).
Proof. apply calm_stmt. intros d. by apply calm_tables. Qed.
#[local] Hint Resolve outside_hours_calm say_out_of_hours_calm hasActiveAgentTransfer_calm setConversationHandling_calm
  mirrorTransfer_calm insert_transfer_calm assign_contact_calm : crm.

Lemma saveAndFinalizeTransfer_calm tr account contact settings ends :
  moves calm (saveAndFinalizeTransfer tr account contact settings ends).
Proof. unfold saveAndFinalizeTransfer. solve_calm. apply update_sessions_calm. intros s _. by right. Qed.
#[local] Hint Resolve saveAndFinalizeTransfer_calm : crm.

Lemma hand_over_calm account contact source teamID notes choose ends :
  (forall settings, moves calm (choose settings)) -> moves calm (hand_over account contact source teamID notes choose ends).
Proof. intros Hc. unfold hand_over. solve_calm. Qed.

Lemma createTransferToQueue_calm account contact source : moves calm (createTransferToQueue account contact source).
Proof. unfold createTransferToQueue. apply moves_bind; [typeclasses eauto| |intros; solve_calm]. apply hand_over_calm. intros ?. solve_calm. Qed.

Lemma createTransferToTeam_calm account contact teamID notes source : moves calm (createTransferToTeam account contact teamID notes source).
Proof. apply hand_over_calm. intros ?. solve_calm. Qed.

Lemma createTransferFromKeyword_calm account contact : moves calm (createTransferFromKeyword account contact).
Proof.
  unfold createTransferFromKeyword. apply moves_bind; [typeclasses eauto| |intros; solve_calm]. apply hand_over_calm. intros settings.
  unfold same_agent. solve_calm.
Qed.
End Handing.

#[export] Hint Resolve send_calm sendAndSaveTextMessage_calm outside_hours_calm say_out_of_hours_calm hasActiveAgentTransfer_calm
  setConversationHandling_calm createTransferToQueue_calm createTransferToTeam_calm createTransferFromKeyword_calm : crm.

(** ** The nodes *)

Section Nodes.
Context `{SL : SqlLaws} `{GJ : GoJson} `{FS : FieldsServer} `{CE : !ContextEnv} `{CH : !ChatEnv}.

Abbreviation MC := (M ChatDB).

Lemma logSessionMessage_calm id direction message step : moves calm (logSessionMessage id direction message step).
Proof. unfold logSessionMessage. solve_calm. apply calm_stmt. intros d. by apply elsewhere_calm. Qed.
#[local] Hint Resolve logSessionMessage_calm : crm.

Lemma send_links_calm contact body first links : moves calm (send_links contact body first links).
Proof. revert first. induction links as [|b links IH]; intros first; cbn [send_links]; solve_calm. Qed.
#[local] Hint Resolve send_links_calm : crm.

Lemma sendAndSaveInteractiveButtons_calm contact body buttons : moves calm (sendAndSaveInteractiveButtons contact body buttons).
Proof. unfold sendAndSaveInteractiveButtons. solve_calm. Qed.
#[local] Hint Resolve sendAndSaveInteractiveButtons_calm : crm.

Lemma say_calm node c (m : MC unit) logged what o : moves calm m -> moves calm (say node c m logged what o).
Proof. intros Hm. unfold say. solve_calm. Qed.

Lemma say_text_calm node c text what o : moves calm (say_text node c text what o).
Proof. apply say_calm. solve_calm. Qed.

Lemma try_say_calm node c text : moves calm (try_say node c text).
Proof. unfold try_say. solve_calm. Qed.

Lemma set_fields_of_calm c values : moves calm (set_fields_of c values).
Proof. unfold set_fields_of. solve_calm. Qed.

Lemma executeConfiguredAPI_calm cfg f : moves calm (executeConfiguredAPI cfg f).
Proof. unfold executeConfiguredAPI. cbv zeta. solve_calm. Qed.

Lemma extract_calm resp mapping : moves calm (extract resp mapping).
Proof. unfold extract. solve_calm. Qed.
#[local] Hint Resolve say_calm say_text_calm try_say_calm set_fields_of_calm executeConfiguredAPI_calm extract_calm : crm.

Lemma run_actions_calm rc ce specs : moves calm (run_actions rc ce specs).
Proof. induction specs as [|spec specs IH]; cbn [run_actions]; solve_calm. Qed.
#[local] Hint Resolve run_actions_calm : crm.

Lemma executeChatNode_calm node c : moves calm (executeChatNode node c).
Proof.
  unfold executeChatNode. destruct (List.find _ executors) as [[ty exec]|] eqn:Ef; [|solve_calm].
  apply List.find_some in Ef as [Hin _]. unfold executors in Hin. cbn [In] in Hin.
  repeat match type of Hin with _ \/ _ => destruct Hin as [Hin|Hin] end; [..|done]; injection Hin as _ <-;
    unfold execChatMessage, execChatButtons, execChatPrompt, handleChatPromptInvalid, saveAnswerToContactField, execChatAPICall,
      apply_response_mapping, applyAPIFieldMapping, execChatWebhook, execChatCondition, execChatTiming, execChatSetVariable,
      execChatAIResponse, execChatTransfer, execChatGotoFlow, goto_target, execChatWhatsAppFlow, first_screen, execChatEnd,
      execChatCRMAction, execChatCRMCondition, crmConditionFilter;
    solve_calm.
Qed.

Lemma completion_say_calm c text : moves calm (completion_say c text).
Proof. unfold completion_say. solve_calm. Qed.

Lemma finishChatFlow_calm flow c : moves calm (finishChatFlow flow c).
Proof.
  unfold finishChatFlow, syncPanelFieldsToContact, postFlowCompletion, storeFlowAnswers. cbv zeta.
  assert (forall id m, moves calm (update_metadata id m)) as Hu by (intros; apply calm_stmt; intros d; by apply elsewhere_calm).
  repeat first [apply completion_say_calm | apply Hu | calm_step].
Qed.

Lemma load_switched_calm c id : moves calm (load_switched c id).
Proof. unfold load_switched. solve_calm. Qed.

(** ** Before and around a run *)

Lemma ClearContactChatbotTracking_calm id : moves calm (ClearContactChatbotTracking id).
Proof. unfold ClearContactChatbotTracking. apply best_effort_calm, calm_stmt. intros d. by apply calm_tables. Qed.

Lemma runKeywordActions_calm account contact session specs : moves calm (runKeywordActions account contact session specs).
Proof. unfold runKeywordActions. solve_calm. Qed.

Lemma matchKeywordRules_calm orgID account text : moves calm (matchKeywordRules orgID account text).
Proof. unfold matchKeywordRules. solve_calm. Qed.

Lemma matchFlowTrigger_calm orgID text : moves calm (matchFlowTrigger orgID text).
Proof. unfold matchFlowTrigger. solve_calm. Qed.

Lemma reply_logged_calm contact s text buttons what : moves calm (reply_logged contact s text buttons what).
Proof. unfold reply_logged, reply. solve_calm. Qed.
#[local] Hint Resolve runKeywordActions_calm reply_logged_calm : crm.

Lemma ending_ends status t s : status <> SessionStatusActive -> ended s (apply_updates (ending status t) s).
Proof. by right. Qed.

Lemma exitFlow_calm s : moves calm (exitFlow s).
Proof.
  unfold exitFlow. repeat first [apply ClearContactChatbotTracking_calm | calm_step]. apply update_sessions_calm. intros. by apply ending_ends.
Qed.

Lemma say_goodbye_calm contact id flow what : moves calm (say_goodbye contact id flow what).
Proof. unfold say_goodbye. cbv zeta. solve_calm. Qed.
#[local] Hint Resolve say_goodbye_calm ClearContactChatbotTracking_calm : crm.

Lemma cancelChatSession_calm contact s flow : moves calm (cancelChatSession contact s flow).
Proof. unfold cancelChatSession. solve_calm. apply update_sessions_calm. intros. by apply ending_ends. Qed.

Lemma timeoutChatSession_calm known s : moves calm (timeoutChatSession known s).
Proof. unfold timeoutChatSession. solve_calm. apply update_sessions_calm. intros. by apply ending_ends. Qed.

Lemma each_calm {A} (f : A -> MC unit) l : (forall x, moves calm (f x)) -> moves calm (each f l).
Proof. intros Hf. induction l as [|x l IH]; cbn [each]; solve_calm. Qed.

Lemma TimeoutStaleChatSessions_calm known : moves calm (TimeoutStaleChatSessions known).
Proof.
  unfold TimeoutStaleChatSessions. apply moves_bind; [typeclasses eauto|solve_calm|]. intros l. apply each_calm. intros s.
  unfold timeout_of. solve_calm. apply each_calm. apply timeoutChatSession_calm.
Qed.

Lemma answer_freely_calm account contact settings s isNew keyword text :
  moves calm (answer_freely account contact settings s isNew keyword text).
Proof. unfold answer_freely, ai_answer. solve_calm. Qed.

Lemma transfer_by_keyword_calm account contact settings s k : moves calm (transfer_by_keyword account contact settings s k).
Proof. unfold transfer_by_keyword. solve_calm. Qed.
End Nodes.

#[export] Hint Resolve executeChatNode_calm finishChatFlow_calm load_switched_calm ClearContactChatbotTracking_calm logSessionMessage_calm
  matchKeywordRules_calm matchFlowTrigger_calm exitFlow_calm cancelChatSession_calm answer_freely_calm transfer_by_keyword_calm : crm.
