(* ===== verification/ChatWalk.v ===== *)
(** * A run is a walk

    The specification of the runner, without its loop, its fuel and its
    tables: a message takes the customer along the edges of a flow, from node
    to node, until one waits.  [runChatGraph] refines it, and what it leaves in
    the tables is where the walk ended. *)
From S2P Require Import Prelude GoLib Store Events Wire Models Statements Text Triggers Fields FieldService People Schedule.
From S2P Require Import Placeholders Templating CRMContext Assignment Transfers ChatModels Handoff FlowGraph ChatNodes ChatRunner ChatProcessor ChatSteps ChatLemmas.

(** How a node was passed. *)
Inductive how :=
| Skipped
| Passed (outcome : string)
| Answered (outcome : string)
| Jumped (to : uuid).

Record visit := Visit { vs_flow : uuid; vs_node : string; vs_how : how }.

Definition answered (v : visit) : bool := match vs_how v with Answered _ => true | _ => false end.

(** Where a walk stops. *)
Inductive ending :=
| Waiting    (** at a question *)
| Handed     (** with a person *)
| Finished   (** where no edge leads on *)
| Broken     (** at a node that failed *)
| Lost       (** at a node that is not there *)
| Tired.     (** after as many nodes as a message may take *)

Section Walk.
Context `{GJ : GoJson} `{FS : FieldsServer} `{CE : !ContextEnv} `{CH : !ChatEnv}.

(** The flows that a jump may reach. *)
Variable offered : ChatbotFlow -> Prop.

(** A turn of a node that follows an edge: how, by which outcome, and whether
    the message is still fresh. *)
Inductive turn (m : Message) (fresh : bool) (flow : ChatbotFlow) (node : Node) : how -> string -> bool -> Prop :=
| turn_skip : stringFromConfig (nd_Config node) ["skip_condition"] <> "" -> turn m fresh flow node Skipped "default" fresh
| turn_pass o : does m fresh node (Leaves false o) -> turn m fresh flow node (Passed o) o fresh
| turn_answer o : does m fresh node (Leaves true o) -> turn m fresh flow node (Answered o) o false
| turn_home : does m fresh node (Jumps (fl_ID flow)) -> turn m fresh flow node (Passed "goto") "goto" fresh.

(** From a flow, its graph and a step, with the message fresh or not: the nodes
    passed, and the flow, its graph and the step where it ends. *)
Inductive walk (m : Message) : ChatbotFlow -> Graph -> string -> bool -> list visit -> ChatbotFlow -> Graph -> string -> ending -> Prop :=
| walk_waits flow g step fresh node : node_at g step = Some node -> does m fresh node Waits -> walk m flow g step fresh [] flow g step Waiting
| walk_hands flow g step fresh node : node_at g step = Some node -> does m fresh node HandsOver -> walk m flow g step fresh [] flow g step Handed
| walk_breaks flow g step fresh node : node_at g step = Some node -> walk m flow g step fresh [] flow g step Broken
| walk_loses flow g step fresh : node_at g step = None -> walk m flow g step fresh [] flow g step Lost
| walk_tires flow g step fresh : walk m flow g step fresh [] flow g step Tired
| walk_ends flow g step fresh node h o fresh' : node_at g step = Some node -> turn m fresh flow node h o fresh' ->
    ResolveEdge g (nd_ID node) o = "" -> walk m flow g step fresh [Visit (fl_ID flow) step h] flow g step Finished
| walk_on flow g step fresh node h o fresh' trail flow' g' step' en : node_at g step = Some node -> turn m fresh flow node h o fresh' ->
    ResolveEdge g (nd_ID node) o <> "" -> walk m flow g (ResolveEdge g (nd_ID node) o) fresh' trail flow' g' step' en ->
    walk m flow g step fresh (Visit (fl_ID flow) step h :: trail) flow' g' step' en
| walk_jumps flow g step fresh node target gt trail flow' g' step' en : node_at g step = Some node ->
    does m fresh node (Jumps (fl_ID target)) -> offered target -> parseChatGraph (fl_Graph target) = Ok (Some gt) ->
    walk m target gt (gr_EntryNode gt) fresh trail flow' g' step' en ->
    walk m flow g step fresh (Visit (fl_ID flow) step (Jumped (fl_ID target)) :: trail) flow' g' step' en.

(** A message answers one question at most. *)
Lemma walk_answers m flow g step fresh trail flow' g' step' en :
  walk m flow g step fresh trail flow' g' step' en -> (length (List.filter answered trail) <= if fresh then 1 else 0)%nat.
Proof.
  induction 1 as [| | | | |flow g step fresh node h o fresh' _ Ht _|flow g step fresh node h o fresh' trail f g' s en _ Ht _ _ IH|
                  flow g step fresh node target gt trail f g' s en _ _ _ _ _ IH]; cbn [List.filter length]; try (destruct fresh; lia).
  - destruct Ht as [| |o Hd|]; cbn; try (destruct fresh; lia). inversion Hd; subst; done.
  - destruct Ht as [| |o Hd|]; cbn [answered vs_how length]; try done. inversion Hd; subst; cbn [length]; lia.
  - done.
Qed.

(** Where it waits there is a question, in the graph of the flow it is in. *)
Lemma walk_parks m flow g step fresh trail flow' g' step' :
  walk m flow g step fresh trail flow' g' step' Waiting -> parseChatGraph (fl_Graph flow) = Ok (Some g) ->
  parseChatGraph (fl_Graph flow') = Ok (Some g') /\ exists node, node_at g' step' = Some node /\ nd_Type node ∈ questions.
Proof.
  intros Hw. remember Waiting as en. induction Hw as [flow g step fresh node Hn Hd| | | | | | |]; intros Hg; try done; auto.
  split; [done|]. exists node. split; [done|]. by inversion Hd.
Qed.

Lemma walk_flow m flow g step fresh trail flow' g' step' en :
  walk m flow g step fresh trail flow' g' step' en -> flow' = flow \/ offered flow'.
Proof. induction 1; try (by left); auto. destruct IHwalk as [->|]; by right. Qed.

(** ** Which flows cannot run on *)

(** A node that is only left with an answer. *)
Definition asks (node : Node) : bool :=
  is_empty (stringFromConfig (nd_Config node) ["skip_condition"]) &&
  (String.eqb (nd_Type node) ChatNodeButtons || String.eqb (nd_Type node) ChatNodePrompt ||
   (String.eqb (nd_Type node) ChatNodeWhatsAppFlow && negb (is_empty (stringFromConfig (nd_Config node) ["flow_id"])))).

(** [rank] goes down along every edge but those that leave a question, and
    along every jump. *)
Definition leads_down (rank : uuid -> string -> nat) (flow : ChatbotFlow) (g : Graph) : Prop :=
  forall step node, node_at g step = Some node -> asks node = false ->
    (forall e, e ∈ OutgoingEdges g (nd_ID node) -> (rank (fl_ID flow) (eg_To e) < rank (fl_ID flow) step)%nat) /\
    (nd_Type node = ChatNodeGotoFlow -> forall target gt, offered target -> parseChatGraph (fl_Graph target) = Ok (Some gt) ->
       (rank (fl_ID target) (gr_EntryNode gt) < rank (fl_ID flow) step)%nat).

Lemma ResolveEdge_edge g id o : ResolveEdge g id o <> "" -> exists e, e ∈ OutgoingEdges g id /\ eg_To e = ResolveEdge g id o.
Proof.
  intros Hne. pose proof (ResolveEdge_leads g id o) as Hl. destruct Hl as [pre e post E|pre e post E|]; [..|done];
    exists e; rewrite E; set_solver.
Qed.

Lemma plain_no_question t outs : (t, outs) ∈ plain_outcomes -> t ∉ questions.
Proof.
  assert (Forall (fun e => e.1 ∉ questions) plain_outcomes) as Hall by (apply (bool_decide_unpack _); vm_compute; done).
  rewrite Forall_forall in Hall. apply Hall.
Qed.

Lemma passing_asks_nothing m fresh flow node h o fresh' :
  turn m fresh flow node h o fresh' -> asks node = true -> fresh = true /\ fresh' = false.
Proof.
  intros Ht Ha. unfold asks in Ha. apply andb_true_iff in Ha as [Hs Ha].
  destruct Ht as [Hn|o Hd|o Hd|Hd].
  - by destruct (stringFromConfig _ _).
  - inversion Hd as [outs o' Hp Ho| | | | | | |Ht Hf]; subst.
    + apply plain_no_question in Hp. exfalso. apply Hp. rewrite !orb_true_iff, andb_true_iff, !String.eqb_eq in Ha.
      unfold questions. destruct Ha as [[-> | ->]|[-> _]]; set_solver.
    + rewrite Ht, Hf in Ha. done.
  - by inversion Hd.
  - inversion Hd as [| | |id Ht| | | |]; subst. by rewrite Ht in Ha.
Qed.

(** A walk that goes down but at an answered question is short. *)
Lemma walk_short rank B m flow g step fresh trail flow' g' step' en :
  (forall id s, (rank id s <= B)%nat) ->
  (forall target gt, offered target -> parseChatGraph (fl_Graph target) = Ok (Some gt) -> leads_down rank target gt) ->
  walk m flow g step fresh trail flow' g' step' en -> leads_down rank flow g ->
  (length trail <= 1 + rank (fl_ID flow) step + if fresh then B + 1 else 0)%nat.
Proof.
  intros HB Hall Hw.
  induction Hw as [| | | | | |flow g step fresh node h o fresh' trail f g' s en Hn Ht Hne _ IH|
                   flow g step fresh node target gt trail f g' s en Hn Hd Ho Hg _ IH]; intros Hl; cbn [length]; try lia.
  - specialize (IH Hl). destruct (asks node) eqn:Ha.
    + apply (passing_asks_nothing _ _ _ _ _ _ _ Ht) in Ha as [-> ->]. pose proof (HB (fl_ID flow) (ResolveEdge g (nd_ID node) o)). lia.
    + destruct (Hl _ _ Hn Ha) as [Hedge _]. destruct (ResolveEdge_edge _ _ _ Hne) as (e & He & Eto).
      specialize (Hedge e He). rewrite Eto in Hedge. destruct Ht; lia || (destruct fresh; lia).
  - assert (nd_Type node = ChatNodeGotoFlow) as Hty by (by inversion Hd).
    assert (asks node = false) as Ha by (unfold asks; rewrite Hty; cbn; by rewrite andb_false_r).
    destruct (Hl _ _ Hn Ha) as [_ Hjump]. specialize (Hjump Hty target gt Ho Hg). specialize (IH (Hall _ _ Ho Hg)). lia.
Qed.
End Walk.

(** ** The runner *)

Section Runner.
Context `{SL : SqlLaws} `{GJ : GoJson} `{FS : FieldsServer} `{CE : !ContextEnv} `{CH : !ChatEnv}.

Abbreviation MC := (M ChatDB).

(** The columns that say whose session it is. *)
Definition same_person (s s' : ChatbotSession) : Prop :=
  ss_ID s' = ss_ID s /\ ss_DeletedAt s' = ss_DeletedAt s /\ ss_OrganizationID s' = ss_OrganizationID s /\
  ss_ContactID s' = ss_ContactID s /\ ss_WhatsAppAccount s' = ss_WhatsAppAccount s /\ ss_PhoneNumber s' = ss_PhoneNumber s /\
  ss_StartedAt s' = ss_StartedAt s.

#[export] Instance same_person_preorder : PreOrder same_person.
Proof. split; [done|]. unfold same_person. intros a b c ? ?. naive_solver congruence. Qed.

(** A session in the middle of a flow. *)
Definition in_flow (flow : ChatbotFlow) (step : string) (s : ChatbotSession) : Prop :=
  ss_CurrentFlowID s = Some (fl_ID flow) /\ ss_CurrentStep s = step /\ ss_Status s = SessionStatusActive /\ ss_CompletedAt s = None.

Definition completed (s : ChatbotSession) : Prop := ss_Status s = SessionStatusCompleted /\ is_Some (ss_CompletedAt s).

(** What a run must have come to where its walk ended. *)
Definition comes_to (flow : ChatbotFlow) (step : string) (en : ending) (s : ChatbotSession) (e : option err) : Prop :=
  match en with
  | Waiting => e = None -> in_flow flow step s
  | Handed | Finished => e = None -> completed s
  | Broken | Lost => e <> None
  | Tired => e = Some errChatGraphRunaway
  end.

Definition saved (d : ChatDB) (s : ChatbotSession) : Prop := db_sessions (tables_of d) !! ss_ID s = Some s.

(** *** Writing back *)

Lemma stmt_err_inv {DB A} locks (f : DB -> res err A * DB) w e w' :
  stmt locks f w = (Err e, w') -> e = ErrTxAborted \/ e = ErrDriver \/ (f (w_db w)).1 = Err e.
Proof.
  unfold stmt. destruct (w_aborted w); [intros [= <- _]; by left|]. destruct (w_faults w) as [|[] fs]; cbn;
    [|intros [= <- _]; by right; left|]; destruct (f (w_db w)) as [[a|x] d] eqn:E; intros [= <- _]; by right; right.
Qed.

Lemma publishes_only {A} (m : M Tables A) : moves (fun t t' => db_sessions t' = db_sessions t) m ->
  moves (fun d d' => db_sessions (tables_of d') = db_sessions (tables_of d)) (on_tables m).
Proof. intros Hm. eapply moves_zoom; [exact Hm|]. by intros d t. Qed.

Lemma PublishTx_sessions e : moves (fun t t' => db_sessions t' = db_sessions t) (PublishTx e).
Proof.
  assert (PreOrder (fun t t' : Tables => db_sessions t' = db_sessions t)) by (split; [done|]; intros a b c; congruence).
  unfold PublishTx. repeat first [progress moves_step | typeclasses eauto]. cbv zeta.
  apply moves_stmt; [typeclasses eauto|]. intros d a' d' E. by case_match; simplify_eq.
Qed.

Lemma best_effort_ok {A} (m : MC A) w r w' : best_effort m w = (r, w') -> r = Ok tt.
Proof. unfold best_effort, bind, try. destruct (m w). by intros [= <- _]. Qed.

Lemma publishFlowCompleted_ok s w r w' : publishFlowCompleted s w = (r, w') -> r = Ok tt.
Proof. unfold publishFlowCompleted, bind, uuid_New, now. cbv zeta. apply best_effort_ok. Qed.

Lemma persistChatSession_run s w r w' : persistChatSession s w = (r, w') ->
  match r with
  | Ok s' => exists t, s' = stamped t s /\ saved (w_db w') s'
  | Err e => e <> errChatGraphRunaway
  end.
Proof.
  unfold persistChatSession. intros E. unfold bind at 1 in E. cbn in E. unfold bind at 1 in E.
  destruct (save_session _ w) as [[u|e] w1] eqn:Es.
  2:{ simplify_eq. by apply stmt_err_inv in Es as [-> | [-> | [=]]]. }
  apply stmt_ok_inv in Es as (d & Hd & _ & ->). injection Hd as _ Hd. unfold bind at 1 in E.
  assert (moves (fun d d' => db_sessions (tables_of d') = db_sessions (tables_of d)) (publishFlowCompleted (stamped (w_now w) s))) as Hm.
  { assert (PreOrder (fun d d' : ChatDB => db_sessions (tables_of d') = db_sessions (tables_of d))) by (split; [done|]; intros a b c; congruence).
    unfold publishFlowCompleted, PublishEvent, best_effort. cbv zeta.
    repeat first [progress moves_step | typeclasses eauto | apply publishes_only, PublishTx_sessions]. }
  assert (forall x w2, (if justCompleted s then publishFlowCompleted (stamped (w_now w) s) else ret tt) (after_stmt (no_locks (w_db w)) d w) = (x, w2) ->
    x = Ok tt /\ db_sessions (tables_of (w_db w2)) = db_sessions (tables_of d)) as Hp.
  { intros x w2 Ex. destruct (justCompleted s); [|by injection Ex as <- <-]. split; [|by apply Hm in Ex].
    by apply publishFlowCompleted_ok in Ex. }
  destruct (_ (after_stmt _ _ _)) as [x w2] eqn:Ex in E. apply Hp in Ex as [-> Hs]. injection E as <- <-.
  exists (w_now w). split; [done|]. unfold saved. rewrite Hs, <- Hd. cbn. by rewrite lookup_insert_eq.
Qed.

Lemma stamped_same_person t s : same_person s (stamped t s).
Proof. unfold stamped. by destruct (justCompleted s), s. Qed.

Lemma stamped_in_flow t flow step s : in_flow flow step s -> in_flow flow step (stamped t s).
Proof.
  intros (Hf & Hs & Ha & Hc). unfold stamped, justCompleted. rewrite bool_decide_eq_false_2 by (by rewrite Ha). cbn. by destruct s.
Qed.

Lemma stamped_completed t s : ss_Status s = SessionStatusCompleted -> ss_CompletedAt s = None -> completed (stamped t s).
Proof.
  intros Ha Hc. unfold stamped, justCompleted. rewrite bool_decide_eq_true_2 by done. rewrite Hc. cbn. by destruct s.
Qed.

(** The end of a run: the session is written, or the run reports an error. *)
Lemma finish_with_run s e w s' e' w' : finish_with s e w = (Ok (s', e'), w') ->
  same_person s s' /\ (forall x, e = Some x -> e' = Some x) /\
  (e = None -> e' <> Some errChatGraphRunaway) /\
  (e' = None -> (exists t, s' = stamped t s) /\ saved (w_db w') s').
Proof.
  unfold finish_with. intros E. apply bind_ok_inv in E as (r & w1 & E1%try_ok_inv & E2). apply ret_ok_inv in E2 as [E2 ->].
  apply persistChatSession_run in E1. destruct r as [s1|x].
  - destruct E1 as (t & -> & Hs). simplify_eq. split_and!; [apply stamped_same_person|done|by intros ->|]. intros _. by split; [exists t|].
  - destruct e as [y|]; simplify_eq; split_and!; try done. congruence.
Qed.

(** *** The loop *)

(** A run from [step] with [fuel] turns left has walked, and left things as the
    end of the walk says. *)
Definition walked (offered : ChatbotFlow -> Prop) (fuel : nat) (m : Message) (flow : ChatbotFlow) (g : Graph) (step : string) (fresh : bool)
    (s s' : ChatbotSession) (e : option err) (d' : ChatDB) : Prop :=
  exists trail flow' g' step' en,
    walk offered m flow g step fresh trail flow' g' step' en /\
    (length trail <= fuel)%nat /\ (en = Tired -> length trail = fuel) /\
    same_person s s' /\ comes_to flow' step' en s' e /\ (e = None -> saved d' s') /\
    (en <> Tired -> e <> Some errChatGraphRunaway).

Lemma walk_offers (P Q : ChatbotFlow -> Prop) m flow g step fresh trail flow' g' step' en :
  (forall f, P f -> Q f) -> walk P m flow g step fresh trail flow' g' step' en -> walk Q m flow g step fresh trail flow' g' step' en.
Proof. intros HPQ. induction 1; by econstructor; eauto. Qed.

(** One visit more. *)
Lemma walked_on (P Q : ChatbotFlow -> Prop) fuel m flow g step fresh flow2 g2 step2 fresh2 v s s2 s' e d' :
  (forall trail flow' g' step' en, walk Q m flow2 g2 step2 fresh2 trail flow' g' step' en ->
     walk Q m flow g step fresh (v :: trail) flow' g' step' en) ->
  (forall f, P f -> Q f) -> same_person s s2 ->
  walked P fuel m flow2 g2 step2 fresh2 s2 s' e d' -> walked Q (S fuel) m flow g step fresh s s' e d'.
Proof.
  intros Hv HPQ Hs (trail & flow' & g' & step' & en & Hw & Hl & Ht & Hs' & Hend). exists (v :: trail), flow', g', step', en.
  split_and!; cbn [length]; [by eapply Hv, walk_offers|lia|intros E; f_equal; by apply Ht|by etrans|apply Hend..].
Qed.

(** The session as a turn leaves it to the next one. *)
Definition keeps_on (flow : ChatbotFlow) (c c2 : chatNodeCtx) : Prop :=
  message_of c2 = message_of c /\ cc_account c2 = cc_account c /\ same_person (cc_session c) (cc_session c2) /\
  in_flow flow (ss_CurrentStep (cc_session c)) (cc_session c2).

Lemma works_same_person c c2 : works c c2 -> same_person (cc_session c) (cc_session c2).
Proof. intros [_ _ _ _ _ _ (d & n & ->)]. by split_and!. Qed.

Lemma works_keeps_on flow c c2 : works c c2 -> in_flow flow (ss_CurrentStep (cc_session c)) (cc_session c) -> keeps_on flow c c2.
Proof. intros [Ha _ _ Hm _ _ (d & n & E)] Hf. unfold keeps_on. rewrite E. by split_and!. Qed.

Lemma keeps_on_path flow c c2 node o : keeps_on flow c c2 -> keeps_on flow c (appendChatPath node o c2).
Proof.
  intros (Hm & Ha & Hs & Hf). split_and!; [done|done| |]; unfold appendChatPath, append_path, put; cbn; destruct (cc_session c2); done.
Qed.

Lemma complete_run flow c w s' e w' : complete flow c w = (Ok (s', e), w') -> ss_CompletedAt (cc_session c) = None ->
  same_person (cc_session c) s' /\ e <> Some errChatGraphRunaway /\ (e = None -> completed s' /\ saved (w_db w') s').
Proof.
  unfold complete. cbv zeta. intros (u & w1 & _ & E)%bind_ok_inv Hc.
  apply finish_with_run in E as (Hs & _ & He & Hok). split_and!.
  - etrans; [|exact Hs]. cbn. by destruct (cc_session c).
  - by apply He.
  - intros E. apply Hok in E as [[t ->] Hsv]. split; [|done]. apply stamped_completed; [done|]. cbn. by destruct (cc_session c).
Qed.

(** How the loop goes on along an edge. *)
Definition follow (fuel : nat) (flow : ChatbotFlow) (g : Graph) (node : Node) (o : string) (c : chatNodeCtx) : MC Outcome_ :=
  if is_empty (ResolveEdge g (nd_ID node) o) then complete flow c
  else run_loop fuel flow g (move_to (ResolveEdge g (nd_ID node) o) c).

Abbreviation offers c d := (served (wa_OrganizationID (cc_account c)) d).

(** What the loop owes with [fuel] turns left. *)
Definition loop_walks (fuel : nat) : Prop := forall flow g c w s' e w',
  run_loop fuel flow g c w = (Ok (s', e), w') -> in_flow flow (ss_CurrentStep (cc_session c)) (cc_session c) ->
  walked (offers c (w_db w)) fuel (message_of c) flow g (ss_CurrentStep (cc_session c)) (negb (cc_consumed c)) (cc_session c) s' e (w_db w').

Lemma follow_walks fuel flow g c c2 node h o d w s' e w' :
  loop_walks fuel -> follow fuel flow g node o c2 w = (Ok (s', e), w') -> keeps_on flow c c2 -> calm d (w_db w) ->
  node_at g (ss_CurrentStep (cc_session c)) = Some node ->
  turn (message_of c) (negb (cc_consumed c)) flow node h o (negb (cc_consumed c2)) ->
  walked (offers c d) (S fuel) (message_of c) flow g (ss_CurrentStep (cc_session c)) (negb (cc_consumed c)) (cc_session c) s' e (w_db w').
Proof.
  intros IH E (Hm & Hacc & Hs & Hf) (_ & Hcalm & _) Hn Ht. unfold follow in E. destruct (is_empty _) eqn:Hnext.
  - apply complete_run in E as (Hs' & He & Hok); [|apply Hf].
    exists [Visit (fl_ID flow) (ss_CurrentStep (cc_session c)) h], flow, g, (ss_CurrentStep (cc_session c)), Finished.
    split_and!; cbn [length]; [|lia|done|by etrans|intros He'; by apply Hok|intros He'; by apply Hok|done].
    eapply walk_ends; [done|exact Ht|by destruct (ResolveEdge _ _ _)].
  - assert (in_flow flow (ResolveEdge g (nd_ID node) o) (cc_session (move_to (ResolveEdge g (nd_ID node) o) c2))) as Hf2
      by (by destruct Hf as (? & _ & ? & ?)).
    pose proof (IH _ _ _ _ _ _ _ E Hf2) as Hw. cbn in Hw. change (message_of (move_to _ c2)) with (message_of c2) in Hw.
    rewrite Hm, Hacc in Hw. eapply walked_on; [| | |exact Hw].
    + intros trail flow' g' step' en Hrest. by eapply walk_on; [|exact Ht|destruct (ResolveEdge _ _ _)|exact Hrest].
    + intros f. apply Hcalm.
    + etrans; [exact Hs|]. cbn. by destruct (cc_session c2).
Qed.

(** A node that jumps has said so; every other keeps the flow. *)
Lemma did_keeps_on flow c a c2 : did c a c2 -> in_flow flow (ss_CurrentStep (cc_session c)) (cc_session c) ->
  match a with
  | Jumps id => cc_consumed c2 = cc_consumed c /\ ss_CurrentFlowID (cc_session c2) = Some id /\ same_person (cc_session c) (cc_session c2) /\
                (forall target, fl_ID target = id -> keeps_on target c c2)
  | HandsOver => same_person (cc_session c) (cc_session c2) /\ ss_Status (cc_session c2) = SessionStatusCompleted /\
                 ss_CompletedAt (cc_session c2) = None
  | Leaves taken _ => keeps_on flow c c2 /\ negb (cc_consumed c2) = if taken then false else negb (cc_consumed c)
  | Waits => keeps_on flow c c2
  end.
Proof.
  destruct a as [| |[] o|id]; cbn [did].
  - intros [Hw|Hw] Hf; [by apply works_keeps_on|by apply (works_keeps_on flow (consume c))].
  - intros (c1 & Hw & ->) Hf. apply (works_keeps_on flow) in Hw as (_ & _ & Hs & _ & _ & _ & Hc); [|done].
    split_and!; [etrans; [exact Hs|]|..]; cbn; by destruct (cc_session c1).
  - intros Hw Hf. split; [by apply (works_keeps_on flow (consume c))|]. by rewrite (works_fresh _ _ Hw).
  - intros Hw Hf. split; [by apply works_keeps_on|]. by rewrite (works_fresh _ _ Hw).
  - intros (c1 & Hw & ->) Hf. pose proof (works_fresh _ _ Hw) as Hfr. apply (works_keeps_on flow) in Hw as (Hm & Ha & Hs & Hf1); [|done].
    destruct Hf1 as (_ & ? & ? & ?).
    assert (same_person (cc_session c) (cc_session (set_session (set_ss_CurrentFlowID (Some id) (cc_session c1)) c1))) as Hs2
      by (etrans; [exact Hs|]; cbn; by destruct (cc_session c1)).
    split_and!; [done|done|done|]. intros target <-. split_and!; [done|done|done|]. cbn. by destruct (cc_session c1).
Qed.

Lemma switched_keeps flow c : ss_CurrentFlowID (cc_session c) = Some (fl_ID flow) -> switched flow c = None.
Proof. unfold switched. intros ->. by rewrite N.eqb_refl. Qed.

Lemma load_switched_run c id w r w' : load_switched c id w = (Ok r, w') -> calm (w_db w) (w_db w') /\
  match r with
  | Ok (f, g) => fl_ID f = id /\ offers c (w_db w) f /\ parseChatGraph (fl_Graph f) = Ok (Some g)
  | Err e => exists s, e = ErrMsg s
  end.
Proof.
  intros E. split; [by apply load_switched_calm in E|]. unfold load_switched in E. apply bind_ok_inv in E as (x & w1 & E1%try_ok_inv & E2).
  apply ret_ok_inv in E2 as [-> _]. destruct x as [f|e]; [|by eexists]. apply getChatbotFlowByIDCached_served in E1 as [Hs Hid].
  destruct (fl_Graph f) as [raw|] eqn:Eg; [|by eexists]. destruct (parseChatGraph _) as [[g|]|] eqn:Ep; [|by eexists..].
  split_and!; [done|done|]. by rewrite Eg.
Qed.

(** Nothing passed: the run stops at this very node. *)
Lemma stops_here (P : ChatbotFlow -> Prop) fuel m flow g step fresh s s' e d' en :
  walk P m flow g step fresh [] flow g step en -> en <> Tired -> same_person s s' -> comes_to flow step en s' e ->
  (e = None -> saved d' s') -> e <> Some errChatGraphRunaway -> walked P fuel m flow g step fresh s s' e d'.
Proof. intros Hw Hen Hs Hc Hsv He. exists [], flow, g, step, en. split_and!; cbn [length]; [done|lia|done|done|done|done|done]. Qed.

Lemma breaks_here (P : ChatbotFlow -> Prop) fuel m flow g step fresh node s s1 s' x e w d' :
  node_at g step = Some node -> same_person s s1 -> (exists t, x = ErrMsg t) -> finish_with s1 (Some x) w = (Ok (s', e), d') ->
  walked P fuel m flow g step fresh s s' e (w_db d').
Proof.
  intros Hn Hs (t & ->) E. apply finish_with_run in E as (Hs' & He & _ & _). specialize (He _ eq_refl) as ->.
  apply (stops_here _ _ _ _ _ _ _ _ _ _ _ Broken); [by eapply walk_breaks|done|by etrans|done|done|done].
Qed.

(** A jump to another flow. *)
Lemma jump_walks fuel flow g c c1 node id w w0 s' e w' :
  loop_walks fuel -> calm w0 (w_db w) -> node_at g (ss_CurrentStep (cc_session c)) = Some node ->
  does (message_of c) (negb (cc_consumed c)) node (Jumps id) -> cc_consumed c1 = cc_consumed c ->
  same_person (cc_session c) (cc_session c1) -> (forall target, fl_ID target = id -> keeps_on target c c1) ->
  bind (load_switched (appendChatPath node "goto" c1) id) (fun target =>
    match target with
    | Err e => finish_with (cc_session (appendChatPath node "goto" c1)) (Some e)
    | Ok (flow, graph) => run_loop fuel flow graph (move_to (gr_EntryNode graph) (appendChatPath node "goto" c1))
    end) w = (Ok (s', e), w') ->
  walked (offers c w0) (S fuel) (message_of c) flow g (ss_CurrentStep (cc_session c)) (negb (cc_consumed c)) (cc_session c) s' e (w_db w').
Proof.
  intros IH (_ & Hcalm & _) Hn Hd Hfresh Hsame Hk (t & w1 & ((_ & Hc1 & _) & Ht)%load_switched_run & E)%bind_ok_inv.
  assert (same_person (cc_session c) (cc_session (appendChatPath node "goto" c1))) as Hs by (etrans; [exact Hsame|]; cbn; by destruct (cc_session c1)).
  destruct t as [[f gt]|x]; [|by eapply breaks_here].
  destruct Ht as (Hfid & Hoff & Hp). specialize (Hk f Hfid). apply (keeps_on_path _ _ _ node "goto") in Hk as (Hm & Ha & _ & Hk2).
  assert (in_flow f (gr_EntryNode gt) (cc_session (move_to (gr_EntryNode gt) (appendChatPath node "goto" c1)))) as Hf2
    by (by destruct Hk2 as (? & _ & ? & ?)).
  pose proof (IH _ _ _ _ _ _ _ E Hf2) as Hw. cbn in Hw.
  change (message_of (move_to _ (appendChatPath node "goto" c1))) with (message_of (appendChatPath node "goto" c1)) in Hw.
  change (cc_account (appendChatPath node "goto" c1)) with (cc_account c1) in *.
  rewrite Hm, Ha, Hfresh in Hw. rewrite Ha in Hoff.
  eapply walked_on; [| | |exact Hw].
  - intros trail flow' g' step' en Hrest. subst id. by eapply walk_jumps; [|exact Hd|apply Hcalm|..].
  - intros f' Hf'. by apply Hcalm, Hc1.
  - etrans; [exact Hs|]. cbn. by destruct (cc_session c1).
Qed.

(** What a node that was executed leads to. *)
Lemma node_walks fuel flow g c node r w w0 s' e w' :
  loop_walks fuel -> keeps_contract node c r -> calm w0 (w_db w) -> node_at g (ss_CurrentStep (cc_session c)) = Some node ->
  in_flow flow (ss_CurrentStep (cc_session c)) (cc_session c) ->
  (match r with
   | (c, Err e) => finish_with (cc_session c) (Some e)
   | (c, Ok outcome) =>
       let c := appendChatPath node (no_outcome outcome) c in
       if no_yield outcome then finish_with (cc_session c) None
       else match switched flow c with
       | Some id =>
           target <- load_switched c id ;;
           match target with
           | Err e => finish_with (cc_session c) (Some e)
           | Ok (flow, graph) => run_loop fuel flow graph (move_to (gr_EntryNode graph) c)
           end
       | None => follow fuel flow g node (no_outcome outcome) c
       end
   end) w = (Ok (s', e), w') ->
  walked (offers c w0) (S fuel) (message_of c) flow g (ss_CurrentStep (cc_session c)) (negb (cc_consumed c)) (cc_session c) s' e (w_db w').
Proof.
  intros IH Hr Hcalm Hn Hf E. destruct r as [c1 [o|x]].
  2:{ destruct Hr as (Hw & Hx). eapply breaks_here; [done| |done|exact E].
      by destruct Hw as [Hw|Hw]; apply works_same_person in Hw. }
  destruct Hr as (a & Hd & Hdid & ->). pose proof (did_keeps_on _ _ _ _ Hdid Hf) as Hk. cbv zeta in E.
  destruct a as [| |taken o|id]; cbn [outcome_of no_outcome no_yield stay leave] in E.
  - apply (keeps_on_path _ _ _ node "") in Hk as (_ & _ & Hs & Hk). apply finish_with_run in E as (Hs' & _ & He & Hok).
    apply (stops_here _ _ _ _ _ _ _ _ _ _ _ Waiting); [by eapply walk_waits|done|by etrans| |intros E; by apply Hok|by apply He].
    intros E. apply Hok in E as [[t ->] _]. by apply stamped_in_flow.
  - destruct Hk as (Hs & Hst & Hc). apply finish_with_run in E as (Hs' & _ & He & Hok).
    apply (stops_here _ _ _ _ _ _ _ _ _ _ _ Handed); [by eapply walk_hands|done| | |intros E; by apply Hok|by apply He].
    + etrans; [exact Hs|]. etrans; [|exact Hs']. cbn. by destruct (cc_session c1).
    + intros E. apply Hok in E as [[t ->] _]. apply stamped_completed; cbn; by destruct (cc_session c1).
  - destruct Hk as (Hk & Hfresh). apply (keeps_on_path _ _ _ node o) in Hk. rewrite switched_keeps in E by apply Hk.
    eapply (follow_walks _ _ _ _ _ _ (if taken then Answered o else Passed o)); [done|exact E|done|done|done|].
    change (cc_consumed (appendChatPath node o c1)) with (cc_consumed c1). rewrite Hfresh.
    destruct taken; [by apply turn_answer|by apply turn_pass].
  - destruct Hk as (Hfresh & Hid & Hsame & Hk). unfold switched in E. change (ss_CurrentFlowID (cc_session (appendChatPath node "goto" c1)))
      with (ss_CurrentFlowID (cc_session c1)) in E. rewrite Hid in E. destruct (N.eqb_spec id (fl_ID flow)) as [-> |Hne].
    + eapply (follow_walks _ _ _ _ _ _ (Passed "goto")); [done|exact E|apply keeps_on_path; by apply Hk|done|done|].
      change (cc_consumed (appendChatPath node "goto" c1)) with (cc_consumed c1). rewrite Hfresh. by apply turn_home.
    + by eapply jump_walks.
Qed.

Lemma run_loop_walks fuel : loop_walks fuel.
Proof.
  induction fuel as [|fuel IH]; intros flow g c w s' e w' E Hf; cbn [run_loop] in E.
  - apply finish_with_run in E as (Hs & He & _ & _). specialize (He _ eq_refl) as ->.
    exists [], flow, g, (ss_CurrentStep (cc_session c)), Tired. split_and!; try done. apply walk_tires.
  - destruct (node_at g _) as [node|] eqn:Hn.
    2:{ apply ret_ok_inv in E as [E ->]. simplify_eq. by apply (stops_here _ _ _ _ _ _ _ _ _ _ _ Lost); [apply walk_loses|..]. }
    destruct (skips node c) eqn:Hskip.
    + cbv zeta in E. apply (follow_walks fuel flow g c (appendChatPath node "skipped" c) node Skipped "default" (w_db w)) in E;
        [done|done|apply keeps_on_path, works_keeps_on; done|done|done|].
      apply turn_skip. unfold skips in Hskip. apply andb_true_iff in Hskip as [Hne%negb_true_iff _]. by apply is_empty_false.
    + apply bind_ok_inv in E as (r & w1 & Er & E). pose proof (executeChatNode_keeps _ _ _ _ _ Er) as Hr.
      apply executeChatNode_calm in Er. eapply node_walks; [exact IH|exact Hr|exact Er|exact Hn|exact Hf|].
      destruct r as [c1 [o|x]]; exact E.
Qed.

(** *** A message *)

Definition starts (s : ChatbotSession) : bool := is_empty (ss_CurrentStep s).

(** Where a message finds a session, and what it has for the questions there:
    the text that starts a flow answers none. *)
Definition entry_step (g : Graph) (s : ChatbotSession) : string := if starts s then gr_EntryNode g else ss_CurrentStep s.
Definition message_to (s : ChatbotSession) (text buttonID : string) (answers : Config) : Message :=
  if starts s then MkMessage "" "" answers else MkMessage text buttonID answers.

Lemma runChatGraph_walks account contact metadata s flow text buttonID answers g w s' e w' :
  parseChatGraph (fl_Graph flow) = Ok (Some g) -> in_flow flow (ss_CurrentStep s) s ->
  runChatGraph account contact metadata s flow text buttonID answers w = (Ok (s', e), w') ->
  walked (served (wa_OrganizationID account) (w_db w)) maxChatGraphIterations (message_to s text buttonID answers) flow g
    (entry_step g s) true s s' e (w_db w').
Proof.
  intros Hg Hf E. unfold runChatGraph in E. rewrite Hg in E. cbv zeta in E.
  apply bind_ok_inv in E as (crm & w1 & (_ & Hcalm & _)%crm_of_calm & E).
  match type of E with run_loop _ _ _ ?c _ = _ => set (c0 := c) in E end.
  assert (in_flow flow (ss_CurrentStep (cc_session c0)) (cc_session c0) /\ same_person s (cc_session c0) /\
          ss_CurrentStep (cc_session c0) = entry_step g s /\ message_of c0 = message_to s text buttonID answers) as (Hf0 & Hs0 & Hst & Hm).
  { clear E. unfold c0, entry_step, message_to, starts, seed_variables, message_of. destruct Hf as (? & _ & ? & ?).
    destruct s as [? ? ? ? ? ? ? ? step]; cbn in *. destruct (step =? "")%string; by split_and!. }
  pose proof (run_loop_walks _ _ _ _ _ _ _ _ E Hf0) as Hwalk. rewrite Hst, Hm in Hwalk.
  destruct Hwalk as (trail & flow' & g' & step' & en & Hw & Hl & Ht & Hs & Hend). exists trail, flow', g', step', en.
  split_and!; [by eapply walk_offers; [apply Hcalm|]|done|done|by etrans|apply Hend..].
Qed.
End Runner.
