(* ===== verification/ChatOnce.v ===== *)
(** * A flow is announced as completed once

    [chatbot.flow_completed] is what a rule waits for to act on the answers a
    flow has collected.  However messages, sweeps and the rest of the backend
    follow one another, and whatever fails, no session is announced twice. *)
From S2P Require Import Prelude GoLib Store Events Wire Models Statements Text Triggers Fields FieldService People Schedule.
From S2P Require Import Placeholders Templating CRMContext Assignment Transfers ChatModels Handoff FlowGraph ChatNodes ChatRunner ChatProcessor ChatSteps ChatLemmas ChatWalk.

Section Once.
Context `{SL : SqlLaws} `{GJ : GoJson} `{UTL : !UuidTextLaws} `{FS : FieldsServer} `{CE : !ContextEnv} `{CH : !ChatEnv}.

Abbreviation MC := (M ChatDB).

(** The row that says that session [id] is through. *)
Definition completes (id : uuid) (row : CRMEventOutbox) : Prop :=
  ob_Type row = "chatbot.flow_completed" /\ get (ob_Data row) "session_id" = AString (uuid_String id).

Definition announced_at (d : ChatDB) (k id : uuid) : Prop :=
  exists row, db_outbox (tables_of d) !! k = Some row /\ completes id row.

Definition unannounced (id : uuid) (d : ChatDB) : Prop := forall k, ~ announced_at d k id.

Record sound (d : ChatDB) : Prop := MkSound {
  sound_key : forall k s, db_sessions (tables_of d) !! k = Some s -> ss_ID s = k;
  sound_named : forall k id, announced_at d k id -> exists s, db_sessions (tables_of d) !! id = Some s /\ ss_Status s <> SessionStatusActive;
  sound_once : forall k k' id, announced_at d k id -> announced_at d k' id -> k = k'
}.

(** What everybody else may do to the tables meanwhile: sessions are only
    ended, nothing is announced for the chatbot. *)
Definition others (d d' : ChatDB) : Prop :=
  (forall k id, announced_at d' k id <-> announced_at d k id) /\
  (forall k, option_Forall2 ended (db_sessions (tables_of d) !! k) (db_sessions (tables_of d') !! k)).

Lemma calm_others d d' : calm d d' -> others d d'.
Proof. intros (Eo & _ & Hs). split; [|done]. intros k id. unfold announced_at. by rewrite Eo. Qed.

Lemma others_sound d d' : others d d' -> sound d -> sound d'.
Proof.
  intros [Ho Hs] [Hk Hn H1]. split.
  - intros k s' E. specialize (Hs k). rewrite E in Hs. destruct (db_sessions (tables_of d) !! k) as [s|] eqn:E0; inversion Hs as [? ? Hend|]; subst.
    apply Hk in E0 as <-. by destruct Hend as [-> |(-> & _)].
  - intros k id (s & E & Ha)%Ho%Hn. specialize (Hs id). rewrite E in Hs. inversion Hs as [? s' Hend E0 E1|]; subst.
    exists s'. split; [done|]. by destruct Hend as [-> |(_ & ? & _)].
  - intros k k' id ?%Ho ?%Ho. by eapply H1.
Qed.

Lemma others_unannounced id d d' : others d d' -> unannounced id d -> unannounced id d'.
Proof. intros [Ho _] Hu k ?%Ho. by eapply Hu. Qed.

(** A session that may still be announced. *)
Definition open (id : uuid) (d : ChatDB) : Prop := sound d /\ unannounced id d.

Lemma calm_open id {A} (m : MC A) : moves calm m -> triple (open id) m (fun _ => open id).
Proof.
  intros Hm w r w' [Hs Hu] E. apply Hm, calm_others in E. split; [by eapply others_sound|by eapply others_unannounced].
Qed.

Lemma calm_sound {A} (m : MC A) : moves calm m -> triple sound m (fun _ => sound).
Proof. intros Hm w r w' Hs E. apply Hm, calm_others in E. by eapply others_sound. Qed.

(** ** Writing the session *)

(** A row of the session under its own key. *)
Lemma write_session d s : sound d -> unannounced (ss_ID s) d ->
  open (ss_ID s) (set_context_tables (set_db_sessions (<[ss_ID s := s]> (db_sessions (tables_of d))) (tables_of d)) d).
Proof.
  intros [Hk Hn H1] Hu. split; [|done]. split; [| |done].
  - intros k s' E. cbn in E. apply lookup_insert_Some in E as [[<- <-]|[_ E]]; [done|by apply Hk].
  - intros k id Ha. assert (id <> ss_ID s) as Hne by (intros ->; by apply (Hu k)).
    destruct (Hn k id Ha) as (s' & E & Hst). exists s'. cbn. by rewrite lookup_insert_ne.
Qed.

(** The outbox gains a row of this type and data, or nothing. *)
Lemma PublishTx_run e w r w' : PublishTx e w = (r, w') ->
  w_db w' = w_db w \/
  exists row, db_outbox (w_db w) !! ob_ID row = None /\ ob_Type row = e_Type e /\ ob_Data row = e_Data e /\
    w_db w' = set_db_outbox (<[ob_ID row := row]> (db_outbox (w_db w))) (w_db w).
Proof.
  unfold PublishTx. destruct (N.eqb _ _); [intros [= _ <-]; by left|]. destruct (negb _); [intros [= _ <-]; by left|].
  intros E. unfold bind at 1 in E. destruct ((if N.eqb (e_ID e) uuid_Nil then uuid_New else ret uuid_Nil) w) as [[fresh|x] w1] eqn:E1;
    assert (w_db w1 = w_db w) as Hw1 by (by destruct (N.eqb (e_ID e) uuid_Nil); injection E1 as _ <-); [|simplify_eq; by left].
  unfold bind in E. cbn in E. cbv zeta in E. destruct r as [u|x].
  - apply stmt_ok_inv in E as (d & Ed & _ & ->). rewrite Hw1 in Ed. right. exists (toRow fresh (w_now w1) e).
    destruct (db_outbox (w_db w) !! _) eqn:Hl; [done|]. by injection Ed as _ <-.
  - left. apply rolls_back_stmt in E. by rewrite E.
Qed.

(** The event is published once the row says that the flow is over. *)
Lemma publishFlowCompleted_sound s w r w' :
  open (ss_ID s) (w_db w) -> db_sessions (tables_of (w_db w)) !! ss_ID s = Some s -> ss_Status s <> SessionStatusActive ->
  publishFlowCompleted s w = (r, w') -> sound (w_db w').
Proof.
  intros [[Hk Hn H1] Hu] Hrow Hst E. unfold publishFlowCompleted, bind at 1, uuid_New, bind at 1, now in E. cbv zeta in E.
  unfold PublishEvent, best_effort, bind, try, on_tables, zoom in E. destruct (PublishTx _ _) as [x w1] eqn:Ep in E.
  injection E as _ <-. cbn. apply PublishTx_run in Ep. cbn in Ep.
  match type of Ep with context [e_Type ?ev] => assert (e_Type ev = "chatbot.flow_completed" /\
    get (e_Data ev) "session_id" = AString (uuid_String (ss_ID s))) as [Ety Edata] by (by destruct (N.eqb (ss_ContactID s) uuid_Nil)) end.
  destruct Ep as [-> |(row & Hfresh & Ht & Hd & ->)].
  { by destruct (w_db w) as [[] ]. }
  set (d' := set_context_tables _ _).
  assert (forall k id, announced_at d' k id -> k = ob_ID row /\ id = ss_ID s \/ announced_at (w_db w) k id) as Hnew.
  { intros k id (row' & E & Hc). cbn in E. apply lookup_insert_Some in E as [[<- <-]|[_ E]]; [left|right; by exists row'].
    split; [done|]. destruct Hc as [_ Hc]. rewrite Hd, Edata in Hc. injection Hc as Hc.
    apply (f_equal uuid_Parse) in Hc. rewrite !uuid_Parse_String in Hc. by simplify_eq. }
  split; [exact Hk| |].
  - intros k id [[-> ->]|Ha]%Hnew; [by exists s|by eapply Hn].
  - intros k k' id [[-> ->]|Ha]%Hnew [[-> E]|Ha']%Hnew; [done|by destruct (Hu k')|subst; by destruct (Hu k)|by eapply H1].
Qed.

Lemma persistChatSession_sound s : triple (open (ss_ID s)) (persistChatSession s) (fun _ => sound).
Proof.
  intros w r w' Ho E. unfold persistChatSession in E. unfold bind at 1 in E. cbn in E. set (t := w_now w) in *.
  unfold bind at 1 in E. destruct (save_session _ w) as [[u|x] w1] eqn:Es.
  2:{ simplify_eq. apply rolls_back_stmt in Es. rewrite Es. apply Ho. }
  apply stmt_ok_inv in Es as (d & Hd & _ & ->). injection Hd as _ Hd.
  assert (ss_ID (stamped t s) = ss_ID s) as Hid by apply stamped_same_person.
  assert (open (ss_ID (stamped t s)) d) as Ho1 by (rewrite <- Hd; apply write_session; rewrite ?Hid; apply Ho).
  unfold bind at 1 in E.
  match type of E with (let (_, _) := ?m in _) = _ => destruct m as [x w2] eqn:Ex end.
  assert (sound (w_db w2)) as Hs2.
  { destruct (justCompleted s) eqn:Hj; [|injection Ex as _ <-; apply Ho1].
    refine (publishFlowCompleted_sound _ _ _ _ _ _ _ Ex); [exact Ho1|cbn; rewrite <- Hd; cbn; by rewrite lookup_insert_eq|].
    unfold justCompleted in Hj. apply andb_true_iff in Hj as [Hst%bool_decide_eq_true _].
    unfold stamped. destruct (justCompleted s); cbn; by rewrite Hst. }
  by destruct x; injection E as _ <-.
Qed.

Lemma triple_last {A B} P (m : MC A) (k : A -> MC B) :
  triple P m (fun _ => sound) -> (forall a, triple sound (k a) (fun _ => sound)) -> triple P (bind m k) (fun _ => sound).
Proof. intros Hm Hk. apply (triple_bind _ (fun _ => sound)); [|done]. intros w [a|x] w' Hp E; by eapply Hm. Qed.

Lemma finish_with_sound id s e : ss_ID s = id -> triple (open id) (finish_with s e) (fun _ => sound).
Proof.
  intros <-. unfold finish_with. apply triple_last; [|intros x; by apply triple_ret].
  intros w [x|x] w' Ho E; [|by unfold try in E; destruct (persistChatSession s w)].
  apply try_ok_inv in E. by eapply persistChatSession_sound.
Qed.

(** ** The run *)

Lemma same_id c c1 : works c c1 -> ss_ID (cc_session c1) = ss_ID (cc_session c).
Proof. intros Hw. apply works_same_person in Hw. apply Hw. Qed.

Lemma executeChatNode_id node c w c1 o w' : executeChatNode node c w = (Ok (c1, o), w') -> ss_ID (cc_session c1) = ss_ID (cc_session c).
Proof.
  intros E. apply executeChatNode_keeps in E. destruct o as [o|x].
  - destruct E as ([| |[] o'|id] & _ & Hd & _); cbn [did] in Hd;
      [destruct Hd as [Hd|Hd]; by apply same_id in Hd| |by apply same_id in Hd|by apply same_id in Hd|];
      destruct Hd as (c2 & Hd%same_id & ->); by rewrite <- Hd.
  - destruct E as ([Hd|Hd] & _); by apply same_id in Hd.
Qed.

(** A call that publishes nothing, and what it returns. *)
Lemma triple_calm {A} id (m : MC A) (Q : A -> Prop) : moves calm m -> ensures m Q ->
  triple (open id) m (fun r d => match r with Ok a => Q a /\ open id d | Err _ => sound d end).
Proof.
  intros Hm Hq w r w' Ho E. pose proof (calm_open id m Hm _ _ _ Ho E) as Ho'.
  destruct r as [a|x]; [split; [by eapply Hq|done]|apply Ho'].
Qed.

(** The rest of a computation, the calm part of it done. *)
Lemma triple_calm_bind {A B} id (m : MC A) (k : A -> MC B) (Q : A -> Prop) : moves calm m -> ensures m Q ->
  (forall a, Q a -> triple (open id) (k a) (fun _ => sound)) -> triple (open id) (bind m k) (fun _ => sound).
Proof.
  intros Hm Hq Hk. apply (triple_bind _ (fun a d => Q a /\ open id d)); [by apply triple_calm|].
  intros a w r w' [Ha Ho] E. by eapply Hk.
Qed.

Lemma ensures_any {A} (m : MC A) : ensures m (fun _ => True).
Proof. done. Qed.

Lemma complete_sound id flow c : ss_ID (cc_session c) = id -> triple (open id) (complete flow c) (fun _ => sound).
Proof.
  intros Hid. unfold complete. cbv zeta. eapply triple_calm_bind; [apply finishChatFlow_calm|apply ensures_any|]. intros _ _.
  apply finish_with_sound. rewrite <- Hid. cbn. by destruct (cc_session c).
Qed.

Lemma run_loop_sound id fuel flow g c : ss_ID (cc_session c) = id -> triple (open id) (run_loop fuel flow g c) (fun _ => sound).
Proof.
  revert flow g c. induction fuel as [|fuel IH]; intros flow g c Hid; cbn [run_loop]; [by apply finish_with_sound|].
  assert (forall c1 node o step, ss_ID (cc_session c1) = id ->
    triple (open id) (if is_empty step then complete flow (appendChatPath node o c1)
                      else run_loop fuel flow g (move_to step (appendChatPath node o c1))) (fun _ => sound)) as Hnext.
  { intros c1 node o step Hid1. destruct (is_empty step); [apply complete_sound|apply IH]; rewrite <- Hid1; cbn; by destruct (cc_session c1). }
  destruct (node_at g _) as [node|]; [|by apply triple_ret; intros d [? _]].
  destruct (skips node c); [by apply Hnext|].
  apply (triple_calm_bind _ _ _ (fun r => ss_ID (cc_session r.1) = id)); [apply executeChatNode_calm| |].
  { intros w [c1 o] w' E. cbn. rewrite <- Hid. by eapply executeChatNode_id. }
  intros [c1 [o|x]] Hid1; cbn in Hid1; [|by apply finish_with_sound]. cbv zeta.
  destruct (no_yield o); [apply finish_with_sound; rewrite <- Hid1; cbn; by destruct (cc_session c1)|].
  destruct (switched _ _) as [to|]; [|by apply Hnext].
  eapply triple_calm_bind; [apply load_switched_calm|apply ensures_any|]. intros [[flow2 g2]|x] _.
  - apply IH. rewrite <- Hid1. cbn. by destruct (cc_session c1).
  - apply finish_with_sound. rewrite <- Hid1. cbn. by destruct (cc_session c1).
Qed.

Lemma run_flow_sound account contact metadata s flow text buttonID answers :
  triple (open (ss_ID s)) (run_flow account contact metadata s flow text buttonID answers) (fun _ => sound).
Proof.
  unfold run_flow. apply triple_last; [|intros x; by apply triple_ret]. unfold runChatGraph. destruct (parseChatGraph _) as [[g|]|]; [|by apply triple_ret; intros d [? _]..]. cbv zeta.
  eapply triple_calm_bind; [apply crm_of_calm|apply ensures_any|]. intros crm _. apply run_loop_sound.
  destruct (is_empty _); cbn; by destruct s.
Qed.

(** ** A message *)

Lemma calm_ends {A} id (m : MC A) : moves calm m -> triple (open id) m (fun _ => sound).
Proof. intros Hm. eapply triple_conseq; [by apply (calm_open id)|done|]. by intros r d [? _]. Qed.

Lemma continue_flow_sound account contact metadata s flowID text buttonID answers :
  triple (open (ss_ID s)) (continue_flow account contact metadata s flowID text buttonID answers) (fun _ => sound).
Proof.
  unfold continue_flow. eapply triple_calm_bind; [apply moves_try, getChatbotFlowByIDCached_calm|apply ensures_any|].
  intros [flow|x] _; [|apply calm_ends, exitFlow_calm]. destruct (is_none _); [apply calm_ends, exitFlow_calm|].
  destruct (matchesCancelKeyword _ _); [apply calm_ends, cancelChatSession_calm|apply run_flow_sound].
Qed.

(** What a message does once its session is there. *)
Definition in_session (account : WhatsAppAccount) (contact : Contact) (metadata : Config) (settings : ChatbotSettings)
    (s : ChatbotSession) (isNew : bool) (text buttonID : string) (answers : Config) : MC unit :=
  logSessionMessage (ss_ID s) DirectionIncoming text "keyword_check" ;;;
  keyword <- matchKeywordRules (wa_OrganizationID account) (wa_Name account) text ;;
  match (k ← keyword; if is_transfer k then Some k else None) with
  | Some k => transfer_by_keyword account contact settings s k
  | None =>
      match ss_CurrentFlowID s with
      | Some flowID => continue_flow account contact metadata s flowID text buttonID answers
      | None =>
          flow <- matchFlowTrigger (wa_OrganizationID account) text ;;
          match flow with
          | Some flow =>
              if is_none (fl_Graph flow) then ret tt
              else run_flow account contact metadata (entering flow s) flow text buttonID answers
          | None => answer_freely account contact settings s isNew keyword text
          end
      end
  end.

Lemma in_session_sound account contact metadata settings s isNew text buttonID answers :
  triple (open (ss_ID s)) (in_session account contact metadata settings s isNew text buttonID answers) (fun _ => sound).
Proof.
  unfold in_session. eapply triple_calm_bind; [apply logSessionMessage_calm|apply ensures_any|]. intros _ _.
  eapply triple_calm_bind; [apply matchKeywordRules_calm|apply ensures_any|]. intros keyword _.
  destruct (keyword ≫= _) as [k|]; [apply calm_ends, transfer_by_keyword_calm|].
  destruct (ss_CurrentFlowID s) as [flowID|]; [apply continue_flow_sound|].
  eapply triple_calm_bind; [apply matchFlowTrigger_calm|apply ensures_any|]. intros [flow|] _; [|apply calm_ends, answer_freely_calm].
  destruct (is_none _); [by apply triple_ret; intros d [? _]|]. apply (run_flow_sound _ _ _ (entering flow s)).
Qed.

(** *** The session of a message *)

(** [uuid.New] never gives the id of a session. *)
Definition fresh_sessions (w : world ChatDB) : Prop := forall n, (w_uuid w <= n)%N -> db_sessions (tables_of (w_db w)) !! n = None.

Lemma stmt_uuid {DB A} locks (f : DB -> res err A * DB) w r w' : stmt locks f w = (r, w') -> w_uuid w' = w_uuid w.
Proof.
  unfold stmt. destruct (w_aborted w); [by intros [= _ <-]|].
  destruct (w_faults w) as [|[] fs]; cbn; [|by intros [= _ <-]|]; destruct (f (w_db w)) as [[a|x] d]; intros [= _ <-]; try done;
    by destruct (aborts x).
Qed.

(** The session is used now. *)
Lemma touch_open id p t : triple (open id) (best_effort (update_sessions p [set_ss_LastActivityAt t])) (fun _ => open id).
Proof.
  intros w r w' [[Hk Hn H1] Hu] E. unfold best_effort, bind, try, ret in E. destruct (update_sessions _ _ _) as [x w1] eqn:Es.
  injection E as _ <-. destruct x as [x|x]; [|apply rolls_back_stmt in Es; by rewrite Es].
  apply stmt_ok_inv in Es as (d & Hd & _ & ->). injection Hd as _ <-. cbn. split; [split|done].
  - intros k s E. cbn in E. rewrite update_where_lookup in E. destruct (_ !! k) as [s0|] eqn:E0; [|done]. injection E as <-.
    rewrite <- (Hk _ _ E0). by destruct (p s0).
  - intros k i (s & E & Hst)%Hn. cbn. rewrite update_where_lookup, E. eexists. split; [done|]. by destruct (p s).
  - exact H1.
Qed.

Lemma getOrCreateSession_open orgID contactID account phone mins w r w' :
  sound (w_db w) -> fresh_sessions w -> getOrCreateSession orgID contactID account phone mins w = (r, w') ->
  match r with Ok (s, _) => open (ss_ID s) (w_db w') | Err _ => sound (w_db w') end.
Proof.
  intros Hs Hfresh E. unfold getOrCreateSession in E. unfold bind at 1 in E. cbn in E. unfold bind at 1, try at 1 in E.
  destruct (query _ w) as [x w1] eqn:Eq. cbn in E. pose proof (stmt_uuid _ _ _ _ _ Eq) as Hu. destruct x as [s|x].
  - apply query_ok_inv in Eq as (Hrow & _ & ->). apply first_row_ok in Hrow as (k & Hk & Huse).
    assert (ss_ID s = k) as <- by (by eapply sound_key).
    unfold session_in_use, active_session in Huse. rewrite !andb_true_iff, bool_decide_eq_true in Huse. destruct Huse as ((((_ & Hact) & _) & _) & _).
    assert (open (ss_ID s) (w_db w)) as Ho.
    { split; [done|]. intros k' (s' & Hs' & Hst)%(sound_named _ Hs). by simplify_eq. }
    unfold bind, ret in E. destruct (best_effort _ _) as [y w2] eqn:Eb in E. pose proof (best_effort_ok _ _ _ _ Eb) as ->. injection E as <- <-.
    exact (touch_open (ss_ID s) _ _ (after_stmt [] (w_db w) w) _ _ Ho Eb).
  - assert (w_db w1 = w_db w) as Hw1 by (by eapply rolls_back_stmt). unfold bind, uuid_New, ret in E.
    destruct (best_effort _ _) as [y w2] eqn:Eb in E. pose proof (best_effort_ok _ _ _ _ Eb) as ->. injection E as <- <-. cbn.
    assert (open (w_uuid w1) (w_db w)) as Ho.
    { split; [done|]. intros k (s' & Hs' & _)%(sound_named _ Hs). by rewrite Hu, Hfresh in Hs'. }
    unfold best_effort, bind, try, ret in Eb. destruct (save_session _ _) as [z w3] eqn:Es. injection Eb as <-. cbn in Es.
    destruct z as [z|z]; [|apply rolls_back_stmt in Es; cbn in Es; by rewrite Es, Hw1].
    apply stmt_ok_inv in Es as (d & Hd & _ & ->). injection Hd as _ <-. cbn. rewrite Hw1.
    exact (write_session _ (new_session (w_uuid w1) (w_now w) orgID contactID account phone) (proj1 Ho) (proj2 Ho)).
Qed.

(** *** What comes before it *)

(** Nothing published, and no id given away twice. *)
Definition steady {A} (m : MC A) : Prop := forall w r w', m w = (r, w') -> calm (w_db w) (w_db w') /\ (w_uuid w <= w_uuid w')%N.

Lemma steady_fresh w w' : calm (w_db w) (w_db w') -> (w_uuid w <= w_uuid w')%N -> fresh_sessions w -> fresh_sessions w'.
Proof. intros (_ & _ & Hs) Hu Hf n Hn. specialize (Hs n). rewrite Hf in Hs by lia. by inversion Hs. Qed.

Lemma steady_bind {A B} (m : MC A) (k : A -> MC B) : steady m -> (forall a, steady (k a)) -> steady (bind m k).
Proof.
  intros Hm Hk w r w' E. unfold bind in E. destruct (m w) as [[a|x] w1] eqn:E1; apply Hm in E1 as [C1 U1]; [|by simplify_eq].
  apply Hk in E as [C2 U2]. split; [by etrans|lia].
Qed.

Lemma steady_ret {A} (a : A) : steady (ret a).
Proof. by intros w r w' [= _ <-]. Qed.

Lemma steady_fail {A} e : steady (@fail ChatDB A e).
Proof. by intros w r w' [= _ <-]. Qed.

Lemma steady_try {A} (m : MC A) : steady m -> steady (try m).
Proof. intros Hm w r w' E. unfold try in E. destruct (m w) as [x w1] eqn:E1. injection E as _ <-. by eapply Hm. Qed.

Lemma steady_stmt {A} locks (f : ChatDB -> res err A * ChatDB) : moves calm (stmt locks f) -> steady (stmt locks f).
Proof. intros Hm w r w' E. split; [by eapply Hm|]. by rewrite (stmt_uuid _ _ _ _ _ E). Qed.

Lemma steady_quick {A} (m : MC A) : moves calm m -> (forall w, w_uuid (m w).2 = w_uuid w) -> steady m.
Proof. intros Hm Hu w r w' E. split; [by eapply Hm|]. specialize (Hu w). rewrite E in Hu. by rewrite <- Hu. Qed.

Ltac steady :=
  repeat lazymatch goal with
  | |- steady (bind _ _) => apply steady_bind; [|intros ?]
  | |- steady (ret _) => apply steady_ret
  | |- steady (fail _) => apply steady_fail
  | |- steady (try _) => apply steady_try
  | |- steady (query _) => apply steady_stmt, calm_stmt; intros ?; reflexivity
  | |- steady (match ?x with _ => _ end) => destruct x
  end.

Lemma ClearContactChatbotTracking_steady id : steady (ClearContactChatbotTracking id).
Proof. unfold ClearContactChatbotTracking, best_effort. steady. apply steady_stmt, calm_stmt. intros d. by apply calm_tables. Qed.

Lemma hasActiveAgentTransfer_steady orgID contactID : steady (hasActiveAgentTransfer orgID contactID).
Proof. unfold hasActiveAgentTransfer. steady. Qed.

Lemma getChatbotSettingsCached_steady orgID account : steady (getChatbotSettingsCached orgID account).
Proof.
  unfold getChatbotSettingsCached. steady; apply steady_quick; try done; [solve_calm|..].
  - apply moves_store_cache. intros d. by apply elsewhere_calm.
  - intros w. unfold store_cache. by destruct (cb_redis _).
Qed.

Lemma outside_hours_steady orgID s : steady (outside_hours orgID s).
Proof.
  unfold outside_hours, isWithinBusinessHours. steady; apply steady_quick; try done; solve_calm.
Qed.

Lemma take_turn_sound account contact metadata settings phone text buttonID answers w r w' :
  sound (w_db w) -> fresh_sessions w -> take_turn account contact metadata settings phone text buttonID answers w = (r, w') -> sound (w_db w').
Proof.
  intros Hs Hf E. unfold take_turn, bind at 1 in E.
  destruct (getOrCreateSession _ _ _ _ _ w) as [[[s isNew]|x] w1] eqn:E1; pose proof (getOrCreateSession_open _ _ _ _ _ _ _ _ Hs Hf E1) as Ho.
  - by eapply (in_session_sound account contact metadata settings s isNew text buttonID answers w1).
  - by simplify_eq.
Qed.

(** A steady start of a message. *)
Lemma after_steady {A B} (m : MC A) (k : A -> MC B) w r w' : steady m -> sound (w_db w) -> fresh_sessions w ->
  (forall a w1, sound (w_db w1) -> fresh_sessions w1 -> k a w1 = (r, w') -> sound (w_db w')) ->
  bind m k w = (r, w') -> sound (w_db w').
Proof.
  intros Hm Hs Hf Hk E. unfold bind in E. destruct (m w) as [[a|x] w1] eqn:E1; apply Hm in E1 as [Hc Hu].
  - eapply Hk; [|by eapply steady_fresh|exact E]. by eapply others_sound; [apply calm_others|].
  - injection E as _ <-. by eapply others_sound; [apply calm_others|].
Qed.

Lemma processIncomingMessage_sound account contact metadata phone text buttonID answers w r w' :
  sound (w_db w) -> fresh_sessions w -> processIncomingMessage account contact metadata phone text buttonID answers w = (r, w') -> sound (w_db w').
Proof.
  assert (forall (m : MC unit) w r w', moves calm m -> sound (w_db w) -> m w = (r, w') -> sound (w_db w')) as Hcalm
    by (intros m w1 r1 w2 Hm Hs E; by eapply (calm_sound m Hm)).
  intros Hs Hf E. unfold processIncomingMessage in E. revert Hs Hf E.
  intros Hs Hf. apply after_steady; [apply ClearContactChatbotTracking_steady|done|done|]. clear Hs Hf. intros _ w1 Hs Hf.
  apply after_steady; [apply hasActiveAgentTransfer_steady|done|done|]. clear Hs Hf w1. intros active w1 Hs Hf.
  destruct active; [by intros [= _ <-]|]. revert Hs Hf.
  intros Hs Hf. apply after_steady; [apply steady_try, getChatbotSettingsCached_steady|done|done|]. clear Hs Hf w1. intros [settings|x] w1 Hs Hf; [|by intros [= _ <-]].
  destruct (negb _); [by apply Hcalm; [apply createTransferToQueue_calm|]|].
  apply after_steady; [apply outside_hours_steady|done|done|]. clear Hs Hf w1. intros closed w1 Hs Hf.
  destruct (_ && _); [by apply Hcalm; [apply say_out_of_hours_calm|]|]. destruct (is_empty text); [by intros [= _ <-]|]. by apply take_turn_sound.
Qed.

(** ** Histories *)

Inductive chat_call :=
| Incoming (account : WhatsAppAccount) (contact : Contact) (metadata : Config) (phone text buttonID : string) (answers : Config)
| Sweep (account_known : uuid -> string -> bool).

Definition run_chat_call (c : chat_call) : MC unit :=
  match c with
  | Incoming account contact metadata phone text buttonID answers =>
      processIncomingMessage account contact metadata phone text buttonID answers
  | Sweep known => TimeoutStaleChatSessions known
  end.

(** Messages and sweeps one after the other, each with whatever clock, faults
    and outside, and in between whatever [others] do. *)
Inductive later (d : ChatDB) : ChatDB -> Prop :=
| later_now : later d d
| later_call w c : later d (w_db w) -> fresh_sessions w -> later d (w_db (run_chat_call c w).2)
| later_others d1 d2 : later d d1 -> others d1 d2 -> later d d2.

Lemma later_sound d d' : later d d' -> sound d -> sound d'.
Proof.
  induction 1 as [|w c _ IH Hf|d1 d2 _ IH Ho]; intros Hs; [done| |by eapply others_sound; [|apply IH]].
  specialize (IH Hs). destruct (run_chat_call c w) as [r w'] eqn:E. destruct c; cbn [run_chat_call] in E.
  - by eapply processIncomingMessage_sound.
  - by eapply (calm_sound _ (TimeoutStaleChatSessions_calm account_known)).
Qed.

Lemma no_session_sound d : db_sessions (tables_of d) = ∅ -> db_outbox (tables_of d) = ∅ -> sound d.
Proof.
  intros Hs Ho. split.
  - intros k s. by rewrite Hs, lookup_empty.
  - intros k id (row & E & _). by rewrite Ho, lookup_empty in E.
  - intros k k' id (row & E & _). by rewrite Ho, lookup_empty in E.
Qed.
End Once.
