(* ===== verification/ChatProps.v ===== *)
(** * What the chatbot promises

    A message takes its customer along the edges of a flow and leaves the
    session where the walk ends; only a flow that goes round without asking
    runs away; a flow is announced as completed once.  Then flows on concrete
    rows. *)
From S2P Require Import Prelude GoLib Store Events Wire Models Statements Text Triggers Fields FieldService People Schedule Placeholders Templating CRMContext Assignment Transfers ChatModels Handoff FlowGraph ChatNodes ChatRunner ChatProcessor ChatSteps ChatLemmas ChatWalk ChatOnce Samples FieldsRuns.

Section Promises.
Context `{SL : SqlLaws} `{GJ : GoJson} `{UTL : !UuidTextLaws} `{FS : FieldsServer} `{CE : !ContextEnv} `{CH : !ChatEnv}.

(** C38: A run of a flow refines a walk through its graph, whatever fails in the
    database or outside: every node passed follows the edge for an outcome its
    type can have, jumps reach only flows of the organization, at most a
    hundred nodes are passed and at most one takes the customer's answer.  The
    session stays the customer's own.  A run without an error has written it
    back as it returns it, stamped as completed where the way ended or a person
    took over, and otherwise active at a question of the flow it names - where
    the next message finds it.  A broken or missing node is an error, and so is
    running out of turns.  (A run that panics returns nothing and is outside.) *)
Theorem runs_follow_the_flow account contact metadata s flow text buttonID answers g w s' e w' :
  parseChatGraph (fl_Graph flow) = Ok (Some g) -> in_flow flow (ss_CurrentStep s) s ->
  runChatGraph account contact metadata s flow text buttonID answers w = (Ok (s', e), w') ->
  exists trail flow' g' step' en,
    walk (served (wa_OrganizationID account) (w_db w)) (message_to s text buttonID answers) flow g (entry_step g s) true trail flow' g' step' en /\
    (length trail <= maxChatGraphIterations)%nat /\ (length (List.filter answered trail) <= 1)%nat /\
    same_person s s' /\ comes_to flow' step' en s' e /\ (e = None -> saved (w_db w') s') /\
    (en = Tired -> length trail = maxChatGraphIterations) /\
    (en = Waiting -> parseChatGraph (fl_Graph flow') = Ok (Some g') /\ exists node, node_at g' step' = Some node /\ nd_Type node ∈ questions).
Proof.
  intros Hg Hf E. pose proof (runChatGraph_walks _ _ _ _ _ _ _ _ _ _ _ _ _ Hg Hf E)
    as (trail & flow' & g' & step' & en & Hw & Hl & Ht & Hs & Hc & Hsv & _).
  exists trail, flow', g', step', en. split_and!; try done; [by apply walk_answers in Hw|]. intros ->. by apply walk_parks in Hw.
Qed.

(** C39: Where the flows can be ranked so that every edge and every jump leads
    down, but for the edges out of a question - no higher than 48 - a run never
    ends for having passed too many nodes: only a way that goes round without
    asking, or is longer than that, does.  A question is a node that cannot be
    passed without an answer: one with a [skip_condition], and a form without a
    [flow_id], are none. *)
Theorem only_endless_flows_run_away rank account contact metadata s flow text buttonID answers g w s' e w' :
  parseChatGraph (fl_Graph flow) = Ok (Some g) -> in_flow flow (ss_CurrentStep s) s ->
  (forall id step, (rank id step <= 48)%nat) ->
  leads_down (served (wa_OrganizationID account) (w_db w)) rank flow g ->
  (forall target gt, served (wa_OrganizationID account) (w_db w) target -> parseChatGraph (fl_Graph target) = Ok (Some gt) ->
     leads_down (served (wa_OrganizationID account) (w_db w)) rank target gt) ->
  runChatGraph account contact metadata s flow text buttonID answers w = (Ok (s', e), w') -> e <> Some errChatGraphRunaway.
Proof.
  intros Hg Hf HB Hdown Hall E. pose proof (runChatGraph_walks _ _ _ _ _ _ _ _ _ _ _ _ _ Hg Hf E)
    as (trail & flow' & g' & step' & en & Hw & Hl & Ht & _ & _ & _ & He).
  apply He. intros ->. pose proof (walk_short _ rank 48 _ _ _ _ _ _ _ _ _ _ HB Hall Hw Hdown) as Hshort. rewrite Ht in Hshort by done.
  specialize (HB (fl_ID flow) (entry_step g s)). unfold maxChatGraphIterations in Hshort. lia.
Qed.

(** C40: Through any history of messages and sweeps, one after the other, with
    whatever faults, and of anything else that ends sessions in between, no
    session is announced as completed twice, and one that is announced is over. *)
Theorem completion_announced_once d d' k k' id :
  db_sessions (tables_of d) = ∅ -> db_outbox (tables_of d) = ∅ -> later d d' -> announced_at d' k id ->
  (exists s, db_sessions (tables_of d') !! id = Some s /\ ss_Status s <> SessionStatusActive) /\ (announced_at d' k' id -> k' = k).
Proof.
  intros Hs Ho Hl Ha. assert (sound d') as Hd by (by eapply later_sound; [|apply no_session_sound]).
  split; [by eapply sound_named|]. intros Ha'. by eapply sound_once.
Qed.
End Promises.

(** * Flows on concrete rows

    A customer, a few small flows, and a client that delivers everything. *)
#[local] Open Scope string_scope.
#[local] Open Scope list_scope.
#[local] Open Scope Z_scope.

#[local] Existing Instances sql_ref uuid_ref json_ref plain_fmt plain_fields plain_server.
#[local] Instance sample_times : ContextEnv := {|
  RFC3339 := Itoa; FormatMinute := fun _ => Itoa; named := fun v => ABool true; no_double := fun _ => ANil |}.

(** What was sent, oldest first. *)
#[local] Instance sample_outside : ChatEnv := {|
  Outside := list Outgoing;
  OrgLocation _ _ := UTC;
  SendOutgoing _ m o := (true, o ++ [m]);
  HTTPDo _ o := (None, o);
  ValidateURL _ _ := true;
  regexp_match _ s := Some (negb (String.eqb s "nonsense"));
  expr_run e vars := Some (get vars e);
  generateAI _ _ _ o := (None, o);
  action_known _ := true;
  run_action _ _ _ o := (true, o);
  contact_matches _ _ _ _ := Some true;
  map_order m _ := m;
  render_fuel := 10
|}.

Definition flow_node (id type : string) (config : Config) : any :=
  AMap [("id", AString id); ("type", AString type); ("config", AMap config)].
Definition flow_edge (from to condition : string) : any :=
  AMap [("from", AString from); ("to", AString to); ("condition", AString condition)].
Definition flow_graph (entry : string) (nodes edges : list any) : list (string * any) :=
  [("version", AInt 2); ("entry_node", AString entry); ("nodes", AList nodes); ("edges", AList edges)].

Definition sample_flow (id : uuid) (account : string) (graph : list (string * any)) : ChatbotFlow :=
  MkFlow id None 1%N account "Welcome" true ["start"] "" "" [] "Bye" ["stop"] [] (Some graph).

Definition sample_settings : ChatbotSettings :=
  MkSettings 70 None 1%N "" true "Hello" [] "Sorry?" [] false [] "" true true false 0 0 0 0 "" "" [] false 0 "" 0 "" false "" "" 30 [].

Definition sample_account : WhatsAppAccount := MkAccount 1 "main".
Definition ada : Contact := sample_contact 10 None.

Definition chat_db (flows : list ChatbotFlow) (settings : ChatbotSettings) : ChatDB :=
  MkChatDB (MkContextDB (set_db_contacts (rows_of ct_ID [ada]) empty_tables) ∅ (MkFieldsDB ∅ ∅ ∅ ∅ ∅) ∅ ∅ ∅) ∅ ∅
    (rows_of fl_ID flows) ∅ (rows_of st_ID [settings]) ∅ ∅ ∅ true ∅ ∅ ∅ ∅ [].

Definition chat_world (flows : list ChatbotFlow) (settings : ChatbotSettings) : world ChatDB :=
  World (chat_db flows settings) (100 * Hour) 1000 [] false false [].

(** Ada writes a text; or presses a button. *)
Definition writes (text : string) (w : world ChatDB) : world ChatDB :=
  (processIncomingMessage sample_account ada [] "15550001" text "" [] w).2.
Definition presses (id title : string) (w : world ChatDB) : world ChatDB :=
  (processIncomingMessage sample_account ada [] "15550001" title id [] w).2.

Definition hears (w : world ChatDB) : list Outgoing := cb_out (w_db w).
Definition sessions (w : world ChatDB) : list ChatbotSession := map snd (map_to_list (db_sessions (tables_of (w_db w)))).
Definition stands (w : world ChatDB) : list (string * SessionStatus) := map (fun s => (ss_CurrentStep s, ss_Status s)) (sessions w).

(** ** Two questions in a row *)

Definition two_questions : list (string * any) := flow_graph "name"
  [flow_node "name" ChatNodePrompt [("body", AString "Your name?"); ("store_as", AString "name")];
   flow_node "email" ChatNodePrompt [("body", AString "Your email?"); ("store_as", AString "email")];
   flow_node "end" ChatNodeEnd [("message", AString "Thanks")]]
  [flow_edge "name" "email" "default"; flow_edge "email" "end" "default"].

Definition two_questions_world : world ChatDB := chat_world [sample_flow 80 "main" two_questions] sample_settings.

(** The second question is never asked: the run that takes the answer to the
    first stops at it without a word, and whatever the customer writes next is
    stored as the answer. *)
Example second_question_is_not_asked :
  let w1 := writes "start" two_questions_world in
  let w2 := writes "Ada" w1 in
  let w3 := writes "hello?" w2 in
  hears w1 = [OutText "Your name?"] /\
  hears w2 = [OutText "Your name?"] /\ stands w2 = [("email", SessionStatusActive)] /\
  hears w3 = [OutText "Your name?"; OutText "Thanks"] /\
  map (fun s => get (ss_SessionData s) "email") (sessions w3) = [AString "hello?"].
Proof. vm_compute. done. Qed.

(** ** Other flows that do not do what was meant *)

(** [goto_flow] to the flow one is in is not noticed as a jump: the flow ends. *)
Definition start_over : list (string * any) := flow_graph "hi"
  [flow_node "hi" ChatNodeMessage [("message", AString "Welcome")];
   flow_node "ask" ChatNodePrompt [("body", AString "Again?")];
   flow_node "again" ChatNodeGotoFlow [("flow_id", AString (uuid_String 80))]]
  [flow_edge "hi" "ask" "default"; flow_edge "ask" "again" "default"].

Example start_over_ends_the_flow :
  let w := writes "yes" (writes "start" (chat_world [sample_flow 80 "main" start_over] sample_settings)) in
  hears w = [OutText "Welcome"; OutText "Again?"] /\ map snd (stands w) = [SessionStatusCompleted].
Proof. vm_compute. done. Qed.

(** A flow of another WhatsApp account is started all the same, although
    [goto_flow] refuses to go to it. *)
Example flow_of_another_account_starts :
  hears (writes "start" (chat_world [sample_flow 80 "sales" two_questions] sample_settings)) = [OutText "Your name?"].
Proof. vm_compute. done. Qed.

(** No timeout: the sweep leaves every session alone, but each message opens a
    new one, so no question is ever answered. *)
Definition no_timeout : ChatbotSettings :=
  MkSettings 70 None 1%N "" true "Hello" [] "Sorry?" [] false [] "" true true false 0 0 0 0 "" "" [] false 0 "" 0 "" false "" "" 0 [].

Example without_timeout_nothing_is_answered :
  let w := writes "Ada" (writes "start" (chat_world [sample_flow 80 "main" two_questions] no_timeout)) in
  hears w = [OutText "Your name?"; OutText "Hello"] /\ length (sessions w) = 2%nat.
Proof. vm_compute. done. Qed.

(** A number on the list of those the bot must leave alone is answered. *)
Definition excluding_ada : ChatbotSettings :=
  MkSettings 70 None 1%N "" true "Hello" [] "Sorry?" [] false [] "" true true false 0 0 0 0 "" "" [] false 0 "" 0 "" false "" "" 30 [AString "+1 555-0001"].

Example excluded_number_is_answered :
  let w := chat_world [] excluding_ada in
  (willChatbotHandle sample_account ada w).1 = Ok false /\ hears (writes "hi" w) = [OutText "Hello"].
Proof. vm_compute. done. Qed.

(** Buttons that are links bring no answer: whatever the customer writes, the
    links are sent again. *)
Definition only_links : list (string * any) := flow_graph "shop"
  [flow_node "shop" ChatNodeButtons [("body", AString "Our shop"); ("buttons", AList [AMap [("id", AString "b"); ("title", AString "Open");
     ("type", AString "url"); ("url", AString "https://shop")]])];
   flow_node "end" ChatNodeEnd []]
  [flow_edge "shop" "end" "default"].

Example links_are_sent_again :
  let w := writes "thanks" (writes "start" (chat_world [sample_flow 80 "main" only_links] sample_settings)) in
  hears w = [OutCTA "Our shop" "Open" "https://shop"; OutCTA "Our shop" "Open" "https://shop"] /\ stands w = [("shop", SessionStatusActive)].
Proof. vm_compute. done. Qed.

(** A session that the sweep ended while a message was being worked on is
    written back as active. *)
Example a_late_write_revives_a_session :
  let w := writes "start" two_questions_world in
  match sessions w with
  | [s] =>
      let swept := (timeoutChatSession (fun _ _ => true) s w).2 in
      stands swept = [("", SessionStatusTimeout)] /\ stands (persistChatSession s swept).2 = [("name", SessionStatusActive)]
  | _ => False
  end.
Proof. vm_compute. done. Qed.

(** A query that fails while the rules are read leaves the cache without them. *)
Definition price_rule : KeywordRule := MkKeywordRule 90 None 1 "" true 10 ["price"] "contains" false "text" [("body", AString "It is free")] [].

Example a_failed_query_hides_the_rules :
  let with_rule faults := World (MkChatDB (cb_context (chat_db [] sample_settings)) ∅ ∅ ∅ (rows_of kr_ID [price_rule]) ∅ ∅ ∅ ∅ true ∅ ∅ ∅ ∅ [])
                            0 1000 faults false false [] in
  let once := getKeywordRulesCached 1 "main" (with_rule [false; true]) in
  let again := getKeywordRulesCached 1 "main" once.2 in
  (getKeywordRulesCached 1 "main" (with_rule [])).1 = Ok [price_rule] /\ w_faults once.2 = [] /\ again.1 = Ok [].
Proof. vm_compute. done. Qed.

(** ** What the promises say of them *)

Definition graph_of (flow : ChatbotFlow) : Graph :=
  match parseChatGraph (fl_Graph flow) with Ok (Some g) => g | _ => MkGraph 2 [] [] "" ∅ ∅ end.

Definition asked (step : string) : ChatbotSession :=
  MkChatbotSession 500 None 1 10 "main" "15550001" SessionStatusActive (Some 80%N) step 0 [] 0 (100 * Hour) None.

Definition two_questions_flow : ChatbotFlow := sample_flow 80 "main" two_questions.

(** Ada gives her name. *)
Definition ada_answers : res err (ChatbotSession * option err) * world ChatDB :=
  runChatGraph sample_account ada [] (asked "name") two_questions_flow "Ada" "" [] two_questions_world.

Lemma runs_follow_the_flow_witness :
  match ada_answers with
  | (Ok (s', None), w') => exists trail flow' g' step' en,
      walk (served 1 (w_db two_questions_world)) (message_to (asked "name") "Ada" "" []) two_questions_flow
        (graph_of two_questions_flow) "name" true trail flow' g' step' en /\
      comes_to flow' step' en s' None /\ saved (w_db w') s'
  | _ => False
  end.
Proof.
  assert (match ada_answers with (Ok (_, None), _) => True | _ => False end) as Hok by (vm_compute; exact I).
  destruct ada_answers as [[[s' [e|]]|e] w'] eqn:E; try done. clear Hok.
  assert (parseChatGraph (fl_Graph two_questions_flow) = Ok (Some (graph_of two_questions_flow))) as Hg by (vm_compute; reflexivity).
  assert (in_flow two_questions_flow "name" (asked "name")) as Hf by (by split_and!).
  unfold ada_answers in E.
  destruct (runs_follow_the_flow sample_account ada [] (asked "name") two_questions_flow "Ada" "" [] (graph_of two_questions_flow)
    two_questions_world s' None w' Hg Hf E) as (trail & flow' & g' & step' & en & Hw & _ & _ & _ & Hc & Hs & _).
  exists trail, flow', g', step', en. split_and!; [exact Hw|exact Hc|by apply Hs].
Defined.

(** A flow that asks again and again. *)
Definition asks_again : list (string * any) := flow_graph "hi"
  [flow_node "hi" ChatNodeMessage [("message", AString "Welcome")];
   flow_node "ask" ChatNodePrompt [("body", AString "Again?")]]
  [flow_edge "hi" "ask" "default"; flow_edge "ask" "hi" "default"].

Definition again_flow : ChatbotFlow := sample_flow 80 "main" asks_again.
Definition again_world : world ChatDB := chat_world [again_flow] sample_settings.
Definition again_rank (_ : uuid) (step : string) : nat := if String.eqb step "hi" then 1 else 0.

Lemma again_served f : served 1 (w_db again_world) f -> f = again_flow.
Proof.
  intros [(k & Hk & _)|(l & Hl & _)]; [|by vm_compute in Hl].
  unfold again_world, chat_world, chat_db, rows_of in Hk. cbn in Hk. by apply lookup_insert_Some in Hk as [[_ <-]|[_ ?%lookup_empty_Some]].
Qed.

Lemma again_parses : parseChatGraph (fl_Graph again_flow) = Ok (Some (graph_of again_flow)).
Proof. vm_compute. reflexivity. Qed.

Lemma again_leads_down : leads_down (served 1 (w_db again_world)) again_rank again_flow (graph_of again_flow).
Proof.
  intros step node Hn Ha. destruct (parsed_indexed _ _ again_parses) as [Hi _].
  destruct (node_at_listed _ _ _ Hi Hn) as [<- Hin]. split.
  - intros e He. rewrite (edges_from _ _ Hi) in He. apply list_elem_of_In, filter_In in He as [He Hfrom%String.eqb_eq].
    apply list_elem_of_In in Hin. vm_compute in He. vm_compute in Hin.
    destruct Hin as [<-|[<-|[]]]; [|by vm_compute in Ha]. destruct He as [<-|[<-|[]]]; [vm_compute; lia|by vm_compute in Hfrom].
  - intros Ht. apply list_elem_of_In in Hin. vm_compute in Hin. by destruct Hin as [<-|[<-|[]]].
Qed.

Lemma only_endless_flows_run_away_witness :
  match runChatGraph sample_account ada [] (asked "ask") again_flow "yes" "" [] again_world with
  | (Ok (s', e), w') => e <> Some errChatGraphRunaway
  | _ => False
  end.
Proof.
  assert (match runChatGraph sample_account ada [] (asked "ask") again_flow "yes" "" [] again_world with (Ok _, _) => True | _ => False end)
    as Hok by (vm_compute; exact I).
  destruct (runChatGraph _ _ _ _ _ _ _ _ _) as [[[s' e]|e] w'] eqn:E; [|done].
  apply (only_endless_flows_run_away again_rank sample_account ada [] (asked "ask") again_flow "yes" "" [] (graph_of again_flow) again_world s' e w');
    [exact again_parses| | |exact again_leads_down| |exact E].
  - by split_and!.
  - intros id step. unfold again_rank. destruct (String.eqb _ _); lia.
  - intros target gt ->%again_served Hp. rewrite again_parses in Hp. injection Hp as <-. exact again_leads_down.
Defined.

(** A flow that goes round without asking: a hundred messages, and as many
    again for the next word of the customer. *)
Definition never_asks : list (string * any) := flow_graph "tick"
  [flow_node "tick" ChatNodeMessage [("message", AString "x")]; flow_node "tock" ChatNodeMessage [("message", AString "y")]]
  [flow_edge "tick" "tock" "default"; flow_edge "tock" "tick" "default"].

Example endless_flow_sends_a_hundred :
  let w := writes "start" (chat_world [sample_flow 80 "main" never_asks] sample_settings) in
  length (hears w) = 100%nat /\ stands w = [("tick", SessionStatusActive)] /\ length (hears (writes "stop it" w)) = 200%nat.
Proof. vm_compute. done. Qed.

(** ** Completion *)

Definition one_question : list (string * any) := flow_graph "name"
  [flow_node "name" ChatNodePrompt [("body", AString "Your name?"); ("store_as", AString "name")]; flow_node "end" ChatNodeEnd []]
  [flow_edge "name" "end" "default"].

Definition one_question_world : world ChatDB := chat_world [sample_flow 80 "main" one_question] sample_settings.

Definition completions (w : world ChatDB) : list any :=
  map (fun kr => get (ob_Data kr.2) "session_id")
    (List.filter (fun kr => String.eqb (ob_Type kr.2) "chatbot.flow_completed") (map_to_list (db_outbox (tables_of (w_db w))))).

(** Two messages at once: both find the session waiting, both end it, and it is
    announced twice. *)
Example two_messages_complete_twice :
  let w := writes "start" one_question_world in
  match sessions w with
  | [s] =>
      let answers text w := (runChatGraph sample_account ada [] s (sample_flow 80 "main" one_question) text "" [] w).2 in
      completions (answers "Ada" w) = [AString (uuid_String (ss_ID s))] /\
      completions (answers "Lovelace" (answers "Ada" w)) = [AString (uuid_String (ss_ID s)); AString (uuid_String (ss_ID s))]
  | _ => False
  end.
Proof. vm_compute. done. Qed.

Definition farewell : list (string * any) := flow_graph "end" [flow_node "end" ChatNodeEnd [("message", AString "Bye")]] [].
Definition farewell_world : world ChatDB := chat_world [sample_flow 80 "main" farewell] sample_settings.
Definition start_call : chat_call := Incoming sample_account ada [] "15550001" "start" "" [].

(** The first id is the session's, the fourth the event's. *)
Lemma completion_announced_once_witness :
  let d := w_db (run_chat_call start_call farewell_world).2 in
  announced_at d 1003 1000 /\
  (exists s, db_sessions (tables_of d) !! 1000%N = Some s /\ ss_Status s <> SessionStatusActive) /\
  (announced_at d 1003 1000 -> 1003%N = 1003%N).
Proof.
  cbv zeta. assert (announced_at (w_db (run_chat_call start_call farewell_world).2) 1003 1000) as Ha
    by (eexists; split; [vm_compute; reflexivity|by split]).
  split; [exact Ha|].
  apply (completion_announced_once (w_db farewell_world) _ 1003 1003 1000); [done|done| |exact Ha].
  apply (later_call _ farewell_world start_call); [apply later_now|]. intros n _. apply lookup_empty.
Defined.
